(* ===== verification/_CoqProject ===== *)
-Q . S2P
Prelude.v
Machine.v
Effects.v
Timers.v
Tick.v
Serial.v
Packet.v
ParamTable.v
Process.v
Flash.v
Device.v
Ds1302.v
Preserve.v
Radio.v
Request.v
Wait.v
Handlers.v
Pages.v
Channels.v
Session.v
Wiegand.v
Track.v
Saved.v
Output.v
Report.v
Main.v
Gpio.v
Nvic.v
Heap.v
HeapSpec.v
HeapOps.v
HeapSafe.v
Pbuf.v
PbufSpec.v
Chksum.v
Ethernet.v
EthSpec.v
EthRun.v
EthSend.v
EthSim.v
Stack.v
Etharp.v
EtharpSpec.v
EtharpInv.v
EtharpLife.v
EtharpPkt.v
EtharpSim.v
Ip.v
Icmp.v
Udp.v
IpInput.v
IpPkt.v
IpSend.v
IpRecv.v
UdpSend.v
UdpSpec.v
UdpBind.v
UdpBlocks.v
UdpRecv.v
Echo.v
NetStart.v
NetStartSpec.v
IpSim.v
Invariant.v
Sim.v
Fpec.v
I2c.v
Eeprom.v
EepromBus.v
EepromSpec.v
EepromSim.v
FpecSim.v
Witnesses.v
