(* ===== verification/Prelude.v ===== *)
(** * Verification of the UHF RFID reader firmware

    The program of [src/usr] and [src/inc] runs on an STM32F107 between an
    R2000 radio module (UART4) and its hosts: a PC on RS-232 (USART2), a bus of
    readers on RS-485 (USART1), UDP over lwIP.  It obeys commands, keeps its
    parameters in the internal flash and the time in a DS1302, and in its active
    mode reads tags by itself and reports them on one of the hosts or on a
    Wiegand port, with a pulse on a relay.  Below it are the parts of lwIP 1.3.1
    and of ST's libraries that carry state of their own: the heap and the packet
    buffers, the descriptor rings of the Ethernet MAC, the ARP table, IP, ICMP and
    UDP with its control blocks, the flash controller, the I2C bus, the pins and
    the interrupt controller.

    ** How the program is modelled

    - Machine.v: the globals.  A scalar is a constructor of [gv], an array or
      packed structure that the code addresses by bytes is a block of [blk]
      with the size of its C object; aliasing is that of the code, since a
      pointer ([ptr]) is a block and an offset.  [Board] is the outside world:
      the flash cells and the lock bit, the clock chip, two input pins.
    - Effects.v: a function of the firmware has type [M A].  It returns [Ret],
      or accesses memory outside an object ([Oob]), or is still in a busy-wait
      when the schedule of external events ends ([Starved]), or leaves the
      processor to the watchdog ([Reset]).  Interrupts act in the busy-wait
      loops ([busy_wait]: a UART4 byte, a SysTick, one evaluation of the loop
      condition) and between two turns of the main loop ([step] of Main.v).
      Outputs are the list [out].
    - lwIP and the drivers are state-passing functions over records of their
      own: [heap] (the bytes of [ram_heap]), [net] (heap, pools and buffers,
      Pbuf.v), [eth] (the rings and their buffers, Ethernet.v), [stack] (the ARP
      table and the interface, Stack.v), [host] (the UDP control blocks and the
      identification of IP, Ip.v), each of which contains the one before.
      [None] is an access outside an object or fuel that has run out; a theorem
      that says what a function does proves that it is not [None].
    - Integers are in [Z]; the wrap-around of the C type is written where the
      code can overflow it ([u8], [u16], [u32], [s32] below).

    ** Files and sources

    - Timers.v, Tick.v: software timers and relay functions of common.c,
      [Time_Update] and [relay_isr_polling] of main.c, [LwIP_Periodic_Handle]
      of netconf.c.
    - Serial.v: the receive interrupts of Local_232_module.c,
      Local_485_module.c and R2000.c.
    - Packet.v, ParamTable.v, Process.v: ParamItem.c ([packet], the parameter
      table, [processParamTable]) with [SetChecksum] of common.c and the
      registrations of main.c.
    - Flash.v: stm32flash.c.  Device.v: defaults, storage and the parameter
      handlers of main.c and common.c.  Ds1302.v: RTC_DS1302.c.
    - Radio.v: what R2000.c makes of the module's frames.  Request.v: the
      requests of R2000.c, common.c and main.c.  Handlers.v: the tag commands of
      common.c; [handler] is the dispatch through the table's pointers.
    - Channels.v: the polling and sending parts of Local_232_module.c,
      Local_485_module.c and UDP_module.c.  Wiegand.v: WG.c.
    - Track.v: RFIDModule.c, [judgeTag] and [workACT] of main.c.  Output.v:
      [sendDataOut] of main.c.  Main.v: start-up, [main_loop], the interrupts.
    - Preserve.v, Wait.v, Pages.v, Session.v, Saved.v, Report.v, Invariant.v
      hold specifications and proofs over these; Sim.v a concrete board;
      Witnesses.v the theorems at concrete inputs.
    - Fpec.v: the functions of stm32f10x_flash.c that stm32flash.c calls, over
      the controller's registers; they implement the flash of Flash.v.
      FpecSim.v: a controller.
    - I2c.v: the functions of stm32f10x_i2c.c that IIC.c calls.  Eeprom.v:
      IIC.c.  EepromBus.v, EepromSpec.v: the bus with the memory chip on it and
      what reads and writes do to its cells; EepromSim.v: a chip.
    - Gpio.v: stm32f10x_gpio.c and [GPIO_Configuration] of stm32f107.c.  Nvic.v:
      misc.c, [NVIC_Configuration] and the priorities of stm32f107.c.
    - Heap.v: lwIP's core/mem.c.  HeapSpec.v, HeapOps.v, HeapSafe.v: the heap
      as a list of blocks, what each operation does to it, safety.
    - Pbuf.v: core/memp.c and core/pbuf.c.  PbufSpec.v: chains, free lists and
      the bytes of a packet ([view]).  Chksum.v: inet_chksum.c against RFC 1071.
    - Ethernet.v: port/ethernetif.c, the functions of stm32_eth.c it uses and
      [ETH_IRQHandler].  EthSpec.v: rings, frames and the DMA.  EthRun.v: the
      DMA and the driver in turns.  EthSend.v: transmission.  EthSim.v: a DMA.
    - Stack.v: addresses (ip_addr.c), the interface and the state of the network
      stack.  Etharp.v: netif/etharp.c.  EtharpSpec.v, EtharpInv.v, EtharpLife.v,
      EtharpPkt.v: the search of the table, its invariant, the age of its entries,
      the packets; EtharpSim.v: concrete stacks.
    - Ip.v: the sending side of ipv4/ip.c.  Icmp.v: ipv4/icmp.c.  Udp.v:
      core/udp.c and [UDP_sendData] of UDP_module.c.  IpInput.v:
      [ethernet_input] of etharp.c and [ip_input] of ip.c.  NetStart.v:
      core/netif.c, [ethernetif_init] of ethernetif.c, [LwIP_Init] of netconf.c
      and [UDP_init] of UDP_module.c.
    - IpPkt.v, IpSend.v, IpRecv.v: packets in one buffer, from the IP packet to
      the DMA and from the frame to the protocol.  Echo.v, UdpSend.v, UdpRecv.v:
      an echo request answered, a datagram sent, a datagram received.  UdpSpec.v,
      UdpBind.v, UdpBlocks.v: the control blocks as a list.  NetStartSpec.v: the
      state after the start.  IpSim.v: concrete hosts.

    A command goes through Serial.v (bytes to frame), Channels.v (poll),
    Process.v (checks, table, handler), Handlers.v, Request.v and Radio.v (the
    module is asked and its answer decoded) and back through Packet.v and
    Channels.v.  A tag goes through Radio.v (row of [CardIndex]), Track.v
    (row of [TagSaveBuf]) and Output.v.  A frame goes from the DMA's ring
    through Ethernet.v into a chain of buffers of Pbuf.v and on to
    [ethernet_input] of IpInput.v: to Etharp.v, which answers from the same buffer
    through Ethernet.v, or through [ip_input] to Icmp.v or Udp.v, and from there
    through Ip.v and Etharp.v back, or to the callback of a control block.

    ** What the theorems show

    - Memory: [decode_safe], [interrupts_safe]; the inputs for which the code
      does leave an object: [tag_table_overflow], [kept_tags_overflow],
      [tagfilter_overrun], [frame_254_lost]; and [reachable_bounds] and
      [reachable_typed], the sizes and ranges in the states of the runs that do
      not ([reachable] does not go on from an access outside an object).
    - The host protocol: [frame_delivered], [process_rejects],
      [process_active_mode], [set_get_roundtrip], [TagDataLenPurse_485],
      [registryParam_map], [unRegistryParam_map], [registryParams_startup];
      [bad_command_answered] and [set_survives_restart] run the chain from the
      bytes received to the bytes sent, and to the next start.
    - The module: [request_frame], [silent_module] (a module that never answers
      costs a bounded number of interrupts), [tag_stored], [MaskCheck_spec],
      [Mask6BCheck_spec], [tag_page], [tag_writes_honest],
      [ReadEPCAndData_no_data], [rssichk_spec].
    - Storage and clock: [flash_write_read], [flash_write_total],
      [flash_cross_sector_lost], [flash_driver_refines], [flash_error_sticks],
      [parameters_persist], [factory_reset], [defaultPara_forgets],
      [clock_roundtrip], [bcd_roundtrip], [eeprom_write], [eeprom_write_read],
      [eeprom_short_write], [eeprom_read_spins].
    - The active mode: [judgeTag_saves], [next_antenna_lowest],
      [line_485_frame], [wiegand26_frame], [wiegand34_frame], [relay_pulse],
      [timer_expiry].
    - The board: [gpio_configuration] (the mode of every pin),
      [preemption_order] (which interrupt interrupts which).
    - The heap and the buffers: [heap_malloc], [heap_realloc],
      [heap_free_restores] over lists of blocks, [heap_reentered] and
      [heap_wraps] (what goes wrong), [pbuf_alloc_pool], [pbuf_free_chain],
      [pbuf_take_copy], [udp_buffer], [chksum_pbuf_rfc1071], [chksum_accepted].
    - The Ethernet interface: [receive_fifo] (frames are handed on in order,
      none twice, none made up), [frame_received], [frame_sent],
      [long_frame_stops_reception]; [handler_drains] for any [netif->input] that
      frees its packet ([consumes]), which is not shown of [ethernet_input].
    - Address resolution: [arp_invariant], [arp_search] ([find_entry] against a
      specification of which entry is given up), [arp_lifetime], [arp_answered].
    - IP, ICMP and UDP: [network_started] (the state after the start, from which
      the others follow on), [echo_answered], [datagram_delivered],
      [datagram_sent], [udp_demux] ([udp_find] against a specification of which
      block gets a datagram), [udp_blocks], [bind_port].

    The hypotheses on hardware are classes: [FlashLaws] (Flash.v), [RtcLaws]
    (Ds1302.v), [FpecLaws] (Fpec.v), [EepromLaws] (EepromBus.v), [RxDmaLaws]
    (EthSpec.v), each with an instance in Sim.v, FpecSim.v, EepromSim.v or
    EthSim.v.

    ** Bounds and fuel

    [write_sectors] has 66 turns: every turn between the first and the last
    writes 1024 of at most 65,535 half-words ([flash_write_total]).
    [put_records] has 256: it counts in a byte.  [next_antenna] has 8: the bits
    of a byte ([next_antenna_lowest]).  [SelfCheck_loop] has 9: failures are
    numbered up to 8.  Busy-waits have no fuel but the schedule of events; the
    loops that wait for the flash and for the I2C bus end by the code's own
    counters or run as long as the fuel they are given ([eeprom_read_spins]).
    [heap_fuel] is 130: a block takes 20 bytes of 1024 at least, so a walk has at
    most 51 turns.  [pbuf_fuel] is 300: the pools have 20 buffers and the heap
    room for 51.  [ETH_IRQHandler] is shown to end with 5 turns: there are 4
    descriptors ([handler_drains]).  [arp_fuel] is 40: the queues share 30
    elements.  [udp_fuel] is 5: there are 4 control blocks; [free_port] has 25
    turns: at most 4 ports are taken, and the scan starts again after each.

    ** Limits

    - An interrupt acts where the firmware waits and between turns of the
      main loop, not between two instructions of a function; [heap_reentered]
      is the one theorem about an interruption within one.  The DMA acts between
      two calls of the driver.
    - A local array the code reads before it has written all of it
      ([tmpEpcdata], [cmdData], [channel]) is a block that keeps the content of
      the last call; [sendDataOut] reads [buf] with an index that has no value
      yet, [i0].  A [memcpy] whose areas overlap is taken to copy the old bytes.
    - Delays that only burn time ([Delay2us]) are the output [Pause]; the
      direction of the DS1302 data pin and pauses of 300 ns are left out.
    - To Channels.v, lwIP is [pbuf_alloc], the one answer of it that the
      commands depend on; datagrams arrive there as a step of Main.v.
    - The payload of a buffer in the heap is kept apart from the bytes of the
      heap's own structures: that a block is not shared is [heap_malloc].
    - There is one network interface; lwIP's statistics and debug output are
      compiled out and its assertions have no effect.

    ** Not modelled

    RTC_Time.c is not part of the build.  Of stm32f107.c, stm32f10x_it.c and
    main.c, the clock tree, the set-up of the timers, of the MAC and of the
    PHY, [Watchdog_init] and the fault handlers (endless loops) only write
    registers.
    Of IP, fragments ([ip_frag], [ip_reass]) are parameters, like [tcp_input] and
    the callback of a control block (the firmware's is [UDP_Receive], of
    Channels.v); raw.c has no control block in this build.  The argument of
    [udp_recv] is left out: it is NULL in the only call.
    The rest of lwIP (TCP, DHCP, SNMP, PPP, the socket layer, the HTTP server) is
    third-party code above or beside what the reader uses; [pbuf_coalesce] and the
    pools of those layers go with it.  The other drivers of the ST libraries write
    set-up registers. *)
From stdpp Require Export base tactics list numbers option.
From stdpp Require Import countable.

#[global] Open Scope Z_scope.

(** ** Fixed-width arithmetic

    The firmware is compiled for a 32-bit little-endian ARM core with an
    unsigned [char].  Values are kept in [Z]; the wrap-around of each width is
    written out with the functions below. *)

Definition u8 (z : Z) : Z := z `mod` 256.
Definition u16 (z : Z) : Z := z `mod` 65536.
Definition u32 (z : Z) : Z := z `mod` 4294967296.
(** A 32-bit two's complement [int]. *)
Definition s32 (z : Z) : Z :=
  let w := u32 z in if w <? 2147483648 then w else w - 4294967296.

Abbreviation is_u8 := (fun z : Z => 0 <= z < 256).
Abbreviation bytes := (list Z).
Definition bytes_ok (m : bytes) : Prop := Forall (fun z => 0 <= z < 256) m.

Lemma u8_range z : 0 <= u8 z < 256.
Proof. apply Z.mod_pos_bound. lia. Qed.
Lemma u16_range z : 0 <= u16 z < 65536.
Proof. apply Z.mod_pos_bound. lia. Qed.
Lemma u32_range z : 0 <= u32 z < 4294967296.
Proof. apply Z.mod_pos_bound. lia. Qed.
Lemma u8_small z : 0 <= z < 256 -> u8 z = z.
Proof. apply Z.mod_small. Qed.
Lemma u16_small z : 0 <= z < 65536 -> u16 z = z.
Proof. apply Z.mod_small. Qed.
Lemma u32_small z : 0 <= z < 4294967296 -> u32 z = z.
Proof. apply Z.mod_small. Qed.
Lemma u8_idemp z : u8 (u8 z) = u8 z.
Proof. apply u8_small, u8_range. Qed.
Lemma u8_add_l a b : u8 (u8 a + b) = u8 (a + b).
Proof. apply Zplus_mod_idemp_l. Qed.
Lemma u8_add_r a b : u8 (a + u8 b) = u8 (a + b).
Proof. apply Zplus_mod_idemp_r. Qed.
Lemma s32_small z : 0 <= z < 2147483648 -> s32 z = z.
Proof.
  intros H. unfold s32. rewrite u32_small by lia.
  destruct (Z.ltb_spec z 2147483648); lia.
Qed.

Create HintDb word discriminated.
#[export] Hint Resolve u8_range u16_range u32_range : word.
#[export] Hint Rewrite u8_idemp u8_add_l u8_add_r : word.

(** ** Byte blocks

    A C object is a list of bytes.  An access outside the object has no
    value: [None] stands for it everywhere. *)

Definition blen (m : bytes) : Z := Z.of_nat (length m).

Definition rd (m : bytes) (i : Z) : option Z :=
  if 0 <=? i then m !! Z.to_nat i else None.

Definition wr (m : bytes) (i v : Z) : option bytes :=
  if (0 <=? i) && (i <? blen m) then Some (<[Z.to_nat i := u8 v]> m) else None.

(** [rdn m off n]: the [n] bytes at [off]; [wrn m off bs]: [memcpy] of [bs] to [off]. *)
Definition rdn (m : bytes) (off n : Z) : option bytes :=
  if (0 <=? off) && (0 <=? n) && (off + n <=? blen m)
  then Some (take (Z.to_nat n) (drop (Z.to_nat off) m)) else None.

Definition wrn (m : bytes) (off : Z) (bs : bytes) : option bytes :=
  if (0 <=? off) && (off + blen bs <=? blen m)
  then Some (take (Z.to_nat off) m ++ bs ++ drop (Z.to_nat (off + blen bs)) m)
  else None.

(** Little-endian encodings of 2- and 4-byte integers. *)
Definition le16 (z : Z) : bytes := [u8 z; u8 (z / 256)].
Definition le32 (z : Z) : bytes :=
  [u8 z; u8 (z / 256); u8 (z / 65536); u8 (z / 16777216)].
Definition unle (bs : bytes) : Z := foldr (fun b acc => b + 256 * acc) 0 bs.

Lemma unle_le16 z : 0 <= z < 65536 -> unle (le16 z) = z.
Proof.
  intros H. unfold unle, le16, u8; simpl.
  rewrite (Z.mod_small (z / 256) 256)
    by (split; [apply Z.div_pos | apply Z.div_lt_upper_bound]; lia).
  pose proof (Z.div_mod z 256). lia.
Qed.

Lemma unle_le32 z : 0 <= z < 4294967296 -> unle (le32 z) = z.
Proof.
  intros H. unfold unle, le32, u8; simpl.
  rewrite (Z.mod_small (z / 16777216) 256)
    by (split; [apply Z.div_pos | apply Z.div_lt_upper_bound]; lia).
  replace (z / 65536) with (z / 256 / 256) by (rewrite Z.div_div; [reflexivity | lia..]).
  replace (z / 16777216) with (z / 256 / 256 / 256)
    by (rewrite !Z.div_div; [reflexivity | lia..]).
  pose proof (Z.div_mod z 256). pose proof (Z.div_mod (z / 256) 256).
  pose proof (Z.div_mod (z / 256 / 256) 256). lia.
Qed.

(** *** Lemmas on blocks *)

Lemma blen_nonneg m : 0 <= blen m.
Proof. unfold blen. lia. Qed.

Lemma blen_app a b : blen (a ++ b) = blen a + blen b.
Proof. unfold blen. rewrite length_app. lia. Qed.

Lemma blen_cons x a : blen (x :: a) = 1 + blen a.
Proof. unfold blen. simpl. lia. Qed.

Lemma blen_replicate n x : 0 <= n -> blen (replicate (Z.to_nat n) x) = n.
Proof. intros. unfold blen. rewrite length_replicate. lia. Qed.

Lemma rd_in m i : 0 <= i < blen m -> exists v, rd m i = Some v.
Proof.
  intros H. unfold rd. destruct (Z.leb_spec 0 i); [|lia].
  apply lookup_lt_is_Some_2. unfold blen in H. lia.
Qed.

Lemma rd_Some_range m i v : rd m i = Some v -> 0 <= i < blen m.
Proof.
  unfold rd. destruct (Z.leb_spec 0 i); [|discriminate].
  intros Hl%lookup_lt_Some. unfold blen. lia.
Qed.

Lemma rd_ok m i v : bytes_ok m -> rd m i = Some v -> 0 <= v < 256.
Proof.
  intros Hm. unfold rd. destruct (0 <=? i); [|discriminate].
  intros Hl. by eapply (Forall_lookup_1 (fun z => 0 <= z < 256)).
Qed.

Lemma wr_in m i v : 0 <= i < blen m -> wr m i v = Some (<[Z.to_nat i := u8 v]> m).
Proof.
  intros H. unfold wr.
  destruct (Z.leb_spec 0 i), (Z.ltb_spec i (blen m)); simpl; [done|lia..].
Qed.

Lemma wr_Some m i v m' :
  wr m i v = Some m' -> 0 <= i < blen m /\ m' = <[Z.to_nat i := u8 v]> m.
Proof.
  unfold wr. destruct (Z.leb_spec 0 i), (Z.ltb_spec i (blen m)); simpl; intros [= <-]; auto.
Qed.

Lemma wr_blen m i v m' : wr m i v = Some m' -> blen m' = blen m.
Proof. intros [_ ->]%wr_Some. unfold blen. by rewrite length_insert. Qed.

Lemma wr_ok m i v m' : bytes_ok m -> wr m i v = Some m' -> bytes_ok m'.
Proof.
  intros Hm [_ ->]%wr_Some. apply Forall_insert; [done | apply u8_range].
Qed.

Lemma rd_wr_eq m i v m' : wr m i v = Some m' -> rd m' i = Some (u8 v).
Proof.
  intros [H ->]%wr_Some. unfold rd. destruct (Z.leb_spec 0 i); [|lia].
  apply list_lookup_insert_eq. unfold blen in H. lia.
Qed.

Lemma rd_wr_ne m i j v m' : wr m i v = Some m' -> j <> i -> rd m' j = rd m j.
Proof.
  intros [H ->]%wr_Some Hne. unfold rd. destruct (Z.leb_spec 0 j); [|done].
  apply list_lookup_insert_ne. lia.
Qed.

Lemma wrn_in m off bs :
  0 <= off -> off + blen bs <= blen m ->
  wrn m off bs = Some (take (Z.to_nat off) m ++ bs ++ drop (Z.to_nat (off + blen bs)) m).
Proof.
  intros. unfold wrn.
  destruct (Z.leb_spec 0 off), (Z.leb_spec (off + blen bs) (blen m)); simpl; [done|lia..].
Qed.

Lemma wrn_Some m off bs m' :
  wrn m off bs = Some m' ->
  0 <= off /\ off + blen bs <= blen m /\
  m' = take (Z.to_nat off) m ++ bs ++ drop (Z.to_nat (off + blen bs)) m.
Proof.
  unfold wrn.
  destruct (Z.leb_spec 0 off), (Z.leb_spec (off + blen bs) (blen m));
    simpl; intros [= <-]; auto.
Qed.

Lemma wrn_blen m off bs m' : wrn m off bs = Some m' -> blen m' = blen m.
Proof.
  intros (H0 & H1 & ->)%wrn_Some. unfold blen in *.
  rewrite !length_app, length_take, length_drop. lia.
Qed.

Lemma wrn_ok m off bs m' : bytes_ok m -> bytes_ok bs -> wrn m off bs = Some m' -> bytes_ok m'.
Proof.
  intros Hm Hb (H0 & H1 & ->)%wrn_Some.
  apply Forall_app; split; [by apply Forall_take|].
  apply Forall_app; split; [done | by apply Forall_drop].
Qed.

Lemma rd_wrn_in m off bs m' i :
  wrn m off bs = Some m' -> off <= i < off + blen bs -> rd m' i = rd bs (i - off).
Proof.
  intros (H0 & H1 & ->)%wrn_Some Hi. unfold rd.
  destruct (Z.leb_spec 0 i), (Z.leb_spec 0 (i - off)); [|lia..].
  unfold blen in *.
  rewrite lookup_app_r by (rewrite length_take; lia).
  rewrite lookup_app_l by (rewrite length_take; lia).
  f_equal. rewrite length_take. lia.
Qed.

Lemma rd_wrn_out m off bs m' i :
  wrn m off bs = Some m' -> i < off \/ off + blen bs <= i -> rd m' i = rd m i.
Proof.
  intros (H0 & H1 & ->)%wrn_Some Hi. unfold rd.
  destruct (Z.leb_spec 0 i); [|done].
  unfold blen in *. destruct Hi.
  - rewrite lookup_app_l by (rewrite length_take; lia).
    by rewrite lookup_take_lt by lia.
  - rewrite lookup_app_r by (rewrite length_take; lia).
    rewrite lookup_app_r by (rewrite length_take; lia).
    rewrite lookup_drop. f_equal. rewrite length_take. lia.
Qed.

Lemma rdn_in m off n :
  0 <= off -> 0 <= n -> off + n <= blen m ->
  rdn m off n = Some (take (Z.to_nat n) (drop (Z.to_nat off) m)).
Proof.
  intros. unfold rdn.
  destruct (Z.leb_spec 0 off), (Z.leb_spec 0 n), (Z.leb_spec (off + n) (blen m));
    simpl; [done|lia..].
Qed.

Lemma rdn_Some m off n bs :
  rdn m off n = Some bs ->
  0 <= off /\ 0 <= n /\ off + n <= blen m /\
  bs = take (Z.to_nat n) (drop (Z.to_nat off) m).
Proof.
  unfold rdn.
  destruct (Z.leb_spec 0 off), (Z.leb_spec 0 n), (Z.leb_spec (off + n) (blen m));
    simpl; intros [= <-]; auto.
Qed.

Lemma rdn_blen m off n bs : rdn m off n = Some bs -> blen bs = n.
Proof.
  intros (H0 & H1 & H2 & ->)%rdn_Some. unfold blen in *.
  rewrite length_take, length_drop. lia.
Qed.

Lemma rdn_ok m off n bs : bytes_ok m -> rdn m off n = Some bs -> bytes_ok bs.
Proof. intros Hm (_ & _ & _ & ->)%rdn_Some. by apply Forall_take, Forall_drop. Qed.

Lemma rd_rdn m off n bs i :
  rdn m off n = Some bs -> 0 <= i < n -> rd bs i = rd m (off + i).
Proof.
  intros (H0 & H1 & H2 & ->)%rdn_Some Hi. unfold rd.
  destruct (Z.leb_spec 0 i), (Z.leb_spec 0 (off + i)); [|lia..].
  rewrite lookup_take_lt by lia. rewrite lookup_drop. f_equal. lia.
Qed.

(** Two blocks with the same length and the same bytes are equal. *)
Lemma bytes_ext (a b : bytes) :
  blen a = blen b -> (forall i, 0 <= i < blen a -> rd a i = rd b i) -> a = b.
Proof.
  intros Hl Hr. apply list_eq. intros i.
  destruct (decide (i < length a)%nat) as [Hi|Hi].
  - specialize (Hr (Z.of_nat i)). unfold rd in Hr.
    destruct (Z.leb_spec 0 (Z.of_nat i)); [|lia].
    rewrite Nat2Z.id in Hr. apply Hr. unfold blen. lia.
  - unfold blen in Hl. rewrite !lookup_ge_None_2 by lia. done.
Qed.

Lemma rdn_wrn_same m off bs m' : wrn m off bs = Some m' -> rdn m' off (blen bs) = Some bs.
Proof.
  intros Hw. pose proof (wrn_blen _ _ _ _ Hw) as Hl.
  pose proof Hw as (H0 & H1 & _)%wrn_Some.
  assert (Hr : exists r, rdn m' off (blen bs) = Some r).
  { rewrite rdn_in by (pose proof (blen_nonneg bs); lia). eauto. }
  destruct Hr as [r Hr]. rewrite Hr. f_equal.
  apply bytes_ext; [by rewrite (rdn_blen _ _ _ _ Hr)|].
  intros i Hi. rewrite (rdn_blen _ _ _ _ Hr) in Hi.
  rewrite (rd_rdn _ _ _ _ _ Hr) by lia.
  rewrite (rd_wrn_in _ _ _ _ _ Hw) by lia. f_equal. lia.
Qed.

Lemma rdn_ext m m' off n :
  blen m' = blen m -> (forall i, off <= i < off + n -> rd m' i = rd m i) ->
  rdn m' off n = rdn m off n.
Proof.
  intros Hl Hr. destruct (rdn m off n) as [bs|] eqn:E.
  - pose proof E as (H0 & H1 & H2 & _)%rdn_Some.
    destruct (rdn m' off n) as [bs'|] eqn:E'.
    + f_equal. apply bytes_ext.
      { by rewrite (rdn_blen _ _ _ _ E), (rdn_blen _ _ _ _ E'). }
      intros i Hi. rewrite (rdn_blen _ _ _ _ E') in Hi.
      rewrite (rd_rdn _ _ _ _ _ E), (rd_rdn _ _ _ _ _ E') by lia. apply Hr. lia.
    + rewrite rdn_in in E' by lia. discriminate.
  - destruct (rdn m' off n) as [bs'|] eqn:E'; [|done].
    pose proof E' as (H0 & H1 & H2 & _)%rdn_Some.
    rewrite rdn_in in E by lia. discriminate.
Qed.

Lemma rdn_wr_out m i v m' off n :
  wr m i v = Some m' -> i < off \/ off + n <= i -> rdn m' off n = rdn m off n.
Proof.
  intros Hw Hi. apply rdn_ext; [by eapply wr_blen|].
  intros j Hj. eapply rd_wr_ne; [done|lia].
Qed.

Lemma rdn_wrn_out m o bs m' off n :
  wrn m o bs = Some m' -> off + n <= o \/ o + blen bs <= off -> rdn m' off n = rdn m off n.
Proof.
  intros Hw Hi. apply rdn_ext; [by eapply wrn_blen|].
  intros j Hj. eapply rd_wrn_out; [done|lia].
Qed.

Lemma le32_blen z : blen (le32 z) = 4.
Proof. done. Qed.
Lemma le32_ok z : bytes_ok (le32 z).
Proof. repeat constructor; apply u8_range. Qed.

Lemma rdn_wrn_le32 m o v m' : wrn m o (le32 v) = Some m' -> rdn m' o 4 = Some (le32 v).
Proof. exact (rdn_wrn_same m o (le32 v) m'). Qed.

(** A prefix grows by the byte stored at its end. *)
Lemma rdn_snoc m n pre v m' :
  rdn m 0 n = Some pre -> wr m n v = Some m' -> rdn m' 0 (n + 1) = Some (pre ++ [u8 v]).
Proof.
  intros Hp Hw. pose proof (rdn_blen _ _ _ _ Hp) as Hl.
  pose proof Hw as [Hr _]%wr_Some. pose proof (wr_blen _ _ _ _ Hw) as Hb.
  destruct (rdn m' 0 (n + 1)) as [bs|] eqn:E; [|rewrite rdn_in in E by lia; discriminate].
  f_equal. apply bytes_ext.
  { rewrite (rdn_blen _ _ _ _ E), blen_app, Hl. done. }
  intros i Hi. rewrite (rdn_blen _ _ _ _ E) in Hi. rewrite (rd_rdn _ _ _ _ _ E) by lia.
  replace (0 + i) with i by lia. unfold blen in Hl.
  destruct (decide (i = n)) as [->|Hne].
  - rewrite (rd_wr_eq _ _ _ _ Hw). unfold rd. destruct (Z.leb_spec 0 n); [|lia].
    rewrite lookup_app_r by lia. replace (Z.to_nat n - length pre)%nat with 0%nat by lia. done.
  - rewrite (rd_wr_ne _ _ _ _ _ Hw) by done.
    assert (Hrd : rd pre i = rd m i) by (rewrite (rd_rdn _ _ _ _ _ Hp) by lia; f_equal; lia).
    rewrite <- Hrd. unfold rd. destruct (Z.leb_spec 0 i); [|lia].
    by rewrite lookup_app_l by lia.
Qed.

(** A prefix known byte by byte. *)
Lemma rdn_points m bs :
  blen bs <= blen m -> (forall i v, bs !! i = Some v -> rd m (Z.of_nat i) = Some v) ->
  rdn m 0 (blen bs) = Some bs.
Proof.
  intros Hl Hp. pose proof (blen_nonneg bs).
  destruct (rdn m 0 (blen bs)) as [r|] eqn:E; [|rewrite rdn_in in E by lia; discriminate].
  f_equal. apply bytes_ext; [by rewrite (rdn_blen _ _ _ _ E)|].
  intros i Hi. rewrite (rdn_blen _ _ _ _ E) in Hi. rewrite (rd_rdn _ _ _ _ _ E) by lia.
  destruct (rd_in bs i Hi) as [v Hv]. rewrite Hv. rewrite Z.add_0_l.
  unfold rd in Hv. destruct (Z.leb_spec 0 i); [|lia].
  apply Hp in Hv. by rewrite Z2Nat.id in Hv by lia.
Qed.

(** A non-empty window is a byte and a window. *)
Lemma rdn_cons m off n bs :
  rdn m off (Z.succ n) = Some bs -> 0 <= n ->
  exists x r, rd m off = Some x /\ rdn m (off + 1) n = Some r /\ bs = x :: r.
Proof.
  intros Hb Hn. pose proof Hb as (H0 & _ & H2 & ->)%rdn_Some.
  destruct (rd_in m off ltac:(lia)) as [x Hx]. exists x.
  eexists. split; [done|]. split; [by apply rdn_in; lia|].
  unfold rd in Hx. destruct (Z.leb_spec 0 off); [|lia].
  rewrite (drop_S m x (Z.to_nat off) Hx).
  replace (Z.to_nat (Z.succ n)) with (S (Z.to_nat n)) by lia. simpl. do 2 f_equal. f_equal. lia.
Qed.

Lemma rdn_1 m off x : rd m off = Some x -> rdn m off 1 = Some [x].
Proof.
  intros Hx. pose proof (rd_Some_range _ _ _ Hx).
  rewrite rdn_in by lia. unfold rd in Hx. destruct (Z.leb_spec 0 off); [|lia].
  by rewrite (drop_S m x (Z.to_nat off) Hx).
Qed.

(** Consecutive windows. *)
Lemma rdn_app m off n k a b :
  rdn m off n = Some a -> rdn m (off + n) k = Some b -> rdn m off (n + k) = Some (a ++ b).
Proof.
  intros (H0 & H1 & H2 & ->)%rdn_Some (H3 & H4 & H5 & ->)%rdn_Some.
  rewrite rdn_in by lia. f_equal. rewrite Z2Nat.inj_add by lia.
  rewrite <- take_take_drop. f_equal. rewrite drop_drop. f_equal. f_equal. lia.
Qed.

(** A window of a known prefix. *)
Lemma rdn_infix m a x c n :
  rdn m 0 (blen (a ++ x ++ c)) = Some (a ++ x ++ c) -> blen a = n -> rdn m n (blen x) = Some x.
Proof.
  intros Hr <-. pose proof Hr as (_ & _ & Hl & _)%rdn_Some. rewrite !blen_app in Hl.
  pose proof (blen_nonneg a). pose proof (blen_nonneg x). pose proof (blen_nonneg c).
  destruct (rdn m (blen a) (blen x)) as [r|] eqn:E; [|rewrite rdn_in in E by lia; discriminate].
  f_equal. apply bytes_ext; [by rewrite (rdn_blen _ _ _ _ E)|].
  intros i Hi. rewrite (rdn_blen _ _ _ _ E) in Hi. rewrite (rd_rdn _ _ _ _ _ E) by lia.
  assert (Hx := rd_rdn _ _ _ _ (blen a + i) Hr). rewrite !blen_app, Z.add_0_l in Hx.
  rewrite <- Hx by lia. unfold rd, blen in *.
  destruct (Z.leb_spec 0 i), (Z.leb_spec 0 (Z.of_nat (length a) + i)); [|lia..].
  rewrite lookup_app_r by lia. rewrite lookup_app_l by lia. f_equal. lia.
Qed.

Lemma rdn_take m off n k bs :
  rdn m off n = Some bs -> 0 <= k <= n -> rdn m off k = Some (take (Z.to_nat k) bs).
Proof.
  intros (H0 & H1 & H2 & ->)%rdn_Some Hk. rewrite rdn_in by lia. f_equal.
  rewrite take_take. f_equal. lia.
Qed.

(** Writing back what is there changes nothing. *)
Lemma wrn_rdn_id m off bs : rdn m off (blen bs) = Some bs -> wrn m off bs = Some m.
Proof.
  intros Hr. pose proof Hr as (H0 & H1 & H2 & _)%rdn_Some.
  destruct (wrn m off bs) as [m'|] eqn:Hw; [|rewrite wrn_in in Hw by lia; discriminate].
  f_equal. apply bytes_ext; [by eapply wrn_blen|]. intros i Hi.
  destruct (decide (off <= i < off + blen bs)) as [Hin|Hout].
  - rewrite (rd_wrn_in _ _ _ _ _ Hw) by done. rewrite (rd_rdn _ _ _ _ _ Hr) by lia.
    f_equal. lia.
  - eapply rd_wrn_out; [done|lia].
Qed.

(** A longer write is a sequence of shorter ones. *)
Lemma wrn_nil m off : 0 <= off <= blen m -> wrn m off [] = Some m.
Proof.
  intros. rewrite wrn_in by (change (blen []) with 0; lia). f_equal. simpl.
  rewrite Z.add_0_r. apply take_drop.
Qed.
Lemma wrn_cons m off b bs :
  0 <= off < blen m -> wrn m off (b :: bs) = wrn (<[Z.to_nat off := b]> m) (off + 1) bs.
Proof.
  intros H. unfold wrn, blen in *. rewrite length_insert. simpl length.
  replace (off + Z.of_nat (S (length bs))) with (off + 1 + Z.of_nat (length bs)) by lia.
  destruct (Z.leb_spec 0 off), (Z.leb_spec 0 (off + 1)); [|lia..].
  destruct (off + 1 + Z.of_nat (length bs) <=? Z.of_nat (length m)); [|done]. simpl. f_equal.
  rewrite drop_insert_lt by lia.
  replace (Z.to_nat (off + 1)) with (S (Z.to_nat off)) by lia.
  rewrite (take_S_r _ _ b) by (apply list_lookup_insert_eq; lia).
  by rewrite take_insert_ge, <- app_assoc by lia.
Qed.
Lemma wrn_app m off xs ys :
  0 <= off -> off + blen xs <= blen m ->
  wrn m off (xs ++ ys) = m' ← wrn m off xs; wrn m' (off + blen xs) ys.
Proof.
  revert m off. induction xs as [|x xs IH]; intros m off H0 Hl.
  { change (blen []) with 0 in *. rewrite wrn_nil by lia. simpl. by rewrite Z.add_0_r. }
  rewrite blen_cons in *. pose proof (blen_nonneg xs). simpl app. rewrite !wrn_cons by lia.
  assert (El : blen (<[Z.to_nat off := x]> m) = blen m) by (unfold blen; by rewrite length_insert).
  rewrite IH by (rewrite ?El; lia). by rewrite Z.add_assoc.
Qed.

(** A property of the integers below [n], by computation. *)
Lemma below (f : Z -> bool) n x :
  forallb f (seqZ 0 n) = true -> 0 <= x < n -> f x = true.
Proof.
  intros Hf Hx. rewrite forallb_forall in Hf. apply Hf, list_elem_of_In, elem_of_seqZ. lia.
Qed.

#[export] Hint Resolve blen_nonneg : word.

(** Case analysis on every comparison in the goal. *)
Ltac zcases :=
  repeat match goal with
  | |- context [?a <=? ?b] => destruct (Z.leb_spec a b)
  | |- context [?a <? ?b] => destruct (Z.ltb_spec a b)
  | |- context [?a >? ?b] => rewrite (Z.gtb_ltb a b); destruct (Z.ltb_spec b a)
  | |- context [?a >=? ?b] => rewrite (Z.geb_leb a b); destruct (Z.leb_spec b a)
  | |- context [?a =? ?b] => destruct (Z.eqb_spec a b)
  end; simpl; try lia.
