(* ===== verification/Machine.v ===== *)
(** * The firmware's state and the monad its functions run in

    The global variables of [src/usr/*.c] are of two kinds here.  A scalar
    global is a constructor of [gv]; an array or a structure that the code
    addresses by byte offset is a constructor of [blk], a block of bytes.
    Both start zeroed, as C initialises static storage.  A function of the
    firmware is a state transformer of type [M]: it returns, or it leaves the
    object it addresses ([Oob]), or it still busy-waits when the schedule of
    external events ends ([Starved]), or it hands the processor to the
    watchdog ([Reset]). *)
From stdpp Require Import base tactics list numbers option gmap countable.
From S2P Require Import Prelude.

(** ** Names of the globals *)

(** The seven [STimer]s and the fields of one (common.h, [struct _Timer]). *)
Inductive tid : Set :=
| ReadCardTimer | OutPutTimer | local_timer | local485_timer | UIP_timer
| R2000_local_timer | R2000_send_timer.
Inductive tfield : Set := isStart | isOverflow | time_.

Inductive gv : Set :=
(* main.c *)
| LocalTime | TimingmsDelay | timingdelay | ReadCardTimeInterver
| sys_timer | sys_timer1 | beepFlag | beepCountTimes
| cmd57ReadTagCount | cmdTmpLen | SelfCheckFailure | CardPos | read_count
| sysReboot | tmpAntenna | switchAtenna | sendswitchAtenna | TagSaveCount
| bakrssi | Relay1Times | Relay2Times
(* common.c *)
| RelayFlag | RelayCountTimes | Tag_send_count | Tag_all_number
| Tag_R2000_CMD80_number | Tag_R2000_CMD91_number
| CMDMaskaddr | CMDMasklen | MASKSEL | MASKAddr6B | MASK6B | timess
(* ParamItem.c, RFIDModule.c, netconf.c *)
| TagDataOrigin | setFlag | AntId | TCPTimer | ARPTimer
(* the receivers' [set_mark] flags *)
| R2000_set_mark | local_set_mark | local485_set_mark
| Tm (t : tid) (f : tfield).

(** The C types of the scalars.  ([char] is unsigned, [int] and [long] have
    32 bits.) *)
Inductive cty : Set := U8 | U16 | U32 | I32.
Definition ctype (x : gv) : cty :=
  match x with
  | ReadCardTimeInterver | beepFlag | beepCountTimes | cmd57ReadTagCount | cmdTmpLen
  | sysReboot | tmpAntenna | switchAtenna | sendswitchAtenna | RelayFlag | Tag_send_count
  | CMDMasklen | MASKSEL | MASKAddr6B | MASK6B | TagDataOrigin | AntId
  | R2000_set_mark | local_set_mark | local485_set_mark
  | Tm _ isStart | Tm _ isOverflow => U8
  | Tag_all_number | CMDMaskaddr => U16
  | SelfCheckFailure | bakrssi | setFlag => I32
  | _ => U32
  end.
Definition in_type (t : cty) (v : Z) : Prop :=
  match t with
  | U8 => 0 <= v < 256
  | U16 => 0 <= v < 65536
  | U32 => 0 <= v < 4294967296
  | I32 => -2147483648 <= v < 2147483648
  end.

(** The byte blocks.  [R2000_rec], [local_rec], [local485_rec] and [uip_rec]
    are the [rec_buf] members (packed [SBUF_STR]: 255 bytes, then [index] and
    [len], four bytes each); [out_buf] is [buf] of main.c; [cmdData],
    [channel] and [tmpEpcdata] are arrays local to a function. *)
Inductive blk : Set :=
| g_device | R2000_rec | local_rec | local485_rec | uip_rec
| CardIndex | TagSaveBuf | cmdTmpBuf | CMDMaskData | MASKData6B
| out_buf | cmdData | channel | tmpEpcdata.

Definition BUF_LEN : Z := 255.
Definition SBUF_index : Z := 255.
Definition SBUF_len : Z := 259.
Definition SBUF_size : Z := 263.
Definition MAXNUM : Z := 500.
Definition SAVEMAXNUM : Z := 500.
Definition TAGIDLENGTH : Z := 31.
(** One row of [CardIndex] and [TagSaveBuf]. *)
Definition ROW : Z := 39.

Definition bsize (b : blk) : Z :=
  match b with
  | g_device => 210
  | R2000_rec | local_rec | local485_rec | uip_rec => SBUF_size
  | CardIndex => MAXNUM * ROW
  | TagSaveBuf => SAVEMAXNUM * ROW
  | cmdTmpBuf => BUF_LEN
  | CMDMaskData => TAGIDLENGTH
  | MASKData6B => 8
  | out_buf => 170
  | cmdData => 10
  | channel => 1
  | tmpEpcdata => 35
  end.

#[export] Instance tid_eq_dec : EqDecision tid.
Proof. solve_decision. Defined.
#[export] Instance tfield_eq_dec : EqDecision tfield.
Proof. solve_decision. Defined.
#[export] Instance gv_eq_dec : EqDecision gv.
Proof. solve_decision. Defined.
#[export] Instance blk_eq_dec : EqDecision blk.
Proof. solve_decision. Defined.

Definition all_tid : list tid :=
  [ReadCardTimer; OutPutTimer; local_timer; local485_timer; UIP_timer;
   R2000_local_timer; R2000_send_timer].
Definition all_gv : list gv :=
  [LocalTime; TimingmsDelay; timingdelay; ReadCardTimeInterver; sys_timer;
   sys_timer1; beepFlag; beepCountTimes; cmd57ReadTagCount; cmdTmpLen;
   SelfCheckFailure; CardPos; read_count; sysReboot; tmpAntenna; switchAtenna;
   sendswitchAtenna; TagSaveCount; bakrssi; Relay1Times; Relay2Times;
   RelayFlag; RelayCountTimes; Tag_send_count; Tag_all_number;
   Tag_R2000_CMD80_number; Tag_R2000_CMD91_number; CMDMaskaddr; CMDMasklen;
   MASKSEL; MASKAddr6B; MASK6B; timess; TagDataOrigin; setFlag; AntId;
   TCPTimer; ARPTimer; R2000_set_mark; local_set_mark; local485_set_mark]
  ++ (t ← all_tid; [Tm t isStart; Tm t isOverflow; Tm t time_]).
Definition all_blk : list blk :=
  [g_device; R2000_rec; local_rec; local485_rec; uip_rec; CardIndex;
   TagSaveBuf; cmdTmpBuf; CMDMaskData; MASKData6B; out_buf; cmdData; channel;
   tmpEpcdata].

(** A finite enumeration is countable through the position of an element. *)
Section enum.
Context {A : Type} `{EqDecision A} (all : list A) (dflt : A).
Definition enum_pos (x : A) : positive :=
  match list_find (x =.) all with
  | Some (i, _) => Pos.of_succ_nat i
  | None => 1%positive
  end.
Definition enum_at (p : positive) : option A := all !! pred (Pos.to_nat p).
Lemma enum_at_pos (x : A) : x ∈ all -> enum_at (enum_pos x) = Some x.
Proof using Type.
  intros Hin. unfold enum_pos, enum_at.
  destruct (list_find (x =.) all) as [[i y]|] eqn:E.
  - apply list_find_Some in E as (Hl & -> & _).
    by rewrite SuccNat2Pos.pred_id.
  - apply list_find_None in E. rewrite Forall_forall in E.
    by destruct (E x (proj1 (list_elem_of_In _ _) Hin)).
Qed.
End enum.

#[export] Instance gv_countable : Countable gv.
Proof.
  refine {| encode := enum_pos all_gv; decode := enum_at all_gv |}.
  intros x. apply enum_at_pos.
  apply (bool_decide_unpack (x ∈ all_gv)).
  destruct x as [| | | | | | | | | | | | | | | | | | | | | | | | | | | | | | | | | | | | | | | | |t f];
    try exact I. destruct t, f; exact I.
Defined.

#[export] Instance blk_countable : Countable blk.
Proof.
  refine {| encode := enum_pos all_blk; decode := enum_at all_blk |}.
  intros x. apply enum_at_pos. apply (bool_decide_unpack (x ∈ all_blk)).
  destruct x; exact I.
Defined.

(** ** The board

    What the firmware reads from and drives outside the processor.  The chips
    are not part of the source, so their behaviour is a parameter: the
    programmed state of the internal flash, by half-word address
    ([FLASH_ProgramHalfWord], [FLASH_ErasePage] of the ST library act on it, and
    [FLASH_Unlock] and [FLASH_Lock] on the lock bit of its control register),
    the DS1302 clock chip, addressed by the bits shifted out on its data line,
    and the levels of the two trigger inputs. *)
Inductive inpin : Set := PE15 | PE9.

Class Board := {
  hw : Type;
  flash_read : hw -> Z -> Z;
  flash_program : Z -> Z -> hw -> hw;
  flash_erase : Z -> hw -> hw;
  flash_locked : hw -> bool;
  flash_unlock : hw -> hw;
  flash_lock : hw -> hw;
  rtc_bit : hw -> list Z -> Z -> Z;
  rtc_command : list Z -> hw -> hw;
  pin_level : hw -> inpin -> Z
}.

(** Output pins the firmware drives (stm32f107.h). *)
Inductive opin : Set :=
| RELAY | RELAY1 | BEEP | LEDYellow | LEDGreen | EN485
| WGDATA0 | WGDATA1 | WGDATA0_1 | WGDATA1_1 | RTC_SCLK | RTC_IO | RTC_RST.
#[export] Instance opin_eq_dec : EqDecision opin.
Proof. solve_decision. Defined.

(** Observable actions, newest first in [out]. *)
Inductive io : Type :=
| Tx1 (b : Z) | Tx2 (b : Z) | Tx4 (b : Z)   (* data registers of USART1, USART2, UART4 *)
| TxUdp (addr port : Z) (bs : bytes)        (* udp_sendto *)
| PinHi (p : opin) | PinLo (p : opin)       (* GPIO_SetBits, GPIO_ResetBits *)
| Pause (us : Z)                            (* Delay2us *)
| IwdgReload | TcpTmr | EtharpTmr
| UsartInit (port baud : Z).

(** External events: a byte arriving on UART4, a SysTick interrupt, and the
    processor evaluating the condition of the busy-wait loop it is in. *)
Inductive ev : Set := EByte (b : Z) | ETick | EPoll.

(** Pointers the code stores in the parameter table or passes to functions. *)
Inductive ptr : Set := NULL | At (b : blk) (o : Z) | Var (v : gv).
#[export] Instance ptr_eq_dec : EqDecision ptr.
Proof. solve_decision. Defined.

(** The command handlers registered in the parameter table: the C function
    [SetBaudRate] is registered as [fn_SetBaudRate]. *)
Inductive fn : Set :=
| fn_SetBaudRate | fn_SetRelay | fn_SetOutputPower | fn_SetFrequency | fn_ReadParam
| fn_WriteRadioDeep | fn_ReadRadioDeep | fn_WriteParam | fn_SetAntenna | fn_SetReaderPara
| fn_ReadReaderPara | fn_Reboot | fn_SetReaderWorkType | fn_ClearTagListMem
| fn_SetReaderTime | fn_GetReaderTime | fn_SetAutoPara | fn_GetAutoPara | fn_SetTagFilter
| fn_read_r2000vertion | fn_SetReaderNetwork | fn_SetReaderMAC | fn_GetReaderRevStatus
| fn_SetReaderOutStatus | fn_GetReaderOutStatus | fn_ImmediatelyNotify | fn_GetTagRecord
| fn_SetFrequency1 | fn_UpdateProgrram
| fn_EPC1G2_ListRSSIMaskTag | fn_EPC1G2_GetRSSIIDList | fn_EPC1G2_Accessmatch
| fn_EPC1G2_ListTagID | fn_EPC1G2_ListMaskTagID | fn_EPC1G2_GetIDList
| fn_EPC1G2_ReadWordBlock | fn_EPC1G2_WriteWordBlock | fn_EPC1G2_WriteSetBlock
| fn_EraseTagData | fn_DestroyTag | fn_EPC1G2_WriteEPC | fn_DataLocking
| fn_EPC1G2_changeeas | fn_EPC1G2_EasAlarm | fn_EPC1G2_ReadProtect
| fn_EPC1G2_RSTReadProtect | fn_SetUserDataProtect | fn_ReadEPCAndData
| fn_DetectTagNum | fn_ReadLabelID | fn_ListIDReport | fn_ListSelectedID
| fn_ReadByteBlock | fn_WriteByteBlock | fn_WriteProtect | fn_ReadWriteProtect
| fn_WriteAByte.
#[export] Instance fn_eq_dec : EqDecision fn.
Proof. solve_decision. Defined.

(** [SParamItem] and [SParamTable] of ParamItem.h ([setFlag] is a scalar). *)
Record SParamItem := mkItem {
  value : ptr; flag : Z; item_length : Z; Function_ : option fn }.
Definition Count_ParamItem_Max : nat := 70.
Definition item0 : SParamItem := mkItem NULL 0 0 None.

(** ** The state *)
Section state.
Context `{Board}.

Record fw := mkFw {
  sc : gmap gv Z;
  mem : gmap blk bytes;
  table : list SParamItem;
  table_index : list Z;
  sched : list ev;
  out : list io;
  board : hw }.

(** Static storage before [main]: zero. *)
Definition fw0 (es : list ev) (h : hw) : fw :=
  mkFw ∅ ∅ (replicate Count_ParamItem_Max item0)
       (replicate Count_ParamItem_Max 0) es [] h.

Definition get (x : gv) (s : fw) : Z := default 0 (sc s !! x).
Definition put (x : gv) (v : Z) (s : fw) : fw :=
  mkFw (<[x := v]> (sc s)) (mem s) (table s) (table_index s) (sched s) (out s) (board s).
Definition block (b : blk) (s : fw) : bytes :=
  default (replicate (Z.to_nat (bsize b)) 0) (mem s !! b).
Definition set_block (b : blk) (m : bytes) (s : fw) : fw :=
  mkFw (sc s) (<[b := m]> (mem s)) (table s) (table_index s) (sched s) (out s) (board s).
Definition set_table (t : list SParamItem) (s : fw) : fw :=
  mkFw (sc s) (mem s) t (table_index s) (sched s) (out s) (board s).
Definition set_index (t : list Z) (s : fw) : fw :=
  mkFw (sc s) (mem s) (table s) t (sched s) (out s) (board s).
Definition set_sched (es : list ev) (s : fw) : fw :=
  mkFw (sc s) (mem s) (table s) (table_index s) es (out s) (board s).
Definition push_out (e : io) (s : fw) : fw :=
  mkFw (sc s) (mem s) (table s) (table_index s) (sched s) (e :: out s) (board s).
Definition set_board (h : hw) (s : fw) : fw :=
  mkFw (sc s) (mem s) (table s) (table_index s) (sched s) (out s) h.

Definition set_out (l : list io) (s : fw) : fw :=
  mkFw (sc s) (mem s) (table s) (table_index s) (sched s) l (board s).

(** Every block has the size of its C object and holds bytes; the parameter
    table has its declared length. *)
Record wf (s : fw) : Prop := mkWf {
  wf_size : forall b, blen (block b s) = bsize b;
  wf_bytes : forall b, bytes_ok (block b s);
  wf_table : length (table s) = Count_ParamItem_Max;
  wf_index : length (table_index s) = Count_ParamItem_Max }.

(** *** Reading back what was written *)
Lemma get_put_eq x v s : get x (put x v s) = v.
Proof using Type. unfold get, put; simpl. by rewrite lookup_insert_eq. Qed.
Lemma get_put_ne x y v s : x ≠ y -> get x (put y v s) = get x s.
Proof using Type. intros. unfold get, put; simpl. by rewrite lookup_insert_ne. Qed.
Lemma get_set_block x b m s : get x (set_block b m s) = get x s.
Proof using Type. done. Qed.
Lemma get_push_out x e s : get x (push_out e s) = get x s.
Proof using Type. done. Qed.
Lemma get_set_out x l s : get x (set_out l s) = get x s.
Proof using Type. done. Qed.
Lemma block_set_out b l s : block b (set_out l s) = block b s.
Proof using Type. done. Qed.
Lemma set_out_push l e s : set_out l (push_out e s) = set_out l s.
Proof using Type. done. Qed.
Lemma set_out_twice l l' s : set_out l (set_out l' s) = set_out l s.
Proof using Type. done. Qed.
Lemma get_set_sched x e s : get x (set_sched e s) = get x s.
Proof using Type. done. Qed.
Lemma get_set_board x h s : get x (set_board h s) = get x s.
Proof using Type. done. Qed.
Lemma get_set_table x t s : get x (set_table t s) = get x s.
Proof using Type. done. Qed.
Lemma get_set_index x t s : get x (set_index t s) = get x s.
Proof using Type. done. Qed.
Lemma block_set_block_eq b m s : block b (set_block b m s) = m.
Proof using Type. unfold block, set_block; simpl. by rewrite lookup_insert_eq. Qed.
Lemma block_set_block_ne b c m s : b ≠ c -> block b (set_block c m s) = block b s.
Proof using Type. intros. unfold block, set_block; simpl. by rewrite lookup_insert_ne. Qed.
Lemma set_block_twice b m m' s : set_block b m (set_block b m' s) = set_block b m s.
Proof using Type. unfold set_block; simpl. f_equal. apply insert_insert_eq. Qed.
Lemma block_put b x v s : block b (put x v s) = block b s.
Proof using Type. done. Qed.
Lemma block_push_out b e s : block b (push_out e s) = block b s.
Proof using Type. done. Qed.
Lemma block_set_sched b e s : block b (set_sched e s) = block b s.
Proof using Type. done. Qed.
Lemma block_set_board b h s : block b (set_board h s) = block b s.
Proof using Type. done. Qed.
Lemma block_set_table b t s : block b (set_table t s) = block b s.
Proof using Type. done. Qed.
Lemma block_set_index b t s : block b (set_index t s) = block b s.
Proof using Type. done. Qed.

(** *** Well-formedness is preserved *)
Lemma wf_fw0 es h : wf (fw0 es h).
Proof using Type.
  split; try done.
  - intros b. unfold block; simpl. apply blen_replicate. by destruct b.
  - intros b. unfold block, bytes_ok; simpl. apply Forall_replicate. lia.
Qed.
Lemma wf_put x v s : wf s -> wf (put x v s).
Proof using Type. by intros []. Qed.
Lemma wf_push_out e s : wf s -> wf (push_out e s).
Proof using Type. by intros []. Qed.
Lemma wf_set_out l s : wf s -> wf (set_out l s).
Proof using Type. by intros []. Qed.
Lemma wf_set_sched es s : wf s -> wf (set_sched es s).
Proof using Type. by intros []. Qed.
Lemma wf_set_board h s : wf s -> wf (set_board h s).
Proof using Type. by intros []. Qed.
Lemma wf_set_table t s : length t = Count_ParamItem_Max -> wf s -> wf (set_table t s).
Proof using Type. by intros ? []. Qed.
Lemma wf_set_index t s : length t = Count_ParamItem_Max -> wf s -> wf (set_index t s).
Proof using Type. by intros ? []. Qed.
Lemma wf_set_block b m s :
  blen m = bsize b -> bytes_ok m -> wf s -> wf (set_block b m s).
Proof using Type.
  intros Hl Hb [Hs Hby Ht Hi]. split; try done; intros c;
    destruct (decide (c = b)) as [->|Hne];
    by rewrite ?block_set_block_eq, ?block_set_block_ne.
Qed.
End state.

Create HintDb fwdb discriminated.
#[export] Hint Resolve wf_fw0 wf_put wf_push_out wf_set_out wf_set_sched wf_set_board
  wf_set_table wf_set_index wf_set_block wf_size wf_bytes wf_table wf_index : fwdb.
