(* ===== verification/Effects.v ===== *)
(** * The effects of the C code: a state monad with abnormal endings

    Primitive reads, writes and outputs, loops, busy-waiting, and the two
    proof rules every component uses: equations that run a program one
    primitive at a time, and a Hoare triple. *)
From stdpp Require Import base tactics list numbers option gmap.
From S2P Require Import Prelude Machine.

Inductive outcome (A : Type) : Type :=
| Ret (a : A) | Oob | Starved | Reset.
Arguments Ret {A} a.
Arguments Oob {A}.
Arguments Starved {A}.
Arguments Reset {A}.

Definition obind {A B} (o : outcome A) (k : A -> outcome B) : outcome B :=
  match o with
  | Ret a => k a | Oob => Oob | Starved => Starved | Reset => Reset
  end.

Section monad.
Context `{Board}.

Definition M (A : Type) : Type := fw -> outcome (A * fw).
#[global] Instance M_ret : MRet M := fun A a s => Ret (a, s).
#[global] Instance M_bind : MBind M := fun A B k m s =>
  obind (m s) (fun '(a, s') => k a s').

Definition getv (x : gv) : M Z := fun s => Ret (get x s, s).
Definition putv (x : gv) (v : Z) : M unit := fun s => Ret (tt, put x v s).
Definition oob {A} : M A := fun _ => Oob.
Definition hang {A} : M A := fun _ => Reset.
Definition emit (e : io) : M unit := fun s => Ret (tt, push_out e s).

Definition lift_opt {A} (o : option A) : M A := fun s =>
  match o with Some a => Ret (a, s) | None => Oob end.
(** Loads and stores of bytes, byte strings ([memcpy]) and 32-bit integers. *)
Definition ld8 (b : blk) (o : Z) : M Z := fun s => lift_opt (rd (block b s) o) s.
Definition st8 (b : blk) (o v : Z) : M unit := fun s =>
  match wr (block b s) o v with
  | Some m => Ret (tt, set_block b m s) | None => Oob end.
Definition ldn (b : blk) (o n : Z) : M bytes := fun s => lift_opt (rdn (block b s) o n) s.
Definition stn (b : blk) (o : Z) (bs : bytes) : M unit := fun s =>
  match wrn (block b s) o bs with
  | Some m => Ret (tt, set_block b m s) | None => Oob end.
Definition ld32 (b : blk) (o : Z) : M Z := bs ← ldn b o 4; mret (unle bs).
Definition st32 (b : blk) (o v : Z) : M unit := stn b o (le32 v).
(** [memset(&b, 0, sizeof(b))] *)
Definition zero (b : blk) : M unit := fun s =>
  Ret (tt, set_block b (replicate (Z.to_nat (bsize b)) 0) s).

(** Through a pointer. *)
Definition ldp (p : ptr) (i : Z) : M Z :=
  match p with
  | At b o => ld8 b (o + i)
  | Var x => if i =? 0 then v ← getv x; mret (u8 v) else oob
  | NULL => oob
  end.
Definition stp (p : ptr) (i v : Z) : M unit :=
  match p with
  | At b o => st8 b (o + i) v
  | Var x => if i =? 0 then putv x (u8 v) else oob
  | NULL => oob
  end.
Definition ldpn (p : ptr) (i n : Z) : M bytes :=
  match p with
  | At b o => ldn b (o + i) n
  | Var x => if (i =? 0) && (n =? 1) then v ← getv x; mret [u8 v] else oob
  | NULL => oob
  end.
Definition stpn (p : ptr) (i : Z) (bs : bytes) : M unit :=
  match p with
  | At b o => stn b (o + i) bs
  | Var x => match bs with
             | [v] => if i =? 0 then putv x (u8 v) else oob
             | _ => oob
             end
  | NULL => oob
  end.

(** [for (i = from; i < from + n; i++) body(i)] *)
Fixpoint for_ (n : nat) (from : Z) (body : Z -> M unit) : M unit :=
  match n with
  | O => mret tt
  | S n => body from;; for_ n (from + 1) body
  end.
Definition when (c : bool) (m : M unit) : M unit := if c then m else mret tt.

(** Busy-waiting.  [poll] is one evaluation of the loop: [Some a] leaves it.
    Between two evaluations the interrupts of the schedule run. *)
Section busy.
Context {A : Type} (uart4 : Z -> M unit) (systick : M unit) (poll : M (option A)).
Fixpoint busy_loop (es : list ev) (s : fw) : outcome (A * fw) :=
  match es with
  | [] => Starved
  | EByte b :: es => obind (uart4 b s) (fun '(_, s) => busy_loop es s)
  | ETick :: es => obind (systick s) (fun '(_, s) => busy_loop es s)
  | EPoll :: es =>
      obind (poll s) (fun '(r, s) =>
        match r with
        | Some a => Ret (a, set_sched es s)
        | None => busy_loop es s
        end)
  end.
Definition busy_wait : M A := fun s => busy_loop (sched s) s.
End busy.

(** ** Running a program *)
Lemma ret_run {A} (a : A) s : (mret a : M A) s = Ret (a, s).
Proof using Type. done. Qed.
Lemma bind_run {A B} (m : M A) (k : A -> M B) s :
  (m ≫= k) s = obind (m s) (fun '(a, s') => k a s').
Proof using Type. done. Qed.
Lemma bind_Ret {A B} (m : M A) (k : A -> M B) s a s' :
  m s = Ret (a, s') -> (m ≫= k) s = k a s'.
Proof using Type. intros E. rewrite bind_run, E. done. Qed.
Lemma getv_run x s : getv x s = Ret (get x s, s).
Proof using Type. done. Qed.
Lemma putv_run x v s : putv x v s = Ret (tt, put x v s).
Proof using Type. done. Qed.
Lemma emit_run e s : emit e s = Ret (tt, push_out e s).
Proof using Type. done. Qed.
Lemma ld8_run b o s v : rd (block b s) o = Some v -> ld8 b o s = Ret (v, s).
Proof using Type. intros E. unfold ld8. by rewrite E. Qed.
Lemma st8_run b o v s m :
  wr (block b s) o v = Some m -> st8 b o v s = Ret (tt, set_block b m s).
Proof using Type. intros E. unfold st8. by rewrite E. Qed.
Lemma ldn_run b o n s bs : rdn (block b s) o n = Some bs -> ldn b o n s = Ret (bs, s).
Proof using Type. intros E. unfold ldn. by rewrite E. Qed.
Lemma stn_run b o bs s m :
  wrn (block b s) o bs = Some m -> stn b o bs s = Ret (tt, set_block b m s).
Proof using Type. intros E. unfold stn. by rewrite E. Qed.

Lemma ld32_run b o s bs : rdn (block b s) o 4 = Some bs -> ld32 b o s = Ret (unle bs, s).
Proof using Type. intros E. unfold ld32. by rewrite (bind_Ret _ _ _ _ _ (ldn_run _ _ _ _ _ E)). Qed.
(** A store inside a block of a well-formed state. *)
Lemma st8_wf b o v s :
  wf s -> 0 <= o < bsize b ->
  exists m, wr (block b s) o v = Some m /\
    st8 b o v s = Ret (tt, set_block b m s) /\ wf (set_block b m s).
Proof using Type.
  intros Hwf Ho. pose proof (wf_size s Hwf b) as Hs.
  eexists. split; [by apply wr_in; rewrite Hs|].
  assert (Hw := wr_in (block b s) o v ltac:(by rewrite Hs)).
  split; [by apply st8_run|]. apply wf_set_block; [|by eapply wr_ok, Hw; apply wf_bytes|done].
  by rewrite (wr_blen _ _ _ _ Hw).
Qed.
Lemma stn_wf b o bs s :
  wf s -> bytes_ok bs -> 0 <= o -> o + blen bs <= bsize b ->
  exists m, wrn (block b s) o bs = Some m /\
    stn b o bs s = Ret (tt, set_block b m s) /\ wf (set_block b m s).
Proof using Type.
  intros Hwf Hb Ho Hl. pose proof (wf_size s Hwf b) as Hs.
  assert (Hw := wrn_in (block b s) o bs Ho ltac:(by rewrite Hs)).
  eexists. split; [exact Hw|].
  split; [by apply stn_run|]. apply wf_set_block; [|by eapply wrn_ok, Hw; [apply wf_bytes|]|done].
  by rewrite (wrn_blen _ _ _ _ Hw).
Qed.
Lemma st32_wf b o v s :
  wf s -> 0 <= o -> o + 4 <= bsize b ->
  exists m, wrn (block b s) o (le32 v) = Some m /\
    st32 b o v s = Ret (tt, set_block b m s) /\ wf (set_block b m s).
Proof using Type. intros. by apply stn_wf; [|apply le32_ok| |rewrite le32_blen]. Qed.

(** ** Triples

    [triple P m Q]: from a state with [P], [m] stays inside its objects, and
    if it returns, it does so with [Q].  (It may still be busy-waiting when
    the schedule ends, or leave the processor to the watchdog.) *)
Definition triple {A} (P : fw -> Prop) (m : M A) (Q : A -> fw -> Prop) : Prop :=
  forall s, P s ->
  match m s with
  | Ret (a, s') => Q a s' | Oob => False | Starved | Reset => True
  end.

Lemma triple_ret {A} (a : A) (P : fw -> Prop) (Q : A -> fw -> Prop) :
  (forall s, P s -> Q a s) -> triple P (mret a) Q.
Proof using Type. intros HQ s HP. by apply HQ. Qed.

Lemma triple_bind {A B} P (R : A -> fw -> Prop) (m : M A) (k : A -> M B) Q :
  triple P m R -> (forall a, triple (R a) (k a) Q) -> triple P (m ≫= k) Q.
Proof using Type.
  intros Hm Hk s HP. specialize (Hm s HP). rewrite bind_run.
  destruct (m s) as [[a s']| | |]; simpl; [|done..]. by apply Hk.
Qed.

Lemma triple_conseq {A} (P P' : fw -> Prop) (m : M A) (Q Q' : A -> fw -> Prop) :
  triple P' m Q' -> (forall s, P s -> P' s) -> (forall a s, Q' a s -> Q a s) ->
  triple P m Q.
Proof using Type.
  intros Hm HP HQ s Hs. specialize (Hm s (HP s Hs)).
  destruct (m s) as [[a s']| | |]; auto.
Qed.

(** An invariant of a program, with bounds on its memory accesses. *)
Definition keeps {A} (I : fw -> Prop) (m : M A) : Prop :=
  triple I m (fun _ => I).

Lemma keeps_ret {A} I (a : A) : keeps I (mret a).
Proof using Type. by apply triple_ret. Qed.
Lemma keeps_bind {A B} I (m : M A) (k : A -> M B) :
  keeps I m -> (forall a, keeps I (k a)) -> keeps I (m ≫= k).
Proof using Type. intros. by eapply triple_bind. Qed.
Lemma keeps_if {A} I (c : bool) (m n : M A) :
  keeps I m -> keeps I n -> keeps I (if c then m else n).
Proof using Type. by destruct c. Qed.
Lemma keeps_when I c m : keeps I m -> keeps I (when c m).
Proof using Type. intros. apply keeps_if; [done | apply keeps_ret]. Qed.
Lemma keeps_getv I x : keeps I (getv x).
Proof using Type. by intros s Hs. Qed.
Lemma keeps_putv (I : fw -> Prop) x v : (forall s, I s -> I (put x v s)) -> keeps I (putv x v).
Proof using Type. intros HI s Hs. simpl. by apply HI. Qed.
Lemma keeps_emit (I : fw -> Prop) e : (forall s, I s -> I (push_out e s)) -> keeps I (emit e).
Proof using Type. intros HI s Hs. simpl. by apply HI. Qed.
Lemma keeps_hang {A} I : keeps I (@hang A).
Proof using Type. by intros s Hs. Qed.
Lemma keeps_for I n from body :
  (forall i, from <= i < from + Z.of_nat n -> keeps I (body i)) -> keeps I (for_ n from body).
Proof using Type.
  revert from. induction n as [|n IH]; intros from Hb; simpl; [apply keeps_ret|].
  apply keeps_bind; [apply Hb; lia|]. intros _. apply IH. intros. apply Hb. lia.
Qed.

Lemma keeps_busy {A} I (uart4 : Z -> M unit) systick (poll : M (option A)) :
  (forall es s, I s -> I (set_sched es s)) ->
  (forall b, keeps I (uart4 b)) -> keeps I systick -> keeps I poll ->
  keeps I (busy_wait uart4 systick poll).
Proof using Type.
  intros Hsch Hu Ht Hp s Hs. unfold busy_wait. generalize (sched s) as es.
  intros es. revert s Hs. induction es as [|[b| |] es IH]; intros s Hs; simpl; [done|..].
  - specialize (Hu b s Hs). destruct (uart4 b s) as [[[] s']| | |]; simpl; [|done..].
    by apply IH.
  - specialize (Ht s Hs). destruct (systick s) as [[[] s']| | |]; simpl; [|done..].
    by apply IH.
  - specialize (Hp s Hs). destruct (poll s) as [[[a|] s']| | |]; simpl; [|by apply IH|done..].
    by apply Hsch.
Qed.

(** Accesses inside the object, for invariants that imply [wf]. *)
Lemma keeps_ld8 (I : fw -> Prop) b o :
  (forall s, I s -> wf s) -> 0 <= o < bsize b ->
  triple I (ld8 b o) (fun v s => I s /\ 0 <= v < 256).
Proof using Type.
  intros HI Ho s Hs. pose proof (HI s Hs) as Hwf.
  destruct (rd_in (block b s) o) as [v Hv]; [by rewrite (wf_size s Hwf)|].
  rewrite (ld8_run _ _ _ _ Hv). split; [done|].
  eapply rd_ok, Hv. by apply wf_bytes.
Qed.
(** A load whose value is used with its range, and a store. *)
Lemma keeps_ld8_bind {A} (I : fw -> Prop) b o (k : Z -> M A) :
  (forall s, I s -> wf s) -> 0 <= o < bsize b ->
  (forall v, 0 <= v < 256 -> keeps I (k v)) -> keeps I (ld8 b o ≫= k).
Proof using Type.
  intros HI Ho Hk. eapply triple_bind; [by apply (keeps_ld8 I)|].
  intros v s [Hs Hv]. by apply Hk.
Qed.
Lemma keeps_st8 b o v : 0 <= o < bsize b -> keeps wf (st8 b o v).
Proof using Type.
  intros Ho s Hs. by destruct (st8_wf b o v s Hs Ho) as (m & _ & -> & Hwf).
Qed.
Lemma keeps_stn b o bs :
  bytes_ok bs -> 0 <= o -> o + blen bs <= bsize b -> keeps wf (stn b o bs).
Proof using Type.
  intros Hb Ho Hl s Hs. by destruct (stn_wf b o bs s Hs Hb Ho Hl) as (m & _ & -> & Hwf).
Qed.
Lemma keeps_st32 b o v : 0 <= o -> o + 4 <= bsize b -> keeps wf (st32 b o v).
Proof using Type. intros. by apply keeps_stn; [apply le32_ok|..]. Qed.
Lemma keeps_ldn_bind {A} b o n (k : bytes -> M A) :
  0 <= o -> 0 <= n -> o + n <= bsize b ->
  (forall bs, bytes_ok bs -> blen bs = n -> keeps wf (k bs)) -> keeps wf (ldn b o n ≫= k).
Proof using Type.
  intros Ho Hn Hl Hk s Hs. pose proof (wf_size s Hs b) as Hsz.
  destruct (rdn (block b s) o n) as [bs|] eqn:E; [|rewrite rdn_in in E by lia; discriminate].
  rewrite bind_run, (ldn_run _ _ _ _ _ E). cbn [obind].
  apply Hk; [eapply rdn_ok, E; by apply wf_bytes | by eapply rdn_blen | done].
Qed.
Lemma keeps_zero b : keeps wf (zero b).
Proof using Type.
  intros s Hs. simpl. apply wf_set_block; [|apply Forall_replicate; lia|done].
  apply blen_replicate. by destruct b.
Qed.
(** A run that stays in the invariant, as an equation. *)
Lemma keeps_run {A} I (m : M A) s a s' : keeps I m -> I s -> m s = Ret (a, s') -> I s'.
Proof using Type. intros Hk Hs E. specialize (Hk s Hs). by rewrite E in Hk. Qed.
Lemma keeps_not_oob {A} I (m : M A) s : keeps I m -> I s -> m s ≠ Oob.
Proof using Type. intros Hk Hs E. specialize (Hk s Hs). by rewrite E in Hk. Qed.
End monad.

(** [mrun] runs the primitives at the head of the goal; [mget] reads back
    what was written. *)
Ltac mstep :=
  first [ rewrite bind_run | rewrite ret_run | rewrite getv_run
        | rewrite putv_run | rewrite emit_run ]; cbn [obind].
Ltac mrun := repeat mstep.
Ltac mget :=
  repeat first
    [ rewrite get_put_eq | rewrite get_put_ne by (done || congruence)
    | rewrite block_set_block_eq | rewrite block_set_block_ne by (done || congruence)
    | rewrite get_set_block | rewrite get_push_out | rewrite get_set_sched
    | rewrite get_set_board | rewrite get_set_table | rewrite get_set_index
    | rewrite get_set_out | rewrite block_set_out
    | rewrite block_put | rewrite block_push_out | rewrite block_set_sched
    | rewrite block_set_board | rewrite block_set_table | rewrite block_set_index ].

Ltac mget_in Hw :=
  repeat first
    [ rewrite block_set_block_eq in Hw | rewrite block_set_block_ne in Hw by (done || congruence)
    | rewrite block_set_out in Hw | rewrite block_put in Hw | rewrite block_push_out in Hw | rewrite block_set_sched in Hw
    | rewrite block_set_board in Hw | rewrite block_set_table in Hw
    | rewrite block_set_index in Hw ].
(** [store Hwf Hw]: run the store at the head of the goal, inside its block,
    from a state well formed by [Hwf]; [Hw] records what it wrote. *)
Ltac in_block :=
  cbn [bsize]; unfold SBUF_size, SBUF_index, SBUF_len, BUF_LEN, ROW, MAXNUM, SAVEMAXNUM, TAGIDLENGTH in *; lia.
Ltac store Hwf Hw :=
  lazymatch goal with
  | |- context [st8 ?b ?o ?v ?s] =>
      let m := fresh "m" in let E := fresh in let H' := fresh in
      destruct (st8_wf b o v s Hwf) as (m & Hw & E & H');
        [try in_block | rewrite E; clear E; clear Hwf; rename H' into Hwf; cbn [obind];
                        mget_in Hw;
                        rewrite ?set_block_twice; rewrite ?set_block_twice in Hwf]
  end.
Ltac storen Hwf Hw :=
  lazymatch goal with
  | |- context [stn ?b ?o ?bs ?s] =>
      let m := fresh "m" in let E := fresh in let H' := fresh in
      destruct (stn_wf b o bs s Hwf) as (m & Hw & E & H');
        [done|try in_block|try in_block|
         rewrite E; clear E; clear Hwf; rename H' into Hwf; cbn [obind];
         mget_in Hw; rewrite ?set_block_twice; rewrite ?set_block_twice in Hwf]
  end.
(** [rdwr]: read through recorded writes to other or the same offsets. *)
Ltac rdwr1 :=
  match goal with
  | Hw : wr ?m ?i ?v = Some ?m' |- context [rd ?m' ?j] =>
      first [ rewrite (rd_wr_ne m i j v m' Hw) by lia
            | replace (rd m' j) with (Some (u8 v))
                by (replace j with i by lia; symmetry; apply (rd_wr_eq m i v m' Hw)) ]
  end.
Ltac rdwr := repeat rdwr1.

(** Proving that a program keeps an invariant: one rule per construct, and the
    hints [keeps] for the programs it calls. *)
Create HintDb keeps discriminated.
#[export] Hint Resolve keeps_ret keeps_getv keeps_hang : keeps.
Ltac keep_side := intros; solve [ auto with fwdb nocore ].
Ltac keep_bounds := try solve [ done | cbn [bsize]; unfold SBUF_size, SBUF_index, SBUF_len, BUF_LEN,
  ROW, MAXNUM, SAVEMAXNUM, TAGIDLENGTH in *; lia ].
Ltac keep1 :=
  first
    [ solve [trivial with keeps nocore]
    | lazymatch goal with
      | |- keeps _ (ld8 _ _ ≫= _) => apply (keeps_ld8_bind wf); [done|keep_bounds|intros ? ?]
      | |- keeps _ (mbind _ _) => apply keeps_bind; [|intros ?]
      | |- keeps _ (when _ _) => apply keeps_when
      | |- keeps _ (putv _ _) => apply keeps_putv; keep_side
      | |- keeps _ (emit _) => apply keeps_emit; keep_side
      | |- keeps _ (st8 _ _ _) => apply keeps_st8; keep_bounds
      | |- keeps _ (st32 _ _ _) => apply keeps_st32; keep_bounds
      | |- keeps _ (zero _) => apply keeps_zero
      | |- keeps _ (for_ _ _ _) => apply keeps_for; intros ? ?
      | |- keeps _ (match ?c with true => _ | false => _ end) =>
          let E := fresh in destruct c eqn:E
      | |- keeps _ (match _ with _ => _ end) => case_match
      | |- keeps _ ((fun _ => _) _) => cbv beta
      end ].
Ltac keep := repeat keep1.

(** [switch (c) { case ls: a; break; ... default: d }] *)
Fixpoint switch {A} (c : Z) (cases : list (list Z * A)) (d : A) : A :=
  match cases with
  | [] => d
  | (labels, a) :: rest => if existsb (Z.eqb c) labels then a else switch c rest d
  end.

Lemma switch_ind {A} (P : A -> Prop) c cases d :
  Forall (fun x => P (snd x)) cases -> P d -> P (switch c cases d).
Proof.
  intros Hc Hd. induction Hc as [|[ls a] rest Ha Hr IH]; simpl; [done|].
  by destruct (existsb _ _).
Qed.

(** Two switches on the same labels whose bodies are related. *)
Lemma switch_rel {A B} (R : A -> B -> Prop) c ca cb da db :
  Forall2 (fun x y => fst x = fst y /\ R (snd x) (snd y)) ca cb -> R da db ->
  R (switch c ca da) (switch c cb db).
Proof.
  intros Hc Hd. induction Hc as [|[ls a] [ls' b] ra rb [Hl Ha] Hr IH]; simpl in *; [done|].
  subst ls'. by destruct (existsb _ _).
Qed.
