(* ===== verification/Timers.v ===== *)
(** * Software timers (common.c) and their countdown (main.c, [Time_Update]) *)
From stdpp Require Import base tactics list numbers option gmap.
From S2P Require Import Prelude Machine Effects.

Section timers.
Context `{Board}.

Definition timerStart (t : tid) (time : Z) : M unit :=
  putv (Tm t isOverflow) 0;;
  putv (Tm t time_) (u32 time);;
  putv (Tm t isStart) 1.

Definition timerStop (t : tid) : M unit :=
  putv (Tm t isOverflow) 0;;
  putv (Tm t isStart) 0.

Definition timerInit (t : tid) : M unit :=
  putv (Tm t isStart) 0;;
  putv (Tm t isOverflow) 0.

Definition timerIsOverflow (t : tid) : M Z :=
  b ← getv (Tm t isOverflow);
  when (negb (b =? 0)) (putv (Tm t isOverflow) 0);;
  mret b.

(** The body shared by every countdown of [Time_Update]. *)
Definition countdown (t : tid) : M unit :=
  n ← getv (Tm t time_);
  if n =? 1 then putv (Tm t isOverflow) 1
  else putv (Tm t time_) (u32 (n - 1)).

(** [if (t.isStart && (0 == t.isOverflow)) countdown] *)
Definition tick_timer (t : tid) : M unit :=
  st ← getv (Tm t isStart);
  ov ← getv (Tm t isOverflow);
  when (negb (st =? 0) && (ov =? 0)) (countdown t).

(** [R2000.send_timer] is counted down whether it is started or not. *)
Definition tick_send_timer : M unit :=
  ov ← getv (Tm R2000_send_timer isOverflow);
  when (ov =? 0) (countdown R2000_send_timer).

(** [memset] of a timer. *)
Definition timerZero (t : tid) : M unit :=
  putv (Tm t isStart) 0;; putv (Tm t isOverflow) 0;; putv (Tm t time_) 0.

(** ** Specifications *)

Fixpoint repeat_ (n : nat) (m : M unit) : M unit :=
  match n with O => mret tt | S n => m;; repeat_ n m end.

(** The state of a running timer: started with [n] ticks, [k] of them gone. *)
Definition running (t : tid) (left : Z) (s : fw) : Prop :=
  get (Tm t isStart) s = 1 /\
  (if left <=? 0 then get (Tm t isOverflow) s = 1
   else get (Tm t isOverflow) s = 0 /\ get (Tm t time_) s = left).

Lemma timerStart_run t n s :
  timerStart t n s =
  Ret (tt, put (Tm t isStart) 1 (put (Tm t time_) (u32 n) (put (Tm t isOverflow) 0 s))).
Proof using Type. unfold timerStart. by mrun. Qed.

Lemma timerStart_running t n s s' :
  0 < n < 4294967296 -> timerStart t n s = Ret (tt, s') -> running t n s'.
Proof using Type.
  intros Hn. rewrite timerStart_run. intros [= <-]. unfold running. mget.
  zcases. rewrite u32_small by lia. done.
Qed.

Lemma tick_running t n s :
  n < 4294967296 -> running t n s ->
  exists s', tick_timer t s = Ret (tt, s') /\ running t (n - 1) s' /\
    (forall x, x ≠ Tm t isOverflow -> x ≠ Tm t time_ -> get x s' = get x s).
Proof using Type.
  intros Hn [Hst Hov]. unfold tick_timer, countdown. mrun. rewrite Hst. simpl.
  destruct (Z.leb_spec n 0) as [Hle|Hgt].
  - rewrite Hov; simpl. eexists; split; [done|]. split; [|done].
    split; [done|]. zcases.
  - destruct Hov as [Ho Ht]; rewrite Ho; simpl. mrun. rewrite Ht.
    destruct (Z.eqb_spec n 1) as [->|Hne]; mrun; cbn iota; mrun; (eexists; split; [done|]);
      (split; [|intros; by mget]); unfold running; mget; (split; [done|]).
    + done.
    + zcases. rewrite u32_small by lia. done.
Qed.

Lemma repeat_tick_running t k n s :
  n < 4294967296 -> running t n s ->
  exists s', repeat_ k (tick_timer t) s = Ret (tt, s') /\ running t (n - Z.of_nat k) s' /\
    (forall x, x ≠ Tm t isOverflow -> x ≠ Tm t time_ -> get x s' = get x s).
Proof using Type.
  revert n s. induction k as [|k IH]; intros n s Hn Hr; simpl.
  { rewrite Z.sub_0_r. eauto. }
  destruct (tick_running t n s Hn Hr) as (s1 & E1 & Hr1 & Hg1). mrun. rewrite E1. cbn [obind].
  destruct (IH (n - 1) s1) as (s2 & -> & Hr2 & Hg2); [lia|done|].
  exists s2. split; [done|]. split; [by replace (n - Z.of_nat (S k)) with (n - 1 - Z.of_nat k) by lia|].
  intros x H1 H2. by rewrite Hg2, Hg1.
Qed.

(** A timer started with [n] ticks overflows at the [n]-th
    countdown and not before, and [timerIsOverflow] reports the overflow once:
    asking again answers no. *)
Theorem timer_expiry t n k s :
  0 < n < 4294967296 ->
  exists s1 s2 s3, timerStart t n s = Ret (tt, s1) /\ repeat_ k (tick_timer t) s1 = Ret (tt, s2) /\
    timerIsOverflow t s2 = Ret (if n <=? Z.of_nat k then 1 else 0, s3) /\
    timerIsOverflow t s3 = Ret (0, s3).
Proof using Type.
  intros Hn. destruct (timerStart t n s) as [[[] s1]| | |] eqn:E1; [|by rewrite timerStart_run in E1..].
  assert (Hr := timerStart_running t n s s1 Hn E1).
  destruct (repeat_tick_running t k n s1) as (s2 & E2 & [Hst Hov] & _); [lia|done|].
  exists s1, s2. unfold timerIsOverflow. mrun.
  destruct (Z.leb_spec (n - Z.of_nat k) 0), (Z.leb_spec n (Z.of_nat k)); try lia.
  - rewrite Hov. simpl. mrun. eexists. split_and!; [done..|]. mrun. mget. done.
  - destruct Hov as [Ho _]. rewrite Ho. simpl. mrun. eexists. split_and!; [done..|]. mrun. rewrite Ho. done.
Qed.
End timers.
