(* ===== verification/Tick.v ===== *)
(** * The SysTick interrupt: [Time_Update] of main.c and what it calls

    Relay pulses ([relay_isr_polling] of main.c, [RelayControl] of common.c),
    the watchdog ([reboot]), the network timers ([LwIP_Periodic_Handle] of
    netconf.c), the buzzer, the status LED and the countdown of the software
    timers, one in ten interrupts. *)
From stdpp Require Import base tactics list numbers option gmap.
From S2P Require Import Prelude Machine Effects Timers.

Section tick.
Context `{Board}.

Definition RELAYON : M unit := emit (PinHi RELAY).
Definition RELAYOFF : M unit := emit (PinLo RELAY).
Definition RELAYON1 : M unit := emit (PinHi RELAY1).
Definition RELAYOFF1 : M unit := emit (PinLo RELAY1).

(** A [u32] countdown that fires [off] when it reaches zero. *)
Definition relay_isr_polling : M unit :=
  r1 ← getv Relay1Times;
  when (negb (r1 =? 0))
    (putv Relay1Times (r1 - 1);;
     r1 ← getv Relay1Times;
     when (r1 =? 0) RELAYOFF);;
  r2 ← getv Relay2Times;
  when (negb (r2 =? 0))
    (putv Relay2Times (r2 - 1);;
     r2 ← getv Relay2Times;
     when (r2 =? 0) RELAYOFF1).

Definition RelayControl : M unit :=
  f ← getv RelayFlag;
  when (negb (f =? 0))
    (n ← getv RelayCountTimes;
     putv RelayCountTimes (u32 (n + 1));;
     n ← getv RelayCountTimes;
     if n <? 400 then RELAYON;; RELAYON1
     else putv RelayFlag 0;; RELAYOFF;; RELAYOFF1;; putv RelayCountTimes 0).

(** [while(1);] leaves the processor to the watchdog. *)
Definition reboot : M unit :=
  r ← getv sysReboot;
  if r =? 1 then
    f ← getv setFlag;
    (if f =? 0 then emit (PinLo LEDYellow);; emit (PinLo LEDGreen);; hang
     else mret tt);;
    emit IwdgReload
  else emit IwdgReload.

Definition TCP_TMR_INTERVAL : Z := 250.
Definition ARP_TMR_INTERVAL : Z := 5000.
Definition LwIP_Periodic_Handle (localtime : Z) : M unit :=
  t ← getv TCPTimer;
  when (u32 (localtime - t) >=? TCP_TMR_INTERVAL)
    (putv TCPTimer localtime;; emit TcpTmr);;
  t ← getv ARPTimer;
  when (u32 (localtime - t) >=? ARP_TMR_INTERVAL)
    (putv ARPTimer localtime;; emit EtharpTmr).

(** Offset of [g_device.workpara.AlarmRnable]. *)
Definition off_AlarmRnable : Z := 82.

Definition beep_step : M unit :=
  f ← getv beepFlag;
  when (negb (f =? 0))
    (c ← getv beepCountTimes;
     putv beepCountTimes (u8 (c + 1));;
     c ← getv beepCountTimes;
     if c <? 2 then
       a ← ld8 g_device off_AlarmRnable;
       when (negb (a =? 0)) (emit (PinHi BEEP));;
       emit (PinLo LEDGreen)
     else if c >? 2 then
       f ← getv beepFlag;
       putv beepFlag (u8 (f - 1));;
       putv beepCountTimes 0
     else emit (PinLo BEEP);; emit (PinHi LEDGreen)).

Definition LEDBASECOUNT : Z := 80.
Definition led_step : M unit :=
  n ← getv sys_timer;
  if n <? LEDBASECOUNT then emit (PinHi LEDYellow)
  else if n <? LEDBASECOUNT + 3 then emit (PinLo LEDYellow)
  else if n <? LEDBASECOUNT + 3 + 15 then emit (PinHi LEDYellow)
  else if n <? LEDBASECOUNT + 3 + 15 + 3 then emit (PinLo LEDYellow)
  else putv sys_timer 0.

(** One interrupt in ten. *)
Definition tenth : M unit :=
  reboot;;
  RelayControl;;
  n ← getv sys_timer;
  putv sys_timer (u32 (n + 1));;
  putv sys_timer1 0;;
  beep_step;;
  led_step;;
  tick_timer local_timer;;
  tick_timer local485_timer;;
  tick_timer UIP_timer;;
  tick_timer ReadCardTimer;;
  tick_timer OutPutTimer;;
  tick_timer R2000_local_timer;;
  tick_send_timer.

Definition SYSTEMTICK_PERIOD_MS : Z := 10.
Definition Time_Update : M unit :=
  relay_isr_polling;;
  n ← getv timess;
  putv timess (u32 (n + 1));;
  t ← getv LocalTime;
  putv LocalTime (u32 (t + SYSTEMTICK_PERIOD_MS));;
  d ← getv TimingmsDelay;
  when (negb (d =? 0)) (putv TimingmsDelay (d - 1));;
  t ← getv LocalTime;
  LwIP_Periodic_Handle t;;
  n ← getv sys_timer1;
  putv sys_timer1 (u32 (n + 1));;
  n ← getv sys_timer1;
  when (n >? 9) tenth.

(** ** The interrupt stays inside its objects and keeps the state well formed *)
Lemma keeps_wf_ld8 b o : 0 <= o < bsize b -> keeps wf (ld8 b o).
Proof using Type.
  intros Ho. eapply triple_conseq; [by apply (keeps_ld8 wf)|done|]. by intros ? ? [].
Qed.
Lemma keeps_wf_tick_timer t : keeps wf (tick_timer t).
Proof using Type. unfold tick_timer, countdown. keep. Qed.
Lemma keeps_wf_tick_send : keeps wf tick_send_timer.
Proof using Type. unfold tick_send_timer, countdown. keep. Qed.
#[local] Hint Resolve keeps_wf_tick_timer keeps_wf_tick_send : keeps.
Lemma keeps_wf_relay_isr_polling : keeps wf relay_isr_polling.
Proof using Type. unfold relay_isr_polling, RELAYOFF, RELAYOFF1. keep. Qed.
Lemma keeps_wf_RelayControl : keeps wf RelayControl.
Proof using Type. unfold RelayControl, RELAYON, RELAYON1, RELAYOFF, RELAYOFF1. keep. Qed.
Lemma keeps_wf_reboot : keeps wf reboot.
Proof using Type. unfold reboot. keep. Qed.
Lemma keeps_wf_LwIP t : keeps wf (LwIP_Periodic_Handle t).
Proof using Type. unfold LwIP_Periodic_Handle. keep. Qed.
Lemma keeps_wf_beep_step : keeps wf beep_step.
Proof using Type. unfold beep_step. keep. Qed.
Lemma keeps_wf_led_step : keeps wf led_step.
Proof using Type. unfold led_step. keep. Qed.
#[local] Hint Resolve keeps_wf_relay_isr_polling keeps_wf_RelayControl
  keeps_wf_reboot keeps_wf_LwIP keeps_wf_beep_step keeps_wf_led_step : keeps.
Lemma keeps_wf_Time_Update : keeps wf Time_Update.
Proof using Type. unfold Time_Update, tenth. keep. Qed.

(** ** The relay pulse *)

Lemma relay_poll_step n s :
  0 < n -> get Relay1Times s = n -> get Relay2Times s = 0 ->
  relay_isr_polling s =
  Ret (tt, if n =? 1 then push_out (PinLo RELAY) (put Relay1Times 0 s) else put Relay1Times (n - 1) s).
Proof using Type.
  intros Hn H1 H2. unfold relay_isr_polling. mrun. rewrite H1.
  destruct (Z.eqb_spec n 0); [lia|]. cbn [negb when]. mrun. mget.
  destruct (Z.eqb_spec n 1) as [->|Hne].
  - change (1 - 1 =? 0) with true. cbn [when]. unfold RELAYOFF. mrun. mget. rewrite H2. done.
  - destruct (Z.eqb_spec (n - 1) 0); [lia|]. cbn [when]. mrun. mget. rewrite H2. done.
Qed.

(** A pulse of [n] on the first relay lasts [n] interrupts: the
    polling leaves the pin alone [n - 1] times and releases it the [n]-th. *)
Theorem relay_pulse n k s :
  get Relay1Times s = Z.of_nat n -> get Relay2Times s = 0 -> (k <= n)%nat -> (0 < k)%nat ->
  exists s', repeat_ k relay_isr_polling s = Ret (tt, s') /\
    get Relay1Times s' = Z.of_nat (n - k) /\
    out s' = if (k =? n)%nat then PinLo RELAY :: out s else out s.
Proof using Type.
  revert n s. induction k as [|k IH]; intros n s H1 H2 Hk Hpos; [lia|].
  cbn [repeat_]. mrun. rewrite (relay_poll_step (Z.of_nat n)) by (done || lia). cbn [obind].
  destruct k as [|k].
  - cbn [repeat_]. mrun. eexists. split; [done|].
    destruct n as [|[|n]]; [lia|change (Z.of_nat 1 =? 1) with true; cbv iota; by mget|].
    destruct (Z.eqb_spec (Z.of_nat (S (S n))) 1); [lia|]. mget. split; [lia|done].
  - destruct (Z.eqb_spec (Z.of_nat n) 1); [lia|]. destruct n as [|n]; [lia|].
    destruct (IH n (put Relay1Times (Z.of_nat (S n) - 1) s)) as (s' & E & Hr & Ho);
      [mget; lia|by mget|lia|lia|].
    exists s'. split; [done|]. split; [rewrite Hr; f_equal; lia|]. by rewrite Ho.
Qed.
End tick.

#[export] Hint Resolve keeps_wf_Time_Update keeps_wf_tick_timer : keeps.
