(* ===== verification/Serial.v ===== *)
(** * The byte receivers (Local_232_module.c, Local_485_module.c, R2000.c)

    The three UART interrupt handlers assemble a frame in their [rec_buf]
    block: a boot code, a length byte [n], [n] bytes.  They share their text
    up to what a complete frame triggers, so one program, [rx_byte], takes the
    port and that continuation.  [rx_step] is the abstract receiver, over the
    list of bytes collected so far, that the handlers refine for frames that
    fit the buffer. *)
From stdpp Require Import base tactics list numbers option gmap.
From S2P Require Import Prelude Machine Effects Timers.

Definition BootCode : Z := 64.
Definition LOCAL_REV_TIMER : Z := 50.

(** The globals of one receiver and the boot code it waits for. *)
Record port := mkPort { p_rec : blk; p_mark : gv; p_timer : tid; p_boot : Z }.
Definition port232 : port := mkPort local_rec local_set_mark local_timer BootCode.
Definition port485 : port := mkPort local485_rec local485_set_mark local485_timer BootCode.
Definition portR2000 : port := mkPort R2000_rec R2000_set_mark R2000_local_timer 160.

Section serial.
Context `{Board}.

(** The interrupt handler of a port, for the received byte [c]. *)
Definition rx_byte (p : port) (complete : M unit) (c : Z) : M unit :=
  mark ← getv (p_mark p);
  if mark =? 0 then
    index ← ld32 (p_rec p) SBUF_index;
    if (index =? 0) && (c =? p_boot p) then
      st8 (p_rec p) index c;;
      st32 (p_rec p) SBUF_index (u32 (index + 1));;
      timerStart (p_timer p) LOCAL_REV_TIMER
    else if negb (index =? 0) then
      if index >? BUF_LEN then
        st32 (p_rec p) SBUF_index 0;;
        st32 (p_rec p) SBUF_len 0;;
        timerStop (p_timer p)
      else
        st8 (p_rec p) index c;;
        index ← ld32 (p_rec p) SBUF_index;
        n ← ld8 (p_rec p) 1;
        if index >? n then
          st32 (p_rec p) SBUF_len (u32 (index + 1));;
          st32 (p_rec p) SBUF_index 0;;
          complete
        else st32 (p_rec p) SBUF_index (u32 (index + 1))
    else mret tt
  else mret tt.

(** A complete host frame raises [set_mark] and stops the timer. *)
Definition host_complete (p : port) : M unit :=
  putv (p_mark p) 1;; timerStop (p_timer p).

Definition USART2_IRQHandler (c : Z) : M unit := rx_byte port232 (host_complete port232) c.
Definition USART1_IRQHandler (c : Z) : M unit := rx_byte port485 (host_complete port485) c.

(** [memset(&local, 0, sizeof(local))] for a receiver's structure. *)
Definition port_zero (p : port) : M unit :=
  putv (p_mark p) 0;; zero (p_rec p);; timerZero (p_timer p).

(** ** The abstract receiver *)

(** [inl acc]: the bytes collected so far; [inr frame]: a complete frame. *)
Definition rx_step (boot : Z) (acc : bytes) (c : Z) : bytes + bytes :=
  match acc with
  | [] => inl (if c =? boot then [c] else [])
  | _ =>
      let acc' := acc ++ [c] in
      match acc' !! 1%nat with
      | Some n => if blen acc >? n then inr acc' else inl acc'
      | None => inl acc'
      end
  end.

Definition MAX_DECLARED : Z := 254.
(** Frames in progress: no more bytes than their length byte announces. *)
Definition rx_fits (acc : bytes) : Prop :=
  forall n, acc !! 1%nat = Some n -> 0 <= n <= MAX_DECLARED /\ blen acc <= n + 1.

Record rx_rel (p : port) (acc : bytes) (s : fw) : Prop := {
  rx_wf : wf s;
  rx_mark : get (p_mark p) s = 0;
  rx_index : rdn (block (p_rec p) s) SBUF_index 4 = Some (le32 (blen acc));
  rx_prefix : rdn (block (p_rec p) s) 0 (blen acc) = Some acc;
  rx_fit : rx_fits acc }.

(** What a complete frame leaves for the continuation. *)
Record rx_done (p : port) (frame : bytes) (s : fw) : Prop := {
  rd_wf : wf s;
  rd_mark : get (p_mark p) s = 0;
  rd_index : rdn (block (p_rec p) s) SBUF_index 4 = Some (le32 0);
  rd_len : rdn (block (p_rec p) s) SBUF_len 4 = Some (le32 (blen frame));
  rd_prefix : rdn (block (p_rec p) s) 0 (blen frame) = Some frame }.

Lemma rx_fits_lt acc : rx_fits acc -> 0 <= blen acc <= 255.
Proof using Type.
  intros Hf. destruct acc as [|a [|n acc]]; [done..|].
  destruct (Hf n eq_refl) as [Hn Hl]. unfold MAX_DECLARED in Hn.
  pose proof (blen_nonneg (a :: n :: acc)). lia.
Qed.

Lemma port_size p : p_rec p ∈ [R2000_rec; local_rec; local485_rec] -> bsize (p_rec p) = 263.
Proof using Type. intros Hp. by repeat (apply elem_of_cons in Hp as [->|Hp]); [..|set_solver]. Qed.

Section refinement.
Context (p : port) (complete : M unit).
Context (Hport : p_rec p ∈ [R2000_rec; local_rec; local485_rec])
        (Hmark : forall t f, p_mark p ≠ Tm t f).

Lemma rx_boot s :
  rx_rel p [] s -> 0 <= p_boot p < 256 ->
  exists s', rx_byte p complete (p_boot p) s = Ret (tt, s') /\ rx_rel p [p_boot p] s'.
Proof using Hport Hmark.
  intros [Hwf Hm Hi Hp Hf] Hb. unfold rx_byte. mrun. rewrite Hm. cbn.
  mrun. rewrite (ld32_run _ _ _ _ Hi). cbn [obind].
  change (unle (le32 (blen []))) with 0. rewrite !Z.eqb_refl. cbn. mrun.
  pose proof (port_size p Hport) as Hsz.
  destruct (st8_wf (p_rec p) 0 (p_boot p) s Hwf) as (m & Hw & -> & Hwf'); [lia|].
  cbn [obind]. mrun. change (u32 (0 + 1)) with 1.
  destruct (st32_wf (p_rec p) SBUF_index 1 _ Hwf') as (m' & Hw' & -> & Hwf2);
    [unfold SBUF_index; lia..|].
  rewrite block_set_block_eq in Hw'. cbn [obind]. rewrite timerStart_run.
  eexists. split; [done|]. split; mget.
  - auto with fwdb.
  - done.
  - by rewrite (rdn_wrn_le32 _ _ _ _ Hw').
  - rewrite (rdn_wrn_out _ _ _ _ _ _ Hw') by (unfold SBUF_index, blen; simpl; lia).
    change (blen [p_boot p]) with (0 + 1). rewrite (rdn_snoc _ 0 [] _ _ Hp Hw). by rewrite u8_small.
  - by intros n [=].
Qed.

Lemma rx_noise s c :
  rx_rel p [] s -> c ≠ p_boot p -> rx_byte p complete c s = Ret (tt, s).
Proof using Hport.
  intros [Hwf Hm Hi Hp Hf] Hc. unfold rx_byte. mrun. rewrite Hm. cbn.
  mrun. rewrite (ld32_run _ _ _ _ Hi). cbn [obind].
  change (unle (le32 (blen []))) with 0. rewrite (proj2 (Z.eqb_neq c _) Hc). done.
Qed.

(** The byte at index 1 of the buffer once [c] has been stored. *)
Lemma rx_declared a (acc : bytes) c :
  exists n, ((a :: acc) ++ [c]) !! 1%nat = Some n /\
    (n = c /\ acc = [] \/ exists tl, acc = n :: tl).
Proof using Type. destruct acc as [|b acc]; simpl; eauto. Qed.

(** A byte inside a frame is stored, and the length byte decides. *)
Lemma rx_store s acc c n :
  rx_rel p acc s -> acc ≠ [] -> blen acc <= 254 -> 0 <= c < 256 -> (acc ++ [c]) !! 1%nat = Some n ->
  exists m, wf (set_block (p_rec p) m s) /\
    rdn m 0 (blen acc + 1) = Some (acc ++ [c]) /\
    rx_byte p complete c s =
    (if blen acc >? n then
       st32 (p_rec p) SBUF_len (u32 (blen acc + 1));; st32 (p_rec p) SBUF_index 0;; complete
     else st32 (p_rec p) SBUF_index (u32 (blen acc + 1))) (set_block (p_rec p) m s).
Proof using Hport Hmark.
  intros [Hwf Hm Hi Hp Hf] Hne Hle Hc Hn.
  pose proof (rx_fits_lt _ Hf) as Hlt. pose proof (port_size p Hport) as Hsz.
  assert (Hpos : 1 <= blen acc) by (destruct acc; [done|unfold blen; simpl; lia]).
  destruct (st8_wf (p_rec p) (blen acc) c s Hwf) as (m & Hw & Est & Hwf'); [lia|].
  assert (Hpre := rdn_snoc _ _ _ _ _ Hp Hw). rewrite (u8_small c) in Hpre by lia.
  assert (Hi' : rdn m SBUF_index 4 = Some (le32 (blen acc)))
    by by rewrite (rdn_wr_out _ _ _ _ _ _ Hw) by (unfold SBUF_index; lia).
  assert (Hn1 : rd m 1 = Some n).
  { assert (Hr := rd_rdn _ _ _ _ 1 Hpre). rewrite Z.add_0_l in Hr. by rewrite <- Hr by lia. }
  exists m. split; [done|]. split; [done|].
  lazymatch goal with |- _ = ?rhs => set (R := rhs) end.
  unfold rx_byte. mrun. rewrite Hm. cbn -[Z.gtb]. mrun.
  rewrite (ld32_run _ _ _ _ Hi), unle_le32 by lia. cbn [obind].
  rewrite (proj2 (Z.eqb_neq (blen acc) 0)) by lia. cbn -[Z.gtb].
  assert (blen acc >? BUF_LEN = false) as -> by (unfold BUF_LEN; rewrite Z.gtb_ltb; by apply Z.ltb_ge; lia).
  mrun. rewrite Est. cbn [obind]. mrun.
  rewrite (ld32_run _ _ _ (le32 (blen acc))), unle_le32 by (mget; done || lia). cbn [obind]. mrun.
  by rewrite (ld8_run (p_rec p) 1 _ n) by by mget.
Qed.

Lemma rx_more s acc c :
  rx_rel p acc s -> acc ≠ [] -> blen acc <= 254 ->
  0 <= c <= MAX_DECLARED \/ (0 <= c < 256 /\ 2 <= blen acc) ->
  match rx_step (p_boot p) acc c with
  | inl acc' => exists s', rx_byte p complete c s = Ret (tt, s') /\ rx_rel p acc' s'
  | inr frame => exists s', rx_byte p complete c s = complete s' /\ rx_done p frame s'
  end.
Proof using Hport Hmark.
  intros Hrel Hne Hle Hc. pose proof Hrel as [_ Hm Hi _ Hf]. pose proof (port_size p Hport) as Hsz.
  assert (Hc256 : 0 <= c < 256) by (unfold MAX_DECLARED in Hc; lia).
  destruct acc as [|a acc]; [done|].
  destruct (rx_declared a acc c) as (n & Hn & Hcase).
  assert (Hnr : 0 <= n <= MAX_DECLARED).
  { destruct Hcase as [[-> ->]|[tl ->]].
    - unfold MAX_DECLARED, blen in *; simpl in *; lia.
    - by destruct (Hf n eq_refl). }
  destruct (rx_store s (a :: acc) c n) as (m & Hwf & Hpre & ->); [done..|].
  assert (Hbl : blen ((a :: acc) ++ [c]) = blen (a :: acc) + 1) by by rewrite blen_app.
  unfold rx_step. rewrite Hn. pose proof (blen_nonneg (a :: acc)).
  destruct (blen (a :: acc) >? n) eqn:Hgt; rewrite Z.gtb_ltb in Hgt;
    [apply Z.ltb_lt in Hgt | apply Z.ltb_ge in Hgt]; mrun.
  - destruct (st32_wf (p_rec p) SBUF_len (u32 (blen (a :: acc) + 1)) _ Hwf)
      as (m2 & Hw2 & -> & Hwf2); [unfold SBUF_len; lia..|]. cbn [obind]. mrun.
    destruct (st32_wf (p_rec p) SBUF_index 0 _ Hwf2)
      as (m3 & Hw3 & -> & Hwf3); [unfold SBUF_index; lia..|]. cbn [obind].
    rewrite block_set_block_eq in Hw2, Hw3. rewrite u32_small in Hw2 by lia.
    eexists; split; [done|]. split; mget; rewrite ?Hbl; try done.
    + by rewrite (rdn_wrn_le32 _ _ _ _ Hw3).
    + rewrite (rdn_wrn_out _ _ _ _ _ _ Hw3) by (rewrite ?le32_blen; unfold SBUF_len, SBUF_index; lia).
      by rewrite (rdn_wrn_le32 _ _ _ _ Hw2).
    + rewrite (rdn_wrn_out _ _ _ _ _ _ Hw3) by (rewrite ?le32_blen; unfold SBUF_index; lia).
      by rewrite (rdn_wrn_out _ _ _ _ _ _ Hw2) by (rewrite ?le32_blen; unfold SBUF_len; lia).
  - destruct (st32_wf (p_rec p) SBUF_index (u32 (blen (a :: acc) + 1)) _ Hwf)
      as (m2 & Hw2 & -> & Hwf2); [unfold SBUF_index; lia..|].
    rewrite block_set_block_eq in Hw2. rewrite u32_small in Hw2 by lia.
    eexists; split; [done|]. split; mget; rewrite ?Hbl; try done.
    + by rewrite (rdn_wrn_le32 _ _ _ _ Hw2).
    + by rewrite (rdn_wrn_out _ _ _ _ _ _ Hw2) by (rewrite ?le32_blen; unfold SBUF_index; lia).
    + intros n' Hn'. assert (n' = n) as -> by congruence. rewrite Hbl. lia.
Qed.
End refinement.

(** A sequence of received bytes. *)
Fixpoint feed (h : Z -> M unit) (bs : bytes) : M unit :=
  match bs with [] => mret tt | b :: bs => h b;; feed h bs end.

Lemma feed_app h a b s :
  feed h (a ++ b) s = obind (feed h a s) (fun '(_, s') => feed h b s').
Proof using Type.
  revert s. induction a as [|x a IH]; intros s; simpl; mrun; [done|].
  destruct (h x s) as [[[] s']| | |]; simpl; [apply IH|done..].
Qed.

(** The frame of the protocol: boot code, length, and that many bytes. *)
Definition mk_frame (boot : Z) (payload : bytes) : bytes := boot :: blen payload :: payload.

Section frames.
Context (p : port) (complete : M unit).
Context (Hport : p_rec p ∈ [R2000_rec; local_rec; local485_rec])
        (Hmark : forall t f, p_mark p ≠ Tm t f) (Hboot : 0 <= p_boot p < 256).

(** The handler waits through any bytes that are not the boot code. *)
Lemma feed_noise s noise :
  rx_rel p [] s -> Forall (fun c => c ≠ p_boot p) noise ->
  feed (rx_byte p complete) noise s = Ret (tt, s).
Proof using Hport.
  intros Hr Hn. induction Hn as [|c noise Hc Hn IH]; simpl; mrun; [done|].
  rewrite (rx_noise p complete Hport s c) by done. cbn [obind]. done.
Qed.

Lemma feed_partial s n pre rest :
  rx_rel p (p_boot p :: n :: pre) s -> bytes_ok rest ->
  blen (pre ++ rest) < n -> n <= 254 ->
  exists s', feed (rx_byte p complete) rest s = Ret (tt, s') /\
    rx_rel p (p_boot p :: n :: pre ++ rest) s'.
Proof using Hport Hmark.
  revert s pre. induction rest as [|c rest IH]; intros s pre Hr Hok Hlt Hn; simpl.
  { rewrite app_nil_r. eauto. }
  apply Forall_cons_1 in Hok as [Hc Hok].
  rewrite blen_app, blen_cons in Hlt. pose proof (blen_nonneg rest).
  pose proof (blen_nonneg pre).
  assert (Hl : blen (p_boot p :: n :: pre) = 2 + blen pre) by (rewrite !blen_cons; lia).
  assert (Hm := rx_more p complete Hport Hmark s _ c Hr ltac:(done) ltac:(lia) ltac:(right; lia)).
  unfold rx_step in Hm. cbn [app lookup list_lookup] in Hm. cbn in Hm.
  rewrite Hl, Z.gtb_ltb in Hm. destruct (Z.ltb_spec n (2 + blen pre)); [lia|].
  destruct Hm as (s' & E & Hr'). mrun. rewrite E. cbn [obind].
  assert (Hlt' : blen ((pre ++ [c]) ++ rest) < n).
  { rewrite !blen_app. change (blen [c]) with 1. lia. }
  destruct (IH s' (pre ++ [c]) Hr' Hok Hlt' Hn) as (s2 & E2 & Hr2).
  exists s2. split; [done|]. by rewrite <- app_assoc in Hr2.
Qed.

(** From the idle state to one byte short of a complete frame. *)
Lemma feed_header s n :
  rx_rel p [] s -> 1 <= n <= 254 ->
  exists s', feed (rx_byte p complete) [p_boot p; n] s = Ret (tt, s') /\
    rx_rel p [p_boot p; n] s'.
Proof using Hport Hmark Hboot.
  intros Hr Hn. simpl. mrun.
  destruct (rx_boot p complete Hport Hmark s Hr Hboot) as (s1 & -> & Hr1). cbn [obind]. mrun.
  assert (Hm := rx_more p complete Hport Hmark s1 _ n Hr1 ltac:(done)).
  unfold rx_step in Hm. cbn in Hm. rewrite Z.gtb_ltb in Hm.
  change (blen [p_boot p]) with 1 in Hm. destruct (Z.ltb_spec n 1); [lia|].
  destruct Hm as (s2 & -> & Hr2); [lia|unfold MAX_DECLARED; lia|]. cbn [obind]. mrun. eauto.
Qed.

Lemma feed_frame s payload last :
  rx_rel p [] s -> bytes_ok (payload ++ [last]) -> blen (payload ++ [last]) <= 253 ->
  exists s', feed (rx_byte p complete) (mk_frame (p_boot p) (payload ++ [last])) s = complete s' /\
    rx_done p (mk_frame (p_boot p) (payload ++ [last])) s'.
Proof using Hport Hmark Hboot.
  intros Hr [Hok Hlast]%Forall_app Hle. set (n := blen (payload ++ [last])) in *.
  assert (Hn : n = blen payload + 1) by (unfold n; rewrite blen_app; done).
  pose proof (blen_nonneg payload).
  destruct (feed_header s n Hr ltac:(lia)) as (s1 & E1 & Hr1).
  destruct (feed_partial s1 n [] payload Hr1 Hok ltac:(simpl; lia) ltac:(lia)) as (s2 & E2 & Hr2).
  apply Forall_cons_1 in Hlast as [Hlast _].
  assert (Hl : blen (p_boot p :: n :: payload) = 2 + blen payload) by (rewrite !blen_cons; lia).
  assert (Hm := rx_more p complete Hport Hmark s2 _ last Hr2 ltac:(done)
                  ltac:(simpl; lia) ltac:(right; simpl; lia)).
  unfold rx_step in Hm. cbn in Hm. rewrite Hl, Z.gtb_ltb in Hm.
  destruct (Z.ltb_spec n (2 + blen payload)); [|lia].
  destruct Hm as (s3 & E3 & Hd). exists s3. split; [|exact Hd].
  change (mk_frame (p_boot p) (payload ++ [last]))
    with ([p_boot p; n] ++ payload ++ [last]).
  rewrite feed_app, E1. cbn [obind]. rewrite feed_app, E2. cbn [obind].
  simpl. mrun. rewrite E3. by destruct (complete s3) as [[[] ?]| | |].
Qed.


(** The byte that arrives when [index] is 255 lands on [index] itself. *)
Lemma rx_overrun s acc n c :
  rx_rel p acc s -> acc !! 1%nat = Some n -> blen acc = 255 -> 0 <= c <= n ->
  exists s', rx_byte p complete c s = Ret (tt, s') /\
    get (p_mark p) s' = get (p_mark p) s /\
    rdn (block (p_rec p) s') SBUF_index 4 = Some (le32 (c + 1)).
Proof using Hport Hmark.
  intros [Hwf Hm Hi Hp Hf] Hn Hl Hc. pose proof (port_size p Hport) as Hsz.
  destruct (Hf n Hn) as [Hnr _]. unfold MAX_DECLARED in Hnr.
  unfold rx_byte. mrun. rewrite Hm. cbn -[Z.gtb]. mrun.
  rewrite (ld32_run _ _ _ _ Hi), Hl, unle_le32 by lia. cbn [obind].
  change (negb (255 =? 0)) with true. cbn [andb Z.eqb]. cbv iota.
  change (255 >? BUF_LEN) with false. cbv iota. mrun.
  destruct (st8_wf (p_rec p) 255 c s Hwf) as (m & Hw & -> & Hwf'); [lia|].
  cbn [obind]. mrun.
  assert (Hi' : rdn m SBUF_index 4 = Some (le32 c)).
  { rewrite Hl in Hi. unfold SBUF_index in *.
    assert (H1 := rdn_1 _ _ _ (rd_wr_eq _ _ _ _ Hw)).
    destruct (rdn_cons (block (p_rec p) s) 255 3 _ Hi) as (x & r & _ & Hr & Hcons); [lia|].
    rewrite <- (rdn_wr_out _ _ _ _ (255 + 1) 3 Hw) in Hr by lia.
    assert (Ha := rdn_app m 255 1 3 _ _ H1 Hr). change (1 + 3) with 4 in Ha. rewrite Ha. f_equal. injection Hcons as _ <-.
    unfold le32. rewrite !Z.div_small by lia. done. }
  rewrite (ld32_run _ _ _ (le32 c)) by by mget. cbn [obind]. mrun.
  rewrite unle_le32 by lia.
  assert (Hrd : rd (block (p_rec p) (set_block (p_rec p) m s)) 1 = Some n).
  { mget. rewrite (rd_wr_ne _ _ _ _ _ Hw) by lia.
    assert (Hr := rd_rdn _ _ _ _ 1 Hp). rewrite Z.add_0_l in Hr. rewrite <- Hr by lia. done. }
  rewrite (ld8_run _ _ _ _ Hrd). cbn [obind]. rewrite Z.gtb_ltb.
  destruct (Z.ltb_spec n c); [lia|].
  destruct (st32_wf (p_rec p) SBUF_index (u32 (c + 1)) _ Hwf')
    as (m2 & Hw2 & -> & Hwf2); [unfold SBUF_index; lia..|].
  rewrite block_set_block_eq in Hw2. eexists; split; [done|]. split; mget; [done|].
  rewrite (rdn_wrn_le32 _ _ _ _ Hw2). by rewrite u32_small by lia.
Qed.
End frames.

(** The receiver between two frames, with its buffer's index at zero. *)
Definition rx_idle (p : port) (s : fw) : Prop :=
  wf s /\ get (p_mark p) s = 0 /\ rdn (block (p_rec p) s) SBUF_index 4 = Some (le32 0).

Lemma rx_idle_rel p s :
  p_rec p ∈ [R2000_rec; local_rec; local485_rec] -> rx_idle p s -> rx_rel p [] s.
Proof using Type.
  intros Hp (Hwf & Hm & Hi). split; try done.
  rewrite rdn_in; [done|done|done|]. rewrite (wf_size s Hwf), port_size by done. done.
Qed.

Definition host_port (p : port) : Prop := p = port232 \/ p = port485.

Lemma host_port_facts p :
  host_port p -> p_rec p ∈ [R2000_rec; local_rec; local485_rec] /\
    (forall t f, p_mark p ≠ Tm t f) /\ p_boot p = BootCode.
Proof using Type. intros [->| ->]; split_and!; done || set_solver. Qed.

(** C4: the interrupt handlers of the two host ports, started
    idle, skip any bytes before a boot code and deliver every frame that
    declares between 1 and 253 bytes: [set_mark] is raised exactly when its
    last byte arrives, [rec_buf] holds the frame and [len] its length, the
    index is back at zero and the inter-byte timer is stopped. *)
Theorem frame_delivered p noise payload last s :
  host_port p -> rx_idle p s -> Forall (fun c => c ≠ BootCode) noise ->
  bytes_ok (payload ++ [last]) -> blen (payload ++ [last]) <= 253 ->
  let fr := mk_frame BootCode (payload ++ [last]) in
  exists s', feed (rx_byte p (host_complete p)) (noise ++ fr) s = Ret (tt, s') /\
    wf s' /\ get (p_mark p) s' = 1 /\ get (Tm (p_timer p) isStart) s' = 0 /\
    rdn (block (p_rec p) s') 0 (blen fr) = Some fr /\
    rdn (block (p_rec p) s') SBUF_len 4 = Some (le32 (blen fr)) /\
    rdn (block (p_rec p) s') SBUF_index 4 = Some (le32 0).
Proof using Type.
  intros Hp Hidle Hn Hok Hle fr. subst fr. destruct (host_port_facts p Hp) as (Hport & Hmark & Hboot).
  rewrite <- Hboot in *. assert (Hr := rx_idle_rel p s Hport Hidle).
  rewrite feed_app, (feed_noise p (host_complete p) Hport) by done. cbn [obind].
  destruct (feed_frame p (host_complete p) Hport Hmark ltac:(by rewrite Hboot) s payload last Hr Hok Hle)
    as (s1 & -> & [Hwf Hm Hi Hl Hpre]).
  unfold host_complete, timerStop. mrun. eexists. split; [done|].
  assert (Hne : forall f, p_mark p ≠ Tm (p_timer p) f) by auto.
  split_and!; mget; auto with fwdb.
Qed.

(** a frame that declares 254 bytes overruns [rec_buf].  The
    guard [index > BUF_LEN] lets byte 255 through, it is stored on the low byte
    of [index], and the receiver, still waiting, continues from that value. *)
Theorem frame_254_lost p payload c s :
  host_port p -> rx_idle p s -> bytes_ok payload -> blen payload = 253 -> 0 <= c <= 254 ->
  exists s', feed (rx_byte p (host_complete p)) (mk_frame BootCode (payload ++ [c])) s = Ret (tt, s') /\
    get (p_mark p) s' = 0 /\
    rdn (block (p_rec p) s') SBUF_index 4 = Some (le32 (c + 1)).
Proof using Type.
  intros Hp Hidle Hok Hl Hc. destruct (host_port_facts p Hp) as (Hport & Hmark & Hboot).
  assert (Hr := rx_idle_rel p s Hport Hidle). unfold mk_frame. rewrite blen_app, Hl.
  change (253 + blen [c]) with 254.
  assert (Hb : 0 <= p_boot p < 256) by by rewrite Hboot.
  destruct (feed_header p (host_complete p) Hport Hmark Hb s 254 Hr ltac:(lia)) as (s1 & E1 & Hr1).
  destruct (feed_partial p (host_complete p) Hport Hmark s1 254 [] payload Hr1 Hok) as (s2 & E2 & Hr2);
    [simpl; lia|lia|]. cbn [app] in Hr2.
  destruct (rx_overrun p (host_complete p) Hport Hmark s2 _ 254 c Hr2) as (s3 & E3 & Hm3 & Hi3);
    [done|rewrite !blen_cons, Hl; done|lia|].
  exists s3. rewrite <- Hboot.
  change (p_boot p :: 254 :: payload ++ [c]) with ([p_boot p; 254] ++ payload ++ [c]).
  rewrite feed_app, E1. cbn [obind]. rewrite feed_app, E2. cbn [obind].
  cbn [feed]. rewrite bind_run, E3. cbn [obind]. split_and!; [done| |done].
  rewrite Hm3. apply Hr2.
Qed.
End serial.
