(* ===== verification/Packet.v ===== *)
(** * Frames (common.h), their checksum (common.c) and [packet] (ParamItem.c)

    A host frame is [bootCode len cmd para ... checksum]; a frame on RS-485
    has the reader's address between [cmd] and [para].  [len] counts the bytes
    after it. *)
From stdpp Require Import base tactics list numbers option gmap.
From S2P Require Import Prelude Machine Effects.

Definition CMDOORCHECKOK : Z := 0.
Definition ANTCONNECTFAIL : Z := 1.
Definition NOTAG : Z := 2.
Definition CHECKSUMWRONG : Z := 6.
Definition PARAWRONG : Z := 7.
Definition INVALIDMASTERCMD : Z := 11.
Definition INVALIDINSTRUCTION : Z := 30.
Definition ORTHERWRONG : Z := 32.
Definition ERRORNORETURN : Z := 255.

Definition SourceFrom232 : Z := 0.
Definition SourceFrom485 : Z := 1.
Definition SourceFromUDP : Z := 2.

(** Offsets in [SCMD_STR] and [SCMD_STR1]; [off_para a] for a frame with [a]
    address bytes. *)
Definition off_len : Z := 1.
Definition off_cmd : Z := 2.
Definition off_addr : Z := 3.
Definition addr_bytes (cmdOrigin : Z) : Z := if cmdOrigin =? SourceFrom485 then 1 else 0.
Definition off_para (cmdOrigin : Z) : Z := 3 + addr_bytes cmdOrigin.

Section packet.
Context `{Board}.

Fixpoint sum_loop (b : blk) (n : nat) (i sum : Z) : M Z :=
  match n with
  | O => mret sum
  | S n => c ← ld8 b i; sum_loop b n (i + 1) (u8 (sum + c))
  end.

Definition SetChecksum (b : blk) (length : Z) : M Z :=
  sum ← sum_loop b (Z.to_nat length) 0 0;
  mret (u8 (Z.lnot sum + 1)).

Definition packet (cmdOrigin returnFlag : Z) (b : blk) (size : Z) : M Z :=
  let finish (flag : Z) : M Z :=
    len ← ld8 b off_len;
    mret (if len + 2 >=? size then ERRORNORETURN else flag) in
  if negb (returnFlag =? CMDOORCHECKOK) then
    st8 b 0 0xF4;;
    (if cmdOrigin =? SourceFrom485 then
       st8 b off_len 4;;
       st8 b 4 returnFlag;;
       c ← SetChecksum b 5;
       st8 b 5 c
     else
       st8 b off_len 3;;
       st8 b 3 returnFlag;;
       c ← SetChecksum b 4;
       st8 b 4 c);;
    finish returnFlag
  else
    st8 b 0 0xF0;;
    len ← ld8 b off_len;
    if cmdOrigin =? SourceFrom485 then
      if len <? 3 then mret ERRORNORETURN
      else
        c ← SetChecksum b (len + 1);
        st8 b (4 + (len - 3)) c;;
        finish returnFlag
    else
      if len <? 2 then mret ERRORNORETURN
      else
        c ← SetChecksum b (len + 1);
        st8 b (3 + (len - 2)) c;;
        finish returnFlag.

(** ** Specification *)

Definition zsum (bs : bytes) : Z := foldr Z.add 0 bs.
Definition checksum (bs : bytes) : Z := u8 (- zsum bs).

(** The frame in the first [len + 2] bytes of a block: its bytes add up to zero. *)
Definition frame_at (m : bytes) (bs : bytes) : Prop :=
  exists len, rd m off_len = Some len /\ rdn m 0 (len + 2) = Some bs.
Definition frame_valid (bs : bytes) : Prop := u8 (zsum bs) = 0.

Lemma zsum_app a b : zsum (a ++ b) = zsum a + zsum b.
Proof using Type. induction a as [|x a IH]; simpl; [done|]. rewrite IH. lia. Qed.

Lemma u8_lnot x : u8 (Z.lnot (u8 x) + 1) = u8 (- x).
Proof using Type.
  unfold u8, Z.lnot. replace (Z.pred (- (x mod 256)) + 1) with (- (x mod 256)) by lia.
  apply Z.bits_inj'. intros n Hn.
  replace (- (x mod 256)) with (0 - x mod 256) by lia.
  by rewrite Zminus_mod_idemp_r.
Qed.

Lemma frame_checksum bs : frame_valid (bs ++ [checksum bs]).
Proof using Type.
  unfold frame_valid, checksum. rewrite zsum_app. simpl. rewrite Z.add_0_r.
  rewrite u8_add_r. by rewrite Z.add_opp_diag_r.
Qed.

Lemma frame_checksum_inv bs c : 0 <= c < 256 -> frame_valid (bs ++ [c]) -> c = checksum bs.
Proof using Type.
  unfold frame_valid, checksum, u8. rewrite zsum_app. simpl. rewrite Z.add_0_r. intros Hc Hz.
  apply Z.mod_divide in Hz as [k Hk]; [|lia].
  replace (- zsum bs) with (c + (- k) * 256) by lia.
  rewrite Z.mod_add, Z.mod_small by lia. done.
Qed.

Lemma sum_loop_run b n i sum bs s :
  rdn (block b s) i (Z.of_nat n) = Some bs -> 0 <= sum < 256 ->
  sum_loop b n i sum s = Ret (u8 (sum + zsum bs), s).
Proof using Type.
  revert i sum bs. induction n as [|n IH]; intros i sum bs Hbs Hs; simpl.
  { pose proof (rdn_blen _ _ _ _ Hbs) as Hl. destruct bs; [|unfold blen in Hl; simpl in Hl; lia].
    simpl. by rewrite Z.add_0_r, u8_small. }
  pose proof Hbs as (H0 & _ & H2 & Heq)%rdn_Some.
  destruct (rd_in (block b s) i ltac:(lia)) as [v Hv].
  mrun. rewrite (ld8_run _ _ _ _ Hv). cbn [obind].
  assert (Htl : rdn (block b s) (i + 1) (Z.of_nat n) =
    Some (take n (drop (S (Z.to_nat i)) (block b s)))).
  { rewrite rdn_in by lia. do 2 f_equal; [lia|]. f_equal. lia. }
  rewrite (IH _ _ _ Htl) by apply u8_range.
  f_equal. f_equal. rewrite u8_add_l. f_equal. subst bs.
  replace (Z.to_nat (Z.of_nat (S n))) with (S n) by lia.
  unfold rd in Hv. destruct (Z.leb_spec 0 i); [|lia].
  rewrite (drop_S (block b s) v (Z.to_nat i) Hv). simpl. lia.
Qed.

Lemma SetChecksum_run b n bs s :
  rdn (block b s) 0 n = Some bs -> SetChecksum b n s = Ret (checksum bs, s).
Proof using Type.
  intros Hb. pose proof Hb as (_ & Hn & _)%rdn_Some. unfold SetChecksum. mrun.
  rewrite (sum_loop_run b (Z.to_nat n) 0 0 bs) by (rewrite ?Z2Nat.id; done || lia). cbn [obind].
  rewrite ret_run. f_equal. f_equal. rewrite Z.add_0_l. apply u8_lnot.
Qed.
(** Appending the checksum of a prefix turns it into a valid frame. *)
Lemma seal_run {A} b n pre s (k : M A) :
  wf s -> rdn (block b s) 0 n = Some pre -> n < bsize b ->
  exists m, wr (block b s) n (checksum pre) = Some m /\
    rdn m 0 (n + 1) = Some (pre ++ [checksum pre]) /\ wf (set_block b m s) /\
    (c ← SetChecksum b n; st8 b n c;; k) s = k (set_block b m s).
Proof using Type.
  intros Hwf Hp Hn. pose proof Hp as (_ & H0 & _)%rdn_Some.
  destruct (st8_wf b n (checksum pre) s Hwf) as (m & Hw & E & Hwf'); [lia|].
  exists m. split_and!; [done| |done|].
  - rewrite (rdn_snoc _ _ _ _ _ Hp Hw). unfold checksum. by rewrite u8_idemp.
  - mrun. rewrite (SetChecksum_run _ _ _ _ Hp). cbn [obind]. mrun. by rewrite E.
Qed.

Lemma seal_run0 b n pre s :
  wf s -> rdn (block b s) 0 n = Some pre -> n < bsize b ->
  exists m, wr (block b s) n (checksum pre) = Some m /\
    rdn m 0 (n + 1) = Some (pre ++ [checksum pre]) /\ wf (set_block b m s) /\
    (c ← SetChecksum b n; st8 b n c) s = Ret (tt, set_block b m s).
Proof using Type.
  intros Hwf Hp Hn. destruct (seal_run b n pre s (mret tt) Hwf Hp Hn) as (m & Hw & Hr & Hwf' & E).
  exists m. split_and!; [done..|]. revert E. mrun.
  destruct (SetChecksum b n s) as [[c s1]| | |]; cbn [obind]; [|done..]. mrun.
  by destruct (st8 b n c s1) as [[[] s2]| | |]; cbn [obind].
Qed.

(** The answer [packet] builds for a status other than [CMDOORCHECKOK]. *)
Definition error_body (cmdOrigin cmd addr flag : Z) : bytes :=
  if cmdOrigin =? SourceFrom485 then [0xF4; 4; cmd; addr; flag] else [0xF4; 3; cmd; flag].
Definition error_frame (cmdOrigin cmd addr flag : Z) : bytes :=
  let body := error_body cmdOrigin cmd addr flag in body ++ [checksum body].

(** Proves [rdn m 0 n = Some pre], for a list [pre], from recorded writes. *)
Ltac prefix_of :=
  match goal with |- rdn _ 0 _ = Some ?pre => apply (rdn_points _ pre) end;
  [ repeat match goal with Hw : wr _ _ _ = Some ?m |- context [blen ?m] =>
      rewrite (wr_blen _ _ _ _ Hw) end; done || (unfold blen in *; cbn [length]; lia)
  | let i := fresh "i" in let v := fresh "v" in let Hi := fresh "Hi" in
    intros i v Hi; repeat (destruct i as [|i];
      [ injection Hi as <-; cbn [Z.of_nat Pos.of_succ_nat Pos.succ]; rdwr;
        rewrite ?u8_small by lia; done
      | cbn in Hi ]); try discriminate Hi ].

Lemma packet_error_run o cmd addr flag b s :
  wf s -> bsize b = SBUF_size -> 0 < flag < 256 ->
  rd (block b s) off_cmd = Some cmd -> rd (block b s) off_addr = Some addr ->
  exists m, packet o flag b BUF_LEN s = Ret (flag, set_block b m s) /\
    rdn m 0 (blen (error_frame o cmd addr flag)) = Some (error_frame o cmd addr flag) /\
    wf (set_block b m s).
Proof using Type.
  intros Hwf Hb Hf Hcmd Haddr. unfold packet.
  unfold off_cmd, off_addr, off_len, CMDOORCHECKOK in *.
  destruct (Z.eqb_spec flag 0) as [|_]; [lia|]. cbn [negb].
  pose proof (wf_size s Hwf b) as Hsz. rewrite Hb in Hsz. unfold SBUF_size in Hsz, Hb.
  unfold error_frame, error_body. rewrite blen_app.
  destruct (o =? SourceFrom485); mrun; (store Hwf Hw1; mrun; store Hwf Hw2; mrun; store Hwf Hw3).
  - set (pre := [244; 4; cmd; addr; flag]).
    assert (Hp : rdn (block b (set_block b m1 s)) 0 5 = Some pre) by (subst pre; mget; prefix_of).
    destruct (seal_run0 b 5 pre _ Hwf Hp ltac:(lia)) as (m' & Hw & Hr & Hwf' & ->).
    mget_in Hw. rewrite set_block_twice in *. cbn [obind]. mrun.
    rewrite (ld8_run b 1 _ 4) by (mget; rdwr; done). cbn [obind]. mrun. eauto.
  - set (pre := [244; 3; cmd; flag]).
    assert (Hp : rdn (block b (set_block b m1 s)) 0 4 = Some pre) by (subst pre; mget; prefix_of).
    destruct (seal_run0 b 4 pre _ Hwf Hp ltac:(lia)) as (m' & Hw & Hr & Hwf' & ->).
    mget_in Hw. rewrite set_block_twice in *. cbn [obind]. mrun.
    rewrite (ld8_run b 1 _ 3) by (mget; rdwr; done). cbn [obind]. mrun. eauto.
Qed.

(** A successful answer: the boot code is rewritten and the checksum appended;
    the bytes between, the payload, are the handler's. *)
Lemma packet_ok_run o len b s :
  wf s -> bsize b = SBUF_size -> rd (block b s) off_len = Some len ->
  2 + addr_bytes o <= len <= 252 ->
  exists m m1 pre, packet o CMDOORCHECKOK b BUF_LEN s = Ret (CMDOORCHECKOK, set_block b m s) /\
    wr (block b s) 0 0xF0 = Some m1 /\ rdn m1 0 (len + 1) = Some pre /\
    wr m1 (len + 1) (checksum pre) = Some m /\
    rdn m 0 (len + 2) = Some (pre ++ [checksum pre]) /\ wf (set_block b m s).
Proof using Type.
  intros Hwf Hb Hlen Hr. unfold packet, addr_bytes in *. unfold off_len in *.
  cbn [negb CMDOORCHECKOK Z.eqb]. cbv iota.
  pose proof (wf_size s Hwf b) as Hsz. rewrite Hb in Hsz. unfold SBUF_size in Hsz, Hb.
  mrun. store Hwf Hw1. mrun. rewrite (ld8_run b 1 _ len) by (mget; rdwr; done). cbn [obind].
  pose proof (wr_blen _ _ _ _ Hw1) as Hl1.
  destruct (rdn m 0 (len + 1)) as [pre|] eqn:Hp;
    [|rewrite rdn_in in Hp by (destruct (o =? SourceFrom485); lia); discriminate].
  assert (Hp' : rdn (block b (set_block b m s)) 0 (len + 1) = Some pre) by by mget.
  assert (Hlt : len + 1 < bsize b) by lia.
  destruct (seal_run b (len + 1) pre _ (l ← ld8 b 1; mret (if l + 2 >=? BUF_LEN then ERRORNORETURN else 0))
              Hwf Hp' Hlt) as (m' & Hw & Hrr & Hwf' & E).
  mget_in Hw. rewrite set_block_twice in *. rewrite <- (Z.add_assoc len 1 1) in Hrr.
  exists m', m, pre. split_and!; try done.
  assert (Hl : (l ← ld8 b 1; mret (if l + 2 >=? BUF_LEN then ERRORNORETURN else 0))
                 (set_block b m' s) = Ret (CMDOORCHECKOK, set_block b m' s)).
  { mrun. rewrite (ld8_run b 1 _ len); [cbn [obind]; mrun; unfold BUF_LEN; zcases; done|].
    mget. destruct (o =? SourceFrom485); rdwr; done. }
  rewrite Hl in E. unfold SourceFrom485 in *.
  destruct (o =? 1); [destruct (Z.ltb_spec len 3)|destruct (Z.ltb_spec len 2)]; try lia.
  - replace (4 + (len - 3)) with (len + 1) by lia. exact E.
  - replace (3 + (len - 2)) with (len + 1) by lia. exact E.
Qed.

(** The frame of a successful answer that carries [ps]. *)
Definition ok_body (cmdOrigin cmd addr : Z) (ps : bytes) : bytes :=
  [0xF0; 2 + addr_bytes cmdOrigin + blen ps; cmd]
  ++ (if cmdOrigin =? SourceFrom485 then [addr] else []) ++ ps.
Definition ok_frame (cmdOrigin cmd addr : Z) (ps : bytes) : bytes :=
  ok_body cmdOrigin cmd addr ps ++ [checksum (ok_body cmdOrigin cmd addr ps)].

Lemma addr_bytes_range o : 0 <= addr_bytes o <= 1.
Proof using Type. unfold addr_bytes. destruct (_ =? _); lia. Qed.

Lemma ok_body_blen o cmd addr ps : blen (ok_body o cmd addr ps) = 3 + addr_bytes o + blen ps.
Proof using Type.
  unfold ok_body, addr_bytes. rewrite !blen_app. destruct (o =? SourceFrom485); unfold blen; simpl; lia.
Qed.
Lemma ok_frame_blen o cmd addr ps : blen (ok_frame o cmd addr ps) = 4 + addr_bytes o + blen ps.
Proof using Type. unfold ok_frame. rewrite blen_app, ok_body_blen. unfold blen; simpl; lia. Qed.

Lemma packet_reply' o cmd addr ps b s :
  wf s -> bsize b = SBUF_size ->
  rd (block b s) off_len = Some (2 + addr_bytes o + blen ps) ->
  rd (block b s) off_cmd = Some cmd ->
  (o = SourceFrom485 -> rd (block b s) off_addr = Some addr) ->
  rdn (block b s) (off_para o) (blen ps) = Some ps ->
  2 + addr_bytes o + blen ps <= 252 ->
  exists m, packet o CMDOORCHECKOK b BUF_LEN s = Ret (CMDOORCHECKOK, set_block b m s) /\
    rdn m 0 (blen (ok_frame o cmd addr ps)) = Some (ok_frame o cmd addr ps) /\
    wf (set_block b m s).
Proof using Type.
  intros Hwf Hb Hlen Hcmd Haddr Hps Hle. set (len := 2 + addr_bytes o + blen ps) in *.
  pose proof (blen_nonneg ps). pose proof (addr_bytes_range o).
  destruct (packet_ok_run o len b s Hwf Hb Hlen ltac:(lia))
    as (m & m1 & pre & E & Hw1 & Hpre & Hw & Hfr & Hwf').
  exists m. split_and!; [done| |done].
  assert (Hpe : pre = ok_body o cmd addr ps); cycle 1.
  { subst pre. rewrite ok_frame_blen. replace (4 + _ + _) with (len + 2) by lia. done. }
  unfold ok_body, off_para, off_len, off_cmd, off_addr, addr_bytes in *.
  assert (Hps1 : rdn m1 (3 + (if o =? SourceFrom485 then 1 else 0)) (blen ps) = Some ps).
  { rewrite (rdn_wr_out _ _ _ _ _ _ Hw1) by (destruct (o =? SourceFrom485); lia). done. }
  assert (Hl1 := wr_blen _ _ _ _ Hw1). pose proof Hps1 as (_ & _ & Hin & _)%rdn_Some.
  destruct (Z.eqb_spec o SourceFrom485) as [Ho|Ho].
  - specialize (Haddr Ho).
    assert (Hh : rdn m1 0 4 = Some [0xF0; len; cmd; addr]).
    { apply (rdn_points _ [0xF0; len; cmd; addr]); [unfold blen in *; cbn [length]; lia|].
      intros i v Hi. do 4 (destruct i as [|i]; [injection Hi as <-; cbn; rdwr; done|cbn in Hi]).
      discriminate. }
    assert (Ha := rdn_app _ _ _ _ _ _ Hh Hps1).
    replace (4 + blen ps) with (len + 1) in Ha by lia. rewrite Hpre in Ha. by injection Ha as ->.
  - assert (Hh : rdn m1 0 3 = Some [0xF0; len; cmd]).
    { apply (rdn_points _ [0xF0; len; cmd]); [unfold blen in *; cbn [length]; lia|].
      intros i v Hi. do 3 (destruct i as [|i]; [injection Hi as <-; cbn; rdwr; done|cbn in Hi]).
      discriminate. }
    assert (Ha := rdn_app _ _ _ _ _ _ Hh Hps1).
    replace (3 + blen ps) with (len + 1) in Ha by lia. rewrite Hpre in Ha. by injection Ha as ->.
Qed.

Lemma packet_reply o cmd addr ps b s :
  wf s -> bsize b = SBUF_size ->
  rd (block b s) off_len = Some (2 + addr_bytes o + blen ps) ->
  rd (block b s) off_cmd = Some cmd -> rd (block b s) off_addr = Some addr ->
  rdn (block b s) (off_para o) (blen ps) = Some ps ->
  2 + addr_bytes o + blen ps <= 252 ->
  exists m, packet o CMDOORCHECKOK b BUF_LEN s = Ret (CMDOORCHECKOK, set_block b m s) /\
    rdn m 0 (blen (ok_frame o cmd addr ps)) = Some (ok_frame o cmd addr ps) /\
    wf (set_block b m s).
Proof using Type. intros. by apply packet_reply'. Qed.

(** A successful answer too short to hold its fields is dropped. *)
Lemma packet_short_run o len b s :
  wf s -> bsize b = SBUF_size -> rd (block b s) off_len = Some len ->
  len < 2 + addr_bytes o ->
  exists m, packet o CMDOORCHECKOK b BUF_LEN s = Ret (ERRORNORETURN, set_block b m s) /\
    wf (set_block b m s).
Proof using Type.
  intros Hwf Hb Hlen Hr. unfold packet, addr_bytes in *. unfold off_len, SourceFrom485 in *.
  cbn [negb CMDOORCHECKOK Z.eqb]. cbv iota. unfold SBUF_size in Hb.
  mrun. store Hwf Hw1. mrun. rewrite (ld8_run b 1 _ len) by (mget; rdwr; done). cbn [obind].
  destruct (o =? 1); [destruct (Z.ltb_spec len 3)|destruct (Z.ltb_spec len 2)]; try lia;
    mrun; eauto.
Qed.

Lemma keeps_sum_loop b n i sum :
  0 <= i -> i + Z.of_nat n <= bsize b -> keeps wf (sum_loop b n i sum).
Proof using Type.
  revert i sum. induction n as [|n IH]; intros i sum Hi Hn; simpl; keep. apply IH; lia.
Qed.

Lemma keeps_SetChecksum b n : 0 <= n <= bsize b -> keeps wf (SetChecksum b n).
Proof using Type. intros Hn. unfold SetChecksum. keep. apply keeps_sum_loop; lia. Qed.

(** [packet] stays inside the receive structure, whatever it holds. *)
Lemma keeps_packet o flag b : bsize b = SBUF_size -> keeps wf (packet o flag b BUF_LEN).
Proof using Type.
  intros Hb. unfold packet, off_len. unfold SBUF_size in Hb. 
  keep; rewrite ?Hb; try lia; apply keeps_SetChecksum; lia.
Qed.
End packet.
