(* ===== verification/ParamTable.v ===== *)
(** * The parameter table (ParamItem.c) and what main.c registers in it

    [g_paramTable] maps a command byte to a value, its length, its direction
    and its handler.  [registryParams] of main.c fills it; [TagDataLenPurse]
    checks the length byte of the tag commands and [rangeControl] the values
    written. *)
From stdpp Require Import base tactics list numbers option gmap.
From S2P Require Import Prelude Machine Effects Packet.

Definition Flag_ParamItem_RD : Z := 1.
Definition Flag_ParamItem_WR : Z := 2.
Definition Flag_ParamItem_OTHR : Z := 4.

(** Offsets in [SDevice] (Main.h, packed), [workpara] at 71 and [AutoParam] at 135. *)
Definition off_GetReaderVersion : Z := 4.
Definition off_RelayStatus : Z := 8.
Definition off_ReaderTime : Z := 9.
Definition off_tagfilter : Z := 15.
Definition off_ReaderRevStatus : Z := 50.
Definition off_ReaderOutStatus : Z := 51.
Definition off_FreqSelect : Z := 55.
Definition off_ReaderID : Z := 61.
Definition off_workpara : Z := 71.
Definition off_Factoryworkpara : Z := 103.
Definition off_AutoParam : Z := 135.
Definition off_FactoryAutoParam : Z := 167.
Definition wp_BaudRate : Z := 71.
Definition wp_OutputPower : Z := 72.
Definition wp_FrequencyMin : Z := 73.
Definition wp_FrequencyMax : Z := 74.
Definition wp_RadioDepth : Z := 75.
Definition wp_ReaderWorkStatus : Z := 76.
Definition wp_Address : Z := 77.
Definition wp_ReaderIP1 : Z := 83.
Definition wp_ReaderMAC1 : Z := 97.
Definition sizeof_NULL : Z := 4.

Section table.
Context `{Board}.

Definition get_table : M (list SParamItem) := fun s => Ret (table s, s).
Definition get_index : M (list Z) := fun s => Ret (table_index s, s).
(** [g_paramTable.table[i]], [table[i] = it], [table_index[i] = id]. *)
Definition item_at (i : Z) : M SParamItem :=
  t ← get_table; if 0 <=? i then lift_opt (t !! Z.to_nat i) else oob.
Definition put_item (i : Z) (it : SParamItem) : M unit := fun s =>
  if (0 <=? i) && (i <? Z.of_nat Count_ParamItem_Max)
  then Ret (tt, set_table (<[Z.to_nat i := it]> (table s)) s) else Oob.
Definition put_index (i id : Z) : M unit := fun s =>
  if (0 <=? i) && (i <? Z.of_nat Count_ParamItem_Max)
  then Ret (tt, set_index (<[Z.to_nat i := id]> (table_index s)) s) else Oob.
Definition set_item_length (i n : Z) : M unit :=
  it ← item_at i; put_item i (mkItem (value it) (flag it) (u8 n) (Function_ it)).

(** The loop [for (i = 0; i < Count_ParamItem_Max; i++) if (table_index[i] == id) break;] *)
Fixpoint scan (id : Z) (l : list Z) (i : Z) : Z :=
  match l with
  | [] => i
  | x :: l => if x =? id then i else scan id l (i + 1)
  end.

Definition getparaindex (id : Z) : M Z := t ← get_index; mret (scan id t 0).

Definition registryParam (id : Z) (v : ptr) (fl len : Z) (f : option fn) : M unit :=
  t ← get_index;
  let i := scan 0 t 0 in
  if i <? Z.of_nat Count_ParamItem_Max then
    put_item i (mkItem v (u8 fl) (u8 len) f);;
    put_index i id
  else putv SelfCheckFailure 1.

Definition unRegistryParam (id : Z) : M unit :=
  t ← get_index;
  let i := scan id t 0 in
  when (i <? Z.of_nat Count_ParamItem_Max) (put_item i item0;; put_index i 0).

Definition dev (o : Z) : ptr := At g_device o.
Definition RD : Z := Flag_ParamItem_RD.
Definition WR : Z := Flag_ParamItem_WR.
Definition OTHR : Z := Flag_ParamItem_OTHR.

Definition registryParams : M unit :=
  registryParam 0x01 (dev wp_BaudRate) WR 1 (Some fn_SetBaudRate);;
  registryParam 0x02 (dev off_GetReaderVersion) RD 4 None;;
  registryParam 0x03 (dev off_RelayStatus) WR 1 (Some fn_SetRelay);;
  registryParam 0x04 (dev wp_OutputPower) OTHR 1 (Some fn_SetOutputPower);;
  registryParam 0x05 (dev wp_FrequencyMin) OTHR (1 + 1) (Some fn_SetFrequency);;
  registryParam 0x06 (dev off_workpara) RD 32 (Some fn_ReadParam);;
  registryParam 0x07 (dev wp_RadioDepth) WR 1 (Some fn_WriteRadioDeep);;
  registryParam 0x08 (dev wp_RadioDepth) RD 1 (Some fn_ReadRadioDeep);;
  registryParam 0x09 (dev off_workpara) WR 32 (Some fn_WriteParam);;
  registryParam 0x0A (Var tmpAntenna) OTHR 1 (Some fn_SetAntenna);;
  registryParam 0x0B (dev off_RelayStatus) RD 1 None;;
  registryParam 0x0C (dev off_Factoryworkpara) WR 32 (Some fn_SetReaderPara);;
  registryParam 0x0D NULL WR sizeof_NULL (Some fn_ReadReaderPara);;
  registryParam 0x0E (Var sysReboot) WR 1 (Some fn_Reboot);;
  registryParam 0x0F (dev wp_ReaderWorkStatus) WR 1 (Some fn_SetReaderWorkType);;
  registryParam 0x10 NULL WR sizeof_NULL (Some fn_ClearTagListMem);;
  registryParam 0x11 (dev off_ReaderTime) WR 6 (Some fn_SetReaderTime);;
  registryParam 0x12 (dev off_ReaderTime) RD 6 (Some fn_GetReaderTime);;
  registryParam 0x13 (dev off_AutoParam) WR 32 (Some fn_SetAutoPara);;
  registryParam 0x14 (dev off_AutoParam) RD 32 (Some fn_GetAutoPara);;
  registryParam 0x15 (dev off_tagfilter) WR 35 (Some fn_SetTagFilter);;
  registryParam 0x16 (dev off_tagfilter) RD 35 None;;
  registryParam 0x17 (dev off_FactoryAutoParam) WR 32 None;;
  registryParam 0x18 NULL OTHR sizeof_NULL (Some fn_read_r2000vertion);;
  registryParam 0x30 (dev wp_ReaderIP1) WR (14 * 1) (Some fn_SetReaderNetwork);;
  registryParam 0x31 (dev wp_ReaderIP1) RD (14 * 1) None;;
  registryParam 0x32 (dev wp_ReaderMAC1) WR (6 * 1) (Some fn_SetReaderMAC);;
  registryParam 0x33 (dev wp_ReaderMAC1) RD (6 * 1) None;;
  registryParam 0x41 (dev off_ReaderRevStatus) RD 1 (Some fn_GetReaderRevStatus);;
  registryParam 0x42 (dev off_ReaderOutStatus) WR 1 (Some fn_SetReaderOutStatus);;
  registryParam 0x43 (dev off_ReaderOutStatus) RD 1 (Some fn_GetReaderOutStatus);;
  registryParam 0x54 NULL WR sizeof_NULL (Some fn_ImmediatelyNotify);;
  registryParam 0x57 (At cmdTmpBuf 0) RD 5 (Some fn_GetTagRecord);;
  registryParam 0x85 (dev off_GetReaderVersion) WR (4 - 2) None;;
  registryParam 0x86 (dev off_FreqSelect) WR 6 (Some fn_SetFrequency1);;
  registryParam 0x87 (dev off_FreqSelect) RD 6 None;;
  registryParam 0x88 NULL WR sizeof_NULL (Some fn_UpdateProgrram);;
  registryParam 0x8B (dev off_ReaderID) WR 10 None;;
  registryParam 0x8C (dev off_ReaderID) RD 10 None;;
  registryParam 0x8D NULL RD sizeof_NULL None;;
  registryParam 0xDF NULL OTHR sizeof_NULL (Some fn_EPC1G2_ListRSSIMaskTag);;
  registryParam 0xDE NULL OTHR sizeof_NULL (Some fn_EPC1G2_GetRSSIIDList);;
  registryParam 0xDD NULL OTHR sizeof_NULL (Some fn_EPC1G2_Accessmatch);;
  registryParam 0xEF NULL OTHR sizeof_NULL (Some fn_EPC1G2_ListTagID);;
  registryParam 0xEE NULL OTHR sizeof_NULL (Some fn_EPC1G2_ListMaskTagID);;
  registryParam 0xED NULL OTHR sizeof_NULL (Some fn_EPC1G2_GetIDList);;
  registryParam 0xEC NULL OTHR sizeof_NULL (Some fn_EPC1G2_ReadWordBlock);;
  registryParam 0xEB NULL OTHR sizeof_NULL (Some fn_EPC1G2_WriteWordBlock);;
  registryParam 0xEA NULL OTHR sizeof_NULL (Some fn_EPC1G2_WriteSetBlock);;
  registryParam 0xE9 NULL OTHR sizeof_NULL (Some fn_EraseTagData);;
  registryParam 0xE8 NULL OTHR sizeof_NULL (Some fn_DestroyTag);;
  registryParam 0xE7 NULL OTHR sizeof_NULL (Some fn_EPC1G2_WriteEPC);;
  registryParam 0xE6 NULL OTHR sizeof_NULL (Some fn_DataLocking);;
  registryParam 0xE5 NULL OTHR sizeof_NULL (Some fn_EPC1G2_changeeas);;
  registryParam 0xE4 NULL OTHR sizeof_NULL (Some fn_EPC1G2_EasAlarm);;
  registryParam 0xE3 NULL OTHR sizeof_NULL (Some fn_EPC1G2_ReadProtect);;
  registryParam 0xE2 NULL OTHR sizeof_NULL (Some fn_EPC1G2_RSTReadProtect);;
  registryParam 0xE1 NULL OTHR sizeof_NULL (Some fn_SetUserDataProtect);;
  registryParam 0xE0 NULL OTHR sizeof_NULL (Some fn_ReadEPCAndData);;
  registryParam 0xFF NULL OTHR sizeof_NULL (Some fn_DetectTagNum);;
  registryParam 0xFE NULL OTHR sizeof_NULL (Some fn_ReadLabelID);;
  registryParam 0xFD NULL OTHR sizeof_NULL (Some fn_ListIDReport);;
  registryParam 0xFB NULL OTHR sizeof_NULL (Some fn_ListSelectedID);;
  registryParam 0xF6 NULL OTHR sizeof_NULL (Some fn_ReadByteBlock);;
  registryParam 0xF5 NULL OTHR sizeof_NULL (Some fn_WriteByteBlock);;
  registryParam 0xF4 NULL OTHR sizeof_NULL (Some fn_WriteProtect);;
  registryParam 0xF3 NULL OTHR sizeof_NULL (Some fn_ReadWriteProtect);;
  registryParam 0xF2 NULL OTHR sizeof_NULL (Some fn_WriteAByte).

Definition rangeControl (cmd v : Z) : Z :=
  switch cmd
    [ ([0x01], if (v <? 4) || (v >? 8) then PARAWRONG else CMDOORCHECKOK);
      ([0x04], if v <? 20 then PARAWRONG else if v >? 33 then PARAWRONG else CMDOORCHECKOK);
      ([0x05], if (v <? 1) || (v >? 63) then PARAWRONG else CMDOORCHECKOK);
      ([0x0f], if v >? 1 then PARAWRONG else CMDOORCHECKOK);
      ([0x86], if v >? 3 then PARAWRONG else if v <? 1 then PARAWRONG else CMDOORCHECKOK) ]
    CMDOORCHECKOK.

(** [compare]: 1 when the first [count] bytes are equal, 0 at the first difference. *)
Fixpoint compare_loop (p q : ptr) (n : nat) (i : Z) : M Z :=
  match n with
  | O => mret 1
  | S n =>
      x ← ldp p i; y ← ldp q i;
      if negb (x =? y) then mret 0 else compare_loop p q n (i + 1)
  end.
Definition compare (buf1 buf2 : ptr) (count : Z) : M Z :=
  compare_loop buf1 buf2 (Z.to_nat count) 0.

(** The lengths of the fixed part of the tag commands (common.h). *)
Definition LEN_DetectTagNum : Z := 2.
Definition LEN_ReadLabelID : Z := 2.
Definition LEN_ListIDReport : Z := 4.
Definition LEN_ListSelectedID : Z := 13.
Definition LEN_ReadByteBlock : Z := 12.
Definition LEN_WriteByteBlock : Z := 12.
Definition LEN_WriteProtect : Z := 11.
Definition LEN_ReadWriteProtect : Z := 11.
Definition LEN_WriteAByte : Z := 12.
Definition LEN_EPC1G2_ListMaskTagID : Z := 6.
Definition LEN_EPC1G2_GetIDList : Z := 4.
Definition LEN_EPC1G2_ReadWordBlock : Z := 10.
Definition LEN_EPC1G2_WriteWordBlock : Z := 10.
Definition LEN_EPC1G2_WriteSetBlock : Z := 9.
Definition LEN_DestroyTag : Z := 7.
Definition LEN_EPC1G2_WriteEPC : Z := 7.
Definition LEN_EPC1G2_changeeas : Z := 8.
Definition LEN_EPC1G2_EasAlarm : Z := 2.
Definition LEN_EPC1G2_ReadProtect : Z := 7.
Definition LEN_EPC1G2_RSTReadProtect : Z := 6.
Definition LEN_ReadEPCAndData : Z := 5.

(** [TagDataLenPurse].  Every case has the same two halves: [cmdstr1], one
    address byte longer, on RS-485, and [cmdstr] otherwise; [a] is that byte.
    [mlen] and [temp_lenth] are [unsigned char]. *)
Definition TagDataLenPurse (cmdOrigin : Z) (b : blk) : M Z :=
  let a := addr_bytes cmdOrigin in
  len ← ld8 b off_len;
  cmd ← ld8 b off_cmd;
  let para (i : Z) : M Z := ld8 b (off_para cmdOrigin + i) in
  let expect (n : Z) : M Z := mret (if negb (len =? n) then ORTHERWRONG else CMDOORCHECKOK) in
  let fixed (L : Z) : M Z := expect (L + a) in
  let epc_words (L : Z) : M Z := w ← para 0; expect (L + a + u8 (w * 2)) in
  let bytes_9 (L : Z) : M Z := mlen ← para 9; expect (L + a + mlen) in
  switch cmd
    [ ([0xEF], mret CMDOORCHECKOK);
      ([0xEE; 0xDF],
        n ← para 3; expect (LEN_EPC1G2_ListMaskTagID + a + u8 ((n + 7) / 8)));
      ([0xED; 0xDE], fixed LEN_EPC1G2_GetIDList);
      ([0xEC], epc_words LEN_EPC1G2_ReadWordBlock);
      ([0xEB],
        w ← para 0;
        let temp_lenth := u8 (w * 2 + 1) in
        n ← para (temp_lenth + 2);
        let temp_lenth := u8 (n * 2) in
        expect (LEN_EPC1G2_WriteWordBlock + a + u8 (w * 2 + temp_lenth)));
      ([0xEA], epc_words LEN_EPC1G2_WriteSetBlock);
      ([0xE9], epc_words LEN_EPC1G2_WriteSetBlock);
      ([0xE8], epc_words LEN_DestroyTag);
      ([0xE7], epc_words LEN_EPC1G2_WriteEPC);
      ([0xE5], epc_words LEN_EPC1G2_changeeas);
      ([0xE4], fixed LEN_EPC1G2_EasAlarm);
      ([0xE3], epc_words LEN_EPC1G2_ReadProtect);
      ([0xE2], epc_words LEN_EPC1G2_RSTReadProtect);
      ([0xE0], fixed LEN_ReadEPCAndData);
      ([0xFF], fixed LEN_DetectTagNum);
      ([0xFE], fixed LEN_ReadLabelID);
      ([0xFD], fixed LEN_ListIDReport);
      ([0xFB], fixed LEN_ListSelectedID);
      ([0xF6], fixed LEN_ReadByteBlock);
      ([0xF5], bytes_9 LEN_WriteByteBlock);
      ([0xF4], fixed LEN_WriteProtect);
      ([0xF3], fixed LEN_ReadWriteProtect);
      ([0xF2], bytes_9 LEN_WriteAByte);
      ([0x0A; 0x04; 0x05], mret CMDOORCHECKOK) ]
    (fixed 2).

(** ** Lemmas *)

Lemma scan_bounds id l i : i <= scan id l i <= i + Z.of_nat (length l).
Proof using Type.
  revert i. induction l as [|x l IH]; intros i; simpl; [lia|].
  destruct (x =? id); [lia|]. specialize (IH (i + 1)). lia.
Qed.

(** The scan stops at the first position that holds [id]. *)
Lemma scan_spec id l i k :
  scan id l i = i + Z.of_nat k <->
  (k <= length l)%nat /\ (forall j, (j < k)%nat -> l !! j ≠ Some id) /\
  (k = length l \/ l !! k = Some id).
Proof using Type.
  revert i k. induction l as [|x l IH]; intros i k; simpl.
  - split; [intros Hk; assert (k = 0%nat) as -> by lia; split_and!; [lia|intros; lia|by left]|].
    intros (Hk & _ & _). assert (k = 0%nat) as -> by lia. lia.
  - destruct (Z.eqb_spec x id) as [->|Hne].
    + split.
      * intros Hk. assert (k = 0%nat) as -> by lia. split_and!; [lia|intros; lia|by right].
      * intros (_ & Hj & _). destruct k as [|k]; [lia|]. by destruct (Hj 0%nat ltac:(lia)).
    + destruct k as [|k].
      * split; [intros Hs; pose proof (scan_bounds id l (i + 1)); lia|].
        intros (_ & _ & [Hc|Hc]); [done|]. injection Hc as ->. done.
      * rewrite Nat2Z.inj_succ.
        replace (i + Z.succ (Z.of_nat k)) with (i + 1 + Z.of_nat k) by lia. rewrite IH.
        split; intros (Hk & Hj & Hc); (split; [lia|]); (split; [|destruct Hc; [left; lia|by right]]).
        -- intros [|j] Hlt; simpl; [congruence|]. apply Hj. lia.
        -- intros j Hlt. apply (Hj (S j)). lia.
Qed.

Lemma getparaindex_run id s : getparaindex id s = Ret (scan id (table_index s) 0, s).
Proof using Type. done. Qed.

Lemma compare_loop_run b1 o1 b2 o2 n i bs1 bs2 s :
  0 <= i ->
  rdn (block b1 s) (o1 + i) (Z.of_nat n) = Some bs1 ->
  rdn (block b2 s) (o2 + i) (Z.of_nat n) = Some bs2 ->
  compare_loop (At b1 o1) (At b2 o2) n i s = Ret (if bool_decide (bs1 = bs2) then 1 else 0, s).
Proof using Type.
  revert i bs1 bs2. induction n as [|n IH]; intros i bs1 bs2 Hi H1 H2; simpl.
  { pose proof (rdn_blen _ _ _ _ H1). pose proof (rdn_blen _ _ _ _ H2).
    destruct bs1, bs2; unfold blen in *; simpl in *; try lia. done. }
  rewrite Nat2Z.inj_succ in H1, H2.
  destruct (rdn_cons _ _ _ _ H1) as (x & r1 & Hx & Hr1 & ->); [lia|].
  destruct (rdn_cons _ _ _ _ H2) as (y & r2 & Hy & Hr2 & ->); [lia|].
  rewrite bind_run. change (ldp (At b1 o1) i s) with (ld8 b1 (o1 + i) s). rewrite (ld8_run _ _ _ _ Hx). cbn [obind].
  rewrite bind_run. change (ldp (At b2 o2) i s) with (ld8 b2 (o2 + i) s). rewrite (ld8_run _ _ _ _ Hy). cbn [obind].
  destruct (Z.eqb_spec x y) as [->|Hne]; simpl.
  - rewrite (IH (i + 1) r1 r2); [|lia|rewrite <- Hr1; f_equal; lia|rewrite <- Hr2; f_equal; lia].
    do 2 f_equal. destruct (decide (r1 = r2)) as [->|];
      [rewrite !bool_decide_eq_true_2|rewrite !bool_decide_eq_false_2]; congruence.
  - rewrite bool_decide_eq_false_2 by congruence. done.
Qed.

(** ** The table as a finite map

    [find s c] is the item that processes command [c]. *)
Definition find (s : fw) (c : Z) : option SParamItem :=
  let i := scan c (table_index s) 0 in
  if i <? Z.of_nat Count_ParamItem_Max then table s !! Z.to_nat i else None.

Lemma scan_nat c l : exists k, scan c l 0 = Z.of_nat k /\ (k <= length l)%nat.
Proof using Type.
  pose proof (scan_bounds c l 0). exists (Z.to_nat (scan c l 0)). lia.
Qed.

(** Replacing the entry found for [a] by [id]: where [c] is found now. *)
Lemma scan_insert l k a id c :
  scan a l 0 = Z.of_nat k -> (k < length l)%nat -> c ≠ a ->
  scan c (<[k := id]> l) 0 =
  if (c =? id) && (Z.of_nat k <? scan c l 0) then Z.of_nat k else scan c l 0.
Proof using Type.
  intros Hk Hl Hca. destruct (scan_nat c l) as (j & Hj & Hjl). rewrite Hj.
  apply (scan_spec a l 0 k) in Hk as (_ & Hka & [Hk|Hk]); [lia|].
  apply (scan_spec c l 0 j) in Hj as (_ & Hjc & Hjf).
  assert (Hneq : j ≠ k) by (intros ->; destruct Hjf; [lia|congruence]).
  destruct (Z.eqb_spec c id) as [->|Hne]; cbn [andb].
  - destruct (Z.ltb_spec (Z.of_nat k) (Z.of_nat j)).
    + apply (scan_spec id _ 0 k). rewrite length_insert. split_and!; [lia| |].
      * intros i Hi. rewrite list_lookup_insert_ne by lia. apply Hjc. lia.
      * right. by apply list_lookup_insert_eq.
    + apply (scan_spec id _ 0 j). rewrite length_insert. split_and!; [lia| |].
      * intros i Hi. rewrite list_lookup_insert_ne by lia. by apply Hjc.
      * destruct Hjf; [by left|right]. by rewrite list_lookup_insert_ne by lia.
  - apply (scan_spec c _ 0 j). rewrite length_insert. split_and!; [lia| |].
    + intros i Hi. destruct (decide (i = k)) as [->|]; [rewrite list_lookup_insert_eq by done; congruence|].
      rewrite list_lookup_insert_ne by done. by apply Hjc.
    + destruct Hjf; [by left|right]. by rewrite list_lookup_insert_ne by done.
Qed.

(** registering a command adds its item to the map, unless
    the command is there already; with no free entry the map stays as it is and
    [SelfCheckFailure] reports it. *)
Theorem registryParam_map id v fl len f s :
  wf s -> id ≠ 0 ->
  exists s', registryParam id v fl len f s = Ret (tt, s') /\ wf s' /\
    if scan 0 (table_index s) 0 <? Z.of_nat Count_ParamItem_Max then
      forall c, c ≠ 0 -> find s' c =
        if c =? id then (if scan id (table_index s) 0 <? scan 0 (table_index s) 0 then find s c
                         else Some (mkItem v (u8 fl) (u8 len) f))
        else find s c
    else get SelfCheckFailure s' = 1 /\ forall c, find s' c = find s c.
Proof using Type.
  intros Hwf Hid. unfold registryParam. rewrite bind_run. simpl obind. cbv beta.
  destruct (scan_nat 0 (table_index s)) as (k & Hk & Hkl). rewrite (wf_index s Hwf) in Hkl.
  pose proof Hk as Hk'. rewrite Hk.
  destruct (Z.ltb_spec (Z.of_nat k) (Z.of_nat Count_ParamItem_Max)) as [Hlt|Hge].
  2:{ rewrite putv_run. eexists. split; [done|]. split; [by apply wf_put|]. by mget. }
  rewrite bind_run. unfold put_item, put_index.
  destruct (Z.leb_spec 0 (Z.of_nat k)), (Z.ltb_spec (Z.of_nat k) (Z.of_nat Count_ParamItem_Max)); [|lia..].
  cbn [andb obind]. rewrite Nat2Z.id. eexists. split; [done|].
  pose proof (wf_table s Hwf) as Htl. pose proof (wf_index s Hwf) as Hil. split.
  { apply wf_set_index; [by rewrite length_insert|]. apply wf_set_table; [by rewrite length_insert|done]. }
  intros c Hc. unfold find. cbn [table_index table set_index set_table].
  rewrite (scan_insert _ k 0 id c Hk') by (done || lia).
  destruct (Z.eqb_spec c id) as [->|Hne]; cbn [andb].
  - destruct (scan_nat id (table_index s)) as (j & Hj & Hjl). rewrite Hj.
    assert (Hjk : j ≠ k).
    { intros ->. apply (scan_spec id _ 0 k) in Hj as (_ & _ & [|Hj]); [lia|].
      apply (scan_spec 0 _ 0 k) in Hk' as (_ & _ & [|Hk'']); [lia|congruence]. }
    destruct (Z.ltb_spec (Z.of_nat k) (Z.of_nat j)), (Z.ltb_spec (Z.of_nat j) (Z.of_nat k)); try lia.
    + rewrite Nat2Z.id. destruct (Z.ltb_spec (Z.of_nat k) (Z.of_nat Count_ParamItem_Max)); [|lia].
      apply list_lookup_insert_eq. lia.
    + rewrite !Nat2Z.id. by rewrite list_lookup_insert_ne by lia.
  - destruct (scan_nat c (table_index s)) as (j & Hj & Hjl). rewrite Hj, Nat2Z.id.
    destruct (Z.ltb_spec (Z.of_nat j) (Z.of_nat Count_ParamItem_Max)); [|done].
    assert (Hjk : j ≠ k).
    { intros ->. apply (scan_spec c _ 0 k) in Hj as (_ & _ & [|Hj]); [lia|].
      apply (scan_spec 0 _ 0 k) in Hk' as (_ & _ & [|Hk'']); [lia|congruence]. }
    by rewrite list_lookup_insert_ne by lia.
Qed.

(** Unregistering a command that is registered once
    removes it from the map and nothing else. *)
Theorem unRegistryParam_map id s :
  wf s -> id ≠ 0 ->
  (forall i j, table_index s !! i = Some id -> table_index s !! j = Some id -> i = j) ->
  exists s', unRegistryParam id s = Ret (tt, s') /\ wf s' /\
    forall c, c ≠ 0 -> find s' c = if c =? id then None else find s c.
Proof using Type.
  intros Hwf Hid Huniq. unfold unRegistryParam. rewrite bind_run. simpl obind. cbv beta.
  destruct (scan_nat id (table_index s)) as (k & Hk & Hkl). rewrite (wf_index s Hwf) in Hkl.
  pose proof Hk as Hk'. rewrite Hk. unfold when.
  destruct (Z.ltb_spec (Z.of_nat k) (Z.of_nat Count_ParamItem_Max)) as [Hlt|Hge].
  2:{ eexists. split; [done|]. split; [done|]. intros c Hc. destruct (Z.eqb_spec c id) as [->|]; [|done].
      unfold find. rewrite Hk. destruct (Z.ltb_spec (Z.of_nat k) (Z.of_nat Count_ParamItem_Max)); [lia|done]. }
  rewrite bind_run. unfold put_item, put_index.
  destruct (Z.leb_spec 0 (Z.of_nat k)), (Z.ltb_spec (Z.of_nat k) (Z.of_nat Count_ParamItem_Max)); [|lia..].
  cbn [andb obind]. rewrite Nat2Z.id. eexists. split; [done|].
  pose proof (wf_table s Hwf) as Htl. pose proof (wf_index s Hwf) as Hil. split.
  { apply wf_set_index; [by rewrite length_insert|]. apply wf_set_table; [by rewrite length_insert|done]. }
  apply (scan_spec id _ 0 k) in Hk' as (_ & _ & [|Hkk]); [lia|].
  intros c Hc. unfold find. cbn [table_index table set_index set_table].
  destruct (Z.eqb_spec c id) as [->|Hne].
  - assert (Hnone : scan id (<[k := 0]> (table_index s)) 0 = 0 + Z.of_nat Count_ParamItem_Max).
    { apply scan_spec. rewrite length_insert, Hil. split_and!; [lia| |by left].
      intros j Hj Hl. destruct (decide (j = k)) as [->|Hjk].
      - rewrite list_lookup_insert_eq in Hl by lia. congruence.
      - rewrite list_lookup_insert_ne in Hl by lia. by apply Hjk, (Huniq j k). }
    by rewrite Hnone.
  - rewrite (scan_insert _ k id 0 c Hk) by (done || lia).
    destruct (Z.eqb_spec c 0); [done|]. cbn [andb].
    destruct (scan_nat c (table_index s)) as (j & Hj & Hjl). rewrite Hj, Nat2Z.id.
    destruct (Z.ltb_spec (Z.of_nat j) (Z.of_nat Count_ParamItem_Max)); [|done].
    assert (Hjk : j ≠ k).
    { intros ->. apply (scan_spec c _ 0 k) in Hj as (_ & _ & [|Hj]); [lia|congruence]. }
    by rewrite list_lookup_insert_ne by lia.
Qed.

(** ** The length check does not depend on the channel *)

(** The same command on RS-232 (or UDP) in [b1] and on RS-485 in [b2]: the
    second has the address byte and a length one larger. *)
Record same_command (b1 b2 : blk) (s1 s2 : fw) : Prop := {
  sm_len : exists n, rd (block b1 s1) off_len = Some n /\ rd (block b2 s2) off_len = Some (n + 1);
  sm_cmd : exists c, rd (block b1 s1) off_cmd = Some c /\ rd (block b2 s2) off_cmd = Some c;
  sm_para : forall i, 0 <= i <= 257 -> exists p, 0 <= p < 256 /\
    rd (block b1 s1) (3 + i) = Some p /\ rd (block b2 s2) (4 + i) = Some p }.

Lemma expect_shift n L (mlen : Z) :
  (if negb (n =? L + 0 + mlen) then ORTHERWRONG else CMDOORCHECKOK) =
  (if negb (n + 1 =? L + 1 + mlen) then ORTHERWRONG else CMDOORCHECKOK).
Proof using Type.
  destruct (Z.eqb_spec n (L + 0 + mlen)), (Z.eqb_spec (n + 1) (L + 1 + mlen));
    (lia || reflexivity).
Qed.
Lemma expect_shift0 n L :
  (if negb (n =? L + 0) then ORTHERWRONG else CMDOORCHECKOK) =
  (if negb (n + 1 =? L + 1) then ORTHERWRONG else CMDOORCHECKOK).
Proof using Type.
  destruct (Z.eqb_spec n (L + 0)), (Z.eqb_spec (n + 1) (L + 1)); (lia || reflexivity).
Qed.

(** a tag command is accepted on RS-485 exactly when the
    same command without the address byte is accepted on the other channels,
    and the check changes nothing. *)
Theorem TagDataLenPurse_485 o b1 b2 s1 s2 :
  o ≠ SourceFrom485 -> same_command b1 b2 s1 s2 ->
  exists r, TagDataLenPurse o b1 s1 = Ret (r, s1) /\ TagDataLenPurse SourceFrom485 b2 s2 = Ret (r, s2).
Proof using Type.
  intros Ho [(n & Hn1 & Hn2) (c & Hc1 & Hc2) Hp]. unfold TagDataLenPurse.
  unfold off_para, addr_bytes. rewrite (proj2 (Z.eqb_neq o _) Ho), Z.eqb_refl.
  rewrite !bind_run, (ld8_run _ _ _ _ Hn1), (ld8_run _ _ _ _ Hn2). cbn [obind].
  rewrite !bind_run, (ld8_run _ _ _ _ Hc1), (ld8_run _ _ _ _ Hc2). cbn [obind]. cbv beta zeta.
  change (3 + 0) with 3. change (3 + 1) with 4.
  assert (Hpara : forall i (k1 k2 : Z -> M Z), 0 <= i <= 257 ->
    (forall p, 0 <= p < 256 -> exists r, k1 p s1 = Ret (r, s1) /\ k2 p s2 = Ret (r, s2)) ->
    exists r, (ld8 b1 (3 + i) ≫= k1) s1 = Ret (r, s1) /\ (ld8 b2 (4 + i) ≫= k2) s2 = Ret (r, s2)).
  { intros i k1 k2 Hi Hk. destruct (Hp i Hi) as (p & Hpr & H1 & H2).
    rewrite !bind_run, (ld8_run _ _ _ _ H1), (ld8_run _ _ _ _ H2). cbn [obind]. by apply Hk. }
  assert (Hret : forall x y : Z, x = y -> exists r, (mret x : M Z) s1 = Ret (r, s1) /\ (mret y : M Z) s2 = Ret (r, s2)).
  { intros x y ->. by exists y. }
  pose proof u8_range as Hu.
  apply (switch_rel (fun x y => exists r, x s1 = Ret (r, s1) /\ y s2 = Ret (r, s2))).
  2:{ apply Hret, expect_shift0. }
  repeat constructor; cbn [snd];
    try (apply Hret, expect_shift0); try (by apply Hret);
    try (apply Hpara; [lia|intros p Hpp; apply Hret, expect_shift]).
  apply Hpara; [lia|]. intros w Hw. apply Hpara.
  { pose proof (Hu (w * 2 + 1)). lia. }
  intros q Hq. apply Hret, expect_shift.
Qed.

(** ** Start-up *)

Definition registered_field (s : fw) (set get : Z) : bool :=
  match find s set, find s get with
  | Some i, Some j =>
      bool_decide (value i = value j /\ item_length i = item_length j) &&
      negb (Z.land (flag i) Flag_ParamItem_WR =? 0) &&
      negb (Z.land (flag j) Flag_ParamItem_RD =? 0) && (Z.land (flag j) Flag_ParamItem_WR =? 0)
  | _, _ => false
  end.

(** On the zeroed table of a reset, [registryParams]
    registers its 68 commands without running out of entries, and pairs each
    set command with a get command for the same field. *)
Theorem registryParams_startup s :
  table s = replicate Count_ParamItem_Max item0 ->
  table_index s = replicate Count_ParamItem_Max 0 ->
  exists s', registryParams s = Ret (tt, s') /\ sc s' = sc s /\ mem s' = mem s /\
    length (filter (fun c => find s' c ≠ None) (seqZ 1 255)) = 68%nat /\
    Forall (fun '(set, get) => registered_field s' set get = true)
      [(0x03, 0x0B); (0x07, 0x08); (0x11, 0x12); (0x13, 0x14); (0x15, 0x16);
       (0x30, 0x31); (0x32, 0x33); (0x42, 0x43); (0x86, 0x87); (0x8B, 0x8C); (0x09, 0x06)].
Proof using Type.
  destruct s as [a b t i e o h]. cbn. intros -> ->. eexists. split; [vm_compute; reflexivity|].
  split; [done|]. split; [done|]. split; [vm_compute; reflexivity|].
  repeat (constructor; [vm_compute; reflexivity|]). constructor.
Qed.
End table.
