(* ===== verification/Process.v ===== *)
(** * Command processing: [processParamTable] (ParamItem.c)

    A complete host frame is validated, filtered in the active mode, executed
    through the parameter table and answered with [packet].  The handlers of
    common.c are an argument here: [call f b] runs the handler registered as
    [f] on the receive structure [b]. *)
From stdpp Require Import base tactics list numbers option gmap.
From S2P Require Import Prelude Machine Effects Packet ParamTable.

Definition WORK_ACT : Z := 0.
Definition WORK_CMD : Z := 1.

Definition CMD_GetReaderVersion : Z := 0x02.
Definition CMD_ReadParam : Z := 0x06.
Definition CMD_WriteParam : Z := 0x09.
Definition CMD_SetAntenna : Z := 0x0A.
Definition CMD_ReadReaderPara : Z := 0x0D.
Definition CMD_Reboot : Z := 0x0E.
Definition CMD_SetReaderWorkType : Z := 0x0F.
Definition CMD_ClearTagListMem : Z := 0x10.
Definition CMD_SetAutoPara : Z := 0x13.
Definition CMD_SetTagFilter : Z := 0x15.
Definition CMD_GetTagFilter : Z := 0x16.
Definition CMD_ImmediatelyNotify : Z := 0x54.
Definition CMD_GetTagRecord : Z := 0x57.
Definition CMD_UpdateProgrram : Z := 0x88.
Definition CMD_GetCPUID : Z := 0x8D.

Section process.
Context `{Board} (call : fn -> blk -> M unit).

(** The three words of the unique device identifier, little-endian in memory. *)
Definition flash16 (a : Z) : M Z := fun s => Ret (u16 (flash_read (board s) a), s).
Definition flash32 (a : Z) : M bytes :=
  lo ← flash16 a; hi ← flash16 (a + 2); mret (le16 lo ++ le16 hi).
Definition ReadID (b : blk) (o : Z) : M unit :=
  d0 ← flash32 0x1FFFF7E8; d1 ← flash32 0x1FFFF7EC; d2 ← flash32 0x1FFFF7F0;
  stn b o (d0 ++ d1 ++ d2).

(** [if (table[idindex].Function != NULL) table[idindex].Function(buffer);] *)
Definition run_Function (idx : Z) (b : blk) : M unit :=
  it ← item_at idx;
  match Function_ it with Some f => call f b | None => mret tt end.

(** [memcpy(q + qo, p + po, n)] *)
Definition memcpy (q : ptr) (qo : Z) (p : ptr) (po n : Z) : M unit :=
  bs ← ldpn p po n; stpn q qo bs.

(** The checks made before anything else. *)
Definition validate (cmdOrigin : Z) (b : blk) (length len cmd addr idindex : Z) : M Z :=
  sum ← sum_loop b (Z.to_nat (len + 1)) 0 0;
  let sum := u8 (Z.lnot sum + 1) in
  if idindex >=? Z.of_nat Count_ParamItem_Max then mret INVALIDINSTRUCTION
  else if cmd =? 0 then mret INVALIDINSTRUCTION
  else if len + 2 >? length then mret ORTHERWRONG
  else
    c ← ld8 b (len + 1);
    if negb (sum =? c) then mret CHECKSUMWRONG
    else if cmdOrigin =? SourceFrom485 then
      a ← ld8 g_device wp_Address;
      mret (if negb (addr =? a) then ERRORNORETURN else CMDOORCHECKOK)
    else mret CMDOORCHECKOK.

(** The commands a reader in the active mode still obeys. *)
Definition active_allowed (cmd : Z) : bool :=
  switch cmd
    [ ([CMD_GetReaderVersion; CMD_SetReaderWorkType; CMD_ClearTagListMem;
        CMD_ImmediatelyNotify; CMD_GetTagRecord; CMD_Reboot; CMD_UpdateProgrram;
        CMD_WriteParam; CMD_SetAutoPara], true) ]
    false.

(** [CMD_SetTagFilter]: the length of the mask is the frame's.  On RS-485 the
    five-byte form copies from [cmdstr->para], like the other. *)
Definition write_TagFilter (cmdOrigin : Z) (b : blk) (len idx : Z) : M Z :=
  let a := addr_bytes cmdOrigin in
  it ← item_at idx;
  r ← (if len =? 6 + a then
         memcpy (value it) 0 (At b 3) 0 (len - 2 - a);;
         set_item_length idx (4 + a);;
         mret CMDOORCHECKOK
       else if len <? 6 + a then mret PARAWRONG
       else
         putv setFlag 1;;
         when (a =? 0) (set_item_length idx 0);;
         memcpy (value it) 0 (At b (3 + a)) 0 (len - 2 - a);;
         mret CMDOORCHECKOK);
  n ← ld8 b off_len;
  set_item_length idx (n - 2 - a);;
  mret r.

(** The other writes: the value must have the registered length and pass
    [rangeControl]. *)
Definition write_value (cmdOrigin : Z) (b : blk) (len cmd idx : Z) : M Z :=
  let para := At b (off_para cmdOrigin) in
  it ← item_at idx;
  if negb (len =? item_length it + (2 + addr_bytes cmdOrigin)) then mret ORTHERWRONG
  else if bool_decide (value it = NULL) then mret CMDOORCHECKOK
  else
    p0 ← ldp para 0;
    let returnFlag := rangeControl cmd p0 in
    if returnFlag =? CMDOORCHECKOK then
      (if cmd =? CMD_SetReaderWorkType then st8 g_device wp_ReaderWorkStatus p0
       else if cmd =? CMD_WriteParam then
         putv setFlag 1;; memcpy (value it) 0 para 0 (item_length it)
       else if cmd =? CMD_SetAutoPara then
         putv setFlag 1;; memcpy (value it) 0 para 0 (item_length it)
       else
         same ← compare (value it) para (item_length it);
         when (same =? 0)
           (memcpy (value it) 0 para 0 (item_length it);;
            when (negb (cmd =? CMD_SetAntenna)) (putv setFlag 1)));;
      mret returnFlag
    else mret returnFlag.

Definition write_item (cmdOrigin : Z) (b : blk) (len cmd idx : Z) : M Z :=
  r ← switch cmd
    [ ([CMD_ReadReaderPara; CMD_Reboot; CMD_ClearTagListMem; CMD_ImmediatelyNotify;
        CMD_UpdateProgrram],
        let r := if negb (len =? 2 + addr_bytes cmdOrigin) then ORTHERWRONG else CMDOORCHECKOK in
        when (cmd =? CMD_ReadReaderPara) (putv setFlag 1);;
        when (cmd =? CMD_UpdateProgrram) (putv TagDataOrigin cmdOrigin);;
        mret r) ]
    (r ← (if cmd =? CMD_SetTagFilter then write_TagFilter cmdOrigin b len idx
          else write_value cmdOrigin b len cmd idx);
     n ← ld8 b off_len;
     it ← item_at idx;
     st8 b off_len (n - item_length it);;
     mret r);
  when (r =? CMDOORCHECKOK) (run_Function idx b);;
  mret r.

(** [CMD_GetTagFilter]: the mask's own length, in bits, decides how much of it
    is sent ([table[idindex].length] is an [unsigned char]). *)
Definition read_TagFilter (cmdOrigin : Z) (b : blk) (idx : Z) : M unit :=
  let p := off_para cmdOrigin in
  h ← ld8 g_device off_tagfilter; st8 b p h;;
  l ← ld8 g_device (off_tagfilter + 1); st8 b (p + 1) l;;
  lh ← ld8 g_device (off_tagfilter + 2); st8 b (p + 2) lh;;
  ll ← ld8 g_device (off_tagfilter + 3); st8 b (p + 3) ll;;
  set_item_length idx (Z.shiftl lh 8);;
  it ← item_at idx;
  set_item_length idx (Z.lor (item_length it) ll);;
  it ← item_at idx;
  if item_length it =? 0 then set_item_length idx 4
  else
    set_item_length idx ((item_length it + 7) / 8);;
    it ← item_at idx;
    memcpy (At b (p + 4)) 0 (dev (off_tagfilter + 4)) 0 (item_length it);;
    set_item_length idx (item_length it + 4).

Definition read_value (cmdOrigin : Z) (b : blk) (cmd idx : Z) : M unit :=
  it ← item_at idx;
  if negb (bool_decide (value it = NULL)) then
    (if cmd =? CMD_GetTagRecord then
       n ← getv cmdTmpLen; memcpy (At b (off_para cmdOrigin)) 0 (value it) 0 n
     else if cmd =? CMD_GetTagFilter then read_TagFilter cmdOrigin b idx
     else memcpy (At b (off_para cmdOrigin)) 0 (value it) 0 (item_length it));;
    (if cmd =? CMD_GetTagRecord then
       n ← ld8 b off_len; st8 b off_len (n - 3);;
       n ← ld8 b off_len; t ← getv cmdTmpLen; st8 b off_len (n + t)
     else
       n ← ld8 b off_len; it ← item_at idx; st8 b off_len (n + item_length it))
  else
    when (cmd =? CMD_GetCPUID)
      (ReadID b (off_para cmdOrigin);;
       n ← ld8 b off_len; st8 b off_len (n + 12)).

Definition read_item (cmdOrigin : Z) (b : blk) (len cmd idx : Z) : M Z :=
  let len := if cmd =? CMD_GetTagRecord then u8 (len - 3) else len in
  if negb (len =? 2 + addr_bytes cmdOrigin) then mret ORTHERWRONG
  else
    ReaderWorkStatus ← ld8 g_device wp_ReaderWorkStatus;
    run_Function idx b;;
    read_value cmdOrigin b cmd idx;;
    when (cmd =? CMD_ReadParam) (st8 g_device wp_ReaderWorkStatus ReaderWorkStatus);;
    mret CMDOORCHECKOK.

Definition tag_item (cmdOrigin : Z) (b : blk) (idx : Z) : M Z :=
  r ← TagDataLenPurse cmdOrigin b;
  if r =? CMDOORCHECKOK then
    it ← item_at idx;
    match Function_ it with
    | Some f =>
        putv TagDataOrigin cmdOrigin;;
        call f b;;
        n ← getv cmdTmpLen;
        if n >=? BUF_LEN then mret NOTAG
        else st8 b off_len (n + (2 + addr_bytes cmdOrigin));; mret r
    | None => st8 b off_len (2 + addr_bytes cmdOrigin);; mret r
    end
  else mret r.

Definition has_flag (it : SParamItem) (f : Z) : bool := negb (Z.land (flag it) f =? 0).

Definition execute (cmdOrigin : Z) (b : blk) (len cmd idx : Z) : M Z :=
  st ← ld8 g_device wp_ReaderWorkStatus;
  if (st =? WORK_ACT) && negb (active_allowed cmd) then mret INVALIDMASTERCMD
  else
    it ← item_at idx;
    if has_flag it Flag_ParamItem_WR then write_item cmdOrigin b len cmd idx
    else if has_flag it Flag_ParamItem_RD then read_item cmdOrigin b len cmd idx
    else if has_flag it Flag_ParamItem_OTHR then tag_item cmdOrigin b idx
    else mret CMDOORCHECKOK.

Definition processParamTable (cmdOrigin : Z) (b : blk) (length : Z) : M Z :=
  len ← ld8 b off_len;
  cmd ← ld8 b off_cmd;
  addr ← ld8 b off_addr;
  idindex ← getparaindex cmd;
  returnFlag ← validate cmdOrigin b length len cmd addr idindex;
  returnFlag ←
    (if returnFlag =? CMDOORCHECKOK then execute cmdOrigin b len cmd idindex
     else mret returnFlag);
  packet cmdOrigin returnFlag b BUF_LEN.

(** ** Specification *)

(** What [validate] answers for the frame [fr], the first [len + 2] bytes of
    the buffer. *)
Definition verdict (cmdOrigin length len cmd addr idindex Address : Z) (fr : bytes) : Z :=
  if idindex >=? Z.of_nat Count_ParamItem_Max then INVALIDINSTRUCTION
  else if cmd =? 0 then INVALIDINSTRUCTION
  else if len + 2 >? length then ORTHERWRONG
  else if negb (bool_decide (frame_valid fr)) then CHECKSUMWRONG
  else if (cmdOrigin =? SourceFrom485) && negb (addr =? Address) then ERRORNORETURN
  else CMDOORCHECKOK.

(** The fields of a received frame. *)
Record received (b : blk) (len cmd addr idx : Z) (fr : bytes) (s : fw) : Prop := {
  rc_wf : wf s;
  rc_size : bsize b = SBUF_size;
  rc_host : b ≠ g_device;
  rc_len : rd (block b s) off_len = Some len;
  rc_cmd : rd (block b s) off_cmd = Some cmd;
  rc_addr : rd (block b s) off_addr = Some addr;
  rc_frame : rdn (block b s) 0 (len + 2) = Some fr;
  rc_index : idx = scan cmd (table_index s) 0 }.

Lemma frame_split m n fr :
  rdn m 0 (n + 1) = Some fr -> 0 <= n ->
  exists pre c, rdn m 0 n = Some pre /\ rd m n = Some c /\ fr = pre ++ [c].
Proof using Type.
  intros Hf Hn. pose proof Hf as (_ & _ & Hl & _)%rdn_Some.
  destruct (rdn m 0 n) as [pre|] eqn:Hp; [|rewrite rdn_in in Hp by lia; discriminate].
  destruct (rd_in m n ltac:(lia)) as [c Hc]. exists pre, c. split_and!; [done..|].
  assert (Hs := rdn_app m 0 n 1 pre [c] Hp). rewrite Z.add_0_l in Hs.
  specialize (Hs (rdn_1 _ _ _ Hc)). congruence.
Qed.

Lemma validate_run o length b len cmd addr idx fr Address s :
  received b len cmd addr idx fr s -> rd (block g_device s) wp_Address = Some Address ->
  validate o b length len cmd addr idx s =
  Ret (verdict o length len cmd addr idx Address fr, s).
Proof using Type.
  intros [Hwf Hsz Hb Hl Hc Ha Hf Hi] Hd. unfold validate, verdict.
  pose proof (rd_ok _ _ _ (wf_bytes s Hwf b) Hl) as Hlen.
  replace (len + 2) with (len + 1 + 1) in Hf by lia.
  destruct (frame_split _ _ _ Hf ltac:(lia)) as (pre & c & Hpre & Hck & ->).
  mrun. rewrite (sum_loop_run b _ 0 0 pre) by (rewrite ?Z2Nat.id; done || lia). cbn [obind].
  rewrite Z.add_0_l, u8_lnot. change (u8 (- zsum pre)) with (checksum pre).
  destruct (idx >=? _); [done|]. destruct (cmd =? 0); [done|].
  destruct (len + 2 >? length); [done|]. mrun. rewrite (ld8_run _ _ _ _ Hck). cbn [obind].
  pose proof (rd_ok _ _ _ (wf_bytes s Hwf b) Hck) as Hcr.
  destruct (Z.eqb_spec (checksum pre) c) as [<-|Hne]; cbn [negb].
  - rewrite bool_decide_eq_true_2 by apply frame_checksum. cbn [negb].
    destruct (o =? SourceFrom485); [|done]. mrun. rewrite (ld8_run _ _ _ _ Hd). done.
  - rewrite bool_decide_eq_false_2; [done|]. intros Hv.
    by apply Hne, eq_sym, frame_checksum_inv.
Qed.

Lemma process_prefix o length b len cmd addr idx fr Address s :
  received b len cmd addr idx fr s -> rd (block g_device s) wp_Address = Some Address ->
  processParamTable o b length s =
  (r ← (if verdict o length len cmd addr idx Address fr =? CMDOORCHECKOK
        then execute o b len cmd idx
        else mret (verdict o length len cmd addr idx Address fr));
   packet o r b BUF_LEN) s.
Proof using Type.
  intros Hr Hd. pose proof Hr as [Hwf Hsz Hb Hl Hc Ha Hf Hi]. unfold processParamTable.
  rewrite bind_run, (ld8_run _ _ _ _ Hl). cbn [obind].
  rewrite bind_run, (ld8_run _ _ _ _ Hc). cbn [obind].
  rewrite bind_run, (ld8_run _ _ _ _ Ha). cbn [obind].
  rewrite bind_run, getparaindex_run, <- Hi. cbn [obind].
  by rewrite bind_run, (validate_run _ _ _ _ _ _ _ _ _ _ Hr Hd).
Qed.

Lemma verdict_range o length len cmd addr idx Address fr :
  let v := verdict o length len cmd addr idx Address fr in
  v = CMDOORCHECKOK \/ 0 < v < 256.
Proof using Type.
  unfold verdict, INVALIDINSTRUCTION, ORTHERWRONG, CHECKSUMWRONG, ERRORNORETURN, CMDOORCHECKOK.
  repeat case_match; lia.
Qed.

(** An item whose handler, if any, does nothing. *)
Definition noop_item (it : SParamItem) (b : blk) : Prop :=
  forall f, Function_ it = Some f -> forall s, call f b s = Ret (tt, s).

Lemma item_at_run i it s :
  0 <= i -> table s !! Z.to_nat i = Some it -> item_at i s = Ret (it, s).
Proof using Type.
  intros Hi Hl. unfold item_at. rewrite bind_run. simpl.
  destruct (Z.leb_spec 0 i); [|lia]. unfold lift_opt. by rewrite Hl.
Qed.

Lemma run_Function_noop idx it b s :
  0 <= idx -> table s !! Z.to_nat idx = Some it -> noop_item it b ->
  run_Function idx b s = Ret (tt, s).
Proof using Type.
  intros Hi Hl Hn. unfold run_Function. rewrite bind_run, (item_at_run _ _ _ Hi Hl). cbn [obind].
  unfold noop_item in Hn. destruct (Function_ it); [by apply Hn|done].
Qed.

Lemma memcpy_run qb qo q0 pb po p0 n bs m s :
  rdn (block pb s) (po + p0) n = Some bs -> wrn (block qb s) (qo + q0) bs = Some m ->
  memcpy (At qb qo) q0 (At pb po) p0 n s = Ret (tt, set_block qb m s).
Proof using Type.
  intros Hr Hw. unfold memcpy. rewrite bind_run.
  change (ldpn (At pb po) p0 n s) with (ldn pb (po + p0) n s). rewrite (ldn_run _ _ _ _ _ Hr).
  cbn [obind]. change (stpn (At qb qo) q0 bs s) with (stn qb (qo + q0) bs s).
  by apply stn_run.
Qed.

(** The commands [write_item] and [read_item] treat apart. *)
Definition plain_write (cmd : Z) : Prop :=
  cmd ∉ [CMD_ReadReaderPara; CMD_Reboot; CMD_ClearTagListMem; CMD_ImmediatelyNotify;
         CMD_UpdateProgrram; CMD_SetTagFilter; CMD_SetReaderWorkType; CMD_WriteParam;
         CMD_SetAutoPara; CMD_SetAntenna].
Definition plain_read (cmd : Z) : Prop :=
  cmd ∉ [CMD_ReadParam; CMD_GetTagRecord; CMD_GetTagFilter].

Ltac not_in :=
  repeat match goal with
  | Hp : plain_write ?c |- _ => unfold plain_write in Hp
  | Hp : plain_read ?c |- _ => unfold plain_read in Hp
  | Hp : _ ∉ _ :: _ |- _ => apply not_elem_of_cons in Hp as [? Hp]
  end.

(** The state after a plain write: the value's bytes, and [setFlag] when they
    were different. *)
Definition stored (vo : Z) (bs : bytes) (m : bytes) (s : fw) : fw :=
  if bool_decide (rdn (block g_device s) vo (blen bs) = Some bs) then s
  else put setFlag 1 (set_block g_device m s).

Lemma write_value_run o b len cmd idx fl n vo f bs m s :
  0 <= idx -> table s !! Z.to_nat idx = Some (mkItem (At g_device vo) fl n f) ->
  len = n + (2 + addr_bytes o) -> plain_write cmd -> 0 < n ->
  rdn (block b s) (off_para o) n = Some bs ->
  rangeControl cmd (default 0 (head bs)) = CMDOORCHECKOK ->
  wrn (block g_device s) vo bs = Some m ->
  write_value o b len cmd idx s = Ret (CMDOORCHECKOK, stored vo bs m s).
Proof using Type.
  intros Hi Ht Hlen Hcmd Hn Hbs Hrange Hw. not_in. unfold write_value.
  rewrite bind_run, (item_at_run _ _ _ Hi Ht). cbn [obind item_length value].
  rewrite Hlen, Z.eqb_refl. cbn [negb]. rewrite bool_decide_eq_false_2 by done.
  pose proof (rdn_blen _ _ _ _ Hbs) as Hbl.
  replace n with (Z.succ (n - 1)) in Hbs by lia.
  destruct (rdn_cons _ _ _ _ Hbs ltac:(lia)) as (x & r & Hx & Hr & ->).
  replace (Z.succ (n - 1)) with n in Hbs by lia.
  rewrite bind_run. change (ldp (At b (off_para o)) 0 s) with (ld8 b (off_para o + 0) s).
  rewrite Z.add_0_r, (ld8_run _ _ _ _ Hx). cbn [obind]. change (rangeControl cmd x = CMDOORCHECKOK) in Hrange.
  rewrite Hrange, Z.eqb_refl.
  rewrite !(proj2 (Z.eqb_neq cmd _)) by done.
  pose proof Hw as (Hv0 & Hv1 & _)%wrn_Some. rewrite Hbl in Hv1.
  destruct (rdn (block g_device s) vo n) as [old|] eqn:Hold; [|rewrite rdn_in in Hold by lia; discriminate].
  assert (Hcmp : compare (At g_device vo) (At b (off_para o)) n s =
                 Ret (if bool_decide (old = x :: r) then 1 else 0, s)).
  { unfold compare. apply (compare_loop_run _ _ _ _ _ 0); [done|..];
      rewrite Z2Nat.id, Z.add_0_r by lia; done. }
  rewrite bind_run, (bind_run (compare _ _ _)), Hcmp. cbn [obind]. unfold stored. rewrite Hbl, Hold.
  destruct (decide (old = x :: r)) as [->|Hne].
  - rewrite !bool_decide_eq_true_2 by done. done.
  - rewrite !bool_decide_eq_false_2 by congruence. cbn [Z.eqb when negb]. 
    rewrite bind_run, (memcpy_run _ _ _ _ _ _ _ (x :: r) m) by by rewrite Z.add_0_r.
    cbn [obind]. done.
Qed.

Lemma table_stored vo bs m s : table (stored vo bs m s) = table s.
Proof using Type. unfold stored. by case_bool_decide. Qed.
Lemma block_stored vo bs m s b : b ≠ g_device -> block b (stored vo bs m s) = block b s.
Proof using Type.
  intros Hb. unfold stored. case_bool_decide; [done|]. by rewrite block_put, block_set_block_ne.
Qed.
Lemma device_stored vo bs m s :
  wrn (block g_device s) vo bs = Some m -> block g_device (stored vo bs m s) = m.
Proof using Type.
  intros Hw. unfold stored. case_bool_decide as Hb; [|by rewrite block_put, block_set_block_eq].
  apply wrn_rdn_id in Hb. congruence.
Qed.
Lemma wf_stored vo bs m s :
  bytes_ok bs -> wrn (block g_device s) vo bs = Some m -> wf s -> wf (stored vo bs m s).
Proof using Type.
  intros Hb Hw Hwf. unfold stored. case_bool_decide; [done|]. apply wf_put, wf_set_block; [| |done].
  - rewrite (wrn_blen _ _ _ _ Hw). by apply wf_size.
  - eapply wrn_ok, Hw; [by apply wf_bytes|done].
Qed.

Lemma stored_setFlag vo bs m s :
  get setFlag (stored vo bs m s) =
  if bool_decide (rdn (block g_device s) vo (blen bs) = Some bs) then get setFlag s else 1.
Proof using Type. unfold stored. case_bool_decide; [done|]. by mget. Qed.

(** A write command in execution: the value stored, the length byte reduced to
    the empty answer's. *)
Lemma write_item_run o b len cmd idx fl n vo f bs m s :
  wf s -> bsize b = SBUF_size -> b ≠ g_device ->
  0 <= idx -> table s !! Z.to_nat idx = Some (mkItem (At g_device vo) fl n f) ->
  noop_item (mkItem (At g_device vo) fl n f) b ->
  rd (block b s) off_len = Some len -> len = n + (2 + addr_bytes o) -> plain_write cmd -> 0 < n ->
  rdn (block b s) (off_para o) n = Some bs ->
  rangeControl cmd (default 0 (head bs)) = CMDOORCHECKOK ->
  wrn (block g_device s) vo bs = Some m ->
  exists m', wr (block b s) off_len (2 + addr_bytes o) = Some m' /\
    write_item o b len cmd idx s = Ret (CMDOORCHECKOK, set_block b m' (stored vo bs m s)) /\
    wf (set_block b m' (stored vo bs m s)).
Proof using Type.
  intros Hwf Hsz Hb Hi Ht Hnoop Hl Hlen Hcmd Hn Hbs Hrange Hw.
  assert (Hbok : bytes_ok bs) by (eapply rdn_ok, Hbs; by apply wf_bytes).
  assert (Hwf' := wf_stored _ _ _ _ Hbok Hw Hwf).
  assert (Hl' : rd (block b (stored vo bs m s)) off_len = Some len) by by rewrite block_stored.
  assert (Ht' : table (stored vo bs m s) !! Z.to_nat idx = Some (mkItem (At g_device vo) fl n f))
    by by rewrite table_stored.
  assert (Hwv := write_value_run o b len cmd idx fl n vo f bs m s Hi Ht Hlen Hcmd Hn Hbs Hrange Hw).
  not_in. unfold write_item, switch. cbn [existsb].
  rewrite !(proj2 (Z.eqb_neq cmd _)) by done. cbn [orb].
  rewrite bind_run, (bind_run (write_value _ _ _ _ _)), Hwv. cbn [obind].
  rewrite bind_run, (ld8_run _ _ _ _ Hl'). cbn [obind].
  rewrite bind_run, (item_at_run _ _ _ Hi Ht'). cbn [obind item_length].
  replace (len - n) with (2 + addr_bytes o) by lia. rewrite bind_run.
  store Hwf' Hw2; [unfold off_len; rewrite Hsz; done|].
  rewrite ret_run. cbn [obind]. rewrite bind_run. cbn [when Z.eqb CMDOORCHECKOK].
  rewrite (run_Function_noop idx _ b (set_block b m0 (stored vo bs m s)) Hi Ht' Hnoop). cbn [obind].
  exists m0. rewrite block_stored in Hw2 by done. done.
Qed.

Lemma process_plain_write o length b len cmd addr idx fr Address st fl n vo f bs m s :
  received b len cmd addr idx fr s -> rd (block g_device s) wp_Address = Some Address ->
  verdict o length len cmd addr idx Address fr = CMDOORCHECKOK ->
  rd (block g_device s) wp_ReaderWorkStatus = Some st ->
  st ≠ WORK_ACT \/ active_allowed cmd = true ->
  table s !! Z.to_nat idx = Some (mkItem (At g_device vo) fl n f) ->
  has_flag (mkItem (At g_device vo) fl n f) Flag_ParamItem_WR = true ->
  noop_item (mkItem (At g_device vo) fl n f) b ->
  len = n + (2 + addr_bytes o) -> plain_write cmd -> 0 < n ->
  rdn (block b s) (off_para o) n = Some bs ->
  rangeControl cmd (default 0 (head bs)) = CMDOORCHECKOK ->
  wrn (block g_device s) vo bs = Some m ->
  exists s', processParamTable o b length s = Ret (CMDOORCHECKOK, s') /\
    block g_device s' = m /\
    get setFlag s' = (if bool_decide (rdn (block g_device s) vo n = Some bs) then get setFlag s else 1) /\
    rdn (block b s') 0 (blen (ok_frame o cmd addr [])) = Some (ok_frame o cmd addr []) /\
    table s' = table s /\ out s' = out s /\ wf s'.
Proof using Type.
  intros Hrc Haddr Hv Hst Hact Ht Hfl Hnoop Hlen Hcmd Hn Hbs Hrange Hw.
  assert (Hrc' := Hrc). destruct Hrc' as [Hwf Hsz Hb Hl Hc Ha Hf Hix].
  assert (Hi : 0 <= idx) by (rewrite Hix; apply scan_bounds).
  destruct (write_item_run o b len cmd idx fl n vo f bs m s) as (m' & Hw' & E & Hwf'); try done.
  rewrite (process_prefix _ _ _ _ _ _ _ _ _ _ Hrc Haddr), Hv.
  cbn [Z.eqb CMDOORCHECKOK]. rewrite bind_run. unfold execute.
  rewrite bind_run, (ld8_run _ _ _ _ Hst). cbn [obind].
  replace ((st =? WORK_ACT) && negb (active_allowed cmd)) with false
    by (destruct Hact as [Hne| ->]; [by rewrite (proj2 (Z.eqb_neq st _) Hne)|by rewrite andb_false_r]).
  rewrite bind_run, (item_at_run _ _ _ Hi Ht). cbn [obind]. rewrite Hfl, E. cbn [obind].
  pose proof (addr_bytes_range o).
  destruct (packet_reply o cmd addr [] b _ Hwf' Hsz) as (m2 & E2 & Hr2 & Hwf2).
  - mget. rewrite (rd_wr_eq _ _ _ _ Hw'), u8_small, Z.add_0_r by lia. done.
  - mget. unfold off_len, off_cmd in *. by rdwr.
  - mget. unfold off_len, off_addr in *. by rdwr.
  - mget. unfold off_para. rewrite rdn_in; [done|lia|done|]. change (blen []) with 0.
    rewrite (wr_blen _ _ _ _ Hw'), (wf_size s Hwf b), Hsz. unfold SBUF_size. lia.
  - change (blen []) with 0. lia.
  - rewrite E2. eexists. split; [done|]. rewrite set_block_twice in *. split_and!.
    + rewrite block_set_block_ne by done. by apply device_stored.
    + rewrite get_set_block, stored_setFlag. by rewrite (rdn_blen _ _ _ _ Hbs).
    + by mget.
    + simpl. by rewrite table_stored.
    + unfold stored. by case_bool_decide.
    + done.
Qed.

(** A read command in execution: the value appended to the frame. *)
Lemma read_item_run o b len cmd idx fl n vo f bs s :
  wf s -> bsize b = SBUF_size -> b ≠ g_device ->
  0 <= idx -> table s !! Z.to_nat idx = Some (mkItem (At g_device vo) fl n f) ->
  noop_item (mkItem (At g_device vo) fl n f) b ->
  rd (block b s) off_len = Some len -> len = 2 + addr_bytes o -> plain_read cmd ->
  0 <= n <= 240 -> rdn (block g_device s) vo n = Some bs ->
  exists m1 m2, wrn (block b s) (off_para o) bs = Some m1 /\
    wr m1 off_len (2 + addr_bytes o + n) = Some m2 /\
    read_item o b len cmd idx s = Ret (CMDOORCHECKOK, set_block b m2 s) /\
    wf (set_block b m2 s).
Proof using Type.
  intros Hwf Hsz Hb Hi Ht Hnoop Hl Hlen Hcmd Hn Hbs. not_in. unfold read_item.
  rewrite !(proj2 (Z.eqb_neq cmd _)) by done. rewrite <- Hlen, Z.eqb_refl. cbn [negb].
  destruct (rd_in (block g_device s) wp_ReaderWorkStatus) as [st Hst];
    [by rewrite (wf_size s Hwf)|].
  rewrite bind_run, (ld8_run _ _ _ _ Hst). cbn [obind].
  rewrite bind_run, (run_Function_noop idx _ b s Hi Ht Hnoop). cbn [obind].
  unfold read_value. rewrite bind_run, bind_run, (item_at_run _ _ _ Hi Ht).
  cbn [obind item_length value]. rewrite bool_decide_eq_false_2 by done. cbn [negb].
  rewrite !(proj2 (Z.eqb_neq cmd _)) by done.
  pose proof (rdn_blen _ _ _ _ Hbs) as Hbl. pose proof (addr_bytes_range o).
  assert (Hbok : bytes_ok bs) by (eapply rdn_ok, Hbs; by apply wf_bytes).
  destruct (stn_wf b (off_para o) bs s Hwf Hbok) as (m1 & Hw1 & _ & Hwf1);
    [unfold off_para; lia|rewrite Hsz, Hbl; unfold off_para, SBUF_size; lia|].
  rewrite bind_run, (memcpy_run b (off_para o) 0 g_device vo 0 n bs m1) by by rewrite Z.add_0_r.
  cbn [obind].
  assert (Hl1 : rd m1 off_len = Some len).
  { rewrite <- Hl. eapply rd_wrn_out; [done|]. unfold off_para, off_len. lia. }
  rewrite bind_run, (ld8_run b off_len _ len) by by mget. cbn [obind].
  rewrite bind_run, (item_at_run idx (mkItem (At g_device vo) fl n f)) by done.
  cbn [obind item_length].
  store Hwf1 Hw2; [unfold off_len; rewrite Hsz; done|].
  rewrite bind_run. cbn [when obind]. rewrite ret_run. cbn [obind].
  exists m1, m. done.
Qed.

Lemma process_plain_read o length b len cmd addr idx fr Address st fl n vo f bs s :
  received b len cmd addr idx fr s -> rd (block g_device s) wp_Address = Some Address ->
  verdict o length len cmd addr idx Address fr = CMDOORCHECKOK ->
  rd (block g_device s) wp_ReaderWorkStatus = Some st ->
  st ≠ WORK_ACT \/ active_allowed cmd = true ->
  table s !! Z.to_nat idx = Some (mkItem (At g_device vo) fl n f) ->
  has_flag (mkItem (At g_device vo) fl n f) Flag_ParamItem_WR = false ->
  has_flag (mkItem (At g_device vo) fl n f) Flag_ParamItem_RD = true ->
  noop_item (mkItem (At g_device vo) fl n f) b ->
  len = 2 + addr_bytes o -> plain_read cmd -> 0 <= n <= 240 ->
  rdn (block g_device s) vo n = Some bs ->
  exists m, processParamTable o b length s = Ret (CMDOORCHECKOK, set_block b m s) /\
    rdn m 0 (blen (ok_frame o cmd addr bs)) = Some (ok_frame o cmd addr bs) /\
    wf (set_block b m s).
Proof using Type.
  intros Hrc Haddr Hv Hst Hact Ht Hfl Hfl2 Hnoop Hlen Hcmd Hn Hbs.
  assert (Hrc' := Hrc). destruct Hrc' as [Hwf Hsz Hb Hl Hc Ha Hf Hix].
  assert (Hi : 0 <= idx) by (rewrite Hix; apply scan_bounds).
  destruct (read_item_run o b len cmd idx fl n vo f bs s) as (m1 & m2 & Hw1 & Hw2 & E & Hwf'); try done.
  rewrite (process_prefix _ _ _ _ _ _ _ _ _ _ Hrc Haddr), Hv.
  cbn [Z.eqb CMDOORCHECKOK]. rewrite bind_run. unfold execute.
  rewrite bind_run, (ld8_run _ _ _ _ Hst). cbn [obind].
  replace ((st =? WORK_ACT) && negb (active_allowed cmd)) with false
    by (destruct Hact as [Hne| ->]; [by rewrite (proj2 (Z.eqb_neq st _) Hne)|by rewrite andb_false_r]).
  rewrite bind_run, (item_at_run _ _ _ Hi Ht). cbn [obind]. rewrite Hfl, Hfl2, E. cbn [obind].
  pose proof (addr_bytes_range o). pose proof (rdn_blen _ _ _ _ Hbs) as Hbl.
  assert (Hhead : forall k, k = off_cmd \/ k = off_addr /\ o = SourceFrom485 -> rd m2 k = rd (block b s) k).
  { intros k Hk. rewrite (rd_wr_ne _ _ _ _ _ Hw2) by (unfold off_len, off_cmd, off_addr in *; lia).
    eapply rd_wrn_out; [done|]. unfold off_para, addr_bytes, off_cmd, off_addr in *.
    destruct Hk as [->|[-> ->]]; simpl; lia. }
  destruct (packet_reply' o cmd addr bs b _ Hwf' Hsz) as (m3 & E3 & Hr3 & Hwf3); mget.
  - rewrite Hbl, (rd_wr_eq _ _ _ _ Hw2), u8_small by lia. done.
  - rewrite Hhead by auto. done.
  - intros ->. rewrite Hhead by auto. done.
  - rewrite (rdn_wr_out _ _ _ _ _ _ Hw2) by (unfold off_para, off_len; lia).
    by apply rdn_wrn_same in Hw1.
  - lia.
  - rewrite E3, set_block_twice in *. eauto.
Qed.

(** ** Frames as the host sends them *)

Definition host_body (cmdOrigin cmd addr : Z) (ps : bytes) : bytes :=
  [0x40; 2 + addr_bytes cmdOrigin + blen ps; cmd]
  ++ (if cmdOrigin =? SourceFrom485 then [addr] else []) ++ ps.
Definition host_frame (cmdOrigin cmd addr : Z) (ps : bytes) : bytes :=
  host_body cmdOrigin cmd addr ps ++ [checksum (host_body cmdOrigin cmd addr ps)].

Lemma host_body_blen o cmd addr ps : blen (host_body o cmd addr ps) = 3 + addr_bytes o + blen ps.
Proof using Type.
  unfold host_body, addr_bytes. rewrite !blen_app. destruct (o =? SourceFrom485); unfold blen; simpl; lia.
Qed.
Lemma host_frame_blen o cmd addr ps : blen (host_frame o cmd addr ps) = 4 + addr_bytes o + blen ps.
Proof using Type. unfold host_frame. rewrite blen_app, host_body_blen. unfold blen; simpl; lia. Qed.

(** A receive structure that holds the frame [fr]. *)
Record loaded (b : blk) (fr : bytes) (s : fw) : Prop := {
  ld_wf : wf s;
  ld_size : bsize b = SBUF_size;
  ld_host : b ≠ g_device;
  ld_frame : rdn (block b s) 0 (blen fr) = Some fr }.

Lemma rd_loaded b fr s i :
  loaded b fr s -> 0 <= i < blen fr -> rd (block b s) i = rd fr i.
Proof using Type.
  intros [_ _ _ Hf] Hi. rewrite (rd_rdn _ _ _ _ i Hf Hi). by rewrite Z.add_0_l.
Qed.

(** What the firmware reads out of such a frame. *)
Lemma loaded_received o cmd addr ps b s :
  loaded b (host_frame o cmd addr ps) s ->
  exists addr',
    received b (2 + addr_bytes o + blen ps) cmd addr' (scan cmd (table_index s) 0)
      (host_frame o cmd addr ps) s /\
    (o = SourceFrom485 -> addr' = addr) /\
    rdn (block b s) (off_para o) (blen ps) = Some ps.
Proof using Type.
  intros Hld. assert (Hld' := Hld). destruct Hld' as [Hwf Hsz Hb Hf].
  pose proof (host_frame_blen o cmd addr ps) as Hl. pose proof (blen_nonneg ps).
  pose proof (addr_bytes_range o).
  assert (Hrd := fun i Hi => rd_loaded b _ s i Hld Hi). rewrite Hl in Hrd.
  pose proof Hf as (_ & _ & Hin & _)%rdn_Some.
  destruct (rd_in (block b s) off_addr) as [addr' Ha]; [unfold off_addr; lia|].
  exists addr'. split_and!.
  - split; try done.
    + rewrite Hrd by (unfold off_len; lia). done.
    + rewrite Hrd by (unfold off_cmd; lia). done.
    + rewrite <- Hf. f_equal. rewrite Hl. lia.
  - intros ->. rewrite Hrd in Ha by (unfold off_addr, addr_bytes, SourceFrom485; simpl; lia).
    unfold host_frame, host_body in Ha. rewrite Z.eqb_refl in Ha. by injection Ha as ->.
  - unfold host_frame, host_body, off_para in *.
    apply (rdn_infix (block b s) ([0x40; 2 + addr_bytes o + blen ps; cmd]
             ++ (if o =? SourceFrom485 then [addr] else [])) ps
             [checksum (host_body o cmd addr ps)]).
    + rewrite <- !app_assoc in *. exact Hf.
    + unfold addr_bytes. by destruct (o =? SourceFrom485).
Qed.

Lemma host_frame_verdict o cmd addr ps idx addr' Address :
  idx < Z.of_nat Count_ParamItem_Max -> cmd ≠ 0 ->
  (o = SourceFrom485 -> addr' = Address) ->
  verdict o (blen (host_frame o cmd addr ps)) (2 + addr_bytes o + blen ps) cmd addr' idx
    Address (host_frame o cmd addr ps) = CMDOORCHECKOK.
Proof using Type.
  intros Hi Hc Ha. unfold verdict. rewrite host_frame_blen.
  rewrite Z.geb_leb, Z.gtb_ltb. destruct (Z.leb_spec (Z.of_nat Count_ParamItem_Max) idx); [lia|].
  destruct (Z.eqb_spec cmd 0); [done|].
  destruct (Z.ltb_spec (4 + addr_bytes o + blen ps) (2 + addr_bytes o + blen ps + 2)); [lia|].
  rewrite bool_decide_eq_true_2 by apply frame_checksum. cbn [negb].
  destruct (Z.eqb_spec o SourceFrom485) as [->|]; [|done].
  rewrite Ha by done. by rewrite Z.eqb_refl.
Qed.

(** ** Properties *)

(** C5: a frame that fails a check of [validate] -- an unknown command, a zero
    command, a truncated frame, a bad checksum, another reader's RS-485 address --
    makes [processParamTable] return that status with the error frame that carries
    it in the receive structure, and nothing else changes: no handler runs, no
    parameter is touched. (Whether the error frame is then sent is the caller's
    business: for a status of [ERRORNORETURN] it is not. There is no broadcast
    address: 0 and 255 are refused like any other that is not the reader's,
    whatever the comment on [Address] in Main.h says.) *)
Theorem process_rejects o length b len cmd addr idx fr Address s :
  received b len cmd addr idx fr s -> rd (block g_device s) wp_Address = Some Address ->
  verdict o length len cmd addr idx Address fr ≠ CMDOORCHECKOK ->
  exists m, let v := verdict o length len cmd addr idx Address fr in
    processParamTable o b length s = Ret (v, set_block b m s) /\
    rdn m 0 (blen (error_frame o cmd addr v)) = Some (error_frame o cmd addr v) /\
    wf (set_block b m s).
Proof using Type.
  intros Hrc Ha Hv. rewrite (process_prefix _ _ _ _ _ _ _ _ _ _ Hrc Ha).
  destruct (verdict_range o length len cmd addr idx Address fr) as [|Hr]; [done|].
  rewrite (proj2 (Z.eqb_neq _ _) Hv). rewrite bind_run, ret_run. cbn [obind].
  destruct Hrc. by apply packet_error_run.
Qed.

(** C9: while the reader works on its own
    ([ReaderWorkStatus] is [WORK_ACT]) a well-formed command outside the nine
    of [active_allowed] is answered [INVALIDMASTERCMD] and changes nothing but
    the receive structure. *)
Theorem process_active_mode o length b len cmd addr idx fr Address s :
  received b len cmd addr idx fr s -> rd (block g_device s) wp_Address = Some Address ->
  verdict o length len cmd addr idx Address fr = CMDOORCHECKOK ->
  rd (block g_device s) wp_ReaderWorkStatus = Some WORK_ACT -> active_allowed cmd = false ->
  exists m, processParamTable o b length s = Ret (INVALIDMASTERCMD, set_block b m s) /\
    rdn m 0 (blen (error_frame o cmd addr INVALIDMASTERCMD)) =
      Some (error_frame o cmd addr INVALIDMASTERCMD) /\
    wf (set_block b m s).
Proof using Type.
  intros Hrc Ha Hv Hst Hact. rewrite (process_prefix _ _ _ _ _ _ _ _ _ _ Hrc Ha), Hv.
  cbn [Z.eqb CMDOORCHECKOK]. rewrite bind_run. unfold execute.
  rewrite bind_run, (ld8_run _ _ _ _ Hst). cbn [obind]. rewrite Hact. cbn [Z.eqb WORK_ACT andb negb].
  rewrite ret_run. cbn [obind]. destruct Hrc. by apply packet_error_run.
Qed.

(** A registered item whose value is a field of [g_device]. *)
Definition item_of (s : fw) (cmd : Z) (it : SParamItem) : Prop :=
  let idx := scan cmd (table_index s) 0 in
  idx < Z.of_nat Count_ParamItem_Max /\ table s !! Z.to_nat idx = Some it.

(** A reader in the command mode, with its address. *)
Definition obeys (Address : Z) (dev : bytes) : Prop :=
  rd dev wp_Address = Some Address /\
  exists st, rd dev wp_ReaderWorkStatus = Some st /\ st ≠ WORK_ACT.

Lemma obeys_stored Address dev vo ps m :
  obeys Address dev -> wrn dev vo ps = Some m ->
  vo + blen ps <= wp_ReaderWorkStatus \/ wp_Address < vo -> obeys Address m.
Proof using Type.
  intros (Ha & st & Hst & Hne) Hw Hvo. unfold wp_ReaderWorkStatus, wp_Address in *.
  split; [|exists st; split; [|done]].
  - rewrite <- Ha. eapply rd_wrn_out; [done|lia].
  - rewrite <- Hst. eapply rd_wrn_out; [done|lia].
Qed.

Lemma ok_frame_addr o cmd a a' ps :
  (o = SourceFrom485 -> a = a') -> ok_frame o cmd a ps = ok_frame o cmd a' ps.
Proof using Type.
  intros Ha. unfold ok_frame, ok_body. destruct (Z.eqb_spec o SourceFrom485); [|done].
  by rewrite Ha.
Qed.

(** The processing of a well-formed set and get frame. *)
Lemma process_set o b cmd n vo fl f ps Address s :
  let it := mkItem (At g_device vo) fl n f in
  loaded b (host_frame o cmd Address ps) s -> obeys Address (block g_device s) ->
  item_of s cmd it -> has_flag it Flag_ParamItem_WR = true -> noop_item it b ->
  plain_write cmd -> cmd ≠ 0 -> blen ps = n -> 0 < n -> 0 <= vo -> vo + n <= bsize g_device ->
  rangeControl cmd (default 0 (head ps)) = CMDOORCHECKOK ->
  exists s1 m,
    processParamTable o b (blen (host_frame o cmd Address ps)) s = Ret (CMDOORCHECKOK, s1) /\
    wrn (block g_device s) vo ps = Some m /\ block g_device s1 = m /\
    get setFlag s1 = (if bool_decide (rdn (block g_device s) vo n = Some ps) then get setFlag s else 1) /\
    rdn (block b s1) 0 (blen (ok_frame o cmd Address [])) = Some (ok_frame o cmd Address []) /\
    table s1 = table s /\ out s1 = out s /\ wf s1.
Proof using Type.
  intros it Hld (Ha & st & Hst & Hne) (Hi & Ht) Hfl Hnoop Hcmd Hc0 Hn Hpos Hv0 Hv1 Hrange.
  destruct (loaded_received _ _ _ _ _ _ Hld) as (addr' & Hrc & Haddr & Hps).
  destruct Hld as [Hwf _ _ _]. pose proof (wf_size s Hwf g_device) as Hsz.
  destruct (wrn (block g_device s) vo ps) as [m|] eqn:Hw;
    [|rewrite wrn_in in Hw by (rewrite ?Hsz; lia); discriminate].
  destruct (process_plain_write o (blen (host_frame o cmd Address ps)) b _ cmd addr' _ _ Address st
              fl n vo f ps m s Hrc Ha) as (s1 & E & Hd & Hf & Hr & Htb & Ho & Hwf1); try done.
  - by apply host_frame_verdict.
  - by left.
  - rewrite Hn. lia.
  - by rewrite <- Hn.
  - rewrite (ok_frame_addr _ _ addr' Address) in Hr by done. exists s1, m. done.
Qed.

Lemma process_get o b cmd n vo fl f ps Address s :
  let it := mkItem (At g_device vo) fl n f in
  loaded b (host_frame o cmd Address []) s -> obeys Address (block g_device s) ->
  item_of s cmd it -> has_flag it Flag_ParamItem_WR = false ->
  has_flag it Flag_ParamItem_RD = true -> noop_item it b ->
  plain_read cmd -> cmd ≠ 0 -> 0 <= n <= 240 -> rdn (block g_device s) vo n = Some ps ->
  exists m,
    processParamTable o b (blen (host_frame o cmd Address [])) s = Ret (CMDOORCHECKOK, set_block b m s) /\
    rdn m 0 (blen (ok_frame o cmd Address ps)) = Some (ok_frame o cmd Address ps).
Proof using Type.
  intros it Hld (Ha & st & Hst & Hne) (Hi & Ht) Hfl Hfl2 Hnoop Hcmd Hc0 Hn Hps.
  destruct (loaded_received _ _ _ _ _ _ Hld) as (addr' & Hrc & Haddr & _).
  destruct (process_plain_read o (blen (host_frame o cmd Address [])) b _ cmd addr' _ _ Address st
              fl n vo f ps s Hrc Ha) as (m & E & Hr & Hwf1); try done.
  - by apply host_frame_verdict.
  - by left.
  - change (blen []) with 0. lia.
  - rewrite (ok_frame_addr _ _ addr' Address) in Hr by done. eauto.
Qed.

(** C8: on a reader in the command mode, a parameter written with a set
    command in range and read back with the get command registered for the same
    field is what was written, also when the two commands come over different
    channels; both are acknowledged with a well-formed frame, and the write raises
    [setFlag] unless the field already held the value. The two commands are items
    of the table for the same 1 to 240 bytes of [g_device], the first writable,
    the second only readable, clear of the bytes from [ReaderWorkStatus] to
    [Address], without a function that does anything, and neither is one of those
    that [write_item] and [read_item] treat apart ([plain_write], [plain_read];
    the tag filter is among those left out). *)
Theorem set_get_roundtrip o1 o2 b1 b2 cs cg n vo fs fg hs hg ps Address s :
  let its := mkItem (At g_device vo) fs n hs in
  let itg := mkItem (At g_device vo) fg n hg in
  loaded b1 (host_frame o1 cs Address ps) s -> obeys Address (block g_device s) ->
  item_of s cs its -> item_of s cg itg ->
  has_flag its Flag_ParamItem_WR = true -> has_flag itg Flag_ParamItem_WR = false ->
  has_flag itg Flag_ParamItem_RD = true -> noop_item its b1 -> noop_item itg b2 ->
  plain_write cs -> plain_read cg -> cs ≠ 0 -> cg ≠ 0 ->
  blen ps = n -> 0 < n <= 240 -> 0 <= vo -> vo + n <= bsize g_device ->
  vo + n <= wp_ReaderWorkStatus \/ wp_Address < vo ->
  rangeControl cs (default 0 (head ps)) = CMDOORCHECKOK ->
  exists s1,
    processParamTable o1 b1 (blen (host_frame o1 cs Address ps)) s = Ret (CMDOORCHECKOK, s1) /\
    rdn (block b1 s1) 0 (blen (ok_frame o1 cs Address [])) = Some (ok_frame o1 cs Address []) /\
    (get setFlag s1 = 1 \/ rdn (block g_device s) vo n = Some ps) /\
    forall s2, loaded b2 (host_frame o2 cg Address []) s2 ->
      block g_device s2 = block g_device s1 -> table s2 = table s1 ->
      table_index s2 = table_index s ->
      exists m,
        processParamTable o2 b2 (blen (host_frame o2 cg Address [])) s2 =
          Ret (CMDOORCHECKOK, set_block b2 m s2) /\
        rdn m 0 (blen (ok_frame o2 cg Address ps)) = Some (ok_frame o2 cg Address ps).
Proof using Type.
  intros its itg Hld Hob Hs Hg Hfs Hfg Hfg2 Hns Hng Hps Hpg Hcs Hcg Hn Hn2 Hv0 Hv1 Hvo Hrange.
  destruct (process_set o1 b1 cs n vo fs hs ps Address s) as (s1 & m & E & Hw & Hd & Hf & Hr & Ht & _);
    try done; [lia|].
  exists s1. split_and!; [done|done| |].
  { rewrite Hf. case_bool_decide; auto. }
  intros s2 Hld2 Hd2 Ht2 Hx2.
  apply (process_get o2 b2 cg n vo fg hg ps Address); try done.
  - rewrite Hd2, Hd. eapply obeys_stored; [done..|by rewrite Hn].
  - unfold item_of. by rewrite Ht2, Ht, Hx2.
  - lia.
  - rewrite Hd2, Hd, <- Hn. by apply rdn_wrn_same in Hw.
Qed.

Lemma set_item_length_run i it n s :
  0 <= i < Z.of_nat Count_ParamItem_Max -> table s !! Z.to_nat i = Some it ->
  exists t, set_item_length i n s = Ret (tt, set_table t s) /\
    t !! Z.to_nat i = Some (mkItem (value it) (flag it) (u8 n) (Function_ it)) /\
    length t = length (table s).
Proof using Type.
  intros Hi Hl. unfold set_item_length.
  rewrite bind_run, (item_at_run _ _ _ (proj1 Hi) Hl). cbn [obind]. unfold put_item.
  destruct (Z.leb_spec 0 i), (Z.ltb_spec i (Z.of_nat Count_ParamItem_Max)); [|lia..].
  eexists. split; [done|]. rewrite length_insert. split; [|done].
  apply list_lookup_insert_eq. by eapply lookup_lt_Some.
Qed.

(** [SetTagFilter] copies as many bytes as the frame has,
    not as many as [tagfilter] holds.  A frame with more than 62 parameter
    bytes replaces the reader's RS-485 address, 62 bytes behind the filter; one
    with more than 195 runs past the end of [g_device]. *)
Theorem tagfilter_overrun o b len idx fl n f s :
  wf s -> bsize b = SBUF_size -> b ≠ g_device ->
  0 <= idx < Z.of_nat Count_ParamItem_Max ->
  table s !! Z.to_nat idx = Some (mkItem (At g_device off_tagfilter) fl n f) ->
  62 < len - 2 - addr_bytes o -> len < 256 ->
  if len - 2 - addr_bytes o <=? 195 then
    exists s', write_TagFilter o b len idx s = Ret (CMDOORCHECKOK, s') /\
      rd (block g_device s') wp_Address = rd (block b s) (off_para o + 62)
  else write_TagFilter o b len idx s = Oob.
Proof using Type.
  intros Hwf Hsz Hb Hi Ht Hlo Hhi. pose proof (addr_bytes_range o) as Ha.
  unfold write_TagFilter. rewrite bind_run, (item_at_run _ _ _ (proj1 Hi) Ht). cbn [obind].
  cbv beta zeta. rewrite bind_run.
  destruct (Z.eqb_spec len (6 + addr_bytes o)); [lia|].
  destruct (Z.ltb_spec len (6 + addr_bytes o)); [lia|].
  rewrite bind_run, putv_run. cbn [obind]. set (s1 := put setFlag 1 s).
  assert (Hset : exists t, when (addr_bytes o =? 0) (set_item_length idx 0) s1 = Ret (tt, set_table t s1)
                   /\ (exists it, t !! Z.to_nat idx = Some it)).
  { destruct (addr_bytes o =? 0).
    - destruct (set_item_length_run idx _ 0 s1 Hi Ht) as (t & E & Hl & _). exists t. eauto.
    - exists (table s1). split; [by destruct s1|]. eauto. }
  destruct Hset as (t & E & it & Hit). rewrite bind_run, E. cbn [obind].
  pose proof (wf_size s Hwf g_device) as Hd. pose proof (wf_size s Hwf b) as Hbs.
  rewrite Hsz in Hbs. cbn in Hd. unfold SBUF_size in Hbs.
  destruct (rdn (block b s) (3 + addr_bytes o) (len - 2 - addr_bytes o)) as [bs|] eqn:Hr;
    [|rewrite rdn_in in Hr by lia; discriminate].
  pose proof (rdn_blen _ _ _ _ Hr) as Hbl. unfold off_tagfilter in *.
  destruct (Z.leb_spec (len - 2 - addr_bytes o) 195).
  - destruct (wrn (block g_device s) 15 bs) as [m|] eqn:Hw; [|rewrite wrn_in in Hw by lia; discriminate].
    rewrite bind_run, (memcpy_run g_device 15 0 b (3 + addr_bytes o) 0 _ bs m)
      by (rewrite Z.add_0_r; done). cbn [obind]. rewrite ret_run. cbn [obind].
    destruct (rd_in (block b s) off_len) as [v Hv]; [unfold off_len; lia|].
    rewrite bind_run, (ld8_run b off_len _ v) by by mget. cbn [obind].
    destruct (set_item_length_run idx it (v - 2 - addr_bytes o) (set_block g_device m (set_table t s1)) Hi Hit)
      as (t2 & E2 & _). rewrite bind_run, E2. cbn [obind]. eexists. split; [done|].
    mget. unfold wp_Address, off_para. rewrite (rd_wrn_in _ _ _ _ _ Hw) by lia.
    rewrite (rd_rdn _ _ _ _ _ Hr) by lia. f_equal.
  - rewrite bind_run. unfold memcpy. rewrite bind_run.
    change (ldpn (At b (3 + addr_bytes o)) 0 (len - 2 - addr_bytes o) (set_table t s1))
      with (ldn b (3 + addr_bytes o + 0) (len - 2 - addr_bytes o) (set_table t s1)).
    rewrite Z.add_0_r, (ldn_run b _ _ _ bs) by done. cbn [obind].
    unfold stpn, value, stn. replace (wrn _ _ bs) with (@None bytes); [done|].
    unfold wrn. mget. unfold s1. mget. rewrite Hbl, Hd.
    destruct (Z.leb_spec 0 (15 + 0)), (Z.leb_spec (15 + 0 + (len - 2 - addr_bytes o)) 210); simpl; lia || done.
Qed.
End process.
