(* ===== verification/Flash.v ===== *)
(** * Internal flash (stm32flash.c)

    Half-words are programmed and pages of 2048 bytes erased by the ST library;
    [FlashLaws] is what its documentation promises of them.  A [u16] buffer is
    a list of half-words. *)
From stdpp Require Import base tactics list numbers option gmap.
From S2P Require Import Prelude Machine Effects.

Definition STM32_FLASH_SIZE : Z := 512.
Definition STM32_FLASH_BASE : Z := 0x08000000.
Definition STM_SECTOR_SIZE : Z := 2048.

(** While the flash is unlocked, reading follows programming an erased
    half-word and erasing a page; neither touches another half-word, and the
    lock bit changes no half-word. *)
Class FlashLaws `{Board} : Prop := {
  read_program_eq : forall a w h, 0 <= w < 65536 -> flash_locked h = false ->
    flash_read h a = 0xFFFF -> flash_read (flash_program a w h) a = w;
  read_program_ne : forall a b w h, b mod 2 = 0 -> a mod 2 = 0 -> a ≠ b ->
    flash_read (flash_program a w h) b = flash_read h b;
  read_erase_in : forall p a h, flash_locked h = false -> p mod STM_SECTOR_SIZE = 0 -> a mod 2 = 0 ->
    p <= a < p + STM_SECTOR_SIZE -> flash_read (flash_erase p h) a = 0xFFFF;
  read_erase_out : forall p a h, p mod STM_SECTOR_SIZE = 0 -> a mod 2 = 0 ->
    a < p \/ p + STM_SECTOR_SIZE <= a -> flash_read (flash_erase p h) a = flash_read h a;
  read_unlock : forall a h, flash_read (flash_unlock h) a = flash_read h a;
  read_lock : forall a h, flash_read (flash_lock h) a = flash_read h a;
  locked_unlock : forall h, flash_locked (flash_unlock h) = false;
  locked_lock : forall h, flash_locked (flash_lock h) = true;
  locked_program : forall a w h, flash_locked (flash_program a w h) = flash_locked h;
  locked_erase : forall p h, flash_locked (flash_erase p h) = flash_locked h;
  read_halfword : forall a h, 0 <= flash_read h a < 65536 }.

Section flash.
Context `{Board}.

Definition STMFLASH_ReadHalfWord (faddr : Z) : M Z := fun s => Ret (flash_read (board s) faddr, s).

Fixpoint STMFLASH_Read (ReadAddr : Z) (NumToRead : nat) : M (list Z) :=
  match NumToRead with
  | O => mret []
  | S n =>
      w ← STMFLASH_ReadHalfWord ReadAddr;
      ws ← STMFLASH_Read (u32 (ReadAddr + 2)) n;
      mret (w :: ws)
  end.

Definition FLASH_ProgramHalfWord (a w : Z) : M unit := fun s =>
  Ret (tt, set_board (flash_program a w (board s)) s).
Definition FLASH_ErasePage (a : Z) : M unit := fun s =>
  Ret (tt, set_board (flash_erase a (board s)) s).
Definition FLASH_Unlock : M unit := fun s => Ret (tt, set_board (flash_unlock (board s)) s).
Definition FLASH_Lock : M unit := fun s => Ret (tt, set_board (flash_lock (board s)) s).

Fixpoint STMFLASH_Write_NoCheck (WriteAddr : Z) (pBuffer : list Z) : M unit :=
  match pBuffer with
  | [] => mret tt
  | w :: ws => FLASH_ProgramHalfWord WriteAddr w;; STMFLASH_Write_NoCheck (u32 (WriteAddr + 2)) ws
  end.

(** The first [n] half-words of a buffer. *)
Definition first (n : Z) (ws : list Z) : M (list Z) :=
  if n <=? Z.of_nat (length ws) then mret (take (Z.to_nat n) ws) else oob.

(** One turn of [while(1)]: the [secremain] half-words of sector [secpos]. *)
Definition write_sector (WriteAddr secpos secoff secremain : Z) (pBuffer : list Z) : M unit :=
  let base := secpos * STM_SECTOR_SIZE + STM32_FLASH_BASE in
  STMFLASH_BUF ← STMFLASH_Read base (Z.to_nat (STM_SECTOR_SIZE / 2));
  src ← first secremain pBuffer;
  if existsb (fun w => negb (w =? 0xFFFF))
       (take (Z.to_nat secremain) (drop (Z.to_nat secoff) STMFLASH_BUF))
  then
    FLASH_ErasePage base;;
    STMFLASH_Write_NoCheck base
      (take (Z.to_nat secoff) STMFLASH_BUF ++ src
       ++ drop (Z.to_nat (secoff + secremain)) STMFLASH_BUF)
  else STMFLASH_Write_NoCheck WriteAddr src.

Fixpoint write_sectors (fuel : nat) (WriteAddr secpos secoff secremain : Z)
    (pBuffer : list Z) (NumToWrite : Z) : M unit :=
  match fuel with
  | O => fun _ => Starved
  | S fuel =>
      write_sector WriteAddr secpos secoff secremain pBuffer;;
      if NumToWrite =? secremain then mret tt
      else
        let NumToWrite' := u16 (NumToWrite - secremain) in
        write_sectors fuel (u32 (WriteAddr + secremain)) (secpos + 1) 0
          (if NumToWrite' >? STM_SECTOR_SIZE / 2 then STM_SECTOR_SIZE / 2 else NumToWrite')
          (drop (Z.to_nat secremain) pBuffer) NumToWrite'
  end.

(** Every turn but the last writes at least one half-word, and every turn
    between the first and the last a whole sector of 1024: 66 turns are enough
    for [NumToWrite < 65536]. *)
Definition STMFLASH_Write (WriteAddr : Z) (pBuffer : list Z) (NumToWrite : Z) : M unit :=
  if (WriteAddr <? STM32_FLASH_BASE)
     || (WriteAddr >=? STM32_FLASH_BASE + 1024 * STM32_FLASH_SIZE) then mret tt
  else
    FLASH_Unlock;;
    let offaddr := WriteAddr - STM32_FLASH_BASE in
    let secpos := offaddr / STM_SECTOR_SIZE in
    let secoff := (offaddr mod STM_SECTOR_SIZE) / 2 in
    let secremain := STM_SECTOR_SIZE / 2 - secoff in
    let secremain := if NumToWrite <=? secremain then NumToWrite else secremain in
    write_sectors 66 WriteAddr secpos secoff secremain pBuffer NumToWrite;;
    FLASH_Lock.

(** ** Specification *)

(** The half-words from address [a] on. *)
Definition words_at (h : hw) (a : Z) (n : nat) : list Z :=
  map (fun i => flash_read h (a + 2 * Z.of_nat i)) (seq 0 n).

Lemma words_at_S h a n : words_at h a (S n) = flash_read h a :: words_at h (a + 2) n.
Proof using Type.
  unfold words_at. simpl. f_equal; [f_equal; lia|]. rewrite <- seq_shift, map_map.
  apply map_ext. intros i. f_equal. lia.
Qed.
Lemma length_words_at h a n : length (words_at h a n) = n.
Proof using Type. unfold words_at. by rewrite length_map, length_seq. Qed.

Lemma words_at_lookup h a n i :
  (i < n)%nat -> words_at h a n !! i = Some (flash_read h (a + 2 * Z.of_nat i)).
Proof using Type.
  intros Hi. unfold words_at. rewrite list_lookup_fmap.
  by rewrite (lookup_seq_lt 0 n i) by done.
Qed.

(** Two boards agree on the even addresses outside a range. *)
Definition same_outside (lo hi : Z) (h h' : hw) : Prop :=
  forall b, b mod 2 = 0 -> b < lo \/ hi <= b -> flash_read h' b = flash_read h b.

Definition prog (a : Z) (ws : list Z) (h : hw) : hw :=
  fst (fold_left (fun '(h, a) w => (flash_program a w h, a + 2)) ws (h, a)).

Lemma prog_cons a w ws h : prog a (w :: ws) h = prog (a + 2) ws (flash_program a w h).
Proof using Type. done. Qed.

Lemma Read_run a n s :
  0 <= a -> a + 2 * Z.of_nat n < 4294967296 ->
  STMFLASH_Read a n s = Ret (words_at (board s) a n, s).
Proof using Type.
  revert a. induction n as [|n IH]; intros a Ha Hn; [done|].
  cbn [STMFLASH_Read]. rewrite bind_run. simpl obind. rewrite bind_run.
  rewrite u32_small by lia. rewrite IH by lia. cbn [obind]. by rewrite words_at_S.
Qed.

Lemma NoCheck_run a ws s :
  0 <= a -> a + 2 * Z.of_nat (length ws) < 4294967296 ->
  STMFLASH_Write_NoCheck a ws s = Ret (tt, set_board (prog a ws (board s)) s).
Proof using Type.
  revert a s. induction ws as [|w ws IH]; intros a s Ha Hn; [by destruct s|].
  cbn [STMFLASH_Write_NoCheck length] in *. rewrite bind_run. simpl obind.
  rewrite u32_small by lia. rewrite IH by lia. done.
Qed.

Lemma existsb_false_forall {A} (f : A -> bool) l :
  existsb f l = false <-> forall x, x ∈ l -> f x = false.
Proof using Type.
  split.
  - intros Hf x Hx. destruct (f x) eqn:E; [|done]. rewrite <- Hf. apply eq_sym, existsb_exists.
    exists x. split; [by apply list_elem_of_In|done].
  - intros Hf. destruct (existsb f l) eqn:E; [|done].
    apply existsb_exists in E as (x & Hx & E). rewrite Hf in E; [done|]. by apply list_elem_of_In.
Qed.

(** *** Termination *)

Lemma Read_total a n s : exists ws, STMFLASH_Read a n s = Ret (ws, s).
Proof using Type.
  revert a. induction n as [|n IH]; intros a; cbn [STMFLASH_Read]; [by eexists|].
  destruct (IH (u32 (a + 2))) as [ws E]. rewrite bind_run. simpl obind.
  rewrite bind_run, E. by eexists.
Qed.
Lemma NoCheck_total a ws s : exists h, STMFLASH_Write_NoCheck a ws s = Ret (tt, set_board h s).
Proof using Type.
  revert a s. induction ws as [|w ws IH]; intros a s; cbn [STMFLASH_Write_NoCheck].
  - exists (board s). by destruct s.
  - rewrite bind_run. simpl obind.
    destruct (IH (u32 (a + 2)) (set_board (flash_program a w (board s)) s)) as [h E].
    rewrite E. by exists h.
Qed.

Lemma write_sector_total a p o r ws s :
  r <= Z.of_nat (length ws) -> exists h, write_sector a p o r ws s = Ret (tt, set_board h s).
Proof using Type.
  intros Hr. unfold write_sector. cbv zeta. rewrite bind_run.
  destruct (Read_total (p * STM_SECTOR_SIZE + STM32_FLASH_BASE)
              (Z.to_nat (STM_SECTOR_SIZE / 2)) s) as [buf E].
  rewrite E. cbn [obind]. rewrite bind_run. unfold first.
  destruct (Z.leb_spec r (Z.of_nat (length ws))); [|lia]. rewrite ret_run. cbn [obind].
  destruct (existsb _ _); [|apply NoCheck_total]. rewrite bind_run. simpl obind.
  match goal with |- context [STMFLASH_Write_NoCheck ?a ?ws ?s] =>
    destruct (NoCheck_total a ws s) as [h Eh] end.
  rewrite Eh. by exists h.
Qed.

(** The turns left are enough when what remains after this one is at most
    1024 half-words for each of the others. *)
Lemma write_sectors_total fuel a p o r ws s :
  let n := Z.of_nat (length ws) in
  n < 65536 -> 0 <= r <= n -> n - r <= 1024 * Z.of_nat fuel ->
  exists h, write_sectors (S fuel) a p o r ws n s = Ret (tt, set_board h s).
Proof using Type.
  revert a p o r ws s. induction fuel as [|fuel IH]; intros a p o r ws s n Hn Hr Hf;
    cbn [write_sectors]; rewrite bind_run;
    destruct (write_sector_total a p o r ws s) as [h E]; try lia; rewrite E; cbn [obind];
    (destruct (Z.eqb_spec n r); [by exists h|]); [lia|].
  cbv zeta. rewrite u16_small by lia.
  replace (n - r) with (Z.of_nat (length (drop (Z.to_nat r) ws))) by (rewrite length_drop; lia).
  destruct (IH (u32 (a + r)) (p + 1) 0
    (if Z.of_nat (length (drop (Z.to_nat r) ws)) >? STM_SECTOR_SIZE / 2 then STM_SECTOR_SIZE / 2
     else Z.of_nat (length (drop (Z.to_nat r) ws))) (drop (Z.to_nat r) ws) (set_board h s)) as [h' E'].
  1-3: change (STM_SECTOR_SIZE / 2) with 1024; rewrite ?Z.gtb_ltb, length_drop;
    try (match goal with |- context [if ?x <? ?y then _ else _] => destruct (Z.ltb_spec x y) end); lia.
  cbn [write_sectors] in E'. exists h'. etransitivity; [exact E'|]. by destruct s.
Qed.

(** the loop of [STMFLASH_Write] ends for every number of
    half-words a caller can ask for, at every address, whatever the flash holds
    and however it responds: the 66 turns of the model are enough for
    65,535 half-words, and nothing but the flash is changed. *)
Theorem flash_write_total a ws s :
  Z.of_nat (length ws) < 65536 ->
  exists h, STMFLASH_Write a ws (Z.of_nat (length ws)) s = Ret (tt, set_board h s).
Proof using Type.
  intros Hn. unfold STMFLASH_Write. destruct (_ || _); [exists (board s); by destruct s|].
  rewrite bind_run. unfold FLASH_Unlock. cbn [obind]. cbv zeta.
  change (STM_SECTOR_SIZE / 2) with 1024.
  set (o := (a - STM32_FLASH_BASE) mod STM_SECTOR_SIZE / 2).
  assert (Ho : 0 <= o < 1024).
  { unfold o, STM_SECTOR_SIZE. pose proof (Z.mod_pos_bound (a - STM32_FLASH_BASE) 2048 ltac:(lia)).
    split; [apply Z.div_pos; lia|apply Z.div_lt_upper_bound; lia]. }
  rewrite bind_run. match goal with |- context [write_sectors 66 ?a ?p ?o ?r ?ws _ ?s] =>
    destruct (write_sectors_total 65 a p o r ws s) as [h E] end; [done|..].
  1-2: destruct (Z.leb_spec (Z.of_nat (length ws)) (1024 - o)); lia.
  rewrite E. exists (flash_lock h). by destruct s.
Qed.

Section laws.
Context {laws : FlashLaws}.

Lemma prog_outside a ws h :
  a mod 2 = 0 -> same_outside a (a + 2 * Z.of_nat (length ws)) h (prog a ws h).
Proof using laws.
  revert a h. induction ws as [|w ws IH]; intros a h Ha b Hb Hout; [done|].
  rewrite prog_cons. cbn [length] in Hout. rewrite (IH (a + 2)).
  - apply read_program_ne; [done..|]. lia.
  - by rewrite <- Zplus_mod_idemp_r, Z.add_0_r.
  - done.
  - lia.
Qed.

Lemma prog_locked a ws h : flash_locked (prog a ws h) = flash_locked h.
Proof using laws.
  revert a h. induction ws as [|w ws IH]; intros a h; [done|].
  by rewrite prog_cons, IH, locked_program.
Qed.

Lemma prog_inside a ws h i w :
  flash_locked h = false -> a mod 2 = 0 -> Forall (fun w => 0 <= w < 65536) ws ->
  (forall j, (j < length ws)%nat -> flash_read h (a + 2 * Z.of_nat j) = 0xFFFF) ->
  ws !! i = Some w -> flash_read (prog a ws h) (a + 2 * Z.of_nat i) = w.
Proof using laws.
  revert a h i. induction ws as [|x ws IH]; intros a h i Hlk Ha Hw He Hi; [done|].
  apply Forall_cons_1 in Hw as [Hx Hw]. rewrite prog_cons.
  assert (Ha2 : (a + 2) mod 2 = 0) by by rewrite <- Zplus_mod_idemp_r, Z.add_0_r.
  destruct i as [|i].
  - injection Hi as ->. rewrite (prog_outside (a + 2) ws) by (done || lia || (rewrite Z.add_0_r; done)).
    rewrite Z.add_0_r. apply read_program_eq; [done..|].
    specialize (He 0%nat ltac:(simpl; lia)). by rewrite Z.add_0_r in He.
  - replace (a + 2 * Z.of_nat (S i)) with (a + 2 + 2 * Z.of_nat i) by lia.
    apply IH; [by rewrite locked_program|done|done| |done]. intros j Hj. rewrite read_program_ne; [|try done..].
    + replace (a + 2 + 2 * Z.of_nat j) with (a + 2 * Z.of_nat (S j)) by lia. apply He. simpl. lia.
    + rewrite Z.mul_comm, Z_mod_plus_full. done.
    + lia.
Qed.

(** [written a ws h h']: [h'] is [h] with [ws] at the half-words from [a] on. *)
Definition written (a : Z) (ws : list Z) (h h' : hw) : Prop :=
  (forall i w, ws !! i = Some w -> flash_read h' (a + 2 * Z.of_nat i) = w) /\
  same_outside a (a + 2 * Z.of_nat (length ws)) h h'.

Lemma first_run n ws s :
  n <= Z.of_nat (length ws) -> first n ws s = Ret (take (Z.to_nat n) ws, s).
Proof using Type. intros Hn. unfold first. by destruct (Z.leb_spec n (Z.of_nat (length ws))); [|lia]. Qed.

Lemma words_at_bounds h a n : Forall (fun w => 0 <= w < 65536) (words_at h a n).
Proof using laws. apply Forall_map, Forall_true. intros i. apply read_halfword. Qed.

(** The page without anything to erase. *)
Lemma write_clean a off n ws h base :
  flash_locked h = false -> a = base + 2 * off -> base mod STM_SECTOR_SIZE = 0 -> 0 <= off -> 0 <= n ->
  Forall (fun w => 0 <= w < 65536) ws -> Z.of_nat (length ws) = n -> off + n <= 1024 ->
  existsb (fun w => negb (w =? 0xFFFF)) (take (Z.to_nat n) (drop (Z.to_nat off) (words_at h base 1024))) = false ->
  written a ws h (prog a ws h).
Proof using laws.
  intros Hlk -> Hb Ho Hn Hw Hl Hle Hex.
  assert (Hev : (base + 2 * off) mod 2 = 0).
  { rewrite <- Zplus_mod_idemp_l. apply Z.mod_divide in Hb as [q ->]; [|done].
    replace (q * STM_SECTOR_SIZE) with (q * 1024 * 2) by (unfold STM_SECTOR_SIZE; lia).
    rewrite Z.mod_mul by lia. rewrite Z.add_0_l, Z.mul_comm. apply Z.mod_mul. lia. }
  split; [|by apply prog_outside].
  intros i w Hi. apply prog_inside; try done. intros j Hj.
  rewrite existsb_false_forall in Hex.
  assert (Hj' : take (Z.to_nat n) (drop (Z.to_nat off) (words_at h base 1024)) !! j =
                Some (flash_read h (base + 2 * off + 2 * Z.of_nat j))).
  { rewrite lookup_take_lt by lia. rewrite lookup_drop.
    rewrite words_at_lookup by lia. f_equal. f_equal. lia. }
  specialize (Hex _ (list_elem_of_lookup_2 _ _ _ Hj')).
  apply negb_false_iff, Z.eqb_eq in Hex. done.
Qed.

(** The page erased and rewritten with the new half-words in place. *)
Lemma write_erased off n src h base :
  flash_locked h = false -> base mod STM_SECTOR_SIZE = 0 -> 0 <= off -> 0 <= n ->
  Forall (fun w => 0 <= w < 65536) src -> Z.of_nat (length src) = n -> off + n <= 1024 ->
  let buf := words_at h base 1024 in
  written (base + 2 * off) src h
    (prog base (take (Z.to_nat off) buf ++ src ++ drop (Z.to_nat (off + n)) buf) (flash_erase base h)).
Proof using laws.
  intros Hlk Hb Ho Hn Hw Hl Hle buf.
  set (ws := take (Z.to_nat off) buf ++ src ++ drop (Z.to_nat (off + n)) buf).
  assert (Hbl : length buf = 1024%nat) by apply length_words_at.
  assert (Hwl : length ws = 1024%nat).
  { unfold ws. rewrite !length_app, length_take, length_drop, Hbl. lia. }
  assert (Hev : base mod 2 = 0).
  { apply Z.mod_divide in Hb as [q ->]; [|done].
    replace (q * STM_SECTOR_SIZE) with (q * 1024 * 2) by (unfold STM_SECTOR_SIZE; lia).
    apply Z.mod_mul. lia. }
  assert (Hws : Forall (fun w => 0 <= w < 65536) ws).
  { apply Forall_app; split; [apply Forall_take, words_at_bounds|].
    apply Forall_app; split; [done|apply Forall_drop, words_at_bounds]. }
  assert (Hin : forall i w, ws !! i = Some w -> flash_read (prog base ws (flash_erase base h)) (base + 2 * Z.of_nat i) = w).
  { intros i w Hi. apply prog_inside; try done; [by rewrite locked_erase|].
    intros j Hj. rewrite Hwl in Hj.
    apply read_erase_in; [done|done| |unfold STM_SECTOR_SIZE; lia].
    rewrite <- Zplus_mod_idemp_l, Hev, Z.add_0_l, Z.mul_comm. apply Z.mod_mul. lia. }
  split.
  - intros i w Hi. pose proof (lookup_lt_Some _ _ _ Hi).
    replace (base + 2 * off + 2 * Z.of_nat i) with (base + 2 * Z.of_nat (Z.to_nat off + i)) by lia.
    apply Hin. unfold ws. rewrite lookup_app_r by (rewrite length_take; lia).
    rewrite lookup_app_l by (rewrite length_take; lia).
    rewrite length_take, Hbl. by replace (Z.to_nat off + i - Z.to_nat off `min` 1024)%nat with i by lia.
  - intros b Hb2 Hout. destruct (decide (base <= b < base + 2048)) as [Hpage|Hpage].
    + assert (Hk : exists k, b = base + 2 * Z.of_nat k /\ (k < 1024)%nat).
      { exists (Z.to_nat ((b - base) / 2)).
        assert (Hm : (b - base) mod 2 = 0).
        { rewrite Zminus_mod, Hev, Hb2. done. }
        pose proof (Z.div_mod (b - base) 2 ltac:(lia)).
        assert (0 <= (b - base) / 2) by (apply Z.div_pos; lia). lia. }
      destruct Hk as (k & -> & Hk). apply Hin. unfold ws.
      destruct (decide (k < Z.to_nat off)%nat).
      * rewrite lookup_app_l by (rewrite length_take; lia). rewrite lookup_take_lt by done.
        by apply words_at_lookup.
      * rewrite lookup_app_r by (rewrite length_take; lia).
        rewrite lookup_app_r by (rewrite length_take; lia).
        rewrite lookup_drop, length_take, Hbl.
        replace (Z.to_nat (off + n) + (k - Z.to_nat off `min` 1024 - length src))%nat with k by lia.
        by apply words_at_lookup.
    + rewrite (prog_outside base ws) by (done || (rewrite Hwl; lia)).
      apply read_erase_out; [done..|unfold STM_SECTOR_SIZE; lia].
Qed.

Lemma write_sector_run secpos secoff n ws s :
  let base := secpos * STM_SECTOR_SIZE + STM32_FLASH_BASE in
  flash_locked (board s) = false ->
  0 <= secpos < 256 -> 0 <= secoff -> 0 <= n -> secoff + n <= 1024 ->
  Forall (fun w => 0 <= w < 65536) ws -> n <= Z.of_nat (length ws) ->
  exists h, write_sector (base + 2 * secoff) secpos secoff n ws s = Ret (tt, set_board h s) /\
    written (base + 2 * secoff) (take (Z.to_nat n) ws) (board s) h /\ flash_locked h = false.
Proof using laws.
  intros base Hlk Hsp Ho Hn Hle Hw Hl. unfold write_sector. fold base.
  assert (Hb : base mod STM_SECTOR_SIZE = 0).
  { unfold base, STM32_FLASH_BASE, STM_SECTOR_SIZE. rewrite Z.add_comm, Z_mod_plus_full. done. }
  assert (Hbr : 0 <= base /\ base + 2048 < 4294967296)
    by (unfold base, STM32_FLASH_BASE, STM_SECTOR_SIZE; lia).
  rewrite bind_run. change (Z.to_nat (STM_SECTOR_SIZE / 2)) with 1024%nat.
  rewrite Read_run by lia. cbn [obind]. rewrite bind_run, first_run by done. cbn [obind].
  assert (Hsl : Z.of_nat (length (take (Z.to_nat n) ws)) = n) by (rewrite length_take; lia).
  assert (Hsw : Forall (fun w => 0 <= w < 65536) (take (Z.to_nat n) ws)) by by apply Forall_take.
  destruct (existsb _ _) eqn:Hex.
  - rewrite bind_run. simpl obind. rewrite NoCheck_run; [|lia|].
    + eexists. split; [done|]. rewrite prog_locked. cbn [board set_board]. rewrite locked_erase.
      split; [by apply write_erased|done].
    + rewrite !length_app, length_take, length_drop, length_words_at. lia.
  - rewrite NoCheck_run by lia. eexists. split; [done|]. rewrite prog_locked. split; [by eapply write_clean|done].
Qed.

Lemma write_sectors_S fuel a p o r ws n :
  write_sectors (S fuel) a p o r ws n =
  (write_sector a p o r ws;;
   if n =? r then mret tt
   else
     let n' := u16 (n - r) in
     write_sectors fuel (u32 (a + r)) (p + 1) 0
       (if n' >? STM_SECTOR_SIZE / 2 then STM_SECTOR_SIZE / 2 else n') (drop (Z.to_nat r) ws) n').
Proof using Type. done. Qed.

(** The sector and the offset in it of an address. *)
Lemma addr_split a :
  STM32_FLASH_BASE <= a < STM32_FLASH_BASE + 1024 * STM32_FLASH_SIZE -> a mod 2 = 0 ->
  let p := (a - STM32_FLASH_BASE) / STM_SECTOR_SIZE in
  let o := (a - STM32_FLASH_BASE) mod STM_SECTOR_SIZE / 2 in
  a = p * STM_SECTOR_SIZE + STM32_FLASH_BASE + 2 * o /\ 0 <= p < 256 /\ 0 <= o < 1024.
Proof using Type.
  unfold STM32_FLASH_BASE, STM32_FLASH_SIZE, STM_SECTOR_SIZE. intros Ha Hev.
  set (d := a - 0x08000000) in *. cbv zeta.
  assert (Hd : 0 <= d < 524288) by (unfold d; lia).
  assert (Hd2 : d mod 2 = 0) by (unfold d; rewrite Zminus_mod, Hev; done).
  pose proof (Z.div_mod d 2048 ltac:(lia)). pose proof (Z.mod_pos_bound d 2048 ltac:(lia)).
  assert (Hm2 : (d mod 2048) mod 2 = 0).
  { rewrite <- Hd2. rewrite <- (Z_mod_plus_full (d mod 2048) (d / 2048 * 1024) 2). f_equal. lia. }
  pose proof (Z.div_mod (d mod 2048) 2 ltac:(lia)).
  split_and!; [unfold d in *; lia|apply Z.div_pos; lia|apply Z.div_lt_upper_bound; lia|
               apply Z.div_pos; lia|apply Z.div_lt_upper_bound; lia].
Qed.

(** The state after [FLASH_Unlock]. *)
Definition unlocked (s : fw) : fw := set_board (flash_unlock (board s)) s.

Lemma Write_unlocked a ws n s :
  STM32_FLASH_BASE <= a < STM32_FLASH_BASE + 1024 * STM32_FLASH_SIZE ->
  STMFLASH_Write a ws n s =
    (let p := (a - STM32_FLASH_BASE) / STM_SECTOR_SIZE in
     let o := (a - STM32_FLASH_BASE) mod STM_SECTOR_SIZE / 2 in
     let r := STM_SECTOR_SIZE / 2 - o in
     write_sectors 66 a p o (if n <=? r then n else r) ws n;; FLASH_Lock) (unlocked s).
Proof using Type.
  intros Ha. unfold STMFLASH_Write. destruct (Z.ltb_spec a STM32_FLASH_BASE); [lia|].
  rewrite Z.geb_leb. by destruct (Z.leb_spec (STM32_FLASH_BASE + 1024 * STM32_FLASH_SIZE) a); [lia|].
Qed.

(** The lock bit is not part of what is stored. *)
Lemma same_outside_unlock lo hi h h' :
  same_outside lo hi (flash_unlock h) h' -> same_outside lo hi h h'.
Proof using laws. intros Hs b Hb Ho. by rewrite (Hs b Hb Ho), read_unlock. Qed.
Lemma written_unlock a ws h h' : written a ws (flash_unlock h) h' -> written a ws h h'.
Proof using laws. intros [Hin Hout]. split; [done|]. by apply same_outside_unlock. Qed.
Lemma written_lock a ws h h' : written a ws h h' -> written a ws h (flash_lock h').
Proof using laws.
  intros [Hin Hout]. split.
  - intros i w Hi. rewrite read_lock. by apply Hin.
  - intros b Hb Ho. rewrite read_lock. by apply Hout.
Qed.

Lemma words_at_written a ws h h' : written a ws h h' -> words_at h' a (length ws) = ws.
Proof using Type.
  intros [Hin _]. apply list_eq. intros i. destruct (decide (i < length ws)%nat) as [Hi|Hi].
  - rewrite words_at_lookup by done. destruct (lookup_lt_is_Some_2 ws i Hi) as [w Hw].
    rewrite Hw. f_equal. by apply Hin.
  - rewrite !lookup_ge_None_2; rewrite ?length_words_at; done || lia.
Qed.

(** Writing half-words that fit in the sector of their address. *)
Lemma STMFLASH_Write_run a ws s :
  STM32_FLASH_BASE <= a < STM32_FLASH_BASE + 1024 * STM32_FLASH_SIZE -> a mod 2 = 0 ->
  (a - STM32_FLASH_BASE) mod STM_SECTOR_SIZE / 2 + Z.of_nat (length ws) <= 1024 ->
  Forall (fun w => 0 <= w < 65536) ws ->
  exists h, STMFLASH_Write a ws (Z.of_nat (length ws)) s = Ret (tt, set_board h s) /\
    written a ws (board s) h /\ flash_locked h = true.
Proof using laws.
  intros Ha Hev Hfit Hw. destruct (addr_split a Ha Hev) as (Hs & Hp & Ho).
  rewrite (Write_unlocked a) by done.
  change (STM_SECTOR_SIZE / 2) with 1024. cbv zeta.
  set (p := (a - STM32_FLASH_BASE) / STM_SECTOR_SIZE) in *.
  set (o := (a - STM32_FLASH_BASE) mod STM_SECTOR_SIZE / 2) in *.
  destruct (Z.leb_spec (Z.of_nat (length ws)) (1024 - o)); [|lia].
  destruct (write_sector_run p o (Z.of_nat (length ws)) ws (unlocked s)) as (h & E & Hwr & _);
    [apply locked_unlock|lia..|done|lia|].
  rewrite Nat2Z.id, firstn_all, <- Hs in *. exists (flash_lock h). rewrite (write_sectors_S 65).
  rewrite bind_run, bind_run, E. cbn [obind]. rewrite Z.eqb_refl.
  split; [by destruct s|]. split; [by apply written_lock, written_unlock|apply locked_lock].
Qed.

(** C35: writing half-words at an even address of the flash, as many as fit in
    the sector of that address, and reading them back gives what was written,
    whether or not the sector had to be erased; every other half-word of the
    flash, in this sector or another, keeps its value, and the flash is left
    locked. *)
Theorem flash_write_read a ws s :
  STM32_FLASH_BASE <= a < STM32_FLASH_BASE + 1024 * STM32_FLASH_SIZE -> a mod 2 = 0 ->
  (a - STM32_FLASH_BASE) mod STM_SECTOR_SIZE / 2 + Z.of_nat (length ws) <= 1024 ->
  Forall (fun w => 0 <= w < 65536) ws ->
  exists h, STMFLASH_Write a ws (Z.of_nat (length ws)) s = Ret (tt, set_board h s) /\
    STMFLASH_Read a (length ws) (set_board h s) = Ret (ws, set_board h s) /\
    same_outside a (a + 2 * Z.of_nat (length ws)) (board s) h /\ flash_locked h = true.
Proof using laws.
  intros Ha Hev Hfit Hw.
  destruct (STMFLASH_Write_run a ws s) as (h & E & Hwr & Hlk); [done..|].
  exists h. split; [done|]. split; [|split; [apply Hwr|done]].
  assert (Hlen : Z.of_nat (length ws) <= 1024).
  { assert (0 <= (a - STM32_FLASH_BASE) mod STM_SECTOR_SIZE / 2) by
      (apply Z.div_pos; [apply Z.mod_pos_bound|]; done). lia. }
  unfold STM32_FLASH_BASE, STM32_FLASH_SIZE in *. rewrite Read_run by lia.
  cbn [board set_board]. by rewrite (words_at_written a ws _ _ Hwr).
Qed.

(** a write that crosses into an erased sector
    advances its address by the number of half-words written, not of bytes.
    With an even number [r] of half-words left in the first sector, the one
    that belongs at the start of the second is programmed [r] bytes too low and
    the start of the second sector stays erased. *)
Theorem flash_cross_sector_lost a ws r s :
  let p := (a - STM32_FLASH_BASE) / STM_SECTOR_SIZE in
  let o := (a - STM32_FLASH_BASE) mod STM_SECTOR_SIZE / 2 in
  STM32_FLASH_BASE <= a < STM32_FLASH_BASE + 1024 * STM32_FLASH_SIZE -> a mod 2 = 0 ->
  p < 255 -> r = 1024 - o -> r mod 2 = 0 ->
  Z.of_nat (length ws) = r + 1 -> Forall (fun w => 0 <= w < 65536) ws ->
  (forall b, b mod 2 = 0 -> flash_read (board s) b = 0xFFFF) ->
  exists h, STMFLASH_Write a ws (Z.of_nat (length ws)) s = Ret (tt, set_board h s) /\
    flash_read h (a + 2 * r) = 0xFFFF.
Proof using laws.
  intros p o Ha Hev Hp Hr Hre Hlen Hw Her. destruct (addr_split a Ha Hev) as (Hs & Hp0 & Ho).
  fold p o in Hs, Hp0, Ho.
  rewrite (Write_unlocked a) by done.
  change (STM_SECTOR_SIZE / 2) with 1024. cbv zeta. fold p o. rewrite <- Hr, Hlen.
  destruct (Z.leb_spec (r + 1) r); [lia|]. rewrite bind_run, (write_sectors_S 65).
  destruct (write_sector_run p o r ws (unlocked s)) as (h & E & [_ Hout%same_outside_unlock] & Hlk);
    [apply locked_unlock|lia|lia|lia|lia|done|lia|].
  rewrite <- Hs in E, Hout. rewrite bind_run, E. cbn [obind].
  destruct (Z.eqb_spec (r + 1) r); [lia|]. cbv zeta.
  replace (r + 1 - r) with 1 by lia. change (u16 1) with 1.
  change (if 1 >? 1024 then 1024 else 1) with 1.
  assert (Hlt : Z.of_nat (length (take (Z.to_nat r) ws)) = r) by (rewrite length_take; lia).
  rewrite Hlt in Hout. unfold STM32_FLASH_BASE, STM32_FLASH_SIZE, STM_SECTOR_SIZE in *.
  set (B := (p + 1) * 2048 + 0x08000000).
  assert (HB : a + 2 * r = B) by (unfold B; lia).
  assert (Hev2 : forall z, z mod 2 = 0 -> (a + z) mod 2 = 0).
  { intros z Hz. rewrite Zplus_mod, Hev, Hz. done. }
  assert (Hev3 : forall z, (2 * z) mod 2 = 0) by (intros z; rewrite Z.mul_comm; apply Z.mod_mul; lia).
  assert (Hsec : forall j, flash_read h (B + 2 * Z.of_nat j) = 0xFFFF).
  { intros j. assert (Hj : (B + 2 * Z.of_nat j) mod 2 = 0)
      by (rewrite <- HB, <- Z.add_assoc, <- Z.mul_add_distr_l; apply Hev2, Hev3).
    rewrite Hout by (done || lia). by apply Her. }
  rewrite (write_sectors_S 64). rewrite bind_run. unfold write_sector at 1. rewrite bind_run.
  unfold STM_SECTOR_SIZE, STM32_FLASH_BASE. fold B.
  change (2048 / 2) with 1024. change (if 1 >? 1024 then 1024 else 1) with 1.
  change (Z.to_nat 1024) with (S 1023).
  rewrite Read_run by (unfold B; lia). cbn [obind board set_board]. rewrite bind_run.
  destruct (drop (Z.to_nat r) ws) as [|w rest] eqn:Hd.
  { apply (f_equal length) in Hd. rewrite length_drop in Hd. simpl in Hd. lia. }
  rewrite first_run by (simpl; lia). cbn [obind]. rewrite words_at_S.
  change (Z.to_nat 1) with 1%nat. change (Z.to_nat 0) with 0%nat.
  rewrite drop_0. cbn [take existsb].
  specialize (Hsec 0%nat). rewrite Z.add_0_r in Hsec. rewrite Hsec, Z.eqb_refl. cbn [negb orb]. cbv iota.
  rewrite (u32_small (a + r)) by lia. rewrite !firstn_O. cbn [existsb]. cbv iota. rewrite NoCheck_run by (simpl; lia). cbn [obind].
  rewrite Z.eqb_refl. rewrite ret_run. cbn [board set_board].
  eexists. split; [by destruct s|]. rewrite read_lock, HB. cbn. rewrite read_program_ne; [done| |by apply Hev2|lia].
  rewrite <- HB. apply Hev2, Hev3.
Qed.
End laws.
End flash.
