(* ===== verification/Device.v ===== *)
(** * Parameters of the device: start-up, defaults, storage and the handlers
    that read and write them (main.c, common.c)

    [g_device] is a block of 210 bytes; its fields are at the offsets of
    ParamTable.v.  The parameters are kept in the last page the firmware uses,
    at [PARA_STORAGE_ADDR]. *)
From stdpp Require Import base tactics list numbers option gmap.
From S2P Require Import Prelude Machine Effects Timers Tick Packet ParamTable Process Flash.

Definition WORK_FLAG : Z := 0x5a5a5a22.
Definition PARA_STORAGE_ADDR : Z := 0x0803F800.
Definition sizeof_SDevice : Z := 210.
Definition OUTPUT_Wiegan26 : Z := 3.
Definition OUTPUT_Wiegan34 : Z := 4.

(** Fields used below, beyond those of ParamTable.v. *)
Definition off_Flag : Z := 0.
Definition off_ImmediatelyNotify : Z := 52.
Definition off_GetTagRecord : Z := 53.
Definition off_ModifyReaderVersion : Z := 54.
Definition off_SysConnectParaChange : Z := 199.
Definition ap_ReadTAGType : Z := 135.
Definition ap_ReadTagInterval : Z := 138.
Definition ap_CardOutModule : Z := 142.
Definition ap_CallPCTimeInterver : Z := 147.
Definition ap_Antenna : Z := 150.
Definition fwp_ReaderMAC1 : Z := 129.

(** [Version] of main.c: firmware, then software. *)
Definition Version : bytes := [3; 0; 7; 3].

Section device.
Context `{Board}.

(** A [u16] view of a block of bytes, and back. *)
Fixpoint words_of (bs : bytes) : list Z :=
  match bs with
  | lo :: hi :: bs => (lo + 256 * hi) :: words_of bs
  | _ => []
  end.
Definition bytes_of (ws : list Z) : bytes := ws ≫= le16.

(** Assignments to consecutive struct members: [(offset, value)] in program order. *)
Fixpoint poke (b : blk) (l : list (Z * Z)) : M unit :=
  match l with
  | [] => mret tt
  | (o, v) :: l => st8 b o v;; poke b l
  end.

(** The members of [SWorkParam] in order, from [base]. *)
Definition default_workpara (base : Z) : list (Z * Z) :=
  [ (base + 0, 0x08); (base + 1, 25); (base + 2, 7); (base + 3, 59); (base + 4, 0x30);
    (base + 5, WORK_ACT); (base + 6, 1); (base + 7, 10); (base + 8, 4); (base + 9, 0);
    (base + 10, 1); (base + 11, 1);
    (base + 12, 192); (base + 13, 168); (base + 14, 0); (base + 15, 100);
    (base + 16, 0x07); (base + 17, 0xb1);
    (base + 18, 255); (base + 19, 255); (base + 20, 255); (base + 21, 0);
    (base + 22, 192); (base + 23, 168); (base + 24, 0); (base + 25, 1);
    (base + 26, 1); (base + 27, 2); (base + 28, 3); (base + 29, 4); (base + 30, 5);
    (base + 31, 6) ].

(** The members of [SAutoWorkParam]; [MaxEPCATAtime = 1000] is two bytes. *)
Definition default_autopara (base : Z) : list (Z * Z) :=
  [ (base + 0, 0); (base + 1, 1); (base + 2, 1); (base + 3, 2); (base + 4, 1); (base + 5, 1);
    (base + 6, 0); (base + 7, 3); (base + 8, 40); (base + 9, 200); (base + 10, 0);
    (base + 11, 0); (base + 12, 120); (base + 13, 0); (base + 14, 0); (base + 15, 1);
    (base + 16, 0); (base + 17, 192); (base + 18, 168); (base + 19, 0); (base + 20, 61);
    (base + 21, 0x13); (base + 22, 0x88); (base + 25, 1000); (base + 26, 1000 / 256);
    (base + 29, 0); (base + 31, 0); (base + 27, 0) ].

Definition default_status : list (Z * Z) :=
  [ (4, 3); (5, 0); (6, 7); (7, 3); (off_RelayStatus, 0); (off_ReaderRevStatus, 0);
    (off_ReaderOutStatus, 0); (off_ImmediatelyNotify, 0); (off_GetTagRecord, 0);
    (off_ModifyReaderVersion, 0); (off_FreqSelect, 1) ].

Definition default_ReaderID : list (Z * Z) :=
  [ (61, 49); (62, 50); (63, 51); (64, 52); (65, 53); (66, 54); (67, 55); (68, 56);
    (69, 57); (70, 48) ].

(** [for (i = 0; i < 10; i++) j += g_device.ReaderID[i];] *)
Fixpoint sum32 (b : blk) (n : nat) (o j : Z) : M Z :=
  match n with
  | O => mret j
  | S n => c ← ld8 b o; sum32 b n (o + 1) (u32 (j + c))
  end.

Definition defaultPara : M unit :=
  zero g_device;;
  poke g_device (default_workpara off_workpara);;
  poke g_device (default_autopara off_AutoParam);;
  poke g_device default_status;;
  j ← sum32 g_device 10 off_ReaderID 0;
  when (j =? 0) (poke g_device default_ReaderID);;
  poke g_device (default_workpara off_Factoryworkpara);;
  poke g_device (default_autopara off_FactoryAutoParam).

(** [STMFLASH_Read] and [STMFLASH_Write] of a piece of [g_device]. *)
Definition load_device (o : Z) (n : nat) : M unit :=
  ws ← STMFLASH_Read PARA_STORAGE_ADDR n; stn g_device o (bytes_of ws).

Definition SaveData : M unit :=
  st32 g_device off_Flag WORK_FLAG;;
  bs ← ldn g_device 0 sizeof_SDevice;
  STMFLASH_Write PARA_STORAGE_ADDR (words_of bs) (sizeof_SDevice / 2).

(** [if (g_paramTable.setFlag) { SaveData(); g_paramTable.setFlag = 0; }] of the
    main loop. *)
Definition save_changes : M unit :=
  f ← getv setFlag;
  when (negb (f =? 0)) (SaveData;; putv setFlag 0).

(** [for (i = 0; i < 5; i++) { STMFLASH_Read(...); if (Flag == WORK_FLAG) break; }] *)
Fixpoint read_tries (n : nat) : M unit :=
  match n with
  | O => mret tt
  | S n =>
      load_device 0 105;;
      f ← ld32 g_device off_Flag;
      if f =? WORK_FLAG then mret tt else read_tries n
  end.

Definition set_version : M unit := st8 g_device 6 7;; st8 g_device 7 3.

Definition ReadPara : M unit :=
  read_tries 5;;
  f ← ld32 g_device off_Flag;
  when (negb (f =? WORK_FLAG))
    (defaultPara;;
     SaveData;;
     st32 g_device off_Flag 0;;
     load_device off_Flag 2;;
     f ← ld32 g_device off_Flag;
     when (negb (f =? WORK_FLAG)) (putv SelfCheckFailure 2));;
  set_version.

Definition bit_relays (st : Z) : M unit :=
  (if negb (Z.land st 0x01 =? 0) then RELAYON else RELAYOFF);;
  (if negb (Z.land st 0x02 =? 0) then RELAYON1 else RELAYOFF1).

(** The output timer of the active mode. *)
Definition start_OutPutTimer : M unit :=
  m ← ld8 g_device ap_CardOutModule;
  if (m =? OUTPUT_Wiegan26) || (m =? OUTPUT_Wiegan34) then timerStart OutPutTimer 100
  else c ← ld8 g_device ap_CallPCTimeInterver; timerStart OutPutTimer (c * 100).

Definition initPara : M unit :=
  timerZero ReadCardTimer;;
  timerZero OutPutTimer;;
  zero g_device;;
  zero CardIndex;;
  ReadPara;;
  registryParams;;
  t ← ld8 g_device ap_ReadTAGType;
  (if negb (t =? 1) then st ← ld8 g_device off_RelayStatus; bit_relays st
   else RELAYOFF;; RELAYOFF1);;
  i ← ld8 g_device ap_ReadTagInterval;
  putv ReadCardTimeInterver
    (switch i [([0], 1); ([1], 2); ([2], 3); ([3], 5); ([4], 10)] 3);;
  st ← ld8 g_device wp_ReaderWorkStatus;
  when (st =? WORK_ACT)
    (n ← getv ReadCardTimeInterver;
     timerStart ReadCardTimer n;;
     start_OutPutTimer;;
     a ← ld8 g_device ap_Antenna;
     putv tmpAntenna a).

(** ** Handlers of common.c (their argument, the frame, is not used) *)

Definition SetBaudRate : M unit :=
  c ← ld8 g_device off_SysConnectParaChange;
  st8 g_device off_SysConnectParaChange (Z.lor c 0x01).

Definition SetRelay : M unit :=
  st ← ld8 g_device off_RelayStatus; bit_relays st.

Definition ReadParam : M unit := read_tries 5;; set_version.

(** [memcpy] of each factory block; the MAC address and the reader's ID are
    put aside before and put back after. *)
Definition Reboot : M unit := putv sysReboot 2.

Definition ReadReaderPara : M unit :=
  tmp_id ← ldn g_device off_ReaderID 10;
  tmp_mac ← ldn g_device wp_ReaderMAC1 6;
  q ← ldn g_device off_Factoryworkpara 32;
  stn g_device off_workpara q;;
  q ← ldn g_device off_FactoryAutoParam 32;
  stn g_device off_AutoParam q;;
  stn g_device wp_ReaderMAC1 tmp_mac;;
  stn g_device off_ReaderID tmp_id;;
  SaveData;;
  Reboot.

(** The frame's value is in [ReaderWorkStatus] already: 0 stops the reader's
    own work, 1 starts it, anything else is left. *)
Definition SetReaderWorkType : M unit :=
  st ← ld8 g_device wp_ReaderWorkStatus;
  if 0 =? st then
    st8 g_device wp_ReaderWorkStatus WORK_CMD;;
    timerStop ReadCardTimer;;
    timerStop OutPutTimer
  else if 1 =? st then
    st8 g_device wp_ReaderWorkStatus WORK_ACT;;
    n ← getv ReadCardTimeInterver;
    timerStart ReadCardTimer n;;
    start_OutPutTimer;;
    putv CardPos 0;;
    a ← ld8 g_device ap_Antenna;
    putv tmpAntenna a
  else mret tt.

(** common.c declares [TagSaveCount], an [unsigned int] of main.c, as an
    [unsigned char]: it clears the low byte. *)
Definition ClearTagListMem : M unit :=
  zero CardIndex;;
  zero TagSaveBuf;;
  putv CardPos 0;;
  n ← getv TagSaveCount;
  putv TagSaveCount (n - u8 n).

Definition GetReaderRevStatus : M unit := fun s =>
  st8 g_device off_ReaderRevStatus (pin_level (board s) PE15) s.

(** ** Blocks as half-words *)

Lemma words_of_spec (k : nat) bs :
  length bs = (2 * k)%nat -> bytes_ok bs ->
  length (words_of bs) = k /\ bytes_of (words_of bs) = bs /\
  Forall (fun w => 0 <= w < 65536) (words_of bs).
Proof using Type.
  revert bs. induction k as [|k IH]; intros bs Hl Hb.
  { destruct bs; [done|discriminate]. }
  destruct bs as [|lo [|hi bs]]; [simpl in Hl; lia..|].
  apply Forall_cons_1 in Hb as [Hlo Hb]. apply Forall_cons_1 in Hb as [Hhi Hb].
  destruct (IH bs) as (H1 & H2 & H3); [simpl in Hl; lia|done|].
  cbn [words_of]. split_and!.
  - cbn [length]. by rewrite H1.
  - unfold bytes_of in *. cbn. rewrite H2. unfold le16, u8.
    rewrite (Z.mul_comm 256 hi), Z_mod_plus_full, Z.mod_small by done.
    rewrite Z_div_plus_full, Z.div_small, Z.add_0_l, Z.mod_small by done. done.
  - constructor; [lia|exact H3].
Qed.

Lemma bytes_of_length ws : blen (bytes_of ws) = 2 * Z.of_nat (length ws).
Proof using Type.
  unfold bytes_of, blen. induction ws as [|w ws IH]; [done|]. cbn. cbn in IH. lia.
Qed.
Lemma bytes_of_ok ws : bytes_ok (bytes_of ws).
Proof using Type.
  unfold bytes_of. induction ws as [|w ws IH]; [constructor|].
  cbn. constructor; [apply u8_range|]. constructor; [apply u8_range|exact IH].
Qed.

(** Reading and writing a whole block. *)
Lemma rdn_all m n : blen m = n -> rdn m 0 n = Some m.
Proof using Type.
  intros <-. rewrite rdn_in by (pose proof (blen_nonneg m); lia).
  unfold blen. by rewrite Nat2Z.id, drop_0, firstn_all.
Qed.
Lemma wrn_all m bs : blen bs = blen m -> wrn m 0 bs = Some bs.
Proof using Type.
  intros Hl. rewrite wrn_in by lia. rewrite Z.add_0_l, Hl. unfold blen.
  rewrite Nat2Z.id, drop_all. simpl. by rewrite app_nil_r.
Qed.

Lemma load_device_run o n s :
  0 <= o -> o + 2 * Z.of_nat n <= sizeof_SDevice -> wf s ->
  exists m, wrn (block g_device s) o (bytes_of (words_at (board s) PARA_STORAGE_ADDR n)) = Some m /\
    load_device o n s = Ret (tt, set_block g_device m s) /\ wf (set_block g_device m s).
Proof using Type.
  intros Ho Hn Hwf. unfold load_device, sizeof_SDevice, PARA_STORAGE_ADDR in *. 
  rewrite bind_run, Read_run by lia. cbn [obind].
  apply stn_wf; [done|apply bytes_of_ok|done|].
  rewrite bytes_of_length, length_words_at. cbn [bsize]. lia.
Qed.

(** ** The defaults *)

Fixpoint pokes (m : bytes) (l : list (Z * Z)) : option bytes :=
  match l with
  | [] => Some m
  | (o, v) :: l => match wr m o v with Some m => pokes m l | None => None end
  end.

Lemma poke_run b l m s :
  poke b l (set_block b m s) =
  match pokes m l with Some m' => Ret (tt, set_block b m' s) | None => Oob end.
Proof using Type.
  revert m. induction l as [|[o v] l IH]; intros m; [done|]. cbn [poke pokes].
  rewrite bind_run. unfold st8. rewrite block_set_block_eq.
  destruct (wr m o v) as [m'|]; [|done]. cbn [obind]. by rewrite set_block_twice.
Qed.

Fixpoint sum32p (m : bytes) (n : nat) (o j : Z) : option Z :=
  match n with
  | O => Some j
  | S n => match rd m o with Some c => sum32p m n (o + 1) (u32 (j + c)) | None => None end
  end.

Lemma sum32_run b n o j s :
  sum32 b n o j s = match sum32p (block b s) n o j with Some v => Ret (v, s) | None => Oob end.
Proof using Type.
  revert o j. induction n as [|n IH]; intros o j; [done|]. cbn [sum32 sum32p].
  rewrite bind_run. unfold ld8, lift_opt. destruct (rd (block b s) o); [|done]. cbn [obind]. apply IH.
Qed.

(** The members of a device with the defaults, in the order [defaultPara] sets them. *)
Definition factory_members : list (Z * Z) :=
  default_workpara off_workpara ++ default_autopara off_AutoParam ++ default_status
  ++ default_ReaderID ++ default_workpara off_Factoryworkpara
  ++ default_autopara off_FactoryAutoParam.

Lemma pokes_app m l1 l2 :
  pokes m (l1 ++ l2) = match pokes m l1 with Some m' => pokes m' l2 | None => None end.
Proof using Type.
  revert m. induction l1 as [|[o v] l1 IH]; intros m; [done|]. cbn. by destruct (wr m o v).
Qed.

Definition before_ID : list (Z * Z) :=
  default_workpara off_workpara ++ default_autopara off_AutoParam ++ default_status.

(** The two computations the defaults need: the identity is zero when it is
    summed, and the members fit the device. *)
Lemma before_ID_pokes :
  match pokes (replicate 210 0) before_ID with Some m => sum32p m 10 off_ReaderID 0 | None => None end
  = Some 0.
Proof using Type. vm_compute. reflexivity. Qed.

Lemma factory_members_pokes :
  match pokes (replicate 210 0) factory_members with
  | Some dev => rdn dev off_ReaderID 10
  | None => None
  end = Some [49; 50; 51; 52; 53; 54; 55; 56; 57; 48].
Proof using Type. vm_compute. reflexivity. Qed.

Lemma poke_seq b l1 l2 {A} (k : M A) m s :
  (poke b l1;; poke b l2;; k) (set_block b m s) = (poke b (l1 ++ l2);; k) (set_block b m s).
Proof using Type.
  rewrite !bind_run, !poke_run, pokes_app. destruct (pokes m l1) as [m1|]; [|done].
  cbn [obind]. rewrite bind_run, poke_run. done.
Qed.

Lemma defaultPara_run s :
  exists dev, defaultPara s = Ret (tt, set_block g_device dev s) /\
    pokes (replicate 210 0) factory_members = Some dev /\
    rdn dev off_ReaderID 10 = Some [49; 50; 51; 52; 53; 54; 55; 56; 57; 48].
Proof using Type.
  unfold defaultPara. rewrite bind_run.
  change (zero g_device s) with (Ret (tt, set_block g_device (replicate 210 0) s)). cbn [obind].
  generalize before_ID_pokes, factory_members_pokes. unfold factory_members.
  replace (default_workpara off_workpara ++ default_autopara off_AutoParam ++ default_status ++ _)
    with (before_ID ++ default_ReaderID ++ default_workpara off_Factoryworkpara
          ++ default_autopara off_FactoryAutoParam)
    by (unfold before_ID; by rewrite <- !app_assoc).
  rewrite poke_seq, poke_seq, <- app_assoc. fold before_ID. rewrite pokes_app.
  rewrite bind_run, poke_run. destruct (pokes (replicate 210 0) before_ID) as [m|]; [|done].
  intros Hj. cbn [obind]. rewrite bind_run, sum32_run, block_set_block_eq, Hj.
  cbn [obind Z.eqb when]. rewrite poke_seq, bind_run, poke_run, !app_assoc, pokes_app.
  destruct (pokes m _) as [m1|]; [|done]. cbn [obind]. rewrite poke_run.
  destruct (pokes m1 _) as [dev|]; [|done]. intros Hid. eauto.
Qed.

(** The factory defaults do not depend on the state they
    replace; in particular the identity is always [1234567890]: it is cleared
    with the rest of [g_device] before the test that means to keep it. *)
Theorem defaultPara_forgets s1 s2 :
  exists dev, defaultPara s1 = Ret (tt, set_block g_device dev s1) /\
    defaultPara s2 = Ret (tt, set_block g_device dev s2) /\
    rdn dev off_ReaderID 10 = Some [49; 50; 51; 52; 53; 54; 55; 56; 57; 48].
Proof using Type.
  destruct (defaultPara_run s1) as (d1 & E1 & H1 & Hid), (defaultPara_run s2) as (d2 & E2 & H2 & _).
  rewrite H1 in H2. injection H2 as <-. eauto.
Qed.

Section laws.
Context {laws : FlashLaws}.

(** The parameter page holds the device's bytes [dev]. *)
Definition stored_dev (dev : bytes) (s : fw) : Prop :=
  bytes_of (words_at (board s) PARA_STORAGE_ADDR 105) = dev.

Definition device_flag (dev : bytes) : option Z := unle <$> rdn dev 0 4.

Lemma SaveData_run s :
  wf s ->
  exists dev h, wrn (block g_device s) 0 (le32 WORK_FLAG) = Some dev /\
    SaveData s = Ret (tt, set_board h (set_block g_device dev s)) /\
    stored_dev dev (set_board h (set_block g_device dev s)) /\
    wf (set_board h (set_block g_device dev s)) /\
    same_outside PARA_STORAGE_ADDR (PARA_STORAGE_ADDR + sizeof_SDevice) (board s) h.
Proof using laws.
  intros Hwf. unfold SaveData. rewrite bind_run.
  destruct (st32_wf g_device off_Flag WORK_FLAG s Hwf) as (dev & Hw & -> & Hwf');
    [done|cbn; unfold off_Flag; lia|]. cbn [obind].
  assert (Hlen : blen dev = sizeof_SDevice) by (rewrite (wrn_blen _ _ _ _ Hw); by rewrite wf_size).
  rewrite bind_run, (ldn_run g_device 0 sizeof_SDevice _ dev) by (mget; by apply rdn_all). cbn [obind].
  assert (Hok : bytes_ok dev).
  { assert (Ho := wf_bytes _ Hwf' g_device). by rewrite block_set_block_eq in Ho. }
  destruct (words_of_spec 105 dev) as (Hl & Hb & Hr); [unfold blen, sizeof_SDevice in Hlen; lia|done|].
  destruct (STMFLASH_Write_run PARA_STORAGE_ADDR (words_of dev) (set_block g_device dev s))
    as (h & E & Hwr & _); [done|done|rewrite Hl; done|done|].
  assert (Er := words_at_written _ _ _ _ Hwr).
  rewrite Hl in *. exists dev, h. split; [done|]. change (sizeof_SDevice / 2) with (Z.of_nat 105).
  split; [exact E|]. split; [|split; [by apply wf_set_board|]].
  - unfold stored_dev. cbn [board set_board]. by rewrite Er.
  - destruct Hwr as [_ Hs]. rewrite Hl in Hs. exact Hs.
Qed.

(** A read of the parameter page that finds a saved device. *)
Lemma read_tries_run n dev s :
  wf s -> stored_dev dev s -> device_flag dev = Some WORK_FLAG ->
  read_tries (S n) s = Ret (tt, set_block g_device dev s) /\ wf (set_block g_device dev s).
Proof using Type.
  intros Hwf Hst Hf. cbn [read_tries]. rewrite bind_run.
  destruct (load_device_run 0 105 s) as (m & Hw & -> & Hwf'); [done|done|done|].
  cbn [obind]. rewrite Hst in Hw.
  assert (Hl : blen dev = sizeof_SDevice) by (rewrite <- Hst, bytes_of_length, length_words_at; done).
  rewrite wrn_all in Hw by (rewrite Hl, wf_size; done). injection Hw as <-.
  unfold device_flag in Hf. destruct (rdn dev 0 4) as [fb|] eqn:Hfb; [|done]. injection Hf as Hf.
  rewrite bind_run, (ld32_run g_device off_Flag _ fb) by by mget. cbn [obind].
  rewrite Hf, Z.eqb_refl. done.
Qed.

Lemma set_version_run s :
  wf s -> exists m1 m2, wr (block g_device s) 6 7 = Some m1 /\ wr m1 7 3 = Some m2 /\
    set_version s = Ret (tt, set_block g_device m2 s) /\ wf (set_block g_device m2 s).
Proof using Type.
  intros Hwf. unfold set_version. mrun. store Hwf Hw1.
  destruct (st8_wf g_device 7 3 _ Hwf) as (m2 & Hw2 & -> & Hwf2); [done|].
  rewrite block_set_block_eq in Hw2. rewrite set_block_twice in *. eauto 10.
Qed.

(** A start on a flash that holds a saved device. *)
Lemma ReadPara_stored dev s :
  wf s -> stored_dev dev s -> device_flag dev = Some WORK_FLAG ->
  exists s', ReadPara s = Ret (tt, s') /\ get SelfCheckFailure s' = get SelfCheckFailure s /\
    blen (block g_device s') = sizeof_SDevice /\
    forall o, 0 <= o < sizeof_SDevice -> rd (block g_device s') o =
      if o =? 6 then Some 7 else if o =? 7 then Some 3 else rd dev o.
Proof using Type.
  intros Hwf Hst Hf. destruct (read_tries_run 4 dev s Hwf Hst Hf) as (Er & Hwf3).
  unfold ReadPara. rewrite bind_run, Er. cbn [obind].
  unfold device_flag in Hf. destruct (rdn dev 0 4) as [fb|] eqn:Hfb; [|done]. injection Hf as Hf.
  rewrite bind_run, (ld32_run g_device off_Flag _ fb) by by mget. cbn [obind].
  rewrite Hf, Z.eqb_refl. cbn [negb when]. rewrite bind_run, ret_run. cbn [obind].
  destruct (set_version_run _ Hwf3) as (m1 & m2 & Hw1 & Hw2 & -> & Hwf2).
  rewrite block_set_block_eq in Hw1. eexists. split; [done|]. split; [done|].
  split; [by rewrite (wf_size _ Hwf2)|]. intros o Ho. mget.
  destruct (Z.eqb_spec o 6); [subst; rdwr; done|]. destruct (Z.eqb_spec o 7); [subst; rdwr; done|].
  by rdwr.
Qed.

(** what [SaveData] writes, the [ReadPara] of a later
    start reads back, whatever RAM holds then: every parameter is restored, with
    the software version of the running program in its two bytes, and the
    self-check is not failed. *)
Theorem parameters_persist s s2 :
  wf s -> wf s2 ->
  exists s1, SaveData s = Ret (tt, s1) /\
    (board s2 = board s1 ->
     exists s3, ReadPara s2 = Ret (tt, s3) /\
       get SelfCheckFailure s3 = get SelfCheckFailure s2 /\
       forall o, 0 <= o < sizeof_SDevice -> rd (block g_device s3) o =
         if o =? 6 then Some 7 else if o =? 7 then Some 3
         else if o <? 4 then rd (le32 WORK_FLAG) o else rd (block g_device s) o).
Proof using laws.
  intros Hwf Hwf2. destruct (SaveData_run s Hwf) as (dev & h & Hw & E & Hst & _ & _).
  eexists. split; [exact E|]. intros Hb.
  destruct (ReadPara_stored dev s2) as (s3 & Er & Hs & _ & Hrd); [done| | |].
  - unfold stored_dev in *. by rewrite Hb.
  - unfold device_flag. by rewrite (rdn_wrn_le32 _ _ _ _ Hw).
  - exists s3. split; [done|]. split; [done|]. intros o Ho. rewrite Hrd by done.
    destruct (o =? 6), (o =? 7); try done. unfold off_Flag in *. destruct (Z.ltb_spec o 4).
    + rewrite (rd_wrn_in _ _ _ _ _ Hw) by (rewrite le32_blen; lia). f_equal. lia.
    + by rewrite (rd_wrn_out _ _ _ _ _ Hw) by (rewrite le32_blen; lia).
Qed.

(** [ReadReaderPara] makes the working and automatic
    parameters the factory ones, except the MAC address; with the reader's
    identity it survives the reset.  The result is saved and a restart is
    asked for. *)
Theorem factory_reset s :
  wf s ->
  exists s', ReadReaderPara s = Ret (tt, s') /\ get sysReboot s' = 2 /\
    stored_dev (block g_device s') s' /\
    rdn (block g_device s') off_ReaderID 10 = rdn (block g_device s) off_ReaderID 10 /\
    rdn (block g_device s') wp_ReaderMAC1 6 = rdn (block g_device s) wp_ReaderMAC1 6 /\
    rdn (block g_device s') off_workpara 26 = rdn (block g_device s) off_Factoryworkpara 26 /\
    rdn (block g_device s') off_AutoParam 32 = rdn (block g_device s) off_FactoryAutoParam 32.
Proof using laws.
  intros Hwf. unfold ReadReaderPara. pose proof (wf_size s Hwf g_device) as Hsz. cbn in Hsz.
  assert (Hrd : forall o n, 0 <= o -> 0 <= n -> o + n <= 210 ->
                 exists bs, rdn (block g_device s) o n = Some bs /\ blen bs = n /\ bytes_ok bs).
  { intros o n Ho Hn Hl. destruct (rdn (block g_device s) o n) as [bs|] eqn:E;
      [|rewrite rdn_in in E by lia; discriminate].
    exists bs. split_and!; [done|by eapply rdn_blen|eapply rdn_ok, E; by apply wf_bytes]. }
  destruct (Hrd off_ReaderID 10) as (id & Hid & Hidl & Hido); [done..|].
  destruct (Hrd wp_ReaderMAC1 6) as (mac & Hmac & Hmacl & Hmaco); [done..|].
  destruct (Hrd off_Factoryworkpara 32) as (q1 & Hq1 & Hq1l & Hq1o); [done..|].
  destruct (Hrd off_FactoryAutoParam 32) as (q2 & Hq2 & Hq2l & Hq2o); [done..|]. clear Hrd.
  unfold off_ReaderID, wp_ReaderMAC1, off_Factoryworkpara, off_FactoryAutoParam,
    off_workpara, off_AutoParam in *.
  mrun. rewrite (ldn_run _ _ _ _ _ Hid). cbn [obind]. mrun. rewrite (ldn_run _ _ _ _ _ Hmac).
  cbn [obind]. mrun. rewrite (ldn_run _ _ _ _ _ Hq1). cbn [obind]. mrun.
  storen Hwf Hw1. mrun.
  rewrite (ldn_run g_device 167 32 _ q2)
    by (mget; rewrite (rdn_wrn_out _ _ _ _ _ _ Hw1) by lia; done).
  cbn [obind]. mrun. storen Hwf Hw2. mrun. storen Hwf Hw3. mrun. storen Hwf Hw4. mrun.
  destruct (SaveData_run _ Hwf) as (dev & h & Hw5 & -> & Hst & Hwf5 & _). cbn [obind].
  mget_in Hw5. rewrite set_block_twice in *. unfold Reboot. rewrite putv_run.
  eexists. split; [done|].
  assert (Hout : forall o n, 4 <= o -> rdn dev o n = rdn m2 o n).
  { intros o n Ho. eapply rdn_wrn_out; [done|]. rewrite le32_blen. lia. }
  split; [by mget|]. split; [unfold stored_dev in *; mget; done|]. mget.
  split_and!; rewrite Hout by lia.
  - rewrite Hid, <- Hidl. by eapply rdn_wrn_same.
  - rewrite (rdn_wrn_out _ _ _ _ _ _ Hw4) by lia. rewrite Hmac, <- Hmacl. by eapply rdn_wrn_same.
  - rewrite (rdn_wrn_out _ _ _ _ _ _ Hw4), (rdn_wrn_out _ _ _ _ _ _ Hw3),
      (rdn_wrn_out _ _ _ _ _ _ Hw2) by lia.
    assert (Hs := rdn_wrn_same _ _ _ _ Hw1). rewrite Hq1l in Hs.
    rewrite (rdn_take _ _ 32 26 _ Hs), (rdn_take _ _ 32 26 _ Hq1) by lia. done.
  - rewrite (rdn_wrn_out _ _ _ _ _ _ Hw4), (rdn_wrn_out _ _ _ _ _ _ Hw3) by lia.
    rewrite Hq2, <- Hq2l. by eapply rdn_wrn_same.
Qed.
End laws.
End device.
