(* ===== verification/Ds1302.v ===== *)
(** * The DS1302 clock chip (RTC_DS1302.c)

    The chip is driven bit by bit over three pins.  Its behaviour is a
    parameter; [RtcLaws] states what its data sheet says of a transaction that
    is not interrupted by a tick of the clock: a read returns the register, a
    write sets it unless the write-protect bit is on. *)
From stdpp Require Import base tactics list numbers option gmap.
From S2P Require Import Prelude Machine Effects ParamTable.

(** The low [n] bits of [z], least significant first. *)
Definition bits_of (n : nat) (z : Z) : list Z :=
  map (fun i => Z.b2z (Z.testbit z (Z.of_nat i))) (seq 0 n).

Definition clock_reg (r : Z) : Prop := r ∈ [0x80; 0x82; 0x84; 0x86; 0x88; 0x8A; 0x8C; 0x8E].
Ltac is_reg :=
  unfold clock_reg; lazymatch goal with |- ?P => apply (bool_decide_unpack P); exact I end.

Class RtcLaws `{Board} := {
  rtc_reg : hw -> Z -> Z;
  rtc_reg_range : forall h r, 0 <= rtc_reg h r < 256;
  rtc_read : forall h r i, clock_reg r -> (i < 8)%nat ->
    rtc_bit h (bits_of 8 (r + 1)) (Z.of_nat i) = Z.b2z (Z.testbit (rtc_reg h r) (Z.of_nat i));
  rtc_write : forall h w d r, clock_reg w -> clock_reg r -> 0 <= d < 256 ->
    rtc_reg (rtc_command (bits_of 16 (Z.lor (Z.shiftl d 8) w)) h) r =
    if (r =? w) && ((w =? 0x8E) || negb (Z.testbit (rtc_reg h 0x8E) 7)) then d else rtc_reg h r }.

Section ds1302.
Context `{Board}.

Definition CLK_L : M unit := emit (PinLo RTC_SCLK).
Definition CLK_H : M unit := emit (PinHi RTC_SCLK).
Definition IO_L : M unit := emit (PinLo RTC_IO).
Definition IO_H : M unit := emit (PinHi RTC_IO).
Definition RST_L : M unit := emit (PinLo RTC_RST).
Definition RST_H : M unit := emit (PinHi RTC_RST).
Definition DelayUS (n : Z) : M unit := emit (Pause n).

(** [n] clock pulses from bit [i] of [ad]; the bits the chip sees. *)
Fixpoint shift_out (n : nat) (i ad : Z) : M (list Z) :=
  match n with
  | O => mret []
  | S n =>
      CLK_L;;
      DelayUS 1;;
      let z := Z.land ad (Z.shiftl 1 i) =? 0 in
      (if z then IO_L else IO_H);;
      CLK_H;;
      bs ← shift_out n (i + 1) ad;
      mret ((if z then 0 else 1) :: bs)
  end.

Definition writeByte (w_addr data : Z) : M unit :=
  let ad := u16 (Z.lor (Z.shiftl data 8) w_addr) in
  CLK_L;;
  RST_H;;
  DelayUS 4;;
  bs ← shift_out 16 0 ad;
  (fun s => Ret (tt, set_board (rtc_command bs (board s)) s));;
  RST_L;;
  DelayUS 4.

(** The second loop of [readByte]: [data |= read_IOBit << i]. *)
Fixpoint shift_in (n : nat) (cmd : list Z) (i data : Z) : M Z :=
  match n with
  | O => mret data
  | S n =>
      CLK_H;;
      CLK_L;;
      b ← (fun s => Ret (rtc_bit (board s) cmd i, s));
      shift_in n cmd (i + 1) (u8 (Z.lor data (Z.shiftl b i)))
  end.

Definition readByte (r_addr : Z) : M Z :=
  CLK_L;;
  RST_H;;
  DelayUS 4;;
  bs ← shift_out 8 0 r_addr;
  data ← shift_in 8 bs 0 0;
  RST_L;;
  mret data.

Definition set_24hours (state : Z) : M unit :=
  r ← readByte 0x85;
  let tmp := u8 (Z.lor (Z.land r 0x7f) (Z.shiftl state 7)) in
  writeByte 0x8e 0x00;;
  writeByte 0x84 tmp;;
  writeByte 0x8e 0x80.

Definition BCD2HEX (bcd_data : Z) : Z := u8 (bcd_data / 16 * 10 + bcd_data mod 16).
Definition HEX2BCD (hex_data : Z) : Z := u8 (hex_data / 10 * 16 + hex_data mod 10).

(** [for (i = 0; i < 6; ++i) { recbuf[i] = readByte(addr); ... }] *)
Fixpoint read_regs (n : nat) (addr : Z) : M (list Z) :=
  match n with
  | O => mret []
  | S n =>
      x ← readByte addr;
      let addr := u8 (addr - 2) in
      let addr := if addr =? 0x8B then u8 (addr - 2) else addr in
      xs ← read_regs n addr;
      mret (x :: xs)
  end.

(** [recbuf[1] &= 0x1f; ... recbuf[5] &= 0x7f;] then [BCD2HEX] of each byte. *)
Definition masks : list Z := [0xff; 0x1f; 0x3f; 0x3f; 0x7f; 0x7f].
Definition getTime : M (list Z) :=
  recbuf ← read_regs 6 0x8D;
  mret (BCD2HEX <$> zip_with Z.land recbuf masks).

Fixpoint write_regs (addr : Z) (reg : list Z) : M unit :=
  match reg with
  | [] => mret tt
  | x :: reg => writeByte addr x;; write_regs (u8 (addr - 2)) reg
  end.

(** [reg[4]] and [reg[6]] keep bit 7 of the element before them, which has just
    been assigned. *)
Definition setTime (time : list Z) : M unit :=
  let clock i := HEX2BCD (nth i time 0) in
  getTime;;
  let r0 := clock 0%nat in
  let r1 := 0x01 in
  let r2 := Z.land (clock 1%nat) 0x1f in
  let r3 := Z.land (clock 2%nat) 0x3f in
  let r4 := Z.lor (Z.land r3 0x80) (Z.land (clock 3%nat) 0x3f) in
  let r5 := Z.land (clock 4%nat) 0x7f in
  let r6 := Z.lor (Z.land r5 0x80) (Z.land (clock 5%nat) 0x7f) in
  writeByte 0x8e 0x00;;
  write_regs 0x8C [r0; r1; r2; r3; r4; r5; r6];;
  writeByte 0x8e 0x80.

(** The handlers of common.c. *)
Definition SetReaderTime : M unit := bs ← ldn g_device off_ReaderTime 6; setTime bs.
Definition GetReaderTime : M unit := bs ← getTime; stn g_device off_ReaderTime bs.

(** ** BCD *)

(** The two conversions are inverse on 0 to 99 and on the
    bytes whose two digits are decimal. *)
Theorem bcd_roundtrip :
  (forall x, 0 <= x < 100 -> BCD2HEX (HEX2BCD x) = x) /\
  (forall b, 0 <= b < 160 -> b mod 16 < 10 -> HEX2BCD (BCD2HEX b) = b).
Proof using Type.
  unfold BCD2HEX, HEX2BCD. split.
  - intros x Hx. pose proof (Z.div_mod x 10). pose proof (Z.mod_pos_bound x 10).
    assert (0 <= x / 10 < 10) by (split; [apply Z.div_pos|apply Z.div_lt_upper_bound]; lia).
    rewrite (u8_small (x / 10 * 16 + x mod 10)) by lia.
    rewrite Z.div_add_l, (Z.div_small (x mod 10) 16) by lia.
    rewrite (Z.add_comm (x / 10 * 16)), Z_mod_plus_full, (Z.mod_small (x mod 10) 16) by lia.
    rewrite u8_small by lia. lia.
  - intros b Hb Hd. pose proof (Z.div_mod b 16). pose proof (Z.mod_pos_bound b 16).
    assert (0 <= b / 16 < 10) by (split; [apply Z.div_pos|apply Z.div_lt_upper_bound]; lia).
    rewrite (u8_small (b / 16 * 10 + b mod 16)) by lia.
    rewrite Z.div_add_l, (Z.div_small (b mod 16) 10) by lia.
    rewrite (Z.add_comm (b / 16 * 10)), Z_mod_plus_full, (Z.mod_small (b mod 16) 10) by lia.
    rewrite u8_small by lia. lia.
Qed.

(** ** Transactions *)

Lemma land_bit a i : 0 <= i -> (if Z.land a (Z.shiftl 1 i) =? 0 then 0 else 1) = Z.b2z (Z.testbit a i).
Proof using Type.
  intros Hi. rewrite Z.shiftl_1_l. destruct (Z.testbit a i) eqn:E.
  - destruct (Z.eqb_spec (Z.land a (2 ^ i)) 0) as [Hz|]; [|done].
    assert (Hb : Z.testbit (Z.land a (2 ^ i)) i = true)
      by (rewrite Z.land_spec, E, Z.pow2_bits_true by done; done).
    rewrite Hz, Z.bits_0 in Hb. discriminate.
  - destruct (Z.eqb_spec (Z.land a (2 ^ i)) 0) as [|Hne]; [done|]. exfalso. apply Hne.
    apply Z.bits_inj'. intros j Hj. rewrite Z.land_spec, Z.bits_0.
    destruct (decide (j = i)) as [->|]; [by rewrite E|].
    rewrite Z.pow2_bits_false by done. apply andb_false_r.
Qed.

Lemma shift_out_run n i ad s :
  0 <= i -> exists l, shift_out n i ad s =
    Ret (map (fun k => Z.b2z (Z.testbit ad (i + Z.of_nat k))) (seq 0 n), set_out l s).
Proof using Type.
  revert i s. induction n as [|n IH]; intros i s Hi; cbn [shift_out].
  { exists (out s). by destruct s. }
  unfold CLK_L, CLK_H, IO_L, IO_H, DelayUS. mrun. cbv zeta.
  set (z := Z.land ad (Z.shiftl 1 i) =? 0).
  replace (if z then emit (PinLo RTC_IO) else emit (PinHi RTC_IO))
    with (emit (if z then PinLo RTC_IO else PinHi RTC_IO)) by (by destruct z).
  mrun. edestruct (IH (i + 1)) as (l & E); [lia|]. exists l. rewrite E. cbn [obind]. mrun.
  rewrite set_out_push. do 2 f_equal. cbn [seq map]. unfold z. rewrite land_bit, Z.add_0_r by done.
  f_equal. rewrite <- seq_shift, map_map. apply map_ext. intros k. do 2 f_equal. lia.
Qed.

Lemma shift_out_bits n ad s :
  exists l, shift_out n 0 ad s = Ret (bits_of n ad, set_out l s).
Proof using Type. apply shift_out_run. lia. Qed.

Lemma writeByte_run w d s :
  0 <= d < 256 -> 0 <= w < 256 ->
  exists l, writeByte w d s =
    Ret (tt, set_out l (set_board (rtc_command (bits_of 16 (Z.lor (Z.shiftl d 8) w)) (board s)) s)).
Proof using Type.
  intros Hd Hw. unfold writeByte. rewrite u16_small; cycle 1.
  { split; [apply Z.lor_nonneg; split; [apply Z.shiftl_nonneg|]; lia|].
    destruct (Z.eq_dec (Z.lor (Z.shiftl d 8) w) 0) as [->|Hne]; [lia|].
    apply (Z.log2_lt_pow2 _ 16).
    { assert (0 <= Z.lor (Z.shiftl d 8) w); [|lia].
      apply Z.lor_nonneg; split; [apply Z.shiftl_nonneg|]; lia. }
    rewrite Z.log2_lor by (try apply Z.shiftl_nonneg; lia).
    apply Z.max_lub_lt.
    - destruct (Z.eq_dec d 0) as [->|]; [done|]. rewrite Z.log2_shiftl by lia.
      assert (Z.log2 d < 8) by (apply Z.log2_lt_pow2; lia). lia.
    - destruct (Z.eq_dec w 0) as [->|]; [done|].
      assert (Z.log2 w < 8) by (apply Z.log2_lt_pow2; lia). lia. }
  cbv zeta. unfold CLK_L, RST_H, DelayUS, RST_L. mrun.
  edestruct (shift_out_bits 16) as (l & ->). cbn [obind]. mrun. simpl. by eexists.
Qed.

Section laws.
Context {laws : RtcLaws}.

Lemma b2z_bit_pos b k : 0 < k -> Z.testbit (Z.b2z b) k = false.
Proof using Type. intros Hk. destruct b; [|apply Z.bits_0]. by apply Z.bits_above_log2. Qed.

Lemma collect_bit v i :
  0 <= i < 8 ->
  u8 (Z.lor (Z.land v (Z.ones i)) (Z.shiftl (Z.b2z (Z.testbit v i)) i)) = Z.land v (Z.ones (i + 1)).
Proof using Type.
  intros Hi. unfold u8. change 256 with (2 ^ 8). rewrite <- Z.land_ones by lia.
  apply Z.bits_inj'. intros j Hj. rewrite !Z.land_spec, Z.lor_spec, Z.land_spec.
  rewrite Z.shiftl_spec by done. rewrite !Z.testbit_ones_nonneg by lia.
  destruct (Z.ltb_spec j i), (Z.ltb_spec j (i + 1)), (Z.ltb_spec j 8); try lia;
    rewrite ?andb_true_r, ?andb_false_r, ?orb_false_l; try done.
  - rewrite (Z.testbit_neg_r _ (j - i)) by lia. by rewrite orb_false_r.
  - assert (j = i) as -> by lia. rewrite Z.sub_diag. by destruct (Z.testbit v i).
  - apply b2z_bit_pos. lia.
Qed.

(** The bits of a register, collected least significant first. *)
Lemma shift_in_run n cmd i v s :
  0 <= i -> i + Z.of_nat n <= 8 ->
  (forall k, i <= k < i + Z.of_nat n -> rtc_bit (board s) cmd k = Z.b2z (Z.testbit v k)) ->
  exists l, shift_in n cmd i (Z.land v (Z.ones i)) s =
    Ret (Z.land v (Z.ones (i + Z.of_nat n)), set_out l s).
Proof using Type.
  revert i s. induction n as [|n IH]; intros i s Hi Hn Hbit; cbn [shift_in].
  { exists (out s). rewrite Z.add_0_r. by destruct s. }
  unfold CLK_L, CLK_H. mrun. cbn [board push_out]. rewrite Hbit by lia.
  rewrite collect_bit by lia. edestruct (IH (i + 1)) as (l & ->); [lia|lia| |].
  - intros k Hk. cbn [board push_out]. apply Hbit. lia.
  - exists l. f_equal. f_equal. f_equal. f_equal. lia.
Qed.

Lemma readByte_run r s :
  clock_reg r -> exists l, readByte (r + 1) s = Ret (rtc_reg (board s) r, set_out l s).
Proof using Type.
  intros Hr. unfold readByte, CLK_L, RST_H, DelayUS, RST_L. mrun.
  edestruct (shift_out_bits 8) as (l & ->). cbn [obind]. mrun.
  lazymatch goal with |- context [shift_in 8 ?c 0 0 ?s1] =>
    destruct (shift_in_run 8 c 0 (rtc_reg (board s) r) s1) as (l' & E); [done|done| |] end.
  - intros k Hk. cbn [board set_out push_out]. rewrite <- (Z2Nat.id k) by lia.
    apply rtc_read; [done|lia].
  - change (Z.ones 0) with 0 in E. rewrite Z.land_0_r in E. rewrite E. cbn [obind]. mrun.
    change (Z.ones (0 + Z.of_nat 8)) with (Z.ones 8). rewrite Z.land_ones by lia.
    rewrite Z.mod_small by apply rtc_reg_range. by eexists.
Qed.

Definition regs_at (h : hw) : list Z :=
  map (rtc_reg h) [0x8C; 0x88; 0x86; 0x84; 0x82; 0x80].

(** Runs the next [readByte], of register [r]. *)
Ltac read_reg r :=
  lazymatch goal with |- context [readByte ?a ?s0] =>
    let a' := eval vm_compute in a in
    let l := fresh "l" in let E := fresh in
    destruct (readByte_run r s0) as (l & E); [is_reg|];
    change (r + 1) with a in E; rewrite E; clear E; cbn [obind board set_out]; mrun
  end.

Lemma getTime_run s :
  exists l, getTime s = Ret (BCD2HEX <$> zip_with Z.land (regs_at (board s)) masks, set_out l s).
Proof using Type.
  unfold getTime. cbn [read_regs]. mrun.
  read_reg 0x8C. read_reg 0x88. read_reg 0x86. read_reg 0x84. read_reg 0x82. read_reg 0x80.
  by eexists.
Qed.

Lemma write_reg_run w d s :
  clock_reg w -> 0 <= d < 256 ->
  exists l h, writeByte w d s = Ret (tt, set_out l (set_board h s)) /\
    forall r, clock_reg r -> rtc_reg h r =
      if (r =? w) && ((w =? 0x8E) || negb (Z.testbit (rtc_reg (board s) 0x8E) 7)) then d
      else rtc_reg (board s) r.
Proof using Type.
  intros Hw Hd. assert (Hwr : 0 <= w < 256).
  { unfold clock_reg in Hw. repeat (apply elem_of_cons in Hw as [->|Hw]; [lia|]). set_solver. }
  destruct (writeByte_run w d s Hd Hwr) as (l & E). exists l. eexists. split; [exact E|].
  intros r Hr. by apply rtc_write.
Qed.

Lemma locked_step w d s :
  clock_reg w -> w ≠ 0x8E -> 0 <= d < 256 -> Z.testbit (rtc_reg (board s) 0x8E) 7 = false ->
  exists l h, writeByte w d s = Ret (tt, set_out l (set_board h s)) /\
    Z.testbit (rtc_reg h 0x8E) 7 = false /\
    forall r, clock_reg r -> rtc_reg h r = if r =? w then d else rtc_reg (board s) r.
Proof using Type.
  intros Hw Hne Hd Hun. destruct (write_reg_run w d s Hw Hd) as (l & h & E & Hh).
  exists l, h. split; [exact E|]. rewrite Hun in Hh. cbn [negb] in Hh.
  assert (Hh' : forall r, clock_reg r -> rtc_reg h r = if r =? w then d else rtc_reg (board s) r).
  { intros r Hr. rewrite Hh by done. by rewrite orb_true_r, andb_true_r. }
  split; [|exact Hh']. rewrite Hh' by (is_reg).
  destruct (Z.eqb_spec 0x8E w); [by subst|done].
Qed.

(** Runs the next [writeByte], to register [w], while the chip is unlocked. *)
Ltac write_reg w Hun Hr :=
  lazymatch goal with |- context [writeByte ?a ?d ?s0] =>
    let l := fresh "l" in let h := fresh "h" in let E := fresh in let Hu := fresh in
    destruct (locked_step w d s0) as (l & h & E & Hu & Hr);
      [is_reg|done|lia|exact Hun|];
    change w with a in E; rewrite E; clear E; cbn [obind board set_out set_board] in *;
    clear Hun; rename Hu into Hun; mrun
  end.

Definition calendar (t : list Z) : Prop :=
  exists y mo d h mi sec, t = [y; mo; d; h; mi; sec] /\
    0 <= y < 100 /\ 0 <= mo < 20 /\ 0 <= d < 40 /\ 0 <= h < 40 /\ 0 <= mi < 80 /\ 0 <= sec < 80.

Lemma bcd_mask m n x :
  forallb (fun x => BCD2HEX (Z.land (Z.land (HEX2BCD x) m) m) =? x) (seqZ 0 n) = true ->
  0 <= x < n -> BCD2HEX (Z.land (Z.land (HEX2BCD x) m) m) = x.
Proof using Type. intros Hf Hx. apply Z.eqb_eq. by apply (below _ _ _ Hf). Qed.

Lemma hex2bcd_range x : 0 <= HEX2BCD x < 256.
Proof using Type. apply u8_range. Qed.

Lemma land_range x m : 0 <= x < 256 -> 0 <= m -> 0 <= Z.land x m < 256.
Proof using Type.
  intros Hx Hm. assert (0 <= Z.land x m) by (apply Z.land_nonneg; lia). split; [done|].
  destruct (Z.eq_dec (Z.land x m) 0) as [->|]; [lia|].
  apply (Z.log2_lt_pow2 _ 8); [lia|].
  assert (Hl := Z.log2_land x m ltac:(lia) Hm).
  destruct (Z.eq_dec x 0) as [->|]; [by rewrite Z.land_0_l in *|].
  assert (Z.log2 x < 8) by (apply Z.log2_lt_pow2; lia). lia.
Qed.

(** C38: a calendar time that [setTime] puts into the clock chip
    is the one [getTime] reads until the clock next ticks; the chip is left
    write-protected and its day of the week is 1. *)
Theorem clock_roundtrip t s :
  calendar t ->
  exists s1, setTime t s = Ret (tt, s1) /\ (exists l, getTime s1 = Ret (t, set_out l s1)) /\
    Z.testbit (rtc_reg (board s1) 0x8E) 7 = true /\ rtc_reg (board s1) 0x8A = 1.
Proof using Type.
  intros (y & mo & d & h & mi & sec & -> & Hy & Hmo & Hd & Hh & Hmi & Hsec).
  unfold setTime. cbn [nth]. cbv zeta. rewrite bind_run.
  destruct (getTime_run s) as (l0 & ->). cbn [obind]. rewrite bind_run.
  lazymatch goal with |- context [writeByte 0x8e 0x00 ?s0] =>
    destruct (write_reg_run 0x8E 0 s0) as (l1 & h1 & E1 & H1);
      [is_reg|lia|] end.
  rewrite E1. cbn [obind board set_out] in *.
  assert (Hun : Z.testbit (rtc_reg h1 0x8E) 7 = false)
    by (rewrite H1 by (is_reg); done).
  assert (Hz : forall a b, Z.lor (Z.land (Z.land a 0x3f) 0x80) b = b)
    by (intros a b; rewrite <- Z.land_assoc; change (Z.land 0x3f 0x80) with 0; by rewrite Z.land_0_r).
  assert (Hz2 : forall a b, Z.lor (Z.land (Z.land a 0x7f) 0x80) b = b)
    by (intros a b; rewrite <- Z.land_assoc; change (Z.land 0x7f 0x80) with 0; by rewrite Z.land_0_r).
  rewrite Hz, Hz2. clear Hz Hz2.
  pose proof hex2bcd_range as Hr. pose proof (fun x m => land_range (HEX2BCD x) m (Hr x)) as Hl.
  pose proof (Hr y). pose proof (Hl mo 0x1f). pose proof (Hl d 0x3f). pose proof (Hl h 0x3f).
  pose proof (Hl mi 0x7f). pose proof (Hl sec 0x7f). clear Hr Hl.
  cbn [write_regs]. mrun.
  write_reg 0x8C Hun R1. write_reg 0x8A Hun R2. write_reg 0x88 Hun R3. write_reg 0x86 Hun R4.
  write_reg 0x84 Hun R5. write_reg 0x82 Hun R6. write_reg 0x80 Hun R7.
  lazymatch goal with |- context [writeByte 0x8e 0x80 ?s0] =>
    destruct (write_reg_run 0x8E 0x80 s0) as (l9 & h9 & E9 & H9); [is_reg|lia|] end.
  rewrite E9. cbn [board set_out set_board] in *.
  eexists. split; [done|].
  lazymatch goal with |- (exists _, getTime ?s1 = _) /\ _ => destruct (getTime_run s1) as (l10 & E10) end.
  assert (Hregs : forall r, clock_reg r -> r ≠ 0x8E -> rtc_reg h9 r = rtc_reg h7 r).
  { intros r Hr Hne. rewrite H9 by done. by rewrite (proj2 (Z.eqb_neq r 0x8E) Hne). }
  assert (Hat : regs_at h9 = [HEX2BCD y; Z.land (HEX2BCD mo) 0x1f; Z.land (HEX2BCD d) 0x3f;
            Z.land (HEX2BCD h) 0x3f; Z.land (HEX2BCD mi) 0x7f; Z.land (HEX2BCD sec) 0x7f]).
  { unfold regs_at. cbn [map]. rewrite !Hregs by (is_reg || done).
    repeat f_equal; repeat (first [rewrite R7 by is_reg|rewrite R6 by is_reg|rewrite R5 by is_reg|
      rewrite R4 by is_reg|rewrite R3 by is_reg|rewrite R2 by is_reg|rewrite R1 by is_reg]; cbn [Z.eqb Pos.eqb]; cbv iota); done. }
  rewrite E10. cbn [board set_out set_board]. rewrite Hat. split; [|split].
  - exists l10. f_equal. f_equal. cbn [zip_with masks fmap list_fmap]. repeat f_equal.
    + apply Z.eqb_eq, (below (fun y => BCD2HEX (Z.land (HEX2BCD y) 0xff) =? y) 100); [done|lia].
    + by apply (bcd_mask 0x1f 20).
    + by apply (bcd_mask 0x3f 40).
    + by apply (bcd_mask 0x3f 40).
    + by apply (bcd_mask 0x7f 80).
    + by apply (bcd_mask 0x7f 80).
  - rewrite H9 by is_reg. done.
  - rewrite Hregs by (is_reg || done).
    repeat (first [rewrite R7 by is_reg|rewrite R6 by is_reg|rewrite R5 by is_reg|
      rewrite R4 by is_reg|rewrite R3 by is_reg|rewrite R2 by is_reg]; cbn [Z.eqb Pos.eqb]; cbv iota). done.
Qed.
End laws.
End ds1302.
