(* ===== verification/Preserve.v ===== *)
(** * Invariants of the whole program

    [preserves I m]: a run of [m] that returns from a state with [I] returns a
    state with [I].  Unlike [keeps] it says nothing of runs that leave their
    objects, and so holds of the functions that can.  [safe I] gathers what an
    invariant over the blocks needs; the rules and the tactic [preserve] reduce
    a function to its assignments. *)
From stdpp Require Import base tactics list numbers option gmap.
From S2P Require Import Prelude Machine Effects Timers Tick Serial Packet ParamTable Process Flash Device Ds1302.

Section preserve.
Context `{Board}.

Definition preserves {A} (I : fw -> Prop) (m : M A) : Prop :=
  forall s a s', I s -> m s = Ret (a, s') -> I s'.
(** What the result of a run satisfies. *)
Definition yields {A} (I : fw -> Prop) (m : M A) (Q : A -> Prop) : Prop :=
  forall s a s', I s -> m s = Ret (a, s') -> Q a.

Lemma preserves_ret {A} I (a : A) : preserves I (mret a).
Proof using Type. by intros s b s' HI [= <- <-]. Qed.
Lemma preserves_bind {A B} I (m : M A) (k : A -> M B) :
  preserves I m -> (forall a, preserves I (k a)) -> preserves I (m ≫= k).
Proof using Type.
  intros Hm Hk s b s' HI. rewrite bind_run. destruct (m s) as [[a s1]| | |] eqn:E; [|done..].
  cbn [obind]. apply Hk. by eapply Hm.
Qed.
Lemma preserves_bind_yields {A B} I Q (m : M A) (k : A -> M B) :
  preserves I m -> yields I m Q -> (forall a, Q a -> preserves I (k a)) -> preserves I (m ≫= k).
Proof using Type.
  intros Hm Hq Hk s b s' HI. rewrite bind_run. destruct (m s) as [[a s1]| | |] eqn:E; [|done..].
  cbn [obind]. apply Hk; [by eapply Hq|by eapply Hm].
Qed.
Lemma yields_ret {A} (I : fw -> Prop) (a : A) (Q : A -> Prop) : Q a -> yields I (mret a) Q.
Proof using Type. by intros HQ s b s' HI [= <- <-]. Qed.
Lemma yields_bind {A B} I (m : M A) (k : A -> M B) Q R :
  preserves I m -> yields I m R -> (forall a, R a -> yields I (k a) Q) -> yields I (m ≫= k) Q.
Proof using Type.
  intros Hp Hm Hk s b s' HI. rewrite bind_run. destruct (m s) as [[a s1]| | |] eqn:E; [|done..].
  cbn [obind]. apply Hk; [by eapply Hm|by eapply Hp].
Qed.
Lemma yields_trivial {A} I (m : M A) : yields I m (fun _ => True).
Proof using Type. done. Qed.
Lemma preserves_switch {A} I c (cases : list (list Z * M A)) d :
  Forall (fun x => preserves I (snd x)) cases -> preserves I d -> preserves I (switch c cases d).
Proof using Type. apply switch_ind. Qed.
Lemma preserves_when I c m : (c = true -> preserves I m) -> preserves I (when c m).
Proof using Type. destruct c; [by intros Hm; apply Hm|]. intros _. apply preserves_ret. Qed.
Lemma preserves_for I n from body :
  (forall i, preserves I (body i)) -> preserves I (for_ n from body).
Proof using Type.
  intros Hb. revert from. induction n as [|n IH]; intros from; cbn [for_]; [apply preserves_ret|].
  apply preserves_bind; [apply Hb|done].
Qed.
Lemma preserves_getv I x : preserves I (getv x).
Proof using Type. by intros s a s' HI [= <- <-]. Qed.
Lemma preserves_pure {A} I (f : fw -> A) : preserves I (fun s => Ret (f s, s)).
Proof using Type. by intros s a s' HI [= <- <-]. Qed.
Lemma preserves_lift {A} I (o : option A) : preserves I (lift_opt o).
Proof using Type. destruct o; [by intros s b s' HI [= <- <-]|done]. Qed.
Lemma preserves_no {A} I (o : outcome (A * fw)) :
  (forall x, o ≠ Ret x) -> preserves I (fun _ => o).
Proof using Type. intros Ho s a s' _ E. by destruct (Ho _ E). Qed.
Lemma preserves_ld8 I b o : preserves I (ld8 b o).
Proof using Type. intros s a s' HI. unfold ld8, lift_opt. case_match; [by intros [= <- <-]|done]. Qed.
Lemma preserves_ldn I b o n : preserves I (ldn b o n).
Proof using Type. intros s a s' HI. unfold ldn, lift_opt. case_match; [by intros [= <- <-]|done]. Qed.
Lemma preserves_ld32 I b o : preserves I (ld32 b o).
Proof using Type. apply preserves_bind; [apply preserves_ldn|]. intros. apply preserves_ret. Qed.
Lemma preserves_if {A} I (c : bool) (m n : M A) :
  preserves I m -> preserves I n -> preserves I (if c then m else n).
Proof using Type. by destruct c. Qed.

Lemma preserves_busy {A} (I : fw -> Prop) (uart4 : Z -> M unit) systick (poll : M (option A)) :
  (forall es s, I s -> I (set_sched es s)) ->
  (forall b, preserves I (uart4 b)) -> preserves I systick -> preserves I poll ->
  preserves I (busy_wait uart4 systick poll).
Proof using Type.
  intros Hsch Hu Ht Hp s a s' HI. unfold busy_wait. generalize (sched s) as es. intros es.
  revert s HI. induction es as [|[b| |] es IH]; intros s HI; cbn [busy_loop]; [done|..].
  - destruct (uart4 b s) as [[[] s1]| | |] eqn:E; [|done..]. apply IH. by eapply Hu.
  - destruct (systick s) as [[[] s1]| | |] eqn:E; [|done..]. apply IH. by eapply Ht.
  - destruct (poll s) as [[[x|] s1]| | |] eqn:E; cbn [obind]; [| |done..].
    + intros [= <- <-]. apply Hsch. by eapply Hp.
    + apply IH. by eapply Hp.
Qed.

(** An invariant over the blocks, the table and some scalars. *)
Record safe (I : fw -> Prop) : Prop := {
  safe_wf : forall s, I s -> wf s;
  safe_block : forall b m s, blen m = bsize b -> bytes_ok m -> I s -> I (set_block b m s);
  safe_out : forall e s, I s -> I (push_out e s);
  safe_sched : forall es s, I s -> I (set_sched es s);
  safe_board : forall h s, I s -> I (set_board h s);
  safe_table : forall t s, length t = Count_ParamItem_Max -> I s -> I (set_table t s);
  safe_index : forall t s, length t = Count_ParamItem_Max -> I s -> I (set_index t s);
  safe_u8 : forall x v s, 0 <= v < 256 -> I s -> I (put x v s) }.

(** Bytes loaded from a well-formed state. *)
Lemma yields_ldn_wf (I : fw -> Prop) b o n :
  (forall s, I s -> wf s) -> yields I (ldn b o n) bytes_ok.
Proof using Type.
  intros HI s a s' Hs. unfold ldn, lift_opt. destruct (rdn (block b s) o n) eqn:E; [|done].
  intros [= <- <-]. eapply rdn_ok, E. by apply wf_bytes, HI.
Qed.
Lemma yields_ldpn_wf (I : fw -> Prop) p i n :
  (forall s, I s -> wf s) -> yields I (ldpn p i n) bytes_ok.
Proof using Type.
  intros HI. destruct p as [|b o|x]; cbn [ldpn]; [done|by apply yields_ldn_wf|].
  case_match; [|done]. intros s a s' Hs E. rewrite bind_run, getv_run in E. cbn [obind] in E.
  injection E as <- <-. repeat constructor; apply u8_range.
Qed.

Section rules.
Context (I : fw -> Prop) (HI : safe I).

Lemma preserves_putv x v : (forall s, I s -> I (put x v s)) -> preserves I (putv x v).
Proof using Type. intros Hx s a s' Hs [= <- <-]. by apply Hx. Qed.
Lemma preserves_emit e : preserves I (emit e).
Proof using HI. intros s a s' Hs [= <- <-]. by apply (safe_out I HI). Qed.
Lemma preserves_st8 b o v : preserves I (st8 b o v).
Proof using HI.
  intros s a s' Hs. unfold st8. destruct (wr (block b s) o v) as [m|] eqn:E; [|done].
  intros [= <- <-]. pose proof (safe_wf I HI s Hs) as Hwf. apply (safe_block I HI); [| |done].
  - by rewrite (wr_blen _ _ _ _ E), (wf_size s Hwf).
  - eapply wr_ok, E. by apply wf_bytes.
Qed.
Lemma preserves_stn b o bs : bytes_ok bs -> preserves I (stn b o bs).
Proof using HI.
  intros Hb s a s' Hs. unfold stn. destruct (wrn (block b s) o bs) as [m|] eqn:E; [|done].
  intros [= <- <-]. pose proof (safe_wf I HI s Hs) as Hwf. apply (safe_block I HI); [| |done].
  - by rewrite (wrn_blen _ _ _ _ E), (wf_size s Hwf).
  - eapply wrn_ok, E; [by apply wf_bytes|done].
Qed.
Lemma preserves_st32 b o v : preserves I (st32 b o v).
Proof using HI. apply preserves_stn, le32_ok. Qed.
Lemma preserves_zero b : preserves I (zero b).
Proof using HI.
  intros s a s' Hs [= <- <-]. apply (safe_block I HI); [|apply Forall_replicate; lia|done].
  apply blen_replicate. by destruct b.
Qed.
Lemma yields_ldn b o n : yields I (ldn b o n) bytes_ok.
Proof using HI. apply yields_ldn_wf, (safe_wf I HI). Qed.
Lemma preserves_ldp p i : preserves I (ldp p i).
Proof using Type.
  destruct p; cbn [ldp]; [by apply preserves_no|apply preserves_ld8|].
  case_match; [|by apply preserves_no]. apply preserves_bind; [apply preserves_getv|].
  intros. apply preserves_ret.
Qed.
Lemma preserves_ldpn p i n : preserves I (ldpn p i n).
Proof using Type.
  destruct p; cbn [ldpn]; [by apply preserves_no|apply preserves_ldn|].
  case_match; [|by apply preserves_no]. apply preserves_bind; [apply preserves_getv|].
  intros. apply preserves_ret.
Qed.
Lemma yields_ldpn p i n : yields I (ldpn p i n) bytes_ok.
Proof using HI. apply yields_ldpn_wf, (safe_wf I HI). Qed.
Lemma preserves_stp p i v : preserves I (stp p i v).
Proof using HI.
  destruct p; cbn [stp]; [by apply preserves_no|apply preserves_st8|].
  case_match; [|by apply preserves_no]. apply preserves_putv. intros.
  apply (safe_u8 I HI); [apply u8_range|done].
Qed.
Lemma preserves_stpn p i bs : bytes_ok bs -> preserves I (stpn p i bs).
Proof using HI.
  intros Hb. destruct p; cbn [stpn]; [by apply preserves_no|by apply preserves_stn|].
  destruct bs as [|x []]; [by apply preserves_no| |by apply preserves_no].
  case_match; [|by apply preserves_no]. apply preserves_putv. intros.
  apply (safe_u8 I HI); [apply u8_range|done].
Qed.
Lemma preserves_memcpy q qo p po n : preserves I (memcpy q qo p po n).
Proof using HI.
  eapply preserves_bind_yields; [apply preserves_ldpn|apply yields_ldpn|].
  intros bs Hb. by apply preserves_stpn.
Qed.
Lemma preserves_item_at i : preserves I (item_at i).
Proof using Type.
  apply preserves_bind; [by apply preserves_pure|]. intros t. case_match; [apply preserves_lift|by apply preserves_no].
Qed.
Lemma preserves_put_item i it : preserves I (put_item i it).
Proof using HI.
  intros s a s' Hs. unfold put_item. case_match; [|done]. intros [= <- <-].
  apply (safe_table I HI); [|done]. rewrite length_insert. by apply wf_table, (safe_wf I HI).
Qed.
Lemma preserves_put_index i id : preserves I (put_index i id).
Proof using HI.
  intros s a s' Hs. unfold put_index. case_match; [|done]. intros [= <- <-].
  apply (safe_index I HI); [|done]. rewrite length_insert. by apply wf_index, (safe_wf I HI).
Qed.
Lemma preserves_board (f : hw -> hw) : preserves I (fun s => Ret (tt, set_board (f (board s)) s)).
Proof using HI. intros s a s' Hs [= <- <-]. by apply (safe_board I HI). Qed.
End rules.
End preserve.

(** [preserve]: one rule per construct, the hints [preserve] for the functions
    a function calls. *)
Create HintDb preserve discriminated.
#[export] Hint Constants Opaque : preserve.
#[export] Hint Resolve preserves_ret preserves_getv preserves_ld8 preserves_ldn preserves_ld32
  preserves_lift preserves_ldp preserves_ldpn preserves_item_at preserves_emit preserves_st8
  preserves_st32 preserves_zero preserves_stp preserves_memcpy preserves_put_item
  preserves_put_index yields_ldn yields_ldpn : preserve.
Ltac put_side := let s := fresh "s" in let Hs := fresh in intros s Hs;
  solve [eauto with preserve_put].
Create HintDb preserve_put discriminated.
Ltac pres1 :=
  first
    [ assumption | solve [eauto 2 with preserve nocore]
    | lazymatch goal with
      | |- forall _, _ => intros ?
      | |- preserves _ (mbind _ _) =>
          first [ eapply preserves_bind_yields; [|solve [eauto 2 with preserve nocore]|intros ? ?]
                | apply preserves_bind; [|intros ?] ]
      | |- preserves _ (when _ _) => apply preserves_when; intros ?
      | |- preserves _ (switch _ _ _) => apply preserves_switch; [repeat first [apply Forall_nil_2 | apply Forall_cons_2]; cbn [snd]|]
      | |- preserves _ (putv _ _) => apply preserves_putv; try put_side
      | |- preserves _ (stn _ _ _) => apply preserves_stn; [solve [eauto 2 with preserve nocore]|try assumption]
      | |- preserves _ (for_ _ _ _) => apply preserves_for; intros ?
      | |- preserves _ (fun s => Ret (_, s)) => by apply preserves_pure
      | |- preserves _ oob => by apply preserves_no
      | |- preserves _ hang => by apply preserves_no
      | |- preserves _ (fun _ => Starved) => by apply preserves_no
      | |- preserves _ (match _ with _ => _ end) => case_match
      | |- preserves _ ((fun _ => _) _) => cbv beta
      | |- preserves _ (let _ := _ in _) => cbv zeta
      end ].
Ltac preserve := repeat pres1.
