(* ===== verification/Radio.v ===== *)
(** * The R2000 radio module (R2000.c): what it reports

    Filters for the tags it inventories ([MaskCheck], [Mask6BCheck]), the
    interpretation of its frames ([decodeR2000]) and its receiver
    ([UART4_IRQHandler]).  A tag becomes a row of [CardIndex]: the number of
    EPC words, up to 30 EPC bytes, six time bytes, the antenna and the signal
    strength. *)
From stdpp Require Import base tactics list numbers option gmap.
From S2P Require Import Prelude Machine Effects Timers Tick Serial Packet ParamTable Process Device Ds1302.

Definition ap_RelayCTLEnable : Z := 166.
(** [SCMD_R2000]: [bootCode len addr cmd para]. *)
Definition R_len : Z := 1.
Definition R_cmd : Z := 3.
Definition R_para : Z := 4.

Section radio.
Context `{Board}.

(** *** Tag filters *)

(** [(x >> (7 - j)) & 0x01] *)
Definition bit_of (x j : Z) : Z := Z.land (Z.shiftr x (7 - j)) 0x01.

(** The loop of [MaskCheck] from [i], with [n] turns left. *)
Fixpoint mask_loop (buf : ptr) (CMDMaskaddr : Z) (n : nat) (i j pos tj tpos : Z) : M Z :=
  match n with
  | O => mret 1
  | S n =>
      let next (tj tpos : Z) : M Z :=
        let j := j + 1 in
        if j >? 7 then mask_loop buf CMDMaskaddr n (i + 1) 0 (pos + 1) tj tpos
        else mask_loop buf CMDMaskaddr n (i + 1) j pos tj tpos in
      if i >=? CMDMaskaddr then
        x ← ldp buf pos;
        y ← ld8 CMDMaskData tpos;
        if negb (bit_of x j =? bit_of y tj) then mret 0
        else
          let tj := tj + 1 in
          if tj >? 7 then next 0 (tpos + 1) else next tj tpos
      else next tj tpos
  end.

Definition MaskCheck (buf : ptr) (len : Z) : M Z :=
  CMDMasklen_ ← getv CMDMasklen;
  if CMDMasklen_ =? 0 then mret 1
  else
    CMDMaskaddr_ ← getv CMDMaskaddr;
    let totallen := CMDMaskaddr_ + CMDMasklen_ in
    let totallen := if totallen >? len * 8 then len * 8 else totallen in
    if len * 8 <=? CMDMaskaddr_ then mret 0
    else mask_loop buf CMDMaskaddr_ (Z.to_nat totallen) 0 0 0 0 0.

(** The loop of [Mask6BCheck]: [inl] falls through to the switch after it. *)
Fixpoint mask6B_loop (buf : ptr) (MASKAddr6B_ MASK6B_ MASKSEL_ : Z) (n : nat) (i tj : Z)
    : M (unit + Z) :=
  match n with
  | O => mret (inl tt)
  | S n =>
      if i >=? MASKAddr6B_ then
        let next : M (unit + Z) :=
          let tj := tj + 1 in
          if tj >? 7 then mret (inl tt)
          else mask6B_loop buf MASKAddr6B_ MASK6B_ MASKSEL_ n (i + 1) tj in
        if negb (Z.land MASK6B_ (Z.shiftl 1 (7 - tj)) =? 0) then
          x ← ldp buf i;
          y ← ld8 MASKData6B tj;
          switch MASKSEL_
            [ ([0], if negb (x =? y) then mret (inr 0) else next);
              ([1], if negb (x =? y) then mret (inr 1) else next);
              ([2], if x <? y then mret (inr 0) else if x >? y then mret (inr 1) else next);
              ([3], if x >? y then mret (inr 0) else if x <? y then mret (inr 1) else next) ]
            next
        else next
      else mask6B_loop buf MASKAddr6B_ MASK6B_ MASKSEL_ n (i + 1) tj
  end.

Definition Mask6BCheck (buf : ptr) : M Z :=
  MASK6B_ ← getv MASK6B;
  if MASK6B_ =? 0 then mret 1
  else
    MASKAddr6B_ ← getv MASKAddr6B;
    MASKSEL_ ← getv MASKSEL;
    r ← mask6B_loop buf MASKAddr6B_ MASK6B_ MASKSEL_ 8 0 0;
    match r with
    | inr v => mret v
    | inl _ => mret (if MASKSEL_ =? 0 then 1 else 0)
    end.

(** *** [decodeR2000] *)

(** [CardIndex[CardPos][k] = v] *)
Definition card_set (k v : Z) : M unit :=
  p ← getv CardPos; st8 CardIndex (p * ROW + k) v.
(** [memcpy(&CardIndex[CardPos][1], &para[o], n)] *)
Definition card_copy (o n : Z) : M unit :=
  p ← getv CardPos;
  bs ← ldn R2000_rec (R_para + o) n;
  stn CardIndex (p * ROW + 1) bs.

Definition para (i : Z) : M Z := ld8 R2000_rec (R_para + i).

(** The time of the sighting, written twice (first and last). *)
Definition card_time : M unit :=
  h ← ld8 g_device (off_ReaderTime + 3);
  m ← ld8 g_device (off_ReaderTime + 4);
  x ← ld8 g_device (off_ReaderTime + 5);
  card_set TAGIDLENGTH h;;
  card_set (TAGIDLENGTH + 1) m;;
  card_set (TAGIDLENGTH + 2) x;;
  card_set (TAGIDLENGTH + 3) h;;
  card_set (TAGIDLENGTH + 4) m;;
  card_set (TAGIDLENGTH + 5) x.

(** [CardPos++; if (CardPos > MAXNUM) { CardPos = MAXNUM; full }] *)
Definition card_next (full : M unit) : M unit :=
  p ← getv CardPos;
  putv CardPos (u32 (p + 1));;
  p ← getv CardPos;
  when (p >? MAXNUM) (putv CardPos MAXNUM;; full).

Definition all_read : M unit :=
  n ← getv Tag_R2000_CMD80_number; putv Tag_R2000_CMD91_number n.

(** The relay that follows the tags in the active mode. *)
Definition relay_follow : M unit :=
  st ← ld8 g_device wp_ReaderWorkStatus;
  when (st =? WORK_ACT)
    (r ← ld8 g_device ap_RelayCTLEnable;
     when (negb (r =? 0)) (putv RelayFlag 1)).

Definition beep_more : M unit := b ← getv beepFlag; putv beepFlag (u8 (b + 1)).

Definition decode_70 : M unit := putv SelfCheckFailure 5;; putv R2000_set_mark 0.

Definition decode_81 (len : Z) : M unit :=
  when (len >? 4)
    (x ← para (len - 6);
     let EPC_lenth := Z.shiftr x 1 in
     when (EPC_lenth =? 6)
       (putv beepFlag 1;;
        card_set 0 EPC_lenth;;
        card_copy (len - 6 - EPC_lenth * 2) (EPC_lenth * 2);;
        y ← para (len - 5);
        card_set (TAGIDLENGTH + 6 + 0) (Z.land y 0x3 + 1);;
        card_time;;
        card_next all_read;;
        relay_follow)).

Definition decode_8A (len : Z) : M unit :=
  if len =? 0x05 then mret tt
  else
    let EPC_lenth := u8 (Z.shiftr (len - 7) 1) in
    if len =? 0x0A then
      a ← para 0; b ← para 1; c ← para 2;
      putv Tag_R2000_CMD91_number (Z.lor (Z.shiftl (Z.lor (Z.shiftl a 8) b) 8) c);;
      n ← getv Tag_R2000_CMD91_number;
      when (n =? 0) (putv Tag_R2000_CMD91_number 0xffffffff)
    else
      when ((len >? 4) && (EPC_lenth <=? 15))
        (beep_more;;
         card_set 0 EPC_lenth;;
         card_copy 3 (EPC_lenth * 2);;
         a ← para 0;
         card_set (TAGIDLENGTH + 6 + 0) (Z.land a 0x03 + 1);;
         r ← para (EPC_lenth * 2 + 3);
         card_set (TAGIDLENGTH + 6 + 1) r;;
         card_next (mret tt)).

Definition count_91 : M unit :=
  n ← getv Tag_R2000_CMD91_number; putv Tag_R2000_CMD91_number (u32 (n + 1)).

Definition decode_91 (len : Z) : M unit :=
  when (len >? 4)
    (x ← para 2;
     let EPC_lenth := u8 (Z.shiftr x 1 - 2) in
     when (EPC_lenth <=? 15)
       (r ← MaskCheck (At R2000_rec (R_para + 5)) (u8 (EPC_lenth * 2));
        when (negb (r =? 0))
          (beep_more;;
           card_set 0 EPC_lenth;;
           card_copy 5 (EPC_lenth * 2);;
           a ← getv AntId;
           card_set (TAGIDLENGTH + 6 + 0) (a + 1);;
           y ← para (x + 3);
           card_set (TAGIDLENGTH + 6 + 1) y;;
           card_time;;
           card_next all_read;;
           relay_follow));;
     count_91).

Definition decode_B0 (len : Z) : M unit :=
  if len >? 5 then
    r ← Mask6BCheck (At R2000_rec (R_para + 1));
    when (negb (r =? 0))
      (beep_more;;
       card_set 0 4;;
       card_copy 1 8;;
       a ← para 0;
       card_set (TAGIDLENGTH + 6 + 0) (a + 1);;
       card_set (TAGIDLENGTH + 6 + 1) 0;;
       card_time;;
       card_next all_read;;
       relay_follow);;
    count_91
  else if len =? 5 then n ← para 1; putv Tag_R2000_CMD80_number n
  else when (len =? 4) (putv Tag_R2000_CMD80_number 0).

Definition decodeR2000 : M unit :=
  len ← ld8 R2000_rec R_len;
  cmd ← ld8 R2000_rec R_cmd;
  switch cmd
    [ ([0x70], decode_70);
      ([0x81], decode_81 len);
      ([0x8A], decode_8A len);
      ([0x91], decode_91 len);
      ([0x92; 0x93; 0x94], mret tt);
      ([0xB0], decode_B0 len) ]
    (mret tt).

(** *** The receiver *)

(** [memset(&R2000, 0, sizeof(R2000))] *)
Definition R2000_zero : M unit := port_zero portR2000;; timerZero R2000_send_timer.

Definition R2000_complete : M unit :=
  timerStop R2000_local_timer;;
  len ← ld32 R2000_rec SBUF_len;
  if (len <? 4) || (len >? BUF_LEN) then R2000_zero
  else putv R2000_set_mark 1;; decodeR2000.

Definition UART4_IRQHandler (c : Z) : M unit := rx_byte portR2000 R2000_complete c.

(** ** Bit masks *)

(** Bit [k] of a byte string, most significant first. *)
Definition nbit (m : bytes) (k : Z) : Z := bit_of (nth (Z.to_nat (k / 8)) m 0) (k mod 8).

Fixpoint mask_ok (epc md : bytes) (addr i : Z) (n : nat) : bool :=
  match n with
  | O => true
  | S n => ((i <? addr) || (nbit epc i =? nbit md (i - addr))) && mask_ok epc md addr (i + 1) n
  end.

Lemma mask_ok_spec epc md addr i n :
  mask_ok epc md addr i n = true <->
  forall k, i <= k < i + Z.of_nat n -> addr <= k -> nbit epc k = nbit md (k - addr).
Proof using Type.
  revert i. induction n as [|n IH]; intros i; cbn [mask_ok]; [split; [lia|done]|].
  rewrite andb_true_iff, orb_true_iff, Z.ltb_lt, Z.eqb_eq, IH. split.
  - intros [Hi Hr] k Hk Ha. destruct (decide (k = i)) as [->|]; [destruct Hi; [lia|done]|].
    apply Hr; lia.
  - intros Hk. split; [|intros k Hk1 Hk2; apply Hk; lia].
    destruct (Z.lt_ge_cases i addr); [by left|right]. apply Hk; lia.
Qed.

Lemma div_mod_succ i : 0 <= i ->
  (if i mod 8 + 1 >? 7 then (0, i / 8 + 1) else (i mod 8 + 1, i / 8)) = ((i + 1) mod 8, (i + 1) / 8).
Proof using Type.
  intros Hi. pose proof (Z.div_mod i 8 ltac:(lia)). pose proof (Z.mod_pos_bound i 8 ltac:(lia)).
  rewrite Z.gtb_ltb. destruct (Z.ltb_spec 7 (i mod 8 + 1)).
  - replace (i + 1) with (0 + (i / 8 + 1) * 8) by lia. by rewrite Z_mod_plus_full, Z_div_plus_full.
  - replace (i + 1) with (i mod 8 + 1 + i / 8 * 8) by lia.
    rewrite Z_mod_plus_full, Z_div_plus_full by lia.
    by rewrite (Z.mod_small (i mod 8 + 1)), (Z.div_small (i mod 8 + 1)) by lia.
Qed.

Lemma rd_nth m i : 0 <= i < blen m -> rd m i = Some (nth (Z.to_nat i) m 0).
Proof using Type.
  intros Hi. destruct (rd_in m i Hi) as [v Hv]. rewrite Hv. unfold rd in Hv.
  destruct (Z.leb_spec 0 i); [|lia]. f_equal. symmetry. apply nth_lookup_Some with (d := 0) in Hv. done.
Qed.

Lemma mask_loop_run b o epc addr n i s :
  wf s -> rdn (block b s) o (blen epc) = Some epc -> 0 <= i -> 0 <= addr ->
  i + Z.of_nat n <= 8 * blen epc -> i + Z.of_nat n - addr <= 248 ->
  let t := Z.max 0 (i - addr) in
  mask_loop (At b o) addr n i (i mod 8) (i / 8) (t mod 8) (t / 8) s =
  Ret (if mask_ok epc (block CMDMaskData s) addr i n then 1 else 0, s).
Proof using Type.
  intros Hwf Hepc. revert i. induction n as [|n IH]; intros i Hi Ha Hn Hm; [done|].
  cbv zeta in *. set (t := Z.max 0 (i - addr)) in *. cbn [mask_loop mask_ok]. cbv zeta.
  assert (Hnext : forall t', t' = Z.max 0 (i + 1 - addr) ->
    (if i mod 8 + 1 >? 7 then mask_loop (At b o) addr n (i + 1) 0 (i / 8 + 1) (t' mod 8) (t' / 8)
     else mask_loop (At b o) addr n (i + 1) (i mod 8 + 1) (i / 8) (t' mod 8) (t' / 8)) s =
    Ret (if mask_ok epc (block CMDMaskData s) addr (i + 1) n then 1 else 0, s)).
  { intros t' ->. pose proof (div_mod_succ i Hi) as Hd. specialize (IH (i + 1)).
    destruct (i mod 8 + 1 >? 7); injection Hd as Hd1 Hd2;
      rewrite <- Hd1, <- Hd2 in IH; apply IH; lia. }
  rewrite Z.geb_leb. destruct (Z.leb_spec addr i) as [Hge|Hlt].
  2:{ destruct (Z.ltb_spec i addr); [|lia]. cbn [orb andb]. apply Hnext. unfold t. lia. }
  destruct (Z.ltb_spec i addr); [lia|]. cbn [orb].
  assert (Ht : t = i - addr) by (unfold t; lia). rewrite Ht in *.
  assert (Hpos : 0 <= i / 8 < blen epc) by (split; [apply Z.div_pos|apply Z.div_lt_upper_bound]; lia).
  assert (Htp : 0 <= (i - addr) / 8 < 31) by (split; [apply Z.div_pos|apply Z.div_lt_upper_bound]; lia).
  assert (Hx : rd (block b s) (o + i / 8) = Some (nth (Z.to_nat (i / 8)) epc 0)).
  { rewrite <- (rd_rdn _ _ _ _ _ Hepc) by lia. by apply rd_nth. }
  rewrite bind_run. change (ldp (At b o) (i / 8) s) with (ld8 b (o + i / 8) s).
  rewrite (ld8_run _ _ _ _ Hx). cbn [obind].
  rewrite bind_run, (ld8_run CMDMaskData _ _ (nth (Z.to_nat ((i - addr) / 8)) (block CMDMaskData s) 0))
    by (apply rd_nth; rewrite (wf_size s Hwf); done). cbn [obind].
  fold (nbit epc i). fold (nbit (block CMDMaskData s) (i - addr)).
  destruct (nbit epc i =? nbit (block CMDMaskData s) (i - addr)); cbn [negb andb]; [|done].
  pose proof (div_mod_succ (i - addr) ltac:(lia)) as Hd.
  replace (i - addr + 1) with (Z.max 0 (i + 1 - addr)) in Hd by lia.
  destruct ((i - addr) mod 8 + 1 >? 7); injection Hd as Hd1 Hd2;
    specialize (Hnext _ eq_refl); by rewrite <- Hd1, <- Hd2 in Hnext.
Qed.

Lemma MaskCheck_run b o epc s :
  wf s -> rdn (block b s) o (blen epc) = Some epc -> blen epc <= 31 ->
  let addr := get CMDMaskaddr s in let ml := get CMDMasklen s in
  0 <= addr -> 0 <= ml ->
  MaskCheck (At b o) (blen epc) s =
  Ret (if ml =? 0 then 1 else if 8 * blen epc <=? addr then 0
       else if mask_ok epc (block CMDMaskData s) addr 0 (Z.to_nat (Z.min (addr + ml) (8 * blen epc)))
       then 1 else 0, s).
Proof using Type.
  intros Hwf Hepc Hle addr ml Ha Hml. unfold MaskCheck. rewrite bind_run, getv_run. cbn [obind].
  fold ml. destruct (Z.eqb_spec ml 0) as [Hz|Hz]; [done|].
  rewrite bind_run, getv_run. cbn [obind]. fold addr. cbv zeta.
  replace (if addr + ml >? blen epc * 8 then blen epc * 8 else addr + ml)
    with (Z.min (addr + ml) (8 * blen epc))
    by (rewrite Z.gtb_ltb; destruct (Z.ltb_spec (blen epc * 8) (addr + ml)); lia).
  rewrite (Z.mul_comm (blen epc) 8). destruct (Z.leb_spec (8 * blen epc) addr) as [Hout|Hin]; [done|].
  pose proof (blen_nonneg epc).
  assert (E := mask_loop_run b o epc addr (Z.to_nat (Z.min (addr + ml) (8 * blen epc))) 0 s
                 Hwf Hepc ltac:(lia) Ha ltac:(lia) ltac:(lia)).
  cbv zeta in E. replace (Z.max 0 (0 - addr)) with 0 in E by lia. exact E.
Qed.

(** C37: [MaskCheck] accepts a tag exactly when the mask lies at
    least partly inside its EPC and every mask bit that does agrees with the
    EPC bit [CMDMaskaddr] further on; an empty mask accepts every tag. *)
Theorem MaskCheck_spec b o epc s :
  wf s -> rdn (block b s) o (blen epc) = Some epc -> blen epc <= 31 ->
  let addr := get CMDMaskaddr s in let ml := get CMDMasklen s in
  0 <= addr -> 0 <= ml ->
  exists r, MaskCheck (At b o) (blen epc) s = Ret (r, s) /\ (r = 0 \/ r = 1) /\
    (r = 1 <-> ml = 0 \/ addr < 8 * blen epc /\
       forall k, 0 <= k < ml -> addr + k < 8 * blen epc ->
         nbit epc (addr + k) = nbit (block CMDMaskData s) k).
Proof using Type.
  intros Hwf Hepc Hle addr ml Ha Hml. pose proof (blen_nonneg epc).
  eexists. split; [by apply MaskCheck_run|]. fold addr ml.
  destruct (Z.eqb_spec ml 0) as [Hz|Hz]; [split; [auto|tauto]|].
  destruct (Z.leb_spec (8 * blen epc) addr) as [Hout|Hin].
  { split; [auto|]. split; [done|]. intros [|[]]; lia. }
  assert (Hs := mask_ok_spec epc (block CMDMaskData s) addr 0
                  (Z.to_nat (Z.min (addr + ml) (8 * blen epc)))).
  rewrite Z2Nat.id in Hs by lia.
  destruct (mask_ok _ _ _ _ _); (split; [auto|]).
  - split; [|done]. intros _. right. split; [lia|]. intros k Hk Hb.
    rewrite (proj1 Hs eq_refl (addr + k)) by lia. f_equal. lia.
  - split; [done|]. intros [|[_ Hk]]; [done|]. exfalso.
    assert (false = true); [|done]. apply Hs. intros k Hk1 Hk2.
    rewrite <- Hk by lia. f_equal. lia.
Qed.

(** ** The 6B selection *)

(** The pairs of bytes the selection compares, in order: identifier byte
    [addr + t] with selection byte [t], where bit [7 - t] of the mask is set. *)
Fixpoint sel_pairs (id sel : bytes) (addr mask : Z) (n : nat) (t : Z) : list (Z * Z) :=
  match n with
  | O => []
  | S n =>
      if Z.testbit mask (7 - t)
      then (nth (Z.to_nat (addr + t)) id 0, nth (Z.to_nat t) sel 0) :: sel_pairs id sel addr mask n (t + 1)
      else sel_pairs id sel addr mask n (t + 1)
  end.

(** 0 equal, 1 not equal, 2 greater, 3 less: the first pair that differs decides. *)
Definition selected (msel : Z) (l : list (Z * Z)) : bool :=
  match list_find (fun p => fst p ≠ snd p) l with
  | None => msel =? 0
  | Some (_, (x, y)) =>
      (msel =? 1) || ((msel =? 2) && (y <? x)) || ((msel =? 3) && (x <? y))
  end.

Lemma selected_cons_ne msel x y l :
  x ≠ y -> selected msel ((x, y) :: l) = (msel =? 1) || ((msel =? 2) && (y <? x)) || ((msel =? 3) && (x <? y)).
Proof using Type. intros Hne. unfold selected. cbn [list_find]. by rewrite decide_True. Qed.
Lemma selected_cons_eq msel x l : selected msel ((x, x) :: l) = selected msel l.
Proof using Type.
  unfold selected. cbn [list_find]. rewrite decide_False by (cbn; tauto).
  by destruct (list_find _ l) as [[j [a c]]|].
Qed.

Lemma land_bit_neq a i : 0 <= i -> negb (Z.land a (Z.shiftl 1 i) =? 0) = Z.testbit a i.
Proof using Type.
  intros Hi. assert (Hl := Ds1302.land_bit a i Hi).
  destruct (Z.land a (Z.shiftl 1 i) =? 0), (Z.testbit a i); simpl in *; congruence.
Qed.

Lemma mask6B_tail b o id addr mask msel n t s :
  wf s -> rdn (block b s) o 8 = Some id -> 0 <= addr -> 0 <= t -> 0 <= msel <= 3 ->
  addr + t + Z.of_nat n = 8 -> (0 < n)%nat ->
  exists r, mask6B_loop (At b o) addr mask msel n (addr + t) t s = Ret (r, s) /\
    match r with inr v => v | inl _ => if msel =? 0 then 1 else 0 end =
    if selected msel (sel_pairs id (block MASKData6B s) addr mask n t) then 1 else 0.
Proof using Type.
  intros Hwf Hid Ha. revert t. induction n as [|n IH]; intros t Ht Hm Hn Hpos; [lia|].
  cbn [mask6B_loop sel_pairs]. rewrite Z.geb_leb. destruct (Z.leb_spec addr (addr + t)); [|lia].
  rewrite land_bit_neq by lia.
  assert (Hnext : exists r, (if t + 1 >? 7 then mret (inl tt)
             else mask6B_loop (At b o) addr mask msel n (addr + t + 1) (t + 1)) s = Ret (r, s) /\
    match r with inr v => v | inl _ => if msel =? 0 then 1 else 0 end =
    if selected msel (sel_pairs id (block MASKData6B s) addr mask n (t + 1)) then 1 else 0).
  { rewrite Z.gtb_ltb. destruct n as [|n].
    - exists (inl tt). split; [by destruct (Z.ltb_spec 7 (t + 1))|]. done.
    - destruct (Z.ltb_spec 7 (t + 1)); [lia|]. rewrite <- Z.add_assoc. apply IH; lia. }
  destruct (Z.testbit mask (7 - t)); [|exact Hnext].
  assert (Hx : rd (block b s) (o + (addr + t)) = Some (nth (Z.to_nat (addr + t)) id 0)).
  { rewrite <- (rd_rdn _ _ _ _ _ Hid) by lia. apply rd_nth. rewrite (rdn_blen _ _ _ _ Hid). lia. }
  rewrite bind_run. change (ldp (At b o) (addr + t) s) with (ld8 b (o + (addr + t)) s).
  rewrite (ld8_run _ _ _ _ Hx). cbn [obind].
  rewrite bind_run, (ld8_run MASKData6B _ _ (nth (Z.to_nat t) (block MASKData6B s) 0))
    by (apply rd_nth; rewrite (wf_size s Hwf); cbn; lia). cbn [obind].
  set (x := nth (Z.to_nat (addr + t)) id 0). set (y := nth (Z.to_nat t) (block MASKData6B s) 0).
  unfold switch. cbn [existsb]. rewrite !orb_false_r.
  destruct (Z.eq_dec x y) as [Hxy|Hxy].
  - rewrite Hxy, selected_cons_eq, Z.eqb_refl, !Z.gtb_ltb, Z.ltb_irrefl. cbn [negb].
    revert Hnext. rewrite !Z.gtb_ltb.
    by destruct (msel =? 0), (msel =? 1), (msel =? 2), (msel =? 3).
  - rewrite selected_cons_ne by done. rewrite (proj2 (Z.eqb_neq x y) Hxy), (Z.gtb_ltb x y). cbn [negb].
    assert (Hs : msel = 0 \/ msel = 1 \/ msel = 2 \/ msel = 3) by lia.
    destruct Hs as [->|[->|[->| ->]]]; cbn [Z.eqb Pos.eqb orb andb].
    + exists (inr 0). done.
    + exists (inr 1). done.
    + destruct (Z.ltb_spec x y), (Z.ltb_spec y x); try lia;
        [exists (inr 0)|exists (inr 1)]; done.
    + destruct (Z.ltb_spec y x), (Z.ltb_spec x y); try lia;
        [exists (inr 0)|exists (inr 1)]; done.
Qed.

Lemma mask6B_skip b o addr mask msel n k s :
  0 <= k -> k + Z.of_nat n <= addr ->
  forall m, mask6B_loop (At b o) addr mask msel (n + m) k 0 s =
            mask6B_loop (At b o) addr mask msel m (k + Z.of_nat n) 0 s.
Proof using Type.
  revert k. induction n as [|n IH]; intros k Hk Hn m; [by rewrite Z.add_0_r|].
  cbn [mask6B_loop plus]. rewrite Z.geb_leb. destruct (Z.leb_spec addr k); [lia|].
  rewrite IH by lia. f_equal. lia.
Qed.

(** [Mask6BCheck] compares the bytes of a 6B identifier
    from [MASKAddr6B] on with the selection's, where the mask has a bit, and
    the first that differ decide: none for [MASKSEL] 0, some for 1, a greater
    one for 2, a smaller one for 3. *)
Theorem Mask6BCheck_spec b o id s :
  wf s -> rdn (block b s) o 8 = Some id ->
  let addr := get MASKAddr6B s in let mask := get MASK6B s in let msel := get MASKSEL s in
  0 <= addr <= 8 -> mask ≠ 0 -> 0 <= msel <= 3 ->
  Mask6BCheck (At b o) s =
  Ret (if selected msel (sel_pairs id (block MASKData6B s) addr mask (Z.to_nat (8 - addr)) 0) then 1 else 0, s).
Proof using Type.
  intros Hwf Hid addr mask msel Ha Hmask Hsel. unfold Mask6BCheck.
  rewrite bind_run, getv_run. cbn [obind]. fold mask. rewrite (proj2 (Z.eqb_neq mask 0) Hmask).
  rewrite bind_run, getv_run. cbn [obind]. fold addr.
  rewrite bind_run, getv_run. cbn [obind]. fold msel. rewrite bind_run.
  replace 8%nat with (Z.to_nat addr + Z.to_nat (8 - addr))%nat by lia.
  rewrite mask6B_skip by lia. rewrite Z2Nat.id, Z.add_0_l by lia.
  destruct (decide (addr = 8)) as [Hz|Hlt].
  - rewrite Hz. change (Z.to_nat (8 - 8)) with 0%nat. done.
  - destruct (mask6B_tail b o id addr mask msel (Z.to_nat (8 - addr)) 0 s) as (r & E & Hr);
      try done; [lia|lia|lia|].
    rewrite Z.add_0_r in E. rewrite E. cbn [obind]. rewrite <- Hr. by destruct r.
Qed.

(** ** Storing a tag *)

Definition masks_ok (s : fw) : Prop :=
  0 <= get CMDMaskaddr s /\ 0 <= get CMDMasklen s /\ 0 <= get MASKAddr6B s.

(** Row [p] of [CardIndex] is the next to be filled. *)
Definition row_inv (p : Z) (s : fw) : Prop := wf s /\ get CardPos s = p /\ masks_ok s.

Lemma row_inv_put p x v s :
  x ∉ [CardPos; CMDMaskaddr; CMDMasklen; MASKAddr6B] -> row_inv p s -> row_inv p (put x v s).
Proof using Type.
  intros Hx (Hwf & Hp & H1 & H2 & H3).
  repeat (apply not_elem_of_cons in Hx as [? Hx]).
  split; [by apply wf_put|]. unfold masks_ok. by mget.
Qed.
Lemma row_inv_block p b m s :
  blen m = bsize b -> bytes_ok m -> row_inv p s -> row_inv p (set_block b m s).
Proof using Type. intros Hl Hb (Hwf & Hp & Hm). split; [by apply wf_set_block|]. done. Qed.

Lemma row_putv p x v : x ∉ [CardPos; CMDMaskaddr; CMDMasklen; MASKAddr6B] -> keeps (row_inv p) (putv x v).
Proof using Type. intros Hx. apply keeps_putv. intros s. by apply row_inv_put. Qed.

Lemma row_st8 p b o v : 0 <= o < bsize b -> keeps (row_inv p) (st8 b o v).
Proof using Type.
  intros Ho s Hs. destruct Hs as (Hwf & Hp & Hm).
  destruct (st8_wf b o v s Hwf Ho) as (m & Hw & -> & Hwf'). split; [done|]. done.
Qed.
Lemma row_ld8 {A} p b o (k : Z -> M A) :
  0 <= o < bsize b -> (forall v, 0 <= v < 256 -> keeps (row_inv p) (k v)) ->
  keeps (row_inv p) (ld8 b o ≫= k).
Proof using Type. intros Ho Hk. apply keeps_ld8_bind; [by intros s []|done..]. Qed.

Lemma row_card_set p k v :
  0 <= p < MAXNUM -> 0 <= k < ROW -> keeps (row_inv p) (card_set k v).
Proof using Type.
  intros Hp Hk s Hs. unfold card_set. rewrite bind_run, getv_run. cbn [obind].
  destruct Hs as (Hwf & Hq & Hm). rewrite Hq.
  apply (row_st8 p); [|split; done]. unfold MAXNUM, ROW in *. cbn. unfold MAXNUM, ROW. lia.
Qed.

Lemma row_card_copy p o n :
  0 <= p < MAXNUM -> 0 <= n <= 30 -> - R_para <= o -> o + n <= 259 -> keeps (row_inv p) (card_copy o n).
Proof using Type.
  intros Hp Hn Ho Hl s Hs. unfold card_copy. rewrite bind_run, getv_run. cbn [obind].
  destruct Hs as (Hwf & Hq & Hm). rewrite Hq. unfold R_para in *.
  pose proof (wf_size s Hwf R2000_rec) as Hsz. cbn in Hsz. unfold SBUF_size in Hsz.
  destruct (rdn (block R2000_rec s) (4 + o) n) as [bs|] eqn:E; [|rewrite rdn_in in E by lia; discriminate].
  rewrite bind_run, (ldn_run _ _ _ _ _ E). cbn [obind].
  destruct (stn_wf CardIndex (p * ROW + 1) bs s Hwf) as (m & Hw & -> & Hwf').
  - eapply rdn_ok, E. by apply wf_bytes.
  - unfold ROW. lia.
  - rewrite (rdn_blen _ _ _ _ E). unfold MAXNUM, ROW in *. cbn. unfold MAXNUM, ROW. lia.
  - split; [done|]. done.
Qed.

Lemma row_para {A} p i (k : Z -> M A) :
  - R_para <= i < 259 -> (forall v, 0 <= v < 256 -> keeps (row_inv p) (k v)) ->
  keeps (row_inv p) (para i ≫= k).
Proof using Type.
  intros Hi Hk. apply row_ld8; [|done]. unfold R_para in *. cbn. unfold SBUF_size. lia.
Qed.

(** The state after a tag may have been stored: at most [MAXNUM] rows used. *)
Definition rows_ok (s : fw) : Prop := wf s /\ 0 <= get CardPos s <= MAXNUM /\ masks_ok s.

Lemma row_rows p s : 0 <= p <= MAXNUM -> row_inv p s -> rows_ok s.
Proof using Type. intros Hp (Hwf & <- & Hm). done. Qed.

Lemma card_next_rows p full :
  0 <= p < MAXNUM -> triple (row_inv p) (card_next full) (fun _ => rows_ok).
Proof using Type.
  intros Hp s (Hwf & Hq & Hm). unfold card_next. mrun. rewrite Hq. mget.
  unfold MAXNUM in *. rewrite u32_small by lia. rewrite Z.gtb_ltb.
  destruct (Z.ltb_spec 500 (p + 1)); [lia|]. cbn [when]. mrun.
  split; [by apply wf_put|]. unfold masks_ok in *. by mget; unfold MAXNUM; lia.
Qed.

(** Sequencing for the triples of one tag. *)
Lemma row_seq {A} p (m : M unit) (k : M A) Q :
  keeps (row_inv p) m -> triple (row_inv p) k Q -> triple (row_inv p) (m;; k) Q.
Proof using Type. intros Hm Hk. eapply triple_bind; [exact Hm|]. intros []. exact Hk. Qed.
Lemma row_seq_ld8 {A} p b o (k : Z -> M A) Q :
  0 <= o < bsize b -> (forall v, 0 <= v < 256 -> triple (row_inv p) (k v) Q) ->
  triple (row_inv p) (ld8 b o ≫= k) Q.
Proof using Type.
  intros Ho Hk. eapply triple_bind; [apply (keeps_ld8 (row_inv p)); [by intros s []|done]|].
  intros v s [Hs Hv]. by apply (Hk v Hv).
Qed.
Lemma row_seq_para {A} p i (k : Z -> M A) Q :
  - R_para <= i < 259 -> (forall v, 0 <= v < 256 -> triple (row_inv p) (k v) Q) ->
  triple (row_inv p) (para i ≫= k) Q.
Proof using Type.
  intros Hi Hk. apply row_seq_ld8; [|done]. unfold R_para in *. cbn. unfold SBUF_size. lia.
Qed.
Lemma row_seq_getv {A} p x (k : Z -> M A) Q :
  (forall v, triple (row_inv p) (k v) Q) -> triple (row_inv p) (getv x ≫= k) Q.
Proof using Type. intros Hk. eapply triple_bind; [apply keeps_getv|]. intros v. apply Hk. Qed.

Lemma row_beep p : keeps (row_inv p) beep_more.
Proof using Type. apply keeps_bind; [apply keeps_getv|]. intros b. apply row_putv. by apply (bool_decide_unpack _). Qed.

Lemma row_card_time p : 0 <= p < MAXNUM -> keeps (row_inv p) card_time.
Proof using Type.
  intros Hp. unfold card_time, TAGIDLENGTH, off_ReaderTime.
  do 3 (apply row_ld8; [done|]; intros ? _).
  repeat (apply keeps_bind; [apply row_card_set; done|intros []]). by apply row_card_set.
Qed.

Lemma rows_st {A} (m : M A) : (forall s, rows_ok s -> exists a s', m s = Ret (a, s') /\ rows_ok s') -> keeps rows_ok m.
Proof using Type. intros Hm s Hs. by destruct (Hm s Hs) as (a & s' & -> & Hs'). Qed.

Lemma rows_putv x v :
  x ∉ [CardPos; CMDMaskaddr; CMDMasklen; MASKAddr6B] -> keeps rows_ok (putv x v).
Proof using Type.
  intros Hx. apply keeps_putv. intros s (Hwf & Hp & H1 & H2 & H3).
  repeat (apply not_elem_of_cons in Hx as [? Hx]).
  split; [by apply wf_put|]. unfold masks_ok. by mget.
Qed.
Ltac not_row := by apply (bool_decide_unpack _).

Lemma rows_relay : keeps rows_ok relay_follow.
Proof using Type.
  unfold relay_follow. apply keeps_ld8_bind; [by intros s []|done|]. intros st _.
  apply keeps_when, keeps_ld8_bind; [by intros s []|done|]. intros r _.
  apply keeps_when, rows_putv. not_row.
Qed.
Lemma rows_count : keeps rows_ok count_91.
Proof using Type. apply keeps_bind; [apply keeps_getv|]. intros n. apply rows_putv. not_row. Qed.

(** The end of every tag: the next row, then the relay. *)
Lemma row_finish p :
  0 <= p < MAXNUM -> triple (row_inv p) (card_next all_read;; relay_follow) (fun _ => rows_ok).
Proof using Type.
  intros Hp. eapply triple_bind; [by apply card_next_rows|]. intros []. apply rows_relay.
Qed.
Lemma row_done p : 0 <= p <= MAXNUM -> triple (row_inv p) (mret tt) (fun _ => rows_ok).
Proof using Type. intros Hp. apply triple_ret. intros s. by apply row_rows. Qed.

Ltac rows Hp :=
  repeat first
    [ apply row_seq; [first [ apply row_beep | apply row_card_time; exact Hp
                            | apply row_card_set; [exact Hp|cbn; done]
                            | apply row_card_copy; [exact Hp|lia..|unfold R_para; lia|lia]
                            | apply row_putv; not_row ]|]
    | apply row_seq_para; [unfold R_para; lia|]; intros ? ?
    | lazymatch goal with |- triple _ (getv _ ≫= _) _ => apply row_seq_getv; intros ? end ].

Lemma decode_81_safe p len :
  0 <= p < MAXNUM -> 14 <= len < 256 -> triple (row_inv p) (decode_81 len) (fun _ => rows_ok).
Proof using Type.
  intros Hp Hl. unfold decode_81. destruct (len >? 4); [|apply row_done; lia]. cbn [when]. 
  apply row_seq_para; [unfold R_para; lia|]. intros x Hx. cbv zeta.
  destruct (Z.eqb_spec (Z.shiftr x 1) 6) as [->|]; [|apply row_done; lia]. cbn [when].
  rows Hp. by apply row_finish.
Qed.

Lemma decode_8A_safe p len :
  0 <= p < MAXNUM -> 0 <= len < 256 -> triple (row_inv p) (decode_8A len) (fun _ => rows_ok).
Proof using Type.
  intros Hp Hl. unfold decode_8A. destruct (len =? 5); [apply row_done; lia|]. cbv zeta.
  destruct (len =? 10).
  - rows Hp. unfold when. destruct (_ =? 0); [|apply row_done; lia].
    eapply triple_conseq; [apply (row_putv p); not_row|done|]. intros [] s. apply row_rows; lia.
  - pose proof (u8_range (Z.shiftr (len - 7) 1)). set (e := u8 (Z.shiftr (len - 7) 1)) in *.
    destruct ((len >? 4) && (e <=? 15)) eqn:Hc; [|apply row_done; lia]. cbn [when].
    apply andb_true_iff in Hc as [_ He]. apply Z.leb_le in He. rows Hp.
    eapply triple_conseq; [by apply card_next_rows|done|done].
Qed.

Lemma MaskCheck_row p o n :
  0 <= o -> 0 <= n <= 31 -> o + n <= SBUF_size ->
  keeps (row_inv p) (MaskCheck (At R2000_rec o) n).
Proof using Type.
  intros Ho Hn Hl s Hs. assert (Hs' := Hs). destruct Hs' as (Hwf & _ & Ha & Hml & _).
  pose proof (wf_size s Hwf R2000_rec) as Hsz.
  destruct (rdn (block R2000_rec s) o n) as [epc|] eqn:E;
    [|rewrite rdn_in in E by (cbn in Hsz; unfold SBUF_size in *; lia); discriminate].
  pose proof (rdn_blen _ _ _ _ E) as Hb. rewrite <- Hb in E |- *.
  rewrite (MaskCheck_run R2000_rec o epc s Hwf E); done || lia.
Qed.

Lemma mask6B_row p addr mask sel n i tj :
  0 <= tj <= i -> i + Z.of_nat n <= 8 ->
  keeps (row_inv p) (mask6B_loop (At R2000_rec (R_para + 1)) addr mask sel n i tj).
Proof using Type.
  revert i tj. induction n as [|n IH]; intros i tj Htj Hn; cbn [mask6B_loop]; [apply keeps_ret|].
  destruct (i >=? addr); [|apply IH; lia]. cbv zeta.
  assert (Hnext : keeps (row_inv p) (if tj + 1 >? 7 then mret (inl tt)
     else mask6B_loop (At R2000_rec (R_para + 1)) addr mask sel n (i + 1) (tj + 1))).
  { destruct (tj + 1 >? 7); [apply keeps_ret|]. apply IH; lia. }
  destruct (negb _); [|exact Hnext].
  apply (row_ld8 p R2000_rec (R_para + 1 + i)); [unfold R_para; cbn; unfold SBUF_size; lia|]. intros x Hx.
  apply row_ld8; [cbn; lia|]. intros y Hy.
  apply (switch_ind (keeps (row_inv p))); [|exact Hnext].
  repeat constructor; cbn [snd];
    repeat match goal with |- keeps _ (if ?c then _ else _) => destruct c end;
    exact Hnext || apply keeps_ret.
Qed.

Lemma Mask6BCheck_row p : keeps (row_inv p) (Mask6BCheck (At R2000_rec (R_para + 1))).
Proof using Type.
  unfold Mask6BCheck. apply keeps_bind; [apply keeps_getv|]. intros m.
  destruct (m =? 0); [apply keeps_ret|]. apply keeps_bind; [apply keeps_getv|]. intros a.
  apply keeps_bind; [apply keeps_getv|]. intros sel.
  apply keeps_bind; [by apply mask6B_row|]. intros [[]|v]; apply keeps_ret.
Qed.

(** A tag that passed its filter, or not, and then the count. *)
Lemma tag_and_count p (c : bool) (m : M unit) :
  0 <= p <= MAXNUM -> (c = true -> triple (row_inv p) m (fun _ => rows_ok)) ->
  triple (row_inv p) (when c m;; count_91) (fun _ => rows_ok).
Proof using Type.
  intros Hp Hm. eapply (triple_bind _ (fun _ => rows_ok)); [|intros []; apply rows_count].
  destruct c; [by apply Hm|by apply row_done].
Qed.

Lemma decode_91_safe p len :
  0 <= p < MAXNUM -> triple (row_inv p) (decode_91 len) (fun _ => rows_ok).
Proof using Type.
  intros Hp. unfold decode_91. destruct (len >? 4); [|apply row_done; lia]. cbn [when].
  apply row_seq_para; [unfold R_para; lia|]. intros x Hx. cbv zeta.
  pose proof (u8_range (Z.shiftr x 1 - 2)). set (e := u8 (Z.shiftr x 1 - 2)) in *.
  apply tag_and_count; [lia|]. intros He%Z.leb_le.
  eapply triple_bind; [apply (MaskCheck_row p); unfold R_para, SBUF_size; rewrite ?u8_small by lia; lia|].
  intros r. destruct (negb (r =? 0)); [|apply row_done; lia]. cbn [when].
  rows Hp. by apply row_finish.
Qed.

Lemma decode_B0_safe p len :
  0 <= p < MAXNUM -> triple (row_inv p) (decode_B0 len) (fun _ => rows_ok).
Proof using Type.
  intros Hp. unfold decode_B0. destruct (len >? 5).
  - eapply triple_bind; [apply Mask6BCheck_row|]. intros r. cbv beta. apply tag_and_count; [lia|]. intros _.
    rows Hp. by apply row_finish.
  - destruct (len =? 5); [rows Hp|destruct (len =? 4); [|apply row_done; lia]; cbn [when]];
      (eapply triple_conseq; [apply (row_putv p); not_row|done|]; intros [] s; apply row_rows; lia).
Qed.

(** C2: while fewer than [MAXNUM] tags are stored, no report of the
    module -- of any command and length, the length of an access answer
    ([0x81]) being at least 14 -- takes [decodeR2000] out of its arrays, and
    at most [MAXNUM] rows are in use after it. *)
Theorem decode_safe p s :
  0 <= p < MAXNUM -> row_inv p s ->
  (rd (block R2000_rec s) R_cmd = Some 0x81 ->
   exists len, rd (block R2000_rec s) R_len = Some len /\ 14 <= len) ->
  match decodeR2000 s with
  | Ret (_, s') => rows_ok s' | Oob => False | _ => True
  end.
Proof using Type.
  intros Hp Hs H81. destruct (Hs) as (Hwf & _ & _).
  destruct (rd_in (block R2000_rec s) R_len) as [len Hlen]; [by rewrite (wf_size s Hwf)|].
  destruct (rd_in (block R2000_rec s) R_cmd) as [cmd Hcmd]; [by rewrite (wf_size s Hwf)|].
  pose proof (rd_ok _ _ _ (wf_bytes s Hwf R2000_rec) Hlen) as Hl.
  unfold decodeR2000. rewrite bind_run, (ld8_run _ _ _ _ Hlen). cbn [obind].
  rewrite bind_run, (ld8_run _ _ _ _ Hcmd). cbn [obind].
  lazymatch goal with |- match ?m s with _ => _ end =>
    cut (triple (row_inv p) m (fun _ => rows_ok)); [intros Ht; exact (Ht s Hs)|] end.
  unfold switch. cbn [existsb]. rewrite !orb_false_r.
  destruct (cmd =? 0x70).
  { unfold decode_70. rows Hp. eapply triple_conseq; [apply (row_putv p); not_row|done|].
    intros [] s'. apply row_rows; lia. }
  destruct (Z.eqb_spec cmd 0x81) as [->|_].
  { apply decode_81_safe; [done|]. destruct (H81 Hcmd) as (l & Hl2 & H14).
    assert (l = len) as -> by congruence. lia. }
  destruct (cmd =? 0x8A); [by apply decode_8A_safe|].
  destruct (cmd =? 0x91); [by apply decode_91_safe|].
  destruct (_ || _); [apply row_done; lia|].
  destruct (cmd =? 0xB0); [by apply decode_B0_safe|]. apply row_done; lia.
Qed.

(** ** A tag of the fast inventory (0x8A) *)

(** The frame in [R2000_rec] reports a tag of [e] words. *)
Definition tag_report (len e : Z) (s : fw) : Prop :=
  rd (block R2000_rec s) R_len = Some len /\ rd (block R2000_rec s) R_cmd = Some 0x8A /\
  len ≠ 5 /\ len ≠ 10 /\ 4 < len < 256 /\ e = u8 (Z.shiftr (len - 7) 1) /\ e <= 15.

Lemma decode_tag_report len e s :
  tag_report len e s ->
  decodeR2000 s =
  (beep_more;;
   card_set 0 e;;
   card_copy 3 (e * 2);;
   a ← para 0;
   card_set (TAGIDLENGTH + 6 + 0) (Z.land a 0x03 + 1);;
   r ← para (e * 2 + 3);
   card_set (TAGIDLENGTH + 6 + 1) r;;
   card_next (mret tt)) s.
Proof using Type.
  intros (Hl & Hc & H5 & H10 & H4 & He & H15). unfold decodeR2000.
  rewrite bind_run, (ld8_run _ _ _ _ Hl). cbn [obind].
  rewrite bind_run, (ld8_run _ _ _ _ Hc). cbn [obind]. unfold switch. cbn [existsb Z.eqb Pos.eqb orb].
  cbv iota. unfold decode_8A. rewrite (proj2 (Z.eqb_neq len 5) H5), (proj2 (Z.eqb_neq len 10) H10).
  rewrite <- He. cbv zeta. rewrite Z.gtb_ltb, (proj2 (Z.ltb_lt 4 len)) by lia.
  by rewrite (proj2 (Z.leb_le e 15)) by lia.
Qed.

Lemma tag_row_run len e p s :
  row_inv p s -> 0 <= p < MAXNUM -> tag_report len e s ->
  exists s', decodeR2000 s = Ret (tt, s') /\ wf s' /\ get CardPos s' = p + 1 /\ masks_ok s' /\
    let rec_ := block R2000_rec s in let row k := rd (block CardIndex s') (p * ROW + k) in
    row 0 = Some e /\
    rdn (block CardIndex s') (p * ROW + 1) (2 * e) = rdn rec_ (R_para + 3) (2 * e) /\
    row 37 = (fun a => Z.land a 3 + 1) <$> rd rec_ R_para /\
    row 38 = rd rec_ (R_para + (2 * e + 3)) /\
    forall o, o < p * ROW \/ (p + 1) * ROW <= o -> rd (block CardIndex s') o = rd (block CardIndex s) o.
Proof using Type.
  intros (Hwf & Hp & Hm) Hpr Htag. rewrite (decode_tag_report _ _ _ Htag).
  destruct Htag as (_ & _ & _ & _ & _ & He & H15). pose proof (u8_range (Z.shiftr (len - 7) 1)).
  unfold MAXNUM, ROW, R_para in *. assert (He0 : 0 <= e) by lia.
  unfold beep_more. mrun. set (s1 := put beepFlag _ s). assert (Hwf1 : wf s1) by by apply wf_put.
  assert (Hb1 : forall b, block b s1 = block b s) by done.
  assert (Hp1 : get CardPos s1 = p) by (unfold s1; by mget).
  assert (Hm1 : masks_ok s1) by (unfold masks_ok, s1 in *; by mget). clearbody s1.
  pose proof (wf_size s Hwf R2000_rec) as Hsz. cbn in Hsz. unfold SBUF_size in Hsz.
  pose proof (wf_bytes s Hwf R2000_rec) as Hrok.
  destruct (rdn (block R2000_rec s) (4 + 3) (e * 2)) as [epc|] eqn:Hepc;
    [|rewrite rdn_in in Hepc by lia; discriminate].
  destruct (rd_in (block R2000_rec s) (4 + 0)) as [a Ha]; [lia|].
  destruct (rd_in (block R2000_rec s) (4 + (e * 2 + 3))) as [r Hr]; [lia|].
  assert (Hepok : bytes_ok epc) by by eapply rdn_ok.
  pose proof (rdn_blen _ _ _ _ Hepc) as Hepl. pose proof (rd_ok _ _ _ Hrok Ha).
  pose proof (rd_ok _ _ _ Hrok Hr). pose proof (land_range a 3 ltac:(lia) ltac:(lia)).
  assert (Hci : bsize CardIndex = 19500) by done.
  unfold card_set, card_copy, para, TAGIDLENGTH, R_para, ROW. mrun. rewrite Hp1.
  store Hwf1 Hw1. mrun. mget. rewrite Hp1.
  rewrite (ldn_run _ _ _ _ epc) by (mget; by rewrite Hb1). cbn [obind].
  storen Hwf1 Hw2. mrun. rewrite (ld8_run _ _ _ a) by (mget; by rewrite Hb1). cbn [obind]. mrun.
  mget. rewrite Hp1. store Hwf1 Hw3. mrun.
  rewrite (ld8_run _ _ _ r) by (mget; by rewrite Hb1). cbn [obind]. mrun. mget. rewrite Hp1.
  store Hwf1 Hw4. unfold card_next. mrun. mget. rewrite Hp1, u32_small, Z.gtb_ltb by lia.
  destruct (Z.ltb_spec MAXNUM (p + 1)); [unfold MAXNUM in *; lia|]. cbn [when]. mrun.
  eexists. split; [done|]. split; [by apply wf_put|]. split; [by mget|].
  split; [by unfold masks_ok in *; mget|]. cbv zeta. mget.
  rewrite Hb1 in Hw1. pose proof (blen_nonneg epc).
  split_and!.
  - rdwr. rewrite (rd_wrn_out _ _ _ _ _ Hw2) by lia. rdwr. by rewrite u8_small by lia.
  - rewrite (rdn_wr_out _ _ _ _ _ _ Hw4), (rdn_wr_out _ _ _ _ _ _ Hw3) by lia.
    rewrite (Z.mul_comm 2 e), Hepc, <- Hepl. by apply rdn_wrn_same in Hw2.
  - rdwr. change (4 + 0) with 4 in Ha. rewrite Ha. cbn. f_equal. apply u8_small.
    change 3 with (Z.ones 2). rewrite Z.land_ones by lia. pose proof (Z.mod_pos_bound a (2 ^ 2)). lia.
  - rdwr. rewrite (Z.mul_comm 2 e), Hr. by rewrite u8_small by lia.
  - intros o Ho. rdwr. rewrite (rd_wrn_out _ _ _ _ _ Hw2) by lia. rdwr. done.
Qed.



(** *** More tags than rows *)

(** A report of a tag, as the receiver leaves it in [R2000_rec]. *)
Definition tag_frame (r : bytes) : Prop :=
  blen r = bsize R2000_rec /\ bytes_ok r /\
  exists len e, forall s, tag_report len e (set_block R2000_rec r s).

(** The reports of one inventory, each decoded before the next arrives. *)
Fixpoint reports (rs : list bytes) : M unit :=
  match rs with
  | [] => mret tt
  | r :: rs => (fun s => decodeR2000 (set_block R2000_rec r s));; reports rs
  end.

Lemma tag_past_table len e s :
  wf s -> get CardPos s = MAXNUM -> tag_report len e s -> decodeR2000 s = Oob.
Proof using Type.
  intros Hwf Hp Htag. rewrite (decode_tag_report _ _ _ Htag). unfold beep_more. mrun.
  unfold card_set at 1. mrun. mget. rewrite Hp. unfold st8. mget.
  destruct (wr (block CardIndex s) (MAXNUM * ROW + 0) e) as [m|] eqn:Hw; [|done].
  apply wr_Some in Hw as [Hr _]. rewrite (wf_size s Hwf) in Hr. cbn in Hr. lia.
Qed.

Lemma row_inv_frame p r s : tag_frame r -> row_inv p s -> row_inv p (set_block R2000_rec r s).
Proof using Type. intros (Hl & Hb & _) (Hwf & Hp & Hm). split; [by apply wf_set_block|]. unfold masks_ok in *. by mget. Qed.

(** C40: the check after a tag ([CardPos > MAXNUM]) comes one tag
    late.  However many reports of tags arrive one after another in answer to the
    command 0x8A, each in a frame of its own: as long as they fit the rows from
    [CardPos] on, they are all stored and [CardPos] counts them, up to [MAXNUM]
    itself; with one more, the decoder writes past the end of [CardIndex]. *)
Theorem tag_table_overflow rs p s :
  row_inv p s -> 0 <= p <= MAXNUM -> Forall tag_frame rs ->
  if p + Z.of_nat (length rs) <=? MAXNUM
  then exists s', reports rs s = Ret (tt, s') /\ get CardPos s' = p + Z.of_nat (length rs)
  else reports rs s = Oob.
Proof using Type.
  intros Hs Hp Hrs. revert p s Hs Hp. induction Hrs as [|r rs Hr Hrs IH]; intros p s Hs Hp; cbn [reports length].
  { destruct (Z.leb_spec (p + Z.of_nat 0) MAXNUM); [|lia]. exists s. split; [done|]. destruct Hs as (_ & -> & _). lia. }
  pose proof (row_inv_frame p r s Hr Hs) as Hs1. destruct Hr as (_ & _ & len & e & Ht). rewrite bind_run.
  destruct (Z.eq_dec p MAXNUM) as [->|Hne].
  - destruct (Z.leb_spec (MAXNUM + Z.of_nat (S (length rs))) MAXNUM); [lia|].
    destruct Hs1 as (Hwf & Hc & _). by rewrite (tag_past_table len e _ Hwf Hc (Ht s)).
  - destruct (tag_row_run len e p _ Hs1 ltac:(lia) (Ht s)) as (s2 & -> & Hwf & Hc & Hm & _). cbn [obind].
    specialize (IH (p + 1) s2 ltac:(by split) ltac:(lia)).
    replace (p + Z.of_nat (S (length rs))) with (p + 1 + Z.of_nat (length rs)) by lia. exact IH.
Qed.
End radio.
