(* ===== verification/Request.v ===== *)
(** * Requests to the R2000 module (R2000.c, and the callers of common.c and
    main.c that build their own frames)

    A request is a frame [A0 len FF cmd para ... checksum]; the firmware sends
    it and busy-waits for the answer, the module's interrupt handler filling
    [R2000_rec] meanwhile, or for the software timer. *)
From stdpp Require Import base tactics list numbers option gmap.
From S2P Require Import Prelude Machine Effects Timers Tick Serial Packet ParamTable Process Device Ds1302 Preserve Radio.

Definition R2000_SED_TIMER : Z := 200.
Definition command_success : Z := 0x10.

Section request.
Context `{Board}.

(** [while (ucCount--) USARTn->DR = *pucBuffer++;] *)
Fixpoint emit_bytes (tx : Z -> io) (bs : bytes) : M unit :=
  match bs with [] => mret tt | b :: bs => emit (tx b);; emit_bytes tx bs end.

Definition UART4Send (bs : bytes) : M unit :=
  if blen bs >=? BUF_LEN then mret tt else emit_bytes Tx4 bs.

(** [SetChecksum] of a local array. *)
Definition sum_of (bs : bytes) : Z := fold_left (fun sum c => u8 (sum + c)) bs 0.
Definition sealed (bs : bytes) : bytes := bs ++ [u8 (Z.lnot (sum_of bs) + 1)].

(** [while (timerIsOverflow(&R2000.send_timer) == 0) if (0 != R2000.set_mark)
    { R2000.set_mark = 0; on_mark }]: [Some v] when [on_mark] leaves the loop
    with [v], [None] when the timer does. *)
Definition wait_poll (on_mark : M (option Z)) : M (option (option Z)) :=
  o ← timerIsOverflow R2000_send_timer;
  if o =? 0 then
    m ← getv R2000_set_mark;
    if negb (m =? 0) then
      putv R2000_set_mark 0;;
      r ← on_mark;
      mret (match r with Some v => Some (Some v) | None => None end)
    else mret None
  else mret (Some None).
Definition wait_R2000 (on_mark : M (option Z)) : M (option Z) :=
  busy_wait UART4_IRQHandler Time_Update (wait_poll on_mark).

(** [TimingmsDelay = (nTime << 1); while (TimingmsDelay != 0);] *)
Definition DelayMs (nTime : Z) : M unit :=
  putv TimingmsDelay (u32 (nTime * 2));;
  busy_wait UART4_IRQHandler Time_Update
    (n ← getv TimingmsDelay; mret (if n =? 0 then Some tt else None)).

(** The wait for the answer to command [c] shared by [close_r2000_beep],
    [set_output_power], [AntennaCtrl] and [SelFreq]: 1 when it reports success,
    0 when it reports anything else. *)
Definition wait_answer (c : Z) : M (option Z) :=
  timerStart R2000_send_timer R2000_SED_TIMER;;
  wait_R2000
    (cmd ← ld8 R2000_rec R_cmd;
     if cmd =? c then
       timerStop R2000_send_timer;;
       p ← ld8 R2000_rec R_para;
       mret (Some (if p =? command_success then 1 else 0))
     else mret None).

Definition fail_with (code : Z) : M unit :=
  timerStop R2000_send_timer;;
  putv SelfCheckFailure code;;
  putv R2000_set_mark 0.

Definition close_r2000_beep : M unit :=
  putv R2000_set_mark 0;;
  UART4Send (sealed [0xA0; 0x04; 0xff; 0x7A; 0x00]);;
  r ← wait_answer 0x7A;
  if bool_decide (r = Some 1) then mret tt else fail_with 7.

Definition reset_R2000 : M unit := UART4Send (sealed [0xA0; 0x03; 0xFF; 0x70]).

Definition set_output_power : M unit :=
  p ← ld8 g_device wp_OutputPower;
  putv R2000_set_mark 0;;
  UART4Send (sealed [0xA0; 0x04; 0xff; 0x76; p]);;
  r ← wait_answer 0x76;
  if bool_decide (r = Some 1) then mret tt else fail_with 6.

(** The antenna the module is told to use: 0 unless [tmpAntenna] is one of
    the four single antennas. *)
Definition antenna_code (a : Z) : Z :=
  if a =? 1 then 0 else if a =? 2 then 1 else if a =? 4 then 2 else if a =? 8 then 3 else 0.

Definition AntennaCtrl : M Z :=
  DelayMs 10;;
  a ← getv tmpAntenna;
  putv R2000_set_mark 0;;
  UART4Send (sealed [0xA0; 0x04; 0xFF; 0x74; antenna_code a]);;
  r ← wait_answer 0x74;
  match r with
  | Some v => mret v
  | None => timerStop R2000_send_timer;; R2000_zero;; mret 0
  end.

(** [SelFreq] of main.c: the region's first and last channel, or, for region 4,
    the spacing, the number of channels and the first frequency. *)
Definition R (k v : Z) : M unit := st8 R2000_rec k v.
Definition seal_rec (n : Z) : M unit :=
  c ← SetChecksum R2000_rec n; R n c.
Definition send_rec (n : Z) : M unit := bs ← ldn R2000_rec 0 n; UART4Send bs.

Definition SelFreq : M unit :=
  R 0 0xA0;; R 1 0x06;; R 2 0xFF;; R 3 0x78;;
  region ← ld8 g_device off_FreqSelect;
  R 4 region;;
  putv R2000_set_mark 0;;
  fmin ← ld8 g_device wp_FrequencyMin;
  fmax ← ld8 g_device wp_FrequencyMax;
  (if region <? 4 then
     R 5 fmin;; R 6 fmax;; seal_rec 7;; send_rec 8
   else if region =? 4 then
     R 1 0x09;;
     p0 ← ld8 g_device (off_FreqSelect + 1);
     R 5 p0;;
     R 6 (fmax - fmin);;
     tep ← ldn g_device (off_FreqSelect + 3) 3;
     let Ftemp := u32 (unle tep + fmin * p0) in
     let tep := take 3 (le32 Ftemp) in
     R 7 (nth 2 tep 0);; R 8 (nth 1 tep 0);; R 9 (nth 0 tep 0);;
     seal_rec 10;; send_rec 11
   else mret tt);;
  r ← wait_answer 0x78;
  if bool_decide (r = Some 1) then mret tt else fail_with 8.

(** ** [encodeR2000]

    [q] is its [buffer] argument; [q_ i] is [buffer[i]].  One definition per
    case fills the frame from byte 1 and, where the command has parameters,
    byte 4; [memcpy] into the frame is [copy_in]. *)
Definition copy_in (k : Z) (q : ptr) (i n : Z) : M unit :=
  bs ← ldpn q i n; stn R2000_rec k bs.

Fixpoint antennas_8A (n : nat) (i len a : Z) : M Z :=
  match n with
  | O => mret len
  | S n =>
      R len (if negb (Z.land a (Z.shiftl 1 i) =? 0) then i else 100);;
      R (len + 1) 1;;
      antennas_8A n (i + 1) (len + 2) a
  end.
Definition encode_8A : M unit :=
  R 1 0x0D;;
  a ← getv tmpAntenna;
  len ← antennas_8A 4 0 4 a;
  R len 0;;
  R (len + 1) 1.

Definition encode_74 (q : ptr) : M unit :=
  R 1 0x04;;
  len ← ldp q 0;
  R 4 0;;
  R 4 (antenna_code len).

Definition encode_76 (q : ptr) : M unit := R 1 0x04;; x ← ldp q 0; R 4 x.

Definition put_from (q : ptr) (k i : Z) : M unit := x ← ldp q i; R k x.

Definition encode_78 (q : ptr) : M unit :=
  x ← ldp q 0;
  st8 g_device off_FreqSelect x;;
  region ← ld8 g_device off_FreqSelect;
  switch region
    [ ([0x01; 0x02; 0x03],
        R 1 0x06;; put_from q 4 0;; put_from q 5 1;; put_from q 6 2);
      ([0x04],
        R 1 0x09;; put_from q 4 0;; put_from q 5 1;; put_from q 6 2;;
        put_from q 7 3;; put_from q 8 4;; put_from q 9 5) ]
    (mret tt).

Definition encode_81 (q : ptr) : M unit :=
  R 1 (0x06 + 4);;
  w ← ldp q 0;
  let len := u8 (w * 2 + 1) in
  put_from q 4 len;; put_from q 5 (len + 1);; put_from q 6 (len + 2);;
  put_from q 7 (len + 3);; put_from q 8 (len + 4);; put_from q 9 (len + 5);;
  put_from q 10 (len + 6).

Definition encode_82 (q : ptr) : M unit :=
  w ← ldp q 0;
  let len := u8 (w * 2 + 3) in
  n ← ldp q len;
  R 1 (10 + n * 2);;
  put_from q 4 (len + n * 2 + 1);;
  put_from q 5 (len + n * 2 + 2);;
  put_from q 6 (len + n * 2 + 3);;
  put_from q 7 (len + n * 2 + 4);;
  put_from q 8 (len - 2);;
  b8 ← ld8 R2000_rec 8;
  if b8 =? 0x01 then
    b1 ← ld8 R2000_rec 1;
    R 1 (b1 + 2);;
    R 9 1;;
    n ← ldp q len; R 10 (n + 1);;
    n ← ldp q len; R 11 (n * 8);;
    R 12 0;;
    n ← ldp q len; copy_in 13 q (len + 1) (n * 2)
  else
    put_from q 9 (len - 1);;
    put_from q 10 len;;
    n ← ldp q len; copy_in 11 q (len + 1) (n * 2).

(** How the lock states of the host protocol map to the module's. *)
Definition lock_code (b9 : Z) : Z :=
  switch b9 [ ([0], 0); ([1], 2); ([2], 1); ([3], 3); ([4], 0); ([5], 2); ([6], 1); ([7], 3) ] b9.
Definition encode_83 (q : ptr) : M unit :=
  w ← ldp q 0;
  let len := u8 (w * 2 + 1) in
  R 1 9;;
  put_from q 4 (len + 2);; put_from q 5 (len + 3);;
  put_from q 6 (len + 4);; put_from q 7 (len + 5);;
  x ← ldp q len; R 8 (5 - x);;
  put_from q 9 (len + 1);;
  b9 ← ld8 R2000_rec 9;
  R 9 (lock_code b9).

Definition encode_84 (q : ptr) : M unit :=
  R 1 0x07;;
  w ← ldp q 0;
  let len := u8 (w * 2 + 1) in
  put_from q 4 len;; put_from q 5 (len + 1);; put_from q 6 (len + 2);; put_from q 7 (len + 3).

Definition encode_85 (q : ptr) : M unit :=
  w ← ldp q 0;
  let len := u8 (w * 2) in
  R 1 (5 + len);; R 4 0;; R 5 len;; copy_in 6 q 1 len.

Definition encode_C2 (q : ptr) : M unit :=
  w ← ldp q 0;
  let len := u8 (w * 2) in
  R 1 (10 + len + 2);;
  put_from q 4 (len + 1);; put_from q 5 (len + 2);;
  put_from q 6 (len + 3);; put_from q 7 (len + 4);;
  R 8 1;; R 9 1;;
  w ← ldp q 0; R 10 (w + 1);;
  w ← ldp q 0; R 11 (w * 8);;
  R 12 0;;
  copy_in 13 q 1 len.

Definition encode_C1 (q : ptr) : M unit :=
  R 1 (0x06 + 4);;
  put_from q 4 0;; put_from q 5 1;; put_from q 6 2;;
  R 7 0;; R 8 0;; R 9 0;; R 10 0.

Definition encode_B1 (q : ptr) : M unit :=
  R 1 0x0D;; copy_in 4 q 0 8;; put_from q 12 8;; put_from q 13 9.
Definition encode_B2 (q : ptr) : M unit :=
  n ← ldp q 9;
  R 1 (0x0D + n);; copy_in 4 q 0 8;; put_from q 12 8;; put_from q 13 9;;
  n ← ldp q 9; copy_in 14 q 10 n.
(** Commands 0xB3, 0xB4 and 0xB5. *)
Definition encode_B345 (q : ptr) : M unit :=
  R 1 0x0C;; copy_in 4 q 0 8;; put_from q 12 8.

(** The command byte: the invented commands stand for variants of others. *)
Definition wire_cmd (cmd : Z) : Z :=
  if cmd =? 0xC5 then 0x85 else if cmd =? 0xC2 then 0x82 else if cmd =? 0xC1 then 0x81 else cmd.

(** The frame without its checksum; [false] for an unknown command. *)
Definition encode_frame (cmd : Z) (q : ptr) : M bool :=
  R 0 0xA0;;
  R 2 0xFF;;
  R 3 (wire_cmd cmd);;
  let ok (m : M unit) : M bool := m;; mret true in
  switch cmd
    [ ([0x8A], ok encode_8A);
      ([0x72], ok (R 1 0x03));
      ([0x74], ok (encode_74 q));
      ([0x76], ok (encode_76 q));
      ([0x78], ok (encode_78 q));
      ([0x80], ok (encode_76 q));
      ([0x81], ok (encode_81 q));
      ([0x82], ok (encode_82 q));
      ([0x83], ok (encode_83 q));
      ([0x84], ok (encode_84 q));
      ([0x85], ok (encode_85 q));
      ([0x86], ok (R 1 3));
      ([0xC5], ok (R 1 4;; R 4 1));
      ([0xC2], ok (encode_C2 q));
      ([0xC1], ok (encode_C1 q));
      ([0x91], ok (R 1 0x03));
      ([0xB0], ok (R 1 0x03));
      ([0xB1], ok (encode_B1 q));
      ([0xB2], ok (encode_B2 q));
      ([0xB3; 0xB4; 0xB5], ok (encode_B345 q)) ]
    (mret false).

(** One answer of the module while [encodeR2000] waits. *)
Definition encode_on_mark (cmd : Z) : M (option Z) :=
  let again (t : Z) : M (option Z) := timerStart R2000_send_timer t;; mret None in
  let done_ (r : Z) : M (option Z) := timerStop R2000_send_timer;; mret (Some r) in
  n91 ← getv Tag_R2000_CMD91_number;
  n80 ← getv Tag_R2000_CMD80_number;
  if cmd =? 0x91 then
    if n91 >=? n80 then done_ 0 else again (R2000_SED_TIMER + 800)
  else if cmd =? 0xB0 then
    if (n91 >=? n80) || (n80 =? 0) then done_ (if n80 =? 0 then 1 else 0)
    else again (R2000_SED_TIMER + 800)
  else if cmd =? 0x8A then
    if negb (n91 =? 0) then done_ 0 else again R2000_SED_TIMER
  else done_ 0.

(** The wait for the answer. *)
Definition encode_wait (cmd : Z) : M Z :=
  r ← wait_R2000 (encode_on_mark cmd);
  match r with
  | Some v => mret v
  | None =>
      timerStop R2000_send_timer;;
      p ← getv CardPos;
      if (cmd =? 0x91) && (p >? 0) then mret 0
      else if (cmd =? 0xB0) && (p >? 0) then mret 0
      else if cmd =? 0x8A then mret 0
      else R2000_zero;; mret 0xFF
  end.

Definition send_time (cmd : Z) : Z :=
  if (cmd =? 0x91) || (cmd =? 0xB0) || (cmd =? 0x80) then R2000_SED_TIMER + 800
  else R2000_SED_TIMER.

(** The checksum, the transmission and the wait. *)
Definition encode_send (cmd : Z) : M Z :=
  n ← ld8 R2000_rec R_len;
  let len := u8 (n + 1) in
  seal_rec len;;
  putv R2000_set_mark 0;;
  send_rec (len + 1);;
  timerStart R2000_send_timer (send_time cmd);;
  encode_wait cmd.

Definition encodeR2000 (cmd : Z) (q : ptr) : M Z :=
  ok ← encode_frame cmd q;
  if (ok : bool) then encode_send cmd else mret 0xFF.

(** ** The frame that is sent *)

Lemma emit_bytes_run tx bs s :
  emit_bytes tx bs s = Ret (tt, set_out (rev (tx <$> bs) ++ out s) s).
Proof using Type.
  revert s. induction bs as [|b bs IH]; intros s; cbn [emit_bytes]; [by destruct s|].
  rewrite bind_run, emit_run. cbn [obind]. rewrite IH. cbn. by rewrite <- app_assoc.
Qed.

(** What filling the frame leaves alone: its boot code, address and command,
    what is already sent, the events to come and the scalars. *)
Definition same_run (s0 s : fw) : Prop :=
  out s = out s0 /\ sched s = sched s0 /\ forall x, get x s = get x s0.
Definition headed (c : Z) (s0 s : fw) : Prop :=
  wf s /\ same_run s0 s /\ rd (block R2000_rec s) 0 = Some 0xA0 /\
  rd (block R2000_rec s) 2 = Some 0xFF /\ rd (block R2000_rec s) 3 = Some c.

Section headed.
Context (c : Z) (s0 : fw).
Let I := headed c s0.
Lemma headed_wf s : I s -> wf s.
Proof using Type. by intros []. Qed.

Lemma h_stn k bs : 4 <= k -> bytes_ok bs -> preserves I (stn R2000_rec k bs).
Proof using Type.
  intros Hk Hb s [] s' (Hwf & Ho & H0 & H2 & H3). unfold stn.
  destruct (wrn (block R2000_rec s) k bs) as [m|] eqn:E; [|done]. intros [= <-].
  pose proof E as (_ & Hl & _)%wrn_Some. rewrite (wf_size s Hwf) in Hl.
  unfold I, headed. rewrite block_set_block_eq. rewrite !(rd_wrn_out _ _ _ _ _ E) by lia.
  split_and!; [|done..]. apply wf_set_block; [|by eapply wrn_ok, E; [apply wf_bytes|]|done].
  by rewrite (wrn_blen _ _ _ _ E), (wf_size s Hwf).
Qed.
Lemma h_R k v : k = 1 \/ 4 <= k -> preserves I (R k v).
Proof using Type.
  intros Hk s [] s' (Hwf & Ho & H0 & H2 & H3). unfold R, st8.
  destruct (wr (block R2000_rec s) k v) as [m|] eqn:E; [|done]. intros [= <-].
  unfold I, headed. rewrite block_set_block_eq. rewrite !(rd_wr_ne _ _ _ _ _ E) by lia.
  split_and!; [|done..]. apply wf_set_block; [|by eapply wr_ok, E; apply wf_bytes|done].
  by rewrite (wr_blen _ _ _ _ E), (wf_size s Hwf).
Qed.
Lemma h_copy_in k q i n : 4 <= k -> preserves I (copy_in k q i n).
Proof using Type.
  intros Hk. eapply preserves_bind_yields; [apply preserves_ldpn|apply yields_ldpn_wf, headed_wf|].
  intros bs Hb. by apply h_stn.
Qed.
Lemma h_put_from q k i : 4 <= k -> preserves I (put_from q k i).
Proof using Type.
  intros Hk. apply preserves_bind; [apply preserves_ldp|]. intros x. apply h_R. lia.
Qed.
Lemma h_device k v : preserves I (st8 g_device k v).
Proof using Type.
  intros s [] s' (Hwf & Ho & H0 & H2 & H3). unfold st8.
  destruct (wr (block g_device s) k v) as [m|] eqn:E; [|done]. intros [= <-].
  unfold I, headed. rewrite block_set_block_ne by done. split_and!; [|done..].
  apply wf_set_block; [|by eapply wr_ok, E; apply wf_bytes|done].
  by rewrite (wr_blen _ _ _ _ E), (wf_size s Hwf).
Qed.
Lemma h_antennas n i len a : 4 <= len -> preserves I (antennas_8A n i len a).
Proof using Type.
  revert i len. induction n as [|n IH]; intros i len Hl; cbn [antennas_8A]; [apply preserves_ret|].
  apply preserves_bind; [apply h_R; lia|intros _]. apply preserves_bind; [apply h_R; lia|intros _].
  apply IH. lia.
Qed.
Lemma y_antennas n i len a : 4 <= len -> yields I (antennas_8A n i len a) (fun l => 4 <= l).
Proof using Type.
  revert i len. induction n as [|n IH]; intros i len Hl; cbn [antennas_8A]; [by apply yields_ret|].
  eapply yields_bind; [apply h_R; lia|apply yields_trivial|intros _ _].
  eapply yields_bind; [apply h_R; lia|apply yields_trivial|intros _ _]. apply IH. lia.
Qed.
Lemma h_encode_8A : preserves I encode_8A.
Proof using Type.
  unfold encode_8A. apply preserves_bind; [apply h_R; lia|intros _].
  apply preserves_bind; [apply preserves_getv|intros a].
  eapply preserves_bind_yields; [by apply h_antennas|by apply y_antennas|intros len Hl].
  cbn beta in Hl. apply preserves_bind; [apply h_R; lia|intros _; apply h_R; lia].
Qed.
End headed.

Ltac headed_step :=
  lazymatch goal with
  | |- preserves _ encode_8A => apply h_encode_8A
  | |- preserves _ (R _ _) => apply h_R; lia
  | |- preserves _ (copy_in _ _ _ _) => apply h_copy_in; lia
  | |- preserves _ (put_from _ _ _) => apply h_put_from; lia
  | |- preserves _ (st8 g_device _ _) => apply h_device
  | _ => pres1
  end.
(** The cases of [encodeR2000], after its common start. *)
Lemma encode_frame_headed cmd q s b s' :
  wf s -> encode_frame cmd q s = Ret (b, s') -> headed (u8 (wire_cmd cmd)) s s'.
Proof using Type.
  intros Hwf. unfold encode_frame. rewrite !bind_run. unfold R at 1.
  store Hwf H0. rewrite !bind_run. unfold R at 1. store Hwf H2.
  rewrite !bind_run. unfold R at 1. store Hwf H3.
  match goal with |- _ ?s0 = _ -> _ => assert (HI : headed (u8 (wire_cmd cmd)) s s0) end.
  { unfold headed. mget. split_and!; [done|done|..]; rdwr; done. }
  cbv zeta. intros E. eapply (preserves_switch (headed _ _)), E; [| |done].
  all: repeat first [apply Forall_nil_2 | apply Forall_cons_2]; cbn [snd];
    unfold encode_74, encode_76, encode_78, encode_81, encode_82, encode_83,
      encode_84, encode_85, encode_C2, encode_C1, encode_B1, encode_B2, encode_B345; cbv zeta;
    repeat headed_step.
Qed.

Lemma sum_of_checksum bs : u8 (Z.lnot (sum_of bs) + 1) = checksum bs.
Proof using Type.
  assert (Hf : forall l a, fold_left (fun x c => u8 (x + c)) l (u8 a) = u8 (a + zsum l)).
  { induction l as [|x l IH]; intros a; [cbn; by rewrite Z.add_0_r|].
    change (zsum (x :: l)) with (x + zsum l). cbn [fold_left]. rewrite u8_add_l, IH. f_equal. lia. }
  unfold sum_of, checksum. change 0 with (u8 0) at 1. by rewrite Hf, u8_lnot.
Qed.

Lemma encode_frame_sent cmd q s s0 n :
  wf s -> encode_frame cmd q s = Ret (true, s0) ->
  rd (block R2000_rec s0) R_len = Some n -> 3 <= n <= 252 ->
  exists fr s1, encodeR2000 cmd q s = encode_wait cmd s1 /\
    out s1 = rev (Tx4 <$> fr) ++ out s /\ blen fr = n + 2 /\ frame_valid fr /\
    rdn fr 0 4 = Some [0xA0; n; 0xFF; u8 (wire_cmd cmd)] /\
    (wf s1 /\ sched s1 = sched s /\ running R2000_send_timer (send_time cmd) s1 /\
     get R2000_set_mark s1 = 0 /\ get sysReboot s1 = get sysReboot s /\
     get sys_timer1 s1 = get sys_timer1 s).
Proof using Type.
  intros Hwf E Hn Hr. pose proof (encode_frame_headed _ _ _ _ _ Hwf E) as (Hwf0 & (Ho & Hsc & Hg) & H0 & H2 & H3).
  unfold encodeR2000. rewrite bind_run, E. cbn [obind]. unfold encode_send.
  rewrite bind_run, (ld8_run _ _ _ _ Hn). cbn [obind]. rewrite u8_small by lia. cbv zeta.
  destruct (rdn (block R2000_rec s0) 0 (n + 1)) as [pre|] eqn:Hp;
    [|rewrite rdn_in in Hp by (rewrite ?(wf_size s0 Hwf0); cbn; unfold SBUF_size; lia); discriminate].
  destruct (seal_run0 R2000_rec (n + 1) pre s0) as (m & Hm & Hrd & Hwf1 & Hseal);
    [done|done|cbn; unfold SBUF_size; lia|].
  rewrite bind_run. unfold seal_rec, R. rewrite Hseal. cbn [obind]. mrun.
  unfold send_rec. rewrite bind_run, (ldn_run _ _ _ _ (pre ++ [checksum pre])) by (by mget).
  cbn [obind]. pose proof (rdn_blen _ _ _ _ Hp) as Hlen.
  unfold UART4Send. rewrite blen_app, Hlen. change (blen [checksum pre]) with 1.
  unfold BUF_LEN. rewrite Z.geb_leb. destruct (Z.leb_spec 255 (n + 1 + 1)); [lia|].
  rewrite emit_bytes_run. cbn [obind]. rewrite bind_run, timerStart_run. cbn [obind].
  eexists _, _. split; [done|]. split; [by rewrite <- Ho|].
  split; [rewrite blen_app, Hlen; change (blen [checksum pre]) with 1; lia|].
  split; [apply frame_checksum|]. split.
  { pose proof (rdn_blen _ _ _ _ Hrd) as Hl.
    apply (rdn_points _ [0xA0; n; 0xFF; u8 (wire_cmd cmd)]);
      [rewrite Hl; change (blen [_; _; _; _]) with 4; lia|].
    intros i v Hi. rewrite (rd_rdn _ _ _ _ _ Hrd), Z.add_0_l
      by (apply lookup_lt_Some in Hi; cbn in Hi; lia).
    rewrite (rd_wr_ne _ _ _ _ _ Hm) by (apply lookup_lt_Some in Hi; cbn in Hi; lia).
    by destruct i as [|[|[|[|]]]]; [injection Hi as <-..|]. }
  split; [by auto 10 with fwdb|]. split; [done|]. split; [|mget; by rewrite !Hg]. unfold running. mget. split; [done|].
  assert (Ht : send_time cmd = 1000 \/ send_time cmd = 200)
    by (unfold send_time, R2000_SED_TIMER; destruct (_ || _); auto).
  destruct Ht as [-> | ->]; done.
Qed.
(** C1: for a command [encodeR2000] knows, whose case wrote a length byte [n]
    from 3 to 252: before it starts to wait for the answer it puts on UART4 one
    frame of the module and nothing else. The frame starts with the boot code,
    [n], the address FF and the command byte, has as many bytes as [n] announces,
    and its bytes add up to zero; what follows is the wait [encode_wait], which
    this theorem does not describe. A longer
    frame is left aside: of the 254 that the command 0x82 makes of 121 words,
    [UART4Send] sends nothing. *)
Theorem request_frame cmd q s s0 n :
  wf s -> encode_frame cmd q s = Ret (true, s0) ->
  rd (block R2000_rec s0) R_len = Some n -> 3 <= n <= 252 ->
  exists fr s1, encodeR2000 cmd q s = encode_wait cmd s1 /\
    out s1 = rev (Tx4 <$> fr) ++ out s /\ blen fr = n + 2 /\ frame_valid fr /\
    rdn fr 0 4 = Some [0xA0; n; 0xFF; u8 (wire_cmd cmd)].
Proof using Type.
  intros Hwf E Hn Hr. destruct (encode_frame_sent cmd q s s0 n Hwf E Hn Hr)
    as (fr & s1 & He & Ho & Hl & Hv & Hh & _). by exists fr, s1.
Qed.
End request.
