(* ===== verification/Wait.v ===== *)
(** * Waiting ends

    The busy-wait loops of the requests end when the software timer runs out,
    and the timer runs out because the SysTick interrupt returns: a module
    that never answers costs a bounded number of interrupts. *)
From stdpp Require Import base tactics list numbers option gmap.
From S2P Require Import Prelude Machine Effects Timers Tick Serial Packet ParamTable Process Device Ds1302 Preserve Radio Request.

Section returns.
Context `{Board}.

(** [returns P m Q]: from a state with [P], [m] returns, with [Q]. *)
Definition returns {A} (P : fw -> Prop) (m : M A) (Q : A -> fw -> Prop) : Prop :=
  forall s, P s -> exists a s', m s = Ret (a, s') /\ Q a s'.
Definition total {A} (I : fw -> Prop) (m : M A) : Prop := returns I m (fun _ => I).

Lemma returns_bind {A B} P R Q (m : M A) (k : A -> M B) :
  returns P m R -> (forall a, returns (R a) (k a) Q) -> returns P (m ≫= k) Q.
Proof using Type.
  intros Hm Hk s HP. destruct (Hm s HP) as (a & s1 & E & HR).
  destruct (Hk a s1 HR) as (b & s2 & E2 & HQ). exists b, s2. by rewrite bind_run, E.
Qed.
Lemma returns_after {A B} (P R : fw -> Prop) Q (m : M A) (k : A -> M B) :
  returns P m (fun _ => R) -> (forall a, returns R (k a) Q) -> returns P (m ≫= k) Q.
Proof using Type. apply returns_bind. Qed.
Lemma total_ret {A} I (a : A) : total I (mret a).
Proof using Type. intros s Hs. by exists a, s. Qed.
Lemma total_bind {A B} I (m : M A) (k : A -> M B) :
  total I m -> (forall a, total I (k a)) -> total I (m ≫= k).
Proof using Type. intros. by eapply returns_bind. Qed.
Lemma total_when I c m : total I m -> total I (when c m).
Proof using Type. destruct c; [done|]. intros _. apply total_ret. Qed.
Lemma total_getv I x : total I (getv x).
Proof using Type. intros s Hs. by exists (get x s), s. Qed.
Lemma total_putv (I : fw -> Prop) x v : (forall s, I s -> I (put x v s)) -> total I (putv x v).
Proof using Type. intros HI s Hs. exists tt, (put x v s). auto. Qed.
Lemma total_emit (I : fw -> Prop) e : (forall s, I s -> I (push_out e s)) -> total I (emit e).
Proof using Type. intros HI s Hs. exists tt, (push_out e s). auto. Qed.
Lemma total_ld8 (I : fw -> Prop) b o : (forall s, I s -> wf s) -> 0 <= o < bsize b -> total I (ld8 b o).
Proof using Type.
  intros HI Ho s Hs. destruct (rd_in (block b s) o) as [v Hv]; [by rewrite (wf_size s (HI s Hs))|].
  exists v, s. by rewrite (ld8_run _ _ _ _ Hv).
Qed.
End returns.

Ltac total1 :=
  first
    [ solve [trivial with total nocore]
    | lazymatch goal with
      | |- total _ (mbind _ _) => apply total_bind; [|intros ?]
      | |- total _ (mret _) => apply total_ret
      | |- total _ (when _ _) => apply total_when
      | |- total _ (getv _) => apply total_getv
      | |- total _ (match _ with _ => _ end) => case_match
      end ].
Ltac total := repeat total1.
Create HintDb total discriminated.
#[export] Hint Constants Opaque : total.

Section tick.
Context `{Board}.

(** The SysTick interrupt under a quiet module: [ov] and [tm] are the state of
    [send_timer], [c] the interrupts since the last tenth; nothing else changes
    what a wait depends on. *)
Record quiet (ov tm c : Z) (s : fw) : Prop := {
  q_wf : wf s;
  q_reboot : get sysReboot s ≠ 1;
  q_mark : get R2000_set_mark s = 0;
  q_over : get (Tm R2000_send_timer isOverflow) s = ov;
  q_time : get (Tm R2000_send_timer time_) s = tm;
  q_count : get sys_timer1 s = c }.

Definition free (x : gv) : bool :=
  negb (bool_decide (x ∈ [sysReboot; R2000_set_mark; Tm R2000_send_timer isOverflow;
                          Tm R2000_send_timer time_; sys_timer1])).
Lemma quiet_put ov tm c x v s : free x = true -> quiet ov tm c s -> quiet ov tm c (put x v s).
Proof using Type.
  intros Hf [Hw Hr Hm Ho Ht Hc]. unfold free in Hf. apply negb_true_iff, bool_decide_eq_false_1 in Hf.
  rewrite !not_elem_of_cons in Hf. destruct Hf as (H1 & H2 & H3 & H4 & H5 & _).
  split; [by apply wf_put|rewrite get_put_ne by congruence; done..].
Qed.
Lemma quiet_emit ov tm c e s : quiet ov tm c s -> quiet ov tm c (push_out e s).
Proof using Type. intros [Hw Hr Hm Ho Ht Hc]. split; [by apply wf_push_out|by mget..]. Qed.

Section phase.
Context (ov tm c : Z).
Let I := quiet ov tm c.
Lemma t_putv x v : free x = true -> total I (putv x v).
Proof using Type. intros. apply total_putv. intros. by apply quiet_put. Qed.
Lemma t_emit e : total I (emit e).
Proof using Type. apply total_emit. intros. by apply quiet_emit. Qed.
Lemma t_ld8 b o : 0 <= o < bsize b -> total I (ld8 b o).
Proof using Type. apply total_ld8. by intros s []. Qed.
Ltac quiet_ := unfold I in *; repeat first
  [ lazymatch goal with
    | |- total _ (putv _ _) => by apply t_putv
    | |- total _ (ld8 _ _) => by apply t_ld8
    | |- total _ (emit _) => apply t_emit
    end
  | total1 ].

Lemma t_relay_isr : total I relay_isr_polling.
Proof using Type. unfold relay_isr_polling, RELAYOFF, RELAYOFF1. quiet_. Qed.
Lemma t_LwIP t : total I (LwIP_Periodic_Handle t).
Proof using Type. unfold LwIP_Periodic_Handle. quiet_. Qed.
Lemma t_RelayControl : total I RelayControl.
Proof using Type. unfold RelayControl, RELAYON, RELAYON1, RELAYOFF, RELAYOFF1. quiet_. Qed.
Lemma t_beep_step : total I beep_step.
Proof using Type. unfold beep_step. quiet_. Qed.
Lemma t_led_step : total I led_step.
Proof using Type. unfold led_step. quiet_. Qed.
Lemma t_tick_timer t : t ≠ R2000_send_timer -> total I (tick_timer t).
Proof using Type. intros Ht. unfold tick_timer, countdown. destruct t; try done; quiet_. Qed.
(** The watchdog is fed unless a reboot is due. *)
Lemma t_reboot : total I reboot.
Proof using Type.
  intros s Hs. unfold reboot. mrun. destruct (Z.eqb_spec (get sysReboot s) 1) as [E|_].
  - by destruct (q_reboot _ _ _ s Hs).
  - mrun. eexists _, _. split; [done|]. by apply quiet_emit.
Qed.
End phase.

Lemma returns_put x v (P Q : fw -> Prop) :
  (forall s, P s -> Q (put x v s)) -> returns P (putv x v) (fun _ => Q).
Proof using Type. intros HQ s HP. exists tt, (put x v s). auto. Qed.
Lemma quiet_count ov tm c c' s : quiet ov tm c s -> quiet ov tm c' (put sys_timer1 c' s).
Proof using Type. intros [Hw Hr Hm Ho Ht Hc]. split; [by apply wf_put|by mget..]. Qed.

(** The countdown of [send_timer]. *)
Definition next_over (ov tm : Z) : Z := if ov =? 0 then if tm =? 1 then 1 else 0 else ov.
Definition next_time (ov tm : Z) : Z := if ov =? 0 then if tm =? 1 then tm else u32 (tm - 1) else tm.
Lemma send_countdown ov tm c s :
  quiet ov tm c s ->
  exists s', tick_send_timer s = Ret (tt, s') /\ quiet (next_over ov tm) (next_time ov tm) c s'.
Proof using Type.
  intros [Hw Hr Hm Ho Ht Hc]. unfold tick_send_timer, countdown, next_over, next_time. mrun. rewrite Ho.
  destruct (Z.eqb_spec ov 0) as [E|E]; cbn [when]; [mrun; rewrite Ht; destruct (Z.eqb_spec tm 1)|]; mrun;
    (eexists; split; [done|]); (split; [by repeat apply wf_put|mget; congruence..]).
Qed.

Lemma tenth_quiet ov tm c s :
  quiet ov tm c s ->
  exists s', tenth s = Ret (tt, s') /\ quiet (next_over ov tm) (next_time ov tm) 0 s'.
Proof using Type.
  intros Hs. cut (returns (quiet ov tm c) tenth (fun _ => quiet (next_over ov tm) (next_time ov tm) 0)).
  { intros Hr. destruct (Hr s Hs) as ([] & s' & E & HQ). by exists s'. }
  unfold tenth. eapply returns_after; [apply t_reboot|intros _].
  eapply returns_after; [apply t_RelayControl|intros _].
  eapply returns_after; [apply total_getv|intros n].
  eapply returns_after; [by apply t_putv|intros _].
  eapply returns_after; [apply returns_put; intros; by eapply quiet_count|intros _].
  eapply returns_after; [apply t_beep_step|intros _]. eapply returns_after; [apply t_led_step|intros _].
  do 6 (eapply returns_after; [by apply t_tick_timer|intros _]).
  intros s1 Hs1. destruct (send_countdown _ _ _ s1 Hs1) as (s2 & E & HQ). by exists tt, s2.
Qed.

Lemma Time_Update_quiet ov tm c s :
  quiet ov tm c s -> 0 <= c <= 9 ->
  exists s', Time_Update s = Ret (tt, s') /\
    (if c =? 9 then quiet (next_over ov tm) (next_time ov tm) 0 s' else quiet ov tm (c + 1) s').
Proof using Type.
  intros Hs Hc.
  cut (returns (quiet ov tm c) Time_Update (fun _ s' =>
    if c =? 9 then quiet (next_over ov tm) (next_time ov tm) 0 s' else quiet ov tm (c + 1) s')).
  { intros Hr. destruct (Hr s Hs) as ([] & s' & E & HQ). by exists s'. }
  unfold Time_Update. eapply returns_after; [apply t_relay_isr|intros _].
  eapply returns_after; [apply total_getv|intros n]. eapply returns_after; [by apply t_putv|intros _].
  eapply returns_after; [apply total_getv|intros t]. eapply returns_after; [by apply t_putv|intros _].
  eapply returns_after; [apply total_getv|intros d].
  eapply returns_after; [apply total_when; by apply t_putv|intros _].
  eapply returns_after; [apply total_getv|intros t']. eapply returns_after; [apply t_LwIP|intros _].
  clear s Hs. intros s Hs. mrun. mget. rewrite (q_count _ _ _ s Hs), u32_small by lia.
  apply (quiet_count _ _ _ (c + 1)) in Hs. rewrite Z.gtb_ltb.
  destruct (Z.eqb_spec c 9) as [Heq|Hne], (Z.ltb_spec 9 (c + 1)); try lia; cbn [when].
  - destruct (tenth_quiet _ _ _ _ Hs) as (s' & E & HQ). by exists tt, s'.
  - by eexists tt, _.
Qed.

(** ** The wait *)
Definition silent (es : list ev) : Prop := Forall (fun e => e = ETick \/ e = EPoll) es.
Fixpoint ticks (es : list ev) : Z :=
  match es with [] => 0 | ETick :: es => 1 + ticks es | _ :: es => ticks es end.
(** The interrupts left before [send_timer] overflows. *)
Definition left (ov tm c : Z) : Z := if ov =? 0 then 10 * tm - c else 0.

Lemma ticks_nonneg es : 0 <= ticks es.
Proof using Type. induction es as [|[]]; cbn; lia. Qed.

Lemma wait_poll_quiet on_mark tm c s :
  quiet 0 tm c s -> wait_poll on_mark s = Ret (None, s).
Proof using Type.
  intros [Hw Hr Hm Ho Ht Hc]. unfold wait_poll, timerIsOverflow. mrun. rewrite Ho.
  cbn [Z.eqb negb when]. mrun. cbn [Z.eqb]. mrun. rewrite Hm. done.
Qed.

Lemma wait_silent on_mark es ov tm c s :
  silent es -> quiet ov tm c s -> 0 <= c <= 9 -> ov = 1 \/ ov = 0 /\ 1 <= tm < 4294967296 ->
  left ov tm c <= ticks es ->
  exists s', busy_loop UART4_IRQHandler Time_Update (wait_poll on_mark) (es ++ [EPoll]) s =
    Ret (None, s').
Proof using Type.
  assert (Hout : forall l s tm c, quiet 1 tm c s -> exists s',
    busy_loop UART4_IRQHandler Time_Update (wait_poll on_mark) (EPoll :: l) s = Ret (None, s')).
  { intros l s0 tm0 c0 Hs. cbn [busy_loop]. unfold wait_poll, timerIsOverflow. mrun.
    rewrite (q_over _ _ _ _ Hs). cbn [Z.eqb negb when]. mrun. by eexists. }
  intros Hsil. revert ov tm c s.
  induction Hsil as [|e es He Hsil IH]; intros ov tm c s Hs Hc Hov Hl.
  { destruct Hov as [->|[-> Ht]]; [by eapply Hout|]. unfold left in Hl. cbn in Hl. lia. }
  destruct He as [-> | ->]; cbn [app].
  - cbn [busy_loop]. destruct (Time_Update_quiet _ _ _ _ Hs Hc) as (s1 & E & Hs1). rewrite E. cbn [obind].
    cbn [ticks] in Hl. unfold left in *. destruct (Z.eqb_spec c 9) as [->|Hne].
    + eapply IH; [exact Hs1|lia|..]; unfold next_over, next_time, left in *.
      * destruct Hov as [->|[-> Ht]]; cbn; [by left|]. destruct (Z.eqb_spec tm 1); [by left|].
        right. rewrite u32_small by lia. lia.
      * pose proof (ticks_nonneg es). destruct Hov as [->|[-> Ht]]; cbn in *; [lia|].
        destruct (Z.eqb_spec tm 1) as [->|]; cbn; [lia|]. rewrite u32_small by lia. lia.
    + eapply IH; [exact Hs1|lia|done|]. unfold left. pose proof (ticks_nonneg es).
      destruct Hov as [->|[-> Ht]]; cbn in *; lia.
  - destruct Hov as [->|[-> Ht]]; [by eapply Hout|]. cbn [busy_loop].
    rewrite (wait_poll_quiet _ _ _ _ Hs). cbn [obind]. eapply IH; [exact Hs|done|by right|done].
Qed.

(** C36: a request the module does not answer comes back. For a command
    [encodeR2000] knows, with a length byte from 3 to 252, with no restart pending
    ([sysReboot] other than 1: with it the board would restart in the wait) and
    the count of SysTick interrupts to the next 10 ms below ten: when the schedule
    holds ten SysTick interrupts for each unit of the time limit and then a test
    of the timer, with no byte from the module, [encodeR2000] returns, and what it
    returns is the failure 0xFF, or 0 for the three inventory commands that report
    what they have. *)
Theorem silent_module cmd q s s0 n es :
  wf s -> encode_frame cmd q s = Ret (true, s0) ->
  rd (block R2000_rec s0) R_len = Some n -> 3 <= n <= 252 ->
  get sysReboot s ≠ 1 -> 0 <= get sys_timer1 s <= 9 ->
  sched s = es ++ [EPoll] -> silent es -> 10 * send_time cmd <= ticks es ->
  exists v s', encodeR2000 cmd q s = Ret (v, s') /\
    (v = 0xFF \/ v = 0 /\ cmd ∈ [0x91; 0xB0; 0x8A]).
Proof using Type.
  intros Hwf E Hn Hr Hrb Hc Hsch Hsil Ht.
  destruct (encode_frame_sent cmd q s s0 n Hwf E Hn Hr)
    as (fr & s1 & -> & _ & _ & _ & _ & Hwf1 & Hs1 & [_ Hrun] & Hm1 & Hr1 & Hc1).
  assert (Htime : 0 < send_time cmd < 4294967296)
    by (unfold send_time, R2000_SED_TIMER; destruct (_ || _); lia).
  destruct (Z.leb_spec (send_time cmd) 0); [lia|]. destruct Hrun as [Ho Htm].
  assert (Hq : quiet 0 (send_time cmd) (get sys_timer1 s1) s1) by (split; [done|congruence|done..]).
  unfold encode_wait, wait_R2000, busy_wait. rewrite bind_run, Hs1, Hsch.
  destruct (wait_silent (encode_on_mark cmd) es _ _ _ s1 Hsil Hq) as (s2 & ->);
    [lia|right; lia|unfold left; cbn; lia|].
  cbn [obind]. unfold timerStop. mrun. mget.
  destruct (Z.eqb_spec cmd 0x91), (Z.eqb_spec cmd 0xB0), (Z.eqb_spec cmd 0x8A),
    (get CardPos s2 >? 0); cbn [andb];
    (eexists _, _; split; [done|]); first [by left | right; split; [done|set_solver]].
Qed.
End tick.
