(* ===== verification/Handlers.v ===== *)
(** * Tag commands of the host (common.c)

    Each handler turns the parameters of the host frame into requests to the
    R2000 module, overwrites them with the answer and leaves its length in
    [cmdTmpLen]; [BUF_LEN] there means failure.  [handler] is the dispatch
    through the function pointers of the parameter table. *)
From stdpp Require Import base tactics list numbers option gmap.
From S2P Require Import Prelude Machine Effects Timers Tick Serial Packet ParamTable Process Device Ds1302 Radio Request.

Definition wp_MaxReadCardNum : Z := 78.
Definition wp_TagType : Z := 79.
(** The column of [CardIndex] and [TagSaveBuf] with the signal strength. *)
Definition COL_RSSI : Z := TAGIDLENGTH + 6 + 1.

Definition rssitab : list Z :=
  [99;98;97;96;95;94;93;92;91;90;
   89;88;87;86;85;84;83;82;81;80;
   79;78;77;76;75;74;73;72;71;70;
   69;68;67;66;65;64;63;62;61;60;
   59;58;57;56;55;54;53;52;51;50;
   49;48;47;46;45;44;43;42;41;39;
   38;37;36;35;34;33;32;31].

Section handlers.
Context `{Board}.

(** [cmdstr1->para] after a command from RS-485, [cmdstr->para] otherwise. *)
Definition para_of (b : blk) : M ptr := o ← getv TagDataOrigin; mret (At b (off_para o)).
Definition fail : M unit := putv cmdTmpLen BUF_LEN.
Definition answer (n : Z) : M unit := putv cmdTmpLen (u8 n).
(** [if (encodeR2000(cmd, q) == 0) ok; else cmdTmpLen = BUF_LEN;] *)
Definition request (cmd : Z) (q : ptr) (ok : M unit) : M unit :=
  r ← encodeR2000 cmd q; if r =? 0 then ok else fail.
(** [if (cmdRstr->para[0] == command_success)] *)
Definition if_success (ok : M unit) : M unit :=
  x ← para 0; if x =? command_success then ok else fail.
(** [if (cmdRstr->len > 4)] *)
Definition if_data (ok : M unit) : M unit :=
  len ← ld8 R2000_rec R_len; if len >? 4 then ok else fail.
(** [if ((cmdRstr->len > 4) && (cmdRstr->para[cmdRstr->para[2] + 3] == command_success))] *)
Definition if_tag_success (ok : M unit) : M unit :=
  len ← ld8 R2000_rec R_len;
  if len >? 4 then
    x ← para 2;
    y ← para (x + 3);
    if y =? command_success then ok else fail
  else fail.
Definition beep : M unit := putv beepFlag 1.

(** ** Settings of the module *)

Definition SetOutputPower (b : blk) : M unit :=
  p ← para_of b;
  p0 ← ldp p 0;
  (if p0 <? 20 then stp p 0 20 else if p0 >? 33 then stp p 0 33 else mret tt);;
  p0 ← ldp p 0;
  st8 g_device wp_OutputPower p0;;
  request 0x76 p (if_success (answer 0;; putv setFlag 1)).

Definition SetFrequency (b : blk) : M unit :=
  p ← para_of b;
  memcpy (dev off_FreqSelect) 0 p 0 6;;
  region ← ld8 g_device off_FreqSelect;
  when (region <? 4)
    (x ← ld8 g_device (off_FreqSelect + 2); st8 g_device wp_FrequencyMax x;;
     y ← ld8 g_device (off_FreqSelect + 1); st8 g_device wp_FrequencyMin y);;
  answer 0;;
  putv setFlag 1.

Definition SetFrequency1 (b : blk) : M unit :=
  p ← para_of b;
  x ← ld8 g_device wp_FrequencyMin; stp p 0 x;;
  y ← ld8 g_device wp_FrequencyMax; stp p 1 y;;
  request 0x78 p (if_success (answer 0)).

Definition SetAntenna (b : blk) : M unit :=
  p ← para_of b;
  DelayMs 10;;
  request 0x74 p (x ← para 0; if x =? command_success then answer 0 else answer 0).

Definition read_r2000vertion (b : blk) : M unit :=
  p ← para_of b;
  request 0x72 p (if_data (memcpy p 0 (At R2000_rec R_para) 0 2;; answer 2)).

(** ** Reports of the tags in [CardIndex] *)

(** Each row [pos + i]: the number of EPC words and the EPC, then, in the
    reports with signal strengths, the strength of row [i]. *)
Definition rssichk (rssi : Z) : M Z :=
  rssi ← (if rssi =? 0 then
            k ← getv bakrssi;
            when (k =? 0) (putv bakrssi 98);;
            getv bakrssi
          else mret rssi);
  let rssi := if rssi >? 98 then 98 else if rssi <? 31 then 31 else rssi in
  putv bakrssi rssi;;
  lift_opt (rd rssitab (rssi - 31)).

Fixpoint list_rows (with_rssi : bool) (p : ptr) (pos : Z) (n : nat) (i lenth_count : Z) : M Z :=
  match n with
  | O => mret lenth_count
  | S n =>
      w ← ld8 CardIndex ((pos + i) * ROW);
      let j := u8 (w * 2 + 1) in
      memcpy p lenth_count (At CardIndex ((pos + i) * ROW)) 0 j;;
      let lenth_count := u8 (lenth_count + j) in
      (if with_rssi then
         x ← ld8 CardIndex (i * ROW + COL_RSSI);
         c ← rssichk x;
         stp p lenth_count c;;
         list_rows with_rssi p pos n (i + 1) (u8 (lenth_count + 1))
       else list_rows with_rssi p pos n (i + 1) lenth_count)
  end.

(** At most eight tags are sent at once; the others wait for the list commands. *)
Definition first_batch : M Z :=
  n ← getv CardPos;
  putv Tag_all_number (u16 n);;
  all ← getv Tag_all_number;
  putv Tag_send_count (if all >? 8 then 8 else u8 all);;
  getv Tag_send_count.
Definition next_batch : M Z :=
  all ← getv Tag_all_number;
  sent ← getv Tag_send_count;
  if all - sent >? 8 then
    putv Tag_send_count (u8 (sent + 8));; mret 8
  else
    putv Tag_send_count (u8 all);; mret (u8 (all - sent)).
Definition send_rows (with_rssi : bool) (p : ptr) (pos n : Z) : M unit :=
  lc ← list_rows with_rssi p pos (Z.to_nat n) 0 1; answer lc.

(** ** ISO 18000-6B tags *)

Definition inventory_6B (setmask : M unit) (p : ptr) (ok : M unit) : M unit :=
  putv Tag_R2000_CMD91_number 0;;
  putv Tag_R2000_CMD80_number 0;;
  setmask;;
  putv CardPos 0;;
  r ← encodeR2000 0xB0 p;
  if negb (r =? 0xff) then ok else fail.

Definition DetectTagNum (b : blk) : M unit :=
  p ← para_of b;
  inventory_6B (putv MASK6B 0) p (n ← getv CardPos; stp p 0 n;; answer 1).

Definition ReadLabelID (b : blk) : M unit :=
  p ← para_of b;
  inventory_6B (putv MASK6B 0) p
    (n ← first_batch; all ← getv Tag_all_number; stp p 0 all;; send_rows false p 0 n).

Definition ListIDReport (b : blk) : M unit :=
  p ← para_of b;
  n ← next_batch;
  stp p 0 n;;
  send_rows false p 0 n.

Definition ListSelectedID (b : blk) : M unit :=
  p ← para_of b;
  inventory_6B
    (x ← ldp p 0; putv MASKSEL x;;
     x ← ldp p 1; putv MASKAddr6B x;;
     x ← ldp p 2; putv MASK6B x;;
     memcpy (At MASKData6B 0) 0 p 3 8) p
    (n ← first_batch; stp p 0 n;; send_rows false p 0 n).

Definition ReadByteBlock (b : blk) : M unit :=
  p ← para_of b;
  request 0xB1 p
    (if_data
       (beep;;
        len ← ld8 R2000_rec R_len;
        memcpy p 0 (At R2000_rec R_para) 1 (len - 4);;
        answer (len - 4))).

(** Also [WriteAByte].  The bytes written are moved to the front of the frame. *)
Definition WriteByteBlock (b : blk) : M unit :=
  p ← para_of b;
  request 0xB2 p
    (if_data (beep;; n ← ldp p 9; answer n;; memcpy p 0 p 10 n)).
Definition WriteAByte (b : blk) : M unit :=
  p ← para_of b;
  request 0xB2 p
    (if_data (beep;; n ← ldp p 9; answer n;; memcpy p 0 p 10 n)).

Definition WriteProtect (b : blk) : M unit :=
  p ← para_of b;
  request 0xB3 p (if_data (beep;; answer 0)).

Definition ReadWriteProtect (b : blk) : M unit :=
  p ← para_of b;
  request 0xB4 p
    (len ← ld8 R2000_rec R_len;
     if len >? 4 then beep;; x ← para 1; stp p 0 x;; answer 1
     else answer 1;; x ← para 0; stp p 0 x).

(** ** EPC C1G2 tags *)

(** The address of the mask is the frame's, its length is not: [CMDMasklen]
    is cleared.  An inventory (0x80), and one by one the tags it found (0x91). *)
Definition inventory_6C (b : blk) (start : M unit) (with_rssi : bool) : M unit :=
  p ← para_of b;
  hi ← ldp p 1; lo ← ldp p 2;
  putv CMDMaskaddr (Z.lor (u16 (Z.shiftl hi 8)) lo);;
  putv CMDMasklen 0;;
  memcpy (At CMDMaskData 0) 0 p 4 0;;
  putv CardPos 0;;
  m ← ld8 g_device wp_MaxReadCardNum;
  stp p 0 (if m <? 20 then 255 else 1);;
  start;;
  request 0x80 p
    (if_data
       (x ← para 1; y ← para 2;
        putv Tag_R2000_CMD80_number (Z.lor (Z.shiftl x 8) y);;
        n ← getv Tag_R2000_CMD80_number;
        if n >? 0 then
          DelayMs 5;;
          putv Tag_R2000_CMD91_number 0;;
          r ← encodeR2000 0x91 p;
          when (r =? 0)
            (n ← first_batch;
             all ← getv Tag_all_number;
             stp p 0 all;;
             send_rows with_rssi p 0 n)
        else fail)).
Definition EPC1G2_ListRSSIMaskTag (b : blk) : M unit := inventory_6C b (mret tt) true.
Definition EPC1G2_ListMaskTagID (b : blk) : M unit := inventory_6C b (putv timess 0) false.

Definition id_list (with_rssi : bool) (b : blk) : M unit :=
  p ← para_of b;
  pos ← getv Tag_send_count;
  all ← getv Tag_all_number;
  stp p 0 (all - pos);;
  n ← next_batch;
  send_rows with_rssi p pos n.
Definition EPC1G2_GetRSSIIDList (b : blk) : M unit := id_list true b.
Definition EPC1G2_GetIDList (b : blk) : M unit := id_list false b.

Definition EPC1G2_Accessmatch (b : blk) : M unit :=
  p ← para_of b;
  request 0x85 p (if_success (beep;; answer 0)).

(** Clear the module's match, then read the TID. *)
Definition EPC1G2_ListTagID (b : blk) : M unit :=
  p ← para_of b;
  putv CMDMasklen 0;;
  putv CardPos 0;;
  request 0xC5 p
    (if_success
       (DelayMs 5;;
        request 0xC1 p
          (if_data
             (beep;;
              n ← ld8 R2000_rec R_len;
              memcpy p 0 (At R2000_rec R_para) 0 (u8 (n - 3));;
              answer (u8 (n - 3)))))).

(** The same from the active mode, where the tag goes to [CardIndex]. *)
Definition EPC1G2_ListTagTID (b : blk) : M unit :=
  let p := At b (off_para SourceFrom232) in
  putv CMDMasklen 0;;
  r ← encodeR2000 0xC5 p;
  when (r =? 0)
    (x ← para 0;
     when (x =? command_success)
       (DelayMs 5;;
        bs ← getTime; stn g_device off_ReaderTime bs;;
        r ← encodeR2000 0xC1 p;
        when (r =? 0) (n ← getv read_count; putv read_count (u32 (n + 1))))).

(** Match the tag (0x85), wait, then the command itself. *)
Definition matched (b : blk) (cmd : Z) (ok : ptr -> M unit) : M unit :=
  p ← para_of b;
  request 0x85 p (if_success (DelayMs 10;; request cmd p (ok p))).

Definition EPC1G2_ReadWordBlock (b : blk) : M unit :=
  matched b 0x81 (fun p =>
    if_data
      (beep;;
       n ← ld8 R2000_rec R_len;
       let end_ := n - 2 in
       len ← ld8 R2000_rec end_;
       memcpy p 0 (At R2000_rec (end_ - len)) 0 len;;
       answer len)).
Definition write_ok : M unit := if_tag_success (beep;; answer 0).
Definition EPC1G2_WriteWordBlock (b : blk) : M unit := matched b 0x82 (fun _ => write_ok).
Definition EPC1G2_WriteSetBlock (b : blk) : M unit := matched b 0x83 (fun _ => write_ok).
Definition DestroyTag (b : blk) : M unit := matched b 0x84 (fun _ => write_ok).

(** [tmpEpcdata] is local to its function; what it holds beyond the copied
    bytes is unspecified in C, here it is what the block held before. *)
Definition save_Epcdata (p : ptr) : M unit :=
  n ← ldp p 0;
  let n := u8 (n * 2 + 5) in
  memcpy (At tmpEpcdata 0) 0 p 0 (if n >? 35 then 35 else n).
(** The match the module answered to 0x86. *)
Definition take_match (p : ptr) : M unit :=
  n ← para 1;
  stp p 0 (Z.shiftr n 1);;
  memcpy p 1 (At R2000_rec R_para) 2 n.

Definition EPC1G2_WriteEPC (b : blk) : M unit :=
  p ← para_of b;
  save_Epcdata p;;
  request 0x86 p
    (x ← para 0;
     if x =? 0 then
       take_match p;;
       request 0xC5 p (if_success (request 0xC2 (At tmpEpcdata 0) write_ok))
     else if x =? 1 then request 0xC2 p write_ok
     else fail).

(** The length reported is [flag_return], which is 0 there. *)
Definition epc_data (p : ptr) : M unit :=
  if_data
    (beep;;
     n ← para 6;
     memcpy p 0 (At R2000_rec R_para) 7 n;;
     answer 0).
Definition ReadEPCAndData (b : blk) : M unit :=
  p ← para_of b;
  save_Epcdata p;;
  request 0x86 p
    (x ← para 0;
     if (x =? 0) && (x >? 0) then
       take_match p;;
       request 0xC5 p (if_success (request 0xC1 (At tmpEpcdata 0) (epc_data p)))
     else if x =? 1 then request 0xC1 p (epc_data p)
     else fail).

(** ** The records of the active mode *)

(** [cmdTmpBuf[cmdTmpLen - 17 + k] = v] *)
Definition record_set (k v : Z) : M unit :=
  n ← getv cmdTmpLen; st8 cmdTmpBuf (n - 17 + k) v.
Definition record_time (k : Z) : M unit :=
  for_ 6 0 (fun i => x ← ld8 g_device (off_ReaderTime + i); record_set (k + i) x).
Definition put_record : M unit :=
  record_time 1;;
  record_time 7;;
  record_set 13 0;;
  record_set 14 0;;
  a ← ld8 g_device ap_Antenna; record_set 15 a;;
  t ← ld8 g_device wp_TagType; record_set 16 t;;
  n ← getv cmdTmpLen;
  k ← getv cmd57ReadTagCount;
  w ← ld8 CardIndex (k * ROW);
  memcpy (At cmdTmpBuf 0) n (At CardIndex (k * ROW)) 0 (2 * w + 1);;
  w ← ld8 CardIndex (k * ROW);
  let j := n + (2 * w + 1) in
  putv cmdTmpLen (u8 (17 + j - 1));;
  putv cmd57ReadTagCount (u8 (k + 1)).
(** [for (i = 0; i < cmdTmpBuf[0]; i++)]: the bound is a byte, so 256 turns
    are enough. *)
Fixpoint put_records (fuel : nat) (i : Z) : M unit :=
  match fuel with
  | O => mret tt
  | S fuel =>
      n ← ld8 cmdTmpBuf 0;
      if i <? n then put_record;; put_records fuel (i + 1) else mret tt
  end.

(** common.c sees the low byte of [TagSaveCount]. *)
Definition GetTagRecord (b : blk) : M unit :=
  bs ← getTime; stn g_device off_ReaderTime bs;;
  putv cmdTmpLen 17;;
  n ← getv TagSaveCount;
  k ← getv cmd57ReadTagCount;
  let left := u8 n - k in
  if left >? 7 then
    st8 cmdTmpBuf 0 8;;
    for_ 8 0 (fun _ => put_record)
  else if left >? 0 then
    st8 cmdTmpBuf 0 left;;
    put_records 256 0;;
    putv cmd57ReadTagCount 0
  else
    st8 cmdTmpBuf 0 0;;
    putv cmd57ReadTagCount 0.

(** ** The dispatch *)
Definition handler (f : fn) (b : blk) : M unit :=
  match f with
  | fn_SetBaudRate => SetBaudRate
  | fn_SetRelay => SetRelay
  | fn_SetOutputPower => SetOutputPower b
  | fn_SetFrequency => SetFrequency b
  | fn_ReadParam => ReadParam
  | fn_SetAntenna => SetAntenna b
  | fn_ReadReaderPara => ReadReaderPara
  | fn_Reboot => Reboot
  | fn_SetReaderWorkType => SetReaderWorkType
  | fn_ClearTagListMem => ClearTagListMem
  | fn_SetReaderTime => SetReaderTime
  | fn_GetReaderTime => GetReaderTime
  | fn_read_r2000vertion => read_r2000vertion b
  | fn_GetReaderRevStatus => GetReaderRevStatus
  | fn_GetTagRecord => GetTagRecord b
  | fn_SetFrequency1 => SetFrequency1 b
  | fn_EPC1G2_ListRSSIMaskTag => EPC1G2_ListRSSIMaskTag b
  | fn_EPC1G2_GetRSSIIDList => EPC1G2_GetRSSIIDList b
  | fn_EPC1G2_Accessmatch => EPC1G2_Accessmatch b
  | fn_EPC1G2_ListTagID => EPC1G2_ListTagID b
  | fn_EPC1G2_ListMaskTagID => EPC1G2_ListMaskTagID b
  | fn_EPC1G2_GetIDList => EPC1G2_GetIDList b
  | fn_EPC1G2_ReadWordBlock => EPC1G2_ReadWordBlock b
  | fn_EPC1G2_WriteWordBlock => EPC1G2_WriteWordBlock b
  | fn_EPC1G2_WriteSetBlock => EPC1G2_WriteSetBlock b
  | fn_DestroyTag => DestroyTag b
  | fn_EPC1G2_WriteEPC => EPC1G2_WriteEPC b
  | fn_ReadEPCAndData => ReadEPCAndData b
  | fn_DetectTagNum => DetectTagNum b
  | fn_ReadLabelID => ReadLabelID b
  | fn_ListIDReport => ListIDReport b
  | fn_ListSelectedID => ListSelectedID b
  | fn_ReadByteBlock => ReadByteBlock b
  | fn_WriteByteBlock => WriteByteBlock b
  | fn_WriteProtect => WriteProtect b
  | fn_ReadWriteProtect => ReadWriteProtect b
  | fn_WriteAByte => WriteAByte b
  | fn_EraseTagData | fn_DataLocking | fn_EPC1G2_changeeas | fn_EPC1G2_EasAlarm
  | fn_EPC1G2_ReadProtect | fn_EPC1G2_RSTReadProtect | fn_SetUserDataProtect => answer 0
  | fn_WriteRadioDeep | fn_ReadRadioDeep | fn_WriteParam | fn_SetReaderPara
  | fn_SetAutoPara | fn_GetAutoPara | fn_SetTagFilter | fn_SetReaderNetwork
  | fn_SetReaderMAC | fn_SetReaderOutStatus | fn_GetReaderOutStatus
  | fn_ImmediatelyNotify | fn_UpdateProgrram => mret tt
  end.

(** ** What a handler leaves *)

Definition leaves {A} (m : M A) (Q : fw -> Prop) : Prop := forall s a s', m s = Ret (a, s') -> Q s'.
Lemma leaves_bind {A B} (m : M A) (k : A -> M B) Q :
  (forall a, leaves (k a) Q) -> leaves (m ≫= k) Q.
Proof using Type.
  intros Hk s b s'. rewrite bind_run. destruct (m s) as [[a s1]| | |]; [|done..]. apply Hk.
Qed.
Lemma leaves_if {A} (c : bool) (m n : M A) Q : leaves m Q -> leaves n Q -> leaves (if c then m else n) Q.
Proof using Type. by destruct c. Qed.
Lemma leaves_putv x v (Q : fw -> Prop) : (forall s, Q (put x v s)) -> leaves (putv x v) Q.
Proof using Type. intros HQ s a s' [= <- <-]. apply HQ. Qed.

(** The answer of the command that reads an EPC and
    the data with it never carries data: whenever [ReadEPCAndData] returns,
    the length it leaves is 0 or the mark of failure, although the data has
    been copied into the frame. *)
Theorem ReadEPCAndData_no_data b s s' :
  ReadEPCAndData b s = Ret (tt, s') -> get cmdTmpLen s' = 0 \/ get cmdTmpLen s' = BUF_LEN.
Proof using Type.
  revert s'. assert (Hl : leaves (ReadEPCAndData b)
    (fun s' => get cmdTmpLen s' = 0 \/ get cmdTmpLen s' = BUF_LEN)); [|by intros s'; apply Hl].
  unfold ReadEPCAndData, request, if_success, epc_data, if_data.
  repeat first
    [ apply leaves_bind; intros ?
    | apply leaves_if
    | apply leaves_putv; intros; mget; auto
    | unfold answer, fail ].
Qed.

(** The module's answer holds a success code where a tag command puts it. *)
Definition tag_answer (m : bytes) : Prop :=
  exists len x, rd m R_len = Some len /\ 4 < len /\ rd m (R_para + 2) = Some x /\
    rd m (R_para + (x + 3)) = Some command_success.
Lemma write_ok_leaves :
  leaves write_ok (fun s => get cmdTmpLen s = 0 -> tag_answer (block R2000_rec s)).
Proof using Type.
  intros s a s'. unfold write_ok, if_tag_success, beep, answer, fail, para. rewrite bind_run.
  unfold ld8, lift_opt. destruct (rd (block R2000_rec s) R_len) as [len|] eqn:El; [|done].
  cbn [obind]. rewrite Z.gtb_ltb. destruct (Z.ltb_spec 4 len) as [Hlt|]; [|by mrun; intros [= <- <-]; mget].
  rewrite bind_run. unfold ld8, lift_opt.
  destruct (rd (block R2000_rec s) (R_para + 2)) as [x|] eqn:Ex; [|done]. cbn [obind].
  rewrite bind_run. unfold ld8, lift_opt.
  destruct (rd (block R2000_rec s) (R_para + (x + 3))) as [y|] eqn:Ey; [|done]. cbn [obind].
  destruct (Z.eqb_spec y command_success) as [->|]; mrun; intros [= <- <-]; mget; [|done].
  intros _. exists len, x. auto.
Qed.

Lemma fail_leaves (P : fw -> Prop) : leaves fail (fun s => get cmdTmpLen s = 0 -> P s).
Proof using Type. apply leaves_putv. intros s. by mget. Qed.

(** the handlers that change a tag (write, lock, kill,
    write the EPC) report success only when the module's last answer holds the
    success code after the echo of the tag's EPC. *)
Theorem tag_writes_honest f b s s' :
  f ∈ [fn_EPC1G2_WriteWordBlock; fn_EPC1G2_WriteSetBlock; fn_DestroyTag; fn_EPC1G2_WriteEPC] ->
  handler f b s = Ret (tt, s') -> get cmdTmpLen s' = 0 -> tag_answer (block R2000_rec s').
Proof using Type.
  intros Hf. revert s'. assert (Hl : leaves (handler f b)
    (fun s => get cmdTmpLen s = 0 -> tag_answer (block R2000_rec s))); [|by intros s'; apply Hl].
  rewrite !elem_of_cons, elem_of_nil in Hf. destruct Hf as [->|[->|[->|[->|[]]]]]; cbn [handler];
    unfold EPC1G2_WriteWordBlock, EPC1G2_WriteSetBlock, DestroyTag, EPC1G2_WriteEPC, matched,
      request, if_success;
    repeat first
      [ apply write_ok_leaves
      | apply fail_leaves
      | apply leaves_bind; intros ?
      | apply leaves_if ].
Qed.

(** ** Signal strengths *)

(** The reading [rssichk] uses for [rssi]: the last one when there is none. *)
Definition clamp (r : Z) : Z := if r >? 98 then 98 else if r <? 31 then 31 else r.
Definition level (bak rssi : Z) : Z :=
  clamp (if rssi =? 0 then if bak =? 0 then 98 else bak else rssi).
Definition dbm (v : Z) : Z := if v <? 90 then 130 - v else 129 - v.

Lemma level_range bak rssi : 31 <= level bak rssi <= 98.
Proof using Type. unfold level, clamp. zcases. Qed.
Lemma dbm_antitone v w : v <= w -> dbm w <= dbm v.
Proof using Type. unfold dbm. intros. destruct (Z.ltb_spec v 90), (Z.ltb_spec w 90); lia. Qed.
Definition rssitab_at (i : Z) : bool :=
  match rd rssitab i with Some v => v =? dbm (i + 31) | None => false end.
Lemma rssitab_all : forallb rssitab_at (seqZ 0 68) = true.
Proof using Type. vm_compute. reflexivity. Qed.
Lemma rssitab_dbm v : 31 <= v <= 98 -> rd rssitab (v - 31) = Some (dbm v).
Proof using Type.
  intros Hv. assert (Hb := below rssitab_at 68 (v - 31) rssitab_all ltac:(lia)).
  unfold rssitab_at in Hb. destruct (rd rssitab (v - 31)) as [d|]; [|done].
  apply Z.eqb_eq in Hb as ->. do 2 f_equal. lia.
Qed.

Lemma rssichk_run x s :
  exists s', rssichk x s = Ret (dbm (level (get bakrssi s) x), s') /\
    get bakrssi s' = level (get bakrssi s) x /\
    (forall y, y ≠ bakrssi -> get y s' = get y s) /\ (forall b, block b s' = block b s) /\
    (wf s -> wf s').
Proof using Type.
  assert (Ht : forall r, rd rssitab (clamp r - 31) = Some (dbm (clamp r))).
  { intros r. apply rssitab_dbm. unfold clamp. zcases. }
  unfold rssichk, level. destruct (x =? 0); mrun; [destruct (get bakrssi s =? 0)|]; cbn [when]; mrun; mget;
    match goal with |- context [if ?r >? 98 then _ else _] => fold (clamp r) end; rewrite Ht;
    (eexists; split; [done|]);
    (split; [by mget|split; [by intros; mget|split; [by intros; mget|by auto with fwdb]]]).
Qed.

(** The strength reported is the table's for the reading
    clamped to 31..98, a missing reading (0) standing for the last one; the
    table is never read outside its 68 entries, and what is reported lies
    between 31 and 99 and falls as the reading grows. *)
Theorem rssichk_spec x s :
  (exists s', rssichk x s = Ret (dbm (level (get bakrssi s) x), s') /\
     get bakrssi s' = level (get bakrssi s) x) /\
  31 <= dbm (level (get bakrssi s) x) <= 99 /\
  (forall y, 0 < x < y -> dbm (level (get bakrssi s) y) <= dbm (level (get bakrssi s) x)) /\
  ~ exists v, 31 <= v <= 98 /\ dbm v = 40.
Proof using Type.
  destruct (rssichk_run x s) as (s' & E & Hb & _). pose proof (level_range (get bakrssi s) x).
  split; [by exists s'|]. split; [unfold dbm; zcases|]. split.
  - intros y Hy. apply dbm_antitone. unfold level. zcases. unfold clamp. zcases.
  - intros (v & Hv & Hd). revert Hd. unfold dbm. zcases.
Qed.
End handlers.
