(* ===== verification/Pages.v ===== *)
(** * Sending the tags of an inventory in pages (common.c)

    An inventory leaves its tags in [CardIndex]; the host fetches them eight at
    a time.  [page] is what one fetch carries, computed on the contents of
    [CardIndex]; the list commands refine it. *)
From stdpp Require Import base tactics list numbers option gmap.
From S2P Require Import Prelude Machine Effects Packet ParamTable Process Radio Request Handlers.

Section pages.
Context `{Board}.

(** The rows [pos + i], [pos + i + 1], ... of [m]: word count and EPC, and, with
    strengths, what [rssichk] makes of the strength of row [i] after a last
    reading of [bak].  [None] when a row is not in the table. *)
Fixpoint page (with_rssi : bool) (m : bytes) (pos : Z) (n : nat) (i bak : Z) : option (bytes * Z) :=
  match n with
  | O => Some ([], bak)
  | S n =>
      w ← rd m ((pos + i) * ROW);
      row ← rdn m ((pos + i) * ROW) (u8 (w * 2 + 1));
      if with_rssi then
        x ← rd m (i * ROW + COL_RSSI);
        '(rest, bak') ← page with_rssi m pos n (i + 1) (level bak x);
        Some (row ++ [dbm (level bak x)] ++ rest, bak')
      else
        '(rest, bak') ← page with_rssi m pos n (i + 1) bak;
        Some (row ++ rest, bak')
  end.

Lemma dbm_level_u8 bak x : 0 <= dbm (level bak x) < 256.
Proof using Type. pose proof (level_range bak x). unfold dbm. zcases. Qed.

(** What writing a page into [b] at [at_] leaves. *)
Record paged (b : blk) (at_ : Z) (bs : bytes) (bak : Z) (s s' : fw) : Prop := {
  pg_wf : wf s';
  pg_bytes : rdn (block b s') at_ (blen bs) = Some bs;
  pg_before : forall j, j < at_ -> rd (block b s') j = rd (block b s) j;
  pg_other : forall c, c ≠ b -> block c s' = block c s;
  pg_get : forall x, x ≠ bakrssi -> get x s' = get x s;
  pg_bak : get bakrssi s' = bak }.

Lemma paged_nil b a s : wf s -> 0 <= a <= bsize b -> paged b a [] (get bakrssi s) s s.
Proof using Type.
  intros Hwf Ha. split; try done. change (blen []) with 0. rewrite rdn_in; [done|lia..|].
  rewrite (wf_size s Hwf). lia.
Qed.

(** Two writes one after the other. *)
Lemma paged_app b a x y bak bak' s s1 s2 :
  0 <= a -> paged b a x bak s s1 -> paged b (a + blen x) y bak' s1 s2 ->
  paged b a (x ++ y) bak' s s2.
Proof using Type.
  intros Ha [Hw1 Hb1 Hf1 Ho1 Hg1 _] [Hw2 Hb2 Hf2 Ho2 Hg2 Hk2]. pose proof (blen_nonneg x). split.
  - done.
  - rewrite blen_app. eapply rdn_app; [|exact Hb2]. rewrite <- Hb1. apply rdn_ext.
    + by rewrite !wf_size.
    + intros i Hi. apply Hf2. lia.
  - intros j Hj. rewrite Hf2 by lia. by apply Hf1.
  - intros c Hc. by rewrite Ho2, Ho1.
  - intros z Hz. by rewrite Hg2, Hg1.
  - done.
Qed.

Lemma stn_paged b a bs s :
  wf s -> bytes_ok bs -> 0 <= a -> a + blen bs <= bsize b ->
  exists s', stn b a bs s = Ret (tt, s') /\ paged b a bs (get bakrssi s) s s'.
Proof using Type.
  intros Hwf Hb Ha Hl. destruct (stn_wf b a bs s Hwf Hb Ha Hl) as (m & Hw & E & Hwf').
  eexists. split; [done|]. split; [done| | | |by intros; mget|by mget].
  - mget. by eapply rdn_wrn_same.
  - intros j Hj. mget. eapply rd_wrn_out; [done|lia].
  - intros c Hc. by mget.
Qed.
Lemma st8_paged b a v s :
  wf s -> 0 <= v < 256 -> 0 <= a < bsize b ->
  exists s', st8 b a v s = Ret (tt, s') /\ paged b a [v] (get bakrssi s) s s'.
Proof using Type.
  intros Hwf Hv Ha. destruct (st8_wf b a v s Hwf Ha) as (m & Hw & E & Hwf').
  eexists. split; [done|]. split; [done| | | |by intros; mget|by mget].
  - mget. apply rdn_1. by rewrite (rd_wr_eq _ _ _ _ Hw), u8_small.
  - intros j Hj. mget. eapply rd_wr_ne; [done|lia].
  - intros c Hc. by mget.
Qed.

Lemma memcpy_paged b o lc src so n bs s :
  wf s -> rdn (block src s) so n = Some bs -> 0 <= o + lc -> o + lc + n <= bsize b ->
  exists s', memcpy (At b o) lc (At src so) 0 n s = Ret (tt, s') /\
    paged b (o + lc) bs (get bakrssi s) s s'.
Proof using Type.
  intros Hwf Hr Ha Hl. unfold memcpy. rewrite bind_run. cbn [ldpn]. rewrite Z.add_0_r.
  rewrite (ldn_run _ _ _ _ _ Hr). cbn [obind stpn].
  apply stn_paged; [done| |done|by rewrite (rdn_blen _ _ _ _ Hr)].
  eapply rdn_ok, Hr. by apply wf_bytes.
Qed.

Lemma rssichk_paged b a x s :
  wf s -> 0 <= a <= bsize b ->
  exists s', rssichk x s = Ret (dbm (level (get bakrssi s) x), s') /\
    paged b a [] (level (get bakrssi s) x) s s'.
Proof using Type.
  intros Hwf Ha. destruct (rssichk_run x s) as (s' & E & Hb & Hg & Hbl & Hw).
  exists s'. split; [done|]. destruct (paged_nil b a s' (Hw Hwf) Ha).
  split; [auto|done|intros j _; by rewrite Hbl|auto|auto|done].
Qed.

Lemma paged_same b at_ bs bak s s' c : paged b at_ bs bak s s' -> c ≠ b -> block c s' = block c s.
Proof using Type. intros []; auto. Qed.

Lemma list_rows_run r b o pos n i lc bs bak' s :
  wf s -> b ≠ CardIndex -> page r (block CardIndex s) pos n i (get bakrssi s) = Some (bs, bak') ->
  0 <= o -> 0 <= lc -> lc + blen bs < 256 -> o + lc + blen bs <= bsize b ->
  exists s', list_rows r (At b o) pos n i lc s = Ret (lc + blen bs, s') /\
    paged b (o + lc) bs bak' s s'.
Proof using Type.
  revert i lc bs bak' s. induction n as [|n IH]; intros i lc bs bak' s Hwf Hb Hp Ho Hlc Hfit Hsz.
  { cbn in Hp. injection Hp as <- <-. exists s. split; [by rewrite Z.add_0_r|].
    apply paged_nil; [done|]. change (blen []) with 0 in Hsz. lia. }
  cbn [page] in Hp.
  destruct (rd _ ((pos + i) * ROW)) as [w|] eqn:Ew; [|done]. cbn [mbind option_bind] in Hp.
  destruct (rdn _ _ (u8 (w * 2 + 1))) as [row|] eqn:Er; [|done]. cbn [mbind option_bind] in Hp.
  pose proof (rdn_blen _ _ _ _ Er) as Hrow. pose proof (u8_range (w * 2 + 1)) as Hj.
  cbn [list_rows]. rewrite bind_run, (ld8_run _ _ _ _ Ew). cbn [obind]. cbv zeta. rewrite bind_run.
  destruct r.
  - destruct (rd _ (i * ROW + COL_RSSI)) as [x|] eqn:Ex; [|done]. cbn [mbind option_bind] in Hp.
    destruct (page true _ pos n (i + 1) _) as [[rest b2]|] eqn:Ep; [|done]. injection Hp as <- <-.
    rewrite blen_app, blen_cons in Hfit, Hsz. rewrite blen_app, blen_cons. pose proof (blen_nonneg rest).
    rewrite <- Hrow in *.
    destruct (memcpy_paged b o lc _ _ _ row s Hwf Er) as (s1 & -> & P1); [lia..|]. cbn [obind].
    rewrite (u8_small (lc + blen row)) by lia.
    rewrite bind_run, (ld8_run _ _ s1 x) by (by rewrite (pg_other _ _ _ _ _ _ P1)). cbn [obind].
    destruct (rssichk_paged b (o + lc + blen row) x s1 (pg_wf _ _ _ _ _ _ P1)) as (s2 & E2 & P2); [lia|].
    rewrite bind_run, E2. cbn [obind stp]. rewrite (pg_bak _ _ _ _ _ _ P1) in *.
    pose proof (dbm_level_u8 (get bakrssi s) x) as Hd.
    rewrite bind_run. replace (o + (lc + blen row)) with (o + lc + blen row) by lia.
    destruct (st8_paged b (o + lc + blen row) _ s2 (pg_wf _ _ _ _ _ _ P2) Hd) as (s3 & -> & P3); [lia|].
    cbn [obind]. rewrite u8_small by lia. rewrite (pg_bak _ _ _ _ _ _ P2) in P3.
    destruct (IH (i + 1) (lc + blen row + 1) rest b2 s3) as (s4 & -> & P4);
      [by eapply pg_wf| done | |lia..|].
    { rewrite (paged_same _ _ _ _ _ _ CardIndex P3), (paged_same _ _ _ _ _ _ CardIndex P2),
        (paged_same _ _ _ _ _ _ CardIndex P1) by done. by rewrite (pg_bak _ _ _ _ _ _ P3). }
    exists s4. split; [do 2 f_equal; lia|].
    eapply paged_app; [lia|exact P1|].
    eapply (paged_app _ _ [] ([_] ++ rest)); [lia|exact P2|]. change (blen []) with 0. rewrite Z.add_0_r.
    eapply paged_app; [lia|exact P3|]. change (blen [_]) with 1.
    by replace (o + lc + blen row + 1) with (o + (lc + blen row + 1)) by lia.
  - destruct (page false _ pos n (i + 1) _) as [[rest b2]|] eqn:Ep; [|done]. injection Hp as <- <-.
    rewrite blen_app in Hfit, Hsz. rewrite blen_app. pose proof (blen_nonneg rest).
    rewrite <- Hrow in *.
    destruct (memcpy_paged b o lc _ _ _ row s Hwf Er) as (s1 & -> & P1); [lia..|]. cbn [obind].
    rewrite (u8_small (lc + blen row)) by lia.
    destruct (IH (i + 1) (lc + blen row) rest b2 s1) as (s4 & -> & P4);
      [by eapply pg_wf|done| |lia..|].
    { by rewrite (paged_same _ _ _ _ _ _ CardIndex P1), (pg_bak _ _ _ _ _ _ P1). }
    exists s4. split; [do 2 f_equal; lia|].
    eapply paged_app; [lia|exact P1|].
    by replace (o + lc + blen row) with (o + (lc + blen row)) by lia.
Qed.

(** one fetch of tags.  With [all] tags found and [pos] of them
    sent, the list command answers the number still to send, then the next
    rows of [CardIndex], eight at most, and moves the position past them; its
    answer's length is that of what it wrote.  (The strength that
    [EPC1G2_GetRSSIIDList] puts after row [pos + i] is that of row [i]: after
    the first page the strengths are those of other tags.) *)
Theorem tag_page r b s pos all bs bak' :
  wf s -> bsize b = SBUF_size -> b ≠ CardIndex ->
  get Tag_send_count s = pos -> get Tag_all_number s = all -> 0 <= pos <= all -> all < 256 ->
  let n := Z.min 8 (all - pos) in
  page r (block CardIndex s) pos (Z.to_nat n) 0 (get bakrssi s) = Some (bs, bak') ->
  1 + blen bs < 255 ->
  exists s', (if r then EPC1G2_GetRSSIIDList b else EPC1G2_GetIDList b) s = Ret (tt, s') /\
    rdn (block b s') (off_para (get TagDataOrigin s)) (1 + blen bs) = Some ((all - pos) :: bs) /\
    get cmdTmpLen s' = 1 + blen bs /\ get Tag_send_count s' = pos + n.
Proof using Type.
  intros Hwf Hsz Hb Hpos Hall Hr Ha n Hp Hfit. set (o := off_para (get TagDataOrigin s)).
  assert (Ho : 3 <= o <= 4) by (unfold o, off_para, addr_bytes; destruct (_ =? _); lia).
  pose proof (blen_nonneg bs). unfold SBUF_size in Hsz.
  assert (He : (if r then EPC1G2_GetRSSIIDList b else EPC1G2_GetIDList b) = id_list r b) by (by destruct r).
  rewrite He. unfold id_list, para_of. mrun. fold o. rewrite Hpos, Hall. cbn [stp].
  destruct (st8_paged b (o + 0) (all - pos) s Hwf) as (s1 & -> & P1); [lia..|]. cbn [obind].
  assert (Hg : forall x, x ≠ bakrssi -> get x s1 = get x s) by (apply (pg_get _ _ _ _ _ _ P1)).
  unfold next_batch. mrun. rewrite !Hg, Hpos, Hall by done.
  assert (Hn : (if all - pos >? 8 then putv Tag_send_count (u8 (pos + 8));; mret 8
                else putv Tag_send_count (u8 all);; mret (u8 (all - pos))) s1 =
               Ret (n, put Tag_send_count (pos + n) s1)).
  { rewrite Z.gtb_ltb. unfold n. destruct (Z.ltb_spec 8 (all - pos)); mrun; rewrite !u8_small by lia;
      do 3 f_equal; lia. }
  rewrite Hn. cbn [obind]. unfold send_rows. rewrite bind_run.
  pose proof (pg_wf _ _ _ _ _ _ P1) as Hwf1.
  destruct (list_rows_run r b o pos (Z.to_nat n) 0 1 bs bak' (put Tag_send_count (pos + n) s1))
    as (s2 & -> & P2); [by apply wf_put|done| |lia..|].
  { mget. rewrite (paged_same _ _ _ _ _ _ CardIndex P1) by done. by rewrite (pg_bak _ _ _ _ _ _ P1). }
  cbn [obind]. unfold answer. eexists. split; [done|]. mget. rewrite u8_small by lia.
  split; [|split; [done|]].
  - change ((all - pos) :: bs) with ([all - pos] ++ bs). eapply rdn_app; [|exact (pg_bytes _ _ _ _ _ _ P2)].
    rewrite <- (pg_bytes _ _ _ _ _ _ P1), Z.add_0_r. apply rdn_ext.
    + by rewrite !wf_size by first [exact Hwf1 | exact (pg_wf _ _ _ _ _ _ P2)].
    + intros j Hj. change (blen [_]) with 1 in Hj. rewrite (pg_before _ _ _ _ _ _ P2) by lia. by mget.
  - rewrite (pg_get _ _ _ _ _ _ P2) by done. by mget.
Qed.
End pages.
