(* ===== verification/Channels.v ===== *)
(** * The host channels (Local_232_module.c, Local_485_module.c, UDP_module.c)

    Initialisation and transmission of the two serial ports, the polling of
    their receivers from the main loop, and the UDP side.  What lwIP does is a
    parameter: [pbuf_alloc] says whether a buffer of the given size can be
    allocated. *)
From stdpp Require Import base tactics list numbers option gmap.
From S2P Require Import Prelude Machine Effects Timers Tick Serial Packet ParamTable Process Device Ds1302 Radio Request Handlers.

Definition wp_ReaderPortHigh : Z := 87.
Definition wp_ReaderPortLow : Z := 88.
Definition IP_BROADCAST : Z := 0xFFFFFFFF.

(** [IP4_ADDR]. *)
Definition IP4_ADDR (a b c d : Z) : Z := a * 16777216 + b * 65536 + c * 256 + d.

Section channels.
Context `{Board}.

Definition ulBautRate : M Z :=
  c ← ld8 g_device wp_BaudRate;
  switch c
    [ ([0x04], mret 9600); ([0x05], mret 19200); ([0x06], mret 38400);
      ([0x07], mret 57600); ([0x08], mret 115200) ]
    (putv SelfCheckFailure 3;; mret 115200).

Definition RS232_init : M unit :=
  baud ← ulBautRate; port_zero port232;; emit (UsartInit 2 baud).
Definition RS485_init : M unit :=
  baud ← ulBautRate; port_zero port485;; emit (UsartInit 1 baud).

Definition RS232Send (q : ptr) (ucCount : Z) : M unit :=
  if ucCount >=? BUF_LEN then mret tt
  else bs ← ldpn q 0 ucCount; emit_bytes Tx2 bs.

(** [Disable485] drives the bus, [Enable485] releases it.  A count that does
    not fit returns between the two. *)
Definition RS485Send (q : ptr) (ucCount : Z) : M unit :=
  emit (PinHi EN485);;
  if ucCount >=? BUF_LEN then mret tt
  else
    bs ← ldpn q 0 ucCount; emit_bytes Tx1 bs;;
    DelayMs 20;;
    emit (PinLo EN485).

(** [Local_232_module] and [Local_485_module]: a receiver whose timer ran out
    is reset; a complete frame is processed and, unless the answer is
    [ERRORNORETURN], answered. *)
Definition Local_module (p : port) (cmdOrigin : Z) (send : ptr -> Z -> M unit) : M unit :=
  o ← timerIsOverflow (p_timer p);
  when (negb (o =? 0)) (port_zero p);;
  m ← getv (p_mark p);
  when (negb (m =? 0))
    (len ← ld32 (p_rec p) SBUF_len;
     if (len <? 4) || (len >? BUF_LEN) then port_zero p
     else
       putv (p_mark p) 0;;
       len ← ld32 (p_rec p) SBUF_len;
       r ← processParamTable handler cmdOrigin (p_rec p) len;
       when (negb (ERRORNORETURN =? r))
         (n ← ld8 (p_rec p) off_len;
          st32 (p_rec p) SBUF_len (n + 2);;
          len ← ld32 (p_rec p) SBUF_len;
          send (At (p_rec p) 0) len)).
Definition Local_232_module : M unit := Local_module port232 SourceFrom232 RS232Send.
Definition Local_485_module : M unit := Local_module port485 SourceFrom485 RS485Send.

Section udp.
Context (pbuf_alloc : Z -> fw -> bool).

Definition UDP_sendData (destAddr port : Z) (q : ptr) (ucCount : Z) : M unit := fun s =>
  (if pbuf_alloc ucCount s then bs ← ldpn q 0 ucCount; emit (TxUdp destAddr port bs)
   else mret tt) s.

(** [payload]: the first [pbuf] of the datagram.  It is copied before its
    length is looked at. *)
Definition UDP_Receive (payload : bytes) (addr port : Z) : M unit :=
  stn uip_rec 0 payload;;
  st32 uip_rec SBUF_len (blen payload);;
  len ← ld32 uip_rec SBUF_len;
  (if (len <? 4) || (len >? BUF_LEN) then mret tt
   else
     r ← processParamTable handler SourceFromUDP uip_rec len;
     when (negb (ERRORNORETURN =? r))
       (n ← ld8 uip_rec off_len;
        st32 uip_rec SBUF_len (n + 2);;
        len ← ld32 uip_rec SBUF_len;
        UDP_sendData addr port (At uip_rec 0) len));;
  zero uip_rec.

(** [udp_new] may fail; the port bound is [ccc]. *)
Definition UDP_init (pcb : bool) : M Z :=
  h ← ld8 g_device wp_ReaderPortHigh;
  l ← ld8 g_device wp_ReaderPortLow;
  let ccc := u16 (u16 (Z.shiftl h 8) + l) in
  when (negb pcb) (putv SelfCheckFailure 4);;
  mret ccc.

(** The announcement every 300 ticks: the address, the port and the identity
    of the reader. *)
Definition Udp_BroadCast : M unit :=
  o ← timerIsOverflow UIP_timer;
  when (negb (o =? 0))
    (timerStart UIP_timer 300;;
     st8 uip_rec 0 0xF0;;
     st8 uip_rec 1 18;;
     st8 uip_rec 2 0;;
     memcpy (At uip_rec 3) 0 (dev wp_ReaderIP1) 0 6;;
     memcpy (At uip_rec 9) 0 (dev off_ReaderID) 0 10;;
     st32 uip_rec SBUF_len 20;;
     c ← SetChecksum uip_rec 19;
     st8 uip_rec 19 c;;
     n ← ld32 uip_rec SBUF_len;
     UDP_sendData IP_BROADCAST 4444 (At uip_rec 0) n).
End udp.
End channels.
