(* ===== verification/Session.v ===== *)
(** * A conversation on the RS-232 port, from bytes received to bytes sent

    The receive interrupt, the polling of the main loop, [processParamTable],
    the transmission and the saving of the parameters, run one after the
    other: a refused command, and one that sets a parameter. *)
From stdpp Require Import base tactics list numbers option gmap.
From S2P Require Import Prelude Machine Effects Timers Tick Serial Packet ParamTable Process Flash Device Ds1302 Radio Request Wait Handlers Channels.

Section session.
Context `{Board}.

(** ** What a program leaves alone

    [moves R m]: from any state, if [m] returns, it has moved along [R]. *)
Definition moves {A} (R : fw -> fw -> Prop) (m : M A) : Prop :=
  forall s a s', m s = Ret (a, s') -> R s s'.

Section moves.
Context (R : fw -> fw -> Prop) (Hrefl : forall s, R s s)
        (Htrans : forall s1 s2 s3, R s1 s2 -> R s2 s3 -> R s1 s3).

Lemma moves_ret {A} (a : A) : moves R (mret a).
Proof using Hrefl. intros s a' s' [= _ <-]. apply Hrefl. Qed.
Lemma moves_bind {A B} (m : M A) (k : A -> M B) :
  moves R m -> (forall a, moves R (k a)) -> moves R (m ≫= k).
Proof using Htrans.
  intros Hm Hk s b s'. rewrite bind_run. destruct (m s) as [[a s1]| | |] eqn:E; cbn [obind]; [|done..].
  intros E'. eapply Htrans; [by eapply Hm|by eapply Hk].
Qed.
Lemma moves_if {A} (c : bool) (m n : M A) : moves R m -> moves R n -> moves R (if c then m else n).
Proof using Type. by destruct c. Qed.
Lemma moves_getv x : moves R (getv x).
Proof using Hrefl. intros s a s' [= _ <-]. apply Hrefl. Qed.
Lemma moves_putv x v : (forall s, R s (put x v s)) -> moves R (putv x v).
Proof using Type. intros HR s a s' [= _ <-]. apply HR. Qed.
Lemma moves_ld8 b o : moves R (ld8 b o).
Proof using Hrefl.
  intros s a s'. unfold ld8, lift_opt. destruct (rd _ _); [|done]. intros [= _ <-]. apply Hrefl.
Qed.
Lemma moves_ldn b o n : moves R (ldn b o n).
Proof using Hrefl.
  intros s a s'. unfold ldn, lift_opt. destruct (rdn _ _ _); [|done]. intros [= _ <-]. apply Hrefl.
Qed.
Lemma moves_ld32 b o : moves R (ld32 b o).
Proof using Hrefl Htrans. apply moves_bind; [apply moves_ldn|intros; apply moves_ret]. Qed.
Lemma moves_st8 b o v :
  (forall s m, wr (block b s) o v = Some m -> R s (set_block b m s)) -> moves R (st8 b o v).
Proof using Type.
  intros HR s a s'. unfold st8. destruct (wr _ _ _) as [m|] eqn:E; [|done]. intros [= _ <-]. by apply HR.
Qed.
Lemma moves_stn b o bs :
  (forall s m, wrn (block b s) o bs = Some m -> R s (set_block b m s)) -> moves R (stn b o bs).
Proof using Type.
  intros HR s a s'. unfold stn. destruct (wrn _ _ _) as [m|] eqn:E; [|done]. intros [= _ <-]. by apply HR.
Qed.
Lemma moves_feed h bs : (forall b, moves R (h b)) -> moves R (feed h bs).
Proof using Hrefl Htrans.
  intros Hh. induction bs as [|b bs IH]; cbn [feed]; [apply moves_ret|].
  by apply moves_bind; [apply Hh|].
Qed.
Lemma moves_sum_loop b n i sum : moves R (sum_loop b n i sum).
Proof using Hrefl Htrans.
  revert i sum. induction n as [|n IH]; intros i sum; cbn [sum_loop]; [apply moves_ret|].
  apply moves_bind; [apply moves_ld8|intros; apply IH].
Qed.
End moves.

(** What reception leaves alone. *)
Definition aside (s s' : fw) : Prop :=
  out s' = out s /\ table s' = table s /\ table_index s' = table_index s /\
  block g_device s' = block g_device s.
Lemma aside_refl s : aside s s.
Proof using Type. done. Qed.
Lemma aside_trans s1 s2 s3 : aside s1 s2 -> aside s2 s3 -> aside s1 s3.
Proof using Type. intros (? & ? & ? & ?) (? & ? & ? & ?). split_and!; congruence. Qed.
Lemma aside_block b m s : b ≠ g_device -> aside s (set_block b m s).
Proof using Type. intros Hb. split_and!; [done..|]. by rewrite block_set_block_ne. Qed.

Ltac aside1 :=
  lazymatch goal with
  | |- moves _ (mbind _ _) => apply (moves_bind _ aside_trans); [|intros ?]
  | |- moves _ (mret _) => apply moves_ret, aside_refl
  | |- moves _ (getv _) => apply moves_getv, aside_refl
  | |- moves _ (putv _ _) => by apply moves_putv
  | |- moves _ (ld8 _ _) => apply moves_ld8, aside_refl
  | |- moves _ (ld32 _ _) => apply moves_ld32; [apply aside_refl|apply aside_trans]
  | |- moves _ (st8 _ _ _) => apply moves_st8; intros; by apply aside_block
  | |- moves _ (st32 _ _ _) => apply moves_stn; intros; by apply aside_block
  | |- moves _ (match ?c with true => _ | false => _ end) => apply moves_if
  end.

Lemma rx_byte_aside p complete c :
  p_rec p ≠ g_device -> moves aside complete -> moves aside (rx_byte p complete c).
Proof using Type. intros Hp Hc. unfold rx_byte, timerStart, timerStop. by repeat (done || aside1). Qed.
Lemma USART2_aside c : moves aside (USART2_IRQHandler c).
Proof using Type.
  apply rx_byte_aside; [done|]. unfold host_complete, timerStop. repeat aside1.
Qed.

(** The index of the receiver, above the bytes of an error answer. *)
Definition same_index (s s' : fw) : Prop :=
  rdn (block local_rec s') SBUF_index 4 = rdn (block local_rec s) SBUF_index 4.
Lemma packet_index r s s' a :
  r ≠ CMDOORCHECKOK -> packet SourceFrom232 r local_rec BUF_LEN s = Ret (a, s') -> same_index s s'.
Proof using Type.
  intros Hr. revert s a s'. change (moves same_index (packet SourceFrom232 r local_rec BUF_LEN)).
  assert (Hrefl : forall s, same_index s s) by done.
  assert (Htrans : forall s1 s2 s3, same_index s1 s2 -> same_index s2 s3 -> same_index s1 s3)
    by (unfold same_index; congruence).
  assert (Hst : forall o v, o < SBUF_index -> moves same_index (st8 local_rec o v)).
  { intros o v Ho. apply moves_st8. intros s m Hw. unfold same_index. mget.
    apply (rdn_wr_out _ _ _ _ _ _ Hw). lia. }
  unfold packet. rewrite (proj2 (Z.eqb_neq r _) Hr). cbn [negb]. change (SourceFrom232 =? SourceFrom485) with false.
  cbv iota zeta. unfold SetChecksum.
  repeat first [by apply Hst|apply (moves_bind _ Htrans); [|intros ?]
               |by apply moves_ret|by apply moves_ld8|by apply moves_sum_loop].
Qed.

(** [v] is a reason to refuse a frame on RS-232. *)
Lemma verdict_232 length len cmd addr idx Address fr :
  let v := verdict SourceFrom232 length len cmd addr idx Address fr in
  v = verdict SourceFrom232 length len cmd 0 idx Address fr /\ ERRORNORETURN ≠ v.
Proof using Type.
  unfold verdict. split; [done|].
  change (SourceFrom232 =? SourceFrom485) with false. cbn [andb]. by repeat case_match.
Qed.

(** Sending back the answer that [packet] left in the buffer. *)
Lemma answer_run fr n s :
  wf s -> rd fr off_len = Some n -> blen fr = n + 2 -> 0 <= n < 250 ->
  rdn (block local_rec s) 0 (blen fr) = Some fr ->
  exists m, (n ← ld8 local_rec off_len;
     st32 local_rec SBUF_len (n + 2);;
     len ← ld32 local_rec SBUF_len;
     RS232Send (At local_rec 0) len) s =
    Ret (tt, set_out (rev (Tx2 <$> fr) ++ out s) (set_block local_rec m s)) /\
    wf (set_block local_rec m s) /\
    rdn m SBUF_index 4 = rdn (block local_rec s) SBUF_index 4.
Proof using Type.
  intros Hwf Hn Hl Hn0 Hfr.
  assert (Hn' : rd (block local_rec s) off_len = Some n).
  { rewrite <- Hn, (rd_rdn _ _ _ _ _ Hfr) by (unfold off_len; lia).
    by rewrite Z.add_0_l. }
  rewrite bind_run, (ld8_run _ _ _ _ Hn'). cbn [obind]. rewrite bind_run.
  destruct (st32_wf local_rec SBUF_len (n + 2) s Hwf) as (m & Hw & -> & Hwf'); [done..|]. cbn [obind].
  exists m. rewrite bind_run, (ld32_run _ _ _ (le32 (n + 2))) by (mget; by apply (rdn_wrn_le32 _ _ _ _ Hw)).
  cbn [obind]. split_and!; [|done|].
  - unfold RS232Send. rewrite unle_le32, Z.geb_leb by lia.
    rewrite (proj2 (Z.leb_gt BUF_LEN (n + 2))) by (unfold BUF_LEN; lia). rewrite <- Hl, bind_run. cbn [ldpn]. rewrite (ldn_run _ _ _ _ fr).
    + cbn [obind]. by rewrite emit_bytes_run.
    + mget. rewrite <- Hfr. apply (rdn_wrn_out _ _ _ _ _ _ Hw). left. unfold SBUF_len. lia.
  - apply (rdn_wrn_out _ _ _ _ _ _ Hw). left. done.
Qed.

(** The RS-232 receiver with the complete frame [fr]. *)
Record complete232 (fr : bytes) (s : fw) : Prop := {
  c_wf : wf s;
  c_mark : get local_set_mark s = 1;
  c_timer : get (Tm local_timer isOverflow) s = 0;
  c_index : rdn (block local_rec s) SBUF_index 4 = Some (le32 0);
  c_len : rdn (block local_rec s) SBUF_len 4 = Some (le32 (blen fr));
  c_frame : rdn (block local_rec s) 0 (blen fr) = Some fr }.

Lemma delivered_232 noise payload last s :
  rx_idle port232 s -> Forall (fun c => c ≠ BootCode) noise ->
  bytes_ok (payload ++ [last]) -> blen (payload ++ [last]) <= 253 ->
  let fr := mk_frame BootCode (payload ++ [last]) in
  exists s', feed USART2_IRQHandler (noise ++ fr) s = Ret (tt, s') /\ complete232 fr s' /\ aside s s'.
Proof using Type.
  intros Hidle Hn Hok Hle fr.
  assert (Hp : p_rec port232 ∈ [R2000_rec; local_rec; local485_rec]) by set_solver.
  assert (Hr : rx_rel port232 [] s) by by apply rx_idle_rel.
  destruct (feed_frame port232 (host_complete port232) Hp ltac:(done) ltac:(done) s payload last)
    as (s1 & E1 & [Hwf1 Hm1 Hi1 Hl1 Hpre1]); [done..|].
  rewrite feed_app. unfold USART2_IRQHandler at 1. rewrite (feed_noise port232 _ Hp) by done. cbn [obind].
  set (s2 := put (Tm local_timer isStart) 0 (put (Tm local_timer isOverflow) 0 (put local_set_mark 1 s1))).
  assert (E2 : feed USART2_IRQHandler fr s = Ret (tt, s2)) by exact E1.
  exists s2. split; [done|]. split; [split; unfold s2; mget; auto with fwdb|].
  revert E2. apply moves_feed; [apply aside_refl|apply aside_trans|apply USART2_aside].
Qed.

(** The fields of the frame in the buffer. *)
Lemma complete_received cmd ps last s :
  let body := cmd :: ps ++ [last] in
  let fr := mk_frame BootCode body in
  complete232 fr s -> exists addr,
    received local_rec (blen body) cmd addr (scan cmd (table_index s) 0) fr s.
Proof using Type.
  intros body fr [Hwf _ _ _ _ Hfr].
  assert (Hb : blen body = 2 + blen ps).
  { unfold body. rewrite blen_cons, blen_app. change (blen [last]) with 1. lia. }
  assert (Hbf : blen fr = 2 + blen body) by (unfold fr, mk_frame; rewrite !blen_cons; lia).
  pose proof (blen_nonneg ps) as Hps.
  assert (Hrd : forall i, 0 <= i < blen fr -> rd (block local_rec s) i = rd fr i).
  { intros i Hi. rewrite (rd_rdn _ _ _ _ _ Hfr) by done. by rewrite Z.add_0_l. }
  destruct (rd_in fr off_addr) as [addr Ha]; [unfold off_addr; lia|].
  exists addr. split; try done.
  - rewrite Hrd by (unfold off_len; lia). done.
  - rewrite Hrd by (unfold off_cmd; lia). done.
  - by rewrite Hrd by (unfold off_addr; lia).
  - by replace (blen body + 2) with (blen fr) by lia.
Qed.

(** The poll that takes a frame from the receiver to [processParamTable]. *)
Lemma poll_232 fr s :
  complete232 fr s -> 4 <= blen fr <= BUF_LEN ->
  Local_232_module s =
  (r ← processParamTable handler SourceFrom232 local_rec (blen fr);
   when (negb (ERRORNORETURN =? r))
     (n ← ld8 local_rec off_len;
      st32 local_rec SBUF_len (n + 2);;
      len ← ld32 local_rec SBUF_len;
      RS232Send (At local_rec 0) len)) (put local_set_mark 0 s).
Proof using Type.
  intros [Hwf Hm Ht _ Hl _] Hlen. lazymatch goal with |- _ = ?rhs => set (R := rhs) end.
  unfold Local_232_module, Local_module, timerIsOverflow.
  unfold BUF_LEN in *. cbn [p_timer p_rec p_mark port232]. mrun. rewrite Ht. cbn [Z.eqb negb when]. mrun.
  change (negb (0 =? 0)) with false. cbn [when]. mrun. rewrite Hm. change (negb (1 =? 0)) with true. cbn [when]. mrun.
  rewrite (ld32_run _ _ _ (le32 (blen fr))), unle_le32 by (done || lia). cbn [obind].
  rewrite Z.gtb_ltb. destruct (Z.ltb_spec (blen fr) 4), (Z.ltb_spec 255 (blen fr)); [lia..|].
  cbn [orb]. mrun. rewrite (ld32_run _ _ _ (le32 (blen fr))), unle_le32 by (mget; done || lia).
  done.
Qed.

(** C6: a frame that arrives on the RS-232 port, after any
    noise, and fails a check is answered on that port, at the next poll of the
    main loop, with the error frame that names the command and the reason; the
    parameters are untouched and the receiver is ready for the next frame. *)
Theorem bad_command_answered noise cmd ps last Address s :
  let body := cmd :: ps ++ [last] in
  let fr := mk_frame BootCode body in
  let v := verdict SourceFrom232 (blen fr) (blen body) cmd 0 (scan cmd (table_index s) 0) Address fr in
  rx_idle port232 s -> Forall (fun c => c ≠ BootCode) noise -> bytes_ok body -> blen body <= 253 ->
  rd (block g_device s) wp_Address = Some Address -> v ≠ CMDOORCHECKOK ->
  exists s', (feed USART2_IRQHandler (noise ++ fr);; Local_232_module) s = Ret (tt, s') /\
    out s' = rev (Tx2 <$> error_frame SourceFrom232 cmd 0 v) ++ out s /\
    block g_device s' = block g_device s /\ rx_idle port232 s'.
Proof using Type.
  intros body fr v Hidle Hn Hok Hle Ha Hv.
  destruct (delivered_232 noise (cmd :: ps) last s) as (s2 & E2 & Hc & Ho & _ & Ht & Hd); [done..|].
  rewrite bind_run. change (mk_frame BootCode ((cmd :: ps) ++ [last])) with fr in *.
  rewrite E2. cbn [obind].
  assert (Hb : 4 <= blen fr <= BUF_LEN).
  { unfold fr, mk_frame, body, BUF_LEN in *. rewrite !blen_cons, blen_app in *.
    change (blen [last]) with 1 in *. pose proof (blen_nonneg ps). lia. }
  rewrite (poll_232 fr) by done. set (s3 := put local_set_mark 0 s2).
  assert (Hc3 : exists addr, received local_rec (blen body) cmd addr (scan cmd (table_index s) 0) fr s3).
  { destruct (complete_received cmd ps last s2 Hc) as (addr & [Hwf Hsz Hh Hl2 Hc2 Ha2 Hf2 Hi2]).
    exists addr. split; try done; [by apply wf_put|]. by rewrite <- Ht. }
  destruct Hc3 as (addr & Hrc).
  destruct (verdict_232 (blen fr) (blen body) cmd addr (scan cmd (table_index s) 0) Address fr)
    as [Hv' Hne]. 
  rewrite bind_run, (process_prefix handler _ _ _ _ _ _ _ _ Address s3 Hrc) by (unfold s3; mget; by rewrite Hd).
  rewrite Hv' in *. fold v in Hne. fold v. rewrite (proj2 (Z.eqb_neq v _) Hv). mrun.
  destruct (packet_error_run SourceFrom232 cmd addr v local_rec s3)
    as (m & Ep & Hans & Hwfm); [apply Hrc|done| |apply Hrc..|].
  { destruct (verdict_range SourceFrom232 (blen fr) (blen body) cmd 0
      (scan cmd (table_index s) 0) Address fr); done. }
  assert (Hix := packet_index _ _ _ _ Hv Ep). rewrite Ep. cbn [obind].
  rewrite (proj2 (Z.eqb_neq _ v) Hne). cbn [negb when].
  destruct (answer_run (error_frame SourceFrom232 cmd 0 v) 3 (set_block local_rec m s3))
    as (m2 & -> & Hwf' & Hix2); [done..|mget; exact Hans|].
  eexists. split; [done|]. rewrite set_block_twice in *. unfold rx_idle. split_and!.
  - simpl. by rewrite Ho.
  - unfold s3. by mget.
  - by apply wf_set_out.
  - unfold s3. by mget.
  - mget. rewrite Hix2. unfold same_index in Hix. rewrite Hix.
    unfold s3. mget. apply Hc.
Qed.

(** ** A parameter set by the host, from the wire to the next start *)

Section laws.
Context {laws : FlashLaws}.

(** The next turn of the main loop saves what the command changed. *)
Lemma save_changes_run s :
  wf s -> get setFlag s ≠ 0 -> exists dev s',
    wrn (block g_device s) 0 (le32 WORK_FLAG) = Some dev /\
    save_changes s = Ret (tt, s') /\ stored_dev dev s' /\ out s' = out s /\ get setFlag s' = 0.
Proof using laws.
  intros Hwf Hf. destruct (SaveData_run s Hwf) as (dev & h & Hw & E & Hst & Hwf' & _).
  exists dev. unfold save_changes. rewrite bind_run, getv_run. cbn [obind].
  rewrite (proj2 (Z.eqb_neq _ 0) Hf). cbn [negb when]. rewrite bind_run, E. cbn [obind].
  rewrite putv_run. eexists. split; [done|]. split; [done|]. split; [done|]. split; [done|]. by mget.
Qed.

(** Up to the acknowledgement. *)
Lemma set_acknowledged noise cmd n vo fl f ps Address s :
  let it := mkItem (At g_device vo) fl n f in
  let fr := host_frame SourceFrom232 cmd Address ps in
  rx_idle port232 s -> Forall (fun c => c ≠ BootCode) noise ->
  0 <= cmd < 256 -> bytes_ok ps -> blen ps = n -> 0 < n <= 240 ->
  obeys Address (block g_device s) -> item_of s cmd it ->
  has_flag it Flag_ParamItem_WR = true -> noop_item handler it local_rec ->
  plain_write cmd -> cmd ≠ 0 -> rangeControl cmd (default 0 (head ps)) = CMDOORCHECKOK ->
  0 <= vo -> vo + n <= bsize g_device -> rdn (block g_device s) vo n ≠ Some ps ->
  exists s1, (feed USART2_IRQHandler (noise ++ fr);; Local_232_module) s = Ret (tt, s1) /\
    out s1 = rev (Tx2 <$> ok_frame SourceFrom232 cmd Address []) ++ out s /\
    wf s1 /\ get setFlag s1 = 1 /\ wrn (block g_device s) vo ps = Some (block g_device s1).
Proof using Type.
  intros it fr Hidle Hn Hcmd Hps Hlen Hlen2 Hob Hit Hfl Hnoop Hpw Hc0 Hr Hvo Hvo2 Hnew.
  destruct (delivered_232 noise (cmd :: ps) (checksum (host_body SourceFrom232 cmd Address ps)) s)
    as (s2 & E2 & Hc & Ho & Htb & Ht & Hd); [done..| | |].
  { apply Forall_app. split; [by constructor|]. constructor; [apply u8_range|constructor]. }
  { rewrite blen_app, blen_cons. change (blen [_]) with 1. lia. }
  assert (Hfr : mk_frame BootCode ((cmd :: ps) ++ [checksum (host_body SourceFrom232 cmd Address ps)]) = fr).
  { unfold mk_frame, fr, host_frame, host_body. rewrite blen_app, blen_cons.
    change (blen [_]) with 1. change (addr_bytes SourceFrom232) with 0. cbn. do 2 f_equal. lia. }
  rewrite Hfr in E2, Hc. pose proof (host_frame_blen SourceFrom232 cmd Address ps) as Hbl.
  change (addr_bytes SourceFrom232) with 0 in Hbl. fold fr in Hbl.
  rewrite bind_run, E2. cbn [obind]. rewrite (poll_232 fr) by (done || unfold BUF_LEN; lia).
  set (s3 := put local_set_mark 0 s2).
  assert (Hd3 : block g_device s3 = block g_device s) by (unfold s3; by mget).
  destruct (process_set handler SourceFrom232 local_rec cmd n vo fl f ps Address s3)
    as (s4 & m & Ep & Hw & Hm & Hsf & Hans & _ & Ho4 & Hwf4);
    [|by rewrite Hd3|unfold item_of; simpl; by rewrite Htb, Ht|done..|lia|lia|done|done|].
  { split; [by apply wf_put, Hc|done|done|]. unfold s3. mget. apply Hc. }
  fold fr in Ep. rewrite bind_run, Ep. cbn [obind]. change (ERRORNORETURN =? CMDOORCHECKOK) with false. cbn [negb when].
  destruct (answer_run (ok_frame SourceFrom232 cmd Address []) 2 s4) as (m2 & -> & Hwf5 & _); [done..|].
  rewrite Hd3 in Hw, Hsf. rewrite bool_decide_eq_false_2 in Hsf by done. cbn [obind].
  eexists. split; [done|]. split; [simpl; rewrite Ho4; by rewrite <- Ho|].
  split; [by apply wf_set_out|]. split; mget; [by rewrite Hsf|]. by rewrite Hm.
Qed.

(** C7: on a reader in the command mode, a set command that arrives on the
    RS-232 port, after any noise without a boot code, with a new value in range
    for a field of the parameters is acknowledged on the port, saved at the next
    turn of the main loop, and is what the next start of the firmware reads from
    the flash, whatever its memory holds then. The command is a writable item of
    the table, registered with a length of 1 to 240 bytes for a field from byte 8
    on (behind flag and version), without a function that does anything, and none
    of the commands that [write_item] treats apart ([plain_write]; the tag filter
    and the working type are among those left out). *)
Theorem set_survives_restart noise cmd n vo fl f ps Address s :
  let it := mkItem (At g_device vo) fl n f in
  let fr := host_frame SourceFrom232 cmd Address ps in
  rx_idle port232 s -> Forall (fun c => c ≠ BootCode) noise ->
  0 <= cmd < 256 -> bytes_ok ps -> blen ps = n -> 0 < n <= 240 ->
  obeys Address (block g_device s) -> item_of s cmd it ->
  has_flag it Flag_ParamItem_WR = true -> noop_item handler it local_rec ->
  plain_write cmd -> cmd ≠ 0 -> rangeControl cmd (default 0 (head ps)) = CMDOORCHECKOK ->
  8 <= vo -> vo + n <= bsize g_device -> rdn (block g_device s) vo n ≠ Some ps ->
  exists s1, (feed USART2_IRQHandler (noise ++ fr);; Local_232_module;; save_changes) s = Ret (tt, s1) /\
    out s1 = rev (Tx2 <$> ok_frame SourceFrom232 cmd Address []) ++ out s /\
    forall s2, wf s2 -> board s2 = board s1 ->
      exists s3, ReadPara s2 = Ret (tt, s3) /\ rdn (block g_device s3) vo n = Some ps.
Proof using laws.
  intros it fr Hidle Hn Hcmd Hps Hlen Hlen2 Hob Hit Hfl Hnoop Hpw Hc0 Hr Hvo Hvo2 Hnew.
  destruct (set_acknowledged noise cmd n vo fl f ps Address s) as (s5 & E & Ho & Hwf & Hsf & Hw);
    [done..|lia|done|done|].
  destruct (save_changes_run s5) as (dev & s6 & Hdev & E6 & Hst & Ho6 & _); [done|by rewrite Hsf|].
  exists s6. split; [|split; [by rewrite Ho6|]].
  { rewrite bind_run in E |- *. destruct (feed _ _ s) as [[[] s']| | |]; cbn [obind] in *; [|done..].
    by rewrite bind_run, E. }
  intros t Hwft Hbt.
  destruct (ReadPara_stored dev t) as (t' & Er & _ & Hbl & Hrd);
    [done|unfold stored_dev in *; by rewrite Hbt| |].
  { unfold device_flag. by rewrite (rdn_wrn_le32 _ _ _ _ Hdev). }
  exists t'. split; [done|].
  assert (Hsame := rdn_wrn_same _ _ _ _ Hw). rewrite Hlen in Hsame. rewrite <- Hsame.
  apply rdn_ext; [by rewrite Hbl, (wf_size _ Hwf)|]. intros i Hi.
  cbn [bsize] in Hvo2. rewrite Hrd by (unfold sizeof_SDevice; lia).
  destruct (Z.eqb_spec i 6), (Z.eqb_spec i 7); [lia..|].
  apply (rd_wrn_out _ _ _ _ _ Hdev). rewrite le32_blen. lia.
Qed.
End laws.

(** ** The receivers never leave their buffer *)

Lemma unle_nonneg bs : bytes_ok bs -> 0 <= unle bs.
Proof using Type. intros Hb. induction Hb as [|x bs Hx Hb IH]; simpl in *; lia. Qed.
Lemma ld32_wf b o s : wf s -> 0 <= o -> o + 4 <= bsize b ->
  exists v, ld32 b o s = Ret (v, s) /\ 0 <= v.
Proof using Type.
  intros Hwf Ho Hl. pose proof (wf_size s Hwf b) as Hs.
  destruct (rdn (block b s) o 4) as [bs|] eqn:E; [|rewrite rdn_in in E by lia; done].
  exists (unle bs). split; [by apply ld32_run|]. apply unle_nonneg. eapply rdn_ok, E. by apply wf_bytes.
Qed.
Lemma total_ld32 b o : 0 <= o -> o + 4 <= bsize b -> total wf (ld32 b o).
Proof using Type. intros Ho Hl s Hwf. destruct (ld32_wf b o s) as (v & E & _); eauto. Qed.
Lemma total_st8 b o v : 0 <= o < bsize b -> total wf (st8 b o v).
Proof using Type. intros Ho s Hwf. destruct (st8_wf b o v s Hwf Ho) as (m & _ & E & Hwf'). eauto. Qed.
Lemma total_st32 b o v : 0 <= o -> o + 4 <= bsize b -> total wf (st32 b o v).
Proof using Type.
  intros Ho Hl s Hwf. destruct (st32_wf b o v s Hwf Ho Hl) as (m & _ & E & Hwf'). eauto.
Qed.
Lemma total_put x v : total wf (putv x v).
Proof using Type. apply total_putv. intros s Hs. by apply wf_put. Qed.
#[local] Hint Resolve total_put : total.

Lemma rx_byte_total p k c :
  p_rec p ∈ [R2000_rec; local_rec; local485_rec] -> total wf k -> total wf (rx_byte p k c).
Proof using Type.
  intros Hp Hk. pose proof (port_size p Hp) as Hs. unfold rx_byte, timerStart, timerStop.
  apply total_bind; [apply total_getv|intros mark].
  destruct (mark =? 0); [|apply total_ret]. intros s Hwf. rewrite bind_run.
  destruct (ld32_wf (p_rec p) SBUF_index s Hwf) as (i & -> & Hi); [unfold SBUF_index; lia..|].
  cbn [obind]. revert s Hwf.
  change (total wf (if (i =? 0) && (c =? p_boot p) then
    st8 (p_rec p) i c;; st32 (p_rec p) SBUF_index (u32 (i + 1));; timerStart (p_timer p) LOCAL_REV_TIMER
    else if negb (i =? 0) then
      if i >? BUF_LEN then
        st32 (p_rec p) SBUF_index 0;; st32 (p_rec p) SBUF_len 0;; timerStop (p_timer p)
      else
        st8 (p_rec p) i c;;
        index ← ld32 (p_rec p) SBUF_index;
        n ← ld8 (p_rec p) 1;
        if index >? n then
          st32 (p_rec p) SBUF_len (u32 (index + 1));; st32 (p_rec p) SBUF_index 0;; k
        else st32 (p_rec p) SBUF_index (u32 (index + 1))
    else mret tt)).
  unfold timerStart, timerStop, SBUF_index, SBUF_len, BUF_LEN.
  destruct (Z.eqb_spec i 0) as [->|Hne], (c =? p_boot p); cbn [andb negb];
    [|by apply total_ret| |];
    rewrite ?Z.gtb_ltb; try destruct (Z.ltb_spec 255 i);
    repeat first [done|total1|apply total_st8; lia|apply total_st32; lia|apply total_ld32; lia
                 |apply total_ld8; [done|lia]].
Qed.

(** the receive interrupts of the two host ports return
    from every well-formed state, whatever byte arrives and whatever their
    index, length and mark hold, and store inside their buffer only; the
    SysTick interrupt does not leave its objects either. *)
Theorem interrupts_safe c :
  total wf (USART1_IRQHandler c) /\ total wf (USART2_IRQHandler c) /\ keeps wf Time_Update.
Proof using Type.
  split_and!.
  1-2: apply rx_byte_total; [set_solver|]; unfold host_complete, timerStop; total.
  apply keeps_wf_Time_Update.
Qed.
End session.
