(* ===== verification/Wiegand.v ===== *)
(** * Wiegand output (WG.c)

    A card number leaves the reader as pulses on two wires: a pulse on DATA1
    is a one, on DATA0 a zero; a parity bit goes first and another last.  The
    two pairs of wires have a function each ([packetDataWG26] and
    [packetDataWG261], [packetDataWG34] and [packetDataWG341]) with the same
    text up to the pins: one definition takes the pair. *)
From stdpp Require Import base tactics list numbers option gmap.
From Stdlib Require Import Btauto.
From S2P Require Import Prelude Machine Effects Timers Tick Packet ParamTable Process Device.

Definition ap_WidthOfWiegand : Z := 143.
Definition ap_InterverOfWiegand : Z := 144.

Record wires := mkWires { data0 : opin; data1 : opin }.
Definition wires_a : wires := mkWires WGDATA0 WGDATA1.
Definition wires_b : wires := mkWires WGDATA0_1 WGDATA1_1.

Section wiegand.
Context `{Board}.

(** [WGDATA0SET; WGDATA1SET;]: both wires at rest, which is low. *)
Definition rest (w : wires) : M unit := emit (PinLo (data0 w));; emit (PinLo (data1 w)).

(** [Delay2us]: its counter runs down in the interrupt of TIM3. *)
Definition Delay2us (n : Z) : M unit := emit (Pause n).

Definition pulse (w : wires) (bit : bool) : M unit :=
  let pin := if bit then data1 w else data0 w in
  emit (PinHi pin);;
  n ← ld8 g_device ap_WidthOfWiegand; Delay2us (n * 5);;
  emit (PinLo pin).
Definition gap : M unit := n ← ld8 g_device ap_InterverOfWiegand; Delay2us (n * 5).

(** [for (i = 0; i < n; i++) { if (check_temp & 0x01) one_num++; check_temp >>= 1; }] *)
Fixpoint count_ones (n : nat) (check_temp one_num : Z) : Z :=
  match n with
  | O => one_num
  | S n =>
      count_ones n (Z.shiftr check_temp 1)
        (if negb (Z.land check_temp 0x01 =? 0) then u8 (one_num + 1) else one_num)
  end.

(** [buf <<= 8; buf += ch[i];] over the four bytes, in a 32-bit [long]. *)
Definition big_endian (c0 c1 c2 c3 : Z) : Z :=
  let add buf c := s32 (s32 (Z.shiftl buf 8) + c) in
  add (add (add (add 0 c0) c1) c2) c3.

Fixpoint pulses (w : wires) (n : nat) (buf : Z) : M unit :=
  match n with
  | O => mret tt
  | S n =>
      rest w;;
      pulse w (negb (Z.land (u32 buf) 0x80000000 =? 0));;
      gap;;
      pulses w n (s32 (Z.shiftl buf 1))
  end.

(** The parity bits, the data bits between them. *)
Definition wiegand (w : wires) (even odd : bool) (n : nat) (buf : Z) : M unit :=
  rest w;;
  pulse w even;;
  gap;;
  pulses w n buf;;
  rest w;;
  pulse w odd.

Definition packetDataWG26_ (w : wires) (ch : ptr) : M unit :=
  c0 ← ldp ch 0; c1 ← ldp ch 1; c2 ← ldp ch 2; c3 ← ldp ch 3;
  let even := count_ones 4 (Z.shiftr c1 4) (count_ones 8 c0 0) in
  let odd := count_ones 8 c2 (count_ones 4 c1 0) in
  wiegand w (negb (even mod 2 =? 0)) (odd mod 2 =? 0) 24 (big_endian c0 c1 c2 c3).
Definition packetDataWG34_ (w : wires) (ch : ptr) : M unit :=
  c0 ← ldp ch 0; c1 ← ldp ch 1; c2 ← ldp ch 2; c3 ← ldp ch 3;
  let even := count_ones 8 c1 (count_ones 8 c0 0) in
  let odd := count_ones 8 c3 (count_ones 8 c2 0) in
  wiegand w (negb (even mod 2 =? 0)) (odd mod 2 =? 0) 32 (big_endian c0 c1 c2 c3).

Definition packetDataWG26 : ptr -> M unit := packetDataWG26_ wires_a.
Definition packetDataWG261 : ptr -> M unit := packetDataWG26_ wires_b.
Definition packetDataWG34 : ptr -> M unit := packetDataWG34_ wires_a.
Definition packetDataWG341 : ptr -> M unit := packetDataWG34_ wires_b.

(** ** What is on the wires *)

(** The bits of a trace (newest event first): a rising edge of DATA1 is a one,
    of DATA0 a zero. *)
Definition edge (w : wires) (e : io) : option bool :=
  match e with
  | PinHi p => if bool_decide (p = data1 w) then Some true
               else if bool_decide (p = data0 w) then Some false else None
  | _ => None
  end.
Definition wire_bits (w : wires) (l : list io) : list bool := omap (edge w) (rev l).

Lemma wire_bits_app w a b : wire_bits w (a ++ b) = wire_bits w b ++ wire_bits w a.
Proof using Type. unfold wire_bits. by rewrite rev_app_distr, omap_app. Qed.

(** [sends w m bits]: [m] only adds events, and they carry [bits]. *)
Definition sends (w : wires) (m : M unit) (bits : list bool) : Prop :=
  forall s, wf s -> exists l, m s = Ret (tt, set_out (l ++ out s) s) /\ wire_bits w l = bits.

Lemma sends_ret w : sends w (mret tt) [].
Proof using Type. intros s _. exists []. by destruct s. Qed.
Lemma sends_bind w m k a b : sends w m a -> sends w k b -> sends w (m;; k) (a ++ b).
Proof using Type.
  intros Hm Hk s Hwf. destruct (Hm s Hwf) as (l & E & Hl). rewrite bind_run, E. cbn [obind].
  destruct (Hk (set_out (l ++ out s) s) (wf_set_out _ _ Hwf)) as (l' & E' & Hl').
  exists (l' ++ l). rewrite E', set_out_twice. cbn [out set_out]. rewrite <- app_assoc.
  split; [done|]. by rewrite wire_bits_app, Hl, Hl'.
Qed.
Lemma sends_emit w e : sends w (emit e) (match edge w e with Some b => [b] | None => [] end).
Proof using Type. intros s _. exists [e]. split; [by destruct s|]. unfold wire_bits. cbn. by destruct (edge w e). Qed.
Lemma sends_pause w o k : 0 <= o < 210 -> sends w (n ← ld8 g_device o; Delay2us (n * k)) [].
Proof using Type.
  intros Ho s Hwf. destruct (rd_in (block g_device s) o) as [v Hv]; [by rewrite (wf_size s Hwf)|].
  rewrite bind_run, (ld8_run _ _ _ _ Hv). cbn [obind]. by apply (sends_emit w (Pause (v * k))).
Qed.

Section wires.
Context (w : wires) (Hw : data0 w ≠ data1 w).

Lemma sends_rest : sends w (rest w) [].
Proof using Type. exact (sends_bind w _ _ _ _ (sends_emit w (PinLo (data0 w))) (sends_emit w (PinLo (data1 w)))). Qed.
Lemma sends_gap : sends w gap [].
Proof using Type. by apply sends_pause. Qed.
Lemma sends_pulse bit : sends w (pulse w bit) [bit].
Proof using Hw.
  assert (He : edge w (PinHi (if bit then data1 w else data0 w)) = Some bit).
  { unfold edge. destruct bit; [by rewrite bool_decide_eq_true_2|].
    rewrite bool_decide_eq_false_2 by done. by rewrite bool_decide_eq_true_2. }
  intros s Hwf. unfold pulse, Delay2us. cbv zeta. set (p := if bit then data1 w else data0 w) in *.
  destruct (rd_in (block g_device s) ap_WidthOfWiegand) as [v Hv];
    [rewrite (wf_size s Hwf); cbn [bsize]; unfold ap_WidthOfWiegand; lia|].
  rewrite bind_run, emit_run. cbn [obind]. rewrite bind_run, (ld8_run _ _ _ v) by done. cbn [obind]. mrun.
  exists [PinLo p; Pause (v * 5); PinHi p]. split; [by destruct s|].
  unfold wire_bits. cbn [rev app omap list_omap]. by rewrite He.
Qed.

(** The top bits of a 32-bit word, first the most significant. *)
Definition top_bits (n : nat) (x : Z) : list bool := (fun k => Z.testbit x (31 - Z.of_nat k)) <$> seq 0 n.

Lemma u32_s32 x : u32 (s32 x) = u32 x.
Proof using Type.
  unfold s32. pose proof (u32_range x). cbv zeta.
  destruct (Z.ltb_spec (u32 x) 2147483648); [by apply u32_small|].
  unfold u32 at 1. rewrite <- (Z_mod_plus_full _ 1). replace (u32 x - 4294967296 + 1 * 4294967296) with (u32 x) by lia.
  by apply Z.mod_small.
Qed.
Lemma u32_bits x k : 0 <= k < 32 -> Z.testbit (u32 x) k = Z.testbit x k.
Proof using Type. intros Hk. unfold u32. change 4294967296 with (2 ^ 32). apply Z.mod_pow2_bits_low; lia. Qed.
Lemma u32_s32_bits x k : 0 <= k < 32 -> Z.testbit (s32 x) k = Z.testbit x k.
Proof using Type. intros Hk. by rewrite <- (u32_bits (s32 x)), u32_s32, u32_bits. Qed.
Lemma top_bit x : negb (Z.land (u32 x) 0x80000000 =? 0) = Z.testbit x 31.
Proof using Type.
  change 0x80000000 with (Z.shiftl 1 31). rewrite <- (u32_bits x 31) by lia.
  destruct (Z.testbit (u32 x) 31) eqn:E.
  - apply negb_true_iff, Z.eqb_neq. intros H0. assert (Hb := Z.land_spec (u32 x) (Z.shiftl 1 31) 31).
    rewrite H0, E, Z.bits_0 in Hb. by vm_compute in Hb.
  - apply negb_false_iff, Z.eqb_eq. apply Z.bits_inj'. intros k Hk. rewrite Z.land_spec, Z.bits_0.
    destruct (Z.eq_dec k 31) as [->|Hne]; [by rewrite E|].
    change (Z.shiftl 1 31) with (2 ^ 31). rewrite Z.pow2_bits_false by lia. by rewrite andb_false_r.
Qed.

Lemma top_bits_S n x : (n <= 31)%nat ->
  top_bits (S n) x = Z.testbit x 31 :: top_bits n (s32 (Z.shiftl x 1)).
Proof using Type.
  intros Hn. unfold top_bits. cbn [seq fmap list_fmap]. f_equal.
  rewrite <- fmap_S_seq, <- list_fmap_compose.
  apply list_fmap_ext. intros i k Hk. apply lookup_seq in Hk as [-> Hi]. cbn [compose].
  rewrite u32_s32_bits by lia. rewrite Z.shiftl_spec by lia. f_equal. lia.
Qed.

Lemma sends_pulses n x : (n <= 32)%nat -> sends w (pulses w n x) (top_bits n x).
Proof using Hw.
  revert x. induction n as [|n IH]; intros x Hn; [exact (sends_ret w)|].
  rewrite top_bits_S by lia. cbn [pulses]. rewrite top_bit.
  apply (sends_bind w _ _ []); [apply sends_rest|].
  apply (sends_bind w _ _ [_]); [apply sends_pulse|].
  apply (sends_bind w _ _ []); [apply sends_gap|]. apply IH. lia.
Qed.

Lemma sends_wiegand even odd n x :
  (n <= 32)%nat -> sends w (wiegand w even odd n x) (even :: top_bits n x ++ [odd]).
Proof using Hw.
  intros Hn. unfold wiegand.
  apply (sends_bind w _ _ []); [apply sends_rest|]. apply (sends_bind w _ _ [_]); [apply sends_pulse|].
  apply (sends_bind w _ _ []); [apply sends_gap|]. apply sends_bind; [by apply sends_pulses|].
  apply (sends_bind w _ _ []); [apply sends_rest|]. apply sends_pulse.
Qed.
End wires.

(** ** Parity *)
Definition parity (l : list bool) : bool := foldr xorb false l.
(** A byte, most significant bit first. *)
Definition byte_bits (c : Z) : list bool := (fun k => Z.testbit c (7 - Z.of_nat k)) <$> seq 0 8.

Lemma odd_u8 z : Z.odd (u8 z) = Z.odd z.
Proof using Type.
  unfold u8. rewrite <- !Z.bit0_odd. change 256 with (2 ^ 8). apply Z.mod_pow2_bits_low. lia.
Qed.
Lemma land_1 c : negb (Z.land c 0x01 =? 0) = Z.odd c.
Proof using Type. change 0x01 with (Z.ones 1). rewrite Z.land_ones by lia. change (2 ^ 1) with 2. by rewrite Zmod_odd; destruct (Z.odd c). Qed.
Lemma count_ones_odd n c k :
  Z.odd (count_ones n c k) = xorb (Z.odd k) (parity ((fun i => Z.testbit c (Z.of_nat i)) <$> seq 0 n)).
Proof using Type.
  revert c k. induction n as [|n IH]; intros c k; cbn [count_ones]; [cbn; by rewrite xorb_false_r|].
  rewrite IH, land_1. cbn [seq fmap list_fmap parity foldr].
  rewrite <- fmap_S_seq, <- list_fmap_compose.
  replace ((fun i => Z.testbit (Z.shiftr c 1) (Z.of_nat i)) <$> seq 0 n)
    with (((fun i => Z.testbit c (Z.of_nat i)) ∘ S) <$> seq 0 n).
  - rewrite Z.bit0_odd. destruct (Z.odd c); [|by destruct (Z.odd k)].
    rewrite odd_u8, Z.add_1_r, Z.odd_succ, <- Z.negb_odd. fold (parity (((fun i => Z.testbit c (Z.of_nat i)) ∘ S) <$> seq 0 n)).
    by destruct (Z.odd k), (parity _).
  - apply list_fmap_ext. intros i j Hj. cbn [compose]. rewrite Z.shiftr_spec by lia. f_equal. lia.
Qed.
Lemma count_ones_even n c k : (count_ones n c k mod 2 =? 0) = negb (Z.odd (count_ones n c k)).
Proof using Type. rewrite Zmod_odd. by destruct (Z.odd _). Qed.

(** The bits of the four bytes of a word. *)
Lemma word_byte a c r j k :
  0 <= c < 256 -> 0 <= r < 2 ^ j -> 0 <= j -> 0 <= k < 8 ->
  Z.testbit (a * 2 ^ (j + 8) + c * 2 ^ j + r) (j + k) = Z.testbit c k.
Proof using Type.
  intros Hc Hr Hj Hk. rewrite (Z.add_comm j k), <- Z.div_pow2_bits by lia.
  replace (a * 2 ^ (j + 8) + c * 2 ^ j + r) with (r + (a * 2 ^ 8 + c) * 2 ^ j)
    by (rewrite Z.pow_add_r by lia; ring).
  rewrite Z.div_add, Z.div_small, Z.add_0_l by lia.
  rewrite <- (Z.mod_pow2_bits_low _ 8) by lia. rewrite Z.add_comm, Z_mod_plus_full.
  by rewrite Z.mod_small by lia.
Qed.

Definition word (c0 c1 c2 c3 : Z) : Z := ((c0 * 256 + c1) * 256 + c2) * 256 + c3.
Lemma word_bits c0 c1 c2 c3 :
  0 <= c0 < 256 -> 0 <= c1 < 256 -> 0 <= c2 < 256 -> 0 <= c3 < 256 ->
  top_bits 24 (word c0 c1 c2 c3) = byte_bits c0 ++ byte_bits c1 ++ byte_bits c2 /\
  top_bits 32 (word c0 c1 c2 c3) = byte_bits c0 ++ byte_bits c1 ++ byte_bits c2 ++ byte_bits c3.
Proof using Type.
  intros H0 H1 H2 H3.
  assert (E3 : forall k, 0 <= k < 8 -> Z.testbit (word c0 c1 c2 c3) (0 + k) = Z.testbit c3 k).
  { intros k Hk. rewrite <- (word_byte (c0 * 65536 + c1 * 256 + c2) c3 0 0 k)
      by (change (2 ^ 0) with 1; lia).
    change (2 ^ (0 + 8)) with 256. change (2 ^ 0) with 1. f_equal. unfold word. lia. }
  assert (E2 : forall k, 0 <= k < 8 -> Z.testbit (word c0 c1 c2 c3) (8 + k) = Z.testbit c2 k).
  { intros k Hk. rewrite <- (word_byte (c0 * 256 + c1) c2 c3 8 k)
      by (change (2 ^ 8) with 256; lia).
    change (2 ^ (8 + 8)) with 65536. change (2 ^ 8) with 256. f_equal. unfold word. lia. }
  assert (E1 : forall k, 0 <= k < 8 -> Z.testbit (word c0 c1 c2 c3) (16 + k) = Z.testbit c1 k).
  { intros k Hk. rewrite <- (word_byte c0 c1 (c2 * 256 + c3) 16 k)
      by (change (2 ^ 16) with 65536; lia).
    change (2 ^ (16 + 8)) with 16777216. change (2 ^ 16) with 65536. f_equal. unfold word. lia. }
  assert (E0 : forall k, 0 <= k < 8 -> Z.testbit (word c0 c1 c2 c3) (24 + k) = Z.testbit c0 k).
  { intros k Hk. rewrite <- (word_byte 0 c0 (c1 * 65536 + c2 * 256 + c3) 24 k)
      by (change (2 ^ 24) with 16777216; lia).
    change (2 ^ (24 + 8)) with 4294967296. change (2 ^ 24) with 16777216. f_equal. unfold word. lia. }
  split; unfold top_bits, byte_bits; cbn [seq fmap list_fmap app];
    repeat first [reflexivity | apply (f_equal2 cons)];
    match goal with |- _ = Z.testbit _ ?k => first
      [ exact (E0 k ltac:(lia)) | exact (E1 k ltac:(lia)) | exact (E2 k ltac:(lia))
      | exact (E3 k ltac:(lia)) ] end.
Qed.

Lemma big_endian_word c0 c1 c2 c3 :
  0 <= c0 < 256 -> 0 <= c1 < 256 -> 0 <= c2 < 256 -> 0 <= c3 < 256 ->
  forall k, 0 <= k < 32 -> Z.testbit (big_endian c0 c1 c2 c3) k = Z.testbit (word c0 c1 c2 c3) k.
Proof using Type.
  intros H0 H1 H2 H3 k Hk. unfold big_endian, word. cbv zeta.
  rewrite <- (u32_bits (s32 _)), <- (u32_bits (_ + c3)) by done. f_equal. rewrite u32_s32.
  assert (Hs : forall x y c, u32 x = u32 y -> u32 (s32 (Z.shiftl x 8) + c) = u32 (y * 256 + c)).
  { intros x y c Hxy. unfold u32. rewrite <- Zplus_mod_idemp_l. fold (u32 (s32 (Z.shiftl x 8))).
    rewrite u32_s32. unfold u32. rewrite Zplus_mod_idemp_l, Z.shiftl_mul_pow2 by lia.
    rewrite <- Zplus_mod_idemp_l, <- Zmult_mod_idemp_l. unfold u32 in Hxy. rewrite Hxy.
    by rewrite Zmult_mod_idemp_l, Zplus_mod_idemp_l. }
  assert (Hz : u32 (s32 (s32 (Z.shiftl 0 8) + c0)) = u32 (0 * 256 + c0))
    by (rewrite u32_s32; by apply Hs).
  apply Hs. rewrite u32_s32. apply Hs. rewrite u32_s32. apply Hs. exact Hz.
Qed.

Lemma top_bits_ext n x y :
  (n <= 32)%nat -> (forall k, 0 <= k < 32 -> Z.testbit x k = Z.testbit y k) -> top_bits n x = top_bits n y.
Proof using Type.
  intros Hn Hk. unfold top_bits. apply list_fmap_ext. intros i j Hj. apply lookup_seq in Hj as [-> Hi].
  apply Hk. lia.
Qed.

(** The bits of a frame: the parity bits make the first half even and the
    second odd. *)
Definition wiegand_frame (data : list bool) : list bool :=
  let h := (length data / 2)%nat in
  parity (take h data) :: data ++ [negb (parity (drop h data))].

Lemma parity_app a b : parity (a ++ b) = xorb (parity a) (parity b).
Proof using Type.
  induction a as [|x a IH]; [symmetry; apply xorb_false_l|].
  change (parity ((x :: a) ++ b)) with (xorb x (parity (a ++ b))).
  change (parity (x :: a)) with (xorb x (parity a)). by rewrite IH, xorb_assoc.
Qed.
Lemma frame_parity data h :
  length data = (2 * h)%nat ->
  parity (take (S h) (parity (take h data) :: data ++ [negb (parity (drop h data))])) = false /\
  parity (drop (S h) (parity (take h data) :: data ++ [negb (parity (drop h data))])) = true.
Proof using Type.
  intros Hl. cbn [take drop]. rewrite take_app_le, drop_app_le by lia. rewrite parity_app. split.
  - exact (xorb_nilpotent (parity (take h data))).
  - change (parity [?q]) with (xorb q false). by destruct (parity (drop h data)).
Qed.
Ltac bits :=
  unfold parity, byte_bits; cbn [seq fmap list_fmap app take drop foldr];
  repeat match goal with |- context [Z.testbit ?c ?k] =>
    let k' := eval vm_compute in k in progress change (Z.testbit c k) with (Z.testbit c k') end;
  btauto.
Lemma parity_byte c : parity ((fun i => Z.testbit c (Z.of_nat i)) <$> seq 0 8) = parity (byte_bits c).
Proof using Type. bits. Qed.
Lemma parity_low c : parity ((fun i => Z.testbit c (Z.of_nat i)) <$> seq 0 4) = parity (drop 4 (byte_bits c)).
Proof using Type. bits. Qed.
Lemma parity_high c :
  parity ((fun i => Z.testbit (Z.shiftr c 4) (Z.of_nat i)) <$> seq 0 4) = parity (take 4 (byte_bits c)).
Proof using Type. cbn [seq fmap list_fmap]. rewrite !Z.shiftr_spec by lia. bits. Qed.

Lemma ldp_at b o i s v : rd (block b s) (o + i) = Some v -> ldp (At b o) i s = Ret (v, s).
Proof using Type. apply ld8_run. Qed.

(** A card number of four bytes at [o] of a block. *)
Definition card_number (b : blk) (o c0 c1 c2 c3 : Z) (s : fw) : Prop :=
  wf s /\ rd (block b s) (o + 0) = Some c0 /\ rd (block b s) (o + 1) = Some c1 /\
  rd (block b s) (o + 2) = Some c2 /\ rd (block b s) (o + 3) = Some c3.

(** the 26-bit output of either port is the first three bytes
    of the number, most significant bit first, between a bit that makes the
    first thirteen even and a bit that makes the last thirteen odd; the wires
    carry nothing else. *)
Theorem wiegand26_frame w b o c0 c1 c2 c3 s :
  w = wires_a \/ w = wires_b -> card_number b o c0 c1 c2 c3 s ->
  let data := byte_bits c0 ++ byte_bits c1 ++ byte_bits c2 in
  exists l, packetDataWG26_ w (At b o) s = Ret (tt, set_out (l ++ out s) s) /\
    wire_bits w l = wiegand_frame data /\
    parity (take 13 (wire_bits w l)) = false /\ parity (drop 13 (wire_bits w l)) = true.
Proof using Type.
  intros Hw (Hwf & H0 & H1 & H2 & H3) data.
  assert (Hne : data0 w ≠ data1 w) by (by destruct Hw as [-> | ->]).
  assert (Hr : forall i v, rd (block b s) i = Some v -> 0 <= v < 256)
    by (intros i v; apply rd_ok, wf_bytes, Hwf).
  destruct (word_bits c0 c1 c2 c3) as [Hd _]; [by eapply Hr..|].
  unfold packetDataWG26_. do 4 (rewrite bind_run; erewrite ldp_at by done; cbn [obind]). cbv zeta.
  destruct (sends_wiegand w Hne (negb (count_ones 4 (Z.shiftr c1 4) (count_ones 8 c0 0) mod 2 =? 0))
    (count_ones 8 c2 (count_ones 4 c1 0) mod 2 =? 0) 24 (big_endian c0 c1 c2 c3) ltac:(lia) s Hwf)
    as (l & E & Hl).
  exists l. split; [exact E|]. rewrite Hl, (top_bits_ext _ _ (word c0 c1 c2 c3)), Hd
    by (lia || (apply big_endian_word; by eapply Hr)).
  rewrite !count_ones_even, !count_ones_odd, negb_involutive, parity_high, parity_low, !parity_byte.
  fold data. change (Z.odd 0) with false. rewrite !xorb_false_l.
  assert (Hf : xorb (parity (byte_bits c0)) (parity (take 4 (byte_bits c1))) = parity (take 12 data))
    by (unfold data; bits).
  assert (Hs : xorb (parity (drop 4 (byte_bits c1))) (parity (byte_bits c2)) = parity (drop 12 data))
    by (unfold data; bits).
  rewrite Hf, Hs. split; [done|].
  exact (frame_parity data 12 eq_refl).
Qed.

(** The 34-bit output is the four bytes of the number between
    an even parity bit for its first half and an odd one for its second. *)
Theorem wiegand34_frame w b o c0 c1 c2 c3 s :
  w = wires_a \/ w = wires_b -> card_number b o c0 c1 c2 c3 s ->
  let data := byte_bits c0 ++ byte_bits c1 ++ byte_bits c2 ++ byte_bits c3 in
  exists l, packetDataWG34_ w (At b o) s = Ret (tt, set_out (l ++ out s) s) /\
    wire_bits w l = wiegand_frame data /\
    parity (take 17 (wire_bits w l)) = false /\ parity (drop 17 (wire_bits w l)) = true.
Proof using Type.
  intros Hw (Hwf & H0 & H1 & H2 & H3) data.
  assert (Hne : data0 w ≠ data1 w) by (by destruct Hw as [-> | ->]).
  assert (Hr : forall i v, rd (block b s) i = Some v -> 0 <= v < 256)
    by (intros i v; apply rd_ok, wf_bytes, Hwf).
  destruct (word_bits c0 c1 c2 c3) as [_ Hd]; [by eapply Hr..|].
  unfold packetDataWG34_. do 4 (rewrite bind_run; erewrite ldp_at by done; cbn [obind]). cbv zeta.
  destruct (sends_wiegand w Hne (negb (count_ones 8 c1 (count_ones 8 c0 0) mod 2 =? 0))
    (count_ones 8 c3 (count_ones 8 c2 0) mod 2 =? 0) 32 (big_endian c0 c1 c2 c3) ltac:(lia) s Hwf)
    as (l & E & Hl).
  exists l. split; [exact E|]. rewrite Hl, (top_bits_ext _ _ (word c0 c1 c2 c3)), Hd
    by (lia || (apply big_endian_word; by eapply Hr)).
  rewrite !count_ones_even, !count_ones_odd, negb_involutive, !parity_byte.
  fold data. change (Z.odd 0) with false. rewrite !xorb_false_l.
  assert (Hf : xorb (parity (byte_bits c0)) (parity (byte_bits c1)) = parity (take 16 data))
    by (unfold data; bits).
  assert (Hs : xorb (parity (byte_bits c2)) (parity (byte_bits c3)) = parity (drop 16 data))
    by (unfold data; bits).
  rewrite Hf, Hs. split; [done|].
  exact (frame_parity data 16 eq_refl).
Qed.
End wiegand.
