(* ===== verification/Track.v ===== *)
(** * The active mode: reading cycles and the table of tags kept
    (RFIDModule.c, and [judgeTag], [workACT], [relayON] of main.c)

    A cycle selects an antenna and reads tags into [CardIndex]; [judgeTag]
    merges them into [TagSaveBuf] and answers how many tags, or which changes,
    are to be reported. *)
From stdpp Require Import base tactics list numbers option gmap.
From S2P Require Import Prelude Machine Effects Timers Tick Serial Packet ParamTable Process Device Ds1302 Radio Request Handlers.

Definition ap_TagExisTimeH : Z := 136.
Definition ap_TagExisTimeL : Z := 137.
Definition ap_TagHoldNumH : Z := 139.
Definition ap_TagHoldNumL : Z := 140.
Definition ap_CardSaveInTagPosition : Z := 146.
Definition ap_CallPCType : Z := 148.
Definition ap_CallPCEnable : Z := 149.
Definition ap_TriggleType : Z := 151.
Definition COL_ANT : Z := TAGIDLENGTH + 6.
Definition CARD_ISO180006B : Z := 1.
Definition CARD_EPCC1 : Z := 2.
Definition CARD_EPCC1G2 : Z := 4.
Definition USER_ID : Z := 1.

(** The lowest bit set in a byte. *)
Definition low_bit (x : Z) : Z := Z.log2 (Z.land x (- x)).
Definition low_ok (x : Z) : bool :=
  (x =? 0) || ((0 <=? low_bit x) && (low_bit x <? 8) && Z.testbit x (low_bit x) &&
    forallb (fun k => negb (Z.testbit x k)) (seqZ 0 (low_bit x))).
Lemma low_all : forallb low_ok (seqZ 0 256) = true.
Proof. vm_compute. reflexivity. Qed.
Lemma lowest_bit x : 0 <= x < 256 -> x ≠ 0 -> exists c, 0 <= c < 8 /\ Z.testbit x c = true /\
  forall k, 0 <= k < c -> Z.testbit x k = false.
Proof.
  intros Hx Hne. pose proof (below low_ok 256 x low_all Hx) as Hok.
  unfold low_ok in Hok. rewrite (proj2 (Z.eqb_neq x 0) Hne) in Hok. cbn [orb] in Hok.
  rewrite !andb_true_iff, Z.leb_le, Z.ltb_lt in Hok. destruct Hok as [[[H0 H8] Hb] Hl].
  exists (low_bit x). split; [done|]. split; [done|]. intros k Hk.
  apply negb_true_iff, (below _ _ k Hl Hk).
Qed.
Lemma mask_bit x c k : 0 <= x < 256 -> 0 <= c < 8 -> 0 <= k ->
  Z.testbit x k && Z.testbit (255 - 2 ^ c) k = Z.testbit x k && negb (k =? c).
Proof.
  intros Hx Hc Hk. assert (E : 255 - 2 ^ c = Z.ldiff (Z.ones 8) (2 ^ c)).
  { rewrite Z.sub_nocarry_ldiff; [done|]. apply Z.bits_inj'. intros i Hi.
    rewrite Z.ldiff_spec, Z.pow2_bits_eqb, Z.bits_0 by lia.
    destruct (Z.eqb_spec c i) as [<-|]; [|done]. change 255 with (Z.ones 8).
    by rewrite Z.ones_spec_low by lia. }
  rewrite E, Z.ldiff_spec, Z.pow2_bits_eqb by lia. destruct (Z.testbit x k) eqn:Hb; [|done].
  destruct (decide (k < 8)).
  - rewrite Z.ones_spec_low by lia. cbn [andb]. by rewrite Z.eqb_sym.
  - assert (k <= Z.log2 x); [|pose proof (Z.log2_le_mono x 255 ltac:(lia)); change (Z.log2 255) with 7 in *; lia].
    destruct (decide (k <= Z.log2 x)); [done|]. rewrite Z.bits_above_log2 in Hb by lia. done.
Qed.

Section track.
Context `{Board}.

(** ** Reading (RFIDModule.c) *)

Definition read_more : M unit := n ← getv read_count; putv read_count (u32 (n + 1)).

Definition readCard6B : M unit :=
  bs ← getTime; stn g_device off_ReaderTime bs;;
  r ← encodeR2000 0xB0 (Var MASK6B);
  when (negb (r =? 0xff)) read_more.

(** The filter of the active mode.  [CMDMasklen] is a number of bits, and the
    number of bytes copied. *)
Definition load_filter : M unit :=
  ah ← ld8 g_device off_tagfilter;
  al ← ld8 g_device (off_tagfilter + 1);
  putv CMDMaskaddr (Z.lor (u16 (Z.shiftl ah 8)) al);;
  lh ← ld8 g_device (off_tagfilter + 2);
  ll ← ld8 g_device (off_tagfilter + 3);
  putv CMDMasklen (Z.lor (u8 (Z.shiftl lh 8)) ll);;
  n ← getv CMDMasklen;
  memcpy (At CMDMaskData 0) 0 (dev (off_tagfilter + 4)) 0 n.

Definition readCard6C : M unit :=
  m ← ld8 g_device wp_MaxReadCardNum;
  st8 channel 0 (if m <? 20 then 255 else 1);;
  putv Tag_R2000_CMD91_number 0;;
  r ← encodeR2000 0x80 (At channel 0);
  when (r =? 0)
    (putv CardPos 0;;
     len ← ld8 R2000_rec R_len;
     when (len >? 4)
       (x ← para 1; y ← para 2;
        putv Tag_R2000_CMD80_number (Z.lor (Z.shiftl x 8) y);;
        n ← getv Tag_R2000_CMD80_number;
        when (n >? 0)
          (DelayMs 10;;
           load_filter;;
           a ← ld8 R2000_rec 4; putv AntId a;;
           bs ← getTime; stn g_device off_ReaderTime bs;;
           encodeR2000 0x91 (At channel 0);;
           read_more))).

Definition readCard : M unit :=
  poke cmdData [(0, 0x40); (1, 0x08); (2, 0xEF); (3, 0x02); (4, 0x0); (5, 0x06); (6, 0x00);
                (7, 0x00); (8, 0x00); (9, 0x00)];;
  r ← AntennaCtrl;
  when (negb (r =? 0))
    (DelayMs 5;;
     t ← ld8 g_device wp_TagType;
     switch t
       [ ([CARD_ISO180006B], readCard6B);
         ([CARD_EPCC1; CARD_EPCC1G2],
            u ← ld8 g_device ap_CardSaveInTagPosition;
            if USER_ID =? u then EPC1G2_ListTagTID cmdData else readCard6C) ]
       (mret tt)).

(** The loop of [workACT]: [i] walks up to the lowest antenna still waiting.
    A byte has eight bits; the loop of the code would not end without one. *)
Fixpoint next_antenna (fuel : nat) (i : Z) : M unit :=
  match fuel with
  | O => fun _ => Starved
  | S fuel =>
      sw ← getv switchAtenna;
      if negb (sw =? 0) then
        putv tmpAntenna (Z.land sw i);;
        a ← getv tmpAntenna;
        putv sendswitchAtenna a;;
        if negb (a =? 0) then
          readCard;;
          sw ← getv switchAtenna; putv switchAtenna (Z.land sw (255 - i))
        else next_antenna fuel (u8 (i * 2))
      else mret tt
  end.

Definition one_antenna : M unit :=
  mm ← getv tmpAntenna;
  next_antenna 8 1;;
  putv tmpAntenna mm.

Definition pin (p : inpin) : M Z := fun s => Ret (pin_level (board s) p, s).

Definition workACT : M unit :=
  sw ← getv switchAtenna;
  if negb (sw =? 0) then one_antenna
  else
    t ← ld8 g_device ap_ReadTAGType;
    (if 0 =? t then
       o ← timerIsOverflow ReadCardTimer;
       when (negb (o =? 0))
         (n ← getv ReadCardTimeInterver;
          timerStart ReadCardTimer n;;
          a ← getv tmpAntenna; putv switchAtenna a)
     else
       tr ← ld8 g_device ap_TriggleType;
       let i := if tr =? 0 then 0 else 1 in
       p ← pin PE15; let j := if p =? 0 then 1 else 0 in
       p1 ← pin PE9; let k := if p1 =? 0 then 1 else 0 in
       let mm := Z.lor (if i =? j then 0x05 else 0) (if i =? k then 0x0a else 0) in
       when (negb (mm =? 0)) (a ← getv tmpAntenna; putv switchAtenna (Z.land mm a)));;
    one_antenna.

(** ** [relayON] *)
Definition relayON (RelayIndex longtime_ms : Z) : M unit :=
  if RelayIndex =? 1 then
    n ← getv Relay1Times;
    if negb (n =? 0) then DelayMs 150 else RELAYON;; putv Relay1Times longtime_ms
  else
    n ← getv Relay2Times;
    if negb (n =? 0) then DelayMs 150 else RELAYON1;; putv Relay2Times longtime_ms.

(** ** [judgeTag] *)

Definition copy_row (k j : Z) : M unit := memcpy (At TagSaveBuf (k * ROW)) 0 (At CardIndex (j * ROW)) 0 ROW.
Definition bump (x : gv) : M unit := n ← getv x; putv x (u32 (n + 1)).

(** Types 0 and 1: rows are copied to the places they have in [CardIndex]. *)
Fixpoint take_all (n : nat) (j : Z) : M unit :=
  match n with
  | O => mret tt
  | S n =>
      len ← ld8 CardIndex (j * ROW);
      (if (len >? 15) || (len =? 0) then mret tt
       else copy_row j j;; bump TagSaveCount);;
      take_all n (j + 1)
  end.

(** The clock of a row, of the reader. *)
Definition seconds (h m x : Z) : Z := u32 (h * 3600 + m * 60 + x).

(** Tags whose time is over are dropped; 1 when there was one. *)
Fixpoint expire (n : nat) (k keeptime reduceTag : Z) : M Z :=
  match n with
  | O => mret reduceTag
  | S n =>
      w ← ld8 TagSaveBuf (k * ROW);
      if w =? 0 then expire n (k + 1) keeptime reduceTag
      else
        h ← ld8 TagSaveBuf (k * ROW + TAGIDLENGTH);
        m ← ld8 TagSaveBuf (k * ROW + TAGIDLENGTH + 1);
        x ← ld8 TagSaveBuf (k * ROW + TAGIDLENGTH + 2);
        let t1 := u32 (seconds h m x + keeptime) in
        h ← ld8 g_device (off_ReaderTime + 3);
        m ← ld8 g_device (off_ReaderTime + 4);
        x ← ld8 g_device (off_ReaderTime + 5);
        let t2 := seconds h m x in
        if t1 <? t2 then st8 TagSaveBuf (k * ROW) 0;; expire n (k + 1) keeptime 1
        else expire n (k + 1) keeptime reduceTag
  end.

(** The saved row with the same EPC as row [j], whose last time it takes over;
    or the number of rows. *)
Fixpoint find_saved (n : nat) (k j len : Z) : M Z :=
  match n with
  | O => mret k
  | S n =>
      w ← ld8 TagSaveBuf (k * ROW);
      let tmplen := w * 2 in
      if negb (len =? tmplen) && negb (tmplen =? 0) then find_saved n (k + 1) j len
      else
        same ← compare (At TagSaveBuf (k * ROW)) (At CardIndex (j * ROW)) (len + 1);
        if same =? 1 then
          for_ 3 3 (fun i =>
            x ← ld8 CardIndex (j * ROW + TAGIDLENGTH + i);
            st8 TagSaveBuf (k * ROW + TAGIDLENGTH + i) x);;
          mret k
        else find_saved n (k + 1) j len
  end.

(** The first free row takes row [j]; 0 when there is none. *)
Fixpoint fill_hole (n : nat) (k j : Z) : M Z :=
  match n with
  | O => mret 0
  | S n =>
      w ← ld8 TagSaveBuf (k * ROW);
      if w =? 0 then copy_row k j;; mret 1 else fill_hole n (k + 1) j
  end.

(** A new tag: into a hole, or at [count]. *)
Definition add_tag (j count tmpNum : Z) : M Z :=
  n ← getv TagSaveCount;
  filled ← fill_hole (Z.to_nat n) 0 j;
  if filled =? 0 then
    copy_row count j;;
    if count <? tmpNum then mret (count + 1)
    else putv TagSaveCount tmpNum;; mret 0
  else mret count.

(** [(count, addTag)] after the tags of [CardIndex] from [j]. *)
Fixpoint merge (n : nat) (j count tmpNum addTag : Z) : M (Z * Z) :=
  match n with
  | O => mret (count, addTag)
  | S n =>
      len ← ld8 CardIndex (j * ROW);
      if (len >? 15) || (len =? 0) then merge n (j + 1) count tmpNum addTag
      else
        saved ← getv TagSaveCount;
        k ← find_saved (Z.to_nat saved) 0 j (len * 2);
        if (k =? saved) || (saved =? 0) then
          count ← add_tag j count tmpNum;
          merge n (j + 1) count tmpNum 1
        else merge n (j + 1) count tmpNum addTag
  end.

Definition judgeTag : M Z :=
  h ← ld8 g_device ap_TagHoldNumH;
  l ← ld8 g_device ap_TagHoldNumL;
  let tmpNum := Z.shiftl h 8 + l in
  let tmpNum := if tmpNum >? SAVEMAXNUM then SAVEMAXNUM else tmpNum in
  type ← ld8 g_device ap_CallPCType;
  if type =? 0 then
    putv TagSaveCount 0;;
    p ← getv CardPos;
    take_all (Z.to_nat p) 0;;
    getv TagSaveCount
  else if type =? 1 then
    o ← timerIsOverflow OutPutTimer;
    if o =? 0 then mret 0
    else
      putv TagSaveCount 0;;
      p ← getv CardPos;
      take_all (Z.to_nat p) 0;;
      putv CardPos 0;;
      n ← getv TagSaveCount;
      e ← ld8 g_device ap_CallPCEnable;
      if (n =? 0) && negb (e =? 0) then putv TagSaveCount 1;; mret 222
      else getv TagSaveCount
  else
    bs ← getTime; stn g_device off_ReaderTime bs;;
    kh ← ld8 g_device ap_TagExisTimeH;
    kl ← ld8 g_device ap_TagExisTimeL;
    let keeptime := Z.shiftl kh 8 + kl in
    count ← getv TagSaveCount;
    reduceTag ← expire (Z.to_nat count) 0 keeptime 0;
    p ← getv CardPos;
    '(count, addTag) ← merge (Z.to_nat p) 0 count tmpNum 0;
    n ← getv TagSaveCount;
    when (negb (n =? tmpNum)) (putv TagSaveCount count);;
    type ← ld8 g_device ap_CallPCType;
    mret (if type =? 2 then addTag else if type =? 3 then reduceTag else addTag + reduceTag).

(** ** The antennas of a cycle *)

(** The state in which antenna [a] is read. *)
Definition turned_to (a : Z) (s : fw) : fw := put sendswitchAtenna a (put tmpAntenna a s).

Lemma turned_to_twice a b s : turned_to a (turned_to b s) = turned_to a s.
Proof using Type.
  unfold turned_to, put; simpl. f_equal.
  rewrite (insert_insert_ne _ tmpAntenna sendswitchAtenna) by done. by rewrite !insert_insert_eq.
Qed.

(** Reading one antenna and taking its bit off those still waiting. *)
Definition read_antenna (i : Z) : M unit :=
  readCard;; sw ← getv switchAtenna; putv switchAtenna (Z.land sw (255 - i)).

Lemma next_antenna_step fuel b s :
  0 <= b -> get switchAtenna s ≠ 0 ->
  next_antenna (S fuel) (2 ^ b) s =
  if Z.testbit (get switchAtenna s) b then read_antenna (2 ^ b) (turned_to (2 ^ b) s)
  else next_antenna fuel (u8 (2 ^ b * 2)) (turned_to 0 s).
Proof using Type.
  intros Hb Hsw. cbn [next_antenna]. rewrite bind_run, getv_run. cbn [obind].
  rewrite (proj2 (Z.eqb_neq _ _) Hsw). cbn [negb].
  rewrite bind_run, putv_run. cbn [obind]. rewrite bind_run, getv_run. cbn [obind]. mget.
  rewrite bind_run, putv_run. cbn [obind].
  assert (Hl : Z.land (get switchAtenna s) (2 ^ b) = if Z.testbit (get switchAtenna s) b then 2 ^ b else 0).
  { apply Z.bits_inj'. intros k Hk. rewrite Z.land_spec, Z.pow2_bits_eqb by lia.
    destruct (Z.eqb_spec b k) as [<-|Hne].
    - destruct (Z.testbit (get switchAtenna s) b); [by rewrite Z.pow2_bits_true|by rewrite Z.bits_0].
    - rewrite andb_false_r. destruct (Z.testbit (get switchAtenna s) b);
        [by rewrite Z.pow2_bits_false|by rewrite Z.bits_0]. }
  rewrite Hl. destruct (Z.testbit _ b).
  - assert (2 ^ b ≠ 0) by (apply Z.pow_nonzero; lia). by rewrite (proj2 (Z.eqb_neq _ 0)) by done.
  - done.
Qed.

(** The search from bit [b] on stops at the first one that is set. *)
Lemma next_antenna_search n b c s :
  0 <= b <= c -> c < b + Z.of_nat n -> c < 8 ->
  Z.testbit (get switchAtenna s) c = true ->
  (forall k, b <= k < c -> Z.testbit (get switchAtenna s) k = false) ->
  next_antenna n (2 ^ b) s = read_antenna (2 ^ c) (turned_to (2 ^ c) s).
Proof using Type.
  revert b s. induction n as [|n IH]; intros b s Hb Hn Hc Hbit Hlow; [lia|].
  assert (Hsw : get switchAtenna s ≠ 0) by (intros E; by rewrite E, Z.bits_0 in Hbit).
  rewrite next_antenna_step by (lia || done). destruct (decide (b = c)) as [->|Hne]; [by rewrite Hbit|].
  rewrite Hlow by lia. replace (2 ^ b * 2) with (2 ^ (b + 1)) by (rewrite Z.pow_add_r; lia).
  rewrite u8_small by (split; [apply Z.pow_nonneg; lia|apply (Z.pow_lt_mono_r 2 (b + 1) 8); lia]).
  assert (Hg : get switchAtenna (turned_to 0 s) = get switchAtenna s) by (unfold turned_to; by mget).
  rewrite IH by (rewrite ?Hg; done || lia || (intros; apply Hlow; lia)).
  by rewrite turned_to_twice.
Qed.

(** while antennas are waiting, the loop of [workACT]
    ends within its eight turns, with the lowest one selected and read; its
    bit, and no other, is then taken off; with none waiting nothing is done. *)
Theorem next_antenna_lowest s :
  let sw := get switchAtenna s in
  0 <= sw < 256 ->
  (sw = 0 -> next_antenna 8 1 s = Ret (tt, s)) /\
  (sw ≠ 0 -> exists c, 0 <= c < 8 /\ Z.testbit sw c = true /\
     (forall k, 0 <= k < c -> Z.testbit sw k = false) /\
     next_antenna 8 1 s = read_antenna (2 ^ c) (turned_to (2 ^ c) s) /\
     forall x k, 0 <= x < 256 -> 0 <= k ->
       Z.testbit (Z.land x (255 - 2 ^ c)) k = Z.testbit x k && negb (k =? c)).
Proof using Type.
  intros sw Hsw. split.
  { intros E. cbn [next_antenna]. rewrite bind_run, getv_run. cbn [obind]. fold sw. by rewrite E. }
  intros Hne. destruct (lowest_bit sw) as (c & Hc & Hbit & Hlow); [done|lia|].
  exists c. split; [done|]. split; [done|]. split; [done|]. split.
  - apply (next_antenna_search 8 0 c); done || lia.
  - intros x k Hx Hk. rewrite Z.land_spec. by rewrite mask_bit.
Qed.
End track.
