(* ===== verification/Saved.v ===== *)
(** * The table of tags kept: what [judgeTag] promises (main.c)

    [TagSaveBuf] as a set of tag identifiers: each pass drops the tags whose
    time is over, keeps the others, and adds those of [CardIndex] it has not. *)
From stdpp Require Import base tactics list numbers option gmap.
From S2P Require Import Prelude Machine Effects Timers Tick Serial Packet ParamTable Process Device Ds1302 Radio Request Handlers Track.

(** The identifier in row [k] of a table of rows, its length first; rows whose
    length is 0 or more than 15 words hold none. *)
Definition tag_id (m : bytes) (k : Z) : option bytes :=
  match rd m (k * ROW) with
  | Some w => if (0 <? w) && (w <=? 15) then rdn m (k * ROW) (2 * w + 1) else None
  | None => None
  end.

Lemma tag_id_inv m k e :
  tag_id m k = Some e ->
  exists w, rd m (k * ROW) = Some w /\ 0 < w <= 15 /\ rdn m (k * ROW) (2 * w + 1) = Some e.
Proof.
  unfold tag_id. destruct (rd m (k * ROW)) as [w|]; [|done].
  destruct (Z.ltb_spec 0 w), (Z.leb_spec w 15); cbn [andb]; [|done..]. intros E. by exists w.
Qed.

(** The first 31 bytes of a row decide. *)
Lemma tag_id_ext m m' k k' :
  blen m' = SAVEMAXNUM * ROW -> blen m = SAVEMAXNUM * ROW ->
  0 <= k < SAVEMAXNUM -> 0 <= k' < SAVEMAXNUM ->
  (forall i, 0 <= i < TAGIDLENGTH -> rd m' (k' * ROW + i) = rd m (k * ROW + i)) ->
  tag_id m' k' = tag_id m k.
Proof.
  unfold SAVEMAXNUM, ROW, TAGIDLENGTH. intros Hl' Hl Hk Hk' Hr. unfold tag_id, ROW.
  specialize (Hr 0 ltac:(lia)) as H0. rewrite !Z.add_0_r in H0. rewrite H0.
  destruct (rd m (k * 39)) as [w|]; [|done].
  destruct (Z.ltb_spec 0 w), (Z.leb_spec w 15); cbn [andb]; [|done..].
  destruct (rdn m' (k' * 39) (2 * w + 1)) as [b'|] eqn:E'; [|by rewrite rdn_in in E' by lia].
  destruct (rdn m (k * 39) (2 * w + 1)) as [b|] eqn:E; [|by rewrite rdn_in in E by lia].
  f_equal. pose proof (rdn_blen _ _ _ _ E') as Hb. pose proof (rdn_blen _ _ _ _ E).
  apply bytes_ext; [congruence|]. intros i Hi. rewrite Hb in Hi.
  rewrite (rd_rdn _ _ _ _ _ E'), (rd_rdn _ _ _ _ _ E) by done. apply Hr. lia.
Qed.

Section saved.
Context `{Board}.

Definition tags (s : fw) : bytes := block TagSaveBuf s.

(** The states of a pass that began in [s]: only the table of tags differs. *)
Record pass (s t : fw) : Prop := mkPass {
  pass_wf : wf t;
  pass_block : forall b, b ≠ TagSaveBuf -> block b t = block b s;
  pass_get : forall x, get x t = get x s }.

Lemma tags_len t s : pass s t -> blen (tags t) = SAVEMAXNUM * ROW.
Proof using Type. intros Hp. apply (wf_size _ (pass_wf _ _ Hp) TagSaveBuf). Qed.

(** A store to the table, as its effect on [tags]. *)
Lemma st8_tags o v t s : pass s t -> 0 <= o < SAVEMAXNUM * ROW ->
  exists t', st8 TagSaveBuf o v t = Ret (tt, t') /\ pass s t' /\ wr (tags t) o v = Some (tags t').
Proof using Type.
  intros Hp Ho. destruct (st8_wf TagSaveBuf o v t (pass_wf _ _ Hp) Ho) as (m & Hw & E & Hwf).
  exists (set_block TagSaveBuf m t). split; [done|]. split.
  - split; [done| |apply Hp]. intros b Hb. rewrite block_set_block_ne by done. by apply Hp.
  - unfold tags at 2. by rewrite block_set_block_eq.
Qed.

Lemma copy_row_run k j t s :
  pass s t -> 0 <= k < SAVEMAXNUM -> 0 <= j < MAXNUM ->
  exists t', copy_row k j t = Ret (tt, t') /\ pass s t' /\
    tag_id (tags t') k = tag_id (block CardIndex s) j /\
    forall i, 0 <= i < SAVEMAXNUM -> i ≠ k -> tag_id (tags t') i = tag_id (tags t) i.
Proof using Type.
  intros Hp Hk Hj. pose proof (tags_len t s Hp) as Hl.
  pose proof (wf_size _ (pass_wf _ _ Hp) CardIndex) as Hc. cbn [bsize] in Hc.
  assert (Hcs : block CardIndex t = block CardIndex s) by (apply Hp; done).
  destruct (rdn (block CardIndex t) (j * ROW + 0) ROW) as [bs|] eqn:Hr;
    [|rewrite rdn_in in Hr by (unfold ROW, MAXNUM in *; lia); done].
  assert (Hb : bytes_ok bs) by (eapply rdn_ok, Hr; by apply wf_bytes, Hp).
  pose proof (rdn_blen _ _ _ _ Hr) as Hbl.
  destruct (stn_wf TagSaveBuf (k * ROW + 0) bs t (pass_wf _ _ Hp)) as (m & Hw & _ & Hwf);
    [done|unfold ROW in *; lia|rewrite Hbl; in_block|].
  assert (Hp' : pass s (set_block TagSaveBuf m t)).
  { split; [done| |apply Hp]. intros b Hb'. rewrite block_set_block_ne by done. by apply Hp. }
  exists (set_block TagSaveBuf m t). unfold copy_row. rewrite (memcpy_run _ _ _ _ _ _ _ bs m) by done.
  rewrite Z.add_0_r in *. split; [done|]. split; [done|].
  pose proof (tags_len _ s Hp') as Hl'. unfold tags in *. rewrite block_set_block_eq in *. split.
  - rewrite <- Hcs. apply tag_id_ext; try done. intros i Hi. unfold TAGIDLENGTH in *.
    rewrite (rd_wrn_in _ _ _ _ _ Hw) by (rewrite Hbl; unfold ROW; lia).
    rewrite (rd_rdn _ _ _ _ _ Hr) by (unfold ROW; lia). f_equal. lia.
  - intros i Hi Hne. apply tag_id_ext; try done. intros o Ho. apply (rd_wrn_out _ _ _ _ _ Hw).
    rewrite Hbl. unfold ROW, TAGIDLENGTH in *. lia.
Qed.

(** Reading a byte of a table. *)
Lemma ld8_tags o t s : pass s t -> 0 <= o < SAVEMAXNUM * ROW ->
  exists v, ld8 TagSaveBuf o t = Ret (v, t) /\ rd (tags t) o = Some v /\ 0 <= v < 256.
Proof using Type.
  intros Hp Ho. destruct (rd_in (tags t) o) as [v Hv]; [by rewrite (tags_len t s Hp)|].
  exists v. split; [by apply ld8_run|]. split; [done|]. eapply rd_ok, Hv. by apply wf_bytes, Hp.
Qed.
Lemma ld8_other b o t s : pass s t -> b ≠ TagSaveBuf -> 0 <= o < bsize b ->
  exists v, ld8 b o t = Ret (v, t) /\ rd (block b s) o = Some v /\ 0 <= v < 256.
Proof using Type.
  intros Hp Hb Ho. destruct (rd_in (block b t) o) as [v Hv]; [by rewrite (wf_size t) by apply Hp|].
  exists v. split; [by apply ld8_run|]. split; [by rewrite <- (pass_block _ _ Hp)|].
  eapply rd_ok, Hv. by apply wf_bytes, Hp.
Qed.

(** Writing a byte that is not part of an identifier. *)
Lemma st8_time k o v t s : pass s t -> 0 <= k < SAVEMAXNUM -> TAGIDLENGTH <= o < ROW ->
  exists t', st8 TagSaveBuf (k * ROW + o) v t = Ret (tt, t') /\ pass s t' /\
    forall i, 0 <= i < SAVEMAXNUM -> tag_id (tags t') i = tag_id (tags t) i.
Proof using Type.
  intros Hp Hk Ho. destruct (st8_tags (k * ROW + o) v t s Hp) as (t' & E & Hp' & Hw);
    [unfold SAVEMAXNUM, ROW, TAGIDLENGTH in *; lia|].
  exists t'. split; [done|]. split; [done|]. intros i Hi.
  apply tag_id_ext; try done; [by apply (tags_len _ s)..|].
  intros x Hx. apply (rd_wr_ne _ _ _ _ _ Hw). unfold ROW, TAGIDLENGTH in *. lia.
Qed.
Lemma st8_drop k t s : pass s t -> 0 <= k < SAVEMAXNUM ->
  exists t', st8 TagSaveBuf (k * ROW) 0 t = Ret (tt, t') /\ pass s t' /\
    tag_id (tags t') k = None /\ forall i, 0 <= i < SAVEMAXNUM -> i ≠ k -> tag_id (tags t') i = tag_id (tags t) i.
Proof using Type.
  intros Hp Hk. destruct (st8_tags (k * ROW) 0 t s Hp) as (t' & E & Hp' & Hw);
    [unfold SAVEMAXNUM, ROW in *; lia|].
  exists t'. split; [done|]. split; [done|]. split.
  - unfold tag_id. by rewrite (rd_wr_eq _ _ _ _ Hw).
  - intros i Hi Hne. apply tag_id_ext; try done; [by apply (tags_len _ s)..|].
    intros x Hx. apply (rd_wr_ne _ _ _ _ _ Hw). unfold ROW, TAGIDLENGTH in *. lia.
Qed.

(** *** The passes *)

Lemma compare_row k j w e t s :
  pass s t -> 0 <= k < SAVEMAXNUM -> 0 < w <= 15 ->
  rd (block CardIndex s) (j * ROW) = Some w ->
  rdn (block CardIndex s) (j * ROW) (2 * w + 1) = Some e ->
  compare (At TagSaveBuf (k * ROW)) (At CardIndex (j * ROW)) (w * 2 + 1) t =
    Ret (if bool_decide (tag_id (tags t) k = Some e) then 1 else 0, t).
Proof using Type.
  intros Hwf Hk Hw Hc He. unfold compare.
  pose proof (tags_len t s Hwf) as Hl.
  destruct (rdn (tags t) (k * ROW) (2 * w + 1)) as [b|] eqn:Hb;
    [|by rewrite rdn_in in Hb by (unfold SAVEMAXNUM, ROW in *; lia)].
  replace (w * 2 + 1) with (2 * w + 1) by lia.
  rewrite (compare_loop_run _ _ _ _ _ 0 b e); [|done|rewrite ?(pass_block s t) by done; by rewrite Z.add_0_r, Z2Nat.id by lia..].
  enough (Hx : b = e <-> tag_id (tags t) k = Some e) by by rewrite (bool_decide_ext _ _ Hx).
  split.
  - intros ->. assert (Hv : rd (tags t) (k * ROW) = Some w).
    { rewrite <- Hc, <- (Z.add_0_r (k * ROW)), <- (Z.add_0_r (j * ROW)).
      by rewrite <- (rd_rdn _ _ _ _ _ Hb), <- (rd_rdn _ _ _ _ _ He) by lia. }
    unfold tag_id. rewrite Hv. by destruct (Z.ltb_spec 0 w), (Z.leb_spec w 15); [|lia..].
  - intros (w' & _ & _ & Hr)%tag_id_inv.
    pose proof (rdn_blen _ _ _ _ Hr). pose proof (rdn_blen _ _ _ _ He).
    assert (w' = w) as -> by lia. congruence.
Qed.

(** The bytes 34 to 36 of the row found are the time the tag was seen last. *)
Lemma take_time_run n i k j t s :
  pass s t -> 0 <= k < SAVEMAXNUM -> 0 <= j < MAXNUM -> 0 <= i -> i + Z.of_nat n <= 8 ->
  exists t', for_ n i (fun i => x ← ld8 CardIndex (j * ROW + TAGIDLENGTH + i);
                               st8 TagSaveBuf (k * ROW + TAGIDLENGTH + i) x) t =
      Ret (tt, t') /\ pass s t' /\
    forall r, 0 <= r < SAVEMAXNUM -> tag_id (tags t') r = tag_id (tags t) r.
Proof using Type.
  revert i t. induction n as [|n IH]; intros i t Hwf Hk Hj Hi Hn; cbn [for_]; [by exists t|].
  rewrite bind_run, bind_run.
  destruct (ld8_other CardIndex (j * ROW + TAGIDLENGTH + i) t s) as (v & -> & _); [done|done|in_block|].
  cbn [obind]. rewrite <- Z.add_assoc.
  destruct (st8_time k (TAGIDLENGTH + i) v t s) as (t1 & -> & Hwf1 & H1);
    [done|done|unfold TAGIDLENGTH, ROW; lia|]. cbn [obind].
  destruct (IH (i + 1) t1) as (t2 & E & Hwf2 & H2); [done|done|done|lia|lia|].
  exists t2. split; [exact E|]. split; [done|]. intros r Hr. by rewrite H2, H1.
Qed.

(** The search ends at the first row with the identifier, or past the rows
    when none of them has it; no identifier changes. *)
Lemma find_saved_run n k j e t s :
  pass s t -> 0 <= k -> k + Z.of_nat n <= SAVEMAXNUM -> 0 <= j < MAXNUM ->
  tag_id (block CardIndex s) j = Some e ->
  exists w k' t', rd (block CardIndex s) (j * ROW) = Some w /\
    find_saved n k j (w * 2) t = Ret (k', t') /\ pass s t' /\
    (forall r, 0 <= r < SAVEMAXNUM -> tag_id (tags t') r = tag_id (tags t) r) /\
    k <= k' <= k + Z.of_nat n /\ (k' < k + Z.of_nat n -> tag_id (tags t) k' = Some e) /\
    (forall r, k <= r < k' -> tag_id (tags t) r ≠ Some e).
Proof using Type.
  intros Hwf Hk0 Hn0 Hj He. destruct (tag_id_inv _ _ _ He) as (w & Hw & Hw15 & Hrd).
  exists w. revert k Hk0 Hn0. induction n as [|n IH]; intros k Hk0 Hn0; cbn [find_saved].
  { exists k, t. split_and!; try done || lia. }
  rewrite bind_run. destruct (ld8_tags (k * ROW) t s) as (v & -> & Hv & Hv256);
    [done|in_block|]. cbn [obind].
  assert (Hskip : tag_id (tags t) k ≠ Some e -> exists k' t',
    rd (block CardIndex s) (j * ROW) = Some w /\
    find_saved n (k + 1) j (w * 2) t = Ret (k', t') /\ pass s t' /\
    (forall r, 0 <= r < SAVEMAXNUM -> tag_id (tags t') r = tag_id (tags t) r) /\
    k <= k' <= k + Z.of_nat (S n) /\ (k' < k + Z.of_nat (S n) -> tag_id (tags t) k' = Some e) /\
    (forall r, k <= r < k' -> tag_id (tags t) r ≠ Some e)).
  { intros Hne. destruct (IH (k + 1)) as (k' & t' & Hw' & E & Hwf' & Hid & Hk' & Hin & Hout); [lia..|].
    exists k', t'. split_and!; try done; try lia.
    - intros Hlt. apply Hin. lia.
    - intros r Hr. destruct (decide (r = k)) as [->|]; [done|]. apply Hout. lia. }
  assert (Hlen : v ≠ w -> tag_id (tags t) k ≠ Some e).
  { intros Hne Heq. destruct (tag_id_inv _ _ _ Heq) as (w' & Hw' & _ & Hr').
    pose proof (rdn_blen _ _ _ _ Hr'). pose proof (rdn_blen _ _ _ _ Hrd). 
    assert (w' = v) by congruence. lia. }
  destruct (negb (w * 2 =? v * 2) && negb (v * 2 =? 0)) eqn:Hc.
  { apply Hskip, Hlen. lia. }
  rewrite bind_run, (compare_row k j w e t s) by (done || lia). cbn [obind].
  case_bool_decide as Hid; [|by apply Hskip]. cbn [Z.eqb Pos.eqb]. rewrite bind_run.
  destruct (take_time_run 3 3 k j t s) as (t' & -> & Hwf' & Hid'); [done|lia|done|done|done|].
  cbn [obind]. exists k, t'. split_and!; try done || lia.
Qed.

(** A pass over the rows either finds no hole, or fills the first with row [j]. *)
Lemma fill_hole_run n k j t s :
  pass s t -> 0 <= k -> k + Z.of_nat n <= SAVEMAXNUM -> 0 <= j < MAXNUM ->
  fill_hole n k j t = Ret (0, t) \/
  exists h t', k <= h < k + Z.of_nat n /\ fill_hole n k j t = Ret (1, t') /\
    pass s t' /\ tag_id (tags t) h = None /\ tag_id (tags t') h = tag_id (block CardIndex s) j /\
    forall r, 0 <= r < SAVEMAXNUM -> r ≠ h -> tag_id (tags t') r = tag_id (tags t) r.
Proof using Type.
  revert k. induction n as [|n IH]; intros k Hwf Hk Hn Hj; cbn [fill_hole]; [by left|].
  rewrite bind_run. destruct (ld8_tags (k * ROW) t s) as (v & -> & Hv & _); [done|in_block|].
  cbn [obind]. destruct (Z.eqb_spec v 0) as [->|].
  - right. destruct (copy_row_run k j t s) as (t' & E & Hwf' & Hid & Hoth); [done|lia|done|].
    exists k, t'. rewrite bind_run, E. split_and!; try done || lia.
    unfold tag_id. by rewrite Hv.
  - destruct (IH (k + 1)) as [E|(h & t' & Hh & E & Hr)]; [done|lia..|by left|].
    right. exists h, t'. split; [lia|]. done.
Qed.

(** A new identifier is in the table afterwards, and takes no other's place. *)
Lemma add_tag_run j e count hold t s :
  pass s t -> 0 <= get TagSaveCount s <= count -> count < hold -> hold <= SAVEMAXNUM ->
  0 <= j < MAXNUM -> tag_id (block CardIndex s) j = Some e ->
  exists c t', add_tag j count hold t = Ret (c, t') /\ pass s t' /\
    count <= c <= count + 1 /\
    (exists k, 0 <= k < c /\ tag_id (tags t') k = Some e) /\
    (forall k x, 0 <= k < count -> tag_id (tags t) k = Some x -> tag_id (tags t') k = Some x).
Proof using Type.
  intros Hwf Hn Hc Hh Hj He. unfold add_tag. rewrite bind_run, getv_run, (pass_get s t) by done.
  cbn [obind].
  rewrite bind_run.
  destruct (fill_hole_run (Z.to_nat (get TagSaveCount s)) 0 j t s)
    as [->|(h & t' & Hh' & -> & Hwf' & Hnone & Hid & Hoth)]; [done|lia..| |]; cbn [obind].
  - rewrite Z.eqb_refl, bind_run.
    destruct (copy_row_run count j t s) as (t' & -> & Hwf' & Hid & Hoth); [done|lia|done|].
    cbn [obind]. destruct (Z.ltb_spec count hold); [|lia].
    exists (count + 1), t'. split_and!; try done || lia.
    + exists count. rewrite Hid. split; [lia|done].
    + intros k x Hk Hx. rewrite Hoth by lia. done.
  - exists count, t'. change (1 =? 0) with false. split_and!; try done || lia.
    + exists h. rewrite Hid. split; [lia|done].
    + intros k x Hk Hx. destruct (decide (k = h)) as [->|]; [congruence|]. by rewrite Hoth by lia.
Qed.

(** [has m n e]: one of the first [n] rows has the identifier [e]. *)
Definition has (m : bytes) (n : Z) (e : bytes) : Prop := exists k, 0 <= k < n /\ tag_id m k = Some e.

Lemma merge_run n j count hold add t s :
  let saved := get TagSaveCount s in
  pass s t -> 0 <= saved <= count -> 0 <= j -> j + Z.of_nat n <= MAXNUM ->
  count + Z.of_nat n <= hold -> hold <= SAVEMAXNUM ->
  exists c a t', merge n j count hold add t = Ret ((c, a), t') /\ pass s t' /\
    count <= c <= count + Z.of_nat n /\ (a = add \/ a = 1) /\
    (forall k x, 0 <= k < count -> tag_id (tags t) k = Some x -> tag_id (tags t') k = Some x) /\
    (forall i e, j <= i < j + Z.of_nat n -> tag_id (block CardIndex s) i = Some e -> has (tags t') c e) /\
    (a = 0 -> forall i e, j <= i < j + Z.of_nat n -> tag_id (block CardIndex s) i = Some e ->
                          has (tags t) saved e).
Proof using Type.
  intros saved. revert j count add t. induction n as [|n IH];
    intros j count add t Hwf Hs Hj Hn Hc Hh; cbn [merge].
  { exists count, add, t. split_and!; try (done || lia || by left); intros; lia. }
  rewrite bind_run. destruct (ld8_other CardIndex (j * ROW) t s) as (w & -> & Hw & Hw256);
    [done|done|in_block|]. cbn [obind].
  destruct ((w >? 15) || (w =? 0)) eqn:Hskip.
  - assert (Hnone : tag_id (block CardIndex s) j = None).
    { unfold tag_id. rewrite Hw. destruct (Z.ltb_spec 0 w), (Z.leb_spec w 15); try done. lia. }
    destruct (IH (j + 1) count add t) as (c & a & t' & E & Hwf' & Hc' & Ha & Hkeep & Hin & Hall);
      [done|lia..|]. exists c, a, t'. split_and!; try done || lia.
    + intros i e Hi He. destruct (decide (i = j)) as [->|]; [congruence|]. apply (Hin i); [lia|done].
    + intros Ha0 i e Hi He. destruct (decide (i = j)) as [->|]; [congruence|].
      apply (Hall Ha0 i); [lia|done].
  - destruct (tag_id (block CardIndex s) j) as [e|] eqn:He; [|exfalso].
    2: { unfold tag_id in He. rewrite Hw in He.
         destruct (Z.ltb_spec 0 w), (Z.leb_spec w 15); cbn [andb] in He; [|lia..].
         pose proof (wf_size _ (pass_wf _ _ Hwf) CardIndex) as Hcs. rewrite (pass_block s t) in Hcs by done.
         rewrite rdn_in in He; [done|in_block..|rewrite Hcs; in_block]. }
    rewrite bind_run, getv_run, (pass_get s t) by done. cbn [obind]. fold saved. rewrite bind_run.
    destruct (find_saved_run (Z.to_nat saved) 0 j e t s)
      as (w' & k' & t1 & Hw' & E & Hwf1 & Hid1 & Hk' & Hfound & Hnot); [done|lia|lia|lia|done|].
    assert (w' = w) as -> by congruence. rewrite E. cbn [obind].
    destruct ((k' =? saved) || (saved =? 0)) eqn:Hnew.
    + rewrite bind_run.
      destruct (add_tag_run j e count hold t1 s) as (c1 & t2 & -> & Hwf2 & Hc1 & Hhas & Hkeep2);
        [done|fold saved; lia|lia|done|lia|done|]. cbn [obind].
      destruct (IH (j + 1) c1 1 t2) as (c & a & t' & E' & Hwf' & Hc' & Ha & Hkeep & Hin & Hall);
        [done|lia..|]. exists c, a, t'. split_and!; try done || lia.
      * intros k x Hk Hx. apply Hkeep; [lia|]. apply Hkeep2; [lia|]. by rewrite Hid1 by lia.
      * intros i x Hi Hx. destruct (decide (i = j)) as [->|]; [|apply (Hin i); [lia|done]].
        destruct Hhas as (k & Hk & Hkx). exists k. assert (x = e) as -> by congruence.
        split; [lia|]. apply Hkeep; [lia|done].
    + destruct (IH (j + 1) count add t1) as (c & a & t' & E' & Hwf' & Hc' & Ha & Hkeep & Hin & Hall);
        [done|lia..|]. assert (Hkid : tag_id (tags t) k' = Some e) by (apply Hfound; lia).
      exists c, a, t'. split_and!; try done || lia.
      * intros k x Hk Hx. apply Hkeep; [lia|]. by rewrite Hid1 by lia.
      * intros i x Hi Hx. destruct (decide (i = j)) as [->|]; [|apply (Hin i); [lia|done]].
        exists k'. assert (x = e) as -> by congruence. split; [lia|]. apply Hkeep; [lia|].
        by rewrite Hid1 by lia.
      * intros Ha0 i x Hi Hx. destruct (decide (i = j)) as [->|].
        { exists k'. assert (x = e) as -> by congruence. split; [lia|done]. }
        destruct (Hall Ha0 i x) as (k & Hk & Hkx); [lia|done|]. exists k. split; [done|].
        rewrite <- Hid1 by lia. done.
Qed.
(** Dropping rows: no other identifier changes, and none at all when 0 is
    answered. *)
Lemma expire_run n k keeptime red t s :
  pass s t -> 0 <= k -> k + Z.of_nat n <= SAVEMAXNUM ->
  exists r t', expire n k keeptime red t = Ret (r, t') /\ pass s t' /\
    (r = red \/ r = 1) /\
    (forall i x, 0 <= i < SAVEMAXNUM -> tag_id (tags t') i = Some x -> tag_id (tags t) i = Some x) /\
    (r = 0 -> forall i, 0 <= i < SAVEMAXNUM -> tag_id (tags t') i = tag_id (tags t) i).
Proof using Type.
  revert k red t. induction n as [|n IH]; intros k red t Hwf Hk Hn; cbn [expire].
  { exists red, t. split_and!; try done. by left. }
  rewrite bind_run. destruct (ld8_tags (k * ROW) t s) as (w & -> & _); [done|in_block|]. cbn [obind].
  destruct (Z.eqb_spec w 0); [apply IH; [done|lia..]|].
  do 3 (rewrite bind_run; edestruct ld8_tags as (? & -> & _); [done|in_block|]; cbn [obind]).
  do 3 (rewrite bind_run; edestruct (ld8_other g_device) as (? & -> & _);
        [done|done|cbn [bsize]; unfold off_ReaderTime; lia|]; cbn [obind]).
  cbv zeta. case_match; [|apply IH; [done|lia..]].
  rewrite bind_run. destruct (st8_drop k t s) as (t1 & -> & Hwf1 & Hnone & Hoth); [done|lia|].
  cbn [obind]. destruct (IH (k + 1) 1 t1) as (r & t' & E & Hwf' & Hr & Hid & _); [done|lia..|].
  exists r, t'. split_and!; try done; [right; by destruct Hr| |intros ->; by destruct Hr].
  intros i e Hi He. destruct (decide (i = k)) as [->|].
  - specialize (Hid k e Hi He). congruence.
  - rewrite <- Hoth by done. by apply Hid.
Qed.
Lemma fill_hole_full n k j s :
  (forall i, k <= i < k + Z.of_nat n -> exists w, rd (block TagSaveBuf s) (i * ROW) = Some w /\ w ≠ 0) ->
  fill_hole n k j s = Ret (0, s).
Proof using Type.
  revert k. induction n as [|n IH]; intros k Hfull; cbn [fill_hole]; [done|].
  destruct (Hfull k) as (w & Hw & Hne); [lia|].
  rewrite bind_run, (ld8_run _ _ _ w) by done. cbn [obind].
  destruct (Z.eqb_spec w 0); [done|]. apply IH. intros i Hi. apply Hfull. lia.
Qed.

(** the row is copied before [count] is compared with
    its limit: when all 500 rows are taken and a new tag comes, [judgeTag]
    writes row 500 of [TagSaveBuf[500]]. *)
Theorem kept_tags_overflow j s :
  wf s -> 0 <= j < MAXNUM -> get TagSaveCount s = SAVEMAXNUM ->
  (forall i, 0 <= i < SAVEMAXNUM -> exists w, rd (block TagSaveBuf s) (i * ROW) = Some w /\ w ≠ 0) ->
  add_tag j SAVEMAXNUM SAVEMAXNUM s = Oob.
Proof using Type.
  intros Hwf Hj Hn Hfull. unfold add_tag. rewrite bind_run, getv_run, Hn. cbn [obind].
  rewrite bind_run, fill_hole_full by apply Hfull. cbn [obind]. rewrite Z.eqb_refl, bind_run.
  unfold copy_row, memcpy. rewrite bind_run. cbn [ldpn stpn]. rewrite Z.add_0_r.
  pose proof (wf_size _ Hwf CardIndex) as Hc. cbn [bsize] in Hc.
  destruct (rdn (block CardIndex s) (j * ROW) ROW) as [bs|] eqn:Hr;
    [|rewrite rdn_in in Hr by (unfold ROW, MAXNUM in *; lia); done].
  rewrite (ldn_run _ _ _ _ _ Hr). cbn [obind]. unfold stn.
  destruct (wrn _ _ _) as [m|] eqn:Hw; [|done]. exfalso.
  pose proof (wf_size _ Hwf TagSaveBuf) as Ht. cbn [bsize] in Ht.
  apply wrn_Some in Hw as (_ & Hle & _). rewrite (rdn_blen _ _ _ _ Hr), Ht in Hle.
  unfold SAVEMAXNUM, ROW in Hle. lia.
Qed.
End saved.

Section judge.
Context `{Board} {laws : RtcLaws}.

(** [if (TagSaveCount != tmpNum) TagSaveCount = count;] *)
Lemma set_count_run c count hold t s :
  pass s t -> count = get TagSaveCount s -> (count = hold -> c = count) ->
  exists s', when (negb (count =? hold)) (putv TagSaveCount c) t = Ret (tt, s') /\ wf s' /\
    tags s' = tags t /\ block g_device s' = block g_device s /\ get TagSaveCount s' = c.
Proof using Type.
  intros Hp Hc Hfull. unfold when. destruct (Z.eqb_spec count hold) as [->|]; cbn [negb].
  - exists t. split_and!; [done|apply Hp|done|by apply Hp|].
    rewrite (pass_get s t) by done. by rewrite Hfull.
  - exists (put TagSaveCount c t). unfold tags. mget. split_and!; try done; [|by apply Hp].
    by apply wf_put, Hp.
Qed.

(** [getTime(g_device.ReaderTime)] before the rest of a function: only the
    time changes. *)
Lemma clock_run {A} (k : M A) s :
  wf s -> exists s1, (bs ← getTime; stn g_device off_ReaderTime bs;; k) s = k s1 /\ wf s1 /\
    (forall x, get x s1 = get x s) /\ (forall b, b ≠ g_device -> block b s1 = block b s) /\
    forall o, off_ReaderTime + 6 <= o -> rd (block g_device s1) o = rd (block g_device s) o.
Proof using laws.
  intros Hwf. rewrite bind_run. destruct (getTime_run s) as (o & ->). cbn [obind]. rewrite bind_run.
  set (now := _ <$> _). assert (Hnow : bytes_ok now /\ blen now = 6).
  { split; [apply Forall_fmap, Forall_true; intros; apply u8_range|done]. }
  destruct Hnow as [Hb Hbl].
  destruct (stn_wf g_device off_ReaderTime now (set_out o s) (wf_set_out _ _ Hwf) Hb)
    as (d & Hw & -> & Hwf1); [done|rewrite Hbl; done|]. cbn [obind].
  exists (set_block g_device d (set_out o s)). split; [done|]. split; [done|]. split; [done|]. split.
  - intros b Hne. by mget.
  - intros i Hi. mget. apply (rd_wrn_out _ _ _ _ _ Hw). rewrite Hbl. by right.
Qed.

(** C10: while the table of tags kept has room for the tags just
    read, [judgeTag] (change reports, types 2 and up) always returns, stays
    inside its tables, and leaves every tag of [CardIndex] among the first
    [TagSaveCount] rows kept.  A report of type 2 answers 0 only when all of
    them had been kept already; a report of type 3 answers 0 only when every
    tag kept before is kept still, in its row. *)
Theorem judgeTag_saves h l ty s :
  let dev := block g_device s in
  let hold := Z.min (h * 256 + l) SAVEMAXNUM in
  let seen := tag_id (block CardIndex s) in
  wf s -> rd dev ap_TagHoldNumH = Some h -> rd dev ap_TagHoldNumL = Some l ->
  rd dev ap_CallPCType = Some ty -> 2 <= ty ->
  0 <= get TagSaveCount s -> 0 <= get CardPos s ->
  get TagSaveCount s + get CardPos s <= hold ->
  exists r s', judgeTag s = Ret (r, s') /\ wf s' /\
    get TagSaveCount s <= get TagSaveCount s' <= hold /\
    (forall i e, 0 <= i < get CardPos s -> seen i = Some e ->
       has (block TagSaveBuf s') (get TagSaveCount s') e) /\
    (ty = 2 -> r = 0 -> forall i e, 0 <= i < get CardPos s -> seen i = Some e ->
       has (block TagSaveBuf s) (get TagSaveCount s) e) /\
    (ty = 3 -> r = 0 -> forall k e, 0 <= k < get TagSaveCount s ->
       tag_id (block TagSaveBuf s) k = Some e -> tag_id (block TagSaveBuf s') k = Some e).
Proof using laws.
  intros dev hold seen Hwf Hh Hl Hty Hty2 Hc0 Hp0 Hroom. unfold judgeTag.
  rewrite bind_run, (ld8_run _ _ _ h) by done. cbn [obind].
  rewrite bind_run, (ld8_run _ _ _ l) by done. cbn [obind]. cbv zeta.
  rewrite bind_run, (ld8_run _ _ _ ty) by done. cbn [obind].
  destruct (Z.eqb_spec ty 0), (Z.eqb_spec ty 1); [lia..|].
  replace (if Z.shiftl h 8 + l >? SAVEMAXNUM then SAVEMAXNUM else Z.shiftl h 8 + l) with hold
    by (unfold hold; rewrite Z.shiftl_mul_pow2, Z.gtb_ltb by lia; change (2 ^ 8) with 256;
        destruct (Z.ltb_spec SAVEMAXNUM (h * 256 + l)); lia).
  lazymatch goal with |- context [(getTime ≫= ?f) s] =>
    lazymatch f with (fun bs => _ ≫= fun _ => ?k) => destruct (clock_run k s Hwf)
      as (s1 & -> & Hwf1 & Hg1 & Hb1 & Hr1) end end.
  assert (Hp1 : pass s1 s1) by by split.
  assert (Htags : tags s1 = tags s) by by apply Hb1.
  assert (Hcards : block CardIndex s1 = block CardIndex s) by by apply Hb1.
  assert (Hty1 : rd (block g_device s1) ap_CallPCType = Some ty) by by rewrite Hr1.
  rewrite bind_run. destruct (ld8_other g_device ap_TagExisTimeH s1 s1) as (kh & -> & _); [done..|].
  cbn [obind]. rewrite bind_run.
  destruct (ld8_other g_device ap_TagExisTimeL s1 s1) as (kl & -> & _); [done..|]. cbn [obind].
  rewrite bind_run, getv_run, Hg1. cbn [obind].
  set (count := get TagSaveCount s) in *.
  assert (Hhold : hold <= SAVEMAXNUM) by (unfold hold; lia).
  rewrite bind_run. edestruct (expire_run (Z.to_nat count) 0 (Z.shiftl kh 8 + kl) 0 s1 s1)
    as (red & t & -> & Hpt & Hred & Hsub & Hsame); [done|lia|lia|]. cbn [obind].
  rewrite bind_run, getv_run, (pass_get s1 t) by done. cbn [obind].
  rewrite Hg1, bind_run.
  destruct (merge_run (Z.to_nat (get CardPos s)) 0 count hold 0 t s1)
    as (c & a & t' & -> & Hpt' & Hc & Ha & Hkeep & Hin & Hall);
    [done|rewrite Hg1; by split|done|unfold MAXNUM, SAVEMAXNUM in *; lia|lia|done|]. cbn [obind].
  rewrite bind_run, getv_run, (pass_get s1 t') by done. cbn [obind].
  rewrite Hg1. fold count. rewrite bind_run.
  destruct (set_count_run c count hold t' s1) as (s' & -> & Hwf' & Htg & Hdev & Hcount);
    [done|by rewrite Hg1|lia|]. cbn [obind].
  rewrite bind_run, (ld8_run _ _ _ ty) by by rewrite Hdev. cbn [obind]. rewrite ret_run.
  eexists _, s'. split; [done|]. unfold seen.
  change (block TagSaveBuf ?s) with (tags s). rewrite <- Hcards, <- Htags. rewrite Hcount, Htg.
  split_and!; [done|lia|lia|..].
  - intros i e Hi. apply Hin. lia.
  - intros -> Ha0 i e Hi He. destruct (Hall Ha0 i e) as (k & Hk & Hx); [lia|done|].
    rewrite Hg1 in Hk.
    exists k. split; [exact Hk|]. apply Hsub; [lia|exact Hx].
  - intros -> Hr0 k e Hk He. apply Hkeep; [lia|]. by rewrite (Hsame Hr0) by lia.
Qed.
End judge.
