(* ===== verification/Output.v ===== *)
(** * What the active mode reports (main.c, [sendDataOut])

    When to report, through which of the five outputs, and the text of a
    report.  [out_buf] is the array [buf] of main.c. *)
From stdpp Require Import base tactics list numbers option gmap.
From Stdlib Require Import String Ascii.
From S2P Require Import Prelude Machine Effects Timers Tick Serial Packet ParamTable Process Device Ds1302 Radio Request Handlers Channels Wiegand Track.

Definition OUTPUT_RS232 : Z := 0.
Definition OUTPUT_RS485 : Z := 1.
Definition OUTPUT_RJ45 : Z := 2.
Definition STX : Z := 0x02.
Definition ETX : Z := 0x03.
Definition ap_OutputDataType : Z := 141.
Definition ap_CardStartPos : Z := 145.
Definition ap_PCIP1 : Z := 152.
Definition ap_PCPortHigh : Z := 156.
Definition ap_PCPortLow : Z := 157.

(** The characters of a literal. *)
Definition chars (t : string) : bytes := (fun c => Z.of_N (N_of_ascii c)) <$> list_ascii_of_string t.

Definition hextochar (ch : Z) : Z :=
  if ch <=? 9 then ch + 48 else u8 (ch - 10) + 65.
Definition charTohex (ch : Z) : Z :=
  if ch <=? 57 then u32 (ch - 48) else u32 (ch - 65 + 10).

Section output.
Context `{Board} (pbuf_alloc : Z -> fw -> bool).

Definition B (k v : Z) : M unit := st8 out_buf k v.
(** Consecutive characters, one assignment each. *)
Fixpoint puts (k : Z) (cs : bytes) : M unit :=
  match cs with [] => mret tt | c :: cs => B k c;; puts (k + 1) cs end.
(** [buf[k] = v/10 + 0x30; buf[k + 1] = v%10 + 0x30;] *)
Definition dec2 (k v : Z) : M unit := B k (v / 10 + 0x30);; B (k + 1) (v mod 10 + 0x30).
(** [buf[k] = hextochar(v >> 4); buf[k + 1] = hextochar(v & 0x0f);] *)
Definition hex2 (k v : Z) : M unit :=
  B k (hextochar (Z.shiftr v 4));; B (k + 1) (hextochar (Z.land v 0x0f)).

Definition saved (i k : Z) : M Z := ld8 TagSaveBuf (i * ROW + k).

(** [for (j = 0; j < len; j++)]: the bytes of an EPC in hexadecimal from [base]. *)
Definition hex_epc (base i len : Z) : M unit :=
  for_ (Z.to_nat len) 0 (fun j => x ← saved i (j + 1); hex2 (base + j * 2) x).

(** [while (beepFlag != 0);] *)
Definition wait_beep : M unit :=
  busy_wait UART4_IRQHandler Time_Update
    (b ← getv beepFlag; mret (if b =? 0 then Some tt else None)).

(** The EPC length in bytes of row [i]; an empty or an oversized row is
    skipped; a report of no tag (222) has length 0. *)
Definition with_len (chk i : Z) (body : Z -> M unit) : M unit :=
  if chk =? 222 then body 0
  else
    len ← saved i 0;
    if (len >? 15) || (len =? 0) then mret tt else body (len * 2).

(** ** The five outputs *)

(** The four bytes of the card number. *)
Definition wiegand_number (chk i : Z) (send : M unit) : M unit :=
  if chk =? 222 then for_ 4 0 (fun j => B j 0);; send
  else
    len ← saved i 0;
    if (len >? 15) || (len =? 0) then mret tt
    else
      u ← ld8 g_device ap_CardSaveInTagPosition;
      for_ 4 0 (fun j =>
        c ← ld8 g_device ap_CardStartPos;
        x ← saved i (c + (if u =? 0 then 1 else 5) + j); B j x);;
      send.

Definition out_wiegand (chk : Z) : M unit :=
  n ← getv TagSaveCount;
  for_ (Z.to_nat n) 0 (fun i =>
    putv beepFlag 1;;
    a ← saved i COL_ANT; putv AntId a;;
    wiegand_number chk i
      (m ← ld8 g_device ap_CardOutModule;
       a ← getv AntId;
       let ch := At out_buf 0 in
       (if m =? OUTPUT_Wiegan26 then
          if Z.land a 0x01 =? 0 then packetDataWG261 ch else packetDataWG26 ch
        else if Z.land a 0x01 =? 0 then packetDataWG341 ch else packetDataWG34 ch);;
       DelayMs 900)).

(** [STX address antenna EPC ETX checksum], in hexadecimal but for the frame. *)
Definition line_485 (i len : Z) : M unit :=
  hex_epc 5 i len;;
  B 0 STX;;
  a ← ld8 g_device wp_Address; hex2 1 a;;
  t ← saved i COL_ANT; hex2 3 t;;
  B (5 + len * 2) ETX;;
  c ← SetChecksum out_buf (len * 2 + 6); B (len * 2 + 6) c.
Definition out_485 (chk : Z) : M unit :=
  n ← getv TagSaveCount;
  for_ (Z.to_nat n) 0 (fun i =>
    putv beepFlag 1;;
    with_len chk i (fun len =>
      line_485 i len;;
      b4 ← ld8 out_buf 4;
      (if (b4 =? 49) || (b4 =? 51) then relayON 1 2000
       else if (b4 =? 50) || (b4 =? 52) then relayON 2 2000 else mret tt);;
      RS485Send (At out_buf 0) (len * 2 + 7);;
      wait_beep)).

(** A line of 166 characters, to the serial port or to the PC. *)
Definition send_line : M unit :=
  m ← ld8 g_device ap_CardOutModule;
  (if m =? OUTPUT_RS232 then RS232Send (At out_buf 0) 166
   else if m =? OUTPUT_RS485 then RS485Send (At out_buf 0) 166
   else
     a ← ld8 g_device ap_PCIP1; b ← ld8 g_device (ap_PCIP1 + 1);
     c ← ld8 g_device (ap_PCIP1 + 2); d ← ld8 g_device (ap_PCIP1 + 3);
     ph ← ld8 g_device ap_PCPortHigh; pl ← ld8 g_device ap_PCPortLow;
     UDP_sendData pbuf_alloc (IP4_ADDR a b c d) (u16 (u16 (Z.shiftl ph 8) + pl)) (At out_buf 0) 166);;
  wait_beep.
(** Spaces up to 164, then the line end. *)
Definition pad_line (from : Z) : M unit :=
  for_ (Z.to_nat (164 - from)) from (fun j => B j 0x20);;
  B 164 0x0D;; B 165 0x0A.

(** The simplified format.  The antenna is read from row [i0]: [i] has no value
    there in the code. *)
Definition simple_head (i0 : Z) : M unit :=
  n ← getv read_count;
  let t := n mod 100000 in
  B 0 (t / 10000 + 0x30);;
  let t := t mod 10000 in
  B 1 (t / 1000 + 0x30);;
  let t := t mod 1000 in
  B 2 (t / 100 + 0x30);;
  let t := t mod 100 in
  B 3 (t / 10 + 0x30);;
  B 4 (t mod 10 + 0x30);;
  B 0 0x30;;
  puts 5 (chars ", ");;
  a ← saved i0 COL_ANT; dec2 7 a;;
  puts 9 (chars ", ");;
  ty ← ld8 g_device wp_TagType; hex2 11 ty;;
  puts 13 (chars ", ").
Definition out_simple (i0 chk : Z) : M unit :=
  simple_head i0;;
  n ← getv TagSaveCount;
  for_ (Z.to_nat n) 0 (fun i =>
    putv beepFlag 1;;
    with_len chk i (fun len =>
      hex_epc 15 i len;;
      pad_line (len * 2 + 15);;
      send_line)).

(** [20yy/mm/dd hh:mm:ss] of the reader's clock, from the year's last digits. *)
Definition clock_text (k : Z) : M unit :=
  let field i o := x ← ld8 g_device (off_ReaderTime + i); dec2 (k + o) x in
  field 0 0;; puts (k + 2) (chars "/");;
  field 1 3;; puts (k + 5) (chars "/");;
  field 2 6;; puts (k + 8) (chars " ");;
  field 3 9;; puts (k + 11) (chars ":");;
  field 4 12;; puts (k + 14) (chars ":");;
  field 5 15.
Definition standard_head : M unit :=
  puts 0 (chars "Disc:20");;
  clock_text 7;;
  puts 24 (chars ", Last:20");;
  clock_text 33;;
  puts 50 (chars ", Count:");;
  puts 58 (chars "  -  ");;
  puts 63 (chars ", Ant:");;
  puts 71 (chars ", Type:");;
  ty ← ld8 g_device wp_TagType; hex2 78 ty;;
  puts 80 (chars ", Tag:").
(** The times of the tag: hours, minutes and seconds from column [c]. *)
Definition row_time (i c k : Z) : M unit :=
  x ← saved i (TAGIDLENGTH + c); dec2 k x;;
  x ← saved i (TAGIDLENGTH + c + 1); dec2 (k + 3) x;;
  x ← saved i (TAGIDLENGTH + c + 2); dec2 (k + 6) x.
Definition out_standard (chk : Z) : M unit :=
  standard_head;;
  n ← getv TagSaveCount;
  for_ (Z.to_nat n) 0 (fun i =>
    putv beepFlag 1;;
    x ← saved i COL_RSSI; v ← rssichk x; dec2 61 v;;
    a ← saved i COL_ANT; dec2 69 a;;
    with_len chk i (fun len =>
      hex_epc 86 i len;;
      when (negb (len =? 0)) (row_time i 0 16;; row_time i 3 42);;
      pad_line (len * 2 + 86);;
      send_line)).

(** ** When *)

Definition is_wiegand : M bool :=
  m ← ld8 g_device ap_CardOutModule;
  mret ((m =? OUTPUT_Wiegan26) || (m =? OUTPUT_Wiegan34)).

(** 1: look for tags to report; 222: report that there is none; 0: neither. *)
Definition output_due : M Z :=
  p ← getv CardPos;
  r ← getv read_count;
  let chk := if (p >? 0) && (r >? 0) then 1 else 0 in
  type ← ld8 g_device ap_CallPCType;
  e ← ld8 g_device ap_CallPCEnable;
  if type >? 1 then mret 1
  else if negb (e =? 0) then
    w ← is_wiegand;
    if (w : bool) then putv read_count 0;; mret 1
    else
      o ← timerIsOverflow OutPutTimer;
      if negb (o =? 0) then putv CardPos 1;; putv read_count 0;; mret 222
      else mret chk
  else mret chk.

Definition tags_due : M Z :=
  chk ← judgeTag;
  putv CardPos 0;;
  e ← ld8 g_device ap_CallPCEnable;
  if (chk =? 0) && negb (e =? 0) then
    o ← timerIsOverflow OutPutTimer;
    if negb (o =? 0) then putv TagSaveCount 1;; mret 222 else mret chk
  else mret chk.

Definition report (i0 chk : Z) : M unit :=
  start_OutPutTimer;;
  m ← ld8 g_device ap_CardOutModule;
  switch m
    [ ([OUTPUT_Wiegan26; OUTPUT_Wiegan34], out_wiegand chk);
      ([OUTPUT_RS485], out_485 chk);
      ([OUTPUT_RS232; OUTPUT_RJ45],
         t ← ld8 g_device ap_OutputDataType;
         if t =? 0 then out_simple i0 chk
         else if t =? 1 then out_standard chk else mret tt) ]
    (mret tt);;
  putv read_count 0.

(** [CallPCType] is forced to 1 for the time of a Wiegand report. *)
Definition sendDataOut (i0 : Z) : M unit :=
  CallPCType ← ld8 g_device ap_CallPCType;
  w ← is_wiegand;
  when w (st8 g_device ap_CallPCType 1);;
  chk ← output_due;
  when (negb (chk =? 0))
    (chk ← (if chk =? 1 then tags_due else mret chk);
     when (negb (chk =? 0)) (report i0 chk));;
  st8 g_device ap_CallPCType CallPCType.
End output.
