(* ===== verification/Report.v ===== *)
(** * The RS-485 report of a tag (main.c, [sendDataOut])

    The line [out_485] sends for a kept tag is a frame: [STX], the reader's
    address, the antenna and the EPC as pairs of hexadecimal digits, [ETX] and
    a checksum. *)
From stdpp Require Import base tactics list numbers option gmap.
From Stdlib Require Import String Ascii.
From S2P Require Import Prelude Machine Effects Timers Tick Serial Packet ParamTable Process Device Ds1302 Radio Request Handlers Channels Wiegand Track Saved Output.

(** A nibble as the character that prints it. *)
Definition digit (d : Z) : Z := nth (Z.to_nat d) (chars "0123456789ABCDEF") 0.
Definition hex_byte (x : Z) : bytes := [digit (x / 16); digit (x mod 16)].
Definition hex_bytes (bs : bytes) : bytes := bs ≫= hex_byte.

Definition hex_ok (x : Z) : bool :=
  (u8 (hextochar (Z.shiftr x 4)) =? digit (x / 16)) && (u8 (hextochar (Z.land x 0x0f)) =? digit (x mod 16)) &&
  (charTohex (digit (x / 16)) * 16 + charTohex (digit (x mod 16)) =? x).
Lemma hex_all : forallb hex_ok (seqZ 0 256) = true.
Proof. vm_compute. reflexivity. Qed.
Lemma hex_byte_ok x : 0 <= x < 256 ->
  u8 (hextochar (Z.shiftr x 4)) = digit (x / 16) /\ u8 (hextochar (Z.land x 0x0f)) = digit (x mod 16) /\
  charTohex (digit (x / 16)) * 16 + charTohex (digit (x mod 16)) = x.
Proof.
  intros Hx. pose proof (below hex_ok 256 x hex_all Hx) as Hok.
  unfold hex_ok in Hok. rewrite !andb_true_iff, !Z.eqb_eq in Hok. tauto.
Qed.

(** Reading the digits back. *)
Fixpoint unhex (cs : bytes) : bytes :=
  match cs with
  | a :: b :: cs => charTohex a * 16 + charTohex b :: unhex cs
  | _ => []
  end.
Lemma unhex_hex bs : bytes_ok bs -> unhex (hex_bytes bs) = bs.
Proof.
  intros Hb. induction Hb as [|x bs Hx Hb IH]; [done|]. unfold hex_bytes in *. cbn.
  rewrite IH. f_equal. by apply hex_byte_ok.
Qed.
Lemma hex_bytes_cons x bs : hex_bytes (x :: bs) = hex_byte x ++ hex_bytes bs.
Proof. done. Qed.
Lemma hex_bytes_len bs : blen (hex_bytes bs) = 2 * blen bs.
Proof.
  induction bs as [|x bs IH]; [done|]. rewrite hex_bytes_cons, blen_app, IH, blen_cons.
  change (blen (hex_byte x)) with 2. lia.
Qed.

(** Two writes side by side are one. *)
Lemma wrn_wrn_app m k a m1 b m2 :
  wrn m k a = Some m1 -> wrn m1 (k + blen a) b = Some m2 -> wrn m k (a ++ b) = Some m2.
Proof.
  intros H1 H2. pose proof (wrn_blen _ _ _ _ H1) as L1. pose proof (wrn_blen _ _ _ _ H2) as L2.
  pose proof H1 as (Hk & _ & _)%wrn_Some. pose proof H2 as (_ & Hle & _)%wrn_Some.
  pose proof (blen_nonneg a). pose proof (blen_nonneg b).
  destruct (wrn m k (a ++ b)) as [m3|] eqn:H3; [|rewrite wrn_in in H3 by (rewrite ?blen_app; lia); done].
  f_equal. pose proof (wrn_blen _ _ _ _ H3). apply bytes_ext; [congruence|]. intros i Hi.
  destruct (decide (k <= i < k + blen (a ++ b))) as [Hin|Hout]; rewrite blen_app in *.
  - rewrite (rd_wrn_in _ _ _ _ _ H3) by (rewrite blen_app; lia).
    destruct (decide (i < k + blen a)).
    + rewrite (rd_wrn_out _ _ _ _ _ H2), (rd_wrn_in _ _ _ _ _ H1) by lia.
      unfold rd, blen in *. destruct (Z.leb_spec 0 (i - k)); [|lia]. apply lookup_app_l. lia.
    + rewrite (rd_wrn_in _ _ _ _ _ H2) by lia. unfold rd, blen in *.
      destruct (Z.leb_spec 0 (i - k)), (Z.leb_spec 0 (i - (k + Z.of_nat (List.length a)))); [|lia..].
      rewrite lookup_app_r by lia. f_equal. lia.
  - rewrite (rd_wrn_out _ _ _ _ _ H3), (rd_wrn_out _ _ _ _ _ H2), (rd_wrn_out _ _ _ _ _ H1)
      by (rewrite ?blen_app; lia). done.
Qed.

Section report.
Context `{Board}.

(** [writes m k bs]: the program only stores [bs] in [out_buf] from [k] on. *)
Definition writes (m : M unit) (k : Z) (bs : bytes) (s s' : fw) : Prop :=
  m s = Ret (tt, s') /\ wf s' /\ (forall b, b ≠ out_buf -> block b s' = block b s) /\
  wrn (block out_buf s) k bs = Some (block out_buf s').

Lemma writes_B k v s : wf s -> 0 <= k < 170 -> exists s', writes (B k v) k [u8 v] s s'.
Proof using Type.
  intros Hwf Hk. destruct (st8_wf out_buf k v s Hwf Hk) as (m & Hw & E & Hwf').
  exists (set_block out_buf m s). split; [done|]. split; [done|]. split; [by intros b Hb; mget|].
  rewrite block_set_block_eq. pose proof (wf_size s Hwf out_buf) as Hs. cbn [bsize] in Hs.
  pose proof Hw as [_ ->]%wr_Some. rewrite wrn_in by (change (blen [u8 v]) with 1; lia).
  f_equal. rewrite insert_take_drop; [|unfold blen in Hs; lia]. simpl.
  repeat f_equal. unfold blen. simpl. lia.
Qed.
Lemma writes_seq (m n : M unit) k a b s s1 s2 :
  writes m k a s s1 -> writes n (k + blen a) b s1 s2 -> writes (m;; n) k (a ++ b) s s2.
Proof using Type.
  intros (E1 & _ & O1 & W1) (E2 & Hwf & O2 & W2). split; [by rewrite bind_run, E1|].
  split; [done|]. split; [|by eapply wrn_wrn_app].
  intros c Hc. by rewrite O2, O1.
Qed.
Lemma writes_hex2 k v s : wf s -> 0 <= k < 169 -> 0 <= v < 256 ->
  exists s', writes (hex2 k v) k (hex_byte v) s s'.
Proof using Type.
  intros Hwf Hk Hv. destruct (hex_byte_ok v Hv) as (Hh & Hl & _).
  destruct (writes_B k (hextochar (Z.shiftr v 4)) s) as (s1 & W1); [done|lia|].
  destruct (writes_B (k + 1) (hextochar (Z.land v 0x0f)) s1) as (s2 & W2); [by apply W1|lia|].
  rewrite Hh in W1. rewrite Hl in W2. exists s2.
  exact (writes_seq _ _ k [digit (v / 16)] [digit (v mod 16)] s s1 s2 W1 W2).
Qed.

(** The bytes of a row of the table. *)
Lemma saved_run i k s : wf s -> 0 <= i * ROW + k < SAVEMAXNUM * ROW ->
  exists x, saved i k s = Ret (x, s) /\ rd (block TagSaveBuf s) (i * ROW + k) = Some x /\ 0 <= x < 256.
Proof using Type.
  intros Hwf Hk. destruct (rd_in (block TagSaveBuf s) (i * ROW + k)) as [x Hx];
    [by rewrite (wf_size s Hwf)|].
  exists x. split; [by apply ld8_run|]. split; [done|]. eapply rd_ok, Hx. by apply wf_bytes.
Qed.

Lemma hex_loop_run n base i j s bs :
  wf s -> 0 <= base -> 0 <= j -> base + 2 * (j + Z.of_nat n) <= 168 -> 0 <= i ->
  rdn (block TagSaveBuf s) (i * ROW + (j + 1)) (Z.of_nat n) = Some bs ->
  exists s', writes (for_ n j (fun j => x ← saved i (j + 1); hex2 (base + j * 2) x))
               (base + j * 2) (hex_bytes bs) s s'.
Proof using Type.
  revert j s bs. induction n as [|n IH]; intros j s bs Hwf Hb Hj Hn Hi Hr; cbn [for_].
  { pose proof (rdn_blen _ _ _ _ Hr) as Hl. destruct bs; [|done].
    exists s. split; [done|]. split; [done|]. split; [done|].
    apply (wrn_rdn_id _ _ []). pose proof (wf_size s Hwf out_buf) as Hs. cbn [bsize] in Hs.
    rewrite rdn_in by (change (blen []) with 0; lia). done. }
  rewrite Nat2Z.inj_succ in Hr. destruct (rdn_cons _ _ _ _ Hr) as (x & r & Hx & Hrr & ->); [lia|].
  assert (Hx8 : 0 <= x < 256) by (eapply rd_ok, Hx; by apply wf_bytes).
  destruct (writes_hex2 (base + j * 2) x s) as (s1 & W1); [done|lia|done|].
  pose proof W1 as (E1 & Hwf1 & O1 & _).
  destruct (IH (j + 1) s1 r) as (s2 & W2); [done|lia|lia|lia|done| |].
  { rewrite O1 by done. rewrite <- Hrr. f_equal. lia. }
  exists s2. rewrite hex_bytes_cons. apply (writes_seq _ _ _ _ _ s s1 s2).
  - destruct W1 as (_ & W1). split; [|exact W1]. unfold saved.
    by rewrite bind_run, (ld8_run _ _ _ x).
  - change (blen (hex_byte x)) with 2. by replace (base + j * 2 + 2) with (base + (j + 1) * 2) by lia.
Qed.

(** The text of the report of row [i]. *)
Definition line_body (addr ant : Z) (epc : bytes) : bytes :=
  STX :: hex_byte addr ++ hex_byte ant ++ hex_bytes epc ++ [ETX].

(** The pieces of the text, in the order they are written. *)
Lemma line_parts m m1 m4 m5 addr ant epc len :
  blen epc = len -> wrn m 5 (hex_bytes epc) = Some m1 ->
  wrn m1 0 ([STX] ++ hex_byte addr ++ hex_byte ant) = Some m4 ->
  wrn m4 (5 + len * 2) [u8 ETX] = Some m5 ->
  rdn m5 0 (len * 2 + 6) = Some (line_body addr ant epc).
Proof.
  intros Hl H1 H4 H5. pose proof (blen_nonneg epc). pose proof (hex_bytes_len epc) as Hh.
  change (line_body addr ant epc) with
    (([STX] ++ hex_byte addr ++ hex_byte ant) ++ (hex_bytes epc ++ [u8 ETX])).
  replace (len * 2 + 6) with (5 + (len * 2 + 1)) by lia.
  apply rdn_app; [|apply rdn_app].
  - rewrite (rdn_wrn_out _ _ _ _ _ _ H5) by (left; lia). exact (rdn_wrn_same _ _ _ _ H4).
  - rewrite (rdn_wrn_out _ _ _ _ _ _ H5) by (left; lia).
    rewrite (rdn_wrn_out _ _ _ _ _ _ H4) by (right; done).
    replace (len * 2) with (blen (hex_bytes epc)) by lia. exact (rdn_wrn_same _ _ _ _ H1).
  - replace (0 + 5 + len * 2) with (5 + len * 2) by lia. exact (rdn_wrn_same _ _ _ _ H5).
Qed.

(** for a kept tag of [len] EPC bytes, [line_485] prepares
    in the first [2 len + 7] bytes of [buf] the frame [STX], address, antenna
    and EPC in upper-case hexadecimal, [ETX], checksum; the digits read back
    give the EPC, the frame sums to zero, and nothing else is changed. *)
Theorem line_485_frame i len s :
  wf s -> 0 <= i < SAVEMAXNUM -> 0 <= len <= 30 ->
  exists s' addr ant epc, line_485 i len s = Ret (tt, s') /\ wf s' /\
    rd (block g_device s) wp_Address = Some addr /\
    rd (block TagSaveBuf s) (i * ROW + COL_ANT) = Some ant /\
    rdn (block TagSaveBuf s) (i * ROW + 1) len = Some epc /\
    (let body := line_body addr ant epc in
     rdn (block out_buf s') 0 (len * 2 + 7) = Some (body ++ [checksum body]) /\
     frame_valid (body ++ [checksum body])) /\
    unhex (hex_bytes epc) = epc /\
    (forall b, b ≠ out_buf -> block b s' = block b s).
Proof using Type.
  intros Hwf Hi Hlen.
  pose proof (wf_size s Hwf TagSaveBuf) as Hts. cbn [bsize] in Hts.
  destruct (rdn (block TagSaveBuf s) (i * ROW + 1) len) as [epc|] eqn:Hepc;
    [|rewrite rdn_in in Hepc by (unfold SAVEMAXNUM, ROW in *; lia); done].
  assert (Hb : bytes_ok epc) by (eapply rdn_ok, Hepc; by apply wf_bytes).
  pose proof (rdn_blen _ _ _ _ Hepc) as Hl.
  destruct (hex_loop_run (Z.to_nat len) 5 i 0 s epc) as (s1 & W1);
    [done|lia|lia|lia|lia|rewrite Z2Nat.id by lia; done|].
  pose proof W1 as (E1 & Hwf1 & O1 & M1).
  destruct (writes_B 0 STX s1) as (s2 & W2); [done|lia|]. pose proof W2 as (E2 & Hwf2 & O2 & M2).
  destruct (rd_in (block g_device s) wp_Address) as [addr Ha]; [by rewrite (wf_size s Hwf)|].
  assert (Ha8 : 0 <= addr < 256) by (eapply rd_ok, Ha; by apply wf_bytes).
  destruct (saved_run i COL_ANT s Hwf) as (ant & _ & Hant & Hant8); [unfold COL_ANT; in_block|].
  destruct (writes_hex2 1 addr s2) as (s3 & W3); [done|lia|done|]. pose proof W3 as (E3 & Hwf3 & O3 & _).
  destruct (writes_hex2 3 ant s3) as (s4 & W4); [done|lia|done|]. pose proof W4 as (E4 & Hwf4 & O4 & _).
  destruct (writes_B (5 + len * 2) ETX s4) as (s5 & W5); [done|lia|].
  pose proof W5 as (E5 & Hwf5 & O5 & M5).
  assert (Hbody : rdn (block out_buf s5) 0 (len * 2 + 6) = Some (line_body addr ant epc)).
  { eapply line_parts; [exact Hl|exact M1| |exact M5].
    eapply (writes_seq _ _ 0 [STX] _ s1 s2 s4 W2).
    exact (writes_seq _ _ 1 (hex_byte addr) (hex_byte ant) s2 s3 s4 W3 W4). }
  destruct (seal_run0 out_buf (len * 2 + 6) _ s5 Hwf5 Hbody) as (m & _ & Hm & Hwfm & Em); [cbn; lia|].
  exists (set_block out_buf m s5), addr, ant, epc. split; [|split_and!; try done].
  - unfold line_485, hex_epc. rewrite bind_run, E1. cbn [obind]. rewrite bind_run, E2. cbn [obind].
    rewrite bind_run, (ld8_run _ _ _ addr) by by rewrite O2, O1. cbn [obind].
    rewrite bind_run, E3. cbn [obind]. unfold saved.
    rewrite bind_run, (ld8_run _ _ _ ant) by by rewrite O3, O2, O1. cbn [obind].
    rewrite bind_run, E4. cbn [obind]. rewrite bind_run, E5. cbn [obind]. exact Em.
  - cbv zeta. mget. replace (len * 2 + 7) with (len * 2 + 6 + 1) by lia.
    split; [exact Hm|apply frame_checksum].
  - by apply unhex_hex.
  - intros b Hne. mget. by rewrite O5, O4, O3, O2, O1.
Qed.
End report.
