(* ===== verification/Main.v ===== *)
(** * The program: start-up, the main loop and the interrupts (main.c)

    [main] runs after the board is set up; one turn of its loop is
    [main_loop].  [step] is the whole program: the loop, and the interrupts
    between its turns. *)
From stdpp Require Import base tactics list numbers option gmap.
From S2P Require Import Prelude Machine Effects Timers Tick Serial Packet ParamTable Process Device Ds1302 Radio Request Handlers Channels Wiegand Track Output.

Section main.
Context `{Board} (pbuf_alloc : Z -> fw -> bool).

(** As many blinks as the number of the failure.  The bound is read at each
    turn; failures are numbered up to 8. *)
Fixpoint SelfCheck_loop (fuel : nat) (i : Z) : M unit :=
  match fuel with
  | O => fun _ => Starved
  | S fuel =>
      n ← getv SelfCheckFailure;
      if i <? n then
        emit (PinLo LEDGreen);;
        emit (PinHi BEEP);;
        DelayMs 450;;
        emit (PinHi LEDGreen);;
        emit (PinLo BEEP);;
        DelayMs 450;;
        SelfCheck_loop fuel (i + 1)
      else mret tt
  end.
Definition SelfCheck : M unit := SelfCheck_loop 9 0.

Definition CMDCtrl : M unit :=
  c ← ld8 g_device off_SysConnectParaChange;
  when (1 =? Z.land c 0x01)
    (st8 g_device off_SysConnectParaChange (Z.land c 0xfe);;
     RS485_init;;
     RS232_init);;
  r ← getv sysReboot;
  when (r >? 1) (putv sysReboot (r - 1)).

Definition TIM3_IRQHandler : M unit :=
  t ← getv timingdelay;
  when (negb (t =? 0)) (putv timingdelay (t - 1)).

Definition R2000_init : M unit := R2000_zero;; emit (UsartInit 4 115200).

(** [main] up to its loop; [pcb] is the outcome of [udp_new]. *)
Definition main_init (pcb : bool) : M unit :=
  initPara;;
  UDP_init pcb;;
  timerStart UIP_timer 300;;
  RS232_init;;
  RS485_init;;
  R2000_init;;
  set_24hours 0;;
  emit (PinLo BEEP);;
  emit (PinHi LEDGreen);;
  SelFreq;;
  set_output_power;;
  SelfCheck.

(** The loop; [i0] is the value of [sendDataOut]'s uninitialised variable. *)
Definition main_loop (i0 : Z) : M unit :=
  Udp_BroadCast pbuf_alloc;;
  save_changes;;
  Local_232_module;;
  Local_485_module;;
  st ← ld8 g_device wp_ReaderWorkStatus;
  when (st =? WORK_ACT) (workACT;; sendDataOut pbuf_alloc i0);;
  CMDCtrl.

(** ** The program as a step relation *)

Inductive step : fw -> fw -> Prop :=
| step_loop i0 s s' : main_loop i0 s = Ret (tt, s') -> step s s'
| step_usart1 c s s' : 0 <= c < 256 -> USART1_IRQHandler c s = Ret (tt, s') -> step s s'
| step_usart2 c s s' : 0 <= c < 256 -> USART2_IRQHandler c s = Ret (tt, s') -> step s s'
| step_uart4 c s s' : 0 <= c < 256 -> UART4_IRQHandler c s = Ret (tt, s') -> step s s'
| step_systick s s' : Time_Update s = Ret (tt, s') -> step s s'
| step_tim3 s s' : TIM3_IRQHandler s = Ret (tt, s') -> step s s'
| step_udp payload addr port s s' :
    bytes_ok payload -> UDP_Receive pbuf_alloc payload addr port s = Ret (tt, s') -> step s s'
| step_world es h s : step s (set_board h (set_sched es s)).

Inductive reachable (h : hw) : fw -> Prop :=
| reach_init es pcb s : main_init pcb (fw0 es h) = Ret (tt, s) -> reachable h s
| reach_step s s' : reachable h s -> step s s' -> reachable h s'.
End main.
