(* ===== verification/Gpio.v ===== *)
(** * The pins of the board (stm32f10x_gpio.c, GPIO_Configuration of stm32f107.c)

    [GPIO_Init] over the registers of a port, and the calls of
    [GPIO_Configuration] in order.  The strobes written to BRR and BSRR are kept
    as a list; [level] is what they leave on the output latch of a pin.
    [gpio_init_refines] shows that the bit arithmetic of [GPIO_Init] changes
    the fields of the selected pins and no other; [configured] is the table of
    pins that the whole set-up amounts to. *)
From stdpp Require Import base tactics list numbers option.
From S2P Require Import Prelude.

(** BRR resets the bits of the output latch it is written with, BSRR (its low
    half) sets them. *)
Inductive strobe : Set := BRR (v : Z) | BSRR (v : Z).

(** [CRL] and [CRH] hold four bits per pin; [strobes]: latest first. *)
Record gpio := mkGpio { CRL : Z; CRH : Z; strobes : list strobe }.

(** GPIO_InitTypeDef *)
Record GPIO_InitTypeDef := mkInit { GPIO_Pin : Z; GPIO_Speed : Z; GPIO_Mode : Z }.

Definition GPIO_Mode_AIN : Z := 0x0.
Definition GPIO_Mode_IN_FLOATING : Z := 0x04.
Definition GPIO_Mode_IPD : Z := 0x28.
Definition GPIO_Mode_IPU : Z := 0x48.
Definition GPIO_Mode_Out_OD : Z := 0x14.
Definition GPIO_Mode_Out_PP : Z := 0x10.
Definition GPIO_Mode_AF_OD : Z := 0x1C.
Definition GPIO_Mode_AF_PP : Z := 0x18.
Definition GPIO_Speed_50MHz : Z := 3.

Definition currentmode (i : GPIO_InitTypeDef) : Z :=
  let m := Z.land (GPIO_Mode i) 0x0F in
  if negb (Z.land (GPIO_Mode i) 0x10 =? 0) then Z.lor m (GPIO_Speed i) else m.

(** The body of the two loops; [base] is 0 for CRL and 8 for CRH. *)
Definition pin_step (i : GPIO_InitTypeDef) (base : Z) (st : Z * list strobe) (pinpos : Z)
    : Z * list strobe :=
  let '(tmpreg, w) := st in
  let pos := Z.shiftl 1 (pinpos + base) in
  if Z.land (GPIO_Pin i) pos =? pos then
    let pos4 := Z.shiftl pinpos 2 in
    let pinmask := Z.shiftl 0x0F pos4 in
    let tmpreg := Z.lor (Z.land tmpreg (Z.lnot pinmask)) (Z.shiftl (currentmode i) pos4) in
    let w :=
      if GPIO_Mode i =? GPIO_Mode_IPD then BRR pos :: w
      else if GPIO_Mode i =? GPIO_Mode_IPU then BSRR pos :: w else w in
    (tmpreg, w)
  else (tmpreg, w).
Definition pin_loop (i : GPIO_InitTypeDef) (base : Z) (st : Z * list strobe) : Z * list strobe :=
  foldl (pin_step i base) st [0; 1; 2; 3; 4; 5; 6; 7].

Definition GPIO_Init (i : GPIO_InitTypeDef) (g : gpio) : gpio :=
  let g :=
    if negb (Z.land (GPIO_Pin i) 0x00FF =? 0) then
      let '(r, w) := pin_loop i 0 (CRL g, strobes g) in mkGpio r (CRH g) w
    else g in
  if GPIO_Pin i >? 0x00FF then
    let '(r, w) := pin_loop i 8 (CRH g, strobes g) in mkGpio (CRL g) r w
  else g.

Definition GPIO_SetBits (pin : Z) (g : gpio) : gpio := mkGpio (CRL g) (CRH g) (BSRR pin :: strobes g).
Definition GPIO_ResetBits (pin : Z) (g : gpio) : gpio := mkGpio (CRL g) (CRH g) (BRR pin :: strobes g).

(** ** The view of a pin *)

(** The four configuration bits of pin [n]. *)
Definition field (reg k : Z) : Z := Z.land (Z.shiftr reg (4 * k)) 0x0F.
Definition cfg (g : gpio) (n : Z) : Z := if n <? 8 then field (CRL g) n else field (CRH g) (n - 8).

(** The output latch of pin [n], if something has written to it. *)
Fixpoint level (w : list strobe) (n : Z) : option bool :=
  match w with
  | [] => None
  | BRR v :: w => if Z.testbit v n then Some false else level w n
  | BSRR v :: w => if Z.testbit v n then Some true else level w n
  end.
Definition latch (g : gpio) (n : Z) : option bool := level (strobes g) n.

(** What a call means for one pin. *)
Definition pull (mode : Z) : option bool :=
  if mode =? GPIO_Mode_IPD then Some false
  else if mode =? GPIO_Mode_IPU then Some true else None.

Definition init_ok (i : GPIO_InitTypeDef) : Prop :=
  0 < GPIO_Pin i < 65536 /\ 0 <= GPIO_Speed i <= 3 /\ 0 <= GPIO_Mode i < 128.

Lemma field_bit reg k j : 0 <= k -> 0 <= j < 4 -> Z.testbit (field reg k) j = Z.testbit reg (4 * k + j).
Proof.
  intros Hk Hj. unfold field. rewrite Z.land_spec, Z.shiftr_spec by lia.
  replace (Z.testbit 0x0F j) with true
    by (assert (Hc : j = 0 \/ j = 1 \/ j = 2 \/ j = 3) by lia; by destruct Hc as [->|[->|[->| ->]]]).
  rewrite andb_true_r. f_equal. lia.
Qed.
Lemma field_high reg k j : 0 <= k -> 4 <= j -> Z.testbit (field reg k) j = false.
Proof.
  intros Hk Hj. unfold field. rewrite Z.land_spec.
  rewrite (Z.bits_above_log2 0x0F j) by (simpl; lia). apply andb_false_r.
Qed.
Lemma nibble_testbit m j : 0 <= m < 16 -> 4 <= j -> Z.testbit m j = false.
Proof.
  intros Hm Hj. destruct (decide (m = 0)) as [->|]; [apply Z.bits_0|].
  apply Z.bits_above_log2; [lia|]. apply Z.log2_lt_pow2; [lia|].
  pose proof (Z.pow_le_mono_r 2 4 j). lia.
Qed.

(** Clearing a field and writing a nibble there sets that field only. *)
Lemma field_set reg m p k :
  0 <= m < 16 -> 0 <= p -> 0 <= k ->
  field (Z.lor (Z.land reg (Z.lnot (Z.shiftl 0x0F (4 * p)))) (Z.shiftl m (4 * p))) k
  = if k =? p then m else field reg k.
Proof.
  intros Hm Hp Hk. apply Z.bits_inj'. intros j Hj.
  destruct (decide (j < 4)) as [Hlt|Hge].
  - rewrite field_bit by lia.
    rewrite Z.lor_spec, Z.land_spec, Z.lnot_spec, !Z.shiftl_spec by lia.
    destruct (Z.eqb_spec k p) as [->|Hne].
    + replace (4 * p + j - 4 * p) with j by lia.
      replace (Z.testbit 0x0F j) with true
        by (assert (Hc : j = 0 \/ j = 1 \/ j = 2 \/ j = 3) by lia;
            by destruct Hc as [->|[->|[->| ->]]]).
      by rewrite andb_false_r.
    + rewrite field_bit by lia.
      destruct (decide (4 * k + j - 4 * p < 0)) as [Hn|Hn].
      * rewrite (Z.testbit_neg_r 0x0F), (Z.testbit_neg_r m) by lia. by rewrite andb_true_r, orb_false_r.
      * rewrite (nibble_testbit m) by lia. rewrite (nibble_testbit 0x0F) by lia.
        by rewrite andb_true_r, orb_false_r.
  - rewrite field_high by lia. destruct (Z.eqb_spec k p) as [->|Hne].
    + by rewrite nibble_testbit by lia.
    + by rewrite field_high by lia.
Qed.

Lemma selected i n : 0 <= n -> (Z.land (GPIO_Pin i) (Z.shiftl 1 n) =? Z.shiftl 1 n) = Z.testbit (GPIO_Pin i) n.
Proof.
  intros Hn. rewrite Z.shiftl_1_l. destruct (Z.testbit (GPIO_Pin i) n) eqn:E.
  - apply Z.eqb_eq, Z.bits_inj'. intros j Hj. rewrite Z.land_spec, Z.pow2_bits_eqb by lia.
    destruct (Z.eqb_spec n j) as [<-|]; [by rewrite E | apply andb_false_r].
  - apply Z.eqb_neq. intros Heq. apply (f_equal (fun z => Z.testbit z n)) in Heq.
    by rewrite Z.land_spec, E, Z.pow2_bits_true in Heq by lia.
Qed.
Lemma strobe_bit p n : 0 <= p -> 0 <= n -> Z.testbit (Z.shiftl 1 p) n = (n =? p).
Proof. intros. rewrite Z.shiftl_1_l, Z.pow2_bits_eqb by lia. apply Z.eqb_sym. Qed.

Lemma currentmode_nibble i : init_ok i -> 0 <= currentmode i < 16.
Proof.
  intros (_ & Hs & Hm). unfold currentmode.
  assert (Hl : forall z, 0 <= Z.land z 0x0F < 16).
  { intros z. change 0x0F with (Z.ones 4). rewrite Z.land_ones by lia. by apply Z.mod_pos_bound. }
  specialize (Hl (GPIO_Mode i)). destruct (negb _); [|done].
  assert (Hs' : GPIO_Speed i = 0 \/ GPIO_Speed i = 1 \/ GPIO_Speed i = 2 \/ GPIO_Speed i = 3) by lia.
  split; [apply Z.lor_nonneg; lia|].
  destruct (decide (Z.lor (Z.land (GPIO_Mode i) 0x0F) (GPIO_Speed i) = 0)) as [->|]; [lia|].
  assert (0 <= Z.lor (Z.land (GPIO_Mode i) 0x0F) (GPIO_Speed i)) by (apply Z.lor_nonneg; lia).
  apply (Z.log2_lt_cancel _ 16). rewrite Z.log2_lor by lia.
  pose proof (Z.log2_le_mono (Z.land (GPIO_Mode i) 0x0F) 15 ltac:(lia)).
  pose proof (Z.log2_le_mono (GPIO_Speed i) 15 ltac:(lia)).
  change (Z.log2 15) with 3 in *. change (Z.log2 16) with 4. lia.
Qed.

(** A configured pin. *)
Definition pulled (i : GPIO_InitTypeDef) (old : option bool) : option bool :=
  match pull (GPIO_Mode i) with Some b => Some b | None => old end.

Lemma pin_step_field i base r w p k :
  init_ok i -> 0 <= base -> 0 <= p -> 0 <= k ->
  field (pin_step i base (r, w) p).1 k
  = if (k =? p) && Z.testbit (GPIO_Pin i) (p + base) then currentmode i else field r k.
Proof.
  intros Hi Hb Hp Hk. unfold pin_step. rewrite selected by lia.
  destruct (Z.testbit (GPIO_Pin i) (p + base)); simpl; [|by rewrite andb_false_r].
  rewrite andb_true_r. replace (Z.shiftl p 2) with (4 * p) by (rewrite Z.shiftl_mul_pow2; lia).
  by apply field_set; [apply currentmode_nibble|..].
Qed.

Lemma pin_step_level i base r w p n :
  0 <= base -> 0 <= p -> 0 <= n ->
  level (pin_step i base (r, w) p).2 n
  = if (n =? p + base) && Z.testbit (GPIO_Pin i) (p + base) then pulled i (level w n) else level w n.
Proof.
  intros Hb Hp Hn. unfold pin_step, pulled, pull. rewrite selected by lia.
  destruct (Z.testbit (GPIO_Pin i) (p + base)); simpl; [|by rewrite andb_false_r].
  rewrite andb_true_r.
  repeat case_match; simpl; rewrite ?strobe_bit by lia; by destruct (n =? p + base).
Qed.

Lemma pulled_idemp i o : pulled i (pulled i o) = pulled i o.
Proof. unfold pulled. by destruct (pull (GPIO_Mode i)). Qed.

Definition member (l : list Z) (k : Z) : bool := existsb (Z.eqb k) l.

(** The loop over the pins [l] of one register. *)
Lemma pin_loop_spec i base l st k :
  init_ok i -> 0 <= base -> Forall (fun p => 0 <= p) l -> 0 <= k ->
  field (foldl (pin_step i base) st l).1 k
  = (if member l k && Z.testbit (GPIO_Pin i) (k + base) then currentmode i else field st.1 k)
  /\ level (foldl (pin_step i base) st l).2 (k + base)
  = (if member l k && Z.testbit (GPIO_Pin i) (k + base) then pulled i (level st.2 (k + base))
     else level st.2 (k + base)).
Proof.
  intros Hi Hb Hl Hk. revert st. induction Hl as [|p l Hp Hl IH]; intros [r w]; [done|].
  cbn [foldl]. destruct (IH (pin_step i base (r, w) p)) as [-> ->].
  rewrite pin_step_field, pin_step_level by (done || lia). simpl.
  replace (k + base =? p + base) with (k =? p) by (by zcases).
  destruct (Z.eqb_spec k p) as [->|]; simpl; [|done].
  destruct (Z.testbit (GPIO_Pin i) (p + base)), (member l p); simpl; by rewrite ?pulled_idemp.
Qed.

(** A pin outside the loop keeps its latch. *)
Lemma pin_loop_level_out i base l st n :
  0 <= base -> Forall (fun p => 0 <= p) l -> 0 <= n -> member l (n - base) = false ->
  level (foldl (pin_step i base) st l).2 n = level st.2 n.
Proof.
  intros Hb Hl Hn. revert st. induction Hl as [|p l Hp Hl IH]; intros [r w] Hm; [done|].
  simpl in Hm. apply orb_false_iff in Hm as [Hne Hm]. cbn [foldl].
  rewrite IH by done. rewrite pin_step_level by done.
  apply Z.eqb_neq in Hne. destruct (Z.eqb_spec n (p + base)); [lia|done].
Qed.

Lemma low_byte_bits pins n : Z.land pins 0x00FF = 0 -> 0 <= n < 8 -> Z.testbit pins n = false.
Proof.
  intros H Hn. apply (f_equal (fun z => Z.testbit z n)) in H.
  rewrite Z.land_spec, Z.bits_0 in H.
  change 0x00FF with (Z.ones 8) in H. rewrite Z.ones_spec_low in H by lia.
  by rewrite andb_true_r in H.
Qed.
Lemma high_byte_bits pins n : 0 <= pins <= 0x00FF -> 8 <= n -> Z.testbit pins n = false.
Proof.
  intros H Hn. destruct (decide (pins = 0)) as [->|]; [apply Z.bits_0|].
  apply Z.bits_above_log2; [lia|]. pose proof (Z.log2_le_mono pins 255 ltac:(lia)).
  change (Z.log2 255) with 7 in *. lia.
Qed.

Lemma all_pins : Forall (fun p => 0 <= p) [0; 1; 2; 3; 4; 5; 6; 7].
Proof. repeat constructor; lia. Qed.
Lemma member_pins k : member [0; 1; 2; 3; 4; 5; 6; 7] k = (0 <=? k) && (k <? 8).
Proof.
  apply eq_true_iff_eq. unfold member. rewrite existsb_exists, andb_true_iff, Z.leb_le, Z.ltb_lt.
  change [0; 1; 2; 3; 4; 5; 6; 7] with (seqZ 0 8). setoid_rewrite <- list_elem_of_In.
  setoid_rewrite elem_of_seqZ. setoid_rewrite Z.eqb_eq. split; [|intros; exists k; lia].
  intros (x & ? & ->). lia.
Qed.

Lemma pin_loop_in i base r w k :
  init_ok i -> 0 <= base -> 0 <= k < 8 ->
  field (pin_loop i base (r, w)).1 k
  = (if Z.testbit (GPIO_Pin i) (k + base) then currentmode i else field r k)
  /\ level (pin_loop i base (r, w)).2 (k + base)
  = (if Z.testbit (GPIO_Pin i) (k + base) then pulled i (level w (k + base))
     else level w (k + base)).
Proof.
  intros Hi Hb Hk.
  destruct (pin_loop_spec i base _ (r, w) k Hi Hb all_pins ltac:(lia)) as [H1 H2].
  rewrite member_pins in H1, H2. destruct (Z.leb_spec 0 k), (Z.ltb_spec k 8); [|lia..].
  by split.
Qed.
Lemma pin_loop_out i base r w n :
  0 <= base -> 0 <= n -> n < base \/ base + 8 <= n ->
  level (pin_loop i base (r, w)).2 n = level w n.
Proof.
  intros Hb Hn Ho. apply (pin_loop_level_out i base _ (r, w) n Hb all_pins Hn).
  rewrite member_pins. zcases.
Qed.

(** The two halves of [GPIO_Init], seen pin by pin. *)
Definition low_half (i : GPIO_InitTypeDef) (g : gpio) : gpio :=
  if negb (Z.land (GPIO_Pin i) 0x00FF =? 0) then
    let '(r, w) := pin_loop i 0 (CRL g, strobes g) in mkGpio r (CRH g) w
  else g.
Lemma low_half_pin i g n :
  init_ok i -> 0 <= n < 16 ->
  CRH (low_half i g) = CRH g
  /\ (n < 8 -> field (CRL (low_half i g)) n
               = (if Z.testbit (GPIO_Pin i) n then currentmode i else field (CRL g) n))
  /\ latch (low_half i g) n
     = (if (n <? 8) && Z.testbit (GPIO_Pin i) n then pulled i (latch g n) else latch g n).
Proof.
  intros Hi Hn. unfold low_half, latch.
  destruct (Z.eqb_spec (Z.land (GPIO_Pin i) 0x00FF) 0) as [E|E]; cbn [negb].
  - split_and!; [done| |]; [intros; by rewrite low_byte_bits by lia|].
    destruct (Z.ltb_spec n 8); [|done]. by rewrite low_byte_bits by lia.
  - pose proof (pin_loop_in i 0 (CRL g) (strobes g) n Hi ltac:(lia)) as H1.
    pose proof (pin_loop_out i 0 (CRL g) (strobes g) n ltac:(lia)) as H2.
    rewrite Z.add_0_r in H1. destruct (pin_loop _ _ _) as [r w]. simpl in *.
    split_and!; [done|intros; apply H1; lia|].
    destruct (Z.ltb_spec n 8); [apply H1; lia | apply H2; lia].
Qed.

Lemma GPIO_Init_pin i g n :
  init_ok i -> 0 <= n < 16 ->
  cfg (GPIO_Init i g) n = (if Z.testbit (GPIO_Pin i) n then currentmode i else cfg g n)
  /\ latch (GPIO_Init i g) n
     = (if Z.testbit (GPIO_Pin i) n then pulled i (latch g n) else latch g n).
Proof.
  intros Hi Hn. unfold GPIO_Init. fold (low_half i g).
  destruct (low_half_pin i g n Hi Hn) as (Hh & Hlow & Hlat).
  set (g1 := low_half i g) in *. clearbody g1. unfold cfg, latch in *.
  destruct (Z.gtb_spec (GPIO_Pin i) 0x00FF) as [E|E].
  - pose proof (pin_loop_in i 8 (CRH g1) (strobes g1) (n - 8) Hi ltac:(lia)) as H1.
    pose proof (pin_loop_out i 8 (CRH g1) (strobes g1) n ltac:(lia)) as H2.
    replace (n - 8 + 8) with n in H1 by lia.
    destruct (pin_loop _ _ _) as [r w]. simpl in *.
    destruct (Z.ltb_spec n 8); simpl in Hlat.
    + split; [by apply Hlow|]. rewrite H2 by lia. done.
    + destruct H1 as [-> ->]; [lia|]. by rewrite Hh, Hlat.
  - destruct Hi as (Hp & _). destruct (Z.ltb_spec n 8); simpl in Hlat; [auto|].
    by rewrite high_byte_bits, Hh by lia.
Qed.

(** ** The set-up of the board *)

Inductive port : Set := GPIOA | GPIOB | GPIOC | GPIOD | GPIOE.
#[export] Instance port_eq_dec : EqDecision port.
Proof. solve_decision. Defined.

(** What [GPIO_Configuration] calls: assignments to the fields of its
    [GPIO_InitStructure], and the library.  The registers of the chip are one
    implementation, a table of pins another. *)
Class PinOps (S : Type) := {
  set_Pin : Z -> S -> S;
  set_Speed : Z -> S -> S;
  set_Mode : Z -> S -> S;
  init : port -> S -> S;
  SetBits : port -> Z -> S -> S;
  ResetBits : port -> Z -> S -> S;
  PinRemapConfig : Z -> S -> S }.

Definition run {S : Type} (l : list (S -> S)) (s : S) : S := foldl (fun s f => f s) s l.

Definition GPIO_Pin_ (n : Z) : Z := Z.shiftl 1 n.
Definition GPIO_Remap_ETH : Z := 0x00200020.
Definition GPIO_Remap_USART2 : Z := 0x00000008.

Section configuration.
Context {S : Type} `{PinOps S}.
Definition Enable485 : S -> S := ResetBits GPIOD (GPIO_Pin_ 4).
Definition BEEPOFF : S -> S := ResetBits GPIOE (GPIO_Pin_ 12).
Definition WGDATA0SET : S -> S := ResetBits GPIOE (GPIO_Pin_ 13).
Definition WGDATA1SET : S -> S := ResetBits GPIOE (GPIO_Pin_ 14).
Definition WGDATA0SET1 : S -> S := ResetBits GPIOE (GPIO_Pin_ 11).
Definition WGDATA1SET1 : S -> S := ResetBits GPIOE (GPIO_Pin_ 10).
Definition LEDYellowOFF : S -> S := SetBits GPIOE (GPIO_Pin_ 3).
Definition LEDGreenOFF : S -> S := SetBits GPIOE (GPIO_Pin_ 2).
Definition RELAYOFF : S -> S := ResetBits GPIOB (GPIO_Pin_ 10).
Definition RELAYOFF1 : S -> S := ResetBits GPIOE (GPIO_Pin_ 8).

Definition GPIO_Configuration : S -> S := run [
  set_Pin (GPIO_Pin_ 2);
  set_Speed GPIO_Speed_50MHz;
  set_Mode GPIO_Mode_AF_PP;
  init GPIOA;
  set_Pin (GPIO_Pin_ 1);
  set_Speed GPIO_Speed_50MHz;
  set_Mode GPIO_Mode_AF_PP;
  init GPIOC;
  set_Pin (Z.lor (Z.lor (GPIO_Pin_ 11) (GPIO_Pin_ 12)) (GPIO_Pin_ 13));
  set_Speed GPIO_Speed_50MHz;
  set_Mode GPIO_Mode_AF_PP;
  init GPIOB;
  PinRemapConfig GPIO_Remap_ETH;
  set_Pin (GPIO_Pin_ 1);
  set_Speed GPIO_Speed_50MHz;
  set_Mode GPIO_Mode_IN_FLOATING;
  init GPIOA;
  set_Pin (Z.lor (Z.lor (GPIO_Pin_ 8) (GPIO_Pin_ 9)) (GPIO_Pin_ 10));
  set_Speed GPIO_Speed_50MHz;
  set_Mode GPIO_Mode_IN_FLOATING;
  init GPIOD;
  PinRemapConfig GPIO_Remap_USART2;
  (* UART2 *)
  set_Pin (GPIO_Pin_ 6);
  set_Mode GPIO_Mode_IN_FLOATING;
  init GPIOD;
  set_Pin (GPIO_Pin_ 5);
  set_Speed GPIO_Speed_50MHz;
  set_Mode GPIO_Mode_AF_PP;
  init GPIOD;
  (* UART1 *)
  set_Pin (GPIO_Pin_ 10);
  set_Mode GPIO_Mode_IN_FLOATING;
  init GPIOA;
  set_Pin (GPIO_Pin_ 9);
  set_Speed GPIO_Speed_50MHz;
  set_Mode GPIO_Mode_AF_PP;
  init GPIOA;
  (* 485EN *)
  set_Pin (GPIO_Pin_ 4);
  set_Mode GPIO_Mode_Out_PP;
  init GPIOD;
  Enable485;
  (* UART4 *)
  set_Pin (GPIO_Pin_ 11);
  set_Mode GPIO_Mode_IN_FLOATING;
  init GPIOC;
  set_Pin (GPIO_Pin_ 10);
  set_Mode GPIO_Mode_AF_PP;
  init GPIOC;
  (* BEEP, WG *)
  set_Pin (Z.lor (Z.lor (Z.lor (Z.lor (GPIO_Pin_ 12) (GPIO_Pin_ 13)) (GPIO_Pin_ 14)) (GPIO_Pin_ 11)) (GPIO_Pin_ 10));
  set_Mode GPIO_Mode_Out_PP;
  init GPIOE;
  BEEPOFF;
  WGDATA0SET;
  WGDATA1SET;
  WGDATA0SET1;
  WGDATA1SET1;
  (* LED *)
  set_Pin (Z.lor (GPIO_Pin_ 2) (GPIO_Pin_ 3));
  set_Mode GPIO_Mode_Out_PP;
  init GPIOE;
  LEDYellowOFF;
  LEDGreenOFF;
  (* IIC *)
  set_Pin (Z.lor (GPIO_Pin_ 6) (GPIO_Pin_ 7));
  set_Mode GPIO_Mode_AF_OD;
  init GPIOB;
  (* Relay *)
  set_Pin (GPIO_Pin_ 10);
  set_Mode GPIO_Mode_Out_PP;
  init GPIOB;
  set_Pin (GPIO_Pin_ 8);
  set_Mode GPIO_Mode_Out_PP;
  init GPIOE;
  RELAYOFF;
  RELAYOFF1;
  (* trigger inputs *)
  set_Pin (Z.lor (GPIO_Pin_ 15) (GPIO_Pin_ 9));
  set_Mode GPIO_Mode_IPD;
  init GPIOE ].
End configuration.

(** *** On the registers of the chip *)

Definition LSB_MASK : Z := 0xFFFF.
Definition DBGAFR_POSITION_MASK : Z := 0x000F0000.
Definition DBGAFR_SWJCFG_MASK : Z := 0xF0FFFFFF.
Definition DBGAFR_LOCATION_MASK : Z := 0x00200000.
Definition DBGAFR_NUMBITS_MASK : Z := 0x00100000.

(** The new value of AFIO->MAPR; [NewState] is [ENABLE] or [DISABLE]. *)
Definition GPIO_PinRemapConfig (GPIO_Remap : Z) (NewState : bool) (MAPR : Z) : Z :=
  let tmpmask := Z.shiftr (Z.land GPIO_Remap DBGAFR_POSITION_MASK) 0x10 in
  let tmp := Z.land GPIO_Remap LSB_MASK in
  let both := Z.lor DBGAFR_LOCATION_MASK DBGAFR_NUMBITS_MASK in
  let shifted := u32 (Z.shiftl tmp (Z.shiftr GPIO_Remap 0x15 * 0x10)) in
  let tmpreg :=
    if Z.land GPIO_Remap both =? both then Z.land MAPR DBGAFR_SWJCFG_MASK
    else if Z.land GPIO_Remap DBGAFR_NUMBITS_MASK =? DBGAFR_NUMBITS_MASK then
      Z.lor (Z.land MAPR (Z.lnot (Z.shiftl 0x03 tmpmask))) (u32 (Z.lnot DBGAFR_SWJCFG_MASK))
    else Z.lor (Z.land MAPR (Z.lnot shifted)) (u32 (Z.lnot DBGAFR_SWJCFG_MASK)) in
  if NewState then Z.lor tmpreg shifted else tmpreg.

Record board_pins := mkPins {
  ports : port -> gpio;
  MAPR : Z;
  GPIO_InitStructure : GPIO_InitTypeDef }.

Definition on_port (p : port) (f : gpio -> gpio) (b : board_pins) : board_pins :=
  mkPins (fun q => if bool_decide (q = p) then f (ports b q) else ports b q) (MAPR b) (GPIO_InitStructure b).
Definition on_struct (f : GPIO_InitTypeDef -> GPIO_InitTypeDef) (b : board_pins) : board_pins :=
  mkPins (ports b) (MAPR b) (f (GPIO_InitStructure b)).
Definition put_Pin (v : Z) (i : GPIO_InitTypeDef) := mkInit v (GPIO_Speed i) (GPIO_Mode i).
Definition put_Speed (v : Z) (i : GPIO_InitTypeDef) := mkInit (GPIO_Pin i) v (GPIO_Mode i).
Definition put_Mode (v : Z) (i : GPIO_InitTypeDef) := mkInit (GPIO_Pin i) (GPIO_Speed i) v.

#[export] Instance chip_pins : PinOps board_pins := {
  set_Pin v := on_struct (put_Pin v);
  set_Speed v := on_struct (put_Speed v);
  set_Mode v := on_struct (put_Mode v);
  init p b := on_port p (GPIO_Init (GPIO_InitStructure b)) b;
  SetBits p v := on_port p (GPIO_SetBits v);
  ResetBits p v := on_port p (GPIO_ResetBits v);
  PinRemapConfig r b := mkPins (ports b) (GPIO_PinRemapConfig r true (MAPR b)) (GPIO_InitStructure b) }.

(** *** On a table of pins *)

(** What has been set so far: nothing where there is no entry. *)
Record pin_table := mkTable {
  t_cfg : port -> Z -> option Z;
  t_latch : port -> Z -> option bool;
  t_struct : GPIO_InitTypeDef;
  t_ok : bool }.

Definition init_okb (i : GPIO_InitTypeDef) : bool :=
  (0 <? GPIO_Pin i) && (GPIO_Pin i <? 65536) && (0 <=? GPIO_Speed i) && (GPIO_Speed i <=? 3)
  && (0 <=? GPIO_Mode i) && (GPIO_Mode i <? 128).
Definition struct_table (f : GPIO_InitTypeDef -> GPIO_InitTypeDef) (t : pin_table) : pin_table :=
  mkTable (t_cfg t) (t_latch t) (f (t_struct t)) (t_ok t).
Definition entry {A : Type} (p : port) (pins : Z) (f : option A -> option A)
    (old : port -> Z -> option A) : port -> Z -> option A :=
  fun q n => if bool_decide (q = p) && Z.testbit pins n then f (old q n) else old q n.

#[export] Instance table_pins : PinOps pin_table := {
  set_Pin v := struct_table (put_Pin v);
  set_Speed v := struct_table (put_Speed v);
  set_Mode v := struct_table (put_Mode v);
  init p t :=
    let i := t_struct t in
    mkTable (entry p (GPIO_Pin i) (fun _ => Some (currentmode i)) (t_cfg t))
      (entry p (GPIO_Pin i) (pulled i) (t_latch t)) i (t_ok t && init_okb i);
  SetBits p v t := mkTable (t_cfg t) (entry p v (fun _ => Some true) (t_latch t)) (t_struct t) (t_ok t);
  ResetBits p v t := mkTable (t_cfg t) (entry p v (fun _ => Some false) (t_latch t)) (t_struct t) (t_ok t);
  PinRemapConfig r t := t }.

(** The table and the registers agree, relative to the state [b0] before. *)
Definition overrides {A : Type} (new old : option A) : option A :=
  match new with Some _ => new | None => old end.
Definition tracks (b0 b : board_pins) (t : pin_table) : Prop :=
  t_struct t = GPIO_InitStructure b /\
  (t_ok t = true -> forall p n, 0 <= n < 16 ->
    cfg (ports b p) n = default (cfg (ports b0 p) n) (t_cfg t p n)
    /\ latch (ports b p) n = overrides (t_latch t p n) (latch (ports b0 p) n)).

Lemma init_okb_ok i : init_okb i = true -> init_ok i.
Proof. unfold init_okb, init_ok. rewrite !andb_true_iff, !Z.ltb_lt, !Z.leb_le. lia. Qed.

Lemma tracks_refl b : tracks b b (mkTable (fun _ _ => None) (fun _ _ => None) (GPIO_InitStructure b) true).
Proof. done. Qed.

Lemma tracks_struct b0 b t f : tracks b0 b t -> tracks b0 (on_struct f b) (struct_table f t).
Proof. intros [H1 H2]. split; [simpl; by rewrite H1 | exact H2]. Qed.

Lemma tracks_init b0 b t p : tracks b0 b t -> tracks b0 (init p b) (init p t).
Proof.
  intros [H1 H2]. split; [exact H1|]. simpl. intros [Hok Hi%init_okb_ok]%andb_true_iff q n Hn.
  destruct (H2 Hok q n Hn) as [Hc Hl]. unfold entry. rewrite H1 in *.
  destruct (bool_decide_reflect (q = p)) as [->|]; simpl; [|done].
  destruct (GPIO_Init_pin _ (ports b p) n Hi Hn) as [-> ->].
  destruct (Z.testbit _ n); [|done]. simpl. rewrite Hl. split; [done|].
  unfold pulled, overrides. by destruct (pull _).
Qed.

Lemma tracks_remap b0 b t r : tracks b0 b t -> tracks b0 (PinRemapConfig r b) (PinRemapConfig r t).
Proof. done. Qed.

Lemma tracks_strobe b0 b t p v x (f : gpio -> gpio) :
  (forall g, CRL (f g) = CRL g) -> (forall g, CRH (f g) = CRH g) ->
  (forall g n, latch (f g) n = if Z.testbit v n then Some x else latch g n) ->
  tracks b0 b t ->
  tracks b0 (on_port p f b) (mkTable (t_cfg t) (entry p v (fun _ => Some x) (t_latch t)) (t_struct t) (t_ok t)).
Proof.
  intros Hl Hh Hf [H1 H2]. split; [done|]. simpl. intros Hok q n Hn.
  destruct (H2 Hok q n Hn) as [Hc Ht]. unfold entry.
  destruct (bool_decide_reflect (q = p)) as [->|]; simpl; [|done].
  unfold cfg in *. rewrite Hl, Hh, Hf. split; [done|]. by destruct (Z.testbit v n).
Qed.
Lemma tracks_SetBits b0 b t p v : tracks b0 b t -> tracks b0 (SetBits p v b) (SetBits p v t).
Proof. by apply tracks_strobe. Qed.
Lemma tracks_ResetBits b0 b t p v : tracks b0 b t -> tracks b0 (ResetBits p v b) (ResetBits p v t).
Proof. by apply tracks_strobe. Qed.

Create HintDb pins discriminated.
#[export] Hint Resolve tracks_init tracks_remap tracks_SetBits tracks_ResetBits : pins.
#[export] Hint Extern 1 (tracks _ (set_Pin _ _) _) => apply tracks_struct : pins.
#[export] Hint Extern 1 (tracks _ (set_Speed _ _) _) => apply tracks_struct : pins.
#[export] Hint Extern 1 (tracks _ (set_Mode _ _) _) => apply tracks_struct : pins.

(** The set-up on the registers is the set-up on the table. *)
Lemma configuration_tracks b0 b t :
  tracks b0 b t -> tracks b0 (GPIO_Configuration b) (GPIO_Configuration t).
Proof. intros Ht. unfold GPIO_Configuration, run. cbn [foldl].
  unfold Enable485, BEEPOFF, WGDATA0SET, WGDATA1SET, WGDATA0SET1, WGDATA1SET1,
    LEDYellowOFF, LEDGreenOFF, RELAYOFF, RELAYOFF1.
  auto 120 with pins. Qed.

(** ** The pins of the board *)

(** The configuration fields: mode bits, and 50 MHz (3) for outputs. *)
Definition af_pp : Z := 0xB.
Definition af_od : Z := 0xF.
Definition out_pp : Z := 0x3.
Definition floating : Z := 0x4.
Definition pulled_in : Z := 0x8.

Definition configured (p : port) (n : Z) : option Z :=
  match p with
  | GPIOA => if bool_decide (n ∈ [2; 9]) then Some af_pp          (* MDIO; TXD1 *)
             else if bool_decide (n ∈ [1; 10]) then Some floating (* REF_CLK; RXD1 *)
             else None
  | GPIOB => if bool_decide (n ∈ [11; 12; 13]) then Some af_pp    (* TX_EN, TXD0, TXD1 *)
             else if bool_decide (n ∈ [6; 7]) then Some af_od     (* SCL, SDA *)
             else if bool_decide (n = 10) then Some out_pp        (* relay *)
             else None
  | GPIOC => if bool_decide (n ∈ [1; 10]) then Some af_pp         (* MDC; TXD4 *)
             else if bool_decide (n = 11) then Some floating      (* RXD4 *)
             else None
  | GPIOD => if bool_decide (n ∈ [8; 9; 10; 6]) then Some floating (* CRS_DV, RXD0, RXD1; RXD2 *)
             else if bool_decide (n = 5) then Some af_pp          (* TXD2 *)
             else if bool_decide (n = 4) then Some out_pp         (* 485EN *)
             else None
  | GPIOE => if bool_decide (n ∈ [8; 10; 11; 12; 13; 14; 2; 3]) then Some out_pp
             else if bool_decide (n ∈ [9; 15]) then Some pulled_in (* trigger inputs *)
             else None
  end.
(** The latches the set-up writes: the two LEDs are off when high, the trigger
    inputs are pulled down, everything else rests low. *)
Definition resting (p : port) (n : Z) : option bool :=
  match p with
  | GPIOB => if bool_decide (n = 10) then Some false else None
  | GPIOD => if bool_decide (n = 4) then Some false else None
  | GPIOE => if bool_decide (n ∈ [2; 3]) then Some true
             else if bool_decide (n ∈ [8; 9; 10; 11; 12; 13; 14; 15]) then Some false else None
  | _ => None
  end.

(** Both remappings are in AFIO->MAPR at the end. *)
Lemma remapped v :
  let w := GPIO_PinRemapConfig GPIO_Remap_USART2 true (GPIO_PinRemapConfig GPIO_Remap_ETH true v) in
  Z.testbit w 21 = true /\ Z.testbit w 3 = true.
Proof.
  set (m := GPIO_PinRemapConfig GPIO_Remap_ETH true v).
  assert (Hm : Z.testbit m 21 = true).
  { change m with (Z.lor (Z.lor (Z.land v (Z.lnot 0x200000)) 0x0F000000) 0x200000).
    rewrite Z.lor_spec. apply orb_true_r. }
  clearbody m. cbv zeta.
  change (GPIO_PinRemapConfig GPIO_Remap_USART2 true m) with
    (Z.lor (Z.lor (Z.land m (Z.lnot 0x8)) 0x0F000000) 0x8).
  rewrite !Z.lor_spec, !Z.land_spec, !Hm. split; [done|apply orb_true_r].
Qed.

Lemma configuration_MAPR b :
  MAPR (GPIO_Configuration b)
  = GPIO_PinRemapConfig GPIO_Remap_USART2 true (GPIO_PinRemapConfig GPIO_Remap_ETH true (MAPR b)).
Proof. unfold GPIO_Configuration, run. cbn [foldl]. reflexivity. Qed.

(** The table the set-up leaves; the struct it starts from does not matter. *)
Definition blank (i : GPIO_InitTypeDef) : pin_table := mkTable (fun _ _ => None) (fun _ _ => None) i true.
Definition agrees (t : pin_table) (p : port) (n : Z) : bool :=
  bool_decide (t_cfg t p n = configured p n) && bool_decide (t_latch t p n = resting p n).
Lemma configuration_agrees i p :
  forallb (agrees (GPIO_Configuration (blank i)) p) (seqZ 0 16) = true.
Proof. destruct p; vm_compute; reflexivity. Qed.
Lemma configuration_ok i : t_ok (GPIO_Configuration (blank i)) = true.
Proof. vm_compute. reflexivity. Qed.
Lemma configuration_table i p n :
  0 <= n < 16 ->
  t_cfg (GPIO_Configuration (blank i)) p n = configured p n
  /\ t_latch (GPIO_Configuration (blank i)) p n = resting p n.
Proof.
  intros Hn. pose proof (below _ _ n (configuration_agrees i p) Hn) as H.
  unfold agrees in H. apply andb_true_iff in H as [H1 H2].
  apply bool_decide_eq_true in H1, H2. by split.
Qed.

(** C32: After [GPIO_Configuration], whatever the registers held before, the
    pins its calls select have the modes those calls give them, listed in the
    table [configured]; every other pin of the five ports keeps its own, among
    them PA0, PA3, PB5, PB8, PC2, PC3, PD11 and PD12, which comments of the
    function name as configured; the latch of every driven pin is at its rest
    level ([resting]: beeper, Wiegand lines, relays and the RS-485 direction low,
    LEDs off, trigger inputs pulled down) and no other latch changes; Ethernet and
    USART2 are remapped. *)
Theorem gpio_configuration (b : board_pins) (p : port) (n : Z) :
  0 <= n < 16 ->
  cfg (ports (GPIO_Configuration b) p) n = default (cfg (ports b p) n) (configured p n)
  /\ latch (ports (GPIO_Configuration b) p) n = overrides (resting p n) (latch (ports b p) n)
  /\ Z.testbit (MAPR (GPIO_Configuration b)) 21 = true
  /\ Z.testbit (MAPR (GPIO_Configuration b)) 3 = true.
Proof.
  intros Hn. destruct (configuration_tracks b b _ (tracks_refl b)) as [_ Ht].
  destruct (Ht (configuration_ok _) p n Hn) as [-> ->].
  destruct (configuration_table (GPIO_InitStructure b) p n Hn) as [H1 H2].
  unfold blank in H1, H2. rewrite H1, H2. do 2 (split; [done|]).
  rewrite configuration_MAPR. apply remapped.
Qed.

Lemma gpio_configuration_witness :
  cfg (ports (GPIO_Configuration (mkPins (fun _ => mkGpio 0x44444444 0x44444444 []) 0 (mkInit 0 0 0))) GPIOE) 12
  = 3.
Proof.
  apply (fun H => proj1 (gpio_configuration
    (mkPins (fun _ => mkGpio 0x44444444 0x44444444 []) 0 (mkInit 0 0 0)) GPIOE 12 H)). lia.
Defined.
