(* ===== verification/Nvic.v ===== *)
(** * Interrupt priorities (misc.c, NVIC_Configuration and System_Setup of stm32f107.c)

    The registers of the interrupt controller that the start-up writes, and
    which interrupts may interrupt which handlers as a result.  The step
    relation of Main.v lets a handler run to its end; [preemption_order] says
    between which handlers the processor may in fact switch. *)
From stdpp Require Import base tactics list numbers option.
From S2P Require Import Prelude.

(** SysTick->LOAD, VAL and CTRL *)
Record systick := mkTick { LOAD : Z; VAL : Z; CTRL : Z }.
Record scb := mkScb {
  AIRCR : Z;
  VTOR : Z;
  IP : Z -> Z;             (* priority of an interrupt line, 8 bits *)
  ISER : Z -> Z;           (* enabled lines, 32 to a word *)
  SHP : Z -> Z;            (* priorities of the system exceptions *)
  STK : systick }.

Definition upd (f : Z -> Z) (i v : Z) : Z -> Z := fun j => if j =? i then v else f j.

Definition AIRCR_VECTKEY_MASK : Z := 0x05FA0000.
Definition NVIC_PriorityGroup_2 : Z := 0x500.
Definition NVIC_PRIO_BITS : Z := 4.
Definition NVIC_VectTab_FLASH : Z := 0x08000000.

Definition NVIC_PriorityGroupConfig (group : Z) (s : scb) : scb :=
  mkScb (Z.lor AIRCR_VECTKEY_MASK group) (VTOR s) (IP s) (ISER s) (SHP s) (STK s).
Definition NVIC_SetVectorTable (tab offset : Z) (s : scb) : scb :=
  mkScb (AIRCR s) (Z.lor tab (Z.land offset 0x1FFFFF80)) (IP s) (ISER s) (SHP s) (STK s).

(** NVIC_InitTypeDef *)
Record NVIC_InitTypeDef := mkNvic {
  IRQChannel : Z; PreemptionPriority : Z; SubPriority : Z; ChannelCmd : bool }.

Definition tmppriority (group pre sub : Z) : Z :=
  let t := Z.shiftr (0x700 - Z.land group 0x700) 0x08 in
  let tmppre := 0x4 - t in
  let tmpsub := Z.shiftr 0x0F t in
  u32 (Z.shiftl (Z.lor (u32 (Z.shiftl pre tmppre)) (Z.land sub tmpsub)) 0x04).

(** A word written to ISER enables the lines of its bits, one written to ICER
    disables them. *)
Definition NVIC_Init (i : NVIC_InitTypeDef) (s : scb) : scb :=
  let word := Z.shiftr (IRQChannel i) 0x05 in
  let bit := Z.shiftl 1 (Z.land (IRQChannel i) 0x1F) in
  if ChannelCmd i then
    mkScb (AIRCR s) (VTOR s)
      (upd (IP s) (IRQChannel i) (u8 (tmppriority (AIRCR s) (PreemptionPriority i) (SubPriority i))))
      (upd (ISER s) word (Z.lor (ISER s word) bit)) (SHP s) (STK s)
  else
    mkScb (AIRCR s) (VTOR s) (IP s) (upd (ISER s) word (Z.land (ISER s word) (Z.lnot bit))) (SHP s) (STK s).

(** [NVIC_SetPriority]: negative numbers are system exceptions. *)
Definition NVIC_SetPriority (irqn priority : Z) (s : scb) : scb :=
  let v := Z.land (Z.shiftl priority (8 - NVIC_PRIO_BITS)) 0xff in
  if irqn <? 0 then
    mkScb (AIRCR s) (VTOR s) (IP s) (ISER s) (upd (SHP s) (Z.land (u32 irqn) 0xF - 4) v) (STK s)
  else mkScb (AIRCR s) (VTOR s) (upd (IP s) irqn v) (ISER s) (SHP s) (STK s).

Definition SysTick_IRQn : Z := -1.
Definition TIM3_IRQn : Z := 29.
Definition USART1_IRQn : Z := 37.
Definition USART2_IRQn : Z := 38.
Definition UART4_IRQn : Z := 52.
Definition ETH_IRQn : Z := 61.

Definition NVIC_Configuration (s : scb) : scb :=
  let s := NVIC_SetVectorTable NVIC_VectTab_FLASH 0x3000 s in
  let s := NVIC_PriorityGroupConfig NVIC_PriorityGroup_2 s in
  let s := NVIC_Init (mkNvic ETH_IRQn 3 0 true) s in
  let s := NVIC_Init (mkNvic UART4_IRQn 2 0 true) s in
  let s := NVIC_Init (mkNvic TIM3_IRQn 2 1 true) s in
  let s := NVIC_Init (mkNvic USART2_IRQn 0 0 true) s in
  NVIC_Init (mkNvic USART1_IRQn 1 0 true) s.

(** [SysTick_Config] leaves SysTick at the lowest priority ([System_Setup] does
    not look at its result); the call after it raises it. *)
Definition SYSTICK_MAXCOUNT : Z := 0xFFFFFF.
Definition set_STK (f : systick -> systick) (s : scb) : scb :=
  mkScb (AIRCR s) (VTOR s) (IP s) (ISER s) (SHP s) (f (STK s)).
Definition SysTick_Config (ticks : Z) (s : scb) : scb * bool :=
  if ticks >? SYSTICK_MAXCOUNT then (s, true)
  else
    let s := set_STK (fun k => mkTick (u32 (Z.land ticks SYSTICK_MAXCOUNT - 1)) (VAL k) (CTRL k)) s in
    let s := NVIC_SetPriority SysTick_IRQn (Z.shiftl 1 NVIC_PRIO_BITS - 1) s in
    let s := set_STK (fun k => mkTick (LOAD k) 0 (CTRL k)) s in
    let ctrl := Z.lor (Z.lor (Z.shiftl 1 2) (Z.shiftl 1 0)) (Z.shiftl 1 1) in
    (set_STK (fun k => mkTick (LOAD k) (VAL k) ctrl) s, false).
Definition System_Setup_nvic (SYSCLK_Frequency : Z) (s : scb) : scb :=
  let s := NVIC_Configuration s in
  let s := fst (SysTick_Config (SYSCLK_Frequency / 1000) s) in
  NVIC_SetPriority SysTick_IRQn 5 s.

(** ** Which handler may interrupt which

    An interrupt has the upper bits of its priority field as its preemption
    priority, as many as AIRCR says; a lower number preempts. *)

Inductive handler : Set := SysTick_Handler | ETH_Handler | UART4_Handler
  | TIM3_Handler | USART2_Handler | USART1_Handler.

Definition irqn (h : handler) : Z :=
  match h with
  | SysTick_Handler => SysTick_IRQn | ETH_Handler => ETH_IRQn | UART4_Handler => UART4_IRQn
  | TIM3_Handler => TIM3_IRQn | USART2_Handler => USART2_IRQn | USART1_Handler => USART1_IRQn
  end.
Definition priority_byte (s : scb) (h : handler) : Z :=
  let n := irqn h in if n <? 0 then SHP s (Z.land (u32 n) 0xF - 4) else IP s n.
Definition preemption (s : scb) (h : handler) : Z :=
  let g := Z.shiftr (Z.land (AIRCR s) 0x700) 8 in
  Z.shiftr (priority_byte s h) (g + 1).
Definition enabled (s : scb) (h : handler) : bool :=
  let n := irqn h in
  if n <? 0 then true else Z.testbit (ISER s (Z.shiftr n 5)) (Z.land n 0x1F).
(** [a] may interrupt the handler [b]. *)
Definition preempts (s : scb) (a b : handler) : bool := enabled s a && (preemption s a <? preemption s b).

Definition rank (h : handler) : Z :=
  match h with
  | USART2_Handler => 0
  | USART1_Handler | SysTick_Handler => 1
  | UART4_Handler | TIM3_Handler => 2
  | ETH_Handler => 3
  end.

Lemma enabled_lor v b n : Z.testbit b n = true -> Z.testbit (Z.lor v b) n = true.
Proof. intros H. by rewrite Z.lor_spec, H, orb_true_r. Qed.
Lemma enabled_before v b n : Z.testbit v n = true -> Z.testbit (Z.lor v b) n = true.
Proof. intros H. by rewrite Z.lor_spec, H. Qed.

(** The start-up, register by register. *)
Lemma setup_registers f s :
  let t := System_Setup_nvic f s in
  AIRCR t = 0x05FA0500 /\ VTOR t = 0x08003000
  /\ ISER t 0 = Z.lor (ISER s 0) 0x20000000
  /\ ISER t 1 = Z.lor (Z.lor (Z.lor (Z.lor (ISER s 1) 0x20000000) 0x100000) 0x40) 0x20
  /\ IP t 61 = 0xC0 /\ IP t 52 = 0x80 /\ IP t 29 = 0x90 /\ IP t 38 = 0x00 /\ IP t 37 = 0x40
  /\ SHP t 11 = 0x50.
Proof.
  cbv zeta. unfold System_Setup_nvic, SysTick_Config.
  destruct (f / 1000 >? SYSTICK_MAXCOUNT); split_and!; vm_compute; reflexivity.
Qed.

(** The counter runs from LOAD down to 0: with the clock frequency given to
    the start-up it interrupts a thousand times a second. *)
Lemma setup_tick f s :
  1000 <= f <= 1000 * SYSTICK_MAXCOUNT ->
  STK (System_Setup_nvic f s) = mkTick (f / 1000 - 1) 0 7.
Proof.
  unfold SYSTICK_MAXCOUNT. intros Hf. 
  assert (1 <= f / 1000 < 16777216)
    by (split; [apply Z.div_le_lower_bound|apply Z.div_lt_upper_bound]; lia).
  unfold System_Setup_nvic, SysTick_Config.
  replace (f / 1000 >? SYSTICK_MAXCOUNT) with false by (unfold SYSTICK_MAXCOUNT; symmetry; rewrite Z.gtb_ltb; apply Z.ltb_ge; lia).
  cbn [fst STK set_STK NVIC_SetPriority LOAD VAL CTRL]. unfold SYSTICK_MAXCOUNT.
  change 0xFFFFFF with (Z.ones 24). rewrite Z.land_ones by lia. change (2 ^ 24) with 16777216.
  rewrite Z.mod_small by lia. unfold u32.
  rewrite Z.mod_small by lia. reflexivity.
Qed.

Lemma setup_enabled f s h : enabled (System_Setup_nvic f s) h = true.
Proof.
  destruct (setup_registers f s) as (_ & _ & H0 & H1 & _). cbv zeta in *.
  destruct h; unfold enabled; cbn [irqn]; try reflexivity;
    change (Z.shiftr ETH_IRQn 5) with 1; change (Z.shiftr UART4_IRQn 5) with 1;
    change (Z.shiftr TIM3_IRQn 5) with 0; change (Z.shiftr USART2_IRQn 5) with 1;
    change (Z.shiftr USART1_IRQn 5) with 1; cbn [Z.ltb Z.compare]; rewrite ?H0, ?H1;
    repeat first [apply enabled_lor; reflexivity | apply enabled_before].
Qed.

Lemma setup_preemption f s h : preemption (System_Setup_nvic f s) h = rank h.
Proof.
  destruct (setup_registers f s) as (Ha & _ & _ & _ & H1 & H2 & H3 & H4 & H5 & H6). cbv zeta in *.
  unfold preemption. rewrite Ha. unfold priority_byte.
  destruct h; cbn [irqn]; unfold SysTick_IRQn, ETH_IRQn, UART4_IRQn, TIM3_IRQn, USART2_IRQn,
    USART1_IRQn; simpl Z.ltb; cbv iota;
    change (Z.land (u32 (-1)) 15 - 4) with 11;
    rewrite ?H1, ?H2, ?H3, ?H4, ?H5, ?H6; reflexivity.
Qed.

(** C33: After the start-up, whatever the controller held, the
    handler of one interrupt may be interrupted by another exactly when the
    other comes earlier in the order USART2; USART1 and SysTick; UART4 and TIM3;
    Ethernet.  In particular SysTick does preempt the Ethernet handler, as the
    comment in [System_Setup] asks: lwIP's timers run inside its input routine. *)
Theorem preemption_order (SYSCLK_Frequency : Z) (s : scb) (a b : handler) :
  preempts (System_Setup_nvic SYSCLK_Frequency s) a b = (rank a <? rank b).
Proof. unfold preempts. by rewrite setup_enabled, !setup_preemption. Qed.
