(* ===== verification/Heap.v ===== *)
(** * The heap of lwIP (mem.c)

    The buffers of the packets the firmware sends live in lwIP's heap: a list of
    [struct mem] headers inside one array of bytes.  Here are the operations of
    mem.c on that array, byte by byte, with the options of the port's lwipopts.h
    (MEM_SIZE 1024, alignment 4, no pools, no libc).  HeapSpec.v proves that they
    implement a list of blocks.

    Offsets from [ram] stand for addresses.  An access outside the array has no
    value; a failed LWIP_ASSERT does nothing, since cc.h tests the message (a
    string, never null) where it means the condition. *)
From stdpp Require Import base tactics list numbers option.
From S2P Require Import Prelude.

Definition MEM_ALIGNMENT : Z := 4.
Definition LWIP_MEM_ALIGN_SIZE (size : Z) : Z :=
  Z.land (size + MEM_ALIGNMENT - 1) (Z.lnot (MEM_ALIGNMENT - 1)).
Definition MEM_SIZE : Z := 1024.
Definition MIN_SIZE : Z := 12.
(** Two 16-bit fields and a byte: 6 bytes with the padding. *)
Definition sizeof_struct_mem : Z := 6.
Definition MIN_SIZE_ALIGNED : Z := Eval vm_compute in LWIP_MEM_ALIGN_SIZE MIN_SIZE.
Definition SIZEOF_STRUCT_MEM : Z := Eval vm_compute in LWIP_MEM_ALIGN_SIZE sizeof_struct_mem.
Definition MEM_SIZE_ALIGNED : Z := Eval vm_compute in LWIP_MEM_ALIGN_SIZE MEM_SIZE.
(** [ram_end - ram]. *)
Definition ram_end : Z := MEM_SIZE_ALIGNED.

(** [ram] is what [ram_heap] holds from its aligned start. *)
Record heap := mkHeap { ram : bytes; lfree : Z }.

Definition HM (A : Type) : Type := heap -> option (A * heap).
#[export] Instance HM_ret : MRet HM := fun A a h => Some (a, h).
#[export] Instance HM_bind : MBind HM := fun A B k m h =>
  match m h with Some (a, h) => k a h | None => None end.

Definition getm {A} (f : heap -> A) : HM A := fun h => Some (f h, h).
Definition set_lfree (p : Z) : HM unit := fun h => Some (tt, mkHeap (ram h) p).
Definition hwhen (b : bool) (m : HM unit) : HM unit := if b then m else mret tt.

(** Fields of the [struct mem] at [p]. *)
Definition ld_u16 (m : bytes) (p : Z) : option Z := unle <$> rdn m p 2.
Definition rd_field (f : bytes -> option Z) : HM Z := fun h => v ← f (ram h); Some (v, h).
Definition wr_field (f : bytes -> option bytes) : HM unit :=
  fun h => m ← f (ram h); Some (tt, mkHeap m (lfree h)).
Definition next (p : Z) : HM Z := rd_field (fun m => ld_u16 m p).
Definition prev (p : Z) : HM Z := rd_field (fun m => ld_u16 m (p + 2)).
Definition used (p : Z) : HM Z := rd_field (fun m => rd m (p + 4)).
Definition set_next (p v : Z) : HM unit := wr_field (fun m => wrn m p (le16 v)).
Definition set_prev (p v : Z) : HM unit := wr_field (fun m => wrn m (p + 2) (le16 v)).
Definition set_used (p v : Z) : HM unit := wr_field (fun m => wr m (p + 4) v).

Definition mem_init : HM unit :=
  set_next 0 MEM_SIZE_ALIGNED;;
  set_prev 0 0;;
  set_used 0 0;;
  set_used ram_end 1;;
  set_next ram_end MEM_SIZE_ALIGNED;;
  set_prev ram_end MEM_SIZE_ALIGNED;;
  set_lfree 0.

(** The block at [y] joins the one before it, at [x]. *)
Definition absorb (x y : Z) : HM unit :=
  n ← next y;
  set_next x n;;
  n ← next y;
  set_prev n x.
Definition plug_forward (mem : Z) : HM unit :=
  nmem ← next mem;
  u ← used nmem;
  hwhen (negb (mem =? nmem) && (u =? 0) && negb (nmem =? ram_end))
    (l ← getm lfree;
     hwhen (l =? nmem) (set_lfree mem);;
     absorb mem nmem).
Definition plug_backward (mem : Z) : HM unit :=
  pmem ← prev mem;
  u ← used pmem;
  hwhen (negb (pmem =? mem) && (u =? 0))
    (l ← getm lfree;
     hwhen (l =? mem) (set_lfree pmem);;
     absorb pmem mem).
Definition plug_holes (mem : Z) : HM unit := plug_forward mem;; plug_backward mem.

(** [None] is the null pointer. *)
Definition mem_free (rmem : option Z) : HM unit :=
  match rmem with
  | None => mret tt
  | Some rmem =>
      if (rmem <? 0) || (rmem >=? ram_end) then mret tt
      else
        let mem := rmem - SIZEOF_STRUCT_MEM in
        set_used mem 0;;
        l ← getm lfree;
        hwhen (mem <? l) (set_lfree mem);;
        plug_holes mem
  end.

(** A new free header at [ptr2], right after the one at [mem]; then the header
    after it is linked back. *)
Definition link_fields (mem ptr2 n : Z) : HM unit :=
  set_next ptr2 n;;
  set_prev ptr2 mem;;
  set_next mem ptr2.
Definition link_new (mem ptr2 : Z) : HM unit :=
  set_used ptr2 0;;
  n ← next mem;
  link_fields mem ptr2 n.
Definition link_back (ptr2 : Z) : HM unit :=
  n2 ← next ptr2;
  hwhen (negb (n2 =? MEM_SIZE_ALIGNED)) (n2 ← next ptr2; set_prev n2 ptr2).

(** What [mem_realloc] does with a block of [size] bytes that must shrink to
    [newsize]. *)
Definition resize (mem newsize size : Z) : HM unit :=
  mem2 ← next mem;
  u ← used mem2;
  if u =? 0 then
    nx ← next mem2;
    let ptr2 := u16 (u16 mem + SIZEOF_STRUCT_MEM + newsize) in
    l ← getm lfree;
    hwhen (l =? mem2) (set_lfree ptr2);;
    set_used ptr2 0;;
    link_fields mem ptr2 nx;;
    link_back ptr2
  else
    hwhen (newsize + SIZEOF_STRUCT_MEM + MIN_SIZE_ALIGNED <=? size)
      (let ptr2 := u16 (u16 mem + SIZEOF_STRUCT_MEM + newsize) in
       l ← getm lfree;
       hwhen (ptr2 <? l) (set_lfree ptr2);;
       link_new mem ptr2;;
       link_back ptr2).

Definition mem_realloc (rmem newsize : Z) : HM (option Z) :=
  let newsize := u16 (LWIP_MEM_ALIGN_SIZE newsize) in
  let newsize := if newsize <? MIN_SIZE_ALIGNED then MIN_SIZE_ALIGNED else newsize in
  if newsize >? MEM_SIZE_ALIGNED then mret None
  else if (rmem <? 0) || (rmem >=? ram_end) then mret (Some rmem)
  else
    let mem := rmem - SIZEOF_STRUCT_MEM in
    let ptr := u16 mem in
    n ← next mem;
    let size := u16 (n - ptr - SIZEOF_STRUCT_MEM) in
    if newsize >? size then mret None
    else if newsize =? size then mret (Some rmem)
    else resize mem newsize size;; mret (Some rmem).

(** The size of the data after the header at [ptr]: 32-bit arithmetic. *)
Definition room (ptr n : Z) : Z := u32 (n - (ptr + SIZEOF_STRUCT_MEM)).

(** The [for] loop up to the block it takes.  [None]: the loop ends. *)
Fixpoint mem_scan (fuel : nat) (size ptr : Z) : HM (option Z) :=
  match fuel with
  | O => fun _ => None
  | S fuel =>
      if ptr <? MEM_SIZE_ALIGNED - size then
        u ← used ptr;
        n ← next ptr;
        if (u =? 0) && (room ptr n >=? size) then mret (Some ptr)
        else n ← next ptr; mem_scan fuel size n
      else mret None
  end.

(** [while (lfree->used && lfree != ram_end)] *)
Fixpoint next_free (fuel : nat) : HM unit :=
  match fuel with
  | O => fun _ => None
  | S fuel =>
      l ← getm lfree;
      u ← used l;
      if negb (u =? 0) && negb (l =? ram_end) then
        n ← next l;
        set_lfree n;;
        next_free fuel
      else mret tt
  end.

(** A block takes at least [SIZEOF_STRUCT_MEM] of the 1024 bytes. *)
Definition heap_fuel : nat := 130.
Arguments heap_fuel : simpl never.

(** What the loop does with the block [mem] it has found: the headers, then
    [lfree]. *)
Definition occupy (size mem : Z) : HM unit :=
  n ← next mem;
  if room mem n >=? size + SIZEOF_STRUCT_MEM + MIN_SIZE_ALIGNED then
    let ptr2 := u16 (mem + SIZEOF_STRUCT_MEM + size) in
    link_new mem ptr2;;
    set_used mem 1;;
    link_back ptr2
  else set_used mem 1.
Definition mem_take (size mem : Z) : HM (option Z) :=
  occupy size mem;;
  l ← getm lfree;
  hwhen (mem =? l) (next_free heap_fuel);;
  mret (Some (mem + SIZEOF_STRUCT_MEM)).

Definition request (size : Z) : Z :=
  let size := u16 (LWIP_MEM_ALIGN_SIZE size) in
  if size <? MIN_SIZE_ALIGNED then MIN_SIZE_ALIGNED else size.

(** The loop starts at [lfree]. *)
Definition mem_find (size : Z) : HM (option Z) :=
  l ← getm lfree;
  mem_scan heap_fuel size l.

Definition mem_malloc (size : Z) : HM (option Z) :=
  if size =? 0 then mret None
  else
    let size := request size in
    if size >? MEM_SIZE_ALIGNED then mret None
    else
      r ← mem_find size;
      match r with
      | None => mret None
      | Some mem => mem_take size mem
      end.

(** [memset] of the [n] bytes at [p]. *)
Definition mem_zero (p n : Z) : HM unit := wr_field (fun m => wrn m p (replicate (Z.to_nat n) 0)).
Definition mem_calloc (count size : Z) : HM (option Z) :=
  p ← mem_malloc (u16 (count * size));
  match p with
  | None => mret None
  | Some q => mem_zero q (count * size);; mret p
  end.
