(* ===== verification/HeapSpec.v ===== *)
(** * lwIP's heap is a list of blocks

    The contract of mem.c: a heap is a sequence of blocks, free or in use, that
    fills the array; allocation is first fit with a split, release merges with
    free neighbours, and none of them touches a block in use.  [heap_ok h bs]
    relates the bytes of Heap.v to the list; HeapOps.v shows that each operation
    refines the one on lists.  This file has the two levels, the accesses to a
    header, and the lemmas on lists of blocks. *)
From stdpp Require Import base tactics list numbers option.
From S2P Require Import Prelude Heap.

(** ** Lists of blocks *)

Record block := Block { size : Z; in_use : bool }.
#[export] Instance block_eq_dec : EqDecision block.
Proof. solve_decision. Defined.

Definition extent (b : block) : Z := SIZEOF_STRUCT_MEM + size b.
Fixpoint span (bs : list block) : Z := match bs with [] => 0 | b :: bs => extent b + span bs end.

(** The offset of the header before [off + span bs]. *)
Fixpoint last_off (pv off : Z) (bs : list block) : Z :=
  match bs with [] => pv | b :: bs => last_off off (off + extent b) bs end.
(** The lowest free block, or the end. *)
Fixpoint first_free (off : Z) (bs : list block) : Z :=
  match bs with
  | [] => off
  | b :: bs => if in_use b then first_free (off + extent b) bs else off
  end.
(** Byte [i] belongs to a block in use. *)
Fixpoint live (off : Z) (bs : list block) (i : Z) : bool :=
  match bs with
  | [] => false
  | b :: bs =>
      (in_use b && (off + SIZEOF_STRUCT_MEM <=? i) && (i <? off + extent b))
      || live (off + extent b) bs i
  end.

(** No two free blocks in a row. *)
Definition free_head (bs : list block) : bool :=
  match bs with b :: _ => negb (in_use b) | [] => false end.
Fixpoint no_adj (bs : list block) : Prop :=
  match bs with [] => True | b :: bs => (in_use b = true \/ free_head bs = false) /\ no_adj bs end.

Definition block_ok (b : block) : Prop := MIN_SIZE_ALIGNED <= size b /\ (4 | size b).
Definition blocks_ok (bs : list block) : Prop := Forall block_ok bs /\ no_adj bs /\ span bs = ram_end.

(** First fit; a block that leaves room for another is split. *)
Definition carve (n : Z) (b : block) : list block :=
  if size b >=? n + SIZEOF_STRUCT_MEM + MIN_SIZE_ALIGNED
  then [Block n true; Block (size b - n - SIZEOF_STRUCT_MEM) false]
  else [Block (size b) true].
Definition fits (n : Z) (b : block) : bool := negb (in_use b) && (n <=? size b).
Fixpoint alloc (off n : Z) (bs : list block) : option (Z * list block) :=
  match bs with
  | [] => None
  | b :: bs =>
      if fits n b then Some (off + SIZEOF_STRUCT_MEM, carve n b ++ bs)
      else '(p, bs') ← alloc (off + extent b) n bs; Some (p, b :: bs')
  end.

(** Merging neighbours. *)
Fixpoint coalesce (bs : list block) : list block :=
  match bs with
  | [] => []
  | b :: bs =>
      match coalesce bs with
      | c :: r => if negb (in_use b) && negb (in_use c)
                  then Block (size b + extent c) false :: r else b :: c :: r
      | [] => [b]
      end
  end.
(** The block with its data at [p] becomes free. *)
Fixpoint mark (off p : Z) (bs : list block) : list block :=
  match bs with
  | [] => []
  | b :: bs => if off + SIZEOF_STRUCT_MEM =? p then Block (size b) false :: bs
               else b :: mark (off + extent b) p bs
  end.
Definition release (p : Z) (bs : list block) : list block := coalesce (mark 0 p bs).

(** A block in use gives up what it has beyond [n] bytes, to the free block
    after it or as a block of its own. *)
Definition cut (n : Z) (b : block) (bs : list block) : list block :=
  match bs with
  | c :: r =>
      if negb (in_use c) then Block n true :: Block (size c + (size b - n)) false :: r
      else carve n b ++ bs
  | [] => carve n b
  end.
Fixpoint shrink (off p n : Z) (bs : list block) : list block :=
  match bs with
  | [] => []
  | b :: bs => if off + SIZEOF_STRUCT_MEM =? p then cut n b bs
               else b :: shrink (off + extent b) p n bs
  end.
(** A block in use with its data at [p]. *)
Fixpoint owned (off p : Z) (bs : list block) : option Z :=
  match bs with
  | [] => None
  | b :: bs => if off + SIZEOF_STRUCT_MEM =? p then if in_use b then Some (size b) else None
               else owned (off + extent b) p bs
  end.

(** ** The bytes of a list of blocks *)

Definition header (m : bytes) (p : Z) : option (Z * Z * Z) :=
  n ← ld_u16 m p; v ← ld_u16 m (p + 2); u ← rd m (p + 4); Some (n, v, u).

Fixpoint seg (m : bytes) (pv off : Z) (bs : list block) : Prop :=
  match bs with
  | [] => True
  | b :: bs =>
      header m off = Some (off + extent b, pv, if in_use b then 1 else 0)
      /\ seg m off (off + extent b) bs
  end.
Definition end_ok (m : bytes) (off : Z) : Prop :=
  off = ram_end /\ exists v, header m off = Some (ram_end, v, 1).
Definition layout (m : bytes) (pv off : Z) (bs : list block) : Prop :=
  seg m pv off bs /\ end_ok m (off + span bs).

Record heap_ok (h : heap) (bs : list block) : Prop := {
  ok_layout : layout (ram h) 0 0 bs;
  ok_blocks : blocks_ok bs;
  ok_lfree : lfree h = first_free 0 bs;
  ok_len : ram_end + SIZEOF_STRUCT_MEM <= blen (ram h) }.

(** [m'] is [m] with another header at [p]. *)
Record wrote (m m' : bytes) (p n v u : Z) : Prop := {
  wrote_blen : blen m' = blen m;
  wrote_header : header m' p = Some (n, v, u);
  wrote_out : forall i, i < p \/ p + SIZEOF_STRUCT_MEM <= i -> rd m' i = rd m i }.

Lemma ld_u16_ext m m' p :
  blen m' = blen m -> (forall i, p <= i < p + 2 -> rd m' i = rd m i) -> ld_u16 m' p = ld_u16 m p.
Proof. intros Hl Hr. unfold ld_u16. by rewrite (rdn_ext m m'). Qed.

Lemma header_ext m m' p :
  blen m' = blen m -> (forall i, p <= i < p + SIZEOF_STRUCT_MEM -> rd m' i = rd m i) ->
  header m' p = header m p.
Proof.
  unfold SIZEOF_STRUCT_MEM. intros Hl Hr. unfold header.
  by rewrite (ld_u16_ext m m' p), (ld_u16_ext m m' (p + 2)), (Hr (p + 4))
    by (done || lia || (intros; apply Hr; lia)).
Qed.

Lemma header_parts m p n v u :
  header m p = Some (n, v, u) -> ld_u16 m p = Some n /\ ld_u16 m (p + 2) = Some v /\ rd m (p + 4) = Some u.
Proof.
  unfold header. destruct (ld_u16 m p), (ld_u16 m (p + 2)), (rd m (p + 4)); simpl; by intros [= -> -> ->].
Qed.

Lemma ld_u16_in m p : 0 <= p -> p + 2 <= blen m -> exists v, ld_u16 m p = Some v.
Proof. intros. unfold ld_u16. rewrite rdn_in by lia. simpl. eauto. Qed.

Lemma header_in m p :
  0 <= p -> p + SIZEOF_STRUCT_MEM <= blen m -> exists n v u, header m p = Some (n, v, u).
Proof.
  unfold SIZEOF_STRUCT_MEM. intros H0 H1. unfold header.
  destruct (ld_u16_in m p) as [n ->]; [lia..|]. destruct (ld_u16_in m (p + 2)) as [v ->]; [lia..|].
  destruct (rd_in m (p + 4)) as [u ->]; [lia|]. eauto.
Qed.

Lemma header_range m p n v u : header m p = Some (n, v, u) -> 0 <= p.
Proof.
  intros (H & _)%header_parts. unfold ld_u16 in H.
  destruct (rdn m p 2) eqn:E; [|done]. by apply rdn_Some in E as (? & _).
Qed.

(** ** The accesses *)

Lemma next_run h p n v u : header (ram h) p = Some (n, v, u) -> next p h = Some (n, h).
Proof. intros (H & _)%header_parts. unfold next, rd_field. by rewrite H. Qed.
Lemma prev_run h p n v u : header (ram h) p = Some (n, v, u) -> prev p h = Some (v, h).
Proof. intros (_ & H & _)%header_parts. unfold prev, rd_field. by rewrite H. Qed.
Lemma used_run h p n v u : header (ram h) p = Some (n, v, u) -> used p h = Some (u, h).
Proof. intros (_ & _ & H)%header_parts. unfold used, rd_field. by rewrite H. Qed.

Lemma ld_le16 m p v m' : 0 <= v < 65536 -> wrn m p (le16 v) = Some m' -> ld_u16 m' p = Some v.
Proof.
  intros Hv Hw. unfold ld_u16. change 2 with (blen (le16 v)). rewrite (rdn_wrn_same _ _ _ _ Hw).
  exact (f_equal Some (unle_le16 v Hv)).
Qed.

Lemma set_next_run h p n v u w :
  header (ram h) p = Some (n, v, u) -> p + SIZEOF_STRUCT_MEM <= blen (ram h) -> 0 <= w < 65536 ->
  exists m, set_next p w h = Some (tt, mkHeap m (lfree h)) /\ wrote (ram h) m p w v u.
Proof.
  unfold SIZEOF_STRUCT_MEM. intros Hh Hl Hw. pose proof (header_range _ _ _ _ _ Hh) as H0.
  unfold set_next, wr_field. destruct (wrn (ram h) p (le16 w)) as [m|] eqn:E;
    [|rewrite wrn_in in E by (change (blen (le16 w)) with 2; lia); done].
  exists m. split; [done|].
  assert (Ho : forall i, i < p \/ p + 2 <= i -> rd m i = rd (ram h) i)
    by (intros i Hi; exact (rd_wrn_out _ _ _ _ _ E Hi)).
  apply header_parts in Hh as (H1 & H2 & H3). pose proof (wrn_blen _ _ _ _ E) as Hb. split.
  - done.
  - unfold header. rewrite (ld_le16 _ _ _ _ Hw E), (ld_u16_ext (ram h) m (p + 2)), (Ho (p + 4))
      by (done || lia || (intros; apply Ho; lia)).
    by rewrite H2, H3.
  - unfold SIZEOF_STRUCT_MEM. intros i Hi. apply Ho. lia.
Qed.

Lemma set_prev_run h p n v u w :
  header (ram h) p = Some (n, v, u) -> p + SIZEOF_STRUCT_MEM <= blen (ram h) -> 0 <= w < 65536 ->
  exists m, set_prev p w h = Some (tt, mkHeap m (lfree h)) /\ wrote (ram h) m p n w u.
Proof.
  unfold SIZEOF_STRUCT_MEM. intros Hh Hl Hw. pose proof (header_range _ _ _ _ _ Hh) as H0.
  unfold set_prev, wr_field. destruct (wrn (ram h) (p + 2) (le16 w)) as [m|] eqn:E;
    [|rewrite wrn_in in E by (change (blen (le16 w)) with 2; lia); done].
  exists m. split; [done|].
  assert (Ho : forall i, i < p + 2 \/ p + 4 <= i -> rd m i = rd (ram h) i)
    by (intros i Hi; apply (rd_wrn_out _ _ _ _ _ E); change (blen (le16 w)) with 2; lia).
  apply header_parts in Hh as (H1 & H2 & H3). pose proof (wrn_blen _ _ _ _ E) as Hb. split.
  - done.
  - unfold header. rewrite (ld_le16 _ _ _ _ Hw E), (ld_u16_ext (ram h) m p), (Ho (p + 4))
      by (done || lia || (intros; apply Ho; lia)).
    by rewrite H1, H3.
  - unfold SIZEOF_STRUCT_MEM. intros i Hi. apply Ho. lia.
Qed.

Lemma set_used_run h p n v u w :
  header (ram h) p = Some (n, v, u) -> p + SIZEOF_STRUCT_MEM <= blen (ram h) -> 0 <= w < 256 ->
  exists m, set_used p w h = Some (tt, mkHeap m (lfree h)) /\ wrote (ram h) m p n v w.
Proof.
  unfold SIZEOF_STRUCT_MEM. intros Hh Hl Hw. pose proof (header_range _ _ _ _ _ Hh) as H0.
  unfold set_used, wr_field. destruct (wr (ram h) (p + 4) w) as [m|] eqn:E;
    [|rewrite wr_in in E by lia; done].
  exists m. split; [done|].
  assert (Ho : forall i, i <> p + 4 -> rd m i = rd (ram h) i)
    by (intros i Hi; exact (rd_wr_ne _ _ _ _ _ E Hi)).
  apply header_parts in Hh as (H1 & H2 & H3). pose proof (wr_blen _ _ _ _ E) as Hb. split.
  - done.
  - unfold header. rewrite (rd_wr_eq _ _ _ _ E), (ld_u16_ext (ram h) m p), (ld_u16_ext (ram h) m (p + 2))
      by (done || lia || (intros; apply Ho; lia)).
    by rewrite H1, H2, u8_small.
  - unfold SIZEOF_STRUCT_MEM. intros i Hi. apply Ho. lia.
Qed.

Lemma hbind {A B} (m : HM A) (k : A -> HM B) h a h' : m h = Some (a, h') -> (m ≫= k) h = k a h'.
Proof. intros E. unfold mbind, HM_bind. by rewrite E. Qed.

(** ** Writes and layouts *)

Lemma wrote_trans m m1 m2 p a b c d e f :
  wrote m m1 p a b c -> wrote m1 m2 p d e f -> wrote m m2 p d e f.
Proof.
  intros [L1 _ O1] [L2 H2 O2]. split; [congruence|done|].
  intros i Hi. by rewrite O2, O1.
Qed.
Lemma wrote_other m m' p n v u q :
  wrote m m' p n v u -> q + SIZEOF_STRUCT_MEM <= p \/ p + SIZEOF_STRUCT_MEM <= q ->
  header m' q = header m q.
Proof. intros [L _ O] Hq. apply header_ext; [done|]. intros i Hi. apply O. lia. Qed.

Lemma extent_pos b : block_ok b -> SIZEOF_STRUCT_MEM + MIN_SIZE_ALIGNED <= extent b.
Proof. unfold block_ok, extent. lia. Qed.
Lemma span_nonneg bs : Forall block_ok bs -> 0 <= span bs.
Proof.
  induction 1 as [|b bs Hb _ IH]; [done|]. simpl.
  pose proof (extent_pos b Hb). unfold SIZEOF_STRUCT_MEM, MIN_SIZE_ALIGNED in *. lia.
Qed.
Lemma span_app l r : span (l ++ r) = span l + span r.
Proof. induction l as [|b l IH]; simpl; [done|]. rewrite IH. lia. Qed.
Lemma span_cons b r : span (b :: r) = extent b + span r.
Proof. done. Qed.
Lemma span_length bs : Forall block_ok bs -> 20 * Z.of_nat (length bs) <= span bs.
Proof.
  induction 1 as [|b bs Hb _ IH]; [done|]. simpl length. simpl span.
  pose proof (extent_pos b Hb). unfold SIZEOF_STRUCT_MEM, MIN_SIZE_ALIGNED in *. lia.
Qed.

Lemma seg_app m pv off l r :
  seg m pv off (l ++ r) <-> seg m pv off l /\ seg m (last_off pv off l) (off + span l) r.
Proof.
  revert pv off. induction l as [|b l IH]; intros pv off; simpl.
  { rewrite Z.add_0_r. tauto. }
  rewrite IH, Z.add_assoc. tauto.
Qed.
Lemma layout_app m pv off l r :
  layout m pv off (l ++ r) <-> seg m pv off l /\ layout m (last_off pv off l) (off + span l) r.
Proof. unfold layout. rewrite seg_app, span_app, Z.add_assoc. tauto. Qed.
Lemma layout_cons m pv off b r :
  layout m pv off (b :: r) <->
  header m off = Some (off + extent b, pv, if in_use b then 1 else 0)
  /\ layout m off (off + extent b) r.
Proof. unfold layout. simpl. rewrite Z.add_assoc. tauto. Qed.
Lemma last_off_app pv off l b : last_off pv off (l ++ [b]) = off + span l.
Proof.
  revert pv off. induction l as [|c l IH]; intros pv off; simpl; [lia|]. rewrite IH. lia.
Qed.

(** Every layout starts with a header. *)
Lemma layout_head m pv off bs :
  layout m pv off bs -> exists n v u, header m off = Some (n, v, u).
Proof.
  destruct bs as [|b bs].
  - intros [_ [H [v Hv]]]. simpl in *. rewrite Z.add_0_r in *. eauto.
  - intros [H _]%layout_cons. eauto.
Qed.
Lemma layout_le m pv off bs : Forall block_ok bs -> layout m pv off bs -> 0 <= off <= ram_end.
Proof.
  intros Hb Hl. pose proof (span_nonneg bs Hb).
  destruct (layout_head _ _ _ _ Hl) as (n & v & u & H0%header_range).
  destruct Hl as [_ [He _]]. lia.
Qed.

(** A write beside a segment or before a layout leaves it. *)
Lemma seg_ext m m' pv off l :
  Forall block_ok l -> blen m' = blen m ->
  (forall i, off <= i < off + span l -> rd m' i = rd m i) -> seg m pv off l -> seg m' pv off l.
Proof.
  intros Hb Hl. revert pv off. induction Hb as [|b l Hb Hok IH]; intros pv off Hr; [done|].
  simpl in *. pose proof (extent_pos b Hb). pose proof (span_nonneg l Hok).
  unfold SIZEOF_STRUCT_MEM, MIN_SIZE_ALIGNED in *. intros [Hh Hs]. split.
  - rewrite <- Hh. apply header_ext; [done|]. unfold SIZEOF_STRUCT_MEM.
    intros i Hi. apply Hr. lia.
  - apply IH; [|done]. intros i Hi. apply Hr. lia.
Qed.
Lemma layout_ext m m' pv off bs :
  Forall block_ok bs -> blen m' = blen m ->
  (forall i, off <= i -> rd m' i = rd m i) -> layout m pv off bs -> layout m' pv off bs.
Proof.
  intros Hb Hl Hr [Hs [He [v Hv]]]. pose proof (span_nonneg bs Hb). split.
  - eapply seg_ext; [done..| |done]. intros i Hi. apply Hr. lia.
  - split; [done|]. exists v. rewrite <- Hv. apply header_ext; [done|]. intros i Hi. apply Hr. lia.
Qed.
Lemma seg_wrote m m' p n v u pv off l :
  wrote m m' p n v u -> Forall block_ok l -> off + span l <= p -> seg m pv off l -> seg m' pv off l.
Proof. intros [L _ O] Hb Hp. apply seg_ext; [done..|]. intros i Hi. apply O. lia. Qed.
Lemma layout_wrote m m' p n v u pv off bs :
  wrote m m' p n v u -> Forall block_ok bs -> p + SIZEOF_STRUCT_MEM <= off ->
  layout m pv off bs -> layout m' pv off bs.
Proof. intros [L _ O] Hb Hp. apply layout_ext; [done..|]. intros i Hi. apply O. lia. Qed.

(** A new [prev] in the first header of a layout. *)
Lemma layout_prev m m' pv off bs n v w u :
  Forall block_ok bs -> layout m pv off bs -> header m off = Some (n, v, u) ->
  wrote m m' off n w u -> layout m' w off bs.
Proof.
  intros Hb Hl Hh [L H O]. destruct Hb as [|b bs Hb Hok].
  - destruct Hl as [_ [He [v' Hv']]]. simpl in *. rewrite Z.add_0_r in *.
    split; [done|]. simpl. rewrite Z.add_0_r. split; [done|]. rewrite Hh in Hv'.
    injection Hv' as -> -> ->. eauto.
  - apply layout_cons in Hl as [Hh' Hl]. rewrite Hh in Hh'. injection Hh' as -> -> ->.
    apply layout_cons. split; [done|]. pose proof (extent_pos b Hb).
    unfold SIZEOF_STRUCT_MEM, MIN_SIZE_ALIGNED in *.
    eapply layout_ext; [done..| |done]. intros i Hi. apply O. unfold SIZEOF_STRUCT_MEM. lia.
Qed.
(** Nobody reads the [prev] of the end. *)
Lemma layout_end m pv w bs : Forall block_ok bs -> layout m pv ram_end bs -> layout m w ram_end bs.
Proof.
  intros Hb Hl. destruct Hb as [|b bs Hb Hok]; [done|].
  destruct Hl as [_ [He _]]. simpl in He. pose proof (extent_pos b Hb).
  pose proof (span_nonneg bs Hok). unfold SIZEOF_STRUCT_MEM, MIN_SIZE_ALIGNED in *. lia.
Qed.

(** [if (n != MEM_SIZE_ALIGNED) ram[n].prev = w], and without the test. *)
Lemma relink_always h pv off bs w :
  Forall block_ok bs -> layout (ram h) pv off bs -> ram_end + SIZEOF_STRUCT_MEM <= blen (ram h) ->
  0 <= w < 65536 ->
  exists m, set_prev off w h = Some (tt, mkHeap m (lfree h)) /\ layout m w off bs
    /\ blen m = blen (ram h)
    /\ (forall i, i < off \/ off + SIZEOF_STRUCT_MEM <= i -> rd m i = rd (ram h) i).
Proof.
  intros Hb Hl Hlen Hw. pose proof (layout_le _ _ _ _ Hb Hl).
  destruct (layout_head _ _ _ _ Hl) as (n & v & u & Hh).
  destruct (set_prev_run h off n v u w Hh ltac:(lia) Hw) as (m & E & W).
  exists m. split; [done|]. split; [by eapply layout_prev|]. by destruct W.
Qed.
Lemma relink h pv off bs w :
  Forall block_ok bs -> layout (ram h) pv off bs -> ram_end + SIZEOF_STRUCT_MEM <= blen (ram h) ->
  0 <= w < 65536 ->
  exists m, hwhen (negb (off =? MEM_SIZE_ALIGNED)) (set_prev off w) h = Some (tt, mkHeap m (lfree h))
    /\ layout m w off bs /\ blen m = blen (ram h)
    /\ (forall i, i < off \/ off + SIZEOF_STRUCT_MEM <= i -> rd m i = rd (ram h) i).
Proof.
  intros Hb Hl Hlen Hw. destruct (Z.eqb_spec off MEM_SIZE_ALIGNED) as [->|]; simpl.
  - exists (ram h). split; [by destruct h|]. split; [by eapply layout_end|]. done.
  - by eapply relink_always.
Qed.

Ltac hlia := unfold ram_end, SIZEOF_STRUCT_MEM, MIN_SIZE_ALIGNED, MEM_SIZE_ALIGNED in *; lia.

Lemma link_fields_run h mem ptr2 n v u w n1 v1 :
  header (ram h) mem = Some (n, v, u) -> header (ram h) ptr2 = Some (n1, v1, 0) -> 0 <= w < 65536 ->
  mem + SIZEOF_STRUCT_MEM <= ptr2 -> ptr2 + SIZEOF_STRUCT_MEM <= blen (ram h) -> ptr2 < 65536 ->
  exists m, link_fields mem ptr2 w h = Some (tt, mkHeap m (lfree h))
    /\ header m mem = Some (ptr2, v, u) /\ header m ptr2 = Some (w, mem, 0) /\ blen m = blen (ram h)
    /\ (forall i, i < mem \/ mem + SIZEOF_STRUCT_MEM <= i < ptr2 \/ ptr2 + SIZEOF_STRUCT_MEM <= i ->
        rd m i = rd (ram h) i).
Proof.
  intros Hh H1 Hw Hle Hlen Hp. pose proof (header_range _ _ _ _ _ Hh) as H0. unfold link_fields.
  destruct (set_next_run h ptr2 n1 v1 0 w H1) as (m2 & E2 & W2); [hlia..|].
  rewrite (hbind _ _ _ _ _ E2). pose proof (wrote_blen _ _ _ _ _ _ W2) as B2.
  destruct (set_prev_run (mkHeap m2 (lfree h)) ptr2 w v1 0 mem (wrote_header _ _ _ _ _ _ W2))
    as (m3 & E3 & W3); [simpl; hlia..|].
  simpl in *. rewrite (hbind _ _ _ _ _ E3). pose proof (wrote_trans _ _ _ _ _ _ _ _ _ _ W2 W3) as W13.
  pose proof (wrote_blen _ _ _ _ _ _ W13) as B3.
  assert (Hm3 : header m3 mem = Some (n, v, u)) by (rewrite (wrote_other _ _ _ _ _ _ _ W13) by hlia; done).
  destruct (set_next_run (mkHeap m3 (lfree h)) mem n v u ptr2 Hm3) as (m4 & E4 & W4); [simpl; hlia..|].
  simpl in *. exists m4. split; [exact E4|]. split; [apply W4|]. split.
  - rewrite (wrote_other _ _ _ _ _ _ _ W4) by hlia. apply W13.
  - destruct W4 as [B4 _ O4], W13 as [_ _ O13]. split; [congruence|].
    intros i Hi. rewrite O4, O13 by hlia. done.
Qed.

(** A free header at [ptr2], whatever was there. *)
Lemma link_over_run h mem ptr2 n v u w :
  header (ram h) mem = Some (n, v, u) -> 0 <= w < 65536 ->
  mem + SIZEOF_STRUCT_MEM <= ptr2 -> ptr2 + SIZEOF_STRUCT_MEM <= blen (ram h) -> ptr2 < 65536 ->
  exists m1 m, set_used ptr2 0 h = Some (tt, mkHeap m1 (lfree h)) /\ header m1 mem = Some (n, v, u)
    /\ link_fields mem ptr2 w (mkHeap m1 (lfree h)) = Some (tt, mkHeap m (lfree h))
    /\ header m mem = Some (ptr2, v, u) /\ header m ptr2 = Some (w, mem, 0) /\ blen m = blen (ram h)
    /\ (forall i, i < mem \/ mem + SIZEOF_STRUCT_MEM <= i < ptr2 \/ ptr2 + SIZEOF_STRUCT_MEM <= i ->
        rd m i = rd (ram h) i).
Proof.
  intros Hh Hw Hle Hlen Hp. pose proof (header_range _ _ _ _ _ Hh) as H0.
  destruct (header_in (ram h) ptr2) as (n1 & v1 & u1 & H1); [hlia..|].
  destruct (set_used_run h ptr2 n1 v1 u1 0 H1 ltac:(hlia) ltac:(lia)) as (m1 & E1 & W1).
  assert (Hm1 : header m1 mem = Some (n, v, u)) by (rewrite (wrote_other _ _ _ _ _ _ _ W1) by hlia; done).
  pose proof W1 as [B1 A1 O1].
  destruct (link_fields_run (mkHeap m1 (lfree h)) mem ptr2 n v u w n1 v1 Hm1 A1 Hw)
    as (m & E & A & A2 & B & O); [simpl; hlia..|].
  simpl in *. exists m1, m. split_and!; try done; [congruence|].
  intros i Hi. rewrite O, O1 by hlia. done.
Qed.

Lemma link_new_run h mem ptr2 n v u :
  header (ram h) mem = Some (n, v, u) -> 0 <= n < 65536 ->
  mem + SIZEOF_STRUCT_MEM <= ptr2 -> ptr2 + SIZEOF_STRUCT_MEM <= blen (ram h) -> ptr2 < 65536 ->
  exists m, link_new mem ptr2 h = Some (tt, mkHeap m (lfree h))
    /\ header m mem = Some (ptr2, v, u) /\ header m ptr2 = Some (n, mem, 0) /\ blen m = blen (ram h)
    /\ (forall i, i < mem \/ mem + SIZEOF_STRUCT_MEM <= i < ptr2 \/ ptr2 + SIZEOF_STRUCT_MEM <= i ->
        rd m i = rd (ram h) i).
Proof.
  intros Hh Hn Hle Hlen Hp.
  destruct (link_over_run h mem ptr2 n v u n Hh Hn Hle Hlen Hp) as (m1 & m & E1 & Hm1 & E & R).
  exists m. split; [|exact R]. unfold link_new. rewrite (hbind _ _ _ _ _ E1).
  by rewrite (hbind _ _ _ _ _ (next_run (mkHeap m1 (lfree h)) mem n v u Hm1)).
Qed.

Lemma link_back_run h ptr2 v u pv off bs :
  header (ram h) ptr2 = Some (off, v, u) -> 0 <= ptr2 < 65536 -> ptr2 + SIZEOF_STRUCT_MEM <= off ->
  Forall block_ok bs -> layout (ram h) pv off bs -> ram_end + SIZEOF_STRUCT_MEM <= blen (ram h) ->
  exists m, link_back ptr2 h = Some (tt, mkHeap m (lfree h)) /\ layout m ptr2 off bs
    /\ blen m = blen (ram h)
    /\ (forall i, i < off \/ off + SIZEOF_STRUCT_MEM <= i -> rd m i = rd (ram h) i).
Proof.
  intros Hh Hp Hle Hb Hl Hlen. unfold link_back. rewrite (hbind _ _ _ _ _ (next_run _ _ _ _ _ Hh)).
  destruct (relink h pv off bs ptr2 Hb Hl Hlen Hp) as (m & E & R). exists m. split; [|exact R].
  destruct (negb _); [|exact E]. simpl in *. by rewrite (hbind _ _ _ _ _ (next_run _ _ _ _ _ Hh)).
Qed.

(** ** Lemmas on lists of blocks *)

Fixpoint free_tail (bs : list block) : bool :=
  match bs with [] => false | [b] => negb (in_use b) | _ :: bs => free_tail bs end.

Lemma no_adj_app l r :
  no_adj (l ++ r) <-> no_adj l /\ no_adj r /\ (free_tail l = false \/ free_head r = false).
Proof.
  induction l as [|b l IH]; simpl; [tauto|]. rewrite IH. destruct l as [|c l]; simpl.
  - destruct (in_use b); simpl; intuition congruence.
  - destruct (in_use b), (in_use c); simpl; intuition congruence.
Qed.
Lemma free_tail_snoc l b : free_tail (l ++ [b]) = negb (in_use b).
Proof. induction l as [|c l IH]; [done|]. simpl. destruct l; [done|]. exact IH. Qed.

Definition all_used (bs : list block) : bool := forallb in_use bs.

(** The free list starts after the blocks in use at the bottom. *)
Lemma first_free_split off bs :
  exists l r, bs = l ++ r /\ all_used l = true /\ first_free off bs = off + span l
              /\ (r = [] \/ free_head r = true).
Proof.
  revert off. induction bs as [|b bs IH]; intros off; simpl.
  { exists [], []. simpl. rewrite Z.add_0_r. auto. }
  destruct (in_use b) eqn:E.
  - destruct (IH (off + extent b)) as (l & r & -> & Hl & -> & Hr). exists (b :: l), r.
    simpl. rewrite E, Hl. split_and!; [done..|lia|done].
  - exists [], (b :: bs). simpl. rewrite E, Z.add_0_r. auto.
Qed.
Lemma first_free_used off l r : all_used l = true -> first_free off (l ++ r) = first_free (off + span l) r.
Proof.
  revert off. induction l as [|b l IH]; intros off; simpl; [by rewrite Z.add_0_r|].
  intros [-> Hl]%andb_true_iff. rewrite IH by done. by rewrite Z.add_assoc.
Qed.
Lemma first_free_lower off l r s :
  all_used l = false -> first_free off (l ++ r) = first_free off (l ++ s).
Proof.
  revert off. induction l as [|b l IH]; intros off; simpl; [done|].
  destruct (in_use b); simpl; [apply IH|done].
Qed.
Lemma first_free_below off l r :
  Forall block_ok l -> all_used l = false -> off <= first_free off (l ++ r) < off + span l.
Proof.
  intros Hl. revert off. induction Hl as [|b l Hb Hl IH]; intros off; simpl; [done|].
  pose proof (extent_pos b Hb). pose proof (span_nonneg l Hl).
  destruct (in_use b); simpl; intros; [|hlia]. specialize (IH (off + extent b) H1). hlia.
Qed.
Lemma first_free_le off bs : Forall block_ok bs -> off <= first_free off bs.
Proof.
  intros Hl. revert off. induction Hl as [|b l Hb Hl IH]; intros off; simpl; [lia|].
  pose proof (extent_pos b Hb). destruct (in_use b); [|lia]. specialize (IH (off + extent b)). hlia.
Qed.

Lemma live_app off l r i : live off (l ++ r) i = live off l i || live (off + span l) r i.
Proof.
  revert off. induction l as [|b l IH]; intros off; simpl; [by rewrite Z.add_0_r|].
  rewrite IH, Z.add_assoc. apply orb_assoc.
Qed.
Lemma live_range off bs i :
  Forall block_ok bs -> live off bs i = true -> off + SIZEOF_STRUCT_MEM <= i < off + span bs.
Proof.
  intros Hl. revert off. induction Hl as [|b l Hb Hl IH]; intros off; simpl; [done|].
  pose proof (extent_pos b Hb). pose proof (span_nonneg l Hl).
  rewrite orb_true_iff, !andb_true_iff, Z.leb_le, Z.ltb_lt.
  intros [[[_ H1] H2]|H1]; [hlia|]. specialize (IH _ H1). hlia.
Qed.

Lemma Forall_mid l b r :
  Forall block_ok (l ++ b :: r) -> Forall block_ok l /\ block_ok b /\ Forall block_ok r.
Proof. intros [Hl Hr]%Forall_app. inversion Hr; subst. auto. Qed.

(** The block the loop finds. *)
Lemma alloc_cases off n bs :
  (Forall (fun b => fits n b = false) bs /\ alloc off n bs = None)
  \/ exists l b r, bs = l ++ b :: r /\ Forall (fun c => fits n c = false) l /\ fits n b = true
     /\ alloc off n bs = Some (off + span l + SIZEOF_STRUCT_MEM, l ++ carve n b ++ r).
Proof.
  revert off. induction bs as [|b bs IH]; intros off; simpl; [by left|].
  destruct (fits n b) eqn:E.
  - right. exists [], b, bs. simpl. rewrite Z.add_0_r. auto.
  - destruct (IH (off + extent b)) as [[Hf ->]|(l & c & r & -> & Hf & Hc & ->)].
    + left. auto.
    + right. exists (b :: l), c, r. simpl. rewrite Z.add_assoc. auto.
Qed.
Lemma fits_used n l : all_used l = true -> Forall (fun b => fits n b = false) l.
Proof.
  induction l as [|b l IH]; simpl; [done|]. intros [Hb Hl]%andb_true_iff.
  constructor; [|auto]. unfold fits. by rewrite Hb.
Qed.

Lemma carve_span n b : span (carve n b) = extent b.
Proof. unfold carve, extent. destruct (_ >=? _); simpl; unfold extent; simpl; lia. Qed.
Lemma carve_ok n b :
  MIN_SIZE_ALIGNED <= n -> (4 | n) -> block_ok b -> n <= size b -> Forall block_ok (carve n b).
Proof.
  intros Hn H4 [Hb Hd] Hle. unfold carve. destruct (Z.geb_spec (size b) (n + SIZEOF_STRUCT_MEM + MIN_SIZE_ALIGNED)).
  - repeat constructor; simpl; try done; [hlia|].
    apply Z.divide_sub_r; [by apply Z.divide_sub_r | by exists 2].
  - repeat constructor; simpl; done.
Qed.

Lemma alloc_ok n l b r :
  MIN_SIZE_ALIGNED <= n -> (4 | n) -> fits n b = true ->
  blocks_ok (l ++ b :: r) -> blocks_ok (l ++ carve n b ++ r).
Proof.
  intros Hn H4 Hf (Hok & Ha & Hs). apply Forall_mid in Hok as (Hl & Hb & Hr).
  unfold fits in Hf. apply andb_true_iff in Hf as [Hu Hle%Z.leb_le]. apply negb_true_iff in Hu.
  pose proof (carve_ok n b Hn H4 Hb Hle). split_and!.
  - rewrite !Forall_app. done.
  - apply no_adj_app in Ha as (Hal & [Hb' Har] & Hx). rewrite Hu in Hb'. destruct Hb' as [?|Hh]; [done|].
    apply no_adj_app. split; [done|]. unfold carve. destruct (_ >=? _); simpl; rewrite ?Hh; auto.
  - rewrite !span_app, carve_span in *. done.
Qed.
