(* ===== verification/HeapOps.v ===== *)
(** * The operations of mem.c refine those on lists of blocks

    [malloc_run], [free_run] and [realloc_run]: from a heap that holds a list of
    blocks, each operation of Heap.v returns, its heap holds the list of the
    operation on lists (HeapSpec.v), and the bytes of the other blocks in use
    are what they were ([keeps]). *)
From stdpp Require Import base tactics list numbers option.
From S2P Require Import Prelude Heap HeapSpec.

(** ** Allocation *)

Lemma room_block off b : 0 <= size b <= ram_end -> room off (off + extent b) = size b.
Proof. unfold room, extent. intros. rewrite u32_small by hlia. lia. Qed.

Lemma layout_size m pv off b r :
  block_ok b -> Forall block_ok r -> layout m pv off (b :: r) ->
  0 <= off /\ off + extent b <= ram_end /\ 0 <= size b <= ram_end.
Proof.
  intros Hb Hr Hl. pose proof (layout_le _ _ _ _ (Forall_cons_2 _ _ _ Hb Hr) Hl).
  apply layout_cons in Hl as [_ Hl]. pose proof (layout_le _ _ _ _ Hr Hl).
  unfold block_ok, extent in *. hlia.
Qed.

(** The scan of a layout in which the blocks [l] do not fit and the next does. *)
Lemma scan_found fuel h pv off n l b r :
  Forall block_ok (l ++ b :: r) -> layout (ram h) pv off (l ++ b :: r) ->
  Forall (fun c => fits n c = false) l -> fits n b = true -> (length l < fuel)%nat ->
  mem_scan fuel n off h = Some (Some (off + span l), h).
Proof.
  intros Hok Hl Hf Hb Hfu. revert pv off l Hok Hl Hf Hfu.
  induction fuel as [|fuel IH]; intros pv off l Hok Hl Hf Hfu; [lia|].
  destruct l as [|c l]; simpl app in *.
  - apply Forall_cons_1 in Hok as [Hbo Hr]. pose proof (layout_size _ _ _ _ _ Hbo Hr Hl) as (H0 & H1 & H2).
    apply layout_cons in Hl as [Hh _]. unfold fits in Hb.
    apply andb_true_iff in Hb as [Hu%negb_true_iff Hle%Z.leb_le]. rewrite Hu in Hh.
    simpl. rewrite Z.add_0_r. unfold extent in H1.
    destruct (Z.ltb_spec off (MEM_SIZE_ALIGNED - n)); [|hlia].
    rewrite (hbind _ _ _ _ _ (used_run _ _ _ _ _ Hh)), (hbind _ _ _ _ _ (next_run _ _ _ _ _ Hh)).
    rewrite room_block by done. simpl. destruct (Z.geb_spec (size b) n); [done|lia].
  - apply Forall_cons_1 in Hok as [Hc Hr]. apply Forall_cons_1 in Hf as [Hcf Hf].
    pose proof (layout_size _ _ _ _ _ Hc Hr Hl) as (H0 & H1 & H2).
    pose proof Hl as Hl'. apply layout_cons in Hl as [Hh Hl].
    assert (Hn : n <= size b) by (unfold fits in Hb; apply andb_true_iff in Hb as [_ ?%Z.leb_le]; done).
    assert (Hoff : off < MEM_SIZE_ALIGNED - n).
    { apply layout_app in Hl as [_ Hl]. apply Forall_app in Hr as [Hlo Hr].
      apply Forall_cons_1 in Hr as [Hbo Hr]. pose proof (layout_size _ _ _ _ _ Hbo Hr Hl) as (_ & H4 & _).
      pose proof (span_nonneg _ Hlo). pose proof (extent_pos _ Hc). unfold extent in *. hlia. }
    cbn [mem_scan]. destruct (Z.ltb_spec off (MEM_SIZE_ALIGNED - n)); [|lia].
    rewrite (hbind _ _ _ _ _ (used_run _ _ _ _ _ Hh)), (hbind _ _ _ _ _ (next_run _ _ _ _ _ Hh)).
    rewrite room_block by done.
    assert (Hc' : ((if in_use c then 1 else 0) =? 0) && (size c >=? n) = false).
    { revert Hcf. unfold fits. destruct (in_use c); simpl; [done|]. rewrite Z.geb_leb. done. }
    rewrite Hc', (hbind _ _ _ _ _ (next_run _ _ _ _ _ Hh)).
    rewrite (IH off (off + extent c) l Hr Hl Hf) by (simpl in Hfu; lia).
    simpl. do 3 f_equal. lia.
Qed.

Lemma scan_none fuel h pv off n bs :
  Forall block_ok bs -> layout (ram h) pv off bs -> 0 <= n ->
  Forall (fun c => fits n c = false) bs -> (length bs < fuel)%nat ->
  mem_scan fuel n off h = Some (None, h).
Proof.
  intros Hok Hl Hn Hf Hfu. revert pv off bs Hok Hl Hf Hfu.
  induction fuel as [|fuel IH]; intros pv off bs Hok Hl Hf Hfu; [lia|].
  cbn [mem_scan]. destruct (Z.ltb_spec off (MEM_SIZE_ALIGNED - n)) as [Hlt|]; [|done].
  destruct bs as [|c bs].
  { destruct Hl as [_ [He _]]. simpl in He. hlia. }
  apply Forall_cons_1 in Hok as [Hc Hr]. apply Forall_cons_1 in Hf as [Hcf Hf].
  pose proof (layout_size _ _ _ _ _ Hc Hr Hl) as (H0 & H1 & H2).
  apply layout_cons in Hl as [Hh Hl].
  rewrite (hbind _ _ _ _ _ (used_run _ _ _ _ _ Hh)), (hbind _ _ _ _ _ (next_run _ _ _ _ _ Hh)).
  rewrite room_block by done.
  assert (Hc' : ((if in_use c then 1 else 0) =? 0) && (size c >=? n) = false).
  { revert Hcf. unfold fits. destruct (in_use c); simpl; [done|]. rewrite Z.geb_leb. done. }
  rewrite Hc', (hbind _ _ _ _ _ (next_run _ _ _ _ _ Hh)).
  eapply IH; [done..|]. simpl in Hfu. lia.
Qed.

(** [lfree] moves up to the next free block. *)
Lemma next_free_run fuel h pv off bs :
  Forall block_ok bs -> layout (ram h) pv off bs -> lfree h = off -> (length bs < fuel)%nat ->
  next_free fuel h = Some (tt, mkHeap (ram h) (first_free off bs)).
Proof.
  intros Hok Hl. revert h pv off bs Hok Hl.
  induction fuel as [|fuel IH]; intros h pv off bs Hok Hl Hlf Hfu; [lia|].
  cbn [next_free]. unfold getm at 1. rewrite (hbind _ _ h (lfree h) h eq_refl). rewrite Hlf.
  destruct Hok as [|b bs Hb Hok].
  - destruct Hl as [_ [He [v Hv]]]. simpl in *. rewrite Z.add_0_r in *.
    rewrite (hbind _ _ _ _ _ (used_run _ _ _ _ _ Hv)). rewrite <- He, Z.eqb_refl. simpl.
    destruct h; simpl in *. by subst.
  - pose proof (layout_size _ _ _ _ _ Hb Hok Hl) as (H0 & H1 & H2).
    apply layout_cons in Hl as [Hh Hl]. rewrite (hbind _ _ _ _ _ (used_run _ _ _ _ _ Hh)).
    destruct (Z.eqb_spec off ram_end); [unfold extent in *; hlia|].
    simpl. destruct (in_use b); simpl.
    + rewrite (hbind _ _ _ _ _ (next_run _ _ _ _ _ Hh)).
      change ((set_lfree (off + extent b) ≫= fun _ => next_free fuel) h) with
        (next_free fuel (mkHeap (ram h) (off + extent b))).
      by rewrite (IH (mkHeap (ram h) (off + extent b)) off (off + extent b) bs) by (done || simpl in Hfu; lia).
    + destruct h; simpl in *. by subst.
Qed.

(** What every operation promises the owners of the other blocks. *)
Definition keeps (m m' : bytes) (bs : list block) : Prop :=
  blen m' = blen m /\ forall i, live 0 bs i = true -> rd m' i = rd m i.

Lemma live_mid l b r i :
  Forall block_ok (l ++ b :: r) -> live 0 (l ++ b :: r) i = true ->
  SIZEOF_STRUCT_MEM <= i < span l
  \/ (in_use b = true /\ span l + SIZEOF_STRUCT_MEM <= i < span l + extent b)
  \/ span l + extent b + SIZEOF_STRUCT_MEM <= i.
Proof.
  intros (Hl & Hb & Hr)%Forall_mid. rewrite live_app, Z.add_0_l. simpl.
  rewrite !orb_true_iff, !andb_true_iff, Z.leb_le, Z.ltb_lt.
  intros [H|[[[Hu H1] H2]|H]].
  - left. apply live_range in H; [hlia|done].
  - right; left. auto.
  - right; right. apply live_range in H; [hlia|done].
Qed.

(** A layout around the block after [l]. *)
Lemma layout_mid m l b r :
  Forall block_ok (l ++ b :: r) -> layout m 0 0 (l ++ b :: r) ->
  seg m 0 0 l /\ header m (span l) = Some (span l + extent b, last_off 0 0 l, if in_use b then 1 else 0)
  /\ layout m (span l) (span l + extent b) r
  /\ 0 <= span l /\ 0 <= size b /\ span l + extent b <= ram_end.
Proof.
  intros Hok (Hs & Hl)%layout_app. rewrite Z.add_0_l in Hl.
  pose proof (Forall_mid _ _ _ Hok) as (Hl' & Hb & Hr).
  pose proof (layout_size _ _ _ _ _ Hb Hr Hl) as (H0 & H1 & H2).
  apply layout_cons in Hl as [Hh Hl]. split_and!; done || lia.
Qed.

(** Linking back completes a layout with a new free block of [k] bytes. *)
Lemma insert_run h l n (u : bool) k r pv p2 :
  seg (ram h) 0 0 l -> header (ram h) (span l) = Some (p2, last_off 0 0 l, if u then 1 else 0) ->
  header (ram h) p2 = Some (p2 + SIZEOF_STRUCT_MEM + k, span l, 0) ->
  layout (ram h) pv (p2 + SIZEOF_STRUCT_MEM + k) r -> p2 = span l + SIZEOF_STRUCT_MEM + n ->
  0 <= n -> 0 <= k -> Forall block_ok l -> Forall block_ok r ->
  ram_end + SIZEOF_STRUCT_MEM <= blen (ram h) ->
  exists m, link_back p2 h = Some (tt, mkHeap m (lfree h))
    /\ layout m 0 0 (l ++ Block n u :: Block k false :: r) /\ blen m = blen (ram h)
    /\ (forall i, i < p2 + SIZEOF_STRUCT_MEM + k \/ p2 + SIZEOF_STRUCT_MEM + k + SIZEOF_STRUCT_MEM <= i ->
        rd m i = rd (ram h) i).
Proof.
  intros Hs H1 H2 Hr Hp Hn Hk Hol Hor Hlen.
  pose proof (span_nonneg l Hol). pose proof (layout_le _ _ _ _ Hor Hr).
  destruct (link_back_run h p2 _ _ pv _ r H2) as (m & E & R & B & O); [hlia|hlia|done..|].
  exists m. split; [exact E|]. split; [|done]. apply layout_app. split.
  { apply (seg_ext (ram h)); [done|done| |done]. intros i Hi. apply O. hlia. }
  rewrite Z.add_0_l. apply layout_cons. unfold extent. simpl. split.
  { rewrite (header_ext (ram h) m) by (done || (intros; apply O; hlia)).
    rewrite H1. do 3 f_equal. lia. }
  replace (span l + (SIZEOF_STRUCT_MEM + n)) with p2 by lia.
  apply layout_cons. unfold extent. simpl. rewrite Z.add_assoc. split; [|done].
  by rewrite (header_ext (ram h) m) by (done || (intros; apply O; hlia)).
Qed.

Lemma occupy_run h l b r n :
  Forall block_ok (l ++ b :: r) -> layout (ram h) 0 0 (l ++ b :: r) ->
  ram_end + SIZEOF_STRUCT_MEM <= blen (ram h) ->
  fits n b = true -> MIN_SIZE_ALIGNED <= n ->
  exists m, occupy n (span l) h = Some (tt, mkHeap m (lfree h))
    /\ layout m 0 0 (l ++ carve n b ++ r) /\ keeps (ram h) m (l ++ b :: r).
Proof.
  intros Hok Hl Hlen Hf Hn.
  pose proof (layout_mid _ _ _ _ Hok Hl) as (Hs & Hh & Hr & H0 & H1 & H2).
  pose proof (Forall_mid _ _ _ Hok) as (Hol & Hb & Hor).
  unfold fits in Hf. apply andb_true_iff in Hf as [Hu%negb_true_iff Hle%Z.leb_le].
  rewrite Hu in Hh. unfold occupy. rewrite (hbind _ _ _ _ _ (next_run _ _ _ _ _ Hh)).
  rewrite room_block by (unfold extent in *; hlia). unfold carve.
  destruct (Z.geb_spec (size b) (n + SIZEOF_STRUCT_MEM + MIN_SIZE_ALIGNED)) as [Hge|Hlt].
  - cbv zeta. rewrite u16_small by (unfold extent in *; hlia).
    set (p2 := span l + SIZEOF_STRUCT_MEM + n). set (k := size b - n - SIZEOF_STRUCT_MEM).
    assert (He : span l + extent b = p2 + SIZEOF_STRUCT_MEM + k) by (subst p2 k; unfold extent; lia).
    assert (Hp2 : p2 = span l + SIZEOF_STRUCT_MEM + n) by done.
    assert (Hk : MIN_SIZE_ALIGNED <= k) by (subst k; lia). clearbody p2 k. rewrite He in *.
    destruct (link_new_run h (span l) p2 _ _ _ Hh) as (m1 & E1 & A1 & A2 & B1 & O1); [hlia..|].
    rewrite (hbind _ _ _ _ _ E1).
    destruct (set_used_run (mkHeap m1 (lfree h)) (span l) _ _ _ 1 A1) as (m2 & E2 & W2); [simpl; hlia..|].
    simpl in W2. rewrite (hbind _ _ _ _ _ E2). pose proof W2 as [B2 A3 O2].
    destruct (insert_run (mkHeap m2 (lfree h)) l n true k r (span l) p2) as (m3 & E3 & R3 & B3 & O3);
      simpl; try done || hlia.
    + apply (seg_ext (ram h)); [done|congruence| |exact Hs]. intros i Hi. rewrite O2, O1 by hlia. done.
    + by rewrite (wrote_other _ _ _ _ _ _ _ W2) by hlia.
    + apply (layout_ext (ram h)); [done|congruence| |exact Hr]. intros i Hi. rewrite O2, O1 by hlia. done.
    + exists m3. split; [exact E3|]. split; [exact R3|]. simpl in B3, O3.
      split; [congruence|]. intros i [Hi|[[Hi _]|Hi]]%live_mid; [|congruence| |done];
        rewrite O3, O2, O1 by hlia; done.
  - destruct (set_used_run h (span l) _ _ _ 1 Hh) as (m1 & E1 & W1); [unfold extent in *; hlia..|].
    exists m1. split; [exact E1|]. pose proof W1 as [B1 A1 O1]. split.
    + apply layout_app. split; [eapply seg_wrote; [done..|lia|done]|].
      rewrite Z.add_0_l. apply layout_cons. simpl. split; [done|].
      eapply layout_wrote; [done..| |done]. unfold extent in *. simpl in *. hlia.
    + split; [done|]. intros i [Hi|[[Hi _]|Hi]]%live_mid; [|congruence| |done];
        apply O1; unfold extent in *; hlia.
Qed.

Lemma heap_fuel_enough bs : Forall block_ok bs -> span bs = ram_end -> (length bs < heap_fuel)%nat.
Proof. intros Hok Hs. pose proof (span_length bs Hok). unfold heap_fuel. hlia. Qed.
Lemma part_fuel_enough l r :
  Forall block_ok (l ++ r) -> span (l ++ r) = ram_end -> (length l < heap_fuel)%nat /\ (length r < heap_fuel)%nat.
Proof. intros Hok Hs. pose proof (heap_fuel_enough _ Hok Hs). rewrite length_app in *. lia. Qed.

Lemma getm_bind {A B} (f : heap -> A) (k : A -> HM B) h : (getm f ≫= k) h = k (f h) h.
Proof. done. Qed.

(** [lfree] after the block after [l] has been taken. *)
Lemma lfree_up h l b c r k :
  Forall block_ok (l ++ b :: r) -> in_use b = false -> c <> [] ->
  Forall block_ok (l ++ c ++ r) -> free_head c = false -> span (l ++ c ++ r) = ram_end ->
  layout (ram h) 0 0 (l ++ c ++ r) -> lfree h = first_free 0 (l ++ b :: r) ->
  (x ← getm lfree; hwhen (span l =? x) (next_free heap_fuel);; k : HM (option Z)) h
  = k (mkHeap (ram h) (first_free 0 (l ++ c ++ r))).
Proof.
  intros Hok Hu Hne Hok' Hc Hspan Hl Hlf. rewrite getm_bind.
  pose proof Hok as (Hol & Hob & Hor)%Forall_mid.
  destruct (all_used l) eqn:Ea.
  - rewrite Hlf, first_free_used by done. cbn [first_free].
    rewrite Hu, Z.add_0_l, Z.eqb_refl. cbn [hwhen].
    apply layout_app in Hl as [_ Hl]. rewrite Z.add_0_l in Hl.
    pose proof (proj1 (Forall_app _ _ _) Hok') as [_ Hocr].
    rewrite (hbind _ _ _ tt (mkHeap (ram h) (first_free (span l) (c ++ r)))).
    + by rewrite (first_free_used 0 l (c ++ r) Ea).
    + eapply next_free_run; [exact Hocr|exact Hl| |].
      * rewrite Hlf, first_free_used by done. simpl. by rewrite Hu.
      * by apply (part_fuel_enough l (c ++ r)).
  - pose proof (first_free_below 0 l (b :: r) Hol Ea). rewrite <- Hlf in H.
    destruct (Z.eqb_spec (span l) (lfree h)); [lia|]. simpl.
    rewrite (first_free_lower 0 l (b :: r) (c ++ r) Ea) in Hlf. rewrite <- Hlf. by destruct h.
Qed.

Lemma mem_take_run h l b r n :
  heap_ok h (l ++ b :: r) -> fits n b = true -> MIN_SIZE_ALIGNED <= n -> (4 | n) ->
  exists h', mem_take n (span l) h = Some (Some (span l + SIZEOF_STRUCT_MEM), h')
    /\ heap_ok h' (l ++ carve n b ++ r) /\ keeps (ram h) (ram h') (l ++ b :: r).
Proof.
  intros [Hl Hb Hlf Hlen] Hf Hn H4. pose proof Hb as (Hok & _ & _).
  destruct (occupy_run h l b r n Hok Hl Hlen Hf Hn) as (m & E & Hl' & Hk).
  pose proof (alloc_ok n l b r Hn H4 Hf Hb) as Hb'. pose proof Hb' as (Hok' & _ & Hs').
  exists (mkHeap m (first_free 0 (l ++ carve n b ++ r))). split.
  - unfold mem_take. rewrite (hbind _ _ _ _ _ E).
    rewrite (lfree_up (mkHeap m (lfree h)) l b (carve n b) r _ Hok); try done.
    + unfold fits in Hf. apply andb_true_iff in Hf as [?%negb_true_iff _]. done.
    + unfold carve. by destruct (_ >=? _).
    + unfold carve. by destruct (_ >=? _).
  - split; [|done]. split; simpl; [done..|]. destruct Hk as [-> _]. done.
Qed.

Lemma mem_find_run h bs n :
  heap_ok h bs -> 0 <= n ->
  (Forall (fun c => fits n c = false) bs -> mem_find n h = Some (None, h))
  /\ forall l b r, bs = l ++ b :: r -> Forall (fun c => fits n c = false) l -> fits n b = true ->
     mem_find n h = Some (Some (span l), h).
Proof.
  intros [Hl (Hok & Ha & Hs) Hlf Hlen] Hn.
  destruct (first_free_split 0 bs) as (u & f & Hbs & Hu & Hff & _).
  unfold mem_find. rewrite getm_bind, Hlf, Hff. subst bs.
  pose proof (part_fuel_enough u f Hok Hs) as [_ Hfuel].
  apply layout_app in Hl as [_ Hl]. apply Forall_app in Hok as [Hoku Hokf]. split.
  - intros [_ Hno]%Forall_app. by eapply scan_none.
  - intros l b r Heq Hfl Hb.
    (* the block lies beyond the blocks in use at the bottom *)
    assert (Hx : exists l', l = u ++ l' /\ f = l' ++ b :: r).
    { apply app_eq_inv in Heq as [(k & -> & Hk)|(k & -> & Hk)].
      - destruct k as [|c k]; simpl in *; [exists []; by rewrite !app_nil_r|].
        injection Hk as <- _. exfalso. unfold all_used in Hu. rewrite forallb_app in Hu. simpl in Hu.
        unfold fits in Hb. destruct (in_use b); simpl in *; [done|]. by rewrite andb_false_r in Hu.
      - eauto. }
    destruct Hx as (l' & -> & ->). apply Forall_app in Hfl as [_ Hfl].
    rewrite (scan_found heap_fuel h _ _ n l' b r Hokf Hl Hfl Hb).
    + rewrite span_app. do 3 f_equal.
    + rewrite length_app in Hfuel. lia.
Qed.

(** The number of bytes a request takes. *)
Lemma align_divide z : (4 | LWIP_MEM_ALIGN_SIZE z).
Proof.
  unfold LWIP_MEM_ALIGN_SIZE, MEM_ALIGNMENT. change (Z.lnot (4 - 1)) with (Z.lnot (Z.ones 2)).
  rewrite <- Z.ldiff_land, Z.ldiff_ones_r by lia. rewrite Z.shiftl_mul_pow2 by lia.
  eexists. reflexivity.
Qed.
Lemma align_bounds z : z <= LWIP_MEM_ALIGN_SIZE z <= z + 3.
Proof.
  unfold LWIP_MEM_ALIGN_SIZE, MEM_ALIGNMENT. change (Z.lnot (4 - 1)) with (Z.lnot (Z.ones 2)).
  rewrite <- Z.ldiff_land, Z.ldiff_ones_r by lia.
  rewrite Z.shiftl_mul_pow2, Z.shiftr_div_pow2 by lia. change (2 ^ 2) with 4.
  pose proof (Z.div_mod (z + 4 - 1) 4). pose proof (Z.mod_pos_bound (z + 4 - 1) 4). lia.
Qed.
Lemma u16_divide z : (4 | z) -> (4 | u16 z).
Proof.
  intros H. unfold u16. rewrite Z.mod_eq by lia. apply Z.divide_sub_r; [done|].
  apply Z.divide_mul_l. by exists 16384.
Qed.
Lemma request_ok n : MIN_SIZE_ALIGNED <= request n /\ (4 | request n).
Proof.
  unfold request. pose proof (u16_divide _ (align_divide n)).
  destruct (Z.ltb_spec (u16 (LWIP_MEM_ALIGN_SIZE n)) MIN_SIZE_ALIGNED); [|done].
  split; [done|by exists 3].
Qed.
Lemma request_small n : 0 <= n < 65533 -> n <= request n.
Proof.
  intros H. unfold request. pose proof (align_bounds n). rewrite u16_small by lia.
  destruct (Z.ltb_spec (LWIP_MEM_ALIGN_SIZE n) MIN_SIZE_ALIGNED); lia.
Qed.

(** [mem_malloc] on the list of blocks. *)
Definition spec_malloc (n : Z) (bs : list block) : option (Z * list block) :=
  if (n =? 0) || (request n >? MEM_SIZE_ALIGNED) then None else alloc 0 (request n) bs.

(** The operations that refine one another: the result and the new list. *)
Definition malloc_result (h h' : heap) (bs : list block) (r : option Z) (a : option (Z * list block)) : Prop :=
  match a with
  | Some (p, bs') => r = Some p /\ heap_ok h' bs' /\ keeps (ram h) (ram h') bs
  | None => r = None /\ h' = h
  end.

Lemma malloc_run n h bs :
  heap_ok h bs -> exists r h', mem_malloc n h = Some (r, h') /\ malloc_result h h' bs r (spec_malloc n bs).
Proof.
  intros Hok. unfold mem_malloc, spec_malloc. destruct (n =? 0); cbn [orb]; [by eexists _, h|].
  destruct (request_ok n) as [Hn H4]. set (q := request n) in *.
  destruct (q >? MEM_SIZE_ALIGNED); [by eexists _, h|].
  destruct (mem_find_run h bs q Hok ltac:(hlia)) as [Hno Hyes].
  destruct (alloc_cases 0 q bs) as [[Hf ->]|(l & b & r & -> & Hf & Hb & ->)].
  - rewrite (hbind _ _ _ _ _ (Hno Hf)). eexists _, _. split; [reflexivity|done].
  - rewrite (hbind _ _ _ _ _ (Hyes l b r eq_refl Hf Hb)).
    destruct (mem_take_run h l b r q Hok Hb Hn H4) as (h' & E & Hok' & Hk).
    eexists _, h'. split; [exact E|]. simpl. done.
Qed.

(** ** Release *)

Definition joined (a g : block) : block := Block (size a + extent g) false.

Lemma joined_extent a g : extent (joined a g) = extent a + extent g.
Proof. unfold joined, extent. simpl. lia. Qed.
Lemma joined_ok a g : block_ok a -> block_ok g -> block_ok (joined a g).
Proof.
  intros [Ha Da] [Hg Dg]. unfold block_ok, joined, extent. simpl. split; [hlia|].
  apply Z.divide_add_r; [done|]. apply Z.divide_add_r; [by exists 2|done].
Qed.

Lemma live_mid2 l a g s i :
  Forall block_ok (l ++ a :: g :: s) -> in_use a = false -> in_use g = false ->
  live 0 (l ++ a :: g :: s) i = true ->
  SIZEOF_STRUCT_MEM <= i < span l \/ span l + extent a + extent g + SIZEOF_STRUCT_MEM <= i.
Proof.
  intros Hok Ha Hg Hi. pose proof (Forall_mid _ _ _ Hok) as (_ & Hoa & [Hog _]%Forall_cons_1).
  pose proof (extent_pos a Hoa). pose proof (extent_pos g Hog). pose proof (live_mid l a (g :: s) i Hok Hi) as H1.
  replace (l ++ a :: g :: s) with ((l ++ [a]) ++ g :: s) in * by (by rewrite <- app_assoc).
  pose proof (live_mid _ _ _ i Hok Hi) as H2. rewrite span_app in H2. simpl in H2.
  destruct H1 as [?|[[? _]|?]], H2 as [?|[[? _]|?]]; try congruence; hlia.
Qed.

Lemma absorb_run h l a g s :
  Forall block_ok (l ++ a :: g :: s) -> layout (ram h) 0 0 (l ++ a :: g :: s) ->
  ram_end + SIZEOF_STRUCT_MEM <= blen (ram h) -> in_use a = false -> in_use g = false ->
  exists m, absorb (span l) (span l + extent a) h = Some (tt, mkHeap m (lfree h))
    /\ layout m 0 0 (l ++ joined a g :: s) /\ keeps (ram h) m (l ++ a :: g :: s).
Proof.
  intros Hok Hl Hlen Ha Hg.
  pose proof (layout_mid _ _ _ _ Hok Hl) as (Hs & Hh & Hr & H0 & H1 & H2).
  pose proof (Forall_mid _ _ _ Hok) as (Hol & Hoa & Hor).
  apply Forall_cons_1 in Hor as [Hog Hos]. rewrite Ha in Hh.
  pose proof (layout_size _ _ _ _ _ Hog Hos Hr) as (_ & H3 & H4).
  apply layout_cons in Hr as [Hhg Hr]. rewrite Hg in Hhg.
  pose proof (extent_pos a Hoa). pose proof (extent_pos g Hog).
  unfold absorb. rewrite (hbind _ _ _ _ _ (next_run _ _ _ _ _ Hhg)).
  destruct (set_next_run h (span l) _ _ _ (span l + extent a + extent g) Hh) as (m1 & E1 & W1); [hlia..|].
  rewrite (hbind _ _ _ _ _ E1). pose proof W1 as [B1 A1 O1].
  assert (Hhg1 : header m1 (span l + extent a) = Some (span l + extent a + extent g, span l, 0))
    by (rewrite (wrote_other _ _ _ _ _ _ _ W1) by hlia; done).
  rewrite (hbind _ _ _ _ _ (next_run (mkHeap m1 (lfree h)) _ _ _ _ Hhg1)).
  destruct (relink_always (mkHeap m1 (lfree h)) (span l + extent a) (span l + extent a + extent g) s (span l))
    as (m2 & E2 & R2 & B2 & O2); [done| | |hlia|].
  { eapply layout_wrote; [done..| |done]. hlia. }
  { simpl. hlia. }
  simpl in *. exists m2. split; [exact E2|]. split.
  - apply layout_app. split.
    + apply (seg_ext (ram h)); [done|congruence| |exact Hs]. intros i Hi. rewrite O2, O1 by hlia. done.
    + rewrite Z.add_0_l. apply layout_cons. rewrite joined_extent, Z.add_assoc. split; [|done].
      rewrite (header_ext m1 m2) by (done || (intros; apply O2; hlia)). done.
  - split; [congruence|]. intros i Hi. apply (live_mid2 _ _ _ _ _ Hok Ha Hg) in Hi.
    rewrite O2, O1 by hlia. done.
Qed.

(** A free block joins the free block after it, and the one before it. *)
Definition join_next (f : block) (r : list block) : list block :=
  match r with c :: r' => if in_use c then f :: r else joined f c :: r' | [] => [f] end.
Fixpoint join_prev (l : list block) (g : block) : list block :=
  match l with
  | [] => [g]
  | c :: l' => match l' with
               | [] => if in_use c then [c; g] else [joined c g]
               | _ => c :: join_prev l' g
               end
  end.

Lemma forward_run h l f r :
  Forall block_ok (l ++ f :: r) -> layout (ram h) 0 0 (l ++ f :: r) ->
  ram_end + SIZEOF_STRUCT_MEM <= blen (ram h) -> in_use f = false -> lfree h <= span l ->
  exists m, plug_forward (span l) h = Some (tt, mkHeap m (lfree h))
    /\ layout m 0 0 (l ++ join_next f r) /\ keeps (ram h) m (l ++ f :: r).
Proof.
  intros Hok Hl Hlen Hf Hlf. pose proof (layout_mid _ _ _ _ Hok Hl) as (_ & Hh & Hr & H0 & H1 & H2).
  pose proof (Forall_mid _ _ _ Hok) as (_ & Hof & Hor). pose proof (extent_pos f Hof).
  unfold plug_forward. rewrite (hbind _ _ _ _ _ (next_run _ _ _ _ _ Hh)).
  destruct r as [|c r]; cbn [join_next].
  - destruct Hr as [_ [He [v Hv]]]. simpl in He, Hv. rewrite Z.add_0_r in *.
    rewrite (hbind _ _ _ _ _ (used_run _ _ _ _ _ Hv)).
    replace (1 =? 0) with false by done. rewrite andb_false_r. simpl.
    exists (ram h). split; [by destruct h|]. done.
  - apply layout_cons in Hr as [Hhc _]. rewrite (hbind _ _ _ _ _ (used_run _ _ _ _ _ Hhc)).
    apply Forall_cons_1 in Hor as [Hoc Hor]. pose proof (extent_pos c Hoc).
    destruct (in_use c) eqn:Ec.
    + rewrite andb_false_r. simpl. exists (ram h). split; [by destruct h|]. done.
    + pose proof (layout_mid (ram h) (l ++ [f]) c r) as Hm. rewrite <- app_assoc, span_app in Hm. simpl in Hm.
      destruct (Hm Hok Hl) as (_ & _ & _ & _ & _ & Hend).
      destruct (Z.eqb_spec (span l) (span l + extent f)); [hlia|].
      destruct (Z.eqb_spec (span l + extent f) ram_end); [hlia|]. cbn [negb andb Z.eqb hwhen].
      rewrite getm_bind. destruct (Z.eqb_spec (lfree h) (span l + extent f)); [hlia|].
      cbn [hwhen]. by apply absorb_run.
Qed.

Lemma join_prev_snoc l c g :
  join_prev (l ++ [c]) g = l ++ if in_use c then [c; g] else [joined c g].
Proof.
  induction l as [|b l IH]; [done|]. cbn [app join_prev]. rewrite IH.
  destruct (l ++ [c]) eqn:E; [|done]. by destruct l.
Qed.

Lemma backward_run h l g s :
  Forall block_ok (l ++ g :: s) -> layout (ram h) 0 0 (l ++ g :: s) ->
  ram_end + SIZEOF_STRUCT_MEM <= blen (ram h) -> in_use g = false ->
  lfree h = first_free 0 (l ++ g :: s) ->
  exists m, plug_backward (span l) h = Some (tt, mkHeap m (lfree h))
    /\ layout m 0 0 (join_prev l g ++ s) /\ keeps (ram h) m (l ++ g :: s).
Proof.
  intros Hok Hl Hlen Hg Hlf. pose proof (layout_mid _ _ _ _ Hok Hl) as (Hs & Hh & Hr & H0 & H1 & H2).
  unfold plug_backward. rewrite (hbind _ _ _ _ _ (prev_run _ _ _ _ _ Hh)).
  destruct l as [|c l _] using rev_ind.
  - simpl in *. rewrite Hg in Hh. rewrite (hbind _ _ _ _ _ (used_run _ _ _ _ _ Hh)). simpl.
    exists (ram h). split; [by destruct h|]. done.
  - rewrite last_off_app, Z.add_0_l, join_prev_snoc.
    rewrite <- app_assoc in *. simpl app in *.
    pose proof (Forall_mid _ _ _ Hok) as (Hol & Hoc & Hogs). pose proof (extent_pos c Hoc).
    pose proof (layout_mid _ _ _ _ Hok Hl) as (_ & Hhc & _ & H4 & _).
    rewrite (hbind _ _ _ _ _ (used_run _ _ _ _ _ Hhc)). rewrite span_app. simpl. rewrite Z.add_0_r.
    destruct (Z.eqb_spec (span l) (span l + extent c)); [hlia|]. simpl.
    destruct (in_use c) eqn:Ec; simpl.
    + exists (ram h). split; [by destruct h|]. rewrite <- app_assoc. done.
    + rewrite getm_bind. destruct (Z.eqb_spec (lfree h) (span l + extent c)) as [Heq|_].
      { exfalso. destruct (all_used l) eqn:Ea.
        - rewrite first_free_used in Hlf by done. simpl in Hlf. rewrite Ec in Hlf. hlia.
        - pose proof (first_free_below 0 l (c :: g :: s) Hol Ea). hlia. }
      cbn [hwhen]. rewrite <- app_assoc. by apply absorb_run.
Qed.

(** The merged list of blocks. *)
Lemma coalesce_id bs : no_adj bs -> coalesce bs = bs.
Proof.
  induction bs as [|b bs IH]; [done|]. simpl. intros [Hb Hn]. rewrite (IH Hn).
  destruct bs as [|c bs]; [done|]. simpl in Hb. destruct (in_use b), (in_use c); simpl; [done..|].
  by destruct Hb.
Qed.
Lemma coalesce_next f r : in_use f = false -> no_adj r -> coalesce (f :: r) = join_next f r.
Proof.
  intros Hf Hr. simpl. rewrite coalesce_id by done. destruct r as [|c r]; [done|]. rewrite Hf.
  simpl. unfold joined. by destruct (in_use c).
Qed.
Lemma coalesce_used l g s :
  no_adj l -> free_tail l = false -> coalesce (l ++ g :: s) = l ++ coalesce (g :: s).
Proof.
  induction l as [|b l IH]; [done|]. cbn [app]. intros [Hb Hn] Ht.
  change (coalesce (b :: l ++ g :: s)) with
    (match coalesce (l ++ g :: s) with
     | c :: r => if negb (in_use b) && negb (in_use c) then Block (size b + extent c) false :: r else b :: c :: r
     | [] => [b] end).
  destruct l as [|c l].
  - simpl in Ht. apply negb_false_iff in Ht. cbn [app].
    destruct (coalesce (g :: s)) as [|d r]; [done|]. by rewrite Ht.
  - rewrite IH by done. cbn [app]. simpl in Hb. destruct (in_use b), (in_use c); simpl; try done.
    by destruct Hb.
Qed.
Lemma coalesce_mid l f r :
  in_use f = false -> no_adj l -> no_adj r ->
  coalesce (l ++ f :: r) = match join_next f r with g :: s => join_prev l g ++ s | [] => [] end.
Proof.
  intros Hf Hl Hr. destruct l as [|c l _] using rev_ind.
  - simpl app. rewrite coalesce_next by done. by destruct (join_next f r).
  - assert (Hj : exists g s, join_next f r = g :: s /\ in_use g = false).
    { destruct r as [|d r]; simpl; [eauto|]. destruct (in_use d); eauto. }
    destruct Hj as (g & s & Hj & Hg). rewrite Hj, join_prev_snoc.
    apply no_adj_app in Hl as (Hl & _ & Hx). destruct (in_use c) eqn:Ec.
    + rewrite coalesce_used.
      * rewrite coalesce_next, Hj by done. by rewrite <- !app_assoc.
      * apply no_adj_app. split; [done|]. simpl. rewrite Ec. auto.
      * by rewrite free_tail_snoc, Ec.
    + simpl in Hx. rewrite Ec in Hx. destruct Hx as [Hx|?]; [|done].
      rewrite <- app_assoc. cbn [app]. rewrite coalesce_used by done.
      change (coalesce (c :: f :: r)) with
        (match coalesce (f :: r) with
         | d :: q => if negb (in_use c) && negb (in_use d) then Block (size c + extent d) false :: q else c :: d :: q
         | [] => [c] end).
      rewrite coalesce_next, Hj by done. rewrite Ec, Hg. simpl. by rewrite <- app_assoc.
Qed.

Lemma coalesce_ok bs : Forall block_ok bs -> Forall block_ok (coalesce bs).
Proof.
  induction 1 as [|b bs Hb _ IH]; simpl; [done|]. destruct (coalesce bs) as [|c r].
  - by constructor.
  - apply Forall_cons_1 in IH as [Hc Hr].
    destruct (negb (in_use b) && negb (in_use c)); [|by apply Forall_cons_2, Forall_cons_2].
    constructor; [exact (joined_ok b c Hb Hc)|done].
Qed.
Lemma coalesce_no_adj bs : no_adj (coalesce bs).
Proof.
  induction bs as [|b bs IH]; simpl; [done|]. destruct (coalesce bs) as [|c r]; simpl in *; [auto|].
  destruct IH as [Hc Hr]. destruct (in_use b) eqn:Eb, (in_use c) eqn:Ec; simpl; rewrite ?Eb, ?Ec; auto.
Qed.
Lemma coalesce_span bs : span (coalesce bs) = span bs.
Proof.
  induction bs as [|b bs IH]; simpl; [done|]. rewrite <- IH.
  destruct (coalesce bs) as [|c r]; simpl; [done|].
  destruct (negb (in_use b) && negb (in_use c)); simpl; [|done]. unfold extent. simpl. lia.
Qed.
Lemma coalesce_first_free off bs : first_free off (coalesce bs) = first_free off bs.
Proof.
  revert off. induction bs as [|b bs IH]; intros off; simpl; [done|]. rewrite <- IH.
  destruct (coalesce bs) as [|c r]; simpl; [done|].
  destruct (in_use b) eqn:Eb, (in_use c) eqn:Ec; simpl; rewrite ?Eb, ?Ec; done.
Qed.

(** Finding the block with its data at [p]. *)
Lemma owned_split off p bs n :
  owned off p bs = Some n ->
  exists l b r, bs = l ++ b :: r /\ p = off + span l + SIZEOF_STRUCT_MEM /\ in_use b = true /\ size b = n
    /\ mark off p bs = l ++ Block n false :: r /\ forall k, shrink off p k bs = l ++ cut k b r.
Proof.
  revert off. induction bs as [|b bs IH]; intros off; simpl; [done|].
  destruct (Z.eqb_spec (off + SIZEOF_STRUCT_MEM) p) as [<-|Hne].
  - destruct (in_use b) eqn:Eb; [|done]. intros [= <-]. exists [], b, bs. simpl.
    split_and!; done || lia.
  - intros (l & c & r & -> & -> & Hc & Hn & Hm & Hsh)%IH. exists (b :: l), c, r. simpl.
    split_and!; [done|lia|done|done|by rewrite Hm|]. intros k. by rewrite Hsh.
Qed.

Lemma keeps_trans m m1 m2 bs cs :
  keeps m m1 bs -> keeps m1 m2 cs -> (forall i, live 0 bs i = true -> live 0 cs i = true) -> keeps m m2 bs.
Proof.
  intros [L1 H1] [L2 H2] Hs. split; [congruence|]. intros i Hi. rewrite H2 by auto. auto.
Qed.

(** The block after [l] becomes free. *)
Lemma unused_run h l b r :
  Forall block_ok (l ++ b :: r) -> layout (ram h) 0 0 (l ++ b :: r) ->
  ram_end + SIZEOF_STRUCT_MEM <= blen (ram h) ->
  exists m, set_used (span l) 0 h = Some (tt, mkHeap m (lfree h))
    /\ layout m 0 0 (l ++ Block (size b) false :: r) /\ keeps (ram h) m (l ++ Block (size b) false :: r).
Proof.
  intros Hok Hl Hlen. pose proof (layout_mid _ _ _ _ Hok Hl) as (Hs & Hh & Hr & H0 & H1 & H2).
  pose proof (Forall_mid _ _ _ Hok) as (Hol & Hb & Hor). pose proof (extent_pos b Hb).
  destruct (set_used_run h (span l) _ _ _ 0 Hh) as (m & E & W); [hlia..|].
  exists m. split; [exact E|]. pose proof W as [B A O]. split.
  - apply layout_app. split; [eapply seg_wrote; [done..|lia|done]|].
    rewrite Z.add_0_l. apply layout_cons. split; [done|].
    change (extent (Block (size b) false)) with (extent b). eapply layout_wrote; [done..| |exact Hr]. hlia.
  - split; [done|]. intros i [Hi|[[Hi _]|Hi]]%live_mid.
    + apply O. hlia.
    + done.
    + apply O. unfold extent in *. simpl in *. hlia.
    + rewrite Forall_app. split; [done|]. by constructor.
Qed.

Lemma live_joined l f r i :
  in_use f = false -> live 0 (l ++ f :: r) i = live 0 (l ++ join_next f r) i.
Proof.
  intros Hf. rewrite !live_app. f_equal. destruct r as [|c r]; [done|]. simpl.
  destruct (in_use c) eqn:Ec; cbn [live]; [by rewrite Ec|]. rewrite Hf, joined_extent. cbn [andb orb in_use joined]. by rewrite Z.add_assoc.
Qed.

Lemma plug_run h l f r :
  Forall block_ok (l ++ f :: r) -> layout (ram h) 0 0 (l ++ f :: r) ->
  ram_end + SIZEOF_STRUCT_MEM <= blen (ram h) -> in_use f = false -> no_adj l -> no_adj r ->
  lfree h = first_free 0 (l ++ f :: r) ->
  exists m, plug_holes (span l) h = Some (tt, mkHeap m (lfree h))
    /\ layout m 0 0 (coalesce (l ++ f :: r)) /\ keeps (ram h) m (l ++ f :: r).
Proof.
  intros Hok Hl Hlen Hf Hnl Hnr Hlf. pose proof (Forall_mid _ _ _ Hok) as (Hol & Hof & Hor).
  assert (Hle : lfree h <= span l).
  { rewrite Hlf. destruct (all_used l) eqn:Ea.
    - rewrite first_free_used by done. simpl. rewrite Hf. lia.
    - pose proof (first_free_below 0 l (f :: r) Hol Ea). lia. }
  unfold plug_holes. destruct (forward_run h l f r Hok Hl Hlen Hf Hle) as (m1 & E1 & L1 & K1).
  rewrite (hbind _ _ _ _ _ E1), coalesce_mid by done.
  assert (Hj : exists g s, join_next f r = g :: s /\ in_use g = false /\ Forall block_ok (g :: s)).
  { destruct r as [|d r]; simpl; [by exists f, []; split_and!; [..|apply Forall_cons_2]|].
    destruct (in_use d); [by eexists f, (d :: r); split_and!; [..|apply Forall_cons_2]|].
    apply Forall_cons_1 in Hor as [Hod Hor]. eexists (joined f d), r. split_and!; [done|done|].
    apply Forall_cons_2; [by apply joined_ok|done]. }
  destruct Hj as (g & s & Hj & Hg & Hogs).
  assert (Hlf1 : lfree (mkHeap m1 (lfree h)) = first_free 0 (l ++ g :: s)).
  { rewrite <- Hj, <- (coalesce_next f r Hf Hnr). cbn [lfree]. rewrite Hlf.
    destruct (all_used l) eqn:Ea; [|by apply first_free_lower].
    rewrite !first_free_used by done. by rewrite coalesce_first_free. }
  rewrite Hj in *.
  destruct (backward_run (mkHeap m1 (lfree h)) l g s) as (m2 & E2 & L2 & K2); try done.
  { by apply Forall_app. }
  { simpl. destruct K1 as [-> _]. done. }
  exists m2. split; [exact E2|]. split; [exact L2|].
  eapply keeps_trans; [exact K1|exact K2|]. intros i. by rewrite (live_joined l f r i Hf), Hj.
Qed.

Lemma free_run h bs p n :
  heap_ok h bs -> owned 0 p bs = Some n ->
  exists h', mem_free (Some p) h = Some (tt, h') /\ heap_ok h' (release p bs)
    /\ keeps (ram h) (ram h') (mark 0 p bs).
Proof.
  intros [Hl (Hok & Ha & Hs) Hlf Hlen] (l & b & r & -> & -> & Hb & <- & Hm & _)%owned_split.
  rewrite Z.add_0_l in *. pose proof (layout_mid _ _ _ _ Hok Hl) as (_ & _ & _ & H0 & H1 & H2).
  pose proof (Forall_mid _ _ _ Hok) as (Hol & Hob & Hor). pose proof (extent_pos b Hob).
  unfold release. rewrite Hm. set (f := Block (size b) false).
  apply no_adj_app in Ha as (Hnl & [_ Hnr] & _).
  assert (Hok' : Forall block_ok (l ++ f :: r)) by (apply Forall_app; split; [done|by constructor]).
  unfold mem_free. destruct (Z.ltb_spec (span l + SIZEOF_STRUCT_MEM) 0); [hlia|].
  destruct (Z.geb_spec (span l + SIZEOF_STRUCT_MEM) ram_end); [hlia|]. cbn [orb].
  replace (span l + SIZEOF_STRUCT_MEM - SIZEOF_STRUCT_MEM) with (span l) by lia. cbv zeta.
  destruct (unused_run h l b r Hok Hl Hlen) as (m1 & E1 & L1 & K1). fold f in L1, K1.
  rewrite (hbind _ _ _ _ _ E1), getm_bind.
  assert (E2 : hwhen (span l <? lfree (mkHeap m1 (lfree h))) (set_lfree (span l)) (mkHeap m1 (lfree h))
               = Some (tt, mkHeap m1 (first_free 0 (l ++ f :: r)))).
  { simpl. rewrite Hlf. destruct (all_used l) eqn:Ea.
    - rewrite !first_free_used by done. simpl. rewrite Hb, Z.add_0_l.
      pose proof (first_free_le (span l + extent b) r Hor).
      destruct (Z.ltb_spec (span l) (first_free (span l + extent b) r)); [done|hlia].
    - pose proof (first_free_below 0 l (b :: r) Hol Ea).
      destruct (Z.ltb_spec (span l) (first_free 0 (l ++ b :: r))); [lia|].
      by rewrite (first_free_lower 0 l (b :: r) (f :: r) Ea). }
  rewrite (hbind _ _ _ _ _ E2).
  destruct (plug_run (mkHeap m1 (first_free 0 (l ++ f :: r))) l f r) as (m2 & E3 & L3 & K3); try done.
  { simpl. destruct K1 as [-> _]. done. }
  exists (mkHeap m2 (first_free 0 (l ++ f :: r))). split; [exact E3|]. split; [split; simpl|].
  - done.
  - split_and!; [by apply coalesce_ok|apply coalesce_no_adj|].
    rewrite coalesce_span. rewrite span_app in *. simpl in *. done.
  - by rewrite coalesce_first_free.
  - simpl in K3. destruct K3 as [-> _], K1 as [-> _]. done.
  - eapply keeps_trans; [exact K1|exact K3|done].
Qed.

(** ** Shrinking *)

Definition spec_realloc (p n : Z) (bs : list block) : option Z * list block :=
  let q := request n in
  match owned 0 p bs with
  | Some s => if q >? s then (None, bs) else if q =? s then (Some p, bs) else (Some p, shrink 0 p q bs)
  | None => (None, bs)
  end.

(** Bytes of a block that keeps [n] of them, with a free block after it. *)
Lemma live_cut l n k r i :
  Forall block_ok (l ++ Block n true :: Block k false :: r) ->
  live 0 (l ++ Block n true :: Block k false :: r) i = true ->
  i < span l \/ span l + SIZEOF_STRUCT_MEM <= i < span l + SIZEOF_STRUCT_MEM + n
  \/ span l + SIZEOF_STRUCT_MEM + n + SIZEOF_STRUCT_MEM + k + SIZEOF_STRUCT_MEM <= i.
Proof.
  intros Hok Hi. pose proof (live_mid l _ _ i Hok Hi) as H1.
  replace (l ++ Block n true :: Block k false :: r) with ((l ++ [Block n true]) ++ Block k false :: r) in *
    by (by rewrite <- app_assoc).
  pose proof (live_mid _ _ _ i Hok Hi) as H2. rewrite span_app in H2. simpl in *. unfold extent in *. simpl in *.
  destruct H1 as [?|[[_ ?]|?]], H2 as [?|[[? _]|?]]; try congruence; hlia.
Qed.

Lemma cut_ok l b r n :
  MIN_SIZE_ALIGNED <= n < size b -> (4 | n) -> in_use b = true ->
  blocks_ok (l ++ b :: r) -> blocks_ok (l ++ cut n b r).
Proof.
  intros Hn H4 Hb (Hok & Ha & Hs). pose proof (Forall_mid _ _ _ Hok) as (Hol & Hob & Hor).
  apply no_adj_app in Ha as (Hal & [_ Har] & _). rewrite span_app in Hs.
  assert (Hc : Forall block_ok (cut n b r) /\ no_adj (cut n b r) /\ span (cut n b r) = span (b :: r)
               /\ free_head (cut n b r) = false).
  { pose proof (carve_ok n b (proj1 Hn) H4 Hob ltac:(lia)) as Hcv. pose proof (carve_span n b) as Hsv.
    destruct r as [|c r]; simpl cut.
    - rewrite Hsv. unfold carve in *. destruct (_ >=? _); simpl; split_and!; auto; lia.
    - destruct (in_use c) eqn:Ec; simpl negb; cbv iota.
      + split_and!.
        * by apply Forall_app.
        * unfold carve. destruct (_ >=? _); simpl in *; rewrite ?Ec; simpl; intuition auto.
        * rewrite span_app, Hsv. done.
        * unfold carve. by destruct (_ >=? _).
      + apply Forall_cons_1 in Hor as [Hoc Hor]. destruct Hob as [Hb1 Hb2], Hoc as [Hc1 Hc2]. split_and!.
        * apply Forall_cons_2; [split; simpl; [lia|done]|]. apply Forall_cons_2; [split; simpl|done]; [hlia|].
          apply Z.divide_add_r; [done|by apply Z.divide_sub_r].
        * simpl in *. rewrite Ec in Har. intuition auto.
        * simpl. unfold extent. simpl. lia.
        * done. }
  destruct Hc as (C1 & C2 & C3 & C4). split_and!.
  - by apply Forall_app.
  - apply no_adj_app. auto.
  - rewrite span_app, C3. done.
Qed.

Lemma resize_free_run h l b c r n :
  heap_ok h (l ++ b :: c :: r) -> in_use b = true -> in_use c = false ->
  MIN_SIZE_ALIGNED <= n < size b -> (4 | n) ->
  let bs' := l ++ Block n true :: Block (size c + (size b - n)) false :: r in
  exists m, resize (span l) n (size b) h = Some (tt, mkHeap m (first_free 0 bs'))
    /\ layout m 0 0 bs' /\ keeps (ram h) m bs'.
Proof.
  intros [Hl (Hok & Ha & Hsp) Hlf Hlen] Hb Hc Hn H4 bs'.
  assert (Hok' : Forall block_ok bs').
  { pose proof (cut_ok l b (c :: r) n Hn H4 Hb (conj Hok (conj Ha Hsp))) as (Hc' & _ & _).
    unfold cut in Hc'. rewrite Hc in Hc'. exact Hc'. }
  pose proof (layout_mid _ _ _ _ Hok Hl) as (Hs & Hh & Hr & H0 & H1 & H2).
  pose proof (Forall_mid _ _ _ Hok) as (Hol & Hob & Hor). apply Forall_cons_1 in Hor as [Hoc Hor].
  pose proof (layout_size _ _ _ _ _ Hoc Hor Hr) as (_ & H3 & H5).
  apply layout_cons in Hr as [Hhc Hr]. rewrite Hb in Hh. rewrite Hc in Hhc.
  unfold resize. rewrite (hbind _ _ _ _ _ (next_run _ _ _ _ _ Hh)).
  rewrite (hbind _ _ _ _ _ (used_run _ _ _ _ _ Hhc)). cbn [Z.eqb].
  rewrite (hbind _ _ _ _ _ (next_run _ _ _ _ _ Hhc)). cbv zeta.
  rewrite (u16_small (span l)) by (unfold extent in *; hlia).
  rewrite (u16_small (span l + _ + n)) by (unfold extent in *; hlia).
  set (p2 := span l + SIZEOF_STRUCT_MEM + n).
  assert (E0 : hwhen (lfree h =? span l + extent b) (set_lfree p2) h
               = Some (tt, mkHeap (ram h) (first_free 0 bs'))).
  { subst bs'. rewrite Hlf. destruct (all_used l) eqn:Ea.
    - rewrite !first_free_used by done. simpl. rewrite Hb, Hc. rewrite Z.eqb_refl. simpl.
      unfold set_lfree. do 3 f_equal. subst p2. unfold extent. simpl. lia.
    - pose proof (first_free_below 0 l (b :: c :: r) Hol Ea).
      pose proof (extent_pos b Hob). destruct (Z.eqb_spec (first_free 0 (l ++ b :: c :: r)) (span l + extent b)); [hlia|].
      simpl. rewrite (first_free_lower 0 l _ (b :: c :: r) Ea), <- Hlf. by destruct h. }
  rewrite getm_bind, (hbind _ _ _ _ _ E0).
  set (h1 := mkHeap (ram h) (first_free 0 bs')).
  destruct (link_over_run h1 (span l) p2 _ _ _ (span l + extent b + extent c) Hh)
    as (m1 & m2 & E1 & _ & E2 & A1 & A2 & B2 & O2); [subst p2; simpl; unfold extent in *; hlia..|].
  rewrite (hbind _ _ _ _ _ E1), (hbind _ _ _ _ _ E2). simpl in *.
  set (k := size c + (size b - n)) in *.
  assert (He : span l + extent b + extent c = p2 + SIZEOF_STRUCT_MEM + k) by (subst p2 k; unfold extent; lia).
  assert (Hp2 : p2 = span l + SIZEOF_STRUCT_MEM + n) by done.
  assert (Hk : MIN_SIZE_ALIGNED <= k) by (destruct Hoc; subst k; lia).
  pose proof (live_cut l n k r) as Hlc. clearbody p2 k. rewrite He in *.
  destruct (insert_run (mkHeap m2 (first_free 0 bs')) l n true k r (span l + extent b) p2)
    as (m3 & E3 & R3 & B3 & O3); simpl; try done || hlia.
  - apply (seg_ext (ram h)); [done|congruence| |exact Hs]. intros i Hi. rewrite O2 by hlia. done.
  - apply (layout_ext (ram h)); [done|congruence| |exact Hr]. intros i Hi. rewrite O2 by hlia. done.
  - exists m3. split; [exact E3|]. split; [exact R3|]. simpl in B3, O3.
    split; [congruence|]. intros i Hi. specialize (Hlc i Hok' Hi). rewrite O3, O2 by hlia. done.
Qed.

Lemma resize_used_run h l b r n :
  heap_ok h (l ++ b :: r) -> in_use b = true -> free_head r = false ->
  MIN_SIZE_ALIGNED <= n < size b -> (4 | n) ->
  let bs' := l ++ carve n b ++ r in
  exists m, resize (span l) n (size b) h = Some (tt, mkHeap m (first_free 0 bs'))
    /\ layout m 0 0 bs' /\ keeps (ram h) m bs'.
Proof.
  intros [Hl (Hok & Ha & Hsp) Hlf Hlen] Hb Hfr Hn H4 bs'.
  pose proof (layout_mid _ _ _ _ Hok Hl) as (Hs & Hh & Hr & H0 & H1 & H2).
  pose proof (Forall_mid _ _ _ Hok) as (Hol & Hob & Hor). rewrite Hb in Hh.
  assert (Hu : exists x v, header (ram h) (span l + extent b) = Some (x, v, 1)).
  { destruct r as [|c r].
    - destruct Hr as [_ [_ [v Hv]]]. simpl in Hv. rewrite Z.add_0_r in Hv. eauto.
    - apply layout_cons in Hr as [Hhc _]. simpl in Hfr. apply negb_false_iff in Hfr.
      rewrite Hfr in Hhc. eauto. }
  destruct Hu as (x & v & Hhc). unfold resize. rewrite (hbind _ _ _ _ _ (next_run _ _ _ _ _ Hh)).
  rewrite (hbind _ _ _ _ _ (used_run _ _ _ _ _ Hhc)). cbn [Z.eqb]. cbv zeta.
  rewrite (u16_small (span l)) by (unfold extent in *; hlia).
  rewrite (u16_small (span l + _ + n)) by (unfold extent in *; hlia).
  set (p2 := span l + SIZEOF_STRUCT_MEM + n). pose proof (carve_ok n b (proj1 Hn) H4 Hob ltac:(lia)) as Hcv.
  subst bs'. unfold carve in *. rewrite Z.geb_leb in *.
  destruct (Z.leb_spec (n + SIZEOF_STRUCT_MEM + MIN_SIZE_ALIGNED) (size b)) as [Hge|Hlt]; cbn [hwhen].
  - set (k := size b - n - SIZEOF_STRUCT_MEM) in *. simpl app. set (bs' := l ++ _ :: _ :: r).
    assert (Hok' : Forall block_ok bs') by (apply Forall_app; split; [done|]; exact (proj2 (Forall_app _ [_; _] r) (conj Hcv Hor))).
    rewrite getm_bind.
    assert (E0 : hwhen (p2 <? lfree h) (set_lfree p2) h = Some (tt, mkHeap (ram h) (first_free 0 bs'))).
    { subst bs'. rewrite Hlf. destruct (all_used l) eqn:Ea.
      - rewrite !first_free_used by done. simpl. rewrite Hb.
        pose proof (first_free_le (span l + extent b) r Hor). rewrite Z.add_0_l.
        destruct (Z.ltb_spec p2 (first_free (span l + extent b) r)); [|subst p2; unfold extent in *; hlia].
        simpl. unfold set_lfree. do 3 f_equal. subst p2. unfold extent. simpl. lia.
      - pose proof (first_free_below 0 l (b :: r) Hol Ea).
        destruct (Z.ltb_spec p2 (first_free 0 (l ++ b :: r))); [subst p2; hlia|].
        simpl. rewrite (first_free_lower 0 l _ (b :: r) Ea), <- Hlf. by destruct h. }
    rewrite (hbind _ _ _ _ _ E0). set (h1 := mkHeap (ram h) (first_free 0 bs')).
    assert (He : span l + extent b = p2 + SIZEOF_STRUCT_MEM + k) by (subst p2 k; unfold extent; lia).
    assert (Hp2 : p2 = span l + SIZEOF_STRUCT_MEM + n) by done.
    assert (Hk : MIN_SIZE_ALIGNED <= k) by (subst k; lia).
    pose proof (live_cut l n k r) as Hlc. clearbody p2 k. rewrite He in *.
    destruct (link_new_run h1 (span l) p2 _ _ _ Hh) as (m1 & E1 & A1 & A2 & B1 & O1); [simpl; hlia..|].
    rewrite (hbind _ _ _ _ _ E1). simpl in *.
    destruct (insert_run (mkHeap m1 (first_free 0 bs')) l n true k r (span l) p2)
      as (m3 & E3 & R3 & B3 & O3); simpl; try done || hlia.
    + apply (seg_ext (ram h)); [done|congruence| |exact Hs]. intros i Hi. rewrite O1 by hlia. done.
    + apply (layout_ext (ram h)); [done|congruence| |exact Hr]. intros i Hi. rewrite O1 by hlia. done.
    + exists m3. split; [exact E3|]. split; [exact R3|]. simpl in B3, O3.
      split; [congruence|]. intros i Hi. specialize (Hlc i Hok' Hi). rewrite O3, O1 by hlia. done.
  - simpl app. destruct b as [sb ub]. simpl in *. subst ub. exists (ram h).
    split; [by rewrite <- Hlf; destruct h|]. done.
Qed.

Lemma realloc_run h bs p n s :
  heap_ok h bs -> owned 0 p bs = Some s ->
  exists h', mem_realloc p n h = Some (fst (spec_realloc p n bs), h')
    /\ heap_ok h' (snd (spec_realloc p n bs)) /\ keeps (ram h) (ram h') (snd (spec_realloc p n bs))
    /\ (s <= request n -> h' = h).
Proof.
  intros Hok Ho. unfold spec_realloc. rewrite Ho.
  apply owned_split in Ho as (l & b & r & -> & -> & Hb & <- & _ & Hsh). rewrite Z.add_0_l in *.
  destruct (request_ok n) as [Hn H4]. unfold mem_realloc. fold (request n). set (q := request n) in *.
  pose proof Hok as [Hl (Hbo & Ha & Hsp) Hlf Hlen].
  pose proof (layout_mid _ _ _ _ Hbo Hl) as (_ & Hh & _ & H0 & H1 & H2).
  pose proof (Forall_mid _ _ _ Hbo) as (_ & Hob%extent_pos & _).
  destruct (Z.gtb_spec q MEM_SIZE_ALIGNED); [destruct (Z.gtb_spec q (size b)); [|unfold extent in *; hlia]|].
  { exists h. by split_and!. }
  destruct (Z.ltb_spec (span l + SIZEOF_STRUCT_MEM) 0); [hlia|].
  destruct (Z.geb_spec (span l + SIZEOF_STRUCT_MEM) ram_end); [unfold extent in *; hlia|]. cbn [orb].
  replace (span l + SIZEOF_STRUCT_MEM - SIZEOF_STRUCT_MEM) with (span l) by lia.
  rewrite (hbind _ _ _ _ _ (next_run _ _ _ _ _ Hh)). cbv zeta.
  replace (u16 (span l + extent b - u16 (span l) - SIZEOF_STRUCT_MEM)) with (size b)
    by (rewrite (u16_small (span l)) by (unfold extent in *; hlia);
        rewrite u16_small by (unfold extent in *; hlia); unfold extent; lia).
  destruct (Z.gtb_spec q (size b)); [by exists h|].
  destruct (Z.eqb_spec q (size b)); [by exists h|].
  rewrite Hsh. cbn [fst snd].
  assert (Hq : MIN_SIZE_ALIGNED <= q < size b) by lia.
  pose proof (cut_ok l b r q Hq H4 Hb (conj Hbo (conj Ha Hsp))) as Hbo'.
  assert (Hrz : exists m, resize (span l) q (size b) h = Some (tt, mkHeap m (first_free 0 (l ++ cut q b r)))
    /\ layout m 0 0 (l ++ cut q b r) /\ keeps (ram h) m (l ++ cut q b r)).
  { destruct (free_head r) eqn:Er.
    - destruct r as [|c r]; [done|]. simpl in Er. apply negb_true_iff in Er.
      unfold cut. rewrite Er. by apply resize_free_run.
    - replace (cut q b r) with (carve q b ++ r); [by apply resize_used_run|].
      destruct r as [|c r]; simpl; [by rewrite app_nil_r|]. simpl in Er. by rewrite Er. }
  destruct Hrz as (m & E & L & K). rewrite (hbind _ _ _ _ _ E). eexists. split; [reflexivity|].
  split; [|split; [exact K|lia]]. split; simpl; [done..|]. destruct K as [-> _]. done.
Qed.
