(* ===== verification/HeapSafe.v ===== *)
(** * What lwIP's heap guarantees, and where it stops

    The heap as its clients see it: [heap_reach] is what any sequence of
    allocations, releases, shrinks and writes by the owners of blocks can make
    of it after [mem_init].  The theorems hold for one context of execution;
    [heap_reentered] is what happens when an interrupt handler allocates in the
    middle of an allocation of the main loop, which the priorities of Nvic.v
    allow and the port does not prevent (SYS_LIGHTWEIGHT_PROT is 0). *)
From stdpp Require Import base tactics list numbers option.
From S2P Require Import Prelude Nvic Heap HeapSpec HeapOps.

(** ** The clients *)

Inductive heap_reach : heap -> list block -> Prop :=
| reach_init h0 h : ram_end + SIZEOF_STRUCT_MEM <= blen (ram h0) -> mem_init h0 = Some (tt, h) ->
    heap_reach h [Block (ram_end - SIZEOF_STRUCT_MEM) false]
| reach_malloc h bs n p bs' h' : heap_reach h bs -> spec_malloc n bs = Some (p, bs') ->
    mem_malloc n h = Some (Some p, h') -> heap_reach h' bs'
| reach_free h bs p n h' : heap_reach h bs -> owned 0 p bs = Some n ->
    mem_free (Some p) h = Some (tt, h') -> heap_reach h' (release p bs)
| reach_realloc h bs p s n r h' : heap_reach h bs -> owned 0 p bs = Some s ->
    mem_realloc p n h = Some (r, h') -> heap_reach h' (snd (spec_realloc p n bs))
| reach_store h bs p n i v m : heap_reach h bs -> owned 0 p bs = Some n -> p <= i < p + n ->
    wr (ram h) i v = Some m -> heap_reach (mkHeap m (lfree h)) bs.

Lemma init_run h0 :
  ram_end + SIZEOF_STRUCT_MEM <= blen (ram h0) ->
  exists h, mem_init h0 = Some (tt, h) /\ heap_ok h [Block (ram_end - SIZEOF_STRUCT_MEM) false].
Proof.
  intros Hlen. unfold mem_init.
  destruct (header_in (ram h0) 0) as (n & v & u & H0); [hlia..|].
  destruct (set_next_run h0 0 n v u MEM_SIZE_ALIGNED H0) as (m1 & E1 & W1); [hlia..|].
  rewrite (hbind _ _ _ _ _ E1). pose proof W1 as [B1 A1 O1].
  destruct (set_prev_run (mkHeap m1 (lfree h0)) 0 _ _ _ 0 A1) as (m2 & E2 & W2); [simpl; hlia..|].
  simpl in *. rewrite (hbind _ _ _ _ _ E2). pose proof W2 as [B2 A2 O2].
  destruct (set_used_run (mkHeap m2 (lfree h0)) 0 _ _ _ 0 A2) as (m3 & E3 & W3); [simpl; hlia..|].
  simpl in *. rewrite (hbind _ _ _ _ _ E3). pose proof W3 as [B3 A3 O3].
  destruct (header_in m3 ram_end) as (n4 & v4 & u4 & H4); [hlia..|].
  destruct (set_used_run (mkHeap m3 (lfree h0)) ram_end _ _ _ 1 H4) as (m4 & E4 & W4); [simpl; hlia..|].
  simpl in *. rewrite (hbind _ _ _ _ _ E4). pose proof W4 as [B4 A4 O4].
  destruct (set_next_run (mkHeap m4 (lfree h0)) ram_end _ _ _ MEM_SIZE_ALIGNED A4)
    as (m5 & E5 & W5); [simpl; hlia..|].
  simpl in *. rewrite (hbind _ _ _ _ _ E5). pose proof W5 as [B5 A5 O5].
  destruct (set_prev_run (mkHeap m5 (lfree h0)) ram_end _ _ _ MEM_SIZE_ALIGNED A5)
    as (m6 & E6 & W6); [simpl; hlia..|].
  simpl in *. rewrite (hbind _ _ _ _ _ E6). pose proof W6 as [B6 A6 O6].
  exists (mkHeap m6 0). split; [done|]. split; simpl; [| |done|congruence].
  - apply layout_cons. split.
    + rewrite (wrote_other _ _ _ _ _ _ _ W6), (wrote_other _ _ _ _ _ _ _ W5),
        (wrote_other _ _ _ _ _ _ _ W4) by hlia. exact A3.
    + split; [done|]. split; [done|]. exists MEM_SIZE_ALIGNED. exact A6.
  - split; [|split; [split; [by right|done]|done]]. apply Forall_cons_2; [|done]. split; simpl; [hlia|by exists 254].
Qed.

(** A block in use, and its bytes. *)
Lemma owned_range off p bs n :
  Forall block_ok bs -> owned off p bs = Some n ->
  off + SIZEOF_STRUCT_MEM <= p /\ p + n <= off + span bs /\ MIN_SIZE_ALIGNED <= n
  /\ forall i, p <= i < p + n -> live off bs i = true.
Proof.
  intros Hok (l & b & r & -> & -> & Hb & <- & _)%owned_split.
  pose proof (Forall_mid _ _ _ Hok) as (Hol & Hob & Hor).
  pose proof (span_nonneg l Hol). pose proof (span_nonneg r Hor). pose proof (extent_pos b Hob).
  rewrite span_app, span_cons. unfold extent in *. split_and!; [lia|hlia|hlia|].
  intros i Hi. rewrite live_app. simpl. unfold extent. rewrite Hb. simpl.
  apply orb_true_iff. right. apply orb_true_iff. left.
  apply andb_true_iff. rewrite Z.leb_le, Z.ltb_lt. lia.
Qed.

Lemma store_ok h bs p n i v m :
  heap_ok h bs -> owned 0 p bs = Some n -> p <= i < p + n -> wr (ram h) i v = Some m ->
  heap_ok (mkHeap m (lfree h)) bs.
Proof.
  intros [Hl (Hok & Ha & Hs) Hlf Hlen] Ho Hi Hw.
  apply owned_split in Ho as (l & b & r & -> & -> & Hb & <- & _).
  pose proof (layout_mid _ _ _ _ Hok Hl) as (Hsg & Hh & Hr & H0 & H1 & H2).
  pose proof (Forall_mid _ _ _ Hok) as (Hol & Hob & Hor).
  assert (Ho : forall j, j <> i -> rd m j = rd (ram h) j) by (intros j; by apply (rd_wr_ne _ _ _ _ _ Hw)).
  pose proof (wr_blen _ _ _ _ Hw) as Hbl. split; simpl; [|done|done|lia].
  unfold extent in *. apply layout_app. split.
  - apply (seg_ext (ram h)); [done|done| |done]. intros j Hj. apply Ho. hlia.
  - rewrite Z.add_0_l. apply layout_cons. unfold extent. split.
    + rewrite <- Hh. apply header_ext; [done|]. intros j Hj. apply Ho. hlia.
    + apply (layout_ext (ram h)); [done|done| |done]. intros j Hj. apply Ho. hlia.
Qed.

Lemma heap_reach_ok h bs : heap_reach h bs -> heap_ok h bs.
Proof.
  induction 1 as [h0 h Hl E|h bs n p bs' h' _ IH Hs E|h bs p n h' _ IH Ho E|h bs p s n r h' _ IH Ho E
                 |h bs p n i v m _ IH Ho Hi Hw].
  - destruct (init_run h0 Hl) as (h' & E' & Hok). congruence.
  - destruct (malloc_run n h bs IH) as (r & h1 & E1 & Hr). rewrite Hs in Hr.
    destruct Hr as (-> & Hok & _). congruence.
  - destruct (free_run h bs p n IH Ho) as (h1 & E1 & Hok & _). congruence.
  - destruct (realloc_run h bs p n s IH Ho) as (h1 & E1 & Hok & _). congruence.
  - by eapply store_ok.
Qed.

(** ** Allocation *)

Lemma extent_divide b : block_ok b -> (4 | extent b).
Proof. intros [_ H]. apply Z.divide_add_r; [by exists 2|done]. Qed.
Lemma span_divide bs : Forall block_ok bs -> (4 | span bs).
Proof.
  induction 1 as [|b bs Hb _ IH]; simpl; [by exists 0|].
  apply Z.divide_add_r; [by apply extent_divide|done].
Qed.

Lemma owned_skip l c r :
  Forall block_ok l -> owned 0 (span l + SIZEOF_STRUCT_MEM) (l ++ c :: r)
  = if in_use c then Some (size c) else None.
Proof.
  intros Hl. assert (H : forall off, owned off (off + span l + SIZEOF_STRUCT_MEM) (l ++ c :: r)
    = if in_use c then Some (size c) else None); [|exact (H 0)].
  induction Hl as [|b l Hb Hl IH]; intros off; simpl.
  { rewrite Z.add_0_r, Z.eqb_refl. done. }
  pose proof (extent_pos b Hb). pose proof (span_nonneg l Hl).
  destruct (Z.eqb_spec (off + SIZEOF_STRUCT_MEM) (off + (extent b + span l) + SIZEOF_STRUCT_MEM)); [hlia|].
  rewrite <- (IH (off + extent b)). f_equal. lia.
Qed.

Lemma carve_head n b : 0 <= n -> exists s c, carve n b = Block s true :: c /\ s <= size b
  /\ (n <= size b -> n <= s) /\ s < n + SIZEOF_STRUCT_MEM + MIN_SIZE_ALIGNED.
Proof.
  intros Hn. unfold carve. destruct (Z.geb_spec (size b) (n + SIZEOF_STRUCT_MEM + MIN_SIZE_ALIGNED)).
  - exists n, [Block (size b - n - SIZEOF_STRUCT_MEM) false]. split_and!; done || hlia.
  - exists (size b), []. split_and!; done || lia.
Qed.

(** The new block lies in what was free. *)
Lemma taken_fresh l b r n :
  Forall block_ok (l ++ b :: r) -> fits n b = true -> MIN_SIZE_ALIGNED <= n -> (4 | n) ->
  let bs' := l ++ carve n b ++ r in
  let p := span l + SIZEOF_STRUCT_MEM in
  exists s, owned 0 p bs' = Some s /\ n <= s < n + SIZEOF_STRUCT_MEM + MIN_SIZE_ALIGNED
    /\ (forall i, p <= i < p + s -> live 0 (l ++ b :: r) i = false)
    /\ (forall i, live 0 (l ++ b :: r) i = true -> live 0 bs' i = true).
Proof.
  intros Hok Hf Hn H4 bs' p. pose proof (Forall_mid _ _ _ Hok) as (Hol & Hob & Hor).
  unfold fits in Hf. apply andb_true_iff in Hf as [Hu%negb_true_iff Hle%Z.leb_le].
  destruct (carve_head n b ltac:(hlia)) as (s & c & Hc & Hs & Hns & Hup). specialize (Hns Hle).
  exists s. subst bs' p. rewrite Hc. cbn [app]. split_and!; [by rewrite owned_skip|done|done| |].
  - intros i Hi. destruct (live 0 (l ++ b :: r) i) eqn:E; [|done].
    apply live_mid in E as [?|[[? _]|?]]; [hlia|congruence|unfold extent in *; hlia|done].
  - intros i. rewrite !live_app. cbn [live]. rewrite Hu. cbn [andb orb].
    pose proof (carve_span n b) as Hsp. rewrite Hc, span_cons in Hsp.
    rewrite live_app. rewrite orb_true_iff. intros [->|H]; [done|].
    apply orb_true_iff. right. apply orb_true_iff. right. apply orb_true_iff. right.
    rewrite <- (Z.add_assoc _ (extent _)), Hsp. exact H.
Qed.

(** What [mem_malloc] gives. *)
Lemma malloc_outcome (h : heap) (bs : list block) (n : Z) :
  heap_reach h bs ->
  exists r h', mem_malloc n h = Some (r, h') /\
  match r with
  | Some p =>
      exists bs' s, heap_reach h' bs' /\ owned 0 p bs' = Some s
      /\ n <> 0 /\ request n <= s < request n + SIZEOF_STRUCT_MEM + MIN_SIZE_ALIGNED /\ (4 | p)
      /\ SIZEOF_STRUCT_MEM <= p /\ p + s <= MEM_SIZE_ALIGNED
      /\ (forall i, p <= i < p + s -> live 0 bs i = false)
      /\ (forall i, live 0 bs i = true -> live 0 bs' i = true /\ rd (ram h') i = rd (ram h) i)
      /\ Exists (fun b => in_use b = false /\ request n <= size b) bs
  | None => h' = h /\ (n = 0 \/ Forall (fun b => in_use b = true \/ size b < request n) bs)
  end.
Proof.
  intros Hre. pose proof (heap_reach_ok _ _ Hre) as Hok.
  destruct (malloc_run n h bs Hok) as (r & h' & E & Hr). exists r, h'. split; [done|].
  unfold malloc_result in Hr. destruct (spec_malloc n bs) as [[p bs']|] eqn:Hs.
  - destruct Hr as (-> & Hok' & Hk). assert (Hre' : heap_reach h' bs') by (by eapply reach_malloc).
    unfold spec_malloc in Hs. destruct (Z.eqb_spec n 0) as [|Hn0]; [done|]. cbn [orb] in Hs.
    destruct (request n >? MEM_SIZE_ALIGNED); [done|].
    destruct (request_ok n) as [Hn H4].
    destruct (alloc_cases 0 (request n) bs) as [[_ Ha]|(l & b & q & -> & _ & Hb & Ha)]; [congruence|].
    rewrite Hs in Ha. injection Ha as -> ->. rewrite Z.add_0_l in *.
    pose proof (ok_blocks _ _ Hok) as (Hbo & _ & _). pose proof (ok_blocks _ _ Hok') as (Hbo' & _ & Hs').
    destruct (taken_fresh l b q _ Hbo Hb Hn H4) as (s & Ho & [Hle Hup] & Hfr & Hkp).
    destruct (owned_range _ _ _ _ Hbo' Ho) as (H1 & H2 & _).
    eexists _, s. split; [exact Hre'|]. split_and!; try done.
    + apply Z.divide_add_r; [|by exists 2]. apply span_divide. by apply Forall_mid in Hbo as (? & _).
    + rewrite Hs' in H2. exact H2.
    + intros i Hi. split; [by apply Hkp|]. by apply Hk.
    + apply Exists_app. right. left. unfold fits in Hb. by apply andb_true_iff in Hb as [?%negb_true_iff ?%Z.leb_le].
  - destruct Hr as [-> ->]. split; [done|]. unfold spec_malloc in Hs.
    destruct (Z.eqb_spec n 0); [by left|]. right. cbn [orb] in Hs.
    pose proof (ok_blocks _ _ Hok) as (Hbo & _ & Hsp).
    destruct (Z.gtb_spec (request n) MEM_SIZE_ALIGNED).
    + apply Forall_forall. intros b Hb. right. apply in_split in Hb as (l & r & ->).
      pose proof (Forall_mid _ _ _ Hbo) as (Hl & _ & Hr). rewrite span_app, span_cons in Hsp.
      pose proof (span_nonneg l Hl). pose proof (span_nonneg r Hr). unfold extent in *. hlia.
    + destruct (alloc_cases 0 (request n) bs) as [[Hf _]|(l & b & q & -> & _ & _ & Ha)]; [|congruence].
      eapply Forall_impl; [|exact Hf]. intros b Hb. unfold fits in Hb.
      destruct (in_use b); [by left|]. right. simpl in Hb. by apply Z.leb_gt in Hb.
Qed.

(** The bytes a request for [n] takes: a multiple of 4, at least 12.  From
    65533 on, the next multiple of 4 has no room in the 16 bits of the size. *)
Definition room_for (n : Z) : Z := if n <? 65533 then Z.max 12 ((n + 3) / 4 * 4) else 12.

Lemma request_room n : 0 <= n < 65536 -> request n = room_for n.
Proof.
  intros Hn. unfold request, room_for. pose proof (align_bounds n) as Ha. destruct (align_divide n) as [k Hk].
  destruct (Z.ltb_spec n 65533).
  - rewrite u16_small by lia. assert (LWIP_MEM_ALIGN_SIZE n = (n + 3) / 4 * 4) as ->; [|destruct (Z.ltb_spec ((n + 3) / 4 * 4) MIN_SIZE_ALIGNED); hlia].
    rewrite Hk. f_equal. pose proof (Z.div_mod (n + 3) 4 ltac:(lia)). pose proof (Z.mod_pos_bound (n + 3) 4 ltac:(lia)). lia.
  - replace (LWIP_MEM_ALIGN_SIZE n) with 65536 by lia. done.
Qed.
Lemma room_for_bounds n : 0 <= n < 65536 ->
  (n < 65533 -> n <= room_for n < Z.max 13 (n + 4)) /\ (65533 <= n -> room_for n = 12).
Proof.
  intros Hn. unfold room_for. destruct (Z.ltb_spec n 65533); [split; [intros _|lia]|split; [lia|done]].
  pose proof (Z.div_mod (n + 3) 4 ltac:(lia)). pose proof (Z.mod_pos_bound (n + 3) 4 ltac:(lia)). lia.
Qed.

(** C12: From any heap its clients can reach, [mem_malloc] returns.  It
    gives a pointer exactly when the request is not for 0 bytes and some free
    block has room for it.  The pointer is aligned; the block behind it lies
    inside the array, none of its bytes belonged to anybody, and the other blocks
    keep theirs.  Up to 65532 bytes the block has at least the bytes asked for;
    for 65533 to 65535 the rounding up to 4 overflows 16 bits, the request is
    taken for one of 12 bytes, and the block has less than 32.  Without a
    pointer nothing changes. *)
Theorem heap_malloc (h : heap) (bs : list block) (n : Z) :
  heap_reach h bs -> 0 <= n < 65536 ->
  exists r h', mem_malloc n h = Some (r, h') /\
  match r with
  | Some p =>
      n <> 0 /\ Exists (fun b => in_use b = false /\ room_for n <= size b) bs
      /\ exists bs' s, heap_reach h' bs' /\ owned 0 p bs' = Some s
      /\ (n < 65533 -> n <= s) /\ (65533 <= n -> s < 32) /\ (4 | p)
      /\ SIZEOF_STRUCT_MEM <= p /\ p + s <= MEM_SIZE_ALIGNED
      /\ (forall i, p <= i < p + s -> live 0 bs i = false)
      /\ (forall i, live 0 bs i = true -> live 0 bs' i = true /\ rd (ram h') i = rd (ram h) i)
  | None => h' = h /\ (n = 0 \/ Forall (fun b => in_use b = true \/ size b < room_for n) bs)
  end.
Proof.
  intros Hre Hn. destruct (malloc_outcome h bs n Hre) as (r & h' & E & Hr). exists r, h'. split; [exact E|].
  rewrite (request_room n Hn) in Hr. pose proof (room_for_bounds n Hn) as [Hs Hw].
  destruct r as [p|]; [|exact Hr]. destruct Hr as (bs' & s & H1 & H2 & H0 & [H3 H3'] & H4 & H5 & H6 & H7 & H8 & H9).
  split; [done|]. split; [done|]. exists bs', s. split_and!; try done; hlia.
Qed.

(** ** Release and shrinking *)

Lemma mark_skip l c r :
  Forall block_ok l -> mark 0 (span l + SIZEOF_STRUCT_MEM) (l ++ c :: r) = l ++ Block (size c) false :: r.
Proof.
  intros Hl. assert (H : forall off, mark off (off + span l + SIZEOF_STRUCT_MEM) (l ++ c :: r)
    = l ++ Block (size c) false :: r); [|exact (H 0)].
  induction Hl as [|b l Hb Hl IH]; intros off; simpl.
  { rewrite Z.add_0_r, Z.eqb_refl. done. }
  pose proof (extent_pos b Hb). pose proof (span_nonneg l Hl).
  destruct (Z.eqb_spec (off + SIZEOF_STRUCT_MEM) (off + (extent b + span l) + SIZEOF_STRUCT_MEM)); [hlia|].
  rewrite <- (IH (off + extent b)). do 2 f_equal. lia.
Qed.

Lemma join_prev_used l g : free_tail l = false -> join_prev l g = l ++ [g].
Proof.
  destruct l as [|c l _] using rev_ind; [done|]. rewrite free_tail_snoc, join_prev_snoc.
  intros ->%negb_false_iff. by rewrite <- app_assoc.
Qed.

(** A fresh block, given back, leaves the list as it was. *)
Lemma release_carved l b r n :
  blocks_ok (l ++ b :: r) -> fits n b = true ->
  release (span l + SIZEOF_STRUCT_MEM) (l ++ carve n b ++ r) = l ++ b :: r.
Proof.
  intros (Hok & Ha & _) Hf. pose proof (Forall_mid _ _ _ Hok) as (Hol & Hob & _).
  unfold fits in Hf. apply andb_true_iff in Hf as [Hu%negb_true_iff Hle%Z.leb_le].
  assert (Hb : forall s, s = size b -> Block s false = b) by (intros s ->; destruct b; simpl in *; by subst).
  unfold release, carve. destruct (size b >=? n + SIZEOF_STRUCT_MEM + MIN_SIZE_ALIGNED); cbn [app].
  - rewrite mark_skip by done. cbn [size].
    pose proof Ha as (Hal & [Hbr Har] & Hx)%no_adj_app. rewrite Hu in Hbr. destruct Hbr as [?|Hbr]; [done|].
    simpl in Hx. rewrite Hu in Hx. destruct Hx as [Hx|?]; [|done].
    rewrite coalesce_mid; [|done|done|split; [by right|done]]. cbn [join_next in_use].
    unfold joined, extent. cbn [size]. rewrite Hb by lia. rewrite join_prev_used by done.
    by rewrite <- app_assoc.
  - rewrite mark_skip by done. rewrite Hb by done. by apply coalesce_id.
Qed.

Lemma live_gap off l c r i :
  forallb (fun b => negb (in_use b)) c = true ->
  live off (l ++ c ++ r) i = live off l i || live (off + span l + span c) r i.
Proof.
  intros Hc. rewrite live_app. f_equal. generalize (off + span l). induction c as [|b c IH]; intros o.
  - simpl. by rewrite Z.add_0_r.
  - simpl in *. apply andb_true_iff in Hc as [->%negb_true_iff Hc]. simpl.
    rewrite (IH Hc). by rewrite Z.add_assoc.
Qed.
Lemma carve_rest_free n b s c : carve n b = Block s true :: c -> forallb (fun d => negb (in_use d)) c = true.
Proof. unfold carve. by destruct (_ >=? _); intros [= <- <-]. Qed.

Lemma free_restores (h : heap) (bs : list block) (n p : Z) (h1 : heap) :
  heap_reach h bs -> mem_malloc n h = Some (Some p, h1) ->
  exists h2, mem_free (Some p) h1 = Some (tt, h2) /\ heap_reach h2 bs /\ lfree h2 = lfree h
    /\ forall i, live 0 bs i = true -> rd (ram h2) i = rd (ram h) i.
Proof.
  intros Hre E. pose proof (heap_reach_ok _ _ Hre) as Hok.
  destruct (malloc_run n h bs Hok) as (r & h' & E' & Hr). rewrite E in E'. injection E' as <- <-.
  unfold malloc_result in Hr. destruct (spec_malloc n bs) as [[q bs']|] eqn:Hs; [|by destruct Hr].
  destruct Hr as ([= <-] & Hok' & Hk).
  assert (Hre' : heap_reach h1 bs') by (by eapply reach_malloc).
  unfold spec_malloc in Hs. destruct ((n =? 0) || (request n >? MEM_SIZE_ALIGNED)); [done|].
  destruct (request_ok n) as [Hn H4].
  destruct (alloc_cases 0 (request n) bs) as [[_ Ha]|(l & b & r & -> & _ & Hb & Ha)]; [congruence|].
  rewrite Hs in Ha. injection Ha as -> ->. rewrite Z.add_0_l in *.
  pose proof (ok_blocks _ _ Hok) as Hbo.
  destruct (taken_fresh l b r _ (proj1 Hbo) Hb Hn H4) as (s & Ho & _ & _ & Hkp).
  destruct (free_run h1 _ _ s Hok' Ho) as (h2 & E2 & Hok2 & Hk2).
  pose proof (reach_free _ _ _ _ _ Hre' Ho E2) as Hre2. rewrite release_carved in Hre2, Hok2 by done.
  exists h2. split; [done|]. split; [done|]. split.
  - rewrite (ok_lfree _ _ Hok2), (ok_lfree _ _ Hok). done.
  - intros i Hi. destruct Hk as [_ Hk], Hk2 as [_ Hk2]. rewrite Hk2, Hk; [done|done|].
    destruct (carve_head (request n) b ltac:(hlia)) as (s' & c & Hc & _). rewrite Hc in *. cbn [app] in *.
    rewrite mark_skip by (by apply proj1, Forall_mid in Hbo as (? & _)). cbn [size].
    unfold fits in Hb. apply andb_true_iff in Hb as [Hu%negb_true_iff _].
    assert (Hfc : forallb (fun d => negb (in_use d)) c = true) by (by eapply carve_rest_free).
    rewrite (live_gap 0 l [b] r) in Hi by (simpl; by rewrite Hu).
    rewrite (live_gap 0 l (Block s' false :: c) r) by done.
    pose proof (carve_span (request n) b) as Hsp. rewrite Hc in Hsp. simpl in Hi, Hsp.
    rewrite Z.add_0_r in Hi. rewrite span_cons.
    change (extent (Block s' false)) with (extent (Block s' true)). by rewrite Hsp.
Qed.

(** C13: In any heap its clients can reach, freeing what [mem_malloc] has just
    allocated gives back the heap: the same blocks, free or in use, at the same
    places, the same lowest free block, and the bytes of every block in use. *)
Theorem heap_free_restores (h : heap) (bs : list block) (n p : Z) (h1 : heap) :
  heap_reach h bs -> mem_malloc n h = Some (Some p, h1) ->
  exists h2, mem_free (Some p) h1 = Some (tt, h2) /\ heap_reach h2 bs /\ lfree h2 = lfree h
    /\ forall i, live 0 bs i = true -> rd (ram h2) i = rd (ram h) i.
Proof. apply free_restores. Qed.

Lemma owned_size p bs s : Forall block_ok bs -> owned 0 p bs = Some s -> MIN_SIZE_ALIGNED <= s /\ (4 | s).
Proof. intros Hbo (l & b & r & -> & _ & _ & <- & _)%owned_split. by apply Forall_mid in Hbo as (_ & ? & _). Qed.
(** What a block of [s] bytes has left of them. *)
Lemma shrink_owned p n s bs :
  Forall block_ok bs -> owned 0 p bs = Some s -> MIN_SIZE_ALIGNED <= n <= s ->
  exists s', owned 0 p (shrink 0 p n bs) = Some s' /\ n <= s' <= s /\ s' < n + SIZEOF_STRUCT_MEM + MIN_SIZE_ALIGNED.
Proof.
  intros Hbo (l & b & r & -> & -> & Hb & <- & _ & Hsh)%owned_split Hn. rewrite Hsh, Z.add_0_l.
  pose proof (Forall_mid _ _ _ Hbo) as (Hl & _).
  destruct (carve_head n b ltac:(hlia)) as (s & c & Hc & Hle & Hns & Hup).
  assert (Hcut : exists s' c', cut n b r = Block s' true :: c' /\ n <= s' <= size b
                   /\ s' < n + SIZEOF_STRUCT_MEM + MIN_SIZE_ALIGNED).
  { unfold cut. rewrite Hc. assert (n <= s) by (apply Hns; lia).
    destruct r as [|d r]; [by eexists _, _|]. destruct (negb (in_use d)); [|by eexists _, _].
    eexists n, _. split; [done|]. hlia. }
  destruct Hcut as (s' & c' & -> & H1 & H2). exists s'. split; [|done]. simpl. by rewrite owned_skip.
Qed.

(** C11: [mem_realloc] of a block in use with [s] bytes returns.  With
    more bytes than the block has it gives null and changes nothing -- except for
    65533 to 65535, which the rounding up to 4 turns into a request for 12, so that
    the block is cut down to them and the pointer comes back.  Otherwise it keeps
    the pointer, the heap is that of the list with the block cut
    ([spec_realloc]), which has at least the bytes asked for, and the bytes of
    every block of that list, the shortened one included, are what they were. *)
Theorem heap_realloc (h : heap) (bs : list block) (p s n : Z) :
  heap_reach h bs -> owned 0 p bs = Some s -> 0 <= n < 65536 ->
  exists h', mem_realloc p n h = Some (if (s <? n) && (n <? 65533) then None else Some p, h')
    /\ let bs' := snd (spec_realloc p n bs) in
       heap_reach h' bs'
    /\ (s < n < 65533 -> h' = h /\ bs' = bs)
    /\ (exists s', owned 0 p bs' = Some s' /\ s' <= s /\ (n <= s -> n <= s' < Z.max 12 n + 24) /\ (65533 <= n -> s' < 32))
    /\ forall i, live 0 bs' i = true -> rd (ram h') i = rd (ram h) i.
Proof.
  intros Hre Ho Hn. pose proof (heap_reach_ok _ _ Hre) as Hok. pose proof (ok_blocks _ _ Hok) as (Hbo & _ & Hsp).
  destruct (owned_size _ _ _ Hbo Ho) as [Hs1 [k Hk]]. destruct (owned_range _ _ _ _ Hbo Ho) as (Hs0 & Hs2 & _).
  pose proof (room_for_bounds n Hn) as [Hlo Hhi]. destruct (request_ok n) as [Hq12 [j Hj]].
  assert (Hgt : (request n >? s) = (s <? n) && (n <? 65533)).
  { rewrite Z.gtb_ltb. rewrite (request_room n Hn) in *. destruct (Z.ltb_spec n 65533); rewrite ?andb_true_r, ?andb_false_r.
    - destruct (Z.ltb_spec s n), (Z.ltb_spec s (room_for n)); [done| | |done]; hlia.
    - destruct (Z.ltb_spec s (room_for n)); [hlia|done]. }
  destruct (realloc_run h bs p n s Hok Ho) as (h' & E & Hok' & [_ Hkp] & Hsame).
  pose proof (reach_realloc _ _ _ _ _ _ _ Hre Ho E) as Hre'.
  exists h'. unfold spec_realloc in *. rewrite Ho, Hgt in *. cbv zeta. split_and!.
  - rewrite E. do 2 f_equal. destruct (_ && _); [done|]. by destruct (request n =? s).
  - exact Hre'.
  - intros [H1 H2]. rewrite (proj2 (Z.ltb_lt _ _) H1), (proj2 (Z.ltb_lt _ _) H2) in *. split; [|done]. apply Hsame. hlia.
  - rewrite (request_room n Hn) in *. destruct ((s <? n) && (n <? 65533)) eqn:Ec.
    + apply andb_true_iff in Ec as [?%Z.ltb_lt ?%Z.ltb_lt]. exists s. split_and!; [done|lia|lia|lia].
    + destruct (Z.eqb_spec (room_for n) s); cbn [snd].
      * exists s. split_and!; [done|lia|hlia|hlia].
      * destruct (shrink_owned p (room_for n) s bs Hbo Ho) as (s' & Hs' & Hb & Hu).
        { split; [done|]. rewrite Z.gtb_ltb in Hgt. apply Z.ltb_ge in Hgt. lia. }
        exists s'. split; [done|]. hlia.
  - exact Hkp.
Qed.

(** ** Two contexts *)

Lemma first_free_used_at l c r :
  Forall block_ok (l ++ c :: r) -> in_use c = true -> first_free 0 (l ++ c :: r) <> span l.
Proof.
  intros Hok Hc. pose proof (Forall_mid _ _ _ Hok) as (Hl & Hoc & Hr). destruct (all_used l) eqn:Ea.
  - rewrite first_free_used by done. simpl. rewrite Hc, Z.add_0_l. pose proof (extent_pos c Hoc).
    pose proof (first_free_le (span l + extent c) r Hr). hlia.
  - pose proof (first_free_below 0 l (c :: r) Hl Ea). lia.
Qed.

(** [occupy] on a block that the same request has already taken. *)
Lemma retake_run h l b r n :
  heap_ok h (l ++ carve n b ++ r) -> MIN_SIZE_ALIGNED <= n ->
  exists h', mem_take n (span l) h = Some (Some (span l + SIZEOF_STRUCT_MEM), h').
Proof.
  intros [Hl (Hok & _ & _) Hlf Hlen] Hn.
  assert (Hc : exists s c, carve n b = Block s true :: c /\ s < n + SIZEOF_STRUCT_MEM + MIN_SIZE_ALIGNED).
  { unfold carve. destruct (Z.geb_spec (size b) (n + SIZEOF_STRUCT_MEM + MIN_SIZE_ALIGNED)).
    - exists n, [Block (size b - n - SIZEOF_STRUCT_MEM) false]. split; [done|hlia].
    - exists (size b), []. split; [done|lia]. }
  destruct Hc as (s & c & Hc & Hs). rewrite Hc in *. cbn [app] in *.
  pose proof (layout_mid _ _ _ _ Hok Hl) as (_ & Hh & _ & H0 & H1 & H2). simpl in H1.
  destruct (set_used_run h (span l) _ _ _ 1 Hh) as (m & E & _); [unfold extent in *; simpl in *; hlia..|].
  unfold mem_take, occupy. rewrite (hbind _ _ h tt (mkHeap m (lfree h))).
  - rewrite getm_bind. simpl. rewrite Hlf.
    destruct (Z.eqb_spec (span l) (first_free 0 (l ++ Block s true :: c ++ r))) as [Heq|_].
    + by apply eq_sym, first_free_used_at in Heq.
    + simpl. eauto.
  - rewrite (hbind _ _ _ _ _ (next_run _ _ _ _ _ Hh)). rewrite room_block by (unfold extent in *; simpl in *; hlia).
    cbn [size]. by destruct (Z.geb_spec s (n + SIZEOF_STRUCT_MEM + MIN_SIZE_ALIGNED)); [lia|].
Qed.

(** The Ethernet handler is enabled, and nothing in the port
    keeps it out of [mem_malloc].  When it allocates after an allocation of the
    main loop has found its block ([mem_find]) and before that has marked it
    ([mem_take]), both get the same pointer. *)
Theorem heap_reentered (h h1 : heap) (bs : list block) (n q : Z) (p : option Z)
    (SYSCLK_Frequency : Z) (s : scb) :
  heap_reach h bs -> n <> 0 -> request n <= MEM_SIZE_ALIGNED ->
  mem_find (request n) h = Some (Some q, h) ->
  mem_malloc n h = Some (p, h1) ->
  enabled (System_Setup_nvic SYSCLK_Frequency s) ETH_Handler = true
  /\ p = Some (q + SIZEOF_STRUCT_MEM)
  /\ exists h2, mem_take (request n) q h1 = Some (Some (q + SIZEOF_STRUCT_MEM), h2).
Proof.
  intros Hre Hn Hq Hfind Hmal. split; [apply setup_enabled|].
  pose proof (heap_reach_ok _ _ Hre) as Hok. destruct (request_ok n) as [Hr H4].
  destruct (mem_find_run h bs (request n) Hok ltac:(hlia)) as [Hno Hyes].
  destruct (alloc_cases 0 (request n) bs) as [[Hf _]|(l & b & r & -> & Hf & Hb & _)].
  { rewrite (Hno Hf) in Hfind. congruence. }
  specialize (Hyes l b r eq_refl Hf Hb). rewrite Hyes in Hfind. injection Hfind as <-.
  destruct (mem_take_run h l b r (request n) Hok Hb Hr H4) as (h' & E & Hok' & _).
  unfold mem_malloc in Hmal. destruct (Z.eqb_spec n 0); [done|].
  destruct (Z.gtb_spec (request n) MEM_SIZE_ALIGNED); [lia|].
  rewrite (hbind _ _ _ _ _ Hyes), E in Hmal. injection Hmal as <- <-. split; [done|].
  by apply (retake_run h' l b r).
Qed.

(** ** Bounds *)

(** The size is rounded up in 16 bits.  A request of up to 65,532
    bytes gets a block with at least as many, or none; one of 65,533 to 65,535
    wraps to 0 and is given a block of 12 bytes (less than 32, when the block it
    is cut from is too small to split). *)
Theorem heap_wraps (h : heap) (bs : list block) (n p : Z) (h' : heap) :
  heap_reach h bs -> 0 <= n < 65536 -> mem_malloc n h = Some (Some p, h') ->
  exists bs' s, heap_reach h' bs' /\ owned 0 p bs' = Some s
    /\ (n < 65533 -> n <= s) /\ (65533 <= n -> s < 32).
Proof.
  intros Hre Hn E. destruct (malloc_outcome h bs n Hre) as (r & h1 & E1 & Hr).
  rewrite E in E1. injection E1 as <- <-.
  destruct Hr as (bs' & s & Hre' & Ho & _ & Hs & _). exists bs', s. split_and!; [done|done| |].
  - intros Hlt. pose proof (request_small n ltac:(lia)). lia.
  - intros Hge. assert (Hw : request n = 12).
    { unfold request. pose proof (align_bounds n). destruct (align_divide n) as [k Hk].
      replace (LWIP_MEM_ALIGN_SIZE n) with 65536 by lia. done. }
    hlia.
Qed.

(** ** The heap after [mem_init] *)

Definition blank_heap : heap := mkHeap (replicate 1040 0) 0.
Lemma blank_reach : exists h, mem_init blank_heap = Some (tt, h) /\ heap_reach h [Block 1016 false].
Proof.
  destruct (init_run blank_heap) as (h & E & _); [vm_compute; congruence|].
  exists h. split; [done|]. apply (reach_init blank_heap h); [vm_compute; congruence|done].
Qed.

(** The heap after [mem_init], and after one allocation. *)
Definition heap_of {A} (x : option (A * heap)) : heap := match x with Some (_, h) => h | None => blank_heap end.
Definition start : heap := heap_of (mem_init blank_heap).
Definition one : heap := heap_of (mem_malloc 100 start).
Definition one_blocks : list block := [Block 100 true; Block 908 false].

Lemma start_reach : heap_reach start [Block 1016 false].
Proof. apply (reach_init blank_heap); [vm_compute; congruence|vm_compute; reflexivity]. Qed.
Lemma one_malloc : mem_malloc 100 start = Some (Some 8, one).
Proof. vm_compute. reflexivity. Qed.
Lemma one_reach : heap_reach one one_blocks.
Proof. eapply (reach_malloc start _ 100 8); [apply start_reach|vm_compute; reflexivity|apply one_malloc]. Qed.
Lemma wrapped_malloc : exists h, mem_malloc 65535 start = Some (Some 8, h).
Proof. exists (heap_of (mem_malloc 65535 start)). vm_compute. reflexivity. Qed.

Lemma heap_malloc_witness :
  exists r h', mem_malloc 200 one = Some (r, h') /\
  match r with
  | Some p =>
      200 <> 0 /\ Exists (fun b => in_use b = false /\ room_for 200 <= size b) one_blocks
      /\ exists bs' s, heap_reach h' bs' /\ owned 0 p bs' = Some s
      /\ (200 < 65533 -> 200 <= s) /\ (65533 <= 200 -> s < 32) /\ (4 | p)
      /\ SIZEOF_STRUCT_MEM <= p /\ p + s <= MEM_SIZE_ALIGNED
      /\ (forall i, p <= i < p + s -> live 0 one_blocks i = false)
      /\ (forall i, live 0 one_blocks i = true -> live 0 bs' i = true /\ rd (ram h') i = rd (ram one) i)
  | None => h' = one /\ (200 = 0 \/ Forall (fun b => in_use b = true \/ size b < room_for 200) one_blocks)
  end.
Proof. apply (heap_malloc one one_blocks 200 one_reach). lia. Defined.

Lemma heap_free_restores_witness :
  exists h2, mem_free (Some 8) one = Some (tt, h2) /\ heap_reach h2 [Block 1016 false] /\ lfree h2 = lfree start
    /\ forall i, live 0 [Block 1016 false] i = true -> rd (ram h2) i = rd (ram start) i.
Proof. exact (heap_free_restores start [Block 1016 false] 100 8 one start_reach one_malloc). Defined.

Lemma heap_realloc_witness :
  (exists h', mem_realloc 8 40 one = Some (Some 8, h') /\ heap_reach h' [Block 40 true; Block 968 false]
    /\ forall i, live 0 [Block 40 true; Block 968 false] i = true -> rd (ram h') i = rd (ram one) i)
  /\ (exists h', mem_realloc 8 200 one = Some (None, h') /\ h' = one)
  /\ exists h' s', mem_realloc 8 65535 one = Some (Some 8, h')
    /\ owned 0 8 (snd (spec_realloc 8 65535 one_blocks)) = Some s' /\ s' < 32.
Proof.
  split_and!.
  - destruct (heap_realloc one one_blocks 8 100 40 one_reach eq_refl ltac:(lia)) as (h' & E & Hr & _ & _ & Hk).
    exists h'. split; [exact E|]. split; [exact Hr|exact Hk].
  - destruct (heap_realloc one one_blocks 8 100 200 one_reach eq_refl ltac:(lia)) as (h' & E & _ & Hs & _).
    exists h'. split; [exact E|]. apply Hs. lia.
  - destruct (heap_realloc one one_blocks 8 100 65535 one_reach eq_refl ltac:(lia)) as (h' & E & _ & _ & (s' & Ho & _ & _ & Hw) & _).
    exists h', s'. split; [exact E|]. split; [exact Ho|]. apply Hw. lia.
Defined.

Lemma heap_reentered_witness :
  exists h1 h2, mem_malloc 100 start = Some (Some 8, h1) /\ mem_take 100 0 h1 = Some (Some 8, h2).
Proof.
  destruct (heap_reentered start one [Block 1016 false] 100 0 (Some 8) 72000000
    (mkScb 0 0 (fun _ => 0) (fun _ => 0) (fun _ => 0) (mkTick 0 0 0)) start_reach) as (_ & _ & h2 & E).
  - lia.
  - vm_compute. congruence.
  - vm_compute. reflexivity.
  - apply one_malloc.
  - exists one, h2. split; [apply one_malloc|exact E].
Defined.

Lemma heap_wraps_witness :
  exists h' bs' s, mem_malloc 65535 start = Some (Some 8, h') /\ heap_reach h' bs'
    /\ owned 0 8 bs' = Some s /\ s < 32.
Proof.
  destruct wrapped_malloc as [h' E].
  destruct (heap_wraps start [Block 1016 false] 65535 8 h' start_reach ltac:(lia) E) as (bs' & s & Hr & Ho & _ & Hs).
  exists h', bs', s. split; [exact E|]. split; [exact Hr|]. split; [exact Ho|]. apply Hs. lia.
Defined.
