(* ===== verification/Pbuf.v ===== *)
(** * Packet buffers of lwIP (pbuf.c, memp.c)

    A [struct pbuf] is an element of a pool or a block of the heap.  The pools are
    linked through the first word of their free elements, which is the [next]
    field of a pbuf: [memp_free] overwrites it.  [store] holds the structs by
    place and [data] the bytes of their payload areas; the heap is that of
    Heap.v.  Sizes are those of the port's lwipopts.h and of the 32-bit target. *)
From stdpp Require Import base tactics list numbers option.
From S2P Require Import Prelude Heap.

Inductive pool : Set := MEMP_UDP_PCB | MEMP_ARP_QUEUE | MEMP_PBUF | MEMP_PBUF_POOL.
#[export] Instance pool_eq_dec : EqDecision pool.
Proof. solve_decision. Defined.

(** Element [i] of a pool, or the heap block at an offset of [ram]. *)
Inductive place : Set := Elem (t : pool) (i : nat) | InHeap (off : Z).
#[export] Instance place_eq_dec : EqDecision place.
Proof. solve_decision. Defined.

Inductive pbuf_type : Set := PBUF_RAM | PBUF_ROM | PBUF_REF | PBUF_POOL.
#[export] Instance pbuf_type_eq_dec : EqDecision pbuf_type.
Proof. solve_decision. Defined.
Inductive pbuf_layer : Set := PBUF_TRANSPORT | PBUF_IP | PBUF_LINK | PBUF_RAW.

(** [payload] is an offset from the struct for [PBUF_RAM] and [PBUF_POOL], an
    address for [PBUF_ROM] and [PBUF_REF]. *)
Record pbuf := mkPbuf {
  p_next : option place;
  payload : Z;
  tot_len : Z;
  len : Z;
  type : pbuf_type;
  flags : Z;
  ref : Z }.

Definition sizeof_struct_pbuf : Z := 16.
Definition SIZEOF_STRUCT_PBUF : Z := Eval vm_compute in LWIP_MEM_ALIGN_SIZE sizeof_struct_pbuf.
Definition PBUF_POOL_SIZE : nat := 10.
Definition MEMP_NUM_PBUF : nat := 10.
Definition MEMP_NUM_ARP_QUEUE : nat := 30.
Definition MEMP_NUM_UDP_PCB : nat := 4.
Definition PBUF_POOL_BUFSIZE : Z := 256.
Definition PBUF_POOL_BUFSIZE_ALIGNED : Z := Eval vm_compute in LWIP_MEM_ALIGN_SIZE PBUF_POOL_BUFSIZE.
Definition PBUF_TRANSPORT_HLEN : Z := 20.
Definition PBUF_IP_HLEN : Z := 20.
Definition PBUF_LINK_HLEN : Z := 14.

Record net := mkNet {
  hp : heap;
  memp_tab : pool -> option place;
  store : place -> pbuf;
  data : place -> Z -> Z }.

Definition NM (A : Type) : Type := net -> option (A * net).
#[export] Instance NM_ret : MRet NM := fun A a s => Some (a, s).
#[export] Instance NM_bind : MBind NM := fun A B k m s =>
  match m s with Some (a, s) => k a s | None => None end.

Definition nget {A} (f : net -> A) : NM A := fun s => Some (f s, s).
Definition nwhen (b : bool) (m : NM unit) : NM unit := if b then m else mret tt.
Definition set_store (f : place -> pbuf) (s : net) : net := mkNet (hp s) (memp_tab s) f (data s).
Definition set_tab (t : pool) (v : option place) (s : net) : net :=
  mkNet (hp s) (fun u => if decide (u = t) then v else memp_tab s u) (store s) (data s).
Definition put_tab (t : pool) (v : option place) : NM unit := fun s => Some (tt, set_tab t v s).
(** A call of mem.c. *)
Definition on_heap {A} (m : HM A) : NM A := fun s =>
  match m (hp s) with
  | Some (a, h) => Some (a, mkNet h (memp_tab s) (store s) (data s))
  | None => None
  end.

Definition getp (p : place) : NM pbuf := nget (fun s => store s p).
Definition putp (p : place) (b : pbuf) : NM unit :=
  fun s => Some (tt, set_store (fun q => if decide (q = p) then b else store s q) s).
Definition upd_next (v : option place) (b : pbuf) : pbuf :=
  mkPbuf v (payload b) (tot_len b) (len b) (type b) (flags b) (ref b).
Definition upd_payload (v : Z) (b : pbuf) : pbuf :=
  mkPbuf (p_next b) v (tot_len b) (len b) (type b) (flags b) (ref b).
Definition upd_tot (v : Z) (b : pbuf) : pbuf :=
  mkPbuf (p_next b) (payload b) (u16 v) (len b) (type b) (flags b) (ref b).
Definition upd_len (v : Z) (b : pbuf) : pbuf :=
  mkPbuf (p_next b) (payload b) (tot_len b) (u16 v) (type b) (flags b) (ref b).
Definition upd_ref (v : Z) (b : pbuf) : pbuf :=
  mkPbuf (p_next b) (payload b) (tot_len b) (len b) (type b) (flags b) (u16 v).
Definition setp (p : place) (f : pbuf -> pbuf) : NM unit := b ← getp p; putp p (f b).

(** ** memp.c *)

(** The elements of a pool of [n], pushed in order. *)
Fixpoint memp_link (t : pool) (n i : nat) : NM unit :=
  match n with
  | O => mret tt
  | S n =>
      v ← nget (fun s => memp_tab s t);
      setp (Elem t i) (upd_next v);;
      put_tab t (Some (Elem t i));;
      memp_link t n (S i)
  end.
Definition memp_num (t : pool) : nat :=
  match t with
  | MEMP_UDP_PCB => MEMP_NUM_UDP_PCB | MEMP_ARP_QUEUE => MEMP_NUM_ARP_QUEUE
  | MEMP_PBUF => MEMP_NUM_PBUF | MEMP_PBUF_POOL => PBUF_POOL_SIZE
  end.
Definition memp_init_pool (t : pool) : NM unit :=
  put_tab t None;;
  memp_link t (memp_num t) 0.
Definition memp_init : NM unit :=
  memp_init_pool MEMP_UDP_PCB;; memp_init_pool MEMP_ARP_QUEUE;; memp_init_pool MEMP_PBUF;; memp_init_pool MEMP_PBUF_POOL.

Definition memp_malloc (t : pool) : NM (option place) :=
  e ← nget (fun s => memp_tab s t);
  match e with
  | None => mret None
  | Some m =>
      b ← getp m;
      put_tab t (p_next b);;
      mret (Some m)
  end.
Definition memp_free (t : pool) (m : place) : NM unit :=
  v ← nget (fun s => memp_tab s t);
  setp m (upd_next v);;
  put_tab t (Some m).

(** ** pbuf.c *)

(** A chain has at most as many turns as there are bytes in it, or pbufs. *)
Definition pbuf_fuel : nat := 300.
Arguments pbuf_fuel : simpl never.

Fixpoint free_loop (fuel : nat) (p : option place) (count : Z) : NM Z :=
  match fuel with
  | O => fun _ => None
  | S fuel =>
      match p with
      | None => mret count
      | Some p =>
          setp p (fun b => upd_ref (ref b - 1) b);;
          b ← getp p;
          if ref b =? 0 then
            let q := p_next b in
            (match type b with
             | PBUF_POOL => memp_free MEMP_PBUF_POOL p
             | PBUF_ROM | PBUF_REF => memp_free MEMP_PBUF p
             | PBUF_RAM => on_heap (mem_free (match p with InHeap o => Some o | Elem _ _ => None end))
             end);;
            free_loop fuel q (u8 (count + 1))
          else free_loop fuel None count
      end
  end.
Definition pbuf_free (p : option place) : NM Z := free_loop pbuf_fuel p 0.

Definition layer_offset (layer : pbuf_layer) : Z :=
  match layer with
  | PBUF_TRANSPORT => PBUF_TRANSPORT_HLEN + PBUF_IP_HLEN + PBUF_LINK_HLEN
  | PBUF_IP => PBUF_IP_HLEN + PBUF_LINK_HLEN
  | PBUF_LINK => PBUF_LINK_HLEN
  | PBUF_RAW => 0
  end.

(** [while (rem_len > 0)]: [p] is the head of the chain, [r] its last pbuf. *)
Fixpoint pool_loop (fuel : nat) (p r : place) (rem_len : Z) : NM bool :=
  match fuel with
  | O => fun _ => None
  | S fuel =>
      if rem_len >? 0 then
        q ← memp_malloc MEMP_PBUF_POOL;
        match q with
        | None => pbuf_free (Some p);; mret false
        | Some q =>
            setp q (fun b => mkPbuf None (payload b) (tot_len b) (len b) PBUF_POOL 0 (ref b));;
            setp r (upd_next (Some q));;
            setp q (upd_tot rem_len);;
            setp q (upd_len (Z.min (u16 rem_len) PBUF_POOL_BUFSIZE_ALIGNED));;
            setp q (upd_payload SIZEOF_STRUCT_PBUF);;
            setp q (upd_ref 1);;
            b ← getp q;
            pool_loop fuel p q (rem_len - len b)
        end
      else mret true
  end.

(** [p->ref = 1; p->flags = 0;] at the end of [pbuf_alloc]. *)
Definition finish (p : place) : NM (option place) :=
  setp p (fun b => mkPbuf (p_next b) (payload b) (tot_len b) (len b) (type b) 0 1);;
  mret (Some p).

Definition alloc_pool (offset length : Z) : NM (option place) :=
  p ← memp_malloc MEMP_PBUF_POOL;
  match p with
  | None => mret None
  | Some p =>
      setp p (fun b => mkPbuf None (payload b) (tot_len b) (len b) PBUF_POOL (flags b) (ref b));;
      setp p (upd_payload (LWIP_MEM_ALIGN_SIZE (SIZEOF_STRUCT_PBUF + offset)));;
      setp p (upd_tot length);;
      setp p (upd_len (Z.min length (PBUF_POOL_BUFSIZE_ALIGNED - LWIP_MEM_ALIGN_SIZE offset)));;
      setp p (upd_ref 1);;
      b ← getp p;
      ok ← pool_loop pbuf_fuel p p (length - len b);
      if (ok : bool) then finish p else mret None
  end.

Definition alloc_ram (offset length : Z) : NM (option place) :=
  m ← on_heap (mem_malloc
    (u16 (LWIP_MEM_ALIGN_SIZE (SIZEOF_STRUCT_PBUF + offset) + LWIP_MEM_ALIGN_SIZE length)));
  match m with
  | None => mret None
  | Some o =>
      let p := InHeap o in
      setp p (fun b => mkPbuf None (LWIP_MEM_ALIGN_SIZE (SIZEOF_STRUCT_PBUF + offset)) length length
                         PBUF_RAM (flags b) (ref b));;
      finish p
  end.

Definition alloc_ref (t : pbuf_type) (length : Z) : NM (option place) :=
  m ← memp_malloc MEMP_PBUF;
  match m with
  | None => mret None
  | Some p =>
      setp p (fun b => mkPbuf None 0 length length t (flags b) (ref b));;
      finish p
  end.

Definition pbuf_alloc (layer : pbuf_layer) (length : Z) (t : pbuf_type) : NM (option place) :=
  let offset := layer_offset layer in
  match t with
  | PBUF_POOL => alloc_pool offset length
  | PBUF_RAM => alloc_ram offset length
  | PBUF_ROM | PBUF_REF => alloc_ref t length
  end.

(** A successful [pbuf_header] is [true].  The increment is a 16-bit [int]. *)
Definition pbuf_header (p : option place) (increment : Z) : NM bool :=
  match p with
  | None => mret true
  | Some p =>
      if increment =? 0 then mret true
      else
        b ← getp p;
        if (increment <? 0) && (- increment >? len b) then mret false
        else
          let moved := payload b - increment in
          match type b with
          | PBUF_RAM | PBUF_POOL =>
              if moved <? SIZEOF_STRUCT_PBUF then mret false
              else
                setp p (upd_payload moved);;
                setp p (fun b => upd_len (len b + increment) b);;
                setp p (fun b => upd_tot (tot_len b + increment) b);;
                mret true
          | PBUF_REF | PBUF_ROM =>
              if (increment <? 0) && (- increment <=? len b) then
                setp p (upd_payload moved);;
                setp p (fun b => upd_len (len b + increment) b);;
                setp p (fun b => upd_tot (tot_len b + increment) b);;
                mret true
              else mret false
          end
  end.

Definition pbuf_ref (p : option place) : NM unit :=
  match p with None => mret tt | Some p => setp p (fun b => upd_ref (ref b + 1) b) end.

Fixpoint clen_loop (fuel : nat) (p : option place) (n : Z) : NM Z :=
  match fuel with
  | O => fun _ => None
  | S fuel =>
      match p with
      | None => mret n
      | Some q => b ← getp q; clen_loop fuel (p_next b) (u8 (n + 1))
      end
  end.
Definition pbuf_clen (p : option place) : NM Z := clen_loop pbuf_fuel p 0.

Fixpoint cat_loop (fuel : nat) (p t : place) : NM unit :=
  match fuel with
  | O => fun _ => None
  | S fuel =>
      b ← getp p;
      c ← getp t;
      setp p (fun b => upd_tot (tot_len b + tot_len c) b);;
      match p_next b with
      | Some q => cat_loop fuel q t
      | None => setp p (upd_next (Some t))
      end
  end.
Definition pbuf_cat (h t : option place) : NM unit :=
  match h, t with Some h, Some t => cat_loop pbuf_fuel h t | _, _ => mret tt end.
Definition pbuf_chain (h t : option place) : NM unit := pbuf_cat h t;; pbuf_ref t.

Definition pbuf_dechain (p : place) : NM (option place) :=
  b ← getp p;
  match p_next b with
  | None => mret None
  | Some q =>
      setp q (upd_tot (tot_len b - len b));;
      setp p (upd_next None);;
      setp p (fun b => upd_tot (len b) b);;
      tail_gone ← pbuf_free (Some q);
      mret (if tail_gone >? 0 then None else Some q)
  end.

(** [q] and what is left of [rem_len] after the pbufs that stay whole. *)
Fixpoint realloc_walk (fuel : nat) (q : place) (rem_len grow : Z) : NM (place * Z) :=
  match fuel with
  | O => fun _ => None
  | S fuel =>
      b ← getp q;
      if rem_len >? len b then
        setp q (fun b => upd_tot (tot_len b + u16 grow) b);;
        match p_next b with
        | Some r => realloc_walk fuel r (u16 (rem_len - len b)) grow
        | None => fun _ => None
        end
      else mret (q, rem_len)
  end.
Definition pbuf_realloc (p : place) (new_len : Z) : NM unit :=
  b ← getp p;
  if new_len >=? tot_len b then mret tt
  else
    '(q, rem_len) ← realloc_walk pbuf_fuel p new_len (new_len - tot_len b);
    b ← getp q;
    (if decide (type b = PBUF_RAM) then
       if negb (rem_len =? len b) then
         r ← on_heap (mem_realloc (match q with InHeap o => o | Elem _ _ => 0 end) (u16 (payload b + rem_len)));
         match r with Some _ => mret tt | None => fun _ => None end
       else mret tt
     else mret tt);;
    setp q (upd_len rem_len);;
    setp q (fun b => upd_tot (len b) b);;
    b ← getp q;
    (match p_next b with Some r => pbuf_free (Some r);; mret tt | None => mret tt end);;
    setp q (upd_next None).

(** *** Payloads *)

Definition ld_data (p : place) (o n : Z) : NM bytes :=
  nget (fun s => (fun i => data s p (o + i)) <$> seqZ 0 n).
Definition st_data (p : place) (o : Z) (bs : bytes) : NM unit := fun s =>
  Some (tt, mkNet (hp s) (memp_tab s) (store s)
    (fun q i => if decide (q = p) then
                  if (o <=? i) && (i <? o + blen bs) then default 0 (rd bs (i - o)) else data s q i
                else data s q i)).

(** [dataptr] is what the buffer of the caller holds from its start. *)
Fixpoint take_loop (fuel : nat) (p : option place) (dataptr : bytes) (total copied : Z) : NM Z :=
  match fuel with
  | O => fun _ => None
  | S fuel =>
      if total =? 0 then mret copied
      else
        match p with
        | None => fun _ => None
        | Some q =>
            b ← getp q;
            let n := if total >? len b then len b else total in
            match rdn dataptr copied n with
            | None => fun _ => None
            | Some bs =>
                st_data q (payload b) bs;;
                take_loop fuel (p_next b) dataptr (u16 (total - n)) (u16 (copied + n))
            end
        end
  end.
(** [true]: ERR_OK. *)
Definition pbuf_take (buf : option place) (dataptr : bytes) (n : Z) : NM bool :=
  match buf with
  | None => mret true                      (* LWIP_ERROR returns 0, which is ERR_OK *)
  | Some p =>
      b ← getp p;
      if tot_len b <? n then mret false
      else take_loop pbuf_fuel buf dataptr n 0;; mret true
  end.

(** The bytes copied, in the order of the chain. *)
Fixpoint copy_loop (fuel : nat) (p : option place) (n offset : Z) : NM bytes :=
  match fuel with
  | O => fun _ => None
  | S fuel =>
      match p with
      | None => mret []
      | Some q =>
          if n =? 0 then mret []
          else
            b ← getp q;
            if negb (offset =? 0) && (offset >=? len b) then
              copy_loop fuel (p_next b) n (u16 (offset - len b))
            else
              let k := u16 (len b - offset) in
              let k := if k >? n then n else k in
              bs ← ld_data q (payload b + offset) k;
              rest ← copy_loop fuel (p_next b) (u16 (n - k)) 0;
              mret (bs ++ rest)
      end
  end.
Definition pbuf_copy_partial (buf : option place) (n offset : Z) : NM bytes :=
  copy_loop pbuf_fuel buf n offset.

(** *** Copying a chain *)

(** Is there a packet behind the last pbuf of this one? *)
Definition queued_behind (p : option place) : NM bool :=
  match p with
  | None => mret false
  | Some p => b ← getp p; mret ((len b =? tot_len b) && bool_decide (is_Some (p_next b)))
  end.
Fixpoint pbuf_copy_loop (fuel : nat) (p_to p_from : option place) (offset_to offset_from : Z) : NM Z :=
  match fuel with
  | O => fun _ => None
  | S fuel =>
      match p_to, p_from with
      | Some t, Some f =>
          bt ← getp t;
          bf ← getp f;
          let n := u16 (if len bt - offset_to >=? len bf - offset_from
                        then len bf - offset_from else len bt - offset_to) in
          src ← ld_data f (payload bf + offset_from) n;
          st_data t (payload bt + offset_to) src;;
          let offset_to := u16 (offset_to + n) in
          let offset_from := u16 (offset_from + n) in
          let '(p_to, offset_to) := if offset_to =? len bt then (p_next bt, 0) else (Some t, offset_to) in
          let '(p_from, offset_from) :=
            if offset_from >=? len bf then (p_next bf, 0) else (Some f, offset_from) in
          bad ← queued_behind p_from;
          if (bad : bool) then mret (-9)                (* ERR_VAL *)
          else
            bad ← queued_behind p_to;
            if (bad : bool) then mret (-9)
            else
              match p_from with
              | None => mret 0                         (* ERR_OK *)
              | Some _ => pbuf_copy_loop fuel p_to p_from offset_to offset_from
              end
      | _, _ => fun _ => None
      end
  end.
Definition pbuf_copy (p_to p_from : option place) : NM Z :=
  match p_to, p_from with
  | Some t, Some f =>
      bt ← getp t;
      bf ← getp f;
      if tot_len bt <? tot_len bf then mret (-10)      (* ERR_ARG *)
      else pbuf_copy_loop (2 * pbuf_fuel) p_to p_from 0 0
  | _, _ => mret (-10)
  end.
