(* ===== verification/PbufSpec.v ===== *)
(** * Chains of packet buffers

    What pbuf.c promises of a chain: [pbuf_alloc] gives buffers with room for
    the length asked or gives none and loses none; [pbuf_free] frees the
    buffers nobody else refers to, and puts them back in their pool; what
    [pbuf_take] writes [pbuf_copy_partial] reads. *)
From stdpp Require Import base tactics list numbers option.
From S2P Require Import Prelude Heap HeapSpec HeapOps HeapSafe Pbuf.

(** The places of a list linked through [next], from [p]. *)
Fixpoint chain (f : place -> pbuf) (p : option place) (ps : list place) : Prop :=
  match ps with
  | [] => p = None
  | q :: qs => p = Some q /\ chain f (p_next (f q)) qs
  end.

Lemma chain_ext f g p ps :
  (forall q, q ∈ ps -> p_next (g q) = p_next (f q)) -> chain f p ps -> chain g p ps.
Proof.
  revert p. induction ps as [|q qs IH]; intros p Hs; simpl; [done|]. intros [-> Hc]. split; [done|].
  rewrite Hs by (by left). apply IH; [|done]. intros x Hx. apply Hs. by right.
Qed.
(** ** Steps *)

Lemma nbind {A B} (m : NM A) (k : A -> NM B) s a s' : m s = Some (a, s') -> (m ≫= k) s = k a s'.
Proof. intros E. unfold mbind, NM_bind. by rewrite E. Qed.

Definition stored (p : place) (b : pbuf) (s : net) : net :=
  set_store (fun q => if decide (q = p) then b else store s q) s.
Lemma setp_bind {B} p f (k : unit -> NM B) s : (setp p f ≫= k) s = k tt (stored p (f (store s p)) s).
Proof. done. Qed.
Lemma getp_bind {B} p (k : pbuf -> NM B) s : (getp p ≫= k) s = k (store s p) s.
Proof. done. Qed.
Lemma nget_bind {A B} (f : net -> A) (k : A -> NM B) s : (nget f ≫= k) s = k (f s) s.
Proof. done. Qed.
Lemma put_tab_bind {B} t v (k : unit -> NM B) s : (put_tab t v ≫= k) s = k tt (set_tab t v s).
Proof. done. Qed.
Lemma stored_eq p b s : store (stored p b s) p = b.
Proof. simpl. by destruct (decide (p = p)). Qed.
Lemma stored_ne p q b s : q <> p -> store (stored p b s) q = store s q.
Proof. simpl. intros. by destruct (decide (q = p)). Qed.

(** What an operation on the pool leaves alone. *)
Record same_but (t : pool) (s s' : net) : Prop := {
  sb_hp : hp s' = hp s;
  sb_data : data s' = data s;
  sb_tab : forall u, u <> t -> memp_tab s' u = memp_tab s u }.
Lemma same_refl t s : same_but t s s.
Proof. done. Qed.
Lemma same_trans t s1 s2 s3 : same_but t s1 s2 -> same_but t s2 s3 -> same_but t s1 s3.
Proof. intros [H1 D1 T1] [H2 D2 T2]. split; [congruence..|]. intros u Hu. by rewrite T2, T1. Qed.
Lemma same_stored t p b s : same_but t s (stored p b s).
Proof. done. Qed.
Lemma same_tab t v s : same_but t s (set_tab t v s).
Proof. split; [done..|]. simpl. intros u Hu. by destruct (decide (u = t)). Qed.
Lemma tab_eq t v s : memp_tab (set_tab t v s) t = v.
Proof. simpl. by destruct (decide (t = t)). Qed.

Definition pool_of (t : pbuf_type) : option pool :=
  match t with PBUF_POOL => Some MEMP_PBUF_POOL | PBUF_ROM | PBUF_REF => Some MEMP_PBUF | PBUF_RAM => None end.

(** ** Freeing a chain *)

(** One turn that frees a pbuf of the pool [t]. *)
Lemma free_turn fuel p count s t :
  pool_of (type (store s p)) = Some t -> ref (store s p) = 1 ->
  exists s', free_loop (S fuel) (Some p) count s = free_loop fuel (p_next (store s p)) (u8 (count + 1)) s'
    /\ same_but t s s' /\ memp_tab s' t = Some p /\ p_next (store s' p) = memp_tab s t
    /\ forall q, q <> p -> store s' q = store s q.
Proof.
  intros Ht Hr. cbn [free_loop]. rewrite setp_bind, getp_bind, stored_eq.
  set (s1 := stored p _ s). change (ref (upd_ref _ _)) with (u16 (ref (store s p) - 1)).
  rewrite Hr. simpl Z.eqb. cbv iota zeta.
  change (type (upd_ref _ _)) with (type (store s p)).
  change (p_next (upd_ref _ _)) with (p_next (store s p)).
  exists (set_tab t (Some p) (stored p (upd_next (memp_tab s t) (store s1 p)) s1)).
  split; [|split_and!].
  - unfold pool_of in Ht. destruct (type (store s p)); [done|..]; by injection Ht as <-.
  - eapply same_trans; [apply same_stored|]. eapply same_trans; [apply same_stored|apply same_tab].
  - apply tab_eq.
  - change (store (set_tab _ _ ?s)) with (store s). by rewrite stored_eq.
  - intros q Hq. change (store (set_tab _ _ ?s)) with (store s).
    subst s1. by rewrite !stored_ne by done.
Qed.

(** The buffers [ps] at the front of a chain, each with one reference. *)
Lemma free_prefix_run t ps : forall fuel p count s fl rest,
  chain (store s) p (ps ++ rest) -> NoDup (ps ++ rest) ->
  Forall (fun q => pool_of (type (store s q)) = Some t /\ ref (store s q) = 1) ps ->
  chain (store s) (memp_tab s t) fl -> (forall q, q ∈ ps ++ rest -> q ∉ fl) ->
  (length ps <= fuel)%nat -> 0 <= count -> count + Z.of_nat (length ps) < 256 ->
  exists s' q, free_loop fuel p count s
      = free_loop (fuel - length ps)%nat q (count + Z.of_nat (length ps)) s'
    /\ chain (store s') q rest /\ same_but t s s'
    /\ chain (store s') (memp_tab s' t) (rev ps ++ fl)
    /\ forall x, x ∉ ps -> store s' x = store s x.
Proof.
  induction ps as [|x ps IH]; intros fuel p count s fl rest Hc Hnd Hps Hfl Hdis Hfu Hcnt Hmax.
  { exists s, p. simpl. rewrite Nat.sub_0_r, Z.add_0_r. done. }
  destruct fuel as [|fuel]; [simpl in Hfu; lia|]. simpl in Hc. destruct Hc as [-> Hc].
  apply Forall_cons_1 in Hps as [[Ht Hr] Hps]. cbn [app] in *.
  pose proof (NoDup_cons_1_1 _ _ Hnd) as Hx. apply NoDup_cons_1_2 in Hnd.
  destruct (free_turn fuel x count s t Ht Hr) as (s1 & E1 & S1 & T1 & N1 & O1).
  simpl length in *. assert (Hne : forall q, q ∈ ps ++ rest -> q <> x) by (intros q Hq ->; done).
  rewrite E1, u8_small by lia.
  destruct (IH fuel (p_next (store s x)) (count + 1) s1 (x :: fl) rest) as (s2 & q & E2 & C2 & S2 & F2 & O2).
  - apply (chain_ext (store s)); [|done]. intros y Hy. by rewrite O1 by auto.
  - done.
  - rewrite Forall_forall in *. intros y Hy. rewrite O1; [by apply Hps|].
    apply Hne, elem_of_app. left. by apply list_elem_of_In.
  - rewrite T1. split; [done|]. rewrite N1. apply (chain_ext (store s)); [|done].
    intros y Hy. rewrite O1; [done|]. intros ->. by apply (Hdis x); [left|].
  - intros y Hy [->|Hy']%elem_of_cons; [by apply Hx|]. by apply (Hdis y); [right|].
  - lia.
  - lia.
  - lia.
  - exists s2, q. split; [|split_and!].
    + rewrite E2. simpl. f_equal. lia.
    + done.
    + by eapply same_trans.
    + simpl. rewrite <- app_assoc. exact F2.
    + intros y Hy. apply not_elem_of_cons in Hy as [Hy1 Hy2]. by rewrite O2, O1.
Qed.

Lemma elem_of_reverse' {A} (x : A) l : x ∈ rev l -> x ∈ l.
Proof. intros H. by apply list_elem_of_In, in_rev, list_elem_of_In. Qed.

(** The free elements of a pool. *)
Definition free_list (s : net) (t : pool) (fl : list place) : Prop :=
  chain (store s) (memp_tab s t) fl /\ NoDup fl.

(** A chain nobody else refers to goes back to its pool as a whole. *)
Lemma pbuf_free_all (s : net) (t : pool) (p : place) (ps fl : list place) :
  chain (store s) (Some p) ps -> NoDup ps ->
  Forall (fun q => pool_of (type (store s q)) = Some t /\ ref (store s q) = 1) ps ->
  free_list s t fl -> (forall q, q ∈ ps -> q ∉ fl) -> (length ps < 256)%nat ->
  exists s', pbuf_free (Some p) s = Some (Z.of_nat (length ps), s')
    /\ free_list s' t (rev ps ++ fl) /\ same_but t s s'
    /\ forall q, q ∉ ps -> store s' q = store s q.
Proof.
  intros Hc Hnd Hps [Hfl Hndf] Hdis Hlen. unfold pbuf_free.
  destruct (free_prefix_run t ps pbuf_fuel (Some p) 0 s fl []) as (s1 & q & E & Cq & S1 & F1 & O1);
    rewrite ?app_nil_r; try done; try (unfold pbuf_fuel; lia).
  exists s1. rewrite E. replace (0 + Z.of_nat (length ps)) with (Z.of_nat (length ps)) by lia.
  destruct (pbuf_fuel - length ps)%nat as [|fuel] eqn:Ef; [unfold pbuf_fuel in Ef; lia|].
  simpl in Cq. subst q. split_and!; try done. split; [done|].
  apply list.NoDup_app. split_and!; [|intros x Hx%elem_of_reverse'; by apply Hdis|done].
  apply NoDup_ListNoDup, List.NoDup_rev, NoDup_ListNoDup. done.
Qed.

(** C15: [pbuf_free] on a chain of pool buffers frees those at its
    front that have a single reference and returns their number; they are back
    in their pool, whose list stays without repetition, and the first buffer
    that others still refer to loses one reference and stops it.  Nothing else
    changes. *)
Theorem pbuf_free_chain (s : net) (t : pool) (p : place) (ps rest fl : list place) :
  chain (store s) (Some p) (ps ++ rest) -> NoDup (ps ++ rest) ->
  Forall (fun q => pool_of (type (store s q)) = Some t /\ ref (store s q) = 1) ps ->
  match rest with [] => True | x :: _ => 2 <= ref (store s x) < 65536 end ->
  free_list s t fl -> (forall q, q ∈ ps ++ rest -> q ∉ fl) -> (length ps < 256)%nat ->
  exists s', pbuf_free (Some p) s = Some (Z.of_nat (length ps), s')
    /\ free_list s' t (rev ps ++ fl) /\ same_but t s s'
    /\ match rest with
       | [] => True
       | x :: _ => store s' x = upd_ref (ref (store s x) - 1) (store s x)
       end
    /\ forall q, q ∉ ps -> head rest <> Some q -> store s' q = store s q.
Proof.
  intros Hc Hnd Hps Hrest [Hfl Hndf] Hdis Hlen. unfold pbuf_free.
  destruct (free_prefix_run t ps pbuf_fuel (Some p) 0 s fl rest) as (s1 & q & E & Cq & S1 & F1 & O1);
    try done; try (unfold pbuf_fuel; lia).
  assert (Hnd' : NoDup (rev ps ++ fl)).
  { apply list.NoDup_app. split_and!.
    - apply NoDup_ListNoDup, List.NoDup_rev, NoDup_ListNoDup. by apply list.NoDup_app in Hnd as [? _].
    - intros x Hx%elem_of_reverse'. apply Hdis, elem_of_app. by left.
    - done. }
  rewrite E. replace (0 + Z.of_nat (length ps)) with (Z.of_nat (length ps)) by lia.
  destruct (pbuf_fuel - length ps)%nat as [|fuel] eqn:Ef; [unfold pbuf_fuel in Ef; lia|].
  destruct rest as [|x rest].
  - simpl in Cq. subst q. exists s1. split_and!; try done.
    intros q Hq _. by apply O1.
  - destruct Cq as [-> Cq].
    assert (Hx : x ∉ ps) by (intros Hx; apply list.NoDup_app in Hnd as (_ & Hd & _); apply (Hd x Hx); by left).
    exists (stored x (upd_ref (ref (store s x) - 1) (store s x)) s1). split_and!.
    + cbn [free_loop]. rewrite setp_bind, getp_bind, stored_eq. rewrite (O1 x Hx).
      change (ref (upd_ref _ _)) with (u16 (ref (store s x) - 1)). rewrite u16_small by lia.
      destruct (Z.eqb_spec (ref (store s x) - 1) 0); [lia|].
      destruct fuel as [|fuel]; [unfold pbuf_fuel in Ef; lia|]. done.
    + split; [|done]. apply (chain_ext (store s1)); [|exact F1].
      intros y Hy. rewrite stored_ne; [done|]. intros ->. apply elem_of_app in Hy as [Hy|Hy].
      * apply elem_of_reverse' in Hy. done.
      * apply (Hdis x); [|done]. apply elem_of_app. right. by left.
    + eapply same_trans; [exact S1|apply same_stored].
    + by rewrite stored_eq.
    + intros q Hq Hq'. rewrite stored_ne; [by apply O1|]. intros ->. by apply Hq'.
Qed.

(** ** Allocating from the pool *)

(** A buffer of a chain: its place, [tot_len] and [len]. *)
Definition cell : Type := place * Z * Z.
Definition where_ (c : cell) : place := fst (fst c).
Definition tot_of (c : cell) : Z := snd (fst c).
Definition len_of (c : cell) : Z := snd c.

(** The buffers after the first, for [rem] bytes, out of the free elements
    [fl]; and what is left of those. *)
Fixpoint tail_cells (fl : list place) (rem : Z) : option (list cell * list place) :=
  if rem <=? 0 then Some ([], fl)
  else match fl with
       | [] => None
       | q :: fl =>
           let l := Z.min rem PBUF_POOL_BUFSIZE_ALIGNED in
           '(cs, rest) ← tail_cells fl (rem - l); Some ((q, rem, l) :: cs, rest)
       end.

(** The store holds the chain [cs] of pool buffers. *)
Fixpoint holds (f : place -> pbuf) (p : option place) (cs : list cell) : Prop :=
  match cs with
  | [] => p = None
  | (q, t, l) :: cs =>
      p = Some q /\ f q = mkPbuf (p_next (f q)) SIZEOF_STRUCT_PBUF t l PBUF_POOL 0 1
      /\ holds f (p_next (f q)) cs
  end.
Lemma holds_ext f g p cs : (forall c, c ∈ cs -> g (where_ c) = f (where_ c)) -> holds f p cs -> holds g p cs.
Proof.
  revert p. induction cs as [|[[q t] l] cs IH]; intros p Hs; simpl; [done|]. intros (-> & Hq & Hc).
  pose proof (Hs (q, t, l) ltac:(by left)) as Hg. unfold where_ in Hg. simpl in Hg.
  split; [done|]. rewrite Hg. split; [done|].
  apply IH; [|done]. intros c Hc'. apply Hs. by right.
Qed.

(** [memp_malloc] takes the first free element. *)
Lemma malloc_elem s t q fl :
  chain (store s) (memp_tab s t) (q :: fl) ->
  exists s1, memp_malloc t s = Some (Some q, s1) /\ store s1 = store s /\ same_but t s s1
    /\ chain (store s1) (memp_tab s1 t) fl.
Proof.
  intros [Hq Hc]. exists (set_tab t (p_next (store s q)) s). split_and!.
  - unfold memp_malloc. rewrite nget_bind, Hq. done.
  - done.
  - apply same_tab.
  - by rewrite tab_eq.
Qed.

(** One turn of [pool_loop] appends [q] to the chain after [r]. *)
Lemma pool_turn fuel p r rem s q fl :
  chain (store s) (memp_tab s MEMP_PBUF_POOL) (q :: fl) -> NoDup (r :: q :: fl) -> 0 < rem < 65536 ->
  let l := Z.min rem PBUF_POOL_BUFSIZE_ALIGNED in
  exists s1, pool_loop (S fuel) p r rem s = pool_loop fuel p q (rem - l) s1
    /\ chain (store s1) (memp_tab s1 MEMP_PBUF_POOL) fl /\ same_but MEMP_PBUF_POOL s s1
    /\ store s1 q = mkPbuf None SIZEOF_STRUCT_PBUF rem l PBUF_POOL 0 1
    /\ store s1 r = upd_next (Some q) (store s r)
    /\ forall x, x <> r -> x <> q -> store s1 x = store s x.
Proof.
  intros Hc Hnd Hrem l. destruct (malloc_elem s MEMP_PBUF_POOL q fl Hc) as (s0 & E0 & St & S0 & C0).
  assert (Hqr : q <> r) by (intros ->; apply (NoDup_cons_1_1 _ _ Hnd); by left).
  assert (Hqf : q ∉ fl) by (by apply NoDup_cons_1_2, NoDup_cons_1_1 in Hnd).
  assert (Hrf : r ∉ fl) by (intros Hr; apply (NoDup_cons_1_1 _ _ Hnd); by right).
  cbn [pool_loop]. rewrite (Z.gtb_ltb rem 0). destruct (Z.ltb_spec 0 rem); [|lia].
  rewrite (nbind _ _ _ _ _ E0). cbv iota. rewrite !setp_bind, getp_bind.
  set (s1 := stored q _ _). exists s1.
  assert (Hq : store s1 q = mkPbuf None SIZEOF_STRUCT_PBUF rem l PBUF_POOL 0 1).
  { subst s1. repeat first [rewrite stored_eq | rewrite stored_ne by congruence]. unfold upd_ref, upd_payload, upd_len, upd_tot. simpl.
    rewrite (u16_small rem) by lia. rewrite (u16_small (Z.min _ _)) by (unfold PBUF_POOL_BUFSIZE_ALIGNED; lia).
    done. }
  assert (Hr : store s1 r = upd_next (Some q) (store s r)).
  { subst s1. repeat first [rewrite stored_eq | rewrite stored_ne by congruence]. by rewrite St. }
  assert (Ho : forall x, x <> r -> x <> q -> store s1 x = store s x).
  { intros x Hx1 Hx2. subst s1. rewrite !stored_ne by done. by rewrite St. }
  split_and!; try done.
  - rewrite Hq. done.
  - change (memp_tab s1) with (memp_tab s0). apply (chain_ext (store s0)); [|done].
    intros x Hx. rewrite St, Ho; [done| |]; intros ->; done.
  - eapply same_trans; [exact S0|]. done.
Qed.

Lemma pool_loop_run fl : forall fuel p r rem s,
  chain (store s) (memp_tab s MEMP_PBUF_POOL) fl -> NoDup (r :: fl) -> p_next (store s r) = None ->
  0 <= rem < 65536 -> (length fl < fuel)%nat ->
  exists s1, same_but MEMP_PBUF_POOL s s1 /\ (forall x, x ∉ r :: fl -> store s1 x = store s x)
  /\ store s1 r = upd_next (p_next (store s1 r)) (store s r)
  /\ match tail_cells fl rem with
     | Some (cs, rest) =>
         pool_loop fuel p r rem s = Some (true, s1) /\ holds (store s1) (p_next (store s1 r)) cs
         /\ chain (store s1) (memp_tab s1 MEMP_PBUF_POOL) rest /\ fl = map where_ cs ++ rest
     | None =>
         pool_loop fuel p r rem s = (pbuf_free (Some p);; mret false) s1
         /\ chain (store s1) (p_next (store s1 r)) fl /\ memp_tab s1 MEMP_PBUF_POOL = None
         /\ Forall (fun q => type (store s1 q) = PBUF_POOL /\ ref (store s1 q) = 1) fl
     end.
Proof.
  induction fl as [|q fl IH]; intros fuel p r rem s Hc Hnd Hr Hrem Hfu;
    (destruct fuel as [|fuel]; [simpl in Hfu; lia|]); cbn [tail_cells].
  - exists s. destruct (Z.leb_spec rem 0) as [Hle|Hgt]; cbn [pool_loop]; rewrite (Z.gtb_ltb rem 0);
      destruct (Z.ltb_spec 0 rem); try lia; split_and!; try done; try (by destruct (store s r); simpl in *; subst).
    simpl in Hc. unfold memp_malloc. rewrite (nbind _ _ s None s); [done|]. by rewrite nget_bind, Hc.
  - destruct (Z.leb_spec rem 0) as [Hle|Hgt].
    + exists s. cbn [pool_loop]. rewrite (Z.gtb_ltb rem 0). destruct (Z.ltb_spec 0 rem); [lia|].
      split_and!; try done. by destruct (store s r); simpl in *; subst.
    + destruct (pool_turn fuel p r rem s q fl Hc Hnd ltac:(lia)) as (s1 & E1 & C1 & S1 & Q1 & R1 & O1).
      set (l := Z.min rem PBUF_POOL_BUFSIZE_ALIGNED) in *.
      pose proof (NoDup_cons_1_2 _ _ Hnd) as Hnd'.
      assert (Hrf : r ∉ q :: fl) by exact (NoDup_cons_1_1 _ _ Hnd).
      destruct (IH fuel p q (rem - l) s1) as (s2 & S2 & O2 & Q2 & Hm);
        [done|done|by rewrite Q1|unfold l, PBUF_POOL_BUFSIZE_ALIGNED; lia|simpl in Hfu; lia|].
      exists s2. assert (R2 : store s2 r = store s1 r) by (apply O2; done).
      split_and!.
      * by eapply same_trans.
      * intros x Hx. apply not_elem_of_cons in Hx as [Hx1 Hx2]. rewrite (O2 x Hx2).
        apply O1; [done|]. intros ->. apply Hx2. by left.
      * rewrite R2, R1. done.
      * rewrite R2, R1, E1. cbn [upd_next p_next]. rewrite Q1 in Q2. cbn [upd_next payload tot_len len type flags ref] in Q2.
        destruct (tail_cells fl (rem - l)) as [[cs rest]|] eqn:Et; simpl.
        -- destruct Hm as (E2 & H2 & C2 & ->). split_and!; done.
        -- destruct Hm as (E2 & H2 & C2 & F2). split_and!; try done.
           apply Forall_cons_2; [|done]. rewrite Q2. done.
Qed.

(** Every [tot_len] of a chain for [rem] bytes is what the chain holds from
    there, no buffer is empty, and each is full, but for the last, which has the
    rest. *)
Fixpoint suffix_ok (rem : Z) (cs : list cell) : Prop :=
  match cs with
  | [] => rem = 0
  | (_, t, l) :: cs => t = rem /\ 0 < l /\ l = Z.min rem PBUF_POOL_BUFSIZE_ALIGNED /\ suffix_ok (rem - l) cs
  end.

Lemma tail_cells_some fl rem :
  0 <= rem -> match tail_cells fl rem with
  | Some (cs, rest) => suffix_ok rem cs /\ rem <= PBUF_POOL_BUFSIZE_ALIGNED * Z.of_nat (length fl)
  | None => PBUF_POOL_BUFSIZE_ALIGNED * Z.of_nat (length fl) < rem
  end.
Proof.
  revert rem. induction fl as [|q fl IH]; intros rem Hr; cbn [tail_cells];
    destruct (Z.leb_spec rem 0); try (simpl; unfold PBUF_POOL_BUFSIZE_ALIGNED; lia).
  set (l := Z.min rem PBUF_POOL_BUFSIZE_ALIGNED) in *.
  assert (Hl : 0 < l <= PBUF_POOL_BUFSIZE_ALIGNED /\ l <= rem /\ (l = rem \/ l = PBUF_POOL_BUFSIZE_ALIGNED))
    by (unfold l, PBUF_POOL_BUFSIZE_ALIGNED; lia).
  specialize (IH (rem - l) ltac:(lia)). simpl length.
  destruct (tail_cells fl (rem - l)) as [[cs rest]|]; simpl; fold l; clearbody l.
  - destruct IH. unfold PBUF_POOL_BUFSIZE_ALIGNED in *. split_and!; done || lia.
  - unfold PBUF_POOL_BUFSIZE_ALIGNED in *. lia.
Qed.

(** The bytes that [k] free elements can hold for a layer. *)
Definition first_room (layer : pbuf_layer) : Z := PBUF_POOL_BUFSIZE_ALIGNED - LWIP_MEM_ALIGN_SIZE (layer_offset layer).
Definition capacity (layer : pbuf_layer) (k : nat) : Z :=
  match k with O => -1 | S k => first_room layer + PBUF_POOL_BUFSIZE_ALIGNED * Z.of_nat k end.
Lemma first_room_range layer : 200 <= first_room layer <= PBUF_POOL_BUFSIZE_ALIGNED.
Proof. by destruct layer. Qed.

(** The state after the first buffer of [alloc_pool]. *)
Lemma alloc_first s layer n q fl :
  chain (store s) (memp_tab s MEMP_PBUF_POOL) (q :: fl) -> NoDup (q :: fl) -> 0 <= n < 65536 ->
  let l := Z.min n (first_room layer) in
  exists s1 g, alloc_pool (layer_offset layer) n s
      = (ok ← pool_loop pbuf_fuel q q (n - l); if (ok : bool) then finish q else mret None) s1
    /\ store s1 q = mkPbuf None (LWIP_MEM_ALIGN_SIZE (SIZEOF_STRUCT_PBUF + layer_offset layer)) n l PBUF_POOL g 1
    /\ chain (store s1) (memp_tab s1 MEMP_PBUF_POOL) fl /\ same_but MEMP_PBUF_POOL s s1
    /\ forall x, x <> q -> store s1 x = store s x.
Proof.
  intros Hc Hnd Hn l. destruct (malloc_elem s MEMP_PBUF_POOL q fl Hc) as (s0 & E0 & St & S0 & C0).
  pose proof (first_room_range layer) as Hfr. unfold PBUF_POOL_BUFSIZE_ALIGNED in Hfr.
  unfold alloc_pool. fold (first_room layer). rewrite (nbind _ _ _ _ _ E0). cbv iota.
  rewrite !setp_bind, getp_bind. set (s1 := stored q _ _). exists s1, (flags (store s q)).
  assert (Hq : store s1 q
    = mkPbuf None (LWIP_MEM_ALIGN_SIZE (SIZEOF_STRUCT_PBUF + layer_offset layer)) n l PBUF_POOL (flags (store s q)) 1).
  { subst s1. rewrite !stored_eq. unfold upd_ref, upd_payload, upd_len, upd_tot.
    cbn [p_next payload tot_len len type flags ref]. rewrite St.
    rewrite (u16_small n) by lia. by rewrite (u16_small (Z.min n _)) by lia. }
  assert (Ho : forall x, x <> q -> store s1 x = store s x).
  { intros x Hx. subst s1. rewrite !stored_ne by done. by rewrite St. }
  split_and!; try done.
  - by rewrite Hq.
  - change (memp_tab s1) with (memp_tab s0). apply (chain_ext (store s0)); [|done].
    intros x Hx. rewrite St, Ho; [done|]. intros ->. by apply (NoDup_cons_1_1 _ _ Hnd).
  - eapply same_trans; [exact S0|]. done.
Qed.

(** The head of a chain of free elements, as [pbuf_alloc] fills it. *)
Definition first_cell (layer : pbuf_layer) (n : Z) (b : pbuf) : Prop :=
  b = mkPbuf (p_next b) (LWIP_MEM_ALIGN_SIZE (SIZEOF_STRUCT_PBUF + layer_offset layer))
        n (Z.min n (first_room layer)) PBUF_POOL 0 1.

Lemma pool_alloc_ok (s : net) (layer : pbuf_layer) (n : Z) (fl : list place) :
  free_list s MEMP_PBUF_POOL fl -> (length fl < 256)%nat -> 0 <= n < 65536 ->
  n <= capacity layer (length fl) ->
  exists s' q cs rest, pbuf_alloc layer n PBUF_POOL s = Some (Some q, s') /\ same_but MEMP_PBUF_POOL s s'
    /\ fl = q :: map where_ cs ++ rest /\ free_list s' MEMP_PBUF_POOL rest /\ first_cell layer n (store s' q)
    /\ holds (store s') (p_next (store s' q)) cs /\ suffix_ok (n - Z.min n (first_room layer)) cs.
Proof.
  intros [Hc Hnd] Hlen Hn Hcap0. pose proof (first_room_range layer) as Hfr. unfold PBUF_POOL_BUFSIZE_ALIGNED in Hfr.
  unfold pbuf_alloc. destruct fl as [|q fl]; [simpl in Hcap0; lia|].
  destruct (alloc_first s layer n q fl Hc Hnd Hn) as (s1 & g & E1 & Q1 & C1 & S1 & O1).
  set (l := Z.min n (first_room layer)) in *. rewrite E1.
  destruct (pool_loop_run fl pbuf_fuel q q (n - l) s1) as (s2 & S2 & O2 & Q2 & Hm);
    [done|done|by rewrite Q1|unfold l; lia|simpl in Hlen; unfold pbuf_fuel; lia|].
  pose proof (tail_cells_some fl (n - l) ltac:(unfold l; lia)) as Ht.
  rewrite Q1 in Q2. cbn [upd_next payload tot_len len type flags ref] in Q2.
  unfold capacity in Hcap0. simpl length in Hcap0.
  destruct (tail_cells fl (n - l)) as [[cs rest]|]; [|unfold l, PBUF_POOL_BUFSIZE_ALIGNED in *; lia].
  destruct Hm as (E2 & H2 & C2 & ->), Ht as [Ht Hcap]. rewrite (nbind _ _ _ _ _ E2). cbv iota.
  exists (stored q (mkPbuf (p_next (store s2 q)) (payload (store s2 q)) (tot_len (store s2 q))
    (len (store s2 q)) (type (store s2 q)) 0 1) s2), q, cs, rest.
  split; [done|]. split; [eapply same_trans; [exact S1|]; eapply same_trans; [exact S2|apply same_stored]|].
  pose proof (NoDup_cons_1_1 _ _ Hnd) as Hq. pose proof (NoDup_cons_1_2 _ _ Hnd) as Hnd'.
  split_and!; try done.
  - split; [|by apply list.NoDup_app in Hnd' as (_ & _ & ?)]. apply (chain_ext (store s2)); [|done].
    intros x Hx. rewrite stored_ne; [done|]. intros ->. apply Hq, elem_of_app. by right.
  - rewrite stored_eq. unfold first_cell. cbn [p_next]. by rewrite Q2.
  - rewrite stored_eq. cbn [p_next]. apply (holds_ext (store s2)); [|done].
    intros c Hc'. rewrite stored_ne; [done|]. intros Heq. apply Hq, elem_of_app. left.
    rewrite <- Heq. apply list_elem_of_In, in_map, list_elem_of_In. done.
Qed.

Lemma pool_alloc_fail (s : net) (layer : pbuf_layer) (n : Z) (fl : list place) :
  free_list s MEMP_PBUF_POOL fl -> (length fl < 256)%nat -> 0 <= n < 65536 -> capacity layer (length fl) < n ->
  exists s', pbuf_alloc layer n PBUF_POOL s = Some (None, s') /\ same_but MEMP_PBUF_POOL s s'
    /\ free_list s' MEMP_PBUF_POOL (rev fl).
Proof.
  intros [Hc Hnd] Hlen Hn Hcap0. pose proof (first_room_range layer) as Hfr. unfold PBUF_POOL_BUFSIZE_ALIGNED in Hfr.
  unfold pbuf_alloc. destruct fl as [|q fl].
  { exists s. simpl in Hc. split_and!; [|done..]. unfold alloc_pool, memp_malloc. rewrite (nbind _ _ s None s); [done|].
    by rewrite nget_bind, Hc. }
  destruct (alloc_first s layer n q fl Hc Hnd Hn) as (s1 & g & E1 & Q1 & C1 & S1 & O1).
  set (l := Z.min n (first_room layer)) in *. rewrite E1.
  destruct (pool_loop_run fl pbuf_fuel q q (n - l) s1) as (s2 & S2 & O2 & Q2 & Hm);
    [done|done|by rewrite Q1|unfold l; lia|simpl in Hlen; unfold pbuf_fuel; lia|].
  pose proof (tail_cells_some fl (n - l) ltac:(unfold l; lia)) as Ht.
  rewrite Q1 in Q2. cbn [upd_next payload tot_len len type flags ref] in Q2.
  unfold capacity in Hcap0. simpl length in Hcap0.
  destruct (tail_cells fl (n - l)) as [[cs rest]|].
  { destruct Hm as (_ & _ & _ & ->), Ht as [_ Hcap]. unfold l, PBUF_POOL_BUFSIZE_ALIGNED in *. lia. }
  destruct Hm as (E2 & H2 & T2 & F2).
  destruct (pbuf_free_all s2 MEMP_PBUF_POOL q (q :: fl) []) as (s3 & E3 & F3 & S3 & _).
  { split; [done|exact H2]. } { done. }
  { apply Forall_cons_2; [by rewrite Q2|]. eapply Forall_impl; [|exact F2]. intros x [-> ->]. done. }
  { split; [done|constructor]. } { intros x _ Hx. by apply elem_of_nil in Hx. } { done. }
  exists s3. split; [|split].
  - unfold mbind, NM_bind in *. rewrite E2, E3. done.
  - eapply same_trans; [exact S1|]. by eapply same_trans.
  - by rewrite app_nil_r in F3.
Qed.

(** C14: [pbuf_alloc] from the pool always returns.  When the
    free elements have room for the length, it gives a chain of the first of
    them: the headers' room is left in front of the first, which takes as many of
    the bytes as it has room for; every later buffer is full, but for the last,
    which has the rest ([suffix_ok]); each [tot_len] is the sum of the lengths from
    there, each buffer has one reference, and the other elements stay free.
    Otherwise it gives no buffer, and every element is back in the pool. *)
Theorem pbuf_alloc_pool (s : net) (layer : pbuf_layer) (n : Z) (fl : list place) :
  free_list s MEMP_PBUF_POOL fl -> (length fl < 256)%nat -> 0 <= n < 65536 ->
  exists r s', pbuf_alloc layer n PBUF_POOL s = Some (r, s') /\ same_but MEMP_PBUF_POOL s s' /\
  if n <=? capacity layer (length fl) then
    exists q cs rest, r = Some q /\ fl = q :: map where_ cs ++ rest /\ free_list s' MEMP_PBUF_POOL rest
    /\ store s' q = mkPbuf (p_next (store s' q)) (LWIP_MEM_ALIGN_SIZE (SIZEOF_STRUCT_PBUF + layer_offset layer))
         n (Z.min n (first_room layer)) PBUF_POOL 0 1
    /\ holds (store s') (p_next (store s' q)) cs /\ suffix_ok (n - Z.min n (first_room layer)) cs
  else r = None /\ free_list s' MEMP_PBUF_POOL (rev fl).
Proof.
  intros Hf Hlen Hn. destruct (Z.leb_spec n (capacity layer (length fl))) as [Hc|Hc].
  - destruct (pool_alloc_ok s layer n fl Hf Hlen Hn Hc) as (s' & q & cs & rest & E & S & F).
    exists (Some q), s'. split; [exact E|]. split; [exact S|]. by exists q, cs, rest.
  - destruct (pool_alloc_fail s layer n fl Hf Hlen Hn Hc) as (s' & E & S & F). by exists None, s'.
Qed.

(** ** What a chain holds *)

Definition area (s : net) (q : place) : bytes :=
  (fun i => data s q (payload (store s q) + i)) <$> seqZ 0 (len (store s q)).
Definition view (s : net) (ps : list place) : bytes := concat (map (area s) ps).
Definition lens_ok (s : net) (ps : list place) : Prop :=
  Forall (fun q => 0 <= len (store s q) < 65536) ps.

Lemma area_length s q : 0 <= len (store s q) -> length (area s q) = Z.to_nat (len (store s q)).
Proof. intros. unfold area. by rewrite length_fmap, length_seqZ. Qed.
Lemma area_lookup s q i :
  (i < Z.to_nat (len (store s q)))%nat -> area s q !! i = Some (data s q (payload (store s q) + Z.of_nat i)).
Proof.
  intros Hi. unfold area. rewrite list_lookup_fmap, lookup_seqZ_lt by lia. simpl. do 2 f_equal.
Qed.

Lemma ld_area s q : ld_data q (payload (store s q)) (len (store s q)) s = Some (area s q, s).
Proof. done. Qed.
Lemma ld_data_area s q o k :
  0 <= o -> 0 <= k -> o + k <= len (store s q) ->
  ld_data q (payload (store s q) + o) k s = Some (take (Z.to_nat k) (drop (Z.to_nat o) (area s q)), s).
Proof.
  intros Ho Hk Hl. unfold ld_data, nget. do 2 f_equal. apply list_eq. intros i.
  destruct (decide (i < Z.to_nat k)%nat) as [Hi|Hi].
  - rewrite lookup_take_lt, lookup_drop, area_lookup by lia.
    rewrite list_lookup_fmap, lookup_seqZ_lt by lia. simpl. do 2 f_equal. lia.
  - rewrite !lookup_ge_None_2; [done| |]; rewrite ?length_take, ?length_fmap, ?length_seqZ; lia.
Qed.

Lemma copy_run ps : forall fuel p n off s,
  chain (store s) p ps -> lens_ok s ps -> 0 <= n < 65536 -> 0 <= off < 65536 -> (length ps < fuel)%nat ->
  copy_loop fuel p n off s = Some (take (Z.to_nat n) (drop (Z.to_nat off) (view s ps)), s).
Proof.
  induction ps as [|q ps IH]; intros fuel p n off s Hc Hl Hn Ho Hfu; (destruct fuel as [|fuel]; [simpl in Hfu; lia|]).
  { simpl in Hc. subst p. unfold view. cbn [copy_loop map concat]. by rewrite drop_nil, take_nil. }
  destruct Hc as [-> Hc]. apply Forall_cons_1 in Hl as [Hq Hl]. simpl in Hfu. cbn [copy_loop].
  destruct (Z.eqb_spec n 0) as [->|Hn0]; [done|]. rewrite getp_bind.
  unfold view. simpl concat. fold (view s ps). pose proof (area_length s q ltac:(lia)) as Hal.
  destruct (negb (off =? 0) && (off >=? len (store s q))) eqn:Eb.
  - apply andb_true_iff in Eb as [_ Eb]. rewrite Z.geb_leb in Eb. apply Z.leb_le in Eb.
    rewrite u16_small by lia. rewrite (IH fuel) by (done || lia). do 3 f_equal.
    rewrite drop_app_ge by lia. f_equal. lia.
  - assert (Hoff : off <= len (store s q)).
    { destruct (Z.eqb_spec off 0); [lia|]. simpl in Eb. rewrite Z.geb_leb in Eb. apply Z.leb_gt in Eb. lia. }
    rewrite (u16_small (len (store s q) - off)) by lia.
    set (k := if len (store s q) - off >? n then n else len (store s q) - off).
    assert (Hk : k = Z.min (len (store s q) - off) n) by (subst k; rewrite Z.gtb_ltb; zcases).
    clearbody k. cbv zeta. rewrite (nbind _ _ _ _ _ (ld_data_area s q off k ltac:(lia) ltac:(lia) ltac:(lia))).
    rewrite u16_small by lia. rewrite (nbind _ _ _ _ _ (IH fuel _ (n - k) 0 s Hc Hl ltac:(lia) ltac:(lia) ltac:(lia))).
    unfold mret, NM_ret. do 2 f_equal. rewrite drop_0.
    rewrite drop_app_le by lia. rewrite take_app.
    rewrite length_drop, Hal. f_equal.
    + destruct (Z.le_gt_cases n (len (store s q) - off)).
      * f_equal. lia.
      * rewrite !take_ge; [done| |]; rewrite length_drop, Hal; lia.
    + f_equal. lia.
Qed.

(** Writing [bs] over the start of an area. *)
Lemma st_data_area s q bs :
  blen bs <= len (store s q) ->
  exists s', st_data q (payload (store s q)) bs s = Some (tt, s') /\ store s' = store s
    /\ hp s' = hp s /\ memp_tab s' = memp_tab s
    /\ area s' q = bs ++ drop (length bs) (area s q) /\ forall x, x <> q -> data s' x = data s x.
Proof.
  intros Hl. eexists. split; [reflexivity|]. split_and!; try done.
  - assert (Hq : 0 <= len (store s q)) by (pose proof (blen_nonneg bs); lia).
    apply list_eq. intros i. unfold blen in Hl.
    destruct (decide (i < Z.to_nat (len (store s q)))%nat) as [Hi|Hi].
    + rewrite area_lookup by exact Hi. simpl. destruct (decide (q = q)); [|done].
      destruct (decide (i < length bs)%nat) as [Hb|Hb].
      * rewrite lookup_app_l by lia. unfold blen.
        destruct (Z.leb_spec (payload (store s q)) (payload (store s q) + Z.of_nat i)); [|lia].
        destruct (Z.ltb_spec (payload (store s q) + Z.of_nat i) (payload (store s q) + Z.of_nat (length bs))); [|lia].
        simpl. replace (payload (store s q) + Z.of_nat i - payload (store s q)) with (Z.of_nat i) by lia.
        unfold rd. destruct (Z.leb_spec 0 (Z.of_nat i)); [|lia]. rewrite Nat2Z.id.
        destruct (lookup_lt_is_Some_2 bs i Hb) as [v ->]. done.
      * rewrite lookup_app_r, lookup_drop, area_lookup by lia. unfold blen.
        destruct (Z.ltb_spec (payload (store s q) + Z.of_nat i) (payload (store s q) + Z.of_nat (length bs))); [lia|].
        rewrite andb_false_r. do 3 f_equal. lia.
    + rewrite !lookup_ge_None_2; [done| |].
      * rewrite length_app, length_drop, area_length by lia. lia.
      * rewrite area_length by done. simpl. lia.
  - intros x Hx. simpl. by destruct (decide (x = q)).
Qed.

Definition room_of (s : net) (ps : list place) : Z := foldr (fun q a => len (store s q) + a) 0 ps.

Lemma view_length s ps : lens_ok s ps -> Z.of_nat (length (view s ps)) = room_of s ps.
Proof.
  induction 1 as [|q ps Hq _ IH]; [done|]. unfold view. simpl. fold (view s ps).
  rewrite length_app, area_length by lia. fold (room_of s ps). lia.
Qed.
Lemma view_ext s s' ps :
  store s' = store s -> (forall q, q ∈ ps -> data s' q = data s q) -> view s' ps = view s ps.
Proof.
  intros Hst Hd. unfold view. f_equal. apply map_ext_in. intros q Hq. unfold area. rewrite Hst.
  by rewrite Hd by (by apply list_elem_of_In).
Qed.

Lemma take_run ps : forall fuel p bs total copied s,
  chain (store s) p ps -> NoDup ps -> lens_ok s ps -> 0 <= total <= room_of s ps -> 0 <= copied ->
  copied + total = blen bs -> blen bs < 65536 -> (length ps < fuel)%nat ->
  exists s', take_loop fuel p bs total copied s = Some (blen bs, s') /\ store s' = store s
    /\ hp s' = hp s /\ memp_tab s' = memp_tab s
    /\ view s' ps = drop (Z.to_nat copied) bs ++ drop (Z.to_nat total) (view s ps)
    /\ forall x, x ∉ ps -> data s' x = data s x.
Proof.
  induction ps as [|q ps IH]; intros fuel p bs total copied s Hc Hnd Hl Ht Hcp Hsum Hmax Hfu;
    (destruct fuel as [|fuel]; [simpl in Hfu; lia|]); cbn [take_loop].
  { simpl in Ht. destruct (Z.eqb_spec total 0); [|lia]. exists s. subst total.
    split_and!; try done; [unfold mret, NM_ret; do 2 f_equal; lia|].
    unfold view. simpl. rewrite drop_ge by (unfold blen in Hsum; lia). done. }
  destruct (Z.eqb_spec total 0) as [->|Hne].
  { exists s. split_and!; try done; [unfold mret, NM_ret; do 2 f_equal; lia|].
    rewrite (drop_ge bs) by (unfold blen in Hsum; lia). done. }
  destruct Hc as [-> Hc]. pose proof (NoDup_cons_1_1 _ _ Hnd) as Hq. apply NoDup_cons_1_2 in Hnd.
  apply Forall_cons_1 in Hl as [Hlq Hl]. simpl in Hfu. rewrite getp_bind.
  simpl in Ht. fold (room_of s ps) in Ht.
  set (n := if total >? len (store s q) then len (store s q) else total).
  assert (Hn : n = Z.min total (len (store s q))) by (subst n; rewrite Z.gtb_ltb; zcases).
  clearbody n. cbv zeta. rewrite rdn_in by lia.
  set (piece := take (Z.to_nat n) (drop (Z.to_nat copied) bs)).
  assert (Hp : length piece = Z.to_nat n) by (subst piece; rewrite length_take, length_drop; unfold blen in *; lia).
  destruct (st_data_area s q piece) as (s1 & E1 & St1 & H1 & T1 & A1 & D1); [unfold blen; lia|].
  rewrite (nbind _ _ _ _ _ E1). rewrite (u16_small (total - n)), (u16_small (copied + n)) by lia.
  destruct (IH fuel (p_next (store s q)) bs (total - n) (copied + n) s1) as (s2 & E2 & St2 & H2 & T2 & V2 & D2).
  { by rewrite St1. } { done. } { unfold lens_ok in *. by rewrite St1. }
  { pose proof (view_length s ps Hl). assert (room_of s1 ps = room_of s ps) as -> by (unfold room_of; by rewrite St1). lia. }
  { lia. } { lia. } { done. } { lia. }
  exists s2. split; [exact E2|]. split_and!; [congruence..| |].
  - unfold view. cbn [map concat]. fold (view s2 ps) (view s ps).
    assert (Ha : area s2 q = area s1 q) by (unfold area; rewrite St2; by rewrite (D2 q Hq)).
    assert (Hv1 : view s1 ps = view s ps) by (apply view_ext; [done|]; intros x Hx; apply D1; intros ->; done).
    rewrite Ha, A1, V2, Hp, Hv1. pose proof (area_length s q ltac:(lia)) as Hal.
    rewrite drop_app. rewrite Hal.
    replace (Z.to_nat total - Z.to_nat (len (store s q)))%nat with (Z.to_nat (total - n)) by lia.
    rewrite <- !app_assoc. subst piece.
    destruct (Z.le_gt_cases total (len (store s q))).
    + assert (En : n = total) by lia. rewrite En.
      rewrite (take_ge (drop (Z.to_nat copied) bs)) by (rewrite length_drop; unfold blen in *; lia).
      rewrite (drop_ge bs (Z.to_nat (copied + total))) by (unfold blen in *; lia). done.
    + assert (En : n = len (store s q)) by lia. rewrite En.
      rewrite !(drop_ge (area s q)) by lia. simpl.
      rewrite Z2Nat.inj_add by lia. rewrite <- (drop_drop _ _ (Z.to_nat copied)), app_assoc, take_drop. done.
  - intros x Hx. apply not_elem_of_cons in Hx as [Hx1 Hx2]. by rewrite (D2 x Hx2), D1.
Qed.

(** C16: Into a chain of fewer than 256 different buffers, whose [tot_len] is
    the sum of their lengths, [pbuf_take] writes a message the chain has room for,
    of up to 65535 bytes; [pbuf_copy_partial] reads any part of it, from any
    offset, across the buffers; the rest of the chain's bytes, the structs and the
    bytes of other buffers are what they were. *)
Theorem pbuf_take_copy (s : net) (p : place) (ps : list place) (bs : bytes) (k off : Z) :
  chain (store s) (Some p) ps -> NoDup ps -> (length ps < 256)%nat -> lens_ok s ps ->
  tot_len (store s p) = room_of s ps -> blen bs <= room_of s ps -> blen bs < 65536 ->
  0 <= k -> 0 <= off -> off + k <= blen bs ->
  exists s', pbuf_take (Some p) bs (blen bs) s = Some (true, s') /\ store s' = store s
    /\ view s' ps = bs ++ drop (length bs) (view s ps)
    /\ (forall x, x ∉ ps -> data s' x = data s x)
    /\ pbuf_copy_partial (Some p) k off s' = Some (take (Z.to_nat k) (drop (Z.to_nat off) bs), s').
Proof.
  intros Hc Hnd Hlen Hl Htot Hroom Hmax Hk Ho Hok. pose proof (blen_nonneg bs).
  destruct (take_run ps pbuf_fuel (Some p) bs (blen bs) 0 s) as (s1 & E & St & H1 & T1 & V & D);
    try done; try lia; [unfold pbuf_fuel; lia|].
  exists s1. assert (Hv : view s1 ps = bs ++ drop (length bs) (view s ps)).
  { rewrite V. simpl. unfold blen. by rewrite Nat2Z.id. }
  split_and!; try done.
  - unfold pbuf_take. rewrite getp_bind, Htot. destruct (Z.ltb_spec (room_of s ps) (blen bs)); [lia|].
    by rewrite (nbind _ _ _ _ _ E).
  - unfold pbuf_copy_partial. rewrite (copy_run ps); try lia.
    + rewrite Hv, drop_app_le by (unfold blen in *; lia).
      by rewrite take_app_le by (rewrite length_drop; unfold blen in *; lia).
    + by rewrite St.
    + unfold lens_ok in *. by rewrite St.
    + unfold pbuf_fuel. lia.
Qed.

(** ** A datagram of the firmware *)

Lemma on_heap_run {A B} (m : HM A) (k : A -> NM B) s a h :
  m (hp s) = Some (a, h) ->
  (on_heap m ≫= k) s = k a (mkNet h (memp_tab s) (store s) (data s)).
Proof. intros E. unfold mbind, NM_bind, on_heap. by rewrite E. Qed.

(** The size [alloc_ram] asks for, rounded by [mem_malloc]. *)
Definition transport_request (n : Z) : Z := u16 (72 + LWIP_MEM_ALIGN_SIZE n).
Lemma transport_request_small n : 0 <= n <= 65460 -> request (transport_request n) = 72 + LWIP_MEM_ALIGN_SIZE n
  /\ transport_request n <> 0.
Proof.
  intros Hn. pose proof (align_bounds n). destruct (align_divide n) as [k Hk].
  unfold transport_request. rewrite u16_small by lia. split; [|lia]. unfold request.
  assert (Ha : LWIP_MEM_ALIGN_SIZE (72 + LWIP_MEM_ALIGN_SIZE n) = 72 + LWIP_MEM_ALIGN_SIZE n).
  { pose proof (align_bounds (72 + LWIP_MEM_ALIGN_SIZE n)).
    destruct (align_divide (72 + LWIP_MEM_ALIGN_SIZE n)) as [j Hj]. lia. }
  rewrite Ha, u16_small by lia. unfold MIN_SIZE_ALIGNED. destruct (Z.ltb_spec (72 + LWIP_MEM_ALIGN_SIZE n) 12); lia.
Qed.
Lemma transport_request_wrapped n :
  65460 < n < 65536 -> transport_request n = 0 \/ 65465 <= n /\ request (transport_request n) <= 72.
Proof.
  intros Hn. pose proof (align_bounds n). destruct (align_divide n) as [k Hk].
  assert (Hu : transport_request n = 72 + LWIP_MEM_ALIGN_SIZE n - 65536).
  { unfold transport_request, u16. symmetry. apply (Z.mod_unique_pos _ _ 1); lia. }
  destruct (decide (n <= 65464)); [left; lia|right]. split; [lia|].
  rewrite Hu. set (m := 72 + LWIP_MEM_ALIGN_SIZE n - 65536). unfold request.
  pose proof (align_bounds m). destruct (align_divide m) as [j Hj].
  rewrite u16_small by lia. unfold MIN_SIZE_ALIGNED. destruct (Z.ltb_spec (LWIP_MEM_ALIGN_SIZE m) 12); lia.
Qed.

(** The buffer [UDP_sendData] asks for: [pbuf_alloc(PBUF_TRANSPORT,
    n, PBUF_RAM)] in a heap that any clients have used.  It gives none when no
    free block holds 72 bytes more than [n] rounded up (1016 bytes is the
    largest block there can be, so never for 945 to 65,464 bytes).  Up to 944
    bytes, the block it gives has room for the headers and the data; from
    65,465 on the size wraps and the block is smaller than the data the caller
    will copy into it. *)
Theorem udp_buffer (s : net) (bs : list block) (n : Z) :
  heap_reach (hp s) bs -> 0 <= n < 65536 ->
  exists r s', pbuf_alloc PBUF_TRANSPORT n PBUF_RAM s = Some (r, s') /\
  match r with
  | Some p =>
      exists o bs' size, p = InHeap o /\ heap_reach (hp s') bs' /\ owned 0 o bs' = Some size
      /\ store s' p = mkPbuf None 72 n n PBUF_RAM 0 1
      /\ (n <= 944 /\ 72 + n <= size \/ 65465 <= n /\ size < 72 + n)
  | None => hp s' = hp s /\ (65460 < n \/ Forall (fun b => in_use b = true \/ size b < 72 + LWIP_MEM_ALIGN_SIZE n) bs)
  end.
Proof.
  intros Hre Hn. destruct (malloc_outcome (hp s) bs (transport_request n) Hre) as (r & h & E & Hr).
  unfold pbuf_alloc, alloc_ram. change (layer_offset PBUF_TRANSPORT) with 54.
  change (LWIP_MEM_ALIGN_SIZE (SIZEOF_STRUCT_PBUF + 54)) with 72. fold (transport_request n).
  rewrite (on_heap_run _ _ _ _ _ E). pose proof (align_bounds n) as Ha.
  destruct r as [o|].
  - destruct Hr as (bs' & z & Hre' & Ho & Hn0 & Hz & _ & Hlow & Hhigh & _). cbv iota zeta.
    rewrite setp_bind. unfold finish. rewrite setp_bind.
    eexists (Some (InHeap o)), _. split; [reflexivity|]. exists o, bs', z.
    split; [done|]. split; [exact Hre'|]. split; [exact Ho|]. split; [by rewrite !stored_eq|].
    destruct (decide (n <= 65460)) as [Hs|Hs].
    + destruct (transport_request_small n ltac:(lia)) as [Hq _]. left. rewrite Hq in Hz.
      destruct (align_divide n) as [k Hk]. hlia.
    + destruct (transport_request_wrapped n ltac:(lia)) as [?|[? Hq]]; [done|]. right. hlia.
  - destruct Hr as [-> Hr]. exists None. eexists. split; [reflexivity|]. split; [done|].
    destruct (decide (65460 < n)) as [Hs|Hs]; [by left|]. right.
    destruct (transport_request_small n ltac:(lia)) as [Hq Hn0]. rewrite Hq in Hr.
    by destruct Hr.
Qed.

(** ** Examples: the nets after [memp_init] *)

Definition no_pbuf : pbuf := mkPbuf None 0 0 0 PBUF_RAM 0 0.
Definition net_of {A} (d : net) (x : option (A * net)) : net := match x with Some (_, s) => s | None => d end.
Definition raw_net : net := mkNet start (fun _ => None) (fun _ => no_pbuf) (fun _ _ => 0).
Definition fresh_net : net := net_of raw_net (memp_init raw_net).
Definition fresh_elems : list place := Elem MEMP_PBUF_POOL <$> [9; 8; 7; 6; 5; 4; 3; 2; 1; 0]%nat.

Lemma fresh_free : free_list fresh_net MEMP_PBUF_POOL fresh_elems.
Proof. split; [by vm_compute; repeat split|]. apply (bool_decide_unpack _). by vm_compute. Qed.

Definition elem (i : nat) : place := Elem MEMP_PBUF_POOL i.

Lemma pbuf_alloc_pool_witness :
  exists r s', pbuf_alloc PBUF_RAW 1500 PBUF_POOL fresh_net = Some (r, s')
  /\ same_but MEMP_PBUF_POOL fresh_net s' /\
  exists q cs rest, r = Some q /\ fresh_elems = q :: map where_ cs ++ rest /\ free_list s' MEMP_PBUF_POOL rest
  /\ store s' q = mkPbuf (p_next (store s' q)) 16 1500 256 PBUF_POOL 0 1
  /\ holds (store s') (p_next (store s' q)) cs /\ suffix_ok 1244 cs.
Proof. exact (pbuf_alloc_pool fresh_net PBUF_RAW 1500 fresh_elems fresh_free ltac:(vm_compute; lia) ltac:(lia)). Defined.

(** A chain of two buffers. *)
Definition two_net : net := net_of fresh_net (pbuf_alloc PBUF_RAW 300 PBUF_POOL fresh_net).
Definition two_elems : list place := elem <$> [7; 6; 5; 4; 3; 2; 1; 0]%nat.
Lemma two_chain : chain (store two_net) (Some (elem 9)) [elem 9; elem 8].
Proof. by vm_compute; repeat split. Qed.
Lemma two_nodup : NoDup [elem 9; elem 8].
Proof. apply (bool_decide_unpack _). by vm_compute. Qed.
Lemma two_free : free_list two_net MEMP_PBUF_POOL two_elems.
Proof. split; [by vm_compute; repeat split|]. apply (bool_decide_unpack _). by vm_compute. Qed.

Lemma pbuf_free_chain_witness :
  exists s', pbuf_free (Some (elem 9)) two_net = Some (2, s')
    /\ free_list s' MEMP_PBUF_POOL (elem 8 :: elem 9 :: two_elems) /\ same_but MEMP_PBUF_POOL two_net s'
    /\ True /\ forall q, q ∉ [elem 9; elem 8] -> head (@nil place) <> Some q -> store s' q = store two_net q.
Proof.
  apply (pbuf_free_chain two_net MEMP_PBUF_POOL (elem 9) [elem 9; elem 8] [] two_elems two_chain two_nodup).
  - apply Forall_cons_2; [by vm_compute|]. apply Forall_cons_2; [by vm_compute|]. apply Forall_nil_2.
  - exact I.
  - apply two_free.
  - intros q Hq. apply elem_of_cons in Hq as [->|Hq]; [apply (bool_decide_unpack _); by vm_compute|].
    apply elem_of_cons in Hq as [->|Hq]; [apply (bool_decide_unpack _); by vm_compute|].
    by apply elem_of_nil in Hq.
  - vm_compute. lia.
Defined.

Lemma pbuf_take_copy_witness :
  exists s', pbuf_take (Some (elem 9)) (replicate 290 7) 290 two_net = Some (true, s')
    /\ pbuf_copy_partial (Some (elem 9)) 20 250 s' = Some (replicate 20 7, s').
Proof.
  destruct (pbuf_take_copy two_net (elem 9) [elem 9; elem 8] (replicate 290 7) 20 250 two_chain two_nodup)
    as (s' & E & _ & _ & _ & C).
  - vm_compute. lia.
  - apply Forall_cons_2; [vm_compute; split; congruence|].
    apply Forall_cons_2; [vm_compute; split; congruence|]. apply Forall_nil_2.
  - vm_compute. reflexivity.
  - vm_compute. congruence.
  - vm_compute. reflexivity.
  - lia.
  - lia.
  - vm_compute. congruence.
  - exists s'. split; [exact E|exact C].
Defined.

Lemma udp_buffer_witness :
  exists r s', pbuf_alloc PBUF_TRANSPORT 257 PBUF_RAM fresh_net = Some (r, s') /\
  match r with
  | Some p =>
      exists o bs' size, p = InHeap o /\ heap_reach (hp s') bs' /\ owned 0 o bs' = Some size
      /\ store s' p = mkPbuf None 72 257 257 PBUF_RAM 0 1
      /\ (257 <= 944 /\ 72 + 257 <= size \/ 65465 <= 257 /\ size < 72 + 257)
  | None => hp s' = hp fresh_net
      /\ (65460 < 257 \/ Forall (fun b => in_use b = true \/ size b < 72 + LWIP_MEM_ALIGN_SIZE 257) [Block 1016 false])
  end.
Proof. exact (udp_buffer fresh_net [Block 1016 false] 257 start_reach ltac:(lia)). Defined.
