(* ===== verification/Chksum.v ===== *)
(** * The Internet checksum (inet_chksum.c, htons of inet.c)

    The sum of a chain of buffers, which may split the data at odd bytes, and
    the equality with the checksum of RFC 1071 of the concatenated data.  The
    proofs compute up to [weq]: one's complement sums that stand for the same
    number. *)
From stdpp Require Import base tactics list numbers option.
From S2P Require Import Prelude Heap HeapSpec Pbuf PbufSpec.

Definition htons (n : Z) : Z :=
  u16 (Z.lor (Z.shiftl (Z.land n 0xff) 8) (Z.shiftr (Z.land n 0xff00) 8)).
Definition SWAP_BYTES_IN_WORD (w : Z) : Z :=
  Z.lor (Z.shiftl (Z.land w 0xff) 8) (Z.shiftr (Z.land w 0xff00) 8).
Definition FOLD_U32T (u : Z) : Z := u32 (Z.shiftr u 16 + Z.land u 0x0000ffff).

(** The two loops of [lwip_standard_chksum] over the octets of the area. *)
Fixpoint chksum_loop (octets : bytes) (acc : Z) : Z :=
  match octets with
  | b1 :: b2 :: octets =>
      let src := u16 (Z.shiftl b1 8) in
      let src := Z.lor src b2 in
      chksum_loop octets (u32 (acc + src))
  | [b] => u32 (acc + u16 (Z.shiftl b 8))
  | [] => acc
  end.
Definition lwip_standard_chksum (dataptr : bytes) : Z :=
  let acc := chksum_loop dataptr 0 in
  let acc := u32 (Z.shiftr acc 16 + Z.land acc 0x0000ffff) in
  let acc :=
    if negb (Z.land acc 0xffff0000 =? 0) then u32 (Z.shiftr acc 16 + Z.land acc 0x0000ffff)
    else acc in
  htons (u16 acc).

Definition inet_chksum (dataptr : bytes) : Z := u16 (Z.lnot (lwip_standard_chksum dataptr)).

(** [for (q = p; q != NULL; q = q->next)]: the sum and [swapped]. *)
Fixpoint chksum_pbufs (fuel : nat) (q : option place) (acc swapped : Z) : NM (Z * Z) :=
  match fuel with
  | O => fun _ => None
  | S fuel =>
      match q with
      | None => mret (acc, swapped)
      | Some q =>
          b ← getp q;
          bs ← ld_data q (payload b) (len b);
          let acc := u32 (acc + lwip_standard_chksum bs) in
          let acc := FOLD_U32T acc in
          if negb (len b `mod` 2 =? 0) then
            chksum_pbufs fuel (p_next b) (SWAP_BYTES_IN_WORD acc) (u8 (1 - swapped))
          else chksum_pbufs fuel (p_next b) acc swapped
      end
  end.

Definition inet_chksum_pbuf (p : option place) : NM Z :=
  '(acc, swapped) ← chksum_pbufs pbuf_fuel p 0 0;
  let acc := if negb (swapped =? 0) then SWAP_BYTES_IN_WORD acc else acc in
  mret (u16 (Z.lnot (Z.land acc 0xffff))).

(** [src] and [dest] are addresses in network byte order. *)
Definition inet_chksum_pseudo (p : option place) (src dest proto proto_len : Z) : NM Z :=
  '(acc, swapped) ← chksum_pbufs pbuf_fuel p 0 0;
  let acc := if negb (swapped =? 0) then SWAP_BYTES_IN_WORD acc else acc in
  let acc := u32 (acc + Z.land src 0xffff) in
  let acc := u32 (acc + Z.land (Z.shiftr src 16) 0xffff) in
  let acc := u32 (acc + Z.land dest 0xffff) in
  let acc := u32 (acc + Z.land (Z.shiftr dest 16) 0xffff) in
  let acc := u32 (acc + htons (u16 proto)) in
  let acc := u32 (acc + htons proto_len) in
  let acc := FOLD_U32T acc in
  let acc := FOLD_U32T acc in
  mret (u16 (Z.lnot (Z.land acc 0xffff))).

(** ** The checksum of RFC 1071 *)

(** The data as 16-bit words, first byte high; an odd last byte is padded. *)
Fixpoint words (bs : bytes) : list Z :=
  match bs with
  | b1 :: b2 :: r => 256 * b1 + b2 :: words r
  | [b] => [256 * b]
  | [] => []
  end.
(** Addition with the carry added back. *)
Definition onec_add (a b : Z) : Z := if a + b <? 65536 then a + b else a + b - 65535.
Definition rfc1071 (bs : bytes) : Z := 65535 - foldr onec_add 0 (words bs).

(** ** One's complement sums *)

(** The same one's complement number: equal modulo 65535, and zero together. *)
Definition weq (n m : N) : Prop := (n `mod` 65535 = m `mod` 65535 /\ (n = 0 <-> m = 0))%N.

#[export] Instance weq_equiv : Equivalence weq.
Proof.
  split; [by split|by intros n m [? ?]; split; symmetry|].
  intros n m k [E1 H1] [E2 H2]. split; [congruence|tauto].
Qed.
#[export] Instance weq_add : Proper (weq ==> weq ==> weq) N.add.
Proof.
  intros a b [E1 H1] c d [E2 H2]. split; [|lia].
  rewrite (N.Div0.add_mod a), (N.Div0.add_mod b). congruence.
Qed.
#[export] Instance weq_mul : Proper (weq ==> weq ==> weq) N.mul.
Proof.
  intros a b [E1 H1] c d [E2 H2]. split; [|rewrite !N.eq_mul_0; tauto].
  rewrite (N.Div0.mul_mod a), (N.Div0.mul_mod b). congruence.
Qed.

(** A byte swap is a multiplication by 256, of which there may be two. *)
Lemma weq_swap_swap n : weq (256 * (256 * n)) n.
Proof. split; [|lia]. replace (256 * (256 * n))%N with (n + n * 65535)%N by lia. apply N.Div0.mod_add. Qed.

(** The register [a] holds the sum [n]. *)
Definition sums (a : Z) (n : N) : Prop := 0 <= a < 65536 /\ weq (Z.to_N a) n.

#[export] Instance sums_weq : Proper (eq ==> weq ==> iff) sums.
Proof. intros a ? <- n m E. unfold sums. by rewrite E. Qed.

Lemma sums_unique a b n : sums a n -> sums b n -> a = b.
Proof.
  intros [Ha [Ma Za]] [Hb [Mb Zb]].
  assert (E : ((Z.to_N a) mod 65535 = (Z.to_N b) mod 65535)%N) by congruence.
  apply (f_equal Z.of_N) in E. rewrite !N2Z.inj_mod, !Z2N.id in E by lia. change (Z.of_N 65535) with 65535 in E.
  assert (a = 0 <-> b = 0) by lia.
  pose proof (Z.div_mod a 65535 ltac:(lia)). pose proof (Z.div_mod b 65535 ltac:(lia)).
  pose proof (Z.mod_pos_bound a 65535 ltac:(lia)).
  assert (0 <= a / 65535 <= 1) by (split; [apply Z.div_pos|apply Z.lt_succ_r, Z.div_lt_upper_bound]; lia).
  assert (0 <= b / 65535 <= 1) by (split; [apply Z.div_pos|apply Z.lt_succ_r, Z.div_lt_upper_bound]; lia).
  lia.
Qed.

(** ** Bytes and words *)

Lemma land_low n k : 0 <= k -> Z.land n (2 ^ k - 1) = n `mod` 2 ^ k.
Proof. intros. rewrite <- Z.land_ones by done. f_equal. rewrite Z.ones_equiv. lia. Qed.
Lemma land_ff n : Z.land n 0xff = n `mod` 256.
Proof. apply (land_low n 8). lia. Qed.
Lemma land_ffff n : Z.land n 0xffff = n `mod` 65536.
Proof. apply (land_low n 16). lia. Qed.
Lemma land_ff00 n : Z.shiftr (Z.land n 0xff00) 8 = (n / 256) `mod` 256.
Proof. rewrite Z.shiftr_land. change (Z.shiftr 0xff00 8) with 0xff. by rewrite land_ff, Z.shiftr_div_pow2. Qed.

(** The two bytes of a 16-bit word, put together again. *)
Lemma lor_bytes h l : 0 <= l < 256 -> Z.lor (Z.shiftl h 8) l = 256 * h + l.
Proof.
  intros Hl. pose proof (Z.add_lor_land (Z.shiftl h 8) l) as E.
  assert (Hz : Z.land (Z.shiftl h 8) l = 0).
  { rewrite <- (Z.mod_small l 256), <- land_ff by done. rewrite (Z.land_comm l), Z.land_assoc, land_ff.
    rewrite Z.shiftl_mul_pow2 by lia. by rewrite Z_mod_mult. }
  rewrite Z.shiftl_mul_pow2 in * by lia. lia.
Qed.

Lemma swap_eq w : 0 <= w < 65536 -> SWAP_BYTES_IN_WORD w = 256 * (w `mod` 256) + w / 256.
Proof.
  intros Hw. assert (0 <= w / 256 < 256) by (split; [apply Z.div_pos|apply Z.div_lt_upper_bound]; lia).
  unfold SWAP_BYTES_IN_WORD. rewrite land_ff00, land_ff, (Z.mod_small (w / 256)), lor_bytes by lia. done.
Qed.
Lemma swap_range w : 0 <= w < 65536 -> 0 <= SWAP_BYTES_IN_WORD w < 65536.
Proof.
  intros Hw. rewrite swap_eq by done. pose proof (Z.mod_pos_bound w 256 ltac:(lia)).
  assert (0 <= w / 256 < 256) by (split; [apply Z.div_pos|apply Z.div_lt_upper_bound]; lia). lia.
Qed.
Lemma htons_swap w : 0 <= w < 65536 -> htons w = SWAP_BYTES_IN_WORD w.
Proof. intros Hw. unfold htons. by rewrite u16_small by (by apply swap_range). Qed.

Lemma fold_eq u : 0 <= u < 4294967296 -> FOLD_U32T u = u / 65536 + u `mod` 65536.
Proof.
  intros Hu. unfold FOLD_U32T. rewrite land_ffff, Z.shiftr_div_pow2 by lia. change (2 ^ 16) with 65536.
  pose proof (Z.mod_pos_bound u 65536 ltac:(lia)).
  assert (0 <= u / 65536 < 65536) by (split; [apply Z.div_pos|apply Z.div_lt_upper_bound]; lia).
  by rewrite u32_small by lia.
Qed.

(** *** What the register operations do to a sum *)

(** A fold takes a number to one with the same sum. *)
Lemma weq_fold u : 0 <= u < 4294967296 -> weq (Z.to_N (FOLD_U32T u)) (Z.to_N u).
Proof.
  intros Hu. rewrite fold_eq by done. pose proof (Z.div_mod u 65536 ltac:(lia)) as E.
  pose proof (Z.mod_pos_bound u 65536 ltac:(lia)). assert (0 <= u / 65536) by (apply Z.div_pos; lia).
  split; [|lia].
  replace (Z.to_N u) with (Z.to_N (u / 65536 + u `mod` 65536) + Z.to_N (u / 65536) * 65535)%N by lia.
  symmetry. apply N.Div0.mod_add.
Qed.
Lemma sums_fold u n : 0 <= u <= 131070 -> weq (Z.to_N u) n -> sums (FOLD_U32T u) n.
Proof.
  intros Hu E. split; [|rewrite weq_fold by lia; exact E].
  rewrite fold_eq by lia. pose proof (Z.div_mod u 65536 ltac:(lia)).
  pose proof (Z.mod_pos_bound u 65536 ltac:(lia)).
  assert (0 <= u / 65536 <= 1) by (split; [apply Z.div_pos|apply Z.lt_succ_r, Z.div_lt_upper_bound]; lia). lia.
Qed.
Lemma sums_swap a n : sums a n -> sums (SWAP_BYTES_IN_WORD a) (256 * n).
Proof.
  intros [Ha E]. split; [by apply swap_range|]. rewrite <- E, swap_eq by done.
  pose proof (Z.div_mod a 256 ltac:(lia)). pose proof (Z.mod_pos_bound a 256 ltac:(lia)).
  assert (0 <= a / 256) by (apply Z.div_pos; lia). split; [|lia].
  replace (256 * Z.to_N a)%N with (Z.to_N (256 * (a `mod` 256) + a / 256) + Z.to_N (a / 256) * 65535)%N by lia.
  symmetry. apply N.Div0.mod_add.
Qed.
Lemma sums_add a n b m : sums a n -> sums b m -> sums (FOLD_U32T (u32 (a + b))) (n + m).
Proof.
  intros [Ha Ea] [Hb Eb]. rewrite u32_small by lia. apply sums_fold; [lia|].
  by rewrite Z2N.inj_add, Ea, Eb by lia.
Qed.

(** *** The sum of the words of an area *)

Definition wsum (bs : bytes) : N := foldr (fun w n => Z.to_N w + n)%N 0%N (words bs).

(** Induction by words. *)
Lemma words_ind (P : bytes -> Prop) :
  P [] -> (forall b, P [b]) -> (forall b c r, P r -> P (b :: c :: r)) -> forall bs, P bs.
Proof.
  intros H0 H1 H2. fix IH 1. intros [|b [|c r]]; [exact H0|exact (H1 b)|]. apply H2, IH.
Qed.

Lemma words_range bs : bytes_ok bs -> Forall (fun w => 0 <= w < 65536) (words bs).
Proof.
  induction bs as [|b|b c r IH] using words_ind; intros H; simpl; [constructor| |].
  - apply Forall_cons_1 in H as [Hb _]. apply Forall_cons_2; [lia|constructor].
  - apply Forall_cons_1 in H as [Hb H]. apply Forall_cons_1 in H as [Hc H].
    apply Forall_cons_2; [lia|by apply IH].
Qed.

Lemma wsum_bound bs : bytes_ok bs -> 2 * Z.of_N (wsum bs) <= 65535 * (blen bs + 1).
Proof.
  unfold wsum, blen. induction bs as [|b|b c r IH] using words_ind; intros H; simpl; [lia| |].
  - apply Forall_cons_1 in H as [Hb _]. lia.
  - apply Forall_cons_1 in H as [Hb H]. apply Forall_cons_1 in H as [Hc H].
    specialize (IH H). cbn beta in *. lia.
Qed.

Lemma chksum_loop_run bs : forall acc,
  bytes_ok bs -> 0 <= acc -> acc + Z.of_N (wsum bs) < 4294967296 ->
  chksum_loop bs acc = acc + Z.of_N (wsum bs).
Proof.
  unfold wsum. induction bs as [|b|b c r IH] using words_ind; intros acc H Ha Hs; simpl in *; [lia| |].
  - apply Forall_cons_1 in H as [Hb _]. cbn beta in Hb.
    rewrite Z.shiftl_mul_pow2, u16_small, u32_small; lia.
  - apply Forall_cons_1 in H as [Hb H]. apply Forall_cons_1 in H as [Hc H]. cbn beta in *.
    assert (E : u16 (Z.shiftl b 8) = Z.shiftl b 8) by (rewrite Z.shiftl_mul_pow2 by lia; apply u16_small; lia).
    rewrite E, lor_bytes, u32_small, IH by (done || lia). lia.
Qed.

(** [lwip_standard_chksum] leaves the sum with its bytes swapped: that is the
    order in which a little-endian processor stores it as the network wants. *)
Lemma standard_chksum_sums bs :
  bytes_ok bs -> blen bs < 65536 -> sums (lwip_standard_chksum bs) (256 * wsum bs).
Proof.
  intros Hb Hl. pose proof (wsum_bound bs Hb) as Hw. unfold lwip_standard_chksum.
  rewrite chksum_loop_run by (done || lia). rewrite Z.add_0_l. set (n := Z.of_N (wsum bs)) in *.
  change (u32 (Z.shiftr n 16 + Z.land n 65535)) with (FOLD_U32T n).
  set (f := FOLD_U32T n). assert (Hf : 0 <= f <= 131070).
  { unfold f. rewrite fold_eq by lia. pose proof (Z.mod_pos_bound n 65536 ltac:(lia)).
    assert (0 <= n / 65536 <= 32768) by (split; [apply Z.div_pos|apply Z.lt_succ_r, Z.div_lt_upper_bound]; lia). lia. }
  assert (Hwf : weq (Z.to_N f) (wsum bs)).
  { unfold f. rewrite weq_fold by lia. unfold n. by rewrite N2Z.id. }
  change (u32 (Z.shiftr f 16 + Z.land f 65535)) with (FOLD_U32T f).
  assert (Hs : sums (if negb (Z.land f 0xffff0000 =? 0) then FOLD_U32T f else f) (wsum bs)).
  { destruct (Z.eqb_spec (Z.land f 0xffff0000) 0) as [Hz|_]; simpl; [|by apply sums_fold].
    split; [|done]. split; [lia|]. apply Z.nle_gt. intros Hge.
    assert (E : Z.shiftr (Z.land f 0xffff0000) 16 = 0) by by rewrite Hz.
    rewrite Z.shiftr_land in E. change (Z.shiftr 0xffff0000 16) with 0xffff in E.
    rewrite land_ffff, Z.shiftr_div_pow2 in E by lia. change (2 ^ 16) with 65536 in E.
    assert (f / 65536 = 1) as E1; [|by rewrite E1 in E].
    apply Z.le_antisymm; [apply Z.lt_succ_r, Z.div_lt_upper_bound|apply Z.div_le_lower_bound]; lia. }
  rewrite u16_small, htons_swap by apply Hs. by apply sums_swap.
Qed.

(** Words of the second part of an area lie one byte off after an odd first part. *)
Definition shift (bs : bytes) : N := if Nat.odd (length bs) then 256%N else 1%N.
Lemma shift_app a b : weq (shift (a ++ b)) (shift a * shift b).
Proof.
  unfold shift. rewrite length_app, Nat.odd_add.
  destruct (Nat.odd (length a)), (Nat.odd (length b)); try reflexivity. by symmetry; apply (weq_swap_swap 1).
Qed.
Lemma shift_cons2 b c r : shift (b :: c :: r) = shift r.
Proof. unfold shift. cbn [length]. by rewrite Nat.odd_succ_succ. Qed.
Lemma wsum_cons2 b c r : wsum (b :: c :: r) = (Z.to_N (256 * b + c) + wsum r)%N.
Proof. done. Qed.
Lemma wsum_cons b r : 0 <= b -> bytes_ok r -> weq (wsum (b :: r)) (Z.to_N (256 * b) + 256 * wsum r).
Proof.
  intros Hb Hr. revert b Hb. induction r as [|c|c d r IH] using words_ind; intros b Hb.
  - unfold wsum. simpl. reflexivity.
  - apply Forall_cons_1 in Hr as [Hc _]. unfold wsum. simpl.
    replace (Z.to_N (256 * b + c) + 0)%N with (Z.to_N (256 * b) + Z.to_N c)%N by lia.
    rewrite <- (weq_swap_swap (Z.to_N c)). replace (Z.to_N (256 * c) + 0)%N with (256 * Z.to_N c)%N by lia. reflexivity.
  - apply Forall_cons_1 in Hr as [Hc Hr]. apply Forall_cons_1 in Hr as [Hd Hr]. cbn beta in *.
    rewrite wsum_cons2, (IH Hr d) by lia. rewrite wsum_cons2.
    replace (Z.to_N (256 * b + c)) with (Z.to_N (256 * b) + Z.to_N c)%N by lia.
    rewrite <- (weq_swap_swap (Z.to_N c)).
    replace (Z.to_N (256 * c + d)) with (256 * Z.to_N c + Z.to_N d)%N by lia.
    replace (Z.to_N (256 * d)) with (256 * Z.to_N d)%N by lia.
    match goal with |- weq ?x ?y => replace x with y by lia end. reflexivity.
Qed.

Lemma wsum_app a b : bytes_ok a -> bytes_ok b -> weq (wsum (a ++ b)) (wsum a + shift a * wsum b).
Proof.
  induction a as [|c|c d r IH] using words_ind; intros Ha Hb.
  - simpl app. unfold shift. simpl. by rewrite N.mul_1_l.
  - apply Forall_cons_1 in Ha as [Hc _]. cbn beta in Hc. simpl app. rewrite wsum_cons by (lia || done).
    unfold shift, wsum. simpl. by rewrite N.add_0_r.
  - apply Forall_cons_1 in Ha as [Hc Ha]. apply Forall_cons_1 in Ha as [Hd Ha].
    simpl app. rewrite !wsum_cons2, shift_cons2, IH by done. by rewrite N.add_assoc.
Qed.

Lemma onec_sums bs : bytes_ok bs -> sums (foldr onec_add 0 (words bs)) (wsum bs).
Proof.
  intros Hb. apply words_range in Hb. unfold wsum. induction Hb as [|w l Hw _ IH]; simpl; [split; [lia|done]|].
  destruct IH as [Hr E]. cbn beta in Hw. set (x := foldr onec_add 0 l) in *. unfold onec_add.
  rewrite <- E. destruct (Z.ltb_spec (w + x) 65536); (split; [lia|]).
  - by rewrite Z2N.inj_add by lia.
  - split; [|lia]. replace (Z.to_N w + Z.to_N x)%N with (Z.to_N (w + x - 65535) + 1 * 65535)%N by lia.
    symmetry. apply N.Div0.mod_add.
Qed.

(** ** The chain of buffers *)

Lemma shift_sq a : weq (shift a * shift a) 1.
Proof. unfold shift. destruct (Nat.odd (length a)); [apply (weq_swap_swap 1)|reflexivity]. Qed.

(** The sum after one more buffer: the swap moves both parts. *)
Lemma sum_step d b : bytes_ok d -> bytes_ok b ->
  weq (shift b * (256 * shift d * wsum d + 256 * wsum b)) (256 * shift (d ++ b) * wsum (d ++ b)).
Proof.
  intros Hd Hb. rewrite shift_app, wsum_app by done.
  generalize (shift_sq d). generalize (shift d) as sd, (shift b) as sb, (wsum d) as wd, (wsum b) as wb.
  intros sd sb wd wb Hs.
  replace (256 * (sd * sb) * (wd + sd * wb))%N with (256 * sd * sb * wd + 256 * sb * (sd * sd) * wb)%N by ring.
  rewrite Hs. match goal with |- weq ?x ?y => replace x with y by ring end. reflexivity.
Qed.

Definition odd_flag (bs : bytes) : Z := if Nat.odd (length bs) then 1 else 0.

Lemma odd_flag_app d b :
  odd_flag (d ++ b) = if Nat.odd (length b) then u8 (1 - odd_flag d) else odd_flag d.
Proof.
  unfold odd_flag. rewrite length_app, Nat.odd_add. by destruct (Nat.odd (length d)), (Nat.odd (length b)).
Qed.

Lemma odd_len bs : negb (blen bs `mod` 2 =? 0) = Nat.odd (length bs).
Proof.
  unfold blen. rewrite Zmod_odd. rewrite <- Nat.negb_even, <- Z.negb_even.
  assert (E : Z.even (Z.of_nat (length bs)) = Nat.even (length bs)).
  { induction (length bs) as [|n IH]; [done|]. rewrite Nat2Z.inj_succ, Z.even_succ, <- Z.negb_even, IH.
    by rewrite Nat.even_succ, <- Nat.negb_even. }
  rewrite E. by destruct (Nat.even (length bs)).
Qed.

Lemma chksum_pbufs_run ps : forall fuel p acc d s,
  chain (store s) p ps -> lens_ok s ps -> bytes_ok (view s ps) -> bytes_ok d ->
  sums acc (256 * shift d * wsum d) -> (length ps < fuel)%nat ->
  exists acc', chksum_pbufs fuel p acc (odd_flag d) s = Some (acc', odd_flag (d ++ view s ps), s)
    /\ sums acc' (256 * shift (d ++ view s ps) * wsum (d ++ view s ps)).
Proof.
  induction ps as [|q ps IH]; intros fuel p acc d s Hc Hl Hv Hd Ha Hf; (destruct fuel as [|fuel]; [simpl in Hf; lia|]).
  { simpl in Hc. subst p. exists acc. unfold view. simpl. by rewrite app_nil_r. }
  destruct Hc as [-> Hc]. apply Forall_cons_1 in Hl as [Hq Hl]. simpl in Hf.
  unfold view in *. simpl concat in *. fold (view s ps) in *. apply Forall_app in Hv as [Hbs Hv].
  pose proof (area_length s q ltac:(lia)) as Hal. assert (Hbl : blen (area s q) = len (store s q)) by (unfold blen; lia).
  cbn [chksum_pbufs]. rewrite getp_bind, (nbind _ _ _ _ _ (ld_area s q)). cbv zeta.
  pose proof (sums_add _ _ _ _ Ha (standard_chksum_sums _ Hbs ltac:(lia))) as Hsum.
  set (acc1 := FOLD_U32T _) in *. clearbody acc1. rewrite <- Hbl, odd_len.
  pose proof (sum_step d (area s q) Hd Hbs) as Hmix. rewrite app_assoc.
  pose proof (odd_flag_app d (area s q)) as Hof. unfold shift in Hmix at 1.
  destruct (Nat.odd (length (area s q))); rewrite <- Hof.
  - apply IH; [done..|by apply Forall_app_2| |lia]. rewrite <- Hmix. by apply sums_swap.
  - apply IH; [done..|by apply Forall_app_2| |lia]. rewrite <- Hmix. by rewrite N.mul_1_l.
Qed.

(** The swap at the end undoes the ones of an odd number of bytes. *)
Lemma final_swap acc bs :
  sums acc (256 * shift bs * wsum bs) ->
  sums (if negb (odd_flag bs =? 0) then SWAP_BYTES_IN_WORD acc else acc) (256 * wsum bs).
Proof.
  unfold odd_flag, shift. destruct (Nat.odd (length bs)); simpl negb; cbv iota; intros H.
  - apply sums_swap in H. revert H. match goal with |- _ -> ?g => intros H; change g with (sums (SWAP_BYTES_IN_WORD acc) (256 * wsum bs)) end.
    rewrite <- (weq_swap_swap (256 * wsum bs)). by replace (256 * (256 * (256 * wsum bs)))%N with (256 * (256 * 256 * wsum bs))%N by ring.
  - by replace (256 * wsum bs)%N with (256 * 1 * wsum bs)%N by ring.
Qed.

Lemma lnot16 a : 0 <= a < 65536 -> u16 (Z.lnot (Z.land a 0xffff)) = 65535 - a.
Proof.
  intros Ha. rewrite land_ffff, Z.mod_small by done. unfold u16, Z.lnot.
  replace (Z.pred (- a)) with (65535 - a + (-1) * 65536) by lia. rewrite Z.mod_add by lia. apply Z.mod_small. lia.
Qed.
Lemma swap_compl r : 0 <= r < 65536 -> htons (65535 - r) = 65535 - SWAP_BYTES_IN_WORD r.
Proof.
  intros Hr. rewrite htons_swap, !swap_eq by lia.
  pose proof (Z.div_mod r 256 ltac:(lia)). pose proof (Z.mod_pos_bound r 256 ltac:(lia)).
  rewrite <- (Z.div_unique (65535 - r) 256 (255 - r / 256) (255 - r `mod` 256)) by lia.
  rewrite <- (Z.mod_unique (65535 - r) 256 (255 - r / 256) (255 - r `mod` 256)) by lia. lia.
Qed.

(** The sum of the data in the register is the checksum in network order. *)
Lemma rfc1071_sums a bs :
  bytes_ok bs -> sums a (256 * wsum bs) -> u16 (Z.lnot (Z.land a 0xffff)) = htons (rfc1071 bs).
Proof.
  intros Hb Ha. pose proof (onec_sums bs Hb) as Hr. rewrite lnot16 by apply Ha.
  unfold rfc1071. rewrite swap_compl by apply Hr. f_equal.
  eapply sums_unique; [exact Ha|by apply sums_swap].
Qed.

Lemma data_sum s p ps :
  chain (store s) p ps -> lens_ok s ps -> bytes_ok (view s ps) -> (length ps < pbuf_fuel)%nat ->
  exists acc, chksum_pbufs pbuf_fuel p 0 0 s = Some (acc, odd_flag (view s ps), s)
    /\ sums (if negb (odd_flag (view s ps) =? 0) then SWAP_BYTES_IN_WORD acc else acc) (256 * wsum (view s ps)).
Proof.
  intros Hc Hl Hv Hf.
  destruct (chksum_pbufs_run ps pbuf_fuel p 0 [] s Hc Hl Hv ltac:(constructor)) as (acc & E & Ha); [|done|].
  - split; [lia|done].
  - exists acc. split; [exact E|]. by apply final_swap.
Qed.

Lemma chksum_pbuf_run (s : net) (p : option place) (ps : list place) :
  chain (store s) p ps -> lens_ok s ps -> bytes_ok (view s ps) -> (length ps < pbuf_fuel)%nat ->
  inet_chksum_pbuf p s = Some (htons (rfc1071 (view s ps)), s).
Proof.
  intros Hc Hl Hv Hf. destruct (data_sum s p ps Hc Hl Hv Hf) as (acc & E & Ha).
  unfold inet_chksum_pbuf. rewrite (nbind _ _ _ _ _ E). unfold mret, NM_ret. by rewrite (rfc1071_sums _ _ Hv Ha).
Qed.

(** C20: However the data is split into buffers, at odd bytes
    too, [inet_chksum_pbuf] returns the checksum of RFC 1071 of the whole data,
    in network order, and changes nothing. *)
Theorem chksum_pbuf_rfc1071 (s : net) (p : option place) (ps : list place) :
  chain (store s) p ps -> lens_ok s ps -> bytes_ok (view s ps) -> (length ps < pbuf_fuel)%nat ->
  inet_chksum_pbuf p s = Some (htons (rfc1071 (view s ps)), s).
Proof. apply chksum_pbuf_run. Qed.

Lemma inet_chksum_rfc1071 bs : bytes_ok bs -> blen bs < 65536 -> inet_chksum bs = htons (rfc1071 bs).
Proof.
  intros Hb Hl. pose proof (standard_chksum_sums bs Hb Hl) as Hs. unfold inet_chksum.
  rewrite <- (rfc1071_sums _ _ Hb Hs), land_ffff. rewrite (Z.mod_small (lwip_standard_chksum bs)); [done|apply Hs].
Qed.

Lemma le16_bytes c : bytes_ok (le16 c).
Proof. apply Forall_cons_2; [apply u8_range|]. apply Forall_cons_2; [apply u8_range|constructor]. Qed.

(** A 16-bit field at an even place adds its word, as stored. *)
Lemma wsum_field l c r :
  bytes_ok l -> bytes_ok r -> Nat.odd (length l) = false -> 0 <= c < 65536 ->
  weq (wsum (l ++ le16 c ++ r)) (wsum l + (Z.to_N (SWAP_BYTES_IN_WORD c) + wsum r)).
Proof.
  intros Hl Hr Hodd Hc. assert (0 <= c / 256 < 256) by (split; [apply Z.div_pos|apply Z.div_lt_upper_bound]; lia).
  rewrite wsum_app by (done || (apply Forall_app_2; [apply le16_bytes|done])).
  unfold shift. rewrite Hodd, N.mul_1_l. unfold le16. simpl app.
  rewrite wsum_cons2, swap_eq, (u8_small (c / 256)) by done. done.
Qed.

Lemma swap_swap c : 0 <= c < 65536 -> SWAP_BYTES_IN_WORD (SWAP_BYTES_IN_WORD c) = c.
Proof.
  intros Hc. assert (H : 0 <= c / 256 < 256) by (split; [apply Z.div_pos|apply Z.div_lt_upper_bound]; lia).
  pose proof (Z.mod_pos_bound c 256 ltac:(lia)). pose proof (Z.div_mod c 256 ltac:(lia)).
  rewrite swap_eq by (by apply swap_range). rewrite (swap_eq c) by done.
  rewrite <- (Z.div_unique (256 * (c `mod` 256) + c / 256) 256 (c `mod` 256) (c / 256)) by lia.
  rewrite <- (Z.mod_unique (256 * (c `mod` 256) + c / 256) 256 (c `mod` 256) (c / 256)) by lia. lia.
Qed.

(** A message whose checksum field, at an even place, was set
    from [inet_chksum] of the message with a zero field sums to zero: the
    receiver's test accepts it. *)
Theorem chksum_accepted (l r : bytes) :
  bytes_ok l -> bytes_ok r -> blen l + blen r < 65534 -> Nat.odd (length l) = false ->
  inet_chksum (l ++ le16 (inet_chksum (l ++ le16 0 ++ r)) ++ r) = 0.
Proof.
  intros Hl Hr Hlen Hodd.
  assert (Hok : forall c, bytes_ok (l ++ le16 c ++ r) /\ blen (l ++ le16 c ++ r) < 65536).
  { intros c. split.
    - apply Forall_app_2; [done|]. apply Forall_app_2; [apply le16_bytes|done].
    - unfold blen in *. rewrite !length_app. change (length (le16 c)) with 2%nat. lia. }
  destruct (Hok 0) as [Hb0 Hn0]. pose proof (onec_sums _ Hb0) as [Hc Ec].
  rewrite (inet_chksum_rfc1071 (l ++ le16 0 ++ r)) by done. unfold rfc1071 at 1.
  set (c := foldr onec_add 0 (words (l ++ le16 0 ++ r))) in *. rewrite (htons_swap (65535 - c)) by lia.
  destruct (Hok (SWAP_BYTES_IN_WORD (65535 - c))) as [Hb1 Hn1].
  rewrite inet_chksum_rfc1071 by done. unfold rfc1071.
  rewrite (sums_unique _ 65535 _ (onec_sums _ Hb1)); [done|].
  rewrite wsum_field, swap_swap by (done || (apply swap_range; lia) || lia).
  rewrite wsum_field in Ec by (done || lia). change (Z.to_N (SWAP_BYTES_IN_WORD 0)) with 0%N in Ec.
  split; [lia|]. replace (wsum l + (Z.to_N (65535 - c) + wsum r))%N with (wsum l + (0 + wsum r) + Z.to_N (65535 - c))%N by lia.
  rewrite <- Ec. replace (Z.to_N c + Z.to_N (65535 - c))%N with (Z.to_N 65535) by lia. reflexivity.
Qed.

Lemma chksum_accepted_witness :
  inet_chksum ([8; 0] ++ le16 (inet_chksum ([8; 0] ++ le16 0 ++ [0x12; 0x34; 0x00; 0x01; 0x61])) ++ [0x12; 0x34; 0x00; 0x01; 0x61]) = 0.
Proof.
  apply (chksum_accepted [8; 0] [0x12; 0x34; 0x00; 0x01; 0x61]); try (vm_compute; reflexivity);
    repeat (apply Forall_cons_2; [lia|]); constructor.
Defined.

(** ** The pseudo header *)

(** What RFC 768 and RFC 793 put before the data: addresses, protocol, length. *)
Definition pseudo_header (src dest : bytes) (proto proto_len : Z) : bytes :=
  src ++ dest ++ [0; proto; proto_len / 256; proto_len `mod` 256].

Lemma word_halves lo hi : 0 <= lo < 65536 -> 0 <= hi < 65536 ->
  Z.land (lo + 65536 * hi) 0xffff = lo /\ Z.land (Z.shiftr (lo + 65536 * hi) 16) 0xffff = hi.
Proof.
  intros Hl Hh. rewrite !land_ffff, Z.shiftr_div_pow2 by lia. change (2 ^ 16) with 65536.
  rewrite <- (Z.div_unique (lo + 65536 * hi) 65536 hi lo) by lia.
  rewrite <- (Z.mod_unique (lo + 65536 * hi) 65536 hi lo) by lia. split; [done|by apply Z.mod_small].
Qed.

(** An address of four bytes, loaded as a word and added by halves. *)
Lemma addr_halves a b c d :
  bytes_ok [a; b; c; d] ->
  Z.land (unle [a; b; c; d]) 0xffff = a + 256 * b
  /\ Z.land (Z.shiftr (unle [a; b; c; d]) 16) 0xffff = c + 256 * d.
Proof.
  intros H. repeat (apply Forall_cons_1 in H as [? H]; cbn beta in *).
  replace (unle [a; b; c; d]) with (a + 256 * b + 65536 * (c + 256 * d)) by (unfold unle; simpl; lia).
  apply word_halves; lia.
Qed.

(** A word as the processor loads it has the sum of its bytes, swapped. *)
Lemma weq_loaded a b : 0 <= a < 256 -> 0 <= b < 256 -> weq (Z.to_N (a + 256 * b)) (256 * Z.to_N (256 * a + b)).
Proof.
  intros Ha Hb. split; [|lia].
  replace (256 * Z.to_N (256 * a + b))%N with (Z.to_N (a + 256 * b) + Z.to_N a * 65535)%N by lia.
  symmetry. apply N.Div0.mod_add.
Qed.

Definition addr_ok (a : bytes) : Prop := bytes_ok a /\ length a = 4%nat.

(** The six words of the pseudo header, as the code adds them. *)
Definition pseudo_sum (src dest proto proto_len : Z) : Z :=
  Z.land src 0xffff + Z.land (Z.shiftr src 16) 0xffff + Z.land dest 0xffff
  + Z.land (Z.shiftr dest 16) 0xffff + htons (u16 proto) + htons proto_len.

Lemma pseudo_words src dest proto proto_len :
  addr_ok src -> addr_ok dest -> 0 <= proto < 256 -> 0 <= proto_len < 65536 ->
  0 <= pseudo_sum (unle src) (unle dest) proto proto_len <= 393210
  /\ weq (Z.to_N (pseudo_sum (unle src) (unle dest) proto proto_len))
      (256 * wsum (pseudo_header src dest proto proto_len)).
Proof.
  intros [Hs Ls] [Hd Ld] Hp Hn.
  destruct src as [|a [|b [|c [|d [|]]]]]; try discriminate Ls.
  destruct dest as [|e [|f [|g [|h [|]]]]]; try discriminate Ld.
  unfold pseudo_sum. destruct (addr_halves a b c d Hs) as [-> ->]. destruct (addr_halves e f g h Hd) as [-> ->].
  repeat (apply Forall_cons_1 in Hs as [? Hs]; cbn beta in *).
  repeat (apply Forall_cons_1 in Hd as [? Hd]; cbn beta in *).
  assert (0 <= proto_len / 256 < 256) by (split; [apply Z.div_pos|apply Z.div_lt_upper_bound]; lia).
  pose proof (Z.mod_pos_bound proto_len 256 ltac:(lia)).
  rewrite u16_small, !htons_swap, !swap_eq, (Z.div_small proto 256), (Z.mod_small proto 256) by lia.
  split; [lia|]. unfold pseudo_header. simpl app. rewrite !wsum_cons2. change (wsum []) with 0%N.
  rewrite !N.mul_add_distr_l. rewrite <- !weq_loaded by lia.
  match goal with |- weq ?x ?y => replace x with y by lia end. reflexivity.
Qed.

Lemma u32_add_l a b : u32 (u32 a + b) = u32 (a + b).
Proof. apply Z.add_mod_idemp_l. lia. Qed.

Lemma pseudo_header_ok src dest proto proto_len :
  addr_ok src -> addr_ok dest -> 0 <= proto < 256 -> 0 <= proto_len < 65536 ->
  bytes_ok (pseudo_header src dest proto proto_len) /\ shift (pseudo_header src dest proto proto_len) = 1%N.
Proof.
  intros [Hs Ls] [Hd Ld] Hp Hn. split.
  - assert (0 <= proto_len / 256 < 256) by (split; [apply Z.div_pos|apply Z.div_lt_upper_bound]; lia).
    pose proof (Z.mod_pos_bound proto_len 256 ltac:(lia)).
    repeat (apply Forall_app_2; [done|]). repeat (apply Forall_cons_2; [lia|]). constructor.
  - unfold shift, pseudo_header. by rewrite !length_app, Ls, Ld.
Qed.

(** Two folds bring the sum of at most seven words back to one. *)
Lemma two_folds t n : 0 <= t <= 458745 -> weq (Z.to_N t) n -> sums (FOLD_U32T (FOLD_U32T t)) n.
Proof.
  intros Ht E. apply sums_fold; [|by rewrite weq_fold by lia].
  rewrite fold_eq by lia. pose proof (Z.mod_pos_bound t 65536 ltac:(lia)).
  assert (0 <= t / 65536 <= 6) by (split; [apply Z.div_pos|apply Z.lt_succ_r, Z.div_lt_upper_bound]; lia). lia.
Qed.

(** [inet_chksum_pseudo] returns the checksum of RFC 1071 of
    the pseudo header of UDP and TCP followed by the data of the buffers. *)
Theorem chksum_pseudo (s : net) (p : option place) (ps : list place) (src dest : bytes) (proto proto_len : Z) :
  chain (store s) p ps -> lens_ok s ps -> bytes_ok (view s ps) -> (length ps < pbuf_fuel)%nat ->
  addr_ok src -> addr_ok dest -> 0 <= proto < 256 -> 0 <= proto_len < 65536 ->
  inet_chksum_pseudo p (unle src) (unle dest) proto proto_len s
  = Some (htons (rfc1071 (pseudo_header src dest proto proto_len ++ view s ps)), s).
Proof.
  intros Hc Hl Hv Hf Hs Hd Hp Hn. destruct (data_sum s p ps Hc Hl Hv Hf) as (acc & E & Ha).
  destruct (pseudo_words src dest proto proto_len Hs Hd Hp Hn) as [Hr Ew].
  destruct (pseudo_header_ok src dest proto proto_len Hs Hd Hp Hn) as [Hh Hsh].
  unfold inet_chksum_pseudo. rewrite (nbind _ _ _ _ _ E). unfold mret, NM_ret. cbv zeta.
  revert Ha. generalize (if negb (odd_flag (view s ps) =? 0) then SWAP_BYTES_IN_WORD acc else acc).
  intros x [Hx Ex]. do 2 f_equal. repeat (rewrite u32_add_l, <- ?Z.add_assoc).
  apply rfc1071_sums; [by apply Forall_app_2|]. unfold pseudo_sum in *. rewrite <- !Z.add_assoc in *.
  rewrite u32_small by lia. apply two_folds; [lia|].
  rewrite Z2N.inj_add, Ex, Ew, wsum_app, Hsh by (done || lia).
  match goal with |- weq ?a ?b => replace a with b by lia end. reflexivity.
Qed.

(** ** Concrete buffers *)

(** Three buffers of 3, 4 and 1 bytes. *)
Definition three (q : place) : pbuf :=
  match q with
  | Elem MEMP_PBUF_POOL 9 => mkPbuf (Some (elem 8)) 16 8 3 PBUF_POOL 0 1
  | Elem MEMP_PBUF_POOL 8 => mkPbuf (Some (elem 7)) 16 5 4 PBUF_POOL 0 1
  | _ => mkPbuf None 16 1 1 PBUF_POOL 0 1
  end.
Definition three_net : net :=
  mkNet (hp fresh_net) (memp_tab fresh_net) three
    (fun q i => match q with Elem _ n => (250 * i + 70 * Z.of_nat n) `mod` 256 | _ => 0 end).
Definition three_elems : list place := [elem 9; elem 8; elem 7].
Lemma three_chain : chain (store three_net) (Some (elem 9)) three_elems.
Proof. by vm_compute; repeat split. Qed.
Lemma three_lens : lens_ok three_net three_elems.
Proof. repeat (apply Forall_cons_2; [vm_compute; split; congruence|]). apply Forall_nil_2. Qed.
Lemma three_bytes : bytes_ok (view three_net three_elems).
Proof.
  assert (E : view three_net three_elems = [22; 16; 10; 208; 202; 196; 190; 138]) by (vm_compute; reflexivity).
  rewrite E. repeat (apply Forall_cons_2; [lia|]). apply Forall_nil_2.
Qed.

Lemma chksum_pbuf_rfc1071_witness :
  inet_chksum_pbuf (Some (elem 9)) three_net
  = Some (htons (rfc1071 [22; 16; 10; 208; 202; 196; 190; 138]), three_net).
Proof.
  exact (chksum_pbuf_rfc1071 three_net (Some (elem 9)) three_elems three_chain three_lens three_bytes
    ltac:(vm_compute; lia)).
Defined.

Lemma chksum_pseudo_witness :
  inet_chksum_pseudo (Some (elem 9)) (unle [192; 168; 1; 10]) (unle [192; 168; 1; 20]) 17 8 three_net
  = Some (htons (rfc1071 ([192; 168; 1; 10; 192; 168; 1; 20; 0; 17; 0; 8] ++ view three_net three_elems)), three_net).
Proof.
  apply (chksum_pseudo three_net (Some (elem 9)) three_elems [192; 168; 1; 10] [192; 168; 1; 20] 17 8
    three_chain three_lens three_bytes); try lia; try (split; [|reflexivity]);
    [vm_compute; lia|repeat (apply Forall_cons_2; [lia|]); apply Forall_nil_2
    |repeat (apply Forall_cons_2; [lia|]); apply Forall_nil_2].
Defined.
