(* ===== verification/Ethernet.v ===== *)
(** * The Ethernet interface (port/ethernetif.c, descriptors of stm32_eth.c)

    Two rings of descriptors are shared with the DMA of the MAC: a descriptor
    belongs to the DMA while its OWN bit is set.  A descriptor is named by its
    index in its table, a buffer by its offset in [Rx_Buff] or [Tx_Buff].  The
    DMA itself is a parameter ([RxDma] of EthSpec.v). *)
From stdpp Require Import base tactics list numbers option.
From S2P Require Import Prelude Heap Pbuf.

(** ETH_DMADESCTypeDef *)
Record desc := mkDesc { Status : Z; ControlBufferSize : Z; Buffer1Addr : Z; Buffer2NextDescAddr : Z }.

Definition ETH_MAX_PACKET_SIZE : Z := 1520.
Definition ETH_RXBUFNB : Z := 4.
Definition ETH_TXBUFNB : Z := 2.

Definition ETH_DMATxDesc_OWN : Z := 0x80000000.
Definition ETH_DMATxDesc_LS : Z := 0x20000000.
Definition ETH_DMATxDesc_FS : Z := 0x10000000.
Definition ETH_DMATxDesc_TCH : Z := 0x00100000.
Definition ETH_DMATxDesc_TBS1 : Z := 0x00001FFF.
Definition ETH_DMATxDesc_ChecksumTCPUDPICMPFull : Z := 0x00C00000.
Definition ETH_DMARxDesc_OWN : Z := 0x80000000.
Definition ETH_DMARxDesc_FL : Z := 0x3FFF0000.
Definition ETH_DMARxDesc_ES : Z := 0x00008000.
Definition ETH_DMARxDesc_FS : Z := 0x00000200.
Definition ETH_DMARxDesc_LS : Z := 0x00000100.
Definition ETH_DMARxDesc_DIC : Z := 0x80000000.
Definition ETH_DMARxDesc_RCH : Z := 0x00004000.
Definition ETH_DMARxDesc_FrameLengthShift : Z := 16.
Definition ETH_DMASR_RBUS : Z := 0x00000080.
Definition ETH_DMASR_TBUS : Z := 0x00000004.
Definition ETH_DMA_IT_NIS : Z := 0x00010000.
Definition ETH_DMA_IT_R : Z := 0x00000040.

(** Writes to DMARPDR and DMATPDR make the DMA look at its descriptors again;
    those to DMARDLAR and DMATDLAR tell it where its list starts. *)
Inductive demand : Set := ReceivePoll | TransmitPoll | ReceiveList (i : Z) | TransmitList (i : Z).

Record eth := mkEth {
  DMARxDscrTab : list desc;
  DMATxDscrTab : list desc;
  Rx_Buff : bytes;
  Tx_Buff : bytes;
  DMARxDescToGet : Z;
  DMATxDescToSet : Z;
  DMASR : Z;
  demands : list demand;      (* latest first *)
  nt : net }.

Definition EM (A : Type) : Type := eth -> option (A * eth).
#[export] Instance EM_ret : MRet EM := fun A a s => Some (a, s).
#[export] Instance EM_bind : MBind EM := fun A B k m s =>
  match m s with Some (a, s) => k a s | None => None end.

Definition eget {A} (f : eth -> A) : EM A := fun s => Some (f s, s).
Definition emod (f : eth -> eth) : EM unit := fun s => Some (tt, f s).
Definition ewhen (b : bool) (m : EM unit) : EM unit := if b then m else mret tt.
Definition elift {A} (x : option A) : EM A := fun s => a ← x; Some (a, s).

Definition set_rx (l : list desc) (s : eth) : eth :=
  mkEth l (DMATxDscrTab s) (Rx_Buff s) (Tx_Buff s) (DMARxDescToGet s) (DMATxDescToSet s) (DMASR s) (demands s) (nt s).
Definition set_tx (l : list desc) (s : eth) : eth :=
  mkEth (DMARxDscrTab s) l (Rx_Buff s) (Tx_Buff s) (DMARxDescToGet s) (DMATxDescToSet s) (DMASR s) (demands s) (nt s).
Definition set_rxbuf (m : bytes) (s : eth) : eth :=
  mkEth (DMARxDscrTab s) (DMATxDscrTab s) m (Tx_Buff s) (DMARxDescToGet s) (DMATxDescToSet s) (DMASR s) (demands s) (nt s).
Definition set_txbuf (m : bytes) (s : eth) : eth :=
  mkEth (DMARxDscrTab s) (DMATxDscrTab s) (Rx_Buff s) m (DMARxDescToGet s) (DMATxDescToSet s) (DMASR s) (demands s) (nt s).
Definition set_toget (i : Z) (s : eth) : eth :=
  mkEth (DMARxDscrTab s) (DMATxDscrTab s) (Rx_Buff s) (Tx_Buff s) i (DMATxDescToSet s) (DMASR s) (demands s) (nt s).
Definition set_toset (i : Z) (s : eth) : eth :=
  mkEth (DMARxDscrTab s) (DMATxDscrTab s) (Rx_Buff s) (Tx_Buff s) (DMARxDescToGet s) i (DMASR s) (demands s) (nt s).
Definition set_sr (v : Z) (s : eth) : eth :=
  mkEth (DMARxDscrTab s) (DMATxDscrTab s) (Rx_Buff s) (Tx_Buff s) (DMARxDescToGet s) (DMATxDescToSet s) v (demands s) (nt s).
Definition set_demands (l : list demand) (s : eth) : eth :=
  mkEth (DMARxDscrTab s) (DMATxDscrTab s) (Rx_Buff s) (Tx_Buff s) (DMARxDescToGet s) (DMATxDescToSet s) (DMASR s) l (nt s).
Definition set_nt (n : net) (s : eth) : eth :=
  mkEth (DMARxDscrTab s) (DMATxDscrTab s) (Rx_Buff s) (Tx_Buff s) (DMARxDescToGet s) (DMATxDescToSet s) (DMASR s) (demands s) n.

(** A call of pbuf.c. *)
Definition on_net {A} (m : NM A) : EM A := fun s =>
  match m (nt s) with Some (a, n) => Some (a, set_nt n s) | None => None end.

(** The descriptor a pointer names; [None]: the pointer is not into the table. *)
Definition at_index (l : list desc) (i : Z) : option desc := if 0 <=? i then l !! Z.to_nat i else None.
Definition rx_desc (i : Z) : EM desc := fun s => d ← at_index (DMARxDscrTab s) i; Some (d, s).
Definition tx_desc (i : Z) : EM desc := fun s => d ← at_index (DMATxDscrTab s) i; Some (d, s).
Definition upd_rx (i : Z) (f : desc -> desc) : EM unit :=
  d ← rx_desc i; emod (fun s => set_rx (<[Z.to_nat i := f d]> (DMARxDscrTab s)) s).
Definition upd_tx (i : Z) (f : desc -> desc) : EM unit :=
  d ← tx_desc i; emod (fun s => set_tx (<[Z.to_nat i := f d]> (DMATxDscrTab s)) s).
Definition put_Status (v : Z) (d : desc) := mkDesc v (ControlBufferSize d) (Buffer1Addr d) (Buffer2NextDescAddr d).
Definition put_Control (v : Z) (d : desc) := mkDesc (Status d) v (Buffer1Addr d) (Buffer2NextDescAddr d).
Definition or_Status (v : Z) (d : desc) := put_Status (Z.lor (Status d) v) d.

(** The bits of DMASR are cleared by writing ones. *)
Definition write_DMASR (v : Z) : EM unit := emod (fun s => set_sr (Z.land (DMASR s) (Z.lnot v)) s).
Definition to_dma (p : demand) : EM unit := emod (fun s => set_demands (p :: demands s) s).
(** [if ((ETH->DMASR & flag) != RESET) { ETH->DMASR = flag; ETH->DMAxPDR = 0; }] *)
Definition resume (flag : Z) (p : demand) : EM unit :=
  sr ← eget DMASR;
  ewhen (negb (Z.land sr flag =? 0)) (write_DMASR flag;; to_dma p).

(** ** The descriptor rings *)

(** [for (i = 0; i < TxBuffCount; i++)] over the table, which has as many entries. *)
Fixpoint tx_chain (n : nat) (i count : Z) : EM unit :=
  match n with
  | O => mret tt
  | S n =>
      upd_tx i (put_Status ETH_DMATxDesc_TCH);;
      upd_tx i (fun d => mkDesc (Status d) (ControlBufferSize d) (i * ETH_MAX_PACKET_SIZE) (Buffer2NextDescAddr d));;
      upd_tx i (fun d => mkDesc (Status d) (ControlBufferSize d) (Buffer1Addr d) (if i <? count - 1 then i + 1 else 0));;
      tx_chain n (i + 1) count
  end.
Definition ETH_DMATxDescChainInit (TxBuffCount : Z) : EM unit :=
  emod (set_toset 0);; tx_chain (Z.to_nat TxBuffCount) 0 TxBuffCount;; to_dma (TransmitList 0).

Fixpoint rx_chain (n : nat) (i count : Z) : EM unit :=
  match n with
  | O => mret tt
  | S n =>
      upd_rx i (put_Status ETH_DMARxDesc_OWN);;
      upd_rx i (put_Control (Z.lor ETH_DMARxDesc_RCH ETH_MAX_PACKET_SIZE));;
      upd_rx i (fun d => mkDesc (Status d) (ControlBufferSize d) (i * ETH_MAX_PACKET_SIZE) (Buffer2NextDescAddr d));;
      upd_rx i (fun d => mkDesc (Status d) (ControlBufferSize d) (Buffer1Addr d) (if i <? count - 1 then i + 1 else 0));;
      rx_chain n (i + 1) count
  end.
Definition ETH_DMARxDescChainInit (RxBuffCount : Z) : EM unit :=
  emod (set_toget 0);; rx_chain (Z.to_nat RxBuffCount) 0 RxBuffCount;; to_dma (ReceiveList 0).

Definition ETH_DMARxDescReceiveITConfig (i : Z) (NewState : bool) : EM unit :=
  upd_rx i (fun d =>
    put_Control (if NewState then Z.land (ControlBufferSize d) (Z.lnot ETH_DMARxDesc_DIC)
                 else Z.lor (ControlBufferSize d) ETH_DMARxDesc_DIC) d).
Definition ETH_DMATxDescChecksumInsertionConfig (i DMATxDesc_Checksum : Z) : EM unit :=
  upd_tx i (or_Status DMATxDesc_Checksum).

Fixpoint for_desc (n : nat) (i : Z) (f : Z -> EM unit) : EM unit :=
  match n with O => mret tt | S n => f i;; for_desc n (i + 1) f end.

(** The descriptors in [low_level_init]. *)
Definition low_level_init_rings : EM unit :=
  ETH_DMATxDescChainInit ETH_TXBUFNB;;
  ETH_DMARxDescChainInit ETH_RXBUFNB;;
  for_desc (Z.to_nat ETH_RXBUFNB) 0 (fun i => ETH_DMARxDescReceiveITConfig i true);;
  for_desc (Z.to_nat ETH_TXBUFNB) 0
    (fun i => ETH_DMATxDescChecksumInsertionConfig i ETH_DMATxDesc_ChecksumTCPUDPICMPFull).

(** ** Receiving *)

(** FrameTypeDef; [descriptor] is [None] for the null pointer. *)
Record FrameTypeDef := mkFrame { length_ : Z; buffer : Z; descriptor : option Z }.

Definition ETH_GetDMARxDescFrameLength (d : desc) : Z :=
  Z.shiftr (Z.land (Status d) ETH_DMARxDesc_FL) ETH_DMARxDesc_FrameLengthShift.

(** A whole frame without errors in one descriptor. *)
Definition good_frame (d : desc) : bool :=
  (Z.land (Status d) ETH_DMARxDesc_ES =? 0) && negb (Z.land (Status d) ETH_DMARxDesc_LS =? 0)
  && negb (Z.land (Status d) ETH_DMARxDesc_FS =? 0).

Definition ETH_RxPkt_ChainMode : EM FrameTypeDef :=
  i ← eget DMARxDescToGet;
  d ← rx_desc i;
  if negb (Z.land (Status d) ETH_DMARxDesc_OWN =? 0) then
    resume ETH_DMASR_RBUS ReceivePoll;;
    mret (mkFrame 0 0 None)
  else
    let framelength := if good_frame d then u32 (ETH_GetDMARxDescFrameLength d - 4) else 0 in
    let buffer := if good_frame d then Buffer1Addr d else 0 in
    emod (set_toget (Buffer2NextDescAddr d));;
    mret (mkFrame framelength buffer (Some i)).

Definition ETH_GetRxPktSize : EM Z :=
  i ← eget DMARxDescToGet;
  d ← rx_desc i;
  if (Z.land (Status d) ETH_DMARxDesc_OWN =? 0) && good_frame d then mret (ETH_GetDMARxDescFrameLength d)
  else mret 0.

(** [for (q = p; q != NULL; q = q->next)] of [low_level_input]. *)
Fixpoint input_loop (fuel : nat) (q : option place) (buffer l : Z) : EM unit :=
  match fuel with
  | O => fun _ => None
  | S fuel =>
      match q with
      | None => mret tt
      | Some q =>
          b ← on_net (getp q);
          m ← eget Rx_Buff;
          src ← elift (rdn m (buffer + l) (len b));
          on_net (st_data q (payload b) src);;
          input_loop fuel (p_next b) buffer (l + len b)
      end
  end.

Definition low_level_input : EM (option place) :=
  frame ← ETH_RxPkt_ChainMode;
  p ← on_net (pbuf_alloc PBUF_RAW (u16 (length_ frame)) PBUF_POOL);
  input_loop pbuf_fuel p (buffer frame) 0;;
  d ← elift (descriptor frame);
  upd_rx d (put_Status ETH_DMARxDesc_OWN);;
  resume ETH_DMASR_RBUS ReceivePoll;;
  mret p.

Definition ERR_OK : Z := 0.
Definition ERR_MEM : Z := -1.

Section interface.
(** [netif->input]. *)
Variable input : option place -> EM Z.

Definition ethernetif_input : EM Z :=
  p ← low_level_input;
  match p with
  | None => mret ERR_MEM
  | Some _ =>
      err ← input p;
      ewhen (negb (err =? ERR_OK)) (on_net (pbuf_free p);; mret tt);;
      mret err
  end.
Definition LwIP_Pkt_Handle : EM unit := ethernetif_input;; mret tt.

(** [while (ETH_GetRxPktSize() != 0)] *)
Fixpoint irq_loop (fuel : nat) : EM unit :=
  match fuel with
  | O => fun _ => None
  | S fuel =>
      n ← ETH_GetRxPktSize;
      if negb (n =? 0) then LwIP_Pkt_Handle;; irq_loop fuel else mret tt
  end.
Definition ETH_IRQHandler (fuel : nat) : EM unit :=
  irq_loop fuel;;
  write_DMASR ETH_DMA_IT_R;;
  write_DMASR ETH_DMA_IT_NIS.
End interface.

(** ** Sending *)

Definition ETH_GetCurrentTxBuffer : EM Z :=
  i ← eget DMATxDescToSet;
  d ← tx_desc i;
  mret (Buffer1Addr d).

(** [true]: ETH_SUCCESS. *)
Definition ETH_TxPkt_ChainMode (FrameLength : Z) : EM bool :=
  i ← eget DMATxDescToSet;
  d ← tx_desc i;
  if negb (Z.land (Status d) ETH_DMATxDesc_OWN =? 0) then mret false
  else
    upd_tx i (put_Control (Z.land FrameLength ETH_DMATxDesc_TBS1));;
    upd_tx i (or_Status (Z.lor ETH_DMATxDesc_LS ETH_DMATxDesc_FS));;
    upd_tx i (or_Status ETH_DMATxDesc_OWN);;
    resume ETH_DMASR_TBUS TransmitPoll;;
    d ← tx_desc i;
    emod (set_toset (Buffer2NextDescAddr d));;
    mret true.

Fixpoint output_loop (fuel : nat) (q : option place) (buffer l : Z) : EM Z :=
  match fuel with
  | O => fun _ => None
  | S fuel =>
      match q with
      | None => mret l
      | Some q =>
          b ← on_net (getp q);
          src ← on_net (ld_data q (payload b) (len b));
          m ← eget Tx_Buff;
          m ← elift (wrn m (buffer + l) src);
          emod (set_txbuf m);;
          output_loop fuel (p_next b) buffer (l + len b)
      end
  end.
Definition low_level_output (p : option place) : EM Z :=
  buffer ← ETH_GetCurrentTxBuffer;
  l ← output_loop pbuf_fuel p buffer 0;
  ETH_TxPkt_ChainMode (u16 l);;
  mret ERR_OK.
