(* ===== verification/EthSpec.v ===== *)
(** * Frames through the descriptor rings

    The receive ring is a queue: frames leave it in the order in which the DMA
    stored them, each in a chain of buffers that holds exactly its bytes, and
    every descriptor goes back to the DMA, also when no buffer is free.  The
    DMA is a parameter with the behaviour its manual documents ([RxDma]). *)
From stdpp Require Import base tactics list numbers option.
From S2P Require Import Prelude Heap HeapSpec Pbuf PbufSpec Ethernet.

Lemma ebind {A B} (m : EM A) (k : A -> EM B) s a s' : m s = Some (a, s') -> (m ≫= k) s = k a s'.
Proof. intros E. unfold mbind, EM_bind. by rewrite E. Qed.
Lemma eget_bind {A B} (f : eth -> A) (k : A -> EM B) s : (eget f ≫= k) s = k (f s) s.
Proof. done. Qed.
Lemma emod_bind {B} (f : eth -> eth) (k : unit -> EM B) s : (emod f ≫= k) s = k tt (f s).
Proof. done. Qed.
Lemma on_net_run {A} (m : NM A) s a n : m (nt s) = Some (a, n) -> on_net m s = Some (a, set_nt n s).
Proof. intros E. unfold on_net. by rewrite E. Qed.
Lemma set_nt_nt n s : nt (set_nt n s) = n.
Proof. done. Qed.
Lemma set_nt_twice n m s : set_nt n (set_nt m s) = set_nt n s.
Proof. done. Qed.
Lemma set_nt_id s : set_nt (nt s) s = s.
Proof. by destruct s. Qed.

(** ** A packet: a chain of buffers with the bytes of a frame *)

Definition holds_frame (n : net) (p : place) (ps : list place) (f : bytes) : Prop :=
  chain (store n) (Some p) ps /\ NoDup ps /\ lens_ok n ps /\ view n ps = f.

(** The rest of a window. *)
Lemma rdn_skip m off n k bs :
  rdn m off n = Some bs -> 0 <= k <= n -> rdn m (off + k) (n - k) = Some (drop (Z.to_nat k) bs).
Proof.
  intros (R1 & R2 & R3 & ->)%rdn_Some Hk. rewrite rdn_in by lia. f_equal.
  rewrite skipn_firstn_comm, drop_drop. f_equal; [lia|]. f_equal. lia.
Qed.

(** The loop of [low_level_input] fills the chain from the frame's buffer. *)
Lemma input_run ps : forall fuel p buffer l bs s,
  chain (store (nt s)) p ps -> NoDup ps -> lens_ok (nt s) ps -> (length ps < fuel)%nat ->
  0 <= buffer + l -> blen bs = room_of (nt s) ps -> rdn (Rx_Buff s) (buffer + l) (blen bs) = Some bs ->
  exists n', input_loop fuel p buffer l s = Some (tt, set_nt n' s) /\ store n' = store (nt s)
    /\ hp n' = hp (nt s) /\ memp_tab n' = memp_tab (nt s) /\ view n' ps = bs
    /\ forall x, x ∉ ps -> data n' x = data (nt s) x.
Proof.
  induction ps as [|q ps IH]; intros fuel p buffer l bs s Hc Hnd Hl Hfu Hb Hlen Hr;
    (destruct fuel as [|fuel]; [simpl in Hfu; lia|]); cbn [input_loop].
  { simpl in Hc. subst p. exists (nt s). rewrite set_nt_id. simpl in Hlen. unfold blen in Hlen.
    destruct bs; [done|simpl in Hlen; lia]. }
  destruct Hc as [-> Hc]. pose proof (NoDup_cons_1_1 _ _ Hnd) as Hq. apply NoDup_cons_1_2 in Hnd.
  apply Forall_cons_1 in Hl as [Hlq Hl]. simpl in Hfu, Hlen. fold (room_of (nt s) ps) in Hlen.
  rewrite (ebind _ _ s (store (nt s) q) (set_nt (nt s) s)), set_nt_id by done. rewrite eget_bind.
  set (k := len (store (nt s) q)) in *. pose proof (view_length (nt s) ps Hl) as Hvl.
  pose proof (rdn_take _ _ _ k _ Hr ltac:(lia)) as Hr1.
  rewrite (ebind _ _ s (take (Z.to_nat k) bs) s) by (unfold elift; by rewrite Hr1).
  pose proof (rdn_blen _ _ _ _ Hr1) as Hk.
  destruct (st_data_area (nt s) q (take (Z.to_nat k) bs)) as (n1 & E1 & St1 & H1 & T1 & A1 & D1); [fold k; lia|].
  rewrite (ebind _ _ s tt (set_nt n1 s)) by (by apply on_net_run).
  assert (Hv1 : view n1 ps = view (nt s) ps) by (apply view_ext; [done|]; intros x Hx; apply D1; intros ->; done).
  pose proof (rdn_skip _ _ _ k _ Hr ltac:(lia)) as Hr2.
  destruct (IH fuel (p_next (store (nt s) q)) buffer (l + k) (drop (Z.to_nat k) bs) (set_nt n1 s))
    as (n2 & E2 & St2 & H2 & T2 & V2 & D2); rewrite ?set_nt_nt in *.
  { by rewrite St1. } { done. } { unfold lens_ok in *. by rewrite St1. } { lia. } { lia. }
  { assert (room_of n1 ps = room_of (nt s) ps) as -> by (unfold room_of; by rewrite St1).
    unfold blen in *. rewrite length_drop. lia. }
  { change (Rx_Buff (set_nt n1 s)) with (Rx_Buff s). rewrite Z.add_assoc.
    replace (blen (drop (Z.to_nat k) bs)) with (blen bs - k) by (unfold blen in *; rewrite length_drop; lia). done. }
  exists n2. split; [exact E2|]. split_and!; [congruence..| |].
  - unfold view. cbn [map concat]. fold (view n2 ps).
    assert (Ha : area n2 q = area n1 q) by (unfold area; rewrite St2; by rewrite (D2 q Hq)).
    rewrite Ha, A1, V2. pose proof (area_length (nt s) q ltac:(lia)) as Hal.
    rewrite (drop_ge (area (nt s) q)) by (unfold blen in Hk; fold k in Hal; lia).
    by rewrite app_nil_r, take_drop.
  - intros x Hx. apply not_elem_of_cons in Hx as [Hx1 Hx2]. by rewrite (D2 x Hx2), D1.
Qed.

(** *** The buffers of a new packet *)

Lemma holds_chain f p cs : holds f p cs -> chain f p (map where_ cs).
Proof.
  revert p. induction cs as [|[[q t] l] cs IH]; intros p; simpl; [done|]. intros (-> & _ & Hc).
  split; [done|]. by apply IH.
Qed.

(** The buffers of the chain have one reference, and together the room asked. *)
Definition fresh (s : net) (ps : list place) : Prop :=
  Forall (fun q => pool_of (type (store s q)) = Some MEMP_PBUF_POOL /\ ref (store s q) = 1) ps.

Lemma holds_fresh s p cs rem :
  holds (store s) p cs -> suffix_ok rem cs -> 0 <= rem < 65536 ->
  lens_ok s (map where_ cs) /\ fresh s (map where_ cs) /\ room_of s (map where_ cs) = rem.
Proof.
  revert p rem. induction cs as [|[[q t] l] cs IH]; intros p rem; cbn [holds suffix_ok map where_ fst].
  { intros _ -> _. split_and!; [constructor..|done]. }
  intros (-> & Hq & Hc) (-> & Hl & Hm & Hs) Hr. unfold PBUF_POOL_BUFSIZE_ALIGNED in Hm.
  destruct (IH (p_next (store s q)) (rem - l) Hc Hs ltac:(lia)) as (L & F & R).
  split_and!.
  - apply Forall_cons_2; [rewrite Hq; simpl; lia|done].
  - apply Forall_cons_2; [by rewrite Hq|done].
  - cbn [room_of foldr]. fold (room_of s (map where_ cs)). rewrite R, Hq. simpl. lia.
Qed.

Lemma alloc_packet (s : net) (n : Z) (fl : list place) :
  free_list s MEMP_PBUF_POOL fl -> (length fl < 256)%nat -> 0 <= n < 65536 ->
  n <= capacity PBUF_RAW (length fl) ->
  exists s' q ps rest, pbuf_alloc PBUF_RAW n PBUF_POOL s = Some (Some q, s') /\ same_but MEMP_PBUF_POOL s s'
    /\ fl = ps ++ rest /\ free_list s' MEMP_PBUF_POOL rest /\ chain (store s') (Some q) ps /\ NoDup ps
    /\ lens_ok s' ps /\ fresh s' ps /\ room_of s' ps = n.
Proof.
  intros Hf Hlen Hn Hc. destruct (pool_alloc_ok s PBUF_RAW n fl Hf Hlen Hn Hc) as (s' & q & cs & rest & E & S & Efl & Hr & Hq & Hh & Hs).
  change (first_room PBUF_RAW) with 256 in *. set (l := Z.min n 256) in *.
  destruct (holds_fresh s' _ cs (n - l) Hh Hs ltac:(unfold l; lia)) as (L & F & R).
  exists s', q, (q :: map where_ cs), rest. unfold first_cell in Hq. change (first_room PBUF_RAW) with 256 in Hq. fold l in Hq.
  destruct Hf as [_ Hnd]. split_and!; try done.
  - split; [done|]. by apply holds_chain.
  - rewrite Efl in Hnd. change (q :: map where_ cs ++ rest) with ((q :: map where_ cs) ++ rest) in Hnd.
    by apply list.NoDup_app in Hnd as [? _].
  - apply Forall_cons_2; [|done]. rewrite Hq. simpl. unfold l. lia.
  - apply Forall_cons_2; [|done]. by rewrite Hq.
  - cbn [room_of foldr]. fold (room_of s' (map where_ cs)). rewrite R, Hq. simpl. unfold l. lia.
Qed.

(** ** The DMA

    [current]: the descriptor the DMA looks at next.  [arrive f]: a frame comes
    in, without its checksum of four bytes. *)
Class RxDma (D : Type) := {
  current : D -> Z;
  arrive : bytes -> D -> eth -> D * eth }.

Definition owned (d : desc) : bool := negb (Z.land (Status d) ETH_DMARxDesc_OWN =? 0).
(** The size of a descriptor's buffer, and what a stored frame leaves in [Status]. *)
Definition RBS1 (d : desc) : Z := Z.land (ControlBufferSize d) 0x1FFF.
Definition frame_status (st n : Z) : Prop :=
  Z.land st ETH_DMARxDesc_OWN = 0 /\ Z.land st ETH_DMARxDesc_ES = 0 /\ Z.land st ETH_DMARxDesc_LS <> 0
  /\ Z.land st ETH_DMARxDesc_FS <> 0 /\ Z.shiftr (Z.land st ETH_DMARxDesc_FL) 16 = n + 4.

(** What belongs to the driver and to lwIP. *)
Record same_driver (e e' : eth) : Prop := {
  sd_tx : DMATxDscrTab e' = DMATxDscrTab e;
  sd_txbuf : Tx_Buff e' = Tx_Buff e;
  sd_get : DMARxDescToGet e' = DMARxDescToGet e;
  sd_set : DMATxDescToSet e' = DMATxDescToSet e;
  sd_nt : nt e' = nt e }.

(** The manual: a frame goes into the buffer of the current descriptor if the
    DMA owns it, and into those after it if it is longer; the descriptor of the
    end of the frame has LS and the length.  Without a descriptor of its own
    the DMA drops the frame.  Descriptors of the processor are not written. *)
Class RxDmaLaws (D : Type) `{RxDma D} : Prop := {
  arrive_driver f x e : same_driver e (snd (arrive f x e));
  arrive_keeps f x e j d :
    at_index (DMARxDscrTab e) j = Some d -> owned d = false ->
    at_index (DMARxDscrTab (snd (arrive f x e))) j = Some d;
  arrive_full f x e d :
    at_index (DMARxDscrTab e) (current x) = Some d -> owned d = false ->
    current (fst (arrive f x e)) = current x
    /\ DMARxDscrTab (snd (arrive f x e)) = DMARxDscrTab e /\ Rx_Buff (snd (arrive f x e)) = Rx_Buff e;
  arrive_stores f x e d :
    at_index (DMARxDscrTab e) (current x) = Some d -> owned d = true -> blen f + 4 <= RBS1 d ->
    0 <= Buffer1Addr d -> Buffer1Addr d + RBS1 d <= blen (Rx_Buff e) ->
    current (fst (arrive f x e)) = Buffer2NextDescAddr d
    /\ (exists st, frame_status st (blen f)
        /\ DMARxDscrTab (snd (arrive f x e)) = <[Z.to_nat (current x) := put_Status st d]> (DMARxDscrTab e))
    /\ blen (Rx_Buff (snd (arrive f x e))) = blen (Rx_Buff e)
    /\ rdn (Rx_Buff (snd (arrive f x e))) (Buffer1Addr d) (blen f) = Some f
    /\ forall o n, o + n <= Buffer1Addr d \/ Buffer1Addr d + RBS1 d <= o ->
        rdn (Rx_Buff (snd (arrive f x e))) o n = rdn (Rx_Buff e) o n;
  arrive_long f x e d :
    at_index (DMARxDscrTab e) (current x) = Some d -> owned d = true -> RBS1 d < blen f + 4 ->
    exists st, at_index (DMARxDscrTab (snd (arrive f x e))) (current x) = Some (put_Status st d)
      /\ Z.land st ETH_DMARxDesc_OWN = 0 /\ Z.land st ETH_DMARxDesc_LS = 0 }.

(** ** The receive ring as a queue of frames *)

Definition slot_desc (i st : Z) : desc :=
  mkDesc st (Z.lor ETH_DMARxDesc_RCH ETH_MAX_PACKET_SIZE) (i * ETH_MAX_PACKET_SIZE) ((i + 1) `mod` 4).

(** How far descriptor [i] is from the driver's. *)
Definition ahead (e : eth) (i : Z) : nat := Z.to_nat ((i - DMARxDescToGet e) `mod` 4).

Definition slot (e : eth) (q : list bytes) (i : Z) : Prop :=
  exists st, at_index (DMARxDscrTab e) i = Some (slot_desc i st) /\
  match q !! ahead e i with
  | Some f => frame_status st (blen f) /\ rdn (Rx_Buff e) (i * ETH_MAX_PACKET_SIZE) (blen f) = Some f
  | None => Z.land st ETH_DMARxDesc_OWN <> 0
  end.

Record ring {D} `{RxDma D} (x : D) (e : eth) (q : list bytes) : Prop := {
  rg_get : 0 <= DMARxDescToGet e < 4;
  rg_len : (length q <= 4)%nat;
  rg_short : Forall (fun f => blen f + 4 <= ETH_MAX_PACKET_SIZE) q;
  rg_current : current x = (DMARxDescToGet e + Z.of_nat (length q)) `mod` 4;
  rg_tab : length (DMARxDscrTab e) = 4%nat;
  rg_buf : blen (Rx_Buff e) = ETH_RXBUFNB * ETH_MAX_PACKET_SIZE;
  rg_slot : forall i, 0 <= i < 4 -> slot e q i }.

Lemma at_index_insert l i j d :
  0 <= i < Z.of_nat (length l) -> 0 <= j ->
  at_index (<[Z.to_nat i := d]> l) j = if decide (j = i) then Some d else at_index l j.
Proof.
  intros Hi Hj. unfold at_index. destruct (Z.leb_spec 0 j); [|lia]. destruct (decide (j = i)) as [->|Hne].
  - apply list_lookup_insert_eq. lia.
  - apply list_lookup_insert_ne. lia.
Qed.

Lemma RBS1_slot i st : RBS1 (slot_desc i st) = ETH_MAX_PACKET_SIZE.
Proof. done. Qed.

(** Positions in the ring. *)
Ltac mod4 := unfold ahead in *; Z.to_euclidean_division_equations; lia.

Section receive.
Context {D : Type} `{RxDmaLaws D}.

Lemma slot_here x e q i st f :
  ring x e q -> 0 <= i < 4 -> q !! ahead e i = f -> at_index (DMARxDscrTab e) i = Some (slot_desc i st) ->
  match f with
  | Some f => frame_status st (blen f) /\ rdn (Rx_Buff e) (i * ETH_MAX_PACKET_SIZE) (blen f) = Some f
  | None => Z.land st ETH_DMARxDesc_OWN <> 0
  end.
Proof. intros Hr Hi <- Ht. destruct (rg_slot _ _ _ Hr i Hi) as (st' & Ht' & Hs). rewrite Ht in Ht'. by injection Ht' as <-. Qed.

(** The descriptor after the waiting frames is the DMA's. *)
Lemma ring_next x e q :
  ring x e q -> (length q < 4)%nat ->
  exists st, at_index (DMARxDscrTab e) (current x) = Some (slot_desc (current x) st)
    /\ Z.land st ETH_DMARxDesc_OWN <> 0 /\ 0 <= current x < 4.
Proof.
  intros Hr Hq. pose proof (rg_current _ _ _ Hr) as Hc. pose proof (rg_get _ _ _ Hr).
  assert (Hi : 0 <= current x < 4) by (rewrite Hc; apply Z.mod_pos_bound; lia).
  destruct (rg_slot _ _ _ Hr _ Hi) as (st & Ht & Hs). exists st. split; [done|]. split; [|done].
  assert (E : q !! ahead e (current x) = None) by (apply lookup_ge_None_2; rewrite Hc; mod4).
  by rewrite E in Hs.
Qed.

Lemma ring_arrive x e q f :
  ring x e q -> (length q < 4)%nat -> blen f + 4 <= ETH_MAX_PACKET_SIZE ->
  ring (fst (arrive f x e)) (snd (arrive f x e)) (q ++ [f]).
Proof.
  intros Hr Hq Hf. destruct (ring_next x e q Hr Hq) as (st & Ht & Hst & Hi).
  pose proof (rg_get _ _ _ Hr) as Hg. pose proof (rg_current _ _ _ Hr) as Hc. pose proof (rg_tab _ _ _ Hr) as Hl.
  pose proof (rg_buf _ _ _ Hr) as Hb. unfold ETH_RXBUFNB, ETH_MAX_PACKET_SIZE in *.
  destruct (arrive_stores f x e (slot_desc (current x) st) Ht) as (Hcur & (st' & Hst' & Ht') & Hb' & Hw & Hout).
  { unfold owned. simpl. destruct (Z.eqb_spec (Z.land st ETH_DMARxDesc_OWN) 0); done. }
  { done. } { unfold slot_desc, ETH_MAX_PACKET_SIZE; simpl. lia. }
  { rewrite RBS1_slot. unfold slot_desc, ETH_MAX_PACKET_SIZE; simpl. lia. }
  destruct (arrive_driver f x e) as [_ _ Eg _ _]. rewrite RBS1_slot in Hout.
  destruct (arrive f x e) as [x' e']. cbn [fst snd] in *.
  split; rewrite ?Eg; [done|rewrite length_app; simpl; lia| | |rewrite Ht'; by rewrite length_insert|rewrite Hb'; exact (rg_buf _ _ _ Hr)|].
  - apply Forall_app_2; [exact (rg_short _ _ _ Hr)|]. by apply Forall_cons_2; [|apply Forall_nil_2].
  - rewrite Hcur, length_app. simpl. rewrite Hc. mod4.
  - intros i Hi'. unfold slot. rewrite Ht'.
    destruct (decide (i = current x)) as [->|Hne].
    + exists st'. rewrite at_index_insert, decide_True by (done || lia). split; [done|].
      assert (E : ahead e' (current x) = length q) by (unfold ahead; rewrite Eg, Hc; mod4).
      rewrite E, lookup_app_r, Nat.sub_diag by lia. simpl. split; [done|]. exact Hw.
    + destruct (rg_slot _ _ _ Hr i Hi') as (st1 & Ht1 & Hs1). exists st1.
      rewrite at_index_insert, decide_False by (done || lia). split; [done|].
      assert (E : (q ++ [f]) !! ahead e' i = q !! ahead e i).
      { unfold ahead. rewrite Eg. assert (Z.to_nat ((i - DMARxDescToGet e) `mod` 4) <> length q) by (rewrite Hc in Hne; mod4).
        destruct (decide (Z.to_nat ((i - DMARxDescToGet e) `mod` 4) < length q)%nat); [by rewrite lookup_app_l|].
        rewrite !lookup_ge_None_2; [done|lia|]. rewrite length_app. simpl. lia. }
      rewrite E. destruct (q !! ahead e i) as [f0|] eqn:Eq; [|done]. destruct Hs1 as [Hs1 Hw1]. split; [done|].
      pose proof (Forall_lookup_1 _ _ _ _ (rg_short _ _ _ Hr) Eq) as Hf0. cbn beta in Hf0.
      rewrite Hout; [done|]. unfold slot_desc, ETH_MAX_PACKET_SIZE in *. simpl. lia.
Qed.

(** A full ring: the frame is lost. *)
Lemma ring_full x e q f :
  ring x e q -> length q = 4%nat -> ring (fst (arrive f x e)) (snd (arrive f x e)) q.
Proof.
  intros Hr Hq. pose proof (rg_get _ _ _ Hr) as Hg. pose proof (rg_current _ _ _ Hr) as Hc.
  assert (Hi : current x = DMARxDescToGet e) by (rewrite Hc, Hq; mod4).
  assert (Hi4 : 0 <= current x < 4) by lia. destruct (rg_slot _ _ _ Hr _ Hi4) as (st & Ht & Hs).
  assert (E : exists f0, q !! ahead e (current x) = Some f0).
  { apply lookup_lt_is_Some_2. rewrite Hi. unfold ahead. rewrite Z.sub_diag, Hq. change (Z.to_nat (0 `mod` 4)) with 0%nat. lia. }
  destruct E as [f0 E]. rewrite E in Hs. destruct Hs as [(Ho & _) _].
  destruct (arrive_full f x e _ Ht) as (Hcur & Htab & Hbuf); [unfold owned; simpl; by rewrite Ho|].
  destruct (arrive_driver f x e) as [_ _ Eg _ _]. destruct (arrive f x e) as [x' e']. cbn [fst snd] in *.
  split; rewrite ?Eg, ?Htab, ?Hbuf, ?Hcur; [apply Hr..|].
  intros i Hi'. destruct (rg_slot _ _ _ Hr i Hi') as (st' & Ht' & Hs'). exists st'. rewrite Htab, Hbuf.
  unfold ahead in *. by rewrite Eg.
Qed.

(** The driver gives its descriptor back and goes on to the next. *)
Lemma ring_served x e e' f q st :
  ring x e (f :: q) -> at_index (DMARxDscrTab e) (DMARxDescToGet e) = Some (slot_desc (DMARxDescToGet e) st) ->
  DMARxDescToGet e' = (DMARxDescToGet e + 1) `mod` 4 -> Rx_Buff e' = Rx_Buff e ->
  DMARxDscrTab e' = <[Z.to_nat (DMARxDescToGet e) := slot_desc (DMARxDescToGet e) ETH_DMARxDesc_OWN]> (DMARxDscrTab e) ->
  ring x e' q.
Proof.
  intros Hr Ht Eg Eb Et. pose proof (rg_get _ _ _ Hr) as Hg. pose proof (rg_current _ _ _ Hr) as Hc.
  pose proof (rg_len _ _ _ Hr) as Hlen. pose proof (rg_tab _ _ _ Hr) as Hl. simpl in Hlen, Hc.
  split; rewrite ?Eb, ?Et, ?length_insert; [rewrite Eg; apply Z.mod_pos_bound; lia|lia| | |apply Hr..|].
  - by apply (Forall_cons_1 _ _ _ (rg_short _ _ _ Hr)).
  - rewrite Hc, Eg. mod4.
  - intros i Hi. unfold slot. rewrite Et, Eb, at_index_insert by lia.
    destruct (decide (i = DMARxDescToGet e)) as [->|Hne].
    + exists ETH_DMARxDesc_OWN. split; [done|].
      rewrite lookup_ge_None_2; [done|]. unfold ahead. rewrite Eg. mod4.
    + destruct (rg_slot _ _ _ Hr i Hi) as (st' & Ht' & Hs). exists st'. split; [done|].
      assert (E : ahead e i = S (ahead e' i)) by (unfold ahead; rewrite Eg; mod4).
      by rewrite E in Hs.
Qed.
End receive.

(** ** [low_level_input] *)

Lemma resume_run fl p s : exists sr dm, resume fl p s = Some (tt, set_demands dm (set_sr sr s)).
Proof.
  unfold resume. rewrite eget_bind. destruct (negb (Z.land (DMASR s) fl =? 0)).
  - by exists (Z.land (DMASR s) (Z.lnot fl)), (p :: demands s).
  - exists (DMASR s), (demands s). by destruct s.
Qed.

Lemma rx_desc_run s i d : at_index (DMARxDscrTab s) i = Some d -> rx_desc i s = Some (d, s).
Proof. intros E. unfold rx_desc. by rewrite E. Qed.
Lemma upd_rx_run s i d g :
  at_index (DMARxDscrTab s) i = Some d -> upd_rx i g s = Some (tt, set_rx (<[Z.to_nat i := g d]> (DMARxDscrTab s)) s).
Proof. intros E. unfold upd_rx. by rewrite (ebind _ _ _ _ _ (rx_desc_run _ _ _ E)). Qed.

Lemma frame_good i st n : frame_status st n -> good_frame (slot_desc i st) = true /\ owned (slot_desc i st) = false
  /\ ETH_GetDMARxDescFrameLength (slot_desc i st) = n + 4.
Proof.
  intros (Ho & He & Hl & Hf & Hn). unfold good_frame, owned, ETH_GetDMARxDescFrameLength. simpl Status.
  rewrite Ho, He. destruct (Z.eqb_spec (Z.land st ETH_DMARxDesc_LS) 0), (Z.eqb_spec (Z.land st ETH_DMARxDesc_FS) 0); done.
Qed.

Section input.
Context {D : Type} `{RxDmaLaws D}.

(** The oldest frame is the one at the driver's descriptor. *)
Lemma ring_head x e f q :
  ring x e (f :: q) -> exists st, at_index (DMARxDscrTab e) (DMARxDescToGet e) = Some (slot_desc (DMARxDescToGet e) st)
    /\ frame_status st (blen f) /\ rdn (Rx_Buff e) (DMARxDescToGet e * ETH_MAX_PACKET_SIZE) (blen f) = Some f
    /\ blen f + 4 <= ETH_MAX_PACKET_SIZE.
Proof.
  intros Hr. destruct (rg_slot _ _ _ Hr _ (rg_get _ _ _ Hr)) as (st & Ht & Hs). exists st. split; [done|].
  unfold ahead in Hs. rewrite Z.sub_diag in Hs. destruct Hs as [Hs Hw]. split; [done|]. split; [done|].
  exact (proj1 (Forall_cons_1 _ _ _ (rg_short _ _ _ Hr))).
Qed.

Lemma RxPkt_run x e f q :
  ring x e (f :: q) ->
  ETH_RxPkt_ChainMode e = Some (mkFrame (blen f) (DMARxDescToGet e * ETH_MAX_PACKET_SIZE) (Some (DMARxDescToGet e)),
    set_toget ((DMARxDescToGet e + 1) `mod` 4) e).
Proof.
  intros Hr. destruct (ring_head x e f q Hr) as (st & Ht & Hs & _ & Hf). unfold ETH_MAX_PACKET_SIZE in Hf.
  destruct (frame_good (DMARxDescToGet e) _ _ Hs) as (Hg & Ho & Hl). pose proof (blen_nonneg f).
  unfold ETH_RxPkt_ChainMode. rewrite eget_bind, (ebind _ _ _ _ _ (rx_desc_run _ _ _ Ht)).
  unfold owned in Ho. rewrite Ho, Hg, Hl. rewrite u32_small by lia. by replace (blen f + 4 - 4) with (blen f) by lia.
Qed.

Lemma GetRxPktSize_run x e f q : ring x e (f :: q) -> ETH_GetRxPktSize e = Some (blen f + 4, e).
Proof.
  intros Hr. destruct (ring_head x e f q Hr) as (st & Ht & Hs & _).
  destruct (frame_good (DMARxDescToGet e) _ _ Hs) as (Hg & Ho & Hl).
  unfold ETH_GetRxPktSize. rewrite eget_bind, (ebind _ _ _ _ _ (rx_desc_run _ _ _ Ht)).
  apply negb_false_iff in Ho. by rewrite Ho, Hg, Hl.
Qed.
Lemma GetRxPktSize_empty x e : ring x e [] -> ETH_GetRxPktSize e = Some (0, e).
Proof.
  intros Hr. destruct (rg_slot _ _ _ Hr _ (rg_get _ _ _ Hr)) as (st & Ht & Hs). rewrite lookup_nil in Hs.
  unfold ETH_GetRxPktSize. rewrite eget_bind, (ebind _ _ _ _ _ (rx_desc_run _ _ _ Ht)). simpl.
  by destruct (Z.eqb_spec (Z.land st ETH_DMARxDesc_OWN) 0).
Qed.

(** What receiving leaves alone: the transmit side. *)
Definition same_transmit (e e' : eth) : Prop :=
  DMATxDscrTab e' = DMATxDscrTab e /\ Tx_Buff e' = Tx_Buff e /\ DMATxDescToSet e' = DMATxDescToSet e.

Lemma low_level_input_run x e f q p n1 n2 :
  let g := DMARxDescToGet e in
  let e1 := set_toget ((g + 1) `mod` 4) e in
  ring x e (f :: q) -> pbuf_alloc PBUF_RAW (blen f) PBUF_POOL (nt e) = Some (p, n1) ->
  input_loop pbuf_fuel p (g * ETH_MAX_PACKET_SIZE) 0 (set_nt n1 e1) = Some (tt, set_nt n2 e1) ->
  exists e', low_level_input e = Some (p, e') /\ nt e' = n2 /\ ring x e' q /\ same_transmit e e'.
Proof.
  intros g e1 Hr Ha Hi. destruct (ring_head x e f q Hr) as (st & Ht & Hs & _ & Hf).
  pose proof (blen_nonneg f). unfold ETH_MAX_PACKET_SIZE in Hf.
  unfold low_level_input. rewrite (ebind _ _ _ _ _ (RxPkt_run x e f q Hr)). cbn [length_ buffer descriptor].
  rewrite u16_small by lia. fold g e1.
  rewrite (ebind _ _ _ _ _ (on_net_run _ e1 p n1 Ha)), (ebind _ _ _ _ _ Hi).
  rewrite (ebind (elift (Some g)) _ _ g (set_nt n2 e1)) by done.
  rewrite (ebind _ _ _ _ _ (upd_rx_run (set_nt n2 e1) g _ _ Ht)).
  destruct (resume_run ETH_DMASR_RBUS ReceivePoll
    (set_rx (<[Z.to_nat g:=put_Status ETH_DMARxDesc_OWN (slot_desc g st)]> (DMARxDscrTab (set_nt n2 e1))) (set_nt n2 e1)))
    as (sr & dm & E).
  rewrite (ebind _ _ _ _ _ E). eexists. split; [reflexivity|]. split; [done|]. split; [|done].
  by apply (ring_served x e _ f q st Hr Ht).
Qed.

Definition pool_ok (n : net) : Prop := exists fl, free_list n MEMP_PBUF_POOL fl /\ (length fl < 256)%nat.

Lemma receive_some x e f q fl :
  ring x e (f :: q) -> free_list (nt e) MEMP_PBUF_POOL fl -> (length fl < 256)%nat ->
  blen f <= capacity PBUF_RAW (length fl) ->
  exists e' p ps rest, low_level_input e = Some (Some p, e') /\ ring x e' q /\ same_transmit e e'
    /\ fl = ps ++ rest /\ free_list (nt e') MEMP_PBUF_POOL rest /\ holds_frame (nt e') p ps f /\ fresh (nt e') ps.
Proof.
  intros Hr Hfl Hlen Hc. destruct (ring_head x e f q Hr) as (st & Ht & Hs & Hw & Hf).
  pose proof (blen_nonneg f). unfold ETH_MAX_PACKET_SIZE in Hf.
  destruct (alloc_packet (nt e) (blen f) fl Hfl Hlen ltac:(lia) Hc) as (n1 & p & ps & rest & Ea & S1 & Efl & Hrest & Hch & Hnd & Hl & Hfr & Hrm).
  pose proof (rg_get _ _ _ Hr) as Hg. set (e1 := set_toget ((DMARxDescToGet e + 1) `mod` 4) e).
  assert (Hps : (length ps < pbuf_fuel)%nat) by (rewrite Efl, length_app in Hlen; unfold pbuf_fuel; lia).
  destruct (input_run ps pbuf_fuel (Some p) (DMARxDescToGet e * ETH_MAX_PACKET_SIZE) 0 f (set_nt n1 e1))
    as (n2 & Ei & St & _ & Tab & Hv & _); rewrite ?set_nt_nt; try done.
  { unfold ETH_MAX_PACKET_SIZE. lia. } { by rewrite Z.add_0_r. }
  rewrite set_nt_twice in Ei. rewrite set_nt_nt in St, Tab.
  destruct (low_level_input_run x e f q (Some p) n1 n2 Hr Ea Ei) as (e' & E & En & Hr' & Ht').
  exists e', p, ps, rest. split; [exact E|]. split; [done|]. split; [done|]. split; [done|]. rewrite En.
  unfold free_list, holds_frame, lens_ok, fresh in *. rewrite St, Tab. done.
Qed.

Lemma receive_none x e f q fl :
  ring x e (f :: q) -> free_list (nt e) MEMP_PBUF_POOL fl -> (length fl < 256)%nat ->
  capacity PBUF_RAW (length fl) < blen f ->
  exists e', low_level_input e = Some (None, e') /\ ring x e' q /\ same_transmit e e'
    /\ free_list (nt e') MEMP_PBUF_POOL (rev fl).
Proof.
  intros Hr Hfl Hlen Hc. destruct (ring_head x e f q Hr) as (_ & _ & _ & _ & Hf). unfold ETH_MAX_PACKET_SIZE in Hf.
  pose proof (blen_nonneg f).
  destruct (pool_alloc_fail (nt e) PBUF_RAW (blen f) fl Hfl Hlen ltac:(lia) Hc) as (n1 & Ea & S1 & F1).
  destruct (low_level_input_run x e f q None n1 n1 Hr Ea) as (e' & E & En & Hr' & Ht'); [done|].
  exists e'. rewrite En. done.
Qed.

(** When a frame waits, [low_level_input] returns.  If the free
    buffers of the pool have room for it, it returns a chain of them that
    holds the bytes of the oldest frame, one reference each; if not, it returns
    no chain and loses no buffer.  In both cases the descriptor is the DMA's
    again, the next frame is the oldest, and transmission is not touched. *)
Theorem frame_received (x : D) (e : eth) (f : bytes) (q : list bytes) (fl : list place) :
  ring x e (f :: q) -> free_list (nt e) MEMP_PBUF_POOL fl -> (length fl < 256)%nat ->
  exists r e', low_level_input e = Some (r, e') /\ ring x e' q /\ same_transmit e e' /\
  if blen f <=? capacity PBUF_RAW (length fl) then
    exists p ps rest, r = Some p /\ fl = ps ++ rest /\ free_list (nt e') MEMP_PBUF_POOL rest
    /\ holds_frame (nt e') p ps f /\ fresh (nt e') ps
  else r = None /\ free_list (nt e') MEMP_PBUF_POOL (rev fl).
Proof.
  intros Hr Hfl Hlen. destruct (Z.leb_spec (blen f) (capacity PBUF_RAW (length fl))) as [Hc|Hc].
  - destruct (receive_some x e f q fl Hr Hfl Hlen Hc) as (e' & p & ps & rest & E & R & T & P).
    exists (Some p), e'. split_and!; try done. by exists p, ps, rest.
  - destruct (receive_none x e f q fl Hr Hfl Hlen Hc) as (e' & E & R & T & P). by exists None, e'.
Qed.
End input.
