(* ===== verification/EthRun.v ===== *)
(** * The Ethernet interface in operation

    Any interleaving of the DMA's receptions, the interrupt handler's turns and
    the rest of the program, as a labelled step relation; the handler's loop;
    the transmit ring. *)
From stdpp Require Import base tactics list numbers option.
From S2P Require Import Prelude Heap HeapSpec Pbuf PbufSpec Ethernet EthSpec.

(** ** Steps *)

Inductive label : Set :=
  | Stored (f : bytes)       (* the DMA stores a frame *)
  | Lost (f : bytes)         (* it has no descriptor for the frame *)
  | Given (f : bytes)        (* the handler gets a chain with these bytes *)
  | Dropped                  (* the handler gets no buffers *)
  | Elsewhere.

Definition dma_owns {D} `{RxDma D} (x : D) (e : eth) : bool :=
  match at_index (DMARxDscrTab e) (current x) with Some d => owned d | None => false end.

(** What the rest of the program does not write. *)
Definition same_receive (e e' : eth) : Prop :=
  DMARxDscrTab e' = DMARxDscrTab e /\ Rx_Buff e' = Rx_Buff e /\ DMARxDescToGet e' = DMARxDescToGet e.

(** A turn of the handler's loop finds a frame. *)
Definition waiting (e : eth) : Prop := exists n, ETH_GetRxPktSize e = Some (n, e) /\ n <> 0.

Inductive rx_step {D} `{RxDma D} : D * eth -> label -> D * eth -> Prop :=
  | st_arrive x e f : rx_step (x, e) (if dma_owns x e then Stored f else Lost f) (arrive f x e)
  | st_given x e e' p ps :
      pool_ok (nt e) -> waiting e -> low_level_input e = Some (Some p, e') -> chain (store (nt e')) (Some p) ps ->
      rx_step (x, e) (Given (view (nt e') ps)) (x, e')
  | st_dropped x e e' :
      pool_ok (nt e) -> waiting e -> low_level_input e = Some (None, e') -> rx_step (x, e) Dropped (x, e')
  | st_elsewhere x e e' : same_receive e e' -> rx_step (x, e) Elsewhere (x, e').

Inductive rx_run {D} `{RxDma D} (s0 : D * eth) : list label -> D * eth -> Prop :=
  | rx_nil : rx_run s0 [] s0
  | rx_snoc tr s l s' : rx_run s0 tr s -> rx_step s l s' -> rx_run s0 (tr ++ [l]) s'.

Definition stored_of (l : label) : list bytes := match l with Stored f => [f] | _ => [] end.
Definition handed_of (l : label) : list (option bytes) :=
  match l with Given f => [Some f] | Dropped => [None] | _ => [] end.
(** The frames stored, and the turns of the handler, in their order. *)
Definition stored_by (tr : list label) : list bytes := tr ≫= stored_of.
Definition handed (tr : list label) : list (option bytes) := tr ≫= handed_of.
Definition frame_short (l : label) : Prop :=
  match l with Stored f | Lost f => blen f + 4 <= ETH_MAX_PACKET_SIZE | _ => True end.

Lemma stored_snoc tr l : stored_by (tr ++ [l]) = stored_by tr ++ stored_of l.
Proof. unfold stored_by. rewrite bind_app. simpl. by rewrite app_nil_r. Qed.
Lemma handed_snoc tr l : handed (tr ++ [l]) = handed tr ++ handed_of l.
Proof. unfold handed. rewrite bind_app. simpl. by rewrite app_nil_r. Qed.

Lemma chain_inj f p ps ps' : chain f p ps -> chain f p ps' -> ps = ps'.
Proof.
  revert p ps'. induction ps as [|q ps IH]; intros p [|q' ps']; simpl; try done; [intros -> [? _]; done|intros [-> _] ?; done|].
  intros [-> H1] [E H2]. injection E as ->. f_equal. by eapply IH.
Qed.

Lemma ring_same {D} `{RxDma D} x e e' q : ring x e q -> same_receive e e' -> ring x e' q.
Proof.
  intros Hr (Et & Eb & Eg). split; rewrite ?Et, ?Eb, ?Eg; [apply Hr..|].
  intros i Hi. destruct (rg_slot _ _ _ Hr i Hi) as (st & Ht & Hs). exists st. rewrite Et, Eb.
  unfold ahead in *. by rewrite Eg.
Qed.

Section run.
Context {D : Type} `{RxDmaLaws D}.

Lemma owns_ring x e q : ring x e q -> dma_owns x e = bool_decide (length q < 4)%nat.
Proof.
  intros Hr. unfold dma_owns. case_bool_decide as Hq.
  - destruct (ring_next x e q Hr Hq) as (st & Ht & Hs & _). rewrite Ht. unfold owned. simpl.
    by destruct (Z.eqb_spec (Z.land st ETH_DMARxDesc_OWN) 0).
  - pose proof (rg_len _ _ _ Hr) as Hlen. pose proof (rg_get _ _ _ Hr) as Hg. pose proof (rg_current _ _ _ Hr) as Hc.
    assert (Hi : current x = DMARxDescToGet e).
    { assert (length q = 4%nat) as E by lia. rewrite Hc, E. mod4. }
    destruct q as [|f q]; [simpl in Hq; lia|]. destruct (ring_head x e f q Hr) as (st & Ht & Hs & _).
    rewrite Hi, Ht. by destruct (frame_good (DMARxDescToGet e) _ _ Hs) as (_ & -> & _).
Qed.

(** A turn of the handler takes the oldest frame. *)
Lemma turn_ring x e q r e' :
  ring x e q -> pool_ok (nt e) -> waiting e -> low_level_input e = Some (r, e') ->
  exists f q', q = f :: q' /\ ring x e' q' /\
  forall p, r = Some p -> exists ps, holds_frame (nt e') p ps f.
Proof.
  intros Hr (fl & Hfl & Hlen) (n & Hn & Hn0) E. destruct q as [|f q].
  { rewrite (GetRxPktSize_empty x e Hr) in Hn. congruence. }
  exists f, q. split; [done|]. destruct (Z.le_gt_cases (blen f) (capacity PBUF_RAW (length fl))) as [Hc|Hc].
  - destruct (receive_some x e f q fl Hr Hfl Hlen Hc) as (e1 & p & ps & rest & E1 & R & _ & _ & _ & P & _).
    rewrite E in E1. injection E1 as -> ->. split; [done|]. intros p' [= <-]. by exists ps.
  - destruct (receive_none x e f q fl Hr Hfl Hlen ltac:(lia)) as (e1 & E1 & R & _).
    rewrite E in E1. injection E1 as -> ->. split; [done|]. done.
Qed.

(** One step of the ring is one step of a queue of four places. *)
Lemma ring_step x e q l x' e' :
  ring x e q -> frame_short l -> rx_step (x, e) l (x', e') ->
  exists q', ring x' e' q' /\
  match l with
  | Stored f => (length q < 4)%nat /\ q' = q ++ [f]
  | Lost _ => length q = 4%nat /\ q' = q
  | Given f => q = f :: q'
  | Dropped => exists f, q = f :: q'
  | Elsewhere => q' = q
  end.
Proof.
  intros Hr Hsh Hst.
  inversion Hst as [x1 e1 f E1 E2 Ea|x1 e1 e1' p ps Hp Hw E Hch|x1 e1 e1' Hp Hw E|x1 e1 e1' Hs]; subst; clear Hst.
  - rewrite (owns_ring x e q Hr) in *. case_bool_decide as Hq.
    + exists (q ++ [f]). split; [|done]. pose proof (ring_arrive x e q f Hr Hq Hsh) as Hr'. by rewrite Ea in Hr'.
    + pose proof (rg_len _ _ _ Hr). exists q. split; [|split; [lia|done]].
      pose proof (ring_full x e q f Hr ltac:(lia)) as Hr'. by rewrite Ea in Hr'.
  - destruct (turn_ring _ e q _ e' Hr Hp Hw E) as (f & q' & -> & R & P).
    exists q'. split; [done|]. destruct (P p eq_refl) as (ps' & Hch' & _ & _ & <-).
    by rewrite (chain_inj _ _ _ _ Hch Hch').
  - destruct (turn_ring _ e q _ e' Hr Hp Hw E) as (f & q' & -> & R & _). exists q'. split; [done|]. by exists f.
  - exists q. split; [|done]. by apply (ring_same _ e).
Qed.

(** The state of the arrays before the start-up: their sizes. *)
Definition sized (e : eth) : Prop :=
  length (DMARxDscrTab e) = 4%nat /\ length (DMATxDscrTab e) = 2%nat
  /\ blen (Rx_Buff e) = ETH_RXBUFNB * ETH_MAX_PACKET_SIZE /\ blen (Tx_Buff e) = ETH_TXBUFNB * ETH_MAX_PACKET_SIZE.

Definition tx_start (c : Z) (i : Z) : desc :=
  mkDesc (Z.lor ETH_DMATxDesc_TCH ETH_DMATxDesc_ChecksumTCPUDPICMPFull) c (i * ETH_MAX_PACKET_SIZE) ((i + 1) `mod` 2).

Lemma init_rings_run e :
  sized e -> exists c0 c1, low_level_init_rings e =
    Some (tt, set_toget 0 (set_toset 0 (set_tx [tx_start c0 0; tx_start c1 1]
      (set_demands (ReceiveList 0 :: TransmitList 0 :: demands e)
      (set_rx ((fun i => slot_desc i ETH_DMARxDesc_OWN) <$> [0; 1; 2; 3]) e))))).
Proof.
  intros (Hr & Ht & _). destruct e as [rx tx rb tb g w sr dm n]. cbn [DMARxDscrTab DMATxDscrTab] in Hr, Ht.
  destruct rx as [|r0 [|r1 [|r2 [|r3 [|]]]]]; try discriminate Hr.
  destruct tx as [|t0 [|t1 [|]]]; try discriminate Ht.
  exists (ControlBufferSize t0), (ControlBufferSize t1). vm_compute. reflexivity.
Qed.

Lemma init_ring x e e1 :
  sized e -> current x = 0 -> low_level_init_rings e = Some (tt, e1) -> ring x e1 [].
Proof.
  intros Hs Hx E. destruct (init_rings_run e Hs) as (c0 & c1 & E1). rewrite E in E1. injection E1 as ->.
  destruct Hs as (_ & _ & Hb & _). split; cbn [DMARxDescToGet set_toget DMARxDscrTab set_toset set_tx set_demands set_rx Rx_Buff length];
    [lia|lia|constructor|by rewrite Hx|done|done|].
  intros i Hi. assert (Hc : i = 0 \/ i = 1 \/ i = 2 \/ i = 3) by lia.
  destruct Hc as [->|[->|[->| ->]]]; (exists ETH_DMARxDesc_OWN; split; [done|]; rewrite lookup_nil; done).
Qed.

(** The handler's turn takes the next of the stored frames. *)
Lemma drop_cons {A} n (l : list A) a r : drop n l = a :: r -> l !! n = Some a /\ drop (S n) l = r /\ (n < length l)%nat.
Proof.
  intros E. assert (Hn : (n < length l)%nat).
  { destruct (decide (n < length l)%nat); [done|]. rewrite drop_ge in E by lia. discriminate E. }
  destruct (lookup_lt_is_Some_2 l n Hn) as [b Hb]. rewrite (drop_S l b n Hb) in E. by injection E as -> ->.
Qed.

Lemma run_ring x0 e0 tr s :
  ring x0 e0 [] -> rx_run (x0, e0) tr s -> Forall frame_short tr ->
  ring (fst s) (snd s) (drop (length (handed tr)) (stored_by tr))
  /\ (length (handed tr) <= length (stored_by tr))%nat
  /\ forall i f, handed tr !! i = Some (Some f) -> stored_by tr !! i = Some f.
Proof.
  intros Hr0 Hrun. induction Hrun as [|tr [x e] l [x' e'] Hrun IH Hst]; intros Hsh.
  { simpl. split_and!; [done|lia|]. intros i f E. discriminate E. }
  apply Forall_app in Hsh as [Hsh Hl]. apply Forall_cons_1 in Hl as [Hl _].
  destruct (IH Hsh) as (Hr & Hle & Hall). cbn [fst snd] in *. clear IH.
  destruct (ring_step x e _ l x' e' Hr Hl Hst) as (q' & Hr' & Hq).
  rewrite stored_snoc, handed_snoc. destruct l as [f|f|f| |]; cbn [stored_of handed_of]; rewrite ?app_nil_r.
  - destruct Hq as [_ ->]. rewrite length_app. split_and!; [|lia|].
    + by rewrite drop_app_le by done.
    + intros i g Hi. specialize (Hall i g Hi). rewrite lookup_app_l; [done|]. by apply lookup_lt_Some in Hall.
  - destruct Hq as [_ ->]. done.
  - destruct (drop_cons _ _ _ _ Hq) as (Hf & <- & Hlt). rewrite length_app, Nat.add_1_r. split_and!; [done|lia|].
    intros i g Hi. destruct (decide (i < length (handed tr))%nat); [rewrite lookup_app_l in Hi by done; by apply Hall|].
    rewrite lookup_app_r in Hi by lia. apply list_lookup_singleton_Some in Hi as [Hi [= <-]].
    by replace i with (length (handed tr)) by lia.
  - destruct Hq as [f Hq]. destruct (drop_cons _ _ _ _ Hq) as (Hf & <- & Hlt).
    rewrite length_app, Nat.add_1_r. split_and!; [done|lia|].
    intros i g Hi. destruct (decide (i < length (handed tr))%nat); [rewrite lookup_app_l in Hi by done; by apply Hall|].
    rewrite lookup_app_r in Hi by lia. apply list_lookup_singleton_Some in Hi as [Hi [=]].
  - by subst q'.
Qed.

(** C17: From the start-up on, when no frame is longer than one buffer of the
    DMA and the pool of packet buffers is in order at every turn of the handler:
    whatever the order of receptions, turns and other work that leaves the rings
    alone, the [i]-th turn that finds a frame takes the [i]-th frame the DMA has
    stored, with exactly its bytes or, for want of packet buffers, not at all; the
    frames not yet taken are the ones in the ring, at most four. *)
Theorem receive_fifo (x0 : D) (e0 : eth) :
  sized e0 -> current x0 = 0 ->
  exists e1, low_level_init_rings e0 = Some (tt, e1) /\
  forall tr x e, rx_run (x0, e1) tr (x, e) -> Forall frame_short tr ->
  ring x e (drop (length (handed tr)) (stored_by tr))
  /\ (length (handed tr) <= length (stored_by tr) <= length (handed tr) + 4)%nat
  /\ forall i f, handed tr !! i = Some (Some f) -> stored_by tr !! i = Some f.
Proof.
  intros Hs Hx. destruct (init_rings_run e0 Hs) as (c0 & c1 & E). eexists. split; [exact E|].
  intros tr x e Hrun Hsh. pose proof (init_ring x0 e0 _ Hs Hx E) as Hr0.
  destruct (run_ring x0 _ tr (x, e) Hr0 Hrun Hsh) as (Hr & Hle & Hall). split_and!; [done|done| |done].
  pose proof (rg_len _ _ _ Hr) as Hlen. cbn [fst snd] in *. rewrite length_drop in Hlen. lia.
Qed.
End run.

(** ** A frame longer than a buffer *)

Lemma ebind_inv {A B} (m : EM A) (k : A -> EM B) s b s2 :
  (m ≫= k) s = Some (b, s2) -> exists a s1, m s = Some (a, s1) /\ k a s1 = Some (b, s2).
Proof. unfold mbind, EM_bind. destruct (m s) as [[a s1]|]; [eauto|discriminate]. Qed.
Lemma on_net_inv {A} (m : NM A) s a s1 : on_net m s = Some (a, s1) -> exists n, s1 = set_nt n s.
Proof. unfold on_net. destruct (m (nt s)) as [[b n]|]; [|discriminate]. intros [= _ <-]. eauto. Qed.
Lemma elift_inv {A} (x : option A) s a s1 : elift x s = Some (a, s1) -> x = Some a /\ s1 = s.
Proof. unfold elift. destruct x; [|discriminate]. by intros [= <- <-]. Qed.

Lemma input_loop_inv fuel : forall q buffer l s s1, input_loop fuel q buffer l s = Some (tt, s1) -> exists n, s1 = set_nt n s.
Proof.
  induction fuel as [|fuel IH]; intros q buffer l s s1; cbn [input_loop]; [discriminate|].
  destruct q as [q|]; [|intros [= <-]; exists (nt s); by rewrite set_nt_id].
  intros (b & s2 & E1 & E)%ebind_inv. apply on_net_inv in E1 as [n1 ->].
  apply ebind_inv in E as (m & s2 & [= <- <-] & E). apply ebind_inv in E as (src & s2 & E2 & E).
  apply elift_inv in E2 as [_ ->]. apply ebind_inv in E as ([] & s2 & E3 & E).
  apply on_net_inv in E3 as [n2 ->]. destruct (IH _ _ _ _ _ E) as [n ->]. by exists n.
Qed.

(** A turn gives the driver's descriptor back and follows its pointer. *)
Lemma turn_tab e r e' d :
  low_level_input e = Some (r, e') -> at_index (DMARxDscrTab e) (DMARxDescToGet e) = Some d -> owned d = false ->
  DMARxDescToGet e' = Buffer2NextDescAddr d
  /\ DMARxDscrTab e' = <[Z.to_nat (DMARxDescToGet e) := put_Status ETH_DMARxDesc_OWN d]> (DMARxDscrTab e).
Proof.
  intros E Hd Ho. unfold low_level_input in E. apply ebind_inv in E as (fr & s1 & E1 & E).
  unfold ETH_RxPkt_ChainMode in E1. rewrite eget_bind, (ebind _ _ _ _ _ (rx_desc_run _ _ _ Hd)) in E1.
  unfold owned in Ho. rewrite Ho, emod_bind in E1. injection E1 as <- <-.
  apply ebind_inv in E as (p & s2 & E2 & E). apply on_net_inv in E2 as [n1 ->].
  apply ebind_inv in E as ([] & s2 & E3 & E). apply input_loop_inv in E3 as [n2 ->].
  apply ebind_inv in E as (i & s2 & E4 & E). apply elift_inv in E4 as [Ei ->]. injection Ei as <-.
  match type of E with (upd_rx _ ?g ≫= _) ?s = _ => rewrite (ebind _ _ _ _ _ (upd_rx_run s _ d g Hd)) in E end.
  match type of E with (resume ?a ?b ≫= _) ?s = _ => destruct (resume_run a b s) as (sr & dm & Er) end.
  rewrite (ebind _ _ _ _ _ Er) in E. injection E as <- <-. done.
Qed.

(** The driver has [r] descriptors of the processor before one that ends no frame. *)
Definition blocked (e : eth) (r : nat) : Prop :=
  0 <= DMARxDescToGet e < 4 /\ (r < 4)%nat
  /\ (forall k, (k < r)%nat -> exists st,
       at_index (DMARxDscrTab e) ((DMARxDescToGet e + Z.of_nat k) `mod` 4)
       = Some (slot_desc ((DMARxDescToGet e + Z.of_nat k) `mod` 4) st) /\ Z.land st ETH_DMARxDesc_OWN = 0)
  /\ exists d, at_index (DMARxDscrTab e) ((DMARxDescToGet e + Z.of_nat r) `mod` 4) = Some d
       /\ owned d = false /\ Z.land (Status d) ETH_DMARxDesc_LS = 0.

Lemma blocked_keeps e e' r :
  blocked e r -> DMARxDescToGet e' = DMARxDescToGet e ->
  (forall j d, at_index (DMARxDscrTab e) j = Some d -> owned d = false -> at_index (DMARxDscrTab e') j = Some d) ->
  blocked e' r.
Proof.
  intros (Hg & Hr & Hp & d & Hd & Ho & Hl) Eg Hk. unfold blocked. rewrite Eg. split; [done|]. split; [done|]. split.
  - intros k Hlt. destruct (Hp k Hlt) as (st & Ht & Hs). exists st. split; [|done]. apply Hk; [done|].
    unfold owned. simpl. by rewrite Hs.
  - exists d. auto.
Qed.

Lemma blocked_head e : blocked e 0 -> ~ waiting e.
Proof.
  intros (Hg & _ & _ & d & Hd & Ho & Hl) (n & E & Hn). rewrite Z.add_0_r, Z.mod_small in Hd by lia.
  unfold ETH_GetRxPktSize in E. rewrite eget_bind, (ebind _ _ _ _ _ (rx_desc_run _ _ _ Hd)) in E.
  assert (Hb : good_frame d = false) by (unfold good_frame; rewrite Hl; simpl; by rewrite andb_false_r).
  rewrite Hb, andb_false_r in E. injection E as <-. done.
Qed.

Lemma blocked_turn e r p e' : blocked e (S r) -> low_level_input e = Some (p, e') -> blocked e' r.
Proof.
  intros (Hg & Hr & Hp & d & Hd & Ho & Hl) E. destruct (Hp 0%nat ltac:(lia)) as (st & Ht & Hs).
  rewrite Z.add_0_r, (Z.mod_small (DMARxDescToGet e)) in Ht by lia.
  destruct (turn_tab e p e' _ E Ht) as [Eg Et]; [unfold owned; simpl; by rewrite Hs|]. simpl in Eg.
  assert (Hlen : 0 <= DMARxDescToGet e < Z.of_nat (length (DMARxDscrTab e))).
  { unfold at_index in Ht. destruct (Z.leb_spec 0 (DMARxDescToGet e)); [|done]. apply lookup_lt_Some in Ht. lia. }
  assert (Hne : forall k, (S k < 4)%nat -> forall d,
    at_index (DMARxDscrTab e) ((DMARxDescToGet e + Z.of_nat (S k)) `mod` 4) = Some d ->
    at_index (DMARxDscrTab e') ((DMARxDescToGet e' + Z.of_nat k) `mod` 4) = Some d).
  { intros k Hk d' Hd'. rewrite Et, Eg, at_index_insert by mod4. rewrite decide_False by mod4.
    rewrite <- Hd'. f_equal. mod4. }
  split; [rewrite Eg; apply Z.mod_pos_bound; lia|]. split; [lia|]. split.
  - intros k Hk. destruct (Hp (S k) ltac:(lia)) as (st' & Ht' & Hs'). exists st'. split; [|done].
    rewrite (Hne k ltac:(lia) _ Ht'). do 2 f_equal. rewrite Eg. mod4.
  - exists d. split; [|done]. by apply Hne; [lia|].
Qed.

Section blocking.
Context {D : Type} `{RxDmaLaws D}.

Lemma long_blocks x e q f :
  ring x e q -> (length q < 4)%nat -> ETH_MAX_PACKET_SIZE < blen f + 4 ->
  blocked (snd (arrive f x e)) (length q).
Proof.
  intros Hr Hq Hf. destruct (ring_next x e q Hr Hq) as (st & Ht & Hst & Hi).
  pose proof (rg_current _ _ _ Hr) as Hc. pose proof (rg_get _ _ _ Hr) as Hg.
  destruct (arrive_long f x e _ Ht) as (st' & Ht' & Ho & Hl); [|by rewrite RBS1_slot|].
  { unfold owned. simpl. by destruct (Z.eqb_spec (Z.land st ETH_DMARxDesc_OWN) 0). }
  destruct (arrive_driver f x e) as [_ _ Eg _ _]. unfold blocked. rewrite Eg.
  split; [done|]. split; [done|]. split.
  - intros k Hk. destruct (rg_slot _ _ _ Hr ((DMARxDescToGet e + Z.of_nat k) `mod` 4) ltac:(apply Z.mod_pos_bound; lia)) as (st1 & Ht1 & Hs1).
    assert (E : ahead e ((DMARxDescToGet e + Z.of_nat k) `mod` 4) = k) by mod4. rewrite E in Hs1.
    destruct (lookup_lt_is_Some_2 q k Hk) as [g Hgk]. rewrite Hgk in Hs1. destruct Hs1 as [(Ho1 & _) _].
    exists st1. split; [|done]. apply (arrive_keeps f x e _ _ Ht1). unfold owned. simpl. by rewrite Ho1.
  - exists (put_Status st' (slot_desc (current x) st)). rewrite <- Hc. split; [done|]. unfold owned. simpl. by rewrite Ho.
Qed.

Lemma blocked_run s0 tr s r :
  blocked (snd s0) r -> rx_run s0 tr s -> exists r', blocked (snd s) r' /\ (r' + length (handed tr) = r)%nat.
Proof.
  intros Hb Hrun. induction Hrun as [|tr s1 l s2 Hrun IH Hst].
  { exists r. split; [done|]. simpl. lia. }
  destruct IH as (r1 & Hb1 & Hlen). rewrite handed_snoc, length_app.
  destruct Hst as [x e f|x e e' p ps Hp Hw E Hch|x e e' Hp Hw E|x e e' Hs]; cbn [snd handed_of length] in *.
  - exists r1. split; [|destruct (dma_owns x e); simpl; lia].
    eapply blocked_keeps; [exact Hb1|apply (sd_get _ _ (arrive_driver f x e))|apply arrive_keeps].
  - destruct r1 as [|r1]; [by apply blocked_head in Hb1|]. exists r1. split; [by eapply blocked_turn|lia].
  - destruct r1 as [|r1]; [by apply blocked_head in Hb1|]. exists r1. split; [by eapply blocked_turn|lia].
  - exists r1. split; [|lia]. destruct Hs as (Et & _ & Eg). apply (blocked_keeps e); [done..|]. intros j d. by rewrite Et.
Qed.

(** C18: A frame longer than a buffer takes two
    descriptors, of which the first has no end of frame; [ETH_GetRxPktSize] gives 0
    for it and nothing else gives it back.  Whatever comes after it, the handler gets
    no more frames than waited before it. *)
Theorem long_frame_stops_reception (x : D) (e : eth) (q : list bytes) (f : bytes) (tr : list label) (s : D * eth) :
  ring x e q -> (length q < 4)%nat -> ETH_MAX_PACKET_SIZE < blen f + 4 ->
  rx_run (arrive f x e) tr s ->
  (length (handed tr) <= length q)%nat.
Proof.
  intros Hr Hq Hf Hrun. destruct (blocked_run _ tr s _ (long_blocks x e q f Hr Hq Hf) Hrun) as (r & _ & Hlen). lia.
Qed.

(** ** The handler *)

(** What the handler needs of [netif->input], which is [ethernet_input]: it
    returns [ERR_OK], leaves the rings alone and keeps the pool in order. *)
Definition consumes (input : option place -> EM Z) : Prop :=
  forall p ps f e, holds_frame (nt e) p ps f -> fresh (nt e) ps ->
  (exists fl, free_list (nt e) MEMP_PBUF_POOL fl /\ (forall q, q ∈ ps -> q ∉ fl) /\ (length fl + length ps < 256)%nat) ->
  exists e', input (Some p) e = Some (ERR_OK, e') /\ same_receive e e' /\ pool_ok (nt e').

Lemma handle_run input x e f q :
  consumes input -> ring x e (f :: q) -> pool_ok (nt e) ->
  exists e', LwIP_Pkt_Handle input e = Some (tt, e') /\ ring x e' q /\ pool_ok (nt e').
Proof.
  intros Hin Hr (fl & Hfl & Hlen). unfold LwIP_Pkt_Handle, ethernetif_input.
  destruct (Z.le_gt_cases (blen f) (capacity PBUF_RAW (length fl))) as [Hc|Hc].
  - destruct (receive_some x e f q fl Hr Hfl Hlen Hc) as (e1 & p & ps & rest & E & R & _ & Efl & Hrest & P & F).
    destruct (Hin p ps f e1 P F) as (e2 & E2 & S & Hok).
    { exists rest. rewrite Efl, length_app in Hlen. destruct Hfl as [_ Hnd]. rewrite Efl in Hnd.
      apply list.NoDup_app in Hnd as (_ & Hd & _). split_and!; [done|exact Hd|lia]. }
    exists e2. split; [|split; [by apply (ring_same _ e1)|done]].
    unfold mbind, EM_bind in *. rewrite E, E2. done.
  - destruct (receive_none x e f q fl Hr Hfl Hlen ltac:(lia)) as (e1 & E & R & _ & Hfl').
    exists e1. split; [unfold mbind, EM_bind in *; by rewrite E|]. split; [done|].
    exists (rev fl). by rewrite length_rev.
Qed.

Lemma irq_loop_run input x q : forall fuel e,
  consumes input -> ring x e q -> pool_ok (nt e) -> (length q < fuel)%nat ->
  exists e', irq_loop input fuel e = Some (tt, e') /\ ring x e' [] /\ pool_ok (nt e').
Proof.
  induction q as [|f q IH]; intros fuel e Hin Hr Hp Hf; (destruct fuel as [|fuel]; [simpl in Hf; lia|]); cbn [irq_loop].
  - rewrite (ebind _ _ _ _ _ (GetRxPktSize_empty x e Hr)). by exists e.
  - rewrite (ebind _ _ _ _ _ (GetRxPktSize_run x e f q Hr)). pose proof (blen_nonneg f).
    destruct (Z.eqb_spec (blen f + 4) 0); [lia|]. cbn [negb].
    destruct (handle_run input x e f q Hin Hr Hp) as (e1 & E & R & Hp1).
    destruct (IH fuel e1 Hin R Hp1) as (e2 & E2 & R2); [simpl in Hf; lia|].
    exists e2. split; [|done]. by rewrite (ebind _ _ _ _ _ E).
Qed.

(** [ETH_IRQHandler] returns after at most four frames, and
    leaves no frame in the ring, every descriptor with the DMA and its two flags
    cleared, if [netif->input] behaves like [ethernet_input] ([consumes]). *)
Theorem handler_drains (input : option place -> EM Z) (x : D) (e : eth) (q : list bytes) :
  consumes input -> ring x e q -> pool_ok (nt e) ->
  exists e', ETH_IRQHandler input 5 e = Some (tt, e') /\ ring x e' [] /\ pool_ok (nt e')
    /\ Z.land (DMASR e') (Z.lor ETH_DMA_IT_R ETH_DMA_IT_NIS) = 0.
Proof.
  intros Hin Hr Hp. pose proof (rg_len _ _ _ Hr).
  destruct (irq_loop_run input x q 5 e Hin Hr Hp ltac:(lia)) as (e1 & E & R & Hp1).
  unfold ETH_IRQHandler. rewrite (ebind _ _ _ _ _ E). eexists. split; [reflexivity|]. split_and!; [|done|].
  - by apply (ring_same x e1).
  - simpl. apply Z.bits_inj'. intros n Hn. rewrite !Z.land_spec, !Z.lnot_spec, Z.lor_spec, Z.bits_0 by done.
    destruct (Z.testbit ETH_DMA_IT_R n), (Z.testbit ETH_DMA_IT_NIS n); by rewrite ?andb_false_r.
Qed.
End blocking.

(** The least [netif->input]: it frees the packet. *)
Definition free_input (p : option place) : EM Z := on_net (pbuf_free p);; mret ERR_OK.

Lemma free_input_consumes : consumes free_input.
Proof.
  intros p ps f e (Hch & Hnd & _ & _) Hfr (fl & Hfl & Hdis & Hlen).
  destruct (pbuf_free_all (nt e) MEMP_PBUF_POOL p ps fl Hch Hnd Hfr Hfl Hdis ltac:(lia)) as (n & E & F & _ & _).
  exists (set_nt n e). split; [|split; [done|]].
  - unfold free_input. by rewrite (ebind _ _ _ _ _ (on_net_run _ e _ _ E)).
  - exists (rev ps ++ fl). split; [done|]. rewrite length_app, length_rev. lia.
Qed.
