(* ===== verification/EthSend.v ===== *)
(** * Sending a frame

    [low_level_output] copies the chain into the buffer of the next descriptor
    and then asks [ETH_TxPkt_ChainMode] to hand the descriptor to the DMA. *)
From stdpp Require Import base tactics list numbers option.
From S2P Require Import Prelude Heap HeapSpec Pbuf PbufSpec Ethernet EthSpec EthRun.

Lemma tx_desc_run s i d : at_index (DMATxDscrTab s) i = Some d -> tx_desc i s = Some (d, s).
Proof. intros E. unfold tx_desc. by rewrite E. Qed.
Lemma upd_tx_run s i d g :
  at_index (DMATxDscrTab s) i = Some d -> upd_tx i g s = Some (tt, set_tx (<[Z.to_nat i := g d]> (DMATxDscrTab s)) s).
Proof. intros E. unfold upd_tx. by rewrite (ebind _ _ _ _ _ (tx_desc_run _ _ _ E)). Qed.
Lemma upd_tx_again s i (d : desc) :
  at_index (DMATxDscrTab s) i = Some d -> forall d', at_index (<[Z.to_nat i := d']> (DMATxDscrTab s)) i = Some d'.
Proof.
  intros E d'. unfold at_index in *. destruct (Z.leb_spec 0 i); [|done].
  apply list_lookup_insert_eq. by apply lookup_lt_Some in E.
Qed.

(** The loop copies the chain behind what is in the buffer already. *)
Lemma output_run ps : forall fuel p b l s pre,
  chain (store (nt s)) p ps -> lens_ok (nt s) ps -> (length ps < fuel)%nat -> 0 <= b -> l = blen pre ->
  rdn (Tx_Buff s) b l = Some pre -> b + l + room_of (nt s) ps <= blen (Tx_Buff s) ->
  exists m, output_loop fuel p b l s = Some (l + room_of (nt s) ps, set_txbuf m s)
    /\ rdn m b (l + room_of (nt s) ps) = Some (pre ++ view (nt s) ps) /\ blen m = blen (Tx_Buff s)
    /\ forall o n, o + n <= b \/ b + l + room_of (nt s) ps <= o -> rdn m o n = rdn (Tx_Buff s) o n.
Proof.
  induction ps as [|q ps IH]; intros fuel p b l s pre Hc Hl Hfu Hb El Hpre Hroom;
    (destruct fuel as [|fuel]; [simpl in Hfu; lia|]); cbn [output_loop].
  { simpl in Hc. subst p. exists (Tx_Buff s). unfold view. simpl. rewrite Z.add_0_r, app_nil_r.
    split_and!; [by destruct s|done..]. }
  destruct Hc as [-> Hc]. apply Forall_cons_1 in Hl as [Hlq Hl]. simpl in Hfu.
  cbn [room_of foldr] in *. fold (room_of (nt s) ps) in *. pose proof (view_length (nt s) ps Hl) as Hvl.
  pose proof (area_length (nt s) q ltac:(lia)) as Hal. set (k := len (store (nt s) q)) in *.
  rewrite (ebind _ _ s (store (nt s) q) (set_nt (nt s) s)), set_nt_id by done.
  rewrite (ebind _ _ s (area (nt s) q) (set_nt (nt s) s)), set_nt_id by (apply on_net_run; apply ld_area).
  rewrite eget_bind. assert (Hab : blen (area (nt s) q) = k) by (unfold blen; lia). pose proof (blen_nonneg pre).
  destruct (wrn (Tx_Buff s) (b + l) (area (nt s) q)) as [m1|] eqn:Ew.
  2:{ rewrite wrn_in in Ew by lia. discriminate. }
  rewrite (ebind _ _ s m1 s) by done. rewrite emod_bind. pose proof (wrn_blen _ _ _ _ Ew) as Hm1.
  assert (H1 : rdn m1 b (l + k) = Some (pre ++ area (nt s) q)).
  { apply rdn_app; [rewrite (rdn_wrn_out _ _ _ _ _ _ Ew) by lia; done|].
    rewrite <- Hab. by apply (rdn_wrn_same _ _ _ _ Ew). }
  destruct (IH fuel (p_next (store (nt s) q)) b (l + k) (set_txbuf m1 s) (pre ++ area (nt s) q)) as (m & E & R & B & O);
    cbn [nt Tx_Buff set_txbuf]; try done; try lia.
  { rewrite blen_app. lia. }
  cbn [nt Tx_Buff set_txbuf] in *. exists m. rewrite Z.add_assoc. split_and!; [exact E| |lia|].
  - unfold view. cbn [map concat]. fold (view (nt s) ps). by rewrite app_assoc, R.
  - intros o n Ho. rewrite O by lia. apply (rdn_wrn_out _ _ _ _ _ _ Ew). lia.
Qed.

Lemma set_tx_twice l m s : set_tx l (set_tx m s) = set_tx l s.
Proof. done. Qed.

(** A descriptor handed to the DMA with [n] bytes. *)
Definition handed_desc (n : Z) (d : desc) : desc :=
  mkDesc (Z.lor (Z.lor (Status d) (Z.lor ETH_DMATxDesc_LS ETH_DMATxDesc_FS)) ETH_DMATxDesc_OWN)
    (Z.land n ETH_DMATxDesc_TBS1) (Buffer1Addr d) (Buffer2NextDescAddr d).

Lemma TxPkt_free n e d :
  at_index (DMATxDscrTab e) (DMATxDescToSet e) = Some d -> owned d = false ->
  exists e', ETH_TxPkt_ChainMode n e = Some (true, e')
    /\ DMATxDscrTab e' = <[Z.to_nat (DMATxDescToSet e) := handed_desc n d]> (DMATxDscrTab e)
    /\ DMATxDescToSet e' = Buffer2NextDescAddr d /\ Tx_Buff e' = Tx_Buff e /\ nt e' = nt e /\ same_receive e e'.
Proof.
  intros Hd Ho. pose proof (upd_tx_again e _ d Hd) as Hag. unfold ETH_TxPkt_ChainMode.
  rewrite eget_bind, (ebind _ _ _ _ _ (tx_desc_run _ _ _ Hd)). unfold owned in Ho. change ETH_DMARxDesc_OWN with ETH_DMATxDesc_OWN in Ho.
  rewrite Ho. rewrite (ebind _ _ _ _ _ (upd_tx_run _ _ _ _ Hd)).
  erewrite (ebind _ _ _ _ _ (upd_tx_run (set_tx _ e) _ _ _ (Hag _))). cbn [DMATxDscrTab set_tx].
  rewrite set_tx_twice, list_insert_insert_eq.
  erewrite (ebind _ _ _ _ _ (upd_tx_run (set_tx _ _) _ _ _ (Hag _))). cbn [DMATxDscrTab set_tx].
  rewrite set_tx_twice, list_insert_insert_eq.
  match goal with |- context [(resume ?a ?b ≫= _) ?s] => destruct (resume_run a b s) as (sr & dm & ->%(ebind _ _ _ _ _)) end.
  erewrite (ebind _ _ _ _ _ (tx_desc_run (set_demands _ (set_sr _ (set_tx _ e))) _ _ (Hag _))). eexists. split; [reflexivity|]. done.
Qed.

Lemma TxPkt_busy n e d :
  at_index (DMATxDscrTab e) (DMATxDescToSet e) = Some d -> owned d = true -> ETH_TxPkt_ChainMode n e = Some (false, e).
Proof.
  intros Hd Ho. unfold ETH_TxPkt_ChainMode. rewrite eget_bind, (ebind _ _ _ _ _ (tx_desc_run _ _ _ Hd)).
  unfold owned in Ho. change ETH_DMARxDesc_OWN with ETH_DMATxDesc_OWN in Ho. by rewrite Ho.
Qed.

Lemma low_level_output_run (e : eth) (d : desc) (p : place) (ps : list place) (f : bytes) :
  at_index (DMATxDscrTab e) (DMATxDescToSet e) = Some d ->
  holds_frame (nt e) p ps f -> (length ps < pbuf_fuel)%nat -> blen f < 65536 ->
  0 <= Buffer1Addr d -> Buffer1Addr d + blen f <= blen (Tx_Buff e) ->
  exists e', low_level_output (Some p) e = Some (ERR_OK, e') /\ nt e' = nt e /\ same_receive e e'
  /\ rdn (Tx_Buff e') (Buffer1Addr d) (blen f) = Some f
  /\ (forall o n, o + n <= Buffer1Addr d \/ Buffer1Addr d + blen f <= o -> rdn (Tx_Buff e') o n = rdn (Tx_Buff e) o n)
  /\ if owned d then DMATxDscrTab e' = DMATxDscrTab e /\ DMATxDescToSet e' = DMATxDescToSet e
     else DMATxDscrTab e' = <[Z.to_nat (DMATxDescToSet e) := handed_desc (blen f) d]> (DMATxDscrTab e)
          /\ DMATxDescToSet e' = Buffer2NextDescAddr d.
Proof.
  intros Hd (Hc & _ & Hl & <-) Hfu Hf Hb Hbl. pose proof (view_length (nt e) ps Hl) as Hv.
  fold (blen (view (nt e) ps)) in Hv. set (f := view (nt e) ps) in *.
  assert (Hnil : rdn (Tx_Buff e) (Buffer1Addr d) 0 = Some []) by (pose proof (blen_nonneg f); rewrite rdn_in by lia; done).
  destruct (output_run ps pbuf_fuel (Some p) (Buffer1Addr d) 0 e [] Hc Hl Hfu Hb eq_refl Hnil ltac:(lia))
    as (m & E & R & _ & O). rewrite Z.add_0_l, Z.add_0_r, <- Hv in *. unfold low_level_output.
  assert (Eb : ETH_GetCurrentTxBuffer e = Some (Buffer1Addr d, e)).
  { unfold ETH_GetCurrentTxBuffer. by rewrite eget_bind, (ebind _ _ _ _ _ (tx_desc_run _ _ _ Hd)). }
  rewrite (ebind _ _ _ _ _ Eb), (ebind _ _ _ _ _ E). unfold u16. rewrite Z.mod_small by (pose proof (blen_nonneg f); lia).
  destruct (owned d) eqn:Ho.
  - rewrite (ebind _ _ _ _ _ (TxPkt_busy (blen f) (set_txbuf m e) d Hd Ho)). by eexists.
  - destruct (TxPkt_free (blen f) (set_txbuf m e) d Hd Ho) as (e' & E' & Et & Es & Em & En & S).
    rewrite (ebind _ _ _ _ _ E'). exists e'. rewrite Em. done.
Qed.

(** C19: [low_level_output] writes the bytes of the chain, and no others,
    into the next descriptor's buffer and answers [ERR_OK].  If the descriptor is the
    processor's it goes to the DMA with their count and its pointer is followed; if
    the DMA has it still, the descriptors stay as they are: the new frame is
    lost, and the one still to be sent has been overwritten. *)
Theorem frame_sent (e : eth) (d : desc) (p : place) (ps : list place) (f : bytes) :
  at_index (DMATxDscrTab e) (DMATxDescToSet e) = Some d ->
  holds_frame (nt e) p ps f -> (length ps < pbuf_fuel)%nat -> blen f < 65536 ->
  0 <= Buffer1Addr d -> Buffer1Addr d + blen f <= blen (Tx_Buff e) ->
  exists e', low_level_output (Some p) e = Some (ERR_OK, e') /\ nt e' = nt e /\ same_receive e e'
  /\ rdn (Tx_Buff e') (Buffer1Addr d) (blen f) = Some f
  /\ (forall o n, o + n <= Buffer1Addr d \/ Buffer1Addr d + blen f <= o -> rdn (Tx_Buff e') o n = rdn (Tx_Buff e) o n)
  /\ if owned d then DMATxDscrTab e' = DMATxDscrTab e /\ DMATxDescToSet e' = DMATxDescToSet e
     else DMATxDscrTab e' = <[Z.to_nat (DMATxDescToSet e) := handed_desc (blen f) d]> (DMATxDscrTab e)
          /\ DMATxDescToSet e' = Buffer2NextDescAddr d.
Proof. apply low_level_output_run. Qed.
