(* ===== verification/EthSim.v ===== *)
(** * A DMA that receives

    An executable [RxDma] with its laws, and runs of the driver with it: the
    hypotheses of the theorems about the Ethernet interface can hold. *)
From stdpp Require Import base tactics list numbers option.
From S2P Require Import Prelude Heap HeapSpec Pbuf PbufSpec Ethernet EthSpec EthRun EthSend.

(** ** The DMA *)

(** What is written to [Status] at the end of a frame of [n] bytes. *)
Definition end_status (n : Z) : Z := Z.lor (Z.shiftl (Z.land n (Z.ones 14)) 16) ETH_DMARxDesc_LS.

(** The rest of a frame goes into the buffers from descriptor [x] on; [fs]: the
    bit of its first buffer; [n]: its length; [k]: the descriptors there are. *)
Fixpoint receive (k : nat) (fs n : Z) (bs : bytes) (x : Z) (e : eth) : Z * eth :=
  match k, at_index (DMARxDscrTab e) x with
  | S k, Some d =>
      if owned d then
        let last := blen bs <=? RBS1 d in
        let st := Z.lor (if last then end_status n else 0) fs in
        let m := default (Rx_Buff e) (wrn (Rx_Buff e) (Buffer1Addr d) (take (Z.to_nat (RBS1 d)) bs)) in
        let e := set_rxbuf m (set_rx (<[Z.to_nat x := put_Status st d]> (DMARxDscrTab e)) e) in
        if last then (Buffer2NextDescAddr d, e)
        else receive k 0 n (drop (Z.to_nat (RBS1 d)) bs) (Buffer2NextDescAddr d) e
      else (x, e)
  | _, _ => (x, e)
  end.

(** The checksum's four bytes are stored too; here they are zeros. *)
#[export] Instance sim_dma : RxDma Z := {
  current x := x;
  arrive f x e := receive 4 ETH_DMARxDesc_FS (blen f + 4) (f ++ replicate 4 0) x e }.

(** ** Its laws *)

Lemma land_end_status n M :
  Z.land (end_status n) M =
  Z.lor (Z.shiftl (Z.land n (Z.land (Z.ones 14) (Z.shiftr M 16))) 16) (Z.land ETH_DMARxDesc_LS M).
Proof.
  unfold end_status. rewrite Z.land_lor_distr_l. f_equal. rewrite Z.land_assoc, (Z.shiftl_land _ (Z.shiftr M 16)).
  apply Z.bits_inj'. intros i Hi. rewrite !Z.land_spec. destruct (Z.lt_ge_cases i 16).
  - by rewrite Z.shiftl_spec_low.
  - rewrite !Z.shiftl_spec, Z.shiftr_spec by lia. do 2 f_equal. lia.
Qed.

Lemma end_frame_status n :
  0 <= n -> n + 4 < 16384 -> frame_status (Z.lor (end_status (n + 4)) ETH_DMARxDesc_FS) n.
Proof.
  intros Hn Hn'. assert (Hk : Z.land (n + 4) (Z.ones 14) = n + 4) by (rewrite Z.land_ones by lia; apply Z.mod_small; lia).
  unfold frame_status. rewrite !Z.land_lor_distr_l, !land_end_status.
  change (Z.land (Z.ones 14) (Z.shiftr ETH_DMARxDesc_OWN 16)) with 0.
  change (Z.land (Z.ones 14) (Z.shiftr ETH_DMARxDesc_ES 16)) with 0.
  change (Z.land (Z.ones 14) (Z.shiftr ETH_DMARxDesc_LS 16)) with 0.
  change (Z.land (Z.ones 14) (Z.shiftr ETH_DMARxDesc_FS 16)) with 0.
  change (Z.land (Z.ones 14) (Z.shiftr ETH_DMARxDesc_FL 16)) with (Z.ones 14).
  rewrite Z.land_0_r, Hk. split_and!; try done.
  change (Z.land ETH_DMARxDesc_FS ETH_DMARxDesc_FL) with 0. change (Z.land ETH_DMARxDesc_LS ETH_DMARxDesc_FL) with 0.
  rewrite !Z.lor_0_r, Z.shiftr_shiftl_l by lia. by rewrite Z.shiftl_0_r.
Qed.

Lemma receive_driver k : forall fs n bs x e, same_driver e (snd (receive k fs n bs x e)).
Proof.
  induction k as [|k IH]; intros fs n bs x e; simpl; [done|].
  destruct (at_index (DMARxDscrTab e) x) as [d|]; [|done]. destruct (owned d); [|done].
  destruct (blen bs <=? RBS1 d); [done|]. match goal with |- context [receive k ?a ?b ?c ?y ?s] => destruct (IH a b c y s) end.
  by split.
Qed.

Lemma receive_keeps k : forall fs n bs x e j d,
  at_index (DMARxDscrTab e) j = Some d -> owned d = false ->
  at_index (DMARxDscrTab (snd (receive k fs n bs x e))) j = Some d.
Proof.
  induction k as [|k IH]; intros fs n bs x e j d Hj Ho; simpl; [done|].
  destruct (at_index (DMARxDscrTab e) x) as [dx|] eqn:Hx; [|done]. destruct (owned dx) eqn:Hox; [|done].
  assert (Hne : j <> x) by (intros ->; congruence).
  assert (Hk : forall st, at_index (<[Z.to_nat x := put_Status st dx]> (DMARxDscrTab e)) j = Some d).
  { intros st. unfold at_index in *. destruct (Z.leb_spec 0 j), (Z.leb_spec 0 x); try done.
    rewrite list_lookup_insert_ne by lia. done. }
  destruct (blen bs <=? RBS1 dx); [apply Hk|]. apply IH; [apply Hk|done].
Qed.

Lemma index_range l i (d : desc) : at_index l i = Some d -> 0 <= i < Z.of_nat (length l).
Proof. unfold at_index. destruct (Z.leb_spec 0 i); [|done]. intros ?%lookup_lt_Some. lia. Qed.

Lemma at_insert l i (d d' : desc) : at_index l i = Some d' -> at_index (<[Z.to_nat i := d]> l) i = Some d.
Proof. intros Hi%index_range. by rewrite at_index_insert, decide_True by (done || lia). Qed.

Lemma arrive_stores_sim f (x : Z) e d :
  at_index (DMARxDscrTab e) x = Some d -> owned d = true -> blen f + 4 <= RBS1 d ->
  0 <= Buffer1Addr d -> Buffer1Addr d + RBS1 d <= blen (Rx_Buff e) ->
  exists m st, arrive f x e = (Buffer2NextDescAddr d, set_rxbuf m (set_rx (<[Z.to_nat x := put_Status st d]> (DMARxDscrTab e)) e))
  /\ frame_status st (blen f) /\ wrn (Rx_Buff e) (Buffer1Addr d) (f ++ replicate 4 0) = Some m.
Proof.
  intros Hx Ho Hf Hb Hbl. pose proof (blen_nonneg f) as Hn.
  assert (Hl : blen (f ++ replicate 4 0) = blen f + 4) by (rewrite blen_app; done).
  destruct (wrn (Rx_Buff e) (Buffer1Addr d) (f ++ replicate 4 0)) as [m|] eqn:Ew; [|rewrite wrn_in in Ew by lia; discriminate].
  exists m, (Z.lor (end_status (blen f + 4)) ETH_DMARxDesc_FS). split_and!; [|apply end_frame_status; [lia|]|done].
  - cbn [arrive sim_dma receive]. rewrite Hx, Ho. destruct (Z.leb_spec (blen (f ++ replicate 4 0)) (RBS1 d)); [|lia].
    rewrite take_ge by (unfold blen in *; lia). by rewrite Ew.
  - assert (RBS1 d < 8192); [|lia]. unfold RBS1. change 8191 with (Z.ones 13). rewrite Z.land_ones by lia.
    apply Z.mod_pos_bound. lia.
Qed.

#[export] Instance sim_laws : RxDmaLaws Z.
Proof.
  split.
  - intros f x e. apply receive_driver.
  - intros f x e j d. apply receive_keeps.
  - intros f x e d Hx Ho. cbn [current arrive sim_dma receive] in *. by rewrite Hx, Ho.
  - intros f x e d Hx Ho Hf Hb Hbl. destruct (arrive_stores_sim f x e d Hx Ho Hf Hb Hbl) as (m & st & -> & Hst & Ew).
    cbn [current fst snd sim_dma]. pose proof (rdn_wrn_same _ _ _ _ Ew) as Hr. rewrite blen_app in Hr.
    split_and!; [done|by exists st|by apply (wrn_blen _ _ _ _ Ew)| |].
    + change (Rx_Buff (set_rxbuf m _)) with m. pose proof (blen_nonneg f).
      pose proof (rdn_take _ _ _ (blen f) _ Hr ltac:(pose proof (blen_nonneg (replicate 4 0)); lia)) as Ht. rewrite Ht. f_equal.
      rewrite take_app_le by (unfold blen; lia). apply take_ge. unfold blen. lia.
    + intros o n Ho'. apply (rdn_wrn_out _ _ _ _ _ _ Ew). rewrite blen_app. change (blen (replicate 4 0)) with 4. lia.
  - intros f x e d Hx Ho Hf. cbn [current arrive sim_dma receive] in *. rewrite Hx, Ho.
    destruct (Z.leb_spec (blen (f ++ replicate 4 0)) (RBS1 d)) as [Hl|Hl].
    { rewrite blen_app in Hl. change (blen (replicate 4 0)) with 4 in Hl. lia. }
    exists (Z.lor 0 ETH_DMARxDesc_FS). split; [|done]. apply (receive_keeps 3 0 (blen f + 4)); [|done]. by apply (at_insert _ _ _ d).
Qed.

(** ** Runs *)

Definition no_desc : desc := mkDesc 0 0 0 0.
Definition cold_eth : eth :=
  mkEth (replicate 4 no_desc) (replicate 2 no_desc) (replicate 6080 0) (replicate 3040 0) 0 0 0 [] fresh_net.
Lemma cold_sized : sized cold_eth.
Proof. done. Qed.

(** The state after the start-up. *)
Definition started (e : eth) : eth := match low_level_init_rings e with Some (_, e') => e' | None => e end.
Lemma started_run e : sized e -> low_level_init_rings e = Some (tt, started e) /\ nt (started e) = nt e.
Proof. intros Hs. unfold started. destruct (init_rings_run e Hs) as (c0 & c1 & E). rewrite E. done. Qed.

(** The rings after the start-up, and with a frame of 300 bytes. *)
Definition ready_eth : eth := started cold_eth.
Lemma ready_run : low_level_init_rings cold_eth = Some (tt, ready_eth).
Proof. exact (proj1 (started_run _ cold_sized)). Qed.
Lemma ready_ring : ring (0 : Z) ready_eth [].
Proof. apply (init_ring (D:=Z) 0 cold_eth ready_eth); [exact cold_sized|done|exact ready_run]. Qed.
Lemma ready_net : nt ready_eth = fresh_net.
Proof. unfold ready_eth. rewrite (proj2 (started_run cold_eth cold_sized)). reflexivity. Qed.

Definition frame300 : bytes := replicate 300 7.
Definition waiting_eth : eth := snd (arrive frame300 (0 : Z) ready_eth).
Definition waiting_dma : Z := fst (arrive frame300 (0 : Z) ready_eth).
Lemma waiting_ring : ring waiting_dma waiting_eth [frame300].
Proof. apply (ring_arrive (0 : Z) ready_eth []); [exact ready_ring|simpl; lia|by apply Z.leb_le]. Qed.
Lemma waiting_net : nt waiting_eth = fresh_net.
Proof. unfold waiting_eth. rewrite (sd_nt _ _ (arrive_driver frame300 (0 : Z) ready_eth)). exact ready_net. Qed.

Lemma waiting_free : free_list (nt waiting_eth) MEMP_PBUF_POOL fresh_elems.
Proof. rewrite waiting_net. exact fresh_free. Qed.
Lemma waiting_pool : pool_ok (nt waiting_eth).
Proof. exists fresh_elems. split; [exact waiting_free|by apply (bool_decide_unpack _)]. Qed.

Lemma frame_received_witness :
  exists r e', low_level_input waiting_eth = Some (r, e') /\ ring waiting_dma e' [] /\ same_transmit waiting_eth e' /\
  exists p ps rest, r = Some p /\ fresh_elems = ps ++ rest /\ free_list (nt e') MEMP_PBUF_POOL rest
    /\ holds_frame (nt e') p ps frame300 /\ fresh (nt e') ps.
Proof. apply (frame_received waiting_dma waiting_eth frame300 [] fresh_elems waiting_ring waiting_free). simpl. lia. Defined.

Lemma handler_drains_witness :
  exists e', ETH_IRQHandler free_input 5 waiting_eth = Some (tt, e') /\ ring waiting_dma e' [] /\ pool_ok (nt e')
    /\ Z.land (DMASR e') (Z.lor ETH_DMA_IT_R ETH_DMA_IT_NIS) = 0.
Proof. exact (handler_drains free_input waiting_dma waiting_eth [frame300] free_input_consumes waiting_ring waiting_pool). Defined.

(** A run with a reception and a turn. *)
Lemma one_frame_run :
  exists tr x e, rx_run (0 : Z, ready_eth) tr (x, e) /\ Forall frame_short tr /\ handed tr = [Some frame300].
Proof.
  destruct (receive_some waiting_dma waiting_eth frame300 [] fresh_elems waiting_ring waiting_free)
    as (e' & p & ps & rest & E & _ & _ & _ & _ & (Hc & _ & _ & Hv) & _); [simpl; lia|by apply Z.leb_le|].
  exists (([] ++ [Stored frame300]) ++ [Given frame300]), waiting_dma, e'. split_and!.
  - eapply rx_snoc; [eapply rx_snoc; [apply rx_nil|]|].
    + pose proof (st_arrive (0 : Z) ready_eth frame300) as Hs. rewrite (owns_ring _ _ _ ready_ring) in Hs.
      rewrite (surjective_pairing (arrive frame300 (0 : Z) ready_eth)) in Hs. exact Hs.
    + assert (Hw : waiting waiting_eth) by (eexists; split; [exact (GetRxPktSize_run _ _ _ _ waiting_ring)|done]).
      pose proof (st_given waiting_dma waiting_eth e' p ps waiting_pool Hw E Hc) as Hs. rewrite Hv in Hs. exact Hs.
  - apply Forall_cons_2; [by apply Z.leb_le|]. by apply Forall_cons_2; [|apply Forall_nil_2].
  - done.
Qed.

Lemma cold_current : current (0 : Z) = 0.
Proof. reflexivity. Qed.
Lemma receive_fifo_witness :
  (exists e1, low_level_init_rings cold_eth = Some (tt, e1) /\
  forall tr x e, rx_run (0 : Z, e1) tr (x, e) -> Forall frame_short tr ->
  ring x e (drop (length (handed tr)) (stored_by tr))
  /\ (length (handed tr) <= length (stored_by tr) <= length (handed tr) + 4)%nat
  /\ forall i f, handed tr !! i = Some (Some f) -> stored_by tr !! i = Some f)
  /\ exists tr x e, rx_run (0 : Z, ready_eth) tr (x, e) /\ Forall frame_short tr /\ handed tr = [Some frame300].
Proof. split; [exact (receive_fifo (D:=Z) 0 cold_eth cold_sized cold_current)|exact one_frame_run]. Defined.

(** A frame of 1600 bytes, and one of 300 after it. *)
Definition frame1600 : bytes := replicate 1600 7.
Definition stuck : Z * eth := arrive frame1600 waiting_dma waiting_eth.
Definition next_label : label := if dma_owns (fst stuck) (snd stuck) then Stored frame300 else Lost frame300.
Lemma stuck_run : rx_run stuck ([] ++ [next_label]) (arrive frame300 (fst stuck) (snd stuck)).
Proof. eapply rx_snoc; [apply rx_nil|]. rewrite (surjective_pairing stuck) at 1. apply st_arrive. Qed.

Lemma long_frame_stops_reception_witness :
  rx_run stuck ([] ++ [next_label]) (arrive frame300 (fst stuck) (snd stuck))
  /\ (length (handed ([] ++ [next_label])) <= 1)%nat.
Proof.
  split; [exact stuck_run|].
  apply (long_frame_stops_reception waiting_dma waiting_eth [frame300] frame1600 _ (arrive frame300 (fst stuck) (snd stuck))
    waiting_ring); [simpl; lia|by apply Z.ltb_lt|exact stuck_run].
Defined.

(** ** Sending *)

(** A chain of two buffers to send, with the descriptor free or busy. *)
Definition sending (d : desc) : eth :=
  mkEth (replicate 4 no_desc) [d; tx_start 0 1] [] (replicate 3040 0) 0 0 0 [] two_net.
Definition busy_desc : desc := handed_desc 60 (tx_start 0 0).
Lemma two_packet : holds_frame two_net (elem 9) [elem 9; elem 8] (replicate 300 0).
Proof.
  split_and!; [exact two_chain|exact two_nodup| |by vm_compute].
  apply Forall_cons_2; [vm_compute; split; congruence|]. apply Forall_cons_2; [vm_compute; split; congruence|]. apply Forall_nil_2.
Qed.

Lemma frame_sent_witness :
  (exists e', low_level_output (Some (elem 9)) (sending (tx_start 0 0)) = Some (ERR_OK, e')
    /\ DMATxDscrTab e' = [handed_desc 300 (tx_start 0 0); tx_start 0 1] /\ DMATxDescToSet e' = 1)
  /\ exists e', low_level_output (Some (elem 9)) (sending busy_desc) = Some (ERR_OK, e')
    /\ DMATxDscrTab e' = [busy_desc; tx_start 0 1] /\ rdn (Tx_Buff e') 0 300 = Some (replicate 300 0).
Proof.
  split.
  - destruct (frame_sent (sending (tx_start 0 0)) (tx_start 0 0) (elem 9) [elem 9; elem 8] (replicate 300 0) eq_refl two_packet)
      as (e' & E & _ & _ & _ & _ & T); [simpl; unfold pbuf_fuel; lia|by apply Z.ltb_lt|by apply Z.leb_le|by apply Z.leb_le|].
    exists e'. split; [exact E|exact T].
  - destruct (frame_sent (sending busy_desc) busy_desc (elem 9) [elem 9; elem 8] (replicate 300 0) eq_refl two_packet)
      as (e' & E & _ & _ & R & _ & T); [simpl; unfold pbuf_fuel; lia|by apply Z.ltb_lt|by apply Z.leb_le|by apply Z.leb_le|].
    exists e'. split; [exact E|]. split; [exact (proj1 T)|exact R].
Defined.
