(* ===== verification/Stack.v ===== *)
(** * The network stack: its state, addresses and the interface

    One interface, configured by [LwIP_Init].  The state is that of the Ethernet
    interface and of the buffers (Ethernet.v, Pbuf.v) with the ARP table and the
    fields of [struct netif].  Addresses are 32-bit words in network byte order:
    the first byte of the address is the low byte of the word. *)
From stdpp Require Import base tactics list numbers option.
From S2P Require Import Prelude Heap Pbuf Chksum Ethernet.

(** ** Byte order (inet.c) *)

Definition ntohs (n : Z) : Z := htons n.
Definition htonl (n : Z) : Z :=
  Z.lor (Z.lor (Z.lor (u32 (Z.shiftl (Z.land n 0xff) 24)) (u32 (Z.shiftl (Z.land n 0xff00) 8)))
    (Z.shiftr (Z.land n 0xff0000) 8)) (Z.shiftr (Z.land n 0xff000000) 24).
Definition ntohl (n : Z) : Z := htonl n.

(** ** Addresses (ip_addr.h, ip_addr.c) *)

Definition IP_ADDR_ANY_VALUE : Z := 0.
Definition IP_ADDR_BROADCAST_VALUE : Z := 0xffffffff.
Definition IP4_ADDR (a b c d : Z) : Z :=
  htonl (Z.lor (Z.lor (Z.lor (u32 (Z.shiftl (Z.land a 0xff) 24)) (u32 (Z.shiftl (Z.land b 0xff) 16)))
    (u32 (Z.shiftl (Z.land c 0xff) 8))) (Z.land d 0xff)).
Definition ip_addr_netcmp (addr1 addr2 mask : Z) : bool := Z.land addr1 mask =? Z.land addr2 mask.
Definition ip_addr_isany (addr : option Z) : bool := match addr with None => true | Some a => a =? 0 end.
Definition ip_addr_ismulticast (addr : Z) : bool := Z.land addr (ntohl 0xf0000000) =? ntohl 0xe0000000.
Definition ip4_addr2 (a : Z) : Z := Z.land (u16 (Z.shiftr (ntohl a) 16)) 0xff.
Definition ip4_addr3 (a : Z) : Z := Z.land (u16 (Z.shiftr (ntohl a) 8)) 0xff.
Definition ip4_addr4 (a : Z) : Z := Z.land (u16 (ntohl a)) 0xff.

(** ** The interface (netif.h) *)

Definition NETIF_FLAG_UP : Z := 0x01.
Definition NETIF_FLAG_BROADCAST : Z := 0x02.
Definition NETIF_FLAG_LINK_UP : Z := 0x10.
Definition NETIF_FLAG_ETHARP : Z := 0x20.
Definition ETHARP_HWADDR_LEN : nat := 6.

(** The pointers [input], [output] and [linkoutput] are set once, by
    [netif_add] and [ethernetif_init], to [ethernet_input], [etharp_output] and
    [low_level_output]. *)
Record netif := mkNetif {
  ip_addr : Z;
  netmask : Z;
  gw : Z;
  hwaddr : bytes;
  hwaddr_len : Z;
  mtu : Z;
  nflags : Z;
  num : Z }.

(** The complement of a 32-bit word. *)
Definition not32 (v : Z) : Z := Z.lxor v 0xffffffff.

Definition ip_addr_isbroadcast (addr2test : Z) (n : netif) : bool :=
  if (not32 addr2test =? IP_ADDR_ANY_VALUE) || (addr2test =? IP_ADDR_ANY_VALUE) then true
  else if Z.land (nflags n) NETIF_FLAG_BROADCAST =? 0 then false
  else if addr2test =? ip_addr n then false
  else ip_addr_netcmp addr2test (ip_addr n) (netmask n)
       && (Z.land addr2test (not32 (netmask n)) =? Z.land IP_ADDR_BROADCAST_VALUE (not32 (netmask n))).

(** ** The ARP table (etharp.c) *)

Inductive etharp_state : Set := ETHARP_STATE_EMPTY | ETHARP_STATE_PENDING | ETHARP_STATE_STABLE.
#[export] Instance etharp_state_eq_dec : EqDecision etharp_state.
Proof. solve_decision. Defined.

(** [q] is the first element of the queue; the pointer to the only interface
    is left out. *)
Record etharp_entry := mkEntry {
  q : option place;
  ipaddr : Z;
  ethaddr : bytes;
  state : etharp_state;
  ctime : Z }.

(** An element of the pool ARP_QUEUE is a [struct etharp_q_entry]: its first
    word [next] is that of [store], its second word [p] is in [q_p]. *)
Record stack := mkStack {
  arp_table : list etharp_entry;
  etharp_cached_entry : Z;
  q_p : place -> option place;
  nif : netif;
  et : eth }.

Definition SM (A : Type) : Type := stack -> option (A * stack).
#[export] Instance SM_ret : MRet SM := fun A a s => Some (a, s).
#[export] Instance SM_bind : MBind SM := fun A B k m s =>
  match m s with Some (a, s) => k a s | None => None end.

Definition sget {A} (f : stack -> A) : SM A := fun s => Some (f s, s).
Definition smod (f : stack -> stack) : SM unit := fun s => Some (tt, f s).
Definition swhen (b : bool) (m : SM unit) : SM unit := if b then m else mret tt.
Definition set_table (t : list etharp_entry) (s : stack) : stack := mkStack t (etharp_cached_entry s) (q_p s) (nif s) (et s).
Definition set_cached (i : Z) (s : stack) : stack := mkStack (arp_table s) i (q_p s) (nif s) (et s).
Definition set_qp (f : place -> option place) (s : stack) : stack := mkStack (arp_table s) (etharp_cached_entry s) f (nif s) (et s).
Definition set_nif (n : netif) (s : stack) : stack := mkStack (arp_table s) (etharp_cached_entry s) (q_p s) n (et s).
Definition set_et (e : eth) (s : stack) : stack := mkStack (arp_table s) (etharp_cached_entry s) (q_p s) (nif s) e.

(** Calls of the interface and of pbuf.c. *)
Definition on_eth {A} (m : EM A) : SM A := fun s =>
  match m (et s) with Some (a, e) => Some (a, set_et e s) | None => None end.
Definition on_buf {A} (m : NM A) : SM A := on_eth (on_net m).

(** ** Fields of a packet: [o] counts from [p->payload]. *)

Definition ld_field (p : place) (o n : Z) : NM bytes := b ← getp p; ld_data p (payload b + o) n.
Definition st_field (p : place) (o : Z) (bs : bytes) : NM unit := b ← getp p; st_data p (payload b + o) bs.
Definition ld8 (p : place) (o : Z) : NM Z := bs ← ld_field p o 1; mret (unle bs).
Definition ld16 (p : place) (o : Z) : NM Z := bs ← ld_field p o 2; mret (unle bs).
Definition ld32 (p : place) (o : Z) : NM Z := bs ← ld_field p o 4; mret (unle bs).
Definition st8 (p : place) (o v : Z) : NM unit := st_field p o [u8 v].
Definition st16 (p : place) (o v : Z) : NM unit := st_field p o (le16 v).
Definition st32 (p : place) (o v : Z) : NM unit := st_field p o (le32 v).
