(* ===== verification/Etharp.v ===== *)
(** * Address resolution (netif/etharp.c)

    The table of ARP entries, the queues of packets that wait for an address, the
    packets ARP sends and receives.  [netif->linkoutput] is [low_level_output]. *)
From stdpp Require Import base tactics list numbers option.
From S2P Require Import Prelude Heap Pbuf Chksum Ethernet Stack.

Definition ERR_BUF : Z := -2.
Definition ERR_RTE : Z := -4.
Definition ERR_VAL : Z := -9.
Definition ERR_ARG : Z := -10.

Definition ARP_TABLE_SIZE : Z := 10.
Definition ARP_MAXAGE : Z := 240.
Definition ARP_MAXPENDING : Z := 2.
Definition HWTYPE_ETHERNET : Z := 1.
Definition ETHTYPE_ARP : Z := 0x0806.
Definition ETHTYPE_IP : Z := 0x0800.
Definition ARP_REQUEST : Z := 1.
Definition ARP_REPLY : Z := 2.
Definition ETHARP_TRY_HARD : Z := 1.
Definition ETHARP_FIND_ONLY : Z := 2.
Definition ethbroadcast : bytes := [0xff; 0xff; 0xff; 0xff; 0xff; 0xff].
Definition ethzero : bytes := [0; 0; 0; 0; 0; 0].

(** Offsets in [struct etharp_hdr], which begins with [struct eth_hdr], and
    in [struct ethip_hdr]. *)
Definition eh_dest : Z := 0.
Definition eh_src : Z := 6.
Definition eh_type : Z := 12.
Definition sizeof_eth_hdr : Z := 14.
Definition ah_hwtype : Z := 14.
Definition ah_proto : Z := 16.
Definition ah_hwlen_protolen : Z := 18.
Definition ah_opcode : Z := 20.
Definition ah_shwaddr : Z := 22.
Definition ah_sipaddr : Z := 28.
Definition ah_dhwaddr : Z := 32.
Definition ah_dipaddr : Z := 38.
Definition sizeof_etharp_hdr : Z := 42.
Definition eih_src : Z := 26.

(** The chains of the queues have at most MEMP_NUM_ARP_QUEUE elements. *)
Definition arp_fuel : nat := 40.
Arguments arp_fuel : simpl never.

(** ** Entries *)

Definition entry (i : Z) : SM etharp_entry := fun s =>
  e ← (if 0 <=? i then arp_table s !! Z.to_nat i else None); Some (e, s).
Definition upd_entry (i : Z) (f : etharp_entry -> etharp_entry) : SM unit :=
  e ← entry i;
  smod (fun s => set_table (<[Z.to_nat i := f e]> (arp_table s)) s).
Definition put_q (v : option place) (e : etharp_entry) := mkEntry v (ipaddr e) (ethaddr e) (state e) (ctime e).
Definition put_ip (v : Z) (e : etharp_entry) := mkEntry (q e) v (ethaddr e) (state e) (ctime e).
Definition put_mac (v : bytes) (e : etharp_entry) := mkEntry (q e) (ipaddr e) v (state e) (ctime e).
Definition put_state (v : etharp_state) (e : etharp_entry) := mkEntry (q e) (ipaddr e) (ethaddr e) v (ctime e).
Definition put_ctime (v : Z) (e : etharp_entry) := mkEntry (q e) (ipaddr e) (ethaddr e) (state e) (u8 v).

Fixpoint free_etharp_q (fuel : nat) (q : option place) : SM unit :=
  match fuel with
  | O => fun _ => None
  | S fuel =>
      match q with
      | None => mret tt
      | Some r =>
          b ← on_buf (getp r);
          p ← sget (fun s => q_p s r);
          on_buf (pbuf_free p);;
          on_buf (memp_free MEMP_ARP_QUEUE r);;
          free_etharp_q fuel (p_next b)
      end
  end.

Definition expired (e : etharp_entry) : bool :=
  bool_decide (state e = ETHARP_STATE_STABLE) && (ctime e >=? ARP_MAXAGE)
  || bool_decide (state e = ETHARP_STATE_PENDING) && (ctime e >=? ARP_MAXPENDING).

Fixpoint tmr_loop (n : nat) (i : Z) : SM unit :=
  match n with
  | O => mret tt
  | S n =>
      upd_entry i (fun e => put_ctime (ctime e + 1) e);;
      e ← entry i;
      (if expired e then
         (match q e with
          | Some _ => free_etharp_q arp_fuel (q e);; upd_entry i (put_q None)
          | None => mret tt
          end);;
         upd_entry i (put_state ETHARP_STATE_EMPTY)
       else mret tt);;
      tmr_loop n (i + 1)
  end.
Definition etharp_tmr : SM unit := tmr_loop (Z.to_nat ARP_TABLE_SIZE) 0.

(** ** Searching the table *)

(** The locals of [find_entry]. *)
Record cand := mkCand {
  first_empty : Z;
  old_stable : Z;
  age_stable : Z;
  old_pending : Z;
  age_pending : Z;
  old_queue : Z;
  age_queue : Z }.

Definition is_ip (ip : option Z) (e : etharp_entry) : bool := match ip with Some a => a =? ipaddr e | None => false end.

(** One turn: [None], the address has been found. *)
Definition consider (ip : option Z) (i : Z) (e : etharp_entry) (k : cand) : option cand :=
  if (first_empty k =? ARP_TABLE_SIZE) && bool_decide (state e = ETHARP_STATE_EMPTY) then
    Some (mkCand i (old_stable k) (age_stable k) (old_pending k) (age_pending k) (old_queue k) (age_queue k))
  else
    match state e with
    | ETHARP_STATE_PENDING =>
        if is_ip ip e then None
        else
          match q e with
          | Some _ =>
              Some (if ctime e >=? age_queue k then
                mkCand (first_empty k) (old_stable k) (age_stable k) (old_pending k) (age_pending k) i (ctime e) else k)
          | None =>
              Some (if ctime e >=? age_pending k then
                mkCand (first_empty k) (old_stable k) (age_stable k) i (ctime e) (old_queue k) (age_queue k) else k)
          end
    | ETHARP_STATE_STABLE =>
        if is_ip ip e then None
        else
          Some (if ctime e >=? age_stable k then
            mkCand (first_empty k) i (ctime e) (old_pending k) (age_pending k) (old_queue k) (age_queue k) else k)
    | ETHARP_STATE_EMPTY => Some k
    end.

(** [for (i = 0; i < ARP_TABLE_SIZE; ++i)]: the entry found, or the candidates. *)
Fixpoint find_sweep (n : nat) (i : Z) (ip : option Z) (k : cand) : SM (Z + cand) :=
  match n with
  | O => mret (inr k)
  | S n =>
      e ← entry i;
      match consider ip i e k with
      | None => smod (set_cached i);; mret (inl i)
      | Some k => find_sweep n (i + 1) ip k
      end
  end.

(** The entry to recycle; [None]: there is none. *)
Definition select (k : cand) : SM (option Z) :=
  if first_empty k <? ARP_TABLE_SIZE then mret (Some (first_empty k))
  else if old_stable k <? ARP_TABLE_SIZE then mret (Some (old_stable k))
  else if old_pending k <? ARP_TABLE_SIZE then mret (Some (old_pending k))
  else if old_queue k <? ARP_TABLE_SIZE then
    e ← entry (old_queue k);
    free_etharp_q arp_fuel (q e);;
    upd_entry (old_queue k) (put_q None);;
    mret (Some (old_queue k))
  else mret None.

Definition find_entry (ip : option Z) (flags : Z) : SM Z :=
  c ← sget etharp_cached_entry;
  e ← entry c;
  if bool_decide (is_Some ip) && bool_decide (state e = ETHARP_STATE_STABLE) && is_ip ip e then mret c
  else
    r ← find_sweep (Z.to_nat ARP_TABLE_SIZE) 0 ip
          (mkCand ARP_TABLE_SIZE ARP_TABLE_SIZE 0 ARP_TABLE_SIZE 0 ARP_TABLE_SIZE 0);
    match r with
    | inl i => mret i
    | inr k =>
        if ((first_empty k =? ARP_TABLE_SIZE) && (Z.land flags ETHARP_TRY_HARD =? 0))
           || negb (Z.land flags ETHARP_FIND_ONLY =? 0) then mret ERR_MEM
        else
          v ← select k;
          match v with
          | None => mret ERR_MEM
          | Some i =>
              upd_entry i (put_state ETHARP_STATE_EMPTY);;
              (match ip with Some a => upd_entry i (put_ip a) | None => mret tt end);;
              upd_entry i (put_ctime 0);;
              smod (set_cached i);;
              mret i
          end
    end.

(** ** Sending *)

Definition byte_at (bs : bytes) (k : nat) : SM Z := fun s => b ← bs !! k; Some (b, s).
Definition linkoutput (p : place) : SM Z := on_eth (low_level_output (Some p)).

(** [while (k > 0)]: the addresses, from their last byte. *)
Fixpoint send_macs (k : nat) (p : place) (src dst : bytes) : SM unit :=
  match k with
  | O => mret tt
  | S k =>
      d ← byte_at dst k;
      on_buf (st8 p (eh_dest + Z.of_nat k) d);;
      c ← byte_at src k;
      on_buf (st8 p (eh_src + Z.of_nat k) c);;
      send_macs k p src dst
  end.
Definition etharp_send_ip (p : place) (src dst : bytes) : SM Z :=
  send_macs ETHARP_HWADDR_LEN p src dst;;
  on_buf (st16 p eh_type (htons ETHTYPE_IP));;
  linkoutput p.

Fixpoint raw_macs (k : nat) (p : place) (ethsrc ethdst hwsrc hwdst : bytes) : SM unit :=
  match k with
  | O => mret tt
  | S k =>
      a ← byte_at hwsrc k;
      on_buf (st8 p (ah_shwaddr + Z.of_nat k) a);;
      b ← byte_at hwdst k;
      on_buf (st8 p (ah_dhwaddr + Z.of_nat k) b);;
      c ← byte_at ethdst k;
      on_buf (st8 p (eh_dest + Z.of_nat k) c);;
      d ← byte_at ethsrc k;
      on_buf (st8 p (eh_src + Z.of_nat k) d);;
      raw_macs k p ethsrc ethdst hwsrc hwdst
  end.
Definition etharp_raw (ethsrc_addr ethdst_addr hwsrc_addr : bytes) (ipsrc_addr : Z) (hwdst_addr : bytes)
    (ipdst_addr opcode : Z) : SM Z :=
  p ← on_buf (pbuf_alloc PBUF_RAW sizeof_etharp_hdr PBUF_RAM);
  match p with
  | None => mret ERR_MEM
  | Some p =>
      on_buf (st16 p ah_opcode (htons opcode));;
      raw_macs ETHARP_HWADDR_LEN p ethsrc_addr ethdst_addr hwsrc_addr hwdst_addr;;
      on_buf (st32 p ah_sipaddr ipsrc_addr);;
      on_buf (st32 p ah_dipaddr ipdst_addr);;
      on_buf (st16 p ah_hwtype (htons HWTYPE_ETHERNET));;
      on_buf (st16 p ah_proto (htons ETHTYPE_IP));;
      on_buf (st16 p ah_hwlen_protolen (htons (Z.lor (Z.shiftl (Z.of_nat ETHARP_HWADDR_LEN) 8) 4)));;
      on_buf (st16 p eh_type (htons ETHTYPE_ARP));;
      result ← linkoutput p;
      on_buf (pbuf_free (Some p));;
      mret result
  end.
Definition etharp_request (ipaddr : Z) : SM Z :=
  n ← sget nif;
  etharp_raw (hwaddr n) ethbroadcast (hwaddr n) (ip_addr n) ethzero ipaddr ARP_REQUEST.
Definition etharp_gratuitous : SM Z := n ← sget nif; etharp_request (ip_addr n).

(** ** Updating the table *)

(** The bytes of an Ethernet address, from the last: [a] is its offset in the
    packet's data. *)
Fixpoint take_mac (k : nat) (i : Z) (p : place) (a : Z) : SM unit :=
  match k with
  | O => mret tt
  | S k =>
      b ← on_buf (ld_data p (a + Z.of_nat k) 1);
      upd_entry i (fun e => put_mac (<[k := unle b]> (ethaddr e)) e);;
      take_mac k i p a
  end.

(** [while (arp_table[i].q != NULL)] *)
Fixpoint send_queue (fuel : nat) (i : Z) (p : place) (a : Z) : SM unit :=
  match fuel with
  | O => fun _ => None
  | S fuel =>
      e ← entry i;
      match q e with
      | None => mret tt
      | Some r =>
          b ← on_buf (getp r);
          upd_entry i (put_q (p_next b));;
          w ← sget (fun s => q_p s r);
          on_buf (memp_free MEMP_ARP_QUEUE r);;
          match w with
          | None => fun _ => None
          | Some w =>
              n ← sget nif;
              mac ← on_buf (ld_data p a 6);
              etharp_send_ip w (hwaddr n) mac;;
              on_buf (pbuf_free (Some w));;
              send_queue fuel i p a
          end
      end
  end.

(** The Ethernet address is at offset [a] of the data of packet [p]. *)
Definition update_arp_entry (ipaddr : Z) (p : place) (a : Z) (flags : Z) : SM Z :=
  n ← sget nif;
  if ip_addr_isany (Some ipaddr) || ip_addr_isbroadcast ipaddr n || ip_addr_ismulticast ipaddr then mret ERR_ARG
  else
    i ← find_entry (Some ipaddr) flags;
    if i <? 0 then mret i
    else
      upd_entry i (put_state ETHARP_STATE_STABLE);;
      take_mac ETHARP_HWADDR_LEN i p a;;
      upd_entry i (put_ctime 0);;
      send_queue arp_fuel i p a;;
      mret ERR_OK.

(** The index; [*eth_ret] and [*ip_ret] point into its entry. *)
Definition etharp_find_addr (ipaddr : Z) : SM Z :=
  i ← find_entry (Some ipaddr) ETHARP_FIND_ONLY;
  if i >=? 0 then
    e ← entry i;
    if bool_decide (state e = ETHARP_STATE_STABLE) then mret i else mret (-1)
  else mret (-1).

(** ** Receiving *)

Definition etharp_ip_input (p : place) : SM unit :=
  n ← sget nif;
  src ← on_buf (ld32 p eih_src);
  if negb (ip_addr_netcmp src (ip_addr n) (netmask n)) then mret tt
  else
    b ← on_buf (getp p);
    update_arp_entry src p (payload b + eh_src) 0;;
    mret tt.

(** The addresses of the answer, from their last byte. *)
Fixpoint reply_macs (k : nat) (p : place) (ethaddr : bytes) : SM unit :=
  match k with
  | O => mret tt
  | S k =>
      let i := Z.of_nat k in
      a ← on_buf (ld8 p (ah_shwaddr + i));
      on_buf (st8 p (ah_dhwaddr + i) a);;
      a ← on_buf (ld8 p (ah_shwaddr + i));
      on_buf (st8 p (eh_dest + i) a);;
      m ← byte_at ethaddr k;
      on_buf (st8 p (ah_shwaddr + i) m);;
      m ← byte_at ethaddr k;
      on_buf (st8 p (eh_src + i) m);;
      reply_macs k p ethaddr
  end.
Definition arp_reply (p : place) (ethaddr : bytes) : SM unit :=
  n ← sget nif;
  on_buf (st16 p ah_opcode (htons ARP_REPLY));;
  sip ← on_buf (ld_field p ah_sipaddr 4);
  on_buf (st_field p ah_dipaddr sip);;
  on_buf (st32 p ah_sipaddr (ip_addr n));;
  reply_macs ETHARP_HWADDR_LEN p ethaddr;;
  linkoutput p;;
  mret tt.

Definition etharp_arp_input (ethaddr : bytes) (p : place) : SM unit :=
  b ← on_buf (getp p);
  if len b <? sizeof_etharp_hdr then on_buf (pbuf_free (Some p));; mret tt
  else
    hwtype ← on_buf (ld16 p ah_hwtype);
    hwlen_protolen ← on_buf (ld16 p ah_hwlen_protolen);
    proto ← on_buf (ld16 p ah_proto);
    type ← on_buf (ld16 p eh_type);
    if negb (hwtype =? htons HWTYPE_ETHERNET)
       || negb (hwlen_protolen =? htons (Z.lor (Z.shiftl (Z.of_nat ETHARP_HWADDR_LEN) 8) 4))
       || negb (proto =? htons ETHTYPE_IP) || negb (type =? htons ETHTYPE_ARP)
    then on_buf (pbuf_free (Some p));; mret tt
    else
      sipaddr ← on_buf (ld32 p ah_sipaddr);
      dipaddr ← on_buf (ld32 p ah_dipaddr);
      n ← sget nif;
      let for_us := if ip_addr n =? 0 then false else dipaddr =? ip_addr n in
      update_arp_entry sipaddr p (payload b + ah_shwaddr) (if for_us then ETHARP_TRY_HARD else 0);;
      opcode ← on_buf (ld16 p ah_opcode);
      (if htons opcode =? ARP_REQUEST then (if for_us then arp_reply p ethaddr else mret tt) else mret tt);;
      on_buf (pbuf_free (Some p));;
      mret tt.

(** ** Queueing and output *)

(** [while (p)]: the first pbuf that must be copied. *)
Fixpoint copy_needed (fuel : nat) (p : option place) : SM (option place) :=
  match fuel with
  | O => fun _ => None
  | S fuel =>
      match p with
      | None => mret None
      | Some r =>
          b ← on_buf (getp r);
          if bool_decide (type b <> PBUF_ROM) then mret (Some r) else copy_needed fuel (p_next b)
      end
  end.
(** The packet that goes into the queue: a copy, or the packet itself. *)
Definition own_packet (pkt : place) : SM (option place) :=
  c ← copy_needed pbuf_fuel (Some pkt);
  match c with
  | Some r =>
      b ← on_buf (getp r);
      p ← on_buf (pbuf_alloc PBUF_RAW (tot_len b) PBUF_RAM);
      match p with
      | None => mret None
      | Some p =>
          err ← on_buf (pbuf_copy (Some p) (Some pkt));
          if negb (err =? ERR_OK) then on_buf (pbuf_free (Some p));; mret None else mret (Some p)
      end
  | None => on_buf (pbuf_ref (Some pkt));; mret (Some pkt)
  end.

(** [while (r->next != NULL)] *)
Fixpoint last_queued (fuel : nat) (r : place) : SM place :=
  match fuel with
  | O => fun _ => None
  | S fuel =>
      b ← on_buf (getp r);
      match p_next b with None => mret r | Some r => last_queued fuel r end
  end.
Definition enqueue (i : Z) (p : place) (result : Z) : SM Z :=
  new_entry ← on_buf (memp_malloc MEMP_ARP_QUEUE);
  match new_entry with
  | None => on_buf (pbuf_free (Some p));; mret result
  | Some m =>
      on_buf (setp m (upd_next None));;
      smod (fun s => set_qp (fun r => if decide (r = m) then Some p else q_p s r) s);;
      e ← entry i;
      (match q e with
       | Some r => r ← last_queued arp_fuel r; on_buf (setp r (upd_next (Some m)))
       | None => upd_entry i (put_q (Some m))
       end);;
      mret ERR_OK
  end.

Definition etharp_query (ipaddr : Z) (pkt : option place) : SM Z :=
  n ← sget nif;
  if ip_addr_isbroadcast ipaddr n || ip_addr_ismulticast ipaddr || ip_addr_isany (Some ipaddr) then mret ERR_ARG
  else
    i ← find_entry (Some ipaddr) ETHARP_TRY_HARD;
    if i <? 0 then mret i
    else
      e ← entry i;
      (if bool_decide (state e = ETHARP_STATE_EMPTY) then upd_entry i (put_state ETHARP_STATE_PENDING) else mret tt);;
      e ← entry i;
      result ← (if bool_decide (state e = ETHARP_STATE_PENDING) || bool_decide (pkt = None)
                then etharp_request ipaddr else mret ERR_MEM);
      match pkt with
      | None => mret result
      | Some pkt =>
          e ← entry i;
          match state e with
          | ETHARP_STATE_STABLE => etharp_send_ip pkt (hwaddr n) (ethaddr e)
          | ETHARP_STATE_PENDING =>
              p ← own_packet pkt;
              match p with Some p => enqueue i p result | None => mret result end
          | ETHARP_STATE_EMPTY => mret result
          end
      end.

Definition etharp_output (pkt : place) (ipaddr : Z) : SM Z :=
  ok ← on_buf (pbuf_header (Some pkt) sizeof_eth_hdr);
  if negb ok then mret ERR_BUF
  else
    n ← sget nif;
    if ip_addr_isbroadcast ipaddr n then etharp_send_ip pkt (hwaddr n) ethbroadcast
    else if ip_addr_ismulticast ipaddr then
      etharp_send_ip pkt (hwaddr n)
        [0x01; 0x00; 0x5e; Z.land (ip4_addr2 ipaddr) 0x7f; ip4_addr3 ipaddr; ip4_addr4 ipaddr]
    else if negb (ip_addr_netcmp ipaddr (ip_addr n) (netmask n)) then
      if negb (gw n =? 0) then etharp_query (gw n) (Some pkt) else mret ERR_RTE
    else etharp_query ipaddr (Some pkt).
