(* ===== verification/EtharpSpec.v ===== *)
(** * The ARP table as a cache

    Which entry [find_entry] answers with, and which one it recycles; the
    invariant of the table, kept by every operation of etharp.c. *)
From stdpp Require Import base tactics list numbers option.
From S2P Require Import Prelude Heap Pbuf Chksum Ethernet Stack Etharp.

Lemma sbind {A B} (m : SM A) (k : A -> SM B) s a s' : m s = Some (a, s') -> (m ≫= k) s = k a s'.
Proof. intros E. unfold mbind, SM_bind. by rewrite E. Qed.
Lemma sget_bind {A B} (f : stack -> A) (k : A -> SM B) s : (sget f ≫= k) s = k (f s) s.
Proof. done. Qed.
Lemma smod_bind {B} (f : stack -> stack) (k : unit -> SM B) s : (smod f ≫= k) s = k tt (f s).
Proof. done. Qed.
Lemma sret_bind {A B} (a : A) (k : A -> SM B) s : (mret a ≫= k) s = k a s.
Proof. done. Qed.
Lemma sbind_assoc {A B C} (m : SM A) (k : A -> SM B) (l : B -> SM C) s : ((m ≫= k) ≫= l) s = (m ≫= fun a => k a ≫= l) s.
Proof. unfold mbind, SM_bind. by destruct (m s) as [[a s']|]. Qed.

(** ** Entries *)

Definition at_table (t : list etharp_entry) (i : Z) : option etharp_entry := if 0 <=? i then t !! Z.to_nat i else None.
Lemma entry_run s i e : at_table (arp_table s) i = Some e -> entry i s = Some (e, s).
Proof. intros E. unfold entry. fold (at_table (arp_table s) i). by rewrite E. Qed.
Lemma upd_entry_run s i e f :
  at_table (arp_table s) i = Some e -> upd_entry i f s = Some (tt, set_table (<[Z.to_nat i := f e]> (arp_table s)) s).
Proof. intros E. unfold upd_entry. by rewrite (sbind _ _ _ _ _ (entry_run _ _ _ E)). Qed.
Lemma at_table_lt t i e : at_table t i = Some e -> 0 <= i < Z.of_nat (length t).
Proof. unfold at_table. destruct (Z.leb_spec 0 i); [|done]. intros ?%lookup_lt_Some. lia. Qed.
Lemma at_table_insert t i j e :
  0 <= i < Z.of_nat (length t) -> at_table (<[Z.to_nat i := e]> t) j = if decide (j = i) then Some e else at_table t j.
Proof.
  intros Hi. unfold at_table. destruct (decide (j = i)) as [->|Hne].
  - destruct (Z.leb_spec 0 i); [|lia]. apply list_lookup_insert_eq. lia.
  - destruct (Z.leb_spec 0 j); [|done]. apply list_lookup_insert_ne. lia.
Qed.
Lemma at_table_Some t i : 0 <= i < Z.of_nat (length t) -> exists e, at_table t i = Some e.
Proof. intros Hi. unfold at_table. destruct (Z.leb_spec 0 i); [|lia]. apply lookup_lt_is_Some_2. lia. Qed.
Lemma Forall_at (P : etharp_entry -> Prop) t i e : Forall P t -> at_table t i = Some e -> P e.
Proof. unfold at_table. destruct (0 <=? i); [|done]. apply Forall_lookup_1. Qed.
Lemma elem_at_table t e : e ∈ t -> exists i, at_table t i = Some e.
Proof. intros [i Hi]%list_elem_of_lookup_1. exists (Z.of_nat i). unfold at_table. destruct (Z.leb_spec 0 (Z.of_nat i)); [|lia]. by rewrite Nat2Z.id. Qed.

Lemma Exists_at (P : etharp_entry -> Prop) t : Exists P t <-> exists i e, at_table t i = Some e /\ P e.
Proof.
  rewrite Exists_exists. split.
  - intros (e & Hin%list_elem_of_In & HP). apply list_elem_of_lookup_1 in Hin as [i Hi]. exists (Z.of_nat i), e.
    unfold at_table. destruct (Z.leb_spec 0 (Z.of_nat i)); [|lia]. by rewrite Nat2Z.id.
  - intros (i & e & Hi & HP). exists e. split; [|done]. apply list_elem_of_In. unfold at_table in Hi.
    destruct (0 <=? i); [|done]. by apply list_elem_of_lookup_2 in Hi.
Qed.

Definition active (e : etharp_entry) : Prop := state e <> ETHARP_STATE_EMPTY.
#[export] Instance active_dec e : Decision (active e).
Proof. unfold active. apply _. Defined.
(** The entry that answers for an address. *)
Definition holds_ip (a : Z) (e : etharp_entry) : Prop := active e /\ ipaddr e = a.
#[export] Instance holds_ip_dec a e : Decision (holds_ip a e).
Proof. unfold holds_ip. apply _. Defined.

Record entry_ok (e : etharp_entry) : Prop := {
  eo_age : 0 <= ctime e < 256;
  eo_mac : length (ethaddr e) = ETHARP_HWADDR_LEN;
  eo_queue : q e <> None -> state e = ETHARP_STATE_PENDING;
  eo_stable : state e = ETHARP_STATE_STABLE -> ctime e < ARP_MAXAGE;
  eo_pending : state e = ETHARP_STATE_PENDING -> ctime e < ARP_MAXPENDING }.

Record table_ok (t : list etharp_entry) : Prop := {
  to_len : length t = 10%nat;
  to_entry : forall i e, at_table t i = Some e -> entry_ok e;
  to_distinct : forall a i j e e', at_table t i = Some e -> at_table t j = Some e' ->
    holds_ip a e -> holds_ip a e' -> i = j }.

Record arp_ok (s : stack) : Prop := {
  ao_table : table_ok (arp_table s);
  ao_cached : 0 <= etharp_cached_entry s < 10 }.

(** ** The sweep *)

(** The sweep over the rest of the table. *)
Fixpoint sweep (ip : option Z) (i : Z) (es : list etharp_entry) (k : cand) : Z + cand :=
  match es with
  | [] => inr k
  | e :: es => match consider ip i e k with None => inl i | Some k => sweep ip (i + 1) es k end
  end.

Lemma find_sweep_run es : forall i ip k s,
  0 <= i -> drop (Z.to_nat i) (arp_table s) = es ->
  find_sweep (length es) i ip k s =
    Some (sweep ip i es k, match sweep ip i es k with inl j => set_cached j s | inr _ => s end).
Proof.
  induction es as [|e es IH]; intros i ip k s Hi He; cbn [find_sweep sweep length]; [done|].
  assert (Hn : arp_table s !! Z.to_nat i = Some e).
  { rewrite <- (Nat.add_0_r (Z.to_nat i)), <- lookup_drop, He. done. }
  rewrite (sbind _ _ s e s).
  2:{ apply entry_run. unfold at_table. destruct (Z.leb_spec 0 i); [done|lia]. }
  destruct (consider ip i e k) as [k'|]; [|done]. apply IH; [lia|].
  rewrite Z2Nat.inj_add by lia. rewrite <- drop_drop, He. done.
Qed.

(** What makes the sweep stop. *)
Lemma consider_None ip i e k : consider ip i e k = None <-> active e /\ is_ip ip e = true.
Proof.
  unfold consider, active. destruct (state e) eqn:Es.
  - rewrite bool_decide_true by done. rewrite andb_true_r. by destruct (_ =? _); split; [|intros []| |intros []].
  - rewrite bool_decide_false, andb_false_r by done. destruct (is_ip ip e); [by split|].
    split; [by destruct (q e)|by intros []].
  - rewrite bool_decide_false, andb_false_r by done. destruct (is_ip ip e); [by split|]. split; [done|by intros []].
Qed.

Lemma sweep_inl ip es : forall i k j, sweep ip i es k = inl j ->
  exists e, es !! Z.to_nat (j - i) = Some e /\ i <= j /\ active e /\ is_ip ip e = true.
Proof.
  induction es as [|e es IH]; intros i k j; cbn [sweep]; [done|].
  destruct (consider ip i e k) as [k'|] eqn:Ec.
  - intros (e' & He & Hj & Ha)%IH. exists e'. split; [|split; [lia|done]].
    replace (Z.to_nat (j - i)) with (S (Z.to_nat (j - (i + 1)))) by lia. done.
  - intros [= <-]. apply consider_None in Ec as [Ha Hip]. exists e. by rewrite Z.sub_diag.
Qed.
Lemma sweep_inr_none ip es : forall i k k', sweep ip i es k = inr k' -> Forall (fun e => ~ (active e /\ is_ip ip e = true)) es.
Proof.
  induction es as [|e es IH]; intros i k k'; cbn [sweep]; [constructor|].
  destruct (consider ip i e k) as [k1|] eqn:Ec; [|done]. intros Hs%IH. apply Forall_cons_2; [|done].
  intros Hn%(consider_None ip i e k). congruence.
Qed.

(** *** The candidates *)

(** The oldest of some entries, the last of those of the same age. *)
Definition is_oldest (P : etharp_entry -> Prop) (t : list etharp_entry) (i : Z) : Prop :=
  exists e, at_table t i = Some e /\ P e /\
  forall j e', at_table t j = Some e' -> P e' -> ctime e' < ctime e \/ ctime e' = ctime e /\ j <= i.

Definition stable (e : etharp_entry) : Prop := state e = ETHARP_STATE_STABLE.
Definition idle (e : etharp_entry) : Prop := state e = ETHARP_STATE_PENDING /\ q e = None.
Definition queueing (e : etharp_entry) : Prop := state e = ETHARP_STATE_PENDING /\ q e <> None.
Definition vacant (e : etharp_entry) : Prop := state e = ETHARP_STATE_EMPTY.

(** A candidate and its age after the entries [t]. *)
Definition tracked (P : etharp_entry -> Prop) (t : list etharp_entry) (old age : Z) : Prop :=
  old = ARP_TABLE_SIZE /\ age = 0 /\ Forall (fun e => ~ P e) t
  \/ is_oldest P t old /\ exists e, at_table t old = Some e /\ age = ctime e.

Lemma at_table_app t e j e' :
  at_table (t ++ [e]) j = Some e' <-> at_table t j = Some e' \/ j = Z.of_nat (length t) /\ e' = e.
Proof.
  unfold at_table. destruct (Z.leb_spec 0 j).
  - rewrite lookup_app_Some, list_lookup_singleton_Some. split.
    + intros [?|(Hl & Hz & ->)]; [by left|right]. split; [lia|done].
    + intros [?|[-> ->]]; [by left|right]. split; [lia|]. split; [lia|done].
  - split; [done|]. intros [?|[-> _]]; [done|lia].
Qed.

Lemma tracked_other P t e old age : ~ P e -> tracked P t old age -> tracked P (t ++ [e]) old age.
Proof.
  intros Hn [(-> & -> & Hf)|[(e0 & H0 & HP & Hmax) (e1 & H1 & ->)]].
  - left. split; [done|]. split; [done|]. apply Forall_app_2; [done|]. by apply Forall_cons_2; [|apply Forall_nil_2].
  - right. split.
    + exists e0. split; [apply at_table_app; by left|]. split; [done|].
      intros j e' [Hj|[-> ->]]%at_table_app; [by apply Hmax|done].
    + exists e1. split; [apply at_table_app; by left|done].
Qed.
Lemma tracked_this (P : etharp_entry -> Prop) t e old age :
  P e -> 0 <= ctime e -> tracked P t old age ->
  tracked P (t ++ [e]) (if ctime e >=? age then Z.of_nat (length t) else old) (if ctime e >=? age then ctime e else age).
Proof.
  intros He Hc Ht. destruct Ht as [(-> & -> & Hf)|[(e0 & H0 & HP & Hmax) (e1 & H1 & ->)]].
  - destruct (Z.geb_spec (ctime e) 0); [|lia]. right. split.
    + exists e. split; [apply at_table_app; by right|]. split; [done|].
      intros j e' [Hj|[-> ->]]%at_table_app HP'; [|right; lia].
      exfalso. by apply (Forall_at _ _ _ _ Hf Hj).
    + exists e. split; [apply at_table_app; by right|done].
  - rewrite H1 in H0. injection H0 as ->. right. destruct (Z.geb_spec (ctime e) (ctime e0)) as [Hle|Hlt].
    + split; [|exists e; split; [apply at_table_app; by right|done]].
      exists e. split; [apply at_table_app; by right|]. split; [done|].
      intros j e' [Hj|[-> ->]]%at_table_app HP'; [|right; lia].
      pose proof (at_table_lt _ _ _ Hj). destruct (Hmax j e' Hj HP') as [?|[? _]]; lia.
    + split; [|exists e0; split; [apply at_table_app; by left|done]].
      exists e0. split; [apply at_table_app; by left|]. split; [done|].
      intros j e' [Hj|[-> ->]]%at_table_app HP'; [by apply Hmax|left; lia].
Qed.

(** The first vacant entry. *)
Definition is_first_vacant (t : list etharp_entry) (i : Z) : Prop :=
  exists e, at_table t i = Some e /\ vacant e /\ forall j e', at_table t j = Some e' -> vacant e' -> i <= j.
Record cand_ok (t : list etharp_entry) (k : cand) : Prop := {
  co_empty : first_empty k = ARP_TABLE_SIZE /\ Forall (fun e => ~ vacant e) t \/ is_first_vacant t (first_empty k);
  co_stable : tracked stable t (old_stable k) (age_stable k);
  co_pending : tracked idle t (old_pending k) (age_pending k);
  co_queue : tracked queueing t (old_queue k) (age_queue k) }.

Lemma empty_step t k e :
  first_empty k = ARP_TABLE_SIZE /\ Forall (fun e => ~ vacant e) t \/ is_first_vacant t (first_empty k) -> ~ vacant e ->
  first_empty k = ARP_TABLE_SIZE /\ Forall (fun e => ~ vacant e) (t ++ [e]) \/ is_first_vacant (t ++ [e]) (first_empty k).
Proof.
  intros [[? Hf]|(e0 & H0 & Hv & Hmin)] Hn; [left|right].
  - split; [done|]. apply Forall_app_2; [done|]. by apply Forall_cons_2; [|apply Forall_nil_2].
  - exists e0. split; [apply at_table_app; by left|]. split; [done|].
    intros j e' [Hj|[-> ->]]%at_table_app ?; [by apply (Hmin j e')|done].
Qed.

Lemma consider_ok ip t e k k' :
  (length t < 10)%nat -> 0 <= ctime e -> cand_ok t k -> consider ip (Z.of_nat (length t)) e k = Some k' -> cand_ok (t ++ [e]) k'.
Proof.
  intros Hlen Hc [He Hs Hp Hq]. unfold consider. destruct (state e) eqn:Es.
  - rewrite bool_decide_true, andb_true_r by done.
    assert (Ho : forall P, (forall x, P x -> state x <> ETHARP_STATE_EMPTY) -> forall o a, tracked P t o a -> tracked P (t ++ [e]) o a).
    { intros P HP o a. apply tracked_other. intros Hx%HP. done. }
    destruct (Z.eqb_spec (first_empty k) ARP_TABLE_SIZE) as [Hz|Hz]; intros [= <-].
    + destruct He as [[_ Hf]|(e0 & H0 & _)]; [|apply at_table_lt in H0; unfold ARP_TABLE_SIZE in Hz; lia].
      split; simpl; [|apply Ho; [by intros x ->|done]|apply Ho; [by intros x [-> _]|done]|apply Ho; [by intros x [-> _]|done]].
      right. exists e. split; [apply at_table_app; by right|]. split; [done|].
      intros j e' [Hj|[-> ->]]%at_table_app Hv; [|lia]. exfalso. by apply (Forall_at _ _ _ _ Hf Hj).
    + destruct He as [[? _]|(e0 & H0 & Hv & Hmin)]; [done|].
      split; [|apply Ho; [by intros x ->|done]|apply Ho; [by intros x [-> _]|done]|apply Ho; [by intros x [-> _]|done]].
      right. exists e0. split; [apply at_table_app; by left|]. split; [done|].
      intros j e' [Hj|[-> ->]]%at_table_app ?; [by apply (Hmin j e')|]. apply at_table_lt in H0. lia.
  - rewrite bool_decide_false, andb_false_r by done. destruct (is_ip ip e); [done|].
    pose proof (empty_step t k e He ltac:(unfold vacant; congruence)) as He'.
    assert (Hs' : tracked stable (t ++ [e]) (old_stable k) (age_stable k)) by (apply tracked_other; [unfold stable; congruence|done]).
    destruct (q e) as [r|] eqn:Eq; intros [= <-].
    + pose proof (tracked_this queueing t e _ _ ltac:(split; [done|congruence]) Hc Hq) as Hq'.
      assert (Hp' : tracked idle (t ++ [e]) (old_pending k) (age_pending k)) by (apply tracked_other; [unfold idle; intros []; congruence|done]).
      destruct (ctime e >=? age_queue k); by split.
    + pose proof (tracked_this idle t e _ _ ltac:(by split) Hc Hp) as Hp'.
      assert (Hq' : tracked queueing (t ++ [e]) (old_queue k) (age_queue k)) by (apply tracked_other; [unfold queueing; intros []; congruence|done]).
      destruct (ctime e >=? age_pending k); by split.
  - rewrite bool_decide_false, andb_false_r by done. destruct (is_ip ip e); [done|]. intros [= <-].
    pose proof (empty_step t k e He ltac:(unfold vacant; congruence)) as He'.
    pose proof (tracked_this stable t e _ _ Es Hc Hs) as Hs'.
    assert (Hp' : tracked idle (t ++ [e]) (old_pending k) (age_pending k)) by (apply tracked_other; [unfold idle; intros []; congruence|done]).
    assert (Hq' : tracked queueing (t ++ [e]) (old_queue k) (age_queue k)) by (apply tracked_other; [unfold queueing; intros []; congruence|done]).
    destruct (ctime e >=? age_stable k); by split.
Qed.

Lemma sweep_ok ip es : forall t k k',
  (length t + length es <= 10)%nat -> Forall (fun e => 0 <= ctime e) es -> cand_ok t k ->
  sweep ip (Z.of_nat (length t)) es k = inr k' -> cand_ok (t ++ es) k'.
Proof.
  induction es as [|e es IH]; intros t k k' Hlen Hc Hk; cbn [sweep].
  { intros [= <-]. by rewrite app_nil_r. }
  apply Forall_cons_1 in Hc as [He Hc]. simpl in Hlen.
  destruct (consider ip (Z.of_nat (length t)) e k) as [k1|] eqn:Ec; [|done]. intros Hs.
  pose proof (consider_ok ip t e k k1 ltac:(lia) He Hk Ec) as Hk1.
  replace (Z.of_nat (length t) + 1) with (Z.of_nat (length (t ++ [e]))) in Hs by (rewrite length_app; simpl; lia).
  replace (t ++ e :: es) with ((t ++ [e]) ++ es) by (by rewrite <- app_assoc).
  apply (IH (t ++ [e]) k1 k'); [rewrite length_app; simpl; lia|done|done|done].
Qed.

(** ** [find_entry] *)

(** The entry to recycle: the first vacant one; else the oldest stable one; else
    the oldest pending one without packets; else the oldest pending one. *)
Inductive victim (t : list etharp_entry) (i : Z) : Prop :=
  | victim_vacant : is_first_vacant t i -> victim t i
  | victim_stable : Forall (fun e => ~ vacant e) t -> is_oldest stable t i -> victim t i
  | victim_idle :
      Forall (fun e => ~ vacant e) t -> Forall (fun e => ~ stable e) t -> is_oldest idle t i -> victim t i
  | victim_queueing :
      Forall (fun e => ~ vacant e) t -> Forall (fun e => ~ stable e) t -> Forall (fun e => ~ idle e) t ->
      is_oldest queueing t i -> victim t i.

(** The entry emptied for a new address. *)
Definition recycled (a : Z) (e : etharp_entry) : etharp_entry := mkEntry None a (ethaddr e) ETHARP_STATE_EMPTY 0.
Definition recycle (i a : Z) (s : stack) : stack :=
  match at_table (arp_table s) i with
  | Some e => set_cached i (set_table (<[Z.to_nat i := recycled a e]> (arp_table s)) s)
  | None => s
  end.
(** What is freed with it. *)
Definition drop_queue (e : etharp_entry) : SM unit :=
  match q e with Some _ => free_etharp_q arp_fuel (q e) | None => mret tt end.

Definition no_cand : cand := mkCand ARP_TABLE_SIZE ARP_TABLE_SIZE 0 ARP_TABLE_SIZE 0 ARP_TABLE_SIZE 0.
Lemma no_cand_ok : cand_ok [] no_cand.
Proof. split; left; repeat split; constructor. Qed.

Lemma tracked_lt P t old age : (length t <= 10)%nat -> tracked P t old age ->
  if old <? ARP_TABLE_SIZE then is_oldest P t old else Forall (fun e => ~ P e) t.
Proof.
  unfold ARP_TABLE_SIZE. intros Hl [(-> & _ & Hf)|[Ho _]]; [done|].
  destruct Ho as (e & He & Ho). pose proof (at_table_lt _ _ _ He). destruct (Z.ltb_spec old 10); [by exists e|lia].
Qed.

(** Freeing a queue writes neither the table nor the cache index. *)
Definition same_table (s s' : stack) : Prop :=
  arp_table s' = arp_table s /\ etharp_cached_entry s' = etharp_cached_entry s /\ nif s' = nif s.
Lemma same_table_trans s1 s2 s3 : same_table s1 s2 -> same_table s2 s3 -> same_table s1 s3.
Proof. unfold same_table. intuition congruence. Qed.

Lemma on_eth_inv {A} (m : EM A) s a s' : on_eth m s = Some (a, s') -> exists e, m (et s) = Some (a, e) /\ s' = set_et e s.
Proof. unfold on_eth. destruct (m (et s)) as [[b e]|]; [|done]. intros [= -> <-]. eauto. Qed.
Lemma on_eth_same {A} (m : EM A) s a s' : on_eth m s = Some (a, s') -> same_table s s'.
Proof. by intros (e & _ & ->)%on_eth_inv. Qed.
Lemma sbind_inv {A B} (m : SM A) (k : A -> SM B) s b s2 :
  (m ≫= k) s = Some (b, s2) -> exists a s1, m s = Some (a, s1) /\ k a s1 = Some (b, s2).
Proof. unfold mbind, SM_bind. destruct (m s) as [[a s1]|]; [eauto|discriminate]. Qed.

Lemma free_q_same fuel : forall q s s', free_etharp_q fuel q s = Some (tt, s') -> same_table s s'.
Proof.
  induction fuel as [|fuel IH]; intros q s s'; cbn [free_etharp_q]; [done|]. destruct q as [r|]; [|by intros [= <-]].
  intros (b & s1 & E1 & E)%sbind_inv. apply sbind_inv in E as (p & s2 & [= <- <-] & E).
  apply sbind_inv in E as (x & s3 & E3 & E). apply sbind_inv in E as (y & s4 & E4 & E).
  apply on_eth_same in E1, E3, E4. apply IH in E. eauto using same_table_trans.
Qed.
Lemma drop_queue_same e s s' : drop_queue e s = Some (tt, s') -> same_table s s'.
Proof. unfold drop_queue. destruct (q e); [apply free_q_same|by intros [= <-]]. Qed.

Lemma recycle_run i a e s :
  at_table (arp_table s) i = Some e -> q e = None ->
  (upd_entry i (put_state ETHARP_STATE_EMPTY);; upd_entry i (put_ip a);; upd_entry i (put_ctime 0);; smod (set_cached i);; mret i) s
  = Some (i, recycle i a s).
Proof.
  intros He Hq. pose proof (at_table_lt _ _ _ He) as Hi. unfold recycle. rewrite He.
  rewrite (sbind _ _ _ _ _ (upd_entry_run s i e _ He)).
  assert (Hat : forall x, at_table (<[Z.to_nat i := x]> (arp_table s)) i = Some x) by (intros x; by rewrite at_table_insert, decide_True).
  erewrite (sbind _ _ _ _ _ (upd_entry_run (set_table _ s) i _ _ (Hat _))). cbn [arp_table set_table]. rewrite list_insert_insert_eq.
  erewrite (sbind _ _ _ _ _ (upd_entry_run (set_table _ (set_table _ s)) i _ _ (Hat _))). cbn [arp_table set_table].
  rewrite list_insert_insert_eq, smod_bind. unfold recycled. unfold put_ctime, put_ip, put_state. cbn [q ipaddr ethaddr state ctime].
  by rewrite Hq.
Qed.

Lemma select_run k s :
  table_ok (arp_table s) -> cand_ok (arp_table s) k -> exists i e, victim (arp_table s) i /\ at_table (arp_table s) i = Some e
  /\ select k s = (drop_queue e;; (match q e with Some _ => upd_entry i (put_q None) | None => mret tt end);; mret (Some i)) s.
Proof.
  intros Ht [He Hs Hp Hq]. pose proof (to_len _ Ht) as Hl. unfold select.
  apply tracked_lt in Hs, Hp, Hq; [|lia..].
  assert (Hqn : forall i e, at_table (arp_table s) i = Some e -> ~ queueing e -> q e = None).
  { intros i e Hi Hn. destruct (q e) as [r|] eqn:Eq; [|done]. exfalso. apply Hn.
    split; [|congruence]. apply (eo_queue _ (to_entry _ Ht i e Hi)). congruence. }
  assert (Hdone : forall i e, at_table (arp_table s) i = Some e -> ~ queueing e -> victim (arp_table s) i ->
    exists j e, victim (arp_table s) j /\ at_table (arp_table s) j = Some e /\
    (mret (Some i) : SM _) s = (drop_queue e;; (match q e with Some _ => upd_entry j (put_q None) | None => mret tt end);; mret (Some j)) s).
  { intros i e Hi Hn Hv. exists i, e. split; [done|]. split; [done|]. unfold drop_queue. by rewrite (Hqn i e Hi Hn). }
  assert (Hfe : if first_empty k <? ARP_TABLE_SIZE then is_first_vacant (arp_table s) (first_empty k) else Forall (fun e => ~ vacant e) (arp_table s)).
  { destruct He as [[-> Hf]|(e & Hi & Hv)]; [done|]. pose proof (at_table_lt _ _ _ Hi). unfold ARP_TABLE_SIZE.
    destruct (Z.ltb_spec (first_empty k) 10); [by exists e|lia]. }
  destruct (first_empty k <? ARP_TABLE_SIZE).
  { pose proof Hfe as (e & Hi & Hv & _). apply (Hdone _ e Hi); [intros [Hst _]; unfold vacant in Hv; congruence|by apply victim_vacant]. }
  destruct (old_stable k <? ARP_TABLE_SIZE).
  { pose proof Hs as (e & Hi & Hv & _). apply (Hdone _ e Hi); [intros [Hst _]; unfold stable in Hv; congruence|by apply victim_stable]. }
  destruct (old_pending k <? ARP_TABLE_SIZE).
  { pose proof Hp as (e & Hi & [_ Hv] & _). apply (Hdone _ e Hi); [by intros [_ Hst]|by apply victim_idle]. }
  destruct (old_queue k <? ARP_TABLE_SIZE).
  - pose proof Hq as (e & Hi & Hv & _). exists (old_queue k), e. split; [by apply victim_queueing|]. split; [done|].
    rewrite (sbind _ _ _ _ _ (entry_run _ _ _ Hi)). unfold drop_queue. destruct Hv as [_ Hv]. by destruct (q e).
  - destruct (at_table_Some (arp_table s) 0) as [e He0]; [lia|].
    pose proof (Forall_at _ _ _ _ Hfe He0) as H1. pose proof (Forall_at _ _ _ _ Hs He0) as H2.
    pose proof (Forall_at _ _ _ _ Hp He0) as H3. pose proof (Forall_at _ _ _ _ Hq He0) as H4.
    unfold vacant, stable, idle, queueing in *. exfalso. destruct (state e); [tauto| |tauto]. destruct (q e); [apply H4|apply H3]; done.
Qed.

(** May an unknown address take an entry? *)
#[export] Instance vacant_dec e : Decision (vacant e).
Proof. unfold vacant. apply _. Defined.
Definition creates (t : list etharp_entry) (flags : Z) : bool :=
  (Z.land flags ETHARP_FIND_ONLY =? 0)
  && (negb (Z.land flags ETHARP_TRY_HARD =? 0) || bool_decide (Exists vacant t)).

Lemma set_cached_id s : set_cached (etharp_cached_entry s) s = s.
Proof. by destruct s. Qed.

Lemma find_entry_sweep s a flags :
  arp_ok s -> find_entry (Some a) flags s =
  match sweep (Some a) 0 (arp_table s) no_cand with
  | inl i => Some (i, set_cached i s)
  | inr k =>
      if ((first_empty k =? ARP_TABLE_SIZE) && (Z.land flags ETHARP_TRY_HARD =? 0)) || negb (Z.land flags ETHARP_FIND_ONLY =? 0)
      then Some (ERR_MEM, s)
      else (v ← select k;
            match v with
            | None => mret ERR_MEM
            | Some i => upd_entry i (put_state ETHARP_STATE_EMPTY);; upd_entry i (put_ip a);; upd_entry i (put_ctime 0);; smod (set_cached i);; mret i
            end) s
  end.
Proof.
  intros [Ht Hc]. pose proof (to_len _ Ht) as Hl. unfold find_entry. rewrite sget_bind.
  destruct (at_table_Some (arp_table s) (etharp_cached_entry s)) as [e He]; [lia|].
  rewrite (sbind _ _ _ _ _ (entry_run _ _ _ He)). rewrite (bool_decide_true (is_Some (Some a))) by done. cbn [andb].
  pose proof (find_sweep_run (arp_table s) 0 (Some a) no_cand s ltac:(lia) eq_refl) as E. rewrite Hl in E.
  destruct (bool_decide (state e = ETHARP_STATE_STABLE) && is_ip (Some a) e) eqn:Eh.
  - apply andb_true_iff in Eh as [Hst%bool_decide_eq_true Hip]. apply Z.eqb_eq in Hip.
    destruct (sweep (Some a) 0 (arp_table s) no_cand) as [i|k] eqn:Es.
    + apply sweep_inl in Es as (e' & Hi & Hge & Ha & Hip'). apply Z.eqb_eq in Hip'. rewrite Z.sub_0_r in Hi.
      assert (Hi' : at_table (arp_table s) i = Some e') by (unfold at_table; destruct (Z.leb_spec 0 i); [done|lia]).
      rewrite (to_distinct _ Ht a i _ e' e Hi' He); [by rewrite set_cached_id|by split|]. split; [unfold active; congruence|done].
    + apply sweep_inr_none in Es. exfalso. apply (Forall_at _ _ _ _ Es He). split; [unfold active; congruence|]. by apply Z.eqb_eq.
  - change (Z.to_nat ARP_TABLE_SIZE) with 10%nat. rewrite (sbind _ _ _ _ _ E).
    destruct (sweep (Some a) 0 (arp_table s) no_cand) as [i|k]; [done|]. by destruct (_ || _).
Qed.

Lemma sbind_ext {A B} (m m' : SM A) (k : A -> SM B) s : m s = m' s -> (m ≫= k) s = (m' ≫= k) s.
Proof. intros E. unfold mbind, SM_bind. by rewrite E. Qed.
Lemma sbind_none {A B} (m : SM A) (k : A -> SM B) s : m s = None -> (m ≫= k) s = None.
Proof. intros E. unfold mbind, SM_bind. by rewrite E. Qed.

Lemma create_run k s a :
  table_ok (arp_table s) -> cand_ok (arp_table s) k ->
  exists v e, victim (arp_table s) v /\ at_table (arp_table s) v = Some e /\
  (v ← select k;
   match v with
   | None => mret ERR_MEM
   | Some i => upd_entry i (put_state ETHARP_STATE_EMPTY);; upd_entry i (put_ip a);; upd_entry i (put_ctime 0);; smod (set_cached i);; mret i
   end) s = (drop_queue e;; smod (recycle v a);; mret v) s.
Proof.
  intros Ht Hk. destruct (select_run k s Ht Hk) as (v & e & Hvic & Hve & E). exists v, e. split; [done|]. split; [done|].
  rewrite (sbind_ext _ _ _ _ E), sbind_assoc. destruct (drop_queue e s) as [[[] s1]|] eqn:Ed; [|by rewrite !sbind_none].
  rewrite !(sbind _ _ _ _ _ Ed), sbind_assoc. pose proof (drop_queue_same _ _ _ Ed) as (Et & Ec & _). rewrite <- Et in Hve.
  pose proof (at_table_lt _ _ _ Hve) as Hv. destruct (q e) as [r|] eqn:Eq.
  - rewrite (sbind _ _ _ _ _ (upd_entry_run _ _ _ _ Hve)), sret_bind.
    assert (Hat : at_table (arp_table (set_table (<[Z.to_nat v := put_q None e]> (arp_table s1)) s1)) v = Some (put_q None e))
      by (cbn [arp_table set_table]; by rewrite at_table_insert, decide_True).
    rewrite (recycle_run v a _ _ Hat eq_refl), smod_bind. unfold recycle. rewrite Hat, Hve. cbn [arp_table set_table].
    by rewrite list_insert_insert_eq.
  - by rewrite !sret_bind, (recycle_run v a e s1 Hve Eq).
Qed.

(** The state of the table and the address decide what [find_entry] does. *)
Lemma find_known s a flags i e :
  arp_ok s -> at_table (arp_table s) i = Some e -> holds_ip a e -> find_entry (Some a) flags s = Some (i, set_cached i s).
Proof.
  intros Hok Hi [Ha Hip]. pose proof (ao_table _ Hok) as Ht. rewrite find_entry_sweep by done.
  destruct (sweep (Some a) 0 (arp_table s) no_cand) as [j|k] eqn:Es.
  - apply sweep_inl in Es as (e' & Hj & Hge & Ha' & Hip'). apply Z.eqb_eq in Hip'. rewrite Z.sub_0_r in Hj.
    assert (Hj' : at_table (arp_table s) j = Some e') by (unfold at_table; destruct (Z.leb_spec 0 j); [done|lia]).
    by rewrite (to_distinct _ Ht a j i e' e Hj' Hi) by (split; congruence).
  - apply sweep_inr_none in Es. exfalso. apply (Forall_at _ _ _ _ Es Hi). split; [done|]. by apply Z.eqb_eq.
Qed.

Lemma find_unknown s a flags :
  arp_ok s -> Forall (fun e => ~ holds_ip a e) (arp_table s) ->
  if creates (arp_table s) flags then
    exists v e, victim (arp_table s) v /\ at_table (arp_table s) v = Some e
    /\ find_entry (Some a) flags s = (drop_queue e;; smod (recycle v a);; mret v) s
  else find_entry (Some a) flags s = Some (ERR_MEM, s).
Proof.
  intros Hok Hf. pose proof (ao_table _ Hok) as Ht. pose proof (to_len _ Ht) as Hl. rewrite find_entry_sweep by done.
  destruct (sweep (Some a) 0 (arp_table s) no_cand) as [j|k] eqn:Es.
  { apply sweep_inl in Es as (e' & Hj & Hge & Ha' & Hip'). apply Z.eqb_eq in Hip'. rewrite Z.sub_0_r in Hj.
    exfalso. apply (Forall_lookup_1 _ _ _ _ Hf Hj). by split. }
  assert (Hk : cand_ok (arp_table s) k).
  { apply (sweep_ok (Some a) (arp_table s) [] no_cand k); [simpl; lia| |apply no_cand_ok|done].
    apply Forall_lookup_2. intros i e Hi.
    apply (to_entry _ Ht (Z.of_nat i) e). unfold at_table. destruct (Z.leb_spec 0 (Z.of_nat i)); [|lia]. by rewrite Nat2Z.id. }
  assert (Hv : (first_empty k =? ARP_TABLE_SIZE) = negb (bool_decide (Exists vacant (arp_table s)))).
  { destruct (co_empty _ _ Hk) as [[-> Hn]|(e & Hi & Hv & _)].
    - rewrite bool_decide_false; [done|]. intros (i & e & Hi & Hx)%Exists_at. by apply (Forall_at _ _ _ _ Hn Hi).
    - rewrite bool_decide_true; [apply Z.eqb_neq; apply at_table_lt in Hi; unfold ARP_TABLE_SIZE; lia|].
      apply Exists_at. by exists (first_empty k), e. }
  unfold creates. rewrite Hv. destruct (create_run k s a Ht Hk) as (v & e & Hvic & Hve & E).
  destruct (Z.land flags ETHARP_FIND_ONLY =? 0), (Z.land flags ETHARP_TRY_HARD =? 0), (bool_decide (Exists vacant (arp_table s)));
    cbn [negb andb orb]; by try (exists v, e).
Qed.

(** C23: [find_entry] for a given address.  If an entry that is pending
    or stable has the address, its index is the answer and no entry changes.  If
    none has it, an entry is made when that is allowed: [ETHARP_FIND_ONLY] is not
    given and there is a vacant entry or [ETHARP_TRY_HARD] is given.  The entry is the
    [victim] of the table, the packets that wait on it are freed, and it takes the
    address, empty and with age 0.  Otherwise the answer is [ERR_MEM]. *)
Theorem arp_search (s : stack) (a flags : Z) :
  arp_ok s ->
  (exists i e, at_table (arp_table s) i = Some e /\ holds_ip a e /\ find_entry (Some a) flags s = Some (i, set_cached i s))
  \/ Forall (fun e => ~ holds_ip a e) (arp_table s) /\
     if creates (arp_table s) flags then
       exists v e, victim (arp_table s) v /\ at_table (arp_table s) v = Some e
       /\ find_entry (Some a) flags s = (drop_queue e;; smod (recycle v a);; mret v) s
     else find_entry (Some a) flags s = Some (ERR_MEM, s).
Proof.
  intros Hok. destruct (decide (Exists (holds_ip a) (arp_table s))) as [Hx|Hx].
  - apply Exists_at in Hx as (i & e & Hi & Ha). left. exists i, e. split; [done|]. split; [done|]. by apply (find_known s a flags i e).
  - right. assert (Hf : Forall (fun e => ~ holds_ip a e) (arp_table s)).
    { apply Forall_lookup_2. intros i e Hi Ha. apply Hx, Exists_at. exists (Z.of_nat i), e. split; [|done].
      unfold at_table. destruct (Z.leb_spec 0 (Z.of_nat i)); [|lia]. by rewrite Nat2Z.id. }
    split; [done|]. by apply find_unknown.
Qed.
