(* ===== verification/EtharpInv.v ===== *)
(** * The ARP table over time

    What each operation of etharp.c does to the table, whatever the buffers hold;
    the invariant; how long an address stays known. *)
From stdpp Require Import base tactics list numbers option.
From S2P Require Import Prelude Heap Pbuf Chksum Ethernet Stack Etharp EtharpSpec.

(** ** Operations that do not write the table *)

Definition keeps {A} (m : SM A) : Prop := forall s a s', m s = Some (a, s') -> same_table s s'.
Create HintDb keeps discriminated.

Lemma keeps_mret {A} (a : A) : keeps (mret a).
Proof. by intros s b s' [= _ <-]. Qed.
Lemma keeps_get {A} (f : stack -> A) : keeps (sget f).
Proof. by intros s b s' [= _ <-]. Qed.
Lemma keeps_entry i : keeps (entry i).
Proof. intros s b s' E. unfold entry in E. by destruct (if 0 <=? i then _ else _); [injection E as _ <-|]. Qed.
Lemma keeps_eth {A} (m : EM A) : keeps (on_eth m).
Proof. intros s b s'. apply on_eth_same. Qed.
Lemma keeps_buf {A} (m : NM A) : keeps (on_buf m).
Proof. apply keeps_eth. Qed.
Lemma keeps_then {A B} (m : SM A) (k : A -> SM B) : keeps m -> (forall a, keeps (k a)) -> keeps (m ≫= k).
Proof. intros Hm Hk s b s' (a & s1 & E1 & E2)%sbind_inv. eapply same_table_trans; [by eapply Hm|by eapply Hk]. Qed.
Lemma keeps_none {A} : keeps (fun _ => None : option (A * stack)).
Proof. done. Qed.
Lemma keeps_byte bs k : keeps (byte_at bs k).
Proof. intros s b s' E. unfold byte_at in E. by destruct (bs !! k); [injection E as _ <-|]. Qed.
Lemma keeps_qp f : keeps (smod (fun s => set_qp (f s) s)).
Proof. by intros s b s' [= _ <-]. Qed.
Lemma keeps_free_q fuel q : keeps (free_etharp_q fuel q).
Proof. intros s [] s'. apply free_q_same. Qed.
Lemma keeps_drop_queue e : keeps (drop_queue e).
Proof. intros s [] s'. apply drop_queue_same. Qed.
#[export] Hint Resolve keeps_mret keeps_get keeps_entry keeps_eth keeps_buf keeps_none keeps_byte keeps_qp keeps_free_q keeps_drop_queue : keeps.

Ltac keeps :=
  lazymatch goal with
  | |- keeps (_ ≫= _) => apply keeps_then; [keeps|intros ?; keeps]
  | |- keeps (if ?b then _ else _) => destruct b; keeps
  | |- keeps (match ?o with Some _ => _ | None => _ end) => destruct o; keeps
  | |- _ => auto with keeps
  end.

Lemma keeps_send_macs k p src dst : keeps (send_macs k p src dst).
Proof. induction k; cbn [send_macs]; keeps. Qed.
#[export] Hint Resolve keeps_send_macs : keeps.
Lemma keeps_send_ip p src dst : keeps (etharp_send_ip p src dst).
Proof. unfold etharp_send_ip, linkoutput. keeps. Qed.
Lemma keeps_raw_macs k p a b c d : keeps (raw_macs k p a b c d).
Proof. induction k; cbn [raw_macs]; keeps. Qed.
#[export] Hint Resolve keeps_send_ip keeps_raw_macs : keeps.
Lemma keeps_request a : keeps (etharp_request a).
Proof. unfold etharp_request, etharp_raw, linkoutput. keeps. Qed.
Lemma keeps_reply_macs k p m : keeps (reply_macs k p m).
Proof. induction k; cbn [reply_macs]; cbv zeta; keeps. Qed.
#[export] Hint Resolve keeps_request keeps_reply_macs : keeps.
Lemma keeps_arp_reply p m : keeps (arp_reply p m).
Proof. unfold arp_reply, linkoutput. keeps. Qed.
Lemma keeps_copy_needed fuel : forall p, keeps (copy_needed fuel p).
Proof. induction fuel; intros p; cbn [copy_needed]; keeps. Qed.
#[export] Hint Resolve keeps_arp_reply keeps_copy_needed : keeps.
Lemma keeps_own_packet p : keeps (own_packet p).
Proof. unfold own_packet. keeps. Qed.
Lemma keeps_last_queued fuel : forall r, keeps (last_queued fuel r).
Proof. induction fuel; intros r; cbn [last_queued]; keeps. Qed.
#[export] Hint Resolve keeps_own_packet keeps_last_queued : keeps.

Lemma same_table_ok s s' : same_table s s' -> arp_ok s -> arp_ok s'.
Proof. intros (Et & Ec & _) [Ht Hc]. split; congruence. Qed.
Lemma keeps_ok {A} (m : SM A) s a s' : keeps m -> m s = Some (a, s') -> arp_ok s -> arp_ok s'.
Proof. intros Hk E. by apply same_table_ok, (Hk s a s'). Qed.

(** ** Writing one entry *)

(** The table after [s'] is that of [s] with entry [i] changed to [e]. *)
Definition wrote (i : Z) (e : etharp_entry) (s s' : stack) : Prop :=
  arp_table s' = <[Z.to_nat i := e]> (arp_table s) /\ etharp_cached_entry s' = etharp_cached_entry s /\ nif s' = nif s.

Lemma wrote_upd i e f s s' : at_table (arp_table s) i = Some e -> upd_entry i f s = Some (tt, s') -> wrote i (f e) s s'.
Proof. intros He E. rewrite (upd_entry_run s i e f He) in E. by injection E as <-. Qed.
Lemma wrote_twice i e e' s s1 s2 : wrote i e s s1 -> wrote i e' s1 s2 -> wrote i e' s s2.
Proof. intros (E1 & C1 & N1) (E2 & C2 & N2). unfold wrote. rewrite E2, E1, list_insert_insert_eq. split; [done|]. split; congruence. Qed.
Lemma wrote_same i e s s1 s2 : wrote i e s s1 -> same_table s1 s2 -> wrote i e s s2.
Proof. unfold wrote, same_table. intuition congruence. Qed.
Lemma same_wrote i e s s1 s2 : same_table s s1 -> wrote i e s1 s2 -> wrote i e s s2.
Proof. unfold wrote, same_table. intuition congruence. Qed.
Lemma wrote_none i e s s' : at_table (arp_table s) i = Some e -> same_table s s' -> wrote i e s s'.
Proof.
  intros He (Et & Ec & En). unfold wrote. split; [|done]. rewrite Et. symmetry. apply list_insert_id. unfold at_table in He. by destruct (0 <=? i).
Qed.
Lemma wrote_at i e s s' : 0 <= i < Z.of_nat (length (arp_table s)) -> wrote i e s s' -> at_table (arp_table s') i = Some e.
Proof. intros Hi (-> & _). by rewrite at_table_insert, decide_True. Qed.

Lemma table_insert_ok t i e e' :
  table_ok t -> at_table t i = Some e -> entry_ok e' ->
  (active e' -> forall j x, at_table t j = Some x -> holds_ip (ipaddr e') x -> j = i) ->
  table_ok (<[Z.to_nat i := e']> t).
Proof.
  intros Ht He Hok Hu. pose proof (at_table_lt _ _ _ He) as Hi. split.
  - rewrite length_insert. apply Ht.
  - intros j x. rewrite at_table_insert by done. destruct (decide (j = i)); [by intros [= <-]|apply Ht].
  - intros a j k x y. rewrite !at_table_insert by done. intros Hj Hk Hx Hy.
    destruct (decide (j = i)) as [->|], (decide (k = i)) as [->|]; [done| | |by apply (to_distinct _ Ht a j k x y)].
    + injection Hj as <-. destruct Hx as [Hx1 Hx2]. symmetry. apply (Hu Hx1 k y Hk). by rewrite Hx2.
    + injection Hk as <-. destruct Hy as [Hy1 Hy2]. apply (Hu Hy1 j x Hj). by rewrite Hy2.
Qed.
Lemma wrote_ok i e e' s s' :
  arp_ok s -> at_table (arp_table s) i = Some e -> wrote i e' s s' -> entry_ok e' ->
  (active e' -> forall j x, at_table (arp_table s) j = Some x -> holds_ip (ipaddr e') x -> j = i) -> arp_ok s'.
Proof. intros [Ht Hc] He (Et & Ec & _) Hok Hu. split; [rewrite Et; by apply (table_insert_ok _ i e)|by rewrite Ec]. Qed.

(** ** [find_entry] *)

(** Entry [i] is the only one for [a]. *)
Definition sole (i a : Z) (s : stack) : Prop :=
  exists e, at_table (arp_table s) i = Some e /\ ipaddr e = a
  /\ (state e = ETHARP_STATE_EMPTY -> q e = None /\ ctime e = 0)
  /\ forall j x, at_table (arp_table s) j = Some x -> holds_ip a x -> j = i.

Lemma set_cached_ok i s : 0 <= i < 10 -> arp_ok s -> arp_ok (set_cached i s).
Proof. intros Hi [Ht _]. by split. Qed.

Lemma recycled_ok a e : entry_ok e -> entry_ok (recycled a e).
Proof. intros [Ha Hm Hq Hs Hp]. by split. Qed.

Lemma recycle_ok i a e s :
  arp_ok s -> at_table (arp_table s) i = Some e -> Forall (fun e => ~ holds_ip a e) (arp_table s) ->
  arp_ok (recycle i a s) /\ sole i a (recycle i a s).
Proof.
  intros Hok He Hf. pose proof (ao_table _ Hok) as Ht. pose proof (at_table_lt _ _ _ He) as Hi. pose proof (to_len _ Ht) as Hl.
  unfold recycle. rewrite He. split.
  - apply set_cached_ok; [lia|]. apply (wrote_ok i e (recycled a e) s); [done|done|done|exact (recycled_ok a e (to_entry _ Ht i e He))|]. by intros [].
  - exists (recycled a e). cbn [arp_table set_cached set_table]. rewrite at_table_insert, decide_True by done. split_and!; [done..|].
    intros j x. rewrite at_table_insert by done. destruct (decide (j = i)); [done|].
    intros Hj Hx. exfalso. by apply (Forall_at _ _ _ _ Hf Hj).
Qed.

Lemma find_ok a flags s r s' :
  arp_ok s -> find_entry (Some a) flags s = Some (r, s') -> arp_ok s' /\ nif s' = nif s /\ (0 <= r -> sole r a s').
Proof.
  intros Hok E. destruct (decide (Exists (holds_ip a) (arp_table s))) as [(i & e & Hi & Ha)%Exists_at|Hx].
  - rewrite (find_known s a flags i e Hok Hi Ha) in E. injection E as <- <-. pose proof (at_table_lt _ _ _ Hi).
    pose proof (to_len _ (ao_table _ Hok)). split; [apply set_cached_ok; [lia|done]|]. split; [done|]. intros _. exists e. split; [done|].
    destruct Ha as [Ha1 Ha2]. split; [done|]. split; [by intros ?%Ha1|]. intros j x Hj Hx. by apply (to_distinct _ (ao_table _ Hok) a j i x e).
  - assert (Hf : Forall (fun e => ~ holds_ip a e) (arp_table s)).
    { apply Forall_lookup_2. intros i e Hi Ha. apply Hx, Exists_at. exists (Z.of_nat i), e. split; [|done].
      unfold at_table. destruct (Z.leb_spec 0 (Z.of_nat i)); [|lia]. by rewrite Nat2Z.id. }
    pose proof (find_unknown s a flags Hok Hf) as Hu. destruct (creates (arp_table s) flags).
    + destruct Hu as (v & e & _ & He & Ev). rewrite Ev in E. apply sbind_inv in E as ([] & s1 & E1 & [= <- <-]).
      pose proof (drop_queue_same _ _ _ E1) as (Et & Ec & En). rewrite <- Et in He, Hf.
      destruct (recycle_ok v a e s1) as [H1 H2]; [exact (keeps_ok _ _ _ _ (keeps_drop_queue e) E1 Hok)|done|done|].
      split; [done|]. split; [|done]. unfold recycle. rewrite He. done.
    + rewrite Hu in E. injection E as <- <-. split; [done|]. split; [done|]. unfold ERR_MEM. lia.
Qed.

(** ** [update_arp_entry] *)

(** The six bytes at an offset of a packet's data. *)
Definition mac_at (s : stack) (p : place) (a : Z) : bytes := (fun j => data (nt (et s)) p (a + j)) <$> seqZ 0 6.

Lemma on_buf_ld s p o n : on_buf (ld_data p o n) s = Some ((fun i => data (nt (et s)) p (o + i)) <$> seqZ 0 n, s).
Proof. destruct s as [t c qp n' [? ? ? ? ? ? ? ? ?]]. done. Qed.

Lemma set_table_twice l m s : set_table l (set_table m s) = set_table l s.
Proof. done. Qed.

Lemma take_mac_run k : forall i p a s e,
  at_table (arp_table s) i = Some e -> (k <= length (ethaddr e))%nat ->
  take_mac k i p a s = Some (tt, set_table (<[Z.to_nat i := put_mac
    (((fun j => data (nt (et s)) p (a + j)) <$> seqZ 0 (Z.of_nat k)) ++ drop k (ethaddr e)) e]> (arp_table s)) s).
Proof.
  induction k as [|k IH]; intros i p a s e He Hk; cbn [take_mac].
  { cbn [fmap list_fmap seqZ app drop Z.of_nat]. unfold put_mac. pose proof (at_table_lt _ _ _ He).
    rewrite list_insert_id; [by destruct s|]. unfold at_table in He. destruct (0 <=? i); [|done]. rewrite He. by destruct e. }
  rewrite (sbind _ _ _ _ _ (on_buf_ld s p _ 1)), (sbind _ _ _ _ _ (upd_entry_run s i e _ He)).
  pose proof (at_table_lt _ _ _ He) as Hi.
  erewrite IH; [|cbn [arp_table set_table]; rewrite at_table_insert, decide_True; done|cbn [ethaddr put_mac]; rewrite length_insert; lia].
  cbn [arp_table set_table et]. rewrite set_table_twice, list_insert_insert_eq. unfold put_mac. cbn [q ipaddr ethaddr state ctime].
  match goal with |- context [set_table (<[_ := mkEntry _ _ ?l _ _]> _) _] => assert (El : l =
    ((fun j => data (nt (et s)) p (a + j)) <$> seqZ 0 (Z.of_nat (S k))) ++ drop (S k) (ethaddr e)) end; [|by rewrite El].
  rewrite Nat2Z.inj_succ, <- Z.add_1_r, seqZ_app, fmap_app, <- app_assoc by lia. f_equal.
  rewrite (drop_S (<[k:=_]> (ethaddr e)) _ k (list_lookup_insert_eq _ _ _ Hk)), drop_insert_lt by lia.
  rewrite !(seqZ_cons _ 1) by lia. cbn [Z.pred Z.add Z.opp Pos.pred_double]. rewrite !seqZ_nil by lia. cbn [fmap list_fmap unle foldr app]. f_equal. rewrite Z.mul_0_r, !Z.add_0_r, Z.add_0_l. done.
Qed.

Lemma learn_mac_run i p a s e :
  at_table (arp_table s) i = Some e -> length (ethaddr e) = ETHARP_HWADDR_LEN ->
  take_mac ETHARP_HWADDR_LEN i p a s = Some (tt, set_table (<[Z.to_nat i := put_mac (mac_at s p a) e]> (arp_table s)) s).
Proof.
  intros He Hl. rewrite (take_mac_run _ _ _ _ _ e He) by lia. rewrite drop_ge by lia. by rewrite app_nil_r.
Qed.

Lemma send_queue_wrote fuel : forall i p a s e s',
  at_table (arp_table s) i = Some e -> send_queue fuel i p a s = Some (tt, s') -> wrote i (put_q None e) s s'.
Proof.
  induction fuel as [|fuel IH]; intros i p a s e s' He; cbn [send_queue]; [done|].
  rewrite (sbind _ _ _ _ _ (entry_run _ _ _ He)). pose proof (at_table_lt _ _ _ He) as Hi. destruct (q e) as [r|] eqn:Eq.
  2:{ intros [= <-]. unfold put_q. rewrite <- Eq. apply wrote_none; [by destruct e|done]. }
  intros (b & s1 & E1%keeps_buf & E)%sbind_inv. apply sbind_inv in E as ([] & s2 & E2 & E).
  pose proof E1 as (Et & _ & _). rewrite <- Et in He, Hi. apply (wrote_upd i e _ s1 s2 He) in E2.
  apply sbind_inv in E as (w & s3 & [= <- <-] & E). apply sbind_inv in E as (x & s4 & E4%keeps_buf & E).
  destruct (q_p s2 r) as [w|]; [|done]. apply sbind_inv in E as (n & s5 & [= <- <-] & E).
  apply sbind_inv in E as (mac & s6 & E6%keeps_buf & E). apply sbind_inv in E as (y & s7 & E7%keeps_send_ip & E).
  apply sbind_inv in E as (z & s8 & E8%keeps_buf & E).
  assert (H8 : wrote i (put_q (p_next b) e) s1 s8) by eauto using wrote_same.
  apply (IH i p a s8 (put_q (p_next b) e) s') in E; [|by apply (wrote_at _ _ _ _ Hi H8)].
  exact (same_wrote _ _ _ _ _ E1 (wrote_twice _ _ _ _ _ _ H8 E)).
Qed.

Definition learned (a : Z) (mac : bytes) : etharp_entry := mkEntry None a mac ETHARP_STATE_STABLE 0.
Lemma learned_ok a mac : length mac = ETHARP_HWADDR_LEN -> entry_ok (learned a mac).
Proof. intros Hl. split; by simpl. Qed.
Lemma mac_at_length s p a : length (mac_at s p a) = ETHARP_HWADDR_LEN.
Proof. unfold mac_at. by rewrite length_fmap, length_seqZ. Qed.

(** The entry after an update, if it returns. *)
Lemma learn_wrote i p a s s' x e :
  at_table (arp_table s) i = Some e -> length (ethaddr e) = ETHARP_HWADDR_LEN ->
  (upd_entry i (put_state ETHARP_STATE_STABLE);; take_mac ETHARP_HWADDR_LEN i p a;; upd_entry i (put_ctime 0);;
   send_queue arp_fuel i p a;; mret ERR_OK) s = Some (x, s') ->
  x = ERR_OK /\ exists mac, length mac = ETHARP_HWADDR_LEN /\ wrote i (learned (ipaddr e) mac) s s'.
Proof.
  intros He Hl E. pose proof (at_table_lt _ _ _ He) as Hi. apply sbind_inv in E as ([] & s1 & E1 & E).
  apply (wrote_upd i e _ _ _ He) in E1. pose proof (wrote_at _ _ _ _ Hi E1) as He1.
  rewrite (sbind _ _ _ _ _ (learn_mac_run i p a s1 _ He1 Hl)) in E. set (s2 := set_table _ s1) in E.
  assert (H2 : wrote i (put_mac (mac_at s1 p a) (put_state ETHARP_STATE_STABLE e)) s s2).
  { apply (wrote_twice _ _ _ _ _ _ E1). done. }
  pose proof (wrote_at _ _ _ _ Hi H2) as He2. apply sbind_inv in E as ([] & s3 & E3 & E).
  apply (wrote_upd i _ _ _ _ He2) in E3. pose proof (wrote_twice _ _ _ _ _ _ H2 E3) as H3. pose proof (wrote_at _ _ _ _ Hi H3) as He3.
  apply sbind_inv in E as ([] & s4 & E4 & [= <- <-]). apply (send_queue_wrote _ _ _ _ _ _ _ He3) in E4.
  split; [done|]. exists (mac_at s1 p a). split; [apply mac_at_length|]. exact (wrote_twice _ _ _ _ _ _ H3 E4).
Qed.

Lemma sole_learned_ok i a mac s s' :
  arp_ok s -> sole i a s -> length mac = ETHARP_HWADDR_LEN -> wrote i (learned a mac) s s' -> arp_ok s'.
Proof.
  intros Hok (e & He & Hip & _ & Hu) Hm Hw. apply (wrote_ok i e (learned a mac) s s' Hok He Hw (learned_ok a mac Hm)).
  intros _ j x Hj Hx. by apply (Hu j x).
Qed.

Lemma update_ok ip p a flags s r s' :
  arp_ok s -> update_arp_entry ip p a flags s = Some (r, s') -> arp_ok s'.
Proof.
  intros Hok. unfold update_arp_entry. rewrite sget_bind. destruct (_ || _); [by intros [= _ <-]|].
  intros (i & s1 & E1 & E)%sbind_inv. destruct (find_ok ip flags s i s1 Hok E1) as (Hok1 & _ & Hs).
  destruct (Z.ltb_spec i 0); [by injection E as _ <-|]. specialize (Hs ltac:(lia)). pose proof Hs as (e & He & Hip & _).
  apply (learn_wrote i p a s1 s' r e He) in E as (_ & mac & Hm & Hw); [|apply (to_entry _ (ao_table _ Hok1) i e He)].
  rewrite Hip in Hw. by apply (sole_learned_ok i ip mac s1 s').
Qed.

Lemma sbind_cont {A B} (m : SM A) (k k' : A -> SM B) s : (forall a s', k a s' = k' a s') -> (m ≫= k) s = (m ≫= k') s.
Proof. intros Hk. unfold mbind, SM_bind. destruct (m s) as [[a s']|]; [apply Hk|done]. Qed.

(** ** [etharp_tmr] *)

(** An entry one period later. *)
Definition aged (e : etharp_entry) : etharp_entry :=
  let e := put_ctime (ctime e + 1) e in
  if expired e then put_state ETHARP_STATE_EMPTY (put_q None e) else e.

Lemma put_q_same e : q e = None -> put_q None e = e.
Proof. destruct e; simpl. by intros ->. Qed.

(** One turn of the loop, if it returns; it does when no packet waits. *)
Definition tmr_turn (i : Z) : SM unit :=
  upd_entry i (fun e => put_ctime (ctime e + 1) e);;
  e ← entry i;
  if expired e then
    match q e with
    | Some _ => free_etharp_q arp_fuel (q e);; upd_entry i (put_q None)
    | None => mret tt
    end;;
    upd_entry i (put_state ETHARP_STATE_EMPTY)
  else mret tt.

Lemma tmr_turn_wrote i s e s' : at_table (arp_table s) i = Some e -> tmr_turn i s = Some (tt, s') -> wrote i (aged e) s s'.
Proof.
  intros He. pose proof (at_table_lt _ _ _ He) as Hi. unfold tmr_turn. intros ([] & s1 & E1 & E)%sbind_inv.
  apply (wrote_upd i e _ _ _ He) in E1. pose proof (wrote_at _ _ _ _ Hi E1) as He1.
  rewrite (sbind _ _ _ _ _ (entry_run _ _ _ He1)) in E. unfold aged. cbv zeta. set (e1 := put_ctime (ctime e + 1) e) in *.
  destruct (expired e1); [|by injection E as <-].
  apply sbind_inv in E as ([] & s2 & E2 & E). assert (H2 : wrote i (put_q None e1) s s2).
  { destruct (q e1) as [r|] eqn:Eq; [|injection E2 as <-; by rewrite put_q_same].
    apply sbind_inv in E2 as ([] & s3 & E3%keeps_free_q & E2). pose proof (wrote_same _ _ _ _ _ E1 E3) as H3.
    apply (wrote_upd i e1) in E2; [|by apply (wrote_at _ _ _ _ Hi H3)]. exact (wrote_twice _ _ _ _ _ _ H3 E2). }
  apply (wrote_upd i (put_q None e1)) in E; [|by apply (wrote_at _ _ _ _ Hi H2)]. exact (wrote_twice _ _ _ _ _ _ H2 E).
Qed.
Lemma tmr_turn_returns i s e : at_table (arp_table s) i = Some e -> q e = None -> exists s', tmr_turn i s = Some (tt, s').
Proof.
  intros He Hq. pose proof (at_table_lt _ _ _ He) as Hi. unfold tmr_turn.
  rewrite (sbind _ _ _ _ _ (upd_entry_run s i e _ He)). set (e1 := put_ctime (ctime e + 1) e).
  assert (He1 : at_table (arp_table (set_table (<[Z.to_nat i:=e1]> (arp_table s)) s)) i = Some e1)
    by (cbn [arp_table set_table]; by rewrite at_table_insert, decide_True).
  rewrite (sbind _ _ _ _ _ (entry_run _ _ _ He1)). destruct (expired e1); [|by eexists].
  cbn [q put_ctime e1]. rewrite Hq, sret_bind, (upd_entry_run _ _ _ _ He1). by eexists.
Qed.

(** The table after a number of turns. *)
Lemma tmr_loop_table n : forall i s s',
  0 <= i -> Z.of_nat (length (arp_table s)) = i + Z.of_nat n -> tmr_loop n i s = Some (tt, s') ->
  arp_table s' = take (Z.to_nat i) (arp_table s) ++ map aged (drop (Z.to_nat i) (arp_table s))
  /\ etharp_cached_entry s' = etharp_cached_entry s.
Proof.
  induction n as [|n IH]; intros i s s' Hi Hl.
  { intros [= <-]. rewrite take_ge, drop_ge by lia. by rewrite app_nil_r. }
  destruct (at_table_Some (arp_table s) i) as [e He]; [lia|]. 
  assert (Et : tmr_loop (S n) i s = (tmr_turn i;; tmr_loop n (i + 1)) s).
  { cbn [tmr_loop]. unfold tmr_turn. rewrite sbind_assoc. apply sbind_cont. intros [] s1. by rewrite sbind_assoc. }
  rewrite Et. intros ([] & s1 & E1 & E)%sbind_inv. apply (tmr_turn_wrote i s e s1 He) in E1 as (Et1 & Ec1 & _).
  apply IH in E as (Et2 & Ec2); [|lia|rewrite Et1, length_insert; lia].
  rewrite Et2, Et1, Ec2, Ec1. split; [|done]. assert (Hn : arp_table s !! Z.to_nat i = Some e) by (unfold at_table in He; by destruct (0 <=? i)).
  rewrite (drop_S (arp_table s) e (Z.to_nat i) Hn). cbn [map].
  replace (Z.to_nat (i + 1)) with (S (Z.to_nat i)) by lia.
  rewrite drop_insert_lt by lia. erewrite take_S_r by (apply list_lookup_insert_eq; lia).
  rewrite take_insert_ge by lia. by rewrite <- app_assoc.
Qed.

Lemma tmr_table s s' : length (arp_table s) = 10%nat -> etharp_tmr s = Some (tt, s') ->
  arp_table s' = map aged (arp_table s) /\ etharp_cached_entry s' = etharp_cached_entry s.
Proof. intros Hl E. apply (tmr_loop_table 10 0 s s') in E; [|lia..]. done. Qed.

Lemma at_table_map f t i : at_table (map f t) i = f <$> at_table t i.
Proof. unfold at_table. destruct (0 <=? i); [|done]. apply list_lookup_fmap. Qed.

Lemma aged_ok e : entry_ok e -> entry_ok (aged e).
Proof.
  intros [Ha Hm Hq Hs Hp]. unfold aged. cbv zeta. unfold expired. cbn [state put_ctime ctime].
  pose proof (u8_range (ctime e + 1)).
  destruct (bool_decide (state e = ETHARP_STATE_STABLE)) eqn:E1; [apply bool_decide_eq_true in E1|apply bool_decide_eq_false in E1];
  (destruct (bool_decide (state e = ETHARP_STATE_PENDING)) eqn:E2; [apply bool_decide_eq_true in E2|apply bool_decide_eq_false in E2]); cbn [andb orb].
  - congruence.
  - rewrite orb_false_r. destruct (Z.geb_spec (u8 (ctime e + 1)) ARP_MAXAGE); split; cbn [ctime ethaddr q state put_state put_q put_ctime]; try done; lia.
  - destruct (Z.geb_spec (u8 (ctime e + 1)) ARP_MAXPENDING); split; cbn [ctime ethaddr q state put_state put_q put_ctime]; try done; lia.
  - by split.
Qed.
Lemma aged_holds a e : holds_ip a (aged e) -> holds_ip a e.
Proof. unfold aged, holds_ip, active. cbv zeta. destruct (expired _); cbn [state put_state put_ctime put_q ipaddr]; [by intros []|done]. Qed.

Lemma tmr_ok s s' : arp_ok s -> etharp_tmr s = Some (tt, s') -> arp_ok s'.
Proof.
  intros [Ht Hc] E. destruct (tmr_table s s' (to_len _ Ht) E) as [Et Ec]. split; [rewrite Et|by rewrite Ec]. split.
  - rewrite length_map. apply Ht.
  - intros i e. rewrite at_table_map. intros (e0 & He & ->)%fmap_Some. apply aged_ok, (to_entry _ Ht i e0 He).
  - intros a i j e e'. rewrite !at_table_map. intros (x & Hx & ->)%fmap_Some (y & Hy & ->)%fmap_Some H1%aged_holds H2%aged_holds.
    by apply (to_distinct _ Ht a i j x y).
Qed.

(** ** [etharp_query] *)

Lemma enqueue_wrote i p result s r s' e :
  at_table (arp_table s) i = Some e -> enqueue i p result s = Some (r, s') -> wrote i e s s' \/ exists m, wrote i (put_q (Some m) e) s s'.
Proof.
  intros He. pose proof (at_table_lt _ _ _ He) as Hi. unfold enqueue. intros (ne & s1 & E1%keeps_buf & E)%sbind_inv.
  pose proof E1 as (Et & _ & _). destruct ne as [m|].
  - apply sbind_inv in E as ([] & s2 & E2%keeps_buf & E). apply sbind_inv in E as ([] & s3 & E3%keeps_qp & E).
    assert (H3 : same_table s s3) by eauto using same_table_trans. pose proof H3 as (Et3 & _). rewrite <- Et3 in He, Hi.
    rewrite (sbind _ _ _ _ _ (entry_run _ _ _ He)) in E. apply sbind_inv in E as ([] & s4 & E4 & [= _ <-]).
    destruct (q e) as [r0|] eqn:Eq.
    + apply sbind_inv in E4 as (r1 & s5 & E5%keeps_last_queued & E4%keeps_buf). left.
      apply (same_wrote _ _ _ _ _ H3), (wrote_none _ _ _ _ He). eauto using same_table_trans.
    + apply (wrote_upd i e _ _ _ He) in E4. right. exists m. exact (same_wrote _ _ _ _ _ H3 E4).
  - apply sbind_inv in E as (x & s2 & E2%keeps_buf & [= _ <-]). left. apply (wrote_none _ _ _ _ He). eauto using same_table_trans.
Qed.

Lemma pending_ok e : entry_ok e -> state e = ETHARP_STATE_PENDING -> forall v, entry_ok (put_q v e).
Proof. intros [Ha Hm Hq Hs Hp] Hst v. by split. Qed.

(** The entry of a query, once it has been marked. *)
Lemma query_marked i a s e s1 :
  arp_ok s -> sole i a s -> at_table (arp_table s) i = Some e ->
  (if bool_decide (state e = ETHARP_STATE_EMPTY) then upd_entry i (put_state ETHARP_STATE_PENDING) else mret tt) s = Some (tt, s1) ->
  arp_ok s1 /\ sole i a s1 /\ exists e1, at_table (arp_table s1) i = Some e1 /\ active e1.
Proof.
  intros Hok (e0 & He0 & Hip & Hem & Hu) He. rewrite He in He0. injection He0 as <-. pose proof (at_table_lt _ _ _ He) as Hi.
  destruct (bool_decide (state e = ETHARP_STATE_EMPTY)) eqn:Eb.
  - apply bool_decide_eq_true in Eb. destruct (Hem Eb) as [Hq Hc]. intros E%(wrote_upd i e _ _ _ He).
    set (e1 := put_state ETHARP_STATE_PENDING e) in *. pose proof (to_entry _ (ao_table _ Hok) i e He) as Heo.
    assert (Hok1 : arp_ok s1).
    { apply (wrote_ok i e e1 s s1 Hok He E).
      - destruct Heo as [H1 H2 H3 H4 H5]. split; try done. intros _. unfold e1. cbn [ctime put_state]. unfold ARP_MAXPENDING. lia.
      - intros _ j x Hj Hx. apply (Hu j x Hj). unfold e1 in Hx. cbn [ipaddr put_state] in Hx. by rewrite Hip in Hx. }
    pose proof (wrote_at _ _ _ _ Hi E) as He1. split; [done|]. split; [|by exists e1].
    exists e1. split; [done|]. split; [done|]. split; [done|]. intros j x Hj Hx.
    destruct E as (Et & _). rewrite Et, at_table_insert in Hj by done. destruct (decide (j = i)); [done|]. by apply (Hu j x).
  - apply bool_decide_eq_false in Eb. intros [= <-]. split; [done|]. split; [by exists e|]. by exists e.
Qed.

Lemma query_ok a p s r s' : arp_ok s -> etharp_query a p s = Some (r, s') -> arp_ok s'.
Proof.
  intros Hok. unfold etharp_query. rewrite sget_bind. destruct (_ || _); [by intros [= _ <-]|].
  intros (i & s1 & E1 & E)%sbind_inv. destruct (find_ok a _ s i s1 Hok E1) as (Hok1 & _ & Hs).
  destruct (Z.ltb_spec i 0); [by injection E as _ <-|]. specialize (Hs ltac:(lia)). pose proof Hs as (e & He & _).
  rewrite (sbind _ _ _ _ _ (entry_run _ _ _ He)) in E. apply sbind_inv in E as ([] & s2 & E2 & E).
  destruct (query_marked i a s1 e s2 Hok1 Hs He E2) as (Hok2 & _ & e1 & He1 & Hact).
  rewrite (sbind _ _ _ _ _ (entry_run _ _ _ He1)) in E. apply sbind_inv in E as (res & s3 & E3 & E).
  assert (H3 : same_table s2 s3) by (destruct (_ || _); [by apply keeps_request in E3|by injection E3 as _ <-]).
  destruct p as [p|]; [|injection E as _ <-; by apply (same_table_ok s2)]. pose proof H3 as (Et3 & _). rewrite <- Et3 in He1.
  pose proof (same_table_ok _ _ H3 Hok2) as Hok3. rewrite (sbind _ _ _ _ _ (entry_run _ _ _ He1)) in E.
  destruct (state e1) eqn:Est; [by injection E as _ <-| |by apply keeps_send_ip in E; apply (same_table_ok s3)].
  apply sbind_inv in E as (w & s4 & E4%keeps_own_packet & E). pose proof (same_table_ok _ _ E4 Hok3) as Hok4.
  destruct w as [w|]; [|by injection E as _ <-]. pose proof E4 as (Et4 & _). rewrite <- Et4 in He1.
  pose proof (to_entry _ (ao_table _ Hok4) i e1 He1) as Heo.
  assert (Hu : forall v, active (put_q v e1) -> forall j x, at_table (arp_table s4) j = Some x -> holds_ip (ipaddr (put_q v e1)) x -> j = i).
  { intros v _ j x Hj Hx. by apply (to_distinct _ (ao_table _ Hok4) (ipaddr e1) j i x e1 Hj He1 Hx). }
  apply (enqueue_wrote i w res s4 r s' e1 He1) in E as [E|[m E]].
  - apply (wrote_ok i e1 e1 s4 s' Hok4 He1 E Heo). destruct e1. apply (Hu _).
  - by apply (wrote_ok i e1 _ s4 s' Hok4 He1 E (pending_ok e1 Heo Est _) (Hu _)).
Qed.

(** ** Reachable tables *)

(** The table before the first packet. *)
Definition boot_entry : etharp_entry := mkEntry None 0 ethzero ETHARP_STATE_EMPTY 0.
Definition boot_table (s : stack) : Prop := arp_table s = replicate 10 boot_entry /\ etharp_cached_entry s = 0.

(** Any call of etharp.c with any arguments; any other work. *)
Inductive arp_step (s : stack) : stack -> Prop :=
  | as_timer s' : etharp_tmr s = Some (tt, s') -> arp_step s s'
  | as_ip p s' : etharp_ip_input p s = Some (tt, s') -> arp_step s s'
  | as_arp mac p s' : etharp_arp_input mac p s = Some (tt, s') -> arp_step s s'
  | as_output p ip r s' : etharp_output p ip s = Some (r, s') -> arp_step s s'
  | as_query ip p r s' : etharp_query ip p s = Some (r, s') -> arp_step s s'
  | as_find ip r s' : etharp_find_addr ip s = Some (r, s') -> arp_step s s'
  | as_elsewhere s' : arp_table s' = arp_table s -> etharp_cached_entry s' = etharp_cached_entry s -> arp_step s s'.
Inductive arp_reach : stack -> Prop :=
  | ar_boot s : boot_table s -> arp_reach s
  | ar_step s s' : arp_reach s -> arp_step s s' -> arp_reach s'.

Lemma ip_input_ok p s s' : arp_ok s -> etharp_ip_input p s = Some (tt, s') -> arp_ok s'.
Proof.
  intros Hok. unfold etharp_ip_input. rewrite sget_bind. intros (src & s1 & E1%keeps_buf & E)%sbind_inv.
  pose proof (same_table_ok _ _ E1 Hok) as Hok1. destruct (negb _); [by injection E as <-|].
  apply sbind_inv in E as (b & s2 & E2%keeps_buf & E). apply sbind_inv in E as (r & s3 & E3 & [= <-]).
  by apply update_ok in E3; [|apply (same_table_ok s1)].
Qed.

Lemma arp_input_ok mac p s s' : arp_ok s -> etharp_arp_input mac p s = Some (tt, s') -> arp_ok s'.
Proof.
  intros Hok. unfold etharp_arp_input. intros (b & s1 & E1%keeps_buf & E)%sbind_inv. pose proof (same_table_ok _ _ E1 Hok) as H1.
  assert (Hfree : forall s0, arp_ok s0 -> (on_buf (pbuf_free (Some p));; mret tt) s0 = Some (tt, s') -> arp_ok s').
  { intros s0 H0 (x & s2 & E2%keeps_buf & [= <-])%sbind_inv. by apply (same_table_ok s0). }
  destruct (len b <? sizeof_etharp_hdr); [by apply (Hfree s1)|].
  do 4 (let x := fresh "x" in let s2 := fresh "s" in let E2 := fresh "E" in let H2 := fresh "H" in
    apply sbind_inv in E as (x & s2 & E2%keeps_buf & E); pose proof (same_table_ok _ _ E2 ltac:(eassumption)) as H2).
  destruct (_ || _); [by eapply Hfree|].
  do 2 (let x := fresh "x" in let s2 := fresh "s" in let E2 := fresh "E" in let H2 := fresh "H" in
    apply sbind_inv in E as (x & s2 & E2%keeps_buf & E); pose proof (same_table_ok _ _ E2 ltac:(eassumption)) as H2).
  rewrite sget_bind in E. apply sbind_inv in E as (r & s8 & E8 & E). apply update_ok in E8; [|done].
  apply sbind_inv in E as (op & s9 & E9%keeps_buf & E). pose proof (same_table_ok _ _ E9 E8) as H9.
  apply sbind_inv in E as ([] & s10 & E10 & E). apply (Hfree s10); [|done].
  destruct (htons op =? ARP_REQUEST); [|by injection E10 as <-].
  match type of E10 with (if ?c then _ else _) _ = _ => destruct c end; [|by injection E10 as <-].
  apply keeps_arp_reply in E10. by apply (same_table_ok s9).
Qed.

Lemma output_ok p ip s r s' : arp_ok s -> etharp_output p ip s = Some (r, s') -> arp_ok s'.
Proof.
  intros Hok. unfold etharp_output. intros (ok & s1 & E1%keeps_buf & E)%sbind_inv. pose proof (same_table_ok _ _ E1 Hok) as H1.
  destruct ok; cbn [negb] in E; [|by injection E as _ <-]. rewrite sget_bind in E.
  destruct (ip_addr_isbroadcast _ _); [by apply keeps_send_ip in E; apply (same_table_ok s1)|].
  destruct (ip_addr_ismulticast _); [by apply keeps_send_ip in E; apply (same_table_ok s1)|].
  destruct (negb (ip_addr_netcmp _ _ _)); [|by apply query_ok in E].
  destruct (negb (gw _ =? 0)); [by apply query_ok in E|by injection E as _ <-].
Qed.

Lemma find_addr_ok ip s r s' : arp_ok s -> etharp_find_addr ip s = Some (r, s') -> arp_ok s'.
Proof.
  intros Hok. unfold etharp_find_addr. intros (i & s1 & E1 & E)%sbind_inv. apply (find_ok ip _ s i s1 Hok) in E1 as (H1 & _).
  destruct (i >=? 0); [|by injection E as _ <-]. apply sbind_inv in E as (e & s2 & E2%keeps_entry & E).
  destruct (bool_decide _); injection E as _ <-; by apply (same_table_ok s1).
Qed.

Lemma boot_ok s : boot_table s -> arp_ok s.
Proof.
  intros [Et Ec]. split; [rewrite Et|rewrite Ec; lia]. assert (Hb : forall i e, at_table (replicate 10 boot_entry) i = Some e -> e = boot_entry).
  { intros i e. unfold at_table. destruct (0 <=? i); [|done]. by intros [-> _]%lookup_replicate_1. }
  split; [done|intros i e ->%Hb; by split|]. intros a i j e e' ->%Hb ->%Hb []. done.
Qed.

Lemma reach_ok s : arp_reach s -> arp_ok s.
Proof.
  induction 1 as [s Hb|s s' _ IH Hst]; [by apply boot_ok|].
  destruct Hst as [s' E|p s' E|mac p s' E|p ip r s' E|ip p r s' E|ip r s' E|s' Et Ec].
  - by apply (tmr_ok s).
  - by apply (ip_input_ok p s).
  - by apply (arp_input_ok mac p s).
  - by apply (output_ok p ip s r).
  - by apply (query_ok ip p s r).
  - by apply (find_addr_ok ip s r).
  - destruct IH as [Ht Hc]. split; congruence.
Qed.

(** C22: In every state that the calls of etharp.c and any other work
    lead to from the start-up, an IP address has at most one entry that is pending
    or stable, only pending entries have packets that wait, stable ones are less than
    240 timer periods old and pending ones less than 2; the index of the last
    entry found is within the table. *)
Theorem arp_invariant (s : stack) :
  arp_reach s ->
  length (arp_table s) = 10%nat /\ 0 <= etharp_cached_entry s < 10
  /\ (forall a i j e e', at_table (arp_table s) i = Some e -> at_table (arp_table s) j = Some e' ->
       holds_ip a e -> holds_ip a e' -> i = j)
  /\ forall i e, at_table (arp_table s) i = Some e ->
       (q e <> None -> state e = ETHARP_STATE_PENDING)
       /\ (state e = ETHARP_STATE_STABLE -> 0 <= ctime e < 240)
       /\ (state e = ETHARP_STATE_PENDING -> 0 <= ctime e < 2).
Proof.
  intros [[Hl He Hd] Hc]%reach_ok. split_and!; [done|lia..|done|]. intros i e Hi. destruct (He i e Hi) as [Ha _ Hq Hs Hp].
  split_and!; [done|intros H; specialize (Hs H); unfold ARP_MAXAGE in Hs; lia|intros H; specialize (Hp H); unfold ARP_MAXPENDING in Hp; lia].
Qed.
