(* ===== verification/EtharpLife.v ===== *)
(** * How long an address stays known

    A table on which no packets wait: updates and the timer then return, and
    their effect on the table is exact. *)
From stdpp Require Import base tactics list numbers option.
From S2P Require Import Prelude Heap Pbuf Chksum Ethernet Stack Etharp EtharpSpec EtharpInv.

Definition quiet (s : stack) : Prop := Forall (fun e => q e = None) (arp_table s).
Definition unicast (a : Z) (n : netif) : bool :=
  negb (ip_addr_isany (Some a) || ip_addr_isbroadcast a n || ip_addr_ismulticast a).
(** An address is known, or may take an entry. *)
Definition learns (t : list etharp_entry) (a flags : Z) : bool :=
  bool_decide (Exists (holds_ip a) t) || creates t flags.

Lemma not_held a t : ~ Exists (holds_ip a) t -> Forall (fun e => ~ holds_ip a e) t.
Proof.
  intros Hx. apply Forall_lookup_2. intros i e Hi Ha. apply Hx, Exists_at. exists (Z.of_nat i), e. split; [|done].
  unfold at_table. destruct (Z.leb_spec 0 (Z.of_nat i)); [|lia]. by rewrite Nat2Z.id.
Qed.

(** What [find_entry] leaves when it gives an entry. *)
Lemma find_quiet s a flags :
  arp_ok s -> quiet s -> learns (arp_table s) a flags = true ->
  exists i e, at_table (arp_table s) i = Some e /\ find_entry (Some a) flags s =
    Some (i, if bool_decide (holds_ip a e) then set_cached i s else recycle i a s)
  /\ forall j x, at_table (arp_table s) j = Some x -> holds_ip a x -> j = i.
Proof.
  intros Hok Hq Hl. destruct (decide (Exists (holds_ip a) (arp_table s))) as [(i & e & Hi & Ha)%Exists_at|Hx].
  - exists i, e. rewrite bool_decide_true by done. split; [done|]. split; [by apply (find_known s a flags i e)|].
    intros j x Hj Hx. by apply (to_distinct _ (ao_table _ Hok) a j i x e).
  - pose proof (not_held _ _ Hx) as Hf. pose proof (find_unknown s a flags Hok Hf) as Hu.
    unfold learns in Hl. rewrite bool_decide_false in Hl by done. cbn [orb] in Hl. rewrite Hl in Hu.
    destruct Hu as (v & e & _ & Hv & E). exists v, e. rewrite bool_decide_false by (by apply (Forall_at _ _ _ _ Hf Hv)).
    split; [done|]. split; [|intros j x Hj Ha; exfalso; by apply (Forall_at _ _ _ _ Hf Hj)].
    rewrite E. unfold drop_queue. by rewrite (Forall_at _ _ _ _ Hq Hv).
Qed.

Lemma send_queue_none fuel i p a s e :
  at_table (arp_table s) i = Some e -> q e = None -> send_queue (S fuel) i p a s = Some (tt, s).
Proof. intros He Hq. cbn [send_queue]. rewrite (sbind _ _ _ _ _ (entry_run _ _ _ He)). by rewrite Hq. Qed.

Lemma learn_quiet i p a s e :
  at_table (arp_table s) i = Some e -> length (ethaddr e) = ETHARP_HWADDR_LEN -> q e = None ->
  (upd_entry i (put_state ETHARP_STATE_STABLE);; take_mac ETHARP_HWADDR_LEN i p a;; upd_entry i (put_ctime 0);;
   send_queue arp_fuel i p a;; mret ERR_OK) s
  = Some (ERR_OK, set_table (<[Z.to_nat i := learned (ipaddr e) (mac_at s p a)]> (arp_table s)) s).
Proof.
  intros He Hl Hq. pose proof (at_table_lt _ _ _ He) as Hi.
  assert (Hat : forall x, at_table (<[Z.to_nat i := x]> (arp_table s)) i = Some x) by (intros x; by rewrite at_table_insert, decide_True).
  rewrite (sbind _ _ _ _ _ (upd_entry_run s i e _ He)).
  erewrite (sbind _ _ _ _ _ (learn_mac_run i p a (set_table _ s) (put_state ETHARP_STATE_STABLE e) (Hat _) Hl)). cbn [arp_table set_table].
  rewrite set_table_twice, list_insert_insert_eq.
  erewrite (sbind _ _ _ _ _ (upd_entry_run (set_table _ s) i (put_mac (mac_at s p a) (put_state ETHARP_STATE_STABLE e)) _ (Hat _))). cbn [arp_table set_table].
  rewrite set_table_twice, list_insert_insert_eq.
  change (mac_at (set_table _ s) p a) with (mac_at s p a). change arp_fuel with (S 39).
  set (e3 := put_ctime 0 _). assert (H3 : q e3 = None) by done.
  rewrite (sbind _ _ _ _ _ (send_queue_none 39 i p a (set_table _ s) e3 (Hat _) H3)). unfold e3.
  unfold put_ctime, put_mac, put_state. cbn [q ipaddr ethaddr state ctime]. by rewrite Hq.
Qed.

(** An update on a quiet table. *)
Lemma update_quiet s a p o flags :
  arp_ok s -> quiet s -> unicast a (nif s) = true -> learns (arp_table s) a flags = true ->
  exists i e, at_table (arp_table s) i = Some e
  /\ (forall j x, at_table (arp_table s) j = Some x -> holds_ip a x -> j = i)
  /\ update_arp_entry a p o flags s
     = Some (ERR_OK, set_cached i (set_table (<[Z.to_nat i := learned a (mac_at s p o)]> (arp_table s)) s)).
Proof.
  intros Hok Hq Hu Hl. destruct (find_quiet s a flags Hok Hq Hl) as (i & e & He & E & Hsole). exists i, e. split; [done|]. split; [done|].
  pose proof (at_table_lt _ _ _ He) as Hi. pose proof (to_entry _ (ao_table _ Hok) i e He) as Heo.
  unfold update_arp_entry. rewrite sget_bind. unfold unicast in Hu. apply negb_true_iff in Hu. rewrite Hu, (sbind _ _ _ _ _ E).
  destruct (Z.ltb_spec i 0); [lia|]. case_bool_decide as Ha.
  - rewrite (learn_quiet i p o (set_cached i s) e); [|done|apply Heo|by apply (Forall_at _ _ _ _ Hq He)].
    destruct Ha as [_ ->]. done.
  - unfold recycle. rewrite He.
    rewrite (learn_quiet i p o _ (recycled a e)); [|cbn [arp_table set_cached set_table]; by rewrite at_table_insert, decide_True|apply Heo|done].
    cbn [arp_table set_cached set_table]. by rewrite list_insert_insert_eq.
Qed.

(** The timer on a quiet table. *)
Lemma aged_quiet e : q e = None -> q (aged e) = None.
Proof. unfold aged. cbv zeta. by destruct (expired _). Qed.

Lemma tmr_loop_returns n : forall i s,
  0 <= i -> Z.of_nat (length (arp_table s)) = i + Z.of_nat n -> quiet s -> exists s', tmr_loop n i s = Some (tt, s').
Proof.
  induction n as [|n IH]; intros i s Hi Hl Hq; [by eexists|].
  destruct (at_table_Some (arp_table s) i) as [e He]; [lia|].
  destruct (tmr_turn_returns i s e He (Forall_at _ _ _ _ Hq He)) as [s1 E1]. pose proof (tmr_turn_wrote i s e s1 He E1) as (Et & _).
  destruct (IH (i + 1) s1) as [s2 E2]; [lia|rewrite Et, length_insert; lia| |].
  { unfold quiet. rewrite Et. apply Forall_insert; [done|]. by apply aged_quiet, (Forall_at _ _ _ _ Hq He). }
  exists s2. cbn [tmr_loop]. unfold tmr_turn in E1. apply sbind_inv in E1 as ([] & s3 & E3 & E4).
  rewrite (sbind _ _ _ _ _ E3). apply sbind_inv in E4 as (e1 & s4 & E4 & E5). rewrite (sbind _ _ _ _ _ E4).
  by rewrite (sbind _ _ _ _ _ E5).
Qed.
Lemma tmr_quiet s :
  arp_ok s -> quiet s ->
  exists s', etharp_tmr s = Some (tt, s') /\ arp_table s' = map aged (arp_table s) /\ arp_ok s' /\ quiet s'.
Proof.
  intros Hok Hq. pose proof (to_len _ (ao_table _ Hok)) as Hl.
  destruct (tmr_loop_returns 10 0 s) as [s' E]; [lia|lia|done|]. exists s'. split; [done|].
  destruct (tmr_table s s' Hl E) as [Et _]. split; [done|]. split; [by apply (tmr_ok s)|].
  unfold quiet. rewrite Et. apply Forall_lookup_2. intros i e. rewrite list_lookup_fmap. intros (x & Hx & ->)%fmap_Some.
  apply aged_quiet. by apply (Forall_lookup_1 _ _ _ _ Hq Hx).
Qed.

(** [n] timer periods. *)
Fixpoint periods (n : nat) : SM unit := match n with O => mret tt | S n => periods n;; etharp_tmr end.

Lemma aged_learned a mac n : 0 <= n < 239 ->
  aged (mkEntry None a mac ETHARP_STATE_STABLE n) = mkEntry None a mac ETHARP_STATE_STABLE (n + 1).
Proof.
  intros Hn. unfold aged, expired, put_ctime. cbn [state ctime q ipaddr ethaddr]. unfold u8. rewrite Z.mod_small by lia.
  destruct (Z.geb_spec (n + 1) ARP_MAXAGE) as [H|H]; [unfold ARP_MAXAGE in H; lia|done].
Qed.
Lemma aged_last a mac : state (aged (mkEntry None a mac ETHARP_STATE_STABLE 239)) = ETHARP_STATE_EMPTY.
Proof. reflexivity. Qed.
Lemma aged_empty e : state e = ETHARP_STATE_EMPTY -> state (aged e) = ETHARP_STATE_EMPTY.
Proof. intros Hs. unfold aged. cbv zeta. by destruct (expired _). Qed.

(** The entry of an address [n] periods after its update. *)
Definition aging (i a : Z) (mac : bytes) (n : Z) (s : stack) : Prop :=
  (exists e, at_table (arp_table s) i = Some e /\
     if n <? 240 then e = mkEntry None a mac ETHARP_STATE_STABLE n else state e = ETHARP_STATE_EMPTY)
  /\ forall j x, at_table (arp_table s) j = Some x -> holds_ip a x -> j = i.

Lemma aging_step i a mac n s s' :
  0 <= n -> aging i a mac n s -> arp_table s' = map aged (arp_table s) -> aging i a mac (n + 1) s'.
Proof.
  intros Hn [(e & He & Hx) Hu] Et. unfold aging. rewrite Et. split.
  - exists (aged e). rewrite at_table_map, He. split; [done|]. destruct (Z.ltb_spec n 240) as [Hlt|Hge].
    + destruct (Z.ltb_spec (n + 1) 240); [subst e; by apply aged_learned; lia|]. replace n with 239 in Hx by lia. by subst e.
    + destruct (Z.ltb_spec (n + 1) 240); [lia|by apply aged_empty].
  - intros j x. rewrite at_table_map. intros (y & Hy & ->)%fmap_Some Hj%aged_holds. by apply (Hu j y).
Qed.

Lemma periods_aging n i a mac s :
  arp_ok s -> quiet s -> aging i a mac 0 s ->
  exists s', periods n s = Some (tt, s') /\ arp_ok s' /\ quiet s' /\ aging i a mac (Z.of_nat n) s'.
Proof.
  intros Hok Hq Ha. induction n as [|n (s1 & E & Hok1 & Hq1 & Ha1)]; [by exists s|].
  destruct (tmr_quiet s1 Hok1 Hq1) as (s2 & E2 & Et & Hok2 & Hq2). exists s2. cbn [periods]. rewrite (sbind _ _ _ _ _ E).
  split_and!; [done..|]. rewrite Nat2Z.inj_succ, <- Z.add_1_r. apply (aging_step _ _ _ _ s1); [lia|done|done].
Qed.

Lemma find_addr_aging i a mac n s :
  arp_ok s -> aging i a mac n s ->
  exists s', etharp_find_addr a s = Some (if n <? 240 then i else -1, s')
  /\ (n < 240 -> exists e, at_table (arp_table s') i = Some e /\ ethaddr e = mac /\ ipaddr e = a).
Proof.
  intros Hok [(e & He & Hx) Hu]. unfold etharp_find_addr. pose proof (at_table_lt _ _ _ He) as Hi. destruct (Z.ltb_spec n 240).
  - subst e. rewrite (sbind _ _ _ _ _ (find_known s a ETHARP_FIND_ONLY i _ Hok He ltac:(split; done))).
    destruct (Z.geb_spec i 0); [|lia]. rewrite (sbind _ _ _ _ _ (entry_run (set_cached i s) i _ He)).
    rewrite bool_decide_true by done. eexists. split; [done|]. intros _. by eexists.
  - assert (Hf : Forall (fun e => ~ holds_ip a e) (arp_table s)).
    { apply not_held. intros (j & x & Hj & Hjx)%Exists_at. pose proof (Hu j x Hj Hjx) as ->. rewrite Hj in He. injection He as ->. by destruct Hjx. }
    pose proof (find_unknown s a ETHARP_FIND_ONLY Hok Hf) as E. unfold creates in E. cbn in E. rewrite (sbind _ _ _ _ _ E).
    exists s. split; [done|lia].
Qed.

(** C24: If no packets wait, an update with a unicast address that is
    known or may take an entry answers [ERR_OK].  From then on [etharp_find_addr]
    gives the entry with the six bytes of the packet as its Ethernet address
    for 239 timer periods without another update, and from the 240th, 20 minutes
    later, on it finds nothing. *)
Theorem arp_lifetime (s : stack) (a : Z) (p : place) (o flags : Z) :
  arp_ok s -> quiet s -> unicast a (nif s) = true -> learns (arp_table s) a flags = true ->
  exists i s1, update_arp_entry a p o flags s = Some (ERR_OK, s1) /\ 0 <= i < 10
  /\ forall n, exists s2 s3, periods n s1 = Some (tt, s2)
  /\ etharp_find_addr a s2 = Some (if Z.of_nat n <? 240 then i else -1, s3)
  /\ (Z.of_nat n < 240 -> exists e, at_table (arp_table s3) i = Some e /\ ethaddr e = mac_at s p o /\ ipaddr e = a).
Proof.
  intros Hok Hq Hu Hl. destruct (update_quiet s a p o flags Hok Hq Hu Hl) as (i & e & He & Hsole & E).
  pose proof (at_table_lt _ _ _ He) as Hi. rewrite (to_len _ (ao_table _ Hok)) in Hi. eexists i, _. split; [exact E|]. split; [done|].
  intros n. pose proof (update_ok _ _ _ _ _ _ _ Hok E) as Hok1. set (s1 := set_cached i _) in *.
  assert (Hq1 : quiet s1) by (by apply Forall_insert).
  assert (Ha1 : aging i a (mac_at s p o) 0 s1).
  { split; [exists (learned a (mac_at s p o)); cbn [s1 arp_table set_cached set_table]; rewrite at_table_insert, decide_True by (done || rewrite (to_len _ (ao_table _ Hok)); lia); done|].
    intros j x. cbn [s1 arp_table set_cached set_table]. rewrite at_table_insert by (rewrite (to_len _ (ao_table _ Hok)); lia).
    destruct (decide (j = i)); [done|]. apply Hsole. }
  destruct (periods_aging n i a (mac_at s p o) s1 Hok1 Hq1 Ha1) as (s2 & E2 & Hok2 & _ & Ha2).
  destruct (find_addr_aging i a _ _ s2 Hok2 Ha2) as (s3 & E3 & H3). by exists s2, s3.
Qed.
