(* ===== verification/EtharpPkt.v ===== *)
(** * ARP packets

    The bytes of the packets etharp.c reads and writes; the answer to a request
    for the interface's own address. *)
From stdpp Require Import base tactics list numbers option.
From S2P Require Import Prelude Heap HeapSpec Pbuf PbufSpec Chksum Ethernet EthSpec EthRun EthSend Stack Etharp EtharpSpec EtharpInv EtharpLife.

(** ** Fields of a buffer *)

(** [bs] in place of the elements from [o] on. *)
Definition splice (l : bytes) (o : nat) (bs : bytes) : bytes := take o l ++ bs ++ drop (o + length bs) l.

(** The state after a write to a packet. *)
Definition poke (p : place) (o : Z) (bs : bytes) (n : net) : net :=
  mkNet (hp n) (memp_tab n) (store n)
    (fun q i => if decide (q = p) then
                  if (o <=? i) && (i <? o + blen bs) then default 0 (rd bs (i - o)) else data n q i
                else data n q i).
Definition spoke (p : place) (o : Z) (bs : bytes) (s : stack) : stack :=
  set_et (set_nt (poke p (payload (store (nt (et s)) p) + o) bs (nt (et s))) (et s)) s.

Lemma st_field_run p o bs s : on_buf (st_field p o bs) s = Some (tt, spoke p o bs s).
Proof. reflexivity. Qed.
Lemma poke_area p o bs n :
  0 <= o -> o + blen bs <= len (store n p) ->
  area (poke p (payload (store n p) + o) bs n) p = splice (area n p) (Z.to_nat o) bs.
Proof.
  intros Ho Hl. pose proof (blen_nonneg bs) as Hn. pose proof (area_length n p ltac:(lia)) as Ha.
  apply list_eq. intros i. unfold splice. destruct (decide (i < Z.to_nat (len (store n p)))%nat) as [Hi|Hi].
  - rewrite area_lookup by exact Hi. cbn [store data poke]. rewrite decide_True by done. unfold blen in *.
    destruct (Z.leb_spec (payload (store n p) + o) (payload (store n p) + Z.of_nat i)),
      (Z.ltb_spec (payload (store n p) + Z.of_nat i) (payload (store n p) + o + Z.of_nat (length bs))); cbn [andb].
    + rewrite lookup_app_r by (rewrite length_take; lia). rewrite length_take, Nat.min_l, lookup_app_l by lia.
      unfold rd. destruct (Z.leb_spec 0 (payload (store n p) + Z.of_nat i - (payload (store n p) + o))); [|lia].
      replace (Z.to_nat (payload (store n p) + Z.of_nat i - (payload (store n p) + o))) with (i - Z.to_nat o)%nat by lia.
      destruct (lookup_lt_is_Some_2 bs (i - Z.to_nat o)) as [x Hx]; [lia|]. by rewrite Hx.
    + rewrite lookup_app_r by (rewrite length_take; lia). rewrite length_take, Nat.min_l, lookup_app_r, lookup_drop by lia.
      rewrite <- area_lookup by exact Hi. f_equal. lia.
    + rewrite lookup_app_l by (rewrite length_take; lia). rewrite lookup_take_lt by lia. by rewrite area_lookup.
    + lia.
  - rewrite !lookup_ge_None_2; [done| |].
    + rewrite !length_app, length_take, length_drop. unfold blen in *. lia.
    + change (area (poke _ _ _ _) p) with (area (poke p (payload (store n p) + o) bs n) p). rewrite area_length; cbn [store poke]; lia.
Qed.
Lemma on_buf_pure {A} (m : NM A) s a : m (nt (et s)) = Some (a, nt (et s)) -> on_buf m s = Some (a, s).
Proof. intros E. unfold on_buf, on_eth, on_net. rewrite E. by destruct s as [t c qp nf [? ? ? ? ? ? ? ? ?]]. Qed.
Lemma ld_field_run p o k n :
  0 <= o -> 0 <= k -> o + k <= len (store n p) ->
  ld_field p o k n = Some (take (Z.to_nat k) (drop (Z.to_nat o) (area n p)), n).
Proof. intros Ho Hk Hl. exact (ld_data_area n p o k Ho Hk Hl). Qed.

(** The bytes of packet [p] are [f]. *)
Definition has (p : place) (f : bytes) (s : stack) : Prop := area (nt (et s)) p = f.
Lemma has_blen p f s : 0 <= len (store (nt (et s)) p) -> has p f s -> blen f = len (store (nt (et s)) p).
Proof. intros Hl <-. unfold blen. rewrite area_length by done. lia. Qed.

(** Packet [p] holds the bytes [f]. *)
Record at_packet (p : place) (f : bytes) (s : stack) : Prop := {
  ap_has : has p f s;
  ap_len : len (store (nt (et s)) p) = blen f;
  ap_bytes : bytes_ok f }.

(** Only bytes of packet [p] differ. *)
Definition only_data (p : place) (s s' : stack) : Prop :=
  exists d, s' = set_et (set_nt (mkNet (hp (nt (et s))) (memp_tab (nt (et s))) (store (nt (et s))) d) (et s)) s
  /\ forall x, x <> p -> d x = data (nt (et s)) x.
Lemma only_data_refl p s : only_data p s s.
Proof. exists (data (nt (et s))). split; [|done]. by destruct s as [t c qp nf [? ? ? ? ? ? ? ? []]]. Qed.
Lemma only_data_trans p s1 s2 s3 : only_data p s1 s2 -> only_data p s2 s3 -> only_data p s1 s3.
Proof.
  intros (d & -> & H) (d' & -> & H'). exists d'. split; [done|]. intros x Hx. rewrite (H' x Hx). cbn [nt et set_et set_nt data]. by apply H.
Qed.
Lemma only_data_spoke p o bs s : only_data p s (spoke p o bs s).
Proof. eexists. split; [reflexivity|]. intros x Hx. cbn. by destruct (decide (x = p)). Qed.

Lemma read_run {A} p f o k s (c : bytes -> A) bs :
  at_packet p f s -> 0 <= o -> 0 <= k -> o + k <= blen f -> take (Z.to_nat k) (drop (Z.to_nat o) f) = bs ->
  on_buf (bs ← ld_field p o k; mret (c bs)) s = Some (c bs, s).
Proof.
  intros [Hf Hl _] Ho Hk Hb <-. apply on_buf_pure. unfold mbind, NM_bind. rewrite ld_field_run by lia. by rewrite Hf.
Qed.
Lemma write_run p f o bs s :
  at_packet p f s -> 0 <= o -> o + blen bs <= blen f -> bytes_ok bs ->
  exists s', on_buf (st_field p o bs) s = Some (tt, s') /\ only_data p s s' /\ at_packet p (splice f (Z.to_nat o) bs) s'.
Proof.
  intros [Hf Hl Hok] Ho Hb Hbs. exists (spoke p o bs s). split; [done|]. split; [apply only_data_spoke|]. split.
  - unfold has, spoke. cbn [et set_et nt set_nt]. rewrite poke_area by lia. by rewrite Hf.
  - unfold spoke. cbn [et set_et nt set_nt store poke]. rewrite Hl. unfold splice, blen in *.
    rewrite !length_app, length_take, length_drop. lia.
  - unfold splice. apply Forall_app_2; [by apply Forall_take|]. apply Forall_app_2; [done|]. by apply Forall_drop.
Qed.
Lemma splice_blen f o bs : (o + length bs <= length f)%nat -> blen (splice f o bs) = blen f.
Proof. intros H. unfold splice, blen. rewrite !length_app, length_take, length_drop. lia. Qed.

(** A byte moved within a packet, and one of another list written to it. *)
Definition one (l : bytes) (o : nat) : bytes := take 1 (drop o l).
Lemma one_lookup l o b : l !! o = Some b -> one l o = [b].
Proof. intros H. unfold one. by rewrite (drop_S l b o H). Qed.

Lemma move_run p f o o' s b :
  at_packet p f s -> 0 <= o -> f !! Z.to_nat o = Some b -> 0 <= o' < blen f ->
  exists s', (v ← on_buf (ld8 p o); on_buf (st8 p o' v)) s = Some (tt, s') /\ only_data p s s' /\ at_packet p (splice f (Z.to_nat o') [b]) s'.
Proof.
  intros Hp Ho Hb Ho'. pose proof (lookup_lt_Some _ _ _ Hb) as Hlt.
  assert (E : on_buf (ld8 p o) s = Some (unle [b], s)).
  { apply (read_run p f o 1 s unle [b] Hp); [done|lia|unfold blen; lia|]. exact (one_lookup _ _ _ Hb). }
  pose proof (Forall_lookup_1 _ _ _ _ (ap_bytes _ _ _ Hp) Hb) as Hr. cbn beta in Hr.
  destruct (write_run p f o' [b] s Hp) as (s' & E' & H'); [lia|unfold blen in *; simpl; lia|by apply Forall_cons_2; [|apply Forall_nil_2]|].
  exists s'. split; [|done]. rewrite (sbind _ _ _ _ _ E). unfold st8. replace (u8 (unle [b])) with b; [done|].
  unfold unle, u8. cbn [foldr]. rewrite Z.mod_small; lia.
Qed.
Lemma put_run p f o bs k s b :
  at_packet p f s -> bs !! k = Some b -> 0 <= b < 256 -> 0 <= o < blen f ->
  exists s', (v ← byte_at bs k; on_buf (st8 p o v)) s = Some (tt, s') /\ only_data p s s' /\ at_packet p (splice f (Z.to_nat o) [b]) s'.
Proof.
  intros Hp Hk Hb Ho.
  destruct (write_run p f o [b] s Hp) as (s' & E' & H'); [lia|unfold blen in *; simpl; lia|by apply Forall_cons_2; [|apply Forall_nil_2]|].
  exists s'. split; [|done]. unfold byte_at. rewrite (sbind _ _ _ b s) by (by rewrite Hk). unfold st8. by rewrite u8_small.
Qed.

(** ** The addresses of the answer *)

(** What [reply_macs] and [send_macs] make of the bytes. *)
Fixpoint reply_pure (k : nat) (mac f : bytes) : bytes :=
  match k with
  | O => f
  | S k =>
      let f := splice f (32 + k) (one f (22 + k)) in
      let f := splice f k (one f (22 + k)) in
      let f := splice f (22 + k) (one mac k) in
      reply_pure k mac (splice f (6 + k) (one mac k))
  end.

Lemma sbind2 {A B C} (m : SM A) (k : A -> SM B) (l : SM C) s : (a ← m; k a;; l) s = ((a ← m; k a);; l) s.
Proof. by rewrite sbind_assoc. Qed.

Lemma reply_macs_run k : forall p mac f s,
  at_packet p f s -> 42 <= blen f -> length mac = ETHARP_HWADDR_LEN -> bytes_ok mac -> (k <= 6)%nat ->
  exists s', reply_macs k p mac s = Some (tt, s') /\ only_data p s s' /\ at_packet p (reply_pure k mac f) s'.
Proof.
  induction k as [|k IH]; intros p mac f s Hp Hf Hm Hok Hk; [exists s; split; [done|]; split; [apply only_data_refl|done]|].
  unfold ETHARP_HWADDR_LEN in Hm.
  assert (Hlk : forall g, 42 <= blen g -> forall j, (j < 42)%nat -> exists b, g !! j = Some b).
  { intros g Hg j Hj. apply lookup_lt_is_Some_2. unfold blen in Hg. lia. }
  assert (Hsp : forall g j b, 42 <= blen g -> (j < 42)%nat -> 42 <= blen (splice g j [b])).
  { intros g j b Hg Hj. rewrite splice_blen; [done|]. unfold blen in Hg. simpl. lia. }
  destruct (lookup_lt_is_Some_2 mac k ltac:(lia)) as [m Hmk]. pose proof (Forall_lookup_1 _ _ _ _ Hok Hmk) as Hmr. cbn beta in Hmr.
  cbn [reply_macs reply_pure]. cbv zeta. unfold ah_shwaddr, ah_dhwaddr, eh_dest, eh_src.
  destruct (Hlk f Hf (22 + k)%nat ltac:(lia)) as [b1 Hb1].
  destruct (move_run p f (22 + Z.of_nat k) (32 + Z.of_nat k) s b1 Hp) as (s1 & E1 & D1 & P1);
    [lia|by replace (Z.to_nat (22 + Z.of_nat k)) with (22 + k)%nat by lia|lia|].
  rewrite sbind2, (sbind _ _ _ _ _ E1). replace (Z.to_nat (32 + Z.of_nat k)) with (32 + k)%nat in P1 by lia.
  rewrite (one_lookup f _ _ Hb1). pose proof (Hsp f (32 + k)%nat b1 Hf ltac:(lia)) as Hf1. set (f1 := splice f (32 + k) [b1]) in *. clearbody f1.
  destruct (Hlk f1 Hf1 (22 + k)%nat ltac:(lia)) as [b2 Hb2].
  destruct (move_run p f1 (22 + Z.of_nat k) (0 + Z.of_nat k) s1 b2 P1) as (s2 & E2 & D2 & P2);
    [lia|by replace (Z.to_nat (22 + Z.of_nat k)) with (22 + k)%nat by lia|lia|].
  rewrite sbind2, (sbind _ _ _ _ _ E2). replace (Z.to_nat (0 + Z.of_nat k)) with k in P2 by lia.
  rewrite (one_lookup f1 _ _ Hb2). pose proof (Hsp f1 k b2 Hf1 ltac:(lia)) as Hf2. set (f2 := splice f1 k [b2]) in *. clearbody f2.
  destruct (put_run p f2 (22 + Z.of_nat k) mac k s2 m P2 Hmk Hmr ltac:(lia)) as (s3 & E3 & D3 & P3).
  rewrite sbind2, (sbind _ _ _ _ _ E3). replace (Z.to_nat (22 + Z.of_nat k)) with (22 + k)%nat in P3 by lia.
  rewrite (one_lookup mac _ _ Hmk). pose proof (Hsp f2 (22 + k)%nat m Hf2 ltac:(lia)) as Hf3. set (f3 := splice f2 (22 + k) [m]) in *. clearbody f3.
  destruct (put_run p f3 (6 + Z.of_nat k) mac k s3 m P3 Hmk Hmr ltac:(lia)) as (s4 & E4 & D4 & P4).
  rewrite sbind2, (sbind _ _ _ _ _ E4). replace (Z.to_nat (6 + Z.of_nat k)) with (6 + k)%nat in P4 by lia.
  pose proof (Hsp f3 (6 + k)%nat m Hf3 ltac:(lia)) as Hf4.
  destruct (IH p mac _ s4 P4 Hf4 Hm Hok ltac:(lia)) as (s5 & E5 & D5 & P5). exists s5. split; [done|]. split; [|done].
  eauto using only_data_trans.
Qed.

(** ** ARP packets *)

(** An ARP packet for IPv4 on Ethernet: the two addresses of the frame, the
    operation, the sender's and the target's addresses, padding. *)
Definition arp_frame (dst src : bytes) (op : Z) (sha spa tha tpa pad : bytes) : bytes :=
  dst ++ src ++ [8; 6; 0; 1; 8; 0; 6; 4; 0; op] ++ sha ++ spa ++ tha ++ tpa ++ pad.
Definition mac_ok (m : bytes) : Prop := length m = ETHARP_HWADDR_LEN /\ bytes_ok m.
Definition ip_ok (a : bytes) : Prop := length a = 4%nat /\ bytes_ok a.

Lemma six (l : bytes) : length l = ETHARP_HWADDR_LEN -> exists a b c d e f, l = [a; b; c; d; e; f].
Proof. destruct l as [|a [|b [|c [|d [|e [|f [|]]]]]]]; try discriminate. intros _. by exists a, b, c, d, e, f. Qed.
Lemma four (l : bytes) : length l = 4%nat -> exists a b c d, l = [a; b; c; d].
Proof. destruct l as [|a [|b [|c [|d [|]]]]]; try discriminate. intros _. by exists a, b, c, d. Qed.

Lemma arp_frame_parts dst src op sha spa tha tpa pad :
  mac_ok dst -> mac_ok src -> mac_ok sha -> ip_ok spa -> mac_ok tha -> ip_ok tpa ->
  let f := arp_frame dst src op sha spa tha tpa pad in
  take 2 (drop 12 f) = [8; 6] /\ take 2 (drop 14 f) = [0; 1] /\ take 2 (drop 16 f) = [8; 0] /\ take 2 (drop 18 f) = [6; 4]
  /\ take 2 (drop 20 f) = [0; op] /\ take 6 (drop 22 f) = sha /\ take 4 (drop 28 f) = spa /\ take 4 (drop 38 f) = tpa
  /\ length f = (42 + length pad)%nat.
Proof.
  intros [Hd _] [Hs _] [Ha _] [Hp _] [Ht _] [Hq _] f. unfold f.
  destruct (six dst Hd) as (?&?&?&?&?&?&->), (six src Hs) as (?&?&?&?&?&?&->), (six sha Ha) as (?&?&?&?&?&?&->),
    (six tha Ht) as (?&?&?&?&?&?&->), (four spa Hp) as (?&?&?&?&->), (four tpa Hq) as (?&?&?&?&->).
  repeat split.
Qed.
Lemma reply_frame dst src op sha spa tha tpa pad mac ip :
  mac_ok dst -> mac_ok src -> mac_ok sha -> ip_ok spa -> mac_ok tha -> ip_ok tpa -> mac_ok mac -> ip_ok ip ->
  reply_pure 6 mac (splice (splice (splice (arp_frame dst src op sha spa tha tpa pad) 20 [0; 2]) 38 spa) 28 ip)
  = arp_frame sha mac 2 mac ip sha spa pad.
Proof.
  intros [Hd _] [Hs _] [Ha _] [Hp _] [Ht _] [Hq _] [Hm _] [Hi _].
  destruct (six dst Hd) as (?&?&?&?&?&?&->), (six src Hs) as (?&?&?&?&?&?&->), (six sha Ha) as (?&?&?&?&?&?&->),
    (six tha Ht) as (?&?&?&?&?&?&->), (four spa Hp) as (?&?&?&?&->), (four tpa Hq) as (?&?&?&?&->),
    (six mac Hm) as (?&?&?&?&?&?&->), (four ip Hi) as (?&?&?&?&->).
  reflexivity.
Qed.

Lemma le32_ip v : ip_ok (le32 v).
Proof. split; [done|apply le32_ok]. Qed.
Lemma le16_blen v : blen (le16 v) = 2.
Proof. done. Qed.
Lemma le16_ok v : bytes_ok (le16 v).
Proof. unfold le16. apply Forall_cons_2; [apply u8_range|]. apply Forall_cons_2; [apply u8_range|apply Forall_nil_2]. Qed.

Lemma arp_reply_run p mac dst src op sha spa tha tpa pad s :
  at_packet p (arp_frame dst src op sha spa tha tpa pad) s ->
  mac_ok dst -> mac_ok src -> mac_ok sha -> ip_ok spa -> mac_ok tha -> ip_ok tpa -> mac_ok mac ->
  exists s', arp_reply p mac s = (linkoutput p;; mret tt) s' /\ only_data p s s'
  /\ at_packet p (arp_frame sha mac 2 mac (le32 (ip_addr (nif s))) sha spa pad) s'.
Proof.
  intros Hp Hd Hs Ha Hsp Ht Htp Hm. destruct (arp_frame_parts dst src op sha spa tha tpa pad Hd Hs Ha Hsp Ht Htp) as (_&_&_&_&_&_& Hspa &_& Hlen).
  set (f := arp_frame dst src op sha spa tha tpa pad) in *. assert (Hf : 42 <= blen f) by (unfold blen; lia).
  unfold arp_reply. rewrite sget_bind.
  destruct (write_run p f ah_opcode (le16 (htons ARP_REPLY)) s Hp) as (s1 & E1 & D1 & P1); [done|rewrite le16_blen; unfold ah_opcode; lia|apply le16_ok|].
  unfold st16. rewrite (sbind _ _ _ _ _ E1). change (le16 (htons ARP_REPLY)) with [0; 2] in P1. change (Z.to_nat ah_opcode) with 20%nat in P1.
  set (f1 := splice f 20 [0; 2]) in *. assert (Hf1 : blen f1 = blen f) by (apply splice_blen; simpl; unfold blen in Hf; lia).
  assert (Hspa1 : take 4 (drop 28 f1) = spa).
  { rewrite <- Hspa. unfold f1, splice. rewrite drop_app_ge by (rewrite length_take; lia). rewrite length_take, Nat.min_l by lia.
    rewrite drop_app_ge by (simpl; lia). rewrite drop_drop. do 2 f_equal. }
  assert (E2 : on_buf (ld_field p ah_sipaddr 4) s1 = Some (spa, s1)).
  { apply on_buf_pure. destruct P1 as [Hf1' Hl1 _]. rewrite ld_field_run by (unfold ah_sipaddr; lia). unfold has in Hf1'. rewrite Hf1'. by rewrite <- Hspa1. }
  rewrite (sbind _ _ _ _ _ E2). pose proof Hsp as [Hsl Hso].
  destruct (write_run p f1 ah_dipaddr spa s1 P1) as (s2 & E3 & D2 & P2); [done|unfold ah_dipaddr, blen in *; lia|done|].
  rewrite (sbind _ _ _ _ _ E3). change (Z.to_nat ah_dipaddr) with 38%nat in P2. set (f2 := splice f1 38 spa) in *.
  assert (Hf2 : blen f2 = blen f) by (rewrite <- Hf1; apply splice_blen; unfold blen in *; lia).
  destruct (write_run p f2 ah_sipaddr (le32 (ip_addr (nif s))) s2 P2) as (s3 & E4 & D3 & P3); [done|rewrite le32_blen; unfold ah_sipaddr; lia|apply le32_ok|].
  unfold st32. rewrite (sbind _ _ _ _ _ E4). change (Z.to_nat ah_sipaddr) with 28%nat in P3. set (f3 := splice f2 28 (le32 (ip_addr (nif s)))) in *.
  assert (Hf3 : blen f3 = blen f) by (rewrite <- Hf2; apply splice_blen; simpl; unfold blen in *; lia).
  destruct Hm as [Hml Hmo]. destruct (reply_macs_run ETHARP_HWADDR_LEN p mac f3 s3 P3) as (s4 & E5 & D4 & P4); [lia|done|done|done|].
  rewrite (sbind _ _ _ _ _ E5). exists s4. split; [done|]. split; [eauto using only_data_trans|].
  unfold f3, f2, f1, f in P4. change ETHARP_HWADDR_LEN with 6%nat in P4. by rewrite (reply_frame dst src op sha spa tha tpa pad mac _ Hd Hs Ha (conj Hsl Hso) Ht Htp (conj Hml Hmo) (le32_ip _)) in P4.
Qed.

(** ** A request for the interface's address *)

(** One buffer of the pool with the bytes [f]; [fl]: the buffers that are free. *)
Record single (p : place) (f : bytes) (fl : list place) (s : stack) : Prop := {
  sg_at : at_packet p f s;
  sg_next : p_next (store (nt (et s)) p) = None;
  sg_pool : pool_of (type (store (nt (et s)) p)) = Some MEMP_PBUF_POOL /\ ref (store (nt (et s)) p) = 1;
  sg_free : free_list (nt (et s)) MEMP_PBUF_POOL fl;
  sg_other : p ∉ fl }.
(** The next transmit descriptor is the processor's and its buffer has room. *)
Definition can_send (n : Z) (d : desc) (s : stack) : Prop :=
  at_index (DMATxDscrTab (et s)) (DMATxDescToSet (et s)) = Some d /\ owned d = false
  /\ 0 <= Buffer1Addr d /\ Buffer1Addr d + n <= blen (Tx_Buff (et s)).

Lemma single_view p f fl s : single p f fl s -> blen f < 65536 -> holds_frame (nt (et s)) p [p] f.
Proof.
  intros [[Hf Hl _] Hn _ _ _] Hb. pose proof (blen_nonneg f). split_and!; [by split|apply NoDup_singleton| |].
  - apply Forall_cons_2; [cbn beta; lia|apply Forall_nil_2].
  - unfold view. cbn [map concat]. by rewrite Hf, app_nil_r.
Qed.

Lemma send_free p f fl s d :
  single p f fl s -> blen f < 65536 -> can_send (blen f) d s ->
  exists s', (linkoutput p;; on_buf (pbuf_free (Some p));; mret tt) s = Some (tt, s')
  /\ same_table s s' /\ same_receive (et s) (et s')
  /\ rdn (Tx_Buff (et s')) (Buffer1Addr d) (blen f) = Some f
  /\ DMATxDscrTab (et s') = <[Z.to_nat (DMATxDescToSet (et s)) := handed_desc (blen f) d]> (DMATxDscrTab (et s))
  /\ DMATxDescToSet (et s') = Buffer2NextDescAddr d /\ free_list (nt (et s')) MEMP_PBUF_POOL (p :: fl).
Proof.
  intros Hs Hb (Hd & Ho & Hb0 & Hb1).
  destruct (low_level_output_run (et s) d p [p] f Hd (single_view p f fl s Hs Hb) ltac:(simpl; unfold pbuf_fuel; lia) Hb Hb0 Hb1)
    as (e1 & E1 & En & Hsr & Hr & _ & Ht). rewrite Ho in Ht. destruct Ht as [Ht Hset]. destruct Hs as [Hat Hnx Hpl Hfr Hot].
  destruct (pbuf_free_all (nt e1) MEMP_PBUF_POOL p [p] fl) as (n2 & E2 & F2 & _ & _); rewrite ?En; try done.
  { apply NoDup_singleton. } { apply Forall_cons_2; [done|apply Forall_nil_2]. } { intros q Hq. apply list_elem_of_singleton in Hq. by subst q. }
  { simpl. lia. }
  exists (set_et (set_nt n2 e1) s). split; [|done]. assert (E : linkoutput p s = Some (ERR_OK, set_et e1 s)) by (unfold linkoutput, on_eth; by rewrite E1).
  rewrite (sbind _ _ _ _ _ E).
  assert (E' : on_buf (pbuf_free (Some p)) (set_et e1 s) = Some (Z.of_nat (length [p]), set_et (set_nt n2 e1) s)).
  { unfold on_buf, on_eth, on_net. cbn [et set_et]. by rewrite E2. }
  by rewrite (sbind _ _ _ _ _ E').
Qed.

Lemma single_data p f f' fl s s' : single p f fl s -> only_data p s s' -> at_packet p f' s' -> single p f' fl s'.
Proof. intros [_ Hn Hp Hf Ho] (d & -> & _) Hat. by split. Qed.
Lemma mac_at_area p f s o :
  at_packet p f s -> 0 <= o -> o + 6 <= blen f -> mac_at s p (payload (store (nt (et s)) p) + o) = take 6 (drop (Z.to_nat o) f).
Proof.
  intros [Hf Hl _] Ho Hb. pose proof (ld_field_run p o 6 (nt (et s)) Ho ltac:(lia) ltac:(lia)) as E. unfold has in Hf. rewrite Hf in E.
  unfold ld_field, ld_data, mbind, NM_bind, getp, nget in E. injection E as E. exact E.
Qed.
Lemma learns_hard t a : learns t a ETHARP_TRY_HARD = true.
Proof. unfold learns, creates. by destruct (bool_decide (Exists (holds_ip a) t)). Qed.

(** The update of the table, which need not take place. *)
Lemma learn_sender p s a o :
  arp_ok s -> quiet s ->
  exists x s1, update_arp_entry a p o ETHARP_TRY_HARD s = Some (x, s1) /\ et s1 = et s /\ nif s1 = nif s
  /\ if unicast a (nif s) then exists i, at_table (arp_table s1) i = Some (learned a (mac_at s p o)) else s1 = s.
Proof.
  intros Hok Hq. destruct (unicast a (nif s)) eqn:Eu.
  - destruct (update_quiet s a p o ETHARP_TRY_HARD Hok Hq Eu (learns_hard _ _)) as (i & e & He & _ & E).
    eexists _, _. split; [exact E|]. split; [done|]. split; [done|]. exists i. cbn [arp_table set_cached set_table].
    by rewrite at_table_insert, decide_True by (done || by apply (at_table_lt _ _ _ He)).
  - exists ERR_ARG, s. unfold unicast in Eu. apply negb_false_iff in Eu. unfold update_arp_entry. rewrite sget_bind, Eu. done.
Qed.

Lemma arp_answered_run (p : place) (dst src sha spa tha tpa pad mac : bytes) (fl : list place) (d : desc) (s : stack) :
  let f := arp_frame dst src 1 sha spa tha tpa pad in
  arp_ok s -> quiet s -> single p f fl s -> can_send (blen f) d s -> blen f < 65536 ->
  mac_ok dst -> mac_ok src -> mac_ok sha -> ip_ok spa -> mac_ok tha -> ip_ok tpa -> mac_ok mac ->
  unle tpa = ip_addr (nif s) -> ip_addr (nif s) <> 0 ->
  exists s', etharp_arp_input mac p s = Some (tt, s')
  /\ rdn (Tx_Buff (et s')) (Buffer1Addr d) (blen f) = Some (arp_frame sha mac 2 mac (le32 (ip_addr (nif s))) sha spa pad)
  /\ DMATxDscrTab (et s') = <[Z.to_nat (DMATxDescToSet (et s)) := handed_desc (blen f) d]> (DMATxDscrTab (et s))
  /\ free_list (nt (et s')) MEMP_PBUF_POOL (p :: fl)
  /\ if unicast (unle spa) (nif s) then exists i, at_table (arp_table s') i = Some (learned (unle spa) sha)
     else arp_table s' = arp_table s.
Proof.
  intros f Hok Hq Hs Hsend Hb Hd Hsr Ha Hsp Ht Htp Hm Hip Hip0.
  destruct (arp_frame_parts dst src 1 sha spa tha tpa pad Hd Hsr Ha Hsp Ht Htp) as (F12 & F14 & F16 & F18 & F20 & F22 & F28 & F38 & Flen).
  fold f in F12, F14, F16, F18, F20, F22, F28, F38, Flen. pose proof (sg_at _ _ _ _ Hs) as Hat. pose proof (ap_len _ _ _ Hat) as Hlen.
  assert (Hf : 42 <= blen f) by (unfold blen; lia). set (b := store (nt (et s)) p) in *.
  unfold etharp_arp_input. rewrite (sbind _ _ s b s) by (by apply on_buf_pure).
  destruct (Z.ltb_spec (len b) sizeof_etharp_hdr) as [H|_]; [unfold sizeof_etharp_hdr in H; lia|].
  rewrite (sbind _ _ _ _ _ (read_run p f ah_hwtype 2 s unle [0; 1] Hat ltac:(done) ltac:(lia) ltac:(unfold ah_hwtype; lia) F14)).
  rewrite (sbind _ _ _ _ _ (read_run p f ah_hwlen_protolen 2 s unle [6; 4] Hat ltac:(done) ltac:(lia) ltac:(unfold ah_hwlen_protolen; lia) F18)).
  rewrite (sbind _ _ _ _ _ (read_run p f ah_proto 2 s unle [8; 0] Hat ltac:(done) ltac:(lia) ltac:(unfold ah_proto; lia) F16)).
  rewrite (sbind _ _ _ _ _ (read_run p f eh_type 2 s unle [8; 6] Hat ltac:(done) ltac:(lia) ltac:(unfold eh_type; lia) F12)).
  change (negb _ || _ || _ || _) with false. cbv iota.
  rewrite (sbind _ _ _ _ _ (read_run p f ah_sipaddr 4 s unle spa Hat ltac:(done) ltac:(lia) ltac:(unfold ah_sipaddr; lia) F28)).
  rewrite (sbind _ _ _ _ _ (read_run p f ah_dipaddr 4 s unle tpa Hat ltac:(done) ltac:(lia) ltac:(unfold ah_dipaddr; lia) F38)).
  rewrite sget_bind. cbv zeta. destruct (Z.eqb_spec (ip_addr (nif s)) 0); [done|]. rewrite Hip, Z.eqb_refl.
  destruct (learn_sender p s (unle spa) (payload b + ah_shwaddr) Hok Hq) as (x & s1 & E1 & Eet & Enif & Hlearn).
  rewrite (sbind _ _ _ _ _ E1). assert (Hat1 : at_packet p f s1) by (destruct Hat as [H1 H2 H3]; split; unfold has in *; by rewrite ?Eet).
  rewrite (sbind _ _ _ _ _ (read_run p f ah_opcode 2 s1 unle [0; 1] Hat1 ltac:(done) ltac:(lia) ltac:(unfold ah_opcode; lia) F20)).
  change (htons (unle [0; 1]) =? ARP_REQUEST) with true. cbv iota.
  destruct (arp_reply_run p mac dst src 1 sha spa tha tpa pad s1 Hat1 Hd Hsr Ha Hsp Ht Htp Hm) as (s2 & E2 & D2 & P2). rewrite Enif in P2.
  assert (Hs1 : single p f fl s1) by (destruct Hs as [_ H2 H3 H4 H5]; split; rewrite ?Eet; done).
  pose proof (single_data _ _ _ _ _ _ Hs1 D2 P2) as Hs2. set (f' := arp_frame sha mac 2 _ _ _ _ _) in *.
  assert (Hlen' : blen f' = blen f).
  { rewrite <- (ap_len _ _ _ P2), <- (ap_len _ _ _ Hat1). by destruct D2 as (d' & -> & _). }
  assert (Hsend2 : can_send (blen f') d s2).
  { rewrite Hlen'. unfold can_send in *. destruct D2 as (d' & -> & _). cbn [et set_et set_nt DMATxDscrTab DMATxDescToSet Tx_Buff]. by rewrite Eet. }
  destruct (send_free p f' fl s2 d Hs2 ltac:(lia) Hsend2) as (s3 & E3 & Hsame & _ & Hr & Htab & _ & Hfree).
  apply sbind_inv in E3 as (r & s4 & E4 & E3). rewrite (sbind _ _ s1 tt s4) by (by rewrite E2, (sbind _ _ _ _ _ E4)).
  exists s3. split; [exact E3|]. rewrite Hlen' in *. split; [done|].
  assert (Htx : DMATxDscrTab (et s2) = DMATxDscrTab (et s) /\ DMATxDescToSet (et s2) = DMATxDescToSet (et s) /\ arp_table s2 = arp_table s1).
  { destruct D2 as (d' & -> & _). cbn [et set_et set_nt DMATxDscrTab DMATxDescToSet arp_table]. by rewrite Eet. }
  destruct Htx as (-> & -> & Etab2) in Htab. split; [done|]. split; [done|]. destruct Hsame as (Etab & _). rewrite Etab, Etab2.
  destruct (unicast _ _); [|by subst s1]. destruct Hlearn as [i Hi]. exists i. rewrite Hi. do 2 f_equal.
  unfold b. rewrite (mac_at_area p f s ah_shwaddr Hat); [exact F22|done|unfold ah_shwaddr; lia].
Qed.

(** C21: An ARP request for the interface's own address, in one buffer,
    while no packets wait for an address and a transmit descriptor is free:
    [etharp_arp_input] returns, the answer that RFC 826 asks for is handed
    to the DMA, padding included, the sender's addresses are in the table if its IP
    address is a unicast one, and the buffer is free again. *)
Theorem arp_answered (p : place) (dst src sha spa tha tpa pad mac : bytes) (fl : list place) (d : desc) (s : stack) :
  let f := arp_frame dst src 1 sha spa tha tpa pad in
  arp_ok s -> quiet s -> single p f fl s -> can_send (blen f) d s -> blen f < 65536 ->
  mac_ok dst -> mac_ok src -> mac_ok sha -> ip_ok spa -> mac_ok tha -> ip_ok tpa -> mac_ok mac ->
  unle tpa = ip_addr (nif s) -> ip_addr (nif s) <> 0 ->
  exists s', etharp_arp_input mac p s = Some (tt, s')
  /\ rdn (Tx_Buff (et s')) (Buffer1Addr d) (blen f) = Some (arp_frame sha mac 2 mac (le32 (ip_addr (nif s))) sha spa pad)
  /\ DMATxDscrTab (et s') = <[Z.to_nat (DMATxDescToSet (et s)) := handed_desc (blen f) d]> (DMATxDscrTab (et s))
  /\ free_list (nt (et s')) MEMP_PBUF_POOL (p :: fl)
  /\ if unicast (unle spa) (nif s) then exists i, at_table (arp_table s') i = Some (learned (unle spa) sha)
     else arp_table s' = arp_table s.
Proof. apply arp_answered_run. Qed.
