(* ===== verification/EtharpSim.v ===== *)
(** * Runs of address resolution

    A stack at its start, one that has answered, and one with an ARP request in a
    buffer: the hypotheses of the theorems about etharp.c can hold. *)
From stdpp Require Import base tactics list numbers option.
From S2P Require Import Prelude Heap HeapSpec Pbuf PbufSpec Chksum Ethernet EthSpec EthRun EthSend EthSim.
From S2P Require Import Stack Etharp EtharpSpec EtharpInv EtharpLife EtharpPkt.

(** ** The interface 192.168.0.8 with the table of the start-up *)

Definition own_ip : Z := IP4_ADDR 192 168 0 8.
Definition own_mac : bytes := [0; 0; 0; 0; 0; 1].
Definition own_netif : netif :=
  mkNetif own_ip (IP4_ADDR 255 255 255 0) (IP4_ADDR 192 168 0 1) own_mac 6 1500
    (Z.lor (Z.lor NETIF_FLAG_UP NETIF_FLAG_BROADCAST) NETIF_FLAG_ETHARP) 0.
Definition peer_ip : Z := IP4_ADDR 192 168 0 77.
Definition peer_mac : bytes := [2; 17; 34; 51; 68; 85].

Definition request : bytes :=
  arp_frame ethbroadcast peer_mac 1 peer_mac (le32 peer_ip) ethzero (le32 own_ip) (replicate 18 0).
Definition request_net : net :=
  let n := net_of fresh_net (pbuf_alloc PBUF_RAW 60 PBUF_POOL fresh_net) in
  poke (elem 9) (payload (store n (elem 9))) request n.
Definition request_eth : eth :=
  mkEth (replicate 4 no_desc) [tx_start 0 0; tx_start 0 1] [] (replicate 3040 0) 0 0 0 [] request_net.
Definition boot_stack : stack := mkStack (replicate 10 boot_entry) 0 (fun _ => None) own_netif request_eth.
Definition boot_elems : list place := elem <$> [8; 7; 6; 5; 4; 3; 2; 1; 0]%nat.

Lemma boot_boot : boot_table boot_stack.
Proof. split; reflexivity. Qed.
Lemma boot_arp : arp_ok boot_stack.
Proof. exact (boot_ok _ boot_boot). Qed.
Lemma boot_quiet : quiet boot_stack.
Proof. apply Forall_replicate. reflexivity. Qed.

Lemma request_single : single (elem 9) request boot_elems boot_stack.
Proof.
  split.
  - split; [by vm_compute|by vm_compute|]. apply (bool_decide_unpack _). by vm_compute.
  - by vm_compute.
  - split; by vm_compute.
  - split; [by vm_compute; repeat split|]. apply (bool_decide_unpack _). by vm_compute.
  - apply (bool_decide_unpack _). by vm_compute.
Qed.
Lemma request_sendable : can_send (blen request) (tx_start 0 0) boot_stack.
Proof. split; [reflexivity|]. split; [by vm_compute|]. split; [by apply Z.leb_le|by apply Z.leb_le]. Qed.

Lemma mac_okb m : bool_decide (length m = ETHARP_HWADDR_LEN) && bool_decide (bytes_ok m) = true -> mac_ok m.
Proof. intros [H1 H2]%andb_prop. split; by apply (bool_decide_unpack _), Is_true_true. Qed.
Lemma broadcast_ok : mac_ok ethbroadcast.
Proof. by apply mac_okb. Qed.
Lemma zero_ok : mac_ok ethzero.
Proof. by apply mac_okb. Qed.
Lemma own_ok : mac_ok own_mac.
Proof. by apply mac_okb. Qed.
Lemma peer_ok : mac_ok peer_mac.
Proof. by apply mac_okb. Qed.
Lemma request_short : blen request < 65536.
Proof. by apply Z.ltb_lt. Qed.
Lemma own_unle : unle (le32 own_ip) = own_ip.
Proof. reflexivity. Qed.
Lemma own_some : own_ip <> 0.
Proof. by apply Z.eqb_neq. Qed.

Lemma arp_answered_witness :
  exists s', etharp_arp_input own_mac (elem 9) boot_stack = Some (tt, s')
  /\ rdn (Tx_Buff (et s')) (Buffer1Addr (tx_start 0 0)) (blen request)
     = Some (arp_frame peer_mac own_mac 2 own_mac (le32 own_ip) peer_mac (le32 peer_ip) (replicate 18 0))
  /\ DMATxDscrTab (et s') = <[Z.to_nat (DMATxDescToSet request_eth) := handed_desc (blen request) (tx_start 0 0)]> (DMATxDscrTab request_eth)
  /\ free_list (nt (et s')) MEMP_PBUF_POOL (elem 9 :: boot_elems)
  /\ if unicast (unle (le32 peer_ip)) own_netif then exists i, at_table (arp_table s') i = Some (learned (unle (le32 peer_ip)) peer_mac)
     else arp_table s' = arp_table boot_stack.
Proof.
  exact (arp_answered (elem 9) ethbroadcast peer_mac peer_mac (le32 peer_ip) ethzero (le32 own_ip) (replicate 18 0) own_mac
    boot_elems (tx_start 0 0) boot_stack boot_arp boot_quiet request_single request_sendable request_short
    broadcast_ok peer_ok peer_ok (le32_ip _) zero_ok (le32_ip _) own_ok own_unle own_some).
Defined.

(** ** After the answer: the peer is in the table *)

Lemma peer_unicast : unicast (unle (le32 peer_ip)) own_netif = true.
Proof. reflexivity. Qed.
Lemma answered_reach :
  exists s i, arp_reach s /\ at_table (arp_table s) i = Some (learned (unle (le32 peer_ip)) peer_mac).
Proof.
  destruct (arp_answered_run (elem 9) ethbroadcast peer_mac peer_mac (le32 peer_ip) ethzero (le32 own_ip) (replicate 18 0) own_mac
    boot_elems (tx_start 0 0) boot_stack boot_arp boot_quiet request_single request_sendable request_short
    broadcast_ok peer_ok peer_ok (le32_ip _) zero_ok (le32_ip _) own_ok own_unle own_some) as (s & E & _ & _ & _ & H).
  change (nif boot_stack) with own_netif in H. rewrite peer_unicast in H. destruct H as [i Hi]. exists s, i. split; [|exact Hi].
  eapply ar_step; [apply (ar_boot _ boot_boot)|]. exact (as_arp _ _ _ _ E).
Qed.

Lemma arp_invariant_witness :
  exists s k, at_table (arp_table s) k = Some (learned (unle (le32 peer_ip)) peer_mac) /\
  length (arp_table s) = 10%nat /\ 0 <= etharp_cached_entry s < 10
  /\ (forall a i j e e', at_table (arp_table s) i = Some e -> at_table (arp_table s) j = Some e' ->
       holds_ip a e -> holds_ip a e' -> i = j)
  /\ forall i e, at_table (arp_table s) i = Some e ->
       (q e <> None -> state e = ETHARP_STATE_PENDING)
       /\ (state e = ETHARP_STATE_STABLE -> 0 <= ctime e < 240)
       /\ (state e = ETHARP_STATE_PENDING -> 0 <= ctime e < 2).
Proof. destruct answered_reach as (s & k & Hs & Hk). exists s, k. split; [exact Hk|exact (arp_invariant s Hs)]. Defined.

(** A full table: ten entries of different ages, no vacant one. *)
Definition full_table : list etharp_entry :=
  (fun k => mkEntry None (IP4_ADDR 192 168 0 (100 + k)) peer_mac (if k =? 4 then ETHARP_STATE_PENDING else ETHARP_STATE_STABLE)
     (if k =? 4 then 1 else 10 * k)) <$> seqZ 0 10.
Definition full_stack : stack := set_table full_table boot_stack.

Definition entry_okb (e : etharp_entry) : bool :=
  (0 <=? ctime e) && (ctime e <? 2) && bool_decide (length (ethaddr e) = ETHARP_HWADDR_LEN) && bool_decide (state e = ETHARP_STATE_PENDING)
  || (0 <=? ctime e) && (ctime e <? 240) && bool_decide (length (ethaddr e) = ETHARP_HWADDR_LEN) && bool_decide (q e = None)
     && bool_decide (state e = ETHARP_STATE_STABLE).
Lemma entry_okb_ok e : entry_okb e = true -> entry_ok e.
Proof.
  intros [[[[H1%Z.leb_le H2%Z.ltb_lt]%andb_prop H3%bool_decide_eq_true]%andb_prop H4%bool_decide_eq_true]%andb_prop|
          [[[[H1%Z.leb_le H2%Z.ltb_lt]%andb_prop H3%bool_decide_eq_true]%andb_prop H4%bool_decide_eq_true]%andb_prop
           H5%bool_decide_eq_true]%andb_prop]%orb_prop; split; unfold ARP_MAXAGE, ARP_MAXPENDING; try done; try lia; congruence.
Qed.
Lemma table_okb t :
  length t = 10%nat -> forallb entry_okb t = true -> NoDup (ipaddr <$> t) -> table_ok t.
Proof.
  intros Hl Hb Hn. split; [done| |].
  - intros i e Hi. apply entry_okb_ok. rewrite forallb_forall in Hb. apply Hb. unfold at_table in Hi.
    destruct (0 <=? i); [|done]. apply list_elem_of_In. by apply (list_elem_of_lookup_2 _ (Z.to_nat i)).
  - intros a i j e e' Hi Hj [_ Ha] [_ Ha']. unfold at_table in *. destruct (Z.leb_spec 0 i), (Z.leb_spec 0 j); try done.
    enough (Z.to_nat i = Z.to_nat j) by lia. apply (NoDup_lookup (ipaddr <$> t) _ _ a); [done| |].
    + by rewrite list_lookup_fmap, Hi, <- Ha.
    + by rewrite list_lookup_fmap, Hj, <- Ha'.
Qed.
Lemma full_arp : arp_ok full_stack.
Proof.
  split; [apply table_okb; [by vm_compute|by vm_compute|apply (bool_decide_unpack _); by vm_compute]|]. split; [by apply Z.leb_le|by apply Z.ltb_lt].
Qed.

(** Without a vacant entry: nothing is made for a new address, or an entry is given up. *)
Lemma arp_search_witness :
  ((exists i e, at_table (arp_table full_stack) i = Some e /\ holds_ip peer_ip e
      /\ find_entry (Some peer_ip) 0 full_stack = Some (i, set_cached i full_stack))
   \/ Forall (fun e => ~ holds_ip peer_ip e) (arp_table full_stack)
      /\ find_entry (Some peer_ip) 0 full_stack = Some (ERR_MEM, full_stack))
  /\ ((exists i e, at_table (arp_table full_stack) i = Some e /\ holds_ip peer_ip e
      /\ find_entry (Some peer_ip) ETHARP_TRY_HARD full_stack = Some (i, set_cached i full_stack))
   \/ Forall (fun e => ~ holds_ip peer_ip e) (arp_table full_stack)
      /\ exists v e, victim (arp_table full_stack) v /\ at_table (arp_table full_stack) v = Some e
       /\ find_entry (Some peer_ip) ETHARP_TRY_HARD full_stack = (drop_queue e;; smod (recycle v peer_ip);; mret v) full_stack).
Proof.
  split.
  - exact (arp_search full_stack peer_ip 0 full_arp).
  - exact (arp_search full_stack peer_ip ETHARP_TRY_HARD full_arp).
Defined.

(** The one that is given up is the oldest stable one, the last of the table. *)
Lemma full_victim : fst <$> find_entry (Some peer_ip) ETHARP_TRY_HARD full_stack = Some 9.
Proof. reflexivity. Qed.

Lemma full_quiet : quiet full_stack.
Proof. apply (bool_decide_unpack _). by vm_compute. Qed.
Lemma boot_learns : learns (arp_table boot_stack) peer_ip 0 = true.
Proof. by vm_compute. Qed.
Lemma peer_unicast_word : unicast peer_ip own_netif = true.
Proof. reflexivity. Qed.

Lemma arp_lifetime_witness :
  exists i s1, update_arp_entry peer_ip (elem 9) 38 0 boot_stack = Some (ERR_OK, s1) /\ 0 <= i < 10
  /\ forall n, exists s2 s3, periods n s1 = Some (tt, s2)
  /\ etharp_find_addr peer_ip s2 = Some (if Z.of_nat n <? 240 then i else -1, s3)
  /\ (Z.of_nat n < 240 -> exists e, at_table (arp_table s3) i = Some e /\ ethaddr e = mac_at boot_stack (elem 9) 38 /\ ipaddr e = peer_ip).
Proof. exact (arp_lifetime boot_stack peer_ip (elem 9) 38 0 boot_arp boot_quiet peer_unicast_word boot_learns). Defined.
Lemma boot_mac : mac_at boot_stack (elem 9) 38 = peer_mac.
Proof. by vm_compute. Qed.
