(* ===== verification/Ip.v ===== *)
(** * Output of IP packets (ipv4/ip.c)

    The state of the network stack above the interface: [stack] with the list of
    the UDP control blocks and the identification counter of ip.c.  Fragments
    ([ip_frag]) are a parameter.  Headers are bytes of a buffer: [a] below is
    the offset of a header in the data of packet [p], what the code keeps as a
    pointer. *)
From stdpp Require Import base tactics list numbers option.
From S2P Require Import Prelude Heap Pbuf Chksum Ethernet Stack Etharp.

Definition IP_HLEN : Z := 20.
Definition UDP_HLEN : Z := 8.
Definition IP_PROTO_ICMP : Z := 1.
Definition IP_PROTO_UDP : Z := 17.
Definition IP_PROTO_TCP : Z := 6.
Definition IP_MF : Z := 0x2000.
Definition IP_OFFMASK : Z := 0x1fff.
Definition IP_DEFAULT_TTL : Z := 255.
Definition ERR_USE : Z := -11.

(** ** State *)

(** The functions a control block may have as its callback: the firmware
    registers one. *)
Inductive callback : Set := cb_UDP_Receive.

(** A [struct udp_pcb]; the fields of [IP_PCB] come first. *)
Record udp_pcb := mkPcb {
  local_ip : Z;
  remote_ip : Z;
  so_options : Z;
  tos : Z;
  ttl : Z;
  pcb_next : option place;
  pcb_flags : Z;
  local_port : Z;
  remote_port : Z;
  recv : option callback }.

(** [pcb] is the content of the elements of the pool UDP_PCB. *)
Record host := mkHost {
  ip_id : Z;
  udp_pcbs : option place;
  pcb : place -> udp_pcb;
  sk : stack }.

Definition IM (A : Type) : Type := host -> option (A * host).
#[export] Instance IM_ret : MRet IM := fun A a s => Some (a, s).
#[export] Instance IM_bind : MBind IM := fun A B k m s =>
  match m s with Some (a, s) => k a s | None => None end.

Definition iget {A} (f : host -> A) : IM A := fun s => Some (f s, s).
Definition set_ip_id (v : Z) (s : host) : host := mkHost v (udp_pcbs s) (pcb s) (sk s).
Definition set_pcbs (v : option place) (s : host) : host := mkHost (ip_id s) v (pcb s) (sk s).
Definition set_pcb (p : place) (v : udp_pcb) (s : host) : host :=
  mkHost (ip_id s) (udp_pcbs s) (fun q => if decide (q = p) then v else pcb s q) (sk s).
Definition set_sk (v : stack) (s : host) : host := mkHost (ip_id s) (udp_pcbs s) (pcb s) v.
Definition imod (f : host -> host) : IM unit := fun s => Some (tt, f s).

(** Calls of the layers below. *)
Definition on_stk {A} (m : SM A) : IM A := fun s =>
  match m (sk s) with Some (a, t) => Some (a, set_sk t s) | None => None end.
Definition i_buf {A} (m : NM A) : IM A := on_stk (on_buf m).
Definition i_nif {A} (f : netif -> A) : IM A := iget (fun s => f (nif (sk s))).

(** ** Fields at an offset of a packet's data *)

Definition rd16 (p : place) (a : Z) : NM Z := bs ← ld_data p a 2; mret (unle bs).
Definition rd32 (p : place) (a : Z) : NM Z := bs ← ld_data p a 4; mret (unle bs).
Definition wr8 (p : place) (a v : Z) : NM unit := st_data p a [u8 v].
Definition wr16 (p : place) (a v : Z) : NM unit := st_data p a (le16 v).
Definition wr32 (p : place) (a v : Z) : NM unit := st_data p a (le32 v).

(** ** The header of IP (ip.h) *)

Definition iph_src : Z := 12.
Definition iph_dest : Z := 16.
Definition IPH_V (p : place) (a : Z) : NM Z := v ← rd16 p a; mret (Z.shiftr (ntohs v) 12).
Definition IPH_HL (p : place) (a : Z) : NM Z := v ← rd16 p a; mret (Z.land (Z.shiftr (ntohs v) 8) 0x0f).
Definition IPH_LEN (p : place) (a : Z) : NM Z := rd16 p (a + 2).
Definition IPH_OFFSET (p : place) (a : Z) : NM Z := rd16 p (a + 6).
Definition IPH_TTL (p : place) (a : Z) : NM Z := v ← rd16 p (a + 8); mret (Z.shiftr (ntohs v) 8).
Definition IPH_PROTO (p : place) (a : Z) : NM Z := v ← rd16 p (a + 8); mret (Z.land (ntohs v) 0xff).
Definition IPH_VHLTOS_SET (p : place) (a v hl tos : Z) : NM unit :=
  wr16 p a (htons (u16 (Z.lor (Z.lor (Z.shiftl v 12) (Z.shiftl hl 8)) tos))).
Definition IPH_LEN_SET (p : place) (a len : Z) : NM unit := wr16 p (a + 2) len.
Definition IPH_ID_SET (p : place) (a id : Z) : NM unit := wr16 p (a + 4) id.
Definition IPH_OFFSET_SET (p : place) (a off : Z) : NM unit := wr16 p (a + 6) off.
Definition IPH_TTL_SET (p : place) (a ttl : Z) : NM unit :=
  v ← IPH_PROTO p a; wr16 p (a + 8) (htons (u16 (Z.lor v (Z.shiftl (u16 ttl) 8)))).
Definition IPH_PROTO_SET (p : place) (a proto : Z) : NM unit :=
  v ← IPH_TTL p a; wr16 p (a + 8) (htons (u16 (Z.lor proto (Z.shiftl v 8)))).
Definition IPH_CHKSUM_SET (p : place) (a chksum : Z) : NM unit := wr16 p (a + 10) chksum.

(** ** Routing and output *)

Definition netif_is_up (n : netif) : bool := negb (Z.land (nflags n) NETIF_FLAG_UP =? 0).

(** The list of interfaces has one element, which is the default one: [true]
    is that one, [false] is NULL. *)
Definition ip_route (dest : Z) : IM bool :=
  n ← i_nif id;
  if netif_is_up n && ip_addr_netcmp dest (ip_addr n) (netmask n) then mret true
  else if negb (netif_is_up n) then mret false
  else mret true.

Section Output.
Context (ip_frag : place -> Z -> IM Z).

(** The end of [ip_output_if]: [netif->output] is [etharp_output]. *)
Definition ip_send (p : place) (dest : Z) : IM Z :=
  b ← i_buf (getp p);
  n ← i_nif id;
  if negb (mtu n =? 0) && (tot_len b >? mtu n) then ip_frag p dest
  else on_stk (etharp_output p dest).

(** [dest = None] is [IP_HDRINCL], [src = None] a NULL pointer. *)
Definition ip_output_if (p : place) (src dest : option Z) (ttl tos proto : Z) : IM Z :=
  match dest with
  | Some dest =>
      ok ← i_buf (pbuf_header (Some p) IP_HLEN);
      if negb ok then mret ERR_BUF
      else
        b ← i_buf (getp p);
        let a := payload b in
        i_buf (IPH_TTL_SET p a ttl);;
        i_buf (IPH_PROTO_SET p a proto);;
        i_buf (wr32 p (a + iph_dest) dest);;
        i_buf (IPH_VHLTOS_SET p a 4 (IP_HLEN / 4) tos);;
        i_buf (IPH_LEN_SET p a (htons (tot_len b)));;
        i_buf (IPH_OFFSET_SET p a 0);;
        id ← iget ip_id;
        i_buf (IPH_ID_SET p a (htons id));;
        imod (set_ip_id (u16 (id + 1)));;
        own ← i_nif ip_addr;
        i_buf (wr32 p (a + iph_src) (if ip_addr_isany src then own else default 0 src));;
        i_buf (IPH_CHKSUM_SET p a 0);;
        ip_send p dest
  | None =>
      b ← i_buf (getp p);
      dest ← i_buf (rd32 p (payload b + iph_dest));
      ip_send p dest
  end.

Definition ip_output (p : place) (src : option Z) (dest : Z) (ttl tos proto : Z) : IM Z :=
  r ← ip_route dest;
  if negb (r : bool) then mret ERR_RTE else ip_output_if p src (Some dest) ttl tos proto.
End Output.
