(* ===== verification/Icmp.v ===== *)
(** * ICMP (ipv4/icmp.c)

    Echo requests are answered from their own buffer, or from a copy if it has no
    room for the headers; other errors are answered with the beginning of the
    packet.  The checksum of an answer to an echo is left to the MAC. *)
From stdpp Require Import base tactics list numbers option.
From S2P Require Import Prelude Heap Pbuf Chksum Ethernet Stack Etharp Ip.

Definition ICMP_ER : Z := 0.
Definition ICMP_DUR : Z := 3.
Definition ICMP_ECHO : Z := 8.
Definition ICMP_TE : Z := 11.
Definition ICMP_DUR_PROTO : Z := 2.
Definition ICMP_DUR_PORT : Z := 3.
Definition ICMP_TTL : Z := IP_DEFAULT_TTL.
Definition ICMP_DEST_UNREACH_DATASIZE : Z := 8.
(** [struct icmp_echo_hdr]: type, code, checksum, identifier, sequence number. *)
Definition sizeof_icmp_echo_hdr : Z := 8.

Section Icmp.
Context (ip_frag : place -> Z -> IM Z).

Definition icmp_send_response (p : place) (type code : Z) : IM unit :=
  q ← i_buf (pbuf_alloc PBUF_IP (sizeof_icmp_echo_hdr + IP_HLEN + ICMP_DEST_UNREACH_DATASIZE) PBUF_RAM);
  match q with
  | None => mret tt
  | Some q =>
      b ← i_buf (getp p);
      let iphdr := payload b in
      c ← i_buf (getp q);
      let icmphdr := payload c in
      i_buf (wr8 q icmphdr type);;
      i_buf (wr8 q (icmphdr + 1) code);;
      i_buf (wr16 q (icmphdr + 4) 0);;
      i_buf (wr16 q (icmphdr + 6) 0);;
      bs ← i_buf (ld_data p iphdr (IP_HLEN + ICMP_DEST_UNREACH_DATASIZE));
      i_buf (st_data q (icmphdr + sizeof_icmp_echo_hdr) bs);;
      i_buf (wr16 q (icmphdr + 2) 0);;
      bs ← i_buf (ld_data q icmphdr (len c));
      i_buf (wr16 q (icmphdr + 2) (inet_chksum bs));;
      src ← i_buf (rd32 p (iphdr + iph_src));
      ip_output ip_frag q None src ICMP_TTL 0 IP_PROTO_ICMP;;
      i_buf (pbuf_free (Some q));;
      mret tt
  end.
Definition icmp_dest_unreach (p : place) (t : Z) : IM unit := icmp_send_response p ICMP_DUR t.
Definition icmp_time_exceeded (p : place) (t : Z) : IM unit := icmp_send_response p ICMP_TE t.

Definition discard (p : place) : IM unit := i_buf (pbuf_free (Some p));; mret tt.

(** [if(pbuf_header(p, (PBUF_IP_HLEN + PBUF_LINK_HLEN)))]: the packet with room
    for the headers and the offset of its IP header; [None]: [goto memerr]. *)
Definition echo_room (p : place) (iphdr hlen : Z) : IM (option (place * Z)) :=
  ok ← i_buf (pbuf_header (Some p) (PBUF_IP_HLEN + PBUF_LINK_HLEN));
  if negb ok then
    ok ← i_buf (pbuf_header (Some p) hlen);
    if negb ok then mret None
    else
      b ← i_buf (getp p);
      r ← i_buf (pbuf_alloc PBUF_LINK (tot_len b) PBUF_RAM);
      match r with
      | None => mret None
      | Some r =>
          err ← i_buf (pbuf_copy (Some r) (Some p));
          if negb (err =? ERR_OK) then mret None
          else
            c ← i_buf (getp r);
            ok ← i_buf (pbuf_header (Some r) (- hlen));
            if negb ok then mret None
            else i_buf (pbuf_free (Some p));; mret (Some (r, payload c))
      end
  else
    ok ← i_buf (pbuf_header (Some p) (- (PBUF_IP_HLEN + PBUF_LINK_HLEN)));
    mret (if negb ok then None else Some (p, iphdr)).

(** From [iecho = p->payload] to the [break]. *)
Definition echo_reply (p : place) (iphdr hlen : Z) : IM unit :=
  b ← i_buf (getp p);
  let iecho := payload b in
  tmpaddr ← i_buf (rd32 p (iphdr + iph_src));
  dest ← i_buf (rd32 p (iphdr + iph_dest));
  i_buf (wr32 p (iphdr + iph_src) dest);;
  i_buf (wr32 p (iphdr + iph_dest) tmpaddr);;
  i_buf (wr8 p iecho ICMP_ER);;
  i_buf (wr16 p (iecho + 2) 0);;
  i_buf (IPH_TTL_SET p iphdr ICMP_TTL);;
  i_buf (IPH_CHKSUM_SET p iphdr 0);;
  ok ← i_buf (pbuf_header (Some p) hlen);
  if negb ok then mret tt
  else
    src ← i_buf (rd32 p (iphdr + iph_src));
    ip_output_if ip_frag p (Some src) None ICMP_TTL 0 IP_PROTO_ICMP;;
    mret tt.

Definition icmp_input (p : place) : IM unit :=
  b ← i_buf (getp p);
  let iphdr := payload b in
  hl ← i_buf (IPH_HL p iphdr);
  let hlen := hl * 4 in
  ok ← i_buf (pbuf_header (Some p) (- hlen));
  b ← i_buf (getp p);
  if negb ok || (tot_len b <? 4) then discard p
  else
    type ← i_buf (ld8 p 0);
    if type =? ICMP_ECHO then
      dest ← i_buf (rd32 p (iphdr + iph_dest));
      n ← i_nif id;
      if ip_addr_ismulticast dest || ip_addr_isbroadcast dest n then discard p
      else if tot_len b <? sizeof_icmp_echo_hdr then discard p
      else
        ck ← i_buf (inet_chksum_pbuf (Some p));
        if negb (ck =? 0) then discard p
        else
          r ← echo_room p iphdr hlen;
          match r with
          | None => discard p
          | Some (p, iphdr) => echo_reply p iphdr hlen;; discard p
          end
    else discard p.
End Icmp.
