(* ===== verification/Udp.v ===== *)
(** * UDP (core/udp.c)

    The list of control blocks, sending, and the search for the block that a
    datagram is for.  The callback is a parameter: the firmware registers
    [UDP_Receive] of UDP_module.c, which Channels.v models with the rest of the
    host channels. *)
From stdpp Require Import base tactics list numbers option.
From S2P Require Import Prelude Heap Pbuf Chksum Ethernet Stack Etharp Ip Icmp.

Definition UDP_TTL : Z := 255.
Definition UDP_FLAGS_CONNECTED : Z := 0x04.
Definition UDP_LOCAL_PORT_RANGE_START : Z := 4096.
Definition UDP_LOCAL_PORT_RANGE_END : Z := 0x7fff.

(** There are MEMP_NUM_UDP_PCB = 4 blocks; the list without repetitions has a
    turn for each. *)
Definition udp_fuel : nat := 5.

(** ** Fields of a control block *)

Definition getc (c : place) : IM udp_pcb := iget (fun s => pcb s c).
Definition setc (c : place) (f : udp_pcb -> udp_pcb) : IM unit := imod (fun s => set_pcb c (f (pcb s c)) s).
Definition put_local (ip : Z) (c : udp_pcb) := mkPcb ip (remote_ip c) (so_options c) (tos c) (ttl c) (pcb_next c) (pcb_flags c) (local_port c) (remote_port c) (recv c).
Definition put_remote (ip port : Z) (c : udp_pcb) := mkPcb (local_ip c) ip (so_options c) (tos c) (ttl c) (pcb_next c) (pcb_flags c) (local_port c) port (recv c).
Definition put_next (n : option place) (c : udp_pcb) := mkPcb (local_ip c) (remote_ip c) (so_options c) (tos c) (ttl c) n (pcb_flags c) (local_port c) (remote_port c) (recv c).
Definition put_flags (v : Z) (c : udp_pcb) := mkPcb (local_ip c) (remote_ip c) (so_options c) (tos c) (ttl c) (pcb_next c) v (local_port c) (remote_port c) (recv c).
Definition put_port (v : Z) (c : udp_pcb) := mkPcb (local_ip c) (remote_ip c) (so_options c) (tos c) (ttl c) (pcb_next c) (pcb_flags c) v (remote_port c) (recv c).
Definition put_recv (v : option callback) (c : udp_pcb) := mkPcb (local_ip c) (remote_ip c) (so_options c) (tos c) (ttl c) (pcb_next c) (pcb_flags c) (local_port c) (remote_port c) v.

(** ** Making, binding and removing *)

Definition udp_new : IM (option place) :=
  c ← i_buf (memp_malloc MEMP_UDP_PCB);
  match c with
  | None => mret None
  | Some c => setc c (fun _ => mkPcb 0 0 0 0 UDP_TTL None 0 0 0 None);; mret (Some c)
  end.

(** Is the block on the list? *)
Fixpoint on_list (fuel : nat) (c : place) (ipcb : option place) : IM bool :=
  match fuel with
  | O => fun _ => None
  | S fuel =>
      match ipcb with
      | None => mret false
      | Some i =>
          v ← getc i;
          r ← on_list fuel c (pcb_next v);
          mret (bool_decide (i = c) || r)
      end
  end.

(** [while((ipcb != NULL) && (port != UDP_LOCAL_PORT_RANGE_END))]: the port, or
    [None] if there is none left. *)
Fixpoint free_port (fuel : nat) (port : Z) (ipcb : option place) : IM (option Z) :=
  match fuel with
  | O => fun _ => None
  | S fuel =>
      match ipcb with
      | None => mret (Some port)
      | Some i =>
          if port =? UDP_LOCAL_PORT_RANGE_END then mret None
          else
            v ← getc i;
            if local_port v =? port then
              first ← iget udp_pcbs;
              free_port fuel (u16 (port + 1)) first
            else free_port fuel port (pcb_next v)
      end
  end.

Definition udp_bind (c : place) (ipaddr port : Z) : IM Z :=
  first ← iget udp_pcbs;
  rebind ← on_list udp_fuel c first;
  setc c (put_local ipaddr);;
  port ← (if port =? 0 then
            first ← iget udp_pcbs;
            free_port (udp_fuel * udp_fuel) UDP_LOCAL_PORT_RANGE_START first
          else mret (Some port));
  match port with
  | None => mret ERR_USE
  | Some port =>
      setc c (put_port port);;
      (if (rebind : bool) then mret tt
       else
         first ← iget udp_pcbs;
         setc c (put_next first);;
         imod (set_pcbs (Some c)));;
      mret ERR_OK
  end.

Definition udp_connect (c : place) (ipaddr port : Z) : IM Z :=
  v ← getc c;
  err ← (if local_port v =? 0 then udp_bind c (local_ip v) (local_port v) else mret ERR_OK);
  if negb (err =? ERR_OK) then mret err
  else
    setc c (put_remote ipaddr port);;
    v ← getc c;
    setc c (put_flags (Z.lor (pcb_flags v) UDP_FLAGS_CONNECTED));;
    first ← iget udp_pcbs;
    listed ← on_list udp_fuel c first;
    if (listed : bool) then mret ERR_OK
    else
      setc c (put_next first);;
      imod (set_pcbs (Some c));;
      mret ERR_OK.

Definition udp_disconnect (c : place) : IM unit :=
  setc c (put_remote 0 0);;
  v ← getc c;
  setc c (put_flags (Z.land (pcb_flags v) (Z.lnot UDP_FLAGS_CONNECTED))).

Definition udp_recv (c : place) (f : option callback) : IM unit := setc c (put_recv f).

Fixpoint unlink (fuel : nat) (c : place) (pcb2 : option place) : IM unit :=
  match fuel with
  | O => fun _ => None
  | S fuel =>
      match pcb2 with
      | None => mret tt
      | Some i =>
          v ← getc i;
          w ← getc c;
          (if bool_decide (pcb_next v = Some c) then setc i (put_next (pcb_next w)) else mret tt);;
          v ← getc i;
          unlink fuel c (pcb_next v)
      end
  end.
(** [memp_free] also writes its link over the block's first word. *)
Definition udp_remove (c : place) : IM unit :=
  first ← iget udp_pcbs;
  (if bool_decide (first = Some c) then
     v ← getc c;
     imod (set_pcbs (pcb_next v))
   else unlink udp_fuel c first);;
  i_buf (memp_free MEMP_UDP_PCB c).

(** ** Sending *)

Section Udp.
Context (ip_frag : place -> Z -> IM Z).

Definition udp_sendto_if (c : place) (p : place) (dst_ip dst_port : Z) : IM Z :=
  v ← getc c;
  err ← (if local_port v =? 0 then udp_bind c (local_ip v) (local_port v) else mret ERR_OK);
  if negb (err =? ERR_OK) then mret err
  else
    ok ← i_buf (pbuf_header (Some p) UDP_HLEN);
    q ← (if negb ok then
           q ← i_buf (pbuf_alloc PBUF_IP UDP_HLEN PBUF_RAM);
           (match q with Some q => i_buf (pbuf_chain (Some q) (Some p)) | None => mret tt end);;
           mret q
         else mret (Some p));
    match q with
    | None => mret ERR_MEM
    | Some q =>
        let done := if bool_decide (q = p) then mret tt else i_buf (pbuf_free (Some q));; mret tt in
        b ← i_buf (getp q);
        let udphdr := payload b in
        v ← getc c;
        i_buf (wr16 q udphdr (htons (local_port v)));;
        i_buf (wr16 q (udphdr + 2) (htons dst_port));;
        i_buf (wr16 q (udphdr + 6) 0);;
        own ← i_nif ip_addr;
        if negb (ip_addr_isany (Some (local_ip v))) && negb (local_ip v =? own) then done;; mret ERR_VAL
        else
          let src_ip := if ip_addr_isany (Some (local_ip v)) then own else local_ip v in
          i_buf (wr16 q (udphdr + 4) (htons (tot_len b)));;
          err ← ip_output_if ip_frag q (Some src_ip) (Some dst_ip) (ttl v) (tos v) IP_PROTO_UDP;
          done;;
          mret err
    end.

Definition udp_sendto (c : place) (p : place) (dst_ip dst_port : Z) : IM Z :=
  r ← ip_route dst_ip;
  if negb (r : bool) then mret ERR_RTE else udp_sendto_if c p dst_ip dst_port.
Definition udp_send (c : place) (p : place) : IM Z :=
  v ← getc c;
  udp_sendto c p (remote_ip v) (remote_port v).

(** [UDP_sendData] of UDP_module.c; [pucBuffer] are the [ucCount] bytes. *)
Definition UDP_sendData (c : place) (destAddr port : Z) (pucBuffer : bytes) : IM unit :=
  p ← i_buf (pbuf_alloc PBUF_TRANSPORT (u16 (blen pucBuffer)) PBUF_RAM);
  match p with
  | None => mret tt
  | Some p =>
      b ← i_buf (getp p);
      i_buf (st_data p (payload b) pucBuffer);;
      udp_sendto c p destAddr port;;
      i_buf (pbuf_free (Some p));;
      mret tt
  end.

(** ** Receiving *)

(** Does the block want datagrams to this address and port? *)
Definition local_match (v : udp_pcb) (broadcast : bool) (dest_ip dest : Z) : bool :=
  (local_port v =? dest)
  && (negb broadcast && ip_addr_isany (Some (local_ip v)) || (local_ip v =? dest_ip) || broadcast).
Definition remote_match (v : udp_pcb) (src_ip src : Z) : bool :=
  (remote_port v =? src) && (ip_addr_isany (Some (remote_ip v)) || (remote_ip v =? src_ip)).

(** [for (pcb = udp_pcbs; ...)]: the block found, moved to the front, or the
    first unconnected one that matches. *)
Fixpoint udp_find (fuel : nat) (pcb0 prev uncon : option place) (broadcast : bool) (dest_ip dest src_ip src : Z) :
    IM (option place) :=
  match fuel with
  | O => fun _ => None
  | S fuel =>
      match pcb0 with
      | None => mret uncon
      | Some c =>
          v ← getc c;
          let lm := local_match v broadcast dest_ip dest in
          let uncon :=
            if lm && bool_decide (uncon = None) && (Z.land (pcb_flags v) UDP_FLAGS_CONNECTED =? 0)
            then Some c else uncon in
          if lm && remote_match v src_ip src then
            (match prev with
             | Some r =>
                 setc r (put_next (pcb_next v));;
                 first ← iget udp_pcbs;
                 setc c (put_next first);;
                 imod (set_pcbs (Some c))
             | None => mret tt
             end);;
            mret (Some c)
          else udp_find fuel (pcb_next v) (Some c) uncon broadcast dest_ip dest src_ip src
      end
  end.

Context (call : callback -> place -> place -> Z -> Z -> IM unit).

Definition udp_input (p : place) : IM unit :=
  b ← i_buf (getp p);
  let iphdr := payload b in
  hl ← i_buf (IPH_HL p iphdr);
  ok ← (if tot_len b <? hl * 4 + UDP_HLEN then mret false else i_buf (pbuf_header (Some p) (- (hl * 4))));
  if negb ok then discard p
  else
    b ← i_buf (getp p);
    let udphdr := payload b in
    n ← i_nif id;
    dest_ip ← i_buf (rd32 p (iphdr + iph_dest));
    let broadcast := ip_addr_isbroadcast dest_ip n in
    src ← i_buf (rd16 p udphdr);
    dest ← i_buf (rd16 p (udphdr + 2));
    let src := ntohs src in
    let dest := ntohs dest in
    src_ip ← i_buf (rd32 p (iphdr + iph_src));
    first ← iget udp_pcbs;
    c ← udp_find udp_fuel first None None broadcast dest_ip dest src_ip src;
    if bool_decide (is_Some c) || (ip_addr n =? dest_ip) then
      ok ← i_buf (pbuf_header (Some p) (- UDP_HLEN));
      if negb ok then discard p
      else
        match c with
        | Some c =>
            v ← getc c;
            match recv v with
            | Some f => call f c p src_ip src
            | None => discard p
            end
        | None =>
            (if negb broadcast && negb (ip_addr_ismulticast dest_ip) then
               hl ← i_buf (IPH_HL p iphdr);
               i_buf (pbuf_header (Some p) (hl * 4 + UDP_HLEN));;
               icmp_dest_unreach ip_frag p ICMP_DUR_PORT
             else mret tt);;
            discard p
        end
    else discard p.
End Udp.
