(* ===== verification/IpInput.v ===== *)
(** * Input of frames and IP packets (ethernet_input of etharp.c, ip_input of ip.c)

    From the frame that the interface has received to the protocol it is for.
    Reassembly, TCP and the callback of UDP are parameters.  No RAW control block
    is ever made ([raw_new] has no caller in the build), so [raw_input] returns 0
    without a turn of its loop. *)
From stdpp Require Import base tactics list numbers option.
From S2P Require Import Prelude Heap Pbuf Chksum Ethernet Stack Etharp Ip Icmp Udp.

Section Input.
Context (ip_frag : place -> Z -> IM Z) (ip_reass : place -> IM (option place)) (tcp_input : place -> IM unit).
Context (call : callback -> place -> place -> Z -> Z -> IM unit).

(** [switch (IPH_PROTO(iphdr))]; [iphdr] is the offset of the header. *)
Definition ip_deliver (p : place) (iphdr : Z) : IM unit :=
  proto ← i_buf (IPH_PROTO p iphdr);
  if proto =? IP_PROTO_UDP then udp_input ip_frag call p
  else if proto =? IP_PROTO_TCP then tcp_input p
  else if proto =? IP_PROTO_ICMP then icmp_input ip_frag p
  else
    n ← i_nif id;
    dest ← i_buf (rd32 p (iphdr + iph_dest));
    (if negb (ip_addr_isbroadcast dest n) && negb (ip_addr_ismulticast dest) then
       i_buf (setp p (upd_payload iphdr));;
       icmp_dest_unreach ip_frag p ICMP_DUR_PROTO
     else mret tt);;
    discard p.

Definition ip_input (p : place) : IM Z :=
  b ← i_buf (getp p);
  let iphdr := payload b in
  v ← i_buf (IPH_V p iphdr);
  if negb (v =? 4) then discard p;; mret ERR_OK
  else
    hl ← i_buf (IPH_HL p iphdr);
    let iphdr_hlen := hl * 4 in
    l ← i_buf (IPH_LEN p iphdr);
    let iphdr_len := ntohs l in
    if (iphdr_hlen >? len b) || (iphdr_len >? tot_len b) then discard p;; mret ERR_OK
    else
      i_buf (pbuf_realloc p iphdr_len);;
      n ← i_nif id;
      dest ← i_buf (rd32 p (iphdr + iph_dest));
      let for_us := netif_is_up n && negb (ip_addr_isany (Some (ip_addr n)))
                    && ((dest =? ip_addr n) || ip_addr_isbroadcast dest n) in
      src ← i_buf (rd32 p (iphdr + iph_src));
      if ip_addr_isbroadcast src n || ip_addr_ismulticast src then discard p;; mret ERR_OK
      else if negb for_us then discard p;; mret ERR_OK
      else
        off ← i_buf (IPH_OFFSET p iphdr);
        if negb (Z.land off (htons (Z.lor IP_OFFMASK IP_MF)) =? 0) then
          r ← ip_reass p;
          match r with
          | None => mret ERR_OK
          | Some p =>
              b ← i_buf (getp p);
              ip_deliver p (payload b);;
              mret ERR_OK
          end
        else ip_deliver p iphdr;; mret ERR_OK.

Definition ethernet_input (p : place) : IM Z :=
  type ← i_buf (ld16 p eh_type);
  let type := htons type in
  if type =? ETHTYPE_IP then
    on_stk (etharp_ip_input p);;
    ok ← i_buf (pbuf_header (Some p) (- sizeof_eth_hdr));
    if negb ok then discard p;; mret ERR_OK
    else
      ip_input p;;
      mret ERR_OK
  else if type =? ETHTYPE_ARP then
    mac ← i_nif hwaddr;
    on_stk (etharp_arp_input mac p);;
    mret ERR_OK
  else discard p;; mret ERR_OK.
End Input.
