(* ===== verification/IpPkt.v ===== *)
(** * Packets in one buffer

    Windows on the data of a buffer, which stay while headers are written or put
    in front; runs of the monad of Ip.v on a changed [net]. *)
From stdpp Require Import base tactics list numbers option.
From S2P Require Import Prelude Heap HeapSpec Pbuf PbufSpec Chksum Ethernet EthSpec Stack Etharp EtharpSpec EtharpPkt Ip.

(** ** Windows *)

(** The bytes [f] are at offset [o] of the data of [p]. *)
Definition win (n : net) (p : place) (o : Z) (f : bytes) : Prop :=
  forall i b, f !! i = Some b -> data n p (o + Z.of_nat i) = b.

Lemma win_app n p o f g : win n p o (f ++ g) <-> win n p o f /\ win n p (o + blen f) g.
Proof.
  unfold win, blen. split.
  - intros H. split; intros i b Hi; [apply H; by apply lookup_app_l_Some|].
    replace (o + Z.of_nat (length f) + Z.of_nat i) with (o + Z.of_nat (length f + i)) by lia. apply H.
    rewrite lookup_app_r by lia. by replace (length f + i - length f)%nat with i by lia.
  - intros [Hf Hg] i b [Hi|[Hi Hb]]%lookup_app_Some; [by apply Hf|]. rewrite <- (Hg _ _ Hb). f_equal. lia.
Qed.
Lemma win_data n n' p o f : (forall x, o <= x < o + blen f -> data n' p x = data n p x) -> win n p o f -> win n' p o f.
Proof. intros E H i b Hi. rewrite E; [by apply H|]. pose proof (lookup_lt_Some _ _ _ Hi). unfold blen. lia. Qed.
Lemma win_ld n p o f j k :
  win n p o f -> 0 <= j -> 0 <= k -> j + k <= blen f ->
  ld_data p (o + j) k n = Some (take (Z.to_nat k) (drop (Z.to_nat j) f), n).
Proof.
  intros H Hj Hk Hb. unfold ld_data, nget. do 2 f_equal. unfold blen in Hb. apply list_eq. intros i.
  destruct (decide (i < Z.to_nat k)%nat) as [Hi|Hi].
  - rewrite list_lookup_fmap, lookup_seqZ_lt by lia. rewrite lookup_take_lt, lookup_drop by done. simpl.
    destruct (lookup_lt_is_Some_2 f (Z.to_nat j + i)) as [b Hx]; [lia|]. rewrite Hx, <- (H _ _ Hx). do 2 f_equal. lia.
  - rewrite !lookup_ge_None_2; [done| |]; rewrite ?length_take, ?length_fmap, ?length_seqZ; lia.
Qed.
Lemma win_all n p o f : win n p o f -> ld_data p o (blen f) n = Some (f, n).
Proof.
  intros H. pose proof (blen_nonneg f). pose proof (win_ld n p o f 0 (blen f) H) as E. rewrite Z.add_0_r in E. rewrite E by lia.
  rewrite Z2Nat.inj_0, drop_0, take_ge by (unfold blen; lia). done.
Qed.

Lemma poke_in n p o f j bs :
  win n p o f -> (j + length bs <= length f)%nat -> win (poke p (o + Z.of_nat j) bs n) p o (splice f j bs).
Proof.
  intros H Hj i b Hi. cbn [data poke]. rewrite decide_True by done. unfold splice in Hi.
  pose proof (blen_nonneg bs). unfold blen in *.
  destruct (Z.leb_spec (o + Z.of_nat j) (o + Z.of_nat i)), (Z.ltb_spec (o + Z.of_nat i) (o + Z.of_nat j + Z.of_nat (length bs))); cbn [andb].
  - rewrite lookup_app_r in Hi by (rewrite length_take; lia). rewrite length_take, Nat.min_l, lookup_app_l in Hi by lia.
    unfold rd. destruct (Z.leb_spec 0 (o + Z.of_nat i - (o + Z.of_nat j))); [|lia].
    replace (Z.to_nat (o + Z.of_nat i - (o + Z.of_nat j))) with (i - j)%nat by lia. by rewrite Hi.
  - rewrite lookup_app_r in Hi by (rewrite length_take; lia). rewrite length_take, Nat.min_l, lookup_app_r, lookup_drop in Hi by lia.
    apply H. rewrite <- Hi. f_equal. lia.
  - rewrite lookup_app_l in Hi by (rewrite length_take; lia). rewrite lookup_take_lt in Hi by lia. by apply H.
  - lia.
Qed.
Lemma poke_out n p q a bs o f :
  win n p o f -> p <> q \/ a + blen bs <= o \/ o + blen f <= a -> win (poke q a bs n) p o f.
Proof.
  intros H Hd. apply (win_data n); [|done]. intros x Hx. cbn [data poke]. destruct (decide (p = q)) as [->|]; [|done].
  destruct Hd as [|Hd]; [done|]. destruct (Z.leb_spec a x), (Z.ltb_spec x (a + blen bs)); try done. lia.
Qed.
Lemma poke_self n p o bs : win (poke p o bs n) p o bs.
Proof.
  intros i b Hi. pose proof (lookup_lt_Some _ _ _ Hi). cbn [data poke]. rewrite decide_True by done. unfold blen, rd.
  destruct (Z.leb_spec o (o + Z.of_nat i)); [|lia]. destruct (Z.ltb_spec (o + Z.of_nat i) (o + Z.of_nat (length bs))); [|lia].
  cbn [andb]. destruct (Z.leb_spec 0 (o + Z.of_nat i - o)); [|lia]. replace (Z.to_nat (o + Z.of_nat i - o)) with i by lia. by rewrite Hi.
Qed.

(** ** Numbers in network byte order *)

Definition be16 (v : Z) : bytes := [v / 256; v mod 256].
Lemma be16_ok v : 0 <= v < 65536 -> bytes_ok (be16 v).
Proof.
  intros Hv. pose proof (Z.mod_pos_bound v 256 ltac:(lia)). assert (0 <= v / 256 < 256) by (split; [apply Z.div_pos|apply Z.div_lt_upper_bound]; lia).
  apply Forall_cons_2; [done|]. apply Forall_cons_2; [done|apply Forall_nil_2].
Qed.
Lemma split_bytes a b : 0 <= b < 256 -> (256 * a + b) / 256 = a /\ (256 * a + b) mod 256 = b.
Proof.
  intros Hb. rewrite (Z.mul_comm 256), Z.div_add_l, Z.div_small by lia. split; [lia|].
  rewrite Z.add_comm, Z_mod_plus_full. by apply Z.mod_small.
Qed.
Lemma swap_bytes a b : 0 <= a < 256 -> 0 <= b < 256 -> htons (256 * a + b) = 256 * b + a.
Proof. intros Ha Hb. rewrite htons_swap, swap_eq by lia. destruct (split_bytes a b Hb) as [-> ->]. lia. Qed.
Lemma htons_range v : 0 <= v < 65536 -> 0 <= htons v < 65536.
Proof. intros Hv. rewrite htons_swap by done. by apply swap_range. Qed.

(** A word is stored with its first byte first, and read from there. *)
Lemma le16_htons v : 0 <= v < 65536 -> le16 (htons v) = be16 v.
Proof.
  intros Hv. pose proof (Z.mod_pos_bound v 256 ltac:(lia)) as Hm. assert (Hd : 0 <= v / 256 < 256) by (split; [apply Z.div_pos|apply Z.div_lt_upper_bound]; lia).
  rewrite htons_swap, swap_eq by done. unfold le16, be16, u8.
  destruct (split_bytes (v mod 256) (v / 256) Hd) as [-> ->]. by rewrite (Z.mod_small (v mod 256)).
Qed.
Lemma ntohs_two x y : 0 <= x < 256 -> 0 <= y < 256 -> ntohs (unle [x; y]) = 256 * x + y.
Proof. intros Hx Hy. unfold ntohs, unle. cbn [foldr]. replace (x + 256 * (y + 256 * 0)) with (256 * y + x) by lia. rewrite swap_bytes by done. lia. Qed.
Lemma ntohs_be16 v : 0 <= v < 65536 -> ntohs (unle (be16 v)) = v.
Proof.
  intros Hv. pose proof (Forall_cons_1 _ _ _ (be16_ok v Hv)) as [H1 H2%Forall_cons_1]. unfold be16 in *.
  rewrite ntohs_two by (done || apply H2). pose proof (Z.div_mod v 256 ltac:(lia)). lia.
Qed.
Lemma high_byte x y : 0 <= x < 256 -> 0 <= y < 256 -> Z.shiftr (256 * x + y) 8 = x.
Proof. intros Hx Hy. rewrite Z.shiftr_div_pow2 by lia. by destruct (split_bytes x y Hy). Qed.
Lemma low_byte x y : 0 <= y < 256 -> Z.land (256 * x + y) 0xff = y.
Proof. intros Hy. change 0xff with (Z.ones 8). rewrite Z.land_ones by lia. by destruct (split_bytes x y Hy). Qed.
Lemma two_bytes lo hi : 0 <= lo < 256 -> 0 <= hi < 256 -> le16 (htons (u16 (Z.lor lo (Z.shiftl hi 8)))) = [hi; lo].
Proof.
  intros Hl Hh. rewrite Z.lor_comm, lor_bytes, u16_small, le16_htons by lia. unfold be16. by destruct (split_bytes hi lo Hl) as [-> ->].
Qed.

(** ** A packet in one buffer *)

(** Buffer [p]: its data from [o] on are [f], it shows [l] of them from the
    [k]-th on. *)
Record pk (p : place) (o : Z) (f : bytes) (k l : Z) (n : net) : Prop := {
  pk_win : win n p o f;
  pk_payload : payload (store n p) = o + k;
  pk_len : len (store n p) = l;
  pk_tot : tot_len (store n p) = l;
  pk_next : p_next (store n p) = None;
  pk_type : type (store n p) = PBUF_RAM \/ type (store n p) = PBUF_POOL }.

(** Only the data of [p] and what it shows differ. *)
Record touch (p : place) (n n' : net) : Prop := {
  tc_hp : hp n' = hp n;
  tc_tab : memp_tab n' = memp_tab n;
  tc_store : forall q, q <> p -> store n' q = store n q;
  tc_data : forall q, q <> p -> data n' q = data n q;
  tc_keeps : p_next (store n' p) = p_next (store n p) /\ type (store n' p) = type (store n p)
             /\ flags (store n' p) = flags (store n p) /\ ref (store n' p) = ref (store n p) }.
Lemma touch_refl p n : touch p n n.
Proof. by split. Qed.
Lemma touch_trans p n1 n2 n3 : touch p n1 n2 -> touch p n2 n3 -> touch p n1 n3.
Proof.
  intros [H1 T1 S1 D1 (K1 & K2 & K3 & K4)] [H2 T2 S2 D2 (L1 & L2 & L3 & L4)]. split; try congruence.
  - intros q Hq. by rewrite S2, S1.
  - intros q Hq. by rewrite D2, D1.
  - split_and!; congruence.
Qed.
Lemma touch_poke p a bs n : touch p n (poke p a bs n).
Proof. split; try done. intros q Hq. cbn. by destruct (decide (q = p)). Qed.

Lemma free_list_touch p n n' t fl : touch p n n' -> p ∉ fl -> free_list n t fl -> free_list n' t fl.
Proof.
  intros T Hp [Hc Hn]. split; [|done]. rewrite (tc_tab _ _ _ T). apply (chain_ext (store n)); [|done].
  intros q Hq. rewrite (tc_store _ _ _ T); [done|]. by intros ->.
Qed.

Lemma pk_poke p o f k l n j bs :
  pk p o f k l n -> (j + length bs <= length f)%nat -> pk p o (splice f j bs) k l (poke p (o + Z.of_nat j) bs n).
Proof. intros [Hw Hp Hl Ht Hn Hy] Hj. split; try done. by apply poke_in. Qed.
Lemma pk_ld p o f k l n j m :
  pk p o f k l n -> 0 <= j -> 0 <= m -> j + m <= blen f ->
  ld_data p (o + j) m n = Some (take (Z.to_nat m) (drop (Z.to_nat j) f), n).
Proof. intros Hp. apply win_ld, Hp. Qed.

Lemma take_mid (a d b : bytes) k : blen a = k -> take (Z.to_nat (blen d)) (drop (Z.to_nat k) (a ++ d ++ b)) = d.
Proof. intros <-. unfold blen. rewrite !Nat2Z.id, drop_app_length. by rewrite take_app_length. Qed.

(** What [p] shows. *)
Lemma pk_area p o f k l n :
  pk p o f k l n -> 0 <= k -> 0 <= l -> k + l <= blen f -> area n p = take (Z.to_nat l) (drop (Z.to_nat k) f).
Proof.
  intros Hp Hk Hl Hb. pose proof (pk_ld p o f k l n k l Hp Hk Hl Hb) as E. unfold ld_data, nget in E.
  unfold area. rewrite (pk_payload _ _ _ _ _ _ Hp), (pk_len _ _ _ _ _ _ Hp). injection E as E. exact E.
Qed.
Lemma pk_frame p o f k l n :
  pk p o f k l n -> 0 <= k -> 0 <= l < 65536 -> k + l <= blen f ->
  holds_frame n p [p] (take (Z.to_nat l) (drop (Z.to_nat k) f)).
Proof.
  intros Hp Hk Hl Hb. split_and!.
  - split; [done|]. by rewrite (pk_next _ _ _ _ _ _ Hp).
  - apply NoDup_singleton.
  - apply Forall_cons_2; [|apply Forall_nil_2]. cbn beta. rewrite (pk_len _ _ _ _ _ _ Hp). lia.
  - unfold view. cbn [map concat]. rewrite app_nil_r. apply (pk_area p o f k l n); [done|lia..].
Qed.

(** A header is put in front or taken off. *)
Lemma header_run p o f k l n inc :
  pk p o f k l n -> SIZEOF_STRUCT_PBUF <= o + k - inc -> 0 <= l + inc -> 0 <= l < 65536 -> l + inc < 65536 ->
  exists n', pbuf_header (Some p) inc n = Some (true, n') /\ pk p o f (k - inc) (l + inc) n' /\ touch p n n'.
Proof.
  intros [Hw Hp Hl Ht Hn Hy] H16 Hlo Hl0 Hhi. unfold pbuf_header. destruct (Z.eqb_spec inc 0) as [->|Hne].
  { exists n. split; [done|]. split; [|apply touch_refl]. replace (k - 0) with k by lia. replace (l + 0) with l by lia. by split. }
  rewrite getp_bind, Hl, Hp. destruct (Z.ltb_spec inc 0), (Z.gtb_spec (- inc) l); cbn [andb]; try lia.
  all: destruct Hy as [Hy|Hy]; rewrite Hy; (destruct (Z.ltb_spec (o + k - inc) SIZEOF_STRUCT_PBUF); [lia|]);
    rewrite !setp_bind; eexists; (split; [reflexivity|]); split; split;
    repeat (cbn [stored store set_store data hp memp_tab]; rewrite ?decide_True by done;
      cbn [payload len tot_len p_next type flags ref upd_payload upd_len upd_tot]); auto.
  all: try (rewrite Hl || rewrite Ht); rewrite ?u16_small by lia; try lia.
  all: try (by intros q Hq; rewrite ?stored_ne by done).
  all: intros q Hq; cbn; by destruct (decide (q = p)).
Qed.

(** A part [h] in the middle. *)
Lemma splice_mid a h b j bs :
  (j + length bs <= length h)%nat -> splice (a ++ h ++ b) (length a + j) bs = a ++ splice h j bs ++ b.
Proof.
  intros Hj. unfold splice. rewrite take_app_ge, drop_app_ge by lia.
  replace (length a + j - length a)%nat with j by lia. replace (length a + j + length bs - length a)%nat with (j + length bs)%nat by lia.
  rewrite take_app_le, drop_app_le by lia. by rewrite <- !app_assoc.
Qed.
Lemma splice_length h j bs : (j + length bs <= length h)%nat -> length (splice h j bs) = length h.
Proof. intros Hj. unfold splice. rewrite !length_app, length_take, length_drop. lia. Qed.

Lemma pk_mid p o a h b k l n j bs :
  pk p o (a ++ h ++ b) k l n -> (j + length bs <= length h)%nat ->
  pk p o (a ++ splice h j bs ++ b) k l (poke p (o + blen a + Z.of_nat j) bs n).
Proof.
  intros Hp Hj. rewrite <- splice_mid by done. replace (o + blen a + Z.of_nat j) with (o + Z.of_nat (length a + j)) by (unfold blen; lia).
  apply pk_poke; [done|]. rewrite !length_app. lia.
Qed.
Lemma pk_ld_mid p o a h b k l n j m :
  pk p o (a ++ h ++ b) k l n -> (j + m <= length h)%nat ->
  ld_data p (o + blen a + Z.of_nat j) (Z.of_nat m) n = Some (take m (drop j h), n).
Proof.
  intros [Hw%win_app] Hj. destruct Hw as [_ Hw]. apply win_app in Hw as [Hw _].
  rewrite (win_ld _ _ _ _ _ _ Hw) by (unfold blen; lia). by rewrite !Nat2Z.id.
Qed.

(** ** Runs over a changed net *)

Definition hnet (h : host) : net := nt (et (sk h)).
Definition with_net (n : net) (h : host) : host := set_sk (set_et (set_nt n (et (sk h))) (sk h)) h.

Lemma ibind {A B} (m : IM A) (k : A -> IM B) s a s' : m s = Some (a, s') -> (m ≫= k) s = k a s'.
Proof. intros E. unfold mbind, IM_bind. by rewrite E. Qed.
Lemma iget_bind {A B} (f : host -> A) (k : A -> IM B) s : (iget f ≫= k) s = k (f s) s.
Proof. done. Qed.
Lemma imod_bind {B} (f : host -> host) (k : unit -> IM B) s : (imod f ≫= k) s = k tt (f s).
Proof. done. Qed.
Lemma iret_bind {A B} (a : A) (k : A -> IM B) s : (mret a ≫= k) s = k a s.
Proof. done. Qed.
Lemma ibind_assoc {A B C} (m : IM A) (k : A -> IM B) (l : B -> IM C) s : ((m ≫= k) ≫= l) s = (m ≫= fun a => k a ≫= l) s.
Proof. unfold mbind, IM_bind. by destruct (m s) as [[a s']|]. Qed.
Lemma i_nif_bind {A B} (f : netif -> A) (k : A -> IM B) s : (i_nif f ≫= k) s = k (f (nif (sk s))) s.
Proof. done. Qed.

Lemma with_net_self h : with_net (hnet h) h = h.
Proof. by destruct h as [? ? ? [? ? ? ? [? ? ? ? ? ? ? ? []]]]. Qed.
Lemma with_net_twice n n' h : with_net n (with_net n' h) = with_net n h.
Proof. done. Qed.
Lemma i_buf_bind {A B} (m : NM A) (k : A -> IM B) h n a n' :
  m n = Some (a, n') -> (i_buf m ≫= k) (with_net n h) = k a (with_net n' h).
Proof.
  intros E. apply ibind. unfold i_buf, on_stk, on_buf, on_eth, on_net. cbn [sk with_net set_sk et set_et nt set_nt]. by rewrite E.
Qed.
Lemma i_buf_first {A B} (m : NM A) (k : A -> IM B) h a n' :
  m (hnet h) = Some (a, n') -> (i_buf m ≫= k) h = k a (with_net n' h).
Proof. intros E. rewrite <- (with_net_self h) at 1. by rewrite (i_buf_bind _ _ _ _ _ _ E). Qed.
Lemma i_buf_none {A} (m : NM A) h n a n' : m n = Some (a, n') -> i_buf m (with_net n h) = Some (a, with_net n' h).
Proof. intros E. unfold i_buf, on_stk, on_buf, on_eth, on_net. cbn [sk with_net set_sk et set_et nt set_nt]. by rewrite E. Qed.
Lemma i_getp_bind {B} p (k : pbuf -> IM B) h n : (i_buf (getp p) ≫= k) (with_net n h) = k (store n p) (with_net n h).
Proof. by apply i_buf_bind. Qed.
Lemma i_wr16_bind {B} p a v (k : unit -> IM B) h n : (i_buf (wr16 p a v) ≫= k) (with_net n h) = k tt (with_net (poke p a (le16 v) n) h).
Proof. by apply i_buf_bind. Qed.
Lemma i_wr32_bind {B} p a v (k : unit -> IM B) h n : (i_buf (wr32 p a v) ≫= k) (with_net n h) = k tt (with_net (poke p a (le32 v) n) h).
Proof. by apply i_buf_bind. Qed.
Lemma i_wr8_bind {B} p a v (k : unit -> IM B) h n : (i_buf (wr8 p a v) ≫= k) (with_net n h) = k tt (with_net (poke p a [u8 v] n) h).
Proof. by apply i_buf_bind. Qed.

(** ** The header of IP *)

(** An IPv4 header without options: [off] are the bytes of flags and fragment
    offset, [ck] the checksum. *)
Definition ip_header (tos len id : Z) (off : bytes) (ttl proto : Z) (ck src dst : bytes) : bytes :=
  [69; tos] ++ be16 len ++ be16 id ++ off ++ [ttl; proto] ++ ck ++ src ++ dst.

Lemma list20 (l : bytes) : length l = 20%nat ->
  exists a b c d e f g h i j k m n o p q r s t u, l = [a; b; c; d; e; f; g; h; i; j; k; m; n; o; p; q; r; s; t; u].
Proof.
  do 20 (destruct l as [|? l]; [discriminate|]). destruct l; [|discriminate]. intros _. by do 20 eexists.
Qed.

Lemma ttl_set_run p o a h b k l n x y ttl :
  pk p o (a ++ h ++ b) k l n -> (10 <= length h)%nat -> 0 <= x < 256 -> 0 <= y < 256 -> take 2 (drop 8 h) = [x; y] -> 0 <= ttl < 256 ->
  IPH_TTL_SET p (o + blen a) ttl n = Some (tt, poke p (o + blen a + 8) [ttl; y] n).
Proof.
  intros Hp Hl Hx Hy Hxy Ht.
  unfold IPH_TTL_SET, IPH_PROTO, rd16, wr16. unfold mbind, NM_bind.
  pose proof (pk_ld_mid p o a h b k l n 8 2 Hp ltac:(lia)) as E. change (Z.of_nat 8) with 8 in E. change (Z.of_nat 2) with 2 in E.
  rewrite E, Hxy. unfold mret, NM_ret. rewrite ntohs_two, low_byte, (u16_small ttl), two_bytes by lia. done.
Qed.
Lemma proto_set_run p o a h b k l n x y proto :
  pk p o (a ++ h ++ b) k l n -> (10 <= length h)%nat -> 0 <= x < 256 -> 0 <= y < 256 -> take 2 (drop 8 h) = [x; y] -> 0 <= proto < 256 ->
  IPH_PROTO_SET p (o + blen a) proto n = Some (tt, poke p (o + blen a + 8) [x; proto] n).
Proof.
  intros Hp Hl Hx Hy Hxy Ht.
  unfold IPH_PROTO_SET, IPH_TTL, rd16, wr16. unfold mbind, NM_bind.
  pose proof (pk_ld_mid p o a h b k l n 8 2 Hp ltac:(lia)) as E. change (Z.of_nat 8) with 8 in E. change (Z.of_nat 2) with 2 in E.
  rewrite E, Hxy. unfold mret, NM_ret. rewrite ntohs_two, high_byte, two_bytes by lia. done.
Qed.

(** A write to the middle part, whose bytes are spelled out. *)
Ltac pk_write j bs H :=
  let H' := fresh in
  pose proof (pk_mid _ _ _ _ _ _ _ _ j bs H ltac:(simpl; lia)) as H'; clear H; rename H' into H;
  let z := eval cbv in (Z.of_nat j) in change (Z.of_nat j) with z in H;
  match type of H with
  | context [splice ?h j bs] =>
      let v := eval cbn [splice app take drop length Nat.add le16 le32 be16] in (splice h j bs) in
      change (splice h j bs) with v in H
  end.

Lemma vhl_bytes tos : 0 <= tos < 256 -> le16 (htons (u16 (Z.lor (Z.lor (Z.shiftl 4 12) (Z.shiftl (IP_HLEN / 4) 8)) tos))) = [69; tos].
Proof.
  intros Ht. change (Z.lor (Z.shiftl 4 12) (Z.shiftl (IP_HLEN / 4) 8)) with (Z.shiftl 69 8).
  rewrite lor_bytes, u16_small, le16_htons by lia. unfold be16. by destruct (split_bytes 69 tos Ht) as [-> ->].
Qed.

Section Send.
Context (ip_frag : place -> Z -> IM Z).

Lemma ip_output_run p o a hdr b k l n h src dest ttl tos proto :
  pk p o (a ++ hdr ++ b) k l n -> length hdr = 20%nat -> bytes_ok hdr -> k = blen a + 20 ->
  SIZEOF_STRUCT_PBUF <= o + blen a -> 0 <= l -> l + 20 < 65536 ->
  0 <= ttl < 256 -> 0 <= tos < 256 -> 0 <= proto < 256 -> 0 <= ip_id h < 65536 ->
  exists n', ip_output_if ip_frag p src (Some dest) ttl tos proto (with_net n h)
    = ip_send ip_frag p dest (with_net n' (set_ip_id (u16 (ip_id h + 1)) h))
  /\ pk p o (a ++ ip_header tos (l + 20) (ip_id h) [0; 0] ttl proto [0; 0]
                    (le32 (if ip_addr_isany src then ip_addr (nif (sk h)) else default 0 src)) (le32 dest) ++ b) (blen a) (l + 20) n'
  /\ touch p n n'.
Proof.
  intros Hp Hh Hok -> Ho Hl Hl2 Httl Htos Hproto Hid. unfold ip_output_if. pose proof (blen_nonneg a).
  destruct (header_run p o _ _ l n IP_HLEN Hp) as (n1 & E1 & P & T1); unfold IP_HLEN in *; try lia.
  rewrite (i_buf_bind _ _ _ _ _ _ E1). cbn [negb]. rewrite i_getp_bind. cbv zeta.
  rewrite (pk_payload _ _ _ _ _ _ P), (pk_tot _ _ _ _ _ _ P). replace (blen a + 20 - 20) with (blen a) in * by lia.
  destruct (list20 hdr Hh) as (?&?&?&?&?&?&?&?& x8 & x9 &?&?&?&?&?&?&?&?&?&?& ->).
  assert (Hx : 0 <= x8 < 256) by (eapply (Forall_lookup_1 (fun z => 0 <= z < 256) _ 8 _ Hok); reflexivity).
  assert (Hy : 0 <= x9 < 256) by (eapply (Forall_lookup_1 (fun z => 0 <= z < 256) _ 9 _ Hok); reflexivity).
  rewrite (i_buf_bind _ _ _ _ _ _ (ttl_set_run p o a _ b _ _ n1 x8 x9 ttl P ltac:(simpl; lia) Hx Hy eq_refl Httl)).
  pk_write 8%nat [ttl; x9] P.
  rewrite (i_buf_bind _ _ _ _ _ _ (proto_set_run p o a _ b _ _ _ ttl x9 proto P ltac:(simpl; lia) Httl Hy eq_refl Hproto)).
  pk_write 8%nat [ttl; proto] P.
  rewrite i_wr32_bind. unfold iph_dest. pk_write 16%nat (le32 dest) P.
  unfold IPH_VHLTOS_SET, IPH_LEN_SET, IPH_OFFSET_SET, IPH_ID_SET, IPH_CHKSUM_SET.
  rewrite i_wr16_bind, vhl_bytes by done. replace (o + blen a) with (o + blen a + 0) by lia. pk_write 0%nat [69; tos] P.
  replace (o + blen a + 0) with (o + blen a) in * by lia.
  rewrite i_wr16_bind, le16_htons by lia. pk_write 2%nat (be16 (l + 20)) P.
  rewrite i_wr16_bind. pk_write 6%nat (le16 0) P. rewrite iget_bind. cbn [ip_id with_net set_sk].
  rewrite i_wr16_bind, le16_htons by lia. pk_write 4%nat (be16 (ip_id h)) P.
  rewrite imod_bind, i_nif_bind.
  match goal with |- context [set_ip_id ?v (with_net ?m h)] => change (set_ip_id v (with_net m h)) with (with_net m (set_ip_id v h)) end.
  cbn [nif sk with_net set_sk set_et set_nt set_ip_id]. rewrite i_wr32_bind. unfold iph_src. pk_write 12%nat (le32 (if ip_addr_isany src then ip_addr (nif (sk h)) else default 0 src)) P.
  rewrite i_wr16_bind. pk_write 10%nat (le16 0) P. eexists. split; [reflexivity|]. split; [exact P|].
  repeat (eapply touch_trans; [|apply touch_poke]). exact T1.
Qed.
End Send.
