(* ===== verification/IpSend.v ===== *)
(** * Sending to a host whose Ethernet address is known

    From an IP packet in one buffer to the bytes the DMA is given. *)
From stdpp Require Import base tactics list numbers option.
From S2P Require Import Prelude Heap HeapSpec Pbuf PbufSpec Chksum Ethernet EthSpec EthRun EthSend.
From S2P Require Import Stack Etharp EtharpSpec EtharpInv EtharpLife EtharpPkt Ip IpPkt.

(** ** Runs of the monad of Stack.v over a changed net *)

Definition s_with (n : net) (s : stack) : stack := set_et (set_nt n (et s)) s.
Lemma s_buf_bind {A B} (m : NM A) (k : A -> SM B) s n a n' :
  m n = Some (a, n') -> (on_buf m ≫= k) (s_with n s) = k a (s_with n' s).
Proof. intros E. apply sbind. unfold on_buf, on_eth, on_net. cbn [et s_with set_et nt set_nt]. by rewrite E. Qed.
Lemma s_st8_bind {B} p j v (k : unit -> SM B) s n :
  (on_buf (st8 p j v) ≫= k) (s_with n s) = k tt (s_with (poke p (payload (store n p) + j) [u8 v] n) s).
Proof. by apply s_buf_bind. Qed.
Lemma s_st16_bind {B} p j v (k : unit -> SM B) s n :
  (on_buf (st16 p j v) ≫= k) (s_with n s) = k tt (s_with (poke p (payload (store n p) + j) (le16 v) n) s).
Proof. by apply s_buf_bind. Qed.
Lemma byte_at_bind {B} bs k b (c : Z -> SM B) s : bs !! k = Some b -> (byte_at bs k ≫= c) s = c b s.
Proof. intros E. apply sbind. unfold byte_at. by rewrite E. Qed.

(** ** The Ethernet header *)

Definition eth_header (dst src : bytes) : bytes := dst ++ src ++ [8; 0].
Lemma mac_six m : mac_ok m -> exists a b c d e f, m = [a; b; c; d; e; f]
  /\ 0 <= a < 256 /\ 0 <= b < 256 /\ 0 <= c < 256 /\ 0 <= d < 256 /\ 0 <= e < 256 /\ 0 <= f < 256.
Proof.
  intros [(a&b&c&d&e&f&->)%six Ho]. exists a, b, c, d, e, f. split; [done|]. unfold bytes_ok in Ho. rewrite !list.Forall_cons in Ho. tauto.
Qed.
Lemma list14 (l : bytes) : length l = 14%nat -> exists a b c d e f g h i j k m n o, l = [a; b; c; d; e; f; g; h; i; j; k; m; n; o].
Proof. do 14 (destruct l as [|? l]; [discriminate|]). destruct l; [|discriminate]. intros _. by do 14 eexists. Qed.

(** One byte of an address. *)
Ltac mac_step j v H :=
  erewrite byte_at_bind by reflexivity; cbv beta;
  rewrite s_st8_bind, (pk_payload _ _ _ _ _ _ H), (u8_small v) by lia;
  pk_write j [v] H.

Lemma send_macs_run p o a eh b l n s src dst :
  pk p o (a ++ eh ++ b) (blen a) l n -> length eh = 14%nat -> mac_ok src -> mac_ok dst ->
  exists n', send_macs ETHARP_HWADDR_LEN p src dst (s_with n s) = Some (tt, s_with n' s)
  /\ pk p o (a ++ (dst ++ src ++ drop 12 eh) ++ b) (blen a) l n' /\ touch p n n'.
Proof.
  intros P Hl Hs Hd. destruct (mac_six src Hs) as (s0&s1&s2&s3&s4&s5&->&?&?&?&?&?&?), (mac_six dst Hd) as (d0&d1&d2&d3&d4&d5&->&?&?&?&?&?&?).
  destruct (list14 eh Hl) as (?&?&?&?&?&?&?&?&?&?&?&?&?&?&->). unfold ETHARP_HWADDR_LEN.
  cbn [send_macs]. unfold eh_dest, eh_src. change (Z.of_nat 5) with 5. change (Z.of_nat 4) with 4. change (Z.of_nat 3) with 3.
  change (Z.of_nat 2) with 2. change (Z.of_nat 1) with 1. change (Z.of_nat 0) with 0. rewrite !Z.add_0_l.
  change (6 + 5) with 11. change (6 + 4) with 10. change (6 + 3) with 9. change (6 + 2) with 8. change (6 + 1) with 7. change (6 + 0) with 6.
  mac_step 5%nat d5 P. mac_step 11%nat s5 P. mac_step 4%nat d4 P. mac_step 10%nat s4 P. mac_step 3%nat d3 P. mac_step 9%nat s3 P.
  mac_step 2%nat d2 P. mac_step 8%nat s2 P. mac_step 1%nat d1 P. mac_step 7%nat s1 P. mac_step 0%nat d0 P. mac_step 6%nat s0 P.
  eexists. split; [reflexivity|]. split; [exact P|].
  repeat (eapply touch_trans; [|apply touch_poke]). apply touch_refl.
Qed.

Lemma etharp_send_run p o a eh b l n s src dst :
  pk p o (a ++ eh ++ b) (blen a) l n -> length eh = 14%nat -> mac_ok src -> mac_ok dst ->
  exists n', etharp_send_ip p src dst (s_with n s) = linkoutput p (s_with n' s)
  /\ pk p o (a ++ eth_header dst src ++ b) (blen a) l n' /\ touch p n n'.
Proof.
  intros P Hl Hs Hd. destruct (send_macs_run p o a eh b l n s src dst P Hl Hs Hd) as (n1 & E & P1 & T1). unfold etharp_send_ip.
  rewrite (sbind _ _ _ _ _ E), s_st16_bind, (pk_payload _ _ _ _ _ _ P1). eexists. split; [reflexivity|]. unfold eh_type.
  destruct (mac_six src Hs) as (s0&s1&s2&s3&s4&s5&->&?&?&?&?&?&?), (mac_six dst Hd) as (d0&d1&d2&d3&d4&d5&->&?&?&?&?&?&?).
  destruct (list14 eh Hl) as (?&?&?&?&?&?&?&?&?&?&?&?&?&?&->). pk_write 12%nat (le16 (htons ETHTYPE_IP)) P1.
  split; [exact P1|]. eapply touch_trans; [exact T1|apply touch_poke].
Qed.

(** ** The next hop *)

(** The host a packet for [dest] is handed to. *)
Definition hop (n : netif) (dest : Z) : Z := if ip_addr_netcmp dest (ip_addr n) (netmask n) then dest else gw n.

(** The Ethernet address for [dest] needs no request. *)
Definition knows (s : stack) (dest : Z) (mac : bytes) : Prop :=
  if ip_addr_isbroadcast dest (nif s) then mac = ethbroadcast
  else ip_addr_ismulticast dest = false /\ unicast (hop (nif s) dest) (nif s) = true
       /\ exists i e, at_table (arp_table s) i = Some e /\ state e = ETHARP_STATE_STABLE
          /\ ipaddr e = hop (nif s) dest /\ ethaddr e = mac.

(** Only the index of the entry found last differs. *)
Definition searched (s s' : stack) : Prop := s' = s \/ exists i, s' = set_cached i s.
Lemma s_with_cached n i s : set_cached i (s_with n s) = s_with n (set_cached i s).
Proof. done. Qed.

Lemma query_known p n s a i e :
  arp_ok s -> unicast a (nif s) = true -> at_table (arp_table s) i = Some e -> state e = ETHARP_STATE_STABLE -> ipaddr e = a ->
  etharp_query a (Some p) (s_with n s) = etharp_send_ip p (hwaddr (nif s)) (ethaddr e) (s_with n (set_cached i s)).
Proof.
  intros Hok Hu Hi Hst Ha. unfold etharp_query. rewrite sget_bind. cbn [nif s_with set_et].
  unfold unicast in Hu. apply negb_true_iff in Hu. rewrite !orb_false_iff in Hu. destruct Hu as [[Hu1 Hu2] Hu3]. rewrite Hu1, Hu2, Hu3. cbn [orb].
  assert (Hok' : arp_ok (s_with n s)) by (by destruct Hok; split).
  rewrite (sbind _ _ _ _ _ (find_known (s_with n s) a ETHARP_TRY_HARD i e Hok' Hi ltac:(split; [unfold active; congruence|done]))).
  pose proof (at_table_lt _ _ _ Hi). destruct (Z.ltb_spec i 0); [lia|].
  assert (He : entry i (set_cached i (s_with n s)) = Some (e, set_cached i (s_with n s))) by (by apply entry_run).
  rewrite (sbind _ _ _ _ _ He). rewrite (bool_decide_false (state e = ETHARP_STATE_EMPTY)) by congruence. cbv iota. rewrite sret_bind, (sbind _ _ _ _ _ He).
  rewrite (bool_decide_false (state e = ETHARP_STATE_PENDING)) by congruence. rewrite bool_decide_false by done. cbn [orb]. cbv iota. rewrite sret_bind, (sbind _ _ _ _ _ He).
  by rewrite Hst, s_with_cached.
Qed.

Lemma searched_nif s s' : searched s s' -> nif s' = nif s /\ et s' = et s /\ arp_table s' = arp_table s /\ q_p s' = q_p s.
Proof. by intros [->|[i ->]]. Qed.

Lemma etharp_output_run p o a eh b l n s dest mac :
  arp_ok s -> knows s dest mac -> mac_ok (hwaddr (nif s)) -> mac_ok mac ->
  pk p o (a ++ eh ++ b) (blen a + 14) l n -> length eh = 14%nat -> SIZEOF_STRUCT_PBUF <= o + blen a -> 0 <= l -> l + 14 < 65536 ->
  exists n' s', etharp_output p dest (s_with n s) = linkoutput p (s_with n' s') /\ searched s s'
  /\ pk p o (a ++ eth_header mac (hwaddr (nif s)) ++ b) (blen a) (l + 14) n' /\ touch p n n'.
Proof.
  intros Hok Hk Hsrc Hmac P Heh Ho Hl Hl2. unfold etharp_output.
  destruct (header_run p o _ _ l n 14 P) as (n1 & E1 & P1 & T1); [lia..|]. replace (blen a + 14 - 14) with (blen a) in P1 by lia.
  unfold sizeof_eth_hdr. rewrite (s_buf_bind _ _ _ _ _ _ E1). cbn [negb]. rewrite sget_bind. cbn [nif s_with set_et set_nt].
  unfold knows in Hk. destruct (ip_addr_isbroadcast dest (nif s)) eqn:Eb.
  { subst mac. destruct (etharp_send_run p o a eh b (l + 14) n1 s (hwaddr (nif s)) ethbroadcast P1 Heh Hsrc Hmac) as (n2 & E2 & P2 & T2).
    exists n2, s. split; [exact E2|]. split; [by left|]. split; [done|]. by eapply touch_trans. }
  destruct Hk as (Hm & Hu & i & e & Hi & Hst & Ha & <-). rewrite Hm.
  destruct (etharp_send_run p o a eh b (l + 14) n1 (set_cached i s) (hwaddr (nif s)) (ethaddr e) P1 Heh Hsrc Hmac) as (n2 & E2 & P2 & T2).
  pose proof (query_known p n1 s _ i e Hok Hu Hi Hst Ha) as Q. exists n2, (set_cached i s).
  split; [|split; [right; by exists i|split; [done|by eapply touch_trans]]]. rewrite <- E2, <- Q. unfold hop in *.
  destruct (ip_addr_netcmp dest (ip_addr (nif s)) (netmask (nif s))) eqn:En; cbn [negb]; [done|].
  destruct (Z.eqb_spec (gw (nif s)) 0) as [E0|]; [|done]. exfalso. unfold unicast in Hu. rewrite E0 in Hu. done.
Qed.

(** ** The frame is handed to the DMA *)

Record sent (d : desc) (f : bytes) (e e' : eth) : Prop := {
  st_bytes : rdn (Tx_Buff e') (Buffer1Addr d) (blen f) = Some f;
  st_ring : DMATxDscrTab e' = <[Z.to_nat (DMATxDescToSet e) := handed_desc (blen f) d]> (DMATxDscrTab e);
  st_next : DMATxDescToSet e' = Buffer2NextDescAddr d;
  st_receive : same_receive e e' }.

Lemma linkoutput_run p o f k l n s d :
  pk p o f k l n -> 0 <= k -> 0 <= l < 65536 -> k + l <= blen f -> can_send l d s ->
  exists e', linkoutput p (s_with n s) = Some (ERR_OK, s_with n (set_et e' s))
  /\ sent d (take (Z.to_nat l) (drop (Z.to_nat k) f)) (et s) e'.
Proof.
  intros P Hk Hl Hb (Hd & Ho & Hb0 & Hb1). pose proof (pk_frame _ _ _ _ _ _ P Hk Hl Hb) as Hf.
  assert (Hlen : blen (take (Z.to_nat l) (drop (Z.to_nat k) f)) = l).
  { unfold blen in *. rewrite length_take, length_drop. lia. }
  destruct (low_level_output_run (set_nt n (et s)) d p [p] _ Hd Hf ltac:(simpl; unfold pbuf_fuel; lia) ltac:(lia) Hb0)
    as (e' & E & En & Hr & R & _ & T); [rewrite Hlen; exact Hb1|].
  exists e'. rewrite Ho in T. destruct T as [T1 T2]. split; [|split; [exact R|exact T1|exact T2|exact Hr]].
  unfold linkoutput, on_eth. cbn [et s_with set_et]. rewrite E. do 2 f_equal. unfold s_with. cbn [et set_et nt set_nt].
  cbn in En. destruct e'. cbn in En. by subst.
Qed.

Section Send.
Context (ip_frag : place -> Z -> IM Z).

(** The state after a frame: [searched], and the DMA's ring. *)
Definition sent_by (d : desc) (f : bytes) (s s' : stack) : Prop :=
  exists s1, searched s s1 /\ s' = set_et (et s') s1 /\ sent d f (et s) (et s').

Lemma ip_send_run p o a eh b l n h dest mac d :
  arp_ok (sk h) -> knows (sk h) dest mac -> mac_ok (hwaddr (nif (sk h))) -> mac_ok mac ->
  pk p o (a ++ eh ++ b) (blen a + 14) l n -> length eh = 14%nat -> SIZEOF_STRUCT_PBUF <= o + blen a ->
  0 <= l <= blen b -> l <= mtu (nif (sk h)) -> l + 14 < 65536 -> can_send (l + 14) d (sk h) ->
  exists n' s', ip_send ip_frag p dest (with_net n h) = Some (ERR_OK, with_net n' (set_sk s' h))
  /\ sent_by d (take (Z.to_nat (l + 14)) (eth_header mac (hwaddr (nif (sk h))) ++ b)) (sk h) s'
  /\ pk p o (a ++ eth_header mac (hwaddr (nif (sk h))) ++ b) (blen a) (l + 14) n' /\ touch p n n'.
Proof.
  intros Hok Hk Hsrc Hmac P Heh Ho Hl Hmtu Hl2 Hsend. pose proof (blen_nonneg a). unfold ip_send.
  rewrite i_getp_bind, i_nif_bind, (pk_tot _ _ _ _ _ _ P). cbn [nif sk with_net set_sk set_et set_nt]. unfold id.
  destruct (Z.gtb_spec l (mtu (nif (sk h)))); [lia|]. rewrite andb_false_r.
  destruct (etharp_output_run p o a eh b l n (sk h) dest mac Hok Hk Hsrc Hmac P Heh Ho) as (n1 & s1 & E1 & Hs & P1 & T1); [lia..|].
  destruct (searched_nif _ _ Hs) as (_ & Eet & _). assert (Hsend1 : can_send (l + 14) d s1) by (unfold can_send; by rewrite Eet).
  assert (Hlen : blen a + (l + 14) <= blen (a ++ eth_header mac (hwaddr (nif (sk h))) ++ b)).
  { unfold eth_header, blen in *. rewrite !length_app, (proj1 Hmac), (proj1 Hsrc). unfold ETHARP_HWADDR_LEN. simpl. lia. }
  destruct (linkoutput_run p o _ _ _ n1 s1 d P1 ltac:(lia) ltac:(lia) Hlen Hsend1) as (e2 & E2 & S2).
  exists n1, (set_et e2 s1). split.
  { unfold on_stk. change (sk (with_net n h)) with (s_with n (sk h)). rewrite E1, E2. done. }
  split; [|done]. exists s1. split; [done|]. split; [done|]. cbn [et set_et]. rewrite <- Eet.
  rewrite drop_app_ge in S2 by (unfold blen; lia). replace (Z.to_nat (blen a) - length a)%nat with 0%nat in S2 by (unfold blen; lia). exact S2.
Qed.
End Send.
