(* ===== verification/IpRecv.v ===== *)
(** * Receiving an IP packet

    From a frame in one buffer to the protocol it is for: the reads of the
    headers, the padding cut off, what the address resolution learns. *)
From stdpp Require Import base tactics list numbers option.
From S2P Require Import Prelude Heap HeapSpec Pbuf PbufSpec Chksum Ethernet EthSpec EthRun EthSend.
From S2P Require Import Stack Etharp EtharpSpec EtharpInv EtharpLife EtharpPkt Ip Icmp Udp IpInput IpPkt IpSend.

(** ** Reads at a window *)

Lemma rd16_run n p a x y : win n p a [x; y] -> rd16 p a n = Some (unle [x; y], n).
Proof. intros H. unfold rd16, mbind, NM_bind. by rewrite (win_all _ _ _ _ H : ld_data p a 2 n = _). Qed.
Lemma rd32_run n p a bs : win n p a bs -> length bs = 4%nat -> rd32 p a n = Some (unle bs, n).
Proof.
  intros H Hl. unfold rd32, mbind, NM_bind. pose proof (win_all _ _ _ _ H) as E. replace (blen bs) with 4 in E by (unfold blen; lia). by rewrite E.
Qed.

Lemma ld_at n p o k bs : win n p (payload (store n p) + o) bs -> blen bs = k -> ld_field p o k n = Some (bs, n).
Proof. intros H <-. unfold ld_field. rewrite getp_bind. by apply win_all. Qed.

Definition word32 (v : Z) : Prop := 0 <= v < 4294967296.
Lemma rd_word_run n p a v : win n p a (le32 v) -> word32 v -> rd32 p a n = Some (v, n).
Proof. intros H Hv. rewrite (rd32_run _ _ _ _ H) by done. by rewrite unle_le32. Qed.

(** ** The header of IP *)

(** The packet is whole: no fragment, with or without the flag DF. *)
Definition whole (off : bytes) : Prop := off = [0; 0] \/ off = [64; 0].

Record ip_fields (n : net) (p : place) (a tos len : Z) (off : bytes) (ttl proto src dst : Z) : Prop := {
  if_vhl : win n p a [69; tos];
  if_len : win n p (a + 2) (be16 len);
  if_off : win n p (a + 6) off;
  if_proto : win n p (a + 8) [ttl; proto];
  if_src : win n p (a + iph_src) (le32 src);
  if_dst : win n p (a + iph_dest) (le32 dst) }.

Lemma header_fields n p a tos len id off ttl proto ck src dst f :
  whole off -> length ck = 2%nat ->
  win n p a (ip_header tos len id off ttl proto ck (le32 src) (le32 dst) ++ f) ->
  ip_fields n p a tos len off ttl proto src dst /\ win n p (a + 20) f.
Proof.
  intros Ho Hc. assert (Ho2 : blen off = 2) by (by destruct Ho as [-> | ->]). assert (Hc2 : blen ck = 2) by (unfold blen; lia).
  unfold ip_header. rewrite !win_app, Ho2, Hc2. change (blen [69; tos]) with 2. change (blen (be16 _)) with 2. change (blen [ttl; proto]) with 2.
  change (blen (le32 _)) with 4. rewrite !blen_app, Ho2, Hc2. change (blen [69; tos]) with 2. change (blen (be16 _)) with 2. change (blen [ttl; proto]) with 2.
  change (blen (le32 _)) with 4. intros [(H1 & H2 & H3 & H4 & H5 & H6 & H7 & H8) H9].
  repeat rewrite <- Z.add_assoc in *. by split; [split|].
Qed.

Lemma ip_header_blen tos len id off ttl proto ck src dst :
  whole off -> length ck = 2%nat -> blen (ip_header tos len id off ttl proto ck (le32 src) (le32 dst)) = 20.
Proof. intros Ho Hc. unfold ip_header, blen. rewrite !length_app, Hc. by destruct Ho as [-> | ->]. Qed.
Lemma eth_header_blen dmac smac : length dmac = 6%nat -> length smac = 6%nat -> blen (eth_header dmac smac) = 14.
Proof. intros Hd Hs. unfold eth_header, blen. by rewrite !length_app, Hd, Hs. Qed.

Section Fields.
Context (n : net) (p : place) (a tos len : Z) (off : bytes) (ttl proto src dst : Z).
Context (Hf : ip_fields n p a tos len off ttl proto src dst).
Context (Htos : 0 <= tos < 256) (Hlen : 0 <= len < 65536) (Hoff : whole off) (Hproto : 0 <= ttl < 256 /\ 0 <= proto < 256).

Lemma IPH_V_run : IPH_V p a n = Some (4, n).
Proof.
  unfold IPH_V, mbind, NM_bind. rewrite (rd16_run _ _ _ _ _ (if_vhl _ _ _ _ _ _ _ _ _ _ Hf)), ntohs_two by lia.
  unfold mret, NM_ret. do 2 f_equal. rewrite Z.shiftr_div_pow2 by lia. change (2 ^ 12) with 4096. symmetry. apply Z.div_unique with (256 * 69 + tos - 4096 * 4); lia.
Qed.
Lemma IPH_HL_run : IPH_HL p a n = Some (5, n).
Proof.
  unfold IPH_HL, mbind, NM_bind. rewrite (rd16_run _ _ _ _ _ (if_vhl _ _ _ _ _ _ _ _ _ _ Hf)), ntohs_two, high_byte by lia. done.
Qed.
Lemma IPH_LEN_run : exists v, IPH_LEN p a n = Some (v, n) /\ ntohs v = len.
Proof. eexists. split; [exact (rd16_run _ _ _ _ _ (if_len _ _ _ _ _ _ _ _ _ _ Hf))|exact (ntohs_be16 _ Hlen)]. Qed.
Lemma IPH_OFFSET_run : exists v, IPH_OFFSET p a n = Some (v, n) /\ Z.land v (htons (Z.lor IP_OFFMASK IP_MF)) = 0.
Proof. pose proof (if_off _ _ _ _ _ _ _ _ _ _ Hf) as H. destruct Hoff as [E|E]; rewrite E in H; eexists; (split; [exact (rd16_run _ _ _ _ _ H)|done]). Qed.
Lemma IPH_PROTO_run : IPH_PROTO p a n = Some (proto, n).
Proof.
  unfold IPH_PROTO, mbind, NM_bind. rewrite (rd16_run _ _ _ _ _ (if_proto _ _ _ _ _ _ _ _ _ _ Hf)), ntohs_two, low_byte by lia. done.
Qed.
End Fields.

(** ** The padding is cut off *)

Lemma trim_run p o f k l n m :
  pk p o f k l n -> type (store n p) = PBUF_POOL -> 0 <= m -> l < 65536 ->
  exists n', pbuf_realloc p m n = Some (tt, n') /\ pk p o f k (Z.min m l) n' /\ touch p n n'.
Proof.
  intros [Hw Hp Hl Ht Hn Hy] Hpool Hm Hlim. unfold pbuf_realloc. rewrite getp_bind, Ht. destruct (Z.geb_spec m l).
  { exists n. rewrite Z.min_r by lia. split; [done|]. split; [by split|apply touch_refl]. }
  assert (Ew : realloc_walk pbuf_fuel p m (m - l) n = Some ((p, m), n)).
  { change pbuf_fuel with (S 299). cbn [realloc_walk]. rewrite getp_bind, Hl. destruct (Z.gtb_spec m l); [lia|done]. }
  rewrite (nbind _ _ _ _ _ Ew). cbv beta iota. rewrite getp_bind, Hpool. rewrite decide_False by done.
  rewrite (nbind (mret tt) _ n tt n) by done. rewrite !setp_bind, getp_bind, stored_eq. cbn [p_next upd_tot upd_len]. rewrite stored_eq. cbn [p_next upd_len].
  rewrite Hn. rewrite (nbind (mret tt) _ _ tt _) by done. eexists. split; [reflexivity|]. rewrite Z.min_l by lia.
  split; split; repeat (cbn [stored store set_store data hp memp_tab]; rewrite ?decide_True by done;
      cbn [payload len tot_len p_next type flags ref upd_payload upd_len upd_tot upd_next]); auto.
  1, 2: by rewrite !u16_small by (rewrite ?u16_small by lia; lia).
  intros q Hq. by rewrite !decide_False by done.
Qed.

(** ** [ip_input] *)

Section Input.
Context (ip_frag : place -> Z -> IM Z) (ip_reass : place -> IM (option place)) (tcp_input : place -> IM unit).
Context (call : callback -> place -> place -> Z -> Z -> IM unit).

(** The packet is for this interface, from a host. *)
Record for_us (src dst : Z) (n : netif) : Prop := {
  fu_up : netif_is_up n = true;
  fu_set : ip_addr n <> 0;
  fu_dst : dst = ip_addr n \/ ip_addr_isbroadcast dst n = true;
  fu_src : ip_addr_isbroadcast src n = false /\ ip_addr_ismulticast src = false }.

Lemma ip_input_run p o a tos id off ttl proto ck src dst pl pad n h :
  let f := a ++ ip_header tos (20 + blen pl) id off ttl proto ck (le32 src) (le32 dst) ++ pl ++ pad in
  pk p o f (blen a) (20 + blen pl + blen pad) n -> type (store n p) = PBUF_POOL ->
  0 <= tos < 256 -> 0 <= ttl < 256 -> 0 <= proto < 256 -> 20 + blen pl + blen pad < 65536 -> word32 src -> word32 dst ->
  whole off -> length ck = 2%nat -> for_us src dst (nif (sk h)) ->
  exists n', ip_input ip_frag ip_reass tcp_input call p (with_net n h)
    = (ip_deliver ip_frag tcp_input call p (o + blen a);; mret ERR_OK) (with_net n' h)
  /\ pk p o f (blen a) (20 + blen pl) n' /\ touch p n n'.
Proof.
  intros f P Hpool Htos Httl Hproto Hlen Hsrc Hdst Hoff Hck [Hup Hset Hd [Hs1 Hs2]].
  pose proof (blen_nonneg pl). pose proof (blen_nonneg pad). pose proof (blen_nonneg a).
  assert (Hff : forall m, win m p o f -> ip_fields m p (o + blen a) tos (20 + blen pl) off ttl proto src dst).
  { intros m Hw. unfold f in Hw. apply win_app in Hw as [_ Hw]. by apply header_fields in Hw as [Hw _]. }
  pose proof (Hff n (pk_win _ _ _ _ _ _ P)) as F1. unfold ip_input. rewrite i_getp_bind. cbv zeta.
  rewrite (pk_payload _ _ _ _ _ _ P), (pk_len _ _ _ _ _ _ P), (pk_tot _ _ _ _ _ _ P).
  rewrite (i_buf_bind _ _ _ _ _ _ (IPH_V_run n p _ _ _ _ _ _ _ _ F1 Htos)). change (negb (4 =? 4)) with false. cbv iota.
  rewrite (i_buf_bind _ _ _ _ _ _ (IPH_HL_run n p _ _ _ _ _ _ _ _ F1 Htos)).
  destruct (IPH_LEN_run n p _ _ _ _ _ _ _ _ F1 ltac:(lia)) as (v & Ev & Hv). rewrite (i_buf_bind _ _ _ _ _ _ Ev), Hv.
  cbv beta zeta. change (5 * 4) with 20. destruct (Z.gtb_spec 20 (20 + blen pl + blen pad)); [lia|]. destruct (Z.gtb_spec (20 + blen pl) (20 + blen pl + blen pad)); [lia|]. cbn [orb].
  destruct (trim_run p o f _ _ n (20 + blen pl) P Hpool ltac:(lia) ltac:(lia)) as (n1 & E1 & P1 & T1).
  rewrite (i_buf_bind _ _ _ _ _ _ E1). rewrite Z.min_l in P1 by lia. pose proof (Hff n1 (pk_win _ _ _ _ _ _ P1)) as F2.
  rewrite i_nif_bind. cbn [nif sk with_net set_sk set_et set_nt]. unfold Datatypes.id.
  rewrite (i_buf_bind _ _ _ _ _ _ (rd_word_run _ _ _ _ (if_dst _ _ _ _ _ _ _ _ _ _ F2) Hdst)). cbv zeta.
  rewrite (i_buf_bind _ _ _ _ _ _ (rd_word_run _ _ _ _ (if_src _ _ _ _ _ _ _ _ _ _ F2) Hsrc)). rewrite Hs1, Hs2. cbn [orb].
  unfold ip_addr_isany. rewrite Hup. destruct (Z.eqb_spec (ip_addr (nif (sk h))) 0); [done|]. cbn [negb andb].
  assert (Hus : (dst =? ip_addr (nif (sk h))) || ip_addr_isbroadcast dst (nif (sk h)) = true).
  { destruct Hd as [-> | ->]; [by rewrite Z.eqb_refl|by rewrite orb_true_r]. }
  rewrite Hus. cbn [negb]. destruct (IPH_OFFSET_run n1 p _ _ _ _ _ _ _ _ F2 Hoff) as (w & Ew & Hw).
  rewrite (i_buf_bind _ _ _ _ _ _ Ew), Hw. change (negb (0 =? 0)) with false. cbv iota. by exists n1.
Qed.

(** ** [ethernet_input] *)

(** What is learnt from a packet: the sender's address, if it is one of the
    local network and there is an entry for it without giving up another. *)
Record learnt (a : Z) (mac : bytes) (s s' : stack) : Prop := {
  ln_et : et s' = et s;
  ln_nif : nif s' = nif s;
  ln_ok : arp_ok s';
  ln_table : if ip_addr_netcmp a (ip_addr (nif s)) (netmask (nif s)) && unicast a (nif s) && learns (arp_table s) a 0
             then exists i, at_table (arp_table s') i = Some (learned a mac) else s' = s }.

Lemma update_unlearnt s a p o :
  arp_ok s -> unicast a (nif s) && learns (arp_table s) a 0 = false -> exists x, update_arp_entry a p o 0 s = Some (x, s).
Proof.
  intros Hok Hl. unfold update_arp_entry. rewrite sget_bind. unfold unicast in Hl. destruct (_ || _ || _) eqn:E; [by eexists|].
  cbn [negb andb] in Hl. unfold learns in Hl. apply orb_false_iff in Hl as [Hx Hc]. apply bool_decide_eq_false in Hx.
  pose proof (find_unknown s a 0 Hok (not_held _ _ Hx)) as H. rewrite Hc in H. rewrite (sbind _ _ _ _ _ H). by eexists.
Qed.

Lemma ip_input_learns s p (src : Z) smac :
  arp_ok s -> quiet s -> on_buf (ld32 p eih_src) s = Some (src, s) -> mac_at s p (payload (store (nt (et s)) p) + eh_src) = smac ->
  exists s', etharp_ip_input p s = Some (tt, s') /\ learnt src smac s s'.
Proof.
  intros Hok Hq Hr Hm. unfold etharp_ip_input. rewrite sget_bind, (sbind _ _ _ _ _ Hr).
  destruct (ip_addr_netcmp src _ _) eqn:Ec; cbn [negb]. 2: { exists s. split; [done|]. split; [done..|]. by rewrite Ec. }
  assert (Eg : on_buf (getp p) s = Some (store (nt (et s)) p, s)) by (by apply on_buf_pure). rewrite (sbind _ _ _ _ _ Eg).
  destruct (unicast src (nif s) && learns (arp_table s) src 0) eqn:El.
  - pose proof (andb_prop _ _ El) as [Hu Hl]. destruct (update_quiet s src p (payload (store (nt (et s)) p) + eh_src) 0 Hok Hq Hu Hl) as (i & e & He & _ & E).
    rewrite (sbind _ _ _ _ _ E). eexists. split; [reflexivity|]. split; [done|done| |].
    + by eapply (update_ok).
    + rewrite Ec, Hu, Hl. exists i. cbn [arp_table set_cached set_table]. rewrite at_table_insert, decide_True by (done || by apply (at_table_lt _ _ _ He)).
      by rewrite Hm.
  - destruct (update_unlearnt s src p (payload (store (nt (et s)) p) + eh_src) Hok El) as [x E]. rewrite (sbind _ _ _ _ _ E).
    exists s. split; [done|]. split; [done..|]. by rewrite Ec, <- andb_assoc, El.
Qed.

Lemma ethernet_ip_run p o dmac smac tos id off ttl proto ck src dst pl pad h :
  let f := eth_header dmac smac ++ ip_header tos (20 + blen pl) id off ttl proto ck (le32 src) (le32 dst) ++ pl ++ pad in
  pk p o f 0 (blen f) (hnet h) -> type (store (hnet h) p) = PBUF_POOL -> SIZEOF_STRUCT_PBUF <= o ->
  arp_ok (sk h) -> quiet (sk h) -> length dmac = 6%nat -> length smac = 6%nat ->
  0 <= tos < 256 -> 0 <= ttl < 256 -> 0 <= proto < 256 -> blen f < 65536 -> word32 src -> word32 dst ->
  whole off -> length ck = 2%nat -> for_us src dst (nif (sk h)) ->
  exists n' s', ethernet_input ip_frag ip_reass tcp_input call p h
    = (ip_deliver ip_frag tcp_input call p (o + 14);; mret ERR_OK) (with_net n' (set_sk s' h))
  /\ pk p o f 14 (20 + blen pl) n' /\ touch p (hnet h) n' /\ learnt src smac (sk h) s'.
Proof.
  intros f P Hpool Ho Hok Hq Hd Hs Htos Httl Hproto Hlen Hsrc Hdst Hoff Hck Hus.
  pose proof (blen_nonneg pl). pose proof (blen_nonneg pad).
  pose proof (eth_header_blen dmac smac Hd Hs) as Hb.
  assert (Hf : blen f = 34 + blen pl + blen pad) by (unfold f; rewrite !blen_app, Hb, ip_header_blen by done; lia).
  pose proof (pk_win _ _ _ _ _ _ P) as W. unfold f in W. apply win_app in W as [We W].
  rewrite Hb in W.
  destruct (header_fields _ _ _ _ _ _ _ _ _ _ _ _ _ Hoff Hck W) as [F _].
  unfold eth_header in We. rewrite !win_app in We. destruct We as (_ & Wsrc & Wtype).
  replace (o + blen dmac + blen smac) with (o + 0 + 12) in Wtype by (unfold blen; rewrite Hd, Hs; lia).
  replace (o + blen dmac) with (o + 0 + 6) in Wsrc by (unfold blen; rewrite Hd; lia).
  unfold ethernet_input.
  pose proof (pk_payload _ _ _ _ _ _ P) as Hp.
  assert (E1 : ld16 p eh_type (hnet h) = Some (unle [8; 0], hnet h)).
  { unfold ld16, mbind, NM_bind. by rewrite (ld_at _ _ _ 2 [8; 0]) by (rewrite ?Hp; done). }
  rewrite (i_buf_first _ _ _ _ _ E1), with_net_self. change (htons (unle [8; 0]) =? ETHTYPE_IP) with true. cbv beta zeta iota.
  assert (E2 : on_buf (ld32 p eih_src) (sk h) = Some (src, sk h)).
  { apply on_buf_pure. unfold ld32, mbind, NM_bind. rewrite (ld_at _ _ _ 4 (le32 src)); [by rewrite unle_le32| |done].
    fold (hnet h). rewrite Hp. pose proof (if_src _ _ _ _ _ _ _ _ _ _ F) as Ws. unfold iph_src in Ws. unfold eih_src. by replace (o + 0 + 26) with (o + 14 + 12) by lia. }
  destruct (ip_input_learns (sk h) p src smac Hok Hq E2) as (s1 & E3 & L).
  { fold (hnet h). rewrite Hp. unfold mac_at, eh_src. fold (hnet h). pose proof (win_all _ _ _ _ Wsrc) as E.
    replace (blen smac) with 6 in E by (unfold blen; by rewrite Hs). unfold ld_data, nget in E. injection E as E. exact E. }
  rewrite (ibind (on_stk _) _ h tt (set_sk s1 h)) by (unfold on_stk; by rewrite E3).
  assert (Hn1 : hnet (set_sk s1 h) = hnet h) by (unfold hnet; cbn [sk set_sk]; by rewrite (ln_et _ _ _ _ L)).
  destruct (header_run p o f 0 (blen f) (hnet h) (- sizeof_eth_hdr) P) as (n1 & E4 & P1 & T1); unfold sizeof_eth_hdr in *; try lia.
  rewrite <- Hn1 in E4. rewrite (i_buf_first _ _ _ _ _ E4). cbn [negb].
  change (0 - - (14)) with 14 in P1. replace (blen f + - (14)) with (20 + blen pl + blen pad) in P1 by lia.
  assert (Hpool1 : type (store n1 p) = PBUF_POOL) by (destruct (tc_keeps _ _ _ T1) as (_ & -> & _); done).
  destruct (ip_input_run p o (eth_header dmac smac) tos id off ttl proto ck src dst pl pad n1 (set_sk s1 h)) as (n2 & E5 & P2 & T2); try done; try lia.
  { rewrite Hb. exact P1. }
  { cbn [sk set_sk]. by rewrite (ln_nif _ _ _ _ L). }
  rewrite Hb in E5, P2. exists n2, s1. split; [|split; [done|split; [by eapply touch_trans|done]]].
  unfold mbind, IM_bind. rewrite E5. unfold mbind, IM_bind. by destruct (ip_deliver _ _ _ _ _ _) as [[[] ?]|].
Qed.
End Input.
