(* ===== verification/UdpSend.v ===== *)
(** * Sending a datagram

    The bytes that [udp_sendto] puts on the wire. *)
From stdpp Require Import base tactics list numbers option.
From S2P Require Import Prelude Heap HeapSpec HeapSafe Pbuf PbufSpec Chksum Ethernet EthSpec EthRun EthSend.
From S2P Require Import Stack Etharp EtharpSpec EtharpInv EtharpLife EtharpPkt Ip Icmp Udp IpPkt IpSend.

(** ** Datagrams *)

Definition udp_header (sport dport len : Z) (ck : bytes) : bytes := be16 sport ++ be16 dport ++ be16 len ++ ck.

(** A datagram in an IPv4 packet without options, in an Ethernet frame. *)
Record datagram := mkDatagram {
  dg_tos : Z;
  dg_id : Z;
  dg_ttl : Z;
  dg_src : Z;
  dg_dst : Z;
  dg_sport : Z;
  dg_dport : Z;
  dg_data : bytes }.
(** [off]: flags and fragment offset; [ipck], [udpck]: the checksums. *)
Definition udp_packet (off ipck udpck : bytes) (g : datagram) : bytes :=
  ip_header (dg_tos g) (28 + blen (dg_data g)) (dg_id g) off (dg_ttl g) IP_PROTO_UDP ipck (le32 (dg_src g)) (le32 (dg_dst g))
  ++ udp_header (dg_sport g) (dg_dport g) (8 + blen (dg_data g)) udpck ++ dg_data g.
Definition udp_frame (dmac smac off ipck udpck : bytes) (g : datagram) : bytes :=
  eth_header dmac smac ++ udp_packet off ipck udpck g.

Lemma ip_route_up h n dest : netif_is_up (nif (sk h)) = true -> ip_route dest (with_net n h) = Some (true, with_net n h).
Proof.
  intros Hu. unfold ip_route. rewrite i_nif_bind. cbn [nif sk with_net set_sk set_et set_nt]. unfold id. rewrite Hu. cbn [andb negb].
  by destruct (ip_addr_netcmp _ _ _).
Qed.

(** The source address of what a block sends. *)
Definition own_address (v : udp_pcb) (n : netif) : Prop := local_ip v = 0 \/ local_ip v = ip_addr n.

(** The control block can send from its port. *)
Record sender (v : udp_pcb) (n : netif) : Prop := {
  sd_port : 0 < local_port v < 65536;
  sd_addr : own_address v n;
  sd_tos : 0 <= tos v < 256;
  sd_ttl : 0 <= ttl v < 256 }.

(** Four fields are written to the header. *)
Lemma list8 (l : bytes) : length l = 8%nat -> exists a b c d e f g h, l = [a; b; c; d; e; f; g; h].
Proof. do 8 (destruct l as [|? l]; [discriminate|]). destruct l; [|discriminate]. intros _. by do 8 eexists. Qed.

Section Send.
Context (ip_frag : place -> Z -> IM Z).

(** The datagram that goes out. *)
Definition outgoing (v : udp_pcb) (h : host) (dst_ip dst_port : Z) (data : bytes) : datagram :=
  mkDatagram (tos v) (ip_id h) (ttl v) (ip_addr (nif (sk h))) dst_ip (local_port v) dst_port data.

(** The part of [udp_sendto_if] below UDP: [q] is the datagram. *)
Lemma udp_packet_sent p o a eh ih uh data n h src dst_ip ttl tos mac d :
  0 <= ttl < 256 -> 0 <= tos < 256 -> 0 <= ip_id h < 65536 ->
  arp_ok (sk h) -> knows (sk h) dst_ip mac -> mac_ok (hwaddr (nif (sk h))) -> mac_ok mac ->
  pk p o (a ++ eh ++ ih ++ uh ++ data) (blen a + 34) (8 + blen data) n ->
  length eh = 14%nat -> length ih = 20%nat -> length uh = 8%nat -> bytes_ok ih -> SIZEOF_STRUCT_PBUF <= o + blen a ->
  28 + blen data <= mtu (nif (sk h)) -> blen data + 42 < 65536 -> can_send (blen data + 42) d (sk h) ->
  src = ip_addr (nif (sk h)) ->
  exists n' s', ip_output_if ip_frag p (Some src) (Some dst_ip) ttl tos IP_PROTO_UDP (with_net n h)
    = Some (ERR_OK, with_net n' (set_sk s' (set_ip_id (u16 (ip_id h + 1)) h)))
  /\ sent_by d (eth_header mac (hwaddr (nif (sk h))) ++ ip_header tos (28 + blen data) (ip_id h) [0; 0] ttl IP_PROTO_UDP [0; 0]
                   (le32 src) (le32 dst_ip) ++ uh ++ data) (sk h) s'
  /\ touch p n n'.
Proof.
  intros Httl Htos Hid Hok Hk Hsrc Hmac P Heh Hih Huh Hihok Ho Hmtu Hlen Hsend Esrc.
  pose proof (blen_nonneg data). pose proof (blen_nonneg a).
  assert (Hae : blen (a ++ eh) = blen a + 14) by (unfold blen; rewrite length_app, Heh; lia).
  assert (P1 : pk p o ((a ++ eh) ++ ih ++ (uh ++ data)) (blen (a ++ eh) + 20) (8 + blen data) n).
  { rewrite <- app_assoc, Hae. by replace (blen a + 14 + 20) with (blen a + 34) by lia. }
  destruct (ip_output_run ip_frag p o (a ++ eh) ih (uh ++ data) _ _ n h (Some src) dst_ip ttl tos IP_PROTO_UDP P1 Hih Hihok eq_refl)
    as (n2 & E2 & P2 & T2); unfold IP_PROTO_UDP in *; try lia.
  replace (8 + blen data + 20) with (28 + blen data) in P2 by lia.
  assert (Es : (if ip_addr_isany (Some src) then ip_addr (nif (sk h)) else default 0 (Some src)) = src) by (subst src; cbn; by destruct (ip_addr (nif (sk h)) =? 0)).
  rewrite Es, <- app_assoc, Hae in P2. set (b := ip_header _ _ _ _ _ _ _ _ _ ++ uh ++ data) in P2.
  assert (Hb : blen b = 28 + blen data) by (unfold b, ip_header, blen; rewrite !length_app, Huh; simpl; lia).
  destruct (ip_send_run ip_frag p o a eh b (28 + blen data) n2 (set_ip_id (u16 (ip_id h + 1)) h) dst_ip mac d Hok Hk Hsrc Hmac P2 Heh Ho)
    as (n3 & s3 & E3 & S3 & _ & T3); rewrite ?Hb; try (cbn [sk set_ip_id]; lia).
  { replace (28 + blen data + 14) with (blen data + 42) by lia. exact Hsend. }
  exists n3, s3. rewrite E2, E3. split; [done|]. split; [|by eapply touch_trans].
  rewrite take_ge in S3; [exact S3|]. unfold eth_header. cbn [sk set_ip_id]. rewrite !length_app, (proj1 Hmac), (proj1 Hsrc).
  unfold ETHARP_HWADDR_LEN. change (Z.of_nat (length b)) with (blen b). assert (Hb2 : length b = Z.to_nat (blen b)) by (unfold blen; lia). rewrite Hb2, Hb. simpl length. lia.
Qed.

(** The header of UDP is written. *)
Lemma udp_sendto_run c p o a eh ih uh data n h dst_ip dst_port mac d :
  let v := pcb h c in
  sender v (nif (sk h)) -> netif_is_up (nif (sk h)) = true ->
  0 <= dst_port < 65536 -> 0 <= ip_id h < 65536 ->
  arp_ok (sk h) -> knows (sk h) dst_ip mac -> mac_ok (hwaddr (nif (sk h))) -> mac_ok mac ->
  pk p o (a ++ eh ++ ih ++ uh ++ data) (blen a + 42) (blen data) n ->
  length eh = 14%nat -> length ih = 20%nat -> length uh = 8%nat -> bytes_ok ih -> SIZEOF_STRUCT_PBUF <= o + blen a ->
  28 + blen data <= mtu (nif (sk h)) -> blen data + 42 < 65536 -> can_send (blen data + 42) d (sk h) ->
  exists n' s', udp_sendto ip_frag c p dst_ip dst_port (with_net n h)
    = Some (ERR_OK, with_net n' (set_sk s' (set_ip_id (u16 (ip_id h + 1)) h)))
  /\ sent_by d (udp_frame mac (hwaddr (nif (sk h))) [0; 0] [0; 0] [0; 0] (outgoing v h dst_ip dst_port data)) (sk h) s'
  /\ touch p n n'.
Proof.
  intros v [Hport Haddr Htos Httl] Hup Hdp Hid Hok Hk Hsrc Hmac P Heh Hih Huh Hihok Ho Hmtu Hlen Hsend.
  pose proof (blen_nonneg data). pose proof (blen_nonneg a). unfold udp_sendto. rewrite (ibind _ _ _ _ _ (ip_route_up h n dst_ip Hup)). cbn [negb].
  unfold udp_sendto_if, getc. rewrite iget_bind. cbn [pcb with_net set_sk]. fold v. destruct (Z.eqb_spec (local_port v) 0); [lia|].
  rewrite iret_bind. change (negb (ERR_OK =? ERR_OK)) with false. cbv iota.
  destruct (header_run p o _ _ _ n UDP_HLEN P) as (n1 & E1 & P1 & T1); unfold UDP_HLEN in *; try lia.
  rewrite (i_buf_bind _ _ _ _ _ _ E1). cbn [negb]. rewrite iret_bind. cbv zeta. rewrite i_getp_bind, iget_bind.
  cbn [pcb with_net set_sk]. fold v. rewrite (pk_payload _ _ _ _ _ _ P1), (pk_tot _ _ _ _ _ _ P1).
  set (A := a ++ eh ++ ih). assert (HA : blen A = blen a + 34) by (unfold A, blen; rewrite !length_app, Heh, Hih; lia).
  assert (P2 : pk p o (A ++ uh ++ data) (blen A) (8 + blen data) n1).
  { unfold A. rewrite <- !app_assoc. fold A. replace (blen A) with (blen a + 42 - 8) by lia. by replace (8 + blen data) with (blen data + 8) by lia. }
  replace (o + (blen a + 42 - 8)) with (o + blen A + 0) by lia. replace (o + blen A + 0 + 2) with (o + blen A + 2) by lia.
  replace (o + blen A + 0 + 6) with (o + blen A + 6) by lia. replace (o + blen A + 0 + 4) with (o + blen A + 4) by lia.
  destruct (list8 uh Huh) as (?&?&?&?&?&?&?&?&->).
  rewrite i_wr16_bind, le16_htons by lia. pk_write 0%nat (be16 (local_port v)) P2.
  rewrite i_wr16_bind, le16_htons by lia. pk_write 2%nat (be16 dst_port) P2.
  rewrite i_wr16_bind. pk_write 6%nat (le16 0) P2. rewrite i_nif_bind. cbn [nif sk with_net set_sk set_et set_nt].
  assert (Hsource : negb (ip_addr_isany (Some (local_ip v))) && negb (local_ip v =? ip_addr (nif (sk h))) = false).
  { unfold ip_addr_isany. destruct Haddr as [->| ->]; [done|]. by rewrite Z.eqb_refl, andb_false_r. }
  rewrite Hsource. cbv iota. rewrite i_wr16_bind, le16_htons by lia. replace (blen data + 8) with (8 + blen data) by lia.
  pk_write 4%nat (be16 (8 + blen data)) P2. rewrite bool_decide_true by done.
  match type of P2 with pk _ _ (A ++ ?u ++ _) _ _ ?m => set (uh2 := u) in *; set (n2 := m) in * end.
  rewrite HA in P2. unfold A in P2. rewrite <- !app_assoc in P2.
  destruct (udp_packet_sent p o a eh ih uh2 data n2 h (if ip_addr_isany (Some (local_ip v)) then ip_addr (nif (sk h)) else local_ip v)
    dst_ip (ttl v) (tos v) mac d) as (n3 & s3 & E3 & S3 & T3); try done.
  { unfold ip_addr_isany. destruct Haddr as [-> | ->]; [done|]. by destruct (_ =? 0). }
  exists n3, s3. rewrite (ibind _ _ _ _ _ E3). split; [done|]. split.
  - replace (if ip_addr_isany (Some (local_ip v)) then ip_addr (nif (sk h)) else local_ip v) with (ip_addr (nif (sk h))) in S3; [exact S3|].
    unfold ip_addr_isany. destruct Haddr as [-> | ->]; [done|]. by destruct (_ =? 0).
  - eapply touch_trans; [exact T1|]. eapply touch_trans; [|exact T3]. unfold n2. repeat (eapply touch_trans; [|apply touch_poke]). apply touch_refl.
Qed.
End Send.

(** ** A buffer of the heap *)

(** The data are bytes. *)
Definition data_ok (n : net) : Prop := forall p i, 0 <= data n p i < 256.

Definition shown (n : net) (p : place) (o k : Z) : bytes := (fun i => data n p (o + i)) <$> seqZ 0 k.
Lemma shown_win n p o k : win n p o (shown n p o k).
Proof.
  intros i b. unfold shown. rewrite list_lookup_fmap. intros (j & Hj & ->)%fmap_Some. apply lookup_seqZ in Hj as [-> _]. do 2 f_equal; lia.
Qed.
Lemma shown_length n p o k : length (shown n p o k) = Z.to_nat k.
Proof. unfold shown. by rewrite length_fmap, length_seqZ. Qed.
Lemma shown_ok n p o k : data_ok n -> bytes_ok (shown n p o k).
Proof. intros H. apply Forall_lookup_2. intros i b. unfold shown. rewrite list_lookup_fmap. intros (j & _ & ->)%fmap_Some. apply H. Qed.

(** The buffer of [UDP_sendData] with its data: 42 bytes of room. *)
Lemma filled_pk n p o bs :
  p = InHeap o -> store n p = mkPbuf None 72 (blen bs) (blen bs) PBUF_RAM 0 1 -> data_ok n ->
  let s k := shown n p k in
  pk p 16 (s 16 14 ++ s 30 14 ++ s 44 20 ++ s 64 8 ++ bs) (blen (s 16 14) + 42) (blen bs) (poke p 72 bs n) /\ bytes_ok (s 44 20).
Proof.
  intros Hp Hst Hok s. split; [|by apply shown_ok].
  assert (Hb : forall k l, 0 <= l -> blen (s k l) = l) by (intros; unfold blen, s; rewrite shown_length; lia).
  assert (Hs : forall k l, 0 <= l -> k + l <= 72 -> win (poke p 72 bs n) p k (s k l)).
  { intros k l Hl Hk. apply poke_out; [apply shown_win|]. right. right. rewrite Hb; lia. }
  rewrite (Hb 16 14) by lia.
  split; try (cbn [store poke]; rewrite Hst; cbn [payload len tot_len p_next type]; auto; lia).
  apply win_app. rewrite Hb by lia. split; [by apply Hs|]. apply win_app. rewrite Hb by lia. split; [by apply (Hs 30)|].
  apply win_app. rewrite Hb by lia. split; [by apply (Hs 44)|]. apply win_app. rewrite Hb by lia. split; [by apply (Hs 64)|].
  exact (poke_self n p 72 bs).
Qed.

(** A free block has room for the buffer of a datagram of [n] bytes. *)
Definition room_left (n : Z) (bs : list block) : Prop :=
  Exists (fun b => in_use b = false /\ 72 + LWIP_MEM_ALIGN_SIZE n <= size b) bs.

Lemma transport_alloc s bs n :
  heap_reach (hp s) bs -> 0 <= n <= 944 ->
  (exists o h1 s', mem_malloc (transport_request n) (hp s) = Some (Some o, h1)
     /\ pbuf_alloc PBUF_TRANSPORT n PBUF_RAM s = Some (Some (InHeap o), s')
     /\ hp s' = h1 /\ data s' = data s /\ store s' (InHeap o) = mkPbuf None 72 n n PBUF_RAM 0 1 /\ room_left n bs)
  \/ (pbuf_alloc PBUF_TRANSPORT n PBUF_RAM s = Some (None, s) /\ ~ room_left n bs).
Proof.
  intros Hre Hn. destruct (transport_request_small n ltac:(lia)) as [Hq Hn0]. destruct (malloc_outcome (hp s) bs (transport_request n) Hre) as (r & h & E & Hr).
  unfold pbuf_alloc, alloc_ram. change (layer_offset PBUF_TRANSPORT) with 54.
  change (LWIP_MEM_ALIGN_SIZE (SIZEOF_STRUCT_PBUF + 54)) with 72. fold (transport_request n). rewrite (on_heap_run _ _ _ _ _ E).
  destruct r as [o|]; [left|right].
  - cbv iota zeta. rewrite setp_bind. unfold finish. rewrite setp_bind. eexists o, h, _. split; [done|]. split; [reflexivity|].
    split; [done|]. split; [done|]. split; [by rewrite !stored_eq|].
    destruct Hr as (bs' & z & _ & _ & _ & _ & _ & _ & _ & _ & _ & Hx). by rewrite Hq in Hx.
  - destruct Hr as [-> Hr]. rewrite Hq in Hr. split; [by destruct s|]. destruct Hr as [?|Hr]; [done|].
    apply list.Forall_not_Exists, (list.Forall_impl _ _ _ Hr). intros b [Hb|Hb] [Hu Hx]; [congruence|lia].
Qed.

(** The only reference to a buffer of the heap is given up. *)
Lemma heap_pbuf_free n o h2 :
  type (store n (InHeap o)) = PBUF_RAM -> ref (store n (InHeap o)) = 1 -> p_next (store n (InHeap o)) = None ->
  mem_free (Some o) (hp n) = Some (tt, h2) ->
  exists n', pbuf_free (Some (InHeap o)) n = Some (1, n') /\ hp n' = h2 /\ memp_tab n' = memp_tab n
  /\ forall q, q <> InHeap o -> store n' q = store n q.
Proof.
  intros Ht Hr Hn E. unfold pbuf_free, pbuf_fuel. cbn [free_loop]. rewrite setp_bind, getp_bind, stored_eq.
  cbn [ref type p_next upd_ref]. rewrite Hr, Ht, Hn. change (u16 (1 - 1) =? 0) with true. cbv iota zeta.
  rewrite (on_heap_run _ _ (stored _ _ n) _ _ E). eexists. split; [reflexivity|]. split; [done|]. split; [done|].
  intros q Hq. cbn [store]. by rewrite stored_ne.
Qed.

Section Claim.
Context (ip_frag : place -> Z -> IM Z).

(** C28: [UDP_sendData] for up to 944 bytes, over an interface that is
    up and whose MTU has room for the packet, with a control block that has a
    port and whose local address is unset or the interface's ([sender]), to an
    address whose Ethernet address is in the ARP table, with a transmit
    descriptor free, returns and leaves the heap's blocks as they were.  If a free
    block of the heap has room for the buffer, the frame handed to the DMA is the
    datagram of these bytes: the headers of Ethernet, IP and UDP with the
    addresses, ports and lengths, its checksums left to the MAC.  If none has,
    nothing is sent and nothing changes at all. *)
Theorem datagram_sent (c : place) (dst_ip dst_port : Z) (bs mac : bytes) (d : desc) (blocks : list block) (h : host) :
  let n := nif (sk h) in
  heap_reach (hp (hnet h)) blocks -> data_ok (hnet h) -> blen bs <= 944 ->
  sender (pcb h c) n -> netif_is_up n = true -> 0 <= dst_port < 65536 -> 0 <= ip_id h < 65536 ->
  arp_ok (sk h) -> knows (sk h) dst_ip mac -> mac_ok (hwaddr n) -> mac_ok mac ->
  28 + blen bs <= mtu n -> can_send (blen bs + 42) d (sk h) ->
  exists h', UDP_sendData ip_frag c dst_ip dst_port bs h = Some (tt, h') /\ heap_reach (hp (hnet h')) blocks /\
  (room_left (blen bs) blocks -> ip_id h' = u16 (ip_id h + 1) /\
     sent d (udp_frame mac (hwaddr n) [0; 0] [0; 0] [0; 0] (outgoing (pcb h c) h dst_ip dst_port bs)) (et (sk h)) (et (sk h')))
  /\ (~ room_left (blen bs) blocks -> h' = h).
Proof.
  intros n Hre Hdata Hlen Hsd Hup Hport Hid Hok Hk Hsrc Hmac Hmtu Hsend. pose proof (blen_nonneg bs). unfold UDP_sendData.
  rewrite u16_small by lia.
  destruct (transport_alloc (hnet h) blocks (blen bs) Hre ltac:(lia)) as [(o & h1 & s1 & Em & E1 & Eh & Ed & Est & Hroom)|[E1 Hb]].
  2: { rewrite (i_buf_first _ _ _ _ _ E1). exists h. rewrite with_net_self. split; [done|]. split; [done|]. by split. }
  rewrite (i_buf_first _ _ _ _ _ E1). rewrite i_getp_bind, Est. cbn [payload].
  assert (Hdata1 : data_ok s1) by (unfold data_ok; by rewrite Ed).
  destruct (filled_pk s1 (InHeap o) o bs eq_refl Est Hdata1) as [P Hih]. cbv zeta in P, Hih.
  assert (Ew : st_data (InHeap o) 72 bs s1 = Some (tt, poke (InHeap o) 72 bs s1)) by done. rewrite (i_buf_bind _ _ _ _ _ _ Ew).
  destruct (udp_sendto_run ip_frag c (InHeap o) 16 _ _ _ _ bs _ h dst_ip dst_port mac d Hsd Hup Hport Hid Hok Hk Hsrc Hmac P)
    as (n2 & s2 & E2 & S2 & T2); rewrite ?shown_length; try done; try lia.
  rewrite (ibind _ _ _ _ _ E2).
  destruct (free_restores (hp (hnet h)) blocks _ o h1 Hre Em) as (h2 & E3 & Hre2 & _). destruct (tc_keeps _ _ _ T2) as (K1 & K2 & _ & K4).
  destruct (heap_pbuf_free n2 o h2) as (n3 & E4 & Eh3 & _); rewrite ?K1, ?K2, ?K4; cbn [store poke]; rewrite ?Est; try done.
  { rewrite (tc_hp _ _ _ T2). cbn [hp poke]. by rewrite Eh. }
  rewrite (i_buf_bind _ _ _ _ _ _ E4). eexists. split; [reflexivity|]. cbn [hnet sk et nt with_net set_sk set_et set_nt].
  rewrite Eh3. split; [done|]. split; [intros _|done]. split; [done|]. destruct S2 as (s3 & _ & _ & [R1 R2 R3 R4]). by split.
Qed.
End Claim.
