(* ===== verification/UdpSpec.v ===== *)
(** * The list of control blocks

    The blocks of [udp_pcbs] as a list of places; what the search of [udp_input]
    answers, and what binding and removing do to the list. *)
From stdpp Require Import base tactics list numbers option.
From S2P Require Import Prelude Heap HeapSpec Pbuf PbufSpec Chksum Ethernet EthSpec Stack Etharp EtharpSpec EtharpPkt Ip Icmp Udp IpPkt.

(** The blocks [cs] are linked from [p] on. *)
Fixpoint linked (f : place -> udp_pcb) (p : option place) (cs : list place) : Prop :=
  match cs with
  | [] => p = None
  | c :: cs => p = Some c /\ linked f (pcb_next (f c)) cs
  end.
Record pcbs (h : host) (cs : list place) : Prop := {
  pb_linked : linked (pcb h) (udp_pcbs h) cs;
  pb_nodup : NoDup cs;
  pb_few : (length cs <= 4)%nat }.

Lemma linked_ext f g p cs : (forall c, c ∈ cs -> pcb_next (g c) = pcb_next (f c)) -> linked f p cs -> linked g p cs.
Proof.
  revert p. induction cs as [|c cs IH]; intros p He; [done|]. intros [-> Hl]. split; [done|].
  rewrite He by (apply elem_of_cons; by left). apply IH; [|done]. intros x Hx. apply He, elem_of_cons. by right.
Qed.
Lemma linked_app f p as' b bs :
  linked f p (as' ++ b :: bs) -> linked f (Some b) (b :: bs)
  /\ match list.last as' with Some r => pcb_next (f r) = Some b | None => p = Some b end.
Proof.
  revert p. induction as' as [|a as' IH]; intros p; [intros [-> Hl]; by split|]. intros [-> Hl]. destruct (IH _ Hl) as [H1 H2].
  split; [done|]. destruct as' as [|a' as']; [exact H2|].
  change (list.last (a :: a' :: as')) with (list.last (a' :: as')). destruct (list.last (a' :: as')) eqn:E; [done|]. by apply last_None in E.
Qed.

(** Only links differ. *)
Definition same_blocks (h h' : host) : Prop :=
  ip_id h' = ip_id h /\ sk h' = sk h /\ forall c, put_next None (pcb h' c) = put_next None (pcb h c).
Lemma same_blocks_refl h : same_blocks h h.
Proof. done. Qed.
Lemma same_blocks_field {A} (f : udp_pcb -> A) h h' c :
  (forall v n, f (put_next n v) = f v) -> same_blocks h h' -> f (pcb h' c) = f (pcb h c).
Proof. intros Hf (_ & _ & Hc). rewrite <- (Hf (pcb h' c) None), <- (Hf (pcb h c) None). by rewrite Hc. Qed.

(** ** The search of [udp_input] *)

Section Find.
Variables (broadcast : bool) (dest_ip dest src_ip src : Z).

(** A block that is connected to the sender, or to nobody in particular. *)
Definition full (v : udp_pcb) : bool := local_match v broadcast dest_ip dest && remote_match v src_ip src.
Definition unconnected (v : udp_pcb) : bool :=
  local_match v broadcast dest_ip dest && (Z.land (pcb_flags v) UDP_FLAGS_CONNECTED =? 0).

(** The block for the datagram, and the list it leaves. *)
Definition demux (f : place -> udp_pcb) (cs : list place) : option place * list place :=
  match list_find (fun c => full (f c) = true) cs with
  | Some (i, c) => (Some c, c :: delete i cs)
  | None => (list.head (filter (fun c => unconnected (f c) = true) cs), cs)
  end.

Lemma find_nothing cs : forall fuel p prev uncon h,
  linked (pcb h) p cs -> (length cs < fuel)%nat -> Forall (fun c => full (pcb h c) = false) cs ->
  udp_find fuel p prev uncon broadcast dest_ip dest src_ip src h
  = Some (match uncon with Some u => Some u | None => list.head (filter (fun c => unconnected (pcb h c) = true) cs) end, h).
Proof.
  induction cs as [|c cs IH]; intros [|fuel] p prev uncon h Hl Hf Hn; try (simpl in Hf; lia).
  - simpl in Hl. subst p. cbn [udp_find]. rewrite filter_nil. by destruct uncon.
  - destruct Hl as [-> Hl]. apply Forall_cons_1 in Hn as [Hc Hn]. cbn [udp_find]. unfold getc. rewrite iget_bind. cbv beta zeta.
    unfold full in Hc. rewrite Hc. rewrite IH; [|done|simpl in Hf; lia|done]. do 2 f_equal. rewrite filter_cons. unfold unconnected.
    destruct uncon as [u|]; [by rewrite bool_decide_false, andb_false_r by done|]. rewrite bool_decide_true, andb_true_r by done.
    by destruct (local_match (pcb h c) broadcast dest_ip dest && (Z.land (pcb_flags (pcb h c)) UDP_FLAGS_CONNECTED =? 0)).
Qed.

Lemma find_passes l : forall c cs fuel p prev uncon h,
  linked (pcb h) p (l ++ c :: cs) -> (length l < fuel)%nat -> Forall (fun x => full (pcb h x) = false) l -> full (pcb h c) = true ->
  exists r u, udp_find (fuel + 1) p prev uncon broadcast dest_ip dest src_ip src h
    = udp_find (fuel - length l + 1) (Some c) r u broadcast dest_ip dest src_ip src h
  /\ r = match list.last l with Some x => Some x | None => prev end.
Proof.
  induction l as [|a l IH]; intros c cs fuel p prev uncon h Hl Hf Hn Hc.
  - destruct Hl as [-> _]. exists prev, uncon. split; [|done]. simpl length. by rewrite Nat.sub_0_r.
  - destruct Hl as [-> Hl]. apply Forall_cons_1 in Hn as [Ha Hn]. rewrite Nat.add_comm. cbn [Nat.add udp_find]. unfold getc. rewrite iget_bind.
    cbv beta zeta. unfold full in Ha. rewrite Ha. simpl in Hf. destruct fuel as [|fuel]; [lia|]. rewrite <- (Nat.add_1_r fuel).
    edestruct (IH c cs fuel) as (r & u & E & Hr); [exact Hl|lia|done|done|]. exists r, u. split; [rewrite E; simpl length; f_equal; lia|].
    rewrite Hr. destruct l as [|a' l]; [done|]. change (list.last (a :: a' :: l)) with (list.last (a' :: l)).
    destruct (list.last (a' :: l)) eqn:El; [done|]. by apply last_None in El.
Qed.
End Find.

(** [c] is taken out behind [x]. *)
Lemma linked_skip f g x c l : forall p rest,
  linked f p (l ++ c :: rest) -> list.last l = Some x -> NoDup (l ++ c :: rest) ->
  pcb_next (g x) = pcb_next (f c) -> (forall y, y ∈ l ++ rest -> y <> x -> pcb_next (g y) = pcb_next (f y)) ->
  linked g p (l ++ rest).
Proof.
  induction l as [|a l IH]; intros p rest Hl Hx Hn Hgx Hg; [done|]. destruct Hl as [-> Hl]. split; [done|].
  apply list.NoDup_cons in Hn as [Ha Hn]. destruct l as [|a' l].
  - injection Hx as ->. rewrite Hgx. destruct Hl as [_ Hl]. apply (linked_ext f); [|done]. intros y Hy. apply Hg.
    + by apply elem_of_cons; right.
    + intros ->. apply Ha. simpl. apply elem_of_cons. by right.
  - change (list.last (a :: a' :: l)) with (list.last (a' :: l)) in Hx. rewrite Hg; [|by apply elem_of_cons; left|].
    + apply IH; try done. intros y Hy. apply Hg, elem_of_cons. by right.
    + intros ->. apply Ha. change (x ∈ (a' :: l) ++ c :: rest). apply elem_of_app. left.
      apply last_Some in Hx as [l' ->]. apply elem_of_app. right. apply elem_of_cons. by left.
Qed.

(** The block is moved to the front. *)
Lemma move_front h l c rest x :
  pcbs h (l ++ c :: rest) -> list.last l = Some x ->
  let v := pcb h c in
  let h1 := set_pcb x (put_next (pcb_next v) (pcb h x)) h in
  let h2 := set_pcb c (put_next (udp_pcbs h) (pcb h1 c)) h1 in
  pcbs (set_pcbs (Some c) h2) (c :: l ++ rest) /\ same_blocks h (set_pcbs (Some c) h2).
Proof.
  intros [Hl Hn Hk] Hx v h1 h2. assert (Hin : x ∈ l) by (apply last_Some in Hx as [l' ->]; apply elem_of_app; right; apply elem_of_cons; by left).
  apply list.NoDup_app in Hn as Hn'. destruct Hn' as (Hnl & Hd & [Hc Hnr]%list.NoDup_cons).
  assert (Hxc : x <> c) by (intros ->; apply (Hd c Hin), elem_of_cons; by left).
  assert (Hcx : c ∉ l ++ rest) by (intros [H|H]%elem_of_app; [apply (Hd c H), elem_of_cons; by left|done]).
  split; [split|].
  - split; [done|]. cbn. destruct (decide (c = c)) as [_|]; [|done]. cbn.
    apply (linked_skip (pcb h) _ x c); [done|done|done| |].
    + cbn. rewrite decide_False by done. by rewrite decide_True.
    + intros y Hy Hyx. cbn. rewrite decide_False by congruence. by rewrite decide_False.
  - apply list.NoDup_cons. split; [done|]. apply list.NoDup_app. split; [done|]. split; [|done]. intros y Hy Hr. apply (Hd y Hy), elem_of_cons. by right.
  - rewrite length_app in Hk. simpl in *. rewrite length_app. lia.
  - split; [done|]. split; [done|]. intros y. cbn. destruct (decide (y = c)) as [->|]; [by rewrite decide_False|].
    by destruct (decide (y = x)) as [->|].
Qed.

Lemma udp_find_run broadcast dest_ip dest src_ip src h cs :
  pcbs h cs ->
  exists h', udp_find udp_fuel (udp_pcbs h) None None broadcast dest_ip dest src_ip src h
    = Some (fst (demux broadcast dest_ip dest src_ip src (pcb h) cs), h')
  /\ pcbs h' (snd (demux broadcast dest_ip dest src_ip src (pcb h) cs)) /\ same_blocks h h'.
Proof.
  intros Hp. pose proof Hp as [Hl Hn Hk]. unfold demux. destruct (list_find _ cs) as [[i c]|] eqn:Ef.
  - apply list_find_Some in Ef as (Hi & Hc & Hbefore). cbn [fst snd].
    assert (Hs : cs = take i cs ++ c :: skipn (S i) cs) by (by rewrite take_drop_middle). pose proof (lookup_lt_Some _ _ _ Hi) as Hlt.
    assert (Hno : Forall (fun x => full broadcast dest_ip dest src_ip src (pcb h x) = false) (take i cs)).
    { apply Forall_lookup_2. intros j y Hy. apply lookup_take_Some in Hy as [Hy Hj]. apply not_true_is_false. by apply (Hbefore j y). }
    rewrite delete_take_drop. rewrite Hs in Hl, Hp. clear Hs. set (l := take i cs) in *. set (rest := skipn (S i) cs) in *.
    destruct (find_passes broadcast dest_ip dest src_ip src l c rest 4 _ None None h Hl) as (r & u & E & Hr); [unfold l; rewrite length_take; lia|done|done|].
    unfold udp_fuel. change 5%nat with (4 + 1)%nat. rewrite E, Nat.add_1_r. cbn [udp_find]. unfold getc. rewrite iget_bind. cbv beta zeta.
    unfold full in Hc. rewrite Hc. destruct (list.last l) as [x|] eqn:Ex.
    + rewrite Hr. unfold setc. eexists. split; [reflexivity|]. exact (move_front _ _ _ _ _ Hp Ex).
    + rewrite Hr. apply last_None in Ex. rewrite Ex in *. eexists. split; [reflexivity|]. done.
  - apply list_find_None in Ef. cbn [fst snd]. exists h. split; [|done]. unfold udp_fuel. rewrite (find_nothing _ _ _ _ _ cs); [done|done|lia|].
    apply (list.Forall_impl _ _ _ Ef). intros y Hy. by apply not_true_is_false.
Qed.

(** C29: The search of [udp_input] among the linked control blocks, at most
    four. A block wants the datagram if its local port and address fit; it is a
    full match if, besides, its remote port is the port of the sender and its
    remote address is unset or the sender's. The search returns the first full
    match, and moves that block to the front of the list, all others in their
    order; if there is none, the first block that wants the datagram and is not
    connected, and the list stays. Blocks keep their fields. *)
Theorem udp_demux (broadcast : bool) (dest_ip dest src_ip src : Z) (h : host) (cs : list place) :
  pcbs h cs ->
  exists h', udp_find udp_fuel (udp_pcbs h) None None broadcast dest_ip dest src_ip src h
    = Some (fst (demux broadcast dest_ip dest src_ip src (pcb h) cs), h')
  /\ pcbs h' (snd (demux broadcast dest_ip dest src_ip src (pcb h) cs)) /\ same_blocks h h'.
Proof. apply udp_find_run. Qed.
