(* ===== verification/UdpBind.v ===== *)
(** * Binding control blocks

    What the operations on control blocks do to the list, and the port a block is
    bound to. *)
From stdpp Require Import base tactics list numbers option.
From S2P Require Import Prelude Heap HeapSpec Pbuf PbufSpec Chksum Ethernet Stack Etharp EtharpSpec Ip Icmp Udp IpPkt UdpSpec.

Lemma on_list_run c cs : forall fuel p h,
  linked (pcb h) p cs -> (length cs < fuel)%nat -> on_list fuel c p h = Some (bool_decide (c ∈ cs), h).
Proof.
  induction cs as [|a cs IH]; intros [|fuel] p h Hl Hf; try (simpl in Hf; lia).
  - simpl in Hl. subst p. done.
  - destruct Hl as [-> Hl]. cbn [on_list]. unfold getc. rewrite iget_bind.
    rewrite (ibind _ _ _ _ _ (IH fuel _ h Hl ltac:(simpl in Hf; lia))). unfold mret, IM_ret. do 2 f_equal.
    destruct (decide (c ∈ cs)) as [Hc|Hc].
    + rewrite (bool_decide_true (c ∈ cs)), orb_true_r by done. symmetry. apply bool_decide_true. by apply elem_of_cons; right.
    + rewrite (bool_decide_false (c ∈ cs)), orb_false_r by done. apply bool_decide_ext. rewrite elem_of_cons. naive_solver.
Qed.

(** ** The port *)

Definition ports (h : host) (cs : list place) : list Z := (fun c => local_port (pcb h c)) <$> cs.
(** How many ports are [port] or above. *)
Definition above (port : Z) (l : list Z) : nat := length (filter (fun x => port <= x) l).
(** The least port from [port] on that is not in [l]. *)
Record least_free (port : Z) (l : list Z) (q : Z) : Prop := {
  lf_low : port <= q;
  lf_free : q ∉ l;
  lf_least : forall r, port <= r < q -> r ∈ l }.

Lemma above_length port l : (above port l <= length l)%nat.
Proof. apply length_filter. Qed.
Lemma above_step port l : port ∈ l -> (above (port + 1) l < above port l)%nat.
Proof.
  induction l as [|x l IH]; intros Hin; [by apply not_elem_of_nil in Hin|]. unfold above. rewrite !filter_cons.
  assert (Hle : (above (port + 1) l <= above port l)%nat).
  { clear. unfold above. induction l as [|y l IH]; [done|]. rewrite !filter_cons. destruct (decide (port + 1 <= y)), (decide (port <= y)); simpl; lia. }
  unfold above in Hle. apply elem_of_cons in Hin as [->|Hin].
  - rewrite decide_False by lia. rewrite decide_True by lia. simpl. lia.
  - specialize (IH Hin). unfold above in IH. destruct (decide (port + 1 <= x)), (decide (port <= x)); simpl; lia.
Qed.

(** The search from the blocks [rs] on, after the blocks [ps] with other ports. *)
Lemma free_port_run h cs : forall fuel port p ps rs,
  linked (pcb h) (udp_pcbs h) cs -> cs = ps ++ rs -> linked (pcb h) p rs -> port ∉ ports h ps ->
  0 <= port -> port + Z.of_nat (above port (ports h cs)) < UDP_LOCAL_PORT_RANGE_END ->
  (above port (ports h cs) * length cs + length rs < fuel)%nat ->
  exists q, free_port fuel port p h = Some (Some q, h) /\ least_free port (ports h cs) q
  /\ q <= port + Z.of_nat (above port (ports h cs)).
Proof.
  induction fuel as [|fuel IH]; intros port p ps rs Hall Hcs Hl Hps Hlo Hhi Hf; [lia|]. destruct rs as [|r rs].
  - simpl in Hl. subst p. cbn [free_port]. exists port. rewrite app_nil_r in Hcs. subst ps. split; [done|]. split; [|lia].
    split; [lia|done|intros; lia].
  - destruct Hl as [-> Hl]. cbn [free_port]. destruct (Z.eqb_spec port UDP_LOCAL_PORT_RANGE_END); [unfold UDP_LOCAL_PORT_RANGE_END in *; lia|].
    unfold getc. rewrite iget_bind. cbv beta zeta. destruct (Z.eqb_spec (local_port (pcb h r)) port) as [E|E].
    + assert (Hin : port ∈ ports h cs).
      { unfold ports. rewrite Hcs, fmap_app, fmap_cons, E. apply elem_of_app. right. apply elem_of_cons. by left. }
      pose proof (above_step _ _ Hin) as Hlt. rewrite iget_bind, (u16_small (port + 1)) by (unfold UDP_LOCAL_PORT_RANGE_END in *; lia).
      assert (Hlen : (length rs < length cs)%nat) by (rewrite Hcs, length_app; simpl; lia).
      destruct (IH (port + 1) (udp_pcbs h) [] cs) as (q & Eq & [L1 L2 L3] & Hq); try done; try lia.
      { by apply not_elem_of_nil. } { simpl in Hf. nia. }
      exists q. split; [done|]. split; [|lia]. split; [lia|done|]. intros x Hx. destruct (decide (x = port)) as [->|]; [done|]. apply L3. lia.
    + destruct (IH port (pcb_next (pcb h r)) (ps ++ [r]) rs) as (q & Eq & Hlf & Hq); try done.
      { by rewrite <- app_assoc. } 
      { unfold ports. rewrite fmap_app. intros [Hx|Hx]%elem_of_app; [done|]. apply list_elem_of_singleton in Hx. congruence. }
      { simpl in Hf. lia. }
      by exists q.
Qed.

(** ** [udp_bind] *)

(** The block [c] has its address and port, and is on the list. *)
Record bound (c : place) (ip q : Z) (h h' : host) (cs : list place) : Prop := {
  bd_id : ip_id h' = ip_id h;
  bd_sk : sk h' = sk h;
  bd_pcbs : pcbs h' (if decide (c ∈ cs) then cs else c :: cs);
  bd_others : forall b, b <> c -> pcb h' b = pcb h b;
  bd_block : put_next None (pcb h' c) = put_next None (put_port q (put_local ip (pcb h c))) }.

Lemma setc_bind {B} c f (k : unit -> IM B) s : (setc c f ≫= k) s = k tt (set_pcb c (f (pcb s c)) s).
Proof. done. Qed.
Lemma set_same c v h : pcb (set_pcb c v h) c = v.
Proof. cbn. by rewrite decide_True. Qed.
Lemma set_other c v h b : b <> c -> pcb (set_pcb c v h) b = pcb h b.
Proof. intros Hb. cbn. by rewrite decide_False. Qed.

(** A change of other fields leaves the list. *)
Lemma pcbs_change c v h cs : pcb_next v = pcb_next (pcb h c) -> pcbs h cs -> pcbs (set_pcb c v h) cs.
Proof.
  intros Hv [Hl Hn Hk]. split; [|done|done]. apply (linked_ext (pcb h)); [|done]. intros b _. destruct (decide (b = c)) as [->|].
  - by rewrite set_same.
  - by rewrite set_other.
Qed.
(** A block that is put in front of the list. *)
Lemma pcbs_push c h cs :
  pcbs h cs -> c ∉ cs -> (length cs < 4)%nat ->
  pcbs (set_pcbs (Some c) (set_pcb c (put_next (udp_pcbs h) (pcb h c)) h)) (c :: cs).
Proof.
  intros [Hl Hn Hk] Hc Hlen. split; [|by apply list.NoDup_cons|simpl; lia]. split; [done|].
  change (pcb (set_pcbs _ ?x)) with (pcb x). rewrite set_same. cbn [pcb_next put_next]. apply (linked_ext (pcb h)); [|done].
  intros b Hb. rewrite set_other; [done|]. by intros ->.
Qed.

(** The end of [udp_bind] and [udp_connect]. *)
Lemma listed_run c h cs (listed : bool) :
  listed = bool_decide (c ∈ cs) -> pcbs h cs -> c ∈ cs \/ (length cs < 4)%nat ->
  exists h', (if listed then mret tt
              else first ← iget udp_pcbs; setc c (put_next first);; imod (set_pcbs (Some c))) h = Some (tt, h')
  /\ pcbs h' (if decide (c ∈ cs) then cs else c :: cs) /\ ip_id h' = ip_id h /\ sk h' = sk h
  /\ (forall b, b <> c -> pcb h' b = pcb h b) /\ put_next None (pcb h' c) = put_next None (pcb h c).
Proof.
  intros -> Hp Hroom. destruct (decide (c ∈ cs)) as [Hc|Hc].
  - rewrite bool_decide_true by done. by exists h.
  - rewrite bool_decide_false by done. destruct Hroom as [|Hlen]; [done|]. eexists. split; [reflexivity|].
    split; [by apply pcbs_push|]. split; [done|]. split; [done|]. split; [intros b Hb; cbn; by rewrite decide_False|].
    cbn. by rewrite decide_True.
Qed.

Lemma ports_change c v h cs : local_port v = local_port (pcb h c) -> ports (set_pcb c v h) cs = ports h cs.
Proof.
  intros Hv. unfold ports. apply list_fmap_ext. intros i b _. destruct (decide (b = c)) as [->|]; [by rewrite set_same|by rewrite set_other].
Qed.

Lemma udp_bind_run c ip port h cs :
  pcbs h cs -> c ∈ cs \/ (length cs < 4)%nat ->
  exists q h', udp_bind c ip port h = Some (ERR_OK, h') /\ bound c ip q h h' cs
  /\ if port =? 0 then least_free UDP_LOCAL_PORT_RANGE_START (ports h cs) q /\ q <= UDP_LOCAL_PORT_RANGE_START + 4 else q = port.
Proof.
  intros Hp Hroom. pose proof Hp as [Hl Hn Hk]. unfold udp_bind. rewrite iget_bind.
  rewrite (ibind _ _ _ _ _ (on_list_run c cs udp_fuel _ h Hl ltac:(unfold udp_fuel; lia))). rewrite setc_bind.
  set (h1 := set_pcb c (put_local ip (pcb h c)) h). assert (Hp1 : pcbs h1 cs) by (by apply pcbs_change).
  assert (Hport : exists q, (if port =? 0 then first ← iget udp_pcbs; free_port (udp_fuel * udp_fuel) UDP_LOCAL_PORT_RANGE_START first
      else mret (Some port)) h1 = Some (Some q, h1)
      /\ if port =? 0 then least_free UDP_LOCAL_PORT_RANGE_START (ports h cs) q /\ q <= UDP_LOCAL_PORT_RANGE_START + 4 else q = port).
  { destruct (Z.eqb_spec port 0); [|by exists port]. rewrite iget_bind. pose proof Hp1 as [Hl1 _ _].
    assert (Hpo : ports h1 cs = ports h cs) by (by apply ports_change). pose proof (above_length UDP_LOCAL_PORT_RANGE_START (ports h cs)) as Ha.
    assert (Hpl : length (ports h cs) = length cs) by (apply length_fmap). rewrite Hpl in Ha.
    destruct (free_port_run h1 cs (udp_fuel * udp_fuel) UDP_LOCAL_PORT_RANGE_START (udp_pcbs h1) [] cs) as (q & Eq & Hlf & Hq); try done.
    { by apply not_elem_of_nil. } { rewrite Hpo. unfold UDP_LOCAL_PORT_RANGE_START, UDP_LOCAL_PORT_RANGE_END in *. lia. }
    { rewrite Hpo. unfold udp_fuel. nia. }
    rewrite Hpo in *. exists q. split; [done|]. split; [done|lia]. }
  destruct Hport as (q & Eq & Hq). rewrite (ibind _ _ _ _ _ Eq). rewrite setc_bind.
  set (h2 := set_pcb c (put_port q (pcb h1 c)) h1). assert (Hp2 : pcbs h2 cs) by (by apply pcbs_change).
  destruct (listed_run c h2 cs _ eq_refl Hp2 Hroom) as (h3 & E3 & Hp3 & Hi & Hs & Ho & Hb).
  exists q, h3. split; [by rewrite (ibind _ _ _ _ _ E3)|]. split; [|done]. split; try done.
  - intros b Hbc. rewrite Ho by done. unfold h2, h1. by rewrite !set_other by done.
  - rewrite Hb. unfold h2. rewrite set_same. unfold h1. by rewrite set_same.
Qed.
