(* ===== verification/UdpBlocks.v ===== *)
(** * The control blocks in use

    The list of bound blocks, the blocks handed out and the free ones, as UDP's
    operations leave them. *)
From stdpp Require Import base tactics list numbers option.
From S2P Require Import Prelude Heap HeapSpec Pbuf PbufSpec Chksum Ethernet Stack Etharp EtharpSpec Ip Icmp Udp IpPkt UdpSpec UdpBind.

(** ** Removing *)

Definition but (c : place) (cs : list place) : list place := filter (fun b => b <> c) cs.
Lemma but_in b c cs : b ∈ but c cs <-> b ∈ cs /\ b <> c.
Proof. unfold but. rewrite list_elem_of_filter. tauto. Qed.
Lemma but_out c cs : c ∉ cs -> but c cs = cs.
Proof.
  intros Hc. unfold but. induction cs as [|a cs IH]; [done|]. rewrite not_elem_of_cons in Hc. destruct Hc as [Ha Hc].
  rewrite filter_cons, decide_True by congruence. by rewrite IH.
Qed.
Lemma but_head c cs : c ∉ cs -> but c (c :: cs) = cs.
Proof. intros Hc. unfold but. rewrite filter_cons, decide_False by tauto. by apply but_out. Qed.
Lemma but_other a c cs : a <> c -> but c (a :: cs) = a :: but c cs.
Proof. intros Ha. unfold but. by rewrite filter_cons, decide_True. Qed.

Lemma unlink_run c : forall fuel rs p h,
  linked (pcb h) p rs -> NoDup rs -> p <> Some c -> (length rs < fuel)%nat ->
  exists h', unlink fuel c p h = Some (tt, h') /\ linked (pcb h') p (but c rs) /\ same_blocks h h' /\ udp_pcbs h' = udp_pcbs h
  /\ forall b, b ∉ rs -> pcb h' b = pcb h b.
Proof.
  induction fuel as [|fuel IH]; intros rs p h Hl Hn Hp Hf; [lia|]. destruct rs as [|a rs].
  { simpl in Hl. subst p. exists h. by split_and!. }
  destruct Hl as [-> Hl]. apply list.NoDup_cons in Hn as [Ha Hn]. assert (Hac : a <> c) by congruence. rewrite but_other by done.
  cbn [unlink]. unfold getc. rewrite !iget_bind. case_bool_decide as Hx.
  - rewrite Hx in Hl. destruct rs as [|c' rs]; [done|]. destruct Hl as [E Hl]. injection E as <-. rewrite setc_bind, iget_bind, set_same. cbn [pcb_next put_next].
    apply list.NoDup_cons in Hn as [Hc Hn]. apply not_elem_of_cons in Ha as [_ Ha].
    set (h1 := set_pcb a (put_next (pcb_next (pcb h c)) (pcb h a)) h).
    destruct (IH rs (pcb_next (pcb h c)) h1) as (h2 & E2 & L2 & S2 & P2 & O2); [| |  |simpl in Hf; lia|]; try done.
    { apply (linked_ext (pcb h)); [|done]. intros b Hb. unfold h1. rewrite set_other; [done|]. by intros ->. }
    { intros E. destruct rs as [|r rs]; simpl in Hl; [congruence|]. destruct Hl as [E' _]. apply Hc. apply elem_of_cons. left. congruence. }
    exists h2. split; [done|]. rewrite but_head by done. rewrite but_out in L2 by done. split; [|split; [|split]].
    + split; [done|]. rewrite O2 by done. unfold h1. by rewrite set_same.
    + destruct S2 as (I2 & K2 & B2). split; [done|]. split; [done|]. intros b. rewrite B2. unfold h1.
      destruct (decide (b = a)) as [->|]; [by rewrite set_same|by rewrite set_other].
    + done.
    + intros b. rewrite !not_elem_of_cons. intros (Hb & _ & Hb'). rewrite O2 by done. unfold h1. by rewrite set_other.
  - rewrite iret_bind, iget_bind. destruct (IH rs (pcb_next (pcb h a)) h) as (h2 & E2 & L2 & S2 & P2 & O2); try done; [simpl in Hf; lia|].
    exists h2. split; [done|]. split; [|split; [done|split; [done|]]].
    + split; [done|]. by rewrite O2.
    + intros b. rewrite not_elem_of_cons. intros [_ Hb]. by apply O2.
Qed.

Lemma memp_free_run t c fl n :
  free_list n t fl -> c ∉ fl -> exists n', memp_free t c n = Some (tt, n') /\ free_list n' t (c :: fl).
Proof.
  intros [Hc Hn] Hx. unfold memp_free. rewrite nget_bind, setp_bind. eexists. split; [reflexivity|]. split; [|by apply list.NoDup_cons].
  cbn [chain]. split; [cbn; by rewrite decide_True|]. cbn. rewrite decide_True by done. cbn. apply (chain_ext (store n)); [|done].
  intros b Hb. cbn. rewrite decide_False; [done|]. by intros ->.
Qed.

(** ** The invariant *)

(** [os]: the blocks handed out by [udp_new]; [cs]: the list; [fl]: the free ones. *)
Record blocks (h : host) (os cs fl : list place) : Prop := {
  bk_pcbs : pcbs h cs;
  bk_owned : forall c, c ∈ cs -> c ∈ os;
  bk_once : NoDup os;
  bk_free : free_list (hnet h) MEMP_UDP_PCB fl;
  bk_apart : forall c, c ∈ os -> c ∉ fl;
  bk_count : (length os + length fl = MEMP_NUM_UDP_PCB)%nat }.

(** There is room on the list for every block that is not on it. *)
Lemma blocks_room h os cs fl c : blocks h os cs fl -> c ∈ os -> c ∈ cs \/ (length cs < 4)%nat.
Proof.
  intros [[_ Hn _] Ho Hos _ _ Hc] Hin. destruct (decide (c ∈ cs)) as [|Hx]; [by left|right]. unfold MEMP_NUM_UDP_PCB in Hc.
  assert (Hs : c :: cs ⊆+ os).
  { apply NoDup_submseteq; [by apply list.NoDup_cons|]. intros b [->|Hb]%elem_of_cons; [done|by apply Ho]. }
  apply submseteq_length in Hs. simpl in Hs. lia.
Qed.

(** The list may have grown by a block that is handed out. *)
Lemma blocks_grow h h' os cs fl c :
  blocks h os cs fl -> c ∈ os -> sk h' = sk h -> pcbs h' (if decide (c ∈ cs) then cs else c :: cs) ->
  exists cs', blocks h' os cs' fl.
Proof.
  intros [Hp Ho Hos Hf Ha Hc] Hin Hs Hp'. eexists. split; try done; [|unfold hnet; by rewrite Hs].
  intros b Hb. destruct (decide (c ∈ cs)); [by apply Ho|]. apply elem_of_cons in Hb as [->|Hb]; [done|by apply Ho].
Qed.

Lemma udp_connect_run c ip port h cs :
  pcbs h cs -> c ∈ cs \/ (length cs < 4)%nat ->
  exists h', udp_connect c ip port h = Some (ERR_OK, h') /\ sk h' = sk h /\ pcbs h' (if decide (c ∈ cs) then cs else c :: cs).
Proof.
  intros Hp Hroom. unfold udp_connect, getc. rewrite iget_bind.
  assert (Hb : exists h1, (if local_port (pcb h c) =? 0 then udp_bind c (local_ip (pcb h c)) (local_port (pcb h c)) else mret ERR_OK) h = Some (ERR_OK, h1)
    /\ sk h1 = sk h /\ exists cs1, pcbs h1 cs1 /\ (c ∈ cs1 \/ (length cs1 < 4)%nat)
       /\ (if decide (c ∈ cs1) then cs1 else c :: cs1) = (if decide (c ∈ cs) then cs else c :: cs)).
  { destruct (local_port (pcb h c) =? 0).
    - destruct (udp_bind_run c (local_ip (pcb h c)) (local_port (pcb h c)) h cs Hp Hroom) as (q & h1 & E & [_ Hs Hp1 _ _] & _).
      exists h1. split; [done|]. split; [done|]. eexists. split; [exact Hp1|].
      destruct (decide (c ∈ cs)) as [Hc|Hc]; [rewrite decide_True by done; split; [by left|done]|].
      rewrite decide_True by (apply elem_of_cons; by left). split; [left; apply elem_of_cons; by left|done].
    - exists h. split; [done|]. split; [done|]. by exists cs. }
  destruct Hb as (h1 & E1 & Hs1 & cs1 & Hp1 & Hr1 & Ecs). rewrite (ibind _ _ _ _ _ E1). change (negb (ERR_OK =? ERR_OK)) with false. cbv iota.
  rewrite setc_bind, iget_bind, setc_bind, iget_bind. set (h2 := set_pcb c _ h1). set (h3 := set_pcb c _ h2).
  assert (Hp3 : pcbs h3 cs1) by (apply pcbs_change; [done|by apply pcbs_change]).
  assert (El : on_list udp_fuel c (udp_pcbs h3) h3 = Some (bool_decide (c ∈ cs1), h3)).
  { apply on_list_run; [apply Hp3|]. destruct Hp3 as [_ _ Hk]. unfold udp_fuel. lia. }
  rewrite (ibind _ _ _ _ _ El). destruct (listed_run c h3 cs1 _ eq_refl Hp3 Hr1) as (h4 & E4 & Hp4 & _ & Hs4 & _).
  exists h4. rewrite Ecs in Hp4. split; [|split; [by rewrite Hs4|done]]. destruct (bool_decide (c ∈ cs1)).
  - injection E4 as <-. done.
  - change ((first ← iget udp_pcbs; setc c (put_next first);; imod (set_pcbs (Some c))) h3 = Some (tt, h4)) in E4. by injection E4 as <-.
Qed.

Definition new_pcb : udp_pcb := mkPcb 0 0 0 0 UDP_TTL None 0 0 0 None.
Lemma udp_new_run h os cs fl :
  blocks h os cs fl ->
  match fl with
  | [] => udp_new h = Some (None, h)
  | c :: fl' => exists n', udp_new h = Some (Some c, set_pcb c new_pcb (with_net n' h))
      /\ blocks (set_pcb c new_pcb (with_net n' h)) (c :: os) cs fl' /\ same_but MEMP_UDP_PCB (hnet h) n' /\ store n' = store (hnet h)
  end.
Proof.
  intros [Hp Ho Hos Hf Ha Hc]. destruct fl as [|c fl].
  - destruct Hf as [Hf _]. simpl in Hf. unfold udp_new. assert (E : memp_malloc MEMP_UDP_PCB (hnet h) = Some (None, hnet h)).
    { unfold memp_malloc. by rewrite nget_bind, Hf. }
    rewrite (i_buf_first _ _ _ _ _ E). by rewrite with_net_self.
  - destruct Hf as [Hf Hn]. destruct (malloc_elem (hnet h) MEMP_UDP_PCB c fl Hf) as (n1 & E & Est & Esb & Hf1). apply list.NoDup_cons in Hn as [Hcf Hn].
    unfold udp_new. rewrite (i_buf_first _ _ _ _ _ E), setc_bind. exists n1. split; [reflexivity|]. split; [|done].
    assert (Hco : c ∉ os) by (intros Hx; apply (Ha c Hx), elem_of_cons; by left). split.
    + destruct Hp as [Hl Hnd Hk]. split; [|done|done]. apply (linked_ext (pcb h)); [|done]. intros b Hb. rewrite set_other; [done|].
      intros ->. apply Hco. by apply Ho.
    + intros b Hb. apply elem_of_cons. right. by apply Ho.
    + by apply list.NoDup_cons.
    + by split.
    + intros b [->|Hb]%elem_of_cons; [done|]. intros Hx. apply (Ha b Hb), elem_of_cons. by right.
    + simpl in *. lia.
Qed.

Lemma but_length c os : NoDup os -> c ∈ os -> (length (but c os) + 1 = length os)%nat.
Proof.
  induction os as [|a os IH]; intros Hn Hin; [by apply not_elem_of_nil in Hin|]. apply list.NoDup_cons in Hn as [Ha Hn].
  destruct (decide (a = c)) as [->|Hac]; [rewrite but_head by done; simpl; lia|]. rewrite but_other by done.
  apply elem_of_cons in Hin as [->|Hin]; [done|]. simpl. rewrite <- (IH Hn Hin). lia.
Qed.

Lemma udp_remove_run h os cs fl c :
  blocks h os cs fl -> c ∈ os -> exists h', udp_remove c h = Some (tt, h') /\ blocks h' (but c os) (but c cs) (c :: fl).
Proof.
  intros [[Hl Hn Hk] Ho Hos Hf Ha Hc] Hin. unfold udp_remove. rewrite iget_bind.
  assert (Hu : exists h1, (if bool_decide (udp_pcbs h = Some c) then v ← getc c; imod (set_pcbs (pcb_next v)) else unlink udp_fuel c (udp_pcbs h)) h
      = Some (tt, h1) /\ linked (pcb h1) (udp_pcbs h1) (but c cs) /\ sk h1 = sk h).
  { case_bool_decide as Hx.
    - rewrite Hx in Hl. destruct cs as [|c' cs]; [done|]. destruct Hl as [E Hl]. injection E as <-. apply list.NoDup_cons in Hn as [Hcs _].
      eexists. split; [reflexivity|]. rewrite but_head by done. by split.
    - destruct (unlink_run c udp_fuel cs (udp_pcbs h) h Hl Hn Hx ltac:(unfold udp_fuel; lia)) as (h1 & E & L & (_ & S & _) & P & _).
      exists h1. split; [done|]. split; [by rewrite P|done]. }
  destruct Hu as (h1 & E1 & L1 & S1). rewrite (ibind _ _ _ _ _ E1).
  destruct (memp_free_run MEMP_UDP_PCB c fl (hnet h1)) as (n2 & E2 & F2); [unfold hnet in *; by rewrite S1|by apply Ha|].
  exists (with_net n2 h1). split; [rewrite <- (with_net_self h1) at 1; by apply i_buf_none|].
  assert (Hsub : forall b l, b ∈ but c l -> b ∈ l) by (intros b l Hb%but_in; by destruct Hb). split; try done.
  - split; [done|by apply list.NoDup_filter|]. etrans; [apply length_filter|done].
  - intros b Hb. apply but_in in Hb as [Hb Hbc]. apply but_in. split; [by apply Ho|done].
  - by apply list.NoDup_filter.
  - intros b Hb. apply but_in in Hb as [Hb Hbc]. rewrite not_elem_of_cons. split; [done|by apply Ha].
  - pose proof (but_length c os Hos Hin). simpl. lia.
Qed.

Lemma demux_list broadcast dest_ip dest src_ip src f cs :
  snd (demux broadcast dest_ip dest src_ip src f cs) ≡ₚ cs.
Proof.
  unfold demux. destruct (list_find _ cs) as [[i c]|] eqn:E; [|done]. apply list_find_Some in E as (Hi & _). cbn [snd].
  symmetry. by apply delete_Permutation.
Qed.

(** ** Runs of the operations *)

(** Before the first call: the list is empty and the pool is full. *)
Record udp_boot (h : host) (fl : list place) : Prop := {
  ub_list : udp_pcbs h = None;
  ub_free : free_list (hnet h) MEMP_UDP_PCB fl;
  ub_full : length fl = MEMP_NUM_UDP_PCB }.

(** A call with a block that has been handed out, or a step of another part of
    the stack, which leaves the blocks and their pool. *)
Inductive udp_step (os : list place) (h : host) : list place -> host -> Prop :=
  | us_new r h' : udp_new h = Some (r, h') -> udp_step os h (match r with Some c => c :: os | None => os end) h'
  | us_bind c ip port r h' : c ∈ os -> udp_bind c ip port h = Some (r, h') -> udp_step os h os h'
  | us_connect c ip port r h' : c ∈ os -> udp_connect c ip port h = Some (r, h') -> udp_step os h os h'
  | us_disconnect c h' : c ∈ os -> udp_disconnect c h = Some (tt, h') -> udp_step os h os h'
  | us_recv c f h' : c ∈ os -> udp_recv c f h = Some (tt, h') -> udp_step os h os h'
  | us_remove c h' : c ∈ os -> udp_remove c h = Some (tt, h') -> udp_step os h (but c os) h'
  | us_find broadcast dest_ip dest src_ip src r h' :
      udp_find udp_fuel (udp_pcbs h) None None broadcast dest_ip dest src_ip src h = Some (r, h') -> udp_step os h os h'
  | us_other h' :
      udp_pcbs h' = udp_pcbs h -> pcb h' = pcb h ->
      (forall fl, free_list (hnet h) MEMP_UDP_PCB fl -> free_list (hnet h') MEMP_UDP_PCB fl) -> udp_step os h os h'.
Inductive udp_reach : list place -> host -> Prop :=
  | ur_boot h fl : udp_boot h fl -> udp_reach [] h
  | ur_step os h os' h' : udp_reach os h -> udp_step os h os' h' -> udp_reach os' h'.

Lemma step_blocks os h os' h' cs fl : blocks h os cs fl -> udp_step os h os' h' -> exists cs' fl', blocks h' os' cs' fl'.
Proof.
  intros Hb Hs. pose proof Hb as [Hp Ho Hos Hf Ha Hc]. destruct Hs as [r h' E|c ip port r h' Hin E|c ip port r h' Hin E|c h' Hin E|c f h' Hin E|c h' Hin E
    |broadcast dest_ip dest src_ip src r h' E|h' El Eb Hfl].
  - pose proof (udp_new_run h os cs fl Hb) as H. destruct fl as [|c fl].
    + rewrite H in E. injection E as <- <-. by exists cs, [].
    + destruct H as (n1 & E1 & H1 & _). rewrite E1 in E. injection E as <- <-. by exists cs, fl.
  - destruct (udp_bind_run c ip port h cs Hp (blocks_room _ _ _ _ _ Hb Hin)) as (q & h1 & E1 & [_ Hs Hp1 _ _] & _). rewrite E1 in E. injection E as _ <-.
    destruct (blocks_grow h h1 os cs fl c Hb Hin Hs Hp1) as [cs' H]. by exists cs', fl.
  - destruct (udp_connect_run c ip port h cs Hp (blocks_room _ _ _ _ _ Hb Hin)) as (h1 & E1 & Hs & Hp1). rewrite E1 in E. injection E as _ <-.
    destruct (blocks_grow h h1 os cs fl c Hb Hin Hs Hp1) as [cs' H]. by exists cs', fl.
  - unfold udp_disconnect, getc in E. rewrite setc_bind, iget_bind in E. injection E as <-. exists cs, fl. split; try done.
    apply pcbs_change; [done|]. by apply pcbs_change.
  - injection E as <-. exists cs, fl. split; try done. by apply pcbs_change.
  - destruct (udp_remove_run h os cs fl c Hb Hin) as (h1 & E1 & H1). rewrite E1 in E. injection E as <-. by exists (but c cs), (c :: fl).
  - destruct (udp_find_run broadcast dest_ip dest src_ip src h cs Hp) as (h1 & E1 & Hp1 & _ & Hs & _). rewrite E1 in E. injection E as _ <-.
    eexists _, fl. split; [exact Hp1| |done|unfold hnet; by rewrite Hs|done|done]. intros b Hb'. apply Ho. by rewrite demux_list in Hb'.
  - exists cs, fl. split; try done; [|by apply Hfl]. destruct Hp as [Hl Hn Hk]. split; [|done|done]. by rewrite El, Eb.
Qed.
Lemma reach_blocks os h : udp_reach os h -> exists cs fl, blocks h os cs fl.
Proof.
  induction 1 as [h fl [Hl Hf Hn]|os h os' h' _ (cs & fl & H) Hs]; [|by eapply step_blocks].
  exists [], fl. split; [|by intros c Hc%elem_of_nil|apply NoDup_nil_2|done|by intros c Hc%elem_of_nil|done].
  split; [done|apply NoDup_nil_2|simpl; lia].
Qed.

(** C30: Whatever is done with the control blocks that [udp_new] hands out, in
    any order: the blocks from [udp_pcbs] on are a list without repetitions of
    blocks in use; those in use and those in the pool are apart and four together;
    and every operation on a block in use returns, [udp_bind] and [udp_connect]
    with ERR_OK whatever the address and the port -- also when another block has
    both, the test for that being compiled out --, [udp_new] with a block unless
    all four are in use. *)
Theorem udp_blocks (os : list place) (h : host) :
  udp_reach os h ->
  (exists cs fl, blocks h os cs fl)
  /\ (forall c ip port, c ∈ os ->
        (exists h', udp_bind c ip port h = Some (ERR_OK, h')) /\ (exists h', udp_connect c ip port h = Some (ERR_OK, h'))
        /\ exists h', udp_remove c h = Some (tt, h'))
  /\ exists r h', udp_new h = Some (r, h') /\ (r = None <-> length os = MEMP_NUM_UDP_PCB).
Proof.
  intros Hr. destruct (reach_blocks os h Hr) as (cs & fl & Hb). split; [by exists cs, fl|]. split.
  - intros c ip port Hin. pose proof (blocks_room _ _ _ _ _ Hb Hin) as Hroom. split; [|split].
    + destruct (udp_bind_run c ip port h cs (bk_pcbs _ _ _ _ Hb) Hroom) as (q & h1 & E & _). by exists h1.
    + destruct (udp_connect_run c ip port h cs (bk_pcbs _ _ _ _ Hb) Hroom) as (h1 & E & _). by exists h1.
    + destruct (udp_remove_run h os cs fl c Hb Hin) as (h1 & E & _). by exists h1.
  - pose proof (udp_new_run h os cs fl Hb) as H. pose proof (bk_count _ _ _ _ Hb) as Hc. destruct fl as [|c fl].
    + exists None, h. split; [done|]. simpl in Hc. split; [intros _; lia|done].
    + destruct H as (n1 & E & _). eexists (Some c), _. split; [exact E|]. simpl in Hc. split; [done|lia].
Qed.

(** C31: Binding a block in use to port 0, for which udp.c promises a random
    port, gives it the least port from 4096 on that no block on the list has, at
    most 4100; it is on the list then, and no other block changes. *)
Theorem bind_port (os : list place) (h : host) (c : place) (ip : Z) :
  udp_reach os h -> c ∈ os ->
  exists cs q h', pcbs h cs /\ udp_bind c ip 0 h = Some (ERR_OK, h')
  /\ least_free UDP_LOCAL_PORT_RANGE_START (ports h cs) q /\ q <= UDP_LOCAL_PORT_RANGE_START + 4
  /\ local_port (pcb h' c) = q /\ local_ip (pcb h' c) = ip
  /\ pcbs h' (if decide (c ∈ cs) then cs else c :: cs) /\ forall b, b <> c -> pcb h' b = pcb h b.
Proof.
  intros Hr Hin. destruct (reach_blocks os h Hr) as (cs & fl & Hb).
  destruct (udp_bind_run c ip 0 h cs (bk_pcbs _ _ _ _ Hb) (blocks_room _ _ _ _ _ Hb Hin)) as (q & h1 & E & [_ _ Hp Ho Hc] & Hq & Hq4).
  exists cs, q, h1. split; [apply Hb|]. split; [done|]. split; [done|]. split; [done|]. split; [|split; [|by split]].
  - exact (f_equal local_port Hc).
  - exact (f_equal local_ip Hc).
Qed.
