(* ===== verification/UdpRecv.v ===== *)
(** * Receiving a datagram

    From a frame in one buffer of the pool to the callback of a control block. *)
From stdpp Require Import base tactics list numbers option.
From S2P Require Import Prelude Heap HeapSpec Pbuf PbufSpec Chksum Ethernet EthSpec EthRun EthSend.
From S2P Require Import Stack Etharp EtharpSpec EtharpInv EtharpLife EtharpPkt Ip Icmp Udp IpInput IpPkt IpSend IpRecv UdpSend UdpSpec.

Record dg_ok (g : datagram) : Prop := {
  dk_tos : 0 <= dg_tos g < 256;
  dk_ttl : 0 <= dg_ttl g < 256;
  dk_src : word32 (dg_src g);
  dk_dst : word32 (dg_dst g);
  dk_sport : 0 <= dg_sport g < 65536;
  dk_dport : 0 <= dg_dport g < 65536 }.

Lemma pcbs_sk s h cs : pcbs h cs -> pcbs (set_sk s h) cs.
Proof. by intros []. Qed.

Lemma i_rd16_run {B} p a x y (k : Z -> IM B) h n :
  win n p a [x; y] -> (i_buf (rd16 p a) ≫= k) (with_net n h) = k (unle [x; y]) (with_net n h).
Proof. intros H. apply i_buf_bind. by apply rd16_run. Qed.

Section Recv.
Context (ip_frag : place -> Z -> IM Z) (ip_reass : place -> IM (option place)) (tcp_input : place -> IM unit).
Context (call : callback -> place -> place -> Z -> Z -> IM unit).

(** The block that [udp_input] finds for [g], and the list it leaves. *)
Definition target (h : host) (g : datagram) (cs : list place) : option place * list place :=
  demux (ip_addr_isbroadcast (dg_dst g) (nif (sk h))) (dg_dst g) (dg_dport g) (dg_src g) (dg_sport g) (pcb h) cs.

Lemma udp_input_run p o a off ipck udpck pad g n h c cs f :
  let fr := a ++ udp_packet off ipck udpck g ++ pad in
  pk p o fr (blen a) (28 + blen (dg_data g)) n -> SIZEOF_STRUCT_PBUF <= o -> 28 + blen (dg_data g) < 65536 ->
  whole off -> length ipck = 2%nat -> length udpck = 2%nat -> dg_ok g ->
  pcbs h cs -> fst (target h g cs) = Some c -> recv (pcb h c) = Some f ->
  exists n' h', udp_input ip_frag call p (with_net n h) = call f c p (dg_src g) (dg_sport g) (with_net n' h')
  /\ pk p o fr (blen a + 28) (blen (dg_data g)) n' /\ touch p n n'
  /\ pcbs h' (snd (target h g cs)) /\ same_blocks h h'.
Proof.
  intros fr P Ho Hlen Hoff Hck Huck [Htos Httl Hsrc Hdst Hsp Hdp] Hpc Hc Hf. pose proof (blen_nonneg (dg_data g)). pose proof (blen_nonneg a).
  assert (Hff : forall m, win m p o fr -> ip_fields m p (o + blen a) (dg_tos g) (28 + blen (dg_data g)) off (dg_ttl g) IP_PROTO_UDP (dg_src g) (dg_dst g)
     /\ win m p (o + blen a + 20) (udp_header (dg_sport g) (dg_dport g) (8 + blen (dg_data g)) udpck ++ dg_data g ++ pad)).
  { intros m Hw. unfold fr, udp_packet in Hw. apply win_app in Hw as [_ Hw]. rewrite <- !app_assoc in Hw. by apply header_fields in Hw. }
  unfold udp_input. rewrite i_getp_bind. cbv zeta. rewrite (pk_payload _ _ _ _ _ _ P), (pk_tot _ _ _ _ _ _ P).
  destruct (Hff n (pk_win _ _ _ _ _ _ P)) as [F1 _].
  rewrite (i_buf_bind _ _ _ _ _ _ (IPH_HL_run n p _ _ _ _ _ _ _ _ F1 Htos)).
  change (5 * 4) with 20. unfold UDP_HLEN. destruct (Z.ltb_spec (28 + blen (dg_data g)) (20 + 8)); [lia|].
  destruct (header_run p o fr _ _ n (- (20)) P) as (n1 & E1 & P1 & T1); try lia.
  rewrite (i_buf_bind _ _ _ _ _ _ E1). cbn [negb]. rewrite i_getp_bind, (pk_payload _ _ _ _ _ _ P1), i_nif_bind. unfold Datatypes.id.
  destruct (Hff n1 (pk_win _ _ _ _ _ _ P1)) as [F2 W2]. unfold udp_header in W2. rewrite <- !app_assoc, !win_app in W2. destruct W2 as (W1 & W2 & _).
  change (blen (be16 (dg_sport g))) with 2 in W2. cbn [nif sk with_net set_sk set_et set_nt].
  rewrite (i_buf_bind _ _ _ _ _ _ (rd_word_run _ _ _ _ (if_dst _ _ _ _ _ _ _ _ _ _ F2) Hdst)).
  replace (o + (blen a - - (20))) with (o + blen a + 20) by lia. unfold be16 in W1, W2. rewrite (i_rd16_run _ _ _ _ _ _ _ W1), (i_rd16_run _ _ _ _ _ _ _ W2).
  fold (be16 (dg_sport g)) (be16 (dg_dport g)). rewrite (ntohs_be16 _ Hsp), (ntohs_be16 _ Hdp).
  rewrite (i_buf_bind _ _ _ _ _ _ (rd_word_run _ _ _ _ (if_src _ _ _ _ _ _ _ _ _ _ F2) Hsrc)). rewrite iget_bind.
  change (udp_pcbs (with_net n1 h)) with (udp_pcbs (with_net n1 h)).
  destruct (udp_find_run (ip_addr_isbroadcast (dg_dst g) (nif (sk h))) (dg_dst g) (dg_dport g) (dg_src g) (dg_sport g) (with_net n1 h) cs
     (pcbs_sk _ _ _ Hpc)) as (h2 & E2 & Hp2 & Hs2).
  unfold target in *. change (pcb (with_net n1 h)) with (pcb h) in E2, Hp2. rewrite Hc in E2. rewrite (ibind _ _ _ _ _ E2).
  rewrite bool_decide_true by (by eexists). cbn [orb].
  destruct (header_run p o fr _ _ n1 (- (8)) P1) as (n3 & E3 & P3 & T3); try lia.
  assert (Hn2 : hnet h2 = n1). { destruct Hs2 as (_ & Hsk & _). unfold hnet. by rewrite Hsk. }
  rewrite <- Hn2 in E3. rewrite (i_buf_first _ _ _ _ _ E3). cbn [negb]. unfold getc. rewrite iget_bind. cbn [pcb with_net set_sk].
  rewrite (same_blocks_field recv _ _ c ltac:(done) Hs2 : recv (pcb h2 c) = recv (pcb h c)), Hf.
  exists n3, (set_sk (sk h) h2). destruct Hs2 as (Hid & Hsk & Hblocks).
  assert (Ew : with_net n3 h2 = with_net n3 (set_sk (sk h) h2)) by (unfold with_net; by rewrite Hsk).
  rewrite Ew. split; [done|]. split.
  { by replace (blen a + 28) with (blen a - - (20) - - (8)) by lia; replace (blen (dg_data g)) with (28 + blen (dg_data g) + - (20) + - (8)) by lia. }
  split; [by eapply touch_trans|]. split; [by apply pcbs_sk|done].
Qed.

Lemma ip_deliver_proto p a n h proto :
  IPH_PROTO p a n = Some (proto, n) ->
  ip_deliver ip_frag tcp_input call p a (with_net n h)
  = (if proto =? IP_PROTO_UDP then udp_input ip_frag call p
     else if proto =? IP_PROTO_TCP then tcp_input p
     else if proto =? IP_PROTO_ICMP then icmp_input ip_frag p
     else
       n ← i_nif id;
       dest ← i_buf (rd32 p (a + iph_dest));
       (if negb (ip_addr_isbroadcast dest n) && negb (ip_addr_ismulticast dest) then
          i_buf (setp p (upd_payload a));;
          icmp_dest_unreach ip_frag p ICMP_DUR_PROTO
        else mret tt);;
       discard p) (with_net n h).
Proof. intros E. unfold ip_deliver. by rewrite (i_buf_bind _ _ _ _ _ _ E). Qed.

(** C27: A frame with a whole UDP datagram for the interface, in
    one buffer of the pool, padding included, while no packets wait for an
    address: [ethernet_input] hands it to the callback of the block that
    [udp_demux] finds, with the sender's address and port, once, and does nothing
    else afterwards.  The buffer then shows the data of the datagram, without
    headers and padding; only the list of blocks is reordered and the sender's
    Ethernet address noted. *)
Theorem datagram_delivered (dmac smac off ipck udpck pad : bytes) (g : datagram) (p : place) (o : Z)
    (c : place) (f : callback) (cs : list place) (h : host) :
  let fr := udp_frame dmac smac off ipck udpck g ++ pad in
  pk p o fr 0 (blen fr) (hnet h) -> type (store (hnet h) p) = PBUF_POOL -> SIZEOF_STRUCT_PBUF <= o -> blen fr < 65536 ->
  length dmac = 6%nat -> length smac = 6%nat -> whole off -> length ipck = 2%nat -> length udpck = 2%nat -> dg_ok g ->
  for_us (dg_src g) (dg_dst g) (nif (sk h)) -> arp_ok (sk h) -> quiet (sk h) ->
  pcbs h cs -> fst (target h g cs) = Some c -> recv (pcb h c) = Some f ->
  exists h' s', ethernet_input ip_frag ip_reass tcp_input call p h = (call f c p (dg_src g) (dg_sport g);; mret ERR_OK) h'
  /\ area (hnet h') p = dg_data g
  /\ touch p (hnet h) (hnet h') /\ pcbs h' (snd (target h g cs))
  /\ (forall b, put_next None (pcb h' b) = put_next None (pcb h b))
  /\ sk h' = s_with (hnet h') s' /\ learnt (dg_src g) smac (sk h) s'.
Proof.
  intros fr P Hpool Ho Hlen Hd Hs Hoff Hck Huck Hg Hus Hok Hq Hpc Hc Hf. pose proof (blen_nonneg (dg_data g)). pose proof (blen_nonneg pad).
  set (pl := udp_header (dg_sport g) (dg_dport g) (8 + blen (dg_data g)) udpck ++ dg_data g).
  assert (Hpl : blen pl = 8 + blen (dg_data g)).
  { unfold pl, udp_header. rewrite !blen_app. change (blen (be16 _)) with 2. unfold blen at 1. rewrite Huck. lia. }
  assert (Efr : fr = eth_header dmac smac ++ ip_header (dg_tos g) (20 + blen pl) (dg_id g) off (dg_ttl g) IP_PROTO_UDP ipck
      (le32 (dg_src g)) (le32 (dg_dst g)) ++ pl ++ pad).
  { unfold fr, udp_frame, udp_packet. fold pl. rewrite Hpl, <- !app_assoc. by replace (20 + (8 + blen (dg_data g))) with (28 + blen (dg_data g)) by lia. }
  destruct Hg as [Htos Httl Hsrc Hdst Hsp Hdp] eqn:Eg. rewrite Efr in P, Hlen.
  destruct (ethernet_ip_run ip_frag ip_reass tcp_input call p o dmac smac (dg_tos g) (dg_id g) off (dg_ttl g) IP_PROTO_UDP ipck (dg_src g) (dg_dst g)
     pl pad h P Hpool Ho Hok Hq Hd Hs Htos Httl ltac:(unfold IP_PROTO_UDP; lia) Hlen Hsrc Hdst Hoff Hck Hus) as (n1 & s1 & E1 & P1 & T1 & L1).
  rewrite <- Efr in P1. pose proof (eth_header_blen dmac smac Hd Hs) as Ha.
  assert (Efr2 : fr = eth_header dmac smac ++ udp_packet off ipck udpck g ++ pad) by (unfold fr, udp_frame; by rewrite <- app_assoc).
  rewrite Hpl in P1. replace (20 + (8 + blen (dg_data g))) with (28 + blen (dg_data g)) in P1 by lia.
  rewrite Efr2, <- Ha in P1.
  destruct (udp_input_run p o (eth_header dmac smac) off ipck udpck pad g n1 (set_sk s1 h) c cs f P1 Ho) as (n2 & h2 & E2 & P2 & T2 & Hp2 & Hs2); try done.
  { rewrite !blen_app, Ha, Hpl, ip_header_blen in Hlen by done. lia. }
  { by apply pcbs_sk. }
  { unfold target. cbn [sk set_sk]. rewrite (ln_nif _ _ _ _ L1). exact Hc. }
  assert (Hproto : IPH_PROTO p (o + blen (eth_header dmac smac)) n1 = Some (IP_PROTO_UDP, n1)).
  { pose proof (pk_win _ _ _ _ _ _ P1) as W. unfold udp_packet in W. rewrite <- !app_assoc in W. apply win_app in W as [_ [F _]%header_fields]; [|done..].
    by eapply IPH_PROTO_run; [exact F|]. }
  set (pre := eth_header dmac smac ++ ip_header (dg_tos g) (28 + blen (dg_data g)) (dg_id g) off (dg_ttl g) IP_PROTO_UDP ipck
      (le32 (dg_src g)) (le32 (dg_dst g)) ++ udp_header (dg_sport g) (dg_dport g) (8 + blen (dg_data g)) udpck).
  assert (Epre : eth_header dmac smac ++ udp_packet off ipck udpck g ++ pad = pre ++ dg_data g ++ pad) by (unfold pre, udp_packet; by rewrite <- !app_assoc).
  assert (Hpre : blen pre = 14 + 28).
  { unfold pre. rewrite !blen_app, Ha, ip_header_blen by done. unfold udp_header. rewrite !blen_app. change (blen (be16 _)) with 2. unfold blen. rewrite Huck. lia. }
  exists (with_net n2 h2), s1. destruct Hs2 as (_ & Hsk & Hblocks). assert (Hnet : hnet (with_net n2 h2) = n2) by done. rewrite Hnet.
  assert (Ht : snd (target (set_sk s1 h) g cs) = snd (target h g cs)) by (unfold target; cbn [sk set_sk]; by rewrite (ln_nif _ _ _ _ L1)).
  rewrite Ht in Hp2. split_and!.
  - rewrite E1. unfold mbind, IM_bind. rewrite <- Ha. rewrite (ip_deliver_proto _ _ _ _ IP_PROTO_UDP) by exact Hproto.
    change (IP_PROTO_UDP =? IP_PROTO_UDP) with true. cbv iota. by rewrite E2.
  - rewrite (pk_area _ _ _ _ _ _ P2); rewrite ?Ha; try lia.
    + rewrite Epre. apply take_mid. exact Hpre.
    + rewrite Epre, !blen_app, Hpre. lia.
  - by eapply touch_trans.
  - by apply pcbs_sk.
  - exact Hblocks.
  - unfold with_net. cbn [sk set_sk]. by rewrite Hsk.
  - done.
Qed.
End Recv.
