(* ===== verification/Echo.v ===== *)
(** * An echo request is answered

    From a frame in one buffer of the pool to the answer given to the DMA. *)
From stdpp Require Import base tactics list numbers option.
From S2P Require Import Prelude Heap HeapSpec Pbuf PbufSpec Chksum Ethernet EthSpec EthRun EthSend.
From S2P Require Import Stack Etharp EtharpSpec EtharpInv EtharpLife EtharpPkt Ip Icmp Udp IpInput IpPkt IpSend IpRecv.

(** The message after its header's first two fields; [ck]: its checksum. *)
Definition icmp_message (type code : Z) (ck rest : bytes) : bytes := [type; code] ++ ck ++ rest.

(** What an interface sends from: not a broadcast or multicast address. *)
Lemma unicast_tests a n : unicast a n = true -> a <> 0 /\ ip_addr_isbroadcast a n = false /\ ip_addr_ismulticast a = false.
Proof.
  unfold unicast, ip_addr_isany. intros H%negb_true_iff. rewrite !orb_false_iff in H. destruct H as [[H1%Z.eqb_neq H2] H3]. done.
Qed.

(** A single buffer goes back to its pool. *)
Lemma discard_run p n h fl :
  p_next (store n p) = None -> pool_of (type (store n p)) = Some MEMP_PBUF_POOL -> ref (store n p) = 1 ->
  free_list n MEMP_PBUF_POOL fl -> p ∉ fl ->
  exists n', discard p (with_net n h) = Some (tt, with_net n' h) /\ free_list n' MEMP_PBUF_POOL (p :: fl).
Proof.
  intros Hnx Hpl Hr Hfr Hot. assert (Hc : chain (store n) (Some p) [p]) by (by split).
  destruct (pbuf_free_all n MEMP_PBUF_POOL p [p] fl Hc (NoDup_singleton p)) as (n2 & E2 & F2 & _ & _); [|done| |simpl; lia|].
  { apply Forall_cons_2; [done|apply Forall_nil_2]. } { intros q Hq. apply list_elem_of_singleton in Hq. by subst q. }
  exists n2. split; [|done]. unfold discard. by rewrite (i_buf_bind _ _ _ _ _ _ E2).
Qed.

Section Echo.
Context (ip_frag : place -> Z -> IM Z).

(** The answer is made in the buffer: addresses are exchanged, type, checksums and
    TTL written. *)
Definition echo_packet (tos len id : Z) (off : bytes) (code : Z) (rest : bytes) (type ttl : Z) (ck mck : bytes) (src dst : Z) : bytes :=
  ip_header tos len id off ttl IP_PROTO_ICMP ck (le32 src) (le32 dst) ++ icmp_message type code mck rest.

Lemma echo_headers_run p o eh tos len id off ttl ck src dst code mck rest pad n h l :
  let f type ttl ck mck src dst := echo_packet tos len id off code rest type ttl ck mck src dst ++ pad in
  pk p o (eh ++ f ICMP_ECHO ttl ck mck src dst) 34 l n -> length eh = 14%nat ->
  0 <= ttl < 256 -> word32 src -> word32 dst -> whole off -> length ck = 2%nat -> length mck = 2%nat ->
  exists n', echo_reply ip_frag p (o + 14) 20 (with_net n h)
    = (ok ← i_buf (pbuf_header (Some p) 20);
       if negb ok then mret tt
       else
         src ← i_buf (rd32 p (o + 14 + iph_src));
         ip_output_if ip_frag p (Some src) None ICMP_TTL 0 IP_PROTO_ICMP;;
         mret tt) (with_net n' h)
  /\ pk p o (eh ++ f ICMP_ER ICMP_TTL [0; 0] [0; 0] dst src) 34 l n' /\ touch p n n'.
Proof.
  intros f P Heh Httl Hsrc Hdst Hoff Hck Hmck. set (f0 := f ICMP_ECHO ttl ck mck src dst) in *.
  assert (Hbe : blen eh = 14) by (unfold blen; lia).
  assert (Hff : forall m, win m p o (eh ++ f0) -> ip_fields m p (o + 14) tos len off ttl IP_PROTO_ICMP src dst).
  { intros m Hw. unfold f0, f, echo_packet in Hw. rewrite <- app_assoc in Hw. apply win_app in Hw as [_ Hw]. rewrite Hbe in Hw. by apply header_fields in Hw as [Hw _]. }
  pose proof (Hff _ (pk_win _ _ _ _ _ _ P)) as F. unfold echo_reply. rewrite i_getp_bind, (pk_payload _ _ _ _ _ _ P). cbv zeta.
  rewrite (i_buf_bind _ _ _ _ _ _ (rd_word_run _ _ _ _ (if_src _ _ _ _ _ _ _ _ _ _ F) Hsrc)).
  rewrite (i_buf_bind _ _ _ _ _ _ (rd_word_run _ _ _ _ (if_dst _ _ _ _ _ _ _ _ _ _ F) Hdst)). clear F Hff.
  destruct ck as [|k0 [|k1 [|]]]; try discriminate. destruct mck as [|m0 [|m1 [|]]]; try discriminate.
  assert (exists f0 f1, off = [f0; f1]) as (o0 & o1 & ->) by (destruct Hoff as [-> | ->]; by do 2 eexists).
  unfold f0, f, echo_packet in P. unfold ip_header in P. rewrite <- app_assoc in P. replace (o + 14) with (o + blen eh + 0) by lia.
  replace (o + blen eh + 0 + iph_src) with (o + blen eh + 12) by (unfold iph_src; lia).
  rewrite i_wr32_bind. pk_write 12%nat (le32 dst) P.
  replace (o + blen eh + 0 + iph_dest) with (o + blen eh + 16) by (unfold iph_dest; lia).
  rewrite i_wr32_bind. pk_write 16%nat (le32 src) P.
  match type of P with pk _ _ (_ ++ ?i ++ _) _ _ _ => set (iph := i) in P end. set (A := eh ++ iph).
  assert (HA : blen A = 34) by (unfold A; by rewrite blen_app, Hbe).
  assert (P2 : pk p o (A ++ [ICMP_ECHO; code; m0; m1] ++ (rest ++ pad)) 34 l (poke p (o + blen eh + 16) (le32 src) (poke p (o + blen eh + 12) (le32 dst) n)))
    by (unfold A; rewrite <- app_assoc; exact P). clear P.
  replace (o + 34) with (o + blen A + 0) by lia. replace (o + blen A + 0 + 2) with (o + blen A + 2) by lia.
  rewrite i_wr8_bind. change (u8 ICMP_ER) with 0. pk_write 0%nat [0] P2. rewrite i_wr16_bind. pk_write 2%nat (le16 0) P2.
  change (u8 0) with 0 in P2. change (u8 (0 / 256)) with 0 in P2. unfold A in P2. rewrite <- app_assoc in P2.
  replace (o + blen eh + 0) with (o + blen eh) by lia. unfold iph in P2.
  rewrite (i_buf_bind _ _ _ _ _ _ (ttl_set_run p o eh _ _ _ _ _ ttl IP_PROTO_ICMP ICMP_TTL P2 ltac:(simpl; lia) Httl
    ltac:(unfold IP_PROTO_ICMP; lia) eq_refl ltac:(unfold ICMP_TTL, IP_DEFAULT_TTL; lia))).
  pk_write 8%nat [ICMP_TTL; IP_PROTO_ICMP] P2. unfold IPH_CHKSUM_SET. rewrite i_wr16_bind. pk_write 10%nat (le16 0) P2.
  change (u8 0) with 0 in P2. change (u8 (0 / 256)) with 0 in P2.
  replace (o + blen eh) with (o + 14) in * by lia. eexists. split; [reflexivity|]. split; [unfold f, echo_packet; rewrite <- app_assoc; exact P2|].
  repeat (eapply touch_trans; [|apply touch_poke]). apply touch_refl.
Qed.

(** The answer is sent: [l] bytes of ICMP. *)
Lemma echo_reply_run p o eh tos len id off ttl ck src dst code mck rest pad n h mac d l :
  let f type ttl ck mck src dst := echo_packet tos len id off code rest type ttl ck mck src dst ++ pad in
  pk p o (eh ++ f ICMP_ECHO ttl ck mck src dst) 34 l n -> length eh = 14%nat -> SIZEOF_STRUCT_PBUF <= o ->
  0 <= ttl < 256 -> word32 src -> word32 dst -> whole off -> length ck = 2%nat -> length mck = 2%nat ->
  0 <= l -> l + 20 <= blen (f ICMP_ER ICMP_TTL [0; 0] [0; 0] dst src) -> l + 34 < 65536 -> l + 20 <= mtu (nif (sk h)) ->
  arp_ok (sk h) -> knows (sk h) src mac -> mac_ok (hwaddr (nif (sk h))) -> mac_ok mac -> can_send (l + 34) d (sk h) ->
  exists n' s', echo_reply ip_frag p (o + 14) 20 (with_net n h) = Some (tt, with_net n' (set_sk s' h))
  /\ sent_by d (take (Z.to_nat (l + 34)) (eth_header mac (hwaddr (nif (sk h))) ++ f ICMP_ER ICMP_TTL [0; 0] [0; 0] dst src)) (sk h) s'
  /\ touch p n n'.
Proof.
  intros f P Heh Ho Httl Hsrc Hdst Hoff Hck Hmck Hl Hlb Hlim Hmtu Hok Hk Hhw Hmac Hsend. assert (Hbe : blen eh = 14) by (unfold blen; lia).
  destruct (echo_headers_run p o eh tos len id off ttl ck src dst code mck rest pad n h l P Heh Httl Hsrc Hdst Hoff Hck Hmck) as (n1 & E1 & P1 & T1).
  rewrite E1. fold (f ICMP_ER ICMP_TTL [0; 0] [0; 0] dst src) in P1.
  destruct (header_run p o _ _ _ n1 20 P1) as (n2 & E2 & P2 & T2); try lia. rewrite (i_buf_bind _ _ _ _ _ _ E2). cbn [negb].
  change (34 - 20) with 14 in P2. rewrite <- Hbe in P2. 
  assert (F : ip_fields n2 p (o + 14) tos len off ICMP_TTL IP_PROTO_ICMP dst src).
  { pose proof (pk_win _ _ _ _ _ _ P2) as W. unfold f, echo_packet in W. rewrite <- app_assoc in W. apply win_app in W as [_ W]. rewrite Hbe in W.
    by apply header_fields in W as [W _]. }
  rewrite (i_buf_bind _ _ _ _ _ _ (rd_word_run _ _ _ _ (if_src _ _ _ _ _ _ _ _ _ _ F) Hdst)).
  unfold ip_output_if. rewrite ibind_assoc, i_getp_bind, (pk_payload _ _ _ _ _ _ P2), Hbe.
  rewrite ibind_assoc, (i_buf_bind _ _ _ _ _ _ (rd_word_run _ _ _ _ (if_dst _ _ _ _ _ _ _ _ _ _ F) Hsrc)).
  destruct (ip_send_run ip_frag p o [] eh _ (l + 20) n2 h src mac d Hok Hk Hhw Hmac ltac:(rewrite <- Hbe; exact P2) Heh) as (n3 & s3 & E3 & S3 & _ & T3);
    try lia; replace (l + 20 + 14) with (l + 34) in * by lia; [unfold blen; simpl; lia|done|].
  exists n3, s3. unfold mbind, IM_bind. rewrite E3. split; [done|]. split; [exact S3|].
  eapply touch_trans; [exact T1|]. by eapply touch_trans.
Qed.

(** What is asked: a message whose checksum is right. *)
Record echo_ok (code : Z) (mck rest : bytes) : Prop := {
  eo_ck : length mck = 2%nat;
  eo_rest : (4 <= length rest)%nat;
  eo_bytes : bytes_ok (icmp_message ICMP_ECHO code mck rest);
  eo_sum : rfc1071 (icmp_message ICMP_ECHO code mck rest) = 0 }.

Lemma icmp_message_blen type code mck rest : length mck = 2%nat -> blen (icmp_message type code mck rest) = 4 + blen rest.
Proof. intros Hc. unfold icmp_message, blen. rewrite !length_app, Hc. simpl length. lia. Qed.
Lemma echo_packet_blen tos len id off code rest type ttl ck mck src dst :
  whole off -> length ck = 2%nat -> length mck = 2%nat ->
  blen (echo_packet tos len id off code rest type ttl ck mck src dst) = 24 + blen rest.
Proof. intros Ho Hc Hm. unfold echo_packet. rewrite blen_app, ip_header_blen, icmp_message_blen by done. lia. Qed.

(** The buffer has room for the headers of the answer. *)
Lemma echo_room_run p o f l n h :
  pk p o f 34 l n -> SIZEOF_STRUCT_PBUF <= o -> 0 <= l -> l + 34 < 65536 ->
  exists n', echo_room p (o + 14) 20 (with_net n h) = Some (Some (p, o + 14), with_net n' h) /\ pk p o f 34 l n' /\ touch p n n'.
Proof.
  intros P Ho Hl Hlim. unfold echo_room. change (PBUF_IP_HLEN + PBUF_LINK_HLEN) with 34.
  destruct (header_run p o f _ _ n 34 P) as (n1 & E1 & P1 & T1); try lia. rewrite (i_buf_bind _ _ _ _ _ _ E1). cbn [negb].
  destruct (header_run p o f _ _ n1 (- (34)) P1) as (n2 & E2 & P2 & T2); try lia. rewrite (i_buf_bind _ _ _ _ _ _ E2). cbn [negb].
  exists n2. split; [done|]. split; [|by eapply touch_trans].
  by replace 34 with (34 - 34 - - (34)) by lia; replace l with (l + 34 + - (34)) by lia.
Qed.

Lemma pk_chksum p o a msg b k l n :
  pk p o (a ++ msg ++ b) k l n -> blen a = k -> blen msg = l -> l < 65536 -> bytes_ok msg ->
  inet_chksum_pbuf (Some p) n = Some (htons (rfc1071 msg), n).
Proof.
  intros P Ha Hl Hlim Hb. pose proof (blen_nonneg a). pose proof (blen_nonneg msg). pose proof (blen_nonneg b).
  destruct (pk_frame p o _ k l n P) as (Hc & _ & Hlens & Hv); [lia|lia|rewrite !blen_app; lia|].
  rewrite <- Hl, (take_mid a msg b k Ha) in Hv. rewrite (chksum_pbuf_run n (Some p) [p]); rewrite ?Hv; try done. unfold pbuf_fuel. simpl. lia.
Qed.

Lemma icmp_input_run p o eh tos id off ttl ck src code mck rest pad n h mac d fl :
  let n0 := nif (sk h) in let l := 4 + blen rest in
  let f type ttl ck mck src dst := echo_packet tos (20 + l) id off code rest type ttl ck mck src dst in
  pk p o (eh ++ f ICMP_ECHO ttl ck mck src (ip_addr n0) ++ pad) 14 (20 + l) n -> length eh = 14%nat -> SIZEOF_STRUCT_PBUF <= o ->
  0 <= tos < 256 -> 0 <= ttl < 256 -> word32 src -> word32 (ip_addr n0) -> whole off -> length ck = 2%nat -> echo_ok code mck rest ->
  34 + l < 65536 -> 20 + l <= mtu n0 -> unicast (ip_addr n0) n0 = true ->
  arp_ok (sk h) -> knows (sk h) src mac -> mac_ok (hwaddr n0) -> mac_ok mac -> can_send (l + 34) d (sk h) ->
  type (store n p) = PBUF_POOL -> ref (store n p) = 1 -> free_list n MEMP_PBUF_POOL fl -> p ∉ fl ->
  exists n' s', icmp_input ip_frag p (with_net n h) = Some (tt, with_net n' (set_sk s' h))
  /\ sent_by d (eth_header mac (hwaddr n0) ++ f ICMP_ER ICMP_TTL [0; 0] [0; 0] (ip_addr n0) src) (sk h) s'
  /\ free_list n' MEMP_PBUF_POOL (p :: fl).
Proof.
  intros n0 l f P Heh Ho Htos Httl Hsrc Hown Hoff Hck [Hmck Hrest Hb Hsum] Hlim Hmtu Hu Hok Hk Hhw Hmac Hsend Hpool Href Hfree Hfl.
  pose proof (blen_nonneg rest). assert (Hbe : blen eh = 14) by (unfold blen; lia). destruct (unicast_tests _ _ Hu) as (_ & Hu1 & Hu2).
  assert (Hff : forall m, win m p o (eh ++ f ICMP_ECHO ttl ck mck src (ip_addr n0) ++ pad) ->
    ip_fields m p (o + 14) tos (20 + l) off ttl IP_PROTO_ICMP src (ip_addr n0) /\ win m p (o + 34) (icmp_message ICMP_ECHO code mck rest ++ pad)).
  { intros m Hw. unfold f, echo_packet in Hw. rewrite <- app_assoc in Hw. apply win_app in Hw as [_ Hw]. rewrite Hbe in Hw.
    apply header_fields in Hw as [F W]; [|done..]. split; [done|]. by replace (o + 34) with (o + 14 + 20) by lia. }
  destruct (Hff _ (pk_win _ _ _ _ _ _ P)) as [F _]. unfold icmp_input. rewrite i_getp_bind, (pk_payload _ _ _ _ _ _ P). cbv zeta.
  rewrite (i_buf_bind _ _ _ _ _ _ (IPH_HL_run n p _ _ _ _ _ _ _ _ F Htos)). change (5 * 4) with 20.
  destruct (header_run p o _ _ _ n (- (20)) P) as (n1 & E1 & P1 & T1); try (unfold l in *; lia).
  rewrite (i_buf_bind _ _ _ _ _ _ E1), i_getp_bind, (pk_tot _ _ _ _ _ _ P1). cbn [negb orb].
  change (14 - - (20)) with 34 in P1. replace (20 + l + - (20)) with l in * by lia.
  destruct (Z.ltb_spec l 4); [unfold l in *; lia|]. destruct (Hff _ (pk_win _ _ _ _ _ _ P1)) as [F1 W1]. clear Hff.
  assert (Et : ld8 p 0 n1 = Some (unle [ICMP_ECHO], n1)).
  { unfold ld8, mbind, NM_bind. rewrite (ld_at n1 p 0 1 [ICMP_ECHO]); [done| |done]. rewrite (pk_payload _ _ _ _ _ _ P1), Z.add_0_r.
    unfold icmp_message in W1. change ([ICMP_ECHO; code] ++ mck ++ rest) with ([ICMP_ECHO] ++ [code] ++ mck ++ rest) in W1. rewrite <- app_assoc in W1.
    by apply win_app in W1 as [W1 _]. }
  rewrite (i_buf_bind _ _ _ _ _ _ Et). change (unle [ICMP_ECHO] =? ICMP_ECHO) with true. cbv iota.
  rewrite (i_buf_bind _ _ _ _ _ _ (rd_word_run _ _ _ _ (if_dst _ _ _ _ _ _ _ _ _ _ F1) Hown)), i_nif_bind.
  cbn [nif sk with_net set_sk set_et set_nt]. unfold Datatypes.id. fold n0. rewrite Hu1, Hu2. cbn [orb].
  unfold sizeof_icmp_echo_hdr. destruct (Z.ltb_spec l 8); [unfold l, blen in *; lia|].
  assert (Ec : inet_chksum_pbuf (Some p) n1 = Some (0, n1)).
  { assert (P1' : pk p o ((eh ++ ip_header tos (20 + l) id off ttl IP_PROTO_ICMP ck (le32 src) (le32 (ip_addr n0))) ++ icmp_message ICMP_ECHO code mck rest ++ pad) 34 l n1)
      by (unfold f, echo_packet in P1; rewrite <- !app_assoc in *; exact P1).
    rewrite (pk_chksum _ _ _ _ _ _ _ _ P1'); rewrite ?Hsum; try done; [by rewrite blen_app, Hbe, ip_header_blen|by apply icmp_message_blen|lia]. }
  rewrite (i_buf_bind _ _ _ _ _ _ Ec). change (negb (0 =? 0)) with false. cbv iota.
  destruct (echo_room_run p o _ l n1 h P1 Ho) as (n2 & E2 & P2 & T2); [lia..|]. rewrite (ibind _ _ _ _ _ E2).
  destruct (echo_reply_run p o eh tos (20 + l) id off ttl ck src (ip_addr n0) code mck rest pad n2 h mac d l P2 Heh Ho Httl Hsrc Hown Hoff Hck Hmck)
    as (n3 & s3 & E3 & S3 & T3); try done; try lia.
  { rewrite blen_app, echo_packet_blen by done. pose proof (blen_nonneg pad). unfold l. lia. }
  { change (nif (sk h)) with n0. lia. }
  rewrite (ibind _ _ _ _ _ E3). assert (T : touch p n n3) by (eapply touch_trans; [exact T1|by eapply touch_trans]).
  destruct (tc_keeps _ _ _ T) as (K1 & K2 & _ & K4).
  destruct (discard_run p n3 (set_sk s3 h) fl) as (n4 & E4 & F4); rewrite ?K1, ?K2, ?K4; try done.
  { apply P. } { by rewrite Hpool. } { by eapply free_list_touch. }
  exists n4, s3. split; [exact E4|]. split; [|done].
  assert (Et2 : forall x y : bytes, blen x = l + 34 -> take (Z.to_nat (l + 34)) (x ++ y) = x).
  { intros x y <-. unfold blen. by rewrite Nat2Z.id, take_app_length. }
  rewrite app_assoc, Et2 in S3; [exact S3|]. destruct Hhw as [Hh _], Hmac as [Hm _].
  rewrite blen_app, eth_header_blen, echo_packet_blen by done. unfold l. lia.
Qed.

Context (ip_reass : place -> IM (option place)) (tcp_input : place -> IM unit).
Context (call : callback -> place -> place -> Z -> Z -> IM unit).

Lemma ip_deliver_icmp p a n h :
  IPH_PROTO p a n = Some (IP_PROTO_ICMP, n) -> ip_deliver ip_frag tcp_input call p a (with_net n h) = icmp_input ip_frag p (with_net n h).
Proof. intros E. unfold ip_deliver. by rewrite (i_buf_bind _ _ _ _ _ _ E). Qed.

(** The message is delivered and answered. *)
Lemma icmp_delivered p o eh tos id off ttl ck src code mck rest pad n h mac d fl :
  let n0 := nif (sk h) in
  let f type ttl ck mck src dst := echo_packet tos (24 + blen rest) id off code rest type ttl ck mck src dst in
  pk p o (eh ++ f ICMP_ECHO ttl ck mck src (ip_addr n0) ++ pad) 14 (24 + blen rest) n -> length eh = 14%nat -> SIZEOF_STRUCT_PBUF <= o ->
  0 <= tos < 256 -> 0 <= ttl < 256 -> word32 src -> word32 (ip_addr n0) -> whole off -> length ck = 2%nat -> echo_ok code mck rest ->
  38 + blen rest < 65536 -> 24 + blen rest <= mtu n0 -> unicast (ip_addr n0) n0 = true ->
  arp_ok (sk h) -> knows (sk h) src mac -> mac_ok (hwaddr n0) -> mac_ok mac -> can_send (38 + blen rest) d (sk h) ->
  type (store n p) = PBUF_POOL -> ref (store n p) = 1 -> free_list n MEMP_PBUF_POOL fl -> p ∉ fl ->
  exists h', (ip_deliver ip_frag tcp_input call p (o + 14);; mret ERR_OK) (with_net n h) = Some (ERR_OK, h')
  /\ sent d (eth_header mac (hwaddr n0) ++ f ICMP_ER ICMP_TTL [0; 0] [0; 0] (ip_addr n0) src) (et (sk h)) (et (sk h'))
  /\ free_list (hnet h') MEMP_PBUF_POOL (p :: fl) /\ arp_table (sk h') = arp_table (sk h).
Proof.
  intros n0 f P Heh Ho Htos Httl Hsrc Hown Hoff Hck Hec Hlim Hmtu Hu Hok Hk Hhw Hmac Hsend Hpool Href Hfree Hfl.
  unfold f in *. replace (24 + blen rest) with (20 + (4 + blen rest)) in * by lia. replace (38 + blen rest) with (4 + blen rest + 34) in * by lia.
  destruct (icmp_input_run p o eh tos id off ttl ck src code mck rest pad n h mac d fl P Heh) as (n2 & s2 & E2 & S2 & F2); try done; try lia.
  assert (Hproto : IPH_PROTO p (o + 14) n = Some (IP_PROTO_ICMP, n)).
  { pose proof (pk_win _ _ _ _ _ _ P) as W. unfold echo_packet in W. rewrite <- app_assoc in W. apply win_app in W as [_ W].
    replace (blen eh) with 14 in W by (unfold blen; lia). apply header_fields in W as [F _]; [|done..]. by eapply IPH_PROTO_run. }
  eexists. unfold mbind, IM_bind. rewrite (ip_deliver_icmp _ _ _ _ Hproto), E2. split; [reflexivity|].
  destruct S2 as (s3 & Hsea & Es2 & [R1 R2 R3 R4]). split; [by split|]. split; [done|].
  destruct (searched_nif _ _ Hsea) as (_ & _ & Et & _). cbn [sk with_net set_sk set_et arp_table] in *. rewrite Es2. cbn [arp_table set_et]. by rewrite Et.
Qed.

(** C26: An echo request for the interface's own address from a host of the
    local network, not a fragment and without options, in one buffer of the pool,
    padding included, with a right checksum, while the interface is up, no packets
    wait for an address, the sender is in the ARP table or an entry of it is
    vacant ([learns]), the packet without its padding is no longer than the MTU,
    and a transmit descriptor is free: [ethernet_input] returns, the frame handed
    to the DMA is the reply with the same identification, sequence number and
    data, sent back to the Ethernet address it came from, its checksums left to
    the MAC; the buffer is free again and the sender is in the table. *)
Theorem echo_answered (dmac smac off ck mck rest pad : bytes) (tos id ttl code src : Z) (p : place) (o : Z) (d : desc)
    (fl : list place) (h : host) :
  let n := nif (sk h) in
  let packet type ttl ck mck src dst := echo_packet tos (24 + blen rest) id off code rest type ttl ck mck src dst in
  let f := eth_header dmac smac ++ packet ICMP_ECHO ttl ck mck src (ip_addr n) ++ pad in
  pk p o f 0 (blen f) (hnet h) -> type (store (hnet h) p) = PBUF_POOL -> ref (store (hnet h) p) = 1 ->
  free_list (hnet h) MEMP_PBUF_POOL fl -> p ∉ fl -> SIZEOF_STRUCT_PBUF <= o -> blen f < 65536 -> 24 + blen rest <= mtu n ->
  length dmac = 6%nat -> mac_ok smac -> mac_ok (hwaddr n) -> 0 <= tos < 256 -> 0 <= ttl < 256 -> word32 src -> word32 (ip_addr n) ->
  whole off -> length ck = 2%nat -> echo_ok code mck rest -> netif_is_up n = true ->
  unicast (ip_addr n) n = true -> unicast src n = true -> ip_addr_netcmp src (ip_addr n) (netmask n) = true ->
  arp_ok (sk h) -> quiet (sk h) -> learns (arp_table (sk h)) src 0 = true -> can_send (38 + blen rest) d (sk h) ->
  exists h', ethernet_input ip_frag ip_reass tcp_input call p h = Some (ERR_OK, h')
  /\ sent d (eth_header smac (hwaddr n) ++ packet ICMP_ER ICMP_TTL [0; 0] [0; 0] (ip_addr n) src) (et (sk h)) (et (sk h'))
  /\ free_list (hnet h') MEMP_PBUF_POOL (p :: fl)
  /\ exists i, at_table (arp_table (sk h')) i = Some (learned src smac).
Proof.
  intros n packet f P Hpool Href Hfree Hfl Ho Hlim Hmtu Hd Hs Hhw Htos Httl Hsrc Hown Hoff Hck Hec Hup Hu Husrc Hnet Hok Hq Hl Hsend.
  pose proof (blen_nonneg rest). pose proof (blen_nonneg pad). destruct (unicast_tests _ _ Hu) as (Hset & _). destruct (unicast_tests _ _ Husrc) as (_ & Hs1 & Hs2).
  assert (Hm : forall type mck, length mck = 2%nat -> blen (icmp_message type code mck rest) = 4 + blen rest) by (intros; by apply icmp_message_blen).
  pose proof (eo_ck _ _ _ Hec) as Hmck. set (msg := icmp_message ICMP_ECHO code mck rest).
  assert (Ef : f = eth_header dmac smac ++ ip_header tos (20 + blen msg) id off ttl IP_PROTO_ICMP ck (le32 src) (le32 (ip_addr n)) ++ msg ++ pad).
  { unfold f, packet, echo_packet. fold msg. rewrite <- !app_assoc. unfold msg. rewrite Hm by done. by replace (20 + (4 + blen rest)) with (24 + blen rest) by lia. }
  rewrite Ef in P, Hlim.
  destruct (ethernet_ip_run ip_frag ip_reass tcp_input call p o dmac smac tos id off ttl IP_PROTO_ICMP ck src (ip_addr n) msg pad h P Hpool Ho Hok Hq Hd (proj1 Hs)
    Htos Httl ltac:(unfold IP_PROTO_ICMP; lia) Hlim Hsrc Hown Hoff Hck) as (n1 & s1 & E1 & P1 & T1 & L1).
  { split; [done|done|by left|done]. }
  rewrite E1. clear E1. pose proof (eth_header_blen dmac smac Hd (proj1 Hs)) as Hb. destruct L1 as [Let Lnif Lok Ltab]. fold n in Ltab.
  rewrite Hnet, Husrc, Hl in Ltab. destruct Ltab as [i Hi].
  assert (P2 : pk p o (eth_header dmac smac ++ packet ICMP_ECHO ttl ck mck src (ip_addr n) ++ pad) 14 (24 + blen rest) n1).
  { rewrite <- Ef in P1. unfold msg in P1. rewrite Hm in P1 by done. by replace (20 + (4 + blen rest)) with (24 + blen rest) in P1 by lia. }
  assert (Hk : knows s1 src smac).
  { unfold knows, hop. rewrite Lnif. fold n. rewrite Hs1, Hnet. split; [done|]. split; [done|]. exists i, (learned src smac). by split_and!. }
  destruct (tc_keeps _ _ _ T1) as (_ & K2 & _ & K4).
  destruct (icmp_delivered p o (eth_header dmac smac) tos id off ttl ck src code mck rest pad n1 (set_sk s1 h) smac d fl) as (h2 & E2 & S2 & F2 & Et2).
  all: cbn [sk set_sk]; rewrite ?Lnif; fold n; try done.
  { unfold blen in Hb. lia. }
  { rewrite !blen_app, Hb, ip_header_blen in Hlim by done. unfold msg in Hlim. rewrite Hm in Hlim by done. lia. }
  { unfold can_send. by rewrite Let. } { by rewrite K2. } { by rewrite K4. } { by eapply free_list_touch. }
  exists h2. cbn [sk set_sk] in S2, Et2. rewrite Lnif, Let in S2. split; [done|]. split; [done|]. split; [done|]. exists i. by rewrite Et2.
Qed.
End Echo.
