(* ===== verification/NetStart.v ===== *)
(** * Start of the network (netconf.c, netif.c, ethernetif.c, UDP_init)

    [LwIP_Init] with the functions it calls, and [UDP_init].  There is one
    interface: [netif_list] and [netif_default] are it once it is added, so
    [netif_set_default] leaves the state; [netifnum] is 0 at its only use.  No TCP
    control block is ever made: [netif_set_ipaddr] finds none to abort.
    [ETH_MACAddressConfig] and [ETH_Start] only write registers of the MAC; the
    pointer stored in [struct ethernetif] is never read. *)
From stdpp Require Import base tactics list numbers option.
From S2P Require Import Prelude Heap Pbuf Chksum Ethernet Stack Etharp Ip Icmp Udp.

(** The parameters of [g_device.workpara] that the start reads. *)
Record net_para := mkPara {
  ReaderIP : Z * Z * Z * Z;
  ReaderPortHigh : Z;
  ReaderPortLow : Z;
  ReaderNetMask : Z * Z * Z * Z;
  ReaderGateway : Z * Z * Z * Z;
  ReaderMAC : bytes }.
Definition ip4_of (a : Z * Z * Z * Z) : Z := let '(a1, a2, a3, a4) := a in IP4_ADDR a1 a2 a3 a4.

(** ** netif.c *)

Definition upd_nif (f : netif -> netif) : SM unit := smod (fun s => set_nif (f (nif s)) s).
Definition netif_set_ipaddr (a : Z) : SM unit :=
  upd_nif (fun n => mkNetif a (netmask n) (gw n) (hwaddr n) (hwaddr_len n) (mtu n) (nflags n) (num n)).
Definition netif_set_netmask (a : Z) : SM unit :=
  upd_nif (fun n => mkNetif (ip_addr n) a (gw n) (hwaddr n) (hwaddr_len n) (mtu n) (nflags n) (num n)).
Definition netif_set_gw (a : Z) : SM unit :=
  upd_nif (fun n => mkNetif (ip_addr n) (netmask n) a (hwaddr n) (hwaddr_len n) (mtu n) (nflags n) (num n)).
Definition netif_set_addr (ipaddr netmask gw : Z) : SM unit :=
  netif_set_ipaddr ipaddr;; netif_set_netmask netmask;; netif_set_gw gw.
Definition set_flags (v : Z) (n : netif) : netif :=
  mkNetif (ip_addr n) (netmask n) (gw n) (hwaddr n) (hwaddr_len n) (mtu n) v (num n).
Definition netif_set_up : SM unit :=
  n ← sget nif;
  if Z.land (nflags n) NETIF_FLAG_UP =? 0 then
    upd_nif (fun n => set_flags (Z.lor (nflags n) NETIF_FLAG_UP) n);;
    n ← sget nif;
    (if negb (Z.land (nflags n) NETIF_FLAG_ETHARP =? 0) then etharp_gratuitous;; mret tt else mret tt)
  else mret tt.
Definition netif_set_down : SM unit :=
  n ← sget nif;
  if negb (Z.land (nflags n) NETIF_FLAG_UP =? 0) then
    upd_nif (fun n => set_flags (Z.land (nflags n) (Z.lnot NETIF_FLAG_UP)) n)
  else mret tt.

(** ** ethernetif.c *)

Definition sizeof_struct_ethernetif : Z := 8.
Definition low_level_init (MACaddr : bytes) : SM unit :=
  upd_nif (fun n => mkNetif (ip_addr n) (netmask n) (gw n) (hwaddr n) (Z.of_nat ETHARP_HWADDR_LEN) (mtu n) (nflags n) (num n));;
  upd_nif (fun n => mkNetif (ip_addr n) (netmask n) (gw n) MACaddr (hwaddr_len n) (mtu n) (nflags n) (num n));;
  upd_nif (fun n => mkNetif (ip_addr n) (netmask n) (gw n) (hwaddr n) (hwaddr_len n) 1500 (nflags n) (num n));;
  upd_nif (set_flags (Z.lor (Z.lor NETIF_FLAG_BROADCAST NETIF_FLAG_ETHARP) NETIF_FLAG_LINK_UP));;
  on_eth low_level_init_rings.
Definition ethernetif_init (MACaddr : bytes) : SM Z :=
  r ← on_buf (on_heap (mem_malloc sizeof_struct_ethernetif));
  match r with
  | None => mret ERR_MEM
  | Some _ => low_level_init MACaddr;; mret ERR_OK
  end.

(** [true]: not NULL. *)
Definition netif_add (ipaddr netmask gw : Z) (init : SM Z) : SM bool :=
  upd_nif (fun n => mkNetif 0 0 0 (hwaddr n) (hwaddr_len n) (mtu n) 0 (num n));;
  upd_nif (fun n => mkNetif (ip_addr n) (Stack.netmask n) (Stack.gw n) (hwaddr n) (hwaddr_len n) (mtu n) (nflags n) 0);;
  netif_set_addr ipaddr netmask gw;;
  err ← init;
  mret (err =? ERR_OK).

(** ** netconf.c and UDP_module.c *)

Definition LwIP_Init (w : net_para) : SM unit :=
  on_buf (on_heap mem_init);;
  on_buf memp_init;;
  let ipaddr := ip4_of (ReaderIP w) in
  let netmask := ip4_of (ReaderNetMask w) in
  let gw := ip4_of (ReaderGateway w) in
  netif_add ipaddr netmask gw (ethernetif_init (ReaderMAC w));;
  netif_set_up.

(** The control block; with none, [udp_bind] writes through a NULL pointer. *)
Definition UDP_init (w : net_para) : IM place :=
  let ccc := u16 (u16 (Z.shiftl (ReaderPortHigh w) 8) + ReaderPortLow w) in
  c ← udp_new;
  match c with
  | None => fun _ => None
  | Some c =>
      udp_bind c 0 ccc;;
      udp_recv c (Some cb_UDP_Receive);;
      mret c
  end.

Definition network_init (w : net_para) : IM place := on_stk (LwIP_Init w);; UDP_init w.
