(* ===== verification/NetStartSpec.v ===== *)
(** * The network after the start

    What [LwIP_Init] and [UDP_init] leave: the states that the theorems about ARP,
    IP and UDP start from. *)
From stdpp Require Import base tactics list numbers option.
From S2P Require Import Prelude Heap HeapSpec HeapOps HeapSafe Pbuf PbufSpec Chksum Ethernet EthSpec EthRun EthSend.
From S2P Require Import Stack Etharp EtharpSpec EtharpInv EtharpLife EtharpPkt Ip Icmp Udp IpPkt IpSend UdpSend UdpSpec UdpBind UdpBlocks NetStart.

(** ** The pools *)

Definition elems (t : pool) (i n : nat) : list place := Elem t <$> seq i n.

Lemma free_list_put t u v p b n fl :
  t <> u -> p ∉ fl -> free_list n t fl -> free_list (set_tab u v (stored p b n)) t fl.
Proof.
  intros Ht Hp [Hc Hn]. split; [|done]. cbn. rewrite decide_False by done. apply (chain_ext (store n)); [|done].
  intros q Hq. cbn. rewrite decide_False; [done|]. by intros ->.
Qed.

Lemma memp_link_run t n : forall i s fl,
  free_list s t fl -> (forall j, (i <= j)%nat -> Elem t j ∉ fl) ->
  exists s', memp_link t n i s = Some (tt, s') /\ free_list s' t (reverse (elems t i n) ++ fl)
  /\ hp s' = hp s /\ data s' = data s
  /\ forall u gl, u <> t -> (forall j, Elem t j ∉ gl) -> free_list s u gl -> free_list s' u gl.
Proof.
  induction n as [|n IH]; intros i s fl Hf Hi.
  - exists s. by split_and!.
  - cbn [memp_link]. rewrite nget_bind, setp_bind.
    set (s1 := set_tab t (Some (Elem t i)) (stored (Elem t i) (upd_next (memp_tab s t) (store s (Elem t i))) s)).
    assert (H1 : free_list s1 t (Elem t i :: fl)).
    { destruct Hf as [Hc Hn]. split; [|apply list.NoDup_cons; split; [by apply Hi|done]]. cbn. rewrite !decide_True by done. split; [done|]. cbn.
      apply (chain_ext (store s)); [|done]. intros q Hq. cbn. rewrite decide_False; [done|]. intros ->. by apply (Hi i). }
    destruct (IH (S i) s1 (Elem t i :: fl) H1) as (s2 & E2 & F2 & Hh & Hd & Hu).
    { intros j Hj. rewrite not_elem_of_cons. split; [intros [=]; lia|apply Hi; lia]. }
    exists s2. split; [exact E2|]. split; [|split; [done|split; [done|]]].
    + unfold elems in *. cbn [seq fmap list_fmap]. rewrite reverse_cons, <- app_assoc. exact F2.
    + intros u gl Hut Hg Hgl. apply Hu; [done|done|]. by apply free_list_put.
Qed.

Lemma memp_init_pool_run t s :
  exists s', memp_init_pool t s = Some (tt, s') /\ free_list s' t (reverse (elems t 0 (memp_num t)))
  /\ hp s' = hp s /\ data s' = data s
  /\ forall u gl, u <> t -> (forall j, Elem t j ∉ gl) -> free_list s u gl -> free_list s' u gl.
Proof.
  destruct (memp_link_run t (memp_num t) 0 (set_tab t None s) []) as (s1 & E & F & Hh & Hd & Hu).
  { split; [by rewrite tab_eq|apply NoDup_nil_2]. } { intros j _. by apply not_elem_of_nil. }
  rewrite app_nil_r in F. exists s1. split; [exact E|]. split; [done|]. split; [done|]. split; [done|].
  intros u gl Hut Hg [Hc Hn]. apply Hu; [done|done|]. split; [|done]. cbn. by rewrite decide_False.
Qed.

Lemma elems_apart t u n j : t <> u -> Elem t j ∉ reverse (elems u 0 n).
Proof. intros Ht. rewrite elem_of_reverse. unfold elems. intros (k & [=] & _)%list_elem_of_fmap. congruence. Qed.

Lemma memp_init_run s :
  exists s', memp_init s = Some (tt, s') /\ hp s' = hp s /\ data s' = data s
  /\ forall t, free_list s' t (reverse (elems t 0 (memp_num t))).
Proof.
  unfold memp_init.
  destruct (memp_init_pool_run MEMP_UDP_PCB s) as (s1 & E1 & F1 & H1 & D1 & U1). rewrite (nbind _ _ _ _ _ E1).
  destruct (memp_init_pool_run MEMP_ARP_QUEUE s1) as (s2 & E2 & F2 & H2 & D2 & U2). rewrite (nbind _ _ _ _ _ E2).
  destruct (memp_init_pool_run MEMP_PBUF s2) as (s3 & E3 & F3 & H3 & D3 & U3). rewrite (nbind _ _ _ _ _ E3).
  destruct (memp_init_pool_run MEMP_PBUF_POOL s3) as (s4 & E4 & F4 & H4 & D4 & U4). exists s4.
  split; [done|]. split; [congruence|]. split; [congruence|].
  assert (Ha : forall t u, u <> t -> forall j, Elem t j ∉ reverse (elems u 0 (memp_num u))) by (intros t u Hu j; apply elems_apart; congruence).
  intros []; [| | |exact F4]; (apply U4; [discriminate|by apply Ha|]); [| |exact F3]; (apply U3; [discriminate|by apply Ha|]); [|exact F2].
  apply U2; [discriminate|by apply Ha|exact F1].
Qed.

(** ** The announcement *)

(** A request for the interface's own address, in a buffer of the heap. *)
Definition announcement (n : netif) : bytes :=
  arp_frame ethbroadcast (hwaddr n) 1 (hwaddr n) (le32 (ip_addr n)) ethzero (le32 (ip_addr n)) [].

Lemma announcement_blen n : mac_ok (hwaddr n) -> blen (announcement n) = 42.
Proof. intros [Hl _]. unfold announcement, arp_frame. rewrite !blen_app. unfold blen. by rewrite Hl. Qed.

Lemma raw_alloc s o h1 :
  mem_malloc 60 (hp s) = Some (Some o, h1) ->
  exists s', pbuf_alloc PBUF_RAW 42 PBUF_RAM s = Some (Some (InHeap o), s')
  /\ hp s' = h1 /\ memp_tab s' = memp_tab s /\ store s' (InHeap o) = mkPbuf None 16 42 42 PBUF_RAM 0 1
  /\ forall q, q <> InHeap o -> store s' q = store s q.
Proof.
  intros E. unfold pbuf_alloc, alloc_ram.
  change (layer_offset PBUF_RAW) with 0. change (u16 (LWIP_MEM_ALIGN_SIZE (SIZEOF_STRUCT_PBUF + 0) + LWIP_MEM_ALIGN_SIZE 42)) with 60.
  rewrite (on_heap_run _ _ _ _ _ E). cbv iota zeta. rewrite setp_bind. unfold finish. rewrite setp_bind. eexists. split; [reflexivity|].
  split; [done|]. split; [done|]. split; [by rewrite !stored_eq|]. intros q Hq. by rewrite !stored_ne by done.
Qed.

Lemma list42 (l : bytes) : length l = 42%nat ->
  exists x0 x1 x2 x3 x4 x5 x6 x7 x8 x9 y0 y1 y2 y3 y4 y5 y6 y7 y8 y9 z0 z1 z2 z3 z4 z5 z6 z7 z8 z9 u0 u1 u2 u3 u4 u5 u6 u7 u8 u9 v0 v1,
  l = [x0;x1;x2;x3;x4;x5;x6;x7;x8;x9;y0;y1;y2;y3;y4;y5;y6;y7;y8;y9;z0;z1;z2;z3;z4;z5;z6;z7;z8;z9;u0;u1;u2;u3;u4;u5;u6;u7;u8;u9;v0;v1].
Proof. do 42 (destruct l as [|? l]; [discriminate|]). destruct l; [|discriminate]. intros _. by do 42 eexists. Qed.

Lemma raw_macs_run p o a h b l n s hw :
  pk p o (a ++ h ++ b) (blen a) l n -> length h = 42%nat -> mac_ok hw ->
  exists n', raw_macs ETHARP_HWADDR_LEN p hw ethbroadcast hw ethzero (s_with n s) = Some (tt, s_with n' s)
  /\ pk p o (a ++ (ethbroadcast ++ hw ++ take 10 (drop 12 h) ++ hw ++ take 4 (drop 28 h) ++ ethzero ++ drop 38 h) ++ b) (blen a) l n' /\ touch p n n'.
Proof.
  intros P Hl Hs. destruct (mac_six hw Hs) as (s0&s1&s2&s3&s4&s5&->&?&?&?&?&?&?).
  destruct (list42 h Hl) as (?&?&?&?&?&?&?&?&?&?&?&?&?&?&?&?&?&?&?&?&?&?&?&?&?&?&?&?&?&?&?&?&?&?&?&?&?&?&?&?&?&?&->).
  unfold ETHARP_HWADDR_LEN. cbn [raw_macs]. unfold ah_shwaddr, ah_dhwaddr, eh_dest, eh_src.
  change (Z.of_nat 5) with 5. change (Z.of_nat 4) with 4. change (Z.of_nat 3) with 3.
  change (Z.of_nat 2) with 2. change (Z.of_nat 1) with 1. change (Z.of_nat 0) with 0. rewrite !Z.add_0_l.
  change (22 + 5) with 27. change (22 + 4) with 26. change (22 + 3) with 25. change (22 + 2) with 24. change (22 + 1) with 23. change (22 + 0) with 22.
  change (32 + 5) with 37. change (32 + 4) with 36. change (32 + 3) with 35. change (32 + 2) with 34. change (32 + 1) with 33. change (32 + 0) with 32.
  change (6 + 5) with 11. change (6 + 4) with 10. change (6 + 3) with 9. change (6 + 2) with 8. change (6 + 1) with 7. change (6 + 0) with 6.
  mac_step 27%nat s5 P. mac_step 37%nat 0 P. mac_step 5%nat 255 P. mac_step 11%nat s5 P.
  mac_step 26%nat s4 P. mac_step 36%nat 0 P. mac_step 4%nat 255 P. mac_step 10%nat s4 P.
  mac_step 25%nat s3 P. mac_step 35%nat 0 P. mac_step 3%nat 255 P. mac_step 9%nat s3 P.
  mac_step 24%nat s2 P. mac_step 34%nat 0 P. mac_step 2%nat 255 P. mac_step 8%nat s2 P.
  mac_step 23%nat s1 P. mac_step 33%nat 0 P. mac_step 1%nat 255 P. mac_step 7%nat s1 P.
  mac_step 22%nat s0 P. mac_step 32%nat 0 P. mac_step 0%nat 255 P. mac_step 6%nat s0 P.
  eexists. split; [reflexivity|]. split; [exact P|]. repeat (eapply touch_trans; [|apply touch_poke]). apply touch_refl.
Qed.

Lemma s_buf_first {A B} (m : NM A) (k : A -> SM B) s a n' : m (nt (et s)) = Some (a, n') -> (on_buf m ≫= k) s = k a (s_with n' s).
Proof. intros E. apply sbind. unfold on_buf, on_eth, on_net. by rewrite E. Qed.
Lemma s_st32_bind {B} p j v (k : unit -> SM B) s n :
  (on_buf (st32 p j v) ≫= k) (s_with n s) = k tt (s_with (poke p (payload (store n p) + j) (le32 v) n) s).
Proof. by apply s_buf_bind. Qed.

(** The frame is filled in and handed to the driver. *)
Lemma raw_frame_run p o a h b l n s hw sip dip (k : SM Z) :
  pk p o (a ++ h ++ b) (blen a) l n -> length h = 42%nat -> mac_ok hw ->
  exists n', (on_buf (st16 p ah_opcode (htons ARP_REQUEST));;
      raw_macs ETHARP_HWADDR_LEN p hw ethbroadcast hw ethzero;;
      on_buf (st32 p ah_sipaddr sip);;
      on_buf (st32 p ah_dipaddr dip);;
      on_buf (st16 p ah_hwtype (htons HWTYPE_ETHERNET));;
      on_buf (st16 p ah_proto (htons ETHTYPE_IP));;
      on_buf (st16 p ah_hwlen_protolen (htons (Z.lor (Z.shiftl (Z.of_nat ETHARP_HWADDR_LEN) 8) 4)));;
      on_buf (st16 p eh_type (htons ETHTYPE_ARP));;
      k) (s_with n s) = k (s_with n' s)
  /\ pk p o (a ++ arp_frame ethbroadcast hw 1 hw (le32 sip) ethzero (le32 dip) [] ++ b) (blen a) l n' /\ touch p n n'.
Proof.
  intros P Hl Hs. rewrite s_st16_bind, (pk_payload _ _ _ _ _ _ P). unfold ah_opcode.
  assert (P1 : exists h1, pk p o (a ++ h1 ++ b) (blen a) l (poke p (o + blen a + 20) (le16 (htons ARP_REQUEST)) n) /\ length h1 = 42%nat
     /\ take 2 (drop 20 h1) = [0; 1]).
  { destruct (list42 h Hl) as (?&?&?&?&?&?&?&?&?&?&?&?&?&?&?&?&?&?&?&?&?&?&?&?&?&?&?&?&?&?&?&?&?&?&?&?&?&?&?&?&?&?&->).
    pk_write 20%nat (le16 (htons ARP_REQUEST)) P. eexists. split; [exact P|]. by split. }
  destruct P1 as (h1 & P1 & Hl1 & Hop). destruct (raw_macs_run p o a h1 b l _ s hw P1 Hl1 Hs) as (n2 & E2 & P2 & T2). rewrite (sbind _ _ _ _ _ E2).
  destruct (mac_six hw Hs) as (s0&s1&s2&s3&s4&s5&->&?&?&?&?&?&?).
  destruct (list42 h1 Hl1) as (?&?&?&?&?&?&?&?&?&?&?&?&?&?&?&?&?&?&?&?&?&?&?&?&?&?&?&?&?&?&?&?&?&?&?&?&?&?&?&?&?&?&->).
  cbn [take drop] in Hop. injection Hop as -> ->.
  match type of P2 with pk _ _ (_ ++ ?h ++ _) _ _ _ => let v := eval cbn [app take drop ethbroadcast ethzero] in h in change h with v in P2 end.
  unfold ah_sipaddr, ah_dipaddr, ah_hwtype, ah_proto, ah_hwlen_protolen, eh_type.
  rewrite s_st32_bind, (pk_payload _ _ _ _ _ _ P2). pk_write 28%nat (le32 sip) P2.
  rewrite s_st32_bind, (pk_payload _ _ _ _ _ _ P2). pk_write 38%nat (le32 dip) P2.
  rewrite s_st16_bind, (pk_payload _ _ _ _ _ _ P2). pk_write 14%nat (le16 (htons HWTYPE_ETHERNET)) P2.
  rewrite s_st16_bind, (pk_payload _ _ _ _ _ _ P2). pk_write 16%nat (le16 (htons ETHTYPE_IP)) P2.
  rewrite s_st16_bind, (pk_payload _ _ _ _ _ _ P2). pk_write 18%nat (le16 (htons (Z.lor (Z.shiftl (Z.of_nat ETHARP_HWADDR_LEN) 8) 4))) P2.
  rewrite s_st16_bind, (pk_payload _ _ _ _ _ _ P2). pk_write 12%nat (le16 (htons ETHTYPE_ARP)) P2.
  eexists. split; [reflexivity|]. split; [exact P2|].
  repeat (eapply touch_trans; [|apply touch_poke]). eapply touch_trans; [apply touch_poke|exact T2].
Qed.

Lemma gratuitous_run s bs o h1 d :
  heap_reach (hp (nt (et s))) bs -> mem_malloc 60 (hp (nt (et s))) = Some (Some o, h1) -> mac_ok (hwaddr (nif s)) -> can_send 42 d s ->
  exists n' e', etharp_gratuitous s = Some (ERR_OK, s_with n' (set_et e' s)) /\ sent d (announcement (nif s)) (et s) e'
  /\ heap_reach (hp n') bs
  /\ forall t gl, InHeap o ∉ gl -> free_list (nt (et s)) t gl -> free_list n' t gl.
Proof.
  intros Hre Em Hhw Hsend. unfold etharp_gratuitous, etharp_request. rewrite !sget_bind. unfold etharp_raw. change sizeof_etharp_hdr with 42.
  destruct (raw_alloc (nt (et s)) o h1 Em) as (n1 & E1 & Eh & Et & Est & Eo). rewrite (s_buf_first _ _ _ _ _ E1). set (p := InHeap o) in *.
  assert (P : pk p 16 ([] ++ shown n1 p 16 42 ++ []) (blen []) 42 n1).
  { rewrite app_nil_r. split; try (rewrite Est; cbn [payload len tot_len p_next type]; auto; done). apply shown_win. }
  destruct (raw_frame_run p 16 [] _ [] 42 n1 s (hwaddr (nif s)) (ip_addr (nif s)) (ip_addr (nif s))
    (result ← linkoutput p; on_buf (pbuf_free (Some p));; mret result) P (shown_length _ _ _ _) Hhw) as (n2 & E2 & P2 & T2).
  rewrite E2. clear E2. rewrite app_nil_r in P2. fold (announcement (nif s)) in P2.
  pose proof (announcement_blen (nif s) Hhw) as Hl.
  destruct (linkoutput_run p 16 _ _ _ n2 s d P2) as (e3 & E3 & S3); [done|done|rewrite app_nil_l, Hl; done|done|].
  rewrite (sbind _ _ _ _ _ E3).
  destruct (free_restores _ bs 60 o h1 Hre Em) as (h2 & Ef & Hre2 & _). destruct (tc_keeps _ _ _ T2) as (K1 & K2 & _ & K4).
  assert (Ef2 : mem_free (Some o) (hp n2) = Some (tt, h2)) by (by rewrite (tc_hp _ _ _ T2), Eh).
  destruct (heap_pbuf_free n2 o h2) as (n4 & E4 & Eh4 & Et4 & Eo4); [fold p; by rewrite K2, Est|fold p; by rewrite K4, Est|fold p; by rewrite K1, Est|exact Ef2|].
  change (set_et (set_nt n2 e3) s) with (s_with n2 (set_et e3 s)).
  rewrite (s_buf_bind _ _ _ _ _ _ E4). exists n4, e3. split; [done|]. split; [|split; [by rewrite Eh4|]].
  - rewrite take_ge in S3; [exact S3|]. change (drop (Z.to_nat (blen [])) ([] ++ announcement (nif s))) with (announcement (nif s)). unfold blen in Hl. lia.
  - intros t gl Hg [Hc Hn]. split; [|done]. rewrite Et4, (tc_tab _ _ _ T2), Et. apply (chain_ext (store (nt (et s)))); [|done].
    intros q Hq. assert (Hqp : q <> p) by (by intros ->). rewrite Eo4, (tc_store _ _ _ T2), Eo by done. done.
Qed.

(** ** [LwIP_Init] *)

Definition start_flags : Z := Z.lor (Z.lor (Z.lor NETIF_FLAG_BROADCAST NETIF_FLAG_ETHARP) NETIF_FLAG_LINK_UP) NETIF_FLAG_UP.
(** The interface as configured. *)
Definition start_nif (w : net_para) : netif :=
  mkNetif (ip4_of (ReaderIP w)) (ip4_of (ReaderNetMask w)) (ip4_of (ReaderGateway w)) (ReaderMAC w) 6 1500 start_flags 0.
Definition start_blocks : list block := [Block 12 true; Block 996 false].
Definition pool_full (n : net) (t : pool) : Prop := free_list n t (reverse (elems t 0 (memp_num t))).

Lemma heap_start h0 :
  ram_end + SIZEOF_STRUCT_MEM <= blen (ram h0) ->
  exists h1 h2 h3, mem_init h0 = Some (tt, h1) /\ mem_malloc 8 h1 = Some (Some 8, h2) /\ heap_reach h2 start_blocks
  /\ mem_malloc 60 h2 = Some (Some 28, h3).
Proof.
  intros Hr. destruct (init_run h0 Hr) as (h1 & E1 & Hok). pose proof (reach_init h0 h1 Hr E1) as R1.
  destruct (malloc_run 8 h1 _ Hok) as (r & h2 & E2 & M2). unfold malloc_result in M2.
  change (spec_malloc 8 [Block (ram_end - SIZEOF_STRUCT_MEM) false]) with (Some (8, start_blocks)) in M2. destruct M2 as (-> & Hok2 & _).
  pose proof (reach_malloc h1 _ 8 8 start_blocks h2 R1 eq_refl E2) as R2.
  destruct (malloc_run 60 h2 _ Hok2) as (r & h3 & E3 & M3). unfold malloc_result in M3.
  change (spec_malloc 60 start_blocks) with (Some (28, [Block 12 true; Block 60 true; Block 928 false])) in M3. destruct M3 as (-> & _).
  by exists h1, h2, h3.
Qed.

(** What [LwIP_Init] leaves: all receive descriptors are the DMA's, and the
    announcement is in the first transmit buffer. *)
Record lwip_started (w : net_para) (s s' : stack) : Prop := {
  ls_nif : nif s' = start_nif w;
  ls_table : arp_table s' = arp_table s /\ etharp_cached_entry s' = etharp_cached_entry s;
  ls_heap : heap_reach (hp (nt (et s'))) start_blocks;
  ls_pools : forall t, pool_full (nt (et s')) t;
  ls_receive : DMARxDscrTab (et s') = (fun i => slot_desc i ETH_DMARxDesc_OWN) <$> [0; 1; 2; 3] /\ DMARxDescToGet (et s') = 0;
  ls_transmit : exists c0 c1, DMATxDscrTab (et s') = [handed_desc 42 (tx_start c0 0); tx_start c1 1] /\ DMATxDescToSet (et s') = 1;
  ls_sent : rdn (Tx_Buff (et s')) 0 42 = Some (announcement (start_nif w)) }.

Lemma netif_add_eq ip m g init s :
  netif_add ip m g init s = (err ← init; mret (err =? ERR_OK)) (set_nif (mkNetif ip m g (hwaddr (nif s)) (hwaddr_len (nif s)) (mtu (nif s)) 0 0) s).
Proof. done. Qed.
Lemma low_level_init_eq mac s :
  low_level_init mac s = on_eth low_level_init_rings
    (set_nif (mkNetif (ip_addr (nif s)) (netmask (nif s)) (gw (nif s)) mac 6 1500
       (Z.lor (Z.lor NETIF_FLAG_BROADCAST NETIF_FLAG_ETHARP) NETIF_FLAG_LINK_UP) (num (nif s))) s).
Proof. done. Qed.
Lemma ethernetif_init_run mac s n3 e4 :
  on_heap (mem_malloc 8) (nt (et s)) = Some (Some 8, n3) -> low_level_init_rings (set_nt n3 (et s)) = Some (tt, e4) ->
  ethernetif_init mac s = Some (ERR_OK, set_et e4
    (set_nif (mkNetif (ip_addr (nif s)) (netmask (nif s)) (gw (nif s)) mac 6 1500
       (Z.lor (Z.lor NETIF_FLAG_BROADCAST NETIF_FLAG_ETHARP) NETIF_FLAG_LINK_UP) (num (nif s))) s)).
Proof.
  intros E1 E2. unfold ethernetif_init, sizeof_struct_ethernetif. rewrite (s_buf_first _ _ _ _ _ E1).
  match goal with |- _ = Some (_, ?x) => set (s' := x) end.
  assert (E : low_level_init mac (s_with n3 s) = Some (tt, s')).
  { rewrite low_level_init_eq. unfold on_eth. cbn [et set_nif s_with set_et]. by rewrite E2. }
  by rewrite (sbind _ _ _ _ _ E).
Qed.
Lemma netif_set_up_eq n s :
  nif s = n -> Z.land (nflags n) NETIF_FLAG_UP = 0 -> Z.land (Z.lor (nflags n) NETIF_FLAG_UP) NETIF_FLAG_ETHARP <> 0 ->
  netif_set_up s = (etharp_gratuitous;; mret tt) (set_nif (set_flags (Z.lor (nflags n) NETIF_FLAG_UP) n) s).
Proof.
  intros Hn Hup Harp. unfold netif_set_up, upd_nif. rewrite sget_bind, Hn, Hup. change (0 =? 0) with true. cbv iota.
  rewrite smod_bind, Hn, sget_bind. cbn [nif set_nif nflags set_flags]. by destruct (Z.eqb_spec (Z.land (Z.lor (nflags n) NETIF_FLAG_UP) NETIF_FLAG_ETHARP) 0).
Qed.

Lemma LwIP_Init_run w s :
  ram_end + SIZEOF_STRUCT_MEM <= blen (ram (hp (nt (et s)))) -> sized (et s) -> mac_ok (ReaderMAC w) ->
  exists s', LwIP_Init w s = Some (tt, s') /\ lwip_started w s s'.
Proof.
  intros Hram Hsz Hmac. destruct (heap_start _ Hram) as (h1 & h2 & h3 & E1 & E2 & R2 & E3). unfold LwIP_Init.
  set (n0 := nt (et s)) in *. set (n1 := mkNet h1 (memp_tab n0) (store n0) (data n0)).
  assert (H1 : on_heap mem_init n0 = Some (tt, n1)) by (unfold on_heap; by rewrite E1). rewrite (s_buf_first _ _ _ _ _ H1).
  destruct (memp_init_run n1) as (n2 & M2 & Hh2 & _ & Hpools). rewrite (s_buf_bind _ _ _ _ _ _ M2). cbv zeta.
  set (n3 := mkNet h2 (memp_tab n2) (store n2) (data n2)).
  assert (H3 : on_heap (mem_malloc 8) n2 = Some (Some 8, n3)) by (unfold on_heap; rewrite Hh2; change (hp n1) with h1; by rewrite E2).
  set (nf := mkNetif (ip4_of (ReaderIP w)) (ip4_of (ReaderNetMask w)) (ip4_of (ReaderGateway w)) (ReaderMAC w) 6 1500
    (Z.lor (Z.lor NETIF_FLAG_BROADCAST NETIF_FLAG_ETHARP) NETIF_FLAG_LINK_UP) 0).
  destruct (init_rings_run (set_nt n3 (et s))) as (c0 & c1 & E4); [exact Hsz|]. set (e4 := set_toget 0 _) in E4.
  assert (Ea : netif_add (ip4_of (ReaderIP w)) (ip4_of (ReaderNetMask w)) (ip4_of (ReaderGateway w)) (ethernetif_init (ReaderMAC w)) (s_with n2 s)
    = Some (true, set_et e4 (set_nif nf s))).
  { clearbody e4.
    rewrite netif_add_eq. rewrite (sbind _ _ _ _ _ (ethernetif_init_run (ReaderMAC w) (set_nif _ (s_with n2 s)) n3 e4 H3 E4)). 
    reflexivity. }
  rewrite (sbind _ _ _ _ _ Ea), (netif_set_up_eq nf) by done.
  set (s5 := set_nif _ (set_et e4 (set_nif nf s))).
  assert (Hsend : can_send 42 (tx_start c0 0) s5).
  { split; [reflexivity|]. split; [reflexivity|]. destruct Hsz as (_ & _ & _ & Htx). cbn [et s5 set_nif set_et e4 set_toget set_toset set_tx set_demands set_rx Tx_Buff set_nt].
    rewrite Htx. split; by apply Z.leb_le. }
  destruct (gratuitous_run s5 start_blocks 28 h3 (tx_start c0 0) R2 E3 Hmac Hsend) as (n6 & e6 & E6 & [Sb Sr Sn Sv] & Hh6 & Hf6).
  rewrite (sbind _ _ _ _ _ E6). eexists. split; [reflexivity|]. split.
  - exact eq_refl.
  - split; exact eq_refl.
  - exact Hh6.
  - intros t. apply Hf6; [|exact (Hpools t)]. rewrite elem_of_reverse. unfold elems. intros (k & [=] & _)%list_elem_of_fmap.
  - destruct Sv as (Hr & _ & Hg). split; [exact Hr|exact Hg].
  - exists c0, c1. rewrite announcement_blen in Sr by exact Hmac. split; [exact Sr|exact Sn].
  - rewrite announcement_blen in Sb by exact Hmac. exact Sb.
Qed.

(** ** After [UDP_init] *)

Definition start_port (w : net_para) : Z :=
  let port := 256 * ReaderPortHigh w + ReaderPortLow w in if port =? 0 then UDP_LOCAL_PORT_RANGE_START else port.

(** The stack is ready: [c] is the control block of the firmware. *)
Record network_ready (w : net_para) (c : place) (h : host) : Prop := {
  nr_nif : nif (sk h) = start_nif w /\ netif_is_up (nif (sk h)) = true;
  nr_arp : arp_reach (sk h) /\ quiet (sk h);
  nr_heap : heap_reach (hp (hnet h)) start_blocks;
  nr_pools : forall t, t <> MEMP_UDP_PCB -> pool_full (hnet h) t;
  nr_blocks : udp_reach [c] h /\ pcbs h [c];
  nr_block : pcb h c = mkPcb 0 0 0 0 UDP_TTL None 0 (start_port w) 0 (Some cb_UDP_Receive);
  nr_receive : DMARxDscrTab (et (sk h)) = (fun i => slot_desc i ETH_DMARxDesc_OWN) <$> [0; 1; 2; 3] /\ DMARxDescToGet (et (sk h)) = 0;
  nr_transmit : exists c0 c1, DMATxDscrTab (et (sk h)) = [handed_desc 42 (tx_start c0 0); tx_start c1 1] /\ DMATxDescToSet (et (sk h)) = 1;
  nr_sent : rdn (Tx_Buff (et (sk h))) 0 42 = Some (announcement (start_nif w)) }.

Lemma port_word hi lo : 0 <= hi < 256 -> 0 <= lo < 256 -> u16 (u16 (Z.shiftl hi 8) + lo) = 256 * hi + lo.
Proof. intros Hh Hl. rewrite Z.shiftl_mul_pow2 by lia. change (2 ^ 8) with 256. rewrite !u16_small; try rewrite u16_small; lia. Qed.

(** The first block of the pool is bound. *)
Lemma UDP_init_run w h fl :
  udp_boot h fl -> 0 <= ReaderPortHigh w < 256 -> 0 <= ReaderPortLow w < 256 ->
  exists c n' h', UDP_init w h = Some (c, h') /\ udp_reach [c] h' /\ pcbs h' [c] /\ sk h' = s_with n' (sk h)
  /\ same_but MEMP_UDP_PCB (hnet h) n' /\ store n' = store (hnet h)
  /\ pcb h' c = mkPcb 0 0 0 0 UDP_TTL None 0 (start_port w) 0 (Some cb_UDP_Receive).
Proof.
  intros Hboot Hhi Hlo. pose proof (ur_boot h fl Hboot) as R0. pose proof Hboot as [Hl Hf Hn].
  assert (Hb : blocks h [] [] fl).
  { split; [split; [done|apply NoDup_nil_2|simpl; lia]|by intros c Hc%elem_of_nil|apply NoDup_nil_2|done|by intros c Hc%elem_of_nil|done]. }
  destruct fl as [|c fl]; [done|]. destruct (udp_new_run h [] [] (c :: fl) Hb) as (n1 & E1 & Hb1 & Esb & Est).
  set (h1 := set_pcb c new_pcb (with_net n1 h)) in *.
  assert (R1 : udp_reach [c] h1) by (eapply ur_step; [exact R0|]; exact (us_new _ _ _ _ E1)).
  destruct (udp_bind_run c 0 (256 * ReaderPortHigh w + ReaderPortLow w) h1 [] (bk_pcbs _ _ _ _ Hb1)) as (q & h2 & E2 & [Hid2 Hsk2 Hp2 _ Hc2] & Hq); [right; simpl; lia|].
  assert (Hin : c ∈ [c]) by (apply elem_of_cons; by left).
  assert (R2 : udp_reach [c] h2) by (eapply ur_step; [exact R1|]; exact (us_bind _ _ _ _ _ _ _ Hin E2)).
  exists c, n1, (set_pcb c (put_recv (Some cb_UDP_Receive) (pcb h2 c)) h2). unfold UDP_init. rewrite port_word by done.
  rewrite (ibind _ _ _ _ _ E1). cbv iota. rewrite (ibind _ _ _ _ _ E2). unfold udp_recv. rewrite setc_bind. split; [reflexivity|].
  rewrite decide_False in Hp2 by (by apply not_elem_of_nil). set (h3 := set_pcb c _ h2).
  split; [eapply ur_step; [exact R2|]; by eapply (us_recv _ _ c)|]. split; [by apply pcbs_change|]. split; [by (change (sk h3) with (sk h2); rewrite Hsk2)|].
  split; [done|]. split; [done|]. unfold h3. rewrite set_same. pose proof (pb_linked _ _ Hp2) as [_ Hnx]. simpl in Hnx.
  unfold h1 in Hc2. rewrite set_same in Hc2. assert (Hqs : q = start_port w).
  { unfold start_port. cbv zeta. destruct (Z.eqb_spec (256 * ReaderPortHigh w + ReaderPortLow w) 0) as [_|_]; [|done]. destruct Hq as [[Hq1 _ Hq3] _].
    destruct (decide (q = UDP_LOCAL_PORT_RANGE_START)) as [|Hne]; [done|]. exfalso.
    assert (Hx : UDP_LOCAL_PORT_RANGE_START ∈ ports h1 []) by (apply Hq3; lia). by apply not_elem_of_nil in Hx. }
  rewrite <- Hqs. destruct (pcb h2 c). simpl in Hnx, Hc2 |- *. injection Hc2. intros. by subst.
Qed.

(** C25: From the state of the RAM at reset, whatever the heap's
    bytes are: [LwIP_Init] and [UDP_init] return; the interface is up with the
    parameters' addresses, the heap holds the driver's block, the pools are full,
    the ARP table is empty, the firmware's control block is bound to the port of
    the parameters (4096 if that is 0) and has the callback, the receive ring is
    the DMA's, and the announcement of the own address has been handed to it. *)
Theorem network_started (w : net_para) (h0 : host) :
  ram_end + SIZEOF_STRUCT_MEM <= blen (ram (hp (hnet h0))) -> sized (et (sk h0)) -> boot_table (sk h0) -> udp_pcbs h0 = None ->
  mac_ok (ReaderMAC w) -> 0 <= ReaderPortHigh w < 256 -> 0 <= ReaderPortLow w < 256 ->
  exists c h, network_init w h0 = Some (c, h) /\ network_ready w c h.
Proof.
  intros Hram Hsz Hboot Hnone Hmac Hhi Hlo. destruct (LwIP_Init_run w (sk h0) Hram Hsz Hmac) as (s1 & E1 & [N1 [T1 T2] H1 P1 R1 X1 S1]).
  assert (Hub : udp_boot (set_sk s1 h0) (reverse (elems MEMP_UDP_PCB 0 (memp_num MEMP_UDP_PCB)))) by (split; [exact Hnone|exact (P1 MEMP_UDP_PCB)|done]).
  destruct (UDP_init_run w _ _ Hub Hhi Hlo) as (c & n2 & h2 & E2 & Hr & Hp & Hsk & Hsb & Hst & Hc).
  exists c, h2. unfold network_init. rewrite (ibind (on_stk (LwIP_Init w)) _ h0 tt (set_sk s1 h0)) by (unfold on_stk; by rewrite E1). split; [exact E2|].
  assert (Hn2 : hnet h2 = n2) by (unfold hnet; by rewrite Hsk). destruct Hboot as [B1 B2].
  split; rewrite ?Hn2, ?Hsk; try done.
  - cbn [nif s_with set_et sk set_sk]. by rewrite N1.
  - split; [apply ar_boot; split; cbn [arp_table etharp_cached_entry s_with set_et sk set_sk]; congruence|].
    unfold quiet. cbn [arp_table s_with set_et sk set_sk]. rewrite T1, B1. by apply Forall_replicate.
  - rewrite (sb_hp _ _ _ Hsb). exact H1.
  - intros t Ht. destruct (P1 t) as [Hch Hnd]. split; [|done]. rewrite (sb_tab _ _ _ Hsb t Ht). apply (chain_ext (store (hnet (set_sk s1 h0)))); [|done].
    intros b _. by rewrite Hst.
Qed.
