(* ===== verification/IpSim.v ===== *)
(** * Runs of the network stack

    A host with control blocks on its list: the hypotheses of the theorems about
    IP and UDP can hold. *)
From stdpp Require Import base tactics list numbers option.
From S2P Require Import Prelude Heap HeapSpec HeapOps HeapSafe Pbuf PbufSpec Chksum Ethernet EthSpec EthRun EthSend EthSim.
From S2P Require Import Stack Etharp EtharpSpec EtharpInv EtharpLife EtharpPkt EtharpSim Ip Icmp Udp IpInput IpPkt IpSend IpRecv UdpSend UdpSpec UdpBind UdpBlocks UdpRecv Echo NetStart NetStartSpec.

(** ** The host of EtharpSim.v with its peer in the table *)

Definition block_at (i : nat) : place := Elem MEMP_UDP_PCB i.
(** One block is open to everybody, one connected to the peer. *)
Definition sim_pcb (c : place) : udp_pcb :=
  if decide (c = block_at 3) then mkPcb 0 0 0 0 255 (Some (block_at 2)) 0 100 0 (Some cb_UDP_Receive)
  else if decide (c = block_at 2) then mkPcb 0 0 0 0 255 (Some (block_at 1)) 0 4000 0 None
  else mkPcb 0 peer_ip 0 0 255 None UDP_FLAGS_CONNECTED 100 4444 (Some cb_UDP_Receive).
Definition sim_list : list place := [block_at 3; block_at 2; block_at 1].

Definition sim_eth : eth :=
  mkEth (replicate 4 no_desc) [tx_start 0 0; tx_start 0 1] [] (replicate 3040 0) 0 0 0 [] fresh_net.
Definition sim_entry : etharp_entry := mkEntry None peer_ip peer_mac ETHARP_STATE_STABLE 0.
Definition sim_stack : stack := mkStack (sim_entry :: replicate 9 boot_entry) 0 (fun _ => None) own_netif sim_eth.
Definition sim_host : host := mkHost 0 (Some (block_at 3)) sim_pcb sim_stack.
(** No packet of these runs is longer than a frame. *)
Definition no_frag (p : place) (dest : Z) : IM Z := mret ERR_OK.

Lemma boot_entry_ok : entry_ok boot_entry.
Proof. by split. Qed.
Lemma sim_arp : arp_ok sim_stack.
Proof.
  split; [|split; [by apply Z.leb_le|by apply Z.ltb_lt]]. split; [reflexivity| |].
  - intros i e Hi. unfold at_table in Hi. destruct (0 <=? i); [|done]. apply list_elem_of_lookup_2 in Hi. apply elem_of_cons in Hi as [->|Hi].
    + by apply entry_okb_ok.
    + apply elem_of_replicate in Hi as [-> _]. exact boot_entry_ok.
  - intros a i j e e' Hi Hj [Ha _] [Ha' _]. unfold at_table in *. destruct (Z.leb_spec 0 i), (Z.leb_spec 0 j); try done.
    enough (H1 : forall k x, (sim_entry :: replicate 9 boot_entry) !! k = Some x -> active x -> k = 0%nat)
      by (pose proof (H1 _ _ Hi Ha); pose proof (H1 _ _ Hj Ha'); lia).
    intros [|k] x Hk Hx; [done|]. change (replicate 9 boot_entry !! k = Some x) in Hk. apply list_elem_of_lookup_2, elem_of_replicate in Hk as [-> _]. by destruct Hx.
Qed.
Lemma sim_knows : knows sim_stack peer_ip peer_mac.
Proof. split; [reflexivity|]. split; [reflexivity|]. exists 0, sim_entry. by split_and!. Qed.
Lemma sim_reach : heap_reach (hp (hnet sim_host)) [Block 1016 false].
Proof. exact start_reach. Qed.
Lemma sim_data : data_ok (hnet sim_host).
Proof. intros p i. split; [done|]. by apply Z.ltb_lt. Qed.
Lemma sim_sender : sender (pcb sim_host (block_at 3)) own_netif.
Proof. split; [by split; [apply Z.ltb_lt|apply Z.ltb_lt]|by left|by split; [apply Z.leb_le|apply Z.ltb_lt]|by split; [apply Z.leb_le|apply Z.ltb_lt]]. Qed.

(** Four bytes to port 4444 of the peer. *)
Lemma datagram_sent_witness :
  exists h', UDP_sendData no_frag (block_at 3) peer_ip 4444 [1; 2; 3; 4] sim_host = Some (tt, h')
  /\ heap_reach (hp (hnet h')) [Block 1016 false] /\
  (room_left (blen [1; 2; 3; 4]) [Block 1016 false] -> ip_id h' = u16 (ip_id sim_host + 1) /\
      sent (tx_start 0 0) (udp_frame peer_mac own_mac [0; 0] [0; 0] [0; 0]
          (outgoing (pcb sim_host (block_at 3)) sim_host peer_ip 4444 [1; 2; 3; 4])) (et (sk sim_host)) (et (sk h')))
  /\ (~ room_left (blen [1; 2; 3; 4]) [Block 1016 false] -> h' = sim_host).
Proof.
  apply (datagram_sent no_frag (block_at 3) peer_ip 4444 [1; 2; 3; 4] peer_mac (tx_start 0 0) [Block 1016 false] sim_host
    sim_reach sim_data); [by apply Z.leb_le|exact sim_sender|reflexivity|by split; [apply Z.leb_le|apply Z.ltb_lt]
    |by split; [apply Z.leb_le|apply Z.ltb_lt]|exact sim_arp|exact sim_knows|exact own_ok|exact peer_ok|by apply Z.leb_le|].
  split; [reflexivity|]. split; [by vm_compute|]. split; by apply Z.leb_le.
Defined.

Lemma sim_room : room_left 4 [Block 1016 false].
Proof. left. split; [reflexivity|]. by apply Z.leb_le. Qed.

(** The block has room: the 46 bytes are those of RFC 768 and RFC 791. *)
Lemma sim_bytes :
  udp_frame peer_mac own_mac [0; 0] [0; 0] [0; 0] (outgoing (pcb sim_host (block_at 3)) sim_host peer_ip 4444 [1; 2; 3; 4])
  = [2; 17; 34; 51; 68; 85; 0; 0; 0; 0; 0; 1; 8; 0;
     69; 0; 0; 32; 0; 0; 0; 0; 255; 17; 0; 0; 192; 168; 0; 8; 192; 168; 0; 77;
     0; 100; 17; 92; 0; 12; 0; 0; 1; 2; 3; 4].
Proof. by vm_compute. Qed.

(** ** A datagram of the connected peer *)

Lemma sim_pcbs : pcbs sim_host sim_list.
Proof. split; [by vm_compute; repeat split|apply (bool_decide_unpack _); by vm_compute|by apply Nat.leb_le]. Qed.
Lemma sim_demux : demux false own_ip 100 peer_ip 4444 sim_pcb sim_list = (Some (block_at 1), [block_at 1; block_at 3; block_at 2]).
Proof. by vm_compute. Qed.
Lemma udp_demux_witness :
  exists h', udp_find udp_fuel (Some (block_at 3)) None None false own_ip 100 peer_ip 4444 sim_host = Some (Some (block_at 1), h')
  /\ pcbs h' [block_at 1; block_at 3; block_at 2] /\ same_blocks sim_host h'.
Proof.
  pose proof (udp_demux false own_ip 100 peer_ip 4444 sim_host sim_list sim_pcbs) as H.
  change (pcb sim_host) with sim_pcb in H. rewrite sim_demux in H. exact H.
Defined.

(** ** A frame in a buffer of the pool *)

Definition frame_net (f : bytes) : net :=
  poke (elem 9) 16 f (net_of fresh_net (pbuf_alloc PBUF_RAW (blen f) PBUF_POOL fresh_net)).
Definition frame_host (f : bytes) : host := set_sk (s_with (frame_net f) sim_stack) sim_host.

Lemma frame_arp f : arp_ok (sk (frame_host f)).
Proof. by destruct sim_arp; split. Qed.
Lemma frame_quiet f : quiet (sk (frame_host f)).
Proof. apply (bool_decide_unpack _). by vm_compute. Qed.

(** [ping]: an echo request of the peer with the data [abcd]. *)
Definition ping_rest : bytes := [0; 1; 0; 1; 97; 98; 99; 100].
Definition ping : bytes :=
  eth_header own_mac peer_mac ++ echo_packet 0 (24 + blen ping_rest) 1 [64; 0] 0 ping_rest ICMP_ECHO 64 [0; 0] [51; 55] peer_ip own_ip
  ++ replicate 14 0.
Definition ping_host : host := frame_host ping.

Lemma ping_pk : pk (elem 9) 16 ping 0 (blen ping) (hnet ping_host).
Proof. split; [exact (poke_self _ (elem 9) 16 ping)|by vm_compute|by vm_compute|by vm_compute|by vm_compute|by right; vm_compute]. Qed.
Lemma ping_free : free_list (hnet ping_host) MEMP_PBUF_POOL boot_elems.
Proof. split; [by vm_compute; repeat split|apply (bool_decide_unpack _); by vm_compute]. Qed.
Lemma ping_ok : echo_ok 0 [51; 55] ping_rest.
Proof. split; [done|by apply Nat.leb_le|apply (bool_decide_unpack _); by vm_compute|by vm_compute]. Qed.
Lemma own_word : word32 own_ip.
Proof. split; [by apply Z.leb_le|by apply Z.ltb_lt]. Qed.
Lemma peer_word : word32 peer_ip.
Proof. split; [by apply Z.leb_le|by apply Z.ltb_lt]. Qed.
Lemma frame_sendable f n : 0 <= n <= 1520 -> can_send n (tx_start 0 0) (sk (frame_host f)).
Proof. intros Hn. split; [reflexivity|]. split; [by vm_compute|]. cbn [et sk frame_host set_sk s_with set_et set_nt Tx_Buff sim_stack sim_eth]. unfold blen. rewrite length_replicate. simpl Buffer1Addr. lia. Qed.

Definition no_reass (p : place) : IM (option place) := mret None.
Definition no_tcp (p : place) : IM unit := mret tt.
(** A callback that frees the buffer. *)
Definition sim_call (f : callback) (c p : place) (src_ip src : Z) : IM unit := discard p.

Lemma byte_small v : (0 <=? v) && (v <? 256) = true -> 0 <= v < 256.
Proof. intros [H1%Z.leb_le H2%Z.ltb_lt]%andb_prop. done. Qed.
Lemma nine_used : elem 9 ∉ boot_elems.
Proof. apply (bool_decide_unpack _). by vm_compute. Qed.

Lemma echo_answered_witness :
  exists h', ethernet_input no_frag no_reass no_tcp sim_call (elem 9) ping_host = Some (ERR_OK, h')
  /\ sent (tx_start 0 0)
       (eth_header peer_mac own_mac ++ echo_packet 0 (24 + blen ping_rest) 1 [64; 0] 0 ping_rest ICMP_ER ICMP_TTL [0; 0] [0; 0] own_ip peer_ip)
       (et (sk ping_host)) (et (sk h'))
  /\ free_list (hnet h') MEMP_PBUF_POOL (elem 9 :: boot_elems)
  /\ exists i, at_table (arp_table (sk h')) i = Some (learned peer_ip peer_mac).
Proof.
  apply (echo_answered no_frag no_reass no_tcp sim_call own_mac peer_mac [64; 0] [0; 0] [51; 55] ping_rest (replicate 14 0) 0 1 64 0 peer_ip
    (elem 9) 16 (tx_start 0 0) boot_elems ping_host ping_pk); try reflexivity.
  - exact ping_free.
  - exact nine_used.
  - by apply Z.leb_le.
  - exact peer_ok.
  - exact own_ok.
  - exact (byte_small 0 eq_refl).
  - exact (byte_small 64 eq_refl).
  - exact peer_word.
  - exact own_word.
  - by right.
  - exact ping_ok.
  - apply frame_arp.
  - apply frame_quiet.
  - apply frame_sendable. by split; apply Z.leb_le.
Defined.

(** A datagram of the connected peer; its padding is not delivered. *)
Definition gram : datagram := mkDatagram 0 1 64 peer_ip own_ip 4444 100 [1; 2; 3; 4].
Definition gram_frame : bytes := udp_frame own_mac peer_mac [0; 0] [0; 0] [0; 0] gram ++ replicate 14 0.
Definition gram_host : host := frame_host gram_frame.

Lemma gram_pk : pk (elem 9) 16 gram_frame 0 (blen gram_frame) (hnet gram_host).
Proof. split; [exact (poke_self _ (elem 9) 16 gram_frame)|by vm_compute|by vm_compute|by vm_compute|by vm_compute|by right; vm_compute]. Qed.
Lemma port_small v : (0 <=? v) && (v <? 65536) = true -> 0 <= v < 65536.
Proof. intros [H1%Z.leb_le H2%Z.ltb_lt]%andb_prop. done. Qed.
Lemma gram_ok : dg_ok gram.
Proof. split; [by apply byte_small|by apply byte_small|exact peer_word|exact own_word|by apply port_small|by apply port_small]. Qed.
Lemma gram_pcbs : pcbs gram_host sim_list.
Proof. apply pcbs_sk, sim_pcbs. Qed.
Lemma gram_target : target gram_host gram sim_list = (Some (block_at 1), [block_at 1; block_at 3; block_at 2]).
Proof. by vm_compute. Qed.

Lemma datagram_delivered_witness :
  exists h' s', ethernet_input no_frag no_reass no_tcp sim_call (elem 9) gram_host
    = (sim_call cb_UDP_Receive (block_at 1) (elem 9) peer_ip 4444;; mret ERR_OK) h'
  /\ area (hnet h') (elem 9) = [1; 2; 3; 4]
  /\ touch (elem 9) (hnet gram_host) (hnet h') /\ pcbs h' (snd (target gram_host gram sim_list))
  /\ (forall b, put_next None (pcb h' b) = put_next None (pcb gram_host b))
  /\ sk h' = s_with (hnet h') s' /\ learnt peer_ip peer_mac (sk gram_host) s'.
Proof.
  apply (datagram_delivered no_frag no_reass no_tcp sim_call own_mac peer_mac [0; 0] [0; 0] [0; 0] (replicate 14 0) gram (elem 9) 16 (block_at 1)
    cb_UDP_Receive sim_list gram_host gram_pk); try reflexivity.
  - by left.
  - exact gram_ok.
  - split; [reflexivity|exact own_some|by left|by split].
  - apply frame_arp.
  - apply frame_quiet.
  - exact gram_pcbs.
Defined.

(** ** Blocks are handed out and bound *)

Definition host_of {A} (d : host) (x : option (A * host)) : host := match x with Some (_, h) => h | None => d end.
Definition first_host : host := mkHost 0 None sim_pcb sim_stack.
Definition one_host : host := host_of first_host (udp_new first_host).
Definition bound_host : host := host_of one_host (udp_bind (block_at 3) 0 0 one_host).
Definition two_host : host := host_of bound_host (udp_new bound_host).

Lemma first_boot : udp_boot first_host (block_at <$> [3; 2; 1; 0]%nat).
Proof. split; [done| |done]. split; [by vm_compute; repeat split|apply (bool_decide_unpack _); by vm_compute]. Qed.
Lemma host_of_run {A} d (x : option (A * host)) r : fst <$> x = Some r -> x = Some (r, host_of d x).
Proof. destruct x as [[a h]|]; [|done]. by intros [= ->]. Qed.
Lemma one_new : udp_new first_host = Some (Some (block_at 3), one_host).
Proof. apply host_of_run. by vm_compute. Qed.
Lemma one_bound : udp_bind (block_at 3) 0 0 one_host = Some (ERR_OK, bound_host).
Proof. apply host_of_run. by vm_compute. Qed.
Lemma two_new : udp_new bound_host = Some (Some (block_at 2), two_host).
Proof. apply host_of_run. by vm_compute. Qed.
Lemma three_in : block_at 3 ∈ [block_at 3].
Proof. apply (bool_decide_unpack _). by vm_compute. Qed.
Lemma two_reach : udp_reach [block_at 2; block_at 3] two_host.
Proof.
  exact (ur_step _ _ _ _ (ur_step _ _ _ _ (ur_step _ _ _ _ (ur_boot _ _ first_boot) (us_new _ _ _ _ one_new))
    (us_bind _ _ _ _ _ _ _ three_in one_bound)) (us_new _ _ _ _ two_new)).
Qed.
Lemma two_in : block_at 2 ∈ [block_at 2; block_at 3].
Proof. apply (bool_decide_unpack _). by vm_compute. Qed.

Lemma udp_blocks_witness :
  (exists cs fl, blocks two_host [block_at 2; block_at 3] cs fl)
  /\ (forall c ip port, c ∈ [block_at 2; block_at 3] ->
        (exists h', udp_bind c ip port two_host = Some (ERR_OK, h')) /\ (exists h', udp_connect c ip port two_host = Some (ERR_OK, h'))
        /\ exists h', udp_remove c two_host = Some (tt, h'))
  /\ exists r h', udp_new two_host = Some (r, h') /\ (r = None <-> 2%nat = MEMP_NUM_UDP_PCB).
Proof. exact (udp_blocks _ _ two_reach). Defined.

(** The second block gets the second port. *)
Lemma bind_port_witness :
  exists cs q h', pcbs two_host cs /\ udp_bind (block_at 2) 0 0 two_host = Some (ERR_OK, h')
  /\ least_free UDP_LOCAL_PORT_RANGE_START (ports two_host cs) q /\ q <= UDP_LOCAL_PORT_RANGE_START + 4
  /\ local_port (pcb h' (block_at 2)) = q /\ local_ip (pcb h' (block_at 2)) = 0
  /\ pcbs h' (if decide (block_at 2 ∈ cs) then cs else block_at 2 :: cs) /\ forall b, b <> block_at 2 -> pcb h' b = pcb two_host b.
Proof. exact (bind_port _ _ (block_at 2) 0 two_reach two_in). Defined.
Lemma second_port : local_port (pcb (host_of two_host (udp_bind (block_at 2) 0 0 two_host)) (block_at 2)) = 4097.
Proof. by vm_compute. Qed.

(** ** The start *)

Definition reset_host : host :=
  mkHost 0 None (fun _ => new_pcb) (mkStack (replicate 10 boot_entry) 0 (fun _ => None) (mkNetif 0 0 0 [] 0 0 0 0) cold_eth).
(** The interface of EtharpSim.v, port 100. *)
Definition sim_para : net_para := mkPara (192, 168, 0, 8) 0 100 (255, 255, 255, 0) (192, 168, 0, 1) own_mac.

Lemma reset_ram : ram_end + SIZEOF_STRUCT_MEM <= blen (ram (hp (hnet reset_host))).
Proof. apply Z.leb_le. by vm_compute. Qed.
Lemma reset_sized : sized (et (sk reset_host)).
Proof. exact cold_sized. Qed.
Lemma reset_table : boot_table (sk reset_host).
Proof. by split. Qed.

Lemma network_started_witness : exists c h, network_init sim_para reset_host = Some (c, h) /\ network_ready sim_para c h.
Proof.
  exact (network_started sim_para reset_host reset_ram reset_sized reset_table eq_refl own_ok (byte_small 0 eq_refl) (byte_small 100 eq_refl)).
Defined.
Lemma start_is_own : start_nif sim_para = mkNetif own_ip (IP4_ADDR 255 255 255 0) (IP4_ADDR 192 168 0 1) own_mac 6 1500 0x33 0.
Proof. reflexivity. Qed.
