(* ===== verification/Invariant.v ===== *)
(** * The invariant of the program

    Every function of the firmware keeps the blocks and the parameter table at
    their size and type, the position in [CardIndex] at most [MAXNUM] and the
    number of saved tags at most [SAVEMAXNUM]; so every reachable state has
    these bounds, whatever the hosts, the module and the board do. *)
From stdpp Require Import base tactics list numbers option gmap.
From S2P Require Import Prelude Machine Effects Timers Tick Serial Packet ParamTable Process Flash Device Ds1302 Radio Request Handlers Channels Wiegand Track Output Main Preserve.

(** Bits put together stay within their width. *)
Lemma lor_below n a b : 0 <= n -> 0 <= a < 2 ^ n -> 0 <= b < 2 ^ n -> 0 <= Z.lor a b < 2 ^ n.
Proof.
  intros Hn Ha Hb. split; [apply Z.lor_nonneg; lia|].
  assert (E : Z.lor a b / 2 ^ n = 0).
  { rewrite <- Z.shiftr_div_pow2, Z.shiftr_lor, !Z.shiftr_div_pow2 by done. by rewrite !Z.div_small. }
  apply Z.div_small_iff in E; lia.
Qed.
Lemma land_below n a b : 0 <= n -> 0 <= a < 2 ^ n -> 0 <= b -> 0 <= Z.land a b < 2 ^ n.
Proof.
  intros Hn Ha Hb. split; [apply Z.land_nonneg; lia|].
  assert (E : Z.land a b / 2 ^ n = 0).
  { rewrite <- Z.shiftr_div_pow2, Z.shiftr_land, !Z.shiftr_div_pow2 by done.
    by rewrite (Z.div_small a), Z.land_0_l. }
  apply Z.div_small_iff in E; [destruct E as [E|E]; [lia|]|lia].
  pose proof (Z.land_nonneg a b). lia.
Qed.
Lemma in_type_u8 t v : 0 <= v < 256 -> in_type t v.
Proof. destruct t; cbn; lia. Qed.
Lemma shiftl_below n k a : 0 <= k <= n -> 0 <= a < 2 ^ (n - k) -> 0 <= Z.shiftl a k < 2 ^ n.
Proof.
  intros Hk Ha. rewrite Z.shiftl_mul_pow2 by lia. pose proof (Z.pow_pos_nonneg 2 k ltac:(lia) ltac:(lia)).
  split; [lia|]. replace n with (n - k + k) by lia. rewrite Z.pow_add_r by lia. apply Z.mul_lt_mono_pos_r; lia.
Qed.

(** A value fits the type of a scalar. *)
Ltac width :=
  lazymatch goal with
  | |- context [if ?c then _ else _] => destruct c; width
  | |- 0 <= Z.lor _ _ < _ => apply lor_below; [lia|width|width]
  | |- 0 <= Z.land _ _ < _ => apply land_below; [lia|width|lia]
  | |- 0 <= Z.shiftl _ _ < _ => apply shiftl_below; [lia|cbn -[Z.pow]; width]
  | |- 0 <= u8 ?v < _ => pose proof (u8_range v); cbn; lia
  | |- 0 <= u16 ?v < _ => pose proof (u16_range v); cbn; lia
  | |- _ => cbn; lia
  end.
Ltac wraps :=
  repeat match goal with
  | |- context [u8 ?v] =>
      lazymatch goal with _ : 0 <= u8 v < 256 |- _ => fail | _ => pose proof (u8_range v) end
  end.
Ltac switch_typed :=
  apply (switch_ind (fun v => 0 <= v < 256));
  [repeat first [apply Forall_nil_2 | apply Forall_cons_2]; cbn [snd]|]; lia.
Ltac typed :=
  cbn [ctype in_type] in *; unfold BUF_LEN, MAXNUM, SAVEMAXNUM in *;
  first [ apply in_type_u8; first [ apply u8_range | assumption | lia ]
        | switch_typed | solve [wraps; zcases] | apply u8_range | apply u16_range | apply u32_range | assumption | lia
        | lazymatch goal with
          | |- 0 <= _ < 256 => change 256 with (2 ^ 8)
          | |- 0 <= _ < 65536 => change 65536 with (2 ^ 16)
          | |- 0 <= _ < 4294967296 => change 4294967296 with (2 ^ 32)
          end; width ].

Section invariant.
Context `{Board}.

Record inv (s : fw) : Prop := {
  inv_wf : wf s;
  inv_pos : 0 <= get CardPos s <= MAXNUM;
  inv_saved : 0 <= get TagSaveCount s <= SAVEMAXNUM;
  inv_types : forall x, in_type (ctype x) (get x s) }.

Lemma types_put x v s :
  in_type (ctype x) v -> (forall y, in_type (ctype y) (get y s)) ->
  forall y, in_type (ctype y) (get y (put x v s)).
Proof using Type. intros Hv Hs y. destruct (decide (y = x)) as [->|]; by mget. Qed.
Lemma inv_put x v s :
  x ≠ CardPos -> x ≠ TagSaveCount -> in_type (ctype x) v -> inv s -> inv (put x v s).
Proof using Type. intros Hx Hy Hv [Hw Hp Hc Ht]. split; [by apply wf_put|by mget..|by apply types_put]. Qed.
Lemma inv_put_pos v s : 0 <= v <= MAXNUM -> inv s -> inv (put CardPos v s).
Proof using Type.
  intros Hv [Hw Hp Hc Ht]. split; [by apply wf_put|by mget..|]. apply types_put; [|done].
  cbn. unfold MAXNUM in Hv. lia.
Qed.
Lemma inv_put_saved v s : 0 <= v <= SAVEMAXNUM -> inv s -> inv (put TagSaveCount v s).
Proof using Type.
  intros Hv [Hw Hp Hc Ht]. split; [by apply wf_put|by mget..|]. apply types_put; [|done].
  cbn. unfold SAVEMAXNUM in Hv. lia.
Qed.

Lemma inv_safe : safe inv.
Proof using Type.
  split; try (intros; match goal with Hi : inv _ |- _ => destruct Hi end; split; [auto with fwdb|by mget..]).
  - by intros s [].
  - intros x v s Hv HI. destruct (decide (x = CardPos)) as [->|].
    { apply inv_put_pos; [unfold MAXNUM; lia|done]. }
    destruct (decide (x = TagSaveCount)) as [->|]; [|apply inv_put; auto using in_type_u8].
    apply inv_put_saved; [unfold SAVEMAXNUM; lia|done].
Qed.
(** What a load and a read of a scalar yield. *)
Lemma y_ld8 b o : yields inv (ld8 b o) (fun v => 0 <= v < 256).
Proof using Type.
  intros s v s' HI. unfold ld8, lift_opt. destruct (rd (block b s) o) eqn:E; [|done].
  intros [= <- <-]. eapply rd_ok, E. apply wf_bytes. apply (inv_wf s HI).
Qed.
Lemma y_getv x : yields inv (getv x) (in_type (ctype x)).
Proof using Type. intros s n s' HI [= <- <-]. by apply inv_types. Qed.
Lemma y_ldp p i : yields inv (ldp p i) (fun v => 0 <= v < 256).
Proof using Type.
  destruct p as [|b o|x]; cbn [ldp]; [done|apply y_ld8|]. case_match; [|done].
  eapply yields_bind; [apply preserves_getv|apply yields_trivial|]. intros v _. apply yields_ret, u8_range.
Qed.
Lemma y_para i : yields inv (para i) (fun v => 0 <= v < 256).
Proof using Type. apply y_ld8. Qed.
#[local] Hint Resolve y_ld8 y_getv y_ldp y_para : preserve.
#[local] Hint Extern 1 (0 <= _ < 256) => (assumption || lia) : preserve.
#[local] Hint Extern 1 (0 <= _ < 4294967296) => (assumption || lia) : preserve.
#[local] Hint Resolve inv_safe : preserve.
#[local] Hint Resolve inv_put_pos inv_put_saved inv_put : preserve_put.
#[local] Hint Extern 1 (_ ≠ _) => discriminate : preserve_put.
#[local] Hint Extern 1 (in_type _ _) => typed : preserve_put.
#[local] Hint Extern 1 (_ <= _ <= _) => (unfold MAXNUM, SAVEMAXNUM; lia) : preserve_put.

(** ** Timers, the SysTick interrupt *)
Lemma p_timerStart t n : preserves inv (timerStart t n).
Proof using Type. unfold timerStart. preserve. Qed.
Lemma p_timerStop t : preserves inv (timerStop t).
Proof using Type. unfold timerStop. preserve. Qed.
Lemma p_timerIsOverflow t : preserves inv (timerIsOverflow t).
Proof using Type. unfold timerIsOverflow. preserve. Qed.
Lemma p_timerZero t : preserves inv (timerZero t).
Proof using Type. unfold timerZero. preserve. Qed.
Lemma p_tick_timer t : preserves inv (tick_timer t).
Proof using Type. unfold tick_timer, countdown. preserve. Qed.
Lemma p_tick_send : preserves inv tick_send_timer.
Proof using Type. unfold tick_send_timer, countdown. preserve. Qed.
#[local] Hint Resolve p_timerStart p_timerStop p_timerIsOverflow p_timerZero p_tick_timer
  p_tick_send : preserve.
Lemma p_Time_Update : preserves inv Time_Update.
Proof using Type.
  unfold Time_Update, tenth, relay_isr_polling, LwIP_Periodic_Handle, reboot, RelayControl,
    beep_step, led_step, RELAYON, RELAYON1, RELAYOFF, RELAYOFF1. preserve.
Qed.
#[local] Hint Resolve p_Time_Update : preserve.

(** ** Receivers and the radio *)
Lemma p_port_zero p : p_mark p ≠ CardPos -> p_mark p ≠ TagSaveCount -> preserves inv (port_zero p).
Proof using Type. intros. unfold port_zero. preserve. Qed.
Lemma p_rx_byte p k c : preserves inv k -> preserves inv (rx_byte p k c).
Proof using Type. intros. unfold rx_byte. preserve. Qed.
Lemma p_mask_loop b a n i j pos tj tpos : preserves inv (mask_loop b a n i j pos tj tpos).
Proof using Type.
  revert i j pos tj tpos. induction n as [|n IH]; intros; cbn [mask_loop]; cbv zeta; preserve; apply IH.
Qed.
Lemma p_mask6B_loop b a m sel n i tj : preserves inv (mask6B_loop b a m sel n i tj).
Proof using Type.
  revert i tj. induction n as [|n IH]; intros; cbn [mask6B_loop]; cbv zeta; preserve; apply IH.
Qed.
#[local] Hint Resolve p_mask_loop p_mask6B_loop : preserve.
Lemma p_MaskCheck b n : preserves inv (MaskCheck b n).
Proof using Type. unfold MaskCheck. preserve. Qed.
Lemma p_Mask6BCheck b : preserves inv (Mask6BCheck b).
Proof using Type. unfold Mask6BCheck. preserve. Qed.

(** The position after a tag. *)
Lemma p_card_next full : preserves inv full -> preserves inv (card_next full).
Proof using Type.
  intros Hf s a s' HI. unfold card_next. mrun. mget. pose proof (inv_pos s HI) as Hp.
  unfold MAXNUM in Hp. rewrite u32_small by lia. rewrite Z.gtb_ltb.
  destruct (Z.ltb_spec MAXNUM (get CardPos s + 1)) as [Hgt|Hle]; cbn [when].
  - mrun. apply Hf. destruct HI as [Hw _ Hc Ht].
    split; [by apply wf_put, wf_put|mget; unfold MAXNUM; lia|by mget|].
    unfold MAXNUM in *. by do 2 (apply types_put; [typed|]).
  - mrun. intros [= <- <-]. apply inv_put_pos; [unfold MAXNUM in *; lia|done].
Qed.
Lemma p_R2000_zero : preserves inv R2000_zero.
Proof using Type. unfold R2000_zero. apply preserves_bind; [by apply p_port_zero|preserve]. Qed.
#[local] Hint Resolve p_MaskCheck p_Mask6BCheck p_R2000_zero : preserve.
Lemma p_all_read : preserves inv all_read.
Proof using Type. unfold all_read. preserve. Qed.
#[local] Hint Resolve p_all_read : preserve.
Lemma p_next_all_read : preserves inv (card_next all_read).
Proof using Type. apply p_card_next. preserve. Qed.
Lemma p_next_ret : preserves inv (card_next (mret tt)).
Proof using Type. apply p_card_next. preserve. Qed.
#[local] Hint Resolve p_next_all_read p_next_ret : preserve.
Lemma p_decodeR2000 : preserves inv decodeR2000.
Proof using Type.
  unfold decodeR2000, decode_70, decode_81, decode_8A, decode_91, decode_B0, count_91, beep_more,
    relay_follow, card_time, card_set, card_copy, para. preserve.
Qed.
#[local] Hint Resolve p_decodeR2000 : preserve.
Lemma p_UART4 c : preserves inv (UART4_IRQHandler c).
Proof using Type. apply p_rx_byte. unfold R2000_complete. preserve. Qed.
Lemma p_USART1 c : preserves inv (USART1_IRQHandler c).
Proof using Type. apply p_rx_byte. unfold host_complete, port485. cbn. preserve. Qed.
Lemma p_USART2 c : preserves inv (USART2_IRQHandler c).
Proof using Type. apply p_rx_byte. unfold host_complete, port232. cbn. preserve. Qed.
#[local] Hint Resolve p_UART4 : preserve.

(** ** Waiting, and requests *)
Lemma p_busy {A} (poll : M (option A)) :
  preserves inv poll -> preserves inv (busy_wait UART4_IRQHandler Time_Update poll).
Proof using Type. intros. apply preserves_busy; [apply inv_safe|preserve..]. Qed.
Lemma p_DelayMs n : preserves inv (DelayMs n).
Proof using Type. unfold DelayMs. preserve. apply p_busy. preserve. Qed.
Lemma p_wait_R2000 m : preserves inv m -> preserves inv (wait_R2000 m).
Proof using Type. intros. apply p_busy. unfold wait_poll. preserve. Qed.
Lemma p_emit_bytes tx bs : preserves inv (emit_bytes tx bs).
Proof using Type. induction bs as [|b bs IH]; cbn [emit_bytes]; preserve. Qed.
#[local] Hint Resolve p_DelayMs p_emit_bytes : preserve.
Lemma p_UART4Send bs : preserves inv (UART4Send bs).
Proof using Type. unfold UART4Send. preserve. Qed.
#[local] Hint Resolve p_UART4Send : preserve.
Lemma p_wait_answer c : preserves inv (wait_answer c).
Proof using Type. unfold wait_answer. preserve. apply p_wait_R2000. preserve. Qed.
Lemma p_fail_with c : 0 <= c < 256 -> preserves inv (fail_with c).
Proof using Type. intros Hc. unfold fail_with. preserve. Qed.
#[local] Hint Resolve p_wait_answer p_fail_with : preserve.
Lemma p_set_output_power : preserves inv set_output_power.
Proof using Type. unfold set_output_power. preserve. Qed.
Lemma p_AntennaCtrl : preserves inv AntennaCtrl.
Proof using Type. unfold AntennaCtrl. preserve. Qed.
Lemma p_sum_loop b n i sum : preserves inv (sum_loop b n i sum).
Proof using Type. revert i sum. induction n as [|n IH]; intros; cbn [sum_loop]; preserve. Qed.
#[local] Hint Resolve p_set_output_power p_AntennaCtrl p_sum_loop : preserve.
Lemma p_SetChecksum b n : preserves inv (SetChecksum b n).
Proof using Type. unfold SetChecksum. preserve. Qed.
#[local] Hint Resolve p_SetChecksum : preserve.
Lemma p_packet o r b n : preserves inv (packet o r b n).
Proof using Type. unfold packet. cbv zeta. preserve. Qed.
Lemma p_R k v : preserves inv (R k v).
Proof using Type. unfold R. preserve. Qed.
#[local] Hint Resolve p_R p_packet : preserve.
Lemma p_seal_rec n : preserves inv (seal_rec n).
Proof using Type. unfold seal_rec. preserve. Qed.
Lemma p_send_rec n : preserves inv (send_rec n).
Proof using Type. unfold send_rec. preserve. Qed.
#[local] Hint Resolve p_seal_rec p_send_rec : preserve.
Lemma p_SelFreq : preserves inv SelFreq.
Proof using Type.
  unfold SelFreq. preserve.
Qed.
Lemma p_antennas_8A n i len a : preserves inv (antennas_8A n i len a).
Proof using Type. revert i len. induction n as [|n IH]; intros; cbn [antennas_8A]; preserve. Qed.
Lemma p_copy_in k q i n : preserves inv (copy_in k q i n).
Proof using Type. unfold copy_in. preserve. Qed.
Lemma p_put_from q k i : preserves inv (put_from q k i).
Proof using Type. unfold put_from. preserve. Qed.
#[local] Hint Resolve p_SelFreq p_antennas_8A p_copy_in p_put_from : preserve.
Lemma p_encode_frame cmd q : preserves inv (encode_frame cmd q).
Proof using Type.
  unfold encode_frame, encode_8A, encode_74, encode_76, encode_78, encode_81, encode_82, encode_83,
    encode_84, encode_85, encode_C2, encode_C1, encode_B1, encode_B2, encode_B345. cbv zeta. preserve.
Qed.
Lemma p_encode_send cmd : preserves inv (encode_send cmd).
Proof using Type.
  unfold encode_send, encode_wait. cbv zeta. preserve. apply p_wait_R2000.
  unfold encode_on_mark. preserve.
Qed.
#[local] Hint Resolve p_encode_frame p_encode_send : preserve.
Lemma p_encodeR2000 cmd q : preserves inv (encodeR2000 cmd q).
Proof using Type. unfold encodeR2000. preserve. Qed.
#[local] Hint Resolve p_encodeR2000 : preserve.

(** ** The clock, the flash, the parameters *)
Lemma p_board (f : hw -> hw) : preserves inv (fun s => Ret (tt, set_board (f (board s)) s)).
Proof using Type. apply preserves_board, inv_safe. Qed.
Lemma p_shift_out n i ad : preserves inv (shift_out n i ad).
Proof using Type.
  revert i. induction n as [|n IH]; intros; cbn [shift_out]; cbv zeta;
    unfold CLK_L, CLK_H, IO_L, IO_H, DelayUS; preserve.
Qed.
Lemma p_shift_in n cmd i d : preserves inv (shift_in n cmd i d).
Proof using Type.
  revert i d. induction n as [|n IH]; intros; cbn [shift_in]; unfold CLK_L, CLK_H; preserve.
Qed.
#[local] Hint Resolve p_board p_shift_out p_shift_in : preserve.
Lemma p_writeByte w d : preserves inv (writeByte w d).
Proof using Type. unfold writeByte, CLK_L, RST_H, RST_L, DelayUS. cbv zeta. preserve. Qed.
Lemma p_readByte r : preserves inv (readByte r).
Proof using Type. unfold readByte, CLK_L, RST_H, RST_L, DelayUS. preserve. Qed.
#[local] Hint Resolve p_writeByte p_readByte : preserve.
Lemma p_set_24hours st : preserves inv (set_24hours st).
Proof using Type. unfold set_24hours. cbv zeta. preserve. Qed.
Lemma p_read_regs n a : preserves inv (read_regs n a).
Proof using Type. revert a. induction n as [|n IH]; intros; cbn [read_regs]; cbv zeta; preserve. Qed.
#[local] Hint Resolve p_read_regs : preserve.
Lemma p_getTime : preserves inv getTime.
Proof using Type. unfold getTime. preserve. Qed.
Lemma y_getTime : yields inv getTime bytes_ok.
Proof using Type.
  eapply yields_bind; [apply p_read_regs|apply yields_trivial|]. intros l _. apply yields_ret.
  apply Forall_fmap, Forall_true. intros. apply u8_range.
Qed.
Lemma p_write_regs a l : preserves inv (write_regs a l).
Proof using Type. revert a. induction l as [|x l IH]; intros; cbn [write_regs]; preserve. Qed.
#[local] Hint Resolve p_getTime y_getTime p_write_regs : preserve.
Lemma p_setTime t : preserves inv (setTime t).
Proof using Type. unfold setTime. cbv zeta. preserve. Qed.

Lemma p_STMFLASH_Read a n : preserves inv (STMFLASH_Read a n).
Proof using Type.
  revert a. induction n as [|n IH]; intros; cbn [STMFLASH_Read]; unfold STMFLASH_ReadHalfWord; preserve.
Qed.
Lemma p_NoCheck a ws : preserves inv (STMFLASH_Write_NoCheck a ws).
Proof using Type.
  revert a. induction ws as [|w ws IH]; intros; cbn [STMFLASH_Write_NoCheck]; preserve.
  apply (p_board (flash_program a w)).
Qed.
Lemma p_FLASH_Unlock : preserves inv FLASH_Unlock.
Proof using Type. apply (p_board flash_unlock). Qed.
Lemma p_FLASH_Lock : preserves inv FLASH_Lock.
Proof using Type. apply (p_board flash_lock). Qed.
#[local] Hint Resolve p_setTime p_STMFLASH_Read p_NoCheck p_FLASH_Unlock p_FLASH_Lock : preserve.
Lemma p_write_sector a p o r ws : preserves inv (write_sector a p o r ws).
Proof using Type.
  unfold write_sector, first. cbv zeta. preserve. apply (p_board (flash_erase _)).
Qed.
#[local] Hint Resolve p_write_sector : preserve.
Lemma p_write_sectors fuel a p o r ws n : preserves inv (write_sectors fuel a p o r ws n).
Proof using Type.
  revert a p o r ws n. induction fuel as [|fuel IH]; intros; cbn [write_sectors]; cbv zeta; preserve.
Qed.
#[local] Hint Resolve p_write_sectors : preserve.
Lemma p_STMFLASH_Write a ws n : preserves inv (STMFLASH_Write a ws n).
Proof using Type. unfold STMFLASH_Write. cbv zeta. preserve. Qed.
#[local] Hint Resolve p_STMFLASH_Write : preserve.

Lemma p_poke b l : preserves inv (poke b l).
Proof using Type. induction l as [|[o v] l IH]; cbn [poke]; preserve. Qed.
Lemma p_sum32 b n o j : preserves inv (sum32 b n o j).
Proof using Type. revert o j. induction n as [|n IH]; intros; cbn [sum32]; preserve. Qed.
Lemma p_load_device o n : preserves inv (load_device o n).
Proof using Type.
  unfold load_device. preserve. apply bytes_of_ok.
Qed.
#[local] Hint Resolve p_poke p_sum32 p_load_device : preserve.
Lemma p_defaultPara : preserves inv defaultPara.
Proof using Type. unfold defaultPara. preserve. Qed.
Lemma p_SaveData : preserves inv SaveData.
Proof using Type. unfold SaveData. preserve. Qed.
Lemma p_read_tries n : preserves inv (read_tries n).
Proof using Type. induction n as [|n IH]; cbn [read_tries]; preserve. Qed.
Lemma p_set_version : preserves inv set_version.
Proof using Type. unfold set_version. preserve. Qed.
Lemma p_save_changes : preserves inv save_changes.
Proof using Type. unfold save_changes. assert (Hs := p_SaveData). preserve. Qed.
#[local] Hint Resolve p_defaultPara p_SaveData p_save_changes p_read_tries p_set_version : preserve.
Lemma p_ReadPara : preserves inv ReadPara.
Proof using Type. unfold ReadPara. preserve. Qed.
Lemma p_registryParam id v fl len f : preserves inv (registryParam id v fl len f).
Proof using Type. unfold registryParam, get_index. cbv zeta. preserve. Qed.
#[local] Hint Resolve p_registryParam p_ReadPara : preserve.
Lemma p_registryParams : preserves inv registryParams.
Proof using Type. unfold registryParams. preserve. Qed.
Lemma p_bit_relays st : preserves inv (bit_relays st).
Proof using Type. unfold bit_relays, RELAYON, RELAYON1, RELAYOFF, RELAYOFF1. preserve. Qed.
Lemma p_start_OutPutTimer : preserves inv start_OutPutTimer.
Proof using Type. unfold start_OutPutTimer. preserve. Qed.
#[local] Hint Resolve p_registryParams p_bit_relays p_start_OutPutTimer : preserve.
Lemma p_initPara : preserves inv initPara.
Proof using Type. unfold initPara, RELAYOFF, RELAYOFF1. preserve. Qed.

(** ** Command processing *)
Section process.
Context (call : fn -> blk -> M unit) (Hcall : forall f b, preserves inv (call f b)).
#[local] Hint Resolve Hcall : preserve.

Lemma p_flash32 a : preserves inv (flash32 a).
Proof using Type. unfold flash32, flash16. preserve. Qed.
Lemma y_flash32 a : yields inv (flash32 a) bytes_ok.
Proof using Type.
  unfold flash32, flash16. intros s x s' _. rewrite !bind_run. cbn [obind]. rewrite !bind_run.
  cbn [obind]. intros [= <- <-]. repeat constructor; apply u8_range.
Qed.
#[local] Hint Resolve p_flash32 y_flash32 : preserve.
Lemma p_ReadID b o : preserves inv (ReadID b o).
Proof using Type.
  unfold ReadID. preserve.
  repeat (apply Forall_app; split); assumption.
Qed.
Lemma p_run_Function i b : preserves inv (run_Function call i b).
Proof using Hcall. unfold run_Function. preserve. Qed.
Lemma p_set_item_length i n : preserves inv (set_item_length i n).
Proof using Type. unfold set_item_length. preserve. Qed.
Lemma p_compare p q n : preserves inv (compare p q n).
Proof using Type.
  unfold compare. match goal with |- context [compare_loop p q ?n ?i] => generalize n i end.
  intros k. induction k as [|k IH]; intros; cbn [compare_loop]; preserve.
Qed.
#[local] Hint Resolve p_ReadID p_run_Function p_set_item_length p_compare : preserve.
Lemma p_write_TagFilter o b len i : preserves inv (write_TagFilter o b len i).
Proof using Type. unfold write_TagFilter. cbv zeta. preserve. Qed.
Lemma p_write_value o b len cmd i : preserves inv (write_value o b len cmd i).
Proof using Type. unfold write_value. cbv zeta. preserve. Qed.
#[local] Hint Resolve p_write_TagFilter p_write_value : preserve.
Lemma p_write_item o b len cmd i : 0 <= o < 256 -> preserves inv (write_item call o b len cmd i).
Proof using Hcall. intros Ho. unfold write_item. cbv zeta. preserve. Qed.
Lemma p_read_TagFilter o b i : preserves inv (read_TagFilter o b i).
Proof using Type. unfold read_TagFilter. cbv zeta. preserve. Qed.
#[local] Hint Resolve p_write_item p_read_TagFilter : preserve.
Lemma p_read_value o b cmd i : preserves inv (read_value o b cmd i).
Proof using Type. unfold read_value. cbv zeta. preserve. Qed.
#[local] Hint Resolve p_read_value : preserve.
Lemma p_read_item o b len cmd i : 0 <= o < 256 -> preserves inv (read_item call o b len cmd i).
Proof using Hcall. intros Ho. unfold read_item. cbv zeta. preserve. Qed.
Lemma p_TagDataLenPurse o b : preserves inv (TagDataLenPurse o b).
Proof using Type. unfold TagDataLenPurse. cbv zeta. preserve. Qed.
#[local] Hint Resolve p_read_item p_TagDataLenPurse : preserve.
Lemma p_tag_item o b i : 0 <= o < 256 -> preserves inv (tag_item call o b i).
Proof using Hcall. intros Ho. unfold tag_item. cbv zeta. preserve. Qed.
#[local] Hint Resolve p_tag_item : preserve.
Lemma p_processParamTable o b n : 0 <= o < 256 -> preserves inv (processParamTable call o b n).
Proof using Hcall. intros Ho.
  unfold processParamTable, validate, execute, getparaindex, get_index. cbv zeta. preserve.
Qed.
End process.
#[local] Hint Resolve p_processParamTable p_initPara p_set_24hours p_compare : preserve.

(** ** Handlers *)
Lemma p_para_of b : preserves inv (para_of b).
Proof using Type. unfold para_of. preserve. Qed.
Lemma p_para i : preserves inv (para i).
Proof using Type. unfold para. preserve. Qed.
Lemma p_fail : preserves inv fail.
Proof using Type. unfold fail. preserve. Qed.
Lemma p_answer n : preserves inv (answer n).
Proof using Type. unfold answer. preserve. Qed.
Lemma p_beep : preserves inv beep.
Proof using Type. unfold beep. preserve. Qed.
#[local] Hint Resolve p_para_of p_para p_fail p_answer p_beep : preserve.
Lemma p_rssichk x : preserves inv (rssichk x).
Proof using Type. unfold rssichk. cbv zeta. preserve. Qed.
#[local] Hint Resolve p_rssichk : preserve.
Lemma p_list_rows r p pos n i lc : preserves inv (list_rows r p pos n i lc).
Proof using Type.
  revert i lc. induction n as [|n IH]; intros; cbn [list_rows]; cbv zeta; preserve.
Qed.
#[local] Hint Resolve p_list_rows : preserve.
Lemma p_record_set k v : preserves inv (record_set k v).
Proof using Type. unfold record_set. preserve. Qed.
#[local] Hint Resolve p_record_set : preserve.
Lemma p_put_record : preserves inv put_record.
Proof using Type. unfold put_record, record_time. cbv zeta. preserve. Qed.
#[local] Hint Resolve p_put_record : preserve.
Lemma p_put_records fuel i : preserves inv (put_records fuel i).
Proof using Type. revert i. induction fuel as [|n IH]; intros; cbn [put_records]; preserve. Qed.
#[local] Hint Resolve p_put_records : preserve.
Lemma p_ListTagTID b : preserves inv (EPC1G2_ListTagTID b).
Proof using Type. unfold EPC1G2_ListTagTID. cbv zeta. preserve. Qed.
#[local] Hint Resolve p_ListTagTID : preserve.
(** Clearing the low byte of the number of saved tags. *)
Lemma p_ClearTagListMem : preserves inv ClearTagListMem.
Proof using Type.
  assert (preserves inv (n ← getv TagSaveCount; putv TagSaveCount (n - u8 n))).
  { intros s u s' HI. mrun. intros [= <- <-].
    apply inv_put_saved; [|done]. pose proof (inv_saved s HI) as Hc.
    pose proof (u8_range (get TagSaveCount s)).
    assert (u8 (get TagSaveCount s) <= get TagSaveCount s) by (apply Z.mod_le; lia). lia. }
  unfold ClearTagListMem. preserve.
Qed.
#[local] Hint Resolve p_ClearTagListMem : preserve.

Lemma p_request cmd q ok : preserves inv ok -> preserves inv (request cmd q ok).
Proof using Type. intros. unfold request. preserve. Qed.
Lemma p_if_success ok : preserves inv ok -> preserves inv (if_success ok).
Proof using Type. intros. unfold if_success. preserve. Qed.
Lemma p_if_data ok : preserves inv ok -> preserves inv (if_data ok).
Proof using Type. intros. unfold if_data. preserve. Qed.
Lemma p_if_tag_success ok : preserves inv ok -> preserves inv (if_tag_success ok).
Proof using Type. intros. unfold if_tag_success. preserve. Qed.
Lemma p_first_batch : preserves inv first_batch.
Proof using Type. unfold first_batch. preserve. Qed.
Lemma p_next_batch : preserves inv next_batch.
Proof using Type. unfold next_batch. preserve. Qed.
Lemma p_send_rows r p pos n : preserves inv (send_rows r p pos n).
Proof using Type. unfold send_rows. preserve. Qed.
#[local] Hint Resolve p_first_batch p_next_batch p_send_rows : preserve.
Lemma p_inventory_6B m p ok : preserves inv m -> preserves inv ok -> preserves inv (inventory_6B m p ok).
Proof using Type. intros. unfold inventory_6B. preserve. Qed.
Lemma p_matched b cmd ok : (forall p, preserves inv (ok p)) -> preserves inv (matched b cmd ok).
Proof using Type.
  intros Hok. unfold matched. preserve. apply p_request, p_if_success. preserve. by apply p_request.
Qed.
Ltac p_request1 :=
  lazymatch goal with
  | |- preserves _ (request _ _ _) => apply p_request
  | |- preserves _ (if_success _) => apply p_if_success
  | |- preserves _ (if_data _) => apply p_if_data
  | |- preserves _ (if_tag_success _) => apply p_if_tag_success
  | |- preserves _ (inventory_6B _ _ _) => apply p_inventory_6B
  | |- preserves _ (matched _ _ _) => apply p_matched
  end.
Ltac p_requests := repeat first [pres1 | p_request1].
Lemma p_inventory_6C b m r : preserves inv m -> preserves inv (inventory_6C b m r).
Proof using Type. intros. unfold inventory_6C. p_requests. Qed.
Lemma p_ListRSSI b : preserves inv (EPC1G2_ListRSSIMaskTag b).
Proof using Type. unfold EPC1G2_ListRSSIMaskTag. apply p_inventory_6C. preserve. Qed.
Lemma p_ListMask b : preserves inv (EPC1G2_ListMaskTagID b).
Proof using Type. unfold EPC1G2_ListMaskTagID. apply p_inventory_6C. preserve. Qed.
#[local] Hint Resolve p_ListRSSI p_ListMask : preserve.
Lemma p_write_ok : preserves inv write_ok.
Proof using Type. unfold write_ok. p_requests. Qed.
Lemma p_save_Epcdata p : preserves inv (save_Epcdata p).
Proof using Type. unfold save_Epcdata. cbv zeta. preserve. Qed.
Lemma p_take_match p : preserves inv (take_match p).
Proof using Type. unfold take_match. preserve. Qed.
Lemma p_epc_data p : preserves inv (epc_data p).
Proof using Type. unfold epc_data. p_requests. Qed.
Lemma p_RevStatus : preserves inv GetReaderRevStatus.
Proof using Type. intros s. apply preserves_st8, inv_safe. Qed.
#[local] Hint Resolve p_write_ok p_save_Epcdata p_take_match p_epc_data p_RevStatus : preserve.
Lemma p_handler f b : preserves inv (handler f b).
Proof using Type.
  destruct f; cbn [handler];
    unfold SetBaudRate, SetRelay, SetOutputPower, SetFrequency, ReadParam, SetAntenna, ReadReaderPara,
      Reboot, SetReaderWorkType, SetReaderTime, GetReaderTime, read_r2000vertion,
      GetTagRecord, SetFrequency1, EPC1G2_GetRSSIIDList,
      EPC1G2_Accessmatch, EPC1G2_ListTagID, EPC1G2_GetIDList, id_list,
      EPC1G2_ReadWordBlock, EPC1G2_WriteWordBlock, EPC1G2_WriteSetBlock, DestroyTag,
      EPC1G2_WriteEPC, ReadEPCAndData, DetectTagNum, ReadLabelID, ListIDReport, ListSelectedID,
      ReadByteBlock, WriteByteBlock, WriteProtect, ReadWriteProtect, WriteAByte;
    cbv zeta; p_requests.
Qed.
#[local] Hint Resolve p_handler : preserve.

(** ** Channels *)
Lemma p_ulBautRate : preserves inv ulBautRate.
Proof using Type. unfold ulBautRate. preserve. Qed.
#[local] Hint Resolve p_ulBautRate : preserve.
Lemma p_port232 : preserves inv (port_zero port232).
Proof using Type. by apply p_port_zero. Qed.
Lemma p_port485 : preserves inv (port_zero port485).
Proof using Type. by apply p_port_zero. Qed.
#[local] Hint Resolve p_port232 p_port485 : preserve.
Lemma p_RS232_init : preserves inv RS232_init.
Proof using Type. unfold RS232_init. preserve. Qed.
Lemma p_RS485_init : preserves inv RS485_init.
Proof using Type. unfold RS485_init. preserve. Qed.
Lemma p_RS232Send q n : preserves inv (RS232Send q n).
Proof using Type. unfold RS232Send. preserve. Qed.
Lemma p_RS485Send q n : preserves inv (RS485Send q n).
Proof using Type. unfold RS485Send. preserve. Qed.
#[local] Hint Resolve p_RS232_init p_RS485_init p_RS232Send p_RS485Send : preserve.
Lemma p_processing o b n : 0 <= o < 256 -> preserves inv (processParamTable handler o b n).
Proof using Type. apply p_processParamTable. preserve. Qed.
#[local] Hint Resolve p_processing : preserve.
#[local] Hint Extern 1 (0 <= SourceFrom232 < 256) => (unfold SourceFrom232; lia) : preserve.
#[local] Hint Extern 1 (0 <= SourceFrom485 < 256) => (unfold SourceFrom485; lia) : preserve.
#[local] Hint Extern 1 (0 <= SourceFromUDP < 256) => (unfold SourceFromUDP; lia) : preserve.
Lemma p_Local_232_module : preserves inv Local_232_module.
Proof using Type. unfold Local_232_module, Local_module. cbn [p_mark p_rec p_timer port232]. preserve. Qed.
Lemma p_Local_485_module : preserves inv Local_485_module.
Proof using Type. unfold Local_485_module, Local_module. cbn [p_mark p_rec p_timer port485]. preserve. Qed.

Section network.
Context (pbuf_alloc : Z -> fw -> bool).
Lemma p_UDP_sendData a p q n : preserves inv (UDP_sendData pbuf_alloc a p q n).
Proof using Type.
  intros s. unfold UDP_sendData. destruct (pbuf_alloc n s); [|by apply preserves_ret].
  revert s. change (preserves inv (bs ← ldpn q 0 n; emit (TxUdp a p bs))). preserve.
Qed.
#[local] Hint Resolve p_UDP_sendData : preserve.
Lemma p_UDP_Receive payload a p : bytes_ok payload -> preserves inv (UDP_Receive pbuf_alloc payload a p).
Proof using Type. intros. unfold UDP_Receive. preserve. Qed.
Lemma p_UDP_init pcb : preserves inv (UDP_init pcb).
Proof using Type. unfold UDP_init. cbv zeta. preserve. Qed.
Lemma p_Udp_BroadCast : preserves inv (Udp_BroadCast pbuf_alloc).
Proof using Type. unfold Udp_BroadCast. preserve. Qed.
End network.
#[local] Hint Resolve p_Local_232_module p_Local_485_module p_UDP_sendData p_UDP_init
  p_Udp_BroadCast : preserve.

(** ** The active mode *)
Lemma p_load_filter : preserves inv load_filter.
Proof using Type. unfold load_filter. preserve. Qed.
#[local] Hint Resolve p_load_filter : preserve.
Lemma p_readCard6B : preserves inv readCard6B.
Proof using Type. unfold readCard6B, read_more. preserve. Qed.
Lemma p_readCard6C : preserves inv readCard6C.
Proof using Type. unfold readCard6C, read_more. preserve. Qed.
#[local] Hint Resolve p_readCard6B p_readCard6C : preserve.
Lemma p_readCard : preserves inv readCard.
Proof using Type. unfold readCard. preserve. Qed.
#[local] Hint Resolve p_readCard : preserve.
Lemma p_next_antenna fuel i : 0 <= i < 256 -> preserves inv (next_antenna fuel i).
Proof using Type.
  revert i. induction fuel as [|n IH]; intros i Hi; cbn [next_antenna]; preserve. apply IH, u8_range.
Qed.
#[local] Hint Resolve p_next_antenna : preserve.
Lemma p_workACT : preserves inv workACT.
Proof using Type. unfold workACT, one_antenna, pin. cbv zeta. preserve. Qed.
Lemma p_relayON i t : 0 <= t < 4294967296 -> preserves inv (relayON i t).
Proof using Type. intros Ht. unfold relayON, RELAYON, RELAYON1. preserve. Qed.
#[local] Hint Resolve p_workACT p_relayON : preserve.

Lemma copy_row_inv k j s s' :
  inv s -> copy_row k j s = Ret (tt, s') -> inv s' /\ get TagSaveCount s' = get TagSaveCount s.
Proof using Type.
  intros HI E. split; [by eapply (preserves_memcpy inv inv_safe), E|].
  unfold copy_row, memcpy in E. rewrite bind_run in E.
  destruct (ldpn _ _ _ s) as [[bs s1]| | |] eqn:Er; [|done..]. cbn [obind] in E.
  cbn [ldpn] in Er. unfold ldn, lift_opt in Er. case_match; [|done]. injection Er as <- <-.
  cbn [stpn] in E. unfold stn in E. case_match; [|done]. by injection E as <-.
Qed.
Lemma take_all_inv n j s u s' :
  inv s -> get TagSaveCount s <= j -> j + Z.of_nat n <= SAVEMAXNUM ->
  take_all n j s = Ret (u, s') -> inv s'.
Proof using Type.
  revert j s. induction n as [|n IH]; intros j s HI Hc Hj; cbn [take_all]; [by intros [= <- <-]|].
  rewrite bind_run. unfold ld8, lift_opt. case_match; [|done]. cbn [obind]. rewrite bind_run.
  case_match; [rewrite ret_run; cbn [obind]; apply IH; [done|lia..]|].
  rewrite bind_run. destruct (copy_row j j s) as [[[] s1]| | |] eqn:E; [|done..]. cbn [obind].
  destruct (copy_row_inv _ _ _ _ HI E) as [HI1 Hc1]. unfold bump. mrun. rewrite Hc1.
  pose proof (inv_saved s HI). unfold SAVEMAXNUM in *. rewrite u32_small by lia.
  apply IH; [apply inv_put_saved; [unfold SAVEMAXNUM; lia|done]|mget; lia|lia].
Qed.
Lemma p_take_all {A} (k : M A) :
  preserves inv k ->
  preserves inv (putv TagSaveCount 0;; p ← getv CardPos; take_all (Z.to_nat p) 0;; k).
Proof using Type.
  intros Hk s a s' HI. mrun. mget.
  pose proof (inv_pos s HI) as Hp. unfold MAXNUM in Hp.
  destruct (take_all _ 0 _) as [[u s1]| | |] eqn:E; [|done..]. cbn [obind]. apply Hk.
  eapply take_all_inv, E; [|by mget|unfold SAVEMAXNUM; lia].
  apply inv_put_saved; [unfold SAVEMAXNUM; lia|done].
Qed.

Lemma y_saved : yields inv (getv TagSaveCount) (fun n => 0 <= n <= SAVEMAXNUM).
Proof using Type. intros s n s' HI [= <- <-]. by apply inv_saved. Qed.
Lemma p_copy_row k j : preserves inv (copy_row k j).
Proof using Type. unfold copy_row. preserve. Qed.
#[local] Hint Resolve p_copy_row : preserve.
Lemma p_expire n k t r : preserves inv (expire n k t r).
Proof using Type. revert k r. induction n as [|n IH]; intros; cbn [expire]; cbv zeta; preserve. Qed.
Lemma p_find_saved n k j len : preserves inv (find_saved n k j len).
Proof using Type. revert k. induction n as [|n IH]; intros; cbn [find_saved]; cbv zeta; preserve. Qed.
Lemma p_fill_hole n k j : preserves inv (fill_hole n k j).
Proof using Type. revert k. induction n as [|n IH]; intros; cbn [fill_hole]; preserve. Qed.
#[local] Hint Resolve p_expire p_find_saved p_fill_hole : preserve.

Section judge.
Context (tmpNum : Z) (Hnum : 0 <= tmpNum <= SAVEMAXNUM).
#[local] Hint Extern 1 (0 <= tmpNum <= _) => exact Hnum : preserve_put.
Lemma p_add_tag j count : preserves inv (add_tag j count tmpNum).
Proof using Hnum. unfold add_tag. preserve. Qed.
Lemma y_add_tag j count :
  0 <= count <= SAVEMAXNUM -> yields inv (add_tag j count tmpNum) (fun c => 0 <= c <= SAVEMAXNUM).
Proof using Hnum.
  intros Hc. unfold add_tag.
  eapply yields_bind; [preserve|apply yields_trivial|intros n _].
  eapply yields_bind; [preserve|apply yields_trivial|intros f _].
  destruct (f =? 0); [|by apply yields_ret].
  eapply yields_bind; [preserve|apply yields_trivial|intros u _].
  destruct (Z.ltb_spec count tmpNum); [apply yields_ret; lia|].
  intros s c s' _. rewrite bind_run, putv_run. cbn [obind]. intros [= <- <-]. unfold SAVEMAXNUM. lia.
Qed.
Lemma p_merge n j count addTag :
  0 <= count <= SAVEMAXNUM -> preserves inv (merge n j count tmpNum addTag).
Proof using Hnum.
  revert j count addTag. induction n as [|n IH]; intros j count addTag Hc; cbn [merge]; [preserve|].
  apply preserves_bind; [preserve|intros len]. case_match; [by apply IH|].
  apply preserves_bind; [preserve|intros x]. apply preserves_bind; [preserve|intros k].
  case_match; [|by apply IH].
  eapply preserves_bind_yields; [apply p_add_tag|by apply y_add_tag|]. intros. by apply IH.
Qed.
Lemma y_merge n j count addTag :
  0 <= count <= SAVEMAXNUM ->
  yields inv (merge n j count tmpNum addTag) (fun r => 0 <= fst r <= SAVEMAXNUM).
Proof using Hnum.
  revert j count addTag. induction n as [|n IH]; intros j count addTag Hc; cbn [merge];
    [by apply yields_ret|].
  eapply yields_bind; [preserve|apply yields_trivial|intros len _].
  case_match; [by apply IH|].
  eapply yields_bind; [preserve|apply yields_trivial|intros x _].
  eapply yields_bind; [preserve|apply yields_trivial|intros k _].
  case_match; [|by apply IH].
  eapply yields_bind; [apply p_add_tag|by apply y_add_tag|]. intros. by apply IH.
Qed.
End judge.

Lemma p_judgeTag : preserves inv judgeTag.
Proof using Type.
  unfold judgeTag. cbv zeta.
  eapply preserves_bind_yields; [preserve|apply y_ld8|intros h Hh].
  eapply preserves_bind_yields; [preserve|apply y_ld8|intros l Hl].
  match goal with |- context [merge _ _ _ ?t _] => set (tmpNum := t) end.
  assert (Hnum : 0 <= tmpNum <= SAVEMAXNUM).
  { unfold tmpNum, SAVEMAXNUM. rewrite Z.shiftl_mul_pow2, Z.gtb_ltb by lia.
    change (2 ^ 8) with 256. cbv beta in Hh, Hl. destruct (Z.ltb_spec 500 (h * 256 + l)); lia. }
  clearbody tmpNum.
  assert (Hall : forall k : M Z, preserves inv k ->
    preserves inv (putv TagSaveCount 0;; p ← getv CardPos; take_all (Z.to_nat p) 0;; k))
    by (intros; by apply p_take_all).
  apply preserves_bind; [preserve|intros type]. case_match; [apply Hall; preserve|].
  case_match; [apply preserves_bind; [preserve|intros o]; case_match; [preserve|apply Hall; preserve]|].
  eapply preserves_bind_yields; [preserve|apply y_getTime|intros bs Hbs].
  do 3 (apply preserves_bind; [preserve|intros ?]).
  eapply preserves_bind_yields; [preserve|apply y_saved|intros count Hc].
  do 2 (apply preserves_bind; [preserve|intros ?]).
  eapply preserves_bind_yields; [by apply p_merge|by apply y_merge|intros [c t] Hct].
  preserve.
Qed.
#[local] Hint Resolve p_judgeTag : preserve.

(** ** Output and the main loop *)
Section program.
Context (pbuf_alloc : Z -> fw -> bool).
Lemma p_puts k cs : preserves inv (puts k cs).
Proof using Type. revert k. induction cs as [|c cs IH]; intros; cbn [puts]; unfold B; preserve. Qed.
Lemma p_dec2 k v : preserves inv (dec2 k v).
Proof using Type. unfold dec2, B. preserve. Qed.
Lemma p_hex2 k v : preserves inv (hex2 k v).
Proof using Type. unfold hex2, B. preserve. Qed.
Lemma p_tag_col i k : preserves inv (saved i k).
Proof using Type. unfold saved. preserve. Qed.
Lemma y_tag_col i k : yields inv (saved i k) (fun v => 0 <= v < 256).
Proof using Type. apply y_ld8. Qed.
#[local] Hint Resolve p_puts p_dec2 p_hex2 p_tag_col y_tag_col : preserve.
Lemma p_hex_epc b i len : preserves inv (hex_epc b i len).
Proof using Type. unfold hex_epc. preserve. Qed.
Lemma p_wait_beep : preserves inv wait_beep.
Proof using Type. apply p_busy. preserve. Qed.
Lemma p_with_len chk i f : (forall len, preserves inv (f len)) -> preserves inv (with_len chk i f).
Proof using Type. intros. unfold with_len. preserve. Qed.
#[local] Hint Resolve p_hex_epc p_wait_beep : preserve.
Lemma p_pulses w n buf : preserves inv (pulses w n buf).
Proof using Type.
  revert buf. induction n as [|n IH]; intros; cbn [pulses]; unfold rest, pulse, gap, Delay2us; cbv zeta; preserve.
Qed.
#[local] Hint Resolve p_pulses : preserve.
Lemma p_wiegand w e o n buf : preserves inv (wiegand w e o n buf).
Proof using Type. unfold wiegand, rest, pulse, gap, Delay2us. cbv zeta. preserve. Qed.
#[local] Hint Resolve p_wiegand : preserve.
Lemma p_out_wiegand chk : preserves inv (out_wiegand chk).
Proof using Type.
  unfold out_wiegand, wiegand_number, packetDataWG26, packetDataWG261, packetDataWG34,
    packetDataWG341, packetDataWG26_, packetDataWG34_, B. cbv zeta. preserve.
Qed.
Lemma p_out_485 chk : preserves inv (out_485 chk).
Proof using Type.
  unfold out_485. preserve. apply p_with_len. intros. unfold line_485, B. preserve.
Qed.
Lemma p_send_line : preserves inv (send_line pbuf_alloc).
Proof using Type. unfold send_line. preserve. Qed.
Lemma p_pad_line n : preserves inv (pad_line n).
Proof using Type. unfold pad_line, B. preserve. Qed.
#[local] Hint Resolve p_out_wiegand p_out_485 p_send_line p_pad_line : preserve.
Lemma p_out_simple i0 chk : preserves inv (out_simple pbuf_alloc i0 chk).
Proof using Type.
  unfold out_simple, simple_head, B. cbv zeta. preserve. apply p_with_len. preserve.
Qed.
Lemma p_clock_text k : preserves inv (clock_text k).
Proof using Type. unfold clock_text. cbv zeta. preserve. Qed.
Lemma p_row_time i c k : preserves inv (row_time i c k).
Proof using Type. unfold row_time. preserve. Qed.
#[local] Hint Resolve p_out_simple p_clock_text p_row_time : preserve.
Lemma p_out_standard chk : preserves inv (out_standard pbuf_alloc chk).
Proof using Type. unfold out_standard, standard_head. preserve. apply p_with_len. preserve. Qed.
Lemma p_is_wiegand : preserves inv is_wiegand.
Proof using Type. unfold is_wiegand. preserve. Qed.
#[local] Hint Resolve p_out_standard p_is_wiegand : preserve.
Lemma p_output_due : preserves inv output_due.
Proof using Type. unfold output_due. cbv zeta. preserve. Qed.
Lemma p_tags_due : preserves inv tags_due.
Proof using Type. unfold tags_due. preserve. Qed.
Lemma p_report i0 chk : preserves inv (report pbuf_alloc i0 chk).
Proof using Type. unfold report. preserve. Qed.
#[local] Hint Resolve p_output_due p_tags_due p_report : preserve.
Lemma p_sendDataOut i0 : preserves inv (sendDataOut pbuf_alloc i0).
Proof using Type. unfold sendDataOut. preserve. Qed.
#[local] Hint Resolve p_sendDataOut : preserve.
Lemma p_SelfCheck_loop fuel i : preserves inv (SelfCheck_loop fuel i).
Proof using Type. revert i. induction fuel as [|n IH]; intros; cbn [SelfCheck_loop]; preserve. Qed.
#[local] Hint Resolve p_SelfCheck_loop : preserve.
Lemma p_main_loop i0 : preserves inv (main_loop pbuf_alloc i0).
Proof using Type. unfold main_loop, CMDCtrl. preserve. Qed.
Lemma p_main_init pcb : preserves inv (main_init pcb).
Proof using Type. unfold main_init, R2000_init, SelfCheck. preserve. Qed.

Lemma inv_fw0 es h : inv (fw0 es h).
Proof using Type. split; [apply wf_fw0|done..|]. intros x. by apply in_type_u8. Qed.

Lemma step_inv s s' : step pbuf_alloc s s' -> inv s -> inv s'.
Proof using Type.
  intros Hstep HI. destruct Hstep as [i0 s s' E|c s s' _ E|c s s' _ E|c s s' _ E|s s' E|s s' E|pl a p s s' Hpl E|es h s].
  - by eapply p_main_loop, E.
  - by eapply p_USART1, E.
  - by eapply p_USART2, E.
  - by eapply p_UART4, E.
  - by eapply p_Time_Update, E.
  - assert (Ht : preserves inv TIM3_IRQHandler) by (unfold TIM3_IRQHandler; preserve).
    by eapply Ht, E.
  - by eapply p_UDP_Receive, E.
  - by apply (safe_board inv inv_safe), (safe_sched inv inv_safe).
Qed.

Lemma reachable_inv h s : reachable pbuf_alloc h s -> inv s.
Proof using Type.
  intros Hr. induction Hr as [es pcb s E|s s' Hr IH Hs]; [|by eapply step_inv].
  eapply p_main_init, E. apply inv_fw0.
Qed.

(** in every state the program reaches, whatever bytes and
    datagrams arrive and whatever the board answers, every block has the size
    of its C object and holds bytes, the parameter table its 70 entries, the
    position in [CardIndex] is at most 500 and so is the number of saved tags. *)
Theorem reachable_bounds h s :
  reachable pbuf_alloc h s ->
  wf s /\ 0 <= get CardPos s <= MAXNUM /\ 0 <= get TagSaveCount s <= SAVEMAXNUM.
Proof using Type. intros Hr. by destruct (reachable_inv h s Hr). Qed.

(** in every state the program reaches, every scalar global holds a value
    of its C type: wherever an assignment could leave the type, the value
    stored has been wrapped, masked or tested. *)
Theorem reachable_typed h s x :
  reachable pbuf_alloc h s -> in_type (ctype x) (get x s).
Proof using Type. intros Hr. by destruct (reachable_inv h s Hr). Qed.
End program.
End invariant.
