(* ===== verification/Sim.v ===== *)
(** * A simulated board

    One concrete [Board], so that the firmware runs and the hypotheses on the
    chips are met: a flash whose half-words are programmed by clearing bits,
    a clock chip with its eight registers and its write-protect bit, and two
    trigger inputs. *)
From stdpp Require Import base tactics list numbers option gmap.
From S2P Require Import Prelude Machine Effects Timers Tick Serial Packet ParamTable Process Flash Ds1302.

Record chips := mkChips { c_flash : Z -> Z; c_locked : bool; c_rtc : Z -> Z; c_pins : inpin -> Z }.

(** The number whose bits, least significant first, are [bs]. *)
Definition unbits (bs : list Z) : Z := foldr (fun b acc => b + 2 * acc) 0 bs.

Definition chip_erase (p : Z) (c : chips) : chips :=
  if c_locked c then c
  else mkChips (fun a => if (p <=? a) && (a <? p + STM_SECTOR_SIZE) then 0xFFFF else c_flash c a)
               false (c_rtc c) (c_pins c).
Definition chip_program (a w : Z) (c : chips) : chips :=
  if c_locked c then c
  else mkChips (fun b => if b =? a then Z.land (c_flash c b) w else c_flash c b) false
               (c_rtc c) (c_pins c).
Definition chip_lock (b : bool) (c : chips) : chips :=
  mkChips (c_flash c) b (c_rtc c) (c_pins c).
Definition chip_command (bs : list Z) (c : chips) : chips :=
  let v := unbits bs in
  let w := Z.land v 255 in
  let d := Z.shiftr v 8 in
  if (w =? 0x8E) || negb (Z.testbit (u8 (c_rtc c 0x8E)) 7)
  then mkChips (c_flash c) (c_locked c) (fun r => if r =? w then d else c_rtc c r) (c_pins c)
  else c.

#[export] Instance sim : Board := {|
  hw := chips;
  flash_read h a := u16 (c_flash h a);
  flash_program := chip_program;
  flash_erase := chip_erase;
  flash_locked := c_locked;
  flash_unlock := chip_lock false;
  flash_lock := chip_lock true;
  rtc_bit h cmd i := Z.b2z (Z.testbit (u8 (c_rtc h (unbits cmd - 1))) i);
  rtc_command := chip_command;
  pin_level h p := c_pins h p |}.

#[export] Instance sim_flash_laws : FlashLaws.
Proof.
  split; cbn [sim flash_read flash_program flash_erase flash_locked flash_unlock flash_lock
    c_flash c_locked chip_lock]; unfold chip_program, chip_erase; try done.
  - intros a w h Hw -> Hr. cbn [c_flash]. rewrite Z.eqb_refl. unfold u16 in *.
    replace (Z.land (c_flash h a) w) with (Z.land (Z.land (c_flash h a) (Z.ones 16)) w).
    { rewrite Z.land_ones by lia. change (2 ^ 16) with 65536. rewrite Hr.
      change 65535 with (Z.ones 16). rewrite Z.land_comm, Z.land_ones by lia.
      change (2 ^ 16) with 65536. by rewrite Z.mod_mod, Z.mod_small by lia. }
    rewrite <- Z.land_assoc. f_equal. rewrite Z.land_comm, Z.land_ones by lia.
    apply Z.mod_small. change (2 ^ 16) with 65536. lia.
  - intros a b w h _ _ Hne. destruct (c_locked h); [done|]. cbn [c_flash]. destruct (Z.eqb_spec b a); [congruence|done].
  - intros p a h -> _ _ Ha. cbn [c_flash].
    destruct (Z.leb_spec p a), (Z.ltb_spec a (p + STM_SECTOR_SIZE));
      [done|lia..].
  - intros p a h _ _ Ha. destruct (c_locked h); [done|]. cbn [c_flash].
    destruct (Z.leb_spec p a), (Z.ltb_spec a (p + STM_SECTOR_SIZE));
      [lia|done..].
  - intros a w h. by destruct (c_locked h) eqn:E.
  - intros p h. by destruct (c_locked h) eqn:E.
  - intros. apply u16_range.
Qed.

(** What the chip decodes is what was shifted out to it. *)
Definition decodes (w d : Z) : bool :=
  let v := unbits (bits_of 16 (Z.lor (Z.shiftl d 8) w)) in
  (Z.land v 255 =? w) && (Z.shiftr v 8 =? d).
Lemma decodes_regs :
  forallb (fun w => forallb (decodes w) (seqZ 0 256))
    [0x80; 0x82; 0x84; 0x86; 0x88; 0x8A; 0x8C; 0x8E] = true.
Proof. vm_compute. reflexivity. Qed.
Lemma decodes_reg w d :
  clock_reg w -> 0 <= d < 256 ->
  let v := unbits (bits_of 16 (Z.lor (Z.shiftl d 8) w)) in Z.land v 255 = w /\ Z.shiftr v 8 = d.
Proof.
  intros Hw Hd. pose proof decodes_regs as Ha. rewrite forallb_forall in Ha.
  specialize (Ha w (proj1 (list_elem_of_In _ _) Hw)).
  apply (below (decodes w) 256 d Ha), andb_prop in Hd as [E1%Z.eqb_eq E2%Z.eqb_eq]. done.
Qed.
Lemma unbits_reg r : clock_reg r -> unbits (bits_of 8 (r + 1)) - 1 = r.
Proof. unfold clock_reg. intros Hr. by repeat (apply elem_of_cons in Hr as [->|Hr]); [..|inversion Hr]. Qed.

#[export] Instance sim_rtc_laws : RtcLaws.
Proof.
  refine {| rtc_reg h r := u8 (c_rtc h r) |}.
  - intros. apply u8_range.
  - intros h r i Hr Hi. cbn [sim rtc_bit]. by rewrite (unbits_reg r Hr).
  - intros h w d r Hw Hr Hd. cbn [sim rtc_command].
    destruct (decodes_reg w d Hw Hd) as [E1 E2]. unfold chip_command. cbv zeta. rewrite E1, E2.
    destruct ((w =? 0x8E) || negb (Z.testbit (u8 (c_rtc h 0x8E)) 7)) eqn:E; cbn [c_rtc].
    + rewrite andb_true_r. destruct (r =? w); [by apply u8_small|done].
    + by rewrite andb_false_r.
Defined.

(** An erased flash, a clock at 2024-12-31 23:59:58 (a Tuesday), both
    triggers high; and the firmware's memory at reset on it. *)
Definition chips0 : chips :=
  mkChips (fun _ => 0xFFFF) true
    (fun r => switch r [([0x80], 0x58); ([0x82], 0x59); ([0x84], 0x23); ([0x86], 0x31);
                        ([0x88], 0x12); ([0x8A], 2); ([0x8C], 0x24); ([0x8E], 0x80)] 0)
    (fun _ => 1).
Definition board0 : hw := chips0.
Definition s0 : fw := fw0 [] board0.
Definition s_ev (es : list ev) : fw := fw0 es board0.
Lemma wf_s0 : wf s0.
Proof. apply wf_fw0. Qed.

(** [at_ b o bs s]: [s] with the bytes [bs] at [o] of the block [b]. *)
Definition at_ (b : blk) (o : Z) (bs : bytes) (s : fw) : fw :=
  set_block b (default (block b s) (wrn (block b s) o bs)) s.
Lemma wf_at b o bs s : wf s -> bytes_ok bs -> wf (at_ b o bs s).
Proof.
  intros Hwf Hb. unfold at_. destruct (wrn (block b s) o bs) as [m|] eqn:E; simpl.
  - apply wf_set_block; [|by eapply wrn_ok, E; [apply wf_bytes|]|done].
    rewrite (wrn_blen _ _ _ _ E). by apply wf_size.
  - apply wf_set_block; [by apply wf_size|by apply wf_bytes|done].
Qed.

(** The value of a run, for computation. *)
Definition ran {A} (o : outcome (A * fw)) : option A :=
  match o with Ret (a, _) => Some a | _ => None end.
Definition after {A} (o : outcome (A * fw)) : fw :=
  match o with Ret (_, s) => s | _ => s0 end.

(** A run is known by its value. *)
Lemma returned {A} (m : M A) s a s' : s' = after (m s) -> ran (m s) = Some a -> m s = Ret (a, s').
Proof. unfold ran, after. intros ->. by destruct (m s) as [[a' ?]| | |]; intros [= <-]. Qed.
Ltac runs :=
  lazymatch goal with
  | |- ?m ?s = Ret (?a, ?s') => apply (returned m s a s'); [reflexivity|vm_compute; reflexivity]
  end.
