(* ===== verification/Fpec.v ===== *)
(** * The flash controller (stm32f10x_flash.c, the part stm32flash.c uses)

    Flash.v programs and erases through the operations of [Board].  Here are the
    library functions behind them, over the registers of the controller and the
    memory cells, and the proof that they carry out those operations.
    [FpecLaws] is what the programming manual (PM0042) promises of the
    controller: a sequence of two keys unlocks it, a started operation ends after
    fewer polls than the library waits for, and an erased cell takes what is
    written to it.  The cells are half-words at even addresses. *)
From stdpp Require Import base tactics list numbers option.
From S2P Require Import Prelude Machine Effects Flash.

Inductive flash_reg : Set := KEYR | SR | CR | AR.

Class FlashPort := {
  fport : Type;
  freg_read : flash_reg -> fport -> Z * fport;
  freg_write : flash_reg -> Z -> fport -> fport;
  cell_read : Z -> fport -> Z;
  cell_write : Z -> Z -> fport -> fport }.

Definition CR_PG_Set : Z := 0x00000001.
Definition CR_PG_Reset : Z := 0x00001FFE.
Definition CR_PER_Set : Z := 0x00000002.
Definition CR_PER_Reset : Z := 0x00001FFD.
Definition CR_STRT_Set : Z := 0x00000040.
Definition CR_LOCK_Set : Z := 0x00000080.
Definition FLASH_KEY1 : Z := 0x45670123.
Definition FLASH_KEY2 : Z := 0xCDEF89AB.
Definition EraseTimeout : nat := Eval vm_compute in Z.to_nat 0xFFF.
Definition ProgramTimeout : nat := Eval vm_compute in Z.to_nat 0xF.
Definition FLASH_FLAG_BSY : Z := 0x00000001.
Definition FLASH_FLAG_PGERR : Z := 0x00000004.
Definition FLASH_FLAG_WRPRTERR : Z := 0x00000010.

Inductive FLASH_Status : Set :=
| FLASH_BUSY | FLASH_ERROR_PG | FLASH_ERROR_WRP | FLASH_COMPLETE | FLASH_TIMEOUT.
#[export] Instance FLASH_Status_eq_dec : EqDecision FLASH_Status.
Proof. solve_decision. Defined.

Section fpec.
Context `{FlashPort}.

(** Register accesses always return: a state monad is enough. *)
Definition FM (A : Type) : Type := fport -> A * fport.
#[global] Instance FM_ret : MRet FM := fun A a p => (a, p).
#[global] Instance FM_bind : MBind FM := fun A B k m p => let '(a, p) := m p in k a p.

Definition freadr (r : flash_reg) : FM Z := freg_read r.
Definition fwriter (r : flash_reg) (v : Z) : FM unit := fun p => (tt, freg_write r v p).
Definition fstore (a v : Z) : FM unit := fun p => (tt, cell_write a v p).

Definition fset_bits (r : flash_reg) (m : Z) : FM unit := v ← freadr r; fwriter r (Z.lor v m).
Definition fkeep_bits (r : flash_reg) (m : Z) : FM unit := v ← freadr r; fwriter r (Z.land v m).

Definition fpec_Unlock : FM unit := fwriter KEYR FLASH_KEY1;; fwriter KEYR FLASH_KEY2.
Definition fpec_Lock : FM unit := fset_bits CR CR_LOCK_Set.

(** Each test reads the register again. *)
Definition error_status : FM FLASH_Status :=
  v ← freadr SR;
  if negb (Z.land v FLASH_FLAG_PGERR =? 0) then mret FLASH_ERROR_PG
  else
    v ← freadr SR;
    if negb (Z.land v FLASH_FLAG_WRPRTERR =? 0) then mret FLASH_ERROR_WRP
    else mret FLASH_COMPLETE.
Definition FLASH_GetStatus : FM FLASH_Status :=
  v ← freadr SR;
  if Z.land v FLASH_FLAG_BSY =? FLASH_FLAG_BSY then mret FLASH_BUSY else error_status.

(** [while((status == FLASH_BUSY) && (Timeout != 0x00))]: the status and what
    is left of [Timeout].  (The pause of [delay] changes nothing.) *)
Fixpoint wait_loop (Timeout : nat) (status : FLASH_Status) : FM (FLASH_Status * nat) :=
  match status, Timeout with
  | FLASH_BUSY, S Timeout => status ← FLASH_GetStatus; wait_loop Timeout status
  | _, _ => mret (status, Timeout)
  end.
Definition FLASH_WaitForLastOperation (Timeout : nat) : FM FLASH_Status :=
  status ← FLASH_GetStatus;
  r ← wait_loop Timeout status;
  mret (if (r.2 =? 0)%nat then FLASH_TIMEOUT else r.1).

Definition fpec_ErasePage (Page_Address : Z) : FM FLASH_Status :=
  status ← FLASH_WaitForLastOperation EraseTimeout;
  if bool_decide (status = FLASH_COMPLETE) then
    fset_bits CR CR_PER_Set;;
    fwriter AR Page_Address;;
    fset_bits CR CR_STRT_Set;;
    status ← FLASH_WaitForLastOperation EraseTimeout;
    (if bool_decide (status ≠ FLASH_TIMEOUT) then fkeep_bits CR CR_PER_Reset else mret tt);;
    mret status
  else mret status.

Definition fpec_ProgramHalfWord (Address Data : Z) : FM FLASH_Status :=
  status ← FLASH_WaitForLastOperation ProgramTimeout;
  if bool_decide (status = FLASH_COMPLETE) then
    fset_bits CR CR_PG_Set;;
    fstore Address Data;;
    status ← FLASH_WaitForLastOperation ProgramTimeout;
    (if bool_decide (status ≠ FLASH_TIMEOUT) then fkeep_bits CR CR_PG_Reset else mret tt);;
    mret status
  else mret status.
End fpec.

(** ** The controller's contract *)

(** What the controller holds: the cells, the control register without the
    start bit, the address register.  The lock is a bit of the control
    register. *)
Record ctrl := mkCtrl { cells : Z -> Z; cr : Z; ar : Z }.
Definition pg_bit (v : Z) : bool := Z.testbit v 0.
Definition per_bit (v : Z) : bool := Z.testbit v 1.
Definition strt_bit (v : Z) : bool := Z.testbit v 6.
Definition lock_bit (v : Z) : bool := Z.testbit v 7.
Definition locked (c : ctrl) : bool := lock_bit (cr c).
Definition erased_page (p : Z) (f : Z -> Z) : Z -> Z :=
  fun a => if (p <=? a) && (a <? p + STM_SECTOR_SIZE) then 0xFFFF else f a.

(** [in_ctrl n c p]: the port holds [c], shows no error, and is busy for at
    most [n] more reads of the status register. *)
Class FpecLaws `{FlashPort} := {
  in_ctrl : nat -> ctrl -> fport -> Prop;
  fpec_SR : forall n c p, in_ctrl n c p ->
    exists v p', freg_read SR p = (v, p') /\
      (Z.testbit v 0 = false /\ Z.testbit v 2 = false /\ Z.testbit v 4 = false /\ in_ctrl 0 c p'
       \/ Z.testbit v 0 = true /\ exists m, (m < n)%nat /\ in_ctrl m c p');
  fpec_CR_read : forall n c p, in_ctrl n c p ->
    exists p', freg_read CR p = (cr c, p') /\ in_ctrl n c p';
  fpec_cell_read : forall c p a, in_ctrl 0 c p -> cell_read a p = cells c a;
  fpec_CR_write : forall c p v, in_ctrl 0 c p -> locked c = false ->
    strt_bit v = false -> in_ctrl 0 (mkCtrl (cells c) v (ar c)) (freg_write CR v p);
  (** Of the bits of a locked control register, only the lock takes effect. *)
  fpec_CR_locked : forall c p v, in_ctrl 0 c p -> locked c = true -> lock_bit v = true ->
    in_ctrl 0 c (freg_write CR v p);
  fpec_AR_write : forall c p v, in_ctrl 0 c p -> locked c = false ->
    in_ctrl 0 (mkCtrl (cells c) (cr c) v) (freg_write AR v p);
  fpec_keys : forall c p, in_ctrl 0 c p ->
    in_ctrl 0 (mkCtrl (cells c) (Z.clearbit (cr c) 7) (ar c))
      (freg_write KEYR FLASH_KEY2 (freg_write KEYR FLASH_KEY1 p));
  (** A page erase, and the programming of an erased cell. *)
  fpec_start : forall c p v, in_ctrl 0 c p -> locked c = false ->
    per_bit v = true -> pg_bit v = false -> lock_bit v = false -> strt_bit v = true ->
    exists n, (n < EraseTimeout)%nat /\
      in_ctrl n (mkCtrl (erased_page (ar c) (cells c)) (Z.clearbit v 6) (ar c)) (freg_write CR v p);
  fpec_store : forall c p a w, in_ctrl 0 c p -> locked c = false -> pg_bit (cr c) = true ->
    per_bit (cr c) = false -> cells c a = 0xFFFF -> 0 <= w < 65536 ->
    exists n, (n < ProgramTimeout)%nat /\
      in_ctrl n (mkCtrl (fun b => if b =? a then w else cells c b) (cr c) (ar c)) (cell_write a w p) }.

(** The flags of a read of the status register. *)
Lemma flag_clear v f i : f = 2 ^ i -> 0 <= i -> Z.testbit v i = false -> Z.land v f = 0.
Proof.
  intros -> Hi Hb. apply Z.bits_inj'. intros j Hj. rewrite Z.land_spec, Z.bits_0, Z.pow2_bits_eqb by lia.
  destruct (Z.eqb_spec i j) as [<-|]; [by rewrite Hb|by rewrite andb_false_r].
Qed.
Lemma flag_set v f i : f = 2 ^ i -> 0 <= i -> Z.testbit v i = true -> Z.land v f = f.
Proof.
  intros -> Hi Hb. apply Z.bits_inj'. intros j Hj. rewrite Z.land_spec, Z.pow2_bits_eqb by lia.
  destruct (Z.eqb_spec i j) as [<-|]; [by rewrite Hb|by rewrite andb_false_r].
Qed.

(** ** The library functions keep the contract *)
Section refine.
Context `{FpecLaws}.

(** [leads P m Q]: from a port with [P], [m] gives a value and a port with [Q]. *)
Definition leads {A} (P : fport -> Prop) (m : FM A) (Q : A -> fport -> Prop) : Prop :=
  forall p, P p -> Q (m p).1 (m p).2.
Lemma leads_ret {A} (a : A) (P : fport -> Prop) (Q : A -> fport -> Prop) :
  (forall p, P p -> Q a p) -> leads P (mret a) Q.
Proof using Type. done. Qed.
Lemma leads_bind {A B} P (R : A -> fport -> Prop) (m : FM A) (k : A -> FM B) Q :
  leads P m R -> (forall a, leads (R a) (k a) Q) -> leads P (m ≫= k) Q.
Proof using Type.
  intros Hm Hk p Hp. specialize (Hm p Hp). unfold mbind, FM_bind. destruct (m p) as [a p']. by apply Hk.
Qed.
Lemma leads_seq {A B} (P R : fport -> Prop) a (m : FM A) (k : A -> FM B) Q :
  leads P m (fun x p => x = a /\ R p) -> leads R (k a) Q -> leads P (m ≫= k) Q.
Proof using Type. intros Hm Hk. eapply leads_bind; [exact Hm|]. intros x p [-> Hp]. by apply Hk. Qed.
(** The value of the first program has a property. *)
Lemma leads_pure {A B} (P R : fport -> Prop) (φ : A -> Prop) (m : FM A) (k : A -> FM B) Q :
  leads P m (fun x p => φ x /\ R p) -> (forall x, φ x -> leads R (k x) Q) -> leads P (m ≫= k) Q.
Proof using Type. intros Hm Hk. eapply leads_bind; [exact Hm|]. intros x p [Hx Hp]. by apply Hk. Qed.
Lemma leads_unit {B} (P R : fport -> Prop) (m : FM unit) (k : unit -> FM B) Q :
  leads P m (fun _ => R) -> leads R (k tt) Q -> leads P (m ≫= k) Q.
Proof using Type. intros Hm Hk. eapply leads_bind; [exact Hm|]. by intros [] p Hp; apply Hk. Qed.

(** A status read, of an idle or of a busy controller. *)
Lemma leads_SR_idle c :
  leads (in_ctrl 0 c) (freadr SR)
    (fun v p => (Z.testbit v 2 = false /\ Z.testbit v 4 = false) /\ in_ctrl 0 c p).
Proof using Type.
  intros p Hp. unfold freadr. destruct (fpec_SR 0 c p Hp) as (v & p' & E & Hv). rewrite E. cbn.
  destruct Hv as [(_ & H2 & H4 & Hp')|[_ (m & Hm & _)]]; [done|lia].
Qed.
Lemma leads_error_status c :
  leads (in_ctrl 0 c) error_status (fun st p => st = FLASH_COMPLETE /\ in_ctrl 0 c p).
Proof using Type.
  eapply leads_pure; [apply leads_SR_idle|]. intros w [Hw _].
  rewrite (flag_clear w FLASH_FLAG_PGERR 2) by done. cbn [negb Z.eqb].
  eapply leads_pure; [apply leads_SR_idle|]. intros x [_ Hx].
  rewrite (flag_clear x FLASH_FLAG_WRPRTERR 4) by done. by apply leads_ret.
Qed.
(** The controller after a status: complete, or busy for less long. *)
Definition after_status (n : nat) (c : ctrl) (st : FLASH_Status) (p : fport) : Prop :=
  match st with
  | FLASH_COMPLETE => in_ctrl 0 c p
  | FLASH_BUSY => exists m, (m < n)%nat /\ in_ctrl m c p
  | _ => False
  end.
Lemma leads_GetStatus n c : leads (in_ctrl n c) FLASH_GetStatus (after_status n c).
Proof using Type.
  intros p Hp. destruct (fpec_SR n c p Hp) as (v & p' & E & Hv).
  unfold FLASH_GetStatus, mbind, FM_bind, freadr. rewrite E.
  destruct Hv as [(Hb & _ & _ & Hp')|[Hb Hm]].
  - rewrite (flag_clear v FLASH_FLAG_BSY 0) by done. change (0 =? FLASH_FLAG_BSY) with false.
    destruct (leads_error_status c p' Hp') as [Est Hi]. by rewrite Est.
  - by rewrite (flag_set v FLASH_FLAG_BSY 0) by done.
Qed.
Lemma leads_busy {A} n c (k : FM A) Q :
  (forall m, (m < n)%nat -> leads (in_ctrl m c) k Q) -> leads (after_status n c FLASH_BUSY) k Q.
Proof using Type. intros Hk p (m & Hm & Hp). by apply (Hk m Hm). Qed.
Lemma leads_wait_loop T st n c :
  (n < T)%nat ->
  leads (after_status n c st)
    (wait_loop T st) (fun r p => r.1 = FLASH_COMPLETE /\ (0 < r.2)%nat /\ in_ctrl 0 c p).
Proof using Type.
  revert st n. induction T as [|T IH]; intros st n Hn; [lia|].
  destruct st; try done; cbn [wait_loop].
  - apply leads_busy. intros m Hm.
    eapply leads_bind; [apply (leads_GetStatus m)|]. intros st. apply (IH st m). lia.
  - apply leads_ret. intros p Hp. cbn. repeat split; [lia|exact Hp].
Qed.
(** An operation that ends in time is complete. *)
Lemma leads_wait T n c :
  (n < T)%nat -> leads (in_ctrl n c) (FLASH_WaitForLastOperation T)
    (fun st p => st = FLASH_COMPLETE /\ in_ctrl 0 c p).
Proof using Type.
  intros Hn. eapply leads_bind; [apply leads_GetStatus|]. intros st.
  eapply leads_bind; [by apply leads_wait_loop|]. intros [st' t] p (E & Ht & Hp).
  cbn in E, Ht. subst st'. cbn. destruct (Nat.eqb_spec t 0); [lia|by split].
Qed.

(** The bits of the control register after it is set or masked. *)
Ltac cr_bits :=
  repeat match goal with x := mkCtrl _ _ _ : ctrl |- _ => subst x end;
  unfold locked, pg_bit, per_bit, strt_bit, lock_bit, CR_PG_Set, CR_PG_Reset, CR_PER_Set, CR_PER_Reset,
    CR_STRT_Set, CR_LOCK_Set in *; cbn [cr];
  repeat (rewrite ?Z.lor_spec, ?Z.land_spec; rewrite ?Z.clearbit_eqb by lia);
  repeat match goal with |- context [Z.testbit (Z.pos ?k) ?n] =>
    let b := eval vm_compute in (Z.testbit (Z.pos k) n) in change (Z.testbit (Z.pos k) n) with b end;
  cbn [Z.eqb Pos.eqb negb andb orb];
  rewrite ?orb_false_r, ?orb_true_r, ?andb_true_r, ?andb_false_r.
(** No operation is selected. *)
Definition at_rest (c : ctrl) : Prop :=
  pg_bit (cr c) = false /\ per_bit (cr c) = false /\ strt_bit (cr c) = false.

Lemma leads_CR c (f : Z -> Z) (Q : fport -> Prop) :
  (forall p, in_ctrl 0 c p -> Q (freg_write CR (f (cr c)) p)) ->
  leads (in_ctrl 0 c) (v ← freadr CR; fwriter CR (f v)) (fun _ => Q).
Proof using Type.
  intros HQ p Hp. destruct (fpec_CR_read 0 c p Hp) as (p' & E & Hp').
  unfold mbind, FM_bind, freadr. rewrite E. by apply HQ.
Qed.
Lemma leads_set_bits c m :
  locked c = false -> strt_bit (Z.lor (cr c) m) = false ->
  leads (in_ctrl 0 c) (fset_bits CR m) (fun _ => in_ctrl 0 (mkCtrl (cells c) (Z.lor (cr c) m) (ar c))).
Proof using Type. intros. apply leads_CR. intros p Hp. by apply fpec_CR_write. Qed.
Lemma leads_keep_bits c m :
  locked c = false -> strt_bit (Z.land (cr c) m) = false ->
  leads (in_ctrl 0 c) (fkeep_bits CR m) (fun _ => in_ctrl 0 (mkCtrl (cells c) (Z.land (cr c) m) (ar c))).
Proof using Type. intros. apply (leads_CR c (fun v => Z.land v m)). intros p Hp. by apply fpec_CR_write. Qed.

(** The end of an operation that finishes in time: its selection is dropped. *)
Definition ending (T : nat) (c : ctrl) (p : fport) : Prop := exists n, (n < T)%nat /\ in_ctrl n c p.
Lemma leads_finish T c m :
  locked c = false -> strt_bit (Z.land (cr c) m) = false ->
  leads (ending T c)
    (status ← FLASH_WaitForLastOperation T;
     (if bool_decide (status ≠ FLASH_TIMEOUT) then fkeep_bits CR m else mret tt);;
     mret status)
    (fun st p => st = FLASH_COMPLETE /\ in_ctrl 0 (mkCtrl (cells c) (Z.land (cr c) m) (ar c)) p).
Proof using Type.
  intros Hl Hs. eapply leads_seq with (R := in_ctrl 0 c).
  { intros p (n & Hn & Hp). by apply (leads_wait T n c Hn). }
  eapply leads_unit; [by apply leads_keep_bits|]. by apply leads_ret.
Qed.

Lemma leads_Program a w c :
  at_rest c -> locked c = false -> cells c a = 0xFFFF -> 0 <= w < 65536 ->
  leads (in_ctrl 0 c) (fpec_ProgramHalfWord a w) (fun st p => st = FLASH_COMPLETE /\
    in_ctrl 0 (mkCtrl (fun b => if b =? a then w else cells c b)
      (Z.land (Z.lor (cr c) CR_PG_Set) CR_PG_Reset) (ar c)) p).
Proof using Type.
  intros (R1 & R2 & R3) Hl Hc Hw. eapply leads_seq; [apply leads_wait; unfold ProgramTimeout; lia|].
  rewrite bool_decide_true by done.
  eapply leads_unit; [apply leads_set_bits; [done|by cr_bits]|].
  set (c1 := mkCtrl (cells c) (Z.lor (cr c) CR_PG_Set) (ar c)).
  set (c2 := mkCtrl (fun b => if b =? a then w else cells c b) (cr c1) (ar c)).
  eapply leads_unit with (R := ending ProgramTimeout c2).
  { intros p Hp. apply (fpec_store c1 p a w Hp); [by cr_bits..|done|done]. }
  apply (leads_finish ProgramTimeout c2 CR_PG_Reset); by cr_bits.
Qed.
Lemma leads_Erase pg c :
  at_rest c -> locked c = false ->
  leads (in_ctrl 0 c) (fpec_ErasePage pg) (fun st p => st = FLASH_COMPLETE /\ exists r,
    in_ctrl 0 (mkCtrl (erased_page pg (cells c)) r pg) p /\ lock_bit r = false /\
    pg_bit r = false /\ per_bit r = false /\ strt_bit r = false).
Proof using Type.
  intros (R1 & R2 & R3) Hl. eapply leads_seq; [apply leads_wait; unfold EraseTimeout; lia|].
  rewrite bool_decide_true by done.
  eapply leads_unit; [apply leads_set_bits; [done|by cr_bits]|].
  set (c1 := mkCtrl (cells c) (Z.lor (cr c) CR_PER_Set) (ar c)).
  eapply leads_unit with (R := in_ctrl 0 (mkCtrl (cells c1) (cr c1) pg)).
  { intros p Hp. apply fpec_AR_write; [exact Hp|by cr_bits]. }
  set (c2 := mkCtrl (cells c1) (cr c1) pg).
  set (c3 := mkCtrl (erased_page pg (cells c)) (Z.clearbit (Z.lor (cr c2) CR_STRT_Set) 6) pg).
  eapply leads_unit with (R := ending EraseTimeout c3).
  { apply (leads_CR c2 (fun v => Z.lor v CR_STRT_Set)). intros p Hp.
    apply (fpec_start c2 p _ Hp); by cr_bits. }
  assert (Hf := leads_finish EraseTimeout c3 CR_PER_Reset ltac:(by cr_bits) ltac:(by cr_bits)).
  intros p Hp. destruct (Hf p Hp) as [Est Hq]. split; [exact Est|].
  eexists. split; [exact Hq|]. repeat split; by cr_bits.
Qed.

Lemma leads_Unlock c :
  leads (in_ctrl 0 c) fpec_Unlock
    (fun _ => in_ctrl 0 (mkCtrl (cells c) (Z.clearbit (cr c) 7) (ar c))).
Proof using Type. intros p Hp. by apply fpec_keys. Qed.
Lemma leads_Lock c :
  at_rest c ->
  leads (in_ctrl 0 c) fpec_Lock (fun _ p => exists c', in_ctrl 0 c' p /\ cells c' = cells c /\
    at_rest c' /\ locked c' = true).
Proof using Type.
  intros (R1 & R2 & R3). apply leads_CR. intros p Hp. destruct (locked c) eqn:Hl.
  - exists c. split; [|done]. by apply fpec_CR_locked; [|done|cr_bits].
  - eexists. split; [apply fpec_CR_write; [exact Hp|done|by cr_bits]|].
    split; [done|]. unfold at_rest. by cr_bits.
Qed.

(** *** The port in the place of the board's flash *)
Context `{Board} {Hflash : FlashLaws}.

(** The controller holds the flash of the board: the same lock, the same
    half-words, no operation under way. *)
Definition shadows (h : hw) (p : fport) : Prop :=
  exists c, in_ctrl 0 c p /\ at_rest c /\ locked c = flash_locked h /\
    forall a, a mod 2 = 0 -> cells c a = flash_read h a.

(** C34: each library function the firmware calls, run on a controller that
    holds the flash [h], ends without an error on a controller that holds the
    flash after the operation of [Board] it stands for; a memory read returns the
    half-word of [h]. Programming is for an unlocked controller and an erased
    cell, erasing for an unlocked one and the first address of a page, which is
    how stm32flash.c uses them. *)
Theorem flash_driver_refines h p :
  shadows h p ->
  shadows (flash_unlock h) (fpec_Unlock p).2 /\
  shadows (flash_lock h) (fpec_Lock p).2 /\
  (forall a, a mod 2 = 0 -> cell_read a p = flash_read h a) /\
  (forall a w, flash_locked h = false -> a mod 2 = 0 -> flash_read h a = 0xFFFF -> 0 <= w < 65536 ->
     (fpec_ProgramHalfWord a w p).1 = FLASH_COMPLETE /\
     shadows (flash_program a w h) (fpec_ProgramHalfWord a w p).2) /\
  (forall pg, flash_locked h = false -> pg mod STM_SECTOR_SIZE = 0 ->
     (fpec_ErasePage pg p).1 = FLASH_COMPLETE /\
     shadows (flash_erase pg h) (fpec_ErasePage pg p).2).
Proof using Hflash.
  intros (c & Hp & Hr & Hl & Hc). repeat apply conj.
  - exists (mkCtrl (cells c) (Z.clearbit (cr c) 7) (ar c)). split; [by apply leads_Unlock|].
    destruct Hr as (R1 & R2 & R3). split; [unfold at_rest; by cr_bits|].
    split; [rewrite locked_unlock; by cr_bits|]. intros a Ha. by rewrite read_unlock, <- Hc.
  - destruct (leads_Lock c Hr p Hp) as (c' & Hp' & Ec & Hr' & Hl'). exists c'. split; [done|]. split; [done|].
    split; [by rewrite locked_lock|]. intros a Ha. by rewrite read_lock, Ec, Hc.
  - intros a Ha. by rewrite (fpec_cell_read c p a Hp), Hc.
  - intros a w Hul Ha He Hw. rewrite <- Hc in He by done. rewrite Hul in Hl.
    destruct (leads_Program a w c Hr Hl He Hw p Hp) as [Est Hq]. split; [exact Est|].
    eexists. split; [exact Hq|]. destruct Hr as (R1 & R2 & R3).
    split; [unfold at_rest; by cr_bits|]. split; [rewrite locked_program, Hul; by cr_bits|].
    intros b Hb. cbn [cells]. destruct (Z.eqb_spec b a) as [->|Hne].
    + symmetry. apply read_program_eq; [done|done|]. by rewrite <- Hc.
    + rewrite read_program_ne by done. by apply Hc.
  - intros pg Hul Hpg. rewrite Hul in Hl.
    destruct (leads_Erase pg c Hr Hl p Hp) as [Est (r & Hq & Hlr & Hb)]. split; [exact Est|].
    eexists. split; [exact Hq|]. split; [exact Hb|]. split; [by rewrite locked_erase, Hul|].
    intros a Ha. cbn [cells]. unfold erased_page.
    destruct (Z.leb_spec pg a), (Z.ltb_spec a (pg + STM_SECTOR_SIZE)); cbn [andb];
      [symmetry; by apply read_erase_in|rewrite read_erase_out by (done || lia); by apply Hc..].
Qed.
End refine.

(** ** After a programming error *)
Section stuck.
Context `{FlashPort}.
(** nothing in the program clears the error flags of the controller.  Once
    a half-word that was not erased has been programmed and the flag is up, every
    later erase and programming gives up before its first write, and
    stm32flash.c does not look at the status: nothing is stored any more. *)
Theorem flash_error_sticks p v :
  freg_read SR p = (v, p) -> Z.testbit v 0 = false -> Z.testbit v 2 = true ->
  (forall a w, fpec_ProgramHalfWord a w p = (FLASH_ERROR_PG, p)) /\
  (forall pg, fpec_ErasePage pg p = (FLASH_ERROR_PG, p)).
Proof using Type.
  intros E Hb He.
  assert (Hw : forall T, FLASH_WaitForLastOperation (S T) p = (FLASH_ERROR_PG, p)).
  { intros T. unfold FLASH_WaitForLastOperation, FLASH_GetStatus, error_status, mbind, FM_bind, freadr.
    rewrite E. rewrite (flag_clear v FLASH_FLAG_BSY 0) by done.
    change (0 =? FLASH_FLAG_BSY) with false. cbv beta iota zeta. rewrite E.
    rewrite (flag_set v FLASH_FLAG_PGERR 2) by done. done. }
  split; intros; unfold fpec_ProgramHalfWord, fpec_ErasePage, mbind, FM_bind.
  - change ProgramTimeout with (S 14). by rewrite Hw.
  - change EraseTimeout with (S 4094). by rewrite Hw.
Qed.
End stuck.
