(* ===== verification/I2c.v ===== *)
(** * The I2C peripheral (stm32f10x_i2c.c, the part IIC.c uses)

    The registers of the peripheral belong to the chip: [I2CPort] is what
    reading and writing one of them does.  The functions of the ST library that
    IIC.c calls are sequences of register accesses.  Their [assert_param]
    checks are empty in this build, and [I2Cx] is always I2C1. *)
From stdpp Require Import base tactics list numbers option.
From S2P Require Import Prelude Machine Effects.

Inductive i2c_reg : Set := CR1 | CR2 | OAR1 | OAR2 | DR | SR1 | SR2 | CCR | TRISE.
#[export] Instance i2c_reg_eq_dec : EqDecision i2c_reg.
Proof. solve_decision. Defined.

(** Reading a status or data register can change the peripheral. *)
Class I2CPort := {
  port : Type;
  reg_read : i2c_reg -> port -> Z * port;
  reg_write : i2c_reg -> Z -> port -> port }.

(** Masks of the control bits, and of the status bits in an event. *)
Definition CR1_PE_Set : Z := 0x0001.
Definition CR1_PE_Reset : Z := 0xFFFE.
Definition CR1_START_Set : Z := 0x0100.
Definition CR1_START_Reset : Z := 0xFEFF.
Definition CR1_STOP_Set : Z := 0x0200.
Definition CR1_STOP_Reset : Z := 0xFDFF.
Definition CR1_ACK_Set : Z := 0x0400.
Definition CR1_ACK_Reset : Z := 0xFBFF.
Definition CR1_CLEAR_Mask : Z := 0xFBF5.
Definition CR2_FREQ_Reset : Z := 0xFFC0.
Definition OAR1_ADD0_Set : Z := 0x0001.
Definition OAR1_ADD0_Reset : Z := 0xFFFE.
Definition CCR_FS_Set : Z := 0x8000.
Definition CCR_CCR_Set : Z := 0x0FFF.
Definition FLAG_Mask : Z := 0x00FFFFFF.

Definition I2C_FLAG_BUSY : Z := 0x00020000.
Definition I2C_FLAG_AF : Z := 0x10000400.
Definition I2C_EVENT_MASTER_MODE_SELECT : Z := 0x00030001.
Definition I2C_EVENT_MASTER_TRANSMITTER_MODE_SELECTED : Z := 0x00070082.
Definition I2C_EVENT_MASTER_RECEIVER_MODE_SELECTED : Z := 0x00030002.
Definition I2C_EVENT_MASTER_BYTE_RECEIVED : Z := 0x00030040.
Definition I2C_EVENT_MASTER_BYTE_TRANSMITTED : Z := 0x00070084.

(** [I2C_Direction_Transmitter], [I2C_Direction_Receiver]; [FunctionalState]. *)
Inductive I2C_Direction : Set := Transmitter | Receiver.
Inductive FunctionalState : Set := DISABLE | ENABLE.

Record I2C_InitTypeDef := mkI2CInit {
  I2C_ClockSpeed : Z; I2C_Mode : Z; I2C_DutyCycle : Z; I2C_OwnAddress1 : Z;
  I2C_Ack : Z; I2C_AcknowledgedAddress : Z }.
Definition I2C_Mode_I2C : Z := 0.
Definition I2C_DutyCycle_16_9 : Z := 0x4000.
Definition I2C_DutyCycle_2 : Z := 0xBFFF.
Definition I2C_Ack_Enable : Z := 0x0400.
Definition I2C_AcknowledgedAddress_7bit : Z := 0x4000.

Section i2c.
Context `{I2CPort}.

(** A program on the port and on the driver's global [EEPROM_ADDRESS].  It ends
    as a firmware function does: [Oob] is an access outside [pBuffer], [Starved]
    a loop that the given number of turns does not end. *)
Record i2c_state := mkI2C { prt : port; EEPROM_ADDRESS : Z }.
Definition IM (A : Type) : Type := i2c_state -> outcome (A * i2c_state).
#[global] Instance IM_ret : MRet IM := fun A a s => Ret (a, s).
#[global] Instance IM_bind : MBind IM := fun A B k m s =>
  obind (m s) (fun '(a, s') => k a s').

Definition readr (r : i2c_reg) : IM Z := fun s =>
  let '(v, p) := reg_read r (prt s) in Ret (v, mkI2C p (EEPROM_ADDRESS s)).
Definition writer (r : i2c_reg) (v : Z) : IM unit := fun s =>
  Ret (tt, mkI2C (reg_write r v (prt s)) (EEPROM_ADDRESS s)).
Definition get_address : IM Z := fun s => Ret (EEPROM_ADDRESS s, s).
Definition set_address (a : Z) : IM unit := fun s => Ret (tt, mkI2C (prt s) a).

(** [I2Cx->r |= m] and [I2Cx->r &= m] *)
Definition set_bits (r : i2c_reg) (m : Z) : IM unit := v ← readr r; writer r (Z.lor v m).
Definition keep_bits (r : i2c_reg) (m : Z) : IM unit := v ← readr r; writer r (Z.land v m).

Definition I2C_Cmd (NewState : FunctionalState) : IM unit :=
  match NewState with
  | ENABLE => set_bits CR1 CR1_PE_Set | DISABLE => keep_bits CR1 CR1_PE_Reset end.
Definition I2C_GenerateSTART (NewState : FunctionalState) : IM unit :=
  match NewState with
  | ENABLE => set_bits CR1 CR1_START_Set | DISABLE => keep_bits CR1 CR1_START_Reset end.
Definition I2C_GenerateSTOP (NewState : FunctionalState) : IM unit :=
  match NewState with
  | ENABLE => set_bits CR1 CR1_STOP_Set | DISABLE => keep_bits CR1 CR1_STOP_Reset end.
Definition I2C_AcknowledgeConfig (NewState : FunctionalState) : IM unit :=
  match NewState with
  | ENABLE => set_bits CR1 CR1_ACK_Set | DISABLE => keep_bits CR1 CR1_ACK_Reset end.

Definition I2C_SendData (Data : Z) : IM unit := writer DR Data.
Definition I2C_ReceiveData : IM Z := v ← readr DR; mret (u8 v).
Definition I2C_Send7bitAddress (Address : Z) (d : I2C_Direction) : IM unit :=
  writer DR (match d with
             | Receiver => Z.lor Address OAR1_ADD0_Set
             | Transmitter => Z.land Address OAR1_ADD0_Reset
             end).
Definition I2C_ReadRegister (r : i2c_reg) : IM Z := readr r.

Definition I2C_CheckEvent (I2C_EVENT : Z) : IM bool :=
  flag1 ← readr SR1;
  flag2 ← readr SR2;
  let lastevent := Z.land (Z.lor flag1 (Z.shiftl flag2 16)) FLAG_Mask in
  mret (lastevent =? I2C_EVENT).

Definition I2C_GetFlagStatus (I2C_FLAG : Z) : IM bool :=
  let i2creg := Z.shiftr I2C_FLAG 28 in
  let f := Z.land I2C_FLAG FLAG_Mask in
  if negb (i2creg =? 0)
  then v ← readr SR1; mret (negb (Z.land v f =? 0))
  else v ← readr SR2; mret (negb (Z.land v (Z.shiftr f 16) =? 0)).

Definition I2C_ClearFlag (I2C_FLAG : Z) : IM unit :=
  writer SR1 (u16 (Z.lnot (Z.land I2C_FLAG FLAG_Mask))).

(** [PCLK1_Frequency] is what [RCC_GetClocksFreq] finds in the clock registers. *)
Definition I2C_Init (PCLK1_Frequency : Z) (i : I2C_InitTypeDef) : IM unit :=
  tmpreg ← readr CR2;
  let freqrange := u16 (PCLK1_Frequency / 1000000) in
  writer CR2 (Z.lor (Z.land tmpreg CR2_FREQ_Reset) freqrange);;
  keep_bits CR1 CR1_PE_Reset;;
  ccr ← (if I2C_ClockSpeed i <=? 100000
         then
           let result := u16 (PCLK1_Frequency / u32 (Z.shiftl (I2C_ClockSpeed i) 1)) in
           let result := if result <? 4 then 4 else result in
           writer TRISE (u16 (freqrange + 1));; mret result
         else
           let result :=
             if I2C_DutyCycle i =? I2C_DutyCycle_2
             then u16 (PCLK1_Frequency / u32 (I2C_ClockSpeed i * 3))
             else Z.lor (u16 (PCLK1_Frequency / u32 (I2C_ClockSpeed i * 25))) I2C_DutyCycle_16_9 in
           let result := if Z.land result CCR_CCR_Set =? 0 then Z.lor result 1 else result in
           writer TRISE (u16 (freqrange * 300 / 1000 + 1));; mret (Z.lor result CCR_FS_Set));
  writer CCR ccr;;
  set_bits CR1 CR1_PE_Set;;
  tmpreg ← readr CR1;
  writer CR1 (Z.lor (Z.land tmpreg CR1_CLEAR_Mask) (Z.lor (I2C_Mode i) (I2C_Ack i)));;
  writer OAR1 (Z.lor (I2C_AcknowledgedAddress i) (I2C_OwnAddress1 i)).

(** ** Running a program on the port *)
Lemma iret_run {A} (a : A) s : (mret a : IM A) s = Ret (a, s).
Proof using Type. done. Qed.
Lemma ibind_run {A B} (m : IM A) (k : A -> IM B) s :
  (m ≫= k) s = obind (m s) (fun '(a, s') => k a s').
Proof using Type. done. Qed.
Lemma writer_run r v p a : writer r v (mkI2C p a) = Ret (tt, mkI2C (reg_write r v p) a).
Proof using Type. done. Qed.

Lemma readr_run r p a v p' : reg_read r p = (v, p') -> readr r (mkI2C p a) = Ret (v, mkI2C p' a).
Proof using Type. intros E. unfold readr. cbn [prt]. by rewrite E. Qed.

(** [returns m]: on every port, [m] returns, and leaves the address alone. *)
Definition returns {A} (m : IM A) : Prop :=
  forall p a, exists x p', m (mkI2C p a) = Ret (x, mkI2C p' a).
Lemma returns_ret {A} (a : A) : returns (mret a).
Proof using Type. intros p ad. by do 2 eexists. Qed.
Lemma returns_mbind {A B} (m : IM A) (k : A -> IM B) :
  returns m -> (forall a, returns (k a)) -> returns (m ≫= k).
Proof using Type.
  intros Hm Hk p a. destruct (Hm p a) as (x & p' & E). rewrite ibind_run, E. apply Hk.
Qed.
Lemma returns_readr r : returns (readr r).
Proof using Type.
  intros p a. unfold readr. cbn [prt]. destruct (reg_read r p) as [v p'] eqn:E. by exists v, p'.
Qed.
Lemma returns_writer r v : returns (writer r v).
Proof using Type. intros p a. by do 2 eexists. Qed.
Lemma returns_address : returns get_address.
Proof using Type. intros p a. by do 2 eexists. Qed.
End i2c.

Create HintDb returns discriminated.
#[export] Hint Resolve returns_ret returns_readr returns_writer returns_address : returns.
(** Through the sequence of a program, whatever the values read. *)
Ltac ireturns :=
  repeat first
    [ solve [eauto with returns nocore]
    | lazymatch goal with
      | |- returns (mbind _ _) => apply returns_mbind; [|intros ?]
      | |- returns (match ?x with _ => _ end) => destruct x
      | |- returns ((fun _ => _) _) => cbv beta
      end ].

Section i2c_returns.
Context `{I2CPort}.
Lemma returns_GenerateSTART n : returns (I2C_GenerateSTART n).
Proof using Type. unfold I2C_GenerateSTART, set_bits, keep_bits. ireturns. Qed.
Lemma returns_GenerateSTOP n : returns (I2C_GenerateSTOP n).
Proof using Type. unfold I2C_GenerateSTOP, set_bits, keep_bits. ireturns. Qed.
Lemma returns_CheckEvent e : returns (I2C_CheckEvent e).
Proof using Type. unfold I2C_CheckEvent. ireturns. Qed.
Lemma returns_GetFlagStatus f : returns (I2C_GetFlagStatus f).
Proof using Type. unfold I2C_GetFlagStatus. ireturns. Qed.
Lemma returns_Send7bitAddress a d : returns (I2C_Send7bitAddress a d).
Proof using Type. unfold I2C_Send7bitAddress. ireturns. Qed.
Lemma returns_SendData b : returns (I2C_SendData b).
Proof using Type. apply returns_writer. Qed.
Lemma returns_ReadRegister r : returns (I2C_ReadRegister r).
Proof using Type. apply returns_readr. Qed.
Lemma returns_ClearFlag f : returns (I2C_ClearFlag f).
Proof using Type. apply returns_writer. Qed.
End i2c_returns.
#[export] Hint Resolve returns_GenerateSTART returns_GenerateSTOP returns_CheckEvent
  returns_GetFlagStatus returns_Send7bitAddress returns_SendData returns_ReadRegister
  returns_ClearFlag : returns.
