(* ===== verification/Eeprom.v ===== *)
(** * The EEPROM on the I2C bus (IIC.c)

    The driver of the 24C16, over the library functions of I2c.v.  A [pBuffer]
    is the list of the bytes from the pointer to the end of its object.  Every
    loop that waits for the peripheral gives up after [I2C_DELAYMAXCOUNT]
    failed tests, but that of [I2C_EE_BufferRead] over the bytes to read, whose
    counter is commented out: it takes a number of turns.

    The second half specifies the bus: [EepromLaws] is what the reference
    manual of the peripheral and the data sheet of the memory promise of a
    memory that is connected and works. *)
From stdpp Require Import base tactics list numbers option.
From S2P Require Import Prelude Machine Effects I2c.

Definition I2C_PageSize : Z := 16.
Definition I2C_DELAYMAXCOUNT : nat := Eval vm_compute in Z.to_nat 10000.
Definition I2C_Speed : Z := 400000.
Definition I2C2_SLAVE_ADDRESS7 : Z := 0xA0.
Definition EEPROM_Block_ADDRESS : Z := 0xA0.

Section eeprom.
Context `{I2CPort}.

Definition IIC_init (PCLK1_Frequency : Z) : IM unit :=
  I2C_Cmd ENABLE;;
  I2C_Init PCLK1_Frequency
    (mkI2CInit I2C_Speed I2C_Mode_I2C I2C_DutyCycle_2 I2C2_SLAVE_ADDRESS7 I2C_Ack_Enable
               I2C_AcknowledgedAddress_7bit);;
  set_address EEPROM_Block_ADDRESS.

(** [loopCount = n; while (c && (loopCount-- > 0));]: at most [n + 1] tests. *)
Fixpoint spin_while (n : nat) (c : IM bool) : IM unit :=
  b ← c;
  if (b : bool) then match n with O => mret tt | S n => spin_while n c end else mret tt.

Definition wait_event (e : Z) : IM unit :=
  spin_while I2C_DELAYMAXCOUNT (b ← I2C_CheckEvent e; mret (negb b)).
Definition wait_free : IM unit :=
  spin_while I2C_DELAYMAXCOUNT (I2C_GetFlagStatus I2C_FLAG_BUSY).

(** [*pBuffer] *)
Definition head_byte (pBuffer : bytes) : IM Z := fun s =>
  match rd pBuffer 0 with Some b => Ret (b, s) | None => Oob end.

Definition I2C_EE_ByteWrite (pBuffer : bytes) (WriteAddr : Z) : IM unit :=
  I2C_GenerateSTART ENABLE;;
  wait_event I2C_EVENT_MASTER_MODE_SELECT;;
  a ← get_address;
  I2C_Send7bitAddress (u8 a) Transmitter;;
  wait_event I2C_EVENT_MASTER_TRANSMITTER_MODE_SELECTED;;
  I2C_SendData WriteAddr;;
  wait_event I2C_EVENT_MASTER_BYTE_TRANSMITTED;;
  b ← head_byte pBuffer;
  I2C_SendData b;;
  wait_event I2C_EVENT_MASTER_BYTE_TRANSMITTED;;
  I2C_GenerateSTOP ENABLE.

(** [while(NumByteToWrite--)] *)
Fixpoint send_bytes (NumByteToWrite : nat) (pBuffer : bytes) : IM unit :=
  match NumByteToWrite with
  | O => mret tt
  | S n =>
      b ← head_byte pBuffer;
      I2C_SendData b;;
      wait_event I2C_EVENT_MASTER_BYTE_TRANSMITTED;;
      send_bytes n (drop 1 pBuffer)
  end.

Definition I2C_EE_PageWrite (pBuffer : bytes) (WriteAddr NumByteToWrite : Z) : IM unit :=
  wait_free;;
  I2C_GenerateSTART ENABLE;;
  wait_event I2C_EVENT_MASTER_MODE_SELECT;;
  a ← get_address;
  I2C_Send7bitAddress (u8 a) Transmitter;;
  wait_event I2C_EVENT_MASTER_TRANSMITTER_MODE_SELECTED;;
  I2C_SendData WriteAddr;;
  wait_event I2C_EVENT_MASTER_BYTE_TRANSMITTED;;
  send_bytes (Z.to_nat NumByteToWrite) pBuffer;;
  I2C_GenerateSTOP ENABLE.

(** One turn of the [do] loop: its condition before the counter. *)
Definition poll_device : IM bool :=
  I2C_GenerateSTART ENABLE;;
  _ ← I2C_ReadRegister SR1;
  a ← get_address;
  I2C_Send7bitAddress (u8 a) Transmitter;;
  v ← I2C_ReadRegister SR1;
  mret (Z.land v 0x0002 =? 0).
Definition I2C_EE_WaitEepromStandbyState : IM unit :=
  spin_while I2C_DELAYMAXCOUNT poll_device;;
  I2C_ClearFlag I2C_FLAG_AF;;
  I2C_GenerateSTOP ENABLE.

Definition write_page (pBuffer : bytes) (WriteAddr NumByteToWrite : Z) : IM unit :=
  I2C_EE_PageWrite pBuffer WriteAddr NumByteToWrite;;
  I2C_EE_WaitEepromStandbyState.

(** [while(NumOfPage--)]: what is left of [pBuffer] and the address after it. *)
Fixpoint write_pages (NumOfPage : nat) (pBuffer : bytes) (WriteAddr : Z) : IM (bytes * Z) :=
  match NumOfPage with
  | O => mret (pBuffer, WriteAddr)
  | S n =>
      write_page pBuffer WriteAddr I2C_PageSize;;
      write_pages n (drop (Z.to_nat I2C_PageSize) pBuffer) (u8 (WriteAddr + I2C_PageSize))
  end.

Definition I2C_EE_BufferWrite (pBuffer : bytes) (WriteAddr NumByteToWrite : Z) : IM unit :=
  let Addr := u8 (WriteAddr mod I2C_PageSize) in
  let count := u8 (I2C_PageSize - Addr) in
  let NumOfPage := u8 (NumByteToWrite / I2C_PageSize) in
  let NumOfSingle := u8 (NumByteToWrite mod I2C_PageSize) in
  if Addr =? 0 then
    if NumOfPage =? 0 then write_page pBuffer WriteAddr NumOfSingle
    else
      r ← write_pages (Z.to_nat NumOfPage) pBuffer WriteAddr;
      let '(pBuffer, WriteAddr) := r in
      if negb (NumOfSingle =? 0) then write_page pBuffer WriteAddr NumOfSingle else mret tt
  else
    if NumOfPage =? 0 then write_page pBuffer WriteAddr NumOfSingle
    else
      let NumByteToWrite := u16 (NumByteToWrite - count) in
      let NumOfPage := u8 (NumByteToWrite / I2C_PageSize) in
      let NumOfSingle := u8 (NumByteToWrite mod I2C_PageSize) in
      r ← (if negb (count =? 0)
           then write_page pBuffer WriteAddr count;;
                mret (drop (Z.to_nat count) pBuffer, u8 (WriteAddr + count))
           else mret (pBuffer, WriteAddr));
      r ← write_pages (Z.to_nat NumOfPage) r.1 r.2;
      let '(pBuffer, WriteAddr) := r in
      if negb (NumOfSingle =? 0) then write_page pBuffer WriteAddr NumOfSingle else mret tt.

(** [while(NumByteToRead)], [pos] bytes into the buffer. *)
Fixpoint read_bytes (turns : nat) (pBuffer : bytes) (pos NumByteToRead : Z) : IM bytes :=
  if NumByteToRead =? 0 then mret pBuffer
  else match turns with
       | O => fun _ => Starved
       | S turns =>
           (if NumByteToRead =? 1
            then I2C_AcknowledgeConfig DISABLE;; I2C_GenerateSTOP ENABLE
            else mret tt);;
           e ← I2C_CheckEvent I2C_EVENT_MASTER_BYTE_RECEIVED;
           if (e : bool) then
             b ← I2C_ReceiveData;
             match wr pBuffer pos b with
             | Some pBuffer => read_bytes turns pBuffer (pos + 1) (u16 (NumByteToRead - 1))
             | None => fun _ => Oob
             end
           else read_bytes turns pBuffer pos NumByteToRead
       end.

Definition I2C_EE_BufferRead (turns : nat) (pBuffer : bytes) (ReadAddr NumByteToRead : Z) : IM bytes :=
  wait_free;;
  I2C_GenerateSTART ENABLE;;
  wait_event I2C_EVENT_MASTER_MODE_SELECT;;
  a ← get_address;
  I2C_Send7bitAddress (u8 a) Transmitter;;
  wait_event I2C_EVENT_MASTER_TRANSMITTER_MODE_SELECTED;;
  I2C_Cmd ENABLE;;
  I2C_SendData ReadAddr;;
  wait_event I2C_EVENT_MASTER_BYTE_TRANSMITTED;;
  I2C_GenerateSTART ENABLE;;
  wait_event I2C_EVENT_MASTER_MODE_SELECT;;
  a ← get_address;
  I2C_Send7bitAddress (u8 a) Receiver;;
  wait_event I2C_EVENT_MASTER_RECEIVER_MODE_SELECTED;;
  pBuffer ← read_bytes turns pBuffer 0 NumByteToRead;
  I2C_AcknowledgeConfig ENABLE;;
  mret pBuffer.
End eeprom.
