(* ===== verification/EepromBus.v ===== *)
(** * What the EEPROM driver relies on

    The bus as the driver sees it: a phase of a transfer, and the cells of the
    memory behind it.  [EepromLaws] states how register accesses move the
    phase, as the reference manual of the peripheral (RM0008, I2C, master mode)
    and the data sheet of the 24C16 describe it.  Every status shows after at
    most [I2C_DELAYMAXCOUNT] tests, and a write cycle ends within as many polls;
    the processor is taken to be faster than the bus.  [EepromSim] is a port
    with these laws. *)
From stdpp Require Import base tactics list numbers option.
From S2P Require Import Prelude Machine Effects I2c Eeprom.

(** Bytes that follow the word address in one transfer go to the cells of its
    page, round and round. *)
Definition page_cell (a i : Z) : Z := a / I2C_PageSize * I2C_PageSize + (a + i) mod I2C_PageSize.
Fixpoint latch (cells : bytes) (a i : Z) (bs : bytes) : bytes :=
  match bs with
  | [] => cells
  | b :: bs => latch (<[Z.to_nat (page_cell a i) := b]> cells) a (i + 1) bs
  end.
Definition commit (sent : bytes) (cells : bytes) : bytes :=
  match sent with [] => cells | a :: bs => latch cells a 0 bs end.

(** How far the end of a reception is prepared: the acknowledge bit is
    cleared, then a stop is asked for. *)
Inductive stage : Set := More | Nack | Last.
Inductive phase : Type :=
| Free                              (* a stop has been asked for; the bus becomes free *)
| Ready                             (* the bus is free *)
| Started (a : option Z)            (* start; again, after a word address *)
| Selected (a : option Z)           (* start bit seen *)
| Called | Addressed                (* device address sent; acknowledge seen *)
| Writing (sent : bytes)            (* bytes sent *)
| Sent (sent : bytes)               (* their transfer seen *)
| Cycle                             (* the memory writes its cells *)
| Polled                            (* and has acknowledged again *)
| CalledR (a : Z)                   (* device address sent, to read from [a] *)
| Receiving (a : Z) (g : stage)
| Received (a : Z) (g : stage).     (* the byte at [a] is in the data register *)

(** The event a phase ends up showing, and the phase after it was seen. *)
Definition shows (ph : phase) : option Z :=
  match ph with
  | Started _ => Some I2C_EVENT_MASTER_MODE_SELECT
  | Called => Some I2C_EVENT_MASTER_TRANSMITTER_MODE_SELECTED
  | Writing _ => Some I2C_EVENT_MASTER_BYTE_TRANSMITTED
  | CalledR _ => Some I2C_EVENT_MASTER_RECEIVER_MODE_SELECTED
  | Receiving _ _ => Some I2C_EVENT_MASTER_BYTE_RECEIVED
  | _ => None
  end.
Definition noted (ph : phase) : phase :=
  match ph with
  | Free => Ready
  | Started a => Selected a
  | Called => Addressed
  | Writing l => Sent l
  | CalledR a => Receiving a More
  | Receiving a g => Received a g
  | _ => ph
  end.
Definition event_of (f1 f2 : Z) : Z := Z.land (Z.lor f1 (Z.shiftl f2 16)) FLAG_Mask.

(** The start and stop bits read back as set until the condition is on the bus:
    the start from the write until its event, the stop after the last byte and
    after a page.  While the memory is polled, nothing is awaited between the
    two. *)
Definition starting (ph : phase) : bool :=
  match ph with Started _ | Cycle => true | _ => false end.
Definition stopping (ph : phase) : bool :=
  match ph with Free | Cycle | Receiving _ Last | Received _ Last => true | _ => false end.
Definition start_bit (v : Z) : bool := Z.testbit v 8.
Definition stop_bit (v : Z) : bool := Z.testbit v 9.
Definition ack_bit (v : Z) : bool := Z.testbit v 10.
Definition nacked (g : stage) : stage := match g with More => Nack | g => g end.
Definition word_to_read (ph : phase) : option (option Z) :=
  match ph with Ready => Some None | Sent [a] => Some (Some a) | _ => None end.

(** [in_phase n ph cells p]: [p] is in phase [ph], which shows after at most
    [n] more tests. *)
Class EepromLaws `{I2CPort} := {
  in_phase : nat -> phase -> bytes -> port -> Prop;
  reaches (ph : phase) (c : bytes) (p : port) : Prop :=
    exists n, (n <= I2C_DELAYMAXCOUNT)%nat /\ in_phase n ph c p;
  law_CR1 : forall n ph c p, in_phase n ph c p ->
    exists v p', reg_read CR1 p = (v, p') /\ in_phase n ph c p' /\
      (starting ph = false -> start_bit v = false) /\ (stopping ph = false -> stop_bit v = false);
  law_event : forall n ph c p e, in_phase n ph c p -> shows ph = Some e ->
    exists f1 p1 f2 p2, reg_read SR1 p = (f1, p1) /\ reg_read SR2 p1 = (f2, p2) /\
      (event_of f1 f2 = e /\ reaches (noted ph) c p2
       \/ event_of f1 f2 ≠ e /\ exists m, (m < n)%nat /\ in_phase m ph c p2);
  law_busy : forall n c p, in_phase n Free c p ->
    exists f p', reg_read SR2 p = (f, p') /\
      (Z.testbit f 1 = false /\ reaches Ready c p'
       \/ Z.testbit f 1 = true /\ exists m, (m < n)%nat /\ in_phase m Free c p');
  law_start : forall n ph a c p v, in_phase n ph c p -> word_to_read ph = Some a ->
    start_bit v = true -> stop_bit v = false -> reaches (Started a) c (reg_write CR1 v p);
  law_call : forall n c p, in_phase n (Selected None) c p -> reaches Called c (reg_write DR 0xA0 p);
  law_word : forall n c p a, in_phase n Addressed c p -> 0 <= a < 256 ->
    reaches (Writing [a]) c (reg_write DR a p);
  law_byte : forall n l c p b, in_phase n (Sent l) c p -> 0 <= b < 256 ->
    reaches (Writing (l ++ [b])) c (reg_write DR b p);
  law_stop : forall n l c p v, in_phase n (Sent l) c p -> start_bit v = false -> stop_bit v = true ->
    reaches Cycle (commit l c) (reg_write CR1 v p);
  (** One poll of the memory: start, device address, is it acknowledged?  The
      driver does not wait for the stop of the page, so the bit may still be set
      in what it writes; the start follows the stop then. *)
  law_poll : forall n c p v, in_phase n Cycle c p -> start_bit v = true ->
    exists x p1 f p2, reg_read SR1 (reg_write CR1 v p) = (x, p1) /\
      reg_read SR1 (reg_write DR 0xA0 p1) = (f, p2) /\
      (Z.testbit f 1 = true /\ reaches Polled c p2
       \/ Z.testbit f 1 = false /\ exists m, (m < n)%nat /\ in_phase m Cycle c p2);
  law_clear_AF : forall n c p, in_phase n Polled c p -> reaches Polled c (reg_write SR1 0xFBFF p);
  law_poll_stop : forall n c p v, in_phase n Polled c p -> start_bit v = false -> stop_bit v = true ->
    reaches Free c (reg_write CR1 v p);
  law_enable : forall n c p v, in_phase n Addressed c p -> start_bit v = false -> stop_bit v = false ->
    reaches Addressed c (reg_write CR1 v p);
  law_call_read : forall n a c p, in_phase n (Selected (Some a)) c p ->
    reaches (CalledR a) c (reg_write DR 0xA1 p);
  law_nack : forall n a g c p v, in_phase n (Receiving a g) c p -> start_bit v = false ->
    ack_bit v = false -> (g ≠ Last -> stop_bit v = false) ->
    in_phase n (Receiving a (nacked g)) c (reg_write CR1 v p);
  law_last : forall n a g c p v, in_phase n (Receiving a g) c p -> g ≠ More ->
    start_bit v = false -> stop_bit v = true -> in_phase n (Receiving a Last) c (reg_write CR1 v p);
  law_data : forall n a g c p, in_phase n (Received a g) c p -> 0 <= a < blen c ->
    exists b p', reg_read DR p = (b, p') /\ rd c a = Some (u8 b) /\
      reaches (if g is Last then Free else Receiving (a + 1) g) c p';
  law_ack : forall n c p v, in_phase n Free c p -> start_bit v = false ->
    reaches Free c (reg_write CR1 v p) }.
