(* ===== verification/EepromSpec.v ===== *)
(** * The EEPROM driver is correct on a bus with its laws

    Total-correctness triples move the phase of the bus through the library
    calls, the wait loops, a page write, a whole buffer and a read. *)
From stdpp Require Import base tactics list numbers option.
From S2P Require Import Prelude Machine Effects I2c Eeprom EepromBus.

Section triples.
Context `{I2CPort}.
(** [goes P m Q]: from a state with [P], [m] returns with [Q]. *)
Definition goes {A} (P : i2c_state -> Prop) (m : IM A) (Q : A -> i2c_state -> Prop) : Prop :=
  forall s, P s -> exists a s', m s = Ret (a, s') /\ Q a s'.

Lemma goes_ret {A} (a : A) (P : i2c_state -> Prop) Q :
  (forall s, P s -> Q a s) -> goes P (mret a) Q.
Proof using Type. intros HQ s Hs. exists a, s. eauto. Qed.
Lemma goes_bind {A B} P (R : A -> i2c_state -> Prop) (m : IM A) (k : A -> IM B) Q :
  goes P m R -> (forall a, goes (R a) (k a) Q) -> goes P (m ≫= k) Q.
Proof using Type.
  intros Hm Hk s Hs. destruct (Hm s Hs) as (a & s' & E & Ha).
  rewrite ibind_run, E. by apply Hk.
Qed.
(** The value of the first program is known. *)
Lemma goes_seq {A B} (P R : i2c_state -> Prop) a (m : IM A) (k : A -> IM B) Q :
  goes P m (fun x s => x = a /\ R s) -> goes R (k a) Q -> goes P (m ≫= k) Q.
Proof using Type. intros Hm Hk. eapply goes_bind; [exact Hm|]. intros x s [-> Hs]. by apply Hk. Qed.
Lemma goes_unit {B} (P R : i2c_state -> Prop) (m : IM unit) (k : unit -> IM B) Q :
  goes P m (fun _ => R) -> goes R (k tt) Q -> goes P (m ≫= k) Q.
Proof using Type. intros Hm Hk. eapply goes_bind; [exact Hm|]. by intros [] s Hs; apply Hk. Qed.
Lemma goes_conseq {A} (P P' : i2c_state -> Prop) (m : IM A) (Q Q' : A -> i2c_state -> Prop) :
  goes P' m Q' -> (forall s, P s -> P' s) -> (forall a s, Q' a s -> Q a s) -> goes P m Q.
Proof using Type.
  intros Hm HP HQ s Hs. destruct (Hm s (HP s Hs)) as (a & s' & E & Ha). eauto.
Qed.

(** A wait loop ends early when its tests run out of failures. *)
Lemma goes_spin_while (I : nat -> i2c_state -> Prop) (Q : i2c_state -> Prop) c N n :
  (forall n, goes (I n) c (fun b s => if b : bool then exists m, (m < n)%nat /\ I m s else Q s)) ->
  (n <= N)%nat -> goes (I n) (spin_while N c) (fun _ => Q).
Proof using Type.
  intros Hc. revert n. induction N as [|N IH]; intros n Hn s Hs;
    destruct (Hc n s Hs) as (b & s' & E & Hb); cbn [spin_while]; rewrite ibind_run, E; cbn [obind];
    destruct b; try (exists tt, s'; by split); destruct Hb as (m & Hm & Hb).
  - lia.
  - by apply (IH m ltac:(lia) s').
Qed.
End triples.

(** Within one page, a page write is a write of consecutive cells. *)
Lemma latch_wrn c a i bs :
  0 <= a -> 0 <= i -> a mod I2C_PageSize + i + blen bs <= I2C_PageSize -> a + i + blen bs <= blen c ->
  wrn c (a + i) bs = Some (latch c a i bs).
Proof.
  revert c i. induction bs as [|b bs IH]; intros c i Ha Hi Hp Hl; cbn [latch].
  { change (blen []) with 0 in *. apply wrn_nil. lia. }
  rewrite blen_cons in *. pose proof (blen_nonneg bs). rewrite wrn_cons by lia.
  assert (Ec : page_cell a i = a + i).
  { unfold page_cell, I2C_PageSize in *. pose proof (Z.div_mod a 16 ltac:(lia)) as Hd.
    pose proof (Z.mod_pos_bound a 16 ltac:(lia)).
    rewrite <- (Z.mod_unique_pos (a + i) 16 (a / 16) (a mod 16 + i)); lia. }
  rewrite Ec, <- Z.add_assoc. apply IH; try lia. unfold blen in *. rewrite length_insert. lia.
Qed.

Lemma latch_blen c a i bs : blen (latch c a i bs) = blen c.
Proof.
  revert c i. induction bs as [|b bs IH]; intros c i; cbn [latch]; [done|].
  rewrite IH. unfold blen. by rewrite length_insert.
Qed.
Lemma latch_app c a i xs ys : latch c a i (xs ++ ys) = latch (latch c a i xs) a (i + blen xs) ys.
Proof.
  revert c i. induction xs as [|x xs IH]; intros c i; cbn [latch app].
  { change (blen []) with 0. by rewrite Z.add_0_r. }
  rewrite IH, blen_cons. f_equal. lia.
Qed.
(** Past the end of the page, a page write goes on at its beginning. *)
Lemma latch_next_page c a i bs :
  I2C_PageSize - a mod I2C_PageSize <= i -> i + blen bs <= I2C_PageSize ->
  latch c a i bs = latch c (a / I2C_PageSize * I2C_PageSize) (i - (I2C_PageSize - a mod I2C_PageSize)) bs.
Proof.
  revert c i. induction bs as [|b bs IH]; intros c i Hi Hl; cbn [latch]; [done|].
  rewrite blen_cons in Hl. pose proof (blen_nonneg bs).
  assert (Ec : page_cell a i = page_cell (a / I2C_PageSize * I2C_PageSize) (i - (I2C_PageSize - a mod I2C_PageSize))).
  { unfold page_cell, I2C_PageSize in *. pose proof (Z.div_mod a 16 ltac:(lia)).
    pose proof (Z.mod_pos_bound a 16 ltac:(lia)). rewrite Z.div_mul by lia. f_equal.
    rewrite <- (Z.mod_unique_pos (a + i) 16 (a / 16 + 1) (i - (16 - a mod 16))) by lia.
    by rewrite <- (Z.mod_unique_pos (a / 16 * 16 + (i - (16 - a mod 16))) 16 (a / 16) (i - (16 - a mod 16))) by lia. }
  rewrite Ec, IH by lia. f_equal. lia.
Qed.

Section laws.
Context `{EepromLaws}.

(** [at_phase ph c]: the driver is set up and the bus is in phase [ph]. *)
Definition at_phase (ph : phase) (c : bytes) (s : i2c_state) : Prop :=
  EEPROM_ADDRESS s = EEPROM_Block_ADDRESS /\ reaches ph c (prt s).
Definition in_state (n : nat) (ph : phase) (c : bytes) (s : i2c_state) : Prop :=
  EEPROM_ADDRESS s = EEPROM_Block_ADDRESS /\ in_phase n ph c (prt s).

Lemma goes_at {A} ph c (m : IM A) Q :
  (forall n, (n <= I2C_DELAYMAXCOUNT)%nat -> goes (in_state n ph c) m Q) -> goes (at_phase ph c) m Q.
Proof using Type. intros Hn s (Ha & n & Hl & Hp). by apply (Hn n Hl). Qed.

(** Read, change and write CR1. *)
Lemma goes_CR1 n ph c (f : Z -> Z) (Q : i2c_state -> Prop) :
  (forall a p v, a = EEPROM_Block_ADDRESS -> in_phase n ph c p ->
     (starting ph = false -> start_bit v = false) -> (stopping ph = false -> stop_bit v = false) ->
     Q (mkI2C (reg_write CR1 (f v) p) a)) ->
  goes (in_state n ph c) (v ← readr CR1; writer CR1 (f v)) (fun _ => Q).
Proof using Type.
  intros HQ [p a] [Ha Hp]. destruct (law_CR1 n ph c p Hp) as (v & p' & E & Hp' & Hs & Hst).
  rewrite ibind_run. unfold readr. cbn [prt] in *. rewrite E. cbn [obind]. rewrite writer_run.
  do 2 eexists. split; [done|]. by apply HQ.
Qed.
Lemma goes_writer n ph c r v (Q : i2c_state -> Prop) :
  (forall a p, a = EEPROM_Block_ADDRESS -> in_phase n ph c p -> Q (mkI2C (reg_write r v p) a)) ->
  goes (in_state n ph c) (writer r v) (fun _ => Q).
Proof using Type. intros HQ [p a] [Ha Hp]. do 2 eexists. split; [done|]. by apply HQ. Qed.

(** The control bits after setting or clearing one of them. *)
Lemma bits_START v : start_bit (Z.lor v CR1_START_Set) = true /\ stop_bit (Z.lor v CR1_START_Set) = stop_bit v.
Proof using Type. unfold start_bit, stop_bit. rewrite !Z.lor_spec. by rewrite orb_true_r, orb_false_r. Qed.
Lemma bits_STOP v : start_bit (Z.lor v CR1_STOP_Set) = start_bit v /\ stop_bit (Z.lor v CR1_STOP_Set) = true.
Proof using Type. unfold start_bit, stop_bit. rewrite !Z.lor_spec. by rewrite orb_true_r, orb_false_r. Qed.
Lemma bits_keep m v : m = CR1_PE_Set \/ m = CR1_ACK_Set ->
  start_bit (Z.lor v m) = start_bit v /\ stop_bit (Z.lor v m) = stop_bit v.
Proof using Type.
  unfold start_bit, stop_bit. rewrite !Z.lor_spec. by intros [-> | ->]; rewrite !orb_false_r.
Qed.
Lemma bits_nack v : start_bit (Z.land v CR1_ACK_Reset) = start_bit v /\
  stop_bit (Z.land v CR1_ACK_Reset) = stop_bit v /\ ack_bit (Z.land v CR1_ACK_Reset) = false.
Proof using Type.
  unfold start_bit, stop_bit, ack_bit. rewrite !Z.land_spec. by rewrite !andb_true_r, andb_false_r.
Qed.

Lemma test_bit1 f : (Z.land f 2 =? 0) = negb (Z.testbit f 1).
Proof using Type.
  change 2 with (2 ^ 1). destruct (Z.testbit f 1) eqn:Et.
  - apply Z.eqb_neq. intros E0. apply (f_equal (fun z => Z.testbit z 1)) in E0.
    by rewrite Z.land_spec, Et in E0.
  - apply Z.eqb_eq, Z.bits_inj'. intros i Hi. rewrite Z.land_spec, Z.bits_0.
    rewrite Z.pow2_bits_eqb by lia. destruct (Z.eqb_spec 1 i) as [<-|]; [by rewrite Et|].
    by rewrite andb_false_r.
Qed.

(** ** The library calls *)
Lemma goes_START ph a c :
  word_to_read ph = Some a ->
  goes (at_phase ph c) (I2C_GenerateSTART ENABLE) (fun _ => at_phase (Started a) c).
Proof using Type.
  intros Hw. apply goes_at. intros n _. apply goes_CR1. intros ad p v Ha Hp Hs Hst.
  destruct (bits_START v) as [E1 E2]. split; [done|]. eapply law_start; [done..|].
  rewrite E2. apply Hst. destruct ph as [| | | | | |l|l| | | | |]; try done.
Qed.
Lemma goes_STOP_written l c :
  goes (at_phase (Sent l) c) (I2C_GenerateSTOP ENABLE) (fun _ => at_phase Cycle (commit l c)).
Proof using Type.
  apply goes_at. intros n _. apply goes_CR1. intros ad p v Ha Hp Hs Hst.
  destruct (bits_STOP v) as [E1 E2]. split; [done|]. eapply law_stop; [done| |done]. rewrite E1; auto.
Qed.
Lemma goes_STOP_polled c :
  goes (at_phase Polled c) (I2C_GenerateSTOP ENABLE) (fun _ => at_phase Free c).
Proof using Type.
  apply goes_at. intros n _. apply goes_CR1. intros ad p v Ha Hp Hs Hst.
  destruct (bits_STOP v) as [E1 E2]. split; [done|]. eapply law_poll_stop; [done| |done]. rewrite E1; auto.
Qed.
Lemma goes_Cmd c : goes (at_phase Addressed c) (I2C_Cmd ENABLE) (fun _ => at_phase Addressed c).
Proof using Type.
  apply goes_at. intros n _. apply goes_CR1. intros ad p v Ha Hp Hs Hst.
  destruct (bits_keep CR1_PE_Set v (or_introl eq_refl)) as [E1 E2]. split; [done|].
  eapply law_enable; [done| |]; rewrite ?E1, ?E2; auto.
Qed.
Lemma goes_ACK c : goes (at_phase Free c) (I2C_AcknowledgeConfig ENABLE) (fun _ => at_phase Free c).
Proof using Type.
  apply goes_at. intros n _. apply goes_CR1. intros ad p v Ha Hp Hs Hst.
  destruct (bits_keep CR1_ACK_Set v (or_intror eq_refl)) as [E1 E2]. split; [done|].
  eapply law_ack; [done|]. rewrite E1; auto.
Qed.
Lemma goes_send_word a c :
  0 <= a < 256 -> goes (at_phase Addressed c) (I2C_SendData a) (fun _ => at_phase (Writing [a]) c).
Proof using Type.
  intros Hb. apply goes_at. intros n _. apply goes_writer. split; [done|]. by eapply law_word.
Qed.
Lemma goes_send_byte l b c :
  0 <= b < 256 -> goes (at_phase (Sent l) c) (I2C_SendData b) (fun _ => at_phase (Writing (l ++ [b])) c).
Proof using Type.
  intros Hb. apply goes_at. intros n _. apply goes_writer. split; [done|]. by eapply law_byte.
Qed.
(** The device address is read from the driver's global. *)
Lemma goes_address_bind {A} ph c (k : Z -> IM A) Q :
  goes (at_phase ph c) (k EEPROM_Block_ADDRESS) Q -> goes (at_phase ph c) (get_address ≫= k) Q.
Proof using Type.
  intros Hk. eapply goes_seq, Hk. intros s [Ha Hs]. exists (EEPROM_ADDRESS s), s. by repeat split.
Qed.
Lemma goes_call c :
  goes (at_phase (Selected None) c) (I2C_Send7bitAddress (u8 EEPROM_Block_ADDRESS) Transmitter)
    (fun _ => at_phase Called c).
Proof using Type. apply goes_at. intros n _. apply goes_writer. split; [done|]. by eapply law_call. Qed.
Lemma goes_call_read a c :
  goes (at_phase (Selected (Some a)) c) (I2C_Send7bitAddress (u8 EEPROM_Block_ADDRESS) Receiver)
    (fun _ => at_phase (CalledR a) c).
Proof using Type. apply goes_at. intros n _. apply goes_writer. split; [done|]. by eapply law_call_read. Qed.

(** ** The wait loops *)
Lemma goes_CheckEvent n ph c e :
  shows ph = Some e ->
  goes (in_state n ph c) (I2C_CheckEvent e)
    (fun b s => if b : bool then at_phase (noted ph) c s else exists m, (m < n)%nat /\ in_state m ph c s).
Proof using Type.
  intros Hs [p a] [Ha Hp]. cbn [prt EEPROM_ADDRESS] in *.
  destruct (law_event n ph c p e Hp Hs) as (f1 & p1 & f2 & p2 & E1 & E2 & Hev).
  unfold I2C_CheckEvent, readr. rewrite ibind_run. cbn [prt]. rewrite E1. cbn [obind].
  rewrite ibind_run. cbn [prt]. rewrite E2. cbn [obind EEPROM_ADDRESS]. rewrite iret_run.
  do 2 eexists. split; [reflexivity|]. fold (event_of f1 f2).
  destruct Hev as [[-> Hr]|[Hne (m & Hm & Hr)]].
  - by rewrite Z.eqb_refl.
  - apply Z.eqb_neq in Hne. rewrite Hne. by exists m.
Qed.
Lemma goes_wait_event ph c e :
  shows ph = Some e -> goes (at_phase ph c) (wait_event e) (fun _ => at_phase (noted ph) c).
Proof using Type.
  intros Hs. apply goes_at. intros n Hn.
  apply (goes_spin_while (fun m s => in_state m ph c s)); [|done]. intros m.
  eapply goes_bind; [by apply goes_CheckEvent|]. intros b. apply goes_ret. by destruct b.
Qed.
Lemma goes_wait_free c : goes (at_phase Free c) wait_free (fun _ => at_phase Ready c).
Proof using Type.
  apply goes_at. intros n Hn. apply (goes_spin_while (fun m s => in_state m Free c s)); [|done].
  intros m [p a] [Ha Hp]. cbn [prt EEPROM_ADDRESS] in *.
  destruct (law_busy m c p Hp) as (f & p' & E & Hev).
  unfold I2C_GetFlagStatus. change (negb (Z.shiftr I2C_FLAG_BUSY 28 =? 0)) with false.
  unfold readr. cbv iota zeta. rewrite ibind_run. cbn [prt]. rewrite E.
  cbn [obind EEPROM_ADDRESS]. rewrite iret_run. do 2 eexists. split; [reflexivity|].
  change (Z.shiftr (Z.land I2C_FLAG_BUSY FLAG_Mask) 16) with 2. rewrite test_bit1, negb_involutive.
  destruct Hev as [[-> Hr]|[-> (k & Hk & Hr)]]; [done|]. by exists k.
Qed.

(** ** Writing *)
Lemma goes_poll n c :
  goes (in_state n Cycle c) poll_device
    (fun b s => if b : bool then exists m, (m < n)%nat /\ in_state m Cycle c s else at_phase Polled c s).
Proof using Type.
  intros [p a] [Ha Hp]. cbn [prt EEPROM_ADDRESS] in *. subst a.
  destruct (law_CR1 n Cycle c p Hp) as (v & p' & E & Hp' & Hs & Hst). destruct (bits_START v) as [B1 _].
  destruct (law_poll n c p' (Z.lor v CR1_START_Set) Hp' B1)
    as (x & p1 & f & p2 & E1 & E2 & Hev).
  unfold poll_device, I2C_GenerateSTART, set_bits, I2C_ReadRegister, I2C_Send7bitAddress, get_address.
  rewrite !ibind_run, (readr_run _ _ _ _ _ E). cbn [obind]. rewrite writer_run. cbn [obind].
  rewrite ibind_run, (readr_run _ _ _ _ _ E1). cbn [obind]. rewrite ibind_run.
  cbn [obind EEPROM_ADDRESS]. rewrite ibind_run, writer_run. cbn [obind]. rewrite ibind_run.
  change (Z.land (u8 EEPROM_Block_ADDRESS) OAR1_ADD0_Reset) with 0xA0.
  rewrite (readr_run _ _ _ _ _ E2). cbn [obind].
  rewrite iret_run. do 2 eexists. split; [reflexivity|]. rewrite test_bit1.
  destruct Hev as [[-> Hr]|[-> (m & Hm & Hr)]]; [done|]. by exists m.
Qed.
Lemma goes_standby c : goes (at_phase Cycle c) I2C_EE_WaitEepromStandbyState (fun _ => at_phase Free c).
Proof using Type.
  eapply goes_unit with (R := at_phase Polled c).
  { apply goes_at. intros n Hn.
    apply (goes_spin_while (fun m s => in_state m Cycle c s)); [|done]. intros m. exact (goes_poll m c). }
  eapply goes_unit, goes_STOP_polled.
  apply goes_at. intros n _. apply goes_writer. split; [done|]. by eapply law_clear_AF.
Qed.

Lemma goes_send_bytes n bs a l c :
  bytes_ok bs -> (n <= length bs)%nat ->
  goes (at_phase (Sent (a :: l)) c) (send_bytes n bs) (fun _ => at_phase (Sent (a :: l ++ take n bs)) c).
Proof using Type.
  revert bs l. induction n as [|n IH]; intros bs l Hb Hn; cbn [send_bytes].
  { apply goes_ret. by rewrite take_0, app_nil_r. }
  destruct bs as [|b bs]; simpl in Hn; [lia|].
  pose proof (Forall_inv Hb) as Hb0. pose proof (Forall_inv_tail Hb) as Hb1.
  eapply (goes_seq _ _ b); [intros s Hs; exists b, s; by repeat split|].
  eapply goes_unit; [by apply goes_send_byte|].
  eapply goes_unit; [by apply goes_wait_event|]. cbn [noted drop].
  change ((a :: l) ++ [b]) with (a :: l ++ [b]).
  eapply goes_conseq; [apply (IH bs (l ++ [b])); [done|lia]|done|].
  intros [] s. by rewrite <- app_assoc.
Qed.

Lemma goes_PageWrite bs a n c :
  bytes_ok bs -> 0 <= a < 256 -> 0 <= n <= blen bs ->
  goes (at_phase Free c) (I2C_EE_PageWrite bs a n)
    (fun _ => at_phase Cycle (latch c a 0 (take (Z.to_nat n) bs))).
Proof using Type.
  intros Hb Ha Hn. unfold blen in Hn.
  eapply goes_unit; [apply goes_wait_free|].
  eapply goes_unit; [by apply goes_START|].
  eapply goes_unit; [by apply goes_wait_event|]. apply goes_address_bind.
  eapply goes_unit; [apply goes_call|].
  eapply goes_unit; [by apply goes_wait_event|].
  eapply goes_unit; [by apply goes_send_word|].
  eapply goes_unit; [by apply goes_wait_event|].
  eapply goes_unit; [apply (goes_send_bytes (Z.to_nat n) bs a []); [done|lia]|].
  apply goes_STOP_written.
Qed.
Lemma goes_write_page bs a n c :
  bytes_ok bs -> 0 <= a < 256 -> 0 <= n <= blen bs ->
  goes (at_phase Free c) (write_page bs a n)
    (fun _ => at_phase Free (latch c a 0 (take (Z.to_nat n) bs))).
Proof using Type. intros. eapply goes_unit; [by apply goes_PageWrite|]. apply goes_standby. Qed.

(** *** A buffer *)
Lemma goes_write_page_fits bs a n c :
  bytes_ok bs -> 0 <= a -> 0 <= n <= blen bs -> a mod I2C_PageSize + n <= I2C_PageSize ->
  a < 256 -> a + n <= blen c ->
  goes (at_phase Free c) (write_page bs a n)
    (fun _ s => exists c', wrn c a (take (Z.to_nat n) bs) = Some c' /\ at_phase Free c' s).
Proof using Type.
  intros Hb Ha Hn Hf Ha' Hc. eapply goes_conseq; [by apply goes_write_page|done|].
  intros [] s Hs. eexists. split; [|exact Hs].
  assert (Hl : blen (take (Z.to_nat n) bs) = n) by (unfold blen in *; rewrite length_take; lia).
  rewrite <- (Z.add_0_r a) at 1. apply latch_wrn; rewrite ?Hl; lia.
Qed.

Lemma goes_write_pages k bs a c :
  bytes_ok bs -> 0 <= a < 256 -> a mod I2C_PageSize = 0 -> blen c = 256 ->
  16 * Z.of_nat k <= blen bs -> a + 16 * Z.of_nat k <= 256 ->
  goes (at_phase Free c) (write_pages k bs a)
    (fun r s => r = (drop (16 * k) bs, u8 (a + 16 * Z.of_nat k)) /\
       exists c', wrn c a (take (16 * k) bs) = Some c' /\ at_phase Free c' s).
Proof using Type.
  revert bs a c. induction k as [|k IH]; intros bs a c Hb Ha Hm Hc Hl Hk; cbn [write_pages].
  { apply goes_ret. intros s Hs. rewrite Z.mul_0_r, Z.add_0_r, u8_small by lia. split; [done|].
    exists c. split; [apply wrn_nil; lia|done]. }
  eapply goes_bind.
  { apply (goes_write_page_fits bs a 16 c); [done|lia..|rewrite Hm; done|lia|lia]. }
  intros [] s (c1 & Hw & Hs). change (Z.to_nat 16) with 16%nat in *.
  assert (H16 : blen (take 16 bs) = 16) by (unfold blen in *; rewrite length_take; lia).
  destruct (decide (k = 0%nat)) as [->|Hk0].
  { cbn [write_pages]. exists (drop 16 bs, u8 (a + I2C_PageSize)), s. split; [done|].
    split; [done|]. by exists c1. }
  destruct (IH (drop 16 bs) (a + 16) c1) with (s := s) as ([bs' a'] & s' & E & [= -> ->] & c2 & Hw2 & Hs2);
    [by apply Forall_drop|lia| | |unfold blen in *; rewrite length_drop; lia|lia|done|].
  { rewrite <- Hm. unfold I2C_PageSize. rewrite <- (Z_mod_plus_full a 1 16). f_equal; lia. }
  { by rewrite (wrn_blen _ _ _ _ Hw). }
  change (Z.to_nat I2C_PageSize) with 16%nat. unfold I2C_PageSize.
  rewrite (u8_small (a + 16)) by lia. do 2 eexists. split; [exact E|].
  split; [f_equal; [rewrite drop_drop; f_equal; lia|f_equal; lia]|].
  exists c2. split; [|done]. replace (16 * S k)%nat with (16 + 16 * k)%nat by lia.
  rewrite <- take_take_drop, wrn_app by lia. rewrite Hw. simpl. by rewrite H16.
Qed.

(** Whole pages from a page boundary, then what is left. *)
Definition write_from_page (k : nat) (single : Z) (bs : bytes) (a : Z) : IM unit :=
  r ← write_pages k bs a;
  let '(bs, a) := r in if negb (single =? 0) then write_page bs a single else mret tt.
Lemma goes_write_from_page k single bs a c :
  bytes_ok bs -> 0 <= a < 256 -> a mod I2C_PageSize = 0 -> blen c = 256 -> 0 <= single < 16 ->
  16 * Z.of_nat k + single <= blen bs -> a + (16 * Z.of_nat k + single) <= 256 ->
  goes (at_phase Free c) (write_from_page k single bs a)
    (fun _ s => exists c', wrn c a (take (Z.to_nat (16 * Z.of_nat k + single)) bs) = Some c' /\
       at_phase Free c' s).
Proof using Type.
  intros Hb Ha Hm Hc Hs Hl Hk. eapply goes_bind; [apply goes_write_pages; (done || lia)|].
  intros [bs' a'] s ([= -> ->] & c1 & Hw & Hs1). destruct (Z.eqb_spec single 0) as [->|Hne]; cbn [negb].
  { rewrite Z.add_0_r. replace (Z.to_nat (16 * Z.of_nat k)) with (16 * k)%nat by lia.
    exists tt, s. split; [done|]. by exists c1. }
  rewrite u8_small by lia.
  assert (Hlk : blen (take (16 * k) bs) = 16 * Z.of_nat k) by (unfold blen in *; rewrite length_take; lia).
  destruct (goes_write_page_fits (drop (16 * k) bs) (a + 16 * Z.of_nat k) single c1) with (s := s)
    as ([] & s' & E & c2 & Hw2 & Hs2); [by apply Forall_drop|lia|unfold blen in *; rewrite length_drop; lia
    | |lia|rewrite (wrn_blen _ _ _ _ Hw); lia|done|].
  { rewrite (Z.mul_comm 16). unfold I2C_PageSize in *. rewrite Z_mod_plus_full. lia. }
  exists tt, s'. split; [exact E|]. exists c2. split; [|done].
  replace (Z.to_nat (16 * Z.of_nat k + single)) with (16 * k + Z.to_nat single)%nat by lia.
  rewrite <- take_take_drop, wrn_app by lia. rewrite Hw. cbn [mbind option_bind]. by rewrite Hlk.
Qed.
(** The division of a length into pages is exact. *)
Lemma pages_of n :
  0 <= n < 4096 ->
  u8 (n / I2C_PageSize) = n / 16 /\ u8 (n mod I2C_PageSize) = n mod 16 /\
  0 <= n / 16 /\ 0 <= n mod 16 < 16 /\ n = 16 * Z.of_nat (Z.to_nat (n / 16)) + n mod 16.
Proof using Type.
  intros Hn. unfold I2C_PageSize. pose proof (Z.div_mod n 16 ltac:(lia)).
  pose proof (Z.mod_pos_bound n 16 ltac:(lia)). pose proof (Z.div_pos n 16 ltac:(lia) ltac:(lia)).
  pose proof (Z.div_lt_upper_bound n 16 256 ltac:(lia) ltac:(lia)).
  rewrite !u8_small by lia. repeat split; lia.
Qed.

Lemma next_page a : (a + (16 - a mod 16)) mod I2C_PageSize = 0.
Proof using Type.
  unfold I2C_PageSize. pose proof (Z.div_mod a 16 ltac:(lia)).
  replace (a + (16 - a mod 16)) with ((1 + a / 16) * 16) by lia. by apply Z.mod_mul.
Qed.

Lemma goes_BufferWrite bs a n c :
  bytes_ok bs -> 0 <= a < 256 -> 0 <= n <= blen bs -> a + n <= 256 -> blen c = 256 ->
  a mod I2C_PageSize = 0 \/ I2C_PageSize <= n \/ a mod I2C_PageSize + n <= I2C_PageSize ->
  goes (at_phase Free c) (I2C_EE_BufferWrite bs a n)
    (fun _ s => exists c', wrn c a (take (Z.to_nat n) bs) = Some c' /\ at_phase Free c' s).
Proof using Type.
  intros Hb Ha Hn Hl Hc Hfit. unfold I2C_EE_BufferWrite. cbv zeta.
  pose proof (Z.mod_pos_bound a 16 ltac:(lia)) as Hm.
  destruct (pages_of n ltac:(lia)) as (E1 & E2 & P1 & P2 & P3). rewrite E1, E2.
  unfold I2C_PageSize in *. rewrite (u8_small (a mod 16)) by lia.
  destruct (Z.eqb_spec (n / 16) 0) as [E0|E0].
  { assert (Hn0 : n mod 16 = n) by (rewrite E0 in P3; lia). rewrite Hn0.
    destruct (a mod 16 =? 0); apply goes_write_page_fits; unfold I2C_PageSize; (done || lia). }
  destruct (Z.eqb_spec (a mod 16) 0) as [Ea|Ea].
  { eapply goes_conseq; [apply (goes_write_from_page (Z.to_nat (n / 16)) (n mod 16) bs a c);
      unfold I2C_PageSize; (done || lia)|done|].
    intros [] s (c' & Hw & Hs). rewrite <- P3 in Hw. by exists c'. }
  set (count := 16 - a mod 16). assert (Hcount : 0 < count < 16) by lia.
  rewrite (u8_small count) by lia. destruct (Z.eqb_spec count 0); [lia|]. cbn [negb].
  assert (Hn16 : 16 <= n) by (pose proof (Z.mul_div_le n 16); lia).
  rewrite (u16_small (n - count)) by lia.
  destruct (pages_of (n - count) ltac:(lia)) as (F1 & F2 & Q1 & Q2 & Q3). unfold I2C_PageSize in F1, F2.
  rewrite F1, F2. intros s Hs.
  destruct (goes_write_page_fits bs a count c) with (s := s) as ([] & s1 & W1 & c1 & Hw1 & Hs1);
    try (unfold I2C_PageSize; done || lia).
  rewrite !ibind_run, W1. cbn [obind]. rewrite iret_run. cbn [obind fst snd].
  assert (Hl1 : blen (take (Z.to_nat count) bs) = count) by (unfold blen in *; rewrite length_take; lia).
  rewrite (u8_small (a + count)) by lia.
  destruct (goes_write_from_page (Z.to_nat ((n - count) / 16)) ((n - count) mod 16)
    (drop (Z.to_nat count) bs) (a + count) c1) with (s := s1) as ([] & s2 & W2 & c2 & Hw2 & Hs2);
    try (rewrite <- ?Q3; unfold blen in *; rewrite ?length_drop; done || lia).
  { by apply Forall_drop. }
  { by apply next_page. }
  { rewrite (wrn_blen _ _ _ _ Hw1). done. }
  exists tt, s2. split; [exact W2|]. exists c2. split; [|done].
  rewrite <- Q3 in Hw2. replace (Z.to_nat n) with (Z.to_nat count + Z.to_nat (n - count))%nat by lia.
  rewrite <- take_take_drop, wrn_app by lia. rewrite Hw1. simpl. by rewrite Hl1.
Qed.

(** while the buffer fits the 256 addressable cells, and unless it is shorter
    than a page and crosses a page boundary, [I2C_EE_BufferWrite] returns and the
    cells have changed as by one write of consecutive bytes; pages, their
    remainder and the unaligned beginning leave no gap and no wrap-around. *)
Theorem eeprom_write bs a n c :
  bytes_ok bs -> 0 <= a < 256 -> 0 <= n <= blen bs -> a + n <= 256 -> blen c = 256 ->
  a mod I2C_PageSize = 0 \/ I2C_PageSize <= n \/ a mod I2C_PageSize + n <= I2C_PageSize ->
  goes (at_phase Free c) (I2C_EE_BufferWrite bs a n)
    (fun _ s => exists c', wrn c a (take (Z.to_nat n) bs) = Some c' /\ at_phase Free c' s).
Proof using Type. apply goes_BufferWrite. Qed.

(** ** Reading *)
Lemma goes_prepare_end n a g c :
  goes (in_state n (Receiving a g) c) (I2C_AcknowledgeConfig DISABLE;; I2C_GenerateSTOP ENABLE)
    (fun _ => in_state n (Receiving a Last) c).
Proof using Type.
  eapply goes_unit with (R := in_state n (Receiving a (nacked g)) c); apply goes_CR1;
    intros ad p v Ha Hp Hs Hst; (split; [done|]); cbn [prt].
  - destruct (bits_nack v) as (E1 & E2 & E3).
    apply law_nack; [done|rewrite E1; auto|done|]. intros Hg. rewrite E2. apply Hst. by destruct g.
  - destruct (bits_STOP v) as [E1 E2]. eapply law_last; [done|by destruct g|rewrite E1; auto|done].
Qed.

Lemma goes_ReceiveData a g c n :
  0 <= a < blen c ->
  goes (in_state n (Received a g) c) I2C_ReceiveData
    (fun b s => (rd c a = Some b /\ 0 <= b < 256) /\ at_phase (if g is Last then Free else Receiving (a + 1) g) c s).
Proof using Type.
  intros Ha [p ad] [Had Hp]. destruct (law_data n a g c p Hp Ha) as (b & p' & E & Hb & Hr).
  unfold I2C_ReceiveData. rewrite ibind_run, (readr_run _ _ _ _ _ E). cbn [obind].
  rewrite iret_run. do 2 eexists. split; [done|]. split; [split; [done|apply u8_range]|done].
Qed.

(** A byte costs at most [I2C_DELAYMAXCOUNT + 1] turns. *)
Lemma goes_read_bytes turns m g a n buf pos bs c :
  rdn c a n = Some bs -> 0 < n < 65536 -> 0 <= pos -> pos + n <= blen buf -> g = More \/ n = 1 ->
  (m <= I2C_DELAYMAXCOUNT)%nat -> (m + 1 + (Z.to_nat n - 1) * S I2C_DELAYMAXCOUNT <= turns)%nat ->
  goes (in_state m (Receiving a g) c) (read_bytes turns buf pos n)
    (fun buf' s => wrn buf pos bs = Some buf' /\ at_phase Free c s).
Proof using Type.
  revert m g a n buf pos bs. induction turns as [|turns IH]; intros m g a n buf pos bs Hr Hn Hp Hb Hg Hm Ht.
  { set (k := ((Z.to_nat n - 1) * S I2C_DELAYMAXCOUNT)%nat) in *. lia. }
  cbn [read_bytes]. destruct (Z.eqb_spec n 0); [lia|].
  set (g' := if n =? 1 then Last else g).
  eapply goes_unit with (R := in_state m (Receiving a g') c).
  { subst g'. destruct (n =? 1); [apply goes_prepare_end|by apply goes_ret]. }
  eapply goes_bind; [by apply goes_CheckEvent|]. intros [].
  2:{ intros s (k & Hk & Hs). apply (IH k g' a n); try (done || lia).
      subst g'. destruct (Z.eqb_spec n 1); [by right|]. destruct Hg; [by left|lia]. }
  cbn [noted]. apply goes_at. intros k _.
  destruct (rdn_cons c a (n - 1) bs) as (x & rest & Hx & Hrest & ->);
    [by replace (Z.succ (n - 1)) with n by lia|lia|].
  pose proof Hr as (Ha & _ & Hc & _)%rdn_Some.
  eapply goes_bind; [apply goes_ReceiveData; lia|]. intros b s [[Hb' Hx8%u8_small] Hs].
  rewrite Hx in Hb'. injection Hb' as <-.
  rewrite wr_in by lia. rewrite wrn_cons by lia. rewrite (u16_small (n - 1)) by lia.
  assert (Hlb : forall y, blen (<[Z.to_nat pos := y]> buf) = blen buf)
    by (intros; unfold blen; by rewrite length_insert).
  rewrite Hx8. destruct (Z.eqb_spec n 1) as [->|Hn1].
  - exists (<[Z.to_nat pos := x]> buf), s. destruct turns; cbn [read_bytes];
      (split; [done|]); pose proof (rdn_blen _ _ _ _ Hrest) as Hl0; unfold blen in Hl0;
      destruct rest; try discriminate; (split; [apply wrn_nil; rewrite Hlb; lia|done]).
  - subst g'. destruct Hg as [->|]; [|lia]. destruct Hs as (Had & j & Hj & Hs).
    apply (IH j More (a + 1)); try (rewrite ?Hlb; done || lia); [by left|].
    replace (Z.to_nat n - 1)%nat with (S (Z.to_nat (n - 1) - 1)) in Ht by lia.
    rewrite Nat.mul_succ_l in Ht. lia.
Qed.

Lemma goes_BufferRead turns buf a n bs c :
  rdn c a n = Some bs -> 0 <= a < 256 -> 0 < n < 65536 -> n <= blen buf ->
  (Z.to_nat n * S I2C_DELAYMAXCOUNT <= turns)%nat ->
  goes (at_phase Free c) (I2C_EE_BufferRead turns buf a n)
    (fun buf' s => wrn buf 0 bs = Some buf' /\ at_phase Free c s).
Proof using Type.
  intros Hr Ha Hn Hb Ht.
  eapply goes_unit; [apply goes_wait_free|].
  eapply goes_unit; [by apply goes_START|].
  eapply goes_unit; [by apply goes_wait_event|]. apply goes_address_bind.
  eapply goes_unit; [apply goes_call|].
  eapply goes_unit; [by apply goes_wait_event|].
  eapply goes_unit; [apply goes_Cmd|].
  eapply goes_unit; [by apply goes_send_word|].
  eapply goes_unit; [by apply goes_wait_event|].
  eapply goes_unit; [by apply goes_START|].
  eapply goes_unit; [by apply goes_wait_event|]. apply goes_address_bind.
  eapply goes_unit; [apply goes_call_read|].
  eapply goes_unit; [by apply goes_wait_event|].
  eapply goes_bind.
  { apply goes_at. intros k Hk. apply (goes_read_bytes turns k More a n buf 0 bs); try (done || lia).
    { by left. }
    replace (Z.to_nat n) with (S (Z.to_nat n - 1)) in Ht by lia. rewrite Nat.mul_succ_l in Ht. lia. }
  intros buf' s [Hw Hs]. destruct (goes_ACK c s Hs) as ([] & s' & E & Hs').
  exists buf', s'. by rewrite ibind_run, E.
Qed.

(** C39: what [I2C_EE_BufferWrite] has put into the memory,
    [I2C_EE_BufferRead] brings back into another buffer, within a bounded number
    of turns for each byte, and leaves the bus free and the other cells alone --
    for a buffer of [n] bytes at [a] that ends within the 256 cells and is aligned
    to a page, or not shorter than a page, or does not cross a page boundary. (A
    shorter one that crosses a boundary is written wrongly: [eeprom_short_write].)
    *)
Theorem eeprom_write_read turns bs buf a n c :
  bytes_ok bs -> 0 <= a < 256 -> 0 < n <= blen bs -> a + n <= 256 -> blen c = 256 ->
  a mod I2C_PageSize = 0 \/ I2C_PageSize <= n \/ a mod I2C_PageSize + n <= I2C_PageSize ->
  n <= blen buf -> (Z.to_nat n * S I2C_DELAYMAXCOUNT <= turns)%nat ->
  goes (at_phase Free c) (I2C_EE_BufferWrite bs a n;; I2C_EE_BufferRead turns buf a n)
    (fun buf' s => wrn buf 0 (take (Z.to_nat n) bs) = Some buf' /\
       exists c', wrn c a (take (Z.to_nat n) bs) = Some c' /\ at_phase Free c' s).
Proof using Type.
  intros Hb Ha Hn Hl Hc Hfit Hbuf Ht. eapply goes_bind; [apply goes_BufferWrite; (done || lia)|].
  intros [] s (c' & Hw & Hs).
  assert (Hlb : blen (take (Z.to_nat n) bs) = n) by (unfold blen in *; rewrite length_take; lia).
  assert (Hr : rdn c' a n = Some (take (Z.to_nat n) bs)).
  { rewrite <- Hlb at 1. by eapply rdn_wrn_same. }
  destruct (goes_BufferRead turns buf a n _ c' Hr Ha ltac:(lia) Hbuf Ht s Hs) as (buf' & s' & E & Hw' & Hs').
  exists buf', s'. split; [done|]. split; [done|]. by exists c'.
Qed.

(** a buffer shorter than a page that crosses a page boundary is
    sent as one page write: its first bytes reach the end of the page, the rest
    overwrites the beginning of the same page, not of the next. *)
Theorem eeprom_short_write bs a n c :
  let k := I2C_PageSize - a mod I2C_PageSize in
  bytes_ok bs -> 0 <= a < 256 -> blen bs = n -> n < I2C_PageSize -> k < n -> blen c = 256 ->
  goes (at_phase Free c) (I2C_EE_BufferWrite bs a n)
    (fun _ s => exists c1 c2, wrn c a (take (Z.to_nat k) bs) = Some c1 /\
       wrn c1 (a / I2C_PageSize * I2C_PageSize) (drop (Z.to_nat k) bs) = Some c2 /\ at_phase Free c2 s).
Proof using Type.
  intros k Hb Ha Hl Hn Hk Hc. unfold I2C_EE_BufferWrite. cbv zeta.
  pose proof (Z.mod_pos_bound a 16 ltac:(lia)) as Hm. pose proof (Z.div_mod a 16 ltac:(lia)) as Hda. unfold I2C_PageSize in *.
  rewrite (Z.div_small n), (Z.mod_small n) by lia. rewrite (u8_small n) by lia. change (u8 0) with 0.
  replace (if u8 (a mod 16) =? 0 then _ else _) with (write_page bs a n) by (by destruct (u8 (a mod 16) =? 0)).
  eapply goes_conseq; [apply goes_write_page; (done || lia)|done|]. intros [] s Hs.
  assert (Hlk : blen (take (Z.to_nat k) bs) = k) by (unfold blen in *; rewrite length_take; lia).
  assert (Hld : blen (drop (Z.to_nat k) bs) = n - k) by (unfold blen in *; rewrite length_drop; lia).
  rewrite take_ge in Hs by (unfold blen in *; lia).
  rewrite <- (take_drop (Z.to_nat k) bs), latch_app, Hlk in Hs.
  assert (Hd : 0 <= a / 16 * 16 /\ a / 16 * 16 + 16 <= 256).
  { pose proof (Z.div_pos a 16 ltac:(lia) ltac:(lia)). pose proof (Z.div_lt_upper_bound a 16 16 ltac:(lia)). lia. }
  exists (latch c a 0 (take (Z.to_nat k) bs)). eexists.
  split; [rewrite <- (Z.add_0_r a) at 1; apply latch_wrn; unfold I2C_PageSize; lia|].
  split; [|exact Hs]. rewrite (latch_next_page _ a k) by (unfold I2C_PageSize; lia).
  unfold I2C_PageSize. replace (k - (16 - a mod 16)) with 0 by lia.
  rewrite <- (Z.add_0_r (a / 16 * 16)) at 1.
  apply latch_wrn; unfold I2C_PageSize; rewrite ?Z.mod_mul, ?latch_blen, ?Hld by lia; lia.
Qed.
End laws.

(** ** On any bus *)
Section any_bus.
Context `{I2CPort}.
Lemma returns_spin_while n c : returns c -> returns (spin_while n c).
Proof using Type.
  intros Hc. induction n as [|n IH]; cbn [spin_while]; (apply returns_mbind; [done|intros []]);
    [apply returns_ret..|done|apply returns_ret].
Qed.
Lemma returns_wait_event e : returns (wait_event e).
Proof using Type. apply returns_spin_while. ireturns. Qed.
Lemma returns_wait_free : returns wait_free.
Proof using Type. apply returns_spin_while. ireturns. Qed.
Lemma returns_standby : returns I2C_EE_WaitEepromStandbyState.
Proof using Type.
  unfold I2C_EE_WaitEepromStandbyState. apply returns_mbind; [|intros ?; ireturns].
  apply returns_spin_while. unfold poll_device. ireturns.
Qed.
Lemma returns_head_byte bs : 0 < blen bs -> returns (head_byte bs).
Proof using Type.
  intros Hl p a. unfold head_byte. destruct (rd_in bs 0 ltac:(lia)) as [v ->]. by exists v, p.
Qed.
Hint Resolve returns_wait_event returns_wait_free returns_standby : returns.

Lemma returns_send_bytes n bs : Z.of_nat n <= blen bs -> returns (send_bytes n bs).
Proof using Type.
  revert bs. induction n as [|n IH]; intros bs Hl; cbn [send_bytes]; [apply returns_ret|].
  apply returns_mbind; [apply returns_head_byte; lia|]. intros b. ireturns.
  apply IH. unfold blen in *. rewrite length_drop. lia.
Qed.
Lemma returns_write_page bs a n : 0 <= n <= blen bs -> returns (write_page bs a n).
Proof using Type.
  intros Hn. unfold write_page, I2C_EE_PageWrite. ireturns. apply returns_send_bytes. lia.
Qed.
(** The pages and their remainder stay inside the buffer. *)
Lemma write_pages_run k bs a p ad :
  16 * Z.of_nat k <= blen bs ->
  exists a' p', write_pages k bs a (mkI2C p ad) = Ret ((drop (16 * k) bs, a'), mkI2C p' ad).
Proof using Type.
  revert bs a p. induction k as [|k IH]; intros bs a p Hl; cbn [write_pages]; [by exists a, p|].
  destruct (returns_write_page bs a I2C_PageSize ltac:(unfold I2C_PageSize; lia) p ad) as ([] & p1 & E).
  rewrite ibind_run, E. cbn [obind].
  destruct (IH (drop 16 bs) (u8 (a + I2C_PageSize)) p1) as (a' & p2 & E2).
  { unfold blen in *. rewrite length_drop. lia. }
  exists a', p2. change (Z.to_nat I2C_PageSize) with 16%nat. rewrite E2, drop_drop. do 4 f_equal. lia.
Qed.
Lemma returns_write_from_page k single bs a :
  0 <= single -> 16 * Z.of_nat k + single <= blen bs -> returns (write_from_page k single bs a).
Proof using Type.
  intros Hs Hl p ad. unfold write_from_page.
  destruct (write_pages_run k bs a p ad ltac:(lia)) as (a' & p' & E). rewrite ibind_run, E. cbn [obind].
  destruct (negb (single =? 0)); [|by exists tt, p'].
  apply returns_write_page. unfold blen in *. rewrite length_drop. lia.
Qed.

Lemma pages_le n : 0 <= n -> 16 * Z.of_nat (Z.to_nat (u8 (n / 16))) + u8 (n mod 16) <= n /\ 0 <= u8 (n mod 16).
Proof using Type.
  intros Hn. pose proof (Z.div_mod n 16 ltac:(lia)). pose proof (Z.mod_pos_bound n 16 ltac:(lia)).
  pose proof (Z.div_pos n 16 ltac:(lia) ltac:(lia)).
  pose proof (Z.mod_le (n / 16) 256 ltac:(lia) ltac:(lia)). pose proof (u8_range (n / 16)).
  rewrite (u8_small (n mod 16)) by lia. unfold u8 in *. lia.
Qed.

(** whatever the peripheral answers, [I2C_EE_BufferWrite] returns after
    finitely many register accesses, and reads only the [NumByteToWrite] bytes of
    its buffer. *)
Theorem eeprom_write_returns bs a n :
  0 <= a < 256 -> 0 <= n <= blen bs -> n < 65536 -> returns (I2C_EE_BufferWrite bs a n).
Proof using Type.
  intros Ha Hn Hu. unfold I2C_EE_BufferWrite. cbv zeta. unfold I2C_PageSize.
  pose proof (Z.mod_pos_bound a 16 ltac:(lia)). pose proof (pages_le n ltac:(lia)) as [Hp Hp0].
  pose proof (u8_range (n / 16)). rewrite (u8_small (a mod 16)) by lia.
  destruct (Z.eqb_spec (a mod 16) 0).
  { destruct (_ =? 0); [apply returns_write_page; lia|]. apply returns_write_from_page; lia. }
  destruct (Z.eqb_spec (u8 (n / 16)) 0) as [|Hne]; [apply returns_write_page; lia|].
  set (count := 16 - a mod 16). rewrite (u8_small count) by lia.
  rewrite u16_small by lia. pose proof (pages_le (n - count) ltac:(lia)) as [Hq Hq0].
  destruct (Z.eqb_spec count 0); [lia|]. cbn [negb]. intros p ad.
  destruct (returns_write_page bs a count ltac:(lia) p ad) as ([] & p1 & E).
  rewrite !ibind_run, E. cbn [obind]. rewrite iret_run. cbn [obind fst snd].
  apply returns_write_from_page; unfold blen in *; rewrite ?length_drop; lia.
Qed.

(** [IIC_init] returns with the device address the transfers use. *)
Lemma IIC_init_run pclk p ad :
  exists p', IIC_init pclk (mkI2C p ad) = Ret (tt, mkI2C p' EEPROM_Block_ADDRESS).
Proof using Type.
  assert (Hr : returns (I2C_Cmd ENABLE;; I2C_Init pclk
    (mkI2CInit I2C_Speed I2C_Mode_I2C I2C_DutyCycle_2 I2C2_SLAVE_ADDRESS7 I2C_Ack_Enable
               I2C_AcknowledgedAddress_7bit))).
  { unfold I2C_Cmd, I2C_Init, set_bits, keep_bits. cbv zeta. ireturns. }
  destruct (Hr p ad) as ([] & p' & E). exists p'. rewrite ibind_run in E. unfold IIC_init.
  rewrite ibind_run. destruct (I2C_Cmd ENABLE (mkI2C p ad)) as [[[] s1]| | |]; cbn [obind] in *; try discriminate.
  rewrite ibind_run, E. done.
Qed.

(** A peripheral whose registers read as zero. *)
Definition silent : Prop := forall r p, fst (reg_read r p) = 0.

Lemma silent_read_bytes turns buf pos n s :
  silent -> 0 < n -> read_bytes turns buf pos n s = Starved.
Proof using Type.
  intros Hs Hn. revert s. induction turns as [|turns IH]; intros [p ad]; cbn [read_bytes];
    (destruct (Z.eqb_spec n 0); [lia|]); [done|].
  assert (Hr : returns (if n =? 1 then I2C_AcknowledgeConfig DISABLE;; I2C_GenerateSTOP ENABLE else mret tt)).
  { unfold I2C_AcknowledgeConfig, keep_bits. ireturns. }
  destruct (Hr p ad) as ([] & p1 & E). rewrite ibind_run, E. cbn [obind].
  unfold I2C_CheckEvent at 1, readr. pose proof (Hs SR1 p1) as E1.
  rewrite !ibind_run. cbn [prt]. destruct (reg_read SR1 p1) as [f1 p2]. simpl in E1. subst f1. cbn [obind].
  pose proof (Hs SR2 p2) as E2. rewrite !ibind_run. cbn [prt].
  destruct (reg_read SR2 p2) as [f2 p3]. simpl in E2. subst f2. cbn [obind]. apply IH.
Qed.
Lemma starved_seq {A B} (m : IM A) (k : A -> IM B) :
  returns m -> (forall x s, k x s = Starved) -> forall s, (m ≫= k) s = Starved.
Proof using Type. intros Hm Hk [p ad]. destruct (Hm p ad) as (x & p' & E). rewrite ibind_run, E. apply Hk. Qed.

(** the loop of [I2C_EE_BufferRead] over the bytes has lost its counter:
    when the peripheral does not answer, it is still running after any number of
    turns, where [I2C_EE_BufferWrite] gives up ([eeprom_write_returns]). *)
Theorem eeprom_read_spins turns buf a n s :
  silent -> 0 < n -> I2C_EE_BufferRead turns buf a n s = Starved.
Proof using Type.
  intros Hs Hn. unfold I2C_EE_BufferRead, I2C_Cmd, set_bits.
  repeat (apply starved_seq; [solve [ireturns]|intros ?]).
  intros s1. rewrite ibind_run. by rewrite silent_read_bytes.
Qed.
End any_bus.
