(* ===== verification/EepromSim.v ===== *)
(** * A simulated I2C port with a memory

    An instance of [I2CPort] with [EepromLaws]: every status shows at the second
    test, and a write cycle lasts two polls.  On it the EEPROM theorems are
    applied at concrete inputs. *)
From stdpp Require Import base tactics list numbers option.
From S2P Require Import Prelude Machine Effects I2c Eeprom EepromBus EepromSpec.

Record bus := mkBus { b_phase : phase; b_lag : nat; b_cells : bytes; b_cr1 : Z }.

(** Phase changes by the processor's accesses. *)
Definition on_CR1 (v : Z) (ph : phase) : phase :=
  match ph with
  | Ready => if start_bit v then Started None else Ready
  | Sent l => if stop_bit v then Cycle
              else if start_bit v then match l with [a] => Started (Some a) | _ => ph end else ph
  | Polled => if stop_bit v then Free else Polled
  | Receiving a More => Receiving a (if ack_bit v then More else Nack)
  | Receiving a Nack => Receiving a (if stop_bit v then Last else Nack)
  | _ => ph
  end.
Definition on_DR (v : Z) (n : nat) (ph : phase) : phase :=
  match ph with
  | Selected None => Called
  | Selected (Some a) => CalledR a
  | Addressed => Writing [v]
  | Sent l => Writing (l ++ [v])
  | Cycle => match n with O => Polled | _ => Cycle end
  | _ => ph
  end.
Definition lag_of (ph : phase) : nat := match ph with Cycle => 2 | _ => 1 end.
Definition cells_after (v : Z) (b : bus) : bytes :=
  match b_phase b with Sent l => if stop_bit v then commit l (b_cells b) else b_cells b | _ => b_cells b end.

(** What the control register keeps of the start and stop bits. *)
Definition keep (ph : phase) : Z :=
  Z.lor 0xFCFF (Z.lor (if starting ph then 0x100 else 0) (if stopping ph then 0x200 else 0)).

Definition bus_read (r : i2c_reg) (b : bus) : Z * bus :=
  let 'mkBus ph n c v := b in
  match r with
  | CR1 => (v, b)
  | SR1 => (match ph with
            | Polled => 2
            | _ => match shows ph, n with Some e, O => Z.land e 0xFFFF | _, _ => 0 end
            end, b)
  | SR2 => match n with
           | S m => (match ph with Free => 2 | _ => 0 end, mkBus ph m c v)
           | O => (match shows ph with Some e => Z.shiftr e 16 | None => 0 end,
                   mkBus (noted ph) 1 c (Z.land v (keep (noted ph))))
           end
  | DR => match ph with
          | Received a g =>
              (default 0 (rd c a), mkBus (if g is Last then Free else Receiving (a + 1) g) 1 c v)
          | _ => (0, b)
          end
  | _ => (0, b)
  end.
Definition bus_write (r : i2c_reg) (v : Z) (b : bus) : bus :=
  let 'mkBus ph n c cr := b in
  match r with
  | CR1 => let ph' := on_CR1 v ph in
           mkBus ph' (match ph with Receiving _ _ | Cycle => n | _ => lag_of ph' end) (cells_after v b)
                 (Z.land v (keep ph'))
  | DR => let ph' := on_DR v n ph in
          mkBus ph' (match ph with Cycle => pred n | _ => 1 end) c (Z.land cr (keep ph'))
  | SR1 => mkBus ph 1 c cr
  | _ => b
  end.
#[export] Instance sim_port : I2CPort := {| port := bus; reg_read := bus_read; reg_write := bus_write |}.

(** Bytes in the cells, and the control bits as the laws promise them. *)
Definition sent_ok (ph : phase) : Prop :=
  match ph with Writing l | Sent l => bytes_ok l | _ => True end.
Definition bus_in (n : nat) (ph : phase) (c : bytes) (b : bus) : Prop :=
  exists cr, b = mkBus ph n c cr /\ bytes_ok c /\ sent_ok ph /\
    (starting ph = false -> start_bit cr = false) /\ (stopping ph = false -> stop_bit cr = false).
Definition bus_reaches (ph : phase) (c : bytes) (b : bus) : Prop :=
  exists n, (n <= I2C_DELAYMAXCOUNT)%nat /\ bus_in n ph c b.

Lemma latch_ok c a i bs : bytes_ok c -> bytes_ok bs -> bytes_ok (latch c a i bs).
Proof.
  revert c i. induction bs as [|b bs IH]; intros c i Hc Hb; cbn [latch]; [done|].
  apply IH; [apply Forall_insert; [done|by apply (Forall_inv Hb)]|by apply (Forall_inv_tail Hb)].
Qed.
Lemma commit_ok l c : bytes_ok c -> bytes_ok l -> bytes_ok (commit l c).
Proof. intros Hc Hl. destruct l as [|a bs]; [done|]. apply latch_ok; [done|by apply (Forall_inv_tail Hl)]. Qed.

(** The control register keeps the bits of its phase only. *)
Lemma kept_bits ph v :
  (starting ph = false -> start_bit (Z.land v (keep ph)) = false) /\
  (stopping ph = false -> stop_bit (Z.land v (keep ph)) = false).
Proof.
  unfold start_bit, stop_bit, keep. rewrite !Z.land_spec, !Z.lor_spec.
  by destruct (starting ph), (stopping ph); split; intros; rewrite ?andb_false_r.
Qed.
Lemma bus_in_intro n ph c v :
  bytes_ok c -> sent_ok ph -> bus_in n ph c (mkBus ph n c (Z.land v (keep ph))).
Proof. intros Hc Hs. destruct (kept_bits ph v). eexists. by repeat split. Qed.
Lemma bus_reaches_intro n ph c v :
  (n <= 2)%nat -> bytes_ok c -> sent_ok ph -> bus_reaches ph c (mkBus ph n c (Z.land v (keep ph))).
Proof. intros Hn Hc Hs. exists n. split; [|by apply bus_in_intro]. unfold I2C_DELAYMAXCOUNT. lia. Qed.
Lemma bus_reaches_same n ph c cr :
  (n <= 2)%nat -> bytes_ok c -> sent_ok ph -> (starting ph = false -> start_bit cr = false) ->
  (stopping ph = false -> stop_bit cr = false) -> bus_reaches ph c (mkBus ph n c cr).
Proof.
  intros Hn Hc Hs H1 H2. exists n. split; [unfold I2C_DELAYMAXCOUNT; lia|]. eexists. by repeat split.
Qed.

Ltac bus_sent := solve [done | by constructor | by apply Forall_app; split; [|by constructor] | lia].
Ltac bus_goes :=
  cbn [sim_port reg_read reg_write bus_read bus_write on_CR1 on_DR lag_of cells_after b_phase b_cells];
  repeat match goal with E : start_bit ?v = _ |- context [start_bit ?v] => rewrite E
                       | E : stop_bit ?v = _ |- context [stop_bit ?v] => rewrite E
                       | E : ack_bit ?v = _ |- context [ack_bit ?v] => rewrite E end;
  cbn match; cbn [lag_of].

Lemma sim_event n ph c p e :
  bus_in n ph c p -> shows ph = Some e ->
  exists f1 p1 f2 p2, bus_read SR1 p = (f1, p1) /\ bus_read SR2 p1 = (f2, p2) /\
    (event_of f1 f2 = e /\ bus_reaches (noted ph) c p2
     \/ event_of f1 f2 ≠ e /\ exists m, (m < n)%nat /\ bus_in m ph c p2).
Proof.
  intros (cr & -> & Hc & Hl & H1 & H2) Hs. cbn [bus_read]. rewrite Hs.
  destruct n as [|m]; do 4 eexists; (split; [done|]); (split; [done|]).
  - left. split; [by destruct ph; (discriminate || injection Hs as <-)|].
    apply bus_reaches_intro; [lia|done|by destruct ph].
  - right. split; [by destruct ph; (discriminate || injection Hs as <-)|].
    exists m. split; [lia|]. exists cr. by repeat split.
Qed.

#[export] Instance sim_eeprom_laws : EepromLaws.
Proof.
  refine {| in_phase := bus_in |}; fold bus_reaches.
  - intros n ph c p (cr & -> & Hc & Hl & H1 & H2). exists cr. eexists. split; [done|].
    split; [|done]. exists cr. by repeat split.
  - apply sim_event.
  - intros n c p (cr & -> & Hc & Hl & H1 & H2). destruct n as [|m]; do 2 eexists; (split; [done|]).
    + left. split; [done|]. by apply (bus_reaches_intro _ Ready); [lia|..].
    + right. split; [done|]. exists m. split; [lia|]. exists cr. by repeat split.
  - intros n ph a c p v (cr & -> & Hc & Hl & H1 & H2) Hw Hs Ht.
    destruct ph as [| | | | | | |l| | | | |]; try discriminate; [|destruct l as [|? [|]]; try discriminate];
      injection Hw as <-; bus_goes; (apply bus_reaches_intro; [lia|bus_sent..]).
  - intros n c p (cr & -> & Hc & Hl & H1 & H2). bus_goes. by apply (bus_reaches_intro _ Called); [lia|..].
  - intros n c p a (cr & -> & Hc & Hl & H1 & H2) Ha. bus_goes. apply (bus_reaches_intro _ (Writing _)); bus_sent.
  - intros n l c p b (cr & -> & Hc & Hl & H1 & H2) Hb. bus_goes. apply (bus_reaches_intro _ (Writing _)); bus_sent.
  - intros n l c p v (cr & -> & Hc & Hl & H1 & H2) Hs Ht. bus_goes.
    apply bus_reaches_intro; [lia|by apply commit_ok|done].
  - intros n c p v (cr & -> & Hc & Hl & H1 & H2) Hs. bus_goes.
    destruct n as [|m]; do 4 eexists; (split; [done|]); bus_goes; (split; [done|]).
    + left. split; [done|]. apply (bus_reaches_intro _ Polled); [lia|bus_sent..].
    + right. split; [by destruct m|]. exists m. split; [lia|]. by apply bus_in_intro.
  - intros n c p (cr & -> & Hc & Hl & H1 & H2). bus_goes. apply bus_reaches_same; auto.
  - intros n c p v (cr & -> & Hc & Hl & H1 & H2) Hs Ht. bus_goes. by apply (bus_reaches_intro _ Free); [lia|..].
  - intros n c p v (cr & -> & Hc & Hl & H1 & H2) Hs Ht. bus_goes. by apply (bus_reaches_intro _ Addressed); [lia|..].
  - intros n a c p (cr & -> & Hc & Hl & H1 & H2). bus_goes. by apply (bus_reaches_intro _ (CalledR a)); [lia|..].
  - intros n a g c p v (cr & -> & Hc & Hl & H1 & H2) Hs Hk Ht. destruct g; bus_goes.
    + by apply bus_in_intro.
    + rewrite Ht by done. by apply bus_in_intro.
    + by apply bus_in_intro.
  - intros n a g c p v (cr & -> & Hc & Hl & H1 & H2) Hg Hs Ht. destruct g; [done|..]; bus_goes; by apply bus_in_intro.
  - intros n a g c p (cr & -> & Hc & Hl & H1 & H2) Ha. bus_goes. destruct (rd_in c a Ha) as [b Hb].
    rewrite Hb. do 2 eexists. split; [done|]. cbn [default from_option id].
    rewrite u8_small by (by eapply rd_ok, Hb). split; [done|].
    destruct g; apply bus_reaches_same; auto.
  - intros n c p v (cr & -> & Hc & Hl & H1 & H2) Hs. bus_goes. by apply (bus_reaches_intro _ Free); [lia|..].
Defined.

(** ** The theorems at concrete inputs *)
Definition cells0 : bytes := replicate 256 0xFF.
Definition eeprom0 : i2c_state := mkI2C (mkBus Free 1 cells0 0) EEPROM_Block_ADDRESS.
Definition data20 : bytes := seqZ 1 20.
Lemma eeprom0_free : at_phase Free cells0 eeprom0.
Proof.
  split; [done|]. apply bus_reaches_same; [lia|apply Forall_replicate; lia|done..].
Qed.
Lemma data20_ok : bytes_ok data20.
Proof. by apply (bool_decide_unpack _). Qed.

(** Twenty bytes at address 10: six in the first page, fourteen in the second. *)
Lemma eeprom_write_witness :
  exists s, I2C_EE_BufferWrite data20 10 20 eeprom0 = Ret (tt, s) /\
    at_phase Free (replicate 10 0xFF ++ data20 ++ replicate 226 0xFF) s.
Proof.
  destruct (eeprom_write data20 10 20 cells0 data20_ok ltac:(lia) ltac:(vm_compute; intuition congruence)
    ltac:(lia) ltac:(reflexivity) ltac:(right; left; vm_compute; congruence) eeprom0 eeprom0_free)
    as ([] & s & E & c' & Hw & Hs).
  exists s. split; [exact E|]. vm_compute in Hw. injection Hw as <-. exact Hs.
Defined.

Lemma eeprom_write_read_witness :
  exists s, (I2C_EE_BufferWrite data20 10 20;;
             I2C_EE_BufferRead (Z.to_nat 20 * S I2C_DELAYMAXCOUNT) (replicate 24 0) 10 20) eeprom0
    = Ret (data20 ++ [0; 0; 0; 0], s).
Proof.
  destruct (eeprom_write_read (Z.to_nat 20 * S I2C_DELAYMAXCOUNT) data20 (replicate 24 0) 10 20 cells0
    data20_ok ltac:(lia) ltac:(vm_compute; intuition congruence) ltac:(lia) ltac:(reflexivity)
    ltac:(right; left; vm_compute; congruence) ltac:(vm_compute; congruence) ltac:(exact (le_n _))
    eeprom0 eeprom0_free) as (r & s & E & Hw & _).
  exists s. vm_compute in Hw. injection Hw as <-. exact E.
Defined.

(** Six bytes at address 13: the last three land on cells 0, 1 and 2. *)
Lemma eeprom_short_write_witness :
  exists s, I2C_EE_BufferWrite (seqZ 1 6) 13 6 eeprom0 = Ret (tt, s) /\
    at_phase Free ([4; 5; 6] ++ replicate 10 0xFF ++ [1; 2; 3] ++ replicate 240 0xFF) s.
Proof.
  destruct (eeprom_short_write (seqZ 1 6) 13 6 cells0 ltac:(by apply (bool_decide_unpack _)) ltac:(lia)
    ltac:(reflexivity) ltac:(reflexivity) ltac:(reflexivity) ltac:(reflexivity) eeprom0 eeprom0_free)
    as ([] & s & E & c1 & c2 & H1 & H2 & Hs).
  exists s. split; [exact E|]. vm_compute in H1. injection H1 as <-. vm_compute in H2. injection H2 as <-. exact Hs.
Defined.

(** A port with nothing behind it. *)
Definition dead_port : I2CPort := {| port := unit; reg_read := fun _ p => (0, p); reg_write := fun _ _ p => p |}.
Lemma eeprom_write_returns_witness :
  exists p, @I2C_EE_BufferWrite dead_port data20 10 20 (@mkI2C dead_port tt 0xA0) = Ret (tt, @mkI2C dead_port p 0xA0).
Proof.
  destruct (@eeprom_write_returns dead_port data20 10 20 ltac:(lia) ltac:(vm_compute; intuition congruence)
    ltac:(lia) tt 0xA0) as ([] & p & E).
  exists p. exact E.
Defined.
Lemma eeprom_read_spins_witness :
  @I2C_EE_BufferRead dead_port I2C_DELAYMAXCOUNT [0] 0 1 (@mkI2C dead_port tt 0xA0) = Starved.
Proof. apply eeprom_read_spins; [intros r p; reflexivity|lia]. Defined.
