(* ===== verification/FpecSim.v ===== *)
(** * A simulated flash controller

    An instance of [FlashPort] with [FpecLaws]: an erase keeps it busy for three
    polls, a programming for one.  On it the theorems of Fpec.v are applied to
    the flash of the simulated board. *)
From stdpp Require Import base tactics list numbers option gmap.
From S2P Require Import Prelude Machine Effects Flash Sim Fpec.

(** [f_keys] is the number of keys received, [f_err] the program error flag. *)
Record chip := mkChip { f_ctrl : ctrl; f_busy : nat; f_keys : bool; f_err : bool }.

Definition chip_read (r : flash_reg) (p : chip) : Z * chip :=
  let 'mkChip c n k e := p in
  match r with
  | SR => match n with
          | S m => (1, mkChip c m k e)
          | O => (if e then 4 else 0, p)
          end
  | CR => (cr c, p)
  | AR => (ar c, p)
  | KEYR => (0, p)
  end.
Definition chip_write (r : flash_reg) (v : Z) (p : chip) : chip :=
  let 'mkChip c n k e := p in
  match r with
  | KEYR =>
      if v =? FLASH_KEY1 then mkChip c n true e
      else if k && (v =? FLASH_KEY2) then mkChip (mkCtrl (cells c) (Z.clearbit (cr c) 7) (ar c)) n false e
      else p
  | CR =>
      if locked c then p
      else if strt_bit v && per_bit v && negb (pg_bit v) && negb (lock_bit v)
      then mkChip (mkCtrl (erased_page (ar c) (cells c)) (Z.clearbit v 6) (ar c)) 3 k e
      else mkChip (mkCtrl (cells c) v (ar c)) n k e
  | AR => if locked c then p else mkChip (mkCtrl (cells c) (cr c) v) n k e
  | SR => p
  end.
Definition chip_store (a w : Z) (p : chip) : chip :=
  let 'mkChip c n k e := p in
  if negb (locked c) && pg_bit (cr c)
  then if cells c a =? 0xFFFF
       then mkChip (mkCtrl (fun b => if b =? a then w else cells c b) (cr c) (ar c)) 1 k e
       else mkChip c n k true
  else p.
#[export] Instance sim_flash_port : FlashPort := {|
  fport := chip; freg_read := chip_read; freg_write := chip_write;
  cell_read a p := cells (f_ctrl p) a; cell_write := chip_store |}.

Ltac chip_goes :=
  cbn [sim_flash_port fport freg_read freg_write cell_read cell_write chip_read chip_write chip_store
    f_ctrl f_busy f_err] in *; subst.
#[export] Instance sim_fpec_laws : FpecLaws.
Proof.
  refine {| in_ctrl n c p := f_ctrl p = c /\ f_busy p = n /\ f_err p = false |}.
  - intros n c [c' n' k e] (Hc0 & Hn0 & He0); chip_goes. destruct n as [|m]; do 2 eexists; (split; [done|]).
    + by left.
    + right. split; [done|]. exists m. split; [cbn; lia|done].
  - intros n c [c' n' k e] (Hc0 & Hn0 & He0); chip_goes. eexists. by split.
  - intros c [c' n' k e] a (Hc0 & Hn0 & He0); by chip_goes.
  - intros c [c' n' k e] v (Hc0 & Hn0 & He0) Hl Hs; chip_goes. rewrite Hl, Hs. done.
  - intros c [c' n' k e] v (Hc0 & Hn0 & He0) Hl Hv; chip_goes. by rewrite Hl.
  - intros c [c' n' k e] v (Hc0 & Hn0 & He0) Hl; chip_goes. by rewrite Hl.
  - by intros c [c' n' k e] (Hc0 & Hn0 & He0); chip_goes.
  - intros c [c' n' k e] v (Hc0 & Hn0 & He0) Hl H1 H2 H3 H4; chip_goes. exists 3%nat. split; [by apply Nat.ltb_lt|].
    by rewrite Hl, H1, H2, H3, H4.
  - intros c [c' n' k e] a w (Hc0 & Hn0 & He0) Hl Hp Hr Hc Hw; chip_goes. exists 1%nat. split; [by apply Nat.ltb_lt|].
    by rewrite Hl, Hp, Hc.
Defined.

(** A controller that holds the erased, locked flash of [board0]. *)
Definition chip0 : fport := mkChip (mkCtrl (fun _ => 0xFFFF) 0x80 0) 0 false false.
Lemma chip0_shadows : shadows board0 chip0.
Proof. exists (mkCtrl (fun _ => 0xFFFF) 0x80 0). by repeat split. Qed.

(** Unlocked through the keys, the cell at 0x08008000 takes a half-word. *)
Definition chip1 : fport := Eval vm_compute in (fpec_Unlock chip0).2.
Lemma flash_driver_refines_witness :
  (fpec_ProgramHalfWord 0x08008000 0x1234 chip1).1 = FLASH_COMPLETE /\
  shadows (flash_program 0x08008000 0x1234 (flash_unlock board0))
          (fpec_ProgramHalfWord 0x08008000 0x1234 chip1).2.
Proof.
  assert (H1 : shadows (flash_unlock board0) chip1).
  { exists (mkCtrl (fun _ => 0xFFFF) 0 0). by repeat split. }
  destruct (flash_driver_refines (flash_unlock board0) chip1 H1) as (_ & _ & _ & Hp & _).
  apply Hp; [reflexivity|reflexivity|reflexivity|lia].
Defined.

(** Programming the same cell again raises the flag; from then on nothing is
    programmed, not even an erased cell. *)
Definition chip2 : fport := (fpec_ProgramHalfWord 0x08008000 0 (fpec_ProgramHalfWord 0x08008000 0x1234 chip1).2).2.
Lemma flash_error_sticks_witness :
  fpec_ProgramHalfWord 0x08008002 7 chip2 = (FLASH_ERROR_PG, chip2) /\
  fpec_ErasePage 0x08008000 chip2 = (FLASH_ERROR_PG, chip2).
Proof.
  destruct (flash_error_sticks chip2 4) as [Hp He]; [reflexivity|reflexivity|reflexivity|].
  split; [apply Hp|apply He].
Defined.
