(* ===== verification/Witnesses.v ===== *)
(** * The theorems at concrete inputs

    Each property with hypotheses, applied to a state of the simulated board
    (Sim.v) on which its hypotheses hold. *)
From stdpp Require Import base tactics list numbers option gmap.
From S2P Require Import Prelude Machine Effects Timers Tick Serial Packet ParamTable Process Flash Device Ds1302 Preserve Radio Request Wait Handlers Pages Channels Wiegand Session Track Saved Output Report Main Invariant Sim.

(** Decides a closed proposition by computation. *)
Ltac computed := lazymatch goal with |- ?P => apply (bool_decide_unpack P); vm_compute; exact I end.
Lemma bytes_ok_b bs : forallb (fun z => (0 <=? z) && (z <? 256)) bs = true -> bytes_ok bs.
Proof.
  rewrite forallb_forall. intros Hf. apply Forall_forall. intros x Hx.
  specialize (Hf x Hx). apply andb_prop in Hf as []. lia.
Qed.
Ltac ranges := apply bytes_ok_b; vm_compute; reflexivity.

Lemma idle_s0 p : host_port p -> rx_idle p s0.
Proof. intros [->| ->]; (split; [apply wf_s0|done]). Qed.

(** ** Receivers and timers *)

(** [ReadParam]'s frame on RS-232, after a stray byte. *)
Lemma frame_delivered_witness :
  exists s', feed (rx_byte port232 (host_complete port232)) [7; 64; 2; 6; 184] s0 = Ret (tt, s') /\
    wf s' /\ get local_set_mark s' = 1 /\ get (Tm local_timer isStart) s' = 0 /\
    rdn (block local_rec s') 0 4 = Some [64; 2; 6; 184] /\
    rdn (block local_rec s') SBUF_len 4 = Some (le32 4) /\
    rdn (block local_rec s') SBUF_index 4 = Some (le32 0).
Proof.
  apply (frame_delivered port232 [7] [6] 184 s0); [by left|apply idle_s0; by left| |ranges|done].
  by repeat constructor.
Defined.

Lemma frame_254_lost_witness :
  exists s', feed (rx_byte port485 (host_complete port485))
      (mk_frame BootCode (replicate 253 1 ++ [9])) s0 = Ret (tt, s') /\
    get local485_set_mark s' = 0 /\ rdn (block local485_rec s') SBUF_index 4 = Some (le32 10).
Proof.
  apply (frame_254_lost port485 (replicate 253 1) 9 s0);
    [by right|apply idle_s0; by right|apply Forall_replicate; lia|done|lia].
Defined.

Lemma timer_expiry_witness :
  exists s1 s2 s3, timerStart UIP_timer 2 s0 = Ret (tt, s1) /\
    repeat_ 2 (tick_timer UIP_timer) s1 = Ret (tt, s2) /\
    timerIsOverflow UIP_timer s2 = Ret (1, s3) /\ timerIsOverflow UIP_timer s3 = Ret (0, s3).
Proof. apply (timer_expiry UIP_timer 2 2 s0). lia. Defined.

Lemma relay_pulse_witness :
  exists s', repeat_ 3 relay_isr_polling (put Relay1Times 3 s0) = Ret (tt, s') /\
    get Relay1Times s' = 0 /\ out s' = [PinLo RELAY].
Proof. apply (relay_pulse 3 3 (put Relay1Times 3 s0)); [done|done|lia|lia]. Defined.

(** ** The parameter table *)

(** The state after [registryParams]. *)
Definition reg_table : list SParamItem := Eval vm_compute in table (after (registryParams s0)).
Definition reg_index : list Z := Eval vm_compute in table_index (after (registryParams s0)).
Definition s_reg : fw := set_index reg_index (set_table reg_table s0).
Lemma s_reg_run :
  table (after (registryParams s0)) = table s_reg /\ table_index (after (registryParams s0)) = table_index s_reg.
Proof. split; vm_compute; reflexivity. Qed.
Lemma wf_s_reg : wf s_reg.
Proof. unfold s_reg. apply wf_set_index; [done|]. apply wf_set_table; [done|]. apply wf_s0. Qed.

Lemma registryParam_map_witness :
  exists s', registryParam 9 (At g_device 87) Flag_ParamItem_RD 2 None s0 = Ret (tt, s') /\ wf s' /\
    forall c, c ≠ 0 -> find s' c =
      if c =? 9 then Some (mkItem (At g_device 87) (u8 Flag_ParamItem_RD) 2 None) else find s0 c.
Proof. apply (registryParam_map 9 (At g_device 87) Flag_ParamItem_RD 2 None s0); [apply wf_s0|done]. Defined.

Definition s_one : fw := set_index (CMD_SetAntenna :: replicate 69 0) s0.
Lemma unRegistryParam_map_witness :
  exists s', unRegistryParam CMD_SetAntenna s_one = Ret (tt, s') /\ wf s' /\
    forall c, c ≠ 0 -> find s' c = if c =? CMD_SetAntenna then None else find s_one c.
Proof.
  apply (unRegistryParam_map CMD_SetAntenna s_one); [by apply wf_set_index, wf_s0|done|].
  intros [|i] [|j] Hi Hj; [done|..];
    repeat match goal with
    | Hx : table_index s_one !! S _ = _ |- _ => apply (lookup_replicate_1 69 0) in Hx as [Hx _]
    end; discriminate.
Defined.

(** A tag command of four bytes on both serial ports. *)
Definition s_tag : fw := at_ local485_rec 0 [64; 6; 0xE6; 0; 1; 2; 3; 0] (at_ local_rec 0 [64; 5; 0xE6; 1; 2; 3; 0] s0).
Lemma s_tag_same : same_command local_rec local485_rec s_tag s_tag.
Proof.
  split; [by exists 5|by exists 0xE6|]. intros i Hi.
  assert (E : forallb (fun i => match rd (block local_rec s_tag) (3 + i), rd (block local485_rec s_tag) (4 + i) with
    | Some p, Some q => (0 <=? p) && (p <? 256) && (p =? q) | _, _ => false end) (seqZ 0 258) = true)
    by (vm_compute; reflexivity).
  assert (Hi' : 0 <= i < 258) by lia. apply (below _ 258 i E) in Hi'. clear E Hi. rename Hi' into Hi.
  destruct (rd (block local_rec s_tag) (3 + i)) as [p|], (rd (block local485_rec s_tag) (4 + i)) as [q|];
    try done. exists p. apply andb_prop in Hi as [[]%andb_prop ?]. split; [lia|]. split; [done|].
  f_equal. lia.
Qed.
Lemma TagDataLenPurse_485_witness :
  exists r, TagDataLenPurse SourceFrom232 local_rec s_tag = Ret (r, s_tag) /\
    TagDataLenPurse SourceFrom485 local485_rec s_tag = Ret (r, s_tag).
Proof. apply TagDataLenPurse_485; [done|apply s_tag_same]. Defined.

Lemma registryParams_startup_witness :
  exists s', registryParams s0 = Ret (tt, s') /\ sc s' = sc s0 /\ mem s' = mem s0 /\
    length (filter (fun c => find s' c ≠ None) (seqZ 1 255)) = 68%nat /\
    Forall (fun '(set, get) => registered_field s' set get = true)
      [(0x03, 0x0B); (0x07, 0x08); (0x11, 0x12); (0x13, 0x14); (0x15, 0x16);
       (0x30, 0x31); (0x32, 0x33); (0x42, 0x43); (0x86, 0x87); (0x8B, 0x8C); (0x09, 0x06)].
Proof. by apply (registryParams_startup s0). Defined.

(** ** Command processing *)

(** [ReadParam] on RS-232 with a bad checksum. *)
Definition s_bad : fw := at_ local_rec 0 [64; 2; 6; 0] s_reg.
Lemma wf_s_bad : wf s_bad.
Proof. apply wf_at; [apply wf_s_reg|ranges]. Qed.
Lemma process_rejects_witness :
  exists m, processParamTable handler SourceFrom232 local_rec 4 s_bad = Ret (CHECKSUMWRONG, set_block local_rec m s_bad) /\
    rdn m 0 (blen (error_frame SourceFrom232 6 0 CHECKSUMWRONG)) = Some (error_frame SourceFrom232 6 0 CHECKSUMWRONG) /\
    wf (set_block local_rec m s_bad).
Proof.
  assert (E : verdict SourceFrom232 4 2 6 0 (scan 6 reg_index 0) 0 [64; 2; 6; 0] = CHECKSUMWRONG)
    by (vm_compute; reflexivity).
  destruct (process_rejects handler SourceFrom232 4 local_rec 2 6 0 (scan 6 reg_index 0) [64; 2; 6; 0] 0 s_bad)
    as (m & Hm); [by split; [apply wf_s_bad|..]|done|by rewrite E|].
  rewrite E in Hm. exists m. exact Hm.
Defined.

(** A [GetReaderNetwork] command while the reader works on its own. *)
Definition s_act : fw :=
  at_ local_rec 0 (host_frame SourceFrom232 0x31 0 []) (at_ g_device wp_ReaderWorkStatus [WORK_ACT] s_reg).
Lemma process_active_mode_witness :
  exists m, processParamTable handler SourceFrom232 local_rec 4 s_act = Ret (INVALIDMASTERCMD, set_block local_rec m s_act) /\
    rdn m 0 (blen (error_frame SourceFrom232 0x31 141 INVALIDMASTERCMD)) =
      Some (error_frame SourceFrom232 0x31 141 INVALIDMASTERCMD) /\
    wf (set_block local_rec m s_act).
Proof.
  apply (process_active_mode handler SourceFrom232 4 local_rec 2 0x31 141 (scan 0x31 reg_index 0)
    (host_frame SourceFrom232 0x31 0 []) 0 s_act); [|vm_compute; reflexivity..].
  split; [|done|done|vm_compute; reflexivity..]. apply wf_at; [apply wf_at; [apply wf_s_reg|ranges]|ranges].
Defined.

(** The identity is set over RS-485 and read back over RS-232. *)
Definition id10 : bytes := [49; 50; 51; 52; 53; 54; 55; 56; 57; 57].
Definition fr_set : bytes := host_frame SourceFrom485 0x8B 0 id10.
Definition fr_get : bytes := host_frame SourceFrom232 0x8C 0 [].
Definition s_set : fw := at_ local485_rec 0 fr_set (at_ g_device wp_ReaderWorkStatus [1] s_reg).
Lemma loaded_s_set : loaded local485_rec fr_set s_set.
Proof.
  split; [|done|done|vm_compute; reflexivity]. apply wf_at; [apply wf_at; [apply wf_s_reg|ranges]|ranges].
Qed.
Lemma set_get_roundtrip_witness :
  exists s1,
    processParamTable handler SourceFrom485 local485_rec (blen fr_set) s_set = Ret (CMDOORCHECKOK, s1) /\
    rdn (block local485_rec s1) 0 (blen (ok_frame SourceFrom485 0x8B 0 [])) = Some (ok_frame SourceFrom485 0x8B 0 []) /\
    (get setFlag s1 = 1 \/ rdn (block g_device s_set) off_ReaderID 10 = Some id10) /\
    forall s2, loaded local_rec fr_get s2 ->
      block g_device s2 = block g_device s1 -> table s2 = table s1 ->
      table_index s2 = table_index s_set ->
      exists m,
        processParamTable handler SourceFrom232 local_rec (blen fr_get) s2 = Ret (CMDOORCHECKOK, set_block local_rec m s2) /\
        rdn m 0 (blen (ok_frame SourceFrom232 0x8C 0 id10)) = Some (ok_frame SourceFrom232 0x8C 0 id10).
Proof.
  apply (set_get_roundtrip handler SourceFrom485 SourceFrom232 local485_rec local_rec 0x8B 0x8C 10
    off_ReaderID WR RD None None id10 0 s_set); try done;
    [apply loaded_s_set|split; [vm_compute; reflexivity|exists 1; split; [vm_compute; reflexivity|done]]|computed|computed|by left].

Defined.

(** A filter of 63 bytes, and one of 200. *)
Definition s_filter (n : Z) : fw := at_ local_rec 0 (64 :: n + 2 :: 0x15 :: replicate (Z.to_nat n) 7) s_reg.
Lemma tagfilter_overrun_witness :
  (exists s', write_TagFilter SourceFrom232 local_rec 65 20 (s_filter 63) = Ret (CMDOORCHECKOK, s') /\
     rd (block g_device s') wp_Address = rd (block local_rec (s_filter 63)) 65) /\
  write_TagFilter SourceFrom232 local_rec 202 20 (s_filter 200) = Oob.
Proof.
  assert (Hwf : forall n, 0 <= n < 250 -> wf (s_filter n)).
  { intros n Hn. apply wf_at; [apply wf_s_reg|]. repeat (constructor; [lia|]). apply Forall_replicate. lia. }
  split.
  - apply (tagfilter_overrun SourceFrom232 local_rec 65 20 WR 35 (Some fn_SetTagFilter) (s_filter 63));
      [apply Hwf; lia|done|done|done|done|done|done].
  - apply (tagfilter_overrun SourceFrom232 local_rec 202 20 WR 35 (Some fn_SetTagFilter) (s_filter 200));
      [apply Hwf; lia|done|done|done|done|done|done].
Defined.

(** ** Storage and clock *)

Lemma flash_write_read_witness :
  exists h, STMFLASH_Write PARA_STORAGE_ADDR [1; 2; 3] 3 s0 = Ret (tt, set_board h s0) /\
    STMFLASH_Read PARA_STORAGE_ADDR 3 (set_board h s0) = Ret ([1; 2; 3], set_board h s0) /\
    same_outside PARA_STORAGE_ADDR (PARA_STORAGE_ADDR + 6) (board s0) h /\
    flash_locked h = true.
Proof.
  apply (flash_write_read PARA_STORAGE_ADDR [1; 2; 3] s0); [by split|done|done|].
  by repeat (constructor; [lia|]).
Defined.

Lemma flash_write_total_witness :
  exists h, STMFLASH_Write 0x0807FFFE (repeat 7 3000) 3000 s0 = Ret (tt, set_board h s0).
Proof. apply (flash_write_total 0x0807FFFE (repeat 7 3000) s0). rewrite repeat_length. lia. Defined.

(** Three half-words at the end of the first sector, of which two fit. *)
Lemma flash_cross_sector_lost_witness :
  exists h, STMFLASH_Write (STM32_FLASH_BASE + 2044) [1; 2; 3] 3 s0 = Ret (tt, set_board h s0) /\
    flash_read h (STM32_FLASH_BASE + 2044 + 4) = 0xFFFF.
Proof.
  apply (flash_cross_sector_lost (STM32_FLASH_BASE + 2044) [1; 2; 3] 2 s0); try done.
  by repeat (constructor; [lia|]).
Defined.

Lemma parameters_persist_witness :
  exists s1, SaveData s_set = Ret (tt, s1) /\
    (board s0 = board s1 ->
     exists s3, ReadPara s0 = Ret (tt, s3) /\ get SelfCheckFailure s3 = get SelfCheckFailure s0 /\
       forall o, 0 <= o < sizeof_SDevice -> rd (block g_device s3) o =
         if o =? 6 then Some 7 else if o =? 7 then Some 3
         else if o <? 4 then rd (le32 WORK_FLAG) o else rd (block g_device s_set) o).
Proof. apply (parameters_persist s_set s0); [apply loaded_s_set|apply wf_s0]. Defined.

Lemma factory_reset_witness :
  exists s', ReadReaderPara s_set = Ret (tt, s') /\ get sysReboot s' = 2 /\
    stored_dev (block g_device s') s' /\
    rdn (block g_device s') off_ReaderID 10 = rdn (block g_device s_set) off_ReaderID 10 /\
    rdn (block g_device s') wp_ReaderMAC1 6 = rdn (block g_device s_set) wp_ReaderMAC1 6 /\
    rdn (block g_device s') off_workpara 26 = rdn (block g_device s_set) off_Factoryworkpara 26 /\
    rdn (block g_device s') off_AutoParam 32 = rdn (block g_device s_set) off_FactoryAutoParam 32.
Proof. apply (factory_reset s_set). apply loaded_s_set. Defined.

Lemma clock_roundtrip_witness :
  exists s1, setTime [25; 12; 31; 23; 59; 58] s0 = Ret (tt, s1) /\
    (exists l, getTime s1 = Ret ([25; 12; 31; 23; 59; 58], set_out l s1)) /\
    Z.testbit (rtc_reg (board s1) 0x8E) 7 = true /\ rtc_reg (board s1) 0x8A = 1.
Proof.
  apply (clock_roundtrip [25; 12; 31; 23; 59; 58] s0).
  exists 25, 12, 31, 23, 59, 58. split; [done|lia].
Defined.

(** ** The radio module *)

(** A tag of two bytes, a mask of its first eight bits. *)
Definition s_mask : fw :=
  at_ CardIndex 1 [0xAB; 0xCD] (at_ CMDMaskData 0 [0xAB] (put CMDMasklen 8 s0)).
Lemma MaskCheck_spec_witness :
  exists r, MaskCheck (At CardIndex 1) 2 s_mask = Ret (r, s_mask) /\ (r = 0 \/ r = 1) /\
    (r = 1 <-> get CMDMasklen s_mask = 0 \/ get CMDMaskaddr s_mask < 16 /\
       forall k, 0 <= k < get CMDMasklen s_mask -> get CMDMaskaddr s_mask + k < 16 ->
         nbit [0xAB; 0xCD] (get CMDMaskaddr s_mask + k) = nbit (block CMDMaskData s_mask) k).
Proof.
  apply (MaskCheck_spec CardIndex 1 [0xAB; 0xCD] s_mask); [|vm_compute; reflexivity|done|done|done].
  apply wf_at; [apply wf_at; [apply wf_put, wf_s0|ranges]|ranges].
Defined.

Definition s_mask6 : fw :=
  put MASKAddr6B 2 (put MASK6B 0xC0 (put MASKSEL 1
    (at_ CardIndex 0 [1; 2; 3; 4; 5; 6; 7; 8] (at_ MASKData6B 0 [3; 9; 0; 0; 0; 0; 0; 0] s0)))).
Lemma Mask6BCheck_spec_witness :
  Mask6BCheck (At CardIndex 0) s_mask6 =
  Ret (if selected 1 (sel_pairs [1; 2; 3; 4; 5; 6; 7; 8] (block MASKData6B s_mask6) 2 0xC0 6 0)
       then 1 else 0, s_mask6).
Proof.
  apply (Mask6BCheck_spec CardIndex 0 [1; 2; 3; 4; 5; 6; 7; 8] s_mask6);
    [|vm_compute; reflexivity|done..].
  by repeat apply wf_put; (apply wf_at; [apply wf_at; [apply wf_s0|ranges]|ranges]).
Defined.

(** The answer to 0x8A: a tag of six words. *)
Definition report8A : bytes :=
  [0xA0; 19; 0xFF; 0x8A; 1; 0x30; 0x00; 0xE2; 0; 1; 2; 3; 4; 5; 6; 7; 8; 9; 10; 77; 0].
Definition s_rep : fw := at_ R2000_rec 0 report8A s0.
Lemma wf_s_rep : wf s_rep.
Proof. apply wf_at; [apply wf_s0|ranges]. Qed.
Lemma tag_report_s_rep p : tag_report 19 6 (put CardPos p s_rep).
Proof. by split_and!. Qed.

Lemma decode_safe_witness :
  match decodeR2000 s_rep with Ret (_, s') => rows_ok s' | Oob => False | _ => True end.
Proof.
  apply (decode_safe 0 s_rep); [done| |].
  - split; [apply wf_s_rep|]. by split_and!.
  - vm_compute. discriminate.
Defined.


(** From row 498: the third report is one too many. *)
Lemma tag_frame_report8A : tag_frame (block R2000_rec s_rep).
Proof.
  split; [apply (wf_size _ wf_s_rep)|]. split; [apply (wf_bytes _ wf_s_rep)|]. exists 19, 6. intros s.
  split; [by rewrite block_set_block_eq|]. split; [by rewrite block_set_block_eq|]. by split_and!.
Qed.
Lemma tag_table_overflow_witness :
  let r := block R2000_rec s_rep in
  (exists s', reports [r; r] (put CardPos 498 s0) = Ret (tt, s') /\ get CardPos s' = 500) /\
  reports [r; r; r] (put CardPos 498 s0) = Oob.
Proof.
  intros r. assert (Hs : row_inv 498 (put CardPos 498 s0)) by (split; [apply wf_put, wf_s0|by split_and!]).
  assert (Hr := tag_frame_report8A). split.
  - by apply (tag_table_overflow [r; r] 498 _ Hs); [|repeat apply Forall_cons_2].
  - by apply (tag_table_overflow [r; r; r] 498 _ Hs); [|repeat apply Forall_cons_2].
Defined.

(** The events of an exchange: each answer of the module, then a look at it. *)
Definition answers (frs : list bytes) : list ev := a ← frs; (EByte <$> a) ++ [EPoll].
Definition ok_answer (c : Z) : bytes := [0xA0; 4; 0xFF; c; 0x10; 0].

Definition s_72 : fw := after (encode_frame 0x72 NULL s0).
Lemma s_72_run : encode_frame 0x72 NULL s0 = Ret (true, s_72).
Proof. runs. Qed.
Lemma request_frame_witness :
  exists fr s1, encodeR2000 0x72 NULL s0 = encode_wait 0x72 s1 /\
    out s1 = rev (Tx4 <$> fr) ++ [] /\ blen fr = 3 + 2 /\ frame_valid fr /\
    rdn fr 0 4 = Some [0xA0; 3; 0xFF; 0x72].
Proof.
  apply (request_frame 0x72 NULL s0 s_72 3); [apply wf_s0|apply s_72_run|vm_compute; reflexivity|lia].
Defined.

(** Two thousand interrupts and no answer. *)
Definition quiet_events : list ev := replicate 2000 ETick.
Definition s_quiet : fw := s_ev (quiet_events ++ [EPoll]).
Lemma silent_module_witness :
  exists v s', encodeR2000 0x72 NULL s_quiet = Ret (v, s') /\
    (v = 0xFF \/ v = 0 /\ 0x72 ∈ [0x91; 0xB0; 0x8A]).
Proof.
  apply (silent_module 0x72 NULL s_quiet (after (encode_frame 0x72 NULL s_quiet)) 3 quiet_events).
  - apply wf_fw0.
  - runs.
  - vm_compute. reflexivity.
  - lia.
  - done.
  - vm_compute. split; discriminate.
  - done.
  - apply Forall_replicate. by left.
  - vm_compute. discriminate.
Defined.

(** ** Tag commands *)

(** An EPC is read with its data: the module answers 0x86 (no tag selected),
    then 0x81. *)
Definition ans86 : bytes := [0xA0; 4; 0xFF; 0x86; 1; 0].
Definition ans81 : bytes := [0xA0; 16; 0xFF; 0x81; 1; 0; 8; 0x30; 0; 1; 2; 3; 4; 2; 9; 9; 0; 0].
Definition s_read : fw := at_ local_rec 0 [64; 5; 0xE0; 1; 0; 2; 0] (s_ev (answers [ans86; ans81])).
Definition s_read' : fw := after (ReadEPCAndData local_rec s_read).
Lemma ReadEPCAndData_no_data_witness : get cmdTmpLen s_read' = 0 \/ get cmdTmpLen s_read' = BUF_LEN.
Proof.
  apply (ReadEPCAndData_no_data local_rec s_read). runs.
Defined.
Example s_read_has_data : rdn (block local_rec s_read') 3 2 = Some [3; 4].
Proof. vm_compute. reflexivity. Qed.

(** A tag is killed: matched, a pause of 20 interrupts, then the command. *)
Definition ans84 : bytes := [0xA0; 8; 0xFF; 0x84; 0; 1; 0; 0x10; 0; 0].
Definition s_kill : fw :=
  at_ local_rec 0 [64; 9; 0xE8; 1; 0xE2; 0; 1; 2; 3; 4; 0]
    (s_ev (answers [ok_answer 0x85] ++ replicate 20 ETick ++ [EPoll] ++ answers [ans84])).
Definition s_kill' : fw := after (handler fn_DestroyTag local_rec s_kill).
Lemma tag_writes_honest_witness : tag_answer (block R2000_rec s_kill').
Proof.
  apply (tag_writes_honest fn_DestroyTag local_rec s_kill s_kill');
    [by right; right; left|runs|vm_compute; reflexivity].
Defined.

(** Ten tags of two words, all with the same EPC; the first page is 8 of them. *)
Definition row2 : bytes := [2; 0xE2; 0; 1; 2] ++ replicate 32 0 ++ [1; 60].
Definition s_rows : fw :=
  put Tag_all_number 10 (at_ CardIndex 0 (mjoin (replicate 10 row2)) s0).
Definition page10 : bytes := Eval vm_compute in
  default [] (fst <$> page true (block CardIndex s_rows) 0 8 0 (get bakrssi s_rows)).
Lemma tag_page_witness :
  exists s', EPC1G2_GetRSSIIDList local_rec s_rows = Ret (tt, s') /\
    rdn (block local_rec s') (off_para (get TagDataOrigin s_rows)) (1 + blen page10) = Some ((10 - 0) :: page10) /\
    get cmdTmpLen s' = 1 + blen page10 /\ get Tag_send_count s' = 0 + Z.min 8 (10 - 0).
Proof.
  assert (Hp : exists bak', page true (block CardIndex s_rows) 0 8 0 (get bakrssi s_rows) = Some (page10, bak'))
    by (eexists; vm_compute; reflexivity).
  destruct Hp as [bak' Hp].
  refine (tag_page true local_rec s_rows 0 10 page10 bak' _ _ _ _ _ _ _ Hp _);
    [|reflexivity|discriminate|reflexivity|reflexivity|lia|lia|reflexivity].
  apply wf_put, wf_at; [apply wf_s0|ranges].
Defined.

(** ** Wiegand *)
Definition s_card : fw := at_ out_buf 0 [0x12; 0x34; 0x56; 0x78] s0.
Lemma s_card_number : card_number out_buf 0 0x12 0x34 0x56 0x78 s_card.
Proof. split_and!; [apply wf_at; [apply wf_s0|ranges]|done..]. Qed.
Lemma wiegand26_frame_witness :
  let data := byte_bits 0x12 ++ byte_bits 0x34 ++ byte_bits 0x56 in
  exists l, packetDataWG26_ wires_a (At out_buf 0) s_card = Ret (tt, set_out (l ++ out s_card) s_card) /\
    wire_bits wires_a l = wiegand_frame data /\
    parity (take 13 (wire_bits wires_a l)) = false /\ parity (drop 13 (wire_bits wires_a l)) = true.
Proof.
  apply (wiegand26_frame wires_a out_buf 0 0x12 0x34 0x56 0x78 s_card); [by left|apply s_card_number].
Defined.
Lemma wiegand34_frame_witness :
  let data := byte_bits 0x12 ++ byte_bits 0x34 ++ byte_bits 0x56 ++ byte_bits 0x78 in
  exists l, packetDataWG34_ wires_b (At out_buf 0) s_card = Ret (tt, set_out (l ++ out s_card) s_card) /\
    wire_bits wires_b l = wiegand_frame data /\
    parity (take 17 (wire_bits wires_b l)) = false /\ parity (drop 17 (wire_bits wires_b l)) = true.
Proof.
  apply (wiegand34_frame wires_b out_buf 0 0x12 0x34 0x56 0x78 s_card); [by right|apply s_card_number].
Defined.

(** ** The whole program *)

(** The program started on an erased flash; the module answers its two first
    requests. *)
Definition boot : list ev := answers [ok_answer 0x78; ok_answer 0x76].
Definition s_boot : fw := after (main_init true (fw0 boot board0)).
Lemma s_boot_reachable : reachable (fun _ _ => true) board0 s_boot.
Proof. apply (reach_init _ _ boot true). runs. Qed.
Lemma reachable_bounds_witness :
  wf s_boot /\ 0 <= get CardPos s_boot <= MAXNUM /\ 0 <= get TagSaveCount s_boot <= SAVEMAXNUM.
Proof. apply (reachable_bounds (fun _ _ => true) board0), s_boot_reachable. Defined.
Lemma reachable_typed_witness : in_type U8 (get ReadCardTimeInterver s_boot).
Proof. apply (reachable_typed (fun _ _ => true) board0 s_boot ReadCardTimeInterver), s_boot_reachable. Defined.

(** ** Statements whose hypotheses are inside *)
Lemma bcd_roundtrip_witness : BCD2HEX (HEX2BCD 59) = 59 /\ HEX2BCD (BCD2HEX 0x23) = 0x23.
Proof. split; [apply bcd_roundtrip; lia|apply bcd_roundtrip; [lia|done]]. Defined.
Lemma rssichk_spec_witness : dbm (level (get bakrssi s0) 60) <= dbm (level (get bakrssi s0) 40).
Proof. apply (rssichk_spec 40 s0). lia. Defined.

(** ** A refused command, antennas and tags kept *)

(** [ReadParam]'s frame with a bad checksum, after a stray byte. *)
Lemma bad_command_answered_witness :
  exists s', (feed USART2_IRQHandler [7; 64; 2; 6; 0];; Local_232_module) s_reg = Ret (tt, s') /\
    out s' = rev (Tx2 <$> error_frame SourceFrom232 6 0 CHECKSUMWRONG) /\
    block g_device s' = block g_device s_reg /\ rx_idle port232 s'.
Proof.
  assert (E : verdict SourceFrom232 4 2 6 0 (scan 6 reg_index 0) 0 [64; 2; 6; 0] = CHECKSUMWRONG)
    by (vm_compute; reflexivity).
  destruct (bad_command_answered [7] 6 [] 0 0 s_reg) as (s' & Hs);
    [split; [apply wf_s_reg|done]|by apply Forall_singleton|ranges|done|done
    |change (verdict SourceFrom232 4 2 6 0 (scan 6 reg_index 0) 0 [64; 2; 6; 0] ≠ CMDOORCHECKOK); by rewrite E|].
  cbv zeta in Hs. change (table_index s_reg) with reg_index in Hs.
  change (mk_frame BootCode (6 :: [] ++ [0])) with [64; 2; 6; 0] in Hs.
  change (blen [64; 2; 6; 0]) with 4 in Hs. change (blen (6 :: [] ++ [0])) with 2 in Hs.
  change (out s_reg) with (@nil io) in Hs. rewrite E, app_nil_r in Hs. exists s'. exact Hs.
Defined.

(** Antennas 2 and 4 of the four waiting. *)
Lemma next_antenna_lowest_witness :
  exists c, 0 <= c < 8 /\ Z.testbit 10 c = true /\
    next_antenna 8 1 (put switchAtenna 10 s0) =
    read_antenna (2 ^ c) (turned_to (2 ^ c) (put switchAtenna 10 s0)).
Proof.
  destruct (next_antenna_lowest (put switchAtenna 10 s0)) as [_ Hn]; [done|].
  destruct Hn as (c & Hc & Hb & _ & E & _); [done|].
  exists c. split; [exact Hc|]. split; [exact Hb|exact E].
Defined.

(** One tag just read, none kept, room for two. *)
Definition s_judge : fw :=
  put CardPos 1 (at_ CardIndex 0 row2 (at_ g_device ap_TagHoldNumH [0; 2]
    (at_ g_device ap_CallPCType [2] s0))).
Lemma wf_s_judge : wf s_judge.
Proof. apply wf_put. repeat (apply wf_at; [|ranges]). apply wf_s0. Qed.
Lemma judgeTag_saves_witness :
  exists r s', judgeTag s_judge = Ret (r, s') /\ 0 <= get TagSaveCount s' <= 2 /\
    has (block TagSaveBuf s') (get TagSaveCount s') [2; 0xE2; 0; 1; 2].
Proof.
  destruct (judgeTag_saves 0 2 2 s_judge) as (r & s' & E & _ & Hn & Hin & _);
    [apply wf_s_judge|vm_compute; reflexivity..|done|done|done|vm_compute; done|].
  exists r, s'. split; [exact E|]. split; [exact Hn|].
  apply (Hin 0); [by split; vm_compute|vm_compute; reflexivity].
Defined.

(** Five hundred tags kept. *)
Definition s_full : fw :=
  put TagSaveCount SAVEMAXNUM
    (at_ TagSaveBuf 0 (replicate (Z.to_nat (SAVEMAXNUM * ROW)) 1) s0).
Lemma row_s_full i : 0 <= i < SAVEMAXNUM -> rd (block TagSaveBuf s_full) (i * ROW) = Some 1.
Proof.
  intros Hi. unfold s_full, at_. rewrite block_put, block_set_block_eq.
  rewrite wrn_in; [|done|].
  2: { rewrite blen_replicate by done. by rewrite (wf_size s0 wf_s0). }
  cbn [default]. rewrite take_0, app_nil_l. rewrite drop_ge.
  2: { pose proof (wf_size s0 wf_s0 TagSaveBuf) as Hs. unfold blen in *. rewrite length_replicate. 
       cbn [bsize] in Hs. unfold SAVEMAXNUM, ROW in *. lia. }
  rewrite app_nil_r. unfold rd. destruct (Z.leb_spec 0 (i * ROW)); [|unfold ROW in *; lia].
  apply lookup_replicate_2. unfold SAVEMAXNUM, ROW in *. lia.
Qed.
Lemma kept_tags_overflow_witness : add_tag 0 SAVEMAXNUM SAVEMAXNUM s_full = Oob.
Proof.
  apply (kept_tags_overflow 0 s_full).
  - apply wf_put, wf_at; [apply wf_s0|]. apply Forall_replicate. lia.
  - done.
  - done.
  - intros i Hi. exists 1. split; [|done]. apply row_s_full. done.
Defined.

(** The tag of [row2] in the first row. *)
Definition s_line : fw := at_ TagSaveBuf 0 row2 s0.
Lemma line_485_frame_witness :
  exists s' addr ant, line_485 0 4 s_line = Ret (tt, s') /\
    rdn (block out_buf s') 0 15 =
      Some (line_body addr ant [0xE2; 0; 1; 2] ++ [checksum (line_body addr ant [0xE2; 0; 1; 2])]).
Proof.
  destruct (line_485_frame 0 4 s_line) as (s' & addr & ant & epc & E & _ & _ & _ & He & [Hr _] & _);
    [apply wf_at; [apply wf_s0|ranges]|done|lia|].
  exists s', addr, ant. split; [exact E|].
  assert (epc = [0xE2; 0; 1; 2]) as <-; [|exact Hr].
  assert (E' : rdn (block TagSaveBuf s_line) (0 * ROW + 1) 4 = Some [0xE2; 0; 1; 2])
    by (vm_compute; reflexivity).
  congruence.
Defined.

(** The identity is set over RS-232 and found at the next start, on whatever
    memory. *)
Definition s_obey : fw := at_ g_device wp_ReaderWorkStatus [1] s_reg.
Definition fr_id : bytes := host_frame SourceFrom232 0x8B 0 id10.
Lemma wf_s_obey : wf s_obey.
Proof. apply wf_at; [apply wf_s_reg|ranges]. Qed.
Lemma set_survives_restart_witness :
  exists s1, (feed USART2_IRQHandler ([7] ++ fr_id);; Local_232_module;; save_changes) s_obey = Ret (tt, s1) /\
    out s1 = rev (Tx2 <$> ok_frame SourceFrom232 0x8B 0 []) ++ [] /\
    forall s2, wf s2 -> board s2 = board s1 ->
      exists s3, ReadPara s2 = Ret (tt, s3) /\ rdn (block g_device s3) off_ReaderID 10 = Some id10.
Proof.
  apply (set_survives_restart [7] 0x8B 10 off_ReaderID WR None id10 0 s_obey);
    [split; [apply wf_s_obey|done]|by apply Forall_singleton|done|ranges|done|done| |done|done|done
    |computed|done|done|done|done|vm_compute; done].
  split; [vm_compute; reflexivity|]. exists 1. split; [vm_compute; reflexivity|done].
Defined.
